(* ===== verification/_CoqProject ===== *)
-Q . S2P
Prelude.v
Bytes.v
Cstdio.v
Frames.v
Netif.v
NetConsole.v
NetProps.v
NetPing.v
NetShell.v
NetShellProps.v
NetTap.v
NetTapProps.v
Kernel.v
Timer.v
Scheduler.v
KernelInv.v
Machine.v
SchedProps.v
TaskProps.v
TimerProps.v
Queue.v
Mutex.v
Memory.v
Mpool.v
Malloc.v
MallocInv.v
MallocProps.v
Tfs.v
TfsInv.v
TfsFile.v
TfsWrite.v
TfsAppend.v
TfsDisk.v
TfsSpec.v
TfsOps.v
TfsOpen.v
TfsProps.v
Stdio.v
Diskio.v
Hostdisk.v
FatDiskio.v
HostdiskProps.v
Ff.v
FfWindow.v
FfFat.v
FfChain.v
FfStay.v
FfHost.v
FfProps.v
FfDir.v
FfMount.v
FfFile.v
FfData.v
FfPos.v
FfRead.v
FfWrite.v
FfGrow.v
FfSeek.v
FfFileProps.v
FfMountProps.v
FfApi.v
FfFree.v
FfTable.v
FfDirProps.v
FfNames.v
FfShort.v
FfPath.v
FfOpen.v
FfSync.v
FfCreate.v
FfUnlink.v
FfList.v
Ramdisk.v
RamdiskProps.v
FatShell.v
FatShellProps.v
FatShellFat.v
Bsp.v
Console.v
ConsoleProps.v
