(* ===== verification/Prelude.v ===== *)
(** * mipOS verified in Rocq

    mipOS is a small cooperative operating system: a kernel that schedules
    tasks which give the processor back by themselves, services on top of it,
    and file systems, a console and network examples that use them.  This
    library translates the C sources into Rocq functions and proves what makes
    them correct.

    ** The program and its parts

    The kernel (src/mipos/mipos_kernel.c, mipos_task.c, mipos_timer.c) owns
    the task table, the timer table and the clock.  [mipos_start] boots and
    then turns around one loop: serve the software timers, search the next
    task, treat its state, switch to it; the task runs until it blocks in a
    macro of mipos_kernel.h, and the clock interrupt counts ticks meanwhile.
    Queues, mutexes, pools and the heap are used by tasks.  Two file systems
    stand on disk drivers: the tiny file system (mipos_tfs.c, with
    mipos_stdio.c on top) and FatFs (src/fatfs/ff.c), which reaches the table
    of drivers (mipos_diskio.c) through src/fatfs/diskio.c; on the QEMU board
    the driver is a file of the host behind semihosting calls, in the FatFs
    example of the simulator an image in memory, with a small shell of
    commands on top.  The console (mipos_console.c) is two tasks on a serial
    line, which the board support (src/mipos/arch) drives together with the
    clock.  The network examples put
    lwIP on links of their own through mipos_lwip_netif.c.

    ** Conventions

    C functions are Rocq functions on explicit state, executable throughout.
    Machine integers are [Z] with their wrap-around written out ([wrap],
    [swrap]); a pointer is an index, an offset or an address according to what
    it points into.  What C leaves undefined, and the panic loop, are values
    of [fault]: an access outside an object, a null pointer, a lock that will
    never be released.  Functions that may fault return [res]; larger parts
    have a monad of their own (the tiny file system [tfsM], FatFs [ff]).
    Theorems that a function returns are therefore proved as such: the result
    is [Ok], not only right if it is [Ok].

    ** Files

    - Prelude: machine integers, faults, the tactics [bool_to_prop],
      [case_if], [inv_ok], [no_wrap], the hint database [mipos], ring buffers.
      Bytes, Cstdio: strings, byte arrays and number formatting of
      the C library, as far as the sources use them.  Memory: byte-addressed
      memory with little-endian words.
    - Kernel (mipos_types.h, mipos_limits.h, mipos_kernel.h, mipos_task.c),
      Timer (mipos_timer.c), Scheduler ([mipos_start]): the records, services
      and scheduler turn.  KernelInv: the invariant [kernel_wf] of the
      environment, preserved by every service and turn.  Machine: kernel,
      tasks and interrupts as one transition system.  SchedProps, TaskProps,
      TimerProps: the theorems.
    - Queue (mipos_queue.c), Mutex (mipos_mutex.h), Mpool (mipos_mpool.c),
      Malloc with MallocInv and MallocProps (mipos_malloc.c).
    - Tfs (mipos_tfs.c and the RAM disk of the file-system example) with
      TfsInv, TfsFile, TfsWrite, TfsAppend, TfsDisk, TfsSpec, TfsOps,
      TfsOpen, TfsProps; Stdio (mipos_stdio.c).
    - Diskio (mipos_diskio.c), Hostdisk (the semihosting calls and the host
      disk of src/mipos/arch/qemu-arm), FatDiskio (src/fatfs/diskio.c and
      ffsystem.c), HostdiskProps.
    - FatFs (src/fatfs/ff.c as ffconf.h configures it): Ff (window, FAT,
      chains), FfDir (directories, names, paths), FfMount, FfFile (open files),
      FfApi (the functions on paths).  On these: FfWindow (class [Disk], what
      FatFs relies on of a disk; the window shows the volume), FfFat (the FAT
      as an array), FfChain (chains as lists), FfStay (where the window may
      go), FfHost (the host disk is a [Disk]), FfData, FfPos, FfRead, FfWrite,
      FfGrow, FfSeek (open files), FfTable (directory tables as sequences of
      entries), FfDirProps (registering and removing one), FfPath (where a path
      leads), and the theorems in FfProps, FfFileProps, FfMountProps, FfFree,
      FfNames, FfShort, FfOpen, FfSync, FfCreate, FfUnlink and FfList (reading
      a directory).
    - The FatFs example (src/examples/simu/fatfs/main.c): Ramdisk (the driver
      and the search for the image), RamdiskProps (it is a [Disk]; the boot),
      FatShell (the commands ls, cat, cd, pwd over the class [FsOps], with
      FatFs as its instance), FatShellProps (the current directory, bounds),
      FatShellFat (what cat and ls print of a FAT volume).
    - Bsp: the serial line and the clock of the QEMU boards
      (mipos_bsp_qemu_arm.c, mipos_bsp_qemu_vexpress_a9.c) and the keyboard of
      the simulator (mipos_bsp_simu.c), one Module each: Uart, SysTick, Simu.
    - Frames, NetConsole (src/examples/qemu-arm/net-console/main.c), Netif
      (mipos_lwip_netif.c), NetProps, NetPing; NetShell and NetShellProps
      (the line editor of src/examples/simu/net_tap/main.c), NetTap and
      NetTapProps (its options, packet log, commands and main loop).
    - Console and ConsoleProps (mipos_console.c).

    Interfaces between the parts are classes: [BoundedFifo] (what a queue
    promises), [IoDev] (the device of the tiny file system), [mipos_disk_t] (the
    functions of a driver), [Semihost] (the host behind the trap), [DiskOps]
    and [Disk] (a disk for FatFs; FfHost and RamdiskProps discharge it),
    [FsOps] and [FsTotal] (a file system for the shell), [Bus] and [Pl011] (the
    registers of a board and the UART behind them), [LwipOps], [StackOps] and
    [Stack] (lwIP), [TapDev] (the TAP device).
    Code outside the repository -- lwIP, the host, [malloc] of the C library,
    the callbacks of an application -- is a parameter of the definitions that
    use it.

    ** What the theorems show

    - Kernel: from boot, under any interleaving of turns, services, blocking
      calls, returns and interrupts, nothing faults and the panic loop is not
      reached, if user code keeps what the kernel does not test ([code_ok]:
      above all, a real-time task asks only for a task that has suspended
      itself); without real-time tasks the search is round robin and no
      eligible task waits longer than one sweep; timed suspensions end exactly
      when they should; a pass serves a due timer unless a callback of the
      same pass changes it.
    - Queue: refines a bounded FIFO; a blocked receiver gets the next item,
      unless another task takes it first.
      Mutex: mutual exclusion among tasks that unlock only what they hold, and
      a lock returns at the first test that finds it free.
    - Pool and heap: blocks handed out are disjoint and inside the arena
      whatever clients do, for the heap on 64-bit machines; the heap fails only when even compaction finds no
      room; its lists and tiling are invariants.
    - Tiny file system: the operations act on an abstract list of named files
      ([fs_ok]); what was written is read back, also after a remount; stdio
      round trip.
    - Disks: from FatFs's disk functions down to the host, an image is an
      array of sectors.
    - FatFs: the mount finds what the boot sector says and establishes the
      invariant of the volume; the FAT behind the one-sector window is an
      array, and its second copy follows; chains grow by a free cluster
      whenever there is one and are freed exactly; an open file is an array of
      bytes with a position for any sequence of reads, writes and seeks, also
      seeks past the end, which make the file longer (the bytes of the gap are
      unspecified), other chains and sectors untouched; a directory is a set of names; a path
      component is packed into an entry and printed back; opening by a path of
      any depth gives the bytes of the file; files are created by a path;
      a file written and closed, new or old, is found by its path with what was
      written; a file removed by its path gives back its clusters and its entry
      and is not found; the free clusters are counted; reading a directory
      gives its entries in order, each once, and ends.
    - FatFs example: it finds and loads its image and mounts it; cat prints the
      file a name leads to and ls the directory, both through all of FatFs; cd
      follows a specification on plain strings; no command leaves its buffers.
    - Boards: no tick is lost between the clock interrupt and the scheduler
      under any interleaving, and the interrupt mask is restored; what is
      printed goes out in full with its line ends, what comes in is delivered
      once and in order; the terminal of the simulator is given back as it was.
    - Network and console: checksums are those of RFC 1071; packet buffers are
      balanced; a ping goes out through the interface, comes back through the
      queue and is reported by the network task; the commands of the TAP example
      give back every buffer and control block, whatever lwIP does in between
      (but a connection the peer has closed is later aborted after lwIP has
      freed it), and its packet log never reads past a frame; the line editors refine editors on
      lists;
      splitting and queueing stay inside their buffers.
    - Where the code departs from its documentation, or relies on what it does not
      test, the behaviour is a theorem
      (restarted timers, results of real-time tasks, unlocking by another task,
      the exact-fit allocation on MIPOS32, lost arguments, renaming, remounting
      after close, zero seeks).

    ** Loops and fuel

    Loops that are not structural take fuel, and running out of it is the
    fault [OutOfFuel], which the theorems exclude.  The search of the scheduler
    gets two sweeps of the task table; list walks of the heap the number of its
    descriptors, compaction its square; file loops the number of clusters the
    bytes span plus two; chain loops of FatFs the number of entries of the FAT,
    which bounds every chain without a cycle; directory loops the 65536 entries
    a table may have; loops over text its length.  [mipos_mu_lock] and
    [net_drain] may really run for ever, and say so by their fuel.

    ** What is not modelled

    Context switches, start-up code, vector tables and the other assembly of
    src/mipos/arch (what the kernel needs of it are steps of Machine), the
    timer of the Cortex-A9 board and the STM32 and STM8 boards; the
    STM8 peripheral library (vendor code); the options ffconf.h switches off
    (exFAT, long names with ffunicode.c, locking, f_mkfs); the number parser of
    the SDCC console; lwIP itself; the main programs of the examples but for
    those named above; tests and build files.

    Open: overwriting inside a file and the full disk of the tiny file system.
    Of FatFs, f_mkdir, f_rename, f_truncate, the removal of directories,
    directories that grow, and f_open on an existing file with a flag to create
    or to append are defined and executable; their theorems are those of the
    layers below. *)

From stdpp Require Export base tactics numbers list gmap fin_maps sorting strings.
From Stdlib Require Export ZArith Lia.

#[global] Open Scope Z_scope.

(** ** C truth values, machine integers *)

Declare Scope mipos_scope.
Delimit Scope mipos_scope with mipos.

(** The C test [if (z)]. *)
Definition truth (z : Z) : bool := negb (z =? 0).

(** The C test [if (a & b)]. *)
Definition anybit (a b : Z) : bool := truth (Z.land a b).

Notation "a '&?' b" := (anybit a b) (at level 52, no associativity) : mipos_scope.
#[global] Open Scope mipos_scope.

(** Unsigned wrap-around at a width, and the two's complement reading. *)
Definition wrap (w z : Z) : Z := z `mod` 2 ^ w.
Definition swrap (w z : Z) : Z := (z + 2 ^ (w - 1)) `mod` 2 ^ w - 2 ^ (w - 1).

Abbreviation u8 := (wrap 8).
Abbreviation u16 := (wrap 16).
Abbreviation u32 := (wrap 32).
Abbreviation u64 := (wrap 64).
Abbreviation s32 := (swrap 32).
Abbreviation s64 := (swrap 64).

(** ** Faults and the state-and-fault monad *)

(** What a C execution can do besides returning: access memory it must not,
    divide by zero, wait for a lock nobody will release, halt in the panic
    loop, or (in the model only) run out of the fuel a loop was given. *)
Inductive fault :=
  | NullDeref
  | OutOfBounds
  | DivByZero
  | Deadlock
  | Halted
  | OutOfFuel.

#[global] Instance fault_eq_dec : EqDecision fault.
Proof. solve_decision. Defined.

Inductive res (A : Type) :=
  | Ok (a : A)
  | Fault (f : fault).
Arguments Ok {A} _.
Arguments Fault {A} _.

#[global] Instance res_ret : MRet res := @Ok.
#[global] Instance res_bind : MBind res := λ A B f r,
  match r with Ok a => f a | Fault e => Fault e end.
#[global] Instance res_fmap : FMap res := λ A B f r,
  match r with Ok a => Ok (f a) | Fault e => Fault e end.

Definition is_ok {A} (r : res A) : bool :=
  match r with Ok _ => true | Fault _ => false end.

(** A C array access: the element, or the fault of reading past the array. *)
Definition of_lookup {A} (o : option A) : res A :=
  match o with Some a => Ok a | None => Fault OutOfBounds end.

(** ** Lemmas on bits and machine integers *)

Lemma truth_true z : truth z = true ↔ z ≠ 0.
Proof. unfold truth. rewrite negb_true_iff, Z.eqb_neq. done. Qed.

Lemma truth_false z : truth z = false ↔ z = 0.
Proof. unfold truth. rewrite negb_false_iff, Z.eqb_eq. done. Qed.

Lemma anybit_0_l b : (0 &? b) = false.
Proof. apply truth_false, Z.land_0_l. Qed.

(** A one-bit mask tests that bit. *)
Lemma anybit_shiftl a n : 0 ≤ n → (a &? Z.shiftl 1 n) = Z.testbit a n.
Proof.
  intros Hn. unfold anybit, truth.
  destruct (Z.testbit a n) eqn:Hb.
  - rewrite negb_true_iff, Z.eqb_neq. intros H0.
    assert (Z.testbit (Z.land a (Z.shiftl 1 n)) n = false) as Hf
      by (rewrite H0; apply Z.bits_0).
    rewrite Z.land_spec, Hb, Z.shiftl_spec, Z.sub_diag in Hf by done. done.
  - rewrite negb_false_iff, Z.eqb_eq. apply Z.bits_inj'. intros m Hm.
    rewrite Z.land_spec, Z.bits_0, Z.shiftl_spec by done.
    destruct (decide (m = n)) as [->|Hne]; [by rewrite Hb|].
    rewrite andb_false_iff. right.
    destruct (decide (m < n)); [by apply Z.testbit_neg_r; lia|].
    apply Z.bits_above_log2; [lia|]. simpl. lia.
Qed.

Lemma wrap_bound w z : 0 ≤ w → 0 ≤ wrap w z < 2 ^ w.
Proof. intros. apply Z.mod_pos_bound. by apply Z.pow_pos_nonneg. Qed.

Lemma wrap_small w z : 0 ≤ z < 2 ^ w → wrap w z = z.
Proof. apply Z.mod_small. Qed.

Lemma wrap_spec w z n : 0 ≤ w → 0 ≤ n →
  Z.testbit (wrap w z) n = (n <? w) && Z.testbit z n.
Proof.
  intros Hw Hn. unfold wrap. rewrite <-Z.land_ones, Z.land_spec by done.
  rewrite Z.testbit_ones by done.
  destruct (n <? w) eqn:E; rewrite ?andb_true_r, ?andb_false_r; [|done].
  destruct (0 <=? n) eqn:E2; [by rewrite andb_true_r|]. apply Z.leb_gt in E2. lia.
Qed.

(** A shifted value and one below the shift do not meet. *)
Lemma lor_shiftl_add a b n : 0 ≤ n → 0 ≤ b < 2 ^ n → Z.lor (Z.shiftl a n) b = a * 2 ^ n + b.
Proof.
  intros Hn Hb. rewrite Z.shiftl_mul_pow2 by done.
  assert (Z.land (a * 2 ^ n) b = 0) as Hz.
  { apply Z.bits_inj'. intros m Hm. rewrite Z.land_spec, Z.bits_0.
    destruct (decide (m < n)); [by rewrite Z.mul_pow2_bits_low by lia|].
    destruct (decide (b = 0)) as [->|]; [by rewrite Z.bits_0, andb_false_r|].
    rewrite (Z.bits_above_log2 b m); [by rewrite andb_false_r|lia|].
    apply Z.log2_lt_pow2; [lia|]. pose proof (Z.pow_le_mono_r 2 n m). lia. }
  pose proof (Z.add_lor_land (a * 2 ^ n) b) as Hadd. rewrite Hz in Hadd. lia.
Qed.

(** The lowest bit is the parity. *)
Lemma truth_land_1 z : truth (Z.land z 1) = Z.odd z.
Proof.
  unfold truth. change 1 with (Z.ones 1). rewrite Z.land_ones by lia. change (2 ^ 1) with 2.
  rewrite Zmod_odd. by destruct (Z.odd z).
Qed.

Lemma swrap_small w z : 0 < w → - 2 ^ (w - 1) ≤ z < 2 ^ (w - 1) → swrap w z = z.
Proof.
  intros Hw Hz. unfold swrap.
  assert (2 ^ w = 2 * 2 ^ (w - 1)) as Hp.
  { rewrite <-Z.pow_succ_r by lia. f_equal. lia. }
  rewrite Z.mod_small by lia. lia.
Qed.

(** Masking the low [n] bits off rounds down to a multiple of [2 ^ n]. *)
Lemma land_align a w n :
  0 ≤ n ≤ w → 0 ≤ a < 2 ^ w → Z.land a (wrap w (Z.lnot (Z.ones n))) = a - a `mod` 2 ^ n.
Proof.
  intros Hn Ha. replace (a - a `mod` 2 ^ n) with (Z.ldiff a (Z.ones n)).
  - apply Z.bits_inj'. intros i Hi.
    rewrite Z.land_spec, Z.ldiff_spec, wrap_spec, Z.lnot_spec by lia.
    destruct (Z.ltb_spec i w) as [Hlt|Hge]; [by rewrite andb_true_l|].
    destruct (decide (a = 0)) as [->|]; [by rewrite Z.bits_0|].
    assert (Z.log2 a < w) by (apply Z.log2_lt_pow2; lia).
    by rewrite (Z.bits_above_log2 a i) by lia.
  - rewrite Z.ldiff_ones_r, Z.shiftr_div_pow2, Z.shiftl_mul_pow2 by lia.
    pose proof (Z.div_mod a (2 ^ n)). assert (2 ^ n ≠ 0) by (apply Z.pow_nonzero; lia). lia.
Qed.

(** ** Lemmas on the fault monad *)

Lemma bind_ok {A B} (r : res A) (f : A → res B) b :
  r ≫= f = Ok b ↔ ∃ a, r = Ok a ∧ f a = Ok b.
Proof. destruct r; simpl; naive_solver. Qed.

Lemma bind_Ok {A B} (a : A) (f : A → res B) : Ok a ≫= f = f a.
Proof. done. Qed.

Lemma of_lookup_ok {A} (o : option A) a : of_lookup o = Ok a ↔ o = Some a.
Proof. destruct o; simpl; naive_solver. Qed.

(** ** Lemmas on tables: lists updated in place *)

Lemma alter_lookup_Some {A} (f : A → A) (l : list A) i j x :
  alter f i l !! j = Some x →
  (i = j ∧ ∃ y, l !! j = Some y ∧ x = f y) ∨ (i ≠ j ∧ l !! j = Some x).
Proof.
  rewrite list_lookup_alter. case_decide as Hij; [|naive_solver].
  subst. intros H. left. split; [done|]. destruct (l !! j); naive_solver.
Qed.

Lemma Forall_alter_at {A} (P : A → Prop) f (l : list A) i :
  Forall P l → (∀ x, l !! i = Some x → P x → P (f x)) → Forall P (alter f i l).
Proof.
  rewrite !Forall_lookup. intros Hl Hf j x Hx.
  destruct (alter_lookup_Some _ _ _ _ _ Hx) as [(<- & y & Hy & ->)|[? ?]]; eauto.
Qed.

(** ** Ring buffers *)

(** The [n] elements of the ring [buf] of [L] slots, from slot [h] on. *)
Definition ring_slot (L h : Z) (i : nat) : nat := Z.to_nat ((h + Z.of_nat i) `mod` L).
Definition ring_items (L h : Z) (n : nat) (buf : list Z) : list Z :=
  (λ i, default 0 (buf !! ring_slot L h i)) <$> seq 0 n.

Lemma ring_slot_bound L h i : 0 < L → (ring_slot L h i < Z.to_nat L)%nat.
Proof. intros. unfold ring_slot. pose proof (Z.mod_pos_bound (h + Z.of_nat i) L). lia. Qed.

Lemma ring_slot_inj L h i j :
  0 < L → (i < j)%nat → Z.of_nat j < L + Z.of_nat i → ring_slot L h i ≠ ring_slot L h j.
Proof.
  intros HL Hij Hj Heq. unfold ring_slot in Heq.
  pose proof (Z.mod_pos_bound (h + Z.of_nat i) L HL).
  pose proof (Z.mod_pos_bound (h + Z.of_nat j) L HL).
  assert ((h + Z.of_nat j) `mod` L = (h + Z.of_nat i) `mod` L) as Hm by lia.
  assert ((Z.of_nat j - Z.of_nat i) `mod` L = 0) as Hd.
  { replace (Z.of_nat j - Z.of_nat i) with ((h + Z.of_nat j) - (h + Z.of_nat i)) by lia.
    rewrite Zminus_mod, Hm, Z.sub_diag. apply Zmod_0_l. }
  rewrite Z.mod_small in Hd by lia. lia.
Qed.

Lemma ring_push L h n buf x :
  0 < L → Z.of_nat n < L → length buf = Z.to_nat L →
  ring_items L h (S n) (<[ring_slot L h n := x]> buf) = ring_items L h n buf ++ [x].
Proof.
  intros HL Hn Hlen. unfold ring_items. rewrite seq_S, fmap_app. simpl. f_equal.
  - apply list_fmap_ext. intros k i Hi. apply lookup_seq in Hi as [-> Hi].
    rewrite list_lookup_insert_ne; [done|]. apply not_eq_sym, ring_slot_inj; lia.
  - rewrite list_lookup_insert_eq; [done|]. rewrite Hlen. by apply ring_slot_bound.
Qed.

Lemma ring_slot_S L h i : 0 < L → ring_slot L ((h + 1) `mod` L) i = ring_slot L h (S i).
Proof.
  intros HL. unfold ring_slot. rewrite Zplus_mod_idemp_l. do 2 f_equal. lia.
Qed.

Lemma ring_pop L h n buf :
  0 < L →
  ring_items L h (S n) buf =
    default 0 (buf !! ring_slot L h 0) :: ring_items L ((h + 1) `mod` L) n buf.
Proof.
  intros HL. unfold ring_items. simpl. f_equal. rewrite <-fmap_S_seq, <-list_fmap_compose.
  apply list_fmap_ext. intros k i Hi. simpl. by rewrite ring_slot_S.
Qed.

Lemma ring_items_length L h n buf : length (ring_items L h n buf) = n.
Proof. unfold ring_items. by rewrite length_fmap, length_seq. Qed.

(** ** Tactics *)

(** Turns boolean comparisons in the context into propositions. *)
Ltac bool_to_prop := repeat match goal with
  | H : _ && _ = true |- _ => apply andb_true_iff in H; destruct H
  | H : _ || _ = false |- _ => apply orb_false_iff in H; destruct H
  | H : negb _ = true |- _ => apply negb_true_iff in H
  | H : negb _ = false |- _ => apply negb_false_iff in H
  | H : (_ =? _) = true |- _ => apply Z.eqb_eq in H
  | H : (_ =? _) = false |- _ => apply Z.eqb_neq in H
  | H : (_ <? _) = true |- _ => apply Z.ltb_lt in H
  | H : (_ <? _) = false |- _ => apply Z.ltb_ge in H
  | H : (_ <=? _) = true |- _ => apply Z.leb_le in H
  | H : (_ <=? _) = false |- _ => apply Z.leb_gt in H
  | H : truth _ = true |- _ => apply truth_true in H
  | H : truth _ = false |- _ => apply truth_false in H
  end.

(** Splits on the condition of an [if] of the goal, keeping it as an equation. *)
Ltac case_if := match goal with
  | |- context [if ?b then _ else _] => let E := fresh "E" in destruct b eqn:E
  end.

(** Opens one successful bind of a hypothesis. *)
Ltac inv_ok := repeat match goal with
  | H : _ ≫= _ = Ok _ |- _ => apply bind_ok in H; destruct H as (? & ? & H)
  | H : of_lookup _ = Ok _ |- _ => apply of_lookup_ok in H
  | H : Ok _ = Ok _ |- _ => injection H as H; try subst
  | H : Fault _ = Ok _ |- _ => discriminate H
  | H : (_, _) = (_, _) |- _ => injection H as ? ?; try subst
  end.

(** Removes the wrap-arounds of the goal that [lia] shows to do nothing, from
    the inside out. *)
Ltac no_wrap := repeat match goal with
  | |- context [wrap ?w ?z] =>
      lazymatch z with
      | context [wrap _ _] => fail
      | _ => rewrite (wrap_small w z) by lia
      end
  end.

Create HintDb mipos discriminated.
Create Rewrite HintDb mipos.

#[export] Hint Resolve wrap_bound ring_slot_bound : mipos.
#[export] Hint Rewrite @bind_Ok @length_insert @length_alter Nat2Z.id : mipos.
