(* ===== verification/Bytes.v ===== *)
(** * Byte arrays and C strings

    What the sources use of the C library's string functions: strings are
    zero-terminated byte arrays, and reading or writing past an array is a
    fault. Then arrays of bytes as lists: fields at an offset, overwriting a
    field, and integers in either byte order. *)

From S2P Require Import Prelude.

(** ** C strings *)

(** The string a buffer holds; a buffer without terminator is read past its end. *)
Fixpoint cstr (buf : list Z) : res (list Z) :=
  match buf with
  | [] => Fault OutOfBounds
  | c :: buf => if c =? 0 then Ok [] else cons c <$> cstr buf
  end.

(** The characters of an array before its first zero, if any. *)
Fixpoint until_nul (l : list Z) : list Z :=
  match l with
  | [] => []
  | c :: l => if c =? 0 then [] else c :: until_nul l
  end.

(** [strncpy(buf, src, n)]: at most [n] characters, padded with zeros up to [n]. *)
Definition strncpy (buf src : list Z) (n : nat) : res (list Z) :=
  if Nat.ltb (length buf) n then Fault OutOfBounds else
  let cs := take n (until_nul src) in
  Ok (cs ++ replicate (n - length cs) 0 ++ drop n buf).

Lemma until_nul_id l : Forall (λ c, c ≠ 0) l → until_nul l = l.
Proof. induction 1 as [|c l Hc Hl IH]; [done|]. cbn. rewrite (proj2 (Z.eqb_neq c 0) Hc). by rewrite IH. Qed.

Lemma until_nul_nonzero l : Forall (λ c, c ≠ 0) (until_nul l).
Proof.
  induction l as [|c l IH]; simpl; [done|]. destruct (Z.eqb_spec c 0); [done|by constructor].
Qed.

Lemma cstr_app cs l : Forall (λ c, c ≠ 0) cs → cstr (cs ++ 0 :: l) = Ok cs.
Proof.
  induction 1 as [|c cs Hc Hall IH]; simpl; [done|]. destruct (Z.eqb_spec c 0); [done|].
  by rewrite IH.
Qed.

Lemma cstr_terminated (l : list Z) i : l !! i = Some 0 → cstr l = Ok (until_nul l).
Proof.
  revert i. induction l as [|c l IH]; intros i; [done|]. simpl.
  destruct (Z.eqb_spec c 0) as [|Hc]; [done|]. destruct i as [|i]; simpl; [congruence|].
  intros Hi. by rewrite (IH i Hi).
Qed.

(** A buffer that has a zero holds a string. *)
Lemma cstr_zero (buf : list Z) i : buf !! i = Some 0 → ∃ w, cstr buf = Ok w.
Proof. intros H. exists (until_nul buf). by eapply cstr_terminated. Qed.

(** ** Byte arrays *)

(** Little-endian integers. *)
Fixpoint le_bytes (n : nat) (z : Z) : list Z :=
  match n with O => [] | S n => z `mod` 256 :: le_bytes n (z `div` 256) end.

Fixpoint le_value (l : list Z) : Z :=
  match l with [] => 0 | b :: l => b + 256 * le_value l end.

(** [len] bytes from offset [off] on, and [l] with the bytes [bs] written there. *)
Definition bytes_at (off len : nat) (l : list Z) : list Z := take len (drop off l).
Definition patch (off : nat) (bs l : list Z) : list Z :=
  take off l ++ bs ++ drop (off + length bs) l.

Definition is_byte (b : Z) : Prop := 0 ≤ b < 256.

Lemma le_bytes_length n z : length (le_bytes n z) = n.
Proof. revert z. induction n as [|n IH]; intros z; simpl; [done|]. by rewrite IH. Qed.

Lemma le_value_mod n z : le_value (le_bytes n z) = z `mod` 256 ^ Z.of_nat n.
Proof.
  revert z. induction n as [|n IH]; intros z; simpl; [by rewrite Z.mod_1_r|].
  rewrite IH, <-Z.rem_mul_r by (try apply Z.pow_pos_nonneg; lia).
  by rewrite Nat2Z.inj_succ, Z.pow_succ_r by lia.
Qed.

Lemma le_value_bytes n z : 0 ≤ z < 256 ^ Z.of_nat n → le_value (le_bytes n z) = z.
Proof. intros Hz. rewrite le_value_mod. by apply Z.mod_small. Qed.

(** A field at a known offset. *)
Lemma bytes_at_middle (l1 l2 l3 : list Z) off len :
  length l1 = off → length l2 = len → bytes_at off len (l1 ++ l2 ++ l3) = l2.
Proof.
  intros <- <-. unfold bytes_at. rewrite drop_app_length. by rewrite take_app_length.
Qed.

Lemma bytes_at_front (l2 l3 : list Z) len : length l2 = len → bytes_at 0 len (l2 ++ l3) = l2.
Proof. by apply (bytes_at_middle []). Qed.

Lemma le_bytes_bytes n z : Forall is_byte (le_bytes n z).
Proof.
  revert z. induction n as [|n IH]; intros z; simpl; constructor; [|done].
  unfold is_byte. pose proof (Z.mod_pos_bound z 256). lia.
Qed.

Lemma bytes_at_length off len (l : list Z) :
  (off + len ≤ length l)%nat → length (bytes_at off len l) = len.
Proof. intros. unfold bytes_at. rewrite length_take, length_drop. lia. Qed.

Lemma bytes_at_all (l : list Z) : bytes_at 0 (length l) l = l.
Proof. unfold bytes_at. by rewrite drop_0, firstn_all. Qed.

Lemma lookup_bytes_at off len (l : list Z) i :
  bytes_at off len l !! i = if decide (i < len)%nat then l !! (off + i)%nat else None.
Proof.
  unfold bytes_at. case_decide.
  - by rewrite lookup_take_lt, lookup_drop by done.
  - rewrite lookup_take_ge; [done|lia].
Qed.

Lemma bytes_at_bytes off len (l : list Z) : Forall is_byte l → Forall is_byte (bytes_at off len l).
Proof. intros. by apply Forall_take, Forall_drop. Qed.

(** ** Overwriting *)

Lemma patch_length off bs l : (off + length bs ≤ length l)%nat → length (patch off bs l) = length l.
Proof. intros. unfold patch. rewrite !length_app, length_take, length_drop. lia. Qed.

Lemma lookup_patch off bs l i :
  (off + length bs ≤ length l)%nat →
  patch off bs l !! i =
    if decide (off ≤ i < off + length bs)%nat then bs !! (i - off)%nat else l !! i.
Proof.
  intros Hl. unfold patch. case_decide as Hi.
  - rewrite lookup_app_r; rewrite length_take; [|lia]. rewrite lookup_app_l by lia. f_equal. lia.
  - destruct (decide (i < off)%nat).
    + rewrite lookup_app_l by (rewrite length_take; lia). by rewrite lookup_take_lt.
    + rewrite lookup_app_r; rewrite length_take; [|lia]. rewrite lookup_app_r by lia.
      rewrite lookup_drop. f_equal. lia.
Qed.

Lemma lookup_patch_ne off bs l i :
  (off + length bs ≤ length l)%nat → (i < off ∨ off + length bs ≤ i)%nat →
  patch off bs l !! i = l !! i.
Proof. intros Hl Hi. rewrite lookup_patch by done. rewrite decide_False by lia. done. Qed.

Lemma bytes_at_patch off bs l :
  (off + length bs ≤ length l)%nat → bytes_at off (length bs) (patch off bs l) = bs.
Proof.
  intros Hl. apply list_eq. intros i. rewrite lookup_bytes_at, lookup_patch by done.
  case_decide; [|by rewrite lookup_ge_None_2 by lia].
  rewrite decide_True by lia. f_equal. lia.
Qed.

Lemma bytes_at_patch_eq off n bs l :
  length bs = n → (off + n ≤ length l)%nat → bytes_at off n (patch off bs l) = bs.
Proof. intros <-. apply bytes_at_patch. Qed.

(** A field that does not meet the bytes written. *)
Lemma bytes_at_patch_ne off bs l off' len :
  (off + length bs ≤ length l)%nat → (off' + len ≤ off ∨ off + length bs ≤ off')%nat →
  bytes_at off' len (patch off bs l) = bytes_at off' len l.
Proof.
  intros Hl Hd. apply list_eq. intros i. rewrite !lookup_bytes_at. case_decide; [|done].
  apply lookup_patch_ne; lia.
Qed.

(** A field inside the bytes of another, and writing inside a field. *)
Lemma bytes_at_bytes_at off len k n (l : list Z) :
  (k + n ≤ len)%nat → bytes_at k n (bytes_at off len l) = bytes_at (off + k) n l.
Proof.
  intros Hk. apply list_eq. intros i. rewrite !lookup_bytes_at. repeat case_decide; try lia; [|done].
  f_equal. lia.
Qed.

Lemma bytes_at_patch_in off len k bs l :
  (off + len ≤ length l)%nat → (k + length bs ≤ len)%nat →
  bytes_at off len (patch (off + k) bs l) = patch k bs (bytes_at off len l).
Proof.
  intros Hl Hk. apply list_eq. intros i.
  rewrite lookup_bytes_at, !lookup_patch by (rewrite ?bytes_at_length; lia).
  rewrite lookup_bytes_at. repeat case_decide; try lia; try done. f_equal. lia.
Qed.

Lemma patch_bytes off bs l : Forall is_byte bs → Forall is_byte l → Forall is_byte (patch off bs l).
Proof. intros. unfold patch. rewrite !Forall_app. auto using Forall_take, Forall_drop. Qed.

(** ** Access *)

(** [data[i]], [data[i] = v] and [memcpy(dst + doff, src + soff, n)]. *)
Definition get (data : list Z) (i : Z) : res Z :=
  if i <? 0 then Fault OutOfBounds else of_lookup (data !! Z.to_nat i).

Definition put (i v : Z) (data : list Z) : res (list Z) :=
  if (i <? 0) || (Z.of_nat (length data) <=? i) then Fault OutOfBounds
  else Ok (<[Z.to_nat i := u8 v]> data).

Definition copy (doff : Z) (src : list Z) (soff n : Z) (dst : list Z) : res (list Z) :=
  if (doff <? 0) || (soff <? 0) || (n <? 0) || (Z.of_nat (length dst) <? doff + n) ||
     (Z.of_nat (length src) <? soff + n) then Fault OutOfBounds
  else Ok (patch (Z.to_nat doff) (bytes_at (Z.to_nat soff) (Z.to_nat n) src) dst).

Lemma get_ok data i : 0 ≤ i < Z.of_nat (length data) → ∃ b, get data i = Ok b ∧ data !! Z.to_nat i = Some b.
Proof.
  intros Hi. unfold get. rewrite (proj2 (Z.ltb_ge i 0)) by lia.
  destruct (lookup_lt_is_Some_2 data (Z.to_nat i)) as [b Hb]; [lia|]. exists b. by rewrite Hb.
Qed.

Lemma get_lookup data i b : 0 ≤ i → data !! Z.to_nat i = Some b → get data i = Ok b.
Proof. intros Hi Hb. unfold get. rewrite (proj2 (Z.ltb_ge i 0)), Hb by lia. done. Qed.

Lemma put_ok i v data :
  0 ≤ i < Z.of_nat (length data) → put i v data = Ok (<[Z.to_nat i := u8 v]> data).
Proof.
  intros Hi. unfold put. rewrite (proj2 (Z.ltb_ge i 0)), (proj2 (Z.leb_gt _ i)) by lia. done.
Qed.

Lemma copy_ok doff src soff n dst :
  0 ≤ doff → 0 ≤ soff → 0 ≤ n → doff + n ≤ Z.of_nat (length dst) → soff + n ≤ Z.of_nat (length src) →
  copy doff src soff n dst = Ok (patch (Z.to_nat doff) (bytes_at (Z.to_nat soff) (Z.to_nat n) src) dst).
Proof.
  intros ? ? ? ? ?. unfold copy.
  rewrite (proj2 (Z.ltb_ge doff 0)), (proj2 (Z.ltb_ge soff 0)), (proj2 (Z.ltb_ge n 0)),
    (proj2 (Z.ltb_ge _ (doff + n))), (proj2 (Z.ltb_ge _ (soff + n))) by lia. done.
Qed.

(** Writing as overwriting. *)
Lemma put_patch i v data :
  0 ≤ i < Z.of_nat (length data) → is_byte v → put i v data = Ok (patch (Z.to_nat i) [v] data).
Proof.
  intros Hi Hv. rewrite put_ok by done. unfold is_byte in Hv. rewrite wrap_small by lia. f_equal.
  apply list_eq. intros j. rewrite lookup_patch by (simpl; lia). simpl. case_decide.
  - assert (j = Z.to_nat i) as -> by lia. rewrite list_lookup_insert_eq by lia. by rewrite Nat.sub_diag.
  - by rewrite list_lookup_insert_ne by lia.
Qed.

Lemma patch_two o a b l :
  (o + 2 ≤ length l)%nat → patch (S o) [b] (patch o [a] l) = patch o [a; b] l.
Proof.
  intros Hl. apply list_eq. intros i.
  rewrite !lookup_patch by (rewrite ?patch_length; simpl; lia). cbn [length].
  destruct (decide (i = o)) as [->|]; [|destruct (decide (i = S o)) as [->|]].
  - rewrite decide_False, !decide_True by lia. by rewrite Nat.sub_diag.
  - rewrite !decide_True by lia. by replace (S o - o)%nat with 1%nat by lia; rewrite Nat.sub_diag.
  - by rewrite !decide_False by lia.
Qed.

#[export] Hint Resolve le_bytes_bytes bytes_at_bytes patch_bytes : mipos.
