(* ===== verification/Cstdio.v ===== *)
(** * Reading and printing numbers

    What the sources use of [sscanf], [strtol] and [printf], on byte lists. *)

From S2P Require Import Prelude.
From Stdlib Require Ascii String.

(** The bytes of a string literal. *)
Definition str (s : string) : list Z :=
  (λ a, Z.of_N (Ascii.N_of_ascii a)) <$> Stdlib.Strings.String.list_ascii_of_string s.

Definition is_space (c : Z) : bool := (c =? 32) || ((9 <=? c) && (c <=? 13)).

Fixpoint skip_spaces (l : list Z) : list Z :=
  match l with c :: l' => if is_space c then skip_spaces l' else l | [] => [] end.

Definition digit_val (c : Z) : option Z :=
  if (48 <=? c) && (c <=? 57) then Some (c - 48)
  else if (97 <=? c) && (c <=? 102) then Some (c - 87)
  else if (65 <=? c) && (c <=? 70) then Some (c - 55)
  else None.

(** The value of the digits a string begins with, and how many there are. *)
Fixpoint number (base acc : Z) (l : list Z) : Z * nat :=
  match l with
  | [] => (acc, 0%nat)
  | c :: l =>
      match digit_val c with
      | Some d => if d <? base then let '(v, n) := number base (acc * base + d) l in (v, S n) else (acc, 0%nat)
      | None => (acc, 0%nat)
      end
  end.

Definition sign_of (l : list Z) : Z * list Z :=
  match l with
  | 45 :: l => (-1, l)
  | 43 :: l => (1, l)
  | _ => (1, l)
  end.

(** [(int)strtol(s, 0, 10)], with [long] of 64 bits. *)
Definition atoi (l : list Z) : Z :=
  let '(sg, l) := sign_of (skip_spaces l) in
  s32 (Z.max (- 2 ^ 63) (Z.min (2 ^ 63 - 1) (sg * fst (number 10 0 l)))).

(** [sscanf] of one hexadecimal number at a width, [None] where nothing matches. *)
Definition sscanf_hex (w : Z) (l : list Z) : option Z :=
  let '(sg, l) := sign_of (skip_spaces l) in
  let l := match l with 48 :: 120 :: l => l | 48 :: 88 :: l => l | _ => l end in
  let '(v, n) := number 16 0 l in
  if Nat.eqb n 0 then None else Some (wrap w (sg * v)).

Definition digit_char (upper : bool) (d : Z) : Z :=
  if d <? 10 then 48 + d else if upper then 55 + d else 87 + d.

(** The digits of a number, most significant first. *)
Fixpoint to_digits (fuel : nat) (upper : bool) (base n : Z) (acc : list Z) : list Z :=
  match fuel with
  | O => acc
  | S fuel =>
      let acc := digit_char upper (n `mod` base) :: acc in
      if n <? base then acc else to_digits fuel upper base (n `div` base) acc
  end.

Definition pad_left (c : Z) (width : nat) (l : list Z) : list Z := replicate (width - length l) c ++ l.

(** [%0<width>x] or [%0<width>X] of an unsigned number of at most 64 bits. *)
Definition fmt_hex (upper : bool) (width : nat) (n : Z) : list Z :=
  pad_left 48 width (to_digits 16 upper 16 n []).
(** [%<width>i] and [%<width>llu] of a number that is not negative. *)
Definition fmt_dec (width : nat) (n : Z) : list Z := pad_left 32 width (to_digits 20 false 10 n []).
(** [%8s] *)
Definition fmt_s8 (l : list Z) : list Z := pad_left 32 8 l.

(** One [%u] of [sscanf], with [unsigned long] of [W] bits: the value and the
    rest of the string. *)
Definition scan_u (W : Z) (l : list Z) : option (Z * list Z) :=
  let '(sg, l) := sign_of (skip_spaces l) in
  let '(v, n) := number 10 0 l in
  if Nat.eqb n 0 then None else Some (u32 (sg * Z.min v (2 ^ W - 1)), drop n l).

(** [sprintf] to an array of [size] bytes. *)
Definition sprintf (size : Z) (text : list Z) : res (list Z) :=
  if size <=? Z.of_nat (length text) then Fault OutOfBounds else Ok text.

(** ** Numbers that are printed are read back *)

Lemma to_digits_app fuel up base n acc :
  to_digits fuel up base n acc = to_digits fuel up base n [] ++ acc.
Proof.
  revert n acc. induction fuel as [|fuel IH]; intros n acc; simpl; [done|].
  destruct (n <? base); [done|]. rewrite IH. rewrite (IH _ [_]). by rewrite <-app_assoc.
Qed.

Lemma number_app base acc l1 l2 v :
  number base acc l1 = (v, length l1) →
  number base acc (l1 ++ l2) = (fst (number base v l2), (length l1 + snd (number base v l2))%nat).
Proof.
  revert acc. induction l1 as [|c l1 IH]; intros acc; cbn [number app length].
  - intros [= ->]. by destruct (number base v l2).
  - destruct (digit_val c) as [d|]; [|done]. destruct (d <? base); [|done].
    destruct (number base (acc * base + d) l1) as [v' n'] eqn:Hn. intros [= -> ->].
    by rewrite (IH _ Hn).
Qed.

Lemma digit_val_char d : 0 ≤ d < 10 → digit_val (digit_char false d) = Some d.
Proof.
  intros Hd. unfold digit_char, digit_val. rewrite (proj2 (Z.ltb_lt d 10)) by lia.
  rewrite (proj2 (Z.leb_le 48 _)), (proj2 (Z.leb_le _ 57)) by lia. simpl. f_equal. lia.
Qed.

(** Reading the decimal digits of [n] from the value [acc] on. *)
Lemma number_digits fuel acc n :
  0 ≤ n < 10 ^ Z.of_nat fuel → (0 < fuel)%nat →
  ∃ k, number 10 acc (to_digits fuel false 10 n []) =
      (acc * 10 ^ Z.of_nat k + n, length (to_digits fuel false 10 n [])) ∧
    length (to_digits fuel false 10 n []) = k ∧ (0 < k)%nat.
Proof.
  revert acc n. induction fuel as [|fuel IH]; intros acc n Hn Hf; [lia|].
  cbn [to_digits]. pose proof (Z.mod_pos_bound n 10 ltac:(lia)). pose proof (Z.div_mod n 10 ltac:(lia)).
  destruct (Z.ltb_spec n 10) as [Hs|Hs].
  - exists 1%nat. cbn [number length]. rewrite digit_val_char, (proj2 (Z.ltb_lt _ 10)) by lia.
    rewrite Z.mod_small by lia. split_and!; [f_equal; lia|done|lia].
  - rewrite to_digits_app. rewrite Nat2Z.inj_succ, Z.pow_succ_r in Hn by lia.
    assert (0 ≤ n / 10 < 10 ^ Z.of_nat fuel).
    { split; [apply Z.div_pos; lia|apply Z.div_lt_upper_bound; lia]. }
    destruct (IH acc (n / 10)) as (k & Hk & Hl & Hk0); [done| |].
    { destruct fuel; [simpl in *; lia|lia]. }
    exists (S k). rewrite length_app, Hl. erewrite number_app by exact Hk.
    cbn [number length]. rewrite digit_val_char, (proj2 (Z.ltb_lt _ 10)) by lia. simpl fst. simpl snd.
    split_and!; [|lia|lia]. rewrite Hl. f_equal. rewrite Nat2Z.inj_succ, Z.pow_succ_r by lia. lia.
Qed.

Lemma digits_first fuel n :
  0 ≤ n → (0 < fuel)%nat →
  ∃ c l, to_digits fuel false 10 n [] = c :: l ∧ 48 ≤ c ≤ 57.
Proof.
  revert n. induction fuel as [|fuel IH]; intros n Hn Hf; [lia|]. cbn [to_digits].
  pose proof (Z.mod_pos_bound n 10 ltac:(lia)).
  assert (48 ≤ digit_char false (n `mod` 10) ≤ 57) as Hc.
  { unfold digit_char. rewrite (proj2 (Z.ltb_lt _ 10)) by lia. lia. }
  destruct (n <? 10); [by eexists _, _|]. rewrite to_digits_app.
  destruct fuel as [|fuel]; [by eexists _, _|].
  destruct (IH (n / 10)) as (c & l & -> & ?); [apply Z.div_pos; lia|lia|]. by eexists _, _.
Qed.

Lemma fmt_dec_0 n : fmt_dec 0 n = to_digits 20 false 10 n [].
Proof. done. Qed.

(** [%u] reads back what [%u] printed, when no digit follows. *)
Lemma scan_u_fmt W n rest :
  32 ≤ W → 0 ≤ n < 2 ^ 32 → (∀ c l, rest = c :: l → digit_val c = None) →
  scan_u W (fmt_dec 0 n ++ rest) = Some (n, rest).
Proof.
  intros HW Hn Hr. unfold scan_u. rewrite fmt_dec_0.
  destruct (digits_first 20 n) as (c & l & Hd & Hc); [lia|lia|].
  destruct (number_digits 20 0 n) as (k & Hk & Hl & Hk0); [lia|lia|].
  assert (number 10 n rest = (n, 0%nat)) as Hrest.
  { destruct rest as [|x rest]; [done|]. cbn [number]. by rewrite (Hr x rest). }
  assert (is_space c = false) as Hsp.
  { unfold is_space. rewrite (proj2 (Z.eqb_neq c 32)), (proj2 (Z.leb_gt c 13)) by lia. by rewrite andb_false_r. }
  assert (skip_spaces (to_digits 20 false 10 n [] ++ rest) = to_digits 20 false 10 n [] ++ rest) as ->.
  { rewrite Hd. cbn [skip_spaces app]. by rewrite Hsp. }
  assert (sign_of (to_digits 20 false 10 n [] ++ rest) = (1, to_digits 20 false 10 n [] ++ rest)) as ->.
  { rewrite Hd. cbn [app]. unfold sign_of.
    repeat case_match; simplify_eq; try lia; done. }
  erewrite number_app by exact Hk. rewrite Z.mul_0_l, Z.add_0_l, Hrest. cbn [fst snd].
  rewrite Nat.add_0_r. destruct (Nat.eqb_spec (length (to_digits 20 false 10 n [])) 0); [lia|].
  rewrite drop_app_length. pose proof (Z.pow_le_mono_r 2 32 W).
  rewrite Z.min_l, Z.mul_1_l, wrap_small by lia. done.
Qed.

(** A number below [10 ^ k] has at most [k] digits. *)
Lemma to_digits_length fuel k n :
  0 ≤ n < 10 ^ Z.of_nat k → (0 < k)%nat → (length (to_digits fuel false 10 n []) ≤ k)%nat.
Proof.
  revert k n. induction fuel as [|fuel IH]; intros k n Hn Hk; simpl; [lia|].
  destruct (Z.ltb_spec n 10); simpl; [lia|]. rewrite to_digits_app, length_app. simpl.
  destruct k as [|k]; [lia|]. rewrite Nat2Z.inj_succ, Z.pow_succ_r in Hn by lia.
  assert (0 ≤ n / 10 < 10 ^ Z.of_nat k).
  { split; [apply Z.div_pos; lia|apply Z.div_lt_upper_bound; lia]. }
  destruct k as [|k]; [simpl in *; lia|]. specialize (IH (S k) (n / 10)). lia.
Qed.

Lemma fmt_dec_length k n :
  0 ≤ n < 10 ^ Z.of_nat k → (0 < k)%nat → (length (fmt_dec 0 n) ≤ k)%nat.
Proof. intros. rewrite fmt_dec_0. by apply to_digits_length. Qed.

Lemma sprintf_ok size text : Z.of_nat (length text) < size → sprintf size text = Ok text.
Proof. intros. unfold sprintf. by rewrite (proj2 (Z.leb_gt _ _)). Qed.
