(* ===== verification/Frames.v ===== *)
(** * Network frames

    Access to the bytes of a frame, and the Internet checksum, as the network
    examples have them: [read_be16], [write_be16] and [checksum] of
    src/examples/qemu-arm/net-console/main.c (those of net-selftest are the
    same).  A pointer into a frame is the frame and an offset. *)

From S2P Require Import Prelude Bytes.

(** ** Words *)

Definition read_be16 (data : list Z) (off : Z) : res Z :=
  a ← get data off; b ← get data (off + 1); Ok (u16 (Z.lor (u16 (Z.shiftl a 8)) b)).

Definition write_be16 (off value : Z) (frame : list Z) : res (list Z) :=
  frame ← put off (Z.shiftr (u16 value) 8) frame;
  put (off + 1) (Z.land (u16 value) 255) frame.

(** ** The checksum *)

(** The loop over the pairs of bytes, from [data + off], [len] bytes left. *)
Fixpoint sum_words (fuel : nat) (data : list Z) (off len sum : Z) : res (Z * Z * Z) :=
  match fuel with
  | O => Fault OutOfFuel
  | S fuel =>
      if 1 <? len then
        w ← read_be16 data off;
        sum_words fuel data (off + 2) (len - 2) (u32 (sum + w))
      else Ok (sum, off, len)
  end.

(** The loop that adds the carries; a 32-bit sum needs at most two rounds. *)
Fixpoint fold_carry (fuel : nat) (sum : Z) : res Z :=
  match fuel with
  | O => Fault OutOfFuel
  | S fuel =>
      if truth (Z.shiftr sum 16)
      then fold_carry fuel (u32 (Z.land sum 65535 + Z.shiftr sum 16))
      else Ok sum
  end.

Definition checksum (data : list Z) (off len : Z) : res Z :=
  '(sum, off, len) ← sum_words (S (Z.to_nat len)) data off len 0;
  sum ← (if truth len then b ← get data off; Ok (u32 (sum + u16 (Z.shiftl b 8))) else Ok sum);
  sum ← fold_carry 4 sum;
  Ok (u16 (Z.lnot sum)).

(** ** Reference: the one's complement of the one's complement sum *)

(** The big-endian words of an array, an odd last byte being a high byte. *)
Fixpoint words_sum (l : list Z) : Z :=
  match l with
  | a :: b :: l => 256 * a + b + words_sum l
  | [a] => 256 * a
  | [] => 0
  end.

(** The one's complement sum of 16 bits as a remainder: 0 only for 0. *)
Definition ones_fold (s : Z) : Z := if s =? 0 then 0 else (s - 1) `mod` 65535 + 1.

Definition ones_checksum (l : list Z) : Z := 65535 - ones_fold (words_sum l).

(** ** Lemmas on words *)

(** Two bytes as a big-endian word, and back. *)
Lemma be16_value a b : is_byte a → is_byte b → u16 (Z.lor (u16 (Z.shiftl a 8)) b) = 256 * a + b.
Proof.
  unfold is_byte. intros Ha Hb. rewrite (wrap_small 16 (Z.shiftl a 8)) by (rewrite Z.shiftl_mul_pow2; lia).
  rewrite lor_shiftl_add by lia. rewrite wrap_small by lia. lia.
Qed.

Lemma read_be16_ok data off a b :
  0 ≤ off → data !! Z.to_nat off = Some a → data !! Z.to_nat (off + 1) = Some b →
  is_byte a → is_byte b → read_be16 data off = Ok (256 * a + b).
Proof.
  intros Ho Ha Hb Ba Bb. unfold read_be16. rewrite (get_lookup data off a), (get_lookup data (off + 1) b)
    by (done || lia). rewrite !bind_Ok. by rewrite be16_value.
Qed.

(** The two bytes of a 16-bit word. *)
Definition be16_bytes (v : Z) : list Z := [v / 256; v `mod` 256].

Lemma write_be16_ok off v frame :
  0 ≤ off → off + 1 < Z.of_nat (length frame) → 0 ≤ v < 65536 →
  write_be16 off v frame = Ok (patch (Z.to_nat off) (be16_bytes v) frame).
Proof.
  intros Ho Hl Hv. unfold write_be16. rewrite put_ok, bind_Ok by lia.
  rewrite put_ok by (rewrite length_insert; lia). rewrite (wrap_small 16 v) by lia.
  change 255 with (Z.ones 8). rewrite Z.shiftr_div_pow2, Z.land_ones by lia.
  change (2 ^ 8) with 256.
  rewrite (wrap_small 8 (v / 256)) by (split; [apply Z.div_pos; lia|apply Z.div_lt_upper_bound; lia]).
  rewrite (wrap_small 8 (v `mod` 256)) by (apply Z.mod_pos_bound; lia).
  f_equal. replace (Z.to_nat (off + 1)) with (S (Z.to_nat off)) by lia.
  apply list_eq. intros i. rewrite lookup_patch by (simpl; lia). simpl.
  case_decide as Hi.
  - destruct (decide (i = S (Z.to_nat off))) as [->|].
    + rewrite list_lookup_insert_eq by (rewrite length_insert; lia).
      by replace (S (Z.to_nat off) - Z.to_nat off)%nat with 1%nat by lia.
    + assert (i = Z.to_nat off) as -> by lia.
      rewrite list_lookup_insert_ne, list_lookup_insert_eq by lia. by rewrite Nat.sub_diag.
  - by rewrite !list_lookup_insert_ne by lia.
Qed.

(** ** The checksum computes the reference *)

Lemma words_sum_two a b l : words_sum (a :: b :: l) = 256 * a + b + words_sum l.
Proof. done. Qed.

Lemma list_two_ind {A} (P : list A → Prop) :
  P [] → (∀ a, P [a]) → (∀ a b l, P l → P (a :: b :: l)) → ∀ l, P l.
Proof.
  intros H0 H1 H2 l. enough (P l ∧ ∀ a, P (a :: l)) as [? _] by done.
  induction l as [|b l [IH1 IH2]]; [done|]. split; [apply IH2|]. intros a. by apply H2.
Qed.

Lemma words_sum_bound l : Forall is_byte l → 0 ≤ words_sum l ∧ 2 * words_sum l ≤ 65535 * (Z.of_nat (length l) + 1).
Proof.
  induction l as [|a|a b l IH] using list_two_ind; rewrite ?Forall_cons; unfold is_byte in *;
    cbn [words_sum length]; intros; lia || destruct_and?; try lia.
  destruct IH as [? ?]; [done|]. lia.
Qed.

Lemma words_sum_app l1 l2 :
  Nat.Even (length l1) → words_sum (l1 ++ l2) = words_sum l1 + words_sum l2.
Proof.
  induction l1 as [|a|a b l1 IH] using list_two_ind; intros He.
  - done.
  - destruct He as [k Hk]. simpl in Hk. lia.
  - cbn [words_sum app]. rewrite IH; [lia|]. destruct He as [k Hk]. exists (k - 1)%nat. simpl in Hk. lia.
Qed.

(** The rest of an array from an offset. *)
Lemma drop_two data off (a b : Z) l :
  drop off data = a :: b :: l →
  data !! off = Some a ∧ data !! S off = Some b ∧ drop (S (S off)) data = l.
Proof.
  intros Hd. split_and!.
  - by rewrite <-(Nat.add_0_r off), <-lookup_drop, Hd.
  - by rewrite <-(Nat.add_1_r off), <-lookup_drop, Hd.
  - replace (S (S off)) with (off + 2)%nat by lia. by rewrite <-drop_drop, Hd.
Qed.

Lemma sum_words_ok fuel data off len sum l :
  bytes_at off (length l) data = l → len = Z.of_nat (length l) → Forall is_byte l →
  (length l < fuel)%nat → 0 ≤ sum → sum + words_sum l < 2 ^ 32 →
  ∃ off' len', sum_words fuel data (Z.of_nat off) len sum =
      Ok (sum + words_sum (take (2 * (length l / 2)) l), Z.of_nat off', len') ∧
    len' = Z.of_nat (length l) `mod` 2 ∧ off' = (off + 2 * (length l / 2))%nat.
Proof.
  intros Hat -> Hb Hf Hs Hmax. revert fuel off sum Hat Hf Hs Hmax.
  induction l as [|a|a b l IH] using list_two_ind; intros [|fuel] off sum Hat Hf Hs Hmax;
    try (simpl in Hf; lia).
  - simpl. rewrite Z.add_0_r, Nat.add_0_r. by eexists _, _.
  - simpl. rewrite Z.add_0_r, Nat.add_0_r. by eexists _, _.
  - rewrite !Forall_cons in Hb. destruct Hb as (Ba & Bb & Hl). cbn [sum_words].
    replace (1 <? Z.of_nat (length (a :: b :: l))) with true by (symmetry; apply Z.ltb_lt; simpl; lia).
    assert (data !! off = Some a ∧ data !! S off = Some b) as [Ha Hb'].
    { split; [pose proof (lookup_bytes_at off (length (a :: b :: l)) data 0) as E
             |pose proof (lookup_bytes_at off (length (a :: b :: l)) data 1) as E];
        rewrite Hat, decide_True in E by (simpl; lia); simpl in E; rewrite E; f_equal; lia. }
    rewrite (read_be16_ok data (Z.of_nat off) a b), bind_Ok; [|lia|by rewrite Nat2Z.id| |done..].
    2: { by replace (Z.to_nat (Z.of_nat off + 1)) with (S off) by lia. }
    cbn [words_sum] in Hmax. pose proof (words_sum_bound l Hl) as [Hw _]. unfold is_byte in *.
    rewrite wrap_small by lia.
    replace (Z.of_nat off + 2) with (Z.of_nat (off + 2)) by lia.
    replace (Z.of_nat (length (a :: b :: l)) - 2) with (Z.of_nat (length l)) by (simpl; lia).
    destruct (IH Hl fuel (off + 2)%nat (sum + (256 * a + b))) as (o & n & -> & -> & ->);
      [|simpl in Hf; lia|lia|lia|].
    { unfold bytes_at in *. rewrite Nat.add_comm, Nat.add_comm, <-drop_drop.
      apply (f_equal (drop 2)) in Hat. cbn [length] in Hat.
      rewrite skipn_firstn_comm in Hat. simpl in Hat. by rewrite Nat.sub_0_r in Hat. }
    assert (length (a :: b :: l) / 2 = S (length l / 2))%nat as Hhalf.
    { change (length (a :: b :: l)) with (1 * 2 + length l)%nat. by rewrite Nat.div_add_l. }
    eexists _, _. rewrite Hhalf. split; [|split; [|reflexivity]].
    + replace (2 * S (length l / 2))%nat with (S (S (2 * (length l / 2)))) by lia.
      cbn [take words_sum]. do 3 f_equal; lia.
    + cbn [length]. rewrite !Nat2Z.inj_succ. Z.div_mod_to_equations. lia.
Qed.

Lemma ones_fold_small s : 0 ≤ s < 65536 → ones_fold s = s.
Proof.
  intros Hs. unfold ones_fold. destruct (Z.eqb_spec s 0); [lia|]. rewrite Z.mod_small; lia.
Qed.

(** Adding the carries once does not change the one's complement sum. *)
Lemma ones_fold_carry s : 65536 ≤ s → ones_fold (s `mod` 65536 + s / 65536) = ones_fold s.
Proof.
  intros Hs. unfold ones_fold.
  pose proof (Z.div_mod s 65536 ltac:(lia)). pose proof (Z.mod_pos_bound s 65536 ltac:(lia)).
  assert (1 ≤ s / 65536) by (apply Z.div_le_lower_bound; lia).
  destruct (Z.eqb_spec (s `mod` 65536 + s / 65536) 0); [lia|]. destruct (Z.eqb_spec s 0); [lia|].
  f_equal. replace (s - 1) with (s `mod` 65536 + s / 65536 - 1 + s / 65536 * 65535) by lia.
  by rewrite Z.mod_add by lia.
Qed.

Lemma fold_carry_step fuel s :
  0 ≤ s < 2 ^ 32 →
  fold_carry (S fuel) s =
    if s <? 65536 then Ok s else fold_carry fuel (s `mod` 65536 + s / 65536).
Proof.
  intros Hs. cbn [fold_carry]. rewrite Z.shiftr_div_pow2 by lia. change 65535 with (Z.ones 16).
  rewrite Z.land_ones by lia. change (2 ^ 16) with 65536.
  pose proof (Z.div_mod s 65536 ltac:(lia)). pose proof (Z.mod_pos_bound s 65536 ltac:(lia)).
  destruct (Z.ltb_spec s 65536).
  - rewrite (Z.div_small s 65536) by lia. done.
  - assert (1 ≤ s / 65536) by (apply Z.div_le_lower_bound; lia).
    assert (s / 65536 < 65536) by (apply Z.div_lt_upper_bound; lia).
    rewrite (proj2 (truth_true _)), wrap_small by lia. done.
Qed.

Lemma fold_carry_ok s : 0 ≤ s < 2 ^ 32 → fold_carry 4 s = Ok (ones_fold s).
Proof.
  assert (∀ f s, 0 ≤ s < 65536 → fold_carry (S f) s = Ok (ones_fold s)) as Hsmall.
  { intros f x Hx. rewrite fold_carry_step, (proj2 (Z.ltb_lt x 65536)), ones_fold_small by lia. done. }
  intros Hs. rewrite fold_carry_step by done. destruct (Z.ltb_spec s 65536); [by rewrite ones_fold_small by lia|].
  rewrite <-ones_fold_carry by done. set (s1 := s `mod` 65536 + s / 65536).
  assert (0 ≤ s1 ≤ 131070) as Hs1.
  { subst s1. pose proof (Z.mod_pos_bound s 65536 ltac:(lia)). pose proof (Z.div_pos s 65536 ltac:(lia) ltac:(lia)).
    assert (s / 65536 < 65536) by (apply Z.div_lt_upper_bound; lia). lia. }
  rewrite fold_carry_step by lia. destruct (Z.ltb_spec s1 65536); [by rewrite ones_fold_small by lia|].
  rewrite <-ones_fold_carry by done. apply Hsmall.
  assert (s1 / 65536 = 1) by (symmetry; apply Z.div_unique with (s1 - 65536); lia).
  pose proof (Z.div_mod s1 65536 ltac:(lia)). lia.
Qed.

(** The length up to which the sum cannot wrap. *)
Definition checksum_max : Z := 131072.

Lemma checksum_ok data off len :
  Forall is_byte data → 0 ≤ off → 0 ≤ len ≤ checksum_max → off + len ≤ Z.of_nat (length data) →
  checksum data off len = Ok (ones_checksum (bytes_at (Z.to_nat off) (Z.to_nat len) data)).
Proof.
  intros Hb Ho Hl Hd. unfold checksum, checksum_max in *.
  set (l := bytes_at (Z.to_nat off) (Z.to_nat len) data).
  assert (length l = Z.to_nat len) as Hlen by (apply bytes_at_length; lia).
  assert (Forall is_byte l) as Hbl by by apply bytes_at_bytes.
  pose proof (words_sum_bound l Hbl) as [Hw0 Hw1].
  destruct (sum_words_ok (S (Z.to_nat len)) data (Z.to_nat off) len 0 l) as (o & n & Hsum & -> & ->);
    [by rewrite Hlen|lia|done|lia|lia|lia|].
  rewrite Z2Nat.id in Hsum by lia. rewrite Hsum, bind_Ok, Hlen, Z2Nat.id by lia. clear Hsum.
  rewrite Z.add_0_l. rewrite Hlen in Hw1.
  assert ((if truth (len `mod` 2) then
             b ← get data (Z.of_nat (Z.to_nat off + 2 * (Z.to_nat len / 2)));
             Ok (u32 (words_sum (take (2 * (Z.to_nat len / 2)) l) + u16 (Z.shiftl b 8)))
           else Ok (words_sum (take (2 * (Z.to_nat len / 2)) l))) = Ok (words_sum l)) as ->.
  { set (k := (2 * (Z.to_nat len / 2))%nat).
    pose proof (Nat.div_mod (Z.to_nat len) 2 ltac:(lia)) as Hdm.
    assert (Nat.Even (length (take k l))) as Hev.
    { rewrite length_take, Hlen, Nat.min_l by lia. by exists (Z.to_nat len / 2)%nat. }
    assert (len `mod` 2 = Z.of_nat (Z.to_nat len `mod` 2)%nat) as -> by
      (rewrite Nat2Z.inj_mod, Z2Nat.id by lia; done).
    pose proof (Nat.mod_upper_bound (Z.to_nat len) 2 ltac:(lia)).
    destruct (Z.to_nat len `mod` 2)%nat as [|[|?]] eqn:Hm; [| |lia].
    - simpl. by rewrite take_ge by lia.
    - simpl truth. cbv iota. destruct (lookup_lt_is_Some_2 l k) as [b Hlk]; [lia|].
      rewrite (get_lookup data _ b), bind_Ok; [|lia|].
      2: { subst l. rewrite lookup_bytes_at in Hlk. case_decide; [|done]. by rewrite Nat2Z.id. }
      pose proof (proj1 (Forall_lookup _ _) Hbl k b Hlk) as Bb. unfold is_byte in Bb.
      rewrite Z.shiftl_mul_pow2 by lia. rewrite (wrap_small 16) by lia.
      assert (words_sum l = words_sum (take k l) + 256 * b) as Hsplit.
      { rewrite <-(take_drop k l) at 1. rewrite words_sum_app by done.
        erewrite drop_S by exact Hlk. by rewrite (drop_ge l (S k)) by lia. }
      pose proof (words_sum_bound (take k l) (Forall_take _ _ _ Hbl)).
      rewrite wrap_small by lia. f_equal. lia. }
  rewrite bind_Ok, fold_carry_ok, bind_Ok by lia. f_equal. unfold ones_checksum.
  assert (0 ≤ ones_fold (words_sum l) < 65536) as Hfold.
  { unfold ones_fold. destruct (_ =? _); [lia|]. pose proof (Z.mod_pos_bound (words_sum l - 1) 65535). lia. }
  unfold wrap. rewrite <-(Z.mod_small (65535 - ones_fold (words_sum l)) (2 ^ 16)) by lia.
  rewrite <-(Z.mod_add (Z.lnot _) 1) by lia. f_equal. unfold Z.lnot. lia.
Qed.

(** ** Filling the checksum field in *)

Lemma ones_fold_bound s : 0 ≤ s → 0 ≤ ones_fold s ≤ 65535.
Proof.
  intros Hs. unfold ones_fold. destruct (Z.eqb_spec s 0); [lia|].
  pose proof (Z.mod_pos_bound (s - 1) 65535). lia.
Qed.

Lemma ones_checksum_bound l : Forall is_byte l → 0 ≤ ones_checksum l < 65536.
Proof.
  intros Hl. unfold ones_checksum. pose proof (words_sum_bound l Hl).
  pose proof (ones_fold_bound (words_sum l)). lia.
Qed.

Lemma be16_bytes_bytes v : 0 ≤ v < 65536 → Forall is_byte (be16_bytes v).
Proof.
  intros Hv. unfold be16_bytes, is_byte. rewrite !Forall_cons, Forall_nil.
  split; [split; [apply Z.div_pos; lia|apply Z.div_lt_upper_bound; lia]|].
  split; [apply Z.mod_pos_bound; lia|done].
Qed.

(** Writing a word over a zero word at an even offset adds it to the sum. *)
Lemma words_sum_patch k v l :
  Nat.Even k → (k + 2 ≤ length l)%nat → bytes_at k 2 l = [0; 0] →
  words_sum (patch k (be16_bytes v) l) = words_sum l + v.
Proof.
  intros He Hl Hz. unfold patch. simpl length.
  assert (Nat.Even (length (take k l))) as Ht.
  { rewrite length_take, Nat.min_l by lia.
    exact He. }
  replace (words_sum l) with (words_sum (take k l ++ drop k l)) by by rewrite take_drop.
  rewrite !words_sum_app by done.
  assert (drop k l = 0 :: 0 :: drop (k + 2) l) as ->.
  { rewrite <-(take_drop 2 (drop k l)), drop_drop. unfold bytes_at in Hz. by rewrite Hz. }
  unfold be16_bytes. cbn [app]. rewrite !words_sum_two. pose proof (Z.div_mod v 256 ltac:(lia)).
  rewrite words_sum_app, words_sum_two by done. lia.
Qed.

Lemma ones_checksum_filled k l :
  Forall is_byte l → Nat.Even k → (k + 2 ≤ length l)%nat → bytes_at k 2 l = [0; 0] →
  ones_checksum (patch k (be16_bytes (ones_checksum l)) l) = 0.
Proof.
  intros Hb He Hl Hz. unfold ones_checksum at 1. rewrite words_sum_patch by done.
  unfold ones_checksum. pose proof (words_sum_bound l Hb) as [Hw _]. unfold ones_fold at 2.
  destruct (Z.eqb_spec (words_sum l) 0) as [->|Hn]; [done|].
  pose proof (Z.mod_pos_bound (words_sum l - 1) 65535 ltac:(lia)) as Hm.
  pose proof (Z.div_mod (words_sum l - 1) 65535 ltac:(lia)) as Hd.
  set (q := (words_sum l - 1) / 65535) in *. set (r := (words_sum l - 1) `mod` 65535) in *.
  replace (words_sum l + (65535 - (r + 1))) with (65535 - 1 + q * 65535 + 1) by lia.
  unfold ones_fold. assert (0 ≤ q) by (apply Z.div_pos; lia).
  destruct (Z.eqb_spec (65535 - 1 + q * 65535 + 1) 0); [lia|].
  replace (65535 - 1 + q * 65535 + 1 - 1) with (65534 + q * 65535) by lia.
  rewrite Z.mod_add by lia. done.
Qed.

(** C27: [checksum] is the Internet checksum: on any part of a frame, of any
    length up to 131072 bytes, odd or even, it returns the one's complement of
    the one's complement sum of the big-endian words; and when the part has a
    zero field of 16 bits at an even offset, writing the checksum there makes
    the checksum of the whole part zero, which is what a receiver tests. *)
Theorem checksum_is_ones_complement data off len :
  Forall is_byte data → 0 ≤ off → 0 ≤ len ≤ checksum_max → off + len ≤ Z.of_nat (length data) →
  let c := ones_checksum (bytes_at (Z.to_nat off) (Z.to_nat len) data) in
  checksum data off len = Ok c ∧
  ∀ k, Nat.Even k → Z.of_nat k + 2 ≤ len → bytes_at (Z.to_nat off + k) 2 data = [0; 0] →
    ∃ data', write_be16 (off + Z.of_nat k) c data = Ok data' ∧ checksum data' off len = Ok 0.
Proof.
  intros Hb Ho Hl Hd c. set (l := bytes_at (Z.to_nat off) (Z.to_nat len) data) in *. split; [by apply checksum_ok|]. intros k He Hk Hz.
  assert (Forall is_byte l) as Hbl by by apply bytes_at_bytes.
  assert (length l = Z.to_nat len) as Hlen by (apply bytes_at_length; lia).
  pose proof (ones_checksum_bound l Hbl) as Hc.
  exists (patch (Z.to_nat off + k) (be16_bytes (ones_checksum l)) data). split.
  { unfold c. rewrite write_be16_ok by lia. do 2 f_equal. lia. }
  rewrite checksum_ok; [|by apply patch_bytes; [apply be16_bytes_bytes|]|done|done|].
  2: { rewrite patch_length by (simpl; lia). lia. }
  f_equal. rewrite <-(ones_checksum_filled k l); [|done|done|lia|].
  2: { subst l. by rewrite bytes_at_bytes_at by lia. }
  f_equal. apply bytes_at_patch_in; simpl; lia.
Qed.

Lemma checksum_is_ones_complement_witness :
  checksum [69; 0; 0; 28; 0; 0; 7] 0 7 = Ok 46051 ∧
  ∃ data', write_be16 4 46051 [69; 0; 0; 28; 0; 0; 7] = Ok data' ∧ checksum data' 0 7 = Ok 0.
Proof.
  destruct (checksum_is_ones_complement [69; 0; 0; 28; 0; 0; 7] 0 7) as [Hc Hz].
  - repeat constructor; vm_compute; congruence.
  - lia.
  - unfold checksum_max. lia.
  - simpl. lia.
  - split; [exact Hc|]. apply (Hz 4%nat); [by exists 2%nat|lia|reflexivity].
Defined.
