(* ===== verification/Netif.v ===== *)
(** * The lwIP network interface

    src/mipos/net/lwip/mipos_lwip_netif.c: the adapter between lwIP and a link
    that carries whole Ethernet frames.  lwIP itself is not part of the
    sources: its functions are the class [LwipOps] over its state [L], packet
    buffers [P] and addresses [I], and what its documentation says of buffer
    ownership and of the link callback is the class [Lwip].  Functions of lwIP
    that send frames call the interface's [linkoutput] back; they are given
    that function, which acts on the state [A] of the link. *)

From S2P Require Import Prelude Bytes.

(** The codes of lwIP's [err_t] the sources name, and the others. *)
Inductive err_t := ERR_OK | ERR_MEM | ERR_IF | ERR_ARG | ERR_OTHER (n : Z).

#[global] Instance err_t_eq_dec : EqDecision err_t.
Proof. solve_decision. Defined.

(** The fields of [struct netif] the adapter sets. *)
Inductive netif_flag := NETIF_FLAG_BROADCAST | NETIF_FLAG_ETHARP | NETIF_FLAG_LINK_UP.

Record netif := mk_netif {
  netif_name : list Z;
  netif_mtu : Z;
  netif_hwaddr_len : Z;
  netif_hwaddr : list Z;
  netif_flags : list netif_flag;
}.

Definition zero_netif : netif := mk_netif [0; 0] 0 0 (replicate 6 0) [].

(** [linkoutput] as lwIP calls it: a packet buffer, lwIP's state to read it
    from, the state of the link. *)
Abbreviation linkoutput_fn L P A := (P → L → A → res (err_t * A)).

Class LwipOps (L P I : Type) := {
  pbuf_alloc : Z → L → option P * L;
  pbuf_take : P → list Z → L → err_t * L;
  pbuf_free : P → L → L;
  tot_len : P → L → Z;
  pbuf_copy_partial : P → Z → L → list Z;
  netif_add : I → I → I → (netif → err_t * netif) → L → option netif * L;
  netif_set_default : L → L;
  netif_set_up : L → L;
  netif_set_link_up : L → L;
  netif_input : ∀ {A}, linkoutput_fn L P A → P → L → A → res (err_t * L * A);
  sys_check_timeouts : ∀ {A}, linkoutput_fn L P A → L → A → res (L * A);
}.

(** [mipos_lwip_netif_t]: [link_output] gets a frame and its length and acts
    on the state behind [link_output_ctx]. *)
Record mipos_lwip_netif_t (A : Type) := mk_iface {
  if_netif : netif;
  if_hwaddr : list Z;
  link_output : option (list Z → Z → A → res (err_t * A));
}.
Arguments mk_iface {A} _ _ _.
Arguments if_netif {A} _.
Arguments if_hwaddr {A} _.
Arguments link_output {A} _.

Definition FRAME_MAX : Z := 1536.

Section netif.
Context {L P I : Type} `{LwipOps L P I} {A : Type}.

(** The bytes past the copied ones are not initialised: the frame is passed as
    exactly what was copied. *)
Definition mipos_lwip_low_level_output (iface : option (mipos_lwip_netif_t A)) (p : P) (l : L) (a : A)
    : res (err_t * A) :=
  match iface with
  | None => Ok (ERR_IF, a)
  | Some i =>
      match link_output i with
      | None => Ok (ERR_IF, a)
      | Some out =>
          if FRAME_MAX <? tot_len p l then Ok (ERR_IF, a) else
          let frame := pbuf_copy_partial p (tot_len p l) l in
          let copied := Z.of_nat (length frame) in
          if negb (copied =? tot_len p l) then Ok (ERR_IF, a) else out frame copied a
      end
  end.

Definition mipos_lwip_low_level_init (hwaddr : list Z) (n : netif) : err_t * netif :=
  (ERR_OK, mk_netif [109; 112] 1500 6 (take 6 hwaddr)
     [NETIF_FLAG_BROADCAST; NETIF_FLAG_ETHARP; NETIF_FLAG_LINK_UP]).

(** Returns the code, the interface as it is left, and lwIP's state. *)
Definition mipos_lwip_netif_open (iface : option (mipos_lwip_netif_t A)) (hwaddr : option (list Z))
    (ipaddr netmask gateway : option I) (out : option (list Z → Z → A → res (err_t * A))) (l : L)
    : err_t * option (mipos_lwip_netif_t A) * L :=
  match iface, hwaddr, ipaddr, netmask, gateway, out with
  | Some _, Some hw, Some ip, Some nm, Some gw, Some out =>
      let i := mk_iface zero_netif (take 6 hw) (Some out) in
      let '(added, l) := netif_add ip nm gw (mipos_lwip_low_level_init (if_hwaddr i)) l in
      match added with
      | None => (ERR_IF, Some i, l)
      | Some n =>
          (ERR_OK, Some (mk_iface n (if_hwaddr i) (link_output i)),
           netif_set_link_up (netif_set_up (netif_set_default l)))
      end
  | _, _, _, _, _, _ => (ERR_ARG, iface, l)
  end.

Definition mipos_lwip_netif_input (iface : option (mipos_lwip_netif_t A)) (frame : option (list Z))
    (frame_len : Z) (l : L) (a : A) : res (err_t * L * A) :=
  match iface, frame with
  | Some i, Some frame =>
      if frame_len =? 0 then Ok (ERR_ARG, l, a) else
      let '(p, l) := pbuf_alloc frame_len l in
      match p with
      | None => Ok (ERR_MEM, l, a)
      | Some p =>
          if Z.of_nat (length frame) <? frame_len then Fault OutOfBounds else
          let '(e, l) := pbuf_take p (take (Z.to_nat frame_len) frame) l in
          if decide (e ≠ ERR_OK) then Ok (ERR_MEM, pbuf_free p l, a) else
          '(e, l, a) ← netif_input (mipos_lwip_low_level_output iface) p l a;
          Ok (e, if decide (e ≠ ERR_OK) then pbuf_free p l else l, a)
      end
  | _, _ => Ok (ERR_ARG, l, a)
  end.

Definition mipos_lwip_netif_poll (iface : option (mipos_lwip_netif_t A)) (l : L) (a : A)
    : res (L * A) := sys_check_timeouts (mipos_lwip_low_level_output iface) l a.
End netif.

(** ** What lwIP promises *)

(** [owned l]: the packet buffers the caller of lwIP has to give back.  A
    buffer passed to [netif_input] is taken over exactly when it returns
    [ERR_OK].  The state of the link is reached through [linkoutput] only: what
    that function keeps, and never faults under, is kept. *)
Class Lwip (L P I : Type) `{LwipOps L P I} `{Countable P} := {
  owned : L → gset P;
  pbuf_alloc_ok n l p l' :
    pbuf_alloc n l = (p, l') →
    match p with Some p => (p ∉ owned l) ∧ owned l' = {[p]} ∪ owned l | None => owned l' = owned l end;
  pbuf_take_ok p bs l : p ∈ owned l → owned (pbuf_take p bs l).2 = owned l;
  pbuf_free_ok p l : p ∈ owned l → owned (pbuf_free p l) = owned l ∖ {[p]};
  pbuf_copy_bytes p n l : Forall is_byte (pbuf_copy_partial p n l);
  netif_input_ok {A} (Inv : A → Prop) (out : linkoutput_fn L P A) p l a :
    p ∈ owned l → Inv a → (∀ q l a, Inv a → ∃ e a', out q l a = Ok (e, a') ∧ Inv a') →
    ∃ e l' a', netif_input out p l a = Ok (e, l', a') ∧ Inv a' ∧
      owned l' = if decide (e = ERR_OK) then owned l ∖ {[p]} else owned l;
  sys_check_timeouts_ok {A} (Inv : A → Prop) (out : linkoutput_fn L P A) l a :
    Inv a → (∀ q l a, Inv a → ∃ e a', out q l a = Ok (e, a') ∧ Inv a') →
    ∃ l' a', sys_check_timeouts out l a = Ok (l', a') ∧ Inv a' ∧ owned l' = owned l;
}.

(** What the state of a link has to keep for its output function. *)
Definition keeps {A} (Inv : A → Prop) (i : mipos_lwip_netif_t A) : Prop :=
  match link_output i with
  | Some out => ∀ frame a, Forall is_byte frame → Z.of_nat (length frame) ≤ FRAME_MAX → Inv a →
      ∃ e a', out frame (Z.of_nat (length frame)) a = Ok (e, a') ∧ Inv a'
  | None => True
  end.

Section props.
Context {L P I : Type} `{Lwip L P I} {A : Type}.

Lemma low_level_output_keeps (Inv : A → Prop) i (p : P) (l : L) a :
  keeps Inv i → Inv a → ∃ e a', mipos_lwip_low_level_output (Some i) p l a = Ok (e, a') ∧ Inv a'.
Proof.
  unfold keeps. intros Hk Ha. simpl. destruct (link_output i) as [out|]; [|by eexists _, _].
  destruct (Z.ltb_spec FRAME_MAX (tot_len p l)); [by eexists _, _|].
  destruct (Z.eqb_spec (Z.of_nat (length (pbuf_copy_partial p (tot_len p l) l))) (tot_len p l)) as [He|];
    simpl; [|by eexists _, _]. apply Hk; [apply pbuf_copy_bytes| |done]. by rewrite He.
Qed.

(** The delivery of one frame. *)
Lemma netif_input_keeps (Inv : A → Prop) (i : mipos_lwip_netif_t A) frame n (l : L) a :
  keeps Inv i → Inv a → n ≤ Z.of_nat (length frame) →
  ∃ e l' a', mipos_lwip_netif_input (Some i) (Some frame) n l a = Ok (e, l', a') ∧
    owned l' = owned l ∧ Inv a'.
Proof.
  intros Hk Ha Hn. cbn [mipos_lwip_netif_input]. destruct (n =? 0); [by eexists _, _, _|].
  destruct (pbuf_alloc n l) as [p l1] eqn:Halloc. apply pbuf_alloc_ok in Halloc.
  destruct p as [p|]; [|by eexists _, _, _]. destruct Halloc as [Hp Ho].
  rewrite (proj2 (Z.ltb_ge _ n)) by lia.
  assert (p ∈ owned l1) as Hin by (rewrite Ho; set_solver).
  destruct (pbuf_take p (take (Z.to_nat n) frame) l1) as [e l2] eqn:Htake.
  pose proof (pbuf_take_ok p (take (Z.to_nat n) frame) l1 Hin) as Ho2. rewrite Htake in Ho2. simpl in Ho2.
  assert (owned l2 ∖ {[p]} = owned l) as Hdiff by (rewrite Ho2, Ho; set_solver).
  case_decide.
  - eexists _, _, _. split; [reflexivity|]. rewrite pbuf_free_ok by (rewrite Ho2; done). done.
  - destruct (netif_input_ok Inv (mipos_lwip_low_level_output (Some i)) p l2 a) as (e' & l3 & a' & -> & Ha' & Ho3);
      [by rewrite Ho2|done|intros; by apply low_level_output_keeps|].
    rewrite bind_Ok. eexists _, _, _. split; [reflexivity|]. split; [|done].
    destruct (decide (e' = ERR_OK)) as [He|He].
    + rewrite decide_False by tauto. by rewrite Ho3.
    + rewrite decide_True by done. rewrite pbuf_free_ok by (rewrite Ho3, Ho2; done). by rewrite Ho3.
Qed.

(** C28: the adapter leaks no packet buffer and frees none twice: whatever
    the frame and whichever of the allocation, the copy and the delivery
    fails, [mipos_lwip_netif_input] returns, the buffers to be given back
    afterwards are those of before, and everything the link function keeps is
    kept by the frames lwIP sends meanwhile; the same holds of
    [mipos_lwip_netif_poll], which lets lwIP send on a timeout. *)
Theorem netif_balanced (Inv : A → Prop) (i : mipos_lwip_netif_t A) frame n (l : L) a :
  keeps Inv i → Inv a → n ≤ Z.of_nat (length frame) →
  (∃ e l' a', mipos_lwip_netif_input (Some i) (Some frame) n l a = Ok (e, l', a') ∧
     owned l' = owned l ∧ Inv a') ∧
  (∃ l' a', mipos_lwip_netif_poll (Some i) l a = Ok (l', a') ∧ owned l' = owned l ∧ Inv a').
Proof.
  intros Hk Ha Hn. split; [by apply netif_input_keeps|]. unfold mipos_lwip_netif_poll.
  destruct (sys_check_timeouts_ok Inv (mipos_lwip_low_level_output (Some i)) l a) as (l' & a' & -> & Ha' & Ho);
    [done|intros; by apply low_level_output_keeps|]. by exists l', a'.
Qed.
End props.

(** ** A stack that sends every frame it is given back *)

Record loopback := mk_loopback { lb_bufs : gmap nat (list Z); lb_owned : gset nat }.

#[global] Instance loopback_ops {I} : LwipOps loopback nat I := {
  pbuf_alloc _ l :=
    let p := fresh (lb_owned l) in (Some p, mk_loopback (lb_bufs l) ({[p]} ∪ lb_owned l));
  pbuf_take p bs l := (ERR_OK, mk_loopback (<[p := bs]> (lb_bufs l)) (lb_owned l));
  pbuf_free p l := mk_loopback (delete p (lb_bufs l)) (lb_owned l ∖ {[p]});
  tot_len p l := Z.of_nat (length (default [] (lb_bufs l !! p)));
  pbuf_copy_partial p n l := wrap 8 <$> take (Z.to_nat n) (default [] (lb_bufs l !! p));
  netif_add _ _ _ init l := (Some (init zero_netif).2, l);
  netif_set_default l := l;
  netif_set_up l := l;
  netif_set_link_up l := l;
  netif_input A out p l a :=
    '(_, a) ← out p l a;
    Ok (ERR_OK, mk_loopback (delete p (lb_bufs l)) (lb_owned l ∖ {[p]}), a);
  sys_check_timeouts A out l a := Ok (l, a);
}.

#[global] Instance loopback_lwip {I} : Lwip loopback nat I.
Proof.
  refine {| owned := lb_owned |}.
  - intros n l p l' [= <- <-]. simpl. split; [apply is_fresh|done].
  - done.
  - done.
  - intros p n l. apply Forall_fmap, Forall_true. intros b. apply (wrap_bound 8). lia.
  - intros A Inv out p l a Hp Ha Hout. destruct (Hout p l a Ha) as (e & a' & Ho & Ha').
    exists ERR_OK. simpl. rewrite Ho. eexists _, a'. split; [reflexivity|]. done.
  - intros A Inv out l a Ha Hout. by exists l, a.
Defined.

(** A link that records what it is given. *)
Definition recorder : mipos_lwip_netif_t (list (list Z)) :=
  mk_iface zero_netif (replicate 6 0) (Some (λ frame _ sent, Ok (ERR_OK, sent ++ [frame]))).

Lemma netif_balanced_witness :
  ∃ e l' a', mipos_lwip_netif_input (I := unit) (Some recorder) (Some [1; 2; 3]) 2
        (mk_loopback ∅ {[0%nat]}) [] = Ok (e, l', a') ∧ lb_owned l' = {[0%nat]} ∧ Forall (λ f : list Z, Z.of_nat (length f) ≤ FRAME_MAX) a'.
Proof.
  destruct (netif_balanced (I := unit) (Forall (λ f : list Z, Z.of_nat (length f) ≤ FRAME_MAX)) recorder
    [1; 2; 3] 2 (mk_loopback ∅ {[0%nat]}) []) as [(e & l' & a' & He & Ho & Ha) _].
  - intros frame a _ Hl Ha. eexists _, _. split; [reflexivity|]. apply Forall_app. split; [exact Ha|].
    by constructor.
  - constructor.
  - simpl. lia.
  - exists e, l', a'. split; [exact He|]. split; [exact Ho|exact Ha].
Defined.
