(* ===== verification/NetConsole.v ===== *)
(** * The network console of the QEMU board

    src/examples/qemu-arm/net-console/main.c: a link whose other end is a peer
    simulated in memory.  Every frame lwIP sends reaches [peer_link_output],
    which answers ARP and ICMP echo requests for the peer by queueing a reply;
    [net_task] gives the queued frames to lwIP.  Commands print and send.

    IP addresses are lwIP's: a parameter (class [Ip4Ops]).  Text put on the
    serial line is collected in [net_out].  A frame is passed with exactly the
    bytes it has; the arrays of replies are modelled up to the length in use,
    so that touching what was not filled in is a fault. *)

From S2P Require Import Prelude Bytes Cstdio Frames Netif.

Class Ip4Ops (I : Type) := {
  IP4_ADDR : Z → Z → Z → Z → I;
  ip4_addr1 : I → Z;
  ip4_addr2 : I → Z;
  ip4_addr3 : I → Z;
  ip4_addr4 : I → Z;
  ip4_and : I → I → I;
  ip4_addr_netcmp : I → I → I → bool;
}.

Definition NET_FRAME_MAX : Z := 1536.
Definition NET_PENDING_MAX : Z := 4.
Definition ICMP_ER : Z := 0.

Definition k_mipos_mac : list Z := [2; 0; 0; 0; 0; 1].
Definition k_peer_mac : list Z := [2; 0; 0; 0; 0; 2].

(** [pending_frame_t]: the array and the length in use. *)
Record pending_frame_t := mk_pending { pf_data : list Z; pf_len : Z }.

(** [net_app_t] without the interface and lwIP's pcb, and the serial line. *)
Record net_app (I : Type) := mk_app {
  app_ip : I;
  app_netmask : I;
  app_gateway : I;
  app_peer_ip : I;
  pending : list pending_frame_t;
  pending_count : Z;
  rx_count : Z;
  tx_count : Z;
  dropped_count : Z;
  ping_id : Z;
  ping_seq : Z;
  net_out : list Z;
}.
Arguments mk_app {I} _ _ _ _ _ _ _ _ _ _ _ _.
Arguments app_ip {I} _.
Arguments app_netmask {I} _.
Arguments app_gateway {I} _.
Arguments app_peer_ip {I} _.
Arguments pending {I} _.
Arguments pending_count {I} _.
Arguments rx_count {I} _.
Arguments tx_count {I} _.
Arguments dropped_count {I} _.
Arguments ping_id {I} _.
Arguments ping_seq {I} _.
Arguments net_out {I} _.

Section console.
Context {I : Type} `{Ip4Ops I}.

Implicit Types (app : net_app I).

Definition set_pending (ps : list pending_frame_t) (n : Z) (app : net_app I) : net_app I :=
  mk_app (app_ip app) (app_netmask app) (app_gateway app) (app_peer_ip app) ps n (rx_count app)
    (tx_count app) (dropped_count app) (ping_id app) (ping_seq app) (net_out app).
Definition set_counts (rx tx dropped : Z) (app : net_app I) : net_app I :=
  mk_app (app_ip app) (app_netmask app) (app_gateway app) (app_peer_ip app) (pending app)
    (pending_count app) rx tx dropped (ping_id app) (ping_seq app) (net_out app).
Definition set_ping_seq (v : Z) (app : net_app I) : net_app I :=
  mk_app (app_ip app) (app_netmask app) (app_gateway app) (app_peer_ip app) (pending app)
    (pending_count app) (rx_count app) (tx_count app) (dropped_count app) (ping_id app) v (net_out app).

Definition net_puts (s : list Z) (app : net_app I) : net_app I :=
  mk_app (app_ip app) (app_netmask app) (app_gateway app) (app_peer_ip app) (pending app)
    (pending_count app) (rx_count app) (tx_count app) (dropped_count app) (ping_id app) (ping_seq app)
    (net_out app ++ s).

Definition ip4_bytes (ip : I) : list Z := [ip4_addr1 ip; ip4_addr2 ip; ip4_addr3 ip; ip4_addr4 ip].

(** ** Text *)

Definition fmt_ip (a b c d : Z) : list Z :=
  fmt_dec 0 a ++ [46] ++ fmt_dec 0 b ++ [46] ++ fmt_dec 0 c ++ [46] ++ fmt_dec 0 d.
Definition fmt_ip4 (ip : I) : list Z := fmt_ip (ip4_addr1 ip) (ip4_addr2 ip) (ip4_addr3 ip) (ip4_addr4 ip).
Definition fmt_mac (mac : list Z) : list Z :=
  match mac with
  | a :: mac => fmt_hex false 2 a ++ mjoin ((λ b, 58 :: fmt_hex false 2 b) <$> mac)
  | [] => []
  end.

Definition print_ip4 (label : list Z) (ip : I) (app : net_app I) : res (net_app I) :=
  buf ← sprintf 64 (label ++ fmt_ip4 ip ++ [13; 10]); Ok (net_puts buf app).

Definition print_mac (label mac : list Z) (app : net_app I) : res (net_app I) :=
  buf ← sprintf 64 (label ++ fmt_mac mac ++ [13; 10]); Ok (net_puts buf app).

(** [sscanf] of "%u.%u.%u.%u", with the 32-bit [unsigned long] of the board. *)
Definition parse_ip4 (text : list Z) : option I :=
  '(a, l) ← scan_u 32 text;
  match l with 46 :: l => '(b, l) ← scan_u 32 l;
  match l with 46 :: l => '(c, l) ← scan_u 32 l;
  match l with 46 :: l => '(d, l) ← scan_u 32 l;
    if (255 <? a) || (255 <? b) || (255 <? c) || (255 <? d) then None else Some (IP4_ADDR a b c d)
  | _ => None end | _ => None end | _ => None end.

(** ** The peer *)

Definition ip4_equals_bytes (ip : I) (frame : list Z) (off : Z) : res bool :=
  a ← get frame off;
  if negb (ip4_addr1 ip =? a) then Ok false else
  b ← get frame (off + 1);
  if negb (ip4_addr2 ip =? b) then Ok false else
  c ← get frame (off + 2);
  if negb (ip4_addr3 ip =? c) then Ok false else
  d ← get frame (off + 3);
  Ok (ip4_addr4 ip =? d).

Definition queue_frame (data : list Z) (len : Z) (app : net_app I) : res (net_app I) :=
  if (NET_FRAME_MAX <? len) || (NET_PENDING_MAX <=? pending_count app) then
    Ok (set_counts (rx_count app) (tx_count app) (u32 (dropped_count app + 1)) app)
  else
    slot ← of_lookup (pending app !! Z.to_nat (pending_count app));
    bytes ← copy 0 data 0 len (pf_data slot);
    Ok (set_pending (<[Z.to_nat (pending_count app) := mk_pending bytes len]> (pending app))
          (u32 (pending_count app + 1)) app).

Definition make_arp_reply (request : list Z) (app : net_app I) : res (net_app I) :=
  let peer_ip := ip4_bytes (app_peer_ip app) in
  let reply := replicate 42 0 in
  reply ← copy 0 k_mipos_mac 0 6 reply;
  reply ← copy 6 k_peer_mac 0 6 reply;
  reply ← write_be16 12 2054 reply;
  reply ← write_be16 14 1 reply;
  reply ← write_be16 16 2048 reply;
  reply ← put 18 6 reply;
  reply ← put 19 4 reply;
  reply ← write_be16 20 2 reply;
  reply ← copy 22 k_peer_mac 0 6 reply;
  reply ← copy 28 peer_ip 0 4 reply;
  reply ← copy 32 request 22 6 reply;
  reply ← copy 38 request 28 4 reply;
  queue_frame reply 42 app.

Definition make_icmp_echo_reply (request : list Z) (len : Z) (app : net_app I) : res (net_app I) :=
  if (NET_FRAME_MAX <? len) || (len <? 42) then Ok app else
  reply ← copy 0 request 0 len (replicate (Z.to_nat len) 0);
  reply ← copy 0 k_mipos_mac 0 6 reply;
  reply ← copy 6 k_peer_mac 0 6 reply;
  let ip := 14 in
  b ← get reply ip;
  let ihl := Z.land b 15 * 4 in
  if (ihl <? 20) || (len <? ip + ihl + 8) then Ok app else
  total_len ← read_be16 reply (ip + 2);
  if (total_len <? ihl + 8) || (len <? ip + total_len) then Ok app else
  reply ← copy (ip + 12) request (ip + 16) 4 reply;
  reply ← copy (ip + 16) request (ip + 12) 4 reply;
  reply ← write_be16 (ip + 10) 0 reply;
  c ← checksum reply ip ihl;
  reply ← write_be16 (ip + 10) c reply;
  let icmp := ip + ihl in
  reply ← put icmp 0 reply;
  reply ← put (icmp + 1) 0 reply;
  reply ← write_be16 (icmp + 2) 0 reply;
  c ← checksum reply icmp (total_len - ihl);
  reply ← write_be16 (icmp + 2) c reply;
  queue_frame reply len app.

Definition frame_targets_peer (app : net_app I) (frame : list Z) (off : Z) : res bool :=
  b ← ip4_equals_bytes (app_peer_ip app) frame off;
  if (b : bool) then Ok true else ip4_equals_bytes (app_gateway app) frame off.

(** The two conditions of [peer_link_output]. *)
Definition is_arp_request (app : net_app I) (frame : list Z) (len : Z) : res bool :=
  if len <? 42 then Ok false else
  t ← read_be16 frame 12;
  if negb (t =? 2054) then Ok false else
  op ← read_be16 frame 20;
  if negb (op =? 1) then Ok false else frame_targets_peer app frame 38.

Definition is_echo_request (app : net_app I) (frame : list Z) (len : Z) : res bool :=
  if len <? 42 then Ok false else
  t ← read_be16 frame 12;
  if negb (t =? 2048) then Ok false else
  p ← get frame 23;
  if negb (p =? 1) then Ok false else
  k ← get frame 34;
  if negb (k =? 8) then Ok false else frame_targets_peer app frame 30.

Definition peer_link_output (frame : list Z) (len : Z) (app : net_app I) : res (err_t * net_app I) :=
  let app := set_counts (rx_count app) (u32 (tx_count app + 1)) (dropped_count app) app in
  arp ← is_arp_request app frame len;
  if (arp : bool) then app ← make_arp_reply frame app; Ok (ERR_OK, app) else
  echo ← is_echo_request app frame len;
  if (echo : bool) then app ← make_icmp_echo_reply frame len app; Ok (ERR_OK, app) else
  Ok (ERR_OK, app).

(** ** Receiving *)

Definition prompt : list Z := str "mipOS-net>".

Definition ping_message (a b c d seq n : Z) : list Z :=
  str "ping reply from " ++ fmt_ip a b c d ++ str " seq=" ++ fmt_dec 0 seq ++ str " bytes=" ++
  fmt_dec 0 n ++ [13; 10].

Definition report_icmp_echo_reply (frame : list Z) (len : Z) (app : net_app I) : res (net_app I) :=
  if len <? 42 then Ok app else
  t ← read_be16 frame 12;
  if negb (t =? 2048) then Ok app else
  p ← get frame 23;
  if negb (p =? 1) then Ok app else
  let ip := 14 in
  b ← get frame ip;
  let ihl := Z.land b 15 * 4 in
  if (ihl <? 20) || (len <? ip + ihl + 8) then Ok app else
  let icmp := ip + ihl in
  k ← get frame icmp;
  if negb (k =? ICMP_ER) then Ok app else
  mine ← ip4_equals_bytes (app_ip app) frame (ip + 16);
  if negb (mine : bool) then Ok app else
  id ← read_be16 frame (icmp + 4);
  seq ← read_be16 frame (icmp + 6);
  if negb (id =? ping_id app) then Ok app else
  a ← get frame (ip + 12);
  b ← get frame (ip + 13);
  c ← get frame (ip + 14);
  d ← get frame (ip + 15);
  n ← read_be16 frame (ip + 2);
  buf ← sprintf 96 (ping_message a b c d seq (u32 (n - ihl)));
  Ok (net_puts prompt (net_puts buf app)).

(** The callback of the raw ICMP control block: [p] is the buffer's contents,
    [addr] the sender when it has an IPv4 address.  1 says that the buffer was
    taken, and freed. *)
Definition ping_recv (p : option (list Z)) (addr : option I) (app : net_app I) : res (Z * net_app I) :=
  match p, addr with
  | Some p, Some ip4 =>
      if Z.of_nat (length p) <? 8 then Ok (0, app) else
      k ← get p 0;
      if negb (k =? ICMP_ER) then Ok (0, app) else
      id ← read_be16 p 4;
      seq ← read_be16 p 6;
      if negb (id =? ping_id app) then Ok (0, app) else
      buf ← sprintf 96 (ping_message (ip4_addr1 ip4) (ip4_addr2 ip4) (ip4_addr3 ip4) (ip4_addr4 ip4)
                          seq (Z.of_nat (length p)));
      Ok (1, net_puts prompt (net_puts buf app))
  | _, _ => Ok (0, app)
  end.

(** The frames shifted down by one place, [n] of them from place [i] on. *)
Fixpoint shift_pending (n i : nat) (ps : list pending_frame_t) : res (list pending_frame_t) :=
  match n with
  | O => Ok ps
  | S n => x ← of_lookup (ps !! S i); shift_pending n (S i) (<[i := x]> ps)
  end.

(** The first half of the inner loop of [net_task]: the oldest frame is taken
    and counted. *)
Definition take_pending (app : net_app I) : res (pending_frame_t * net_app I) :=
  frame ← of_lookup (pending app !! 0%nat);
  let remaining := pending_count app - 1 in
  ps ← shift_pending (Z.to_nat remaining) 0 (pending app);
  let app := set_pending ps remaining app in
  Ok (frame, set_counts (u32 (rx_count app + 1)) (tx_count app) (dropped_count app) app).

Section stack.
Context {L P : Type} `{LwipOps L P I} (iface : mipos_lwip_netif_t (net_app I)).

(** The body of the inner loop of [net_task]. *)
Definition net_step (l : L) (app : net_app I) : res (L * net_app I) :=
  '(frame, app) ← take_pending app;
  app ← report_icmp_echo_reply (pf_data frame) (pf_len frame) app;
  '(_, l, app) ← mipos_lwip_netif_input (Some iface) (Some (pf_data frame)) (pf_len frame) l app;
  Ok (l, app).

(** The inner loop; the fuel bounds the frames handled. *)
Fixpoint net_drain (fuel : nat) (l : L) (app : net_app I) : res (L * net_app I) :=
  if pending_count app =? 0 then Ok (l, app) else
  match fuel with
  | O => Fault OutOfFuel
  | S fuel => '(l, app) ← net_step l app; net_drain fuel l app
  end.

(** One round of [net_task], up to its sleep. *)
Definition net_task_round (fuel : nat) (l : L) (app : net_app I) : res (L * net_app I) :=
  '(l, app) ← net_drain fuel l app; mipos_lwip_netif_poll (Some iface) l app.
End stack.

(** ** Commands *)

(** What [send_ping] gives to lwIP's raw API: the header's fields, and the
    payload. *)
Record echo := mk_echo { e_type : Z; e_code : Z; e_id : Z; e_seqno : Z; e_payload : list Z }.

Definition ping_payload : list Z := (λ i, u8 (97 + i `mod` 26)) <$> seqZ 0 16.

(** [alloc]: whether [pbuf_alloc] succeeds; [sendto] is [raw_sendto]. *)
Definition send_ping (alloc : bool) (sendto : I → echo → net_app I → err_t * net_app I)
    (show_err : err_t → list Z) (dst : I) (app : net_app I) : res (net_app I) :=
  if negb alloc then Ok (net_puts (str "ping: pbuf_alloc failed" ++ [13; 10]) app) else
  let app := set_ping_seq (u16 (ping_seq app + 1)) app in
  let e := mk_echo 8 0 (ping_id app) (ping_seq app) ping_payload in
  buf ← sprintf 64 (str "ping " ++ fmt_ip4 dst ++ str " seq=" ++ fmt_dec 0 (ping_seq app) ++ [13; 10]);
  let '(err, app) := sendto dst e (net_puts buf app) in
  if decide (err ≠ ERR_OK) then
    buf ← sprintf 64 (str "ping: raw_sendto failed: " ++ show_err err ++ [13; 10]); Ok (net_puts buf app)
  else Ok app.

Definition cmd_ip (app : net_app I) : res (net_app I) :=
  app ← print_ip4 (str "mipOS IP: ") (app_ip app) app;
  app ← print_ip4 (str "netmask:  ") (app_netmask app) app;
  app ← print_ip4 (str "gateway:  ") (app_gateway app) app;
  print_mac (str "mipOS MAC: ") k_mipos_mac app.

Definition cmd_peer (app : net_app I) : res (net_app I) :=
  app ← print_ip4 (str "peer IP: ") (app_peer_ip app) app;
  app ← print_mac (str "peer MAC: ") k_peer_mac app;
  Ok (net_puts (str "backend: in-memory QEMU Ethernet peer" ++ [13; 10]) app).

Definition cmd_route (arg : option (list Z)) (app : net_app I) : res (Z * net_app I) :=
  match arg with
  | Some text =>
      match parse_ip4 text with
      | None => Ok (-1, net_puts (str "usage: route [ip]" ++ [13; 10]) app)
      | Some dst =>
          if ip4_addr_netcmp dst (app_ip app) (app_netmask app) then
            Ok (0, net_puts (str "route: connected via mp0" ++ [13; 10]) app)
          else app ← print_ip4 (str "route: via gateway ") (app_gateway app) app; Ok (0, app)
      end
  | None =>
      let network := ip4_and (app_ip app) (app_netmask app) in
      let app := net_puts (str "destination      gateway          netmask          iface  type" ++ [13; 10]) app in
      buf ← sprintf 96 (fmt_ip4 network ++ str "      0.0.0.0          " ++ fmt_ip4 (app_netmask app) ++
                        str "  mp0    connected" ++ [13; 10]);
      let app := net_puts buf app in
      buf ← sprintf 96 (str "0.0.0.0          " ++ fmt_ip4 (app_gateway app) ++
                        str "     0.0.0.0          mp0    default" ++ [13; 10]);
      Ok (0, net_puts buf app)
  end.

(** [find] is lwIP's [etharp_find_addr], [request] its [etharp_request]. *)
Definition cmd_arp (find : I → option (I * list Z)) (request : I → net_app I → net_app I)
    (arg : option (list Z)) (app : net_app I) : res (Z * net_app I) :=
  match (match arg with Some text => parse_ip4 text | None => Some (app_peer_ip app) end) with
  | None => Ok (-1, net_puts (str "usage: arp [ip]" ++ [13; 10]) app)
  | Some ip =>
      match find ip with
      | Some (found_ip, eth) =>
          buf ← sprintf 96 (str "arp " ++ fmt_ip4 found_ip ++ str " -> " ++ fmt_mac eth ++ [13; 10]);
          Ok (0, net_puts buf app)
      | None =>
          buf ← sprintf 96 (str "arp " ++ fmt_ip4 ip ++ str " unresolved; sending ARP request" ++ [13; 10]);
          Ok (0, request ip (net_puts buf app))
      end
  end.

Definition cmd_ping (alloc : bool) (sendto : I → echo → net_app I → err_t * net_app I)
    (show_err : err_t → list Z) (arg : option (list Z)) (app : net_app I) : res (Z * net_app I) :=
  match (match arg with Some text => parse_ip4 text | None => Some (app_peer_ip app) end) with
  | None => Ok (-1, net_puts (str "usage: ping <ip>" ++ [13; 10]) app)
  | Some dst => app ← send_ping alloc sendto show_err dst app; Ok (0, app)
  end.

Definition cmd_stats (app : net_app I) : res (net_app I) :=
  buf ← sprintf 80 (str "RX=" ++ fmt_dec 0 (rx_count app) ++ str " TX=" ++ fmt_dec 0 (tx_count app) ++
                    str " dropped=" ++ fmt_dec 0 (dropped_count app) ++ str " pending=" ++
                    fmt_dec 0 (pending_count app) ++ [13; 10]);
  Ok (net_puts buf app).

(** [g_net] as [root_task] sets it up. *)
Definition net_init : net_app I :=
  mk_app (IP4_ADDR 192 168 1 2) (IP4_ADDR 255 255 255 0) (IP4_ADDR 192 168 1 10)
    (IP4_ADDR 192 168 1 10) (replicate 4 (mk_pending (replicate 1536 0) 0)) 0 0 0 0 19792 0 [].

(** The interface [root_task] opens. *)
Definition net_iface (n : netif) : mipos_lwip_netif_t (net_app I) :=
  mk_iface n k_mipos_mac (Some peer_link_output).
End console.
