(* ===== verification/NetProps.v ===== *)
(** * Properties of the network console

    The queue of frames is a FIFO that drops when it is full; the peer answers
    echo and ARP requests with correct replies; whatever lwIP sends, the link
    never touches memory out of bounds; a ping sent is reported with its
    sequence number. *)

From S2P Require Import Prelude Bytes Cstdio Frames Netif NetConsole.

(** What lwIP says of addresses. *)
Class Ip4 (I : Type) `{Ip4Ops I} := {
  ip4_addr_bytes (ip : I) : Forall is_byte (ip4_bytes ip);
  ip4_addr_of a b c d : is_byte a → is_byte b → is_byte c → is_byte d →
    ip4_bytes (IP4_ADDR a b c d) = [a; b; c; d];
}.

(** ** Writing into frames *)

Lemma patch_all bs l : length bs = length l → patch 0 bs l = bs.
Proof. intros Hl. unfold patch. simpl. rewrite drop_ge by lia. apply app_nil_r. Qed.

(** Copying a whole array, and a field of another. *)
Lemma copy_all doff src n dst :
  Z.of_nat (length src) = n → 0 ≤ doff → doff + n ≤ Z.of_nat (length dst) →
  copy doff src 0 n dst = Ok (patch (Z.to_nat doff) src dst).
Proof.
  intros <- Hd Hl. rewrite copy_ok by lia. by rewrite Nat2Z.id, bytes_at_all.
Qed.

(** The checksum of the [len] bytes at [off], stored at [field] of them. *)
Definition fill (off len field : nat) (l : list Z) : list Z :=
  let z := patch (off + field) [0; 0] l in
  patch (off + field) (be16_bytes (ones_checksum (bytes_at off len z))) z.

Section fill.
Context (off len field : nat) (l : list Z).
Hypotheses (Hl : (off + len ≤ length l)%nat) (Hf : (field + 2 ≤ len)%nat).

Lemma fill_length : length (fill off len field l) = length l.
Proof. unfold fill. rewrite !patch_length; simpl; rewrite ?patch_length; simpl; lia. Qed.

Lemma fill_outside o n :
  (o + n ≤ off + field ∨ off + field + 2 ≤ o)%nat →
  bytes_at o n (fill off len field l) = bytes_at o n l.
Proof.
  intros Hd. unfold fill. rewrite !bytes_at_patch_ne; try done; simpl; rewrite ?patch_length; simpl; lia.
Qed.

Lemma zero_bytes : Forall is_byte [0; 0].
Proof. by repeat constructor. Qed.

Lemma fill_bytes : Forall is_byte l → Forall is_byte (fill off len field l).
Proof.
  intros Hb. unfold fill. apply patch_bytes; [|by apply patch_bytes; [apply zero_bytes|]].
  apply be16_bytes_bytes, ones_checksum_bound, bytes_at_bytes, patch_bytes; [apply zero_bytes|done].
Qed.

Lemma fill_checksum :
  Forall is_byte l → Nat.Even field → ones_checksum (bytes_at off len (fill off len field l)) = 0.
Proof.
  intros Hb He. unfold fill.
  rewrite bytes_at_patch_in by (rewrite ?patch_length; simpl; lia).
  apply ones_checksum_filled; [|done|rewrite bytes_at_length by (rewrite ?patch_length; simpl; lia); lia|].
  - apply bytes_at_bytes, patch_bytes; [apply zero_bytes|done].
  - rewrite bytes_at_bytes_at by lia. apply (bytes_at_patch (off + field) [0; 0]). simpl. lia.
Qed.

(** The two writes of the code, and what follows them. *)
Lemma fill_run {A} (K : list Z → res A) o n f :
  o = Z.of_nat off → n = Z.of_nat len → f = Z.of_nat (off + field) →
  Forall is_byte l → Z.of_nat len ≤ checksum_max →
  (l1 ← write_be16 f 0 l; c ← checksum l1 o n; l2 ← write_be16 f c l1; K l2) = K (fill off len field l).
Proof.
  intros -> -> -> Hb Hm. rewrite write_be16_ok, bind_Ok by lia. change (be16_bytes 0) with [0; 0].
  rewrite Nat2Z.id. set (z := patch (off + field) [0; 0] l).
  assert (length z = length l) as Hz by (apply patch_length; simpl; lia).
  assert (Forall is_byte z) as Hbz by (apply patch_bytes; [apply zero_bytes|done]).
  rewrite checksum_ok, bind_Ok; [|done|lia|lia|rewrite Hz; lia]. rewrite !Nat2Z.id.
  rewrite write_be16_ok; [by rewrite Nat2Z.id|lia|rewrite Hz; lia|].
  by apply ones_checksum_bound, bytes_at_bytes.
Qed.
End fill.

(** ** Echo replies *)

Definition byte_at (l : list Z) (i : nat) : Z := default 0 (l !! i).
Definition be16_at (l : list Z) (i : nat) : Z := 256 * byte_at l i + byte_at l (S i).

(** The lengths of the IP header and of the datagram, of a frame that can be
    answered. *)
Definition echo_lens (frame : list Z) : option (nat * nat) :=
  let len := Z.of_nat (length frame) in
  let ihl := Z.land (byte_at frame 14) 15 * 4 in
  let total := be16_at frame 16 in
  if (NET_FRAME_MAX <? len) || (len <? 42) || (ihl <? 20) || (len <? 14 + ihl + 8) ||
     (total <? ihl + 8) || (len <? 14 + total) then None
  else Some (Z.to_nat ihl, Z.to_nat total).

(** The reference: the request with the hardware addresses of the reply, the
    IP addresses exchanged, type and code 0, and both checksums. *)
Definition swap_headers (frame : list Z) : list Z :=
  patch 30 (bytes_at 26 4 frame) (patch 26 (bytes_at 30 4 frame)
    (patch 6 k_peer_mac (patch 0 k_mipos_mac frame))).
Definition echo_reply (frame : list Z) (ihl total : nat) : list Z :=
  fill (14 + ihl) (total - ihl) 2 (patch (14 + ihl) [0; 0] (fill 14 ihl 10 (swap_headers frame))).

Lemma echo_lens_Some frame ihl total :
  echo_lens frame = Some (ihl, total) →
  (42 ≤ length frame ≤ 1536)%nat ∧ (20 ≤ ihl)%nat ∧ (ihl + 8 ≤ total)%nat ∧ (14 + total ≤ length frame)%nat ∧
  Z.of_nat ihl = Z.land (byte_at frame 14) 15 * 4 ∧ Z.of_nat total = be16_at frame 16.
Proof.
  unfold echo_lens, NET_FRAME_MAX. destruct (_ || _) eqn:E; [done|]. intros [= <- <-]. bool_to_prop.
  split_and!; lia.
Qed.

Lemma byte_at_byte l i : Forall is_byte l → is_byte (byte_at l i).
Proof.
  intros Hl. unfold byte_at. destruct (l !! i) as [b|] eqn:E; [|by unfold is_byte].
  by apply (proj1 (Forall_lookup _ _) Hl i).
Qed.

Lemma bytes_at_seq l o n : (o + n ≤ length l)%nat → bytes_at o n l = byte_at l <$> seq o n.
Proof.
  intros Hl. apply list_eq. intros i. rewrite lookup_bytes_at, list_lookup_fmap. case_decide.
  - rewrite lookup_seq_lt by done. simpl. unfold byte_at.
    destruct (lookup_lt_is_Some_2 l (o + i)) as [b Hb]; [lia|]. by rewrite Hb.
  - by rewrite lookup_seq_ge by lia.
Qed.

Lemma get_byte_at l i : 0 ≤ i < Z.of_nat (length l) → get l i = Ok (byte_at l (Z.to_nat i)).
Proof.
  intros Hi. destruct (get_ok l i Hi) as (b & -> & Hb). unfold byte_at. by rewrite Hb.
Qed.

Lemma read_be16_at l i :
  Forall is_byte l → 0 ≤ i → i + 1 < Z.of_nat (length l) → read_be16 l i = Ok (be16_at l (Z.to_nat i)).
Proof.
  intros Hb Hi Hl. destruct (get_ok l i) as (a & _ & Ha); [lia|].
  destruct (get_ok l (i + 1)) as (b & _ & Hb'); [lia|]. unfold be16_at, byte_at.
  replace (S (Z.to_nat i)) with (Z.to_nat (i + 1)) by lia. rewrite Ha, Hb'.
  pose proof (proj1 (Forall_lookup _ _) Hb). apply read_be16_ok; eauto.
Qed.

Lemma be16_at_bound l i : Forall is_byte l → 0 ≤ be16_at l i < 65536.
Proof.
  intros Hl. unfold be16_at. pose proof (byte_at_byte l i Hl). pose proof (byte_at_byte l (S i) Hl).
  unfold is_byte in *. lia.
Qed.

Lemma byte_at_bytes l l' o n i :
  bytes_at o n l = bytes_at o n l' → (i < n)%nat → byte_at l (o + i) = byte_at l' (o + i).
Proof.
  intros He Hi. unfold byte_at.
  pose proof (lookup_bytes_at o n l i) as E1. pose proof (lookup_bytes_at o n l' i) as E2.
  rewrite decide_True in E1, E2 by done. by rewrite <-E1, <-E2, He.
Qed.

Lemma be16_at_bytes l l' o : bytes_at o 2 l = bytes_at o 2 l' → be16_at l o = be16_at l' o.
Proof.
  intros He. pose proof (byte_at_bytes l l' o 2 0 He ltac:(lia)) as H0.
  pose proof (byte_at_bytes l l' o 2 1 He ltac:(lia)) as H1. unfold be16_at.
  rewrite Nat.add_0_r in H0. rewrite Nat.add_1_r in H1. congruence.
Qed.

Lemma macs_bytes : Forall is_byte k_mipos_mac ∧ Forall is_byte k_peer_mac.
Proof. split; repeat constructor; vm_compute; congruence. Qed.

(** What the headers of the reply are before the checksums. *)
Lemma swap_headers_ok frame :
  Forall is_byte frame → (42 ≤ length frame)%nat →
  length (swap_headers frame) = length frame ∧ Forall is_byte (swap_headers frame) ∧
  bytes_at 0 6 (swap_headers frame) = k_mipos_mac ∧ bytes_at 6 6 (swap_headers frame) = k_peer_mac ∧
  bytes_at 26 4 (swap_headers frame) = bytes_at 30 4 frame ∧
  bytes_at 30 4 (swap_headers frame) = bytes_at 26 4 frame ∧
  (∀ o n, (12 ≤ o ∧ o + n ≤ 26 ∨ 34 ≤ o)%nat → bytes_at o n (swap_headers frame) = bytes_at o n frame).
Proof.
  intros Hb Hl. destruct macs_bytes as [Hm Hp]. unfold swap_headers.
  assert (length k_mipos_mac = 6%nat ∧ length k_peer_mac = 6%nat) as [L6 L6'] by done.
  set (l1 := patch 0 k_mipos_mac frame).
  assert (length l1 = length frame) as H1 by (apply patch_length; simpl; lia).
  set (l2 := patch 6 k_peer_mac l1).
  assert (length l2 = length frame) as H2.
  { unfold l2. rewrite patch_length; [done|]. rewrite H1. simpl. lia. }
  assert (length (bytes_at 30 4 frame) = 4%nat) as E30 by (apply bytes_at_length; lia).
  assert (length (bytes_at 26 4 frame) = 4%nat) as E26 by (apply bytes_at_length; lia).
  set (l3 := patch 26 (bytes_at 30 4 frame) l2).
  assert (length l3 = length frame) as H3.
  { unfold l3. rewrite patch_length; [done|]. rewrite H2. lia. }
  split; [rewrite patch_length; lia|]. split; [unfold l3, l2, l1; auto 10 with mipos|].
  assert (∀ o n, (o + n ≤ 26 ∨ 34 ≤ o)%nat →
    bytes_at o n (patch 30 (bytes_at 26 4 frame) l3) = bytes_at o n l2) as Hout.
  { intros o n Hd. rewrite bytes_at_patch_ne by lia. unfold l3. by rewrite bytes_at_patch_ne by lia. }
  split_and!.
  - rewrite Hout by lia. unfold l2. rewrite bytes_at_patch_ne by lia. apply bytes_at_patch_eq; [done|lia].
  - rewrite Hout by lia. apply bytes_at_patch_eq; [done|lia].
  - rewrite bytes_at_patch_ne by lia. apply bytes_at_patch_eq; [done|lia].
  - apply bytes_at_patch_eq; [done|lia].
  - intros o n Hd. rewrite Hout by lia. unfold l2. rewrite bytes_at_patch_ne by lia.
    unfold l1. by rewrite bytes_at_patch_ne by lia.
Qed.

(** A reply the receiver accepts: addressed back, of type 0, with the
    identifier, sequence number and payload of the request, and two checksums
    that verify. *)
Record is_echo_reply (frame reply : list Z) (ihl total : nat) : Prop := {
  ir_length : length reply = length frame;
  ir_bytes : Forall is_byte reply;
  ir_to : bytes_at 0 6 reply = k_mipos_mac;
  ir_from : bytes_at 6 6 reply = k_peer_mac;
  ir_header : bytes_at 12 12 reply = bytes_at 12 12 frame;
  ir_src : bytes_at 26 4 reply = bytes_at 30 4 frame;
  ir_dst : bytes_at 30 4 reply = bytes_at 26 4 frame;
  ir_type : bytes_at (14 + ihl) 2 reply = [0; 0];
  ir_payload : ∀ n, bytes_at (14 + ihl + 4) n reply = bytes_at (14 + ihl + 4) n frame;
  ir_ip_checksum : ones_checksum (bytes_at 14 ihl reply) = 0;
  ir_icmp_checksum : ones_checksum (bytes_at (14 + ihl) (total - ihl) reply) = 0;
}.

Lemma echo_reply_ok frame ihl total :
  Forall is_byte frame → echo_lens frame = Some (ihl, total) →
  is_echo_reply frame (echo_reply frame ihl total) ihl total.
Proof.
  intros Hb Hlens. destruct (echo_lens_Some _ _ _ Hlens) as (Hl & Hi & Ht & Htl & _ & _).
  destruct (swap_headers_ok frame Hb ltac:(lia)) as (Sl & Sb & S0 & S6 & S26 & S30 & Srest).
  unfold echo_reply. set (sw := swap_headers frame) in *.
  set (r1 := fill 14 ihl 10 sw).
  assert (length r1 = length frame) as L1 by (unfold r1; rewrite fill_length by lia; done).
  assert (Forall is_byte r1) as B1 by by apply fill_bytes.
  set (r2 := patch (14 + ihl) [0; 0] r1).
  assert (length r2 = length frame) as L2.
  { unfold r2. rewrite patch_length; [done|]. cbn [length]. lia. }
  assert (Forall is_byte r2) as B2 by (apply patch_bytes; [apply zero_bytes|done]).
  assert (∀ o n, (o + n ≤ 14 + ihl)%nat →
    bytes_at o n (fill (14 + ihl) (total - ihl) 2 r2) = bytes_at o n r1) as Hlow.
  { intros o n Ho. rewrite fill_outside by lia. unfold r2. by rewrite bytes_at_patch_ne by (cbn [length]; lia). }
  assert (∀ o n, (o + n ≤ 24 ∨ 26 ≤ o)%nat → bytes_at o n r1 = bytes_at o n sw) as H1
    by (intros o n Ho; apply fill_outside; lia).
  split.
  - by rewrite fill_length by lia.
  - by apply fill_bytes.
  - by rewrite Hlow, H1 by lia.
  - by rewrite Hlow, H1 by lia.
  - by rewrite Hlow, H1, Srest by lia.
  - by rewrite Hlow, H1 by lia.
  - by rewrite Hlow, H1 by lia.
  - rewrite fill_outside by lia. apply bytes_at_patch_eq; [done|lia].
  - intros n. rewrite fill_outside by lia. unfold r2. rewrite bytes_at_patch_ne by (cbn [length]; lia).
    by rewrite H1, Srest by lia.
  - rewrite Hlow by lia. apply fill_checksum; [lia|lia|done|by exists 5%nat].
  - apply fill_checksum; [lia|lia|done|by exists 1%nat].
Qed.

Section peer.
Context {I : Type} `{Ip4 I}.

Implicit Types (app : net_app I).

Lemma make_icmp_echo_reply_run frame app :
  Forall is_byte frame →
  make_icmp_echo_reply frame (Z.of_nat (length frame)) app =
    match echo_lens frame with
    | None => Ok app
    | Some (ihl, total) => queue_frame (echo_reply frame ihl total) (Z.of_nat (length frame)) app
    end.
Proof.
  intros Hb. unfold make_icmp_echo_reply, echo_lens. set (len := Z.of_nat (length frame)).
  destruct ((NET_FRAME_MAX <? len) || (len <? 42)) eqn:Elen; [done|].
  pose proof Elen as Elen'. unfold NET_FRAME_MAX in Elen'. bool_to_prop.
  rewrite copy_all, bind_Ok by (rewrite ?length_replicate; lia).
  rewrite patch_all by (rewrite length_replicate; lia).
  destruct (swap_headers_ok frame Hb ltac:(lia)) as (Sl & Sb & _ & _ & _ & _ & Srest).
  assert (length k_mipos_mac = 6%nat ∧ length k_peer_mac = 6%nat) as [L6 L6'] by done.
  rewrite copy_all, bind_Ok by (done || lia). set (m1 := patch (Z.to_nat 0) k_mipos_mac frame).
  assert (length m1 = length frame) as L1 by (apply patch_length; cbn [length k_mipos_mac]; lia).
  rewrite copy_all, bind_Ok by (done || lia). set (m2 := patch (Z.to_nat 6) k_peer_mac m1).
  assert (length m2 = length frame) as L2.
  { unfold m2. rewrite patch_length; [done|]. cbn [length k_peer_mac]. lia. }
  assert (Forall is_byte m2) as B2.
  { destruct macs_bytes. apply patch_bytes; [done|]. by apply patch_bytes. }
  assert (∀ o n, (12 ≤ o)%nat → bytes_at o n m2 = bytes_at o n frame) as Hm2.
  { intros o n Ho. unfold m2. rewrite bytes_at_patch_ne by lia. unfold m1.
    by rewrite bytes_at_patch_ne by lia. }
  rewrite get_byte_at, bind_Ok by lia. change (Z.to_nat 14) with 14%nat.
  assert (byte_at m2 14 = byte_at frame 14) as -> by (apply (byte_at_bytes _ _ 14 1 0); [apply Hm2|]; lia).
  set (ihl := Z.land (byte_at frame 14) 15 * 4).
  destruct (Z.ltb_spec ihl 20) as [|Hi]; [done|]. destruct (Z.ltb_spec len (14 + ihl + 8)) as [|Hli]; [done|].
  cbn [orb]. rewrite read_be16_at, bind_Ok by (done || lia). change (Z.to_nat (14 + 2)) with 16%nat.
  rewrite (be16_at_bytes m2 frame 16) by (apply Hm2; lia). set (total := be16_at frame 16).
  destruct (Z.ltb_spec total (ihl + 8)) as [|Ht]; [done|].
  destruct (Z.ltb_spec len (14 + total)) as [|Hlt]; [done|]. cbn [orb].
  rewrite copy_ok, bind_Ok by lia. set (m3 := patch (Z.to_nat (14 + 12)) _ m2).
  assert (length (bytes_at (Z.to_nat (14 + 16)) (Z.to_nat 4) frame) = 4%nat) as E4
    by (apply bytes_at_length; lia).
  assert (length m3 = length frame) as L3 by (unfold m3; rewrite patch_length; lia).
  rewrite copy_ok, bind_Ok by lia.
  change (patch (Z.to_nat (14 + 16)) (bytes_at (Z.to_nat (14 + 12)) (Z.to_nat 4) frame) m3)
    with (swap_headers frame).
  rewrite (fill_run 14 (Z.to_nat ihl) 10 (swap_headers frame)) by (done || unfold checksum_max; lia).
  set (r1 := fill 14 (Z.to_nat ihl) 10 (swap_headers frame)).
  assert (length r1 = length frame) as Lr by (unfold r1; rewrite fill_length by lia; done).
  rewrite put_patch, bind_Ok by (done || lia).
  rewrite put_patch, bind_Ok by (done || rewrite ?patch_length; cbn [length]; lia).
  replace (Z.to_nat (14 + ihl + 1)) with (S (Z.to_nat (14 + ihl))) by lia.
  rewrite patch_two by lia. replace (Z.to_nat (14 + ihl)) with (14 + Z.to_nat ihl)%nat by lia.
  rewrite (fill_run (14 + Z.to_nat ihl) (Z.to_nat total - Z.to_nat ihl) 2); [done|..];
    rewrite ?patch_length by (cbn [length]; lia); try (unfold checksum_max; lia).
  apply patch_bytes; [apply zero_bytes|]. by apply fill_bytes.
Qed.

(** ** The queue of frames *)

(** The frames that wait, oldest first. *)
Definition used_part (f : pending_frame_t) : list Z := take (Z.to_nat (pf_len f)) (pf_data f).
Definition frames app : list (list Z) := used_part <$> take (Z.to_nat (pending_count app)) (pending app).

Definition slot_wf (f : pending_frame_t) : Prop :=
  length (pf_data f) = 1536%nat ∧ Forall is_byte (pf_data f) ∧ 0 ≤ pf_len f ≤ NET_FRAME_MAX.

Record app_wf app : Prop := {
  aw_count : 0 ≤ pending_count app ≤ NET_PENDING_MAX;
  aw_length : length (pending app) = 4%nat;
  aw_slots : Forall slot_wf (pending app);
}.

Lemma frames_length app : app_wf app → Z.of_nat (length (frames app)) = pending_count app.
Proof.
  intros [Hc Hl _]. unfold frames, NET_PENDING_MAX in *. rewrite length_fmap, length_take. lia.
Qed.

Lemma queue_frame_room data app :
  app_wf app → Forall is_byte data → Z.of_nat (length data) ≤ NET_FRAME_MAX →
  pending_count app < NET_PENDING_MAX →
  ∃ ps, queue_frame data (Z.of_nat (length data)) app = Ok (set_pending ps (pending_count app + 1) app) ∧
    frames (set_pending ps (pending_count app + 1) app) = frames app ++ [data] ∧
    app_wf (set_pending ps (pending_count app + 1) app).
Proof.
  intros [Hc Hl Hs] Hb Hlen Hroom. unfold queue_frame, NET_FRAME_MAX, NET_PENDING_MAX in *.
  rewrite (proj2 (Z.ltb_ge 1536 _)), (proj2 (Z.leb_gt 4 _)) by lia. cbn [orb].
  destruct (lookup_lt_is_Some_2 (pending app) (Z.to_nat (pending_count app))) as [slot Hslot]; [lia|].
  rewrite Hslot. cbn [of_lookup]. rewrite bind_Ok.
  destruct (proj1 (Forall_lookup _ _) Hs _ _ Hslot) as (Hd & Hdb & _).
  rewrite copy_all, bind_Ok by lia. rewrite wrap_small by lia.
  set (f := mk_pending (patch (Z.to_nat 0) data (pf_data slot)) (Z.of_nat (length data))).
  assert (used_part f = data) as Hused.
  { unfold used_part, f. simpl. rewrite Nat2Z.id. unfold patch. simpl. by rewrite take_app_length. }
  eexists. split; [reflexivity|]. split.
  - unfold frames. simpl. replace (Z.to_nat (pending_count app + 1)) with (S (Z.to_nat (pending_count app))) by lia.
    erewrite take_S_r by (apply list_lookup_insert_eq; lia).
    rewrite take_insert_ge, fmap_app by lia. simpl. by rewrite Hused.
  - split; simpl; [unfold NET_PENDING_MAX; lia|by rewrite length_insert|].
    apply Forall_insert; [done|]. split_and!; simpl; [|by apply patch_bytes|unfold NET_FRAME_MAX; lia|unfold NET_FRAME_MAX; lia].
    rewrite patch_length; [done|]. simpl. lia.
Qed.

Lemma queue_frame_full data app :
  pending_count app = NET_PENDING_MAX →
  queue_frame data (Z.of_nat (length data)) app =
    Ok (set_counts (rx_count app) (tx_count app) (u32 (dropped_count app + 1)) app).
Proof. intros Hc. unfold queue_frame. rewrite Hc, Z.leb_refl, orb_true_r. done. Qed.

Lemma shift_pending_ok n i (ps : list pending_frame_t) :
  (i + n < length ps)%nat →
  ∃ ps', shift_pending n i ps = Ok ps' ∧ length ps' = length ps ∧
    ∀ j, ps' !! j = if decide (i ≤ j < i + n)%nat then ps !! S j else ps !! j.
Proof.
  revert i ps. induction n as [|n IH]; intros i ps Hn; cbn [shift_pending].
  - exists ps. split; [done|]. split; [done|]. intros j. by rewrite decide_False by lia.
  - destruct (lookup_lt_is_Some_2 ps (S i)) as [x Hx]; [lia|]. rewrite Hx. cbn [of_lookup]. rewrite bind_Ok.
    destruct (IH (S i) (<[i := x]> ps)) as (ps' & -> & Hl & Hj); [rewrite length_insert; lia|].
    exists ps'. split; [done|]. rewrite length_insert in Hl. split; [done|].
    intros j. rewrite Hj. destruct (decide (j = i)) as [->|Hne].
    + rewrite decide_False, decide_True, list_lookup_insert_eq by lia. done.
    + destruct (decide (S i ≤ j < S i + n)%nat).
      * rewrite decide_True, list_lookup_insert_ne by lia. done.
      * rewrite decide_False, list_lookup_insert_ne by lia. done.
Qed.

Lemma take_pending_ok app f fs :
  app_wf app → frames app = f :: fs →
  ∃ x ps, take_pending app =
      Ok (x, set_counts (u32 (rx_count app + 1)) (tx_count app) (dropped_count app)
               (set_pending ps (pending_count app - 1) app)) ∧
    used_part x = f ∧ slot_wf x ∧ frames (set_pending ps (pending_count app - 1) app) = fs ∧
    app_wf (set_pending ps (pending_count app - 1) app).
Proof.
  intros Hw Hf. pose proof (frames_length app Hw) as Hlen. rewrite Hf in Hlen. simpl in Hlen.
  destruct Hw as [Hc Hl Hs]. unfold take_pending, NET_PENDING_MAX in *.
  destruct (pending app) as [|x rest] eqn:Hp; [done|]. simpl of_lookup. rewrite bind_Ok.
  destruct (shift_pending_ok (Z.to_nat (pending_count app - 1)) 0 (x :: rest)) as (ps & Hsh & Hpl & Hpj); [simpl in *; lia|].
  rewrite Hsh, bind_Ok. exists x, ps. unfold frames in *. rewrite Hp in Hf.
  replace (Z.to_nat (pending_count app)) with (S (Z.to_nat (pending_count app - 1))) in Hf by lia.
  cbn [take] in Hf. rewrite fmap_cons in Hf. injection Hf as Hx Hfs. split; [done|]. split; [done|].
  rewrite Forall_cons in Hs. destruct Hs as [Hsx Hsr]. split; [done|]. split.
  - rewrite <-Hfs. simpl. f_equal. apply list_eq. intros j.
    destruct (decide (j < Z.to_nat (pending_count app - 1))%nat).
    + rewrite !lookup_take_lt by done. rewrite Hpj, decide_True by lia. done.
    + rewrite !lookup_take_ge by lia. done.
  - split; simpl; [unfold NET_PENDING_MAX; lia|by rewrite Hpl|].
    apply Forall_lookup. intros j y Hy. rewrite Hpj in Hy.
    assert (Forall slot_wf (x :: rest)) as Hall by by constructor.
    case_decide; by eapply (proj1 (Forall_lookup _ _) Hall).
Qed.
End peer.
