(* ===== verification/NetPing.v ===== *)
(** * Pings and ARP requests through the network console

    The theorems about src/examples/qemu-arm/net-console/main.c: the peer's
    answers, a ping from the request to the line printed, and the safety of the
    link and of [net_task] whatever lwIP does. *)

From S2P Require Import Prelude Bytes Cstdio Frames Netif NetConsole NetProps.

Section ping.
Context {I : Type} `{Ip4 I}.

Implicit Types (app : net_app I).

(** ** Recognising requests *)

Lemma ip4_equals_bytes_ok (ip : I) frame off :
  0 ≤ off → off + 4 ≤ Z.of_nat (length frame) →
  ip4_equals_bytes ip frame off = Ok (bool_decide (bytes_at (Z.to_nat off) 4 frame = ip4_bytes ip)).
Proof.
  intros Ho Hl. unfold ip4_equals_bytes, ip4_bytes.
  rewrite bytes_at_seq, !get_byte_at by lia. cbn [seq fmap list_fmap]. rewrite !bind_Ok.
  replace (Z.to_nat (off + 1)) with (S (Z.to_nat off)) by lia.
  replace (Z.to_nat (off + 2)) with (S (S (Z.to_nat off))) by lia.
  replace (Z.to_nat (off + 3)) with (S (S (S (Z.to_nat off)))) by lia.
  destruct (Z.eqb_spec (ip4_addr1 ip) (byte_at frame (Z.to_nat off))); simpl;
    [|by rewrite bool_decide_eq_false_2 by congruence].
  destruct (Z.eqb_spec (ip4_addr2 ip) (byte_at frame (S (Z.to_nat off)))); simpl;
    [|by rewrite bool_decide_eq_false_2 by congruence].
  destruct (Z.eqb_spec (ip4_addr3 ip) (byte_at frame (S (S (Z.to_nat off))))); simpl;
    [|by rewrite bool_decide_eq_false_2 by congruence].
  destruct (Z.eqb_spec (ip4_addr4 ip) (byte_at frame (S (S (S (Z.to_nat off)))))).
  - by rewrite bool_decide_eq_true_2 by congruence.
  - by rewrite bool_decide_eq_false_2 by congruence.
Qed.

(** The destination of a request is the peer (or the gateway, which it also
    plays). *)
Definition for_peer app (dst : list Z) : Prop :=
  dst = ip4_bytes (app_peer_ip app) ∨ dst = ip4_bytes (app_gateway app).

#[export] Instance for_peer_dec app dst : Decision (for_peer app dst).
Proof. unfold for_peer. apply _. Defined.

Lemma frame_targets_peer_ok app frame off :
  0 ≤ off → off + 4 ≤ Z.of_nat (length frame) →
  frame_targets_peer app frame off = Ok (bool_decide (for_peer app (bytes_at (Z.to_nat off) 4 frame))).
Proof.
  intros Ho Hl. unfold frame_targets_peer.
  rewrite (ip4_equals_bytes_ok (app_peer_ip app)), bind_Ok by done.
  case_bool_decide as Hp.
  - by rewrite bool_decide_eq_true_2 by by left.
  - rewrite ip4_equals_bytes_ok by done. f_equal. apply bool_decide_ext. unfold for_peer. tauto.
Qed.

(** The conditions of [peer_link_output], on a frame of bytes. *)
Definition arp_request app (frame : list Z) : Prop :=
  (42 ≤ length frame)%nat ∧ be16_at frame 12 = 2054 ∧ be16_at frame 20 = 1 ∧
  for_peer app (bytes_at 38 4 frame).
Definition echo_request app (frame : list Z) : Prop :=
  (42 ≤ length frame)%nat ∧ be16_at frame 12 = 2048 ∧ byte_at frame 23 = 1 ∧ byte_at frame 34 = 8 ∧
  for_peer app (bytes_at 30 4 frame).

#[export] Instance arp_request_dec app frame : Decision (arp_request app frame).
Proof. unfold arp_request. apply _. Defined.
#[export] Instance echo_request_dec app frame : Decision (echo_request app frame).
Proof. unfold echo_request. apply _. Defined.

Lemma is_arp_request_ok app frame :
  Forall is_byte frame →
  is_arp_request app frame (Z.of_nat (length frame)) = Ok (bool_decide (arp_request app frame)).
Proof.
  intros Hb. unfold is_arp_request, arp_request.
  destruct (Z.ltb_spec (Z.of_nat (length frame)) 42); [by rewrite bool_decide_eq_false_2 by (intros [? _]; lia)|].
  rewrite (read_be16_at frame 12), bind_Ok by (done || lia). change (Z.to_nat 12) with 12%nat.
  destruct (Z.eqb_spec (be16_at frame 12) 2054); simpl; [|by rewrite bool_decide_eq_false_2 by tauto].
  rewrite (read_be16_at frame 20), bind_Ok by (done || lia). change (Z.to_nat 20) with 20%nat.
  destruct (Z.eqb_spec (be16_at frame 20) 1); simpl; [|by rewrite bool_decide_eq_false_2 by tauto].
  rewrite frame_targets_peer_ok by lia. f_equal. apply bool_decide_ext.
  assert (42 ≤ length frame)%nat by lia. tauto.
Qed.

Lemma is_echo_request_ok app frame :
  Forall is_byte frame →
  is_echo_request app frame (Z.of_nat (length frame)) = Ok (bool_decide (echo_request app frame)).
Proof.
  intros Hb. unfold is_echo_request, echo_request.
  destruct (Z.ltb_spec (Z.of_nat (length frame)) 42); [by rewrite bool_decide_eq_false_2 by (intros [? _]; lia)|].
  rewrite (read_be16_at frame 12), bind_Ok by (done || lia). change (Z.to_nat 12) with 12%nat.
  destruct (Z.eqb_spec (be16_at frame 12) 2048); simpl; [|by rewrite bool_decide_eq_false_2 by tauto].
  rewrite (get_byte_at frame 23), bind_Ok by lia. change (Z.to_nat 23) with 23%nat.
  destruct (Z.eqb_spec (byte_at frame 23) 1); simpl; [|by rewrite bool_decide_eq_false_2 by tauto].
  rewrite (get_byte_at frame 34), bind_Ok by lia. change (Z.to_nat 34) with 34%nat.
  destruct (Z.eqb_spec (byte_at frame 34) 8); simpl; [|by rewrite bool_decide_eq_false_2 by tauto].
  rewrite frame_targets_peer_ok by lia. f_equal. apply bool_decide_ext.
  assert (42 ≤ length frame)%nat by lia. tauto.
Qed.

(** ** ARP replies *)

(** The reference: an ARP reply that says the peer's address is at the peer,
    to the sender of the request. *)
Definition arp_reply app (request : list Z) : list Z :=
  k_mipos_mac ++ k_peer_mac ++ [8; 6] ++ [0; 1; 8; 0; 6; 4; 0; 2] ++ k_peer_mac ++
  ip4_bytes (app_peer_ip app) ++ bytes_at 22 6 request ++ bytes_at 28 4 request.

Lemma make_arp_reply_run request app :
  (42 ≤ length request)%nat →
  make_arp_reply request app = queue_frame (arp_reply app request) 42 app.
Proof.
  intros Hl. unfold make_arp_reply, arp_reply, ip4_bytes.
  set (p1 := ip4_addr1 _). set (p2 := ip4_addr2 _). set (p3 := ip4_addr3 _). set (p4 := ip4_addr4 _).
  transitivity (
    reply ← copy 32 request 22 6 (k_mipos_mac ++ k_peer_mac ++ [8; 6] ++ [0; 1; 8; 0; 6; 4; 0; 2] ++
      k_peer_mac ++ [p1; p2; p3; p4] ++ replicate 10 0);
    reply ← copy 38 request 28 4 reply;
    queue_frame reply 42 app); [reflexivity|].
  rewrite copy_ok, bind_Ok by (simpl; lia).
  pose proof (bytes_at_length 22 6 request ltac:(lia)) as L6.
  pose proof (bytes_at_length 28 4 request ltac:(lia)) as L4.
  change (bytes_at (Z.to_nat 22) (Z.to_nat 6) request) with (bytes_at 22 6 request).
  rewrite copy_ok, bind_Ok by (rewrite ?patch_length; simpl; lia).
  change (bytes_at (Z.to_nat 28) (Z.to_nat 4) request) with (bytes_at 28 4 request).
  destruct (bytes_at 22 6 request) as [|a1 [|a2 [|a3 [|a4 [|a5 [|a6 [|]]]]]]]; try done.
  destruct (bytes_at 28 4 request) as [|b1 [|b2 [|b3 [|b4 [|]]]]]; try done.
Qed.

(** ** The link *)

(** The counter of frames sent goes up. *)
Definition sent app : net_app I := set_counts (rx_count app) (u32 (tx_count app + 1)) (dropped_count app) app.

Lemma sent_wf app : app_wf app → app_wf (sent app).
Proof. by intros []. Qed.

(** What the link makes of a frame: an answer, or nothing. *)
Definition answer app (frame : list Z) : option (list Z) :=
  if decide (arp_request app frame) then Some (arp_reply app frame) else
  if decide (echo_request app frame) then
    '(ihl, total) ← echo_lens frame; Some (echo_reply frame ihl total)
  else None.

Lemma answer_bytes app frame r :
  Forall is_byte frame → Z.of_nat (length frame) ≤ FRAME_MAX → answer app frame = Some r →
  Forall is_byte r ∧ Z.of_nat (length r) ≤ NET_FRAME_MAX.
Proof.
  intros Hb Hl. unfold answer, FRAME_MAX, NET_FRAME_MAX in *. case_decide as Ha.
  - intros [= <-]. destruct Ha as [Ha _]. unfold arp_reply.
    split.
    + rewrite !Forall_app. destruct macs_bytes. split_and!; try done; try (by repeat constructor; vm_compute; congruence).
      * apply ip4_addr_bytes.
      * by apply bytes_at_bytes.
      * by apply bytes_at_bytes.
    + rewrite !length_app, !bytes_at_length by lia. simpl. lia.
  - case_decide; [|done]. destruct (echo_lens frame) as [[ihl total]|] eqn:El; [|done]. intros [= <-].
    destruct (echo_reply_ok frame ihl total Hb El) as [Hlen Hby]. split; [done|]. lia.
Qed.

Lemma peer_link_output_run app frame :
  Forall is_byte frame →
  peer_link_output frame (Z.of_nat (length frame)) app =
    match answer app frame with
    | None => Ok (ERR_OK, sent app)
    | Some r => app' ← queue_frame r (Z.of_nat (length r)) (sent app); Ok (ERR_OK, app')
    end.
Proof.
  intros Hb. unfold peer_link_output. fold (sent app).
  rewrite (is_arp_request_ok (sent app) frame), bind_Ok by done.
  change (arp_request (sent app)) with (arp_request app). unfold answer.
  destruct (decide (arp_request app frame)) as [Ha|Ha].
  - rewrite bool_decide_eq_true_2 by done. rewrite make_arp_reply_run by apply Ha.
    change (arp_reply (sent app)) with (arp_reply app).
    assert (length (arp_reply app frame) = 42%nat) as ->; [|change (Z.of_nat 42) with 42; reflexivity].
    destruct Ha as [Hl _]. unfold arp_reply. by rewrite !length_app, !bytes_at_length by lia.
  - rewrite bool_decide_eq_false_2 by done.
    rewrite (is_echo_request_ok (sent app) frame), bind_Ok by done.
    change (echo_request (sent app)) with (echo_request app).
    destruct (decide (echo_request app frame)) as [He|He].
    + rewrite bool_decide_eq_true_2 by done. rewrite make_icmp_echo_reply_run by done.
      destruct (echo_lens frame) as [[ihl total]|] eqn:El; [|reflexivity]. cbn [mbind option_bind].
      rewrite (ir_length _ _ _ _ (echo_reply_ok frame ihl total Hb El)). reflexivity.
    + rewrite bool_decide_eq_false_2 by done. reflexivity.
Qed.

(** The link never faults and keeps the queue in order, whatever it is given. *)
Lemma peer_link_output_wf app frame :
  app_wf app → Forall is_byte frame → Z.of_nat (length frame) ≤ FRAME_MAX →
  ∃ app', peer_link_output frame (Z.of_nat (length frame)) app = Ok (ERR_OK, app') ∧ app_wf app' ∧
    frames app' = frames app ++
      (if decide (pending_count app < NET_PENDING_MAX) then option_list (answer app frame) else []).
Proof.
  intros Hw Hb Hl. rewrite peer_link_output_run by done.
  destruct (answer app frame) as [r|] eqn:Ha.
  - destruct (answer_bytes _ _ _ Hb Hl Ha) as [Hbr Hlr]. case_decide as Hroom.
    + destruct (queue_frame_room r (sent app) (sent_wf app Hw) Hbr Hlr Hroom) as (ps & -> & Hf & Hw').
      eexists. split; [reflexivity|]. by split.
    + rewrite queue_frame_full by (simpl; pose proof (aw_count app Hw); unfold NET_PENDING_MAX in *; lia).
      rewrite app_nil_r. eexists. split; [reflexivity|]. split; [by destruct Hw|done].
  - eexists. split; [reflexivity|]. split; [by apply sent_wf|]. case_decide; by rewrite app_nil_r.
Qed.



Lemma net_iface_keeps n : keeps app_wf (net_iface n : mipos_lwip_netif_t (net_app I)).
Proof.
  intros frame app Hb Hl Hw. destruct (peer_link_output_wf app frame Hw Hb Hl) as (app' & Hr & Hw' & _).
  by exists ERR_OK, app'.
Qed.

(** ** Reporting *)

Lemma fmt_byte_length b : is_byte b → (length (fmt_dec 0 b) ≤ 3)%nat.
Proof. intros Hb. unfold is_byte in Hb. apply fmt_dec_length; lia. Qed.

Lemma ping_message_length a b c d seq n :
  is_byte a → is_byte b → is_byte c → is_byte d → 0 ≤ seq < 65536 → 0 ≤ n < 2 ^ 32 →
  Z.of_nat (length (ping_message a b c d seq n)) < 96.
Proof.
  intros Ha Hb Hc Hd Hs Hn. unfold ping_message, fmt_ip. rewrite !length_app.
  pose proof (fmt_byte_length a Ha). pose proof (fmt_byte_length b Hb).
  pose proof (fmt_byte_length c Hc). pose proof (fmt_byte_length d Hd).
  pose proof (fmt_dec_length 5 seq ltac:(lia) ltac:(lia)).
  pose proof (fmt_dec_length 10 n ltac:(lia) ltac:(lia)).
  change (length (str "ping reply from ")) with 16%nat. change (length (str " seq=")) with 5%nat.
  change (length (str " bytes=")) with 7%nat. simpl (length [_]). simpl (length [_; _]). lia.
Qed.



(** The report never faults on a frame of the queue. *)
Lemma report_total data len app :
  Forall is_byte data → 0 ≤ len ≤ Z.of_nat (length data) → app_wf app →
  ∃ app', report_icmp_echo_reply data len app = Ok app' ∧ app_wf app'.
Proof.
  intros Hb Hl Hw. unfold report_icmp_echo_reply.
  destruct (Z.ltb_spec len 42); [by exists app|].
  rewrite (read_be16_at data 12), bind_Ok by (done || lia).
  case_if; [by exists app|]. rewrite (get_byte_at data 23), bind_Ok by lia.
  case_if; [by exists app|]. rewrite (get_byte_at data 14), bind_Ok by lia.
  set (ihl := Z.land _ 15 * 4). destruct (Z.ltb_spec ihl 20); [by exists app|].
  destruct (Z.ltb_spec len (14 + ihl + 8)); [by exists app|]. cbn [orb].
  rewrite (get_byte_at data (14 + ihl)), bind_Ok by lia. case_if; [by exists app|].
  rewrite (ip4_equals_bytes_ok (app_ip app) data (14 + 16)), bind_Ok by lia. case_if; [by exists app|].
  rewrite (read_be16_at data (14 + ihl + 4)), bind_Ok by (done || lia).
  rewrite (read_be16_at data (14 + ihl + 6)), bind_Ok by (done || lia). case_if; [by exists app|].
  rewrite !(get_byte_at data) by lia. rewrite !bind_Ok.
  rewrite (read_be16_at data (14 + 2)), bind_Ok by (done || lia).
  rewrite sprintf_ok.
  - eexists. split; [reflexivity|]. by destruct Hw.
  - apply ping_message_length; try (by apply byte_at_byte); [by apply be16_at_bound|by apply wrap_bound].
Qed.

(** The raw callback never faults; it takes exactly the echo replies that carry
    the identifier of the console, and leaves everything as it was otherwise. *)
Lemma ping_recv_takes p (ip : I) app :
  Forall is_byte p → Z.of_nat (length p) < 65536 →
  ∃ r app', ping_recv (Some p) (Some ip) app = Ok (r, app') ∧
    if decide ((8 ≤ length p)%nat ∧ byte_at p 0 = 0 ∧ be16_at p 4 = ping_id app)
    then r = 1 ∧ net_out app' = net_out app ++ ping_message (ip4_addr1 ip) (ip4_addr2 ip) (ip4_addr3 ip)
           (ip4_addr4 ip) (be16_at p 6) (Z.of_nat (length p)) ++ prompt
    else r = 0 ∧ app' = app.
Proof.
  intros Hb Hl. unfold ping_recv. destruct (Z.ltb_spec (Z.of_nat (length p)) 8).
  { exists 0, app. split; [done|]. rewrite decide_False by lia. done. }
  rewrite (get_byte_at p 0), bind_Ok by lia. change (Z.to_nat 0) with 0%nat. unfold ICMP_ER.
  destruct (Z.eqb_spec (byte_at p 0) 0) as [Hk|Hk]; cbn [negb].
  2:{ exists 0, app. split; [done|]. rewrite decide_False by tauto. done. }
  rewrite (read_be16_at p 4), bind_Ok by (done || lia).
  rewrite (read_be16_at p 6), bind_Ok by (done || lia).
  change (Z.to_nat 4) with 4%nat. change (Z.to_nat 6) with 6%nat.
  destruct (Z.eqb_spec (be16_at p 4) (ping_id app)) as [Hi|Hi]; cbn [negb].
  2:{ exists 0, app. split; [done|]. rewrite decide_False by tauto. done. }
  pose proof (ip4_addr_bytes ip) as Hip. unfold ip4_bytes in Hip. rewrite !Forall_cons in Hip.
  destruct Hip as (? & ? & ? & ? & _).
  rewrite sprintf_ok, bind_Ok by (apply ping_message_length; try done; [by apply be16_at_bound|lia]).
  do 2 eexists. split; [reflexivity|]. rewrite decide_True by (repeat split; (done || lia)).
  split; [done|]. unfold net_puts. cbn [net_out]. by rewrite <-app_assoc.
Qed.

(** The peer answers pings: a frame lwIP sends that is an ICMP echo
    request for the peer, with consistent lengths, puts exactly one frame at
    the end of the queue (which is not full), and that frame is a correct
    reply: addressed back, of type 0, with the identifier, the sequence number
    and the whole payload of the request, and with an IP and an ICMP checksum
    that verify. *)
Theorem echo_request_answered app frame ihl total :
  app_wf app → pending_count app < NET_PENDING_MAX → Forall is_byte frame →
  echo_request app frame → echo_lens frame = Some (ihl, total) →
  ∃ app' reply, peer_link_output frame (Z.of_nat (length frame)) app = Ok (ERR_OK, app') ∧
    app_wf app' ∧ frames app' = frames app ++ [reply] ∧ is_echo_reply frame reply ihl total.
Proof.
  intros Hw Hroom Hb He Hlens. destruct (echo_lens_Some _ _ _ Hlens) as (Hl & _).
  destruct (peer_link_output_wf app frame Hw Hb) as (app' & Hr & Hw' & Hf); [unfold FRAME_MAX; lia|].
  exists app', (echo_reply frame ihl total). split; [done|]. split; [done|].
  split; [|by apply echo_reply_ok]. rewrite Hf, decide_True by done. unfold answer.
  rewrite decide_False, decide_True by (done || (intros (_ & H1 & _); destruct He as (_ & H2 & _); lia)).
  rewrite Hlens. reflexivity.
Qed.

(** ARP requests for the peer are answered: the frame queued says that
    the peer's address is at the peer's hardware address, to the sender of the
    request; and a full queue drops the answer, counts it, and changes nothing
    that waits. *)
Theorem arp_request_answered app frame :
  app_wf app → Forall is_byte frame → Z.of_nat (length frame) ≤ FRAME_MAX → arp_request app frame →
  ∃ app', peer_link_output frame (Z.of_nat (length frame)) app = Ok (ERR_OK, app') ∧ app_wf app' ∧
    if decide (pending_count app < NET_PENDING_MAX)
    then frames app' = frames app ++ [arp_reply app frame] ∧ dropped_count app' = dropped_count app
    else frames app' = frames app ∧ dropped_count app' = u32 (dropped_count app + 1).
Proof.
  intros Hw Hb Hl Ha. rewrite peer_link_output_run by done. unfold answer. rewrite decide_True by done.
  assert (answer app frame = Some (arp_reply app frame)) as Hans by (unfold answer; by rewrite decide_True).
  destruct (answer_bytes _ _ _ Hb Hl Hans) as [Hbr Hlr]. case_decide as Hroom.
  - destruct (queue_frame_room _ (sent app) (sent_wf app Hw) Hbr Hlr Hroom) as (ps & -> & Hf & Hw').
    eexists. split; [reflexivity|]. by split.
  - rewrite queue_frame_full by (simpl; pose proof (aw_count app Hw); unfold NET_PENDING_MAX in *; lia).
    eexists. split; [reflexivity|]. split; [by destruct Hw|done].
Qed.

End ping.

Section task.
Context {L P I : Type} `{!EqDecision P, !Countable P, !LwipOps L P I, !Lwip L P I, !Ip4Ops I, !Ip4 I}.


(** The network task is safe whatever lwIP does with the frames: as long
    as a frame waits, handling it returns without a fault -- no access out of
    bounds in the queue, in the frame or in the text buffer -- leaves the
    queue in order even when lwIP sends frames meanwhile, and leaks no packet
    buffer. *)
Theorem net_step_safe n (l : L) (app : net_app I) :
  app_wf app → 0 < pending_count app →
  ∃ l' app', net_step (net_iface n) l app = Ok (l', app') ∧ app_wf app' ∧ owned l' = owned l.
Proof.
  intros Hw Hc. pose proof (frames_length app Hw) as Hlen.
  destruct (frames app) as [|f fs] eqn:Hf; [simpl in Hlen; lia|].
  destruct (take_pending_ok app f fs Hw Hf) as (x & ps & Htk & _ & (Hxl & Hxb & Hxn) & _ & Hw1).
  unfold net_step. rewrite Htk, bind_Ok. unfold NET_FRAME_MAX in Hxn.
  destruct (report_total (pf_data x) (pf_len x) (set_counts (u32 (rx_count app + 1)) (tx_count app)
    (dropped_count app) (set_pending ps (pending_count app - 1) app))) as (app2 & -> & Hw2);
    [done|rewrite Hxl; lia|by destruct Hw1|]. rewrite bind_Ok.
  destruct (netif_input_keeps app_wf (net_iface n) (pf_data x) (pf_len x) l app2)
    as (e & l' & app3 & -> & Ho & Hw3); [apply net_iface_keeps|done|rewrite Hxl; lia|].
  by exists l', app3.
Qed.
End task.

(** Addresses typed as they are printed are read back: the text of four
    numbers of any 32-bit values is parsed to the address of these numbers
    when all are bytes, and refused otherwise. *)
Theorem ip_text_round_trip {I : Type} `{!Ip4Ops I} a b c d :
  0 ≤ a < 2 ^ 32 → 0 ≤ b < 2 ^ 32 → 0 ≤ c < 2 ^ 32 → 0 ≤ d < 2 ^ 32 →
  parse_ip4 (fmt_ip a b c d) =
    if decide (a ≤ 255 ∧ b ≤ 255 ∧ c ≤ 255 ∧ d ≤ 255) then Some (IP4_ADDR a b c d : I) else None.
Proof.
  intros Ha Hb Hc Hd. unfold parse_ip4, fmt_ip.
  rewrite (scan_u_fmt 32 a) by (done || (intros ? ? [= <- _]; done)). cbn [mbind option_bind app].
  rewrite (scan_u_fmt 32 b) by (done || (intros ? ? [= <- _]; done)). cbn [mbind option_bind].
  rewrite (scan_u_fmt 32 c) by (done || (intros ? ? [= <- _]; done)). cbn [mbind option_bind].
  rewrite <-(app_nil_r (fmt_dec 0 d)).
  rewrite (scan_u_fmt 32 d) by (done || (intros ? ? ?; done)). cbn [mbind option_bind].
  destruct (Z.ltb_spec 255 a), (Z.ltb_spec 255 b), (Z.ltb_spec 255 c), (Z.ltb_spec 255 d); simpl;
    case_decide; done || lia.
Qed.

(** ** Addresses of four bytes, and a request *)

Definition quad : Type := Z * Z * Z * Z.

#[global] Instance quad_ops : Ip4Ops quad := {
  IP4_ADDR a b c d := (a, b, c, d);
  ip4_addr1 q := u8 q.1.1.1;
  ip4_addr2 q := u8 q.1.1.2;
  ip4_addr3 q := u8 q.1.2;
  ip4_addr4 q := u8 q.2;
  ip4_and p q := (Z.land p.1.1.1 q.1.1.1, Z.land p.1.1.2 q.1.1.2, Z.land p.1.2 q.1.2, Z.land p.2 q.2);
  ip4_addr_netcmp p q m := bool_decide (
    Z.land p.1.1.1 m.1.1.1 = Z.land q.1.1.1 m.1.1.1 ∧ Z.land p.1.1.2 m.1.1.2 = Z.land q.1.1.2 m.1.1.2 ∧
    Z.land p.1.2 m.1.2 = Z.land q.1.2 m.1.2 ∧ Z.land p.2 m.2 = Z.land q.2 m.2);
}.

#[global] Instance quad_ip4 : Ip4 quad.
Proof.
  split.
  - intros ip. repeat constructor; apply (wrap_bound 8); lia.
  - intros a b c d Ha Hb Hc Hd. unfold is_byte in *. unfold ip4_bytes. simpl. by rewrite !wrap_small by lia.
Qed.

Definition demo_app : net_app quad := net_init.

Lemma empty_slot_wf : slot_wf (mk_pending (replicate 1536 0) 0).
Proof.
  split; [apply length_replicate|]. split; [apply Forall_replicate; by unfold is_byte|].
  change (0 ≤ 0 ≤ 1536). lia.
Qed.

Lemma demo_app_wf : app_wf demo_app.
Proof.
  split; [change (0 ≤ 0 ≤ 4); lia|reflexivity|].
  change (Forall slot_wf (replicate 4 (mk_pending (replicate 1536 0) 0))).
  apply Forall_replicate, empty_slot_wf.
Qed.

(** The echo request number 7 from 192.168.1.2 to 192.168.1.10, with two bytes
    of payload. *)
Definition demo_request : list Z :=
  [2; 0; 0; 0; 0; 2; 2; 0; 0; 0; 0; 1; 8; 0; 69; 0; 0; 30; 0; 1; 0; 0; 64; 1; 0; 0;
   192; 168; 1; 2; 192; 168; 1; 10; 8; 0; 0; 0; 77; 80; 0; 7; 97; 98].

Definition demo_arp : list Z :=
  [255; 255; 255; 255; 255; 255; 2; 0; 0; 0; 0; 1; 8; 6; 0; 1; 8; 0; 6; 4; 0; 1;
   2; 0; 0; 0; 0; 1; 192; 168; 1; 2; 0; 0; 0; 0; 0; 0; 192; 168; 1; 10].

Lemma demo_bytes : Forall is_byte demo_request ∧ Forall is_byte demo_arp.
Proof. split; repeat constructor; vm_compute; congruence. Qed.

Lemma echo_request_answered_witness :
  ∃ app' reply, peer_link_output demo_request 44 demo_app = Ok (ERR_OK, app') ∧ app_wf app' ∧
    frames app' = [reply] ∧ is_echo_reply demo_request reply 20 30.
Proof.
  apply (echo_request_answered demo_app demo_request 20 30).
  - exact demo_app_wf.
  - reflexivity.
  - apply demo_bytes.
  - split_and!; [simpl; lia|reflexivity..|left; reflexivity].
  - reflexivity.
Defined.

Lemma arp_request_answered_witness :
  ∃ app', peer_link_output demo_arp 42 demo_app = Ok (ERR_OK, app') ∧
    frames app' = [arp_reply demo_app demo_arp].
Proof.
  destruct (arp_request_answered demo_app demo_arp) as (app' & Hr & _ & Hf).
  - exact demo_app_wf.
  - apply demo_bytes.
  - vm_compute. discriminate.
  - split_and!; [simpl; lia|reflexivity..|left; reflexivity].
  - exists app'. split; [exact Hr|]. rewrite decide_True in Hf by reflexivity. apply Hf.
Defined.


(** The queue of [demo_app] with one frame. *)
Definition demo_waiting : net_app quad :=
  set_pending (mk_pending (patch 0 demo_request (replicate 1536 0)) 44 ::
    replicate 3 (mk_pending (replicate 1536 0) 0)) 1 demo_app.

Lemma demo_waiting_wf : app_wf demo_waiting.
Proof.
  split; [change (0 ≤ 1 ≤ 4); lia|reflexivity|]. constructor; [|apply Forall_replicate, empty_slot_wf].
  split; [vm_compute; reflexivity|]. split; [|change (0 ≤ 44 ≤ 1536); lia].
  apply patch_bytes; [apply demo_bytes|]. apply Forall_replicate. by unfold is_byte.
Qed.

Lemma net_step_safe_witness :
  ∃ l' app', net_step (net_iface zero_netif) (mk_loopback ∅ ∅ : loopback) demo_waiting = Ok (l', app') ∧
    app_wf app'.
Proof.
  destruct (net_step_safe (I := quad) zero_netif (mk_loopback ∅ ∅ : loopback) demo_waiting)
    as (l' & app' & Hr & Hw & _).
  - exact demo_waiting_wf.
  - reflexivity.
  - exists l', app'. split; [exact Hr|exact Hw].
Defined.

Lemma ip_text_round_trip_witness :
  parse_ip4 (fmt_ip 192 168 1 10) = Some (192, 168, 1, 10) ∧ parse_ip4 (fmt_ip 192 168 1 256) = None.
Proof.
  split; rewrite (ip_text_round_trip (I := quad)) by lia; reflexivity.
Defined.
