(* ===== verification/NetShell.v ===== *)
(** * The shell of the TAP network example

    src/examples/simu/net_tap/main.c, on Linux: keys with their escape
    sequences, the line editor with its history, and the decoding of command
    lines.  What a command then does with lwIP is a parameter [exec]; the text
    written to the terminal is collected in [sh_out]. *)

From S2P Require Import Prelude Bytes Cstdio Frames NetConsole.

Definition CONSOLE_LINE_MAX : Z := 128.
Definition CONSOLE_HISTORY_SIZE : Z := 16.
Definition CONSOLE_KEY_UP : Z := 1001.
Definition CONSOLE_KEY_DOWN : Z := 1002.
Definition CONSOLE_KEY_DELETE : Z := 1003.

(** ** Keys *)

(** What the terminal delivers, one element per attempt to read: a byte, or
    nothing before the timeout; at the end of the file [select] finds the
    descriptor readable for ever, and [read] returns no byte. *)
Inductive event := Byte (b : Z) | Nothing | Eof.

#[global] Instance event_eq_dec : EqDecision event.
Proof. solve_decision. Defined.

Abbreviation input := (list event).

Definition console_kbhit (i : input) : bool :=
  match i with Byte _ :: _ | Eof :: _ => true | _ => false end.

Definition console_read_byte (i : input) : option Z * input :=
  match i with
  | Byte b :: i => (Some b, i)
  | Nothing :: i => (None, i)
  | Eof :: _ => (None, i)
  | [] => (None, [])
  end.

Definition console_getch (i : input) : Z * input :=
  let '(ch, i) := console_read_byte i in
  match ch with
  | None => (0, i)
  | Some ch =>
      if ch =? 27 then
        let '(s0, i) := console_read_byte i in
        match s0 with
        | None => (0, i)
        | Some s0 =>
            let '(s1, i) := console_read_byte i in
            match s1 with
            | None => (0, i)
            | Some s1 =>
                if negb (s0 =? 91) then (0, i) else
                if s1 =? 65 then (CONSOLE_KEY_UP, i) else
                if s1 =? 66 then (CONSOLE_KEY_DOWN, i) else
                if s1 =? 51 then
                  let '(s2, i) := console_read_byte i in
                  match s2 with
                  | Some s2 => if s2 =? 126 then (CONSOLE_KEY_DELETE, i) else (0, i)
                  | None => (0, i)
                  end
                else (0, i)
            end
        end
      else (ch, i)
  end.

(** ** Lines *)

(** The static variables of [poll_console], [g_stop], the application and the
    terminal. *)
Record shell (A : Type) := mk_shell {
  sh_line : list Z;
  sh_history : list (list Z);
  sh_len : Z;
  history_count : Z;
  history_pos : Z;
  g_stop : bool;
  sh_app : A;
  sh_out : list Z;
}.
Arguments mk_shell {A} _ _ _ _ _ _ _ _.
Arguments sh_line {A} _.
Arguments sh_history {A} _.
Arguments sh_len {A} _.
Arguments history_count {A} _.
Arguments history_pos {A} _.
Arguments g_stop {A} _.
Arguments sh_app {A} _.
Arguments sh_out {A} _.

Definition print_prompt : list Z := str "mipOS-net> ".

(** [redraw_console_line] *)
Definition redraw_console_line (line : list Z) (len previous_len : Z) : list Z :=
  [13] ++ print_prompt ++ line ++
  (if len <? previous_len
   then replicate (Z.to_nat (previous_len - len)) 32 ++ replicate (Z.to_nat (previous_len - len)) 8
   else []).

(** [line[i] = c]. *)
Definition put_char (i c : Z) (l : list Z) : res (list Z) :=
  if (i <? 0) || (Z.of_nat (length l) <=? i) then Fault OutOfBounds else Ok (<[Z.to_nat i := c]> l).

(** [strncpy(dst, src, sizeof(dst) - 1)] and the terminator after it. *)
Definition copy_line (dst src : list Z) : res (list Z) :=
  s ← cstr src;
  dst ← strncpy dst s 127;
  put_char 127 0 dst.

Section shell.
Context {A : Type} (exec : list Z → A → res (A * bool * list Z)).

Implicit Types (s : shell A).

(** The end of a line: the history is extended, the command run. *)
Definition enter_key (s : shell A) : res (shell A) :=
  line ← put_char (sh_len s) 0 (sh_line s);
  cur ← cstr line;
  same ← (if 0 <? sh_len s then
            if history_count s =? 0 then Ok false else
            h ← of_lookup (sh_history s !! Z.to_nat (u32 (history_count s - 1) `mod` CONSOLE_HISTORY_SIZE));
            last ← cstr h;
            Ok (bool_decide (last = cur))
          else Ok true);
  '(hist, count) ← (if (same : bool) then Ok (sh_history s, history_count s) else
            let slot := Z.to_nat (history_count s `mod` CONSOLE_HISTORY_SIZE) in
            h ← of_lookup (sh_history s !! slot);
            h ← copy_line h line;
            Ok (<[slot := h]> (sh_history s), u32 (history_count s + 1)));
  '(app, stop, text) ← exec cur (sh_app s);
  line ← put_char 0 0 line;
  let stop := g_stop s || stop in
  Ok (mk_shell line hist 0 count count stop app
        (sh_out s ++ [10] ++ text ++ (if (stop : bool) then [] else print_prompt))).

(** Up and down: the position moves, and the line is replaced. *)
Definition history_key (up : bool) (s : shell A) : res (shell A) :=
  let visible := if history_count s <? CONSOLE_HISTORY_SIZE then history_count s else CONSOLE_HISTORY_SIZE in
  if visible =? 0 then Ok s else
  let pos :=
    if up then
      let oldest := u32 (history_count s - visible) in
      if oldest <? history_pos s then u32 (history_pos s - 1) else history_pos s
    else if history_pos s <? history_count s then u32 (history_pos s + 1) else history_pos s in
  '(line, len) ← (if pos =? history_count s then line ← put_char 0 0 (sh_line s); Ok (line, 0) else
                  h ← of_lookup (sh_history s !! Z.to_nat (pos `mod` CONSOLE_HISTORY_SIZE));
                  line ← copy_line (sh_line s) h;
                  cur ← cstr line;
                  Ok (line, Z.of_nat (length cur)));
  cur ← cstr line;
  Ok (mk_shell line (sh_history s) len (history_count s) pos (g_stop s) (sh_app s)
        (sh_out s ++ redraw_console_line cur len (sh_len s))).

(** One key; the second result says whether the loop is left. *)
Definition shell_key (ch : Z) (s : shell A) : res (shell A * bool) :=
  if (ch =? 13) || (ch =? 10) then s ← enter_key s; Ok (s, false)
  else if (ch =? 3) || ((ch =? 4) && (sh_len s =? 0)) then
    Ok (mk_shell (sh_line s) (sh_history s) (sh_len s) (history_count s) (history_pos s) true (sh_app s)
          (sh_out s), true)
  else if (ch =? CONSOLE_KEY_UP) || (ch =? CONSOLE_KEY_DOWN) then
    s ← history_key (ch =? CONSOLE_KEY_UP) s; Ok (s, false)
  else if (ch =? 8) || (ch =? 127) || (ch =? CONSOLE_KEY_DELETE) then
    if 0 <? sh_len s then
      line ← put_char (sh_len s - 1) 0 (sh_line s);
      Ok (mk_shell line (sh_history s) (sh_len s - 1) (history_count s) (history_pos s) (g_stop s)
            (sh_app s) (sh_out s ++ [8; 32; 8]), false)
    else Ok (s, false)
  else if (32 <=? ch) && (ch <? 127) && (sh_len s + 1 <? CONSOLE_LINE_MAX) then
    line ← put_char (sh_len s) ch (sh_line s);
    line ← put_char (sh_len s + 1) 0 line;
    Ok (mk_shell line (sh_history s) (sh_len s + 1) (history_count s) (history_count s) (g_stop s)
          (sh_app s) (sh_out s ++ [ch]), false)
  else Ok (s, false).

(** [poll_console]; unless the file has ended every iteration reads at least one
    byte, so the length of the input is fuel enough. *)
Fixpoint poll_loop (fuel : nat) (i : input) (s : shell A) : res (shell A * input) :=
  if negb (console_kbhit i) then Ok (s, i) else
  match fuel with
  | O => Fault OutOfFuel
  | S fuel =>
      let '(ch, i) := console_getch i in
      '(s, stop) ← shell_key ch s;
      if (stop : bool) then Ok (s, i) else poll_loop fuel i s
  end.

Definition poll_console (i : input) (s : shell A) : res (shell A * input) := poll_loop (length i) i s.
End shell.
