(* ===== verification/NetShellProps.v ===== *)
(** * Properties of the shell's line editor

    The buffers and the ring of the history refine an editor on plain lists:
    the lines entered, all of them, the line being edited and a position. *)

From S2P Require Import Prelude Bytes Cstdio Frames NetConsole NetShell.

(** ** The editor on lists *)

(** [ed_pos] counts from the first line ever entered; [length ed_entries] is
    the line being edited. *)
Record editor (A : Type) := mk_editor {
  ed_entries : list (list Z);
  ed_cur : list Z;
  ed_pos : nat;
  ed_app : A;
  ed_stop : bool;
}.
Arguments mk_editor {A} _ _ _ _ _.
Arguments ed_entries {A} _.
Arguments ed_cur {A} _.
Arguments ed_pos {A} _.
Arguments ed_app {A} _.
Arguments ed_stop {A} _.

Section editor.
Context {A : Type} (run : list Z → A → A * bool * list Z).

Implicit Types (e : editor A) (s : shell A).

(** A line is remembered unless it is empty or repeats the last one. *)
Definition remember (cur : list Z) (es : list (list Z)) : list (list Z) :=
  if decide (cur = [] ∨ last es = Some cur) then es else es ++ [cur].

Definition ed_enter e : editor A :=
  let es := remember (ed_cur e) (ed_entries e) in
  let '(app, stop, _) := run (ed_cur e) (ed_app e) in
  mk_editor es [] (length es) app (ed_stop e || stop).

(** The sixteen last lines can be recalled. *)
Definition ed_oldest (es : list (list Z)) : nat := length es - 16.

Definition ed_move (up : bool) e : editor A :=
  let n := length (ed_entries e) in
  if Nat.eqb n 0 then e else
  let pos := if up then if Nat.ltb (ed_oldest (ed_entries e)) (ed_pos e) then (ed_pos e - 1)%nat else ed_pos e
             else if Nat.ltb (ed_pos e) n then S (ed_pos e) else ed_pos e in
  mk_editor (ed_entries e) (default [] (ed_entries e !! pos)) pos (ed_app e) (ed_stop e).

Definition ed_leaves (ch : Z) e : bool := (ch =? 3) || ((ch =? 4) && bool_decide (ed_cur e = [])).

Definition ed_key (ch : Z) e : editor A :=
  if (ch =? 13) || (ch =? 10) then ed_enter e
  else if ed_leaves ch e then mk_editor (ed_entries e) (ed_cur e) (ed_pos e) (ed_app e) true
  else if (ch =? CONSOLE_KEY_UP) || (ch =? CONSOLE_KEY_DOWN) then ed_move (ch =? CONSOLE_KEY_UP) e
  else if (ch =? 8) || (ch =? 127) || (ch =? CONSOLE_KEY_DELETE) then
    mk_editor (ed_entries e) (take (length (ed_cur e) - 1) (ed_cur e)) (ed_pos e) (ed_app e) (ed_stop e)
  else if (32 <=? ch) && (ch <? 127) && Nat.ltb (length (ed_cur e)) 127 then
    mk_editor (ed_entries e) (ed_cur e ++ [ch]) (length (ed_entries e)) (ed_app e) (ed_stop e)
  else e.

(** The keys of an input, and the editor on them up to the one that leaves. *)
Fixpoint keys (fuel : nat) (i : input) : list Z :=
  match fuel with
  | O => []
  | S fuel => if console_kbhit i then let '(ch, i) := console_getch i in ch :: keys fuel i else []
  end.

Fixpoint ed_run (ks : list Z) e : editor A :=
  match ks with
  | [] => e
  | ch :: ks => if ed_leaves ch e && negb ((ch =? 13) || (ch =? 10)) then ed_key ch e else ed_run ks (ed_key ch e)
  end.

(** ** The relation *)

(** A buffer of 128 bytes that holds a string without zeros. *)
Record holds_line (buf l : list Z) : Prop := {
  hl_buf : length buf = 128%nat;
  hl_len : (length l ≤ 127)%nat;
  hl_nz : Forall (λ c, c ≠ 0) l;
  hl_at : take (S (length l)) buf = l ++ [0];
}.

Record refines s e : Prop := {
  rf_line : holds_line (sh_line s) (ed_cur e);
  rf_len : sh_len s = Z.of_nat (length (ed_cur e));
  rf_hist : length (sh_history s) = 16%nat;
  rf_bufs : Forall (λ h, length h = 128%nat) (sh_history s);
  rf_count : history_count s = Z.of_nat (length (ed_entries e));
  rf_pos : history_pos s = Z.of_nat (ed_pos e);
  rf_range : (ed_oldest (ed_entries e) ≤ ed_pos e ≤ length (ed_entries e))%nat;
  rf_entries : ∀ i l, ed_entries e !! i = Some l → (length (ed_entries e) ≤ i + 16)%nat →
    ∃ h, sh_history s !! (i `mod` 16)%nat = Some h ∧ holds_line h l;
  rf_app : sh_app s = ed_app e;
  rf_stop : g_stop s = ed_stop e;
}.

(** ** Lines in buffers *)

Lemma holds_line_cstr buf l : holds_line buf l → cstr buf = Ok l.
Proof.
  intros [_ _ Hn Ht]. rewrite <-(take_drop (S (length l)) buf), Ht, <-app_assoc. by apply cstr_app.
Qed.

Lemma put_char_ok i c (l : list Z) :
  0 ≤ i < Z.of_nat (length l) → put_char i c l = Ok (<[Z.to_nat i := c]> l).
Proof.
  intros Hi. unfold put_char. rewrite (proj2 (Z.ltb_ge i 0)), (proj2 (Z.leb_gt _ i)) by lia. done.
Qed.

(** Cutting a line, and extending it. *)
Lemma holds_line_cut buf l n :
  holds_line buf l → (n ≤ length l)%nat → holds_line (<[n := 0]> buf) (take n l).
Proof.
  intros [Hb Hl Hn Ht] Hnl. assert (length (take n l) = n) as Htl by (rewrite length_take; lia).
  split; rewrite ?length_insert; [done|lia|by apply Forall_take|].
  rewrite Htl. apply list_eq. intros i. destruct (decide (i = n)) as [->|].
  - rewrite lookup_take_lt, list_lookup_insert_eq by lia. rewrite lookup_app_r by lia. by rewrite Htl, Nat.sub_diag.
  - destruct (decide (i < n)%nat).
    + rewrite lookup_take_lt, list_lookup_insert_ne, lookup_app_l by lia. rewrite lookup_take_lt by lia.
      assert ((take (S (length l)) buf) !! i = (l ++ [0]) !! i) as E by by rewrite Ht.
      rewrite lookup_take_lt, lookup_app_l in E by lia. done.
    + rewrite lookup_take_ge, lookup_ge_None_2 by (rewrite ?length_app, ?Htl; simpl; lia). done.
Qed.

Lemma holds_line_snoc buf l c :
  holds_line buf l → c ≠ 0 → (length l < 127)%nat →
  holds_line (<[S (length l) := 0]> (<[length l := c]> buf)) (l ++ [c]).
Proof.
  intros [Hb Hl Hn Ht] Hc Hlt. split; rewrite ?length_insert, ?length_app; simpl; [done|lia| |].
  - apply Forall_app. split; [done|]. by constructor.
  - rewrite Nat.add_1_r. apply list_eq. intros i.
    destruct (decide (i = S (length l))) as [->|]; [|destruct (decide (i = length l)) as [->|]].
    + rewrite lookup_take_lt, list_lookup_insert_eq by (rewrite ?length_insert; lia).
      rewrite lookup_app_r by (rewrite length_app; simpl; lia). rewrite length_app. simpl.
      by replace (S (length l) - (length l + 1))%nat with 0%nat by lia.
    + rewrite lookup_take_lt, list_lookup_insert_ne, list_lookup_insert_eq by lia.
      rewrite <-app_assoc, lookup_app_r, Nat.sub_diag by lia. done.
    + destruct (decide (i < length l)%nat).
      * rewrite lookup_take_lt, !list_lookup_insert_ne by lia. rewrite <-app_assoc, lookup_app_l by lia.
        assert ((take (S (length l)) buf) !! i = (l ++ [0]) !! i) as E by by rewrite Ht.
        rewrite lookup_take_lt, lookup_app_l in E by lia. done.
      * rewrite lookup_take_ge, lookup_ge_None_2 by (rewrite ?length_app; simpl; lia). done.
Qed.

(** Copying a line into another buffer. *)
Lemma copy_line_ok dst src l :
  length dst = 128%nat → holds_line src l → ∃ dst', copy_line dst src = Ok dst' ∧ holds_line dst' l.
Proof.
  intros Hd Hs. pose proof Hs as [_ Hl Hn _]. unfold copy_line.
  rewrite (holds_line_cstr _ _ Hs), bind_Ok. unfold strncpy. rewrite Hd.
  change (Nat.ltb 128 127) with false. cbv iota. rewrite bind_Ok.
  assert (until_nul l = l) as Hu by (clear -Hn; induction Hn as [|c l Hc _ IH]; simpl;
    [done|]; destruct (Z.eqb_spec c 0); [done|by rewrite IH]).
  rewrite Hu, (take_ge l) by lia. set (d := l ++ replicate (127 - length l) 0 ++ drop 127 dst).
  assert (length d = 128%nat) as Hdl.
  { unfold d. rewrite !length_app, length_replicate, length_drop. lia. }
  rewrite put_char_ok by lia. eexists. split; [reflexivity|].
  split; [by rewrite length_insert|done|done|].
  apply list_eq. intros i. destruct (decide (i = length l)) as [->|]; [|destruct (decide (i < length l)%nat)].
  - rewrite lookup_take_lt, lookup_app_r, Nat.sub_diag by lia. simpl.
    destruct (decide (length l = 127%nat)) as [He|].
    + change (Z.to_nat 127) with 127%nat. rewrite He, list_lookup_insert_eq by lia. done.
    + rewrite list_lookup_insert_ne by lia. unfold d. rewrite lookup_app_r, Nat.sub_diag by lia.
      rewrite lookup_app_l by (rewrite length_replicate; lia). by rewrite lookup_replicate_2 by lia.
  - rewrite lookup_take_lt, list_lookup_insert_ne by lia. unfold d. by rewrite !lookup_app_l by lia.
  - rewrite lookup_take_ge, lookup_ge_None_2 by (rewrite ?length_app; simpl; lia). done.
Qed.

(** ** One key *)

Abbreviation exec := (λ c a, Ok (run c a)).

(** A new line goes to the slot of the oldest of sixteen. *)
Lemma refines_remembered s e h l :
  refines s e → holds_line h l →
  ∀ i l', (ed_entries e ++ [l]) !! i = Some l' → (length (ed_entries e ++ [l]) ≤ i + 16)%nat →
  ∃ h', <[(length (ed_entries e) `mod` 16)%nat := h]> (sh_history s) !! (i `mod` 16)%nat = Some h' ∧
    holds_line h' l'.
Proof.
  intros Hr Hh i l' Hi Hlen. rewrite length_app in Hlen. simpl in Hlen.
  destruct (decide (i = length (ed_entries e))) as [->|Hne].
  - rewrite lookup_app_r, Nat.sub_diag in Hi by lia. simpl in Hi. injection Hi as <-.
    exists h. split; [|done]. apply list_lookup_insert_eq. rewrite (rf_hist _ _ Hr).
    apply Nat.mod_upper_bound. lia.
  - assert (i < length (ed_entries e))%nat as Hlt.
    { apply lookup_lt_Some in Hi. rewrite length_app in Hi. simpl in Hi. lia. }
    rewrite lookup_app_l in Hi by done. destruct (rf_entries _ _ Hr i l' Hi) as (h' & Hh' & Hl'); [lia|].
    exists h'. split; [|done]. rewrite list_lookup_insert_ne; [done|].
    intros Heq. pose proof (Nat.div_mod i 16 ltac:(lia)). pose proof (Nat.div_mod (length (ed_entries e)) 16 ltac:(lia)).
    nia.
Qed.

(** The slot of a line in the ring. *)
Lemma slot_of n : Z.to_nat (Z.of_nat n `mod` CONSOLE_HISTORY_SIZE) = (n `mod` 16)%nat.
Proof. unfold CONSOLE_HISTORY_SIZE. change 16 with (Z.of_nat 16). by rewrite <-Nat2Z.inj_mod, Nat2Z.id. Qed.

(** The test whether the line is to be remembered. *)
Lemma repeats_ok s e :
  refines s e → Z.of_nat (length (ed_entries e)) + 1 < 2 ^ 32 →
  (if 0 <? sh_len s then
     if history_count s =? 0 then Ok false else
     h ← of_lookup (sh_history s !! Z.to_nat (u32 (history_count s - 1) `mod` CONSOLE_HISTORY_SIZE));
     last ← cstr h; Ok (bool_decide (last = ed_cur e))
   else Ok true) = Ok (bool_decide (ed_cur e = [] ∨ last (ed_entries e) = Some (ed_cur e))).
Proof.
  intros Hr Hmax. rewrite (rf_len _ _ Hr), (rf_count _ _ Hr).
  destruct (ed_cur e) as [|c cur] eqn:Hc; [by rewrite bool_decide_eq_true_2 by by left|].
  rewrite (proj2 (Z.ltb_lt 0 _)) by (simpl; lia).
  destruct (Z.eqb_spec (Z.of_nat (length (ed_entries e))) 0) as [H0|H0].
  - destruct (ed_entries e); [|done]. rewrite bool_decide_eq_false_2; [done|]. by intros [|].
  - destruct (exists_last (l := ed_entries e)) as (es & x & Hes); [by intros Hnil; rewrite Hnil in H0|].
    destruct (rf_entries _ _ Hr (length es) x) as (h & Hh & Hl).
    { by rewrite Hes, lookup_app_r, Nat.sub_diag by lia. }
    { rewrite Hes, length_app. simpl. lia. }
    rewrite Hes, length_app in *. cbn [length] in *.
    rewrite wrap_small by lia. replace (Z.of_nat (length es + 1) - 1) with (Z.of_nat (length es)) by lia.
    rewrite slot_of, Hh. simpl of_lookup. rewrite bind_Ok, (holds_line_cstr _ _ Hl), bind_Ok. f_equal.
    apply bool_decide_ext. rewrite last_snoc. naive_solver.
Qed.

Lemma enter_refines s e :
  refines s e → Z.of_nat (length (ed_entries e)) + 1 < 2 ^ 32 →
  ∃ s', enter_key exec s = Ok s' ∧ refines s' (ed_enter e).
Proof.
  intros Hr Hmax. pose proof Hr as [Hline Hlen Hh16 Hbufs Hcount Hpos Hrange Hent Happ Hstop].
  pose proof (hl_buf _ _ Hline) as Hb. pose proof (hl_len _ _ Hline) as Hl.
  unfold enter_key. rewrite put_char_ok, bind_Ok by lia.
  pose proof (holds_line_cut _ _ (length (ed_cur e)) Hline ltac:(lia)) as Hcut.
  rewrite firstn_all in Hcut. replace (Z.to_nat (sh_len s)) with (length (ed_cur e)) by lia.
  rewrite (holds_line_cstr _ _ Hcut), bind_Ok. rewrite (repeats_ok s e Hr Hmax), bind_Ok.
  pose proof (holds_line_cut _ _ 0 Hcut ltac:(lia)) as Hempty. rewrite take_0 in Hempty.
  set (line := <[length (ed_cur e) := 0]> (sh_line s)) in *.
  assert (length line = 128%nat) as Hll by apply Hcut.
  unfold ed_enter, remember. case_bool_decide as Hsame.
  - rewrite decide_True, bind_Ok by done. rewrite Happ.
    destruct (run (ed_cur e) (ed_app e)) as [[app stop] text]. rewrite bind_Ok, put_char_ok, bind_Ok by lia.
    eexists. split; [reflexivity|]. split; simpl; try done; [|by rewrite Hstop].
    unfold ed_oldest. lia.
  - rewrite decide_False by done. rewrite Hcount, slot_of.
    destruct (lookup_lt_is_Some_2 (sh_history s) (length (ed_entries e) `mod` 16)) as [h Hh].
    { rewrite Hh16. apply Nat.mod_upper_bound. lia. }
    rewrite Hh. cbn [of_lookup]. rewrite bind_Ok.
    destruct (copy_line_ok h line (ed_cur e)) as (h' & -> & Hh').
    { by eapply (proj1 (Forall_lookup _ _) Hbufs). } { done. }
    rewrite !bind_Ok, Happ. destruct (run (ed_cur e) (ed_app e)) as [[app stop] text].
    rewrite put_char_ok, bind_Ok by lia.
    eexists. split; [reflexivity|]. split; simpl; try done.
    + by rewrite length_insert.
    + apply Forall_insert; [done|]. apply Hh'.
    + rewrite length_app, wrap_small by lia. simpl. lia.
    + rewrite length_app, wrap_small by lia. simpl. lia.
    + unfold ed_oldest. lia.
    + by apply refines_remembered.
    + by rewrite Hstop.
Qed.

Lemma move_refines up s e :
  refines s e → Z.of_nat (length (ed_entries e)) + 1 < 2 ^ 32 →
  ∃ s', history_key up s = Ok s' ∧ refines s' (ed_move up e).
Proof.
  intros Hr Hmax. pose proof Hr as [Hline Hlen Hh16 Hbufs Hcount Hpos Hrange Hent Happ Hstop].
  unfold history_key, ed_move. rewrite Hcount, Hpos. unfold CONSOLE_HISTORY_SIZE, ed_oldest in *.
  set (n := length (ed_entries e)) in *. set (p := ed_pos e) in *.
  set (visible := if Z.of_nat n <? 16 then Z.of_nat n else 16).
  assert (visible = Z.of_nat (n - (n - 16))) as -> by (unfold visible; destruct (Z.ltb_spec (Z.of_nat n) 16); lia).
  destruct (Nat.eqb_spec n 0) as [H0|H0].
  { replace (n - (n - 16))%nat with 0%nat by lia. by exists s. }
  destruct (Z.eqb_spec (Z.of_nat (n - (n - 16))) 0); [lia|].
  replace (Z.of_nat n - Z.of_nat (n - (n - 16))) with (Z.of_nat (n - 16)) by lia.
  rewrite (wrap_small 32 (Z.of_nat (n - 16))) by lia.
  set (q := if up then if Nat.ltb (n - 16) p then (p - 1)%nat else p else if Nat.ltb p n then S p else p).
  assert ((if up then if Z.of_nat (n - 16) <? Z.of_nat p then u32 (Z.of_nat p - 1) else Z.of_nat p
           else if Z.of_nat p <? Z.of_nat n then u32 (Z.of_nat p + 1) else Z.of_nat p) = Z.of_nat q) as ->.
  { unfold q. destruct up.
    - destruct (Nat.ltb_spec (n - 16) p), (Z.ltb_spec (Z.of_nat (n - 16)) (Z.of_nat p)); try lia.
      rewrite wrap_small; lia.
    - destruct (Nat.ltb_spec p n), (Z.ltb_spec (Z.of_nat p) (Z.of_nat n)); try lia. rewrite wrap_small; lia. }
  assert (n - 16 ≤ q ≤ n)%nat as Hq.
  { unfold q. destruct up; [destruct (Nat.ltb_spec (n - 16) p)|destruct (Nat.ltb_spec p n)]; lia. }
  clearbody q.
  assert (∃ line, (if Z.of_nat q =? Z.of_nat n then line ← put_char 0 0 (sh_line s); Ok (line, 0) else
      h ← of_lookup (sh_history s !! Z.to_nat (Z.of_nat q `mod` 16));
      line ← copy_line (sh_line s) h; cur ← cstr line; Ok (line, Z.of_nat (length cur))) =
      Ok (line, Z.of_nat (length (default [] (ed_entries e !! q)))) ∧
    holds_line line (default [] (ed_entries e !! q))) as (line & -> & Hl).
  { destruct (Z.eqb_spec (Z.of_nat q) (Z.of_nat n)) as [He|He].
    - rewrite put_char_ok, bind_Ok by (rewrite (hl_buf _ _ Hline); lia). rewrite lookup_ge_None_2 by lia. simpl.
      eexists. split; [reflexivity|]. apply (holds_line_cut _ _ 0 Hline). lia.
    - destruct (lookup_lt_is_Some_2 (ed_entries e) q) as [l Hl]; [lia|]. rewrite Hl. simpl default.
      destruct (Hent q l Hl) as (h & Hh & Hhl); [lia|].
      rewrite (slot_of q : Z.to_nat (Z.of_nat q `mod` 16) = _), Hh. cbn [of_lookup]. rewrite bind_Ok.
      destruct (copy_line_ok (sh_line s) h l) as (line & -> & Hline'); [apply Hline|done|].
      rewrite bind_Ok, (holds_line_cstr _ _ Hline'), bind_Ok. by exists line. }
  rewrite bind_Ok, (holds_line_cstr _ _ Hl), bind_Ok. eexists. split; [reflexivity|].
  split; simpl; try done.
Qed.

Lemma key_refines ch s e :
  refines s e → Z.of_nat (length (ed_entries e)) + 1 < 2 ^ 32 →
  ∃ s', shell_key exec ch s =
      Ok (s', ed_leaves ch e && negb ((ch =? 13) || (ch =? 10))) ∧ refines s' (ed_key ch e).
Proof.
  intros Hr Hmax. unfold shell_key, ed_key. destruct ((ch =? 13) || (ch =? 10)) eqn:Hent.
  { destruct (enter_refines s e Hr Hmax) as (s' & -> & Hr'). exists s'. by rewrite andb_false_r. }
  rewrite andb_true_r. pose proof Hr as [Hline Hlen Hh16 Hbufs Hcount Hpos Hrange Hents Happ Hstop].
  pose proof (hl_buf _ _ Hline) as Hb. pose proof (hl_len _ _ Hline) as Hl.
  assert ((sh_len s =? 0) = bool_decide (ed_cur e = [])) as Hz.
  { rewrite Hlen. destruct (ed_cur e); [done|]. rewrite bool_decide_eq_false_2 by done. apply Z.eqb_neq. simpl. lia. }
  rewrite Hz. fold (ed_leaves ch e). destruct (ed_leaves ch e) eqn:Hlv.
  { eexists. split; [reflexivity|]. by split. }
  destruct ((ch =? CONSOLE_KEY_UP) || (ch =? CONSOLE_KEY_DOWN)).
  { destruct (move_refines (ch =? CONSOLE_KEY_UP) s e Hr Hmax) as (s' & -> & Hr'). by exists s'. }
  destruct ((ch =? 8) || (ch =? 127) || (ch =? CONSOLE_KEY_DELETE)).
  { destruct (Z.ltb_spec 0 (sh_len s)) as [Hpos'|Hpos'].
    - rewrite put_char_ok, bind_Ok by lia. eexists. split; [reflexivity|].
      replace (Z.to_nat (sh_len s - 1)) with (length (ed_cur e) - 1)%nat by lia.
      split; simpl; try done; [apply holds_line_cut; [done|lia]|]. rewrite length_take. lia.
    - destruct (ed_cur e) as [|c cur] eqn:Hc; [|simpl in Hlen; lia].
      exists s. split; [done|]. split; simpl; try done. all: by rewrite <-Hc. }
  assert ((sh_len s + 1 <? CONSOLE_LINE_MAX) = Nat.ltb (length (ed_cur e)) 127) as ->.
  { unfold CONSOLE_LINE_MAX. destruct (Z.ltb_spec (sh_len s + 1) 128), (Nat.ltb_spec (length (ed_cur e)) 127); lia. }
  destruct ((32 <=? ch) && (ch <? 127) && Nat.ltb (length (ed_cur e)) 127) eqn:Hch; [|by exists s].
  apply andb_true_iff in Hch as [Hch Hlt%Nat.ltb_lt]. bool_to_prop.
  rewrite put_char_ok, bind_Ok by lia. rewrite put_char_ok, bind_Ok by (rewrite length_insert; lia).
  eexists. split; [reflexivity|]. replace (Z.to_nat (sh_len s)) with (length (ed_cur e)) by lia.
  replace (Z.to_nat (sh_len s + 1)) with (S (length (ed_cur e))) by lia.
  split; simpl; try done; [apply holds_line_snoc; [done|lia|done]| |].
  - rewrite length_app. simpl. lia.
  - unfold ed_oldest. lia.
Qed.

(** ** All keys *)

(** The file has not ended. *)
Definition no_eof (i : input) : Prop := Eof ∉ i.

Lemma getch_shorter i :
  console_kbhit i = true → no_eof i →
  (length (console_getch i).2 < length i)%nat ∧ no_eof (console_getch i).2.
Proof.
  unfold no_eof, console_kbhit, console_getch, console_read_byte. intros Hi He.
  repeat (case_match; simplify_eq/=; try lia). all: first [split; [lia|set_solver] | exfalso; apply He; set_solver].
Qed.

Lemma ed_key_entries ch e :
  (length (ed_entries (ed_key ch e)) ≤ S (length (ed_entries e)))%nat.
Proof.
  unfold ed_key, ed_move, ed_enter, remember.
  repeat (case_match; simpl; try lia). all: rewrite ?length_app; simpl; lia.
Qed.

Lemma poll_loop_refines fuel i s e :
  (length i ≤ fuel)%nat → no_eof i → refines s e → Z.of_nat (length (ed_entries e) + fuel) < 2 ^ 32 →
  ∃ s' i', poll_loop exec fuel i s = Ok (s', i') ∧ refines s' (ed_run (keys fuel i) e).
Proof.
  revert i s e. induction fuel as [|fuel IH]; intros i s e Hf Hno Hr Hmax; simpl.
  { destruct i; [|simpl in Hf; lia]. by exists s, []. }
  destruct (console_kbhit i) eqn:Hk; simpl; [|by exists s, i].
  destruct (getch_shorter i Hk Hno) as [Hs Hno']. destruct (console_getch i) as [ch i'] eqn:Hg. simpl in Hs, Hno'.
  destruct (key_refines ch s e Hr) as (s' & -> & Hr'); [lia|]. rewrite bind_Ok. simpl ed_run.
  destruct (ed_leaves ch e && negb ((ch =? 13) || (ch =? 10))); [by exists s', i'|].
  apply IH; [lia|done|done|]. pose proof (ed_key_entries ch e). lia.
Qed.

(** C30: whatever bytes arrive while the terminal is open, [poll_console] returns without touching memory
    outside the line and the history, and its buffers then stand for the editor
    on plain lists after the keys read: in particular "up" recalls the last
    sixteen distinct lines in order, although they live in a ring. *)
Theorem poll_console_refines_editor i s e :
  no_eof i → refines s e → Z.of_nat (length (ed_entries e) + length i) < 2 ^ 32 →
  ∃ s' i', poll_console exec i s = Ok (s', i') ∧ refines s' (ed_run (keys (length i) i) e).
Proof. intros. by apply poll_loop_refines. Qed.

(** At the end of the file [poll_console] never returns. *)
Lemma poll_console_spins_at_eof fuel i s : poll_loop exec fuel (Eof :: i) s = Fault OutOfFuel.
Proof. induction fuel as [|fuel IH]; simpl; [done|]. exact IH. Qed.
End editor.

(** The statics as the program starts: all zero. *)
Definition shell_zero {A} (a : A) : shell A :=
  mk_shell (replicate 128 0) (replicate 16 (replicate 128 0)) 0 0 0 false a [].

Lemma shell_zero_refines {A} (a : A) : refines (shell_zero a) (mk_editor [] [] 0 a false).
Proof. split; simpl; try done; [by split; repeat constructor; simpl; lia|by repeat constructor]. Qed.

(** Two lines, "up" twice and return: the first line is entered again. *)
Definition two_lines : input :=
  Byte <$> (str "ip" ++ [13] ++ str "arp" ++ [13; 27; 91; 65; 27; 91; 65; 13]).

Lemma poll_console_refines_editor_witness :
  ∃ s' i', poll_console (λ c n, Ok (n ++ [c], false, [])) two_lines (shell_zero []) = Ok (s', i') ∧
    refines s' (ed_run (λ c n, (n ++ [c], false, [])) (keys 14 two_lines) (mk_editor [] [] 0 [] false)) ∧
    sh_app s' = [str "ip"; str "arp"; str "ip"].
Proof.
  destruct (poll_console_refines_editor (λ c n, (n ++ [c], false, [])) two_lines (shell_zero [])
    (mk_editor [] [] 0 [] false)) as (s' & i' & He & Hr); [by apply (bool_decide_unpack _)|apply shell_zero_refines|vm_compute; reflexivity|].
  exists s', i'. split; [exact He|]. split; [exact Hr|].
  rewrite (rf_app _ _ Hr). vm_compute. reflexivity.
Defined.
