(* ===== verification/NetTap.v ===== *)
(** * The TAP network example

    src/examples/simu/net_tap/main.c on Linux, apart from the line editor
    (NetShell): options, the packet log, the TAP link, the commands, and the
    round of the main loop.

    lwIP and the TAP device are parameters (classes [LwipOps], [StackOps] and
    [TapDev]). A function of lwIP that may send is given the interface's output
    function; [tcp_abort] is given the error callback that [tcp_err] registered,
    which it calls; the other callbacks lwIP calls from its own work are
    functions here and transitions in NetTapProps. Text for the terminal is collected in
    [term]. [unsigned long] has 64 bits. *)

From S2P Require Import Prelude Bytes Cstdio Frames Netif NetConsole NetShell.

(** ** Options *)

Record app_config_t (I : Type) := mk_config {
  guid : option (list Z);
  cfg_verbose : Z;
  cfg_mac : list Z;
  cfg_ip : I;
  cfg_netmask : I;
  cfg_gateway : I;
}.
Arguments mk_config {I} _ _ _ _ _ _.
Arguments guid {I} _.
Arguments cfg_verbose {I} _.
Arguments cfg_mac {I} _.
Arguments cfg_ip {I} _.
Arguments cfg_netmask {I} _.
Arguments cfg_gateway {I} _.

(** One [%x] of [sscanf]. *)
Definition scan_x (W : Z) (l : list Z) : option (Z * list Z) :=
  let '(sg, l) := sign_of (skip_spaces l) in
  let l := match l with 48 :: 120 :: l => l | 48 :: 88 :: l => l | _ => l end in
  let '(v, n) := number 16 0 l in
  if Nat.eqb n 0 then None else Some (u32 (sg * Z.min v (2 ^ W - 1)), drop n l).

(** [n] numbers with the character [sep] between them. *)
Fixpoint scan_sep (scan : list Z → option (Z * list Z)) (sep : Z) (n : nat) (l : list Z) : option (list Z * list Z) :=
  match n with
  | O => Some ([], l)
  | S n =>
      '(v, l) ← scan l;
      match n with
      | O => Some ([v], l)
      | S _ =>
          match l with
          | c :: l => if c =? sep then '(vs, l) ← scan_sep scan sep n l; Some (v :: vs, l) else None
          | [] => None
          end
      end
  end.

(** What [parse_args] makes of the command line: the help was asked for, an
    error with its message, or the configuration. *)
Inductive parsed (I : Type) := Help | Bad (msg : list Z) | Good (cfg : app_config_t I).
Arguments Help {I}.
Arguments Bad {I} _.
Arguments Good {I} _.

Section options.
Context {I : Type} `{Ip4Ops I}.

Definition parse_ip (text : list Z) : option I :=
  match scan_sep (scan_u 64) 46 4 text with
  | Some ([a; b; c; d], _) =>
      if (255 <? a) || (255 <? b) || (255 <? c) || (255 <? d) then None else Some (IP4_ADDR a b c d)
  | _ => None
  end.

Definition parse_mac (text : list Z) : option (list Z) :=
  match scan_sep (scan_x 64) 58 6 text with
  | Some (bs, _) => if forallb (λ b, b <=? 255) bs then Some bs else None
  | None => None
  end.

Definition init_config : app_config_t I :=
  mk_config None 0 [2; 0; 0; 0; 0; 1] (IP4_ADDR 10 77 0 2) (IP4_ADDR 255 255 255 0) (IP4_ADDR 10 77 0 1).

Implicit Types (cfg : app_config_t I).

Definition set_guid (v : list Z) cfg := mk_config (Some v) (cfg_verbose cfg) (cfg_mac cfg) (cfg_ip cfg) (cfg_netmask cfg) (cfg_gateway cfg).
Definition set_cfg_verbose (v : Z) cfg := mk_config (guid cfg) v (cfg_mac cfg) (cfg_ip cfg) (cfg_netmask cfg) (cfg_gateway cfg).
Definition set_mac (v : list Z) cfg := mk_config (guid cfg) (cfg_verbose cfg) v (cfg_ip cfg) (cfg_netmask cfg) (cfg_gateway cfg).
Definition set_ip (v : I) cfg := mk_config (guid cfg) (cfg_verbose cfg) (cfg_mac cfg) v (cfg_netmask cfg) (cfg_gateway cfg).
Definition set_netmask (v : I) cfg := mk_config (guid cfg) (cfg_verbose cfg) (cfg_mac cfg) (cfg_ip cfg) v (cfg_gateway cfg).
Definition set_gateway (v : I) cfg := mk_config (guid cfg) (cfg_verbose cfg) (cfg_mac cfg) (cfg_ip cfg) (cfg_netmask cfg) v.

Definition is_word (w : string) (a : list Z) : bool := bool_decide (a = str w).

(** The loop over [argv[1]] and what follows. *)
Fixpoint parse_loop (args : list (list Z)) cfg : parsed I :=
  match args with
  | [] => match guid cfg with None => Bad (str "missing --name") | Some _ => Good cfg end
  | a :: args =>
      if is_word "--help" a || is_word "-h" a then Help
      else if is_word "--quiet" a then parse_loop args (set_cfg_verbose 0 cfg)
      else if is_word "--verbose" a then parse_loop args (set_cfg_verbose 1 cfg)
      else match args with
      | [] => Bad (str "unknown or incomplete option: " ++ a)
      | v :: args =>
          if is_word "--guid" a || is_word "--name" a then parse_loop args (set_guid v cfg)
          else if is_word "--ip" a then
            match parse_ip v with Some ip => parse_loop args (set_ip ip cfg) | None => Bad (str "invalid --ip") end
          else if is_word "--netmask" a then
            match parse_ip v with Some ip => parse_loop args (set_netmask ip cfg) | None => Bad (str "invalid --netmask") end
          else if is_word "--gateway" a then
            match parse_ip v with Some ip => parse_loop args (set_gateway ip cfg) | None => Bad (str "invalid --gateway") end
          else if is_word "--mac" a then
            match parse_mac v with Some mac => parse_loop args (set_mac mac cfg) | None => Bad (str "invalid --mac") end
          else Bad (str "unknown or incomplete option: " ++ a)
      end
  end.

Definition parse_args (argv : list (list Z)) : parsed I := parse_loop (tail argv) init_config.
End options.

(** ** The packet log *)

(** [memcmp(data + off, other, n) == 0]. *)
Definition mem_eq (data : list Z) (off : Z) (other : list Z) (n : Z) : res bool :=
  if (off <? 0) || (Z.of_nat (length data) <? off + n) || (Z.of_nat (length other) <? n) then Fault OutOfBounds
  else Ok (bool_decide (bytes_at (Z.to_nat off) (Z.to_nat n) data = take (Z.to_nat n) other)).

(** [snprintf] to an array of [size] bytes: what the array then holds. *)
Definition snprintf (size : nat) (text : list Z) : list Z := take (size - 1) text.

Definition format_ipv4 (frame : list Z) (off : Z) : res (list Z) :=
  a ← get frame off; b ← get frame (off + 1); c ← get frame (off + 2); d ← get frame (off + 3);
  Ok (snprintf 16 (fmt_ip a b c d)).

Definition is_icmp_echo (frame : list Z) (len type : Z) : res bool :=
  if len <? 14 + 20 then Ok false else
  t ← read_be16 frame 12;
  if negb (t =? 0x0800) then Ok false else
  p ← get frame 23;
  if negb (p =? 1) then Ok false else
  b ← get frame 14;
  let ip_header_len := Z.land b 15 * 4 in
  total_len ← read_be16 frame 16;
  if (ip_header_len <? 20) || (len <? 14 + ip_header_len + 8) || (total_len <? ip_header_len + 8) then Ok false else
  k ← get frame (14 + ip_header_len);
  Ok (k =? type).

(** The line printed. *)
Definition log_frame (dir self_ip frame : list Z) (len : Z) : res (list Z) :=
  if len <? 14 then Ok (dir ++ str " frame len=" ++ fmt_dec 0 len ++ [10]) else
  eth_type ← read_be16 frame 12;
  if (eth_type =? 0x0806) && (42 <=? len) then
    op ← read_be16 frame 20;
    src_ip ← format_ipv4 frame 28;
    dst_ip ← format_ipv4 frame 38;
    if op =? 1 then
      me ← mem_eq frame 38 self_ip 4;
      Ok (dir ++ str " ARP who-has " ++ dst_ip ++ str " tell " ++ src_ip ++
          (if (me : bool) then str " (for mipOS)" else []) ++ [10])
    else if op =? 2 then Ok (dir ++ str " ARP is-at " ++ src_ip ++ [10])
    else Ok (dir ++ str " ARP op=" ++ fmt_dec 0 op ++ [32] ++ src_ip ++ str " -> " ++ dst_ip ++ [10])
  else if (eth_type =? 0x0800) && (34 <=? len) then
    src_ip ← format_ipv4 frame 26;
    dst_ip ← format_ipv4 frame 30;
    request ← is_icmp_echo frame len 8;
    if (request : bool) then Ok (dir ++ str " ICMP echo request " ++ src_ip ++ str " -> " ++ dst_ip ++ [10]) else
    reply ← is_icmp_echo frame len 0;
    if (reply : bool) then Ok (dir ++ str " ICMP echo reply " ++ src_ip ++ str " -> " ++ dst_ip ++ [10]) else
    proto ← get frame 23;
    Ok (dir ++ str " IPv4 proto=" ++ fmt_dec 0 proto ++ [32] ++ src_ip ++ str " -> " ++ dst_ip ++ [10])
  else Ok (dir ++ str " ethertype=0x" ++ fmt_hex false 4 eth_type ++ str " len=" ++ fmt_dec 0 len ++ [10]).

(** ** The device and the stack *)

(** What [read] of the TAP device gives. *)
Inductive got := GotAgain | GotError | GotFrame (bytes : list Z).

Class TapDev (D : Type) := {
  dev_read : Z → D → got * D;
  dev_write : list Z → D → Z * D;
  dev_error : D → list Z; (* strerror(errno) *)
}.

(** The functions of lwIP the commands call, on its state [L], packet buffers
    [P], addresses [I], and control blocks of UDP [U] and TCP [T]. *)
Class StackOps (L P I U T : Type) := {
  pbuf_store : P → list Z → L → L; (* stores to [p->payload] *)
  inet_chksum : list Z → Z;
  raw_sendto : ∀ {A}, linkoutput_fn L P A → P → I → L → A → res (err_t * L * A);
  etharp_find_addr : I → L → option (list Z * I);
  etharp_request : ∀ {A}, linkoutput_fn L P A → I → L → A → res (err_t * L * A);
  udp_new : L → option U * L;
  udp_remove : U → L → L;
  udp_sendto : ∀ {A}, linkoutput_fn L P A → U → P → I → Z → L → A → res (err_t * L * A);
  tcp_new : L → option T * L;
  tcp_abort : ∀ {A}, linkoutput_fn L P A → (err_t → A → A) → T → L → A → res (L * A);
  tcp_connect : ∀ {A}, linkoutput_fn L P A → T → I → Z → L → A → res (err_t * L * A);
  dhcp_start : ∀ {A}, linkoutput_fn L P A → L → A → res (err_t * L * A);
  dhcp_stop : ∀ {A}, linkoutput_fn L P A → L → A → res (L * A);
  netif_ip4_addr : L → I;
  netif_ip4_netmask : L → I;
  netif_ip4_gw : L → I;
  dns_setserver : I → L → L;
  dns_gethostbyname : ∀ {A}, linkoutput_fn L P A → list Z → L → A → res (err_t * I * L * A);
  ERR_INPROGRESS : err_t;
  show_err : err_t → list Z; (* %d *)
}.

(** [app_context_t] without the interface, the ping's control block and the
    address [mac], which nothing reads; [tap] is the state of the device. *)
Record app_context_t (T D : Type) := mk_context {
  tap : D;
  tcp_pcb : option T;
  ctx_ip : list Z;
  verbose : Z;
  ctx_rx : Z;
  ctx_tx : Z;
  ctx_ping_id : Z;
  ctx_ping_seq : Z;
  term : list Z;
}.
Arguments mk_context {T D} _ _ _ _ _ _ _ _ _.
Arguments tap {T D} _.
Arguments tcp_pcb {T D} _.
Arguments ctx_ip {T D} _.
Arguments verbose {T D} _.
Arguments ctx_rx {T D} _.
Arguments ctx_tx {T D} _.
Arguments ctx_ping_id {T D} _.
Arguments ctx_ping_seq {T D} _.
Arguments term {T D} _.

(** Computations on the stack and the application. *)
Definition net (S A : Type) : Type := S → res (A * S).

#[global] Instance net_ret {S} : MRet (net S) := λ A a s, Ok (a, s).
#[global] Instance net_bind {S} : MBind (net S) := λ A B f m s, '(a, s) ← m s; f a s.

Section context.
Context {T D : Type}.

Implicit Types (a : app_context_t T D).

Definition set_tap (d : D) a := mk_context d (tcp_pcb a) (ctx_ip a) (verbose a) (ctx_rx a) (ctx_tx a) (ctx_ping_id a) (ctx_ping_seq a) (term a).
Definition set_tcp (t : option T) a := mk_context (tap a) t (ctx_ip a) (verbose a) (ctx_rx a) (ctx_tx a) (ctx_ping_id a) (ctx_ping_seq a) (term a).
Definition set_verbose (v : Z) a := mk_context (tap a) (tcp_pcb a) (ctx_ip a) v (ctx_rx a) (ctx_tx a) (ctx_ping_id a) (ctx_ping_seq a) (term a).
Definition set_rx (v : Z) a := mk_context (tap a) (tcp_pcb a) (ctx_ip a) (verbose a) v (ctx_tx a) (ctx_ping_id a) (ctx_ping_seq a) (term a).
Definition set_tx (v : Z) a := mk_context (tap a) (tcp_pcb a) (ctx_ip a) (verbose a) (ctx_rx a) v (ctx_ping_id a) (ctx_ping_seq a) (term a).
Definition set_seq (v : Z) a := mk_context (tap a) (tcp_pcb a) (ctx_ip a) (verbose a) (ctx_rx a) (ctx_tx a) (ctx_ping_id a) v (term a).
Definition set_term (v : list Z) a := mk_context (tap a) (tcp_pcb a) (ctx_ip a) (verbose a) (ctx_rx a) (ctx_tx a) (ctx_ping_id a) (ctx_ping_seq a) v.

Definition say (text : list Z) a := set_term (term a ++ text) a.

(** *** The link *)

Definition tap_read_frame `{TapDev D} (frame_size : Z) (d : D) : Z * list Z * D :=
  match dev_read frame_size d with
  | (GotAgain, d) => (0, [], d)
  | (GotError, d) => (-1, [], d)
  | (GotFrame bytes, d) => (if 0 <? Z.of_nat (length bytes) then 1 else 0, bytes, d)
  end.

Definition tap_write_frame `{TapDev D} (frame : list Z) (len : Z) (d : D) : res (bool * D) :=
  if Z.of_nat (length frame) <? len then Fault OutOfBounds else
  let '(written, d) := dev_write (take (Z.to_nat len) frame) d in Ok (written =? len, d).

Definition tap_link_output `{TapDev D} (frame : list Z) (frame_len : Z) a : res (err_t * app_context_t T D) :=
  let a := set_tx (u32 (ctx_tx a + 1)) a in
  a ← (if truth (verbose a) then text ← log_frame (str "TX") (ctx_ip a) frame frame_len; Ok (say text a) else Ok a);
  '(ok, d) ← tap_write_frame frame frame_len (tap a);
  let a := set_tap d a in
  if (ok : bool) then Ok (ERR_OK, a) else
  Ok (ERR_IF, say (str "TAP write failed: " ++ dev_error d ++ [10]) a).

Definition is_own_ethernet_frame (mac frame : list Z) (len : Z) : res bool :=
  if 12 <=? len then mem_eq frame 6 mac 6 else Ok false.
End context.

(** ** Commands *)

(** [%-<n>s] *)
Definition left_s (n : nat) (l : list Z) : list Z := l ++ replicate (n - length l) 32.

Definition is_blank (c : Z) : bool := (c =? 32) || (c =? 9).
Fixpoint skip_blanks (l : list Z) : list Z :=
  match l with c :: l' => if is_blank c then skip_blanks l' else l | [] => [] end.

(** [%<n>s] of [sscanf]: the word and the rest. *)
Fixpoint word (n : nat) (l : list Z) : list Z * list Z :=
  match n, l with
  | S n, c :: l' => if is_space c then ([], l) else let '(w, r) := word n l' in (c :: w, r)
  | _, _ => ([], l)
  end.
Definition scan_s (n : nat) (l : list Z) : option (list Z * list Z) :=
  let '(w, r) := word n (skip_spaces l) in
  match w with [] => None | _ => Some (w, r) end.

(** [strncmp(line, w, strlen(w)) == 0] with a separator or the end after it:
    what follows the word. *)
Definition command (w : string) (line : list Z) : option (list Z) :=
  let n := length (str w) in
  if bool_decide (take n line = str w) then
    match drop n line with
    | [] => Some []
    | c :: r => if is_blank c then Some (c :: r) else None
    end
  else None.

Fixpoint until_nl (l : list Z) : list Z :=
  match l with c :: l => if c =? 10 then [] else c :: until_nl l | [] => [] end.

(** [sscanf(args, "%31s %u %79[^\n]", ip_text, &port, payload)] with
    [payload] preset: [None] when fewer than two conversions succeed. *)
Definition scan_udp (args : list Z) : option (list Z * Z * list Z) :=
  '(ip_text, l) ← scan_s 31 args;
  '(port, l) ← scan_u 64 (skip_spaces l);
  let payload := take 79 (until_nl (skip_spaces l)) in
  Some (ip_text, port, match payload with [] => str "mipOS" | _ => payload end).

Section commands.
Context {L P I U T D : Type} `{LwipOps L P I} `{Ip4Ops I} `{StackOps L P I U T} `{TapDev D}.
Context (cfg : app_config_t I) (iface : mipos_lwip_netif_t (app_context_t T D)).

Abbreviation app := (app_context_t T D).
Abbreviation cmd := (net (L * app)).
Abbreviation out := (mipos_lwip_low_level_output (Some iface)).

Definition fail {A} (f : fault) : cmd A := λ _, Fault f.
Definition printf (text : list Z) : cmd () := λ s, Ok ((), (s.1, say text s.2)).
Definition context : cmd app := λ s, Ok (s.2, s).
Definition change (f : app → app) : cmd () := λ s, Ok ((), (s.1, f s.2)).
Definition stack : cmd L := λ s, Ok (s.1, s).
Definition on_stack {A} (f : L → A * L) : cmd A := λ s, let '(a, l) := f s.1 in Ok (a, (l, s.2)).
Definition stack_do (f : L → L) : cmd () := λ s, Ok ((), (f s.1, s.2)).
Definition call {A} (f : L → app → res (A * L * app)) : cmd A := λ s, '(x, l, a) ← f s.1 s.2; Ok (x, (l, a)).
Definition call_ (f : L → app → res (L * app)) : cmd () := λ s, '(l, a) ← f s.1 s.2; Ok ((), (l, a)).

Definition print_ip (label : list Z) (ip : I) : cmd () := printf (label ++ fmt_ip4 ip).
Definition format_ip4_addr (ip : I) : list Z := snprintf 16 (fmt_ip4 ip).
Definition get_network_addr (ip netmask : I) : I := ip4_and ip netmask.
Definition parse_ip_arg (text : list Z) : option I := parse_ip (skip_blanks text).

(** The callback of the raw ICMP control block: 1 says that the buffer was
    taken, and freed. *)
Definition ping_recv (p : P) (from : I) : cmd Z :=
  l ← stack;
  a ← context;
  if tot_len p l <? 8 then mret 0 else
  let header := pbuf_copy_partial p 8 l in
  match header with
  | [t; _; _; _; i1; i0; s1; s0] =>
      if negb (t =? ICMP_ER) then mret 0 else
      if negb (Z.lor (Z.shiftl i1 8) i0 =? ctx_ping_id a) then mret 0 else
      _ ← printf (str "ping reply from " ++ fmt_ip4 from ++ str " seq=" ++ fmt_dec 0 (Z.lor (Z.shiftl s1 8) s0) ++
                  str " bytes=" ++ fmt_dec 0 (tot_len p l) ++ [10]);
      _ ← printf print_prompt;
      _ ← stack_do (pbuf_free p);
      mret 1
  | _ => fail OutOfBounds
  end.

(** The bytes of the echo request, with the checksum [c]. *)
Definition echo_bytes (id seq c : Z) : list Z :=
  [8; 0] ++ le_bytes 2 c ++ be16_bytes id ++ be16_bytes seq ++ ping_payload.

Definition send_ping (dst : I) : cmd () :=
  p ← on_stack (pbuf_alloc 24);
  match p with
  | None => printf (str "ping: pbuf_alloc failed" ++ [10])
  | Some p =>
      _ ← change (λ a, set_seq (u16 (ctx_ping_seq a + 1)) a);
      a ← context;
      let req := echo_bytes (ctx_ping_id a) (ctx_ping_seq a) in
      _ ← stack_do (pbuf_store p (req (inet_chksum (req 0))));
      _ ← printf (str "ping " ++ fmt_ip4 dst ++ str " seq=" ++ fmt_dec 0 (ctx_ping_seq a) ++ [10]);
      err ← call (raw_sendto out p dst);
      _ ← (if decide (err ≠ ERR_OK) then printf (str "ping: raw_sendto failed: " ++ show_err err ++ [10]) else mret ());
      stack_do (pbuf_free p)
  end.

Definition show_arp (ip : I) : cmd () :=
  l ← stack;
  match etharp_find_addr ip l with
  | Some (eth, found_ip) => printf (str "arp " ++ fmt_ip4 found_ip ++ str " -> " ++ fmt_mac eth ++ [10])
  | None =>
      _ ← printf (str "arp " ++ fmt_ip4 ip ++ str " unresolved; sending ARP request" ++ [10]);
      _ ← call (etharp_request out ip);
      mret ()
  end.

Definition show_route_table : cmd () :=
  let destination := format_ip4_addr (get_network_addr (cfg_ip cfg) (cfg_netmask cfg)) in
  let row d g n i t := left_s 16 d ++ [32] ++ left_s 16 g ++ [32] ++ left_s 16 n ++ [32] ++ left_s 6 i ++ [32] ++ t ++ [10] in
  _ ← printf (row (str "destination") (str "gateway") (str "netmask") (str "iface") (str "type"));
  _ ← printf (row destination (str "0.0.0.0") (format_ip4_addr (cfg_netmask cfg)) (str "mip0") (str "connected"));
  printf (row (str "0.0.0.0") (format_ip4_addr (cfg_gateway cfg)) (str "0.0.0.0") (str "mip0") (str "default")).

Definition show_route_for (dst : I) : cmd () :=
  let direct := ip4_addr_netcmp dst (cfg_ip cfg) (cfg_netmask cfg) in
  let next_hop := if direct then dst else cfg_gateway cfg in
  let kind := if direct then str "direct" else str "default" in
  let row d n i t := left_s 16 d ++ [32] ++ left_s 16 n ++ [32] ++ left_s 6 i ++ [32] ++ t ++ [10] in
  _ ← printf (row (str "destination") (str "next-hop") (str "iface") (str "type"));
  printf (row (format_ip4_addr dst) (format_ip4_addr next_hop) (str "mip0") kind).

(** The sending of a datagram, the arguments being decoded. *)
Definition send_udp (dst_ip : I) (port : Z) (payload : list Z) : cmd () :=
  pcb ← on_stack udp_new;
  match pcb with
  | None => printf (str "udp: udp_new failed" ++ [10])
  | Some pcb =>
      p ← on_stack (pbuf_alloc (u16 (Z.of_nat (length payload))));
      match p with
      | None =>
          _ ← stack_do (udp_remove pcb);
          printf (str "udp: pbuf_alloc failed" ++ [10])
      | Some p =>
          _ ← on_stack (pbuf_take p payload);
          err ← call (udp_sendto out pcb p dst_ip (u16 port));
          _ ← printf (str "udp ");
          _ ← print_ip [] dst_ip;
          _ ← printf ([58] ++ fmt_dec 0 port ++ str " len=" ++ fmt_dec 0 (Z.of_nat (length payload)));
          _ ← (if decide (err ≠ ERR_OK) then printf (str " failed: " ++ show_err err) else mret ());
          _ ← printf [10];
          _ ← stack_do (pbuf_free p);
          stack_do (udp_remove pcb)
      end
  end.

Definition send_udp_datagram (args : list Z) : cmd () :=
  let usage := printf (str "usage: udp <ip> <port> [payload]" ++ [10]) in
  match scan_udp args with
  | None => usage
  | Some (ip_text, port, payload) =>
      if 65535 <? port then usage else
      match parse_ip ip_text with
      | None => usage
      | Some dst_ip => send_udp dst_ip port payload
      end
  end.

(** *** TCP *)

Definition tcp_connected (err : err_t) (a : app) : app :=
  say (str "tcp connected: " ++ show_err err ++ [10] ++ print_prompt) a.

Definition tcp_error (err : err_t) (a : app) : app :=
  say (str "tcp error: " ++ show_err err ++ [10] ++ print_prompt) (set_tcp None a).

(** [sscanf(args, "%31s %u", ip_text, &port) == 2]. *)
Definition scan_tcp (args : list Z) : option (list Z * Z) :=
  '(ip_text, l) ← scan_s 31 args;
  '(port, _) ← scan_u 64 (skip_spaces l);
  Some (ip_text, port).

(** [tcp_arg] and [tcp_err] register [tcp_error] with the new control block. *)
Definition tcp_to (dst_ip : I) (port : Z) : cmd () :=
  a ← context;
  _ ← (match tcp_pcb a with
       | Some t => _ ← call_ (tcp_abort out tcp_error t); change (set_tcp None)
       | None => mret ()
       end);
  t ← on_stack tcp_new;
  _ ← change (set_tcp t);
  match t with
  | None => printf (str "tcp: tcp_new failed" ++ [10])
  | Some t =>
      err ← call (tcp_connect out t dst_ip (u16 port));
      _ ← printf (str "tcp connect ");
      _ ← print_ip [] dst_ip;
      _ ← printf ([58] ++ fmt_dec 0 port);
      _ ← (if decide (err ≠ ERR_OK) then
             _ ← printf (str " failed: " ++ show_err err);
             _ ← call_ (tcp_abort out tcp_error t);
             change (set_tcp None)
           else mret ());
      printf [10]
  end.

Definition start_tcp_connect (args : list Z) : cmd () :=
  let usage := printf (str "usage: tcp <ip> <port>" ++ [10]) in
  match scan_tcp args with
  | None => usage
  | Some (ip_text, port) =>
      if 65535 <? port then usage else
      match parse_ip ip_text with
      | None => usage
      | Some dst_ip => tcp_to dst_ip port
      end
  end.

(** *** DHCP and DNS *)

Definition handle_dhcp_command (args : list Z) : cmd () :=
  let args := skip_blanks args in
  if bool_decide (args = str "start") then
    err ← call (dhcp_start out);
    printf (str "dhcp start: " ++ show_err err ++ [10])
  else if bool_decide (args = str "stop") then
    _ ← call_ (dhcp_stop out);
    printf (str "dhcp stopped" ++ [10])
  else if bool_decide (args = str "status") || bool_decide (args = []) then
    l ← stack;
    _ ← print_ip (str "ip:       ") (netif_ip4_addr l);
    _ ← printf [10];
    _ ← print_ip (str "netmask:  ") (netif_ip4_netmask l);
    _ ← printf [10];
    _ ← print_ip (str "gateway:  ") (netif_ip4_gw l);
    printf [10]
  else printf (str "usage: dhcp [start|stop|status]" ++ [10]).

Definition dns_found (name : list Z) (ipaddr : option I) (a : app) : app :=
  say (match ipaddr with
       | Some ip => str "dns " ++ name ++ str " -> " ++ fmt_ip4 ip ++ [10]
       | None => str "dns " ++ name ++ str " failed" ++ [10]
       end ++ print_prompt) a.

(** [sscanf(args, "server %31s", second) == 1]: the blank of the format stands
    for any white space, also for none. *)
Definition scan_server (args : list Z) : option (list Z) :=
  let n := length (str "server") in
  if bool_decide (take n args = str "server") then fst <$> scan_s 31 (drop n args) else None.

Definition handle_dns_command (args : list Z) : cmd () :=
  let args := skip_blanks args in
  match scan_server args with
  | Some second =>
      match parse_ip second with
      | None => printf (str "usage: dns server <ip>" ++ [10])
      | Some server_ip =>
          _ ← stack_do (dns_setserver server_ip);
          _ ← printf (str "dns server ");
          _ ← print_ip [] server_ip;
          printf [10]
      end
  | None =>
      match scan_s 127 args with
      | None => printf (str "usage: dns server <ip> | dns <name>" ++ [10])
      | Some (first, _) =>
          '(err, resolved) ← call (λ l a, '(e, r, l, a) ← dns_gethostbyname out first l a; Ok ((e, r), l, a));
          if decide (err = ERR_OK) then
            _ ← printf (str "dns " ++ first ++ str " -> ");
            _ ← print_ip [] resolved;
            printf [10]
          else if decide (err = ERR_INPROGRESS) then printf (str "dns " ++ first ++ str " pending" ++ [10])
          else printf (str "dns " ++ first ++ str " failed: " ++ show_err err ++ [10])
      end
  end.

(** *** The command line *)

Definition help_text : list Z :=
  str "commands:" ++ [10] ++
  str "  ip              show mipOS/Windows addresses" ++ [10] ++
  str "  route [ip]      show routes or route selected for an IP" ++ [10] ++
  str "  arp [ip]        show/resolve an ARP entry, default gateway" ++ [10] ++
  str "  ping [ip]       send one ICMP echo request, default gateway" ++ [10] ++
  str "  udp ip port [s] send one UDP datagram" ++ [10] ++
  str "  tcp ip port     start one TCP connect attempt" ++ [10] ++
  str "  dhcp [cmd]      DHCP start, stop, or status" ++ [10] ++
  str "  dns server ip   set DNS server" ++ [10] ++
  str "  dns name        resolve a DNS name" ++ [10] ++
  str "  stats           show RX/TX counters" ++ [10] ++
  str "  quiet           disable packet log" ++ [10] ++
  str "  verbose         enable packet log" ++ [10] ++
  str "  quit            exit" ++ [10].

(** An optional address: the one given, [default] where there is none. *)
Definition address_or (default : I) (rest : list Z) : option I :=
  match rest with [] => Some default | _ => parse_ip_arg rest end.

(** The result says whether [g_stop] was set. *)
Definition execute_command (line : list Z) : cmd bool :=
  let line := skip_blanks line in
  let keep (m : cmd ()) : cmd bool := _ ← m; mret false in
  if bool_decide (line = []) then mret false
  else if is_word "help" line || is_word "?" line then keep (printf help_text)
  else if is_word "ip" line then keep (
    _ ← print_ip (str "mipOS IP: ") (cfg_ip cfg);
    _ ← printf [10];
    _ ← print_ip (str "gateway:  ") (cfg_gateway cfg);
    printf [10])
  else match command "route" line with
  | Some [] => keep show_route_table
  | Some rest =>
      match parse_ip_arg rest with
      | None => keep (printf (str "usage: route [ip]" ++ [10]))
      | Some ip => keep (show_route_for ip)
      end
  | None => match command "arp" line with
  | Some rest =>
      match address_or (cfg_gateway cfg) rest with
      | None => keep (printf (str "usage: arp [ip]" ++ [10]))
      | Some ip => keep (show_arp ip)
      end
  | None => match command "ping" line with
  | Some rest =>
      match address_or (cfg_gateway cfg) rest with
      | None => keep (printf (str "usage: ping [ip]" ++ [10]))
      | Some ip => keep (send_ping ip)
      end
  | None => match command "udp" line with
  | Some rest => keep (send_udp_datagram rest)
  | None => match command "tcp" line with
  | Some rest => keep (start_tcp_connect rest)
  | None => match command "dhcp" line with
  | Some rest => keep (handle_dhcp_command rest)
  | None => match command "dns" line with
  | Some rest => keep (handle_dns_command rest)
  | None =>
      if is_word "stats" line then keep (
        a ← context; printf (str "RX=" ++ fmt_dec 0 (ctx_rx a) ++ str " TX=" ++ fmt_dec 0 (ctx_tx a) ++ [10]))
      else if is_word "quiet" line then keep (
        _ ← change (set_verbose 0); printf (str "packet log disabled" ++ [10]))
      else if is_word "verbose" line then keep (
        _ ← change (set_verbose 1); printf (str "packet log enabled" ++ [10]))
      else if is_word "quit" line || is_word "exit" line then mret true
      else keep (printf (str "unknown command: " ++ line ++ [10]))
  end end end end end end end.

(** ** The main loop *)

(** The context before the loop, for a device that was opened. *)
Definition init_context (d : D) : app :=
  mk_context d None (ip4_bytes (cfg_ip cfg)) (cfg_verbose cfg) 0 0 0x4d50 0 [].

(** A command for the shell: the text it printed is handed over. *)
Definition exec_line (line : list Z) (s : L * app) : res (L * app * bool * list Z) :=
  '(stop, (l, a)) ← execute_command line (s.1, set_term [] s.2);
  Ok (l, set_term (term s.2) a, stop, term a).

(** What the loop does with a frame it has read. *)
Definition take_frame (frame : list Z) : cmd () :=
  let frame_len := Z.of_nat (length frame) in
  if 65535 <? frame_len then mret () else
  own ← (λ s, b ← is_own_ethernet_frame (cfg_mac cfg) frame frame_len; Ok (b, s)) : cmd bool;
  if (own : bool) then mret () else
  _ ← change (λ a, set_rx (u32 (ctx_rx a + 1)) a);
  a ← context;
  _ ← (if truth (verbose a) then (λ s, text ← log_frame (str "RX") (ctx_ip a) frame frame_len; printf text s) : cmd ()
       else mret ());
  _ ← call (mipos_lwip_netif_input (Some iface) (Some frame) (u16 frame_len));
  mret ().

(** One round: whether the loop goes on after it, the rest of the keys, the
    shell. *)
Definition main_round (keys : input) (sh : shell (L * app)) : res (bool * input * shell (L * app)) :=
  let with_app s sh := mk_shell (sh_line sh) (sh_history sh) (sh_len sh) (history_count sh) (history_pos sh) (g_stop sh) s (sh_out sh) in
  let '(rc, frame, d) := tap_read_frame 65536 (tap (sh_app sh).2) in
  '(sh, keys) ← poll_console exec_line keys (with_app ((sh_app sh).1, set_tap d (sh_app sh).2) sh);
  '(_, s) ← call_ (mipos_lwip_netif_poll (Some iface)) (sh_app sh);
  if rc =? 0 then Ok (negb (g_stop sh), keys, with_app s sh) else
  if rc <? 0 then
    '(_, s) ← printf (str "TAP read failed: " ++ dev_error (tap s.2) ++ [10]) s;
    Ok (false, keys, with_app s sh)
  else
    '(_, s) ← take_frame frame s;
    Ok (negb (g_stop sh), keys, with_app s sh).
End commands.
