(* ===== verification/NetTapProps.v ===== *)
(** * Properties of the TAP network example

    The packet log never reads past a frame; the commands give back what they
    take from lwIP.  What lwIP's documentation says of ownership is the class
    [Stack]; the program and the stack around it are the transitions [step]. *)

From S2P Require Import Prelude Bytes Cstdio Frames Netif NetConsole NetPing NetShell NetTap.

(** ** The log stays inside its buffers *)

Lemma read_be16_total data off : 0 ≤ off → off + 2 ≤ Z.of_nat (length data) → ∃ v, read_be16 data off = Ok v.
Proof.
  intros Ho Hl. unfold read_be16. destruct (get_ok data off) as (a & -> & _); [lia|].
  destruct (get_ok data (off + 1)) as (b & -> & _); [lia|]. by eexists.
Qed.

Lemma format_ipv4_ok frame off :
  0 ≤ off → off + 4 ≤ Z.of_nat (length frame) → Forall is_byte frame →
  ∃ a b c d, bytes_at (Z.to_nat off) 4 frame = [a; b; c; d] ∧ format_ipv4 frame off = Ok (fmt_ip a b c d).
Proof.
  intros Ho Hl Hb. unfold format_ipv4.
  destruct (get_ok frame off) as (a & -> & Ha); [lia|]. destruct (get_ok frame (off + 1)) as (b & -> & Hb1); [lia|].
  destruct (get_ok frame (off + 2)) as (c & -> & Hc); [lia|]. destruct (get_ok frame (off + 3)) as (d & -> & Hd); [lia|].
  exists a, b, c, d. split.
  { unfold bytes_at. replace (Z.to_nat (off + 1)) with (S (Z.to_nat off)) in Hb1 by lia.
    replace (Z.to_nat (off + 2)) with (S (S (Z.to_nat off))) in Hc by lia.
    replace (Z.to_nat (off + 3)) with (S (S (S (Z.to_nat off)))) in Hd by lia.
    by rewrite (drop_S _ _ _ Ha), (drop_S _ _ _ Hb1), (drop_S _ _ _ Hc), (drop_S _ _ _ Hd). }
  rewrite !bind_Ok. f_equal. unfold snprintf. apply take_ge. unfold fmt_ip. rewrite !length_app. cbn [length].
  rewrite Forall_lookup in Hb. unfold is_byte in Hb.
  assert (∀ x, 0 ≤ x < 256 → (length (fmt_dec 0 x) ≤ 3)%nat) as L3 by (intros; apply fmt_dec_length; [change (10 ^ Z.of_nat 3) with 1000; lia|lia]).
  pose proof (L3 _ (Hb _ _ Ha)). pose proof (L3 _ (Hb _ _ Hb1)). pose proof (L3 _ (Hb _ _ Hc)). pose proof (L3 _ (Hb _ _ Hd)). lia.
Qed.

Lemma is_icmp_echo_ok frame type :
  ∃ b, is_icmp_echo frame (Z.of_nat (length frame)) type = Ok b.
Proof.
  unfold is_icmp_echo. set (n := Z.of_nat (length frame)). destruct (Z.ltb_spec n (14 + 20)); [by eexists|].
  destruct (read_be16_total frame 12) as (t & ->); [lia|lia|]. rewrite bind_Ok. destruct (negb (t =? 2048)); [by eexists|].
  destruct (get_ok frame 23) as (p & -> & _); [lia|]. rewrite bind_Ok. destruct (negb (p =? 1)); [by eexists|].
  destruct (get_ok frame 14) as (b & -> & _); [lia|]. rewrite bind_Ok.
  destruct (read_be16_total frame 16) as (tl & ->); [lia|lia|]. rewrite bind_Ok.
  set (ihl := Z.land b 15 * 4). assert (0 ≤ ihl) as Hi.
  { unfold ihl. change 15 with (Z.ones 4). rewrite Z.land_ones by lia. pose proof (Z.mod_pos_bound b (2 ^ 4)). lia. }
  destruct (Z.ltb_spec ihl 20); [by eexists|]. destruct (Z.ltb_spec n (14 + ihl + 8)); [by eexists|].
  cbn [orb]. destruct (tl <? ihl + 8); [by eexists|]. destruct (get_ok frame (14 + ihl)) as (k & -> & _); [lia|]. by eexists.
Qed.

(** The line for a frame that carries an IPv4 packet. *)
Definition ip_line (dir frame line : list Z) : Prop :=
  ∃ kind a b c d a' b' c' d',
    bytes_at 26 4 frame = [a; b; c; d] ∧ bytes_at 30 4 frame = [a'; b'; c'; d'] ∧
    line = dir ++ kind ++ fmt_ip a b c d ++ str " -> " ++ fmt_ip a' b' c' d' ++ [10] ∧
    (kind = str " ICMP echo request " ↔ is_icmp_echo frame (Z.of_nat (length frame)) 8 = Ok true) ∧
    (kind = str " ICMP echo reply " ↔ is_icmp_echo frame (Z.of_nat (length frame)) 0 = Ok true).

(** The second test of [is_icmp_echo] only finds what the first did not. *)
Lemma echo_types_exclude frame len : is_icmp_echo frame len 8 = Ok true → is_icmp_echo frame len 0 = Ok true → False.
Proof.
  unfold is_icmp_echo. intros H1 H2. case_match; [done|].
  apply bind_ok in H1 as (t & Et & H1). rewrite Et, bind_Ok in H2. case_match; [done|].
  apply bind_ok in H1 as (p & Ep & H1). rewrite Ep, bind_Ok in H2. case_match; [done|].
  apply bind_ok in H1 as (b & Eb & H1). rewrite Eb, bind_Ok in H2.
  apply bind_ok in H1 as (tl & El & H1). rewrite El, bind_Ok in H2. case_match; [done|].
  apply bind_ok in H1 as (k & Ek & H1). rewrite Ek, bind_Ok in H2. injection H1 as ->%Z.eqb_eq. done.
Qed.

(** The protocol is not mistaken for an echo. *)
Lemma proto_kind n : str " IPv4 proto=" ++ fmt_dec 0 n ++ [32] ≠ str " ICMP echo request " ∧ str " IPv4 proto=" ++ fmt_dec 0 n ++ [32] ≠ str " ICMP echo reply ".
Proof. split; discriminate. Qed.

Lemma log_arp dir self_ip frame :
  Forall is_byte frame → length self_ip = 4%nat → 42 ≤ Z.of_nat (length frame) → read_be16 frame 12 = Ok 0x0806 →
  ∃ line, log_frame dir self_ip frame (Z.of_nat (length frame)) = Ok line.
Proof.
  intros Hb Hs Hl Ht. unfold log_frame. rewrite (proj2 (Z.ltb_ge _ 14)), Ht, bind_Ok by lia. rewrite (proj2 (Z.leb_le 42 _)) by lia.
  destruct (read_be16_total frame 20) as (op & ->); [lia|lia|].
  destruct (format_ipv4_ok frame 28) as (a & b & c & d & _ & ->); [lia|lia|done|].
  destruct (format_ipv4_ok frame 38) as (a' & b' & c' & d' & _ & ->); [lia|lia|done|]. cbn [Z.eqb Pos.eqb andb]. rewrite !bind_Ok.
  destruct (op =? 1); [|by destruct (op =? 2); eexists]. unfold mem_eq.
  rewrite (proj2 (Z.ltb_ge 38 0)), (proj2 (Z.ltb_ge _ (38 + 4))), (proj2 (Z.ltb_ge _ 4)) by lia. by eexists.
Qed.

Lemma log_ip dir self_ip frame :
  Forall is_byte frame → 34 ≤ Z.of_nat (length frame) → read_be16 frame 12 = Ok 0x0800 →
  ∃ line, log_frame dir self_ip frame (Z.of_nat (length frame)) = Ok line ∧ ip_line dir frame line.
Proof.
  intros Hb Hl Ht. unfold log_frame. rewrite (proj2 (Z.ltb_ge _ 14)), Ht, bind_Ok by lia. rewrite (proj2 (Z.leb_le 34 _)) by lia.
  destruct (format_ipv4_ok frame 26) as (a & b & c & d & E1 & ->); [lia|lia|done|].
  destruct (format_ipv4_ok frame 30) as (a' & b' & c' & d' & E2 & ->); [lia|lia|done|]. cbn [Z.eqb Pos.eqb andb]. rewrite !bind_Ok.
  destruct (is_icmp_echo_ok frame 8) as ([] & Hq); rewrite Hq, bind_Ok.
  { eexists. split; [reflexivity|]. eexists _, a, b, c, d, a', b', c', d'. split_and!; try done. split; [done|].
    intros Hr. by destruct (echo_types_exclude _ _ Hq Hr). }
  destruct (is_icmp_echo_ok frame 0) as ([] & Hr); rewrite Hr, bind_Ok.
  { eexists. split; [reflexivity|]. eexists _, a, b, c, d, a', b', c', d'. split_and!; try done. split; [done|congruence]. }
  destruct (get_ok frame 23) as (p & -> & _); [lia|]. rewrite bind_Ok. destruct (proto_kind p) as [N1 N2].
  eexists. split; [reflexivity|]. exists (str " IPv4 proto=" ++ fmt_dec 0 p ++ [32]), a, b, c, d, a', b', c', d'.
  split_and!; try done; [by rewrite <-!app_assoc|split; [done|congruence]|split; [done|congruence]].
Qed.

Lemma log_frame_total dir self_ip frame :
  Forall is_byte frame → length self_ip = 4%nat → ∃ line, log_frame dir self_ip frame (Z.of_nat (length frame)) = Ok line.
Proof.
  intros Hb Hs. set (n := Z.of_nat (length frame)). destruct (Z.ltb_spec n 14) as [Hn|Hn].
  { unfold log_frame. rewrite (proj2 (Z.ltb_lt n 14)) by lia. by eexists. }
  destruct (read_be16_total frame 12) as (t & Ht); [lia|lia|].
  destruct ((t =? 0x0806) && (42 <=? n)) eqn:Harp.
  { apply andb_true_iff in Harp as [->%Z.eqb_eq ?%Z.leb_le]. by apply log_arp. }
  destruct ((t =? 0x0800) && (34 <=? n)) eqn:Hip.
  { apply andb_true_iff in Hip as [->%Z.eqb_eq ?%Z.leb_le]. destruct (log_ip dir self_ip frame) as (line & ? & _); eauto. }
  unfold log_frame. rewrite (proj2 (Z.ltb_ge n 14)), Ht, bind_Ok, Harp, Hip by lia. by eexists.
Qed.

(** ** Resources *)

(** The output function keeps [Inv]. *)
Definition callable {L P A} (Inv : A → Prop) (out : linkoutput_fn L P A) : Prop :=
  ∀ q l a, Inv a → ∃ e a', out q l a = Ok (e, a') ∧ Inv a'.

(** What lwIP's documentation says of ownership: [live_udp] and [live_tcp] are
    the control blocks that came from [udp_new] and [tcp_new] and still exist.
    Sending does not take the buffer; a UDP block ends with [udp_remove], a TCP
    block with [tcp_abort], which calls the error callback, or when lwIP itself
    is done with the connection, on a frame or on a timeout; a failing
    [tcp_connect] leaves it. The functions are only for blocks that exist. *)
Class Stack (L P I U T : Type) `{Lwip L P I} `{!StackOps L P I U T} `{Countable U} `{Countable T} := {
  live_udp : L → gset U;
  live_tcp : L → gset T;
  alloc_pcbs n l : live_udp (pbuf_alloc n l).2 = live_udp l ∧ live_tcp (pbuf_alloc n l).2 = live_tcp l;
  take_pcbs p bs l : live_udp (pbuf_take p bs l).2 = live_udp l ∧ live_tcp (pbuf_take p bs l).2 = live_tcp l;
  free_pcbs p l : live_udp (pbuf_free p l) = live_udp l ∧ live_tcp (pbuf_free p l) = live_tcp l;
  input_pcbs {A} (out : linkoutput_fn L P A) p l a e l' a' :
    netif_input out p l a = Ok (e, l', a') → live_udp l' = live_udp l ∧ live_tcp l' ⊆ live_tcp l;
  timeouts_pcbs {A} (out : linkoutput_fn L P A) l a l' a' :
    sys_check_timeouts out l a = Ok (l', a') → live_udp l' = live_udp l ∧ live_tcp l' ⊆ live_tcp l;
  copy_length p n l : 0 ≤ n ≤ tot_len p l → Z.of_nat (length (pbuf_copy_partial p n l)) = n;
  held l := (owned l, live_udp l, live_tcp l);
  store_held p bs l : p ∈ owned l → held (pbuf_store p bs l) = held l;
  dns_setserver_held ip l : held (dns_setserver ip l) = held l;
  raw_sendto_ok {A} (Inv : A → Prop) (out : linkoutput_fn L P A) p dst l a :
    p ∈ owned l → Inv a → callable Inv out →
    ∃ e l' a', raw_sendto out p dst l a = Ok (e, l', a') ∧ Inv a' ∧ held l' = held l;
  etharp_request_ok {A} (Inv : A → Prop) (out : linkoutput_fn L P A) ip l a :
    Inv a → callable Inv out → ∃ e l' a', etharp_request out ip l a = Ok (e, l', a') ∧ Inv a' ∧ held l' = held l;
  udp_new_ok l u l' :
    udp_new l = (u, l') →
    match u with
    | Some u => (u ∉ live_udp l) ∧ held l' = (owned l, {[u]} ∪ live_udp l, live_tcp l)
    | None => held l' = held l
    end;
  udp_remove_ok u l : u ∈ live_udp l → held (udp_remove u l) = (owned l, live_udp l ∖ {[u]}, live_tcp l);
  udp_sendto_ok {A} (Inv : A → Prop) (out : linkoutput_fn L P A) u p dst port l a :
    u ∈ live_udp l → p ∈ owned l → Inv a → callable Inv out →
    ∃ e l' a', udp_sendto out u p dst port l a = Ok (e, l', a') ∧ Inv a' ∧ held l' = held l;
  tcp_new_ok l t l' :
    live_tcp l = ∅ → tcp_new l = (t, l') →
    held l' = (owned l, live_udp l, match t with Some t => {[t]} | None => ∅ end);
  tcp_abort_ok {A} (Inv : A → Prop) (out : linkoutput_fn L P A) errf t l a :
    t ∈ live_tcp l → Inv a → callable Inv out → (∀ e a, Inv a → Inv (errf e a)) →
    ∃ l' a', tcp_abort out errf t l a = Ok (l', a') ∧ Inv a' ∧ held l' = (owned l, live_udp l, live_tcp l ∖ {[t]});
  tcp_connect_ok {A} (Inv : A → Prop) (out : linkoutput_fn L P A) t dst port l a :
    t ∈ live_tcp l → Inv a → callable Inv out →
    ∃ e l' a', tcp_connect out t dst port l a = Ok (e, l', a') ∧ Inv a' ∧ held l' = held l;
  dhcp_start_ok {A} (Inv : A → Prop) (out : linkoutput_fn L P A) l a :
    Inv a → callable Inv out → ∃ e l' a', dhcp_start out l a = Ok (e, l', a') ∧ Inv a' ∧ held l' = held l;
  dhcp_stop_ok {A} (Inv : A → Prop) (out : linkoutput_fn L P A) l a :
    Inv a → callable Inv out → ∃ l' a', dhcp_stop out l a = Ok (l', a') ∧ Inv a' ∧ held l' = held l;
  dns_gethostbyname_ok {A} (Inv : A → Prop) (out : linkoutput_fn L P A) name l a :
    Inv a → callable Inv out → ∃ e r l' a', dns_gethostbyname out name l a = Ok (e, r, l', a') ∧ Inv a' ∧ held l' = held l;
}.

(** A computation that returns, from [P] to [Q]. *)
Definition returns {S A} (P : S → Prop) (m : net S A) (Q : A → S → Prop) : Prop :=
  ∀ s, P s → ∃ a s', m s = Ok (a, s') ∧ Q a s'.

Section returns.
Context {S : Type}.

Lemma returns_ret {A} (a : A) (P : S → Prop) : returns P (mret a) (λ _, P).
Proof. intros s Hs. by exists a, s. Qed.

Lemma returns_bind {A B} (m : net S A) (f : A → net S B) P Q R :
  returns P m Q → (∀ a, returns (Q a) (f a) R) → returns P (m ≫= f) R.
Proof.
  intros Hm Hf s Hs. destruct (Hm s Hs) as (a & s1 & E & Ha). destruct (Hf a s1 Ha) as (b & s2 & E2 & Hb).
  exists b, s2. split; [|done]. unfold mbind, net_bind. by rewrite E.
Qed.

(** The common case: the assertion stays. *)
Lemma returns_then {A B} (m : net S A) (f : A → net S B) P R :
  returns P m (λ _, P) → (∀ a, returns P (f a) R) → returns P (m ≫= f) R.
Proof. intros Hm Hf. by eapply returns_bind. Qed.
End returns.

Section resources.
Context {L P I U T D : Type} `{Stack L P I U T} `{!Ip4Ops I} `{!TapDev D}.
Context (iface : mipos_lwip_netif_t (app_context_t T D)).
Context (Hlink : link_output iface = Some tap_link_output).

Abbreviation app := (app_context_t T D).
Abbreviation out := (mipos_lwip_low_level_output (Some iface)).

Implicit Types (s : L * app) (a : app) (l : L).

(** The connection the application knows, and an address to compare with. *)
Definition knows (x : option T) a : Prop := tcp_pcb a = x ∧ length (ctx_ip a) = 4%nat.
Definition sound a : Prop := length (ctx_ip a) = 4%nat.

(** The state holds the resources [h] and the application knows [x]. *)
Definition at_rest (h : gset P * gset U * gset T) (x : option T) s : Prop := held s.1 = h ∧ knows x s.2.

(** What the link function keeps. *)
Lemma tap_link_keeps (Inv : app → Prop) frame a :
  (∀ a, Inv a → sound a) → (∀ a n, Inv a → Inv (set_tx n a)) → (∀ a t, Inv a → Inv (say t a)) → (∀ a d, Inv a → Inv (set_tap d a)) →
  Forall is_byte frame → Inv a → ∃ e a', tap_link_output frame (Z.of_nat (length frame)) a = Ok (e, a') ∧ Inv a'.
Proof.
  intros Hs Ht Hsay Htap Hb Ha. unfold tap_link_output. set (a1 := set_tx _ a). assert (Inv a1) as Ha1 by by apply Ht.
  assert (∃ a2, (if truth (verbose a1) then text ← log_frame (str "TX") (ctx_ip a1) frame (Z.of_nat (length frame)); Ok (say text a1) else Ok a1) = Ok a2 ∧ Inv a2) as (a2 & -> & Ha2).
  { destruct (truth (verbose a1)); [|by exists a1]. destruct (log_frame_total (str "TX") (ctx_ip a1) frame Hb (Hs a1 Ha1)) as (line & ->).
    eexists. split; [reflexivity|by apply Hsay]. }
  rewrite bind_Ok. unfold tap_write_frame. rewrite (proj2 (Z.ltb_ge _ _)) by lia. destruct (dev_write _ _) as [w d]. rewrite bind_Ok.
  destruct (w =? _); eexists _, _; (split; [reflexivity|]); [by apply Htap|by apply Hsay, Htap].
Qed.

Lemma link_keeps_known x frame a :
  Forall is_byte frame → knows x a → ∃ e a', tap_link_output frame (Z.of_nat (length frame)) a = Ok (e, a') ∧ knows x a'.
Proof. intros Hb. apply tap_link_keeps; unfold knows, sound; naive_solver. Qed.

Lemma link_output_keeps (Inv : app → Prop) :
  (∀ frame a, Forall is_byte frame → Inv a → ∃ e a', tap_link_output frame (Z.of_nat (length frame)) a = Ok (e, a') ∧ Inv a') →
  callable Inv out.
Proof using Type* Hlink.
  intros Hk q l a Ha. apply low_level_output_keeps; [|done]. unfold keeps. rewrite Hlink. auto.
Qed.

Lemma out_knows x : callable (knows x) out.
Proof using Type* Hlink. apply link_output_keeps. apply link_keeps_known. Qed.

Lemma out_sound : callable sound out.
Proof using Type* Hlink. apply link_output_keeps. intros frame a Hb. apply tap_link_keeps; unfold sound; naive_solver. Qed.

(** *** The steps of a command *)

Lemma printf_rest h x text : returns (at_rest h x) (printf text) (λ _, at_rest h x).
Proof. intros s Hs. by eexists _, _. Qed.

Lemma print_ip_rest h x label (ip : I) : returns (at_rest h x) (print_ip label ip) (λ _, at_rest h x).
Proof. apply printf_rest. Qed.

Lemma context_rest h x : returns (at_rest h x) context (λ a s, at_rest h x s ∧ tcp_pcb a = x).
Proof. intros s Hs. eexists _, _. split; [done|]. split; [done|]. by destruct Hs as (_ & ? & _). Qed.

Lemma stack_rest h x : returns (at_rest h x) stack (λ _, at_rest h x).
Proof. intros s Hs. by eexists _, _. Qed.

Lemma change_rest h x f x' : (∀ a, knows x a → knows x' (f a)) → returns (at_rest h x) (change f) (λ _, at_rest h x').
Proof. intros Hf s [Hh Hk]. eexists _, _. split; [done|]. split; [done|by apply Hf]. Qed.

Lemma stack_do_rest h x f h' : (∀ l, held l = h → held (f l) = h') → returns (at_rest h x) (stack_do f) (λ _, at_rest h' x).
Proof. intros Hf s [Hh Hk]. eexists _, _. split; [done|]. split; [by apply Hf|done]. Qed.

Lemma on_stack_rest {A} h x (f : L → A * L) (h' : A → gset P * gset U * gset T) :
  (∀ l v l', held l = h → f l = (v, l') → held l' = h' v) → returns (at_rest h x) (on_stack f) (λ v, at_rest (h' v) x).
Proof.
  intros Hf [l a] [Hh Hk]. unfold on_stack. cbn [fst snd] in *. destruct (f l) as [v l'] eqn:E.
  eexists v, (l', a). split; [done|]. split; [by eapply Hf|done].
Qed.

Lemma call_rest {A} h x (f : L → app → res (A * L * app)) h' :
  (∀ l a, held l = h → knows x a → ∃ v l' a', f l a = Ok (v, l', a') ∧ knows x a' ∧ held l' = h') →
  returns (at_rest h x) (call f) (λ _, at_rest h' x).
Proof.
  intros Hf [l a] [Hh Hk]. unfold call. destruct (Hf l a Hh Hk) as (v & l' & a' & E & Hk' & Hh'). cbn [fst snd]. rewrite E.
  eexists v, (l', a'). split; [done|]. by split.
Qed.

Lemma abort_rest o u t ts x :
  t ∈ ts → returns (at_rest (o, u, ts) x) (_ ← call_ (tcp_abort out tcp_error t); change (set_tcp None)) (λ _, at_rest (o, u, ts ∖ {[t]}) None).
Proof using Type* Hlink.
  intros Ht [l a] [Hh [_ Hk]]. unfold held in Hh. injection Hh as Ho Hu Hl.
  destruct (tcp_abort_ok sound out tcp_error t l a) as (l' & a' & E & Hk' & Hh'); [by rewrite Hl|done|apply out_sound|done|].
  eexists (), (l', set_tcp None a'). split; [unfold mbind, net_bind, call_; cbn [fst snd]; by rewrite E|].
  split; [cbn [fst]; by rewrite Hh', Ho, Hu, Hl|done].
Qed.

(** A command starts and ends with no buffer and no UDP block. *)
Lemma alloc_rest u ts x n :
  returns (at_rest (∅, u, ts) x) (on_stack (pbuf_alloc n)) (λ p, at_rest (match p with Some p => {[p]} | None => ∅ end, u, ts) x).
Proof.
  apply (on_stack_rest _ _ _ (λ p, (match p with Some p => {[p]} | None => ∅ end, u, ts))). intros l p l' [= Ho Hu Ht] E. pose proof (alloc_pcbs n l) as [Eu Et]. rewrite E in Eu, Et. cbn [snd] in Eu, Et.
  apply pbuf_alloc_ok in E. unfold held. rewrite Eu, Et, Hu, Ht. destruct p as [p|]; [destruct E as [_ ->]|rewrite E]; rewrite Ho; [|done].
  by rewrite (right_id_L ∅ (∪)).
Qed.

Lemma free_rest p u ts x : returns (at_rest ({[p]}, u, ts) x) (stack_do (pbuf_free p)) (λ _, at_rest (∅, u, ts) x).
Proof.
  apply stack_do_rest. intros l [= Ho Hu Ht]. destruct (free_pcbs p l) as [Eu Et]. unfold held. rewrite Eu, Et, Hu, Ht.
  rewrite pbuf_free_ok by (rewrite Ho; set_solver). rewrite Ho. by rewrite difference_diag_L.
Qed.

Lemma take_rest p bs u ts x : returns (at_rest ({[p]}, u, ts) x) (on_stack (pbuf_take p bs)) (λ _, at_rest ({[p]}, u, ts) x).
Proof.
  apply (on_stack_rest _ _ _ (λ _, ({[p]}, u, ts))). intros l e l' [= Ho Hu Ht] E. destruct (take_pcbs p bs l) as [Eu Et]. pose proof (pbuf_take_ok p bs l) as Eo.
  rewrite E in Eu, Et, Eo. cbn [snd] in *. unfold held. rewrite Eu, Et, Eo, Ho, Hu, Ht by (rewrite Ho; set_solver). done.
Qed.

(** One part of a command after the other. *)
Ltac rest_step :=
  first
    [ apply printf_rest | apply print_ip_rest | apply stack_rest | apply free_rest | apply take_rest
    | apply returns_ret
    | apply returns_then; [rest_step|intros ?] ].
Ltac rest := repeat rest_step.

Lemma err_printf_rest h x (e : err_t) text : returns (at_rest h x) (if decide (e ≠ ERR_OK) then printf text else mret ()) (λ _, at_rest h x).
Proof. destruct (decide _); rest. Qed.

Lemma send_ping_rest dst ts x : returns (at_rest (∅, ∅, ts) x) (send_ping iface dst) (λ _, at_rest (∅, ∅, ts) x).
Proof using Type* Hlink.
  eapply returns_bind; [apply alloc_rest|]. intros [p|]; cbn beta iota; [|rest].
  apply returns_then; [by apply change_rest|]. intros _. eapply returns_bind; [apply context_rest|]. intros a.
  apply (returns_bind _ _ _ (λ _, at_rest ({[p]}, ∅, ts) x)).
  { intros s [Hs _]. revert s Hs. apply stack_do_rest. intros l Hl. rewrite store_held; [done|]. injection Hl as -> _ _. set_solver. }
  intros _. apply returns_then; [apply printf_rest|]. intros _. apply returns_then.
  { apply call_rest. intros l c Hh Hk. destruct (raw_sendto_ok (knows x) out p dst l c) as (e & l' & c' & E & Hk' & Hh'); [|done|apply out_knows|].
    - injection Hh as -> _ _. set_solver.
    - exists e, l', c'. by rewrite Hh'. }
  intros e. apply returns_then; [apply err_printf_rest|]. intros _. apply free_rest.
Qed.

Lemma show_arp_rest ip h x : returns (at_rest h x) (show_arp iface ip) (λ _, at_rest h x).
Proof using Type* Hlink.
  apply returns_then; [apply stack_rest|]. intros l. destruct (etharp_find_addr ip l) as [[eth found]|]; [rest|].
  apply returns_then; [rest|]. intros _. apply returns_then; [|intros ?; rest]. apply call_rest. intros l1 a Hh Hk.
  destruct (etharp_request_ok (knows x) out ip l1 a) as (e & l' & a' & E & Hk' & Hh'); [done|apply out_knows|]. exists e, l', a'. by rewrite Hh'.
Qed.

Lemma send_udp_rest dst port payload ts x :
  returns (at_rest (∅, ∅, ts) x) (send_udp iface dst port payload) (λ _, at_rest (∅, ∅, ts) x).
Proof using Type* Hlink.
  apply (returns_bind _ _ _ (λ u, at_rest (∅, match u with Some u => {[u]} | None => ∅ end, ts) x)).
  { apply (on_stack_rest _ _ _ (λ u, (∅, match u with Some u => {[u]} | None => ∅ end, ts))). intros l u l' Hh E.
    apply udp_new_ok in E. injection Hh as Ho Hu Ht.
    destruct u as [u|]; [destruct E as [_ ->]; by rewrite Ho, Hu, Ht, (right_id_L ∅ (∪))|by rewrite E; unfold held; rewrite Ho, Hu, Ht]. }
  intros [u|]; cbn beta iota; [|rest].
  assert (returns (at_rest (∅, {[u]}, ts) x) (stack_do (udp_remove u)) (λ _, at_rest (∅, ∅, ts) x)) as Hremove.
  { apply stack_do_rest. intros l Hh. injection Hh as Ho Hu Ht. rewrite udp_remove_ok by (rewrite Hu; set_solver). by rewrite Ho, Hu, Ht, difference_diag_L. }
  eapply returns_bind; [apply alloc_rest|]. intros [p|]; cbn beta iota.
  2:{ eapply returns_bind; [exact Hremove|intros ?; rest]. }
  apply returns_then; [apply take_rest|]. intros _. apply returns_then.
  { apply call_rest. intros l a Hh Hk. destruct (udp_sendto_ok (knows x) out u p dst (u16 port) l a) as (e & l' & a' & E & Hk' & Hh'); [..|done|apply out_knows|].
    1-2: injection Hh as Ho Hu _; rewrite ?Ho, ?Hu; set_solver.
    exists e, l', a'. by rewrite Hh'. }
  intros e. do 3 (apply returns_then; [rest|intros _]). apply returns_then; [apply err_printf_rest|intros _].
  apply returns_then; [rest|intros _]. eapply returns_bind; [apply free_rest|]. intros ?. exact Hremove.
Qed.

(** There is no connection but the one the application knows. *)
Definition conn (x : option T) : gset T := match x with Some t => {[t]} | None => ∅ end.
Definition quiet (s : L * app) : Prop := ∃ x c, at_rest (∅, ∅, c) x s ∧ c ⊆ conn x.

(** The application keeps the address of a connection that is gone. *)
Definition dangling (s : L * app) : Prop := ∃ t, tcp_pcb s.2 = Some t ∧ t ∉ live_tcp s.1.

(** The lines that open a connection. *)
Definition connects (line : list Z) : bool :=
  match command "tcp" (skip_blanks line) with
  | Some rest =>
      match scan_tcp rest with
      | Some (ip_text, port) => (port <=? 65535) && bool_decide (is_Some (parse_ip (I := I) ip_text))
      | None => false
      end
  | None => false
  end.

Lemma quiet_at x s : at_rest (∅, ∅, conn x) x s → quiet s.
Proof. intros Hs. by exists x, (conn x). Qed.

Lemma quiet_firm s : quiet s → ¬ dangling s → ∃ x, at_rest (∅, ∅, conn x) x s.
Proof.
  intros (x & c & [Hh Hk] & Hc) Hd. exists x. split; [|done]. rewrite Hh. f_equal. unfold held in Hh. injection Hh as _ _ Ht.
  destruct x as [t|]; cbn [conn] in *; [|set_solver]. destruct (decide (t ∈ c)) as [|Hn]; [set_solver|].
  destruct Hd. exists t. rewrite Ht. by destruct Hk.
Qed.

Lemma quiet_of {A} (m : net (L * app) A) : (∀ c x, returns (at_rest (∅, ∅, c) x) m (λ _, at_rest (∅, ∅, c) x)) → returns quiet m (λ _, quiet).
Proof. intros Hm s (x & c & Hs & Hc). destruct (Hm c x s Hs) as (a & s' & E & Hs'). exists a, s'. split; [done|]. by exists x, c. Qed.

Lemma tcp_to_quiet dst port : returns (λ s, ∃ x, at_rest (∅, ∅, conn x) x s) (tcp_to iface dst port) (λ _, quiet).
Proof using Type* Hlink.
  intros s [x Hs]. revert s Hs. eapply returns_bind; [apply context_rest|]. intros a s [Hs Ha]. revert s Hs. rewrite Ha.
  apply (returns_bind _ _ _ (λ _, at_rest (∅, ∅, ∅) None)).
  { destruct x as [t|]; [|apply returns_ret]. pose proof (abort_rest ∅ ∅ t {[t]} (Some t) ltac:(set_solver)) as Hab. by rewrite difference_diag_L in Hab. }
  intros _. apply (returns_bind _ _ _ (λ t, at_rest (∅, ∅, conn t) None)).
  { apply (on_stack_rest _ _ _ (λ t, (∅, ∅, conn t))). intros l t l' Hh E. injection Hh as Ho Hu Ht. rewrite (tcp_new_ok l t l' Ht E). by rewrite Ho, Hu. }
  intros t. apply (returns_bind _ _ _ (λ _, at_rest (∅, ∅, conn t) t)); [by apply change_rest; intros c [_ ?]|]. intros _.
  destruct t as [t|]; cbn [conn]; [|intros s Hs; destruct (printf_rest _ _ (str "tcp: tcp_new failed" ++ [10]) s Hs) as ([] & s' & E & Hs'); exists (), s'; split; [done|by apply (quiet_at None)]].
  apply returns_then.
  { apply call_rest. intros l c Hh Hk. destruct (tcp_connect_ok (knows (Some t)) out t dst (u16 port) l c) as (e & l' & c' & E & Hk' & Hh'); [|done|apply out_knows|].
    - injection Hh as _ _ ->. set_solver.
    - exists e, l', c'. by rewrite Hh'. }
  intros e. do 3 (apply returns_then; [rest|intros _]). apply (returns_bind _ _ _ (λ _, quiet)); [|intros _; apply quiet_of; intros c y; rest].
  intros s Hs. case_decide as He.
  - revert s Hs. apply returns_then; [rest|]. intros _. pose proof (abort_rest ∅ ∅ t {[t]} (Some t) ltac:(set_solver)) as Hab.
    intros s Hs. destruct (Hab s Hs) as (r & s' & E & Hs'). exists r, s'. split; [exact E|]. apply (quiet_at None). by rewrite difference_diag_L in Hs'.
  - exists (), s. split; [done|]. by apply (quiet_at (Some t)).
Qed.

Lemma handle_dhcp_command_rest args h x : returns (at_rest h x) (handle_dhcp_command iface args) (λ _, at_rest h x).
Proof using Type* Hlink.
  unfold handle_dhcp_command. repeat case_match; rest; (apply returns_then; [|intros ?; rest]).
  - apply call_rest. intros l a Hh Hk. destruct (dhcp_start_ok (knows x) out l a) as (e & l' & a' & E & Hk' & Hh'); [done|apply out_knows|]. exists e, l', a'. by rewrite Hh'.
  - intros [l a] [Hh Hk]. destruct (dhcp_stop_ok (knows x) out l a) as (l' & a' & E & Hk' & Hh'); [done|apply out_knows|].
    exists (), (l', a'). unfold call_. cbn [fst snd] in *. rewrite E. split; [done|]. split; [cbn; by rewrite Hh'|done].
Qed.

Lemma handle_dns_command_rest args h x : returns (at_rest h x) (handle_dns_command iface args) (λ _, at_rest h x).
Proof using Type* Hlink.
  unfold handle_dns_command. destruct (scan_server _) as [second|].
  { destruct (parse_ip second) as [ip|]; [|rest]. apply returns_then; [apply stack_do_rest; intros l <-; apply dns_setserver_held|intros _; rest]. }
  destruct (scan_s 127 _) as [[first r]|]; [|rest]. apply returns_then; [|intros [e resolved]; repeat case_match; rest].
  apply call_rest. intros l a Hh Hk. destruct (dns_gethostbyname_ok (knows x) out first l a) as (e & ip & l' & a' & -> & Hk' & Hh'); [done|apply out_knows|].
  exists (e, ip), l', a'. by rewrite Hh'.
Qed.

Context (cfg : app_config_t I).

(** Every command line is obeyed, and leaves nothing behind. *)
Lemma execute_command_quiet line :
  returns (λ s, quiet s ∧ (connects line = false ∨ ¬ dangling s)) (execute_command cfg iface line) (λ _, quiet).
Proof using Type* Hlink.
  set (Pre s := quiet s ∧ _). assert (∀ s, Pre s → quiet s) as Hq by by intros s [].
  assert (∀ m : net (L * app) (), returns Pre m (λ _, quiet) → returns Pre (_ ← m; mret false) (λ _, quiet)) as Hkeep.
  { intros m Hm. eapply returns_bind; [done|]. intros ?. apply returns_ret. }
  assert (∀ m : net (L * app) (), (∀ c x, returns (at_rest (∅, ∅, c) x) m (λ _, at_rest (∅, ∅, c) x)) → returns Pre (_ ← m; mret false) (λ _, quiet)) as Hrest.
  { intros m Hm. apply Hkeep. intros s Hs. apply quiet_of; auto. }
  assert (∀ b : bool, returns Pre (mret b) (λ _, quiet)) as Hret by (intros b s Hs; eexists b, s; auto).
  unfold execute_command. set (ln := skip_blanks line).
  destruct (bool_decide (ln = [])); [apply Hret|].
  destruct (is_word "help" ln || is_word "?" ln); [apply Hrest; intros c x; rest|]. destruct (is_word "ip" ln); [apply Hrest; intros c x; rest|].
  destruct (command "route" ln) as [[|ch rest']|]; [apply Hrest; intros c x; unfold show_route_table; rest| |].
  { destruct (parse_ip_arg _); apply Hrest; intros c x; [unfold show_route_for|]; rest. }
  destruct (command "arp" ln) as [r|]; [destruct (address_or _ r); apply Hrest; intros c x; [apply show_arp_rest|rest]|].
  destruct (command "ping" ln) as [r|]; [destruct (address_or _ r); apply Hrest; intros c x; [apply send_ping_rest|rest]|].
  destruct (command "udp" ln) as [r|].
  { apply Hrest. intros c x. unfold send_udp_datagram. repeat case_match; try rest. apply send_udp_rest. }
  destruct (command "tcp" ln) as [r|] eqn:Htcp.
  { unfold start_tcp_connect. destruct (scan_tcp r) as [[ip port]|] eqn:Hscan; [|apply Hrest; intros c x; rest].
    destruct (Z.ltb_spec 65535 port) as [|Hport]; [apply Hrest; intros c x; rest|].
    destruct (parse_ip ip) as [dst|] eqn:Hip; [|apply Hrest; intros c x; rest]. apply Hkeep. intros s [Hs Hor].
    apply tcp_to_quiet, quiet_firm; [done|]. destruct Hor as [Hc|]; [|done]. exfalso. unfold connects in Hc. fold ln in Hc.
    rewrite Htcp, Hscan, Hip, (proj2 (Z.leb_le _ _)) in Hc by lia. done. }
  destruct (command "dhcp" ln) as [r|]; [apply Hrest; intros c x; apply handle_dhcp_command_rest|].
  destruct (command "dns" ln) as [r|]; [apply Hrest; intros c x; apply handle_dns_command_rest|].
  destruct (is_word "stats" ln).
  { apply Hrest. intros c x. eapply returns_bind; [apply context_rest|]. intros a s [Hs _]. revert s Hs. apply printf_rest. }
  destruct (is_word "quiet" ln); [apply Hrest; intros c x; apply returns_then; [by apply change_rest|intros _; rest]|].
  destruct (is_word "verbose" ln); [apply Hrest; intros c x; apply returns_then; [by apply change_rest|intros _; rest]|].
  destruct (is_word "quit" ln || is_word "exit" ln); [apply Hret|]. apply Hrest. intros c x. rest.
Qed.

(** *** The program and the stack *)

(** What happens: a command, a frame, a turn of lwIP's timers; lwIP sends
    frames through the link, and calls back. A buffer given to [ping_recv]
    belongs to the application if it takes it and else stays lwIP's; the error
    callback comes after lwIP has freed the control block; a connection the
    peer closes is freed with no callback, because none is registered for its
    end ([step_released]). A line that opens a connection first aborts the
    known one: what lwIP then does with a block that is gone is undefined, and
    no transition. *)
Inductive step : L * app → L * app → Prop :=
  | step_command line stop s s' :
      connects line = false ∨ ¬ dangling s → execute_command cfg iface line s = Ok (stop, s') → step s s'
  | step_frame frame s s' : Forall is_byte frame → take_frame cfg iface frame s = Ok ((), s') → step s s'
  | step_poll l a l' a' : mipos_lwip_netif_poll (Some iface) l a = Ok (l', a') → step (l, a) (l', a')
  | step_released t l l' a : held l' = (owned l, live_udp l, live_tcp l ∖ {[t]}) → step (l, a) (l', a)
  | step_stack l l' a : held l' = held l → step (l, a) (l', a)
  | step_send frame e l a a' :
      Forall is_byte frame → tap_link_output frame (Z.of_nat (length frame)) a = Ok (e, a') → step (l, a) (l, a')
  | step_ping p from l l1 a r s2 l3 :
      p ∉ owned l → held l1 = ({[p]} ∪ owned l, live_udp l, live_tcp l) → ping_recv p from (l1, a) = Ok (r, s2) →
      held l3 = (if r =? 0 then (owned s2.1 ∖ {[p]}, live_udp s2.1, live_tcp s2.1) else held s2.1) → step (l, a) (l3, s2.2)
  | step_connected e l a : step (l, a) (l, tcp_connected e a)
  | step_error e t l l' a :
      t ∈ live_tcp l → held l' = (owned l, live_udp l, live_tcp l ∖ {[t]}) → step (l, a) (l', tcp_error e a)
  | step_dns name ip l a : step (l, a) (l, dns_found name ip a).

(** The callback frees the buffer exactly when it says so. *)
Lemma ping_recv_rest p from ts x :
  returns (at_rest ({[p]}, ∅, ts) x) (ping_recv p from) (λ r, at_rest (if r =? 0 then {[p]} else ∅, ∅, ts) x).
Proof.
  intros [l a] Hs. assert (∃ s', (mret 0 : net (L * app) Z) (l, a) = Ok (0, s') ∧ at_rest ({[p]}, ∅, ts) x s') as (s0 & E0 & Hs0) by by eexists.
  unfold ping_recv, mbind, net_bind, stack, context. cbn [fst snd mbind res_bind].
  destruct (Z.ltb_spec (tot_len p l) 8); [by exists 0, s0|].
  assert (Z.of_nat (length (pbuf_copy_partial p 8 l)) = 8) as Hlen by (apply copy_length; lia). destruct (pbuf_copy_partial p 8 l) as [|t [|? [|? [|? [|i1 [|i0 [|s1 [|s2 [|]]]]]]]]]; try (exfalso; simpl in Hlen; lia).
  destruct (negb (t =? ICMP_ER)); [by exists 0, s0|]. destruct (negb (_ =? _)); [by exists 0, s0|].
  unfold printf. cbn [mbind res_bind fst snd]. set (s1' := (l, _)). assert (at_rest ({[p]}, ∅, ts) x s1') as Hs1 by exact Hs.
  destruct (free_rest p ∅ ts x s1' Hs1) as (u & s3 & E & Hs3). exists 1, s3. split; [|done].
  by rewrite E.
Qed.

(** A frame for lwIP: the buffer is given back, connections may end. *)
Lemma input_quiet frame n (l : L) a :
  quiet (l, a) → n ≤ Z.of_nat (length frame) →
  ∃ e l' a', mipos_lwip_netif_input (Some iface) (Some frame) n l a = Ok (e, l', a') ∧ quiet (l', a').
Proof using Type* Hlink.
  intros (x & c & [Hh Hk] & Hc) Hn. cbn [fst snd] in *. unfold held in Hh. injection Hh as Ho Hu Ht.
  destruct (netif_input_keeps (knows x) iface frame n l a) as (e & l' & a' & E & Ho' & Hk'); [|done|done|].
  { unfold keeps. rewrite Hlink. intros f b Hb _. by apply link_keeps_known. }
  exists e, l', a'. split; [done|]. assert (live_udp l' = live_udp l ∧ live_tcp l' ⊆ live_tcp l) as [Eu Et].
  { clear Ho'. cbn [mipos_lwip_netif_input] in E. destruct (n =? 0); [by injection E as _ <- _|].
    pose proof (alloc_pcbs n l) as [Au At]. destruct (pbuf_alloc n l) as [[p|] l1]; cbn [snd] in *; [|injection E as _ <- _; by rewrite Au, At].
    destruct (_ <? n); [done|]. pose proof (take_pcbs p (take (Z.to_nat n) frame) l1) as [Tu Tt]. destruct (pbuf_take _ _ l1) as [e1 l2]; cbn [snd] in *.
    destruct (free_pcbs p l2) as [Fu Ft]. case_decide; [injection E as _ <- _; by rewrite Fu, Ft, Tu, Tt, Au, At|].
    apply bind_ok in E as ([[e2 l3] a3] & E & [= _ <- _]). apply input_pcbs in E as [Iu It]. destruct (free_pcbs p l3) as [Gu Gt].
    rewrite Tu, Au in Iu. rewrite Tt, At in It. case_decide; [by rewrite Gu, Gt|done]. }
  exists x, (live_tcp l'). split; [split; [cbn [fst]; unfold held; by rewrite Ho', Eu, Ho, Hu|done]|]. set_solver.
Qed.

Lemma poll_quiet (l : L) a : quiet (l, a) → ∃ l' a', mipos_lwip_netif_poll (Some iface) l a = Ok (l', a') ∧ quiet (l', a').
Proof using Type* Hlink.
  intros (x & c & [Hh Hk] & Hc). cbn [fst snd] in *. unfold held in Hh. injection Hh as Ho Hu Ht. unfold mipos_lwip_netif_poll.
  destruct (sys_check_timeouts_ok (knows x) out l a) as (l' & a' & E & Hk' & Ho'); [done|apply out_knows|]. exists l', a'. split; [done|].
  apply timeouts_pcbs in E as [Eu Et]. exists x, (live_tcp l'). split; [split; [cbn [fst]; unfold held; by rewrite Ho', Eu, Ho, Hu|done]|]. set_solver.
Qed.

Lemma take_frame_quiet frame :
  length (cfg_mac cfg) = 6%nat → Forall is_byte frame → returns quiet (take_frame cfg iface frame) (λ _, quiet).
Proof using Type* Hlink.
  intros Hm Hb. unfold take_frame. destruct (Z.ltb_spec 65535 (Z.of_nat (length frame))) as [|Hlen]; [apply returns_ret|].
  apply returns_then.
  { intros s Hs. assert (∃ b, is_own_ethernet_frame (cfg_mac cfg) frame (Z.of_nat (length frame)) = Ok b) as [b ->]; [|by exists b, s].
    unfold is_own_ethernet_frame, mem_eq. destruct (Z.leb_spec 12 (Z.of_nat (length frame))); [|by eexists].
    rewrite !(proj2 (Z.ltb_ge _ _)) by lia. by eexists. }
  intros []; [apply returns_ret|]. apply returns_then; [by apply quiet_of; intros c x; apply change_rest|]. intros _.
  apply (returns_bind _ _ _ (λ a s, quiet s ∧ sound a)).
  { intros s Hs. exists s.2, s. split; [done|]. split; [done|]. by destruct Hs as (x & c & [_ [_ ?]] & _). }
  intros a. apply (returns_bind _ _ _ (λ _, quiet)).
  - intros s [Hs Ha]. destruct (truth (verbose a)); [|by exists (), s].
    destruct (log_frame_total (str "RX") (ctx_ip a) frame Hb Ha) as (line & ->). rewrite bind_Ok. revert s Hs. apply quiet_of. intros c x. rest.
  - intros _. eapply returns_then; [|intros ?; apply returns_ret]. intros [l b] Hs. unfold call. cbn [fst snd].
    rewrite (wrap_small 16 (Z.of_nat (length frame))) by (change (2 ^ 16) with 65536; lia).
    destruct (input_quiet frame (Z.of_nat (length frame)) l b Hs) as (e & l' & a' & -> & Hq); [lia|]. by exists e, (l', a').
Qed.

Lemma quiet_shrinks (l l' : L) a c : quiet (l, a) → held l' = (owned l, live_udp l, c) → c ⊆ live_tcp l → quiet (l', a).
Proof.
  intros (x & c0 & [Hh Hk] & Hc0) Hh' Hc. cbn [fst snd] in *. unfold held in Hh. injection Hh as Ho Hu Ht.
  exists x, c. split; [split; [cbn [fst]; by rewrite Hh', Ho, Hu|done]|]. set_solver.
Qed.

Lemma step_quiet s s' : length (cfg_mac cfg) = 6%nat → quiet s → step s s' → quiet s'.
Proof using Type* Hlink.
  intros Hm Hq Hst. destruct Hst as [line stop s s' Hd E|frame s s' Hb E|l a l' a' E|t l l' a Hh|l l' a Hh|frame e l a a' Hb E|p from l l1 a r s2 l3 Hp H1' E H3'|e l a|e t l l' a Ht Hh|name ip l a].
  - destruct (execute_command_quiet line s) as (b & s1 & E1 & Hs1); [done|]. congruence.
  - destruct (take_frame_quiet frame Hm Hb s Hq) as (b & s1 & E1 & Hs1). congruence.
  - destruct (poll_quiet l a Hq) as (l1 & a1 & E1 & Hs1). congruence.
  - eapply quiet_shrinks; [done..|set_solver].
  - eapply quiet_shrinks; [done..|set_solver].
  - destruct Hq as (x & c & [Hx Hk] & Hc). destruct (link_keeps_known x frame a Hb Hk) as (e' & a1 & E1 & Hk1). exists x, c. split; [|done]. split; [done|]. cbn. congruence.
  - destruct Hq as (x & c & [Hx Hk] & Hc). cbn [fst snd] in *. injection Hx as Ho Hu Ht. rewrite Ho, Hu, Ht, (right_id_L ∅ (∪)) in H1'.
    destruct (ping_recv_rest p from c x (l1, a)) as (r' & s2' & E2 & [Hh2 Hk2]); [by split|]. rewrite E in E2. injection E2 as <- <-.
    exists x, c. split; [|done]. split; [|done]. cbn [fst]. rewrite H3'. destruct (r =? 0); [|done]. injection Hh2 as -> -> ->. by rewrite difference_diag_L.
  - destruct Hq as (x & c & [Hx Hk] & Hc). by exists x, c.
  - destruct Hq as (x & c & [Hx [Hk Hl]] & Hc). cbn [fst snd] in *. injection Hx as Ho Hu Ht'. rewrite Ht' in Ht. destruct x as [t'|]; [|set_solver].
    cbn [conn] in Hc. assert (t = t') as -> by set_solver. assert (c ∖ {[t']} = ∅) as Hnone by set_solver. apply (quiet_at None). split; [|done]. cbn [fst]. by rewrite Hh, Ho, Hu, Ht', Hnone.
  - destruct Hq as (x & c & [Hx Hk] & Hc). by exists x, c.
Qed.

(** A line that opens a connection aborts the known one before all else. *)
Lemma connect_aborts_known line (l : L) a t f :
  connects line = true → tcp_pcb a = Some t → tcp_abort out tcp_error t l a = Fault f →
  execute_command cfg iface line (l, a) = Fault f.
Proof.
  unfold connects, execute_command. cbv zeta. generalize (skip_blanks line) as ln. intros ln Hc Ht Ha.
  assert (take 3 ln = str "tcp") as Hw.
  { unfold command at 1 in Hc. change (length (str "tcp")) with 3%nat in Hc. case_bool_decide; done. }
  destruct ln as [|c1 [|c2 [|c3 r]]]; try discriminate Hw. change (str "tcp") with [116; 99; 112] in Hw. injection Hw as -> -> ->. revert Hc.
  unfold is_word. repeat (rewrite bool_decide_false by discriminate). cbn [orb].
  assert (∀ w r', take (length (str w)) (116 :: 99 :: 112 :: r) ≠ str w → command w (116 :: 99 :: 112 :: r) = r' → r' = None) as Hno.
  { intros w r' Hw <-. unfold command. by rewrite bool_decide_false. }
  rewrite (Hno "route" _ ltac:(discriminate) eq_refl), (Hno "arp" _ ltac:(discriminate) eq_refl), (Hno "ping" _ ltac:(discriminate) eq_refl), (Hno "udp" _ ltac:(discriminate) eq_refl).
  destruct (command "tcp" _) as [rest|]; [|done]. unfold start_tcp_connect. destruct (scan_tcp rest) as [[ip port]|]; [|done].
  intros [Hp%Z.leb_le [dst Hip]%bool_decide_eq_true]%andb_true_iff. rewrite (proj2 (Z.ltb_ge _ _)), Hip by lia.
  unfold tcp_to, mbind, net_bind, context, call_. cbn [fst snd mbind res_bind]. rewrite Ht. cbn [fst snd]. by rewrite Ha.
Qed.

(** C29: whatever lines are typed, whatever frames arrive and whatever lwIP
    does in between, the end of a connection by the peer included, the TAP
    example leaks no resource of the stack and frees none twice: no packet
    buffer and no UDP control block is left, and no TCP control block exists
    but the one the application knows; and every frame, every turn of the
    timers and every command line, however malformed, is then dealt with to the
    end. One case is outside, and is a fault of the program: lwIP frees a
    connection that the peer has closed without calling back, the program keeps
    its address, and a [tcp] line that opens another connection then aborts a
    block that is gone ([released_connection_aborted]). *)
Theorem tap_holds_nothing (l0 : L) (d : D) s :
  length (cfg_mac cfg) = 6%nat → held l0 = (∅, ∅, ∅) → rtc step (l0, init_context cfg d) s →
  owned s.1 = ∅ ∧ live_udp s.1 = ∅ ∧ live_tcp s.1 ⊆ (match tcp_pcb s.2 with Some t => {[t]} | None => ∅ end) ∧
  (∀ line, connects line = false ∨ ¬ dangling s → ∃ stop s', execute_command cfg iface line s = Ok (stop, s')) ∧
  (∀ frame, Forall is_byte frame → ∃ s', take_frame cfg iface frame s = Ok ((), s')) ∧
  ∃ l' a', mipos_lwip_netif_poll (Some iface) s.1 s.2 = Ok (l', a').
Proof using Type* Hlink.
  intros Hm Hl Hr. assert (quiet (l0, init_context cfg d)) as H0' by by apply (quiet_at None).
  assert (quiet s) as Hq by (revert H0'; induction Hr; eauto using step_quiet). destruct s as [l a]. cbn [fst snd].
  assert (owned l = ∅ ∧ live_udp l = ∅ ∧ live_tcp l ⊆ conn (tcp_pcb a)) as (Ho & Hu & Ht).
  { destruct Hq as (x & c & [[= Ho Hu Ht] [Hk _]] & Hc). cbn [fst snd] in *. by rewrite Hk, Ht. }
  split_and!; [done..| | |].
  - intros line Hd. destruct (execute_command_quiet line (l, a)) as (b & s' & E & _); eauto.
  - intros frame Hb. destruct (take_frame_quiet frame Hm Hb (l, a) Hq) as ([] & s' & E & _). eauto.
  - destruct (poll_quiet l a Hq) as (l' & a' & E & _). eauto.
Qed.
End resources.

(** ** A stack that keeps the contract *)

Record desk := mk_desk { dk_bufs : gmap nat (list Z); dk_owned : gset nat; dk_udp : gset nat; dk_tcp : gset nat }.

#[global] Instance desk_lwip_ops {I} : LwipOps desk nat I := {
  pbuf_alloc _ l := let p := fresh (dk_owned l) in (Some p, mk_desk (dk_bufs l) ({[p]} ∪ dk_owned l) (dk_udp l) (dk_tcp l));
  pbuf_take p bs l := (ERR_OK, mk_desk (<[p := bs]> (dk_bufs l)) (dk_owned l) (dk_udp l) (dk_tcp l));
  pbuf_free p l := mk_desk (delete p (dk_bufs l)) (dk_owned l ∖ {[p]}) (dk_udp l) (dk_tcp l);
  tot_len p l := Z.of_nat (length (default [] (dk_bufs l !! p)));
  pbuf_copy_partial p n l := wrap 8 <$> take (Z.to_nat n) (default [] (dk_bufs l !! p));
  netif_add _ _ _ init l := (Some (init zero_netif).2, l);
  netif_set_default l := l;
  netif_set_up l := l;
  netif_set_link_up l := l;
  netif_input A out p l a :=
    '(_, a) ← out p l a; Ok (ERR_OK, mk_desk (delete p (dk_bufs l)) (dk_owned l ∖ {[p]}) (dk_udp l) (dk_tcp l), a);
  sys_check_timeouts A out l a := Ok (l, a);
}.

#[global] Instance desk_lwip {I} : Lwip desk nat I.
Proof.
  refine {| owned := dk_owned |}.
  - intros n l p l' [= <- <-]. simpl. split; [apply is_fresh|done].
  - done.
  - done.
  - intros p n l. apply Forall_fmap, Forall_true. intros b. apply (wrap_bound 8). lia.
  - intros A Inv out p l a Hp Ha Hout. destruct (Hout p l a Ha) as (e & a' & Ho & Ha').
    exists ERR_OK. simpl. rewrite Ho. eexists _, a'. split; [reflexivity|]. done.
  - intros A Inv out l a Ha Hout. by exists l, a.
Defined.

(** Datagrams go out as they are; a connection attempt sends nothing yet; a
    block that is gone cannot be aborted; a frame ends no connection. *)
#[global] Instance desk_stack_ops : StackOps desk nat quad nat nat := {
  pbuf_store p bs l := mk_desk (<[p := bs]> (dk_bufs l)) (dk_owned l) (dk_udp l) (dk_tcp l);
  inet_chksum bs := 0;
  raw_sendto A out p dst l a := '(e, a) ← out p l a; Ok (e, l, a);
  etharp_find_addr ip l := None;
  etharp_request A out ip l a := Ok (ERR_OK, l, a);
  udp_new l := let u := fresh (dk_udp l) in (Some u, mk_desk (dk_bufs l) (dk_owned l) ({[u]} ∪ dk_udp l) (dk_tcp l));
  udp_remove u l := mk_desk (dk_bufs l) (dk_owned l) (dk_udp l ∖ {[u]}) (dk_tcp l);
  udp_sendto A out u p dst port l a := '(e, a) ← out p l a; Ok (e, l, a);
  tcp_new l := let t := fresh (dk_tcp l) in (Some t, mk_desk (dk_bufs l) (dk_owned l) (dk_udp l) ({[t]} ∪ dk_tcp l));
  tcp_abort A out errf t l a :=
    if decide (t ∉ dk_tcp l) then Fault NullDeref else
    Ok (mk_desk (dk_bufs l) (dk_owned l) (dk_udp l) (dk_tcp l ∖ {[t]}), errf (ERR_OTHER (-13)) a);
  tcp_connect A out t dst port l a := Ok (ERR_OK, l, a);
  dhcp_start A out l a := Ok (ERR_OK, l, a);
  dhcp_stop A out l a := Ok (l, a);
  netif_ip4_addr l := (10, 77, 0, 2);
  netif_ip4_netmask l := (255, 255, 255, 0);
  netif_ip4_gw l := (10, 77, 0, 1);
  dns_setserver ip l := l;
  dns_gethostbyname A out name l a := Ok (ERR_OTHER (-5), (0, 0, 0, 0), l, a);
  ERR_INPROGRESS := ERR_OTHER (-5);
  show_err e := match e with ERR_OK => [48] | _ => [45; 49] end;
}.

#[global] Instance desk_stack : Stack desk nat quad nat nat.
Proof.
  refine {| live_udp := dk_udp; live_tcp := dk_tcp |}; try done.
  - intros A out p l a e l' a' E. simpl in E. apply bind_ok in E as ([? ?] & _ & [= _ <- _]). done.
  - intros A out l a l' a' [= <- _]. done.
  - intros p n l Hn. simpl in *. rewrite length_fmap, length_take. lia.
  - intros A Inv out p dst l a _ Ha Hout. destruct (Hout p l a Ha) as (e & a' & Ho & Ha'). exists e, l, a'. simpl. by rewrite Ho.
  - intros A Inv out ip l a Ha _. by eexists _, l, a.
  - intros l u l' [= <- <-]. split; [apply is_fresh|done].
  - intros A Inv out u p dst port l a _ _ Ha Hout. destruct (Hout p l a Ha) as (e & a' & Ho & Ha'). exists e, l, a'. simpl. by rewrite Ho.
  - intros l t l' Hl [= <- <-]. unfold dk_tcp at 2. rewrite Hl. by rewrite (right_id_L ∅ (∪)).
  - intros A Inv out errf t l a Ht Ha _ Herr. simpl. rewrite decide_False by (intros Hn; by apply Hn). eexists _, _. split; [reflexivity|]. split; [by apply Herr|done].
  - intros A Inv out t dst port l a _ Ha _. by eexists _, l, a.
  - intros A Inv out l a Ha _. by eexists _, l, a.
  - intros A Inv out l a Ha _. by eexists l, a.
  - intros A Inv out name l a Ha _. by eexists _, _, l, a.
Defined.

(** A device that records the frames written. *)
#[global] Instance list_dev : TapDev (list (list Z)) := {
  dev_read _ d := (GotAgain, d);
  dev_write f d := (Z.of_nat (length f), d ++ [f]);
  dev_error _ := [];
}.

Definition desk_iface : mipos_lwip_netif_t (app_context_t nat (list (list Z))) := mk_iface zero_netif (replicate 6 0) (Some tap_link_output).
Definition desk0 : desk := mk_desk ∅ ∅ ∅ ∅.

Abbreviation desk_state := (desk * app_context_t nat (list (list Z)))%type.

(** What a run goes through: a line, a frame, the end of a connection by the
    peer. *)
Inductive desk_event := Line (line : list Z) | Frame (frame : list Z) | Released (t : nat).

Definition desk_do (e : desk_event) (s : desk_state) : res desk_state :=
  match e with
  | Line line => '(_, s) ← execute_command init_config desk_iface line s; Ok s
  | Frame frame => '(_, s) ← take_frame init_config desk_iface frame s; Ok s
  | Released t => Ok (mk_desk (dk_bufs s.1) (dk_owned s.1) (dk_udp s.1) (dk_tcp s.1 ∖ {[t]}), s.2)
  end.

Fixpoint desk_run (es : list desk_event) (s : desk_state) : res desk_state :=
  match es with [] => Ok s | e :: es => s ← desk_do e s; desk_run es s end.

(** The transitions allow it. *)
Fixpoint desk_allowed (es : list desk_event) (s : desk_state) : bool :=
  match es with
  | [] => true
  | e :: es =>
      match e with
      | Line line => negb (connects (I := quad) line) || match tcp_pcb s.2 with Some t => bool_decide (t ∈ dk_tcp s.1) | None => true end
      | Frame frame => forallb (λ b, (0 <=? b) && (b <? 256)) frame
      | Released _ => true
      end && match desk_do e s with Ok s => desk_allowed es s | Fault _ => false end
  end.

Lemma desk_run_steps es s s' : desk_allowed es s = true → desk_run es s = Ok s' → rtc (step desk_iface init_config) s s'.
Proof.
  revert s. induction es as [|e es IH]; intros s; cbn [desk_run desk_allowed]; [by intros _ [= ->]|].
  intros [Ha Hn]%andb_true_iff E. apply bind_ok in E as (s1 & E1 & E). rewrite E1 in Hn. eapply rtc_l; [|by eapply IH].
  destruct e as [line|frame|t]; cbn [desk_do] in E1.
  - apply bind_ok in E1 as ([b s2] & E1 & [= ->]). eapply step_command; [|exact E1]. destruct (connects line); [right|by left].
    intros (t & Et & Ht). rewrite Et in Ha. cbn [negb orb] in Ha. by apply bool_decide_eq_true in Ha.
  - apply bind_ok in E1 as ([[] s2] & E1 & [= ->]). eapply step_frame; [|exact E1]. apply Forall_forall. intros b Hb.
    rewrite forallb_forall in Ha. specialize (Ha b (proj1 (list_elem_of_In _ _) Hb)). unfold is_byte. lia.
  - injection E1 as <-. destruct s as [l a]. by eapply (step_released _ _ t).
Qed.

(** A connection, a datagram, another connection, a frame, its end by the
    peer, a ping. *)
Definition desk_lines : list desk_event :=
  [Line (str "tcp 10.77.0.1 80"); Line (str "udp 10.77.0.1 7 hi"); Line (str "ping"); Line (str "tcp 10.77.0.9 81"); Line (str "tcp x");
   Frame (replicate 60 7); Released 0; Line (str "ping 10.77.0.9")].

Definition desk_end (es : list desk_event) : desk_state :=
  match desk_run es (desk0, init_context init_config []) with Ok s => s | Fault _ => (desk0, init_context init_config []) end.

Lemma tap_holds_nothing_witness :
  desk_run desk_lines (desk0, init_context init_config []) = Ok (desk_end desk_lines) ∧ dk_owned (desk_end desk_lines).1 = ∅ ∧
  dk_udp (desk_end desk_lines).1 = ∅ ∧ dk_tcp (desk_end desk_lines).1 ⊆ {[0%nat]} ∧
  ∃ stop s, execute_command init_config desk_iface (str "udp 10.77.0.1 7") (desk_end desk_lines) = Ok (stop, s).
Proof.
  assert (desk_run desk_lines (desk0, init_context init_config []) = Ok (desk_end desk_lines)) as E by (vm_compute; reflexivity).
  assert (desk_allowed desk_lines (desk0, init_context init_config []) = true) as Ha by (vm_compute; reflexivity).
  destruct (tap_holds_nothing desk_iface eq_refl init_config desk0 [] (desk_end desk_lines)) as (Ho & Hu & Ht & Hc & _).
  - reflexivity.
  - reflexivity.
  - exact (desk_run_steps _ _ _ Ha E).
  - assert (tcp_pcb (desk_end desk_lines).2 = Some 0%nat) as Hp by (vm_compute; reflexivity). rewrite Hp in Ht.
    assert (connects (I := quad) (str "udp 10.77.0.1 7") = false) as Hl by (vm_compute; reflexivity). specialize (Hc _ (or_introl Hl)).
    clear Ha Hp Hl. revert E Ho Hu Ht Hc. generalize (desk_end desk_lines). intros s E Ho Hu Ht Hc. split_and!; [exact E|exact Ho|exact Hu|exact Ht|exact Hc].
Defined.

(** The address that is kept: connect, let the peer close, connect again; the
    second line hands [tcp_abort] the block lwIP has freed. *)
Theorem released_connection_aborted :
  let s := desk_end [Line (str "tcp 10.77.0.1 80"); Released 0] in
  rtc (step desk_iface init_config) (desk0, init_context init_config []) s ∧ dangling s ∧
  ∀ line, connects (I := quad) line = true → execute_command init_config desk_iface line s = Fault NullDeref.
Proof.
  set (es := [_; _]). assert (desk_run es (desk0, init_context init_config []) = Ok (desk_end es)) as E by (vm_compute; reflexivity).
  assert (tcp_pcb (desk_end es).2 = Some 0%nat) as Ht by (vm_compute; reflexivity).
  assert (0%nat ∉ dk_tcp (desk_end es).1) as Hn by (apply (bool_decide_unpack _); vm_compute; exact Logic.I).
  split; [apply (desk_run_steps es); [vm_compute; reflexivity|exact E]|]. split; [by exists 0%nat|].
  intros line Hc. destruct (desk_end es) as [l a]. cbn [fst snd] in *. eapply connect_aborts_known; [done..|].
  simpl. by rewrite decide_True.
Qed.

(** ** Further behaviour *)

(** A frame the program itself sent is not given to lwIP. *)
Lemma own_frame_ignored {L P I T D} `{LwipOps L P I, TapDev D} (cfg : app_config_t I) (iface : mipos_lwip_netif_t (app_context_t T D)) frame (s : L * app_context_t T D) :
  length (cfg_mac cfg) = 6%nat → 12 ≤ Z.of_nat (length frame) → bytes_at 6 6 frame = cfg_mac cfg → take_frame cfg iface frame s = Ok ((), s).
Proof.
  intros Hm Hl He. unfold take_frame. destruct (65535 <? _); [done|]. unfold mbind, net_bind, is_own_ethernet_frame, mem_eq.
  rewrite (proj2 (Z.leb_le 12 (Z.of_nat (length frame)))) by lia. cbn [Z.ltb Z.compare orb].
  rewrite (proj2 (Z.ltb_ge (Z.of_nat (length frame)) (6 + 6))), (proj2 (Z.ltb_ge (Z.of_nat (length (cfg_mac cfg))) 6)) by lia. cbn [orb].
  change (Z.to_nat 6) with 6%nat. rewrite He, take_ge by lia. by rewrite bool_decide_true.
Qed.

(** A name that begins with [server] cannot be resolved: the format of the
    first [sscanf] matches it too. *)
Lemma dns_name_taken_for_server :
  scan_server (str "servers.example.org") = Some (str "s.example.org") ∧ parse_ip (I := quad) (str "s.example.org") = None.
Proof. split; vm_compute; reflexivity. Qed.

(** Numbers are taken modulo [2 ^ 32] before their range is tested. *)
Lemma parse_ip_wraps : parse_ip (I := quad) (str "4294967306.77.0.1") = Some (10, 77, 0, 1).
Proof. vm_compute. reflexivity. Qed.

(** The packet log prints a line for every frame of any length and content
    without reading past it, and a line about an IPv4 packet names its two
    addresses in full and says request or reply exactly for an ICMP echo. *)
Theorem log_frame_reports dir self_ip frame :
  Forall is_byte frame → length self_ip = 4%nat →
  ∃ line, log_frame dir self_ip frame (Z.of_nat (length frame)) = Ok line ∧
    (34 ≤ Z.of_nat (length frame) → read_be16 frame 12 = Ok 0x0800 → ip_line dir frame line).
Proof.
  intros Hb Hs. destruct (log_frame_total dir self_ip frame Hb Hs) as (line & E). exists line. split; [done|].
  intros Hl Ht. destruct (log_ip dir self_ip frame Hb Hl Ht) as (line' & E' & Hline). congruence.
Qed.
