(* ===== verification/Kernel.v ===== *)
(** * Kernel data and task services

    The kernel environment [mipos_kernel_env] of src/mipos/mipos_types.h as
    records, the constants of mipos_limits.h and mipos_kernel.h, the task
    services of mipos_task.c and the service macros of mipos_kernel.h.

    A pointer to a task descriptor is the index of its entry in [task_table];
    function and data pointers are integers, 0 being null.  A blocking macro
    is split where the source calls [mipos_save_context]: the [else] branch
    runs before the context switch, the [then] branch when the scheduler
    resumes the task.  The saved registers are the point to resume at, which
    for these macros is the signal mask their [then] branch resets. *)

From S2P Require Import Prelude.

(** ** Limits and constants *)

Definition MIPOS_MAX_TASKS_COUNT : Z := 7.
Definition MIPOS_TASKS_TBL_ENTRIES_CNT : Z := MIPOS_MAX_TASKS_COUNT + 1.
Definition MIPOS_MAX_TIMERS_NO : Z := 4.
Definition KERNEL__IDLE_TASK_ID : Z := 0.

Definition TASK_NOT_RUNNING : Z := 1.
Definition TASK_READY : Z := 2.
Definition TASK_RUNNING : Z := 4.
Definition TASK_SUSPENDED : Z := 8.
Definition TASK_ZOMBIE : Z := 16.
Definition TASK_FROZEN : Z := 32.

Definition MIPOS_SIGWKP : Z := 0x01.
Definition MIPOS_SIGQUE : Z := 0x02.
Definition MIPOS_SIGALM : Z := 0x04.
Definition MIPOS_SIGTMR : Z := 0x08.
Definition SYS_RESERVED_SIGNALS : Z :=
  Z.lor MIPOS_SIGWKP (Z.lor MIPOS_SIGQUE (Z.lor MIPOS_SIGALM MIPOS_SIGTMR)).
Definition SIGANY : Z := -1.

Definition TIMER_FLG_PERIODIC : Z := 1.
Definition TIMER_FLG_EXPIRED : Z := 2.
Definition TIMER_FLG_CANCELLED : Z := 4.

Definition MIPOS_NO_RT : Z := 0.
Definition MIPOS_RT : Z := 1.

(** ** Descriptors *)

(** A saved processor context: none yet, the inside of a blocking macro
    called with a signal mask, or the scheduler before a dispatch. *)
Inductive registers_state_t :=
  | NoContext
  | InMacro (signum : Z)
  | InScheduler.

#[global] Instance registers_state_eq_dec : EqDecision registers_state_t.
Proof. solve_decision. Defined.

(** The task descriptor [__task_t]. *)
Record mipos_task_t := mk_task {
  task_name : string; (* name *)
  entry_point : Z; (* 0 is the null function pointer *)
  task_ret_value : Z;
  param : Z;
  status : Z; (* uint16_t *)
  wkup : bool; (* u_flags.flags.wkup *)
  rt_task : bool; (* u_flags.flags.rt_task *)
  mbz : Z; (* u_flags.flags.mbz *)
  timer_tick_count : Z; (* int *)
  rtc_timeout : Z; (* unsigned long long *)
  signal_mask : Z; (* unsigned char *)
  signal_pending : Z;
  signal_waiting : Z;
  reg_state : registers_state_t;
  kernel_stack_pointer : Z;
  process_stack_pointer : Z;
  task_stack : Z;
  stack_size : Z;
}.

Definition set_task_name (v : string) (t : mipos_task_t) : mipos_task_t :=
  mk_task v (entry_point t) (task_ret_value t) (param t) (status t) (wkup t) (rt_task t) (mbz t) (timer_tick_count t) (rtc_timeout t) (signal_mask t) (signal_pending t) (signal_waiting t) (reg_state t) (kernel_stack_pointer t) (process_stack_pointer t) (task_stack t) (stack_size t).
Definition set_entry_point (v : Z) (t : mipos_task_t) : mipos_task_t :=
  mk_task (task_name t) v (task_ret_value t) (param t) (status t) (wkup t) (rt_task t) (mbz t) (timer_tick_count t) (rtc_timeout t) (signal_mask t) (signal_pending t) (signal_waiting t) (reg_state t) (kernel_stack_pointer t) (process_stack_pointer t) (task_stack t) (stack_size t).
Definition set_task_ret_value (v : Z) (t : mipos_task_t) : mipos_task_t :=
  mk_task (task_name t) (entry_point t) v (param t) (status t) (wkup t) (rt_task t) (mbz t) (timer_tick_count t) (rtc_timeout t) (signal_mask t) (signal_pending t) (signal_waiting t) (reg_state t) (kernel_stack_pointer t) (process_stack_pointer t) (task_stack t) (stack_size t).
Definition set_param (v : Z) (t : mipos_task_t) : mipos_task_t :=
  mk_task (task_name t) (entry_point t) (task_ret_value t) v (status t) (wkup t) (rt_task t) (mbz t) (timer_tick_count t) (rtc_timeout t) (signal_mask t) (signal_pending t) (signal_waiting t) (reg_state t) (kernel_stack_pointer t) (process_stack_pointer t) (task_stack t) (stack_size t).
Definition set_status (v : Z) (t : mipos_task_t) : mipos_task_t :=
  mk_task (task_name t) (entry_point t) (task_ret_value t) (param t) v (wkup t) (rt_task t) (mbz t) (timer_tick_count t) (rtc_timeout t) (signal_mask t) (signal_pending t) (signal_waiting t) (reg_state t) (kernel_stack_pointer t) (process_stack_pointer t) (task_stack t) (stack_size t).
Definition set_wkup (v : bool) (t : mipos_task_t) : mipos_task_t :=
  mk_task (task_name t) (entry_point t) (task_ret_value t) (param t) (status t) v (rt_task t) (mbz t) (timer_tick_count t) (rtc_timeout t) (signal_mask t) (signal_pending t) (signal_waiting t) (reg_state t) (kernel_stack_pointer t) (process_stack_pointer t) (task_stack t) (stack_size t).
Definition set_rt_task (v : bool) (t : mipos_task_t) : mipos_task_t :=
  mk_task (task_name t) (entry_point t) (task_ret_value t) (param t) (status t) (wkup t) v (mbz t) (timer_tick_count t) (rtc_timeout t) (signal_mask t) (signal_pending t) (signal_waiting t) (reg_state t) (kernel_stack_pointer t) (process_stack_pointer t) (task_stack t) (stack_size t).
Definition set_mbz (v : Z) (t : mipos_task_t) : mipos_task_t :=
  mk_task (task_name t) (entry_point t) (task_ret_value t) (param t) (status t) (wkup t) (rt_task t) v (timer_tick_count t) (rtc_timeout t) (signal_mask t) (signal_pending t) (signal_waiting t) (reg_state t) (kernel_stack_pointer t) (process_stack_pointer t) (task_stack t) (stack_size t).
Definition set_timer_tick_count (v : Z) (t : mipos_task_t) : mipos_task_t :=
  mk_task (task_name t) (entry_point t) (task_ret_value t) (param t) (status t) (wkup t) (rt_task t) (mbz t) v (rtc_timeout t) (signal_mask t) (signal_pending t) (signal_waiting t) (reg_state t) (kernel_stack_pointer t) (process_stack_pointer t) (task_stack t) (stack_size t).
Definition set_rtc_timeout (v : Z) (t : mipos_task_t) : mipos_task_t :=
  mk_task (task_name t) (entry_point t) (task_ret_value t) (param t) (status t) (wkup t) (rt_task t) (mbz t) (timer_tick_count t) v (signal_mask t) (signal_pending t) (signal_waiting t) (reg_state t) (kernel_stack_pointer t) (process_stack_pointer t) (task_stack t) (stack_size t).
Definition set_signal_mask (v : Z) (t : mipos_task_t) : mipos_task_t :=
  mk_task (task_name t) (entry_point t) (task_ret_value t) (param t) (status t) (wkup t) (rt_task t) (mbz t) (timer_tick_count t) (rtc_timeout t) v (signal_pending t) (signal_waiting t) (reg_state t) (kernel_stack_pointer t) (process_stack_pointer t) (task_stack t) (stack_size t).
Definition set_signal_pending (v : Z) (t : mipos_task_t) : mipos_task_t :=
  mk_task (task_name t) (entry_point t) (task_ret_value t) (param t) (status t) (wkup t) (rt_task t) (mbz t) (timer_tick_count t) (rtc_timeout t) (signal_mask t) v (signal_waiting t) (reg_state t) (kernel_stack_pointer t) (process_stack_pointer t) (task_stack t) (stack_size t).
Definition set_signal_waiting (v : Z) (t : mipos_task_t) : mipos_task_t :=
  mk_task (task_name t) (entry_point t) (task_ret_value t) (param t) (status t) (wkup t) (rt_task t) (mbz t) (timer_tick_count t) (rtc_timeout t) (signal_mask t) (signal_pending t) v (reg_state t) (kernel_stack_pointer t) (process_stack_pointer t) (task_stack t) (stack_size t).
Definition set_reg_state (v : registers_state_t) (t : mipos_task_t) : mipos_task_t :=
  mk_task (task_name t) (entry_point t) (task_ret_value t) (param t) (status t) (wkup t) (rt_task t) (mbz t) (timer_tick_count t) (rtc_timeout t) (signal_mask t) (signal_pending t) (signal_waiting t) v (kernel_stack_pointer t) (process_stack_pointer t) (task_stack t) (stack_size t).
Definition set_kernel_stack_pointer (v : Z) (t : mipos_task_t) : mipos_task_t :=
  mk_task (task_name t) (entry_point t) (task_ret_value t) (param t) (status t) (wkup t) (rt_task t) (mbz t) (timer_tick_count t) (rtc_timeout t) (signal_mask t) (signal_pending t) (signal_waiting t) (reg_state t) v (process_stack_pointer t) (task_stack t) (stack_size t).
Definition set_process_stack_pointer (v : Z) (t : mipos_task_t) : mipos_task_t :=
  mk_task (task_name t) (entry_point t) (task_ret_value t) (param t) (status t) (wkup t) (rt_task t) (mbz t) (timer_tick_count t) (rtc_timeout t) (signal_mask t) (signal_pending t) (signal_waiting t) (reg_state t) (kernel_stack_pointer t) v (task_stack t) (stack_size t).
Definition set_task_stack (v : Z) (t : mipos_task_t) : mipos_task_t :=
  mk_task (task_name t) (entry_point t) (task_ret_value t) (param t) (status t) (wkup t) (rt_task t) (mbz t) (timer_tick_count t) (rtc_timeout t) (signal_mask t) (signal_pending t) (signal_waiting t) (reg_state t) (kernel_stack_pointer t) (process_stack_pointer t) v (stack_size t).
Definition set_stack_size (v : Z) (t : mipos_task_t) : mipos_task_t :=
  mk_task (task_name t) (entry_point t) (task_ret_value t) (param t) (status t) (wkup t) (rt_task t) (mbz t) (timer_tick_count t) (rtc_timeout t) (signal_mask t) (signal_pending t) (signal_waiting t) (reg_state t) (kernel_stack_pointer t) (process_stack_pointer t) (task_stack t) v.

(** The software timer descriptor [mipos_timer_desc_t]. *)
Record mipos_timer_t := mk_timer {
  handler_on_expire_cbk : Z;
  handler_on_cancel_cbk : Z;
  context : Z;
  timer_rtc_timeout : Z; (* rtc_timeout *)
  flgs : Z;
  interval : Z;
}.

Definition set_handler_on_expire_cbk (v : Z) (t : mipos_timer_t) : mipos_timer_t :=
  mk_timer v (handler_on_cancel_cbk t) (context t) (timer_rtc_timeout t) (flgs t) (interval t).
Definition set_handler_on_cancel_cbk (v : Z) (t : mipos_timer_t) : mipos_timer_t :=
  mk_timer (handler_on_expire_cbk t) v (context t) (timer_rtc_timeout t) (flgs t) (interval t).
Definition set_context (v : Z) (t : mipos_timer_t) : mipos_timer_t :=
  mk_timer (handler_on_expire_cbk t) (handler_on_cancel_cbk t) v (timer_rtc_timeout t) (flgs t) (interval t).
Definition set_timer_rtc_timeout (v : Z) (t : mipos_timer_t) : mipos_timer_t :=
  mk_timer (handler_on_expire_cbk t) (handler_on_cancel_cbk t) (context t) v (flgs t) (interval t).
Definition set_flgs (v : Z) (t : mipos_timer_t) : mipos_timer_t :=
  mk_timer (handler_on_expire_cbk t) (handler_on_cancel_cbk t) (context t) (timer_rtc_timeout t) v (interval t).
Definition set_interval (v : Z) (t : mipos_timer_t) : mipos_timer_t :=
  mk_timer (handler_on_expire_cbk t) (handler_on_cancel_cbk t) (context t) (timer_rtc_timeout t) (flgs t) v.

(** The kernel environment [__kernel_t]. *)
Record mipos_kernel_t := mk_kernel {
  tick_counter : Z; (* unsigned long *)
  idle_state_notify_cbk : Z;
  idle_param : Z;
  rtc_counter : Z; (* unsigned long long *)
  current_task : Z; (* unsigned int *)
  task_context_ptr : nat; (* the entry of task_table it points to *)
  task_count : Z;
  scheduler_registers_state : registers_state_t;
  task_table : list mipos_task_t;
  next_rtc_timeout : Z;
  timer_bitmap : Z; (* unsigned int *)
  timer_table : list mipos_timer_t;
}.

Definition set_tick_counter (v : Z) (k : mipos_kernel_t) : mipos_kernel_t :=
  mk_kernel v (idle_state_notify_cbk k) (idle_param k) (rtc_counter k) (current_task k) (task_context_ptr k) (task_count k) (scheduler_registers_state k) (task_table k) (next_rtc_timeout k) (timer_bitmap k) (timer_table k).
Definition set_idle_state_notify_cbk (v : Z) (k : mipos_kernel_t) : mipos_kernel_t :=
  mk_kernel (tick_counter k) v (idle_param k) (rtc_counter k) (current_task k) (task_context_ptr k) (task_count k) (scheduler_registers_state k) (task_table k) (next_rtc_timeout k) (timer_bitmap k) (timer_table k).
Definition set_idle_param (v : Z) (k : mipos_kernel_t) : mipos_kernel_t :=
  mk_kernel (tick_counter k) (idle_state_notify_cbk k) v (rtc_counter k) (current_task k) (task_context_ptr k) (task_count k) (scheduler_registers_state k) (task_table k) (next_rtc_timeout k) (timer_bitmap k) (timer_table k).
Definition set_rtc_counter (v : Z) (k : mipos_kernel_t) : mipos_kernel_t :=
  mk_kernel (tick_counter k) (idle_state_notify_cbk k) (idle_param k) v (current_task k) (task_context_ptr k) (task_count k) (scheduler_registers_state k) (task_table k) (next_rtc_timeout k) (timer_bitmap k) (timer_table k).
Definition set_current_task (v : Z) (k : mipos_kernel_t) : mipos_kernel_t :=
  mk_kernel (tick_counter k) (idle_state_notify_cbk k) (idle_param k) (rtc_counter k) v (task_context_ptr k) (task_count k) (scheduler_registers_state k) (task_table k) (next_rtc_timeout k) (timer_bitmap k) (timer_table k).
Definition set_task_context_ptr (v : nat) (k : mipos_kernel_t) : mipos_kernel_t :=
  mk_kernel (tick_counter k) (idle_state_notify_cbk k) (idle_param k) (rtc_counter k) (current_task k) v (task_count k) (scheduler_registers_state k) (task_table k) (next_rtc_timeout k) (timer_bitmap k) (timer_table k).
Definition set_task_count (v : Z) (k : mipos_kernel_t) : mipos_kernel_t :=
  mk_kernel (tick_counter k) (idle_state_notify_cbk k) (idle_param k) (rtc_counter k) (current_task k) (task_context_ptr k) v (scheduler_registers_state k) (task_table k) (next_rtc_timeout k) (timer_bitmap k) (timer_table k).
Definition set_scheduler_registers_state (v : registers_state_t) (k : mipos_kernel_t) : mipos_kernel_t :=
  mk_kernel (tick_counter k) (idle_state_notify_cbk k) (idle_param k) (rtc_counter k) (current_task k) (task_context_ptr k) (task_count k) v (task_table k) (next_rtc_timeout k) (timer_bitmap k) (timer_table k).
Definition set_task_table (v : list mipos_task_t) (k : mipos_kernel_t) : mipos_kernel_t :=
  mk_kernel (tick_counter k) (idle_state_notify_cbk k) (idle_param k) (rtc_counter k) (current_task k) (task_context_ptr k) (task_count k) (scheduler_registers_state k) v (next_rtc_timeout k) (timer_bitmap k) (timer_table k).
Definition set_next_rtc_timeout (v : Z) (k : mipos_kernel_t) : mipos_kernel_t :=
  mk_kernel (tick_counter k) (idle_state_notify_cbk k) (idle_param k) (rtc_counter k) (current_task k) (task_context_ptr k) (task_count k) (scheduler_registers_state k) (task_table k) v (timer_bitmap k) (timer_table k).
Definition set_timer_bitmap (v : Z) (k : mipos_kernel_t) : mipos_kernel_t :=
  mk_kernel (tick_counter k) (idle_state_notify_cbk k) (idle_param k) (rtc_counter k) (current_task k) (task_context_ptr k) (task_count k) (scheduler_registers_state k) (task_table k) (next_rtc_timeout k) v (timer_table k).
Definition set_timer_table (v : list mipos_timer_t) (k : mipos_kernel_t) : mipos_kernel_t :=
  mk_kernel (tick_counter k) (idle_state_notify_cbk k) (idle_param k) (rtc_counter k) (current_task k) (task_context_ptr k) (task_count k) (scheduler_registers_state k) (task_table k) (next_rtc_timeout k) (timer_bitmap k) v.

#[global] Instance task_eq_dec : EqDecision mipos_task_t.
Proof. solve_decision. Defined.
#[global] Instance timer_eq_dec : EqDecision mipos_timer_t.
Proof. solve_decision. Defined.
#[global] Instance kernel_eq_dec : EqDecision mipos_kernel_t.
Proof. solve_decision. Defined.

(** [p_task->field = ...] for the descriptor a pointer designates. *)
Definition upd_task (p : nat) (f : mipos_task_t → mipos_task_t) (k : mipos_kernel_t)
    : mipos_kernel_t :=
  set_task_table (alter f p (task_table k)) k.

(** ** Task services (mipos_task.c and the macros of mipos_kernel.h) *)

(** [_mipos_t_create]: initialises a descriptor in place. *)
Definition _mipos_t_create (nm : string) (ep prm flags : Z) (t : mipos_task_t)
    : mipos_task_t :=
  let t := set_task_name nm t in
  let t := set_entry_point ep t in
  let t := set_signal_mask (u8 SIGANY) t in
  let t := set_signal_pending 0 t in
  let t := set_signal_waiting 0 t in
  let t := set_timer_tick_count 0 t in
  let t := set_rtc_timeout 0 t in
  let t := set_status TASK_READY t in
  let t := set_param prm t in
  let t := set_mbz 0 (set_rt_task false (set_wkup false t)) in
  set_rt_task (Z.land flags MIPOS_RT =? MIPOS_RT) t.

(** [mipos_t_create]: the first descriptor from 1 whose entry point is null. *)
Fixpoint t_create_loop (n : nat) (id : nat) (nm : string)
    (ep prm stack size flags : Z) (k : mipos_kernel_t) : Z * mipos_kernel_t :=
  match n with
  | O => (u32 (-1), k)
  | S n =>
      match task_table k !! id with
      | Some t =>
          if entry_point t =? 0 then
            (Z.of_nat id,
             upd_task id (λ t, set_stack_size size (set_task_stack stack
                                 (_mipos_t_create nm ep prm flags t))) k)
          else t_create_loop n (S id) nm ep prm stack size flags k
      | None => (u32 (-1), k)
      end
  end.

Definition mipos_t_create (nm : string) (ep prm stack size flags : Z)
    (k : mipos_kernel_t) : Z * mipos_kernel_t :=
  t_create_loop (Z.to_nat MIPOS_TASKS_TBL_ENTRIES_CNT - 1) 1 nm ep prm stack size flags k.

(** [_mipos_get_p_task]: id 0 is the current task; null out of range. *)
Definition _mipos_get_p_task (id : Z) (k : mipos_kernel_t) : option nat :=
  if id =? 0 then Some (task_context_ptr k)
  else if (0 <? id) && (id <? MIPOS_TASKS_TBL_ENTRIES_CNT) then Some (Z.to_nat id)
  else None.

(** [if (p_task) { ... }] around a descriptor update. *)
Definition with_p_task (id : Z) (f : mipos_task_t → mipos_task_t) (k : mipos_kernel_t)
    : mipos_kernel_t :=
  match _mipos_get_p_task id k with
  | Some p => upd_task p f k
  | None => k
  end.

Definition _mipos_t_delete (t : mipos_task_t) : mipos_task_t :=
  let t := set_entry_point 0 t in
  let t := set_param 0 t in
  let t := set_signal_mask 0 t in
  let t := set_signal_pending 0 t in
  let t := set_signal_waiting 0 t in
  let t := set_status TASK_NOT_RUNNING t in
  let t := set_mbz 0 (set_rt_task false (set_wkup false t)) in
  set_timer_tick_count 0 t.

Definition mipos_t_delete (id : Z) : mipos_kernel_t → mipos_kernel_t :=
  with_p_task id _mipos_t_delete.

Definition mipos_t_get_status (id : Z) (k : mipos_kernel_t) : Z :=
  match _mipos_get_p_task id k with
  | Some p => match task_table k !! p with Some t => status t | None => u16 (-1) end
  | None => u16 (-1)
  end.

Definition mipos_t_notify_signal (id signum : Z) : mipos_kernel_t → mipos_kernel_t :=
  with_p_task id (λ t,
    set_signal_pending (u8 (Z.lor (signal_pending t) (Z.land signum (signal_mask t)))) t).

Definition mipos_t_resume (id : Z) : mipos_kernel_t → mipos_kernel_t :=
  mipos_t_notify_signal id MIPOS_SIGWKP.

Definition mipos_t_freeze (id : Z) : mipos_kernel_t → mipos_kernel_t :=
  with_p_task id (λ t, set_status (u16 (Z.lor (status t) TASK_FROZEN)) t).

Definition mipos_t_unfreeze (id : Z) : mipos_kernel_t → mipos_kernel_t :=
  with_p_task id (λ t, set_status (u16 (Z.land (status t) (Z.lnot TASK_FROZEN))) t).

Definition mipos_t_sig_ignore (id signum : Z) : mipos_kernel_t → mipos_kernel_t :=
  with_p_task id (λ t,
    set_signal_mask (u8 (Z.land (signal_mask t)
      (Z.lnot (Z.land signum (Z.lnot SYS_RESERVED_SIGNALS))))) t).

Definition mipos_t_sig_allow (id signum : Z) : mipos_kernel_t → mipos_kernel_t :=
  with_p_task id (λ t,
    set_signal_mask (u8 (Z.lor (signal_mask t)
      (Z.land signum (Z.lnot SYS_RESERVED_SIGNALS)))) t).

Definition mipos_t_restart (id : Z) : mipos_kernel_t → mipos_kernel_t :=
  with_p_task id (λ t,
    if truth (entry_point t) && (status t =? TASK_ZOMBIE)
    then set_status TASK_READY t else t).

Definition mipos_t_restart_with_param (id new_param : Z)
    : mipos_kernel_t → mipos_kernel_t :=
  with_p_task id (λ t,
    if truth (entry_point t) && (status t =? TASK_ZOMBIE)
    then set_param new_param (set_status TASK_READY t) else t).

(** ** Blocking macros *)

(** [_mipos_t_reset_signal_and_run]: the [then] branch, on the running task. *)
Definition _mipos_t_reset_signal_and_run (signum : Z) (k : mipos_kernel_t)
    : mipos_kernel_t :=
  upd_task (task_context_ptr k) (λ t,
    let t := set_status TASK_RUNNING t in
    let t := set_signal_waiting (Z.land (signal_waiting t) (u8 (Z.lnot signum))) t in
    set_signal_pending (Z.land (signal_pending t) (u8 (Z.lnot signum))) t) k.

Definition _mipos_t_set_wait_for_signal (signum : Z) (k : mipos_kernel_t)
    : mipos_kernel_t :=
  upd_task (task_context_ptr k) (λ t,
    let t := set_signal_waiting (u8 (Z.lor (signal_waiting t) signum)) t in
    if status t &? Z.lor TASK_READY (Z.lor TASK_RUNNING TASK_SUSPENDED)
    then set_status TASK_SUSPENDED t else t) k.

(** What the [else] branches do before the switch to the scheduler; [sp] is
    the value [mipos_get_sp] returns. *)
Definition _mipos_t_suspend (signum sp : Z) (k : mipos_kernel_t) : mipos_kernel_t :=
  let k := upd_task (task_context_ptr k) (set_reg_state (InMacro signum)) k in
  let k := upd_task (task_context_ptr k) (set_process_stack_pointer sp) k in
  _mipos_t_set_wait_for_signal signum k.

Definition mipos_t_suspend (sp : Z) : mipos_kernel_t → mipos_kernel_t :=
  _mipos_t_suspend MIPOS_SIGWKP sp.

Definition mipos_t_waitfor_signal (signum sp : Z) : mipos_kernel_t → mipos_kernel_t :=
  _mipos_t_suspend (Z.land signum (Z.lnot SYS_RESERVED_SIGNALS)) sp.

Definition _mipos_tm_wkafter (signum count sp : Z) (k : mipos_kernel_t)
    : mipos_kernel_t :=
  let k := upd_task (task_context_ptr k) (set_reg_state (InMacro signum)) k in
  let k := upd_task (task_context_ptr k) (set_process_stack_pointer sp) k in
  let k := _mipos_t_set_wait_for_signal signum k in
  upd_task (task_context_ptr k) (set_timer_tick_count (s32 (u32 count))) k.

Definition mipos_tm_wkafter (count sp : Z) : mipos_kernel_t → mipos_kernel_t :=
  _mipos_tm_wkafter MIPOS_SIGALM count sp.

Definition _mipos_tm_rtc_quantum_sleep (signum count sp : Z) (k : mipos_kernel_t)
    : mipos_kernel_t :=
  let k := upd_task (task_context_ptr k) (set_reg_state (InMacro signum)) k in
  let k := _mipos_t_set_wait_for_signal signum k in
  let k := upd_task (task_context_ptr k)
             (set_rtc_timeout (u64 (rtc_counter k + u32 count))) k in
  upd_task (task_context_ptr k) (set_process_stack_pointer sp) k.

Definition mipos_tm_msleep (count sp : Z) : mipos_kernel_t → mipos_kernel_t :=
  _mipos_tm_rtc_quantum_sleep MIPOS_SIGTMR count sp.

(** ** Kernel services (mipos_kernel.c) *)

Definition mipos_update_rtc (quantum : Z) (k : mipos_kernel_t) : mipos_kernel_t :=
  set_rtc_counter (u64 (rtc_counter k + u32 quantum)) k.

Definition mipos_get_rtc_counter (k : mipos_kernel_t) : Z := rtc_counter k.

Definition mipos_set_idle_cbk (cbk prm : Z) (k : mipos_kernel_t) : mipos_kernel_t :=
  set_idle_param prm (set_idle_state_notify_cbk cbk k).

(** The address of [idle_task]; a user entry point is any other value. *)
Definition idle_task_addr : Z := 1.

(** [scheduler_init]: the idle descriptor, then the deleted ones, then the
    timer table. *)
Definition init_timer (t : mipos_timer_t) : mipos_timer_t :=
  let t := set_handler_on_expire_cbk 0 t in
  let t := set_handler_on_cancel_cbk 0 t in
  let t := set_context 0 t in
  let t := set_timer_rtc_timeout 0 t in
  set_flgs 0 t.

Definition scheduler_init (k : mipos_kernel_t) : mipos_kernel_t :=
  let k := set_task_count 1 k in
  let k := set_current_task KERNEL__IDLE_TASK_ID k in
  let k := set_tick_counter 0 k in
  let k := set_rtc_counter 0 k in
  let k := set_task_context_ptr (Z.to_nat KERNEL__IDLE_TASK_ID) k in
  let k := upd_task (task_context_ptr k)
             (_mipos_t_create "idle" idle_task_addr 0 MIPOS_NO_RT) k in
  let k := upd_task (task_context_ptr k)
             (λ t, set_signal_mask 0 (set_status TASK_READY t)) k in
  let k := set_idle_param 0 (set_idle_state_notify_cbk 0 k) in
  let k := foldl (λ k id, upd_task id _mipos_t_delete k) k
             (seq 1 (Z.to_nat MIPOS_TASKS_TBL_ENTRIES_CNT - 1)) in
  let k := set_next_rtc_timeout 0 (set_timer_bitmap 0 k) in
  set_timer_table (init_timer <$> timer_table k) k.
