(* ===== verification/Timer.v ===== *)
(** * Software timers

    src/mipos/mipos_timer.c: the services on [timer_table], [timer_bitmap]
    and [next_rtc_timeout] of the kernel environment.  The scheduler's side
    (firing the expired ones) is in Scheduler. *)

From S2P Require Import Prelude Kernel.

Definition tmask (id : nat) : Z := Z.shiftl 1 (Z.of_nat id).

Definition upd_timer (id : nat) (f : mipos_timer_t → mipos_timer_t) (k : mipos_kernel_t)
    : mipos_kernel_t :=
  set_timer_table (alter f id (timer_table k)) k.

(** A timer is active while its bit of the bitmap is set. *)
Definition timer_active (id : nat) (k : mipos_kernel_t) : bool :=
  timer_bitmap k &? tmask id.

(** [timer_bitmap &= ~tmask] *)
Definition clear_active (id : nat) (k : mipos_kernel_t) : mipos_kernel_t :=
  set_timer_bitmap (u32 (Z.land (timer_bitmap k) (Z.lnot (tmask id)))) k.

(** [mipos_timer_start]: the search of a free descriptor ... *)
Fixpoint timer_find_free (n : nat) (id : nat) (k : mipos_kernel_t) : option nat :=
  match n with
  | O => None
  | S n =>
      match timer_table k !! id with
      | Some t => if handler_on_expire_cbk t =? 0 then Some id
                  else timer_find_free n (S id) k
      | None => None
      end
  end.

(** ... the activation inside the critical section ... *)
Definition timer_activate (id : nat) (intvl : Z) (k : mipos_kernel_t) : mipos_kernel_t :=
  let k := set_timer_bitmap (u32 (Z.lor (timer_bitmap k) (tmask id))) k in
  let timeout := u64 (mipos_get_rtc_counter k + intvl) in
  let k := upd_timer id (set_timer_rtc_timeout timeout) k in
  if (next_rtc_timeout k =? 0) || (timeout <? next_rtc_timeout k)
  then set_next_rtc_timeout timeout k else k.

(** ... and the whole service. *)
Definition mipos_timer_start (on_expire on_cancel intvl ctx periodic : Z)
    (k : mipos_kernel_t) : Z * mipos_kernel_t :=
  if on_expire =? 0 then (-1, k) else
  match timer_find_free (Z.to_nat MIPOS_MAX_TIMERS_NO) 0 k with
  | None => (-1, k)
  | Some id =>
      (Z.of_nat id,
       upd_timer id (λ t,
         let t := set_flgs (if truth periodic then TIMER_FLG_PERIODIC else 0) t in
         let t := set_handler_on_expire_cbk on_expire t in
         let t := set_handler_on_cancel_cbk on_cancel t in
         let t := set_context ctx t in
         set_interval intvl t) (timer_activate id intvl k))
  end.

Definition mipos_timer_cancel (id : Z) (k : mipos_kernel_t) : Z * mipos_kernel_t :=
  if (id <? 0) || (MIPOS_MAX_TIMERS_NO <=? id) then (-1, k) else
  let id := Z.to_nat id in
  if timer_active id k then
    (0, set_next_rtc_timeout 0
          (upd_timer id (λ t, set_flgs (Z.lor (flgs t) TIMER_FLG_CANCELLED) t) k))
  else (-1, k).

Definition mipos_timer_delete (id : Z) (k : mipos_kernel_t) : Z * mipos_kernel_t :=
  if (id <? 0) || (MIPOS_MAX_TIMERS_NO <=? id) then (-1, k) else
  let id := Z.to_nat id in
  (0, clear_active id (upd_timer id init_timer k)).

(** [mipos_timer_restart] checks only the lower bound of the identifier. *)
Definition mipos_timer_restart (id new_interval : Z) (k : mipos_kernel_t)
    : res (Z * mipos_kernel_t) :=
  if id <? 0 then Ok (-1, k) else
  let id := Z.to_nat id in
  t ← of_lookup (timer_table k !! id);
  if negb (flgs t &? TIMER_FLG_PERIODIC) && (flgs t &? TIMER_FLG_EXPIRED) then
    let t := set_flgs (Z.land (flgs t) (u64 (Z.lnot TIMER_FLG_EXPIRED))) t in
    let t := set_timer_rtc_timeout (mipos_get_rtc_counter k) t in
    let t := if 0 <? new_interval then set_interval new_interval t else t in
    let t := set_timer_rtc_timeout (u64 (timer_rtc_timeout t + interval t)) t in
    Ok (0, upd_timer id (λ _, t) k)
  else Ok (-1, k).
