(* ===== verification/Scheduler.v ===== *)
(** * The scheduler

    [mipos_start] of src/mipos/mipos_kernel.c after its initialisation: one
    turn of the [scheduler:] loop is [epoch], made of the software timer pass
    (lines 176-250), the search of the next task (252-301), the idle branch
    (303-318), the task state machine (320-395) and the dispatcher (397-466).

    Code that the kernel calls back (timer handlers, RT tasks, the idle hook)
    is user code: [code fn arg k] is what it returns and the kernel services
    it calls, in order, when called in state [k]. *)

From S2P Require Import Prelude Kernel Timer.

(** ** Services user code may call without blocking *)

Inductive api_call :=
  | ACreate (nm : string) (ep prm stack size flags : Z)
  | ADelete (id : Z)
  | ANotify (id signum : Z)
  | AFreeze (id : Z)
  | AUnfreeze (id : Z)
  | ASigIgnore (id signum : Z)
  | ASigAllow (id signum : Z)
  | ARestart (id : Z)
  | ARestartParam (id prm : Z)
  | ASetIdle (cbk prm : Z)
  | ATimerStart (on_expire on_cancel intvl ctx periodic : Z)
  | ATimerCancel (id : Z)
  | ATimerDelete (id : Z)
  | ATimerRestart (id new_interval : Z)
  | AUpdateRtc (quantum : Z).

Definition exec_api (c : api_call) (k : mipos_kernel_t) : res mipos_kernel_t :=
  match c with
  | ACreate nm ep prm stack size flags =>
      Ok (snd (mipos_t_create nm ep prm stack size flags k))
  | ADelete id => Ok (mipos_t_delete id k)
  | ANotify id s => Ok (mipos_t_notify_signal id s k)
  | AFreeze id => Ok (mipos_t_freeze id k)
  | AUnfreeze id => Ok (mipos_t_unfreeze id k)
  | ASigIgnore id s => Ok (mipos_t_sig_ignore id s k)
  | ASigAllow id s => Ok (mipos_t_sig_allow id s k)
  | ARestart id => Ok (mipos_t_restart id k)
  | ARestartParam id p => Ok (mipos_t_restart_with_param id p k)
  | ASetIdle cbk p => Ok (mipos_set_idle_cbk cbk p k)
  | ATimerStart e c i x p => Ok (snd (mipos_timer_start e c i x p k))
  | ATimerCancel id => Ok (snd (mipos_timer_cancel id k))
  | ATimerDelete id => Ok (snd (mipos_timer_delete id k))
  | ATimerRestart id i => snd <$> mipos_timer_restart id i k
  | AUpdateRtc q => Ok (mipos_update_rtc q k)
  end.

Fixpoint run_calls (cs : list api_call) (k : mipos_kernel_t) : res mipos_kernel_t :=
  match cs with
  | [] => Ok k
  | c :: cs => k ← exec_api c k; run_calls cs k
  end.

(** The kernel and the calls it made to user code so far. *)
Record sched := mk_sched { kern : mipos_kernel_t; log : list (Z * Z) }.

Definition on_kern (f : mipos_kernel_t → mipos_kernel_t) (s : sched) : sched :=
  mk_sched (f (kern s)) (log s).

Section scheduler.
Context (code : Z → Z → mipos_kernel_t → Z * list api_call).

(** [MIPOS_CALL1(fn, arg)] *)
Definition call1 (fn arg : Z) (s : sched) : res (Z * sched) :=
  if fn =? 0 then Fault NullDeref else
  let '(ret, cs) := code fn arg (kern s) in
  k ← run_calls cs (kern s);
  Ok (ret, mk_sched k (log s ++ [(fn, arg)])).

(** ** Software timers *)

(** The body of the first [for] loop. *)
Definition timer_visit (id : nat) (s : sched) : res sched :=
  if negb (timer_active id (kern s)) then Ok s else
  t ← of_lookup (timer_table (kern s) !! id);
  if flgs t &? TIMER_FLG_CANCELLED then
    let s := on_kern (clear_active id) s in
    if truth (handler_on_cancel_cbk t)
    then snd <$> call1 (handler_on_cancel_cbk t) (context t) s
    else Ok s
  else if timer_rtc_timeout t <=? rtc_counter (kern s) then
    let s := on_kern (set_next_rtc_timeout 0) s in
    let s := on_kern (upd_timer id (λ t, set_flgs (Z.lor (flgs t) TIMER_FLG_EXPIRED) t)) s in
    s ← snd <$> call1 (handler_on_expire_cbk t) (context t) s;
    t ← of_lookup (timer_table (kern s) !! id);
    if negb (flgs t &? TIMER_FLG_PERIODIC) then Ok (on_kern (clear_active id) s)
    else Ok (on_kern (upd_timer id (λ t,
           let t := set_flgs (Z.land (flgs t) (u64 (Z.lnot TIMER_FLG_EXPIRED))) t in
           set_timer_rtc_timeout (u64 (rtc_counter (kern s) + interval t)) t)) s)
  else Ok s.

Fixpoint timer_loop (ids : list nat) (s : sched) : res sched :=
  match ids with
  | [] => Ok s
  | id :: ids => s ← timer_visit id s; timer_loop ids s
  end.

(** The body of the second [for] loop. *)
Definition select_visit (id : nat) (k : mipos_kernel_t) : mipos_kernel_t :=
  match timer_table k !! id with
  | Some t =>
      if timer_active id k &&
         ((next_rtc_timeout k =? 0) || (timer_rtc_timeout t <? next_rtc_timeout k))
      then set_next_rtc_timeout (timer_rtc_timeout t) k else k
  | None => k
  end.

Definition timer_ids : list nat := seq 0 (Z.to_nat MIPOS_MAX_TIMERS_NO).

Definition select_next (k : mipos_kernel_t) : mipos_kernel_t :=
  foldl (λ k id, select_visit id k) k timer_ids.

Definition soft_timers (s : sched) : res sched :=
  if truth (timer_bitmap (kern s)) &&
     ((next_rtc_timeout (kern s) =? 0) ||
      (next_rtc_timeout (kern s) <=? rtc_counter (kern s)))
  then s ← timer_loop timer_ids s; Ok (on_kern select_next s)
  else Ok s.

(** ** The search of the next task *)

Definition TASK_INVALID : Z := Z.lor TASK_NOT_RUNNING (Z.lor TASK_ZOMBIE TASK_FROZEN).

(** The real-time branch (lines 265-283): the task runs to completion, and
    a non-zero result is the identifier of a task to make ready and visit. *)
Definition rt_handling (p : nat) (t : mipos_task_t) (s : sched) : res (nat * sched) :=
  if rt_task t then
    '(ret, s) ← call1 (entry_point t) (param t) s;
    let s := on_kern (upd_task p (set_task_ret_value ret)) s in
    if truth ret then
      let s := on_kern (set_current_task (u32 ret)) s in
      let p := Z.to_nat (current_task (kern s)) in
      _ ← of_lookup (task_table (kern s) !! p);
      Ok (p, on_kern (upd_task p (λ t, set_status TASK_READY (set_wkup true t))) s)
    else Ok (p, s)
  else Ok (p, s).

(** One iteration of the [do ... while (task_search_cond)] loop: the
    condition, [p_task] and the new state. *)
Definition search_step (count : Z) (s : sched) : res (bool * nat * sched) :=
  let s := on_kern (λ k, set_current_task
             (u32 (current_task k + 1) `mod` MIPOS_TASKS_TBL_ENTRIES_CNT) k) s in
  let p := Z.to_nat (current_task (kern s)) in
  t ← of_lookup (task_table (kern s) !! p);
  '(p, s) ← rt_handling p t s;
  t ← of_lookup (task_table (kern s) !! p);
  Ok ((entry_point t =? 0) || rt_task t || (status t &? TASK_INVALID) ||
      ((count <=? MIPOS_TASKS_TBL_ENTRIES_CNT) &&
       (current_task (kern s) =? KERNEL__IDLE_TASK_ID)), p, s).

Fixpoint search_loop (fuel : nat) (count : Z) (s : sched) : res (nat * sched) :=
  match fuel with
  | O => Fault OutOfFuel
  | S fuel =>
      let count := count + 1 in
      '(again, p, s) ← search_step count s;
      if (again : bool) then search_loop fuel count s else Ok (p, s)
  end.

(** Two sweeps of the table are enough, see [search_loop_total]. *)
Definition task_search (s : sched) : res (nat * sched) :=
  search_loop (Z.to_nat (2 * MIPOS_TASKS_TBL_ENTRIES_CNT)) 0 s.

(** ** The task state machine *)

(** What [epoch] decides: another turn, resume the task where it suspended
    itself, start it on its own stack from [top], or halt in the panic
    loop. *)
Inductive decision :=
  | ToScheduler
  | ToResume (p : nat)
  | ToStart (p : nat) (top : Z)
  | ToPanic.

(** The [TASK_SUSPENDED] case. *)
Definition tsm_suspended (rtc : Z) (t : mipos_task_t) : mipos_task_t :=
  let t :=
    if signal_waiting t &? MIPOS_SIGALM then
      if 0 <? timer_tick_count t then set_timer_tick_count (timer_tick_count t - 1) t
      else set_signal_pending (u8 (Z.lor (signal_pending t) MIPOS_SIGALM)) t
    else t in
  let t :=
    if signal_waiting t &? MIPOS_SIGTMR then
      if truth (rtc_timeout t) && (rtc_timeout t <=? rtc) then
        set_rtc_timeout 0
          (set_signal_pending (u8 (Z.lor (signal_pending t) MIPOS_SIGTMR)) t)
      else t
    else t in
  if signal_pending t &? signal_waiting t then
    let t := set_wkup true t in
    let t := set_status TASK_READY t in
    set_signal_pending
      (u8 (Z.land (signal_pending t)
             (Z.lnot (Z.land (signal_pending t) (signal_waiting t))))) t
  else t.

(** The address the first stack frame starts at (MIPOS64). *)
Definition sizeof_ptr : Z := 8.

Definition top_of_the_stack (stack size : Z) : Z :=
  Z.land (u64 (stack + size - sizeof_ptr)) (u64 (Z.lnot 0xF)).

(** The [dispatcher:] branch up to the switch to the task; [sp] is the
    stack pointer saved in [kernel_stack_pointer] by the switch. *)
Definition dispatcher (sp : Z) (p : nat) (t : mipos_task_t) (k : mipos_kernel_t)
    : decision * mipos_kernel_t :=
  let k := set_scheduler_registers_state InScheduler k in
  if wkup t then (ToResume p, upd_task p (set_wkup false) k)
  else (ToStart p (top_of_the_stack (task_stack t) (stack_size t)),
        upd_task p (set_kernel_stack_pointer sp) k).

(** Lines 320-395 for a task that is not the idle one. *)
Definition tsm (sp : Z) (p : nat) (k : mipos_kernel_t)
    : res (decision * mipos_kernel_t) :=
  let k := set_tick_counter (u64 (tick_counter k + 1)) k in
  let k := set_task_context_ptr p k in
  t ← of_lookup (task_table k !! p);
  if status t =? TASK_RUNNING then
    Ok (ToScheduler, upd_task p (set_status TASK_ZOMBIE) k)
  else if status t =? TASK_SUSPENDED then
    Ok (ToScheduler, upd_task p (tsm_suspended (rtc_counter k)) k)
  else if status t =? TASK_READY then
    let k := upd_task p (set_status TASK_RUNNING) k in
    Ok (dispatcher sp p t k)
  else Ok (ToPanic, k).

(** [idle_task(param)] *)
Definition idle_task (prm : Z) (s : sched) : res sched :=
  if truth (idle_state_notify_cbk (kern s))
  then snd <$> call1 (idle_state_notify_cbk (kern s)) prm s
  else Ok s.

(** [p_task->entry_point(mipos_kernel_env.idle_param)] *)
Definition run_idle (p : nat) (s : sched) : res sched :=
  t ← of_lookup (task_table (kern s) !! p);
  if entry_point t =? idle_task_addr then idle_task (idle_param (kern s)) s
  else snd <$> call1 (entry_point t) (idle_param (kern s)) s.

(** One turn of the scheduler; [quantum] is what the BSP adds to the RTC in
    [mipos_bsp_notify_scheduler_epoch]. *)
Definition epoch (quantum sp : Z) (s : sched) : res (decision * sched) :=
  let s := on_kern (mipos_update_rtc quantum) s in
  s ← soft_timers s;
  '(p, s) ← task_search s;
  if current_task (kern s) =? KERNEL__IDLE_TASK_ID then
    s ← run_idle p s; Ok (ToScheduler, s)
  else
    '(d, k) ← tsm sp p (kern s); Ok (d, mk_sched k (log s)).
End scheduler.
