(* ===== verification/KernelInv.v ===== *)
(** * The kernel invariant

    What every kernel service and every turn of the scheduler preserves, and
    that a turn from a state satisfying it returns, without a fault and
    without reaching the panic branch. *)

From S2P Require Import Prelude Kernel Timer Scheduler.

(** ** The invariant *)

(** The statuses the kernel ever stores: one state, frozen or not. *)
Definition base_statuses : list Z :=
  [TASK_NOT_RUNNING; TASK_READY; TASK_RUNNING; TASK_SUSPENDED; TASK_ZOMBIE].
Definition valid_statuses : list Z :=
  base_statuses ++ (Z.lor TASK_FROZEN <$> base_statuses).

Lemma valid_status v : bool_decide (v ∈ valid_statuses) = true → v ∈ valid_statuses.
Proof. apply bool_decide_eq_true_1. Qed.

Definition is_suspended (t : mipos_task_t) : bool := status t &? TASK_SUSPENDED.

Record task_wf (t : mipos_task_t) : Prop := {
  tw_status : status t ∈ valid_statuses;
  tw_entry : entry_point t = 0 → (status t &? TASK_NOT_RUNNING) = true;
  tw_rt : rt_task t = true → entry_point t ≠ 0;
  tw_wkup : wkup t = true → ∃ s, reg_state t = InMacro s;
  tw_susp : is_suspended t = true → ∃ s, reg_state t = InMacro s;
}.

Definition idle_ok (t : mipos_task_t) : Prop :=
  entry_point t = idle_task_addr ∧ status t = TASK_READY ∧ rt_task t = false.

Record kernel_wf (k : mipos_kernel_t) : Prop := {
  kw_len : length (task_table k) = Z.to_nat MIPOS_TASKS_TBL_ENTRIES_CNT;
  kw_tasks : Forall task_wf (task_table k);
  kw_idle : ∃ t, task_table k !! 0%nat = Some t ∧ idle_ok t;
  kw_cur : 0 ≤ current_task k < MIPOS_TASKS_TBL_ENTRIES_CNT;
  kw_ctx : (task_context_ptr k < Z.to_nat MIPOS_TASKS_TBL_ENTRIES_CNT)%nat;
  kw_timers : length (timer_table k) = Z.to_nat MIPOS_MAX_TIMERS_NO;
  kw_handlers : ∀ id t, timer_table k !! id = Some t →
    timer_active id k = true → handler_on_expire_cbk t ≠ 0;
  kw_boot : task_context_ptr k = 0%nat →
    timer_bitmap k = 0 ∧ idle_state_notify_cbk k = 0 ∧
    Forall (λ t, rt_task t = false) (task_table k);
}.

(** ** Descriptor updates *)

(** An update that keeps every descriptor well formed and never turns a task
    into a real-time one keeps the kernel invariant, off the idle entry. *)
Lemma wf_upd_task p f k :
  kernel_wf k →
  (∀ t, task_table k !! p = Some t → task_wf t → task_wf (f t)) →
  (p = 0%nat → ∀ t, idle_ok t → idle_ok (f t)) →
  (task_context_ptr k = 0%nat → ∀ t, rt_task t = false → rt_task (f t) = false) →
  kernel_wf (upd_task p f k).
Proof.
  intros [Hlen Ht (ti & Hti & Hi) Hc Hx Htl Hh Hb] Hf Hidle Hrt.
  constructor; simpl; try done.
  - by rewrite length_alter.
  - by apply Forall_alter_at.
  - rewrite list_lookup_alter. case_decide; subst; rewrite Hti; simpl; eexists; (split; [reflexivity|eauto]).
  - intros H0. destruct (Hb H0) as (? & ? & Hall). split_and!; [done..|].
    apply Forall_alter_at; eauto.
Qed.

Lemma p_task_nonzero id k p :
  task_context_ptr k ≠ 0%nat → _mipos_get_p_task id k = Some p → p ≠ 0%nat.
Proof.
  unfold _mipos_get_p_task. intros Hx. repeat case_if; intros [= <-]; bool_to_prop; lia.
Qed.

Lemma wf_with_p_task id f k :
  kernel_wf k → task_context_ptr k ≠ 0%nat →
  (∀ t, task_wf t → task_wf (f t)) →
  kernel_wf (with_p_task id f k).
Proof.
  intros Hk Hx Hf. unfold with_p_task.
  destruct (_mipos_get_p_task id k) as [p|] eqn:Hp; [|done].
  apply p_task_nonzero in Hp; [|done].
  apply wf_upd_task; [done|eauto|done|done].
Qed.

(** Evaluates a goal on the finitely many valid statuses. *)
Ltac by_status H := unfold valid_statuses, base_statuses in H; simpl in H;
  repeat match type of H with
  | _ ∈ _ :: _ => apply elem_of_cons in H; destruct H as [H|H]
  | _ ∈ [] => apply not_elem_of_nil in H; destruct H
  end.

Ltac status_cases := match goal with
  | H : status ?t ∈ valid_statuses |- _ =>
      let s := fresh "s" in remember (status t) as s; by_status H; subst s
  end.

(** Opens a descriptor and its well-formedness. *)
Ltac task_solve := match goal with
  | |- task_wf ?t → _ =>
      intros [Hs He Hr Hw Hu]; destruct t; simpl in *; unfold is_suspended in *;
      simpl in *
  end.

Lemma task_wf_delete t : task_wf t → task_wf (_mipos_t_delete t).
Proof. task_solve. constructor; simpl; try done. by apply valid_status. Qed.

Lemma task_wf_pending v t : task_wf t → task_wf (set_signal_pending v t).
Proof. task_solve. by constructor. Qed.

Lemma task_wf_mask v t : task_wf t → task_wf (set_signal_mask v t).
Proof. task_solve. by constructor. Qed.

Lemma task_wf_status v t :
  task_wf t → v ∈ valid_statuses →
  (entry_point t = 0 → (v &? TASK_NOT_RUNNING) = true) →
  ((v &? TASK_SUSPENDED) = true → ∃ s, reg_state t = InMacro s) →
  task_wf (set_status v t).
Proof. task_solve. intros. by constructor. Qed.

(** Freezing and unfreezing only toggle the frozen bit. *)
Lemma freeze_status s : s ∈ valid_statuses →
  u16 (Z.lor s TASK_FROZEN) ∈ valid_statuses ∧
  (u16 (Z.lor s TASK_FROZEN) &? TASK_NOT_RUNNING) = (s &? TASK_NOT_RUNNING) ∧
  (u16 (Z.lor s TASK_FROZEN) &? TASK_SUSPENDED) = (s &? TASK_SUSPENDED).
Proof.
  intros Hs. by_status Hs; subst; (split; [|done]);
    apply valid_status; vm_compute; reflexivity.
Qed.

Lemma unfreeze_status s : s ∈ valid_statuses →
  u16 (Z.land s (Z.lnot TASK_FROZEN)) ∈ valid_statuses ∧
  (u16 (Z.land s (Z.lnot TASK_FROZEN)) &? TASK_NOT_RUNNING) = (s &? TASK_NOT_RUNNING) ∧
  (u16 (Z.land s (Z.lnot TASK_FROZEN)) &? TASK_SUSPENDED) = (s &? TASK_SUSPENDED).
Proof.
  intros Hs. by_status Hs; subst; (split; [|done]);
    apply valid_status; vm_compute; reflexivity.
Qed.

Lemma task_wf_freeze t :
  task_wf t → task_wf (set_status (u16 (Z.lor (status t) TASK_FROZEN)) t).
Proof.
  intros Ht. destruct (freeze_status _ (tw_status _ Ht)) as (? & He & Hs).
  apply task_wf_status; [done..|rewrite He; apply Ht|rewrite Hs; apply Ht].
Qed.

Lemma task_wf_unfreeze t :
  task_wf t → task_wf (set_status (u16 (Z.land (status t) (Z.lnot TASK_FROZEN))) t).
Proof.
  intros Ht. destruct (unfreeze_status _ (tw_status _ Ht)) as (? & He & Hs).
  apply task_wf_status; [done..|rewrite He; apply Ht|rewrite Hs; apply Ht].
Qed.

Lemma task_wf_ready t :
  task_wf t → entry_point t ≠ 0 → task_wf (set_status TASK_READY t).
Proof. intros Ht ?. apply task_wf_status; [done|by apply valid_status|done|done]. Qed.

Lemma task_wf_restart t :
  task_wf t →
  task_wf (if truth (entry_point t) && (status t =? TASK_ZOMBIE)
           then set_status TASK_READY t else t).
Proof. intros Ht. case_if; [|done]. bool_to_prop. by apply task_wf_ready. Qed.

Lemma task_wf_restart_param v t :
  task_wf t →
  task_wf (if truth (entry_point t) && (status t =? TASK_ZOMBIE)
           then set_param v (set_status TASK_READY t) else t).
Proof.
  intros Ht. case_if; [|done]. bool_to_prop.
  destruct (task_wf_ready t Ht) as []; [done|]. by constructor.
Qed.

Lemma task_wf_create nm ep prm flags stack size t :
  ep ≠ 0 → task_wf t →
  task_wf (set_stack_size size (set_task_stack stack (_mipos_t_create nm ep prm flags t))).
Proof. intros ?. task_solve. constructor; simpl; try done. by apply valid_status. Qed.

#[export] Hint Resolve task_wf_delete task_wf_pending task_wf_mask task_wf_freeze
  task_wf_unfreeze task_wf_restart task_wf_restart_param : mipos.

(** ** Task services *)

Lemma t_create_loop_wf n id nm ep prm stack size flags k :
  kernel_wf k →
  (task_context_ptr k ≠ 0%nat ∨ Z.land flags MIPOS_RT ≠ MIPOS_RT) → ep ≠ 0 → id ≠ 0%nat →
  kernel_wf (snd (t_create_loop n id nm ep prm stack size flags k)).
Proof.
  revert id. induction n as [|n IH]; intros id Hk Hx Hep Hid; simpl; [done|].
  destruct (task_table k !! id); [|done]. case_if; simpl; [|by apply IH].
  apply wf_upd_task; [done|intros; by apply task_wf_create|done|].
  intros Hz u Hu. simpl. destruct Hx as [?|Hx]; [done|]. by apply Z.eqb_neq.
Qed.

Lemma t_create_loop_ctx n id nm ep prm stack size flags k :
  task_context_ptr (snd (t_create_loop n id nm ep prm stack size flags k))
  = task_context_ptr k ∧
  current_task (snd (t_create_loop n id nm ep prm stack size flags k)) = current_task k.
Proof.
  revert id. induction n as [|n IH]; intros id; simpl; [done|].
  destruct (task_table k !! id); [|done]. case_if; simpl; [done|apply IH].
Qed.

(** ** Timer services *)

Lemma timer_active_bit id k : timer_active id k = Z.testbit (timer_bitmap k) (Z.of_nat id).
Proof. apply anybit_shiftl. lia. Qed.

Lemma tmask_bit id j :
  Z.testbit (tmask id) (Z.of_nat j) = bool_decide (id = j).
Proof.
  unfold tmask. rewrite Z.shiftl_1_l.
  case_bool_decide; subst; [by apply Z.pow2_bits_true; lia|].
  apply Z.pow2_bits_false. lia.
Qed.

Lemma clear_active_bit id j k :
  timer_active j (clear_active id k) = true → timer_active j k = true ∧ id ≠ j.
Proof.
  rewrite !timer_active_bit. simpl. rewrite wrap_spec by lia.
  rewrite Z.land_spec, Z.lnot_spec, tmask_bit by lia.
  rewrite !andb_true_iff, negb_true_iff, bool_decide_eq_false. tauto.
Qed.

Lemma lor_tmask_bit id j k :
  timer_active j (set_timer_bitmap (u32 (Z.lor (timer_bitmap k) (tmask id))) k) = true →
  timer_active j k = true ∨ id = j.
Proof.
  rewrite !timer_active_bit. simpl. rewrite wrap_spec by lia.
  rewrite Z.lor_spec, tmask_bit, andb_true_iff, orb_true_iff, bool_decide_eq_true. tauto.
Qed.

(** A change confined to the timers keeps the invariant when every active
    timer still has its handler. *)
Lemma wf_timers k k' :
  kernel_wf k → task_context_ptr k ≠ 0%nat →
  task_table k' = task_table k → current_task k' = current_task k →
  task_context_ptr k' = task_context_ptr k →
  length (timer_table k') = Z.to_nat MIPOS_MAX_TIMERS_NO →
  (∀ id t, timer_table k' !! id = Some t → timer_active id k' = true →
           handler_on_expire_cbk t ≠ 0) →
  kernel_wf k'.
Proof.
  intros [Hlen Ht Hi Hc Hx Htl Hh Hb] Hx0 Et Ec Ex Hl Hh'.
  constructor; rewrite ?Et, ?Ec, ?Ex; try done.
Qed.

Lemma timer_activate_proj id i k :
  let k' := timer_activate id i k in
  task_table k' = task_table k ∧ current_task k' = current_task k ∧
  task_context_ptr k' = task_context_ptr k ∧
  timer_bitmap k' = u32 (Z.lor (timer_bitmap k) (tmask id)) ∧
  timer_table k' = alter (set_timer_rtc_timeout (u64 (rtc_counter k + i))) id (timer_table k).
Proof. unfold timer_activate. simpl. by case_if. Qed.

Lemma timer_start_wf e c i x p k :
  kernel_wf k → task_context_ptr k ≠ 0%nat → kernel_wf (snd (mipos_timer_start e c i x p k)).
Proof.
  intros Hk Hx. unfold mipos_timer_start. case_if; [done|]. bool_to_prop.
  destruct (timer_find_free _ _ _) as [id|]; [|done].
  destruct (timer_activate_proj id i k) as (Et & Ec & Ex & Eb & Ett).
  apply (wf_timers k); simpl; rewrite ?Et, ?Ec, ?Ex; try done.
  - rewrite Ett, !length_alter. apply Hk.
  - rewrite Ett. intros j t Hj Ha.
    apply alter_lookup_Some in Hj as [(<- & y & Hy & ->)|[Hne Hj]]; [done|].
    rewrite list_lookup_alter_ne in Hj by done.
    unfold timer_active in Ha. simpl in Ha. rewrite Eb in Ha.
    apply (lor_tmask_bit id j k) in Ha as [Ha| ->]; [|done]. eapply kw_handlers; eauto.
Qed.

Lemma timer_cancel_wf id k :
  kernel_wf k → task_context_ptr k ≠ 0%nat → kernel_wf (snd (mipos_timer_cancel id k)).
Proof.
  intros Hk Hx. unfold mipos_timer_cancel. repeat case_if; try done. simpl.
  apply (wf_timers k); simpl; try done; [rewrite length_alter; apply Hk|].
  intros j t Hj Ha.
  apply alter_lookup_Some in Hj as [(<- & y & Hy & ->)|[Hne Hj]]; simpl;
    eapply kw_handlers; eauto.
Qed.

Lemma clear_active_wf id f k :
  kernel_wf k → task_context_ptr k ≠ 0%nat →
  kernel_wf (clear_active id (upd_timer id f k)).
Proof.
  intros Hk Hx.
  apply (wf_timers k); simpl; try done; [rewrite length_alter; apply Hk|].
  intros j t Hj Ha. apply (clear_active_bit _ _ (upd_timer id f k)) in Ha as [Ha Hne].
  rewrite list_lookup_alter_ne in Hj by done. eapply kw_handlers; eauto.
Qed.

Lemma timer_delete_wf id k :
  kernel_wf k → task_context_ptr k ≠ 0%nat → kernel_wf (snd (mipos_timer_delete id k)).
Proof.
  intros Hk Hx. unfold mipos_timer_delete. case_if; [done|]. by apply clear_active_wf.
Qed.

Lemma upd_timer_wf id f k :
  kernel_wf k → task_context_ptr k ≠ 0%nat →
  (∀ t, timer_table k !! id = Some t → handler_on_expire_cbk t ≠ 0 →
        handler_on_expire_cbk (f t) ≠ 0) →
  kernel_wf (upd_timer id f k).
Proof.
  intros Hk Hx Hf.
  apply (wf_timers k); simpl; try done; [rewrite length_alter; apply Hk|].
  intros j t Hj Ha.
  apply alter_lookup_Some in Hj as [(<- & y & Hy & ->)|[Hne Hj]];
    [apply Hf; [done|]|]; eapply kw_handlers; eauto.
Qed.

Lemma timer_restart_wf id i k :
  kernel_wf k → task_context_ptr k ≠ 0%nat → id < MIPOS_MAX_TIMERS_NO →
  ∃ r k', mipos_timer_restart id i k = Ok (r, k') ∧ kernel_wf k' ∧
          task_context_ptr k' = task_context_ptr k ∧ current_task k' = current_task k.
Proof.
  intros Hk Hx Hid. unfold mipos_timer_restart. case_if; [by eexists _, _|]. bool_to_prop.
  destruct (timer_table k !! Z.to_nat id) as [t|] eqn:Ht; simpl.
  - case_if; [|by eexists _, _]. do 2 eexists. split; [reflexivity|]. split; [|done].
    apply upd_timer_wf; [done..|]. intros t' Ht'. case_if; simpl; congruence.
  - apply lookup_ge_None in Ht. rewrite kw_timers in Ht by done.
    unfold MIPOS_MAX_TIMERS_NO in *. lia.
Qed.

(** ** Every service *)

(** What the documentation asks of the caller: an entry point is not null, a
    timer identifier passed to [mipos_timer_restart] is one of the table. *)
Definition api_ok (c : api_call) : Prop :=
  match c with
  | ACreate _ ep _ _ _ _ => ep ≠ 0
  | ATimerRestart id _ => id < MIPOS_MAX_TIMERS_NO
  | _ => True
  end.

Definition frames_ctx (k k' : mipos_kernel_t) : Prop :=
  task_context_ptr k' = task_context_ptr k ∧ current_task k' = current_task k.

#[export] Instance frames_ctx_preorder : PreOrder frames_ctx.
Proof. split; [done|]. intros k1 k2 k3 [? ?] [? ?]. split; congruence. Qed.

Lemma with_p_task_frames id f k : frames_ctx k (with_p_task id f k).
Proof. unfold with_p_task. by destruct (_mipos_get_p_task id k). Qed.

Lemma timer_start_frames e c i x p k : frames_ctx k (snd (mipos_timer_start e c i x p k)).
Proof.
  unfold mipos_timer_start. case_if; [done|].
  destruct (timer_find_free _ _ _) as [id|]; [|done].
  destruct (timer_activate_proj id i k) as (? & ? & ? & _). done.
Qed.

Lemma exec_api_wf c k :
  kernel_wf k → task_context_ptr k ≠ 0%nat → api_ok c →
  ∃ k', exec_api c k = Ok k' ∧ kernel_wf k' ∧ frames_ctx k k'.
Proof.
  intros Hk Hx Hc. destruct c; simpl in *;
    try (eexists; split; [reflexivity|]; split;
         [by apply wf_with_p_task; eauto with mipos|by apply with_p_task_frames]).
  - eexists. split; [reflexivity|]. split;
      [by apply t_create_loop_wf; auto|by apply t_create_loop_ctx].
  - eexists. split; [reflexivity|]. split; [|done]. by destruct Hk; constructor.
  - eexists. split; [reflexivity|]. split;
      [by apply timer_start_wf|by apply timer_start_frames].
  - eexists. split; [reflexivity|]. split; [by apply timer_cancel_wf|].
    unfold mipos_timer_cancel. by repeat case_if.
  - eexists. split; [reflexivity|]. split; [by apply timer_delete_wf|].
    unfold mipos_timer_delete. by repeat case_if.
  - destruct (timer_restart_wf id new_interval k) as (r & k' & -> & ? & ?); [done..|].
    by eexists.
  - eexists. split; [reflexivity|]. split; [|done]. by destruct Hk; constructor.
Qed.

Lemma run_calls_wf cs k :
  kernel_wf k → task_context_ptr k ≠ 0%nat → Forall api_ok cs →
  ∃ k', run_calls cs k = Ok k' ∧ kernel_wf k' ∧ frames_ctx k k'.
Proof.
  revert k. induction cs as [|c cs IH]; intros k Hk Hx Hall; simpl; [by eexists|].
  inversion_clear Hall.
  destruct (exec_api_wf c k) as (k1 & -> & ? & [Hx1 Hc1]); [done..|]. simpl.
  destruct (IH k1) as (k2 & -> & ? & [Hx2 Hc2]); [done|congruence|done|].
  eexists. split; [reflexivity|]. split; [done|]. split; congruence.
Qed.

(** ** Calls to user code *)

(** What the scheduler needs of the identifier a real-time task returns, when
    it is not 0, and does not test: it is that of a task, not itself real-time,
    that has suspended itself and was not resumed since.  Such a task has the
    saved context the dispatcher switches to. *)
Definition dpc_target (ret : Z) (k : mipos_kernel_t) : Prop :=
  0 < ret < MIPOS_TASKS_TBL_ENTRIES_CNT ∧
  ∃ t, task_table k !! Z.to_nat ret = Some t ∧ entry_point t ≠ 0 ∧ rt_task t = false ∧
       (is_suspended t = true ∨ wkup t = true).

(** The function at [fn] is a real-time task. *)
Definition is_rt_entry (fn : Z) (k : mipos_kernel_t) : Prop :=
  ∃ i t, task_table k !! i = Some t ∧ rt_task t = true ∧ entry_point t = fn.

(** User code: callbacks may return anything, real-time tasks 0 or a task they
    may ask for. *)
Definition user_code : Type := Z → Z → mipos_kernel_t → Z * list api_call.

Record code_ok (code : user_code) : Prop := {
  co_api : ∀ fn arg k, Forall api_ok (snd (code fn arg k));
  co_dpc : ∀ fn arg k k', is_rt_entry fn k → run_calls (snd (code fn arg k)) k = Ok k' →
    fst (code fn arg k) ≠ 0 → dpc_target (fst (code fn arg k)) k';
}.

Section epoch_wf.
Context (code : Z → Z → mipos_kernel_t → Z * list api_call).
Context (Hcode : code_ok code).

Lemma call1_wf fn arg s :
  kernel_wf (kern s) → task_context_ptr (kern s) ≠ 0%nat → fn ≠ 0 →
  ∃ ret s', call1 code fn arg s = Ok (ret, s') ∧ kernel_wf (kern s') ∧
            frames_ctx (kern s) (kern s') ∧
            (is_rt_entry fn (kern s) → ret ≠ 0 → dpc_target ret (kern s')).
Proof.
  intros Hk Hx Hfn. unfold call1. apply Z.eqb_neq in Hfn as ->.
  pose proof (co_api _ Hcode fn arg (kern s)) as Hapi.
  pose proof (co_dpc _ Hcode fn arg (kern s)) as Hdpc.
  destruct (code fn arg (kern s)) as [ret cs]; simpl in *.
  destruct (run_calls_wf cs (kern s)) as (k' & Hr & Hk' & Hf); [done..|].
  rewrite Hr. simpl. eexists _, _. split; [reflexivity|]. simpl. eauto.
Qed.

Lemma timer_visit_wf id s :
  kernel_wf (kern s) → task_context_ptr (kern s) ≠ 0%nat → id ∈ timer_ids →
  ∃ s', timer_visit code id s = Ok s' ∧ kernel_wf (kern s') ∧
        frames_ctx (kern s) (kern s').
Proof.
  intros Hk Hx Hid. unfold timer_visit.
  destruct (timer_active id (kern s)) eqn:Ha; simpl; [|by eexists].
  assert (id < Z.to_nat MIPOS_MAX_TIMERS_NO)%nat as Hlt.
  { apply elem_of_seq in Hid. lia. }
  assert (∀ k, kernel_wf k → ∃ t, timer_table k !! id = Some t) as Htab.
  { intros k Hk0. apply lookup_lt_is_Some. rewrite (kw_timers _ Hk0). done. }
  destruct (Htab _ Hk) as [t Ht]. rewrite Ht. simpl.
  assert (kernel_wf (clear_active id (kern s))) as Hclr.
  { apply (wf_timers (kern s)); try done; [apply Hk|].
    intros j u Hj Hj2. apply clear_active_bit in Hj2 as [? ?]. eapply kw_handlers; eauto. }
  destruct (flgs t &? TIMER_FLG_CANCELLED).
  - destruct (truth (handler_on_cancel_cbk t)) eqn:Hc; [|by eexists].
    apply truth_true in Hc.
    destruct (call1_wf (handler_on_cancel_cbk t) (context t)
                (on_kern (clear_active id) s)) as (r & s' & -> & ? & ? & _); [done..|].
    by eexists.
  - case_if; [|by eexists].
    set (s1 := on_kern (upd_timer id _) _).
    assert (kernel_wf (kern s1)) as Hs1.
    { apply upd_timer_wf; [|done|done]. by destruct Hk; constructor. }
    destruct (call1_wf (handler_on_expire_cbk t) (context t) s1)
      as (r & s2 & -> & Hs2 & Hf & _); [done|done|by eapply (kw_handlers _ Hk); eauto|]. simpl.
    assert (task_context_ptr (kern s2) ≠ 0%nat) by (destruct Hf as [-> _]; done).
    destruct (Htab _ Hs2) as [t2 Ht2]. rewrite Ht2. simpl.
    destruct (negb (flgs t2 &? TIMER_FLG_PERIODIC)).
    + eexists. split; [reflexivity|]. split; [|done].
      apply (wf_timers (kern s2)); try done; [apply Hs2|].
      intros j u Hj Hj2. apply clear_active_bit in Hj2 as [? ?].
      eapply (kw_handlers _ Hs2); eauto.
    + eexists. split; [reflexivity|]. split; [|done]. by apply upd_timer_wf.
Qed.

Lemma timer_loop_wf ids s :
  kernel_wf (kern s) → task_context_ptr (kern s) ≠ 0%nat → (∀ i, i ∈ ids → i ∈ timer_ids) →
  ∃ s', timer_loop code ids s = Ok s' ∧ kernel_wf (kern s') ∧
        frames_ctx (kern s) (kern s').
Proof.
  revert s. induction ids as [|id ids IH]; intros s Hk Hx Hids; simpl; [by eexists|].
  destruct (timer_visit_wf id s) as (s1 & -> & ? & [Hx1 Hc1]); [set_solver..|]. simpl.
  destruct (IH s1) as (s2 & -> & ? & [Hx2 Hc2]); [done|congruence|set_solver|].
  eexists. split; [reflexivity|]. split; [done|]. split; congruence.
Qed.

Lemma select_visit_wf id k :
  kernel_wf k → kernel_wf (select_visit id k) ∧ frames_ctx k (select_visit id k).
Proof.
  intros Hk. unfold select_visit. destruct (timer_table k !! id); [|done].
  case_if; [|done]. split; [|done]. by destruct Hk; constructor.
Qed.

Lemma select_loop_wf ids k :
  kernel_wf k → kernel_wf (foldl (λ k id, select_visit id k) k ids) ∧
  frames_ctx k (foldl (λ k id, select_visit id k) k ids).
Proof.
  revert k. induction ids as [|id ids IH]; intros k Hk; simpl; [done|].
  destruct (select_visit_wf id k Hk) as [? [? ?]].
  destruct (IH (select_visit id k)) as [? [? ?]]; [done|].
  split; [done|]. split; congruence.
Qed.

Lemma soft_timers_wf s :
  kernel_wf (kern s) →
  ∃ s', soft_timers code s = Ok s' ∧ kernel_wf (kern s') ∧ frames_ctx (kern s) (kern s').
Proof.
  intros Hk. unfold soft_timers. case_if; [|by eexists]. bool_to_prop.
  assert (task_context_ptr (kern s) ≠ 0%nat) as Hx.
  { intros Hz. destruct (kw_boot _ Hk Hz). done. }
  destruct (timer_loop_wf timer_ids s) as (s1 & -> & ? & ?); [done..|].
  destruct (select_loop_wf timer_ids (kern s1)) as [? ?]; [done|].
  eexists. split; [reflexivity|]. split; [done|]. by etrans.
Qed.

(** ** The search *)

(** A task the search can return. *)
Definition eligible (t : mipos_task_t) : bool :=
  truth (entry_point t) && negb (rt_task t) && negb (status t &? TASK_INVALID).

Lemma lookup_cur k : kernel_wf k → ∃ t, task_table k !! Z.to_nat (current_task k) = Some t.
Proof.
  intros Hk. apply lookup_lt_is_Some. rewrite (kw_len _ Hk).
  pose proof (kw_cur _ Hk). unfold MIPOS_TASKS_TBL_ENTRIES_CNT, MIPOS_MAX_TASKS_COUNT in *.
  lia.
Qed.

Lemma set_current_wf c k :
  kernel_wf k → 0 ≤ c < MIPOS_TASKS_TBL_ENTRIES_CNT → kernel_wf (set_current_task c k).
Proof. intros Hk Hc. by destruct Hk; constructor. Qed.

(** The next index in the sweep. *)
Definition succ_task (c : Z) : Z := (c + 1) `mod` MIPOS_TASKS_TBL_ENTRIES_CNT.

Lemma succ_task_eq k :
  kernel_wf k →
  u32 (current_task k + 1) `mod` MIPOS_TASKS_TBL_ENTRIES_CNT = succ_task (current_task k).
Proof.
  intros Hk. pose proof (kw_cur _ Hk).
  unfold MIPOS_TASKS_TBL_ENTRIES_CNT, MIPOS_MAX_TASKS_COUNT in *.
  rewrite wrap_small by lia. done.
Qed.

Lemma succ_task_bound c : 0 ≤ succ_task c < MIPOS_TASKS_TBL_ENTRIES_CNT.
Proof. by apply Z.mod_pos_bound. Qed.

(** Making ready the task an RT task asked for. *)
Lemma dpc_ready_wf ret k v :
  kernel_wf k → 0 < ret → task_table k !! Z.to_nat ret = Some v →
  entry_point v ≠ 0 → rt_task v = false → is_suspended v = true ∨ wkup v = true →
  kernel_wf (upd_task (Z.to_nat ret) (λ t, set_status TASK_READY (set_wkup true t)) k) ∧
  eligible (set_status TASK_READY (set_wkup true v)) = true.
Proof.
  intros Hk Hret Hv Hve Hvr Hvs.
  assert (task_wf v) as Hvw by (eapply Forall_lookup_1; [apply Hk|done]).
  assert (∃ sg, reg_state v = InMacro sg) as [sg Hsg] by (destruct Hvs; [by apply (tw_susp _ Hvw)|by apply (tw_wkup _ Hvw)]).
  split.
  - apply wf_upd_task; [done| |lia|done].
    intros w Hw _. rewrite Hv in Hw. injection Hw as <-.
    destruct Hvw; constructor; simpl; try done; [by apply valid_status|eauto].
  - unfold eligible. simpl. rewrite Hvr. unfold truth. apply Z.eqb_neq in Hve.
    by rewrite Hve.
Qed.

(** After the real-time branch the search is at the index it was, or at a
    task it will return. *)
Lemma rt_handling_wf t s :
  kernel_wf (kern s) → task_table (kern s) !! Z.to_nat (current_task (kern s)) = Some t →
  ∃ p s', rt_handling code (Z.to_nat (current_task (kern s))) t s = Ok (p, s') ∧
    kernel_wf (kern s') ∧ task_context_ptr (kern s') = task_context_ptr (kern s) ∧
    p = Z.to_nat (current_task (kern s')) ∧
    (current_task (kern s') = current_task (kern s) ∨
     (current_task (kern s') ≠ 0 ∧
      ∃ v, task_table (kern s') !! p = Some v ∧ eligible v = true)).
Proof.
  intros Hk Ht. unfold rt_handling.
  destruct (rt_task t) eqn:Hrt; [|eexists _, _; split; [reflexivity|]; by eauto].
  assert (task_wf t) as Htw by (eapply Forall_lookup_1; [apply Hk|done]).
  destruct (call1_wf (entry_point t) (param t) s)
    as (ret & s1 & Hc & Hk1 & [Hx1 Hc1] & Hd); [done| |by apply Htw|].
  { intros H0. destruct (kw_boot _ Hk H0) as (_ & _ & Hall).
    rewrite (Forall_lookup_1 _ _ _ _ Hall Ht) in Hrt. done. }
  rewrite Hc, bind_Ok. cbn zeta. set (p := Z.to_nat (current_task (kern s))).
  set (s2 := on_kern (upd_task p (set_task_ret_value ret)) s1).
  assert (kernel_wf (kern s2)) as Hk2.
  { apply wf_upd_task; [done| |by intros _ ? []|done]. intros u _ []. by constructor. }
  destruct (truth ret) eqn:Hret; bool_to_prop;
    [|exists p, s2; split; [done|]; split; [done|]; split; [done|]; simpl; rewrite Hc1; by eauto].
  destruct (Hd ltac:(by exists (Z.to_nat (current_task (kern s))), t) Hret) as (Hb & u & Hu & Hue & Hur & Hus).
  unfold MIPOS_TASKS_TBL_ENTRIES_CNT, MIPOS_MAX_TASKS_COUNT in Hb.
  rewrite (wrap_small 32 ret) by lia.
  set (s3 := on_kern (set_current_task ret) s2).
  assert (kernel_wf (kern s3)) as Hk3 by (apply set_current_wf; [done|];
    unfold MIPOS_TASKS_TBL_ENTRIES_CNT, MIPOS_MAX_TASKS_COUNT; lia).
  destruct (lookup_cur _ Hk3) as [v Hv]. rewrite Hv. simpl of_lookup. rewrite bind_Ok.
  assert (entry_point v ≠ 0 ∧ rt_task v = false ∧ (is_suspended v = true ∨ wkup v = true)) as (Hve & Hvr & Hvs).
  { apply alter_lookup_Some in Hv as [(E & y & Hy & ->)|[? Hv]];
      simpl in *; [replace y with u by congruence|replace v with u by congruence]; done. }
  destruct (dpc_ready_wf ret (kern s3) v) as [Hk4 He]; [done|lia|done..|].
  eexists _, _. split; [reflexivity|]. split; [done|]. split; [done|]. split; [done|].
  right. split; [simpl; lia|]. eexists. split; [|done].
  change (alter (λ t, set_status TASK_READY (set_wkup true t)) (Z.to_nat ret)
            (task_table (kern s3)) !! Z.to_nat ret = 
          Some (set_status TASK_READY (set_wkup true v))).
  rewrite list_lookup_alter, decide_True by done. change (Z.to_nat ret) with (Z.to_nat (current_task (kern s3))). by rewrite Hv.
Qed.

(** What one iteration of the search establishes. *)
Record step_post (count : Z) (s : sched) (again : bool) (p : nat) (s' : sched) : Prop := {
  sp_wf : kernel_wf (kern s');
  sp_ctx : task_context_ptr (kern s') = task_context_ptr (kern s);
  sp_p : p = Z.to_nat (current_task (kern s'));
  sp_again : again = true →
    current_task (kern s') = succ_task (current_task (kern s)) ∧
    (current_task (kern s') = KERNEL__IDLE_TASK_ID → count ≤ MIPOS_TASKS_TBL_ENTRIES_CNT);
  sp_stop : again = false →
    ∃ t, task_table (kern s') !! p = Some t ∧ eligible t = true;
}.

Lemma cond_false t b :
  (entry_point t =? 0) || rt_task t || (status t &? TASK_INVALID) || b = false →
  eligible t = true.
Proof. intros. bool_to_prop. unfold eligible, truth. repeat (apply andb_true_iff; split);
  apply negb_true_iff; try done; by apply Z.eqb_neq. Qed.

(** The condition computed at an entry whose index is the current one. *)
Lemma cond_post count s s' t :
  kernel_wf (kern s') → task_context_ptr (kern s') = task_context_ptr (kern s) →
  task_table (kern s') !! Z.to_nat (current_task (kern s')) = Some t →
  (eligible t = false → current_task (kern s') = succ_task (current_task (kern s))) →
  (current_task (kern s') = 0 → succ_task (current_task (kern s)) = 0) →
  step_post count s
    ((entry_point t =? 0) || rt_task t || (status t &? TASK_INVALID) ||
     ((count <=? MIPOS_TASKS_TBL_ENTRIES_CNT) &&
      (current_task (kern s') =? KERNEL__IDLE_TASK_ID)))
    (Z.to_nat (current_task (kern s'))) s'.
Proof.
  intros Hk Hx Ht Hsucc Hz. constructor; try done.
  - intros Hc. destruct (eligible t) eqn:He.
    + unfold eligible in He. bool_to_prop. unfold truth in *.
      rewrite orb_true_iff, !orb_true_iff, !andb_true_iff in Hc.
      destruct Hc as [[[Hc|Hc]|Hc]|[Hc1 Hc2]]; bool_to_prop; try congruence.
      split; [|done]. unfold KERNEL__IDLE_TASK_ID in *. by rewrite Hz.
    + split; [by apply Hsucc|]. intros H0. exfalso.
      destruct (kw_idle _ Hk) as (ti & Hti & He' & Hs & Hr).
      unfold KERNEL__IDLE_TASK_ID in *. rewrite H0 in Ht. change (Z.to_nat 0) with 0%nat in Ht.
      rewrite Ht in Hti. injection Hti as <-.
      unfold eligible in He. rewrite He', Hr, Hs in He. done.
  - intros Hc. eexists. split; [done|]. by eapply cond_false.
Qed.

Lemma search_step_wf count s :
  kernel_wf (kern s) →
  ∃ again p s', search_step code count s = Ok (again, p, s') ∧ step_post count s again p s'.
Proof.
  intros Hk. unfold search_step. set (s1 := on_kern _ s).
  set (c := succ_task (current_task (kern s))).
  assert (s1 = on_kern (set_current_task c) s) as ->
    by (unfold s1, on_kern; by rewrite (succ_task_eq _ Hk)).
  set (s1 := on_kern (set_current_task c) s).
  assert (kernel_wf (kern s1)) as Hk1 by (apply set_current_wf; [done|apply succ_task_bound]).
  destruct (lookup_cur _ Hk1) as [t Ht]. rewrite Ht. simpl of_lookup. rewrite bind_Ok.
  destruct (rt_handling_wf t s1) as (p & s2 & -> & Hk2 & Hx2 & -> & Hor); [done..|].
  rewrite bind_Ok. destruct (lookup_cur _ Hk2) as [v Hv]. rewrite Hv.
  simpl of_lookup. rewrite bind_Ok. eexists _, _, _. split; [reflexivity|].
  apply cond_post; [done..| |].
  - intros Hv0. destruct Hor as [->|(_ & v' & Hv' & He)]; [done|congruence].
  - intros H0. destruct Hor as [Hor|[? _]]; [by rewrite Hor in H0|done].
Qed.

(** Iterations left before the idle entry is accepted, from index [c] after
    [n] iterations. *)
Definition sweep_left (n c : Z) : Z :=
  let d := MIPOS_TASKS_TBL_ENTRIES_CNT - c in
  if MIPOS_TASKS_TBL_ENTRIES_CNT <? n + d then d else d + MIPOS_TASKS_TBL_ENTRIES_CNT.

(** The search returns: enough fuel is what is left of two sweeps. *)
Lemma search_loop_total fuel n s :
  kernel_wf (kern s) → 0 ≤ n → sweep_left n (current_task (kern s)) ≤ Z.of_nat fuel →
  ∃ p s' t, search_loop code fuel n s = Ok (p, s') ∧ kernel_wf (kern s') ∧
    task_context_ptr (kern s') = task_context_ptr (kern s) ∧
    p = Z.to_nat (current_task (kern s')) ∧
    task_table (kern s') !! p = Some t ∧ eligible t = true.
Proof.
  revert n s. induction fuel as [|fuel IH]; intros n s Hk Hn Hf.
  { exfalso. pose proof (kw_cur _ Hk). revert Hf. unfold sweep_left. case_if; lia. }
  simpl. destruct (search_step_wf (n + 1) s Hk) as (again & p & s' & -> & []).
  rewrite bind_Ok. destruct again.
  - destruct (sp_again0 eq_refl) as [Hc Hz].
    destruct (IH (n + 1) s') as (p' & s'' & t & -> & ? & Hx & ? & ? & ?); [done|lia| |].
    + pose proof (kw_cur _ Hk). revert Hf Hz. rewrite Hc. unfold sweep_left, succ_task.
      unfold MIPOS_TASKS_TBL_ENTRIES_CNT, MIPOS_MAX_TASKS_COUNT, KERNEL__IDLE_TASK_ID in *.
      destruct (decide (current_task (kern s) = 7)) as [->|Hne].
      * change ((7 + 1) `mod` (7 + 1)) with 0. intros Hf Hz. specialize (Hz eq_refl).
        revert Hf. repeat case_if; bool_to_prop; lia.
      * rewrite Z.mod_small by lia. intros Hf _. revert Hf.
        repeat case_if; bool_to_prop; lia.
    + eexists _, _, _. split; [reflexivity|]. by rewrite Hx, sp_ctx0.
  - destruct (sp_stop0 eq_refl) as (t & Ht & He).
    eexists _, _, _. split; [reflexivity|]. by rewrite sp_ctx0.
Qed.

Lemma task_search_wf s :
  kernel_wf (kern s) →
  ∃ p s' t, task_search code s = Ok (p, s') ∧ kernel_wf (kern s') ∧
    task_context_ptr (kern s') = task_context_ptr (kern s) ∧
    p = Z.to_nat (current_task (kern s')) ∧
    task_table (kern s') !! p = Some t ∧ eligible t = true.
Proof.
  intros Hk. apply search_loop_total; [done|lia|].
  pose proof (kw_cur _ Hk). unfold sweep_left.
  unfold MIPOS_TASKS_TBL_ENTRIES_CNT, MIPOS_MAX_TASKS_COUNT in *.
  case_if; bool_to_prop; lia.
Qed.

(** ** The task state machine *)

Lemma task_wf_susp_tsm rtc t :
  task_wf t → status t = TASK_SUSPENDED → task_wf (tsm_suspended rtc t).
Proof.
  intros [Hs He Hr Hw Hu] Hst.
  assert (∃ s, reg_state t = InMacro s) as Hm
    by (apply Hu; unfold is_suspended; by rewrite Hst).
  assert (entry_point t ≠ 0) as Hne by (intros H; specialize (He H); by rewrite Hst in He).
  destruct t; unfold is_suspended in *; simpl in *. subst.
  unfold tsm_suspended. simpl.
  repeat (case_if; simpl); constructor; simpl; try done; by apply valid_status.
Qed.

(** What the scheduler leaves to the task it switches to. *)
Definition decision_ok (d : decision) (k : mipos_kernel_t) : Prop :=
  match d with
  | ToScheduler => True
  | ToPanic => False
  | ToResume p => task_context_ptr k = p ∧ p ≠ 0%nat ∧
      ∃ t s, task_table k !! p = Some t ∧ status t = TASK_RUNNING ∧
             entry_point t ≠ 0 ∧ reg_state t = InMacro s
  | ToStart p _ => task_context_ptr k = p ∧ p ≠ 0%nat ∧
      ∃ t, task_table k !! p = Some t ∧ status t = TASK_RUNNING ∧ entry_point t ≠ 0
  end.

(** An eligible task is ready, running or suspended: the [switch] has a
    case for it. *)
Lemma eligible_status t :
  task_wf t → eligible t = true →
  entry_point t ≠ 0 ∧
  (status t = TASK_RUNNING ∨ status t = TASK_SUSPENDED ∨ status t = TASK_READY).
Proof.
  intros [Hs _ _ _ _] He. unfold eligible in He. bool_to_prop. split; [done|].
  remember (status t) as s eqn:E. clear E. by_status Hs; subst s; first [discriminate|by auto].
Qed.

Lemma upd_status_wf p v k t :
  kernel_wf k → p ≠ 0%nat → task_table k !! p = Some t → entry_point t ≠ 0 →
  v ∈ valid_statuses → (v &? TASK_SUSPENDED) = false → kernel_wf (upd_task p (set_status v) k).
Proof.
  intros Hk Hp Ht Hne Hv Hsus. apply wf_upd_task; [done| |done|done].
  intros u Hu Huw. rewrite Ht in Hu. injection Hu as <-.
  apply task_wf_status; [done..|]. by rewrite Hsus.
Qed.

Lemma set_ctx_wf p k :
  kernel_wf k → p ≠ 0%nat → is_Some (task_table k !! p) →
  kernel_wf (set_task_context_ptr p (set_tick_counter (u64 (tick_counter k + 1)) k)).
Proof.
  intros Hk Hp Hs. apply lookup_lt_is_Some in Hs. rewrite (kw_len _ Hk) in Hs.
  by destruct Hk; constructor.
Qed.

Lemma tsm_wf sp p k t :
  kernel_wf k → p ≠ 0%nat → task_table k !! p = Some t → eligible t = true →
  ∃ d k', tsm sp p k = Ok (d, k') ∧ kernel_wf k' ∧ decision_ok d k'.
Proof.
  intros Hk Hp Ht He.
  assert (task_wf t) as Htw by (eapply Forall_lookup_1; [apply Hk|done]).
  destruct (eligible_status t Htw He) as [Hne Hst].
  unfold tsm. set (k1 := set_task_context_ptr p _).
  assert (kernel_wf k1) as Hk1 by (apply set_ctx_wf; [done..|eauto]).
  assert (task_table k1 !! p = Some t) as Ht1 by done.
  assert (task_context_ptr k1 = p) as Hx1 by done. clearbody k1.
  rewrite Ht1. simpl of_lookup. rewrite bind_Ok.
  destruct Hst as [Hst|[Hst|Hst]]; rewrite Hst; simpl.
  - eexists _, _. split; [reflexivity|]. split; [|done].
    eapply upd_status_wf; [done..|by apply valid_status|done].
  - eexists _, _. split; [reflexivity|]. split; [|done].
    apply wf_upd_task; [done| |done|].
    + intros u Hu Huw. rewrite Ht1 in Hu. injection Hu as <-. by apply task_wf_susp_tsm.
    + intros _ u Hu. destruct u. unfold tsm_suspended. simpl in *.
      by repeat (case_if; simpl).
  - unfold dispatcher.
    set (k2 := set_scheduler_registers_state _ _).
    assert (kernel_wf k2) as Hk2.
    { assert (kernel_wf (upd_task p (set_status TASK_RUNNING) k1)) as []
        by (eapply upd_status_wf; [done..|by apply valid_status|done]).
      by constructor. }
    destruct (wkup t) eqn:Hwk; eexists _, _; (split; [reflexivity|]).
    + destruct (tw_wkup _ Htw Hwk) as [sg Hsg]. split.
      * apply wf_upd_task; [done| |done|done]. intros u _ []. by constructor.
      * split; [done|]. split; [done|]. eexists _, sg.
        split; [simpl; rewrite !list_lookup_alter, !decide_True, Ht1 by done; reflexivity|].
        done.
    + split.
      * apply wf_upd_task; [done| |done|done]. intros u _ []. by constructor.
      * split; [done|]. split; [done|]. eexists.
        split; [simpl; rewrite !list_lookup_alter, !decide_True, Ht1 by done; reflexivity|].
        done.
Qed.

Lemma idle_wf s :
  kernel_wf (kern s) →
  ∃ s', run_idle code 0 s = Ok s' ∧ kernel_wf (kern s').
Proof.
  intros Hk. unfold run_idle. destruct (kw_idle _ Hk) as (t & Ht & He & _). rewrite Ht.
  simpl of_lookup. rewrite bind_Ok, He. simpl. unfold idle_task.
  destruct (truth (idle_state_notify_cbk (kern s))) eqn:Hc; [|by eexists].
  bool_to_prop. destruct (call1_wf (idle_state_notify_cbk (kern s)) (idle_param (kern s)) s)
    as (r & s' & -> & ? & _); [done| |done|by eexists].
  intros Hz. by destruct (kw_boot _ Hk Hz) as (_ & ? & _).
Qed.

Lemma epoch_wf quantum sp s :
  kernel_wf (kern s) →
  ∃ d s', epoch code quantum sp s = Ok (d, s') ∧ kernel_wf (kern s') ∧
          decision_ok d (kern s').
Proof.
  intros Hk. unfold epoch. cbn zeta.
  set (s0 := on_kern (mipos_update_rtc quantum) s).
  assert (kernel_wf (kern s0)) as Hk0 by (by destruct Hk; constructor). clearbody s0.
  destruct (soft_timers_wf s0 Hk0) as (s1 & -> & Hk1 & _). rewrite bind_Ok.
  destruct (task_search_wf s1 Hk1) as (p & s2 & t & -> & Hk2 & _ & Hp & Ht & He).
  rewrite bind_Ok. destruct (current_task (kern s2) =? KERNEL__IDLE_TASK_ID) eqn:Hc.
  - apply Z.eqb_eq in Hc. rewrite Hc in Hp. subst p.
    change (Z.to_nat KERNEL__IDLE_TASK_ID) with 0%nat.
    destruct (idle_wf s2 Hk2) as (s3 & -> & ?). rewrite bind_Ok. by eexists _, _.
  - apply Z.eqb_neq in Hc. pose proof (kw_cur _ Hk2).
    unfold KERNEL__IDLE_TASK_ID in Hc.
    destruct (tsm_wf sp p (kern s2) t) as (d & k' & -> & ? & ?); [done|lia|done..|].
    rewrite bind_Ok. by eexists _, _.
Qed.
End epoch_wf.
