(* ===== verification/Machine.v ===== *)
(** * The running system

    The kernel and the tasks as one transition system: the boot sequence of
    [mipos_start], turns of the scheduler, the running task calling services,
    blocking or returning, and the clock interrupt.  Every state it reaches
    from boot satisfies the kernel invariant, and none is a crash or the panic
    loop. *)

From S2P Require Import Prelude Kernel Timer Scheduler KernelInv.

(** [mipos_start] up to the [scheduler:] label (lines 123-166); the BSP set-up
    calls do not touch the kernel environment. *)
Definition mipos_start_init (root_task root_task_param stack size : Z)
    (k : mipos_kernel_t) : mipos_kernel_t :=
  snd (mipos_t_create "root" root_task root_task_param stack size MIPOS_NO_RT
         (scheduler_init k)).

(** The services that suspend the caller. *)
Inductive blocking_call :=
  | BSuspend (signum : Z)
  | BWaitFor (signum : Z)
  | BWkafter (count : Z)
  | BMsleep (count : Z).

Definition exec_blocking (b : blocking_call) (sp : Z) (k : mipos_kernel_t) : mipos_kernel_t :=
  match b with
  | BSuspend s => _mipos_t_suspend s sp k
  | BWaitFor s => mipos_t_waitfor_signal s sp k
  | BWkafter n => mipos_tm_wkafter n sp k
  | BMsleep n => mipos_tm_msleep n sp k
  end.

(** The task's entry point returned [ret] to the dispatcher. *)
Definition task_returned (p : nat) (ret : Z) (k : mipos_kernel_t) : mipos_kernel_t :=
  upd_task p (set_task_ret_value ret) k.

Inductive mode :=
  | InSched
  | InTask (p : nat)
  | Stuck.

Record machine := mk_machine { m_mode : mode; m_kern : mipos_kernel_t }.

(** The transitions.  A turn of the scheduler may call user code [code], any
    that is [allowed]; what that code does is chosen anew at every turn. *)
Inductive step (allowed : user_code → Prop) : machine → machine → Prop :=
  | step_again code q sp l k s' :
      allowed code → epoch code q sp (mk_sched k l) = Ok (ToScheduler, s') →
      step allowed (mk_machine InSched k) (mk_machine InSched (kern s'))
  | step_resume code q sp l k p s' t sg :
      allowed code → epoch code q sp (mk_sched k l) = Ok (ToResume p, s') →
      task_table (kern s') !! p = Some t → reg_state t = InMacro sg →
      step allowed (mk_machine InSched k)
           (mk_machine (InTask p) (_mipos_t_reset_signal_and_run sg (kern s')))
  | step_resume_nowhere code q sp l k p s' t :
      allowed code → epoch code q sp (mk_sched k l) = Ok (ToResume p, s') →
      task_table (kern s') !! p = Some t → (∀ sg, reg_state t ≠ InMacro sg) →
      step allowed (mk_machine InSched k) (mk_machine Stuck (kern s'))
  | step_start code q sp l k p top s' :
      allowed code → epoch code q sp (mk_sched k l) = Ok (ToStart p top, s') →
      step allowed (mk_machine InSched k) (mk_machine (InTask p) (kern s'))
  | step_panic code q sp l k s' :
      allowed code → epoch code q sp (mk_sched k l) = Ok (ToPanic, s') →
      step allowed (mk_machine InSched k) (mk_machine Stuck (kern s'))
  | step_crash code q sp l k f :
      allowed code → epoch code q sp (mk_sched k l) = Fault f →
      step allowed (mk_machine InSched k) (mk_machine Stuck k)
  | step_service p c k k' :
      api_ok c → exec_api c k = Ok k' →
      step allowed (mk_machine (InTask p) k) (mk_machine (InTask p) k')
  | step_service_crash p c k f :
      api_ok c → exec_api c k = Fault f →
      step allowed (mk_machine (InTask p) k) (mk_machine Stuck k)
  | step_block p b sp k :
      step allowed (mk_machine (InTask p) k) (mk_machine InSched (exec_blocking b sp k))
  | step_return p ret k :
      step allowed (mk_machine (InTask p) k) (mk_machine InSched (task_returned p ret k))
  | step_clock m q k :
      step allowed (mk_machine m k) (mk_machine m (mipos_update_rtc q k)).

(** ** Blocking services and the invariant *)

Lemma task_wf_wait s t :
  task_wf t → (∃ sg, reg_state t = InMacro sg) →
  task_wf (let t := set_signal_waiting (u8 (Z.lor (signal_waiting t) s)) t in
           if status t &? Z.lor TASK_READY (Z.lor TASK_RUNNING TASK_SUSPENDED)
           then set_status TASK_SUSPENDED t else t).
Proof.
  intros [Hs He Hr Hw Hu] Hm. destruct t; unfold is_suspended in *; simpl in *.
  case_if; constructor; simpl; try done; [by apply valid_status|].
  intros H0. specialize (He H0). revert E He. by_status Hs; subst status; done.
Qed.

Lemma suspend_wf p f s k :
  kernel_wf k → task_context_ptr k = p → p ≠ 0%nat →
  (∀ t, task_wf t → task_wf (f t)) → (∀ t, reg_state (f t) = reg_state t) →
  kernel_wf (_mipos_t_set_wait_for_signal s
    (upd_task p f (upd_task p (set_reg_state (InMacro s)) k))).
Proof.
  intros Hk <- Hp Hf Hreg. unfold _mipos_t_set_wait_for_signal.
  apply wf_upd_task; simpl; [|intros t Ht Htw|done|done].
  - apply wf_upd_task; simpl; [|by eauto|done|done].
    apply wf_upd_task; [done| |done|done].
    intros t _ []. constructor; simpl; eauto.
  - apply task_wf_wait; [done|]. exists s.
    apply alter_lookup_Some in Ht as [(_ & y & Hy & ->)|[? _]]; [|done]. rewrite Hreg.
    apply alter_lookup_Some in Hy as [(_ & z & Hz & ->)|[? _]]; done.
Qed.

Lemma task_wf_sp v t : task_wf t → task_wf (set_process_stack_pointer v t).
Proof. intros []. by constructor. Qed.
Lemma task_wf_ticks v t : task_wf t → task_wf (set_timer_tick_count v t).
Proof. intros []. by constructor. Qed.
Lemma task_wf_rtc v t : task_wf t → task_wf (set_rtc_timeout v t).
Proof. intros []. by constructor. Qed.
Lemma task_wf_ret v t : task_wf t → task_wf (set_task_ret_value v t).
Proof. intros []. by constructor. Qed.
#[export] Hint Resolve task_wf_sp task_wf_ticks task_wf_rtc task_wf_ret : mipos.

Lemma upd_task_id p k : upd_task p id k = k.
Proof. destruct k; unfold upd_task, set_task_table; simpl. by rewrite list_alter_id. Qed.

Lemma exec_blocking_wf b sp k :
  kernel_wf k → task_context_ptr k ≠ 0%nat → kernel_wf (exec_blocking b sp k).
Proof.
  intros Hk Hx. destruct b; simpl.
  - by apply suspend_wf; eauto with mipos.
  - by apply suspend_wf; eauto with mipos.
  - unfold mipos_tm_wkafter, _mipos_tm_wkafter.
    apply wf_upd_task; [|by eauto with mipos|done|done].
    by apply suspend_wf; eauto with mipos.
  - unfold mipos_tm_msleep, _mipos_tm_rtc_quantum_sleep. cbn zeta.
    apply wf_upd_task; [|by eauto with mipos|done|done].
    apply wf_upd_task; [|by eauto with mipos|done|done].
    rewrite <-(upd_task_id (task_context_ptr k) (upd_task _ _ k)).
    by apply suspend_wf; eauto with mipos.
Qed.

(** ** Boot *)

(** The static [mipos_kernel_env]: tables of their declared sizes. *)
Definition tables_sized (k : mipos_kernel_t) : Prop :=
  length (task_table k) = Z.to_nat MIPOS_TASKS_TBL_ENTRIES_CNT ∧
  length (timer_table k) = Z.to_nat MIPOS_MAX_TIMERS_NO.

Lemma scheduler_init_wf k : tables_sized k → kernel_wf (scheduler_init k).
Proof.
  intros [Hl Ht]. destruct k as [? ? ? ? ? ? ? ? tt ? ? timers]; simpl in *.
  do 8 (destruct tt as [|? tt]; [discriminate|]). destruct tt; [|discriminate].
  constructor; simpl; try done.
  - repeat constructor; simpl; try done; apply bool_decide_eq_true_1; vm_compute; reflexivity.
  - eexists. split; [reflexivity|]. done.
  - vm_compute. lia.
  - by rewrite length_fmap.
  - intros _. split_and!; [done..|]. by repeat constructor.
Qed.

Lemma boot_wf root prm stack size k :
  tables_sized k → root ≠ 0 → kernel_wf (mipos_start_init root prm stack size k).
Proof.
  intros Hk Hr. unfold mipos_start_init, mipos_t_create.
  apply t_create_loop_wf; [by apply scheduler_init_wf| |done|done].
  right. done.
Qed.

(** ** The invariant of the running system *)

Definition machine_wf (m : machine) : Prop :=
  kernel_wf (m_kern m) ∧
  match m_mode m with
  | InSched => True
  | InTask p => task_context_ptr (m_kern m) = p ∧ p ≠ 0%nat
  | Stuck => False
  end.

Lemma resume_wf sg p k t :
  kernel_wf k → task_context_ptr k = p → p ≠ 0%nat →
  task_table k !! p = Some t → entry_point t ≠ 0 →
  kernel_wf (_mipos_t_reset_signal_and_run sg k).
Proof.
  intros Hk <- Hp Ht Hne. unfold _mipos_t_reset_signal_and_run.
  apply wf_upd_task; [done| |done|done].
  intros u Hu [Hs He Hr Hw Hsus]. rewrite Ht in Hu. injection Hu as <-.
  constructor; simpl; try done. by apply valid_status.
Qed.

Lemma step_wf m m' : machine_wf m → step code_ok m m' → machine_wf m'.
Proof.
  intros [Hk Hm] Hstep.
  inversion Hstep; subst; simpl in *; clear Hstep; unfold machine_wf; simpl;
    try (match goal with
         | Hc : code_ok ?code, He : epoch ?code ?q ?sp ?s = _ |- _ =>
             destruct (epoch_wf code Hc q sp s Hk) as (d & s1 & Hd & Hk1 & Hok);
             rewrite Hd in He; inv_ok; simpl in Hok
         end).
  - done.
  - destruct Hok as (Hx & Hp & t' & sg' & Ht' & _ & Hne & _). split; [|done].
    by eapply resume_wf.
  - destruct Hok as (Hx & Hp & t' & sg' & Ht' & _ & _ & Hsg'). naive_solver.
  - destruct Hok as (Hx & Hp & _). done.
  - done.
  - done.
  - destruct Hm as [Hx Hp]. destruct (exec_api_wf c k) as (k1 & He & ? & [? ?]);
      [done|congruence|done|]. rewrite He in *. inv_ok. split; [done|]. split; [congruence|done].
  - destruct Hm as [Hx Hp]. destruct (exec_api_wf c k) as (k1 & He & _);
      [done|congruence|done|]. congruence.
  - destruct Hm as [Hx Hp]. split; [|done]. apply exec_blocking_wf; [done|congruence].
  - split; [|done]. apply wf_upd_task; [done| | |done].
    + eauto with mipos.
    + by intros _ t [].
  - split; [by destruct Hk; constructor|]. by destruct m0.
Qed.

(** A state reached from the boot state by any number of steps. *)
Definition reachable (allowed : user_code → Prop) (root prm stack size : Z) (k0 : mipos_kernel_t) (m : machine) : Prop :=
  rtc (step allowed) (mk_machine InSched (mipos_start_init root prm stack size k0)) m.

Lemma reachable_wf root prm stack size k0 m :
  tables_sized k0 → root ≠ 0 → reachable code_ok root prm stack size k0 m → machine_wf m.
Proof.
  intros Hk Hr. unfold reachable.
  assert (machine_wf (mk_machine InSched (mipos_start_init root prm stack size k0))) as Hb.
  { split; [by apply boot_wf|done]. }
  induction 1; eauto using step_wf.
Qed.

(** ** A concrete system *)

(** [mipos_kernel_env = { 0 }] *)
Definition zero_task : mipos_task_t :=
  mk_task "" 0 0 0 0 false false 0 0 0 0 0 0 NoContext 0 0 0 0.
Definition zero_timer : mipos_timer_t := mk_timer 0 0 0 0 0 0.
Definition mipos_kernel_env : mipos_kernel_t :=
  mk_kernel 0 0 0 0 0 0 0 NoContext
    (replicate (Z.to_nat MIPOS_TASKS_TBL_ENTRIES_CNT) zero_task) 0 0
    (replicate (Z.to_nat MIPOS_MAX_TIMERS_NO) zero_timer).

(** User code that calls no service, and a root task at address 100 with a
    stack of 1024 bytes at 4096. *)
Definition quiet_code : user_code := λ _ _ _, (0, []).

Lemma quiet_code_ok : code_ok quiet_code.
Proof. split; [intros; apply Forall_nil_2|done]. Qed.

Definition booted : mipos_kernel_t :=
  Eval vm_compute in mipos_start_init 100 0 4096 1024 mipos_kernel_env.

Lemma booted_eq : mipos_start_init 100 0 4096 1024 mipos_kernel_env = booted.
Proof. vm_compute. reflexivity. Qed.

Lemma booted_wf : kernel_wf booted.
Proof. rewrite <-booted_eq. apply boot_wf; [split; reflexivity|lia]. Qed.

Lemma booted_no_rt : Forall (λ t, rt_task t = false) (task_table booted).
Proof. repeat constructor. Qed.
