(* ===== verification/SchedProps.v ===== *)
(** * Properties of the scheduler

    Round-robin selection, bounded waiting, the timed suspensions, and the
    safety of the whole system. *)

From S2P Require Import Prelude Kernel Timer Scheduler KernelInv Machine.

(** ** Round-robin selection *)

(** The reference: the first eligible task met within [m] positions after
    [c], the idle entry excluded. *)
Fixpoint sweep (tt : list mipos_task_t) (m : nat) (c : Z) : option Z :=
  match m with
  | O => None
  | S m =>
      let c' := succ_task c in
      match tt !! Z.to_nat c' with
      | Some t => if eligible t && negb (c' =? KERNEL__IDLE_TASK_ID) then Some c'
                  else sweep tt m c'
      | None => sweep tt m c'
      end
  end.

Definition rr_pick (tt : list mipos_task_t) (c : Z) : Z :=
  default KERNEL__IDLE_TASK_ID (sweep tt (Z.to_nat MIPOS_TASKS_TBL_ENTRIES_CNT) c).

Definition no_rt (k : mipos_kernel_t) : Prop := Forall (λ t, rt_task t = false) (task_table k).

Section round_robin.
Context (code : Z → Z → mipos_kernel_t → Z * list api_call).
Context (k : mipos_kernel_t) (Hk : kernel_wf k) (Hrt : no_rt k) (l : list (Z * Z)).

(** The scheduler state at index [c] of the sweep. *)
Definition at_task (c : Z) : sched := mk_sched (set_current_task c k) l.

Lemma table_lookup c :
  0 ≤ c < MIPOS_TASKS_TBL_ENTRIES_CNT → ∃ t, task_table k !! Z.to_nat c = Some t.
Proof.
  intros Hc. apply lookup_lt_is_Some. rewrite (kw_len _ Hk).
  unfold MIPOS_TASKS_TBL_ENTRIES_CNT, MIPOS_MAX_TASKS_COUNT in *. lia.
Qed.

Lemma search_step_nort count c t :
  0 ≤ c < MIPOS_TASKS_TBL_ENTRIES_CNT →
  task_table k !! Z.to_nat (succ_task c) = Some t →
  search_step code count (at_task c) =
  Ok (negb (eligible t) || ((count <=? MIPOS_TASKS_TBL_ENTRIES_CNT) &&
                            (succ_task c =? KERNEL__IDLE_TASK_ID)),
      Z.to_nat (succ_task c), at_task (succ_task c)).
Proof.
  intros Hc Ht. unfold search_step, at_task, on_kern. simpl.
  rewrite (wrap_small 32) by (unfold MIPOS_TASKS_TBL_ENTRIES_CNT, MIPOS_MAX_TASKS_COUNT in *; lia).
  change ((c + 1) `mod` MIPOS_TASKS_TBL_ENTRIES_CNT) with (succ_task c).
  rewrite Ht. simpl. unfold rt_handling.
  rewrite (Forall_lookup_1 _ _ _ _ Hrt Ht). simpl. rewrite Ht. simpl. do 3 f_equal.
  unfold eligible, truth.
  by destruct (entry_point t =? 0), (rt_task t), (status t &? TASK_INVALID).
Qed.

(** During the first turn of the table the search follows [sweep]. *)
Lemma search_loop_sweep m fuel count c :
  0 ≤ c < MIPOS_TASKS_TBL_ENTRIES_CNT → 0 ≤ count →
  count + Z.of_nat m ≤ MIPOS_TASKS_TBL_ENTRIES_CNT →
  search_loop code (m + fuel) count (at_task c) =
  match sweep (task_table k) m c with
  | Some i => Ok (Z.to_nat i, at_task i)
  | None => search_loop code fuel (count + Z.of_nat m)
              (at_task ((c + Z.of_nat m) `mod` MIPOS_TASKS_TBL_ENTRIES_CNT))
  end.
Proof.
  revert count c. induction m as [|m IH]; intros count c Hc H0 Hm.
  - simpl. rewrite !Z.add_0_r, Z.mod_small by done. done.
  - simpl. pose proof (succ_task_bound c) as Hs.
    destruct (table_lookup _ Hs) as [t Ht].
    rewrite (search_step_nort (count + 1) c t), bind_Ok, Ht by done.
    replace (count + 1 <=? MIPOS_TASKS_TBL_ENTRIES_CNT) with true
      by (symmetry; apply Z.leb_le; lia).
    assert (search_loop code (m + fuel) (count + 1) (at_task (succ_task c)) =
      match sweep (task_table k) m (succ_task c) with
      | Some i => Ok (Z.to_nat i, at_task i)
      | None => search_loop code fuel (count + Z.of_nat (S m))
                  (at_task ((c + Z.of_nat (S m)) `mod` MIPOS_TASKS_TBL_ENTRIES_CNT))
      end) as Hrec.
    { rewrite IH by (done || lia). destruct (sweep (task_table k) m (succ_task c)); [done|].
      f_equal; [lia|]. f_equal. unfold succ_task. rewrite Zplus_mod_idemp_l. f_equal. lia. }
    destruct (eligible t), (succ_task c =? KERNEL__IDLE_TASK_ID); simpl; done.
Qed.

(** [sweep] over a whole turn misses no task. *)
Lemma sweep_None m c i t :
  sweep (task_table k) m c = None →
  (∃ j, 1 ≤ j ≤ Z.of_nat m ∧ i = (c + j) `mod` MIPOS_TASKS_TBL_ENTRIES_CNT) →
  task_table k !! Z.to_nat i = Some t → i ≠ 0 → eligible t = false.
Proof.
  revert c. induction m as [|m IH]; intros c; simpl; [intros _ (j & ? & _); lia|].
  intros Hs (j & Hj & ->) Ht Hi0.
  destruct (decide (j = 1)) as [->|Hj1].
  - unfold succ_task in Hs. rewrite Ht in Hs.
    apply Z.eqb_neq in Hi0. unfold KERNEL__IDLE_TASK_ID in Hs. rewrite Hi0 in Hs.
    by destruct (eligible t).
  - assert (sweep (task_table k) m (succ_task c) = None) as Hs'.
    { destruct (task_table k !! Z.to_nat (succ_task c)); [|done].
      by destruct (eligible _ && _). }
    apply (IH (succ_task c)); [done| |done|done].
    exists (j - 1). split; [lia|]. unfold succ_task. rewrite Zplus_mod_idemp_l. f_equal. lia.
Qed.

(** With nobody eligible, the second turn stops at the idle entry. *)
Lemma search_loop_idle fuel count c :
  (∀ i t, 0 < i < MIPOS_TASKS_TBL_ENTRIES_CNT →
          task_table k !! Z.to_nat i = Some t → eligible t = false) →
  0 ≤ c < MIPOS_TASKS_TBL_ENTRIES_CNT → MIPOS_TASKS_TBL_ENTRIES_CNT ≤ count →
  MIPOS_TASKS_TBL_ENTRIES_CNT - c ≤ Z.of_nat fuel →
  search_loop code fuel count (at_task c) = Ok (0%nat, at_task 0).
Proof.
  intros Hno. revert count c. induction fuel as [|fuel IH]; intros count c Hc Hcount Hf; [lia|].
  simpl. pose proof (succ_task_bound c) as Hs. destruct (table_lookup _ Hs) as [t Ht].
  rewrite (search_step_nort (count + 1) c t), bind_Ok by done.
  replace (count + 1 <=? MIPOS_TASKS_TBL_ENTRIES_CNT) with false
    by (symmetry; apply Z.leb_gt; lia). simpl. rewrite orb_false_r.
  destruct (decide (succ_task c = 0)) as [H0|H0].
  - rewrite H0 in *. destruct (kw_idle _ Hk) as (ti & Hti & He & Hst & Hr).
    change (Z.to_nat 0) with 0%nat in Ht. rewrite Ht in Hti. injection Hti as <-.
    unfold eligible. by rewrite He, Hst, Hr.
  - rewrite (Hno (succ_task c) t) by (done || lia). simpl. apply IH; [done|lia|].
    revert Hf H0 Hs. unfold succ_task, MIPOS_TASKS_TBL_ENTRIES_CNT, MIPOS_MAX_TASKS_COUNT in *.
    destruct (decide (c = 7)) as [->|]; [done|]. rewrite Z.mod_small by lia. lia.
Qed.

Lemma task_search_rr :
  task_search code (mk_sched k l) =
  Ok (Z.to_nat (rr_pick (task_table k) (current_task k)),
      at_task (rr_pick (task_table k) (current_task k))).
Proof.
  pose proof (kw_cur _ Hk) as Hc.
  replace (mk_sched k l) with (at_task (current_task k)) by (unfold at_task; by destruct k).
  unfold task_search, rr_pick.
  change (Z.to_nat (2 * MIPOS_TASKS_TBL_ENTRIES_CNT))
    with (Z.to_nat MIPOS_TASKS_TBL_ENTRIES_CNT + Z.to_nat MIPOS_TASKS_TBL_ENTRIES_CNT)%nat.
  rewrite search_loop_sweep by (done || lia).
  destruct (sweep (task_table k) _ (current_task k)) as [i|] eqn:Hsw; [done|].
  rewrite search_loop_idle; [done| | | |].
  - intros i t Hi Ht. eapply sweep_None; [done| |done|lia].
    unfold MIPOS_TASKS_TBL_ENTRIES_CNT, MIPOS_MAX_TASKS_COUNT in *.
    destruct (decide (current_task k < i)).
    + exists (i - current_task k). split; [lia|]. rewrite Z.mod_small by lia. lia.
    + exists (i + 8 - current_task k). split; [lia|].
      replace (current_task k + (i + 8 - current_task k)) with (i + 1 * 8) by lia.
      rewrite Z_mod_plus_full, Z.mod_small by lia. done.
  - by apply Z.mod_pos_bound.
  - done.
  - pose proof (Z.mod_pos_bound (current_task k + Z.of_nat (Z.to_nat MIPOS_TASKS_TBL_ENTRIES_CNT))
      MIPOS_TASKS_TBL_ENTRIES_CNT). lia.
Qed.
End round_robin.

(** ** Bounded waiting *)

(** Positions from [c] forward to [i], between 1 and the table size. *)
Definition rr_dist (c i : Z) : Z := (i - c - 1) `mod` MIPOS_TASKS_TBL_ENTRIES_CNT + 1.

Lemma rr_dist_bound c i : 1 ≤ rr_dist c i ≤ MIPOS_TASKS_TBL_ENTRIES_CNT.
Proof.
  unfold rr_dist. pose proof (Z.mod_pos_bound (i - c - 1) MIPOS_TASKS_TBL_ENTRIES_CNT).
  unfold MIPOS_TASKS_TBL_ENTRIES_CNT, MIPOS_MAX_TASKS_COUNT in *. lia.
Qed.

Lemma rr_dist_reach c i :
  0 ≤ i < MIPOS_TASKS_TBL_ENTRIES_CNT →
  (c + rr_dist c i) `mod` MIPOS_TASKS_TBL_ENTRIES_CNT = i.
Proof.
  intros Hi. unfold rr_dist.
  replace (c + ((i - c - 1) `mod` MIPOS_TASKS_TBL_ENTRIES_CNT + 1))
    with ((c + 1) + (i - c - 1) `mod` MIPOS_TASKS_TBL_ENTRIES_CNT) by lia.
  rewrite Zplus_mod_idemp_r. replace (c + 1 + (i - c - 1)) with i by lia.
  by apply Z.mod_small.
Qed.

(** Moving forward by fewer positions shortens the distance by as many. *)
Lemma rr_dist_step c j i :
  0 ≤ j < rr_dist c i → rr_dist ((c + j) `mod` MIPOS_TASKS_TBL_ENTRIES_CNT) i = rr_dist c i - j.
Proof.
  unfold rr_dist. intros Hj.
  set (m := MIPOS_TASKS_TBL_ENTRIES_CNT) in *.
  assert (0 < m) by done.
  replace ((i - (c + j) `mod` m - 1) `mod` m) with ((i - c - 1) `mod` m - j); [lia|].
  rewrite <-(Z.mod_small ((i - c - 1) `mod` m - j) m)
    by (pose proof (Z.mod_pos_bound (i - c - 1) m); lia).
  rewrite Zminus_mod_idemp_l.
  replace (i - (c + j) `mod` m - 1) with (i - 1 - (c + j) `mod` m) by lia.
  rewrite Zminus_mod_idemp_r. f_equal. lia.
Qed.

(** An eligible task stops the sweep at its position or earlier. *)
Lemma sweep_reaches tt m c i t :
  0 < i < MIPOS_TASKS_TBL_ENTRIES_CNT → tt !! Z.to_nat i = Some t → eligible t = true →
  rr_dist c i ≤ Z.of_nat m →
  ∃ p, sweep tt m c = Some p ∧ (p = i ∨ rr_dist p i < rr_dist c i).
Proof.
  intros Hi Ht He. revert c. induction m as [|m IH]; intros c Hd.
  { pose proof (rr_dist_bound c i). lia. }
  simpl. destruct (decide (rr_dist c i = 1)) as [H1|H1].
  - pose proof (rr_dist_reach c i) as Hr. rewrite H1 in Hr. unfold succ_task.
    rewrite Hr, Ht, He by lia. exists i.
    destruct (i =? KERNEL__IDLE_TASK_ID) eqn:E; [|by eauto].
    apply Z.eqb_eq in E. unfold KERNEL__IDLE_TASK_ID in E. lia.
  - pose proof (rr_dist_bound c i).
    assert (rr_dist (succ_task c) i = rr_dist c i - 1) as Hs by (apply rr_dist_step; lia).
    destruct (IH (succ_task c)) as (p & Hp & Hor); [lia|].
    assert (∃ p0, sweep tt m (succ_task c) = Some p0 ∧ (p0 = i ∨ rr_dist p0 i < rr_dist c i))
      as Hrec by (exists p; split; [done|]; destruct Hor; [by left|right; lia]).
    destruct (tt !! Z.to_nat (succ_task c)) as [u|]; [|done].
    destruct (eligible u && negb (succ_task c =? KERNEL__IDLE_TASK_ID)); [|done].
    exists (succ_task c). split; [done|]. right. lia.
Qed.

Lemma rr_pick_progress tt c i t :
  0 < i < MIPOS_TASKS_TBL_ENTRIES_CNT → tt !! Z.to_nat i = Some t → eligible t = true →
  rr_pick tt c = i ∨ rr_dist (rr_pick tt c) i < rr_dist c i.
Proof.
  intros Hi Ht He. unfold rr_pick.
  destruct (sweep_reaches tt (Z.to_nat MIPOS_TASKS_TBL_ENTRIES_CNT) c i t)
    as (p & -> & Hor); [done..| |done].
  pose proof (rr_dist_bound c i). unfold MIPOS_TASKS_TBL_ENTRIES_CNT, MIPOS_MAX_TASKS_COUNT in *.
  lia.
Qed.

(** A run of the search, epoch after epoch: between two searches anything may
    happen to the kernel that keeps the invariant, leaves [current_task] alone
    and keeps task [i] eligible. *)
Record search_run (code : Z → Z → mipos_kernel_t → Z * list api_call) (i : Z)
    (before after : nat → sched) (pick : nat → nat) : Prop := {
  sr_wf : ∀ n, kernel_wf (kern (before n));
  sr_eligible : ∀ n, ∃ t, task_table (kern (before n)) !! Z.to_nat i = Some t ∧
                          eligible t = true;
  sr_search : ∀ n, task_search code (before n) = Ok (pick n, after n);
  sr_next : ∀ n, current_task (kern (before (S n))) = current_task (kern (after n));
}.

Lemma search_run_wait code i before after pick d n :
  0 < i < MIPOS_TASKS_TBL_ENTRIES_CNT → (∀ n, no_rt (kern (before n))) → search_run code i before after pick →
  rr_dist (current_task (kern (before n))) i ≤ Z.of_nat d →
  ∃ m, (n ≤ m < n + d)%nat ∧ pick m = Z.to_nat i.
Proof.
  intros Hi Hnort Hr. revert n. induction d as [|d IH]; intros n Hd.
  { pose proof (rr_dist_bound (current_task (kern (before n))) i). lia. }
  destruct (sr_eligible _ _ _ _ _ Hr n) as (t & Ht & He).
  pose proof (sr_search _ _ _ _ _ Hr n) as Hs.
  destruct (before n) as [k l] eqn:Hb. 
  pose proof (sr_wf _ _ _ _ _ Hr n) as Hk. pose proof (Hnort n) as Hn.
  rewrite Hb in Hk, Hn. simpl in *.
  rewrite task_search_rr in Hs by done. injection Hs as Hp Ha.
  destruct (rr_pick_progress (task_table k) (current_task k) i t) as [Heq|Hlt]; [done..| |].
  - exists n. split; [lia|]. by rewrite <-Hp, Heq.
  - destruct (IH (S n)) as (m & Hm & Hpm); [|exists m; split; [lia|done]].
    rewrite (sr_next _ _ _ _ _ Hr n), <-Ha. simpl. lia.
Qed.

(** ** The system never halts *)

(** C1: from boot, however tasks, callbacks and the clock interrupt interleave,
    the system never reaches the panic loop, a null or wild call, a table
    access out of bounds or a resume without a saved context; and in the
    scheduler a turn always returns a decision other than panic, the task
    search within its two sweeps.  The tasks and callbacks may do what
    [code_ok] and [api_ok] say and nothing else: callbacks and real-time tasks
    call only services that do not block, a real-time task returns 0 or the
    identifier of a task that has suspended itself and was not resumed since,
    entry points are not null and [mipos_timer_restart] gets an identifier
    below the table size.  The kernel tests none of this;
    [bad_rt_result_crashes] shows what another result does. *)
Theorem kernel_never_halts root prm stack size k0 m :
  tables_sized k0 → root ≠ 0 → reachable code_ok root prm stack size k0 m →
  m_mode m ≠ Stuck ∧
  ∀ code q sp l, m_mode m = InSched → code_ok code →
    ∃ d s', epoch code q sp (mk_sched (m_kern m) l) = Ok (d, s') ∧ d ≠ ToPanic.
Proof.
  intros Hk Hr Hm. apply reachable_wf in Hm as [Hwf Hmode]; [|done..].
  split; [by destruct (m_mode m)|]. intros code q sp l _ Hc.
  destruct (epoch_wf code Hc q sp (mk_sched (m_kern m) l) Hwf) as (d & s' & He & _ & Hd).
  exists d, s'. split; [done|]. by intros ->.
Qed.

(** The system after the root task has been started once and has yielded. *)
Definition after_first_yield : machine := Eval vm_compute in
  match epoch quiet_code 1 0 (mk_sched booted []) with
  | Ok (ToStart p _, s) => mk_machine InSched (exec_blocking (BWkafter 0) 5000 (kern s))
  | _ => mk_machine Stuck booted
  end.

Lemma kernel_never_halts_witness :
  m_mode after_first_yield ≠ Stuck ∧
  ∀ code q sp l, m_mode after_first_yield = InSched → code_ok code →
    ∃ d s', epoch code q sp (mk_sched (m_kern after_first_yield) l) = Ok (d, s') ∧ d ≠ ToPanic.
Proof.
  apply (kernel_never_halts 100 0 4096 1024 mipos_kernel_env after_first_yield);
    [split; reflexivity|lia|].
  unfold reachable, after_first_yield. rewrite booted_eq.
  eapply rtc_l; [eapply (step_start _ quiet_code 1 0 []); [apply quiet_code_ok|reflexivity]|].
  eapply rtc_l; [apply (step_block _ _ (BWkafter 0) 5000)|]. apply rtc_refl.
Defined.

(** The real-time task at address 200 asks for task 3. *)
Definition asks_for_3 : user_code := λ fn _ _, (if fn =? 200 then 3 else 0, []).

(** Without the restriction on the results of real-time tasks the system
    crashes: the root task creates a real-time task and another one and
    suspends itself; the real-time task asks for the other one, which was never
    started, and the dispatcher resumes it from registers never saved. *)
Theorem bad_rt_result_crashes :
  ∃ m, reachable (λ _, True) 100 0 4096 1024 mipos_kernel_env m ∧ m_mode m = Stuck.
Proof.
  unfold reachable. rewrite booted_eq.
  eexists. split; [|shelve].
  eapply rtc_l; [eapply (step_start _ quiet_code 1 0 []); [done|reflexivity]|].
  eapply rtc_l; [eapply (step_service _ _ (ACreate "rt" 200 0 8192 1024 MIPOS_RT)); [done|reflexivity]|].
  eapply rtc_l; [eapply (step_service _ _ (ACreate "late" 300 0 9216 1024 MIPOS_NO_RT)); [done|reflexivity]|].
  eapply rtc_l; [apply (step_block _ _ (BSuspend MIPOS_SIGWKP) 5000)|].
  eapply rtc_l; [|apply rtc_refl].
  eapply (step_resume_nowhere _ asks_for_3 1 0 []); [done|vm_compute; reflexivity|vm_compute; reflexivity|done].
  Unshelve. done.
Qed.

(** ** Selection *)

(** C2: without real-time tasks the search selects exactly the first eligible
    task in round-robin order after the current one, and the idle entry when
    there is none. *)
Theorem search_is_round_robin code k l :
  kernel_wf k → no_rt k →
  task_search code (mk_sched k l) =
  Ok (Z.to_nat (rr_pick (task_table k) (current_task k)),
      mk_sched (set_current_task (rr_pick (task_table k) (current_task k)) k) l).
Proof. intros Hk Hrt. by apply task_search_rr. Qed.

Lemma search_is_round_robin_witness :
  rr_pick (task_table booted) (current_task booted) = 1 ∧
  task_search quiet_code (mk_sched booted []) = Ok (1%nat, mk_sched (set_current_task 1 booted) []).
Proof.
  split; [reflexivity|].
  apply (search_is_round_robin quiet_code booted []); [apply booted_wf|apply booted_no_rt].
Defined.

(** C3: no starvation as long as no task is real-time: a task that stays
    eligible is selected within as many searches as the table has entries.
    (With real-time tasks the search may jump to the task they ask for.) *)
Theorem round_robin_bounded_wait code i before after pick :
  0 < i < MIPOS_TASKS_TBL_ENTRIES_CNT → (∀ n, no_rt (kern (before n))) → search_run code i before after pick →
  ∃ n, (n < Z.to_nat MIPOS_TASKS_TBL_ENTRIES_CNT)%nat ∧ pick n = Z.to_nat i.
Proof.
  intros Hi Hnort Hr.
  destruct (search_run_wait code i before after pick (Z.to_nat MIPOS_TASKS_TBL_ENTRIES_CNT) 0)
    as (m & Hm & Hp); [done..| |by exists m; split; [lia|]].
  pose proof (rr_dist_bound (current_task (kern (before 0%nat))) i).
  unfold MIPOS_TASKS_TBL_ENTRIES_CNT, MIPOS_MAX_TASKS_COUNT in *. lia.
Qed.

Definition run_before (n : nat) : sched :=
  mk_sched (match n with O => booted | S _ => set_current_task 1 booted end) [].

Lemma round_robin_bounded_wait_witness :
  ∃ n, (n < Z.to_nat MIPOS_TASKS_TBL_ENTRIES_CNT)%nat ∧ (λ _ : nat, 1%nat) n = Z.to_nat 1.
Proof.
  apply (round_robin_bounded_wait quiet_code 1 run_before
           (λ _, mk_sched (set_current_task 1 booted) []) (λ _, 1%nat)); [done|intros [|n]; apply booted_no_rt|].
  split.
  - intros [|n]; [apply booted_wf|]. apply set_current_wf; [apply booted_wf|done].
  - intros [|n]; eexists; split; reflexivity.
  - intros [|n]; reflexivity.
  - intros [|n]; reflexivity.
Defined.

(** ** Timed suspensions *)

(** The visits of a suspended task by successive epochs, at the given values
    of the RTC. *)
Definition visits (rtcs : list Z) (t : mipos_task_t) : mipos_task_t :=
  foldl (λ t rtc, tsm_suspended rtc t) t rtcs.

(** The descriptor of the running task after a service. *)
Definition current (k : mipos_kernel_t) : option mipos_task_t :=
  task_table k !! task_context_ptr k.

(** A running task waiting for nothing. *)
Definition runs_clean (sig : Z) (t : mipos_task_t) : Prop :=
  status t = TASK_RUNNING ∧ signal_waiting t = 0 ∧ (signal_pending t &? sig) = false.

Lemma current_wkafter n sp k t :
  current k = Some t → status t = TASK_RUNNING →
  current (mipos_tm_wkafter n sp k) =
  Some (set_timer_tick_count (s32 (u32 n)) (set_status TASK_SUSPENDED
         (set_signal_waiting (u8 (Z.lor (signal_waiting t) MIPOS_SIGALM))
            (set_process_stack_pointer sp (set_reg_state (InMacro MIPOS_SIGALM) t))))).
Proof.
  unfold current, mipos_tm_wkafter, _mipos_tm_wkafter, _mipos_t_set_wait_for_signal.
  intros Ht Hst. simpl. rewrite !list_lookup_alter, !decide_True, Ht by done. simpl.
  by rewrite Hst.
Qed.

(** While ticks remain, a visit takes one and changes nothing else. *)
Lemma visit_alarm_ticks rtc t n :
  signal_waiting t = MIPOS_SIGALM → (signal_pending t &? MIPOS_SIGALM) = false →
  timer_tick_count t = n → 0 < n →
  tsm_suspended rtc t = set_timer_tick_count (n - 1) t.
Proof.
  intros Hw Hp <- Hn. destruct t; unfold tsm_suspended; simpl in *. subst. simpl.
  apply Z.ltb_lt in Hn as ->. simpl. by rewrite Hp.
Qed.

Lemma visit_alarm_fires rtc t :
  signal_waiting t = MIPOS_SIGALM → 0 ≤ signal_pending t < 256 → timer_tick_count t = 0 →
  status (tsm_suspended rtc t) = TASK_READY ∧ wkup (tsm_suspended rtc t) = true.
Proof.
  intros Hw Hp Hn. destruct t; unfold tsm_suspended; simpl in *. subst. simpl.
  assert ((u8 (Z.lor signal_pending MIPOS_SIGALM) &? MIPOS_SIGALM) = true) as ->; [|done].
  apply truth_true. intros H0.
  assert (Z.testbit (Z.land (u8 (Z.lor signal_pending MIPOS_SIGALM)) MIPOS_SIGALM) 2 = false)
    as Hb by (rewrite H0; apply Z.bits_0).
  rewrite Z.land_spec, wrap_spec, Z.lor_spec in Hb by lia.
  by rewrite orb_true_r in Hb.
Qed.

Lemma visits_alarm rtcs t n :
  signal_waiting t = MIPOS_SIGALM → (signal_pending t &? MIPOS_SIGALM) = false →
  status t = TASK_SUSPENDED → timer_tick_count t = n →
  Z.of_nat (length rtcs) ≤ n →
  visits rtcs t = set_timer_tick_count (n - Z.of_nat (length rtcs)) t.
Proof.
  revert t n. induction rtcs as [|rtc rtcs IH]; intros t n Hw Hp Hst Hn Hl; simpl.
  - rewrite Z.sub_0_r, <-Hn. by destruct t.
  - simpl in Hl. rewrite (visit_alarm_ticks rtc t n) by (done || lia).
    rewrite (IH (set_timer_tick_count (n - 1) t) (n - 1)) by (done || lia).
    destruct t; unfold set_timer_tick_count; simpl. f_equal. lia.
Qed.

(** C19: [mipos_tm_wkafter(n)] by a task waiting for nothing else suspends it
    for exactly [n] scheduler visits: it is still suspended after any [n] of
    them and ready to be resumed after the next one. *)
Theorem wkafter_suspends_n_visits n sp k t rtcs rtc :
  0 ≤ n < 2 ^ 31 → current k = Some t → runs_clean MIPOS_SIGALM t →
  0 ≤ signal_pending t < 256 → length rtcs = Z.to_nat n →
  ∃ t', current (mipos_tm_wkafter n sp k) = Some t' ∧
    (∀ m, status (visits (take m rtcs) t') = TASK_SUSPENDED) ∧
    status (visits (rtcs ++ [rtc]) t') = TASK_READY ∧
    wkup (visits (rtcs ++ [rtc]) t') = true.
Proof.
  intros Hn Ht (Hst & Hw & Hp) Hpb Hl. rewrite (current_wkafter n sp k t) by done.
  rewrite (wrap_small 32), (swrap_small 32) by lia. rewrite Hw.
  eexists. split; [reflexivity|]. set (t' := set_timer_tick_count n _).
  assert (∀ l, Z.of_nat (length l) ≤ n →
    visits l t' = set_timer_tick_count (n - Z.of_nat (length l)) t') as Hv
    by (intros; by apply visits_alarm).
  split.
  - intros m. rewrite Hv; [done|]. rewrite length_take. lia.
  - unfold visits. rewrite foldl_app. change (foldl _ t' rtcs) with (visits rtcs t').
    simpl. rewrite Hv by lia. apply visit_alarm_fires; [done|done|]. simpl. lia.
Qed.

Lemma wkafter_suspends_n_visits_witness :
  let k := mk_kernel 0 0 0 0 1 1 1 NoContext
    [zero_task; set_status TASK_RUNNING zero_task] 0 0 [] in
  ∃ t', current (mipos_tm_wkafter 2 9 k) = Some t' ∧
    (∀ m, status (visits (take m [5; 6]) t') = TASK_SUSPENDED) ∧
    status (visits ([5; 6] ++ [7]) t') = TASK_READY ∧
    wkup (visits ([5; 6] ++ [7]) t') = true.
Proof.
  intros k. apply (wkafter_suspends_n_visits 2 9 k (set_status TASK_RUNNING zero_task) [5; 6] 7);
    [lia|reflexivity|repeat split|simpl; lia|reflexivity].
Defined.

Lemma current_msleep n sp k t :
  current k = Some t → status t = TASK_RUNNING →
  current (mipos_tm_msleep n sp k) =
  Some (set_process_stack_pointer sp (set_rtc_timeout (u64 (rtc_counter k + u32 n))
         (set_status TASK_SUSPENDED
           (set_signal_waiting (u8 (Z.lor (signal_waiting t) MIPOS_SIGTMR))
              (set_reg_state (InMacro MIPOS_SIGTMR) t))))).
Proof.
  unfold current, mipos_tm_msleep, _mipos_tm_rtc_quantum_sleep, _mipos_t_set_wait_for_signal.
  intros Ht Hst. simpl. rewrite !list_lookup_alter, !decide_True, Ht by done. simpl.
  by rewrite Hst.
Qed.

Lemma visit_timer_early rtc t :
  signal_waiting t = MIPOS_SIGTMR → (signal_pending t &? MIPOS_SIGTMR) = false →
  rtc_timeout t = 0 ∨ rtc < rtc_timeout t → tsm_suspended rtc t = t.
Proof.
  intros Hw Hp Hr. destruct t; unfold tsm_suspended; simpl in *. subst. simpl.
  replace (truth rtc_timeout && (rtc_timeout <=? rtc)) with false.
  - simpl. by rewrite Hp.
  - symmetry. apply andb_false_iff. destruct Hr as [->|?]; [by left|right; lia].
Qed.

Lemma visit_timer_due rtc t :
  signal_waiting t = MIPOS_SIGTMR → 0 ≤ signal_pending t < 256 →
  rtc_timeout t ≠ 0 → rtc_timeout t ≤ rtc →
  status (tsm_suspended rtc t) = TASK_READY ∧ wkup (tsm_suspended rtc t) = true.
Proof.
  intros Hw Hp Hr Hd. destruct t; unfold tsm_suspended; simpl in *. subst. simpl.
  apply truth_true in Hr as ->. apply Z.leb_le in Hd as ->. simpl.
  assert ((u8 (Z.lor signal_pending MIPOS_SIGTMR) &? MIPOS_SIGTMR) = true) as ->; [|done].
  apply truth_true. intros H0.
  assert (Z.testbit (Z.land (u8 (Z.lor signal_pending MIPOS_SIGTMR)) MIPOS_SIGTMR) 3 = false)
    as Hb by (rewrite H0; apply Z.bits_0).
  rewrite Z.land_spec, wrap_spec, Z.lor_spec in Hb by lia.
  by rewrite orb_true_r in Hb.
Qed.

(** [mipos_tm_msleep(n)] called at time [r] keeps the task suspended
    through every visit before [r + n] and makes it ready at the first visit
    from then on, as long as [r + n] fits the counter and is not 0. *)
Theorem msleep_wakes_at_deadline n sp k t rtcs rtc :
  current k = Some t → runs_clean MIPOS_SIGTMR t → 0 ≤ signal_pending t < 256 →
  0 ≤ n < 2 ^ 32 → 0 < rtc_counter k + n < 2 ^ 64 →
  Forall (λ r, r < rtc_counter k + n) rtcs → rtc_counter k + n ≤ rtc →
  ∃ t', current (mipos_tm_msleep n sp k) = Some t' ∧
    status (visits rtcs t') = TASK_SUSPENDED ∧
    status (visits (rtcs ++ [rtc]) t') = TASK_READY ∧
    wkup (visits (rtcs ++ [rtc]) t') = true.
Proof.
  intros Ht (Hst & Hw & Hp) Hpb Hn Hr Hearly Hlate. rewrite (current_msleep n sp k t) by done.
  rewrite (wrap_small 32), (wrap_small 64) by lia. rewrite Hw.
  eexists. split; [reflexivity|]. set (t' := set_process_stack_pointer sp _).
  assert (visits rtcs t' = t') as Hv.
  { induction Hearly as [|r rtcs Hr1 _ IH]; [done|]. simpl.
    rewrite (visit_timer_early r t'); [done|done|done|]. right. simpl. lia. }
  rewrite Hv. split; [done|]. unfold visits. rewrite foldl_app.
  change (foldl _ t' rtcs) with (visits rtcs t'). rewrite Hv. simpl.
  apply visit_timer_due; simpl; lia || done.
Qed.

Lemma msleep_wakes_at_deadline_witness :
  let k := mk_kernel 0 0 0 100 1 1 1 NoContext
    [zero_task; set_status TASK_RUNNING zero_task] 0 0 [] in
  ∃ t', current (mipos_tm_msleep 20 9 k) = Some t' ∧
    status (visits [105; 119] t') = TASK_SUSPENDED ∧
    status (visits ([105; 119] ++ [125]) t') = TASK_READY ∧
    wkup (visits ([105; 119] ++ [125]) t') = true.
Proof.
  intros k.
  apply (msleep_wakes_at_deadline 20 9 k (set_status TASK_RUNNING zero_task) [105; 119] 125);
    [reflexivity|repeat split|simpl; lia|lia|simpl; lia| |simpl; lia].
  repeat constructor; simpl; lia.
Defined.

(** The documentation says that [mipos_tm_msleep(0)] has no effect; when
    the RTC counter is 0 (before the first clock tick) the deadline it stores
    is 0, which the scheduler reads as no deadline: the caller is suspended
    and no later visit, whatever the time, wakes it. *)
Theorem msleep_zero_at_time_zero_sleeps_forever sp k t rtcs :
  current k = Some t → runs_clean MIPOS_SIGTMR t → rtc_counter k = 0 →
  ∃ t', current (mipos_tm_msleep 0 sp k) = Some t' ∧
    status (visits rtcs t') = TASK_SUSPENDED.
Proof.
  intros Ht (Hst & Hw & Hp) Hr. rewrite (current_msleep 0 sp k t) by done.
  rewrite Hw, Hr. eexists. split; [reflexivity|]. set (t' := set_process_stack_pointer sp _).
  assert (visits rtcs t' = t') as ->; [|done].
  induction rtcs as [|r rtcs IH]; [done|]. simpl.
  rewrite (visit_timer_early r t'); [done|done|done|]. by left.
Qed.

Lemma msleep_zero_at_time_zero_sleeps_forever_witness :
  let k := mk_kernel 0 0 0 0 1 1 1 NoContext
    [zero_task; set_status TASK_RUNNING zero_task] 0 0 [] in
  ∃ t', current (mipos_tm_msleep 0 9 k) = Some t' ∧
    status (visits [1; 1000; 1000000] t') = TASK_SUSPENDED.
Proof.
  intros k. apply (msleep_zero_at_time_zero_sleeps_forever 9 k
    (set_status TASK_RUNNING zero_task)); [reflexivity|repeat split|reflexivity].
Defined.
