(* ===== verification/TaskProps.v ===== *)
(** * Properties of the task services

    Creation, freezing, signals and the first stack frame. *)

From S2P Require Import Prelude Kernel Timer Scheduler KernelInv Machine.

(** ** Creation *)

(** The reference: the first free descriptor from [id] on. *)
Definition free_at (k : mipos_kernel_t) (i : nat) : Prop :=
  ∃ t, task_table k !! i = Some t ∧ entry_point t = 0.

Definition created (nm : string) (ep prm stack size flags : Z) (t : mipos_task_t) : mipos_task_t :=
  set_stack_size size (set_task_stack stack (_mipos_t_create nm ep prm flags t)).

Lemma t_create_loop_spec n id nm ep prm stack size flags k :
  (id + n = length (task_table k))%nat →
  (∃ i, (id ≤ i < id + n)%nat ∧ free_at k i ∧ (∀ j, (id ≤ j < i)%nat → ¬ free_at k j) ∧
     t_create_loop n id nm ep prm stack size flags k =
     (Z.of_nat i, upd_task i (created nm ep prm stack size flags) k)) ∨
  ((∀ j, (id ≤ j < id + n)%nat → ¬ free_at k j) ∧
   t_create_loop n id nm ep prm stack size flags k = (u32 (-1), k)).
Proof.
  revert id. induction n as [|n IH]; intros id Hl; simpl.
  { right. split; [lia|done]. }
  destruct (lookup_lt_is_Some_2 (task_table k) id) as [t Ht]; [lia|]. rewrite Ht.
  destruct (entry_point t =? 0) eqn:He; bool_to_prop.
  - left. exists id. split; [lia|]. split; [by exists t|]. split; [lia|done].
  - assert (¬ free_at k id) as Hid by (intros (u & Hu & Hu0); congruence).
    destruct (IH (S id)) as [(i & Hi & Hf & Hj & Heq)|[Hj Heq]]; [lia| |].
    + left. exists i. split; [lia|]. split; [done|]. split; [|done].
      intros j Hj'. destruct (decide (j = id)) as [->|]; [done|]. apply Hj. lia.
    + right. split; [|done]. intros j Hj'.
      destruct (decide (j = id)) as [->|]; [done|]. apply Hj. lia.
Qed.

(** [mipos_t_create] takes the first free descriptor after the idle one,
    touches no other, and makes it ready (and eligible, unless it is real
    time); it returns the error identifier, and changes nothing, exactly when
    the table is full. *)
Theorem t_create_first_free nm ep prm stack size flags k :
  length (task_table k) = Z.to_nat MIPOS_TASKS_TBL_ENTRIES_CNT → ep ≠ 0 →
  let '(id, k') := mipos_t_create nm ep prm stack size flags k in
  (∃ i, (1 ≤ i < Z.to_nat MIPOS_TASKS_TBL_ENTRIES_CNT)%nat ∧ id = Z.of_nat i ∧ free_at k i ∧
     (∀ j, (1 ≤ j < i)%nat → ¬ free_at k j) ∧
     (∀ j, j ≠ i → task_table k' !! j = task_table k !! j) ∧
     ∃ t, task_table k' !! i = Some t ∧ entry_point t = ep ∧ param t = prm ∧
          status t = TASK_READY ∧ wkup t = false ∧
          (Z.land flags MIPOS_RT ≠ MIPOS_RT → eligible t = true)) ∨
  ((∀ j, (1 ≤ j < Z.to_nat MIPOS_TASKS_TBL_ENTRIES_CNT)%nat → ¬ free_at k j) ∧
   id = u32 (-1) ∧ k' = k).
Proof.
  intros Hl Hep. unfold mipos_t_create.
  destruct (t_create_loop_spec (Z.to_nat MIPOS_TASKS_TBL_ENTRIES_CNT - 1) 1
              nm ep prm stack size flags k) as [(i & Hi & Hf & Hj & ->)|[Hj ->]].
  - rewrite Hl. reflexivity.
  - left. exists i. split; [vm_compute in Hi |- *; lia|]. split; [done|]. split; [done|].
    split; [done|]. split; [intros j Hne; simpl; by apply list_lookup_alter_ne|].
    destruct Hf as (t & Ht & _). eexists.
    split; [simpl; rewrite list_lookup_alter, decide_True, Ht by done; reflexivity|].
    split_and!; try done. intros Hrt. unfold eligible. simpl.
    apply Z.eqb_neq in Hep. unfold truth. rewrite Hep. apply Z.eqb_neq in Hrt.
    by rewrite Hrt.
  - right. split; [|done]. intros j Hj'. apply Hj. vm_compute in Hj' |- *. lia.
Qed.

Lemma t_create_first_free_witness :
  mipos_t_create "a" 200 7 8192 512 MIPOS_NO_RT booted =
    (2, upd_task 2 (created "a" 200 7 8192 512 MIPOS_NO_RT) booted) ∧
  ((∃ i, (1 ≤ i < Z.to_nat MIPOS_TASKS_TBL_ENTRIES_CNT)%nat ∧
      fst (mipos_t_create "a" 200 7 8192 512 MIPOS_NO_RT booted) = Z.of_nat i) ∨
   fst (mipos_t_create "a" 200 7 8192 512 MIPOS_NO_RT booted) = u32 (-1)).
Proof.
  split; [reflexivity|].
  pose proof (t_create_first_free "a" 200 7 8192 512 MIPOS_NO_RT booted eq_refl) as H.
  destruct (mipos_t_create "a" 200 7 8192 512 MIPOS_NO_RT booted) as [id k'].
  destruct H as [(i & Hi & Hid & _)|(_ & Hid & _)]; [lia| |].
  - left. exists i. split; [exact Hi|exact Hid].
  - right. exact Hid.
Defined.

(** ** Freezing *)

Lemma get_p_task_with id id' f k :
  _mipos_get_p_task id' (with_p_task id f k) = _mipos_get_p_task id' k.
Proof. unfold with_p_task. by destruct (_mipos_get_p_task id k). Qed.

Lemma with_p_task_compose id f g k :
  with_p_task id g (with_p_task id f k) = with_p_task id (g ∘ f) k.
Proof.
  unfold with_p_task at 1. rewrite get_p_task_with. unfold with_p_task.
  destruct (_mipos_get_p_task id k) as [p|]; [|done].
  unfold upd_task, set_task_table. simpl. f_equal. apply list_eq. intros i.
  rewrite !list_lookup_alter. repeat case_decide; try done. by destruct (task_table k !! p).
Qed.

Lemma with_p_task_id id f k :
  (∀ p t, _mipos_get_p_task id k = Some p → task_table k !! p = Some t → f t = t) →
  with_p_task id f k = k.
Proof.
  intros H. unfold with_p_task. destruct (_mipos_get_p_task id k) as [p|]; [|done].
  unfold upd_task. replace (alter f p (task_table k)) with (task_table k); [by destruct k|].
  symmetry. apply list_eq. intros i. rewrite list_lookup_alter. case_decide; [|done]. subst.
  destruct (task_table k !! i) eqn:E; simpl; [|done]. f_equal. by eapply H.
Qed.

(** A frozen task is never eligible for the scheduler, and unfreezing a
    task that was frozen gives back exactly the kernel state before, its
    suspension, signals and timeouts included. *)
Theorem freeze_unfreeze id p t k :
  kernel_wf k → _mipos_get_p_task id k = Some p → task_table k !! p = Some t →
  (status t &? TASK_FROZEN) = false →
  (∃ t', task_table (mipos_t_freeze id k) !! p = Some t' ∧ eligible t' = false) ∧
  mipos_t_unfreeze id (mipos_t_freeze id k) = k.
Proof.
  intros Hk Hp Ht Hf.
  assert (status t ∈ valid_statuses) as Hs
    by (eapply tw_status, Forall_lookup_1; [apply Hk|done]).
  split.
  - unfold mipos_t_freeze, with_p_task. rewrite Hp. eexists. split.
    + simpl. rewrite list_lookup_alter, decide_True, Ht by done. reflexivity.
    + unfold eligible. simpl. revert Hf. remember (status t) as s eqn:E. clear E.
      by_status Hs; subst s; intros Hf; try discriminate; simpl; by rewrite andb_false_r.
  - unfold mipos_t_unfreeze, mipos_t_freeze.
    rewrite with_p_task_compose.
    apply with_p_task_id. intros q u Hq Hu. rewrite Hp in Hq. injection Hq as <-.
    rewrite Ht in Hu. injection Hu as <-. revert Hf. destruct t; unfold compose; simpl in *.
    unfold set_status. simpl. by_status Hs; subst status; intros Hf; try discriminate; done.
Qed.

Lemma freeze_unfreeze_witness :
  (∃ t', task_table (mipos_t_freeze 1 booted) !! 1%nat = Some t' ∧ eligible t' = false) ∧
  mipos_t_unfreeze 1 (mipos_t_freeze 1 booted) = booted.
Proof.
  eapply (freeze_unfreeze 1 1); [apply booted_wf|reflexivity|reflexivity|reflexivity].
Defined.

(** The documentation of [TASK_FROZEN] says that a frozen task is not
    scheduled until it is unfrozen; a running task that freezes itself and
    then blocks loses the frozen flag and is eligible again. *)
Theorem self_freeze_is_lost n sp k t :
  task_table k !! task_context_ptr k = Some t → status t = TASK_RUNNING →
  entry_point t ≠ 0 → rt_task t = false →
  ∃ t', task_table (mipos_tm_wkafter n sp (mipos_t_freeze 0 k)) !! task_context_ptr k = Some t' ∧
    status t' = TASK_SUSPENDED ∧ eligible t' = true.
Proof.
  intros Ht Hst He Hr.
  unfold mipos_tm_wkafter, _mipos_tm_wkafter, _mipos_t_set_wait_for_signal, mipos_t_freeze,
    with_p_task. simpl.
  eexists. split.
  - rewrite !list_lookup_alter, !decide_True, Ht by done. simpl. by rewrite Hst.
  - split; [done|]. unfold eligible. simpl. rewrite Hr. by apply truth_true in He as ->.
Qed.

Lemma self_freeze_is_lost_witness :
  let k := mk_kernel 0 0 0 0 1 1 1 NoContext
    [zero_task; set_entry_point 100 (set_status TASK_RUNNING zero_task)] 0 0 [] in
  ∃ t', task_table (mipos_tm_wkafter 0 9 (mipos_t_freeze 0 k)) !! task_context_ptr k = Some t' ∧
    status t' = TASK_SUSPENDED ∧ eligible t' = true.
Proof.
  intros k. eapply (self_freeze_is_lost 0 9 k); [reflexivity|reflexivity|simpl; lia|reflexivity].
Defined.

(** ** Signals *)

Lemma with_p_task_lookup id p t f k :
  _mipos_get_p_task id k = Some p → task_table k !! p = Some t →
  task_table (with_p_task id f k) !! p = Some (f t).
Proof.
  intros Hp Ht. unfold with_p_task. rewrite Hp. simpl.
  by rewrite list_lookup_alter, decide_True, Ht by done.
Qed.

(** A notification adds to the pending signals of its task exactly the
    notified signals the task has not masked, and never loses one. *)
Theorem notify_adds_unmasked id p t signum k n :
  _mipos_get_p_task id k = Some p → task_table k !! p = Some t → 0 ≤ n < 8 →
  ∃ t', task_table (mipos_t_notify_signal id signum k) !! p = Some t' ∧
    Z.testbit (signal_pending t') n =
      Z.testbit (signal_pending t) n || (Z.testbit signum n && Z.testbit (signal_mask t) n) ∧
    t' = set_signal_pending (signal_pending t') t.
Proof.
  intros Hp Ht Hn. eexists. split; [by apply with_p_task_lookup|]. simpl. split; [|done].
  rewrite wrap_spec, Z.lor_spec, Z.land_spec by lia.
  by replace (n <? 8) with true by (symmetry; apply Z.ltb_lt; lia).
Qed.

Lemma notify_adds_unmasked_witness :
  ∃ t', task_table (mipos_t_notify_signal 1 0x12 booted) !! 1%nat = Some t' ∧
    Z.testbit (signal_pending t') 4 = true ∧ t' = set_signal_pending (signal_pending t') t'.
Proof.
  destruct (notify_adds_unmasked 1 1 (created "root" 100 0 4096 1024 MIPOS_NO_RT
     (_mipos_t_delete zero_task)) 0x12 booted 4) as (t' & Ht & Hb & He);
    [reflexivity|reflexivity|lia|].
  exists t'. split; [exact Ht|]. split; [exact Hb|]. destruct t'. reflexivity.
Defined.

(** [mipos_t_sig_ignore] and [mipos_t_sig_allow] never touch the four
    system signals: a task cannot mask its alarm, timer, queue or wake-up
    signal, and [mipos_t_waitfor_signal] never waits for one of them. *)
Theorem system_signals_protected id p t signum sp k n :
  _mipos_get_p_task id k = Some p → task_table k !! p = Some t → 0 ≤ n < 4 →
  (∃ t', task_table (mipos_t_sig_ignore id signum k) !! p = Some t' ∧
     Z.testbit (signal_mask t') n = Z.testbit (signal_mask t) n) ∧
  (∃ t', task_table (mipos_t_sig_allow id signum k) !! p = Some t' ∧
     Z.testbit (signal_mask t') n = Z.testbit (signal_mask t) n) ∧
  (∀ u, task_table k !! task_context_ptr k = Some u →
     ∃ u', task_table (mipos_t_waitfor_signal signum sp k) !! task_context_ptr k = Some u' ∧
       Z.testbit (signal_waiting u') n = Z.testbit (signal_waiting u) n).
Proof.
  intros Hp Ht Hn.
  assert (Z.testbit SYS_RESERVED_SIGNALS n = true) as Hsys.
  { assert (n = 0 ∨ n = 1 ∨ n = 2 ∨ n = 3) as [->|[->|[->| ->]]] by lia; reflexivity. }
  assert ((n <? 8) = true) as Hn8 by (apply Z.ltb_lt; lia).
  split_and!.
  - eexists. split; [by apply with_p_task_lookup|]. simpl.
    rewrite wrap_spec, Z.land_spec, Z.lnot_spec, Z.land_spec, Z.lnot_spec, Hsys, Hn8 by lia.
    by rewrite andb_false_r, andb_true_r.
  - eexists. split; [by apply with_p_task_lookup|]. simpl.
    rewrite wrap_spec, Z.lor_spec, Z.land_spec, Z.lnot_spec, Hsys, Hn8 by lia.
    by rewrite andb_false_r, orb_false_r.
  - intros u Hu. unfold mipos_t_waitfor_signal, _mipos_t_suspend, _mipos_t_set_wait_for_signal.
    simpl. eexists.
    split; [rewrite !list_lookup_alter, !decide_True, Hu by done; reflexivity|]. simpl.
    assert (Z.testbit (u8 (Z.lor (signal_waiting u)
              (Z.land signum (Z.lnot SYS_RESERVED_SIGNALS)))) n = Z.testbit (signal_waiting u) n)
      as Hw.
    { rewrite wrap_spec, Z.lor_spec, Z.land_spec, Z.lnot_spec, Hsys, Hn8 by lia.
      by rewrite andb_false_r, orb_false_r. }
    by case_if.
Qed.

Lemma system_signals_protected_witness :
  ∃ t', task_table (mipos_t_sig_ignore 1 (-1) booted) !! 1%nat = Some t' ∧
    Z.testbit (signal_mask t') 2 = true.
Proof.
  destruct (system_signals_protected 1 1 (created "root" 100 0 4096 1024 MIPOS_NO_RT
     (_mipos_t_delete zero_task)) (-1) 0 booted 2) as ((t' & Ht & Hb) & _);
    [reflexivity|reflexivity|lia|].
  exists t'. split; [exact Ht|exact Hb].
Defined.

(** ** The first stack frame *)

(** The address the dispatcher starts a task's stack at is 16-byte
    aligned, inside the task's stack buffer, and leaves a pointer's room
    below its end, for every buffer of at least 24 bytes. *)
Theorem top_of_the_stack_in_buffer stack size :
  0 ≤ stack → 24 ≤ size → stack + size < 2 ^ 64 →
  stack < top_of_the_stack stack size ≤ stack + size - sizeof_ptr ∧
  top_of_the_stack stack size `mod` 16 = 0.
Proof.
  intros Hs Hz Hb. unfold top_of_the_stack, sizeof_ptr. rewrite wrap_small by lia.
  set (a := stack + size - 8).
  pose proof (land_align a 64 4 ltac:(lia) ltac:(lia)) as Hal.
  change (Z.ones 4) with 15 in Hal. change (2 ^ 4) with 16 in Hal. rewrite Hal.
  pose proof (Z.mod_pos_bound a 16). split; [lia|].
  rewrite Zminus_mod_idemp_r, Z.sub_diag. done.
Qed.

Lemma top_of_the_stack_in_buffer_witness :
  4100 < top_of_the_stack 4100 1024 ≤ 4100 + 1024 - sizeof_ptr ∧
  top_of_the_stack 4100 1024 `mod` 16 = 0.
Proof. apply (top_of_the_stack_in_buffer 4100 1024); lia. Defined.
