(* ===== verification/TimerProps.v ===== *)
(** * Properties of the software timers

    What a pass of the scheduler over the timer table does to every timer,
    that the cached next deadline never hides a due timer, the allocation of
    descriptors, and two behaviours that differ from the documentation. *)

From S2P Require Import Prelude Kernel Timer Scheduler KernelInv Machine.

(** ** One pass, with handlers that call no timer service *)

(** The reference for one timer at time [now]: whether it stays active, its
    descriptor and the handler calls. *)
Definition visit_spec (now : Z) (active : bool) (t : mipos_timer_t)
    : bool * mipos_timer_t * list (Z * Z) :=
  if negb active then (false, t, [])
  else if flgs t &? TIMER_FLG_CANCELLED then
    (false, t, if truth (handler_on_cancel_cbk t)
               then [(handler_on_cancel_cbk t, context t)] else [])
  else if timer_rtc_timeout t <=? now then
    let t1 := set_flgs (Z.lor (flgs t) TIMER_FLG_EXPIRED) t in
    if negb (flgs t1 &? TIMER_FLG_PERIODIC)
    then (false, t1, [(handler_on_expire_cbk t, context t)])
    else (true, set_timer_rtc_timeout (u64 (now + interval t))
                  (set_flgs (Z.land (flgs t1) (u64 (Z.lnot TIMER_FLG_EXPIRED))) t1),
          [(handler_on_expire_cbk t, context t)])
  else (true, t, []).

(** Handlers that call no kernel service. *)
Definition quiet (code : Z → Z → mipos_kernel_t → Z * list api_call) : Prop :=
  ∀ fn arg k, snd (code fn arg k) = [].

Lemma call1_quiet code fn arg s :
  quiet code → fn ≠ 0 →
  ∃ r, call1 code fn arg s = Ok (r, mk_sched (kern s) (log s ++ [(fn, arg)])).
Proof.
  intros Hq Hfn. unfold call1. apply Z.eqb_neq in Hfn as ->.
  specialize (Hq fn arg (kern s)). destruct (code fn arg (kern s)) as [r cs].
  simpl in Hq. subst. by eexists.
Qed.

(** The timers of a state: activity and descriptor by index. *)
Definition timer_view (k : mipos_kernel_t) (id : nat) : option (bool * mipos_timer_t) :=
  (λ t, (timer_active id k, t)) <$> timer_table k !! id.

Lemma clear_active_other id j k :
  id ≠ j → (j < 32)%nat → timer_active j (clear_active id k) = timer_active j k.
Proof.
  intros Hne Hj. rewrite !timer_active_bit. simpl. rewrite wrap_spec by lia.
  rewrite Z.land_spec, Z.lnot_spec, tmask_bit, bool_decide_false by (done || lia).
  rewrite andb_true_r. by replace (Z.of_nat j <? 32) with true by (symmetry; apply Z.ltb_lt; lia).
Qed.

Lemma clear_active_same id k : timer_active id (clear_active id k) = false.
Proof.
  destruct (timer_active id (clear_active id k)) eqn:E; [|done].
  apply clear_active_bit in E as [_ ?]. done.
Qed.

(** What one visit preserves: everything but the visited timer. *)
Definition visit_frame (id : nat) (s s' : sched) : Prop :=
  rtc_counter (kern s') = rtc_counter (kern s) ∧
  length (timer_table (kern s')) = length (timer_table (kern s)) ∧
  ∀ j, j ≠ id → (j < 32)%nat → timer_view (kern s') j = timer_view (kern s) j.

Lemma visit_frame_trans id s1 s2 s3 :
  visit_frame id s1 s2 → visit_frame id s2 s3 → visit_frame id s1 s3.
Proof.
  intros (? & ? & H1) (? & ? & H2). split; [congruence|]. split; [congruence|].
  intros j ? ?. by rewrite H2, H1.
Qed.

Lemma visit_frame_clear id s l :
  visit_frame id s (mk_sched (clear_active id (kern s)) l).
Proof.
  split; [done|]. split; [done|]. intros j Hj Hlt. unfold timer_view.
  cbn [kern]. by rewrite clear_active_other by done.
Qed.

Lemma visit_frame_upd id f s l :
  visit_frame id s (mk_sched (upd_timer id f (kern s)) l).
Proof.
  split; [done|]. split; [apply length_alter|]. intros j Hj Hlt. unfold timer_view. simpl.
  by rewrite list_lookup_alter_ne.
Qed.

Lemma visit_frame_upd_next id f s l n :
  visit_frame id s (mk_sched (upd_timer id f (set_next_rtc_timeout n (kern s))) l).
Proof. apply (visit_frame_upd id f s l). Qed.

Lemma timer_view_inv k id a t :
  timer_view k id = Some (a, t) ↔ timer_table k !! id = Some t ∧ timer_active id k = a.
Proof.
  unfold timer_view. destruct (timer_table k !! id); simpl; naive_solver.
Qed.

Lemma timer_view_clear id k t :
  timer_table k !! id = Some t → timer_view (clear_active id k) id = Some (false, t).
Proof. intros Ht. apply timer_view_inv. split; [done|]. apply clear_active_same. Qed.

Lemma timer_view_upd id f k a t :
  timer_view k id = Some (a, t) → timer_view (upd_timer id f k) id = Some (a, f t).
Proof.
  rewrite !timer_view_inv. intros [Ht Ha]. split; [|done]. simpl.
  by rewrite list_lookup_alter, decide_True, Ht by done.
Qed.

Lemma timer_visit_quiet code id s t :
  quiet code → (id < 32)%nat → timer_table (kern s) !! id = Some t →
  (timer_active id (kern s) = true → handler_on_expire_cbk t ≠ 0) →
  let '(a, t', calls) := visit_spec (rtc_counter (kern s)) (timer_active id (kern s)) t in
  ∃ s', timer_visit code id s = Ok s' ∧ timer_view (kern s') id = Some (a, t') ∧
        log s' = log s ++ calls ∧ visit_frame id s s'.
Proof.
  intros Hq Hid Ht Hh. unfold timer_visit, visit_spec.
  destruct (timer_active id (kern s)) eqn:Ha; cbn [negb].
  2: { exists s. rewrite app_nil_r, timer_view_inv. done. }
  rewrite Ht. simpl of_lookup. rewrite bind_Ok.
  destruct (flgs t &? TIMER_FLG_CANCELLED).
  { destruct (truth (handler_on_cancel_cbk t)) eqn:Hc.
    - apply truth_true in Hc.
      destruct (call1_quiet code (handler_on_cancel_cbk t) (context t)
        (on_kern (clear_active id) s) Hq Hc) as [r ->]. eexists. split; [reflexivity|].
      split; [by apply timer_view_clear|]. split; [done|]. apply visit_frame_clear.
    - eexists. split; [reflexivity|]. rewrite app_nil_r.
      split; [by apply timer_view_clear|]. split; [done|]. apply visit_frame_clear. }
  destruct (timer_rtc_timeout t <=? rtc_counter (kern s)).
  2: { exists s. rewrite app_nil_r, timer_view_inv. done. }
  cbn zeta. set (f := λ t, set_flgs (Z.lor (flgs t) TIMER_FLG_EXPIRED) t).
  set (s1 := on_kern (upd_timer id f) _).
  destruct (call1_quiet code (handler_on_expire_cbk t) (context t) s1 Hq (Hh eq_refl)) as [r ->].
  cbn [fmap res_fmap snd]. rewrite bind_Ok. cbn [kern log].
  assert (timer_view (kern s1) id = Some (true, f t)) as Hv1
    by (apply timer_view_upd, timer_view_inv; done).
  pose proof Hv1 as [Ht1 _]%timer_view_inv. rewrite Ht1. simpl of_lookup. rewrite bind_Ok.
  assert (∀ l, visit_frame id s (mk_sched (kern s1) l)) as Hfr
    by (intros; apply visit_frame_upd_next).
  fold (f t). destruct (negb (flgs (f t) &? TIMER_FLG_PERIODIC)); eexists;
    (split; [reflexivity|]).
  - split; [by apply timer_view_clear|]. split; [done|].
    eapply visit_frame_trans; [apply Hfr|apply visit_frame_clear].
  - split; [exact (timer_view_upd id _ (kern s1) true _ Hv1)|]. split; [done|].
    eapply visit_frame_trans; [apply Hfr|apply visit_frame_upd].
Qed.

(** Calls of a pass over the timers [ids], in order. *)
Definition pass_calls (now : Z) (k : mipos_kernel_t) (ids : list nat) : list (Z * Z) :=
  flat_map (λ id, match timer_view k id with
                  | Some (a, t) => snd (visit_spec now a t)
                  | None => []
                  end) ids.

Lemma timer_loop_quiet code ids s :
  quiet code → NoDup ids →
  (∀ id, id ∈ ids → (id < 32)%nat ∧ ∃ a t, timer_view (kern s) id = Some (a, t) ∧
                    (a = true → handler_on_expire_cbk t ≠ 0)) →
  ∃ s', timer_loop code ids s = Ok s' ∧
    (∀ id a t, id ∈ ids → timer_view (kern s) id = Some (a, t) →
       timer_view (kern s') id = Some (fst (visit_spec (rtc_counter (kern s)) a t))) ∧
    (∀ id, id ∉ ids → (id < 32)%nat → timer_view (kern s') id = timer_view (kern s) id) ∧
    length (timer_table (kern s')) = length (timer_table (kern s)) ∧
    log s' = log s ++ pass_calls (rtc_counter (kern s)) (kern s) ids.
Proof.
  intros Hq. revert s. induction ids as [|id ids IH]; intros s Hnd Hids.
  { exists s. simpl. rewrite app_nil_r. set_solver. }
  apply NoDup_cons in Hnd as [Hni Hnd].
  destruct (Hids id) as (Hlt & a & t & Hv & Hh); [set_solver|].
  pose proof Hv as Hv'. apply timer_view_inv in Hv' as [Ht Ha].
  pose proof (timer_visit_quiet code id s t Hq Hlt Ht) as Hone. rewrite Ha in Hone.
  destruct (visit_spec (rtc_counter (kern s)) a t) as [[a1 t1] calls] eqn:Hspec.
  destruct (Hone Hh) as (s1 & Hs1 & Hv1 & Hl1 & Hnow & Hlen1 & Hfr).
  destruct (IH s1) as (s2 & Hs2 & Hin & Hout & Hlen2 & Hlog); [done| |].
  { intros j Hj. destruct (Hids j) as (Hltj & aj & tj & Hvj & Hhj); [set_solver|].
    split; [done|]. exists aj, tj. split; [|done]. rewrite Hfr; [done|set_solver|done]. }
  exists s2. simpl. rewrite Hs1, bind_Ok. split; [done|]. split; [|split; [|split]].
  - intros j aj tj Hj Hvj. destruct (decide (j = id)) as [->|Hne].
    + rewrite Hout, Hv1 by done. rewrite Hv in Hvj. injection Hvj as <- <-.
      by rewrite Hspec.
    + rewrite <-Hnow. apply Hin; [set_solver|]. rewrite Hfr; [done..|].
      destruct (Hids j); [set_solver|done].
  - intros j Hj Hltj. rewrite Hout by set_solver. apply Hfr; [set_solver|done].
  - congruence.
  - rewrite Hlog, Hl1, <-app_assoc. f_equal. simpl. rewrite Hv, Hspec. simpl. f_equal.
    rewrite Hnow. unfold pass_calls. clear -Hfr Hni Hids Hlt.
    induction ids as [|j js IH]; simpl; [done|]. rewrite Hfr, IH; try set_solver.
Qed.

Lemma select_visit_view i k id : timer_view (select_visit i k) id = timer_view k id.
Proof. unfold select_visit. destruct (timer_table k !! i); [|done]. by case_if. Qed.

(** [select_next] only lowers the cached deadline. *)
Lemma select_loop_view ids k id :
  timer_view (foldl (λ k id, select_visit id k) k ids) id = timer_view k id.
Proof.
  revert k. induction ids as [|i ids IH]; intros k; simpl; [done|]. rewrite IH.
  apply select_visit_view.
Qed.

Lemma select_visit_next id k a t :
  timer_view k id = Some (a, t) → timer_rtc_timeout t ≠ 0 → a = true →
  next_rtc_timeout (select_visit id k) ≠ 0 ∧
  next_rtc_timeout (select_visit id k) ≤ timer_rtc_timeout t.
Proof.
  intros Hv Ht0 ->. apply timer_view_inv in Hv as [Ht Ha]. unfold select_visit. rewrite Ht, Ha.
  simpl. case_if; simpl; [lia|]. bool_to_prop. lia.
Qed.

Lemma select_visit_le id k n :
  (∀ a t, timer_view k id = Some (a, t) → a = true → timer_rtc_timeout t ≠ 0) →
  next_rtc_timeout k ≠ 0 → next_rtc_timeout k ≤ n →
  next_rtc_timeout (select_visit id k) ≠ 0 ∧ next_rtc_timeout (select_visit id k) ≤ n.
Proof.
  intros Hz H0 Hn. unfold select_visit. destruct (timer_table k !! id) as [t|] eqn:Ht; [|done].
  case_if; simpl; [|done]. apply andb_true_iff in E as [Ha E]. split.
  - apply (Hz true t); [|done]. by apply timer_view_inv.
  - apply orb_true_iff in E as [E|E]; bool_to_prop; lia.
Qed.

Lemma select_loop_next ids k :
  (∀ id a t, timer_view k id = Some (a, t) → a = true → timer_rtc_timeout t ≠ 0) →
  (∀ n, next_rtc_timeout k ≠ 0 → next_rtc_timeout k ≤ n →
     next_rtc_timeout (foldl (λ k id, select_visit id k) k ids) ≠ 0 ∧
     next_rtc_timeout (foldl (λ k id, select_visit id k) k ids) ≤ n) ∧
  (∀ id t, id ∈ ids → timer_view k id = Some (true, t) →
     next_rtc_timeout (foldl (λ k id, select_visit id k) k ids) ≠ 0 ∧
     next_rtc_timeout (foldl (λ k id, select_visit id k) k ids) ≤ timer_rtc_timeout t).
Proof.
  revert k. induction ids as [|i ids IH]; intros k Hz; simpl; [set_solver|].
  destruct (IH (select_visit i k)) as [IHn IHt].
  { intros id a t. rewrite select_visit_view. apply Hz. }
  split.
  - intros n H0 Hn. destruct (select_visit_le i k n) as [? ?]; [eauto|done..|]. by apply IHn.
  - intros id t Hid Hv. apply elem_of_cons in Hid as [->|Hid].
    + destruct (select_visit_next i k true t) as [? ?]; [done|by eapply Hz|done|].
      by apply IHn.
    + apply IHt with id; [done|]. by rewrite select_visit_view.
Qed.

(** ** The cached deadline *)

(** [next_rtc_timeout] is unset, or no active timer is due before it. *)
Definition deadline_inv (k : mipos_kernel_t) : Prop :=
  ∀ id t, timer_view k id = Some (true, t) →
    timer_rtc_timeout t ≠ 0 ∧
    (next_rtc_timeout k = 0 ∨ next_rtc_timeout k ≤ timer_rtc_timeout t).

Lemma timer_active_bitmap id k : timer_active id k = true → timer_bitmap k ≠ 0.
Proof. unfold timer_active. intros H Hb. by rewrite Hb, anybit_0_l in H. Qed.

(** Whether the scheduler looks at the timers. *)
Lemma soft_timers_due s id t :
  deadline_inv (kern s) → timer_view (kern s) id = Some (true, t) →
  timer_rtc_timeout t ≤ rtc_counter (kern s) →
  timer_bitmap (kern s) ≠ 0 ∧
  (next_rtc_timeout (kern s) = 0 ∨ next_rtc_timeout (kern s) ≤ rtc_counter (kern s)).
Proof.
  intros Hd Hv Ht. split.
  - apply timer_view_inv in Hv as [_ Ha]. by eapply timer_active_bitmap.
  - destruct (Hd _ _ Hv) as [_ [?|?]]; [by left|right; lia].
Qed.

Lemma timer_ids_elem id : id ∈ timer_ids ↔ (id < Z.to_nat MIPOS_MAX_TIMERS_NO)%nat.
Proof. unfold timer_ids. rewrite elem_of_seq. lia. Qed.

Lemma timer_view_wf k id x :
  kernel_wf k → timer_view k id = Some x → (id < Z.to_nat MIPOS_MAX_TIMERS_NO)%nat.
Proof.
  intros Hk Hv. destruct x as [a t]. apply timer_view_inv in Hv as [Ht _].
  apply lookup_lt_Some in Ht. by rewrite (kw_timers _ Hk) in Ht.
Qed.

Lemma soft_timers_idle code s :
  ¬ (timer_bitmap (kern s) ≠ 0 ∧
     (next_rtc_timeout (kern s) = 0 ∨ next_rtc_timeout (kern s) ≤ rtc_counter (kern s))) →
  soft_timers code s = Ok s.
Proof.
  intros Hn. unfold soft_timers. case_if; [|done]. exfalso. apply Hn.
  apply andb_true_iff in E as [E1 E2]. apply orb_true_iff in E2. bool_to_prop.
  split; [done|]. destruct E2; bool_to_prop; lia.
Qed.

(** A timer the pass leaves active has the timeout it had, or the next period. *)
Lemma visit_spec_active now a t t' :
  fst (visit_spec now a t) = (true, t') →
  a = true ∧ (timer_rtc_timeout t' = timer_rtc_timeout t ∨
              timer_rtc_timeout t' = u64 (now + interval t)).
Proof.
  unfold visit_spec. destruct a; simpl; [|naive_solver]. split; [done|].
  destruct (flgs t &? TIMER_FLG_CANCELLED); [naive_solver|].
  destruct (timer_rtc_timeout t <=? now); [|naive_solver].
  destruct (negb _); simpl in *; [naive_solver|]. simplify_eq. by right.
Qed.

(** The first loop over the whole table ... *)
Lemma timer_loop_all code s :
  quiet code → kernel_wf (kern s) →
  ∃ s', timer_loop code timer_ids s = Ok s' ∧
    length (timer_table (kern s')) = length (timer_table (kern s)) ∧
    (∀ id a t, timer_view (kern s) id = Some (a, t) →
       timer_view (kern s') id = Some (fst (visit_spec (rtc_counter (kern s)) a t))) ∧
    log s' = log s ++ pass_calls (rtc_counter (kern s)) (kern s) timer_ids.
Proof.
  intros Hq Hk. destruct (timer_loop_quiet code timer_ids s) as (s1 & Hs & Hin & _ & Hlen & Hlog).
  - done.
  - apply NoDup_seq.
  - intros id Hid. apply elem_of_seq in Hid. split; [vm_compute in Hid; lia|].
    destruct (lookup_lt_is_Some_2 (timer_table (kern s)) id) as [t Ht].
    { rewrite (kw_timers _ Hk). lia. }
    exists (timer_active id (kern s)), t. split; [by apply timer_view_inv|].
    intros Ha. by eapply kw_handlers.
  - exists s1. split; [done|]. split; [done|]. split; [|done]. intros id a t Hv.
    apply Hin; [|done]. apply timer_ids_elem. by eapply timer_view_wf.
Qed.

(** ... and the whole pass, once the scheduler looks at the timers. *)
Lemma soft_timers_pass_eq code s s1 :
  timer_bitmap (kern s) ≠ 0 →
  next_rtc_timeout (kern s) = 0 ∨ next_rtc_timeout (kern s) ≤ rtc_counter (kern s) →
  timer_loop code timer_ids s = Ok s1 → soft_timers code s = Ok (on_kern select_next s1).
Proof.
  intros Hb Hn Hs. unfold soft_timers. apply truth_true in Hb as ->.
  replace ((next_rtc_timeout (kern s) =? 0) || (next_rtc_timeout (kern s) <=? rtc_counter (kern s)))
    with true by (symmetry; apply orb_true_iff; destruct Hn; [left|right]; lia).
  by rewrite Hs.
Qed.

Lemma soft_timers_run code s :
  quiet code → kernel_wf (kern s) → timer_bitmap (kern s) ≠ 0 →
  next_rtc_timeout (kern s) = 0 ∨ next_rtc_timeout (kern s) ≤ rtc_counter (kern s) →
  ∃ s', soft_timers code s = Ok s' ∧
    (∀ id a t, (id < Z.to_nat MIPOS_MAX_TIMERS_NO)%nat →
       timer_view (kern s) id = Some (a, t) →
       timer_view (kern s') id = Some (fst (visit_spec (rtc_counter (kern s)) a t))) ∧
    log s' = log s ++ pass_calls (rtc_counter (kern s)) (kern s) timer_ids.
Proof.
  intros Hq Hk Hb Hn. destruct (timer_loop_all code s Hq Hk) as (s1 & Hs1 & _ & Hin & Hlog).
  exists (on_kern select_next s1). split; [by apply soft_timers_pass_eq|]. split; [|done].
  intros id a t _ Hv. cbn [on_kern kern]. unfold select_next.
  rewrite select_loop_view. by apply Hin.
Qed.

Lemma soft_timers_inactive code s s' id :
  quiet code → kernel_wf (kern s) → (id < Z.to_nat MIPOS_MAX_TIMERS_NO)%nat →
  soft_timers code s = Ok s' → timer_active id (kern s) = false →
  timer_active id (kern s') = false.
Proof.
  intros Hq Hk Hid Hs Ha.
  destruct (decide (timer_bitmap (kern s) ≠ 0 ∧ (next_rtc_timeout (kern s) = 0 ∨
    next_rtc_timeout (kern s) ≤ rtc_counter (kern s)))) as [[Hb Hn]|Hno].
  2: { rewrite soft_timers_idle in Hs by done. by injection Hs as <-. }
  destruct (soft_timers_run code s Hq Hk Hb Hn) as (s1 & Hs1 & Hv & _).
  rewrite Hs in Hs1. injection Hs1 as <-.
  destruct (lookup_lt_is_Some_2 (timer_table (kern s)) id) as [t Ht].
  { by rewrite (kw_timers _ Hk). }
  specialize (Hv id false t Hid ltac:(by apply timer_view_inv)).
  by apply timer_view_inv in Hv as [_ ?].
Qed.

(** Starting a timer: the search of a descriptor ... *)
Lemma find_free_timer_Some n i k id :
  timer_find_free n i k = Some id →
  (i ≤ id)%nat ∧ (id < i + n)%nat ∧
  (∃ t, timer_table k !! id = Some t ∧ handler_on_expire_cbk t = 0) ∧
  (∀ j t, (i ≤ j < id)%nat → timer_table k !! j = Some t → handler_on_expire_cbk t ≠ 0).
Proof.
  revert i. induction n as [|n IH]; intros i; simpl; [done|].
  destruct (timer_table k !! i) as [t|] eqn:Ht; [|done]. case_if; bool_to_prop.
  - intros [= <-]. repeat split; [lia|lia|naive_solver|lia].
  - intros Hf. destruct (IH (S i) Hf) as (? & ? & ? & Hn).
    split; [lia|]. split; [lia|]. split; [done|]. intros j tj Hj Htj.
    destruct (decide (j = i)) as [->|]; [naive_solver|]. apply (Hn j); [lia|done].
Qed.

Lemma find_free_timer_None n i k :
  (∀ j t, (i ≤ j)%nat → timer_table k !! j = Some t → handler_on_expire_cbk t ≠ 0) →
  timer_find_free n i k = None.
Proof.
  revert i. induction n as [|n IH]; intros i Hno; simpl; [done|].
  destruct (timer_table k !! i) as [t|] eqn:Ht; [|done].
  case_if; bool_to_prop; [by apply Hno in Ht|]. apply IH. intros j tj Hj. apply Hno. lia.
Qed.

(** ... and the activation. *)
Lemma activate_active_same id i k f :
  (id < 32)%nat → timer_active id (upd_timer id f (timer_activate id i k)) = true.
Proof.
  intros Hid. destruct (timer_activate_proj id i k) as (_ & _ & _ & Eb & _).
  rewrite timer_active_bit. simpl. rewrite Eb, wrap_spec, Z.lor_spec, tmask_bit by lia.
  rewrite bool_decide_true, orb_true_r by done. apply andb_true_iff. split; [|done].
  apply Z.ltb_lt. lia.
Qed.

Lemma activate_active_other id j i k f :
  j ≠ id → (j < 32)%nat →
  timer_active j (upd_timer id f (timer_activate id i k)) = timer_active j k.
Proof.
  intros Hne Hj. destruct (timer_activate_proj id i k) as (_ & _ & _ & Eb & _).
  rewrite !timer_active_bit. simpl. rewrite Eb, wrap_spec, Z.lor_spec, tmask_bit by lia.
  rewrite bool_decide_false, orb_false_r by done.
  by replace (Z.of_nat j <? 32) with true by (symmetry; apply Z.ltb_lt; lia).
Qed.

Lemma start_view_same id i k t f :
  (id < 32)%nat → timer_table k !! id = Some t →
  timer_view (upd_timer id f (timer_activate id i k)) id =
    Some (true, f (set_timer_rtc_timeout (u64 (mipos_get_rtc_counter k + i)) t)).
Proof.
  intros Hid Ht. apply timer_view_inv. split; [|by apply activate_active_same].
  destruct (timer_activate_proj id i k) as (_ & _ & _ & _ & Ett). simpl. rewrite Ett.
  rewrite !list_lookup_alter, !decide_True, Ht by done. done.
Qed.

Lemma start_view_other id j i k f :
  j ≠ id → (j < 32)%nat →
  timer_view (upd_timer id f (timer_activate id i k)) j = timer_view k j.
Proof.
  intros Hne Hj. unfold timer_view. rewrite activate_active_other by done.
  destruct (timer_activate_proj id i k) as (_ & _ & _ & _ & Ett). simpl. rewrite Ett.
  by rewrite !list_lookup_alter_ne by done.
Qed.

Lemma activate_next id i k f :
  u64 (mipos_get_rtc_counter k + i) ≠ 0 →
  let k' := upd_timer id f (timer_activate id i k) in
  next_rtc_timeout k' ≠ 0 ∧ next_rtc_timeout k' ≤ u64 (mipos_get_rtc_counter k + i) ∧
  (next_rtc_timeout k ≠ 0 → next_rtc_timeout k' ≤ next_rtc_timeout k).
Proof.
  intros H0. unfold timer_activate. cbn zeta.
  change (mipos_get_rtc_counter (set_timer_bitmap _ k)) with (mipos_get_rtc_counter k).
  case_if; simpl in *; [apply orb_true_iff in E; destruct E|]; bool_to_prop; lia.
Qed.

Lemma max_timers_32 : (Z.to_nat MIPOS_MAX_TIMERS_NO ≤ 32)%nat.
Proof. vm_compute. lia. Qed.

(** ** Each operation and the cached deadline *)

Lemma start_deadline e c i x p k :
  kernel_wf k → deadline_inv k → next_rtc_timeout k ≠ 0 ∨ timer_bitmap k = 0 →
  u64 (mipos_get_rtc_counter k + i) ≠ 0 → deadline_inv (snd (mipos_timer_start e c i x p k)).
Proof.
  intros Hk Hd Hn H0. unfold mipos_timer_start. case_if; [done|].
  destruct (timer_find_free _ _ k) as [id|] eqn:Hf; [|done].
  apply find_free_timer_Some in Hf as (_ & Hlt & (t0 & Ht0 & _) & _). simpl in Hlt.
  pose proof max_timers_32. cbn [snd]. set (f := λ t, _).
  destruct (activate_next id i k f H0) as (Ha & Hb & Hc). intros j t Hv.
  assert (j < 32)%nat as Hj.
  { apply timer_view_inv in Hv as [Ht _]. apply lookup_lt_Some in Ht. simpl in Ht.
    destruct (timer_activate_proj id i k) as (_ & _ & _ & _ & Ett).
    rewrite length_alter, Ett, length_alter, (kw_timers _ Hk) in Ht. lia. }
  destruct (decide (j = id)) as [->|Hne].
  - rewrite (start_view_same id i k t0 f) in Hv by (done || lia). injection Hv as <-.
    split; [done|]. by right.
  - rewrite start_view_other in Hv by done. destruct (Hd _ _ Hv) as [? Hle]. split; [done|].
    right. destruct Hn as [Hn|Hn]; [specialize (Hc Hn); lia|].
    apply timer_view_inv in Hv as [_ Hv]. by apply timer_active_bitmap in Hv.
Qed.

Lemma cancel_deadline id k : deadline_inv k → deadline_inv (snd (mipos_timer_cancel id k)).
Proof.
  intros Hd. unfold mipos_timer_cancel. case_if; [done|]. case_if; [|done].
  intros j t Hv. split; [|by left]. apply timer_view_inv in Hv as [Ht Ha].
  apply alter_lookup_Some in Ht as [(<- & y & Hy & ->)|[Hne Hj]]; simpl;
    eapply Hd, timer_view_inv; eauto.
Qed.

Lemma delete_deadline id k : deadline_inv k → deadline_inv (snd (mipos_timer_delete id k)).
Proof.
  intros Hd. unfold mipos_timer_delete. case_if; [done|]. intros j t Hv.
  apply timer_view_inv in Hv as [Ht Ha]. simpl in Ht.
  apply (clear_active_bit _ _ (upd_timer _ _ _)) in Ha as [Ha Hne].
  rewrite list_lookup_alter_ne in Ht by done. apply (Hd j), timer_view_inv. done.
Qed.

Lemma pass_deadline code s :
  quiet code → kernel_wf (kern s) → deadline_inv (kern s) →
  (∀ id t, timer_view (kern s) id = Some (true, t) →
     u64 (rtc_counter (kern s) + interval t) ≠ 0) →
  ∃ s', soft_timers code s = Ok s' ∧ deadline_inv (kern s').
Proof.
  intros Hq Hk Hd Hw.
  destruct (decide (timer_bitmap (kern s) ≠ 0 ∧ (next_rtc_timeout (kern s) = 0 ∨
    next_rtc_timeout (kern s) ≤ rtc_counter (kern s)))) as [[Hb Hn]|Hno].
  2: { exists s. by rewrite soft_timers_idle. }
  destruct (timer_loop_all code s Hq Hk) as (s1 & Hs1 & Hlen & Hin & _).
  assert (∀ id a t, timer_view (kern s1) id = Some (a, t) → a = true →
            timer_rtc_timeout t ≠ 0) as Hz.
  { intros id a t Hv ->. destruct (timer_view (kern s) id) as [[a0 t0]|] eqn:Hv0.
    - rewrite (Hin _ _ _ Hv0) in Hv. injection Hv as Hv.
      apply visit_spec_active in Hv as [-> [->| ->]]; [by eapply Hd|by eapply Hw].
    - apply timer_view_inv in Hv as [Ht _]. apply lookup_lt_Some in Ht.
      unfold timer_view in Hv0. apply fmap_None, lookup_ge_None in Hv0. lia. }
  exists (on_kern select_next s1). split; [by apply soft_timers_pass_eq|].
  destruct (select_loop_next timer_ids (kern s1) Hz) as [_ Hsel].
  intros id t Hv. cbn [on_kern kern] in *. unfold select_next in *.
  rewrite select_loop_view in Hv. split; [by eapply Hz|]. right.
  apply (Hsel id); [|done]. apply timer_ids_elem. apply timer_view_inv in Hv as [Ht _].
  apply lookup_lt_Some in Ht. by rewrite Hlen, (kw_timers _ Hk) in Ht.
Qed.

(** ** Restarting *)

Lemma restart_active id iv k r k' j :
  mipos_timer_restart id iv k = Ok (r, k') → timer_active j k' = timer_active j k.
Proof.
  unfold mipos_timer_restart. case_if; [intros; by inv_ok|].
  destruct (timer_table k !! Z.to_nat id) as [t|]; [|done]. simpl of_lookup. rewrite bind_Ok.
  case_if; intros Hr; by inv_ok.
Qed.

(** Turns of the scheduler's timer part, after clock increments. *)
Fixpoint run_ticks (code : Z → Z → mipos_kernel_t → Z * list api_call) (ticks : list Z)
    (s : sched) : res sched :=
  match ticks with
  | [] => Ok s
  | n :: ticks =>
      s ← soft_timers code (on_kern (mipos_update_rtc n) s);
      run_ticks code ticks s
  end.

Lemma update_rtc_wf n k : kernel_wf k → kernel_wf (mipos_update_rtc n k).
Proof. intros []; by constructor. Qed.

Lemma run_ticks_inactive code ticks s id :
  quiet code → code_ok code → kernel_wf (kern s) → (id < Z.to_nat MIPOS_MAX_TIMERS_NO)%nat →
  timer_active id (kern s) = false →
  ∃ s', run_ticks code ticks s = Ok s' ∧ timer_active id (kern s') = false.
Proof.
  intros Hq Hco. revert s. induction ticks as [|n ticks IH]; intros s Hk Hid Ha; [by eexists|].
  simpl. set (s0 := on_kern (mipos_update_rtc n) s).
  assert (kernel_wf (kern s0)) as Hk0 by by apply update_rtc_wf.
  destruct (soft_timers_wf code Hco s0 Hk0) as (s1 & Hs1 & Hk1 & _). rewrite Hs1, bind_Ok.
  apply IH; [done..|]. by apply (soft_timers_inactive code s0 s1).
Qed.

(** ** A due timer, with handlers that call services *)

(** The callbacks leave the timer [id] alone and do not set the clock back;
    anything else they may do. *)
Definition spares (code : user_code) (id : nat) : Prop :=
  ∀ fn arg k k', run_calls (snd (code fn arg k)) k = Ok k' →
    timer_view k' id = timer_view k id ∧ rtc_counter k ≤ rtc_counter k'.

(** The state [s'] follows [s]: the timer [id] as before, the clock not set
    back, the calls of [s] remembered. *)
Definition later (id : nat) (s s' : sched) : Prop :=
  timer_view (kern s') id = timer_view (kern s) id ∧ rtc_counter (kern s) ≤ rtc_counter (kern s') ∧
  log s `prefix_of` log s'.

#[local] Instance later_preorder id : PreOrder (later id).
Proof.
  split; [intros s; by repeat split|]. intros s1 s2 s3 (A1 & A2 & A3) (B1 & B2 & B3). split; [congruence|]. split; [lia|by etrans].
Qed.

Lemma call1_later code id fn arg s r s' :
  spares code id → call1 code fn arg s = Ok (r, s') → later id s s' ∧ log s' = log s ++ [(fn, arg)].
Proof.
  intros Hsp. unfold call1. case_if; [done|]. pose proof (Hsp fn arg (kern s)) as H. destruct (code fn arg (kern s)) as [r0 cs].
  simpl in H. destruct (run_calls cs (kern s)) as [k'|] eqn:Erun; [|done]. rewrite bind_Ok. intros Hr. injection Hr as _ <-.
  destruct (H k' eq_refl) as [Hv Hc]. split; [|done]. split; [done|]. split; [done|]. by apply prefix_app_r.
Qed.

Lemma frame_later id j s s' : visit_frame j s s' → j ≠ id → (id < 32)%nat → log s' = log s → later id s s'.
Proof. intros (Hc & _ & Hv) Hne Hid Hl. split; [by apply Hv|]. rewrite Hc, Hl. done. Qed.

Lemma timer_visit_later code id j s s' :
  spares code id → (id < 32)%nat → j ≠ id → timer_visit code j s = Ok s' → later id s s'.
Proof.
  intros Hsp Hid Hne. assert (∀ s l, log s = l → later id s (mk_sched (clear_active j (kern s)) l)) as Hcl.
  { intros s0 l <-. eapply frame_later; [apply visit_frame_clear|done..]. }
  assert (∀ s f n l, log s = l → later id s (mk_sched (upd_timer j f (set_next_rtc_timeout n (kern s))) l)) as Hup.
  { intros s0 f n l <-. eapply frame_later; [apply visit_frame_upd_next|done..]. }
  assert (∀ s f l, log s = l → later id s (mk_sched (upd_timer j f (kern s)) l)) as Hup'.
  { intros s0 f l <-. eapply frame_later; [apply visit_frame_upd|done..]. }
  unfold timer_visit. case_if; [intros Hr; by injection Hr as <-|]. destruct (timer_table (kern s) !! j) as [u|]; [|done].
  simpl of_lookup. rewrite bind_Ok. destruct (flgs u &? TIMER_FLG_CANCELLED).
  - destruct (truth (handler_on_cancel_cbk u)); [|intros Hr; injection Hr as <-; by apply Hcl].
    destruct (call1 code _ _ _) as [[r s1]|] eqn:Hc; [|done]. intros Hr. injection Hr as <-.
    apply (call1_later _ id) in Hc as [Hc _]; [|done]. etrans; [|exact Hc]. by apply Hcl.
  - destruct (timer_rtc_timeout u <=? rtc_counter (kern s)); [|intros Hr; by injection Hr as <-]. cbn zeta.
    destruct (call1 code _ _ _) as [[r s1]|] eqn:Hc; [|done]. cbn [fmap res_fmap snd]. rewrite bind_Ok.
    apply (call1_later _ id) in Hc as [Hc _]; [|done]. destruct (timer_table (kern s1) !! j); [|done]. simpl of_lookup. rewrite bind_Ok.
    case_if; intros Hr; injection Hr as <-; (etrans; [by apply Hup|]); (etrans; [exact Hc|]); [by apply Hcl|by apply Hup'].
Qed.

(** The visit of the timer itself calls its handler. *)
Lemma timer_visit_calls code id s s' t :
  spares code id → timer_view (kern s) id = Some (true, t) → (flgs t &? TIMER_FLG_CANCELLED) = false →
  timer_rtc_timeout t ≤ rtc_counter (kern s) → timer_visit code id s = Ok s' →
  log s' = log s ++ [(handler_on_expire_cbk t, context t)].
Proof.
  intros Hsp [Ht Ha]%timer_view_inv Hc Hdue%Z.leb_le. unfold timer_visit. rewrite Ha, Ht. simpl of_lookup. cbn [negb]. rewrite bind_Ok, Hc, Hdue.
  cbn zeta. destruct (call1 code _ _ _) as [[r s1]|] eqn:Hcall; [|done]. cbn [fmap res_fmap snd]. rewrite bind_Ok.
  apply (call1_later _ id) in Hcall as [_ Hl]; [|done]. cbn [log on_kern] in Hl.
  destruct (timer_table (kern s1) !! id); [|done]. simpl of_lookup. rewrite bind_Ok. case_if; intros Hr; by injection Hr as <-.
Qed.

Lemma timer_visit_log code j s s' : timer_visit code j s = Ok s' → log s `prefix_of` log s'.
Proof.
  assert (∀ fn arg s r s', call1 code fn arg s = Ok (r, s') → log s `prefix_of` log s') as Hcall.
  { intros fn arg s0 r s1. unfold call1. case_if; [done|]. destruct (code fn arg (kern s0)) as [r0 cs].
    destruct (run_calls cs (kern s0)); [|done]. rewrite bind_Ok. intros Hr. injection Hr as _ <-. by apply prefix_app_r. }
  unfold timer_visit. case_if; [intros Hr; by injection Hr as <-|]. destruct (timer_table (kern s) !! j) as [u|]; [|done].
  simpl of_lookup. rewrite bind_Ok. destruct (flgs u &? TIMER_FLG_CANCELLED).
  - destruct (truth (handler_on_cancel_cbk u)); [|intros Hr; by injection Hr as <-].
    destruct (call1 code _ _ _) as [[r s1]|] eqn:Hc; [|done]. intros Hr. injection Hr as <-. exact (Hcall _ _ _ _ _ Hc).
  - destruct (timer_rtc_timeout u <=? rtc_counter (kern s)); [|intros Hr; by injection Hr as <-]. cbn zeta.
    destruct (call1 code _ _ _) as [[r s1]|] eqn:Hc; [|done]. cbn [fmap res_fmap snd]. rewrite bind_Ok.
    destruct (timer_table (kern s1) !! j); [|done]. simpl of_lookup. rewrite bind_Ok. apply Hcall in Hc.
    case_if; intros Hr; by injection Hr as <-.
Qed.

Lemma timer_loop_log code ids s s' : timer_loop code ids s = Ok s' → log s `prefix_of` log s'.
Proof.
  revert s. induction ids as [|j ids IH]; intros s; simpl; [intros Hr; by injection Hr as <-|].
  destruct (timer_visit code j s) as [s1|] eqn:E; [|done]. rewrite bind_Ok. intros Hr. etrans; [by eapply timer_visit_log|by apply IH].
Qed.

Lemma timer_loop_calls code ids s s' id t :
  spares code id → (id < 32)%nat → id ∈ ids → timer_view (kern s) id = Some (true, t) → (flgs t &? TIMER_FLG_CANCELLED) = false →
  timer_rtc_timeout t ≤ rtc_counter (kern s) → timer_loop code ids s = Ok s' →
  ∃ calls, log s' = log s ++ calls ∧ (handler_on_expire_cbk t, context t) ∈ calls.
Proof.
  intros Hsp Hid. revert s. induction ids as [|j ids IH]; intros s Hin Hv Hc Hdue; simpl; [by apply not_elem_of_nil in Hin|].
  destruct (timer_visit code j s) as [s1|] eqn:E; [|done]. rewrite bind_Ok. intros Hr. destruct (decide (j = id)) as [->|Hne].
  - pose proof (timer_visit_calls code id s s1 t Hsp Hv Hc Hdue E) as Hl. destruct (timer_loop_log _ _ _ _ Hr) as [k Hk].
    exists ((handler_on_expire_cbk t, context t) :: k). rewrite Hk, Hl, <-app_assoc. split; [done|]. by left.
  - destruct (timer_visit_later code id j s s1 Hsp Hid Hne E) as (Hv1 & Hc1 & [k Hk]).
    destruct (IH s1) as (calls & Hl & Hm); [set_solver|by rewrite Hv1|done|lia|done|].
    exists (k ++ calls). rewrite Hl, Hk, <-app_assoc. split; [done|]. apply elem_of_app. by right.
Qed.

(** ** Properties *)

(** A pass of the scheduler over the timer table treats every timer as
    the specification says, when the handlers call no timer service: an
    inactive one is left alone, a cancelled one is deactivated and its
    on-cancel handler called, a due one has its on-expire handler called once
    and is rearmed from the current time if periodic and deactivated
    otherwise, and one that is not due is untouched; the handlers are called
    in table order. *)
Theorem soft_timers_pass code s :
  quiet code → kernel_wf (kern s) → timer_bitmap (kern s) ≠ 0 →
  next_rtc_timeout (kern s) = 0 ∨ next_rtc_timeout (kern s) ≤ rtc_counter (kern s) →
  ∃ s', soft_timers code s = Ok s' ∧
    (∀ id a t, (id < Z.to_nat MIPOS_MAX_TIMERS_NO)%nat →
       timer_view (kern s) id = Some (a, t) →
       timer_view (kern s') id = Some (fst (visit_spec (rtc_counter (kern s)) a t))) ∧
    log s' = log s ++ pass_calls (rtc_counter (kern s)) (kern s) timer_ids.
Proof. apply soft_timers_run. Qed.

(** A system with a due one-shot timer, a due periodic one, a cancelled one
    and one still to come, at time 100. *)
Definition timers_demo : mipos_kernel_t := Eval vm_compute in
  let k := set_task_context_ptr 1 booted in
  let k := snd (mipos_timer_start 11 0 50 1 0 k) in
  let k := snd (mipos_timer_start 12 0 60 2 1 k) in
  let k := snd (mipos_timer_start 13 23 500 3 0 k) in
  let k := snd (mipos_timer_start 14 0 600 4 0 k) in
  let k := snd (mipos_timer_cancel 2 k) in
  mipos_update_rtc 100 k.

Lemma timers_demo_wf : kernel_wf timers_demo.
Proof.
  assert (kernel_wf (set_task_context_ptr 1 booted)) as H.
  { destruct booted_wf; constructor; simpl; try done. vm_compute. lia. }
  destruct (run_calls_wf [ATimerStart 11 0 50 1 0; ATimerStart 12 0 60 2 1;
    ATimerStart 13 23 500 3 0; ATimerStart 14 0 600 4 0; ATimerCancel 2; AUpdateRtc 100]
    _ H) as (k' & Hk & Hwf & _); [done|by repeat constructor|].
  vm_compute in Hk. injection Hk as <-. exact Hwf.
Qed.

Lemma soft_timers_pass_witness :
  ∃ s', soft_timers quiet_code (mk_sched timers_demo []) = Ok s' ∧
    log s' = [(11, 1); (12, 2); (23, 3)] ∧
    timer_view (kern s') 1 = Some (true, mk_timer 12 0 2 160 1 60).
Proof.
  destruct (soft_timers_pass quiet_code (mk_sched timers_demo [])) as (s' & Hs & Hv & Hl).
  - intros fn arg k. reflexivity.
  - apply timers_demo_wf.
  - simpl. lia.
  - left. reflexivity.
  - exists s'. split; [exact Hs|]. split; [exact Hl|].
    apply (Hv 1%nat true (mk_timer 12 0 2 60 1 60)); [vm_compute; lia|reflexivity].
Defined.

(** C31: no due timer is missed: when the cached deadline is sound, an active
    timer whose timeout has come and which was not cancelled has its on-expire
    handler called, with its context, by the next turn of the scheduler.  The
    callbacks of that turn may call services, as long as none cancels, deletes,
    restarts or otherwise changes this timer or sets the clock back
    ([spares]). *)
Theorem due_timer_served code s id t :
  code_ok code → spares code id → kernel_wf (kern s) → deadline_inv (kern s) →
  timer_view (kern s) id = Some (true, t) → (flgs t &? TIMER_FLG_CANCELLED) = false →
  timer_rtc_timeout t ≤ rtc_counter (kern s) →
  ∃ s' calls, soft_timers code s = Ok s' ∧ log s' = log s ++ calls ∧
    (handler_on_expire_cbk t, context t) ∈ calls.
Proof.
  intros Hco Hsp Hk Hd Hv Hc Ht. pose proof (timer_view_wf _ _ _ Hk Hv) as Hid. pose proof max_timers_32.
  destruct (soft_timers_due s id t Hd Hv Ht) as [Hb Hn].
  destruct (soft_timers_wf code Hco s Hk) as (s' & Hs & _). destruct (timer_loop code timer_ids s) as [s1|f] eqn:Hl.
  - rewrite (soft_timers_pass_eq code s s1 Hb Hn Hl) in Hs. injection Hs as <-.
    destruct (timer_loop_calls code timer_ids s s1 id t) as (calls & Hlog & Hm); try done; [lia|by apply timer_ids_elem|].
    exists (on_kern select_next s1), calls. split; [by apply soft_timers_pass_eq|done].
  - exfalso. unfold soft_timers in Hs. apply truth_true in Hb. rewrite Hb, Hl in Hs.
    replace ((next_rtc_timeout (kern s) =? 0) || (next_rtc_timeout (kern s) <=? rtc_counter (kern s))) with true in Hs; [done|].
    symmetry. apply orb_true_iff. destruct Hn; [left|right]; lia.
Qed.

(** The handler of the first timer deletes the last one. *)
Definition deletes_3 : user_code := λ fn _ _, (0, if fn =? 11 then [ATimerDelete 3] else []).

Lemma deletes_3_ok : code_ok deletes_3 ∧ spares deletes_3 1.
Proof.
  split; [split; [|done]|].
  - intros fn arg k. unfold deletes_3; simpl; destruct (fn =? 11); by repeat constructor.
  - intros fn arg k k'. unfold deletes_3; simpl; destruct (fn =? 11); intros Hr; injection Hr as <-; [|done].
    split; [|done].
    destruct (visit_frame_trans 3 (mk_sched k []) _ _ (visit_frame_upd 3 init_timer (mk_sched k []) []) (visit_frame_clear 3 _ [])) as (_ & _ & Hv).
    exact (Hv 1%nat ltac:(lia) ltac:(lia)).
Qed.

Lemma due_timer_served_witness :
  ∃ s' calls, soft_timers deletes_3 (mk_sched timers_demo []) = Ok s' ∧ log s' = calls ∧
    (12, 2) ∈ calls.
Proof.
  destruct (due_timer_served deletes_3 (mk_sched timers_demo []) 1
    (mk_timer 12 0 2 60 1 60)) as (s' & calls & H1 & H2 & H3).
  - apply deletes_3_ok.
  - apply deletes_3_ok.
  - apply timers_demo_wf.
  - intros id t Hv. split; [|by left]. apply timer_view_inv in Hv as [Ht Ha].
    do 4 (destruct id as [|id]; [injection Ht as <-; simpl; lia|]).
    do 12 (destruct id as [|id]; [discriminate Ha|]). discriminate Ht.
  - reflexivity.
  - reflexivity.
  - simpl. lia.
  - exists s', calls. done.
Defined.

(** The services and the pass keep the cached deadline sound: a pass
    re-establishes it whatever the timers were doing (unless the clock is
    about to wrap onto 0), cancelling and deleting keep it, and starting keeps
    it when the deadline is set or no other timer is active. *)
Theorem deadline_kept code s :
  quiet code → kernel_wf (kern s) → deadline_inv (kern s) →
  (∀ id t, timer_view (kern s) id = Some (true, t) →
     u64 (rtc_counter (kern s) + interval t) ≠ 0) →
  (∃ s', soft_timers code s = Ok s' ∧ deadline_inv (kern s')) ∧
  (∀ id, deadline_inv (snd (mipos_timer_cancel id (kern s)))) ∧
  (∀ id, deadline_inv (snd (mipos_timer_delete id (kern s)))) ∧
  (∀ e c i x p,
     next_rtc_timeout (kern s) ≠ 0 ∨ timer_bitmap (kern s) = 0 →
     u64 (mipos_get_rtc_counter (kern s) + i) ≠ 0 →
     deadline_inv (snd (mipos_timer_start e c i x p (kern s)))).
Proof.
  intros Hq Hk Hd Hw. split; [by apply pass_deadline|].
  split; [intros; by apply cancel_deadline|]. split; [intros; by apply delete_deadline|].
  intros. by apply start_deadline.
Qed.

Lemma deadline_kept_witness :
  deadline_inv (snd (mipos_timer_start 11 0 50 1 0 (kern (mk_sched booted [])))).
Proof.
  destruct (deadline_kept quiet_code (mk_sched booted [])) as (_ & _ & _ & H).
  - intros fn arg k. reflexivity.
  - apply booted_wf.
  - intros id t Hv. apply timer_view_inv in Hv as [_ Ha]. by apply timer_active_bitmap in Ha.
  - intros id t Hv. apply timer_view_inv in Hv as [_ Ha]. by apply timer_active_bitmap in Ha.
  - apply H; [right; reflexivity|]. vm_compute. discriminate.
Defined.

(** Starting a timer takes the first free descriptor, fills it with the
    arguments, activates it to expire [interval] ticks from now and leaves the
    other timers alone; with no free descriptor, or with no handler, it fails
    and changes nothing. *)
Theorem timer_start_spec e c i x p k :
  kernel_wf k →
  (e ≠ 0 → ∀ id, timer_find_free (Z.to_nat MIPOS_MAX_TIMERS_NO) 0 k = Some id →
   let '(r, k') := mipos_timer_start e c i x p k in
   r = Z.of_nat id ∧
   (∀ j t, (j < id)%nat → timer_table k !! j = Some t → handler_on_expire_cbk t ≠ 0) ∧
   timer_view k' id = Some (true, mk_timer e c x (u64 (mipos_get_rtc_counter k + i))
                              (if truth p then TIMER_FLG_PERIODIC else 0) i) ∧
   (∀ j, j ≠ id → (j < 32)%nat → timer_view k' j = timer_view k j)) ∧
  ((e = 0 ∨ ∀ j t, timer_table k !! j = Some t → handler_on_expire_cbk t ≠ 0) →
   mipos_timer_start e c i x p k = (-1, k)).
Proof.
  intros Hk. split.
  - intros He id Hid. unfold mipos_timer_start. apply Z.eqb_neq in He as ->. rewrite Hid.
    destruct (find_free_timer_Some _ _ _ _ Hid) as (Hge & Hlt & [t [Ht Hz]] & Hfirst).
    split; [done|]. split; [intros j tj Hj; apply Hfirst; lia|].
    split; [|intros j Hj Hj32; by rewrite start_view_other].
    rewrite (start_view_same _ _ _ t); [done|vm_compute in Hlt; lia|done].
  - intros Hno. unfold mipos_timer_start. destruct (e =? 0) eqn:He; [done|]. bool_to_prop.
    destruct Hno as [?|Hno]; [done|]. rewrite find_free_timer_None; [done|].
    intros j t _. apply Hno.
Qed.

Lemma timer_start_spec_witness :
  timer_view (snd (mipos_timer_start 11 22 50 7 1 booted)) 0 =
    Some (true, mk_timer 11 22 7 50 TIMER_FLG_PERIODIC 50).
Proof.
  destruct (timer_start_spec 11 22 50 7 1 booted booted_wf) as [H _].
  assert (11 ≠ 0) as H0 by lia. specialize (H H0 0%nat eq_refl).
  destruct (mipos_timer_start 11 22 50 7 1 booted) as [r k'] eqn:E.
  destruct H as (_ & _ & Hv & _). simpl. rewrite Hv. reflexivity.
Defined.

(** Restarting a one-shot timer that expired reports success, but the
    timer stays out of the active set: however the clock advances, no later
    turn of the scheduler makes it active again. *)
Theorem restarted_timer_never_active code id iv k k' ticks :
  quiet code → code_ok code → kernel_wf k → task_context_ptr k ≠ 0%nat →
  0 ≤ id < MIPOS_MAX_TIMERS_NO → timer_active (Z.to_nat id) k = false →
  mipos_timer_restart id iv k = Ok (0, k') →
  ∃ s', run_ticks code ticks (mk_sched k' []) = Ok s' ∧
        timer_active (Z.to_nat id) (kern s') = false.
Proof.
  intros Hq Hco Hk Hx Hid Ha Hr.
  destruct (timer_restart_wf id iv k) as (r & k1 & Hr1 & Hk1 & _); [done..|lia|].
  rewrite Hr in Hr1. injection Hr1 as <- <-.
  apply run_ticks_inactive; [done|done|done|lia|].
  by rewrite (restart_active _ _ _ _ _ _ Hr).
Qed.

(** The demonstration system after that pass. *)
Definition timers_demo_late : mipos_kernel_t := Eval vm_compute in
  match soft_timers quiet_code (mk_sched timers_demo []) with
  | Ok s => kern s
  | Fault _ => timers_demo
  end.

Lemma timers_demo_late_wf : kernel_wf timers_demo_late.
Proof.
  destruct (soft_timers_wf quiet_code quiet_code_ok (mk_sched timers_demo []))
    as (s' & Hs & Hwf & _); [apply timers_demo_wf|].
  vm_compute in Hs. injection Hs as <-. exact Hwf.
Qed.

Lemma restarted_timer_never_active_witness :
  ∃ k' s', mipos_timer_restart 0 5 timers_demo_late = Ok (0, k') ∧
    run_ticks quiet_code [1; 10; 1000] (mk_sched k' []) = Ok s' ∧
    timer_active 0 (kern s') = false.
Proof.
  eexists. destruct (restarted_timer_never_active quiet_code 0 5 timers_demo_late
    (snd (match mipos_timer_restart 0 5 timers_demo_late with
          | Ok x => x | Fault _ => (0, timers_demo_late) end)) [1; 10; 1000])
    as (s' & H1 & H2).
  - intros fn arg k. reflexivity.
  - apply quiet_code_ok.
  - apply timers_demo_late_wf.
  - discriminate.
  - vm_compute. split; [discriminate|reflexivity].
  - reflexivity.
  - reflexivity.
  - exists s'. split; [|split; [exact H1|exact H2]]. reflexivity.
Defined.

(** Cancelling a timer and then starting another can hide a timer: at
    time 0 a timer due at 10 is running; another is started and cancelled,
    which unsets the cached deadline, and a third one due at 1000 is started,
    which sets it to 1000.  At time 500 the scheduler calls no handler at
    all, although the first timer has been due for 490 ticks. *)
Theorem cancel_then_start_hides_due_timer :
  let k := snd (mipos_timer_start 11 0 10 1 0 booted) in
  let k := snd (mipos_timer_start 12 0 20 2 0 k) in
  let k := snd (mipos_timer_cancel 1 k) in
  let k := snd (mipos_timer_start 13 0 1000 3 0 k) in
  let k := mipos_update_rtc 500 k in
  timer_view k 0 = Some (true, mk_timer 11 0 1 10 0 10) ∧ rtc_counter k = 500 ∧
  ∀ code l, soft_timers code (mk_sched k l) = Ok (mk_sched k l).
Proof. split; [reflexivity|]. split; [reflexivity|]. intros code l. vm_compute. reflexivity. Qed.
