(* ===== verification/Queue.v ===== *)
(** * Message queues

    src/mipos/mipos_queue.{h,c}: a ring of 32-bit items with at most one
    suspended receiver.  The ring refines a bounded FIFO (class
    [BoundedFifo]), and a blocked receiver is woken by the next send. *)

From S2P Require Import Prelude Kernel Scheduler KernelInv Machine.

(** [mipos_queue_t]; [item] is the memory of the pool. *)
Record mipos_queue_t := mk_queue {
  suspended_tid : Z;
  q_head : Z;
  q_tail : Z;
  item : list Z;
  queue_limit : Z;
  queue_count : Z;
}.

Definition set_suspended_tid (v : Z) (q : mipos_queue_t) : mipos_queue_t :=
  mk_queue v (q_head q) (q_tail q) (item q) (queue_limit q) (queue_count q).

(** A queue and the kernel it notifies. *)
Definition qstate : Type := mipos_queue_t * mipos_kernel_t.

(** ** Operations *)

Definition mipos_q_init (queue_pool : list Z) (queue_pool_length : Z) : res mipos_queue_t :=
  if 0 <? queue_pool_length
  then Ok (mk_queue 0 0 0 queue_pool queue_pool_length 0)
  else Fault Halted.

(** [if (queue->suspended_tid) mipos_t_notify_signal(...)] *)
Definition q_notify (q : mipos_queue_t) (k : mipos_kernel_t) : mipos_kernel_t :=
  if truth (suspended_tid q)
  then mipos_t_notify_signal (suspended_tid q) MIPOS_SIGQUE k else k.

Definition mipos_q_send (x : Z) (s : qstate) : res (Z * qstate) :=
  let '(q, k) := s in
  if queue_count q <? queue_limit q then
    _ ← of_lookup (item q !! Z.to_nat (q_tail q));
    let q := mk_queue (suspended_tid q) (q_head q)
               (u16 ((q_tail q + 1) `mod` queue_limit q))
               (<[Z.to_nat (q_tail q) := x]> (item q))
               (queue_limit q) (u16 (queue_count q + 1)) in
    Ok (queue_count q, (q, q_notify q k))
  else Ok (u16 (-1), (q, q_notify q k)).

(** The second half of [mipos_q_receive]: take the oldest item. *)
Definition q_take (q : mipos_queue_t) : res (Z * option Z * mipos_queue_t) :=
  if 0 <? queue_count q then
    x ← of_lookup (item q !! Z.to_nat (q_head q));
    Ok (1, Some x,
        mk_queue (suspended_tid q) (u16 ((q_head q + 1) `mod` queue_limit q)) (q_tail q)
          (item q) (queue_limit q) (u16 (queue_count q - 1)))
  else Ok (0, None, q).

(** [mipos_q_receive] up to its return or to the switch to the scheduler
    inside [_mipos_t_suspend]. *)
Inductive recv_outcome :=
  | RReturn (ret : Z) (x : option Z) (s : qstate)
  | RSuspend (s : qstate).

Definition q_receive_enter (p_item : bool) (bl sp : Z) (s : qstate) : res recv_outcome :=
  let '(q, k) := s in
  if negb p_item then Ok (RReturn (u16 (-1)) None (q, k)) else
  if (queue_count q =? 0) && (suspended_tid q =? 0) then
    let q := set_suspended_tid (current_task k) q in
    if truth bl then Ok (RSuspend (q, _mipos_t_suspend MIPOS_SIGQUE sp k))
    else
      '(ret, x, q) ← q_take (set_suspended_tid 0 q);
      Ok (RReturn ret x (q, k))
  else
    '(ret, x, q) ← q_take q;
    Ok (RReturn ret x (q, k)).

(** The code after [_mipos_t_suspend] returns. *)
Definition q_receive_resumed (s : qstate) : res (Z * option Z * qstate) :=
  let '(q, k) := s in
  '(ret, x, q) ← q_take (set_suspended_tid 0 q);
  Ok (ret, x, (q, k)).

Section receive.
(** What runs between the suspension and the resumption of the caller: the
    scheduler, the other tasks and the resumption itself. *)
Context (others : qstate → qstate).

Definition mipos_q_receive (p_item : bool) (bl sp : Z) (s : qstate)
    : res (Z * option Z * qstate) :=
  o ← q_receive_enter p_item bl sp s;
  match o with
  | RReturn ret x s => Ok (ret, x, s)
  | RSuspend s => q_receive_resumed (others s)
  end.
End receive.

Definition mipos_q_count (q : mipos_queue_t) : Z := queue_count q.

Definition mipos_q_message_pending (q : mipos_queue_t) : bool :=
  negb ((queue_count q =? 0) && (suspended_tid q =? 0)).

#[local] Arguments Z.testbit : simpl never.
#[global] Arguments mipos_q_send : simpl never.
#[global] Arguments q_take : simpl never.

(** ** Invariant and contents *)

Record queue_wf (q : mipos_queue_t) : Prop := {
  qw_limit : 0 < queue_limit q < 2 ^ 16;
  qw_pool : length (item q) = Z.to_nat (queue_limit q);
  qw_head : 0 ≤ q_head q < queue_limit q;
  qw_count : 0 ≤ queue_count q ≤ queue_limit q;
  qw_tail : q_tail q = (q_head q + queue_count q) `mod` queue_limit q;
}.

Definition q_items (q : mipos_queue_t) : list Z :=
  ring_items (queue_limit q) (q_head q) (Z.to_nat (queue_count q)) (item q).

Lemma q_items_length q : length (q_items q) = Z.to_nat (queue_count q).
Proof. apply ring_items_length. Qed.

Lemma set_suspended_wf v q : queue_wf q → queue_wf (set_suspended_tid v q).
Proof. intros []; by constructor. Qed.

Lemma q_init_wf pool n :
  0 < n < 2 ^ 16 → length pool = Z.to_nat n →
  ∃ q, mipos_q_init pool n = Ok q ∧ queue_wf q ∧ q_items q = [].
Proof.
  intros Hn Hl. unfold mipos_q_init.
  replace (0 <? n) with true by (symmetry; apply Z.ltb_lt; lia).
  eexists. split; [reflexivity|]. split; [|done]. constructor; simpl; try lia.
  by rewrite Z.mod_0_l by lia.
Qed.

Lemma q_send_room x q k :
  queue_wf q → queue_count q < queue_limit q →
  ∃ q', mipos_q_send x (q, k) = Ok (queue_count q + 1, (q', q_notify q k)) ∧
    queue_wf q' ∧ q_items q' = q_items q ++ [x] ∧ queue_limit q' = queue_limit q ∧
    suspended_tid q' = suspended_tid q ∧ queue_count q' = queue_count q + 1.
Proof.
  intros [Hl Hp Hh Hc Ht] Hroom. unfold mipos_q_send.
  apply Z.ltb_lt in Hroom as Hr. rewrite Hr.
  pose proof (Z.mod_pos_bound (q_head q + queue_count q) (queue_limit q)).
  destruct (lookup_lt_is_Some_2 (item q) (Z.to_nat (q_tail q))) as [y Hy]; [rewrite Hp; lia|].
  rewrite Hy. simpl of_lookup. rewrite bind_Ok.
  pose proof (Z.mod_pos_bound (q_tail q + 1) (queue_limit q)).
  rewrite !wrap_small by lia. eexists. split; [reflexivity|]. split_and!; try done.
  - constructor; simpl; try done; try lia; [by rewrite length_insert|].
    rewrite Ht, Zplus_mod_idemp_l. f_equal. lia.
  - unfold q_items. simpl. rewrite Z2Nat.inj_add by lia. rewrite Nat.add_comm.
    simpl (Z.to_nat 1 + _)%nat. rewrite Ht.
    replace (Z.to_nat ((q_head q + queue_count q) `mod` queue_limit q))
      with (ring_slot (queue_limit q) (q_head q) (Z.to_nat (queue_count q)))
      by (unfold ring_slot; by rewrite Z2Nat.id by lia).
    apply ring_push; [lia|lia|done].
Qed.

Lemma q_send_full x q k :
  queue_wf q → queue_count q = queue_limit q →
  mipos_q_send x (q, k) = Ok (65535, (q, q_notify q k)).
Proof.
  intros Hw Hf. unfold mipos_q_send. by replace (queue_count q <? queue_limit q) with false
    by (symmetry; apply Z.ltb_ge; lia).
Qed.

Lemma q_take_some q :
  queue_wf q → 0 < queue_count q →
  ∃ x q', q_take q = Ok (1, Some x, q') ∧ queue_wf q' ∧ q_items q = x :: q_items q' ∧
    queue_limit q' = queue_limit q ∧ suspended_tid q' = suspended_tid q.
Proof.
  intros [Hl Hp Hh Hc Ht] Hpos. unfold q_take. apply Z.ltb_lt in Hpos as Hr. rewrite Hr.
  destruct (lookup_lt_is_Some_2 (item q) (Z.to_nat (q_head q))) as [y Hy]; [rewrite Hp; lia|].
  rewrite Hy. simpl of_lookup. rewrite bind_Ok.
  pose proof (Z.mod_pos_bound (q_head q + 1) (queue_limit q)).
  rewrite !wrap_small by lia. eexists _, _. split; [reflexivity|]. split_and!; try done.
  - constructor; simpl; try done; try lia.
    rewrite Ht, Zplus_mod_idemp_l. f_equal. lia.
  - unfold q_items. simpl.
    replace (Z.to_nat (queue_count q)) with (S (Z.to_nat (queue_count q - 1))) by lia.
    rewrite ring_pop by lia. f_equal. unfold ring_slot.
    by rewrite Z.add_0_r, Z.mod_small, Hy by lia.
Qed.

Lemma q_take_none q : queue_wf q → queue_count q = 0 → q_take q = Ok (0, None, q).
Proof. intros _ H. unfold q_take. by rewrite H. Qed.

(** ** The bounded FIFO a queue promises *)

Class BoundedFifo (Q : Type) := {
  bf_ok : Q → Prop;
  bf_items : Q → list Z;
  bf_cap : Q → Z;
  bf_send : Z → Q → res (Z * Q);
  bf_receive : Q → res (Z * option Z * Q);
  bf_send_room q x : bf_ok q → Z.of_nat (length (bf_items q)) < bf_cap q →
    ∃ q', bf_send x q = Ok (Z.of_nat (length (bf_items q)) + 1, q') ∧ bf_ok q' ∧
          bf_items q' = bf_items q ++ [x] ∧ bf_cap q' = bf_cap q;
  bf_send_full q x : bf_ok q → bf_cap q ≤ Z.of_nat (length (bf_items q)) →
    ∃ q', bf_send x q = Ok (65535, q') ∧ bf_ok q' ∧ bf_items q' = bf_items q ∧
          bf_cap q' = bf_cap q;
  bf_receive_some q x l : bf_ok q → bf_items q = x :: l →
    ∃ q', bf_receive q = Ok (1, Some x, q') ∧ bf_ok q' ∧ bf_items q' = l ∧
          bf_cap q' = bf_cap q;
  bf_receive_none q : bf_ok q → bf_items q = [] →
    ∃ q', bf_receive q = Ok (0, None, q') ∧ bf_ok q' ∧ bf_items q' = [] ∧
          bf_cap q' = bf_cap q;
}.

(** [mipos_queue_t] with the non-blocking receive. *)
Definition q_poll (s : qstate) : res (Z * option Z * qstate) :=
  mipos_q_receive (λ s, s) true 0 0 s.

Lemma q_poll_eq q k :
  queue_wf q →
  ∃ v, q_poll (q, k) = ('(ret, x, q) ← q_take (set_suspended_tid v q); Ok (ret, x, (q, k))).
Proof.
  intros Hw. unfold q_poll, mipos_q_receive, q_receive_enter. cbn [negb].
  destruct ((queue_count q =? 0) && (suspended_tid q =? 0)).
  - exists 0. simpl (truth 0). cbv iota.
    change (set_suspended_tid 0 (set_suspended_tid (current_task k) q)) with (set_suspended_tid 0 q).
    by destruct (q_take (set_suspended_tid 0 q)) as [[[? ?] ?]|].
  - exists (suspended_tid q). replace (set_suspended_tid (suspended_tid q) q) with q by by destruct q.
    by destruct (q_take q) as [[[? ?] ?]|].
Qed.

#[global] Arguments q_poll : simpl never.

#[global] Program Instance queue_fifo : BoundedFifo qstate := {
  bf_ok s := queue_wf (fst s);
  bf_items s := q_items (fst s);
  bf_cap s := queue_limit (fst s);
  bf_send := mipos_q_send;
  bf_receive := q_poll;
}.
Next Obligation.
  intros [q k] x Hw Hroom. simpl in *. rewrite q_items_length in *. pose proof (qw_count _ Hw).
  destruct (q_send_room x q k Hw) as (q' & -> & ? & ? & ? & ? & ?); [lia|].
  rewrite Z2Nat.id by lia. by eexists.
Qed.
Next Obligation.
  intros [q k] x Hw Hfull. simpl in *. rewrite q_items_length in *. pose proof (qw_count _ Hw).
  rewrite q_send_full by (done || lia). by eexists.
Qed.
Next Obligation.
  intros [q k] x l Hw Hi. simpl in *. destruct (q_poll_eq q k Hw) as [v ->].
  assert (0 < queue_count q) as Hpos.
  { pose proof (q_items_length q) as Hlen. rewrite Hi in Hlen. simpl in Hlen. lia. }
  destruct (q_take_some (set_suspended_tid v q)) as (y & q' & -> & ? & Hy & Hlim & _);
    [by apply set_suspended_wf|done|].
  change (q_items (set_suspended_tid v q)) with (q_items q) in Hy. rewrite Hi in Hy.
  simplify_eq. rewrite bind_Ok. by eexists.
Qed.
Next Obligation.
  intros [q k] Hw Hi. simpl in *. destruct (q_poll_eq q k Hw) as [v ->].
  assert (queue_count q = 0) as H0.
  { pose proof (q_items_length q) as Hlen. rewrite Hi in Hlen. pose proof (qw_count _ Hw).
    simpl in Hlen. lia. }
  rewrite q_take_none by (done || by apply set_suspended_wf). rewrite bind_Ok.
  eexists. split; [reflexivity|]. split; [by apply set_suspended_wf|done].
Qed.

(** Sequences of calls, on an implementation and on the specification. *)
Inductive fifo_op := OpSend (x : Z) | OpReceive.

Section fifo_client.
Context {Q} `{BoundedFifo Q}.

Definition fifo_step (op : fifo_op) (q : Q) : res (Z * option Z * Q) :=
  match op with
  | OpSend x => '(r, q) ← bf_send x q; Ok (r, None, q)
  | OpReceive => bf_receive q
  end.

Fixpoint fifo_run (ops : list fifo_op) (q : Q) : res (list (Z * option Z) * Q) :=
  match ops with
  | [] => Ok ([], q)
  | op :: ops =>
      '(r, x, q) ← fifo_step op q;
      '(rs, q) ← fifo_run ops q;
      Ok ((r, x) :: rs, q)
  end.

Definition spec_step (cap : Z) (op : fifo_op) (l : list Z) : Z * option Z * list Z :=
  match op, l with
  | OpSend x, _ =>
      if Z.of_nat (length l) <? cap then (Z.of_nat (length l) + 1, None, l ++ [x])
      else (65535, None, l)
  | OpReceive, x :: l => (1, Some x, l)
  | OpReceive, [] => (0, None, [])
  end.

Fixpoint spec_run (cap : Z) (ops : list fifo_op) (l : list Z)
    : list (Z * option Z) * list Z :=
  match ops with
  | [] => ([], l)
  | op :: ops =>
      let '(r, x, l) := spec_step cap op l in
      let '(rs, l) := spec_run cap ops l in
      ((r, x) :: rs, l)
  end.

Lemma fifo_step_refines op q :
  bf_ok q →
  ∃ q', fifo_step op q = Ok (fst (spec_step (bf_cap q) op (bf_items q)), q') ∧ bf_ok q' ∧
        bf_items q' = snd (spec_step (bf_cap q) op (bf_items q)) ∧ bf_cap q' = bf_cap q.
Proof.
  intros Hq. destruct op as [x|]; simpl.
  - case_if; bool_to_prop.
    + destruct (bf_send_room q x) as (q' & -> & ?); [done..|]. by eexists.
    + destruct (bf_send_full q x) as (q' & -> & ?); [done..|]. by eexists.
  - destruct (bf_items q) as [|x l] eqn:Hi.
    + destruct (bf_receive_none q) as (q' & -> & ?); [done..|]. by eexists.
    + destruct (bf_receive_some q x l) as (q' & -> & ?); [done..|]. by eexists.
Qed.

Lemma fifo_run_refines ops q :
  bf_ok q →
  ∃ q', fifo_run ops q = Ok (fst (spec_run (bf_cap q) ops (bf_items q)), q') ∧ bf_ok q' ∧
        bf_items q' = snd (spec_run (bf_cap q) ops (bf_items q)) ∧ bf_cap q' = bf_cap q.
Proof.
  revert q. induction ops as [|op ops IH]; intros q Hq; simpl; [by eexists|].
  destruct (fifo_step_refines op q Hq) as (q1 & -> & Hq1 & Hi1 & Hc1).
  destruct (spec_step (bf_cap q) op (bf_items q)) as [[r x] l]. simpl in *. subst l.
  destruct (IH q1 Hq1) as (q2 & -> & Hq2 & Hi2 & Hc2). rewrite bind_Ok.
  rewrite Hc1 in Hi2, Hc2 |- *.
  destruct (spec_run (bf_cap q) ops (bf_items q1)) as [rs l]. simpl in *. by eexists.
Qed.
End fifo_client.

(** ** Properties *)

(** C15: the message queue refines a bounded FIFO: for every sequence of sends
    and non-blocking receives from a well-formed queue, no access leaves the
    pool, every returned count and item is what a list of at most
    [queue_limit] items gives, and the queue is well formed afterwards.  A send
    returns the new count, or 65535 when the queue is full; a receive returns 1
    with the oldest item, or 0 when there is none (mipos_queue.h documents 0
    for success and -1 otherwise). *)
Theorem queue_refines_fifo ops q k :
  queue_wf q →
  ∃ q' k', fifo_run ops (q, k) =
      Ok (fst (spec_run (queue_limit q) ops (q_items q)), (q', k')) ∧
    queue_wf q' ∧ q_items q' = snd (spec_run (queue_limit q) ops (q_items q)).
Proof.
  intros Hw. destruct (@fifo_run_refines qstate queue_fifo ops (q, k) Hw) as ([q' k'] & Hr & Hw' & Hi & _).
  by exists q', k'.
Qed.

Lemma queue_refines_fifo_witness :
  ∃ q' k', fifo_run [OpSend 5; OpSend 6; OpSend 7; OpReceive; OpSend 8; OpReceive; OpReceive; OpReceive]
      (mk_queue 0 0 0 [0; 0] 2 0, booted) =
      Ok ([(1, None); (2, None); (65535, None); (1, Some 5); (2, None); (1, Some 6); (1, Some 8);
           (0, None)], (q', k')) ∧ queue_wf q' ∧ q_items q' = [].
Proof.
  apply (queue_refines_fifo [OpSend 5; OpSend 6; OpSend 7; OpReceive; OpSend 8; OpReceive;
    OpReceive; OpReceive] (mk_queue 0 0 0 [0; 0] 2 0) booted).
  constructor; simpl; lia || done.
Defined.

(** A task waiting for SIGQUE that is notified of it becomes ready. *)
Lemma sigque_wakes rtc t :
  status t = TASK_SUSPENDED → Z.testbit (signal_waiting t) 1 = true →
  Z.testbit (signal_mask t) 1 = true →
  let t' := set_signal_pending
              (u8 (Z.lor (signal_pending t) (Z.land MIPOS_SIGQUE (signal_mask t)))) t in
  status (tsm_suspended rtc t') = TASK_READY ∧ wkup (tsm_suspended rtc t') = true.
Proof.
  intros Hs Hw Hm. cbn zeta.
  set (t' := set_signal_pending _ t).
  assert (Z.testbit (signal_pending t') 1 = true) as Hp.
  { simpl. rewrite wrap_spec, Z.lor_spec, Z.land_spec, Hm by lia. apply orb_true_r. }
  assert (∀ t1, Z.testbit (signal_pending t1) 1 = true → Z.testbit (signal_waiting t1) 1 = true →
            (signal_pending t1 &? signal_waiting t1) = true) as Hand.
  { intros t1 H1 H2. apply truth_true. intros H0.
    assert (Z.testbit (Z.land (signal_pending t1) (signal_waiting t1)) 1 = false)
      by by rewrite H0. rewrite Z.land_spec, H1, H2 in H. done. }
  assert (∀ z, Z.testbit (signal_pending t') 1 = true →
            Z.testbit (u8 (Z.lor (signal_pending t') z)) 1 = true) as Hlor.
  { intros z Hz. rewrite wrap_spec, Z.lor_spec, Hz by lia. done. }
  unfold tsm_suspended. cbn zeta.
  match goal with |- context [if ?b then ?a else t'] => set (t1 := if b then a else t') end.
  assert (Z.testbit (signal_pending t1) 1 = true ∧ signal_waiting t1 = signal_waiting t) as [Hp1 Hw1].
  { subst t1. repeat case_if; simpl; auto. }
  match goal with |- context [if ?b then ?a else t1] => set (t2 := if b then a else t1) end.
  assert (Z.testbit (signal_pending t2) 1 = true ∧ signal_waiting t2 = signal_waiting t) as [Hp2 Hw2].
  { subst t2. repeat case_if; simpl; auto.
    by rewrite wrap_spec, Z.lor_spec, Hp1 by lia. }
  rewrite Hand by (rewrite ?Hw2; done). done.
Qed.

(** The task that blocks for SIGQUE waits for it. *)
Lemma suspend_sigque sp k t :
  task_table k !! task_context_ptr k = Some t → status t = TASK_RUNNING →
  ∃ t1, task_table (_mipos_t_suspend MIPOS_SIGQUE sp k) !! task_context_ptr k = Some t1 ∧
    status t1 = TASK_SUSPENDED ∧ Z.testbit (signal_waiting t1) 1 = true ∧
    signal_mask t1 = signal_mask t.
Proof.
  intros Ht Hst. unfold _mipos_t_suspend, _mipos_t_set_wait_for_signal. simpl. eexists.
  split; [rewrite !list_lookup_alter, !decide_True, Ht by done; reflexivity|]. simpl.
  rewrite Hst. simpl. split; [done|]. split; [|done].
  rewrite wrap_spec, Z.lor_spec by lia. apply orb_true_r.
Qed.

(** A send by any task, in any state of the kernel. *)
Definition q_sent (q q' : mipos_queue_t) : Prop := ∃ y k r k', mipos_q_send y (q, k) = Ok (r, (q', k')).

(** Sends leave the oldest item where it is. *)
Lemma q_sent_keeps q q' x l :
  rtc q_sent q q' → queue_wf q → q_items q = x :: l →
  queue_wf q' ∧ suspended_tid q' = suspended_tid q ∧ ∃ l', q_items q' = x :: l'.
Proof.
  intros Hs. revert l. induction Hs as [q|q q1 q2 (y & k & r & k' & Hsend) _ IH]; intros l Hw Hi; [by eauto|].
  destruct (decide (queue_count q < queue_limit q)) as [Hr|Hr].
  - destruct (q_send_room y q k Hw Hr) as (q1' & Hsend' & Hw1 & Hi1 & _ & Hs1 & _). rewrite Hsend in Hsend'. injection Hsend' as _ <- _.
    rewrite <-Hs1. apply (IH (l ++ [y])); [done|]. by rewrite Hi1, Hi.
  - rewrite q_send_full in Hsend by (done || pose proof (qw_count _ Hw); lia). injection Hsend as _ <- _. by apply (IH l).
Qed.

(** C36: hand-over through the kernel: when a task blocks in
    [mipos_q_receive] on an empty queue and another task then sends [x], the
    receiver's next visit by the task state machine makes it ready to resume.
    As long as no other task receives from the queue before it resumes,
    whatever is sent in between, it then returns 1 with [x], with nobody left
    registered as waiting and the items sent later still in the queue. *)
Theorem blocked_receiver_gets_item q k t sp x rtc0 s1 :
  queue_wf q → queue_count q = 0 → suspended_tid q = 0 →
  task_context_ptr k ≠ 0%nat → current_task k = Z.of_nat (task_context_ptr k) →
  (task_context_ptr k < Z.to_nat MIPOS_TASKS_TBL_ENTRIES_CNT)%nat →
  task_table k !! task_context_ptr k = Some t → status t = TASK_RUNNING →
  Z.testbit (signal_mask t) 1 = true →
  q_receive_enter true 1 sp (q, k) = Ok (RSuspend s1) →
  ∃ s2 t2,
    mipos_q_send x s1 = Ok (1, s2) ∧ q_items (fst s2) = [x] ∧
    task_table (snd s2) !! task_context_ptr k = Some t2 ∧ status t2 = TASK_SUSPENDED ∧
    status (tsm_suspended rtc0 t2) = TASK_READY ∧ wkup (tsm_suspended rtc0 t2) = true ∧
    ∀ q3 k3, rtc q_sent (fst s2) q3 →
      ∃ q4, q_receive_resumed (q3, k3) = Ok (1, Some x, (q4, k3)) ∧ q_items q3 = x :: q_items q4 ∧
        queue_wf q4 ∧ suspended_tid q4 = 0.
Proof.
  intros Hw Hc Hs Hx0 Hcur Hlt Ht Hst Hm He. unfold q_receive_enter in He. cbn [negb] in He.
  rewrite Hc, Hs in He. injection He as <-.
  set (k1 := _mipos_t_suspend MIPOS_SIGQUE sp k).
  destruct (suspend_sigque sp k t Ht Hst) as (t1 & Ht1 & Hst1 & Hw1 & Hm1). fold k1 in Ht1.
  destruct (q_send_room x (set_suspended_tid (current_task k) q) k1)
    as (q' & Hsend & Hwf' & Hi' & _); [by apply set_suspended_wf|simpl|].
  { pose proof (qw_limit _ Hw). lia. }
  change (q_items (set_suspended_tid (current_task k) q)) with (q_items q) in Hi'.
  assert (q_items q = []) as Hq0 by (apply nil_length_inv; rewrite q_items_length, Hc; done).
  rewrite Hq0 in Hi'. cbn [app] in Hi'.
  rewrite Hsend. simpl (queue_count _ + 1). rewrite Hc.
  eexists _, _. split; [reflexivity|]. cbn [fst snd]. split; [done|].
  unfold q_notify. simpl (suspended_tid _).
  assert (truth (current_task k) = true) as -> by (apply truth_true; lia).
  unfold mipos_t_notify_signal, with_p_task.
  assert (_mipos_get_p_task (current_task k) k1 = Some (task_context_ptr k)) as ->.
  { unfold _mipos_get_p_task. replace (current_task k =? 0) with false by lia.
    replace (_ && _) with true; [by rewrite Hcur, Nat2Z.id|].
    symmetry. apply andb_true_iff. rewrite Z.ltb_lt, Z.ltb_lt. lia. }
  unfold upd_task. cbn [set_task_table task_table].
  split; [rewrite list_lookup_alter, decide_True, Ht1 by done; reflexivity|].
  rewrite <-Hm1 in Hm. split; [done|]. destruct (sigque_wakes rtc0 t1 Hst1 Hw1 Hm) as [H1 H2].
  split; [exact H1|]. split; [exact H2|]. intros q3 k3 Hq3.
  destruct (q_sent_keeps q' q3 x [] Hq3 Hwf' Hi') as (Hw3 & _ & l & Hi3).
  destruct (q_take_some (set_suspended_tid 0 q3)) as (y & q4 & Htake & Hw4 & Hy & _ & Hs4); [by apply set_suspended_wf| |].
  { pose proof (q_items_length q3) as Hl. rewrite Hi3 in Hl. simpl in Hl |- *. lia. }
  change (q_items (set_suspended_tid 0 q3)) with (q_items q3) in Hy. exists q4. rewrite Hi3 in Hy. injection Hy as <- ->.
  split; [|split; [done|by rewrite Hs4]]. unfold q_receive_resumed. by rewrite Htake.
Qed.

(** The booted system with its root task running. *)
Definition root_running : mipos_kernel_t := Eval vm_compute in
  upd_task 1 (set_status TASK_RUNNING)
    (set_current_task 1 (set_task_context_ptr 1 booted)).

(** Task 1 blocks, 42 is sent to it and 43 follows before it resumes. *)
Lemma blocked_receiver_gets_item_witness :
  ∃ s2 t2 q3 q4,
    mipos_q_send 42 (set_suspended_tid 1 (mk_queue 0 0 0 [0; 0] 2 0),
                     _mipos_t_suspend MIPOS_SIGQUE 7 root_running) = Ok (1, s2) ∧
    task_table (snd s2) !! 1%nat = Some t2 ∧ status t2 = TASK_SUSPENDED ∧
    status (tsm_suspended 0 t2) = TASK_READY ∧ wkup (tsm_suspended 0 t2) = true ∧
    q_sent (fst s2) q3 ∧
    q_receive_resumed (q3, root_running) = Ok (1, Some 42, (q4, root_running)) ∧ q_items q4 = [43].
Proof.
  destruct (blocked_receiver_gets_item (mk_queue 0 0 0 [0; 0] 2 0) root_running
    (default zero_task (task_table root_running !! 1%nat)) 7 42 0
    (set_suspended_tid 1 (mk_queue 0 0 0 [0; 0] 2 0), _mipos_t_suspend MIPOS_SIGQUE 7 root_running)) as (s2 & t2 & Hsend & _ & Ht2 & Hs2 & Hr2 & Hk2 & Hres).
  - constructor; simpl; lia || done.
  - reflexivity.
  - reflexivity.
  - discriminate.
  - reflexivity.
  - vm_compute. lia.
  - reflexivity.
  - reflexivity.
  - reflexivity.
  - reflexivity.
  - assert (q_sent (fst s2) (mk_queue 1 0 0 [42; 43] 2 2)) as Hq.
    { vm_compute in Hsend. injection Hsend as <-. exists 43, root_running. eexists _, _. vm_compute. reflexivity. }
    destruct (Hres _ root_running (rtc_once _ _ Hq)) as (q4 & Hrun & Hi & _). vm_compute in Hi. injection Hi as Hi.
    exists s2, t2, (mk_queue 1 0 0 [42; 43] 2 2), q4. split; [exact Hsend|]. do 4 (split; [assumption|]). split; [exact Hq|].
    split; [exact Hrun|]. symmetry. exact Hi.
Defined.

(** [mipos_q_message_pending] is also true of an empty queue some task is
    blocked on, contrary to its description ("messages to be processed"); the
    count is exact. *)
Theorem message_pending_meaning q :
  queue_wf q →
  mipos_q_count q = Z.of_nat (length (q_items q)) ∧
  mipos_q_message_pending q = bool_decide (q_items q ≠ [] ∨ suspended_tid q ≠ 0).
Proof.
  intros Hw. pose proof (qw_count _ Hw). pose proof (q_items_length q) as Hlen.
  split; [unfold mipos_q_count; lia|]. unfold mipos_q_message_pending.
  destruct (Z.eqb_spec (queue_count q) 0) as [H0|H0]; simpl.
  - assert (q_items q = []) as -> by (apply nil_length_inv; lia).
    destruct (Z.eqb_spec (suspended_tid q) 0); simpl; case_bool_decide; naive_solver.
  - rewrite bool_decide_true; [done|]. left. intros E. rewrite E in Hlen. simpl in Hlen. lia.
Qed.

Lemma message_pending_meaning_witness :
  mipos_q_message_pending (mk_queue 3 0 0 [0; 0] 2 0) = true.
Proof.
  destruct (message_pending_meaning (mk_queue 3 0 0 [0; 0] 2 0)) as [_ ->];
    [constructor; simpl; lia || done|]. reflexivity.
Defined.
