(* ===== verification/Mutex.v ===== *)
(** * Mutexes

    src/mipos/mipos_mutex.h: a flag that tasks test and set, yielding with
    [mipos_tm_wkafter(0)] while it is set.  Tasks are switched only where they
    yield, so the test and the setting are one step; any other interleaving of
    the tasks is allowed. *)

From S2P Require Import Prelude.

Definition MUTEX_UNLOCKED : Z := 0.
Definition MUTEX_LOCKED : Z := 1.

(** [mipos_mtx_t] *)
Record mipos_mtx_t := mk_mtx { mtx_state : Z }.

Definition MU_INIT : mipos_mtx_t := mk_mtx 0.

Definition mipos_mu_init (m : mipos_mtx_t) : mipos_mtx_t := mk_mtx MUTEX_UNLOCKED.

(** One iteration of the loop of [mipos_mu_lock]: the mutex is taken, or the
    caller yields and will test again. *)
Definition mu_lock_try (m : mipos_mtx_t) : bool * mipos_mtx_t :=
  if mtx_state m =? MUTEX_UNLOCKED
  then (true, mk_mtx (Z.lor (mtx_state m) MUTEX_LOCKED))
  else (false, m).

Definition mipos_mu_unlock (m : mipos_mtx_t) : mipos_mtx_t := mk_mtx MUTEX_UNLOCKED.

(** The whole [mipos_mu_lock], [others i] being what the rest of the system
    does to the mutex during the [i]-th yield. *)
Fixpoint mipos_mu_lock (fuel : nat) (i : nat) (others : nat → mipos_mtx_t → mipos_mtx_t)
    (m : mipos_mtx_t) : res mipos_mtx_t :=
  match fuel with
  | O => Fault OutOfFuel
  | S fuel =>
      let '(got, m) := mu_lock_try m in
      if (got : bool) then Ok m else mipos_mu_lock fuel (S i) others (others i m)
  end.

(** ** Tasks sharing a mutex *)

(** The mutex, the tasks that got it and did not unlock it since, and the tasks
    inside [mipos_mu_lock]. *)
Record msys := mk_msys { mtx : mipos_mtx_t; holding : gset nat; waiting : gset nat }.

(** What the task [i] does between two yields: it calls [mipos_mu_lock], its
    test fails or succeeds, it calls [mipos_mu_unlock]. *)
Inductive mevent :=
  | ERequest (i : nat)
  | ERetry (i : nat)
  | EAcquire (i : nat)
  | EUnlock (i : nat).

(** Any task that is not inside [mipos_mu_lock] may call it, also one that
    holds the mutex, and may unlock, also one that does not hold it. *)
Inductive mstep : msys → mevent → msys → Prop :=
  | m_request i s :
      i ∉ waiting s → mstep s (ERequest i) (mk_msys (mtx s) (holding s) ({[i]} ∪ waiting s))
  | m_retry i s m' :
      i ∈ waiting s → mu_lock_try (mtx s) = (false, m') → mstep s (ERetry i) (mk_msys m' (holding s) (waiting s))
  | m_acquire i s m' :
      i ∈ waiting s → mu_lock_try (mtx s) = (true, m') →
      mstep s (EAcquire i) (mk_msys m' ({[i]} ∪ holding s) (waiting s ∖ {[i]}))
  | m_unlock i s :
      i ∉ waiting s → mstep s (EUnlock i) (mk_msys (mipos_mu_unlock (mtx s)) (holding s ∖ {[i]}) (waiting s)).

Definition minit : msys := mk_msys (mipos_mu_init MU_INIT) ∅ ∅.

(** The states reached from an initialised mutex by steps that are [allowed]. *)
Inductive mreach (allowed : msys → mevent → Prop) : msys → Prop :=
  | mr_init : mreach allowed minit
  | mr_step s e s' : mreach allowed s → allowed s e → mstep s e s' → mreach allowed s'.

(** The discipline: a task unlocks only what it holds. *)
Definition unlocks_own (s : msys) (e : mevent) : Prop :=
  match e with EUnlock i => i ∈ holding s | _ => True end.

(** The flag says exactly whether some task holds the mutex, and at most one
    does. *)
Definition mutex_inv (s : msys) : Prop :=
  (mtx_state (mtx s) = MUTEX_UNLOCKED ∧ holding s = ∅) ∨
  (mtx_state (mtx s) = MUTEX_LOCKED ∧ ∃ i, holding s = {[i]}).

Lemma mutex_inv_step s e s' : mutex_inv s → unlocks_own s e → mstep s e s' → mutex_inv s'.
Proof.
  unfold mutex_inv. intros Hi Ho Hs. destruct Hs as [i s Hw|i s m' Hw Hm|i s m' Hw Hm|i s Hw]; simpl in *; [done| | |].
  - unfold mu_lock_try in Hm. case_match; [done|]. by injection Hm as <-.
  - unfold mu_lock_try in Hm. case_match; [|done]. injection Hm as <-. bool_to_prop.
    destruct Hi as [[Hu ->]|[Hl _]]; [|by rewrite Hl in *]. right. simpl. rewrite Hu. split; [done|]. exists i. set_solver.
  - left. split; [done|]. destruct Hi as [[_ E]|[_ [j E]]]; rewrite E in *; set_solver.
Qed.

Lemma mreach_inv s : mreach unlocks_own s → mutex_inv s.
Proof.
  induction 1 as [|s e s' _ IH Ho Hs]; [by left|by eapply mutex_inv_step].
Qed.

(** ** Properties *)

(** C16: mutual exclusion among tasks that unlock only what they hold: in every
    state tasks reach by locking and unlocking, in any order of their turns, at
    most one task holds the mutex, and the flag is set exactly while one does.
    The macro does not test who unlocks; [stray_unlock_breaks_exclusion] shows
    that one unlock by another task is enough to break it. *)
Theorem mutual_exclusion s :
  mreach unlocks_own s →
  (∀ i j, i ∈ holding s → j ∈ holding s → i = j) ∧
  (mtx_state (mtx s) = MUTEX_LOCKED ↔ ∃ i, i ∈ holding s).
Proof.
  intros [[Hu Hh]|[Hl [k Hh]]]%mreach_inv; rewrite Hh.
  - split; [set_solver|]. rewrite Hu. split; [done|set_solver].
  - split; [set_solver|]. rewrite Hl. split; [|done]. intros _. exists k. set_solver.
Qed.

(** Two tasks ask, the first gets the mutex. *)
Definition contended : msys := mk_msys (mk_mtx 1) ({[1%nat]} ∪ ∅) (({[2%nat]} ∪ ({[1%nat]} ∪ ∅)) ∖ {[1%nat]}).

Lemma contended_reach allowed :
  (∀ s e, match e with EUnlock _ => True | _ => allowed s e end) → mreach allowed contended.
Proof.
  intros Ha. pose proof (λ s i, Ha s (ERequest i)) as Hr. pose proof (λ s i, Ha s (EAcquire i)) as Hq. simpl in *.
  refine (mr_step _ _ _ _ _ (Hq _ 1%nat) (m_acquire 1 (mk_msys (mk_mtx 0) ∅ ({[2%nat]} ∪ ({[1%nat]} ∪ ∅))) (mk_mtx 1) _ eq_refl)); [|by apply (bool_decide_unpack _)].
  refine (mr_step _ _ _ _ _ (Hr _ 2%nat) (m_request 2 (mk_msys (mk_mtx 0) ∅ ({[1%nat]} ∪ ∅)) _)); [|by apply (bool_decide_unpack _)].
  refine (mr_step _ _ _ _ _ (Hr _ 1%nat) (m_request 1 minit _)); [apply mr_init|by apply (bool_decide_unpack _)].
Qed.

Lemma mutual_exclusion_witness :
  mtx_state (mtx contended) = MUTEX_LOCKED ↔ ∃ i, i ∈ holding contended.
Proof. apply (mutual_exclusion contended). apply contended_reach. by intros s []. Defined.

(** The description of [mipos_mu_unlock] says that an unlock by a task that
    does not hold the mutex has no effect; the code releases it, so that after
    an unlock by a third task the second one gets in beside the holder. *)
Theorem stray_unlock_breaks_exclusion :
  ∃ s, mreach (λ _ _, True) s ∧ 1%nat ∈ holding s ∧ 2%nat ∈ holding s.
Proof.
  assert (mreach (λ _ _, True) (mk_msys (mipos_mu_unlock (mtx contended)) (holding contended ∖ {[3%nat]}) (waiting contended))) as H1.
  { eapply (mr_step _ _ (EUnlock 3)); [apply contended_reach; by intros s []|done|apply m_unlock]. by apply (bool_decide_unpack _). }
  eexists. split; [eapply (mr_step _ _ (EAcquire 2)); [exact H1|done|apply m_acquire; [by apply (bool_decide_unpack _)|reflexivity]]|].
  split; by apply (bool_decide_unpack _).
Qed.

(** The mutex at the test that follows [n] yields, all earlier ones failing. *)
Fixpoint after_yields (others : nat → mipos_mtx_t → mipos_mtx_t) (i n : nat)
    (m : mipos_mtx_t) : mipos_mtx_t :=
  match n with
  | O => m
  | S n => after_yields others (S i) n (others i m)
  end.

(** C37: [mipos_mu_lock] takes the mutex at the first of its tests that finds it
    free, and not before: if the test after the [n]-th yield is the first to
    find it unlocked, the loop ends at exactly that test, with the flag set;
    with fewer tests it has not returned. *)
Theorem lock_terminates others i n m :
  (∀ j, (j < n)%nat → mtx_state (after_yields others i j m) ≠ MUTEX_UNLOCKED) →
  mtx_state (after_yields others i n m) = MUTEX_UNLOCKED →
  ∀ fuel, mipos_mu_lock fuel i others m = if (fuel <=? n)%nat then Fault OutOfFuel else Ok (mk_mtx MUTEX_LOCKED).
Proof.
  revert i m. induction n as [|n IH]; intros i m Hbusy Hfree fuel; (destruct fuel as [|fuel]; [done|]); cbn [mipos_mu_lock]; unfold mu_lock_try at 1.
  - simpl in Hfree. by rewrite Hfree.
  - pose proof (Hbusy 0%nat ltac:(lia)) as Hb. simpl in Hb. rewrite (proj2 (Z.eqb_neq _ _) Hb).
    rewrite IH; [done| |done]. intros j Hj. apply (Hbusy (S j)). lia.
Qed.

Lemma lock_terminates_witness :
  mipos_mu_lock 3 0 (λ i m, if Nat.eqb i 1 then mipos_mu_unlock m else m) (mk_mtx 1) = Ok (mk_mtx 1) ∧
  mipos_mu_lock 2 0 (λ i m, if Nat.eqb i 1 then mipos_mu_unlock m else m) (mk_mtx 1) = Fault OutOfFuel.
Proof.
  split; refine (lock_terminates _ 0 2 (mk_mtx 1) _ _ _); try reflexivity; intros [|[|j]] Hj; vm_compute; (discriminate || lia).
Defined.
