(* ===== verification/Memory.v ===== *)
(** * Byte-addressed memory

    Finite maps from addresses to bytes, with little-endian words; an access
    to an address that is not mapped is a fault. *)

From S2P Require Import Prelude.

Abbreviation mem := (gmap Z Z).

Fixpoint load_le (n : nat) (a : Z) (m : mem) : res Z :=
  match n with
  | O => Ok 0
  | S n =>
      b ← of_lookup (m !! a);
      r ← load_le n (a + 1) m;
      Ok (b + 256 * r)
  end.

Fixpoint store_le (n : nat) (a v : Z) (m : mem) : res mem :=
  match n with
  | O => Ok m
  | S n =>
      _ ← of_lookup (m !! a);
      store_le n (a + 1) (v `div` 256) (<[a := v `mod` 256]> m)
  end.

(** [n] bytes from [a] on are mapped. *)
Definition mapped (a n : Z) (m : mem) : Prop := ∀ x, a ≤ x < a + n → is_Some (m !! x).

Lemma mapped_sub a n b k m : mapped a n m → a ≤ b → b + k ≤ a + n → mapped b k m.
Proof. intros Hm ? ? x ?. apply Hm. lia. Qed.

Lemma mapped_insert a n x v m : mapped a n m → mapped a n (<[x := v]> m).
Proof.
  intros Hm y Hy. destruct (decide (x = y)) as [->|]; [by rewrite lookup_insert_eq|].
  rewrite lookup_insert_ne by done. by apply Hm.
Qed.

(** [n] zero bytes at [a]. *)
Fixpoint zero_mem (a : Z) (n : nat) : mem :=
  match n with
  | O => ∅
  | S n => <[a := 0]> (zero_mem (a + 1) n)
  end.

Lemma zero_mem_mapped a n : mapped a (Z.of_nat n) (zero_mem a n).
Proof.
  revert a. induction n as [|n IH]; intros a x Hx; [lia|]. simpl.
  destruct (decide (a = x)) as [->|]; [by rewrite lookup_insert_eq|].
  rewrite lookup_insert_ne by done. apply IH. lia.
Qed.

(** Two memories that agree on an interval. *)
Definition agree (a n : Z) (m m' : mem) : Prop := ∀ x, a ≤ x < a + n → m !! x = m' !! x.

Lemma load_le_agree n a m m' :
  agree a (Z.of_nat n) m m' → load_le n a m = load_le n a m'.
Proof.
  revert a. induction n as [|n IH]; intros a Ha; simpl; [done|].
  rewrite (Ha a) by lia. rewrite (IH (a + 1)); [done|]. intros x Hx. apply Ha. lia.
Qed.

Lemma store_le_other n a v m m' x :
  store_le n a v m = Ok m' → x < a ∨ a + Z.of_nat n ≤ x → m' !! x = m !! x.
Proof.
  revert a v m. induction n as [|n IH]; intros a v m Hs Hx; cbn [store_le] in Hs; inv_ok; [done|].
  rewrite (IH _ _ _ Hs) by lia. by rewrite lookup_insert_ne by lia.
Qed.

Lemma store_le_mapped n a v m m' b k :
  store_le n a v m = Ok m' → mapped b k m → mapped b k m'.
Proof.
  revert a v m. induction n as [|n IH]; intros a v m Hs Hm; cbn [store_le] in Hs; inv_ok; [done|].
  eapply IH; [done|]. by apply mapped_insert.
Qed.

Lemma store_le_ok n a v m :
  mapped a (Z.of_nat n) m → ∃ m', store_le n a v m = Ok m'.
Proof.
  revert a v m. induction n as [|n IH]; intros a v m Hm; [by exists m|].
  cbn [store_le]. destruct (Hm a) as [b Hb]; [lia|]. rewrite Hb. simpl of_lookup. rewrite bind_Ok.
  apply IH, mapped_insert. eapply mapped_sub; [done|lia..].
Qed.

Lemma load_store_le n a v m m' :
  store_le n a v m = Ok m' → load_le n a m' = Ok (v `mod` 256 ^ Z.of_nat n).
Proof.
  revert a v m. induction n as [|n IH]; intros a v m Hs; [by rewrite Z.mod_1_r|].
  cbn [store_le load_le] in *. inv_ok.
  rewrite (store_le_other _ _ _ _ _ a Hs), lookup_insert_eq by lia.
  rewrite (IH _ _ _ Hs). simpl. f_equal. rewrite Nat2Z.inj_succ, Z.pow_succ_r by lia.
  rewrite Z.rem_mul_r by lia. lia.
Qed.

(** ** [memset] and [memcpy], byte by byte *)

Fixpoint memset (a v : Z) (n : nat) (m : mem) : res mem :=
  match n with
  | O => Ok m
  | S n => _ ← of_lookup (m !! a); memset (a + 1) v n (<[a := v]> m)
  end.

Fixpoint memcpy (dst src : Z) (n : nat) (m : mem) : res mem :=
  match n with
  | O => Ok m
  | S n =>
      b ← of_lookup (m !! src);
      _ ← of_lookup (m !! dst);
      memcpy (dst + 1) (src + 1) n (<[dst := b]> m)
  end.

Lemma memset_spec a v n m :
  mapped a (Z.of_nat n) m →
  ∃ m', memset a v n m = Ok m' ∧
    (∀ x, a ≤ x < a + Z.of_nat n → m' !! x = Some v) ∧
    (∀ x, x < a ∨ a + Z.of_nat n ≤ x → m' !! x = m !! x).
Proof.
  revert a m. induction n as [|n IH]; intros a m Hm; [exists m; split; [done|split; [lia|done]]|].
  cbn [memset]. destruct (Hm a) as [b ->]; [lia|]. simpl of_lookup. rewrite bind_Ok.
  destruct (IH (a + 1) (<[a := v]> m)) as (m' & -> & Hin & Hout).
  { apply mapped_insert. eapply mapped_sub; [done|lia..]. }
  exists m'. split; [done|]. split; intros x Hx.
  - destruct (decide (x = a)) as [->|]; [|apply Hin; lia].
    rewrite Hout by lia. apply lookup_insert_eq.
  - rewrite Hout by lia. apply lookup_insert_ne. lia.
Qed.

Lemma memcpy_spec dst src n m :
  mapped dst (Z.of_nat n) m → mapped src (Z.of_nat n) m →
  dst + Z.of_nat n ≤ src ∨ src + Z.of_nat n ≤ dst →
  ∃ m', memcpy dst src n m = Ok m' ∧
    (∀ i, 0 ≤ i < Z.of_nat n → m' !! (dst + i) = m !! (src + i)) ∧
    (∀ x, x < dst ∨ dst + Z.of_nat n ≤ x → m' !! x = m !! x).
Proof.
  revert dst src m.
  induction n as [|n IH]; intros dst src m Hd Hs Hdis; [exists m; split; [done|split; [lia|done]]|].
  cbn [memcpy]. destruct (Hs src) as [b Hb]; [lia|]. destruct (Hd dst) as [c Hc]; [lia|].
  rewrite Hb, Hc. simpl of_lookup. rewrite !bind_Ok.
  destruct (IH (dst + 1) (src + 1) (<[dst := b]> m)) as (m' & -> & Hin & Hout); [..|lia|].
  { apply mapped_insert. eapply mapped_sub; [exact Hd|lia..]. }
  { apply mapped_insert. eapply mapped_sub; [exact Hs|lia..]. }
  exists m'. split; [done|]. split.
  - intros i Hi. destruct (decide (i = 0)) as [->|].
    + rewrite !Z.add_0_r, Hout, lookup_insert_eq by lia. done.
    + replace (dst + i) with (dst + 1 + (i - 1)) by lia. rewrite Hin by lia.
      rewrite lookup_insert_ne by lia. f_equal. lia.
  - intros x Hx. rewrite Hout by lia. apply lookup_insert_ne. lia.
Qed.

Lemma eq_mapped a n m m' : (∀ x, m' !! x = m !! x ∨ is_Some (m' !! x)) → mapped a n m → mapped a n m'.
Proof. intros He Hm x Hx. destruct (He x) as [->|]; [by apply Hm|done]. Qed.

(** Pointers: 8 bytes (MIPOS64). *)
Definition ptr_size : Z := 8.
Definition load_ptr (a : Z) (m : mem) : res Z := load_le 8 a m.
Definition store_ptr (a v : Z) (m : mem) : res mem := store_le 8 a v m.

Lemma store_ptr_spec a v m :
  0 ≤ v < 2 ^ 64 → mapped a ptr_size m →
  ∃ m', store_ptr a v m = Ok m' ∧ load_ptr a m' = Ok v ∧
    (∀ x, x < a ∨ a + ptr_size ≤ x → m' !! x = m !! x) ∧
    (∀ b k, mapped b k m → mapped b k m').
Proof.
  intros Hv Hm. destruct (store_le_ok 8 a v m Hm) as [m' Hs]. exists m'.
  split; [done|]. split; [|split].
  - unfold load_ptr. rewrite (load_store_le _ _ _ _ _ Hs). f_equal. by apply Z.mod_small.
  - intros x. by apply (store_le_other 8 a v).
  - intros b k. by apply (store_le_mapped 8 a v).
Qed.

Lemma load_ptr_agree a m m' :
  (∀ x, a ≤ x < a + ptr_size → m' !! x = m !! x) → load_ptr a m' = load_ptr a m.
Proof. intros H. apply load_le_agree. intros x Hx. apply H. done. Qed.

#[global] Opaque load_ptr store_ptr.
