(* ===== verification/Mpool.v ===== *)
(** * Fixed-size block pools

    src/mipos/mipos_mpool.{h,c}: a free list threaded through the free blocks
    of an arena.  The memory is byte addressed; what the clients write into
    the blocks they hold is part of the model. *)

From S2P Require Import Prelude Memory.

(** [mipos_mpool_t] *)
Record mipos_mpool_t := mk_mpool {
  _block_size : Z;
  _n_of_blocks : Z;
  _free_blocks : Z;
  _free_head_ptr : Z;
  _arena_ptr : Z;
}.

Definition pstate : Type := mipos_mpool_t * mem.

(** ** Operations *)

(** The loop of [mipos_mpool_init]: link the blocks, and the address of the
    last one. *)
Fixpoint mpool_init_loop (fuel : nat) (i pool_length block_size block_ptr : Z) (m : mem)
    : res (Z * mem) :=
  match fuel with
  | O => Fault OutOfFuel
  | S fuel =>
      if i <? u64 (pool_length - 1) then
        let pnext := u64 (block_ptr + block_size) in
        m ← store_ptr block_ptr pnext m;
        mpool_init_loop fuel (i + 1) pool_length block_size pnext m
      else Ok (block_ptr, m)
  end.

Definition mipos_mpool_init (fuel : nat) (block_size pool_length arena : Z) (m : mem)
    : res pstate :=
  let block_size := if block_size <? ptr_size then ptr_size else block_size in
  '(block_ptr, m) ← mpool_init_loop fuel 0 pool_length block_size arena m;
  m ← store_ptr block_ptr 0 m;
  Ok (mk_mpool block_size pool_length pool_length arena arena, m).

Definition mipos_mpool_alloc (s : pstate) : res (Z * pstate) :=
  let '(p, m) := s in
  if _free_blocks p =? 0 then Ok (0, (p, m)) else
  let alloc_ptr := _free_head_ptr p in
  next ← load_ptr alloc_ptr m;
  Ok (alloc_ptr, (mk_mpool (_block_size p) (_n_of_blocks p) (u64 (_free_blocks p - 1)) next
                    (_arena_ptr p), m)).

Definition mipos_mpool_free (ptr : Z) (s : pstate) : res pstate :=
  let '(p, m) := s in
  m ← store_ptr ptr (_free_head_ptr p) m;
  Ok (mk_mpool (_block_size p) (_n_of_blocks p) (u64 (_free_blocks p + 1)) ptr
        (_arena_ptr p), m).

Definition mpool_get_used_blocks (p : mipos_mpool_t) : Z := _n_of_blocks p.
Definition mpool_get_free_blocks (p : mipos_mpool_t) : Z := _free_blocks p.

(** ** Invariant *)

(** The addresses of the blocks. *)
Definition block_at (p : mipos_mpool_t) (i : nat) : Z :=
  _arena_ptr p + Z.of_nat i * _block_size p.
Definition blocks (p : mipos_mpool_t) : list Z :=
  block_at p <$> seq 0 (Z.to_nat (_n_of_blocks p)).

(** What no operation changes. *)
Definition pool_geom (p : mipos_mpool_t) : Z * Z * Z :=
  (_block_size p, _n_of_blocks p, _arena_ptr p).

(** The free list from [a] on. *)
Fixpoint chain (m : mem) (a : Z) (l : list Z) : Prop :=
  match l with
  | [] => a = 0
  | b :: l => a = b ∧ ∃ next, load_ptr b m = Ok next ∧ chain m next l
  end.

(** A pool with the free blocks [fl], in list order, and the blocks [al] in
    the hands of clients. *)
Record pool_wf (s : pstate) (fl al : list Z) : Prop := {
  pw_size : ptr_size ≤ _block_size (fst s);
  pw_len : 0 ≤ _n_of_blocks (fst s);
  pw_arena : 0 < _arena_ptr (fst s);
  pw_end : _arena_ptr (fst s) + _n_of_blocks (fst s) * _block_size (fst s) < 2 ^ 64;
  pw_map : mapped (_arena_ptr (fst s)) (_n_of_blocks (fst s) * _block_size (fst s)) (snd s);
  pw_blocks : fl ++ al ≡ₚ blocks (fst s);
  pw_count : _free_blocks (fst s) = Z.of_nat (length fl);
  pw_chain : chain (snd s) (_free_head_ptr (fst s)) fl;
}.

Lemma chain_agree m m' a l :
  (∀ b x, b ∈ l → b ≤ x < b + ptr_size → m' !! x = m !! x) → chain m a l → chain m' a l.
Proof.
  revert a. induction l as [|b l IH]; intros a Hag; simpl; [done|].
  intros (-> & next & Hn & Hc). split; [done|]. exists next. split.
  - rewrite (load_ptr_agree b m m'); [done|]. intros x Hx. apply (Hag b); [set_solver|done].
  - apply IH; [|done]. intros c x Hcl. apply Hag. set_solver.
Qed.

Lemma blocks_elem p b :
  b ∈ blocks p ↔ ∃ i, (i < Z.to_nat (_n_of_blocks p))%nat ∧ b = block_at p i.
Proof.
  unfold blocks. rewrite list_elem_of_fmap. setoid_rewrite elem_of_seq.
  split; intros (i & ? & ?); exists i; [split; [lia|done]|split; [done|lia]].
Qed.

Lemma blocks_NoDup p : 0 < _block_size p → NoDup (blocks p).
Proof.
  intros Hs. unfold blocks. apply NoDup_fmap_2; [|apply NoDup_seq].
  intros i j Hij. unfold block_at in Hij. nia.
Qed.

(** Distinct blocks do not overlap. *)
Lemma blocks_disjoint p b c :
  0 < _block_size p → b ∈ blocks p → c ∈ blocks p → b ≠ c →
  b + _block_size p ≤ c ∨ c + _block_size p ≤ b.
Proof.
  intros Hs (i & _ & ->)%blocks_elem (j & _ & ->)%blocks_elem Hne. unfold block_at in *.
  assert (i ≠ j) as Hij by by intros ->.
  destruct (decide (i < j)%nat); [left|right]; nia.
Qed.

(** Every block lies in the arena. *)
Lemma blocks_in_arena p b :
  0 < _block_size p → b ∈ blocks p →
  _arena_ptr p ≤ b ∧ b + _block_size p ≤ _arena_ptr p + _n_of_blocks p * _block_size p.
Proof.
  intros Hs (i & Hi & ->)%blocks_elem. unfold block_at.
  assert (Z.of_nat i + 1 ≤ _n_of_blocks p) as Hn by lia. nia.
Qed.

Section pool.
Context (s : pstate) (fl al : list Z) (Hw : pool_wf s fl al).

Lemma pw_pos : 0 < _block_size (fst s).
Proof. pose proof (pw_size _ _ _ Hw). unfold ptr_size in *. lia. Qed.

Lemma pw_total : Z.of_nat (length fl + length al) = _n_of_blocks (fst s).
Proof.
  rewrite <-length_app, (Permutation_length (pw_blocks _ _ _ Hw)). unfold blocks.
  rewrite length_fmap, length_seq. pose proof (pw_len _ _ _ Hw). lia.
Qed.

Lemma pw_NoDup : NoDup (fl ++ al).
Proof. rewrite (pw_blocks _ _ _ Hw). apply blocks_NoDup, pw_pos. Qed.

Lemma pw_elem b : b ∈ fl ++ al → b ∈ blocks (fst s).
Proof. by rewrite (pw_blocks _ _ _ Hw). Qed.

Lemma pw_fresh b : b ∈ fl ++ al → 0 < b < 2 ^ 64 ∧ mapped b ptr_size (snd s).
Proof.
  intros Hb%pw_elem. pose proof (blocks_in_arena _ _ pw_pos Hb) as [? ?].
  pose proof pw_pos. destruct Hw. split; [lia|]. eapply mapped_sub; [done|lia..].
Qed.

(** A write into a block a client holds keeps the pool. *)
Lemma pool_wf_write m' b :
  b ∈ al →
  (∀ x, x < b ∨ b + _block_size (fst s) ≤ x → m' !! x = snd s !! x) →
  (∀ c k, mapped c k (snd s) → mapped c k m') →
  pool_wf (fst s, m') fl al.
Proof.
  intros Hb Ho Hm. pose proof pw_NoDup as Hnd. pose proof pw_pos.
  destruct Hw. constructor; simpl; try done; [by apply Hm|].
  eapply chain_agree; [|done]. intros c x Hc Hx. apply Ho.
  assert (b ≠ c) as Hne by (apply NoDup_app in Hnd as (_ & Hnd & _); naive_solver).
  pose proof (blocks_disjoint (fst s) b c pw_pos (pw_elem b ltac:(set_solver))
    (pw_elem c ltac:(set_solver)) Hne). lia.
Qed.
End pool.

(** ** Allocation and release *)

Lemma alloc_some p m b fl al :
  pool_wf (p, m) (b :: fl) al →
  ∃ p', mipos_mpool_alloc (p, m) = Ok (b, (p', m)) ∧ pool_wf (p', m) fl (b :: al) ∧
    pool_geom p' = pool_geom p.
Proof.
  intros Hw. pose proof (pw_pos _ _ _ Hw) as Hpos. destruct Hw. simpl in *.
  destruct pw_chain0 as (Hh & next & Hn & Hc).
  unfold mipos_mpool_alloc. replace (_free_blocks p =? 0) with false by lia.
  rewrite Hh, Hn, bind_Ok. eexists. split; [reflexivity|]. split; [|done].
  constructor; simpl; try done.
  - by rewrite <-Permutation_middle.
  - assert (length (b :: fl ++ al) = Z.to_nat (_n_of_blocks p)) as Hlen.
    { rewrite (Permutation_length pw_blocks0). unfold blocks. by rewrite length_fmap, length_seq. }
    simpl in Hlen. rewrite length_app in Hlen. unfold ptr_size in *.
    rewrite wrap_small; [lia|]. nia.
Qed.

Lemma alloc_none p m al :
  pool_wf (p, m) [] al → mipos_mpool_alloc (p, m) = Ok (0, (p, m)).
Proof. intros []. unfold mipos_mpool_alloc. simpl in *. by rewrite pw_count0. Qed.

Lemma mpool_free_ok p m fl al1 b al2 :
  pool_wf (p, m) fl (al1 ++ b :: al2) →
  ∃ p' m', mipos_mpool_free b (p, m) = Ok (p', m') ∧
    pool_wf (p', m') (b :: fl) (al1 ++ al2) ∧
    pool_geom p' = pool_geom p.
Proof.
  intros Hw. pose proof (pw_pos _ _ _ Hw) as Hpos. simpl in Hpos.
  destruct (pw_fresh _ _ _ Hw b) as [Hb Hbm]; [set_solver|].
  assert (0 ≤ _free_head_ptr p < 2 ^ 64) as Hhd.
  { pose proof (pw_chain _ _ _ Hw) as Hc. destruct fl as [|c fl]; simpl in Hc; [lia|].
    destruct Hc as [-> _]. destruct (pw_fresh _ _ _ Hw c); [set_solver|]. lia. }
  destruct (store_ptr_spec b (_free_head_ptr p) m Hhd Hbm) as (m' & Hs & Hl & Ho & Hm).
  unfold mipos_mpool_free. rewrite Hs, bind_Ok. eexists _, m'. split; [reflexivity|].
  assert (pool_wf (p, m') fl (al1 ++ b :: al2)) as Hw'.
  { apply (pool_wf_write (p, m) fl _ Hw m' b); [set_solver| |done].
    intros x Hx. apply Ho. simpl in Hx. pose proof (pw_size _ _ _ Hw). simpl in *. lia. }
  clear Hw. destruct Hw'. simpl in *. split; [|done]. constructor; simpl; try done.
  - etrans; [|exact pw_blocks0]. by rewrite !app_assoc, <-Permutation_middle.
  - assert (length (fl ++ al1 ++ b :: al2) = Z.to_nat (_n_of_blocks p)) as Hlen.
    { rewrite (Permutation_length pw_blocks0). unfold blocks. by rewrite length_fmap, length_seq. }
    rewrite !length_app in Hlen. simpl in Hlen. unfold ptr_size in *.
    rewrite wrap_small; [lia|]. nia.
  - split; [done|]. by eexists.
Qed.

(** ** Initialisation *)

Lemma init_loop_ok fuel p m i bs n a :
  p = mk_mpool bs n n a a → ptr_size ≤ bs → 1 ≤ n → 0 < a → a + n * bs < 2 ^ 64 →
  mapped a (n * bs) m → 0 ≤ i < n → (Z.to_nat (n - i) ≤ fuel)%nat →
  ∃ m', mpool_init_loop fuel i n bs (block_at p (Z.to_nat i)) m =
      Ok (block_at p (Z.to_nat (n - 1)), m') ∧
    (∀ j, i ≤ j < n - 1 → load_ptr (block_at p (Z.to_nat j)) m' = Ok (block_at p (Z.to_nat (j + 1)))) ∧
    (∀ x, x < block_at p (Z.to_nat i) → m' !! x = m !! x) ∧ mapped a (n * bs) m'.
Proof.
  intros Hp Hbs Hn Ha He Hmap. revert i m Hmap.
  induction fuel as [|fuel IH]; intros i m Hmap Hi Hf; [lia|]. cbn [mpool_init_loop].
  unfold ptr_size in *. rewrite (wrap_small 64 (n - 1)) by nia.
  destruct (Z.ltb_spec i (n - 1)) as [Hlt|Hge].
  2: { exists m. replace (n - 1) with i by lia. split; [done|]. split; [lia|done]. }
  assert (∀ j, 0 ≤ j → block_at p (Z.to_nat j) = a + j * bs) as Hb.
  { intros j Hj. unfold block_at. subst p. simpl. rewrite Z2Nat.id by lia. done. }
  assert (u64 (block_at p (Z.to_nat i) + bs) = block_at p (Z.to_nat (i + 1))) as ->.
  { rewrite !Hb by lia. rewrite wrap_small; [lia|]. nia. }
  destruct (store_ptr_spec (block_at p (Z.to_nat i)) (block_at p (Z.to_nat (i + 1))) m)
    as (m1 & -> & Hl1 & Ho1 & Hm1).
  { rewrite Hb by lia. nia. }
  { rewrite Hb by lia. eapply mapped_sub; [done|nia|unfold ptr_size; nia]. }
  rewrite bind_Ok. destruct (IH (i + 1) m1) as (m' & -> & Hl & Ho & Hm); [by apply Hm1|lia|lia|].
  exists m'. split; [done|]. split; [|split; [|done]].
  - intros j Hj. destruct (decide (j = i)) as [->|]; [|apply Hl; lia].
    rewrite <-Hl1. apply load_ptr_agree. intros x Hx. apply Ho.
    rewrite Hb in * by lia. unfold ptr_size in *. nia.
  - intros x Hx. rewrite Hb in * by lia. rewrite Ho by nia.
    apply Ho1. lia.
Qed.

(** Linked blocks in address order form the free list. *)
Lemma chain_blocks p m j n :
  (∀ i, (j ≤ i)%nat → (S i < n)%nat → load_ptr (block_at p i) m = Ok (block_at p (S i))) →
  (j < n)%nat → load_ptr (block_at p (n - 1)) m = Ok 0 →
  chain m (block_at p j) (block_at p <$> seq j (n - j)).
Proof.
  intros Hl Hj Hlast. remember (n - j)%nat as k eqn:Hk. revert j Hl Hj Hk.
  induction k as [|k IH]; intros j Hl Hj Hk; [lia|]. simpl. split; [done|].
  destruct k as [|k].
  - exists 0. split; [|done]. by replace j with (n - 1)%nat by lia.
  - exists (block_at p (S j)). split; [apply Hl; lia|]. apply IH; [|lia..].
    intros i Hi. apply Hl. lia.
Qed.

Lemma mpool_init_ok fuel block_size n a m :
  let bs := Z.max ptr_size block_size in
  1 ≤ n → 0 < a → a + n * bs < 2 ^ 64 → mapped a (n * bs) m → (Z.to_nat n ≤ fuel)%nat →
  ∃ p m', mipos_mpool_init fuel block_size n a m = Ok (p, m') ∧
    p = mk_mpool bs n n a a ∧ pool_wf (p, m') (blocks p) [].
Proof.
  intros bs Hn Ha He Hmap Hf. set (p := mk_mpool bs n n a a).
  assert (ptr_size ≤ bs) as Hbs by (subst bs; lia).
  destruct (init_loop_ok fuel p m 0 bs n a) as (m1 & Hloop & Hl & _ & Hm1); [done..|lia|lia|].
  unfold mipos_mpool_init.
  replace (if block_size <? ptr_size then ptr_size else block_size) with bs
    by (subst bs; case_if; bool_to_prop; lia).
  replace (block_at p (Z.to_nat 0)) with a in Hloop by (unfold block_at; simpl; lia).
  rewrite Hloop, bind_Ok.
  assert (block_at p (Z.to_nat (n - 1)) = a + (n - 1) * bs) as Hlast
    by (unfold block_at; subst p; simpl; rewrite Z2Nat.id by lia; done).
  unfold ptr_size in Hbs.
  destruct (store_ptr_spec (block_at p (Z.to_nat (n - 1))) 0 m1) as (m2 & -> & Hl2 & Ho2 & Hm2).
  { lia. }
  { rewrite Hlast. eapply mapped_sub; [done|nia|unfold ptr_size; nia]. }
  rewrite bind_Ok. exists p, m2. split; [done|]. split; [done|].
  constructor; simpl; try done; try lia.
  - by apply Hm2.
  - by rewrite app_nil_r.
  - unfold blocks. rewrite length_fmap, length_seq. simpl. lia.
  - assert (chain m2 (block_at p 0) (blocks p)) as Hc; [|by replace (block_at p 0) with a in Hc
      by (unfold block_at; simpl; lia)].
    unfold blocks. simpl. rewrite <-(Nat.sub_0_r (Z.to_nat n)).
    apply chain_blocks; [|lia|by replace (Z.to_nat n - 1)%nat with (Z.to_nat (n - 1)) by lia].
    intros i _ Hi. specialize (Hl (Z.of_nat i)).
    rewrite Nat2Z.id in Hl. replace (Z.to_nat (Z.of_nat i + 1)) with (S i) in Hl by lia.
    rewrite <-Hl by lia. apply load_ptr_agree. intros x Hx. apply Ho2. rewrite Hlast.
    left. unfold block_at, ptr_size in Hx. simpl in Hx. nia.
Qed.

(** ** Clients *)

(** Steps of the clients of a pool: allocate, give back a block, or write a
    byte of a block. *)
Inductive pstep : pstate * list Z → pstate * list Z → Prop :=
  | p_alloc s b s' al :
      mipos_mpool_alloc s = Ok (b, s') → b ≠ 0 → pstep (s, al) (s', b :: al)
  | p_alloc_fail s s' al :
      mipos_mpool_alloc s = Ok (0, s') → pstep (s, al) (s', al)
  | p_free s b s' al1 al2 :
      mipos_mpool_free b s = Ok s' → pstep (s, al1 ++ b :: al2) (s', al1 ++ al2)
  | p_write p m b x v al :
      b ∈ al → b ≤ x < b + _block_size p →
      pstep ((p, m), al) ((p, <[x := v]> m), al).

Lemma pstep_wf x y fl :
  pstep x y → pool_wf (fst x) fl (snd x) →
  pool_geom (fst (fst y)) = pool_geom (fst (fst x)) ∧ ∃ fl', pool_wf (fst y) fl' (snd y).
Proof.
  destruct 1 as [[p m] b s' al Ha Hb|[p m] s' al Ha|[p m] b s' al1 al2 Hf|p m b x v al Hb Hx];
    simpl; intros Hw.
  - destruct fl as [|c fl]; [rewrite (alloc_none _ _ _ Hw) in Ha; by injection Ha as <-|].
    destruct (alloc_some _ _ _ _ _ Hw) as (p' & Ha' & Hw' & Hg). rewrite Ha in Ha'.
    injection Ha' as -> ->. split; [done|]. by exists fl.
  - destruct fl as [|c fl].
    { rewrite (alloc_none _ _ _ Hw) in Ha. injection Ha as <-. split; [done|]. by exists []. }
    destruct (alloc_some _ _ _ _ _ Hw) as (p' & Ha' & _). rewrite Ha in Ha'.
    injection Ha' as <- ->. destruct (pw_fresh _ _ _ Hw 0); [set_solver|lia].
  - destruct (mpool_free_ok _ _ _ _ _ _ Hw) as (p' & m' & Hf' & Hw' & Hg). rewrite Hf in Hf'.
    injection Hf' as ->. split; [done|]. by eexists.
  - split; [done|]. exists fl.
    apply (pool_wf_write (p, m) fl al Hw (<[x := v]> m) b); simpl; [done| |].
    + intros y Hy. rewrite lookup_insert_ne by lia. done.
    + intros c k. apply mapped_insert.
Qed.

Lemma psteps_wf x y fl :
  rtc pstep x y → pool_wf (fst x) fl (snd x) →
  pool_geom (fst (fst y)) = pool_geom (fst (fst x)) ∧ ∃ fl', pool_wf (fst y) fl' (snd y).
Proof.
  intros H. revert fl. induction H as [x|x y z Hs _ IH]; intros fl Hw; [eauto|].
  destruct (pstep_wf _ _ _ Hs Hw) as [Hg [fl' Hw']].
  destruct (IH _ Hw') as [Hg' ?]. split; [congruence|done].
Qed.

(** What a well-formed pool promises its clients. *)
Lemma pool_wf_promises s fl al :
  pool_wf s fl al →
  (∀ b, b ∈ al → b ∈ blocks (fst s)) ∧
  (∀ b c i j, al !! i = Some b → al !! j = Some c → i ≠ j →
     b + _block_size (fst s) ≤ c ∨ c + _block_size (fst s) ≤ b) ∧
  (∃ b s', mipos_mpool_alloc s = Ok (b, s') ∧
     (b = 0 ↔ Z.of_nat (length al) = _n_of_blocks (fst s))) ∧
  (∀ b, b ∈ al → ∃ s', mipos_mpool_free b s = Ok s') ∧
  mpool_get_free_blocks (fst s) = _n_of_blocks (fst s) - Z.of_nat (length al).
Proof.
  intros Hw.
  assert (Z.of_nat (length fl + length al) = _n_of_blocks (fst s)) as Hlen by by apply pw_total.
  split; [|split; [|split; [|split]]].
  - intros b Hb. apply (pw_elem _ _ _ Hw). set_solver.
  - intros b c i j Hb Hc Hij. pose proof (pw_NoDup _ _ _ Hw) as (_ & _ & Hnd)%NoDup_app.
    apply blocks_disjoint; [by eapply pw_pos|eapply pw_elem; [done|].. |].
    + apply list_elem_of_lookup_2 in Hb. set_solver.
    + apply list_elem_of_lookup_2 in Hc. set_solver.
    + intros ->. by eapply Hij, NoDup_lookup.
  - destruct s as [p m].
    destruct fl as [|c fl]; simpl in *.
    + eexists _, _. split; [by eapply alloc_none|]. lia.
    + destruct (alloc_some _ _ _ _ _ Hw) as (p' & Ha & _). eexists _, _. split; [done|].
      destruct (pw_fresh _ _ _ Hw c); [set_solver|]. lia.
  - intros b (al1 & al2 & ->)%list_elem_of_split. destruct s as [p m].
    destruct (mpool_free_ok _ _ _ _ _ _ Hw) as (p' & m' & Hf & _). by eexists.
  - unfold mpool_get_free_blocks. rewrite (pw_count _ _ _ Hw). lia.
Qed.

(** ** Properties *)

(** C17: after [mipos_mpool_init], whatever the clients do with the pool and
    with the blocks they hold, no operation faults, the blocks they hold are
    among the [n] blocks of the arena and pairwise disjoint, an allocation
    fails exactly when every block is in use, and [mpool_get_free_blocks] is
    [n] less the number of blocks they hold. *)
Theorem pool_safe fuel block_size n a m :
  let bs := Z.max ptr_size block_size in
  1 ≤ n → 0 < a → a + n * bs < 2 ^ 64 → mapped a (n * bs) m → (Z.to_nat n ≤ fuel)%nat →
  ∃ s0, mipos_mpool_init fuel block_size n a m = Ok s0 ∧
    ∀ s al, rtc pstep (s0, []) (s, al) →
      (∀ b, b ∈ al → ∃ i, 0 ≤ i < n ∧ b = a + i * bs) ∧
      (∀ b c i j, al !! i = Some b → al !! j = Some c → i ≠ j → b + bs ≤ c ∨ c + bs ≤ b) ∧
      (∃ b s', mipos_mpool_alloc s = Ok (b, s') ∧ (b = 0 ↔ Z.of_nat (length al) = n)) ∧
      (∀ b, b ∈ al → ∃ s', mipos_mpool_free b s = Ok s') ∧
      mpool_get_free_blocks (fst s) = n - Z.of_nat (length al).
Proof.
  intros bs Hn Ha He Hmap Hf.
  destruct (mpool_init_ok fuel block_size n a m) as (p & m0 & Hi & Hp & Hw0); [done..|].
  exists (p, m0). split; [done|]. intros s al Hsteps.
  destruct (psteps_wf _ _ _ Hsteps Hw0) as [Hg [fl Hw]]. simpl in *.
  destruct (pool_wf_promises s fl al Hw) as (H1 & H2 & H3 & H4 & H5).
  unfold pool_geom in Hg. rewrite Hp in Hg. simpl in Hg. injection Hg as Hbs Hnb Har.
  rewrite Hbs in H2. rewrite Hnb in H3, H5. split; [|done].
  intros b Hb. apply H1, blocks_elem in Hb as (i & Hlt & ->). exists (Z.of_nat i).
  unfold block_at. rewrite Har, Hbs. split; [lia|done].
Qed.

(** A 64-byte arena at address 1000. *)
Definition arena64 : mem := zero_mem 1000 64.

Lemma arena64_mapped : mapped 1000 64 arena64.
Proof. apply (zero_mem_mapped 1000 64). Qed.

Lemma pool_safe_witness :
  ∃ s0, mipos_mpool_init 4 16 4 1000 arena64 = Ok s0 ∧
    ∀ s al, rtc pstep (s0, []) (s, al) → ∀ b, b ∈ al → ∃ i, 0 ≤ i < 4 ∧ b = 1000 + i * 16.
Proof.
  destruct (pool_safe 4 16 4 1000 arena64) as (s0 & Hi & Hs).
  - lia.
  - lia.
  - vm_compute. reflexivity.
  - apply arena64_mapped.
  - vm_compute. lia.
  - exists s0. split; [exact Hi|]. intros s al Hr. exact (proj1 (Hs s al Hr)).
Defined.

(** Allocation is last-in first-out: a block that is given back is the one
    the next allocation returns, and giving back what was just allocated
    restores the number of free blocks. *)
Theorem pool_lifo p m fl al1 b al2 s' :
  pool_wf (p, m) fl (al1 ++ b :: al2) → mipos_mpool_free b (p, m) = Ok s' →
  mpool_get_free_blocks (fst s') = mpool_get_free_blocks p + 1 ∧
  ∃ s'', mipos_mpool_alloc s' = Ok (b, s'') ∧
    mpool_get_free_blocks (fst s'') = mpool_get_free_blocks p ∧
    _free_head_ptr (fst s'') = _free_head_ptr p.
Proof.
  intros Hw Hf. pose proof (pw_count _ _ _ Hw) as Hc. simpl in Hc.
  destruct (mpool_free_ok _ _ _ _ _ _ Hw) as (p' & m' & Hf' & Hw' & _).
  assert (_free_head_ptr p = match fl with [] => 0 | c :: _ => c end) as Hh.
  { pose proof (pw_chain _ _ _ Hw) as Hch. destruct fl; simpl in Hch; naive_solver. }
  rewrite Hf in Hf'. injection Hf' as ->. pose proof (pw_count _ _ _ Hw') as Hc'.
  unfold mpool_get_free_blocks. simpl in *. split; [lia|].
  destruct (alloc_some _ _ _ _ _ Hw') as (p2 & Ha & Hw2 & _). eexists. split; [exact Ha|].
  pose proof (pw_count _ _ _ Hw2) as Hc2. pose proof (pw_chain _ _ _ Hw2) as Hch2. simpl in *.
  split; [lia|]. rewrite Hh. destruct fl; simpl in Hch2; naive_solver.
Qed.

Lemma pool_lifo_witness :
  ∃ p m s', pool_wf (p, m) (tail (blocks p)) [1000] ∧ mipos_mpool_free 1000 (p, m) = Ok s' ∧
    mpool_get_free_blocks (fst s') = mpool_get_free_blocks p + 1.
Proof.
  destruct (mpool_init_ok 4 16 4 1000 arena64) as (p & m & _ & -> & Hw);
    [lia|lia|vm_compute; reflexivity|apply arena64_mapped|vm_compute; lia|].
  destruct (alloc_some _ _ _ _ _ Hw) as (p1 & _ & Hw1 & Hg).
  destruct (mpool_free_ok _ _ _ [] _ [] Hw1) as (p2 & m2 & Hf & _).
  destruct (pool_lifo p1 m _ [] 1000 [] (p2, m2) Hw1 Hf) as [H _].
  exists p1, m, (p2, m2). split; [|split; [exact Hf|exact H]].
  replace (blocks p1) with (blocks (mk_mpool 16 4 4 1000 1000)); [exact Hw1|].
  unfold pool_geom in Hg. injection Hg as H1 H2 H3. unfold blocks, block_at. by rewrite H1, H2, H3.
Defined.

(** [mpool_get_used_blocks] is documented as the number of allocated
    blocks; it returns the size of the pool, so it is wrong as soon as one
    block is free. *)
Theorem used_blocks_is_pool_size p m fl al :
  pool_wf (p, m) fl al →
  (mpool_get_used_blocks p = Z.of_nat (length al) ↔ fl = []).
Proof.
  intros Hw. unfold mpool_get_used_blocks.
  pose proof (pw_total _ _ _ Hw) as Ht. simpl in Ht. rewrite <-Ht.
  split; [|by intros ->]. intros H. apply nil_length_inv. lia.
Qed.

Lemma used_blocks_is_pool_size_witness :
  ∃ p, mpool_get_used_blocks p = 4 ∧
    (mpool_get_used_blocks p = Z.of_nat (length (@nil Z)) ↔ blocks p = []).
Proof.
  destruct (mpool_init_ok 4 16 4 1000 arena64) as (p & m & _ & -> & Hw);
    [lia|lia|vm_compute; reflexivity|apply arena64_mapped|vm_compute; lia|].
  exists (mk_mpool 16 4 4 1000 1000). split; [reflexivity|].
  exact (used_blocks_is_pool_size _ _ _ _ Hw).
Defined.
