(* ===== verification/Malloc.v ===== *)
(** * The heap

    src/mipos/mipos_malloc.{h,c}: an arena tiled by blocks, each one a
    descriptor followed by its data, in two doubly linked lists (free and
    used).  The definitions are parameterised by the width [W] of [size_t]
    and of pointers (64 for MIPOS64, 32 for MIPOS32); the descriptors live in
    a map from their addresses, the bytes of the blocks in a byte memory. *)

From S2P Require Import Prelude Memory.

(** [mipos_mdesc_t] *)
Record mipos_mdesc_t := mk_mdesc { _next : Z; _prev : Z; mb_size : Z }.

Definition set_next (v : Z) (d : mipos_mdesc_t) : mipos_mdesc_t := mk_mdesc v (_prev d) (mb_size d).
Definition set_prev (v : Z) (d : mipos_mdesc_t) : mipos_mdesc_t := mk_mdesc (_next d) v (mb_size d).
Definition set_size (v : Z) (d : mipos_mdesc_t) : mipos_mdesc_t := mk_mdesc (_next d) (_prev d) v.

Abbreviation heap := (gmap Z mipos_mdesc_t).

(** [mipos_mm_t], and the memory it manages. *)
Record mipos_mm_t := mk_mm { _arena_size : Z; _free_memory : Z; _used_memory : Z }.

Definition set_free (v : Z) (s : mipos_mm_t) : mipos_mm_t := mk_mm (_arena_size s) v (_used_memory s).
Definition set_used (v : Z) (s : mipos_mm_t) : mipos_mm_t := mk_mm (_arena_size s) (_free_memory s) v.

Record mm_state := mk_mms { mm : mipos_mm_t; hp : heap; data : mem }.

(** ** Descriptors *)

(** [*a] for a descriptor pointer. *)
Definition deref (a : Z) (h : heap) : res mipos_mdesc_t :=
  if a =? 0 then Fault NullDeref else of_lookup (h !! a).

(** [a->field = v] *)
Definition upd_desc (f : mipos_mdesc_t → mipos_mdesc_t) (a : Z) (h : heap) : res heap :=
  d ← deref a h; Ok (<[a := f d]> h).

Definition mdesc_setnext (a block : Z) (h : heap) : res heap := upd_desc (set_next block) a h.
Definition mdesc_setprev (a block : Z) (h : heap) : res heap := upd_desc (set_prev block) a h.
Definition mdesc_setsize (a blockSize : Z) (h : heap) : res heap := upd_desc (set_size blockSize) a h.
Definition mdesc_getsize (a : Z) (h : heap) : res Z := mb_size <$> deref a h.
Definition mdesc_next (a : Z) (h : heap) : res Z := _next <$> deref a h.
Definition mdesc_prev (a : Z) (h : heap) : res Z := _prev <$> deref a h.

Definition mdesc_isolate (a : Z) (h : heap) : res heap :=
  upd_desc (λ d, set_prev 0 (set_next 0 d)) a h.

(** Writing a descriptor over memory that held none creates it. *)
Definition mdesc_init (a size : Z) (h : heap) : res heap :=
  if a =? 0 then Fault NullDeref else Ok (<[a := mk_mdesc 0 0 size]> h).

Definition mdesc_link_after (a block : Z) (h : heap) : res heap :=
  bn ← mdesc_next block h;
  h ← mdesc_setnext a bn h;
  h ← mdesc_setprev a block h;
  n ← mdesc_next a h;
  h ← (if truth n then mdesc_setprev n a h else Ok h);
  mdesc_setnext block a h.

Definition mdesc_link_before (a block : Z) (h : heap) : res heap :=
  bp ← mdesc_prev block h;
  h ← mdesc_setprev a bp h;
  h ← mdesc_setnext a block h;
  p ← mdesc_prev a h;
  h ← (if truth p then mdesc_setnext p a h else Ok h);
  mdesc_setprev block a h.

Definition mdesc_link_detach (a : Z) (h : heap) : res heap :=
  d ← deref a h;
  h ← (if truth (_next d) then mdesc_setprev (_next d) (_prev d) h else Ok h);
  d ← deref a h;
  if truth (_prev d) then mdesc_setnext (_prev d) (_next d) h else Ok h.

(** [if (head == a) { head = a->_next; if (head) head->_prev = 0; }], for the
    heads of the two lists. *)
Definition unlink_head (head a : Z) (h : heap) : res (Z * heap) :=
  if head =? a then
    nx ← mdesc_next a h;
    h ← (if truth nx then mdesc_setprev nx 0 h else Ok h);
    Ok (nx, h)
  else Ok (head, h).

(** Bounds of the loops: each visits a descriptor at most once per round. *)
Definition fuel_of (h : heap) : nat := S (size h).

Section arch.
Context (W : Z).

Definition sizeof_mdesc : Z := 3 * (W / 8).

Definition mdesc_get_data_addr (a : Z) : Z := wrap W (a + sizeof_mdesc).
Definition mdesc_get_bd_addr (ptr : Z) : Z := wrap W (ptr - sizeof_mdesc).

Definition mdesc_merge (mbd1 mbd2 : Z) (h : heap) : res (Z * heap) :=
  let leftNode := Z.min mbd1 mbd2 in
  let rightNode := Z.max mbd1 mbd2 in
  s1 ← mdesc_getsize mbd1 h;
  s2 ← mdesc_getsize mbd2 h;
  let newSize := wrap W (s1 + s2 + sizeof_mdesc) in
  h ← mdesc_setsize leftNode newSize h;
  h ← mdesc_link_detach rightNode h;
  h ← mdesc_isolate rightNode h;
  Ok (leftNode, h).

Definition mm_add2used (mbd : Z) (s : mipos_mm_t) (h : heap) : res (mipos_mm_t * heap) :=
  if _used_memory s =? 0 then
    h ← mdesc_isolate mbd h;
    Ok (set_used mbd s, h)
  else
    h ← mdesc_link_after mbd (_used_memory s) h;
    Ok (s, h).

(** The loop of [mm_find_free]: an exact fit, or the largest block that is
    larger than [size]. *)
Fixpoint find_free_loop (fuel : nat) (mbd g_mbd size : Z) (h : heap) : res Z :=
  match fuel with
  | O => Fault OutOfFuel
  | S fuel =>
      if mbd =? 0 then Ok g_mbd else
      sz ← mdesc_getsize mbd h;
      if sz =? size then Ok mbd else
      g_mbd ← (if size <? sz then
                 if truth g_mbd then
                   gsz ← mdesc_getsize g_mbd h;
                   Ok (if gsz <? sz then mbd else g_mbd)
                 else Ok mbd
               else Ok g_mbd);
      nx ← mdesc_next mbd h;
      find_free_loop fuel nx g_mbd size h
  end.

Definition mm_find_free (size : Z) (s : mipos_mm_t) (h : heap) : res Z :=
  if _free_memory s =? 0 then Ok 0
  else find_free_loop (fuel_of h) (_free_memory s) 0 size h.

Fixpoint find_used_loop (fuel : nat) (mbd ptr : Z) (h : heap) : res Z :=
  match fuel with
  | O => Fault OutOfFuel
  | S fuel =>
      if mbd =? 0 then Ok 0 else
      if ptr =? mdesc_get_data_addr mbd then Ok mbd else
      nx ← mdesc_next mbd h;
      find_used_loop fuel nx ptr h
  end.

Definition mm_find_used (ptr : Z) (s : mipos_mm_t) (h : heap) : res Z :=
  find_used_loop (fuel_of h) (_used_memory s) ptr h.

Definition mipos_mm_is_in (ptr : Z) (s : mm_state) : res bool :=
  truth <$> mm_find_used ptr (mm s) (hp s).

(** [mbd_i] ends where [mbd] starts, or the other way round. *)
Definition contiguous (mbd_i mbd : Z) (h : heap) : res bool :=
  si ← mdesc_getsize mbd_i h;
  if wrap W (mdesc_get_data_addr mbd_i + si) =? mbd then Ok true else
  s ← mdesc_getsize mbd h;
  Ok (wrap W (mdesc_get_data_addr mbd + s) =? mbd_i).

Fixpoint find_cont_loop (fuel : nat) (mbd_i mbd : Z) (h : heap) : res Z :=
  match fuel with
  | O => Fault OutOfFuel
  | S fuel =>
      if mbd_i =? 0 then Ok 0 else
      c ← (if mbd =? mbd_i then Ok false else contiguous mbd_i mbd h);
      if (c : bool) then Ok mbd_i else
      nx ← mdesc_next mbd_i h;
      find_cont_loop fuel nx mbd h
  end.

Definition mm_find_cont_free_pred_mb (mbd : Z) (s : mipos_mm_t) (h : heap) : res Z :=
  find_cont_loop (fuel_of h) (_free_memory s) mbd h.

Definition mm_find_cont_free_mb (first_mbd second_mbd : Z) (s : mipos_mm_t) (h : heap)
    : res (Z * mipos_mm_t * heap) :=
  let max_mbd := Z.max first_mbd second_mbd in
  s ← (if _free_memory s =? max_mbd then
         nx ← mdesc_next max_mbd h;
         Ok (if truth nx then set_free nx s else set_free (Z.min first_mbd second_mbd) s)
       else Ok s);
  '(l, h) ← mdesc_merge first_mbd second_mbd h;
  Ok (l, s, h).

(** [(signed_size_t)z], a [long long], of a [size_t]. *)
Definition signed_size (z : Z) : Z := s64 z.

Definition mm_alloc_aux (size : Z) (s : mipos_mm_t) (h : heap)
    : res (Z * mipos_mm_t * heap) :=
  mbd ← mm_find_free size s h;
  if mbd =? 0 then Ok (0, s, h) else
  let needed_mbd_size := wrap W (size + sizeof_mdesc) in
  sz ← mdesc_getsize mbd h;
  '(allocated_mbd, s, h) ←
    (if signed_size sizeof_mdesc <? signed_size (wrap W (sz - needed_mbd_size)) then
       h ← mdesc_setsize mbd (wrap W (sz - needed_mbd_size)) h;
       sz ← mdesc_getsize mbd h;
       let allocated_mbd := wrap W (mdesc_get_data_addr mbd + sz) in
       h ← mdesc_init allocated_mbd size h;
       Ok (allocated_mbd, s, h)
     else
       '(fm, h) ← unlink_head (_free_memory s) mbd h;
       let s := set_free fm s in
       h ← mdesc_link_detach mbd h;
       Ok (mbd, s, h));
  '(s, h) ← mm_add2used allocated_mbd s h;
  Ok (allocated_mbd, s, h).

Definition mipos_mm_free (ptr : Z) (st : mm_state) : res (Z * mm_state) :=
  let '(mk_mms s h dt) := st in
  a ← mm_find_used ptr s h;
  if a =? 0 then Ok (0, st) else
  '(um, h) ← unlink_head (_used_memory s) a h;
  let s := set_used um s in
  h ← mdesc_link_detach a h;
  h ← mdesc_isolate a h;
  if _free_memory s =? 0 then Ok (1, mk_mms (set_free a s) h dt)
  else
    h ← mdesc_link_after a (_free_memory s) h;
    Ok (1, mk_mms s h dt).

Definition mipos_mm_init (arena size : Z) (dt : mem) : res mm_state :=
  dt ← memset arena 0 (Z.to_nat size) dt;
  h ← mdesc_init arena (wrap W (size - sizeof_mdesc)) ∅;
  Ok (mk_mms (mk_mm size arena 0) h dt).

(** The loop of [mipos_mm_compact_freemem]; after a merge it starts again
    from the head of the free list. *)
Fixpoint compact_loop (fuel : nat) (mbd bytes_needed bytes_compacted : Z)
    (s : mipos_mm_t) (h : heap) : res (Z * mipos_mm_t * heap) :=
  match fuel with
  | O => Fault OutOfFuel
  | S fuel =>
      if mbd =? 0 then Ok (bytes_compacted, s, h) else
      mbd_i ← mm_find_cont_free_pred_mb mbd s h;
      if truth mbd_i then
        '(l, s, h) ← mm_find_cont_free_mb mbd_i mbd s h;
        bytes_compacted ← mdesc_getsize l h;
        let mbd := _free_memory s in
        if truth bytes_needed && (bytes_needed <=? bytes_compacted)
        then Ok (bytes_compacted, s, h)
        else compact_loop fuel mbd bytes_needed bytes_compacted s h
      else
        nx ← mdesc_next mbd h;
        compact_loop fuel nx bytes_needed bytes_compacted s h
  end.

Definition compact_fuel (h : heap) : nat := S (fuel_of h * fuel_of h).

Definition mipos_mm_compact_freemem (bytes_needed : Z) (s : mipos_mm_t) (h : heap)
    : res (Z * mipos_mm_t * heap) :=
  if truth (_free_memory s)
  then compact_loop (compact_fuel h) (_free_memory s) bytes_needed 0 s h
  else Ok (0, s, h).

Definition aligned_size (size : Z) : Z := Z.land (wrap W (size + 3)) (wrap W (Z.lnot 3)).

Definition mipos_mm_alloc (size : Z) (st : mm_state) : res (Z * mm_state) :=
  let '(mk_mms s h dt) := st in
  if size =? 0 then Ok (0, st) else
  let n := aligned_size size in
  '(blk, s, h) ← mm_alloc_aux n s h;
  '(blk, s, h) ←
    (if blk =? 0 then
       '(c, s, h) ← mipos_mm_compact_freemem n s h;
       if n <=? c then mm_alloc_aux n s h else Ok (blk, s, h)
     else Ok (blk, s, h));
  Ok (if truth blk then mdesc_get_data_addr blk else 0, mk_mms s h dt).

Definition get_part_ptr_allocated_mem_size (ptr : Z) (st : mm_state) : res Z :=
  a ← mm_find_used ptr (mm st) (hp st);
  if truth a then mdesc_getsize a (hp st) else Ok 0.

Definition mipos_mm_realloc (ptr size : Z) (st : mm_state) : res (Z * mm_state) :=
  if ptr =? 0 then mipos_mm_alloc size st else
  alloc_size ← get_part_ptr_allocated_mem_size ptr st;
  if (0 <? size) && (size <? alloc_size) then Ok (ptr, st) else
  let min_size := Z.min alloc_size size in
  '(new_ptr, st) ←
    (if 0 <? min_size then
       '(new_ptr, st) ← mipos_mm_alloc size st;
       if new_ptr =? 0 then Fault NullDeref else
       dt ← memcpy new_ptr ptr (Z.to_nat min_size) (data st);
       Ok (new_ptr, mk_mms (mm st) (hp st) dt)
     else Ok (0, st));
  '(_, st) ← mipos_mm_free ptr st;
  Ok (new_ptr, st).

(** The totals the two loops of [mipos_mm_dbg_print] accumulate: the bytes
    of a list and the number of its blocks. *)
Fixpoint list_total (fuel : nat) (mbd i tot : Z) (h : heap) : res (Z * Z) :=
  match fuel with
  | O => Fault OutOfFuel
  | S fuel =>
      if mbd =? 0 then Ok (i, tot) else
      sz ← mdesc_getsize mbd h;
      nx ← mdesc_next mbd h;
      list_total fuel nx (i + 1) (wrap W (tot + sz)) h
  end.

(** Reserved and total memory as printed, and whether the final consistency
    check prints its error; the other output is not modelled. *)
Definition mipos_mm_dbg_print (st : mm_state) : res (Z * Z * bool) :=
  '(i, part) ← list_total (fuel_of (hp st)) (_free_memory (mm st)) 0 0 (hp st);
  let tot_mem := wrap W (0 + part) in
  let tot_res_mem := wrap W (i * sizeof_mdesc) in
  '(i, part) ← list_total (fuel_of (hp st)) (_used_memory (mm st)) 0 0 (hp st);
  let tot_mem := wrap W (tot_mem + part) in
  let tot_res_mem := wrap W (tot_res_mem + i * sizeof_mdesc) in
  let tot_mem := wrap W (tot_mem + tot_res_mem) in
  Ok (tot_res_mem, tot_mem, negb (tot_mem =? _arena_size (mm st))).

Definition mipos_mm_get_used_memory_size (st : mm_state) : res Z :=
  '(i, used_mem) ← list_total (fuel_of (hp st)) (_used_memory (mm st)) 0 0 (hp st);
  Ok (wrap W (used_mem + i * sizeof_mdesc)).

(** ** The standard functions, on the instance [_mm_ptr] points to *)

Definition with_mm {A} (f : mm_state → res A) (mm_ptr : option mm_state) : res A :=
  match mm_ptr with Some st => f st | None => Fault NullDeref end.

Definition mipos_set_malloc_mm (st : mm_state) (mm_ptr : option mm_state) : option mm_state :=
  Some st.

Definition mipos_malloc (size : Z) : option mm_state → res (Z * mm_state) :=
  with_mm (mipos_mm_alloc size).

Definition mipos_calloc (nmemb size : Z) : option mm_state → res (Z * mm_state) :=
  with_mm (λ st,
    let size := wrap W (size * nmemb) in
    '(ptr, st) ← mipos_mm_alloc size st;
    if ptr =? 0 then Ok (0, st) else
    dt ← memset ptr 0 (Z.to_nat size) (data st);
    Ok (ptr, mk_mms (mm st) (hp st) dt)).

Definition mipos_free (ptr : Z) : option mm_state → res mm_state :=
  with_mm (λ st, snd <$> mipos_mm_free ptr st).

Definition mipos_realloc (ptr size : Z) : option mm_state → res (Z * mm_state) :=
  with_mm (mipos_mm_realloc ptr size).
End arch.

#[global] Arguments mipos_mm_alloc : simpl never.
#[global] Arguments mipos_mm_free : simpl never.
#[global] Arguments mipos_mm_compact_freemem : simpl never.
#[global] Arguments mipos_mm_realloc : simpl never.
#[global] Arguments mm_alloc_aux : simpl never.
