(* ===== verification/MallocInv.v ===== *)
(** * Invariant of the heap

    The two lists are well linked, and the blocks on them tile the arena; the
    list operations, the searches and the allocation, release and merging of
    blocks keep this, for MIPOS64. *)

From S2P Require Import Prelude Memory Malloc.

(** ** Lists of descriptors *)

Definition links (h : heap) (a : Z) : option (Z * Z) := (λ d, (_next d, _prev d)) <$> h !! a.
Definition sizes (h : heap) (a : Z) : option Z := mb_size <$> h !! a.
Definition szz (h : heap) (a : Z) : Z := default 0 (sizes h a).

(** First address of [l], or [q]; last address of [l], or [pv]. *)
Definition nxt (l : list Z) (q : Z) : Z := match l with [] => q | a :: _ => a end.
Definition prv (pv : Z) (l : list Z) : Z := default pv (last l).

(** [l] is linked both ways, between [pv] and [q]. *)
Fixpoint lnk (h : heap) (pv : Z) (l : list Z) (q : Z) : Prop :=
  match l with
  | [] => True
  | a :: l => a ≠ 0 ∧ links h a = Some (nxt l q, pv) ∧ lnk h a l q
  end.

Lemma nxt_app l1 l2 q : nxt (l1 ++ l2) q = nxt l1 (nxt l2 q).
Proof. by destruct l1. Qed.

Lemma prv_cons pv a l : prv pv (a :: l) = prv a l.
Proof. unfold prv. rewrite last_cons. by destruct (last l). Qed.

Lemma prv_snoc pv l b : prv pv (l ++ [b]) = b.
Proof. unfold prv. by rewrite last_snoc. Qed.

Lemma lnk_app h pv l1 l2 q :
  lnk h pv (l1 ++ l2) q ↔ lnk h pv l1 (nxt l2 q) ∧ lnk h (prv pv l1) l2 q.
Proof.
  revert pv. induction l1 as [|a l1 IH]; intros pv; simpl; [naive_solver|].
  rewrite IH, nxt_app, prv_cons. tauto.
Qed.

Lemma lnk_frame h h' pv l q :
  (∀ a, a ∈ l → links h' a = links h a) → lnk h pv l q → lnk h' pv l q.
Proof.
  revert pv. induction l as [|a l IH]; intros pv Hf; simpl; [done|].
  intros (? & ? & ?). split; [done|]. split; [by rewrite Hf by set_solver|].
  apply IH; [|done]. intros b Hb. apply Hf. set_solver.
Qed.

Lemma lnk_elem h pv l q a : lnk h pv l q → a ∈ l → a ≠ 0 ∧ is_Some (h !! a).
Proof.
  revert pv. induction l as [|b l IH]; intros pv; simpl; [set_solver|].
  intros (? & Hb & ?) [->|Hl]%elem_of_cons; [|by eapply IH].
  split; [done|]. unfold links in Hb. destruct (h !! b); [done|discriminate].
Qed.

(** ** Elementary updates *)

(** [h'] is [h] with links changed at addresses of [l] only. *)
Definition relinked (l : list Z) (h h' : heap) : Prop :=
  (∀ x, x ∉ l → h' !! x = h !! x) ∧ (∀ x, sizes h' x = sizes h x).

Lemma relinked_refl l h : relinked l h h.
Proof. done. Qed.

Lemma relinked_trans l1 l2 l h1 h2 h3 :
  relinked l1 h1 h2 → relinked l2 h2 h3 → l1 ⊆ l → l2 ⊆ l → relinked l h1 h3.
Proof.
  intros [H1 S1] [H2 S2] L1 L2. split.
  - intros x Hx. rewrite H2, H1; [done|set_solver..].
  - intros x. by rewrite S2.
Qed.

Lemma relinked_links l h h' x : relinked l h h' → x ∉ l → links h' x = links h x.
Proof. intros [H _] Hx. unfold links. by rewrite H. Qed.

Lemma relinked_some l h h' x : relinked l h h' → is_Some (h !! x) → is_Some (h' !! x).
Proof.
  intros [_ H] [d Hd]. specialize (H x). unfold sizes in H. rewrite Hd in H.
  destruct (h' !! x); [done|discriminate].
Qed.

Definition relinks (f : mipos_mdesc_t → mipos_mdesc_t) : Prop := ∀ d, mb_size (f d) = mb_size d.

Lemma upd_desc_ok f a h :
  a ≠ 0 → is_Some (h !! a) → upd_desc f a h = Ok (alter f a h).
Proof.
  intros Ha [d Hd]. unfold upd_desc, deref. apply Z.eqb_neq in Ha as ->. rewrite Hd. simpl.
  f_equal. apply map_eq. intros x. destruct (decide (x = a)) as [->|Hx].
  - by rewrite lookup_insert_eq, lookup_alter_eq, Hd.
  - by rewrite lookup_insert_ne, lookup_alter_ne by done.
Qed.

Lemma alter_relinked f a h : relinks f → relinked [a] h (alter f a h).
Proof.
  intros Hf. split.
  - intros x Hx. apply lookup_alter_ne. set_solver.
  - intros x. unfold sizes. destruct (decide (x = a)) as [->|Hx].
    + rewrite lookup_alter_eq. destruct (h !! a); [|done]. simpl. by rewrite Hf.
    + by rewrite lookup_alter_ne by done.
Qed.

Lemma alter_relinked_in f a l h : relinks f → a ∈ l → relinked l h (alter f a h).
Proof.
  intros Hf Ha. destruct (alter_relinked f a h Hf) as [H1 H2]. split; [|done].
  intros x Hx. apply H1. set_solver.
Qed.

Lemma links_setnext a v h nx pv :
  links h a = Some (nx, pv) → links (alter (set_next v) a h) a = Some (v, pv).
Proof.
  unfold links. rewrite lookup_alter_eq. destruct (h !! a); simpl; naive_solver.
Qed.

Lemma links_setprev a v h nx pv :
  links h a = Some (nx, pv) → links (alter (set_prev v) a h) a = Some (nx, v).
Proof.
  unfold links. rewrite lookup_alter_eq. destruct (h !! a); simpl; naive_solver.
Qed.

Lemma links_alter_ne f a b (h : heap) : a ≠ b → links (alter f a h) b = links h b.
Proof. intros. unfold links. by rewrite lookup_alter_ne. Qed.

Lemma alter_some f a b (h : heap) : is_Some (h !! b) → is_Some (alter f a h !! b).
Proof.
  intros [d Hd]. destruct (decide (a = b)) as [->|]; [rewrite lookup_alter_eq, Hd; by eexists|].
  rewrite lookup_alter_ne by done. by eexists.
Qed.

Lemma links_some h a x : links h a = Some x → is_Some (h !! a).
Proof. unfold links. destruct (h !! a); [done|discriminate]. Qed.

Lemma deref_links h a nx pv :
  a ≠ 0 → links h a = Some (nx, pv) → ∃ z, deref a h = Ok (mk_mdesc nx pv z).
Proof.
  intros Ha Hl. unfold deref. apply Z.eqb_neq in Ha as ->. unfold links in Hl.
  destruct (h !! a) as [[n p z]|]; [|discriminate]. injection Hl as -> ->. by exists z.
Qed.

Lemma next_links h a nx pv : a ≠ 0 → links h a = Some (nx, pv) → mdesc_next a h = Ok nx.
Proof. intros Ha Hl. unfold mdesc_next. by destruct (deref_links h a nx pv Ha Hl) as [z ->]. Qed.

Lemma getsize_szz h a : a ≠ 0 → is_Some (h !! a) → mdesc_getsize a h = Ok (szz h a).
Proof.
  intros Ha [d Hd]. unfold mdesc_getsize, deref, szz, sizes. apply Z.eqb_neq in Ha as ->.
  by rewrite Hd.
Qed.

(** Changing the first [_prev] or the last [_next] of a linked list. *)
Lemma lnk_set_first h pv c l q v :
  lnk h pv (c :: l) q → c ∉ l → lnk (alter (set_prev v) c h) v (c :: l) q.
Proof.
  intros (Hc & Hl & Hr) Hni. split; [done|]. split; [by eapply links_setprev|].
  eapply lnk_frame; [|done]. intros a Ha. apply links_alter_ne. set_solver.
Qed.

Lemma lnk_set_last h pv l b q v :
  lnk h pv (l ++ [b]) q → b ∉ l → lnk (alter (set_next v) b h) pv (l ++ [b]) v.
Proof.
  rewrite !lnk_app. intros [H1 (Hb & H2 & _)] Hni. split.
  - eapply lnk_frame; [|done]. intros a Ha. apply links_alter_ne. set_solver.
  - split; [done|]. split; [|done]. by eapply links_setnext.
Qed.

(** ** Unlinking and linking *)

(** [mdesc_link_detach] takes [a] out; the [_prev] of what follows is set, so
    it does not matter what it was. *)
Lemma detach_ok h l1 a l2 pv2 :
  NoDup (l1 ++ a :: l2) → a ≠ 0 → lnk h 0 l1 a → links h a = Some (nxt l2 0, prv 0 l1) →
  lnk h pv2 l2 0 →
  ∃ h', mdesc_link_detach a h = Ok h' ∧ lnk h' 0 (l1 ++ l2) 0 ∧ relinked (l1 ++ l2) h h'.
Proof.
  intros Hnd Ha H1 Hl H2. apply NoDup_app in Hnd as (Hnd1 & Hdis & [Ha2 Hnd2]%NoDup_cons).
  destruct (deref_links h a _ _ Ha Hl) as [z Hd]. unfold mdesc_link_detach. rewrite Hd, bind_Ok.
  cbn [_next _prev].
  assert (∃ h1, (if truth (nxt l2 0) then mdesc_setprev (nxt l2 0) (prv 0 l1) h else Ok h) = Ok h1 ∧
            lnk h1 (prv 0 l1) l2 0 ∧ relinked l2 h h1) as (h1 & -> & Hl2 & Hr1).
  { destruct l2 as [|c l2]; simpl.
    { exists h. split; [done|]. split; [done|]. apply relinked_refl. }
    pose proof H2 as (Hc & Hcl & _). apply truth_true in Hc as Ht. rewrite Ht.
    unfold mdesc_setprev. rewrite upd_desc_ok by (done || by eapply links_some).
    eexists. split; [reflexivity|]. split; [eapply lnk_set_first; [done|]|].
    - by apply NoDup_cons in Hnd2 as [? _].
    - apply alter_relinked_in; [done|set_solver]. }
  rewrite bind_Ok.
  assert (lnk h1 0 l1 a) as Hl1.
  { eapply lnk_frame; [|exact H1]. intros x Hx. eapply relinked_links; [done|]. set_solver. }
  assert (links h1 a = Some (nxt l2 0, prv 0 l1)) as Hla
    by (erewrite relinked_links; [exact Hl|done|done]).
  destruct (deref_links h1 a _ _ Ha Hla) as [z1 ->]. rewrite bind_Ok. cbn [_next _prev].
  destruct l1 as [|b l1 _] using rev_ind; simpl in *.
  { exists h1. split; [done|]. split; [done|]. done. }
  rewrite prv_snoc in *. apply NoDup_app in Hnd1 as (_ & Hb & _).
  pose proof Hl1 as [_ (Hb0 & Hbl & _)]%lnk_app. apply truth_true in Hb0 as Ht. rewrite Ht.
  unfold mdesc_setnext. rewrite upd_desc_ok by (done || by eapply links_some).
  eexists. split; [reflexivity|]. split.
  - rewrite lnk_app. rewrite prv_snoc. split; [eapply lnk_set_last; [done|set_solver]|].
    eapply lnk_frame; [|exact Hl2]. intros x Hx. apply links_alter_ne. set_solver.
  - eapply relinked_trans; [exact Hr1|by apply alter_relinked|set_solver..].
Qed.

(** Unlinking [a] from a list, with the update of its head. *)
Lemma unlink_ok h l1 a l2 :
  NoDup (l1 ++ a :: l2) → lnk h 0 (l1 ++ a :: l2) 0 →
  ∃ h1 h', unlink_head (nxt (l1 ++ a :: l2) 0) a h = Ok (nxt (l1 ++ l2) 0, h1) ∧
    mdesc_link_detach a h1 = Ok h' ∧
    lnk h' 0 (l1 ++ l2) 0 ∧ relinked (l1 ++ l2) h h'.
Proof.
  intros Hnd Hl. pose proof Hl as [H1 (Ha & Hla & H2)]%lnk_app. simpl in H1.
  unfold unlink_head. destruct l1 as [|b l1].
  - simpl in *. rewrite Z.eqb_refl, (next_links h a _ _ Ha Hla), bind_Ok.
    apply NoDup_cons in Hnd as [Hni Hnd].
    assert (∃ h1, (if truth (nxt l2 0) then mdesc_setprev (nxt l2 0) 0 h else Ok h) = Ok h1 ∧
              lnk h1 0 l2 0 ∧ relinked l2 h h1) as (h1 & -> & Hl2 & Hr).
    { destruct l2 as [|c l2]; simpl.
      { exists h. split; [done|]. split; [done|]. apply relinked_refl. }
      pose proof H2 as (Hc & Hcl & _). apply truth_true in Hc as Ht. rewrite Ht.
      unfold mdesc_setprev. rewrite upd_desc_ok by (done || by eapply links_some).
      eexists. split; [reflexivity|]. split; [eapply lnk_set_first; [done|]|].
      - by apply NoDup_cons in Hnd as [? _].
      - apply alter_relinked_in; [done|set_solver]. }
    rewrite bind_Ok.
    destruct (detach_ok h1 [] a l2 0) as (h' & Hd & Hl' & Hr'); try done.
    { by apply NoDup_cons. }
    { simpl. erewrite relinked_links; [exact Hla|done|done]. }
    exists h1, h'. split; [done|]. split; [done|]. split; [done|].
    eapply relinked_trans; [done|done|set_solver..].
  - simpl (nxt _ _). apply NoDup_cons in Hnd as Hnd'. destruct Hnd' as [Hb _].
    replace (b =? a) with false by (symmetry; apply Z.eqb_neq; set_solver).
    destruct (detach_ok h (b :: l1) a l2 a) as (h' & Hd & Hl' & Hr'); try done.
    exists h, h'. done.
Qed.

(** [mdesc_link_after(a, block)] when [block] heads the list. *)
Lemma link_after_ok h a b l :
  NoDup (a :: b :: l) → a ≠ 0 → is_Some (h !! a) → lnk h 0 (b :: l) 0 →
  ∃ h', mdesc_link_after a b h = Ok h' ∧ lnk h' 0 (b :: a :: l) 0 ∧
        relinked (a :: b :: l) h h'.
Proof.
  intros Hnd Ha Has Hl. pose proof Hl as (Hb & Hbl & H2).
  apply NoDup_cons in Hnd as [Hna [Hnb Hnl]%NoDup_cons].
  unfold mdesc_link_after. rewrite (next_links h b _ _ Hb Hbl), bind_Ok.
  unfold mdesc_setnext, mdesc_setprev. rewrite (upd_desc_ok _ a h) by done. rewrite bind_Ok.
  rewrite (upd_desc_ok _ a) by (done || by apply alter_some). rewrite bind_Ok.
  set (h2 := alter (set_prev b) a (alter (set_next (nxt l 0)) a h)).
  assert (links h2 a = Some (nxt l 0, b)) as Hla.
  { destruct Has as [d Hd]. unfold links, h2. by rewrite !lookup_alter_eq, Hd. }
  assert (relinked [a] h h2) as Hr2.
  { apply (relinked_trans [a] [a] _ _ (alter (set_next (nxt l 0)) a h));
      [by apply alter_relinked..|set_solver|set_solver]. }
  rewrite (next_links h2 a _ _ Ha Hla), bind_Ok.
  assert (∃ h3, (if truth (nxt l 0) then upd_desc (set_prev a) (nxt l 0) h2 else Ok h2) = Ok h3 ∧
            lnk h3 a l 0 ∧ relinked l h2 h3) as (h3 & -> & Hl3 & Hr3).
  { assert (lnk h2 b l 0) as Hl2.
    { eapply lnk_frame; [|exact H2]. intros x Hx. eapply relinked_links; [done|set_solver]. }
    destruct l as [|c l]; simpl.
    { exists h2. split; [done|]. split; [done|]. apply relinked_refl. }
    pose proof Hl2 as (Hc & Hcl & _). apply truth_true in Hc as Ht. rewrite Ht.
    rewrite upd_desc_ok by (done || by eapply links_some).
    eexists. split; [reflexivity|]. split; [eapply lnk_set_first; [done|]|].
    - by apply NoDup_cons in Hnl as [? _].
    - apply alter_relinked_in; [done|set_solver]. }
  rewrite bind_Ok.
  assert (links h3 b = Some (nxt l 0, 0)) as Hb3.
  { erewrite relinked_links; [|done|done]. erewrite relinked_links; [done|done|set_solver]. }
  rewrite upd_desc_ok by (done || by eapply links_some).
  eexists. split; [reflexivity|]. split.
  - split; [done|]. split; [by eapply links_setnext|]. split; [done|]. split.
    + rewrite links_alter_ne by set_solver. erewrite relinked_links; [done|done|set_solver].
    + eapply lnk_frame; [|exact Hl3]. intros x Hx. apply links_alter_ne. set_solver.
  - apply (relinked_trans (a :: l) [b] _ _ h3); [|by apply alter_relinked|set_solver..].
    eapply relinked_trans; [exact Hr2|exact Hr3|set_solver..].
Qed.

Lemma isolate_ok h a :
  a ≠ 0 → is_Some (h !! a) →
  ∃ h', mdesc_isolate a h = Ok h' ∧ lnk h' 0 [a] 0 ∧ relinked [a] h h'.
Proof.
  intros Ha [d Hd]. unfold mdesc_isolate. rewrite upd_desc_ok by done.
  eexists. split; [reflexivity|]. split; [|by apply alter_relinked].
  split; [done|]. split; [|done]. unfold links. by rewrite lookup_alter_eq, Hd.
Qed.

(** ** Loops over a list *)

Lemma list_fits h l :
  NoDup l → (∀ a, a ∈ l → is_Some (h !! a)) → (length l < fuel_of h)%nat.
Proof.
  intros Hnd Hd. unfold fuel_of. rewrite <-(size_dom (D := gset Z) h).
  rewrite <-(size_list_to_set (C := gset Z) l Hnd).
  apply Nat.lt_succ_r, subseteq_size. intros a Ha. apply elem_of_dom, Hd.
  by apply elem_of_list_to_set in Ha.
Qed.

Lemma lnk_fits h pv l q : NoDup l → lnk h pv l q → (length l < fuel_of h)%nat.
Proof. intros Hnd Hl. apply list_fits; [done|]. intros a Ha. by eapply lnk_elem. Qed.

(** What [mm_find_free] returns: nothing when every block is too small, else
    an exact fit or the largest of the larger blocks. *)
Definition fits (h : heap) (l : list Z) (g n r : Z) : Prop :=
  (r = 0 ∧ g = 0 ∧ ∀ a, a ∈ l → szz h a < n) ∨
  (r ≠ 0 ∧ (r ∈ l ∨ r = g) ∧ n ≤ szz h r ∧
   (szz h r = n ∨ ∀ a, a ∈ l ∨ (a = g ∧ g ≠ 0) → szz h a ≤ szz h r)).

Lemma find_free_loop_ok fuel h pv l g n :
  lnk h pv l 0 → (length l < fuel)%nat →
  (g ≠ 0 → is_Some (h !! g) ∧ n < szz h g) →
  ∃ r, find_free_loop fuel (nxt l 0) g n h = Ok r ∧ fits h l g n r.
Proof.
  revert pv l g. induction fuel as [|fuel IH]; intros pv l g Hl Hf Hg; [lia|].
  destruct l as [|a l]; cbn [nxt find_free_loop].
  { exists g. split; [done|]. destruct (decide (g = 0)) as [->|Hg0].
    - left. split_and!; [done..|set_solver].
    - right. destruct (Hg Hg0). split_and!; [done|by right|lia|]. right. set_solver. }
  pose proof Hl as (Ha & Hal & Hr). simpl in Hf.
  assert (is_Some (h !! a)) as Has by by eapply links_some.
  pose proof Ha as Ha'. apply Z.eqb_neq in Ha' as ->.
  rewrite (getsize_szz h a Ha Has), bind_Ok.
  destruct (Z.eqb_spec (szz h a) n) as [Heq|Hne].
  { exists a. split; [done|]. right. split_and!; [done|set_solver|lia|by left]. }
  assert (∃ g', (if n <? szz h a
     then if truth g then gsz ← mdesc_getsize g h; Ok (if gsz <? szz h a then a else g) else Ok a
     else Ok g) = Ok g' ∧ (g' = a ∨ g' = g) ∧ (g' ≠ 0 → is_Some (h !! g') ∧ n < szz h g') ∧
     (g' = 0 → g = 0 ∧ szz h a < n) ∧
     (g' ≠ 0 → szz h a ≤ szz h g' ∧ (g ≠ 0 → szz h g ≤ szz h g')))
    as (g' & -> & Hor & Hg' & H0 & Hmax).
  { destruct (Z.ltb_spec n (szz h a)) as [Hlt|Hge].
    - destruct (truth g) eqn:Hgt; bool_to_prop.
      + destruct (Hg Hgt) as [Hgs Hgn]. rewrite (getsize_szz h g Hgt Hgs), bind_Ok.
        destruct (Z.ltb_spec (szz h g) (szz h a)); eexists; (split; [reflexivity|]);
          split_and!; naive_solver lia.
      + exists a. split_and!; naive_solver lia.
    - exists g. split_and!; [done|by right|done|naive_solver lia|].
      intros Hg0. destruct (Hg Hg0). naive_solver lia. }
  rewrite bind_Ok, (next_links h a _ _ Ha Hal), bind_Ok.
  destruct (IH a l g' Hr) as (r & -> & Hr'); [lia|done|]. exists r. split; [done|].
  destruct Hr' as [(-> & -> & Hall)|(Hr0 & Hin & Hn & Hbest)].
  - left. destruct (H0 eq_refl) as [-> Hlt]. split_and!; [done..|]. intros b [->|Hb]%elem_of_cons; auto.
  - right. split_and!; [done| |done|].
    + destruct Hin as [?| ->]; [set_solver|]. destruct Hor as [->| ->]; [set_solver|by right].
    + destruct Hbest as [?|Hbest]; [by left|right].
      assert (g' ≠ 0 → szz h g' ≤ szz h r) as Hg'r by naive_solver.
      intros b [[->|Hb]%elem_of_cons|[-> Hg0]].
      * destruct (decide (g' = 0)) as [E|E]; [destruct (H0 E); lia|].
        destruct (Hmax E). specialize (Hg'r E). lia.
      * apply Hbest. by left.
      * destruct (decide (g' = 0)) as [E|E]; [destruct (H0 E); lia|].
        destruct (Hmax E) as [_ Hm]. specialize (Hg'r E). specialize (Hm Hg0). lia.
Qed.

Abbreviation daddr := (mdesc_get_data_addr 64).

Lemma find_used_loop_ok fuel h pv l ptr :
  lnk h pv l 0 → (length l < fuel)%nat →
  ∃ r, find_used_loop 64 fuel (nxt l 0) ptr h = Ok r ∧
    ((r = 0 ∧ ∀ a, a ∈ l → ptr ≠ daddr a) ∨ (r ∈ l ∧ r ≠ 0 ∧ ptr = daddr r)).
Proof.
  revert pv l. induction fuel as [|fuel IH]; intros pv l Hl Hf; [lia|].
  destruct l as [|a l]; cbn [nxt find_used_loop].
  { exists 0. split; [done|]. left. set_solver. }
  pose proof Hl as (Ha & Hal & Hr). simpl in Hf. pose proof Ha as Ha'.
  apply Z.eqb_neq in Ha' as ->. destruct (Z.eqb_spec ptr (daddr a)) as [Hp|Hp].
  { exists a. split; [done|]. right. set_solver. }
  rewrite (next_links h a _ _ Ha Hal), bind_Ok.
  destruct (IH a l Hr) as (r & -> & Hor); [lia|]. exists r. split; [done|]. set_solver.
Qed.

Lemma list_total_ok fuel h pv l i tot :
  lnk h pv l 0 → (length l < fuel)%nat →
  ∃ r, list_total 64 fuel (nxt l 0) i tot h = Ok (i + Z.of_nat (length l), r) ∧
    wrap 64 r = wrap 64 (tot + foldr Z.add 0 (szz h <$> l)) ∧
    (wrap 64 tot = tot → wrap 64 r = r).
Proof.
  revert pv l i tot. induction fuel as [|fuel IH]; intros pv l i tot Hl Hf; [lia|].
  destruct l as [|a l]; cbn [nxt list_total].
  { exists tot. simpl. rewrite !Z.add_0_r. done. }
  pose proof Hl as (Ha & Hal & Hr). simpl in Hf. pose proof Ha as Ha'.
  apply Z.eqb_neq in Ha' as ->.
  rewrite (getsize_szz h a Ha) by by eapply links_some. rewrite bind_Ok.
  rewrite (next_links h a _ _ Ha Hal), bind_Ok.
  destruct (IH a l (i + 1) (wrap 64 (tot + szz h a)) Hr) as (r & -> & Hw & Hid); [lia|].
  exists r. split; [do 2 f_equal; simpl; lia|]. split.
  - rewrite Hw, fmap_cons. unfold wrap. rewrite Zplus_mod_idemp_l. cbn [foldr].
    by rewrite Z.add_assoc.
  - intros _. apply Hid. unfold wrap. apply Zmod_mod.
Qed.

(** ** The blocks of the arena *)

Definition SZ : Z := 24.

(** [L], addresses with sizes, tiles the interval from [a] to [e]. *)
Fixpoint tiles (a e : Z) (L : list (Z * Z)) : Prop :=
  match L with
  | [] => a = e
  | (b, s) :: L => b = a ∧ 0 ≤ s ∧ tiles (a + SZ + s) e L
  end.

Lemma tiles_app a e L1 L2 :
  tiles a e (L1 ++ L2) ↔ ∃ m, tiles a m L1 ∧ tiles m e L2.
Proof.
  revert a. induction L1 as [|[b s] L1 IH]; intros a; simpl; [naive_solver|].
  rewrite IH. naive_solver.
Qed.

Lemma tiles_bound a e L b s :
  tiles a e L → (b, s) ∈ L → a ≤ b ∧ 0 ≤ s ∧ b + SZ + s ≤ e.
Proof.
  revert a. induction L as [|[c t] L IH]; intros a; simpl; [set_solver|].
  intros (-> & Ht & HL).
  assert (a + SZ + t ≤ e) as Hle.
  { clear IH. revert HL. generalize (a + SZ + t) as x. induction L as [|[b' s'] L IH]; simpl.
    - lia.
    - intros x (-> & ? & H'). apply IH in H'. unfold SZ in *. lia. }
  intros [[= -> ->]|Hin]%elem_of_cons; [lia|]. apply (IH _ HL) in Hin. unfold SZ in *. lia.
Qed.

Lemma tiles_le a e L : tiles a e L → a ≤ e.
Proof.
  revert a. induction L as [|[b s] L IH]; intros a; simpl; [lia|].
  intros (_ & ? & ?%IH). unfold SZ in *. lia.
Qed.

Lemma tiles_disjoint a e L b s c t :
  tiles a e L → (b, s) ∈ L → (c, t) ∈ L → b ≠ c → b + SZ + s ≤ c ∨ c + SZ + t ≤ b.
Proof.
  revert a. induction L as [|[d u] L IH]; intros a; simpl; [set_solver|].
  intros (-> & Hu & HL) [[= -> ->]|Hb]%elem_of_cons [[= -> ->]|Hc]%elem_of_cons Hne.
  - done.
  - left. by apply (tiles_bound _ _ _ _ _ HL) in Hc as (? & _).
  - right. by apply (tiles_bound _ _ _ _ _ HL) in Hb as (? & _).
  - by eapply IH.
Qed.

Lemma tiles_NoDup a e L : tiles a e L → NoDup L.*1.
Proof.
  revert a. induction L as [|[b s] L IH]; intros a; simpl; [constructor|].
  intros (-> & Hs & HL). constructor; [|by eapply IH].
  intros ([c t] & -> & Hin)%list_elem_of_fmap. simpl in *.
  apply (tiles_bound _ _ _ _ _ HL) in Hin. unfold SZ in *. lia.
Qed.

Lemma tiles_fun a e L b s t : tiles a e L → (b, s) ∈ L → (b, t) ∈ L → s = t.
Proof.
  intros HL. apply tiles_NoDup in HL. intros Hs Ht.
  apply list_elem_of_lookup in Hs as [i Hi], Ht as [j Hj].
  assert (i = j) as ->.
  { eapply NoDup_lookup; [exact HL| |]; rewrite list_lookup_fmap; [by rewrite Hi|by rewrite Hj]. }
  congruence.
Qed.

Lemma tiles_adjacent a e L b s t :
  tiles a e L → (b, s) ∈ L → (b + SZ + s, t) ∈ L →
  ∃ L1 L2, L = L1 ++ (b, s) :: (b + SZ + s, t) :: L2.
Proof.
  intros HL (L1 & L2 & ->)%list_elem_of_split Ht. exists L1.
  pose proof HL as (m & HL1 & (-> & Hs & HL2))%tiles_app. fold tiles in HL2.
  destruct L2 as [|[c u] L2].
  - apply elem_of_app in Ht as [Ht|[[= Heq _]|Ht]%elem_of_cons]; [|unfold SZ in *; lia|set_solver].
    apply (tiles_bound _ _ _ _ _ HL1) in Ht. unfold SZ in *. lia.
  - pose proof HL2 as (-> & _). exists L2. do 4 f_equal.
    eapply (tiles_fun _ _ _ (m + SZ + s)); [exact HL|set_solver|exact Ht].
Qed.

(** ** The invariant *)

Record heap_wf (base : Z) (s : mipos_mm_t) (h : heap) (fl ul : list Z) (L : list (Z * Z))
    : Prop := {
  hw_base : 0 < base;
  hw_end : base + _arena_size s < 2 ^ 63;
  hw_tiles : tiles base (base + _arena_size s) L;
  hw_desc : ∀ a z, (a, z) ∈ L → sizes h a = Some z;
  hw_perm : fl ++ ul ≡ₚ L.*1;
  hw_fm : _free_memory s = nxt fl 0;
  hw_um : _used_memory s = nxt ul 0;
  hw_fl : lnk h 0 fl 0;
  hw_ul : lnk h 0 ul 0;
}.

Section heap_wf_facts.
Context {base s h fl ul L} (Hw : heap_wf base s h fl ul L).

Lemma hw_NoDup : NoDup (fl ++ ul).
Proof. rewrite (hw_perm _ _ _ _ _ _ Hw). eapply tiles_NoDup, hw_tiles, Hw. Qed.

Lemma hw_block a : a ∈ fl ++ ul → (a, szz h a) ∈ L.
Proof.
  rewrite (hw_perm _ _ _ _ _ _ Hw). intros ([b z] & -> & Hin)%list_elem_of_fmap.
  pose proof (hw_desc _ _ _ _ _ _ Hw _ _ Hin) as Hz. unfold szz. simpl. by rewrite Hz.
Qed.

Lemma hw_some a : a ∈ fl ++ ul → is_Some (h !! a).
Proof.
  intros Ha%hw_block. apply (hw_desc _ _ _ _ _ _ Hw) in Ha. unfold sizes in Ha.
  destruct (h !! a); [done|discriminate].
Qed.

Lemma hw_bounds a :
  a ∈ fl ++ ul →
  base ≤ a ∧ 0 ≤ szz h a ∧ a + SZ + szz h a ≤ base + _arena_size s ∧ 0 < a < 2 ^ 63 ∧
  a + SZ + szz h a < 2 ^ 63.
Proof.
  intros Ha%hw_block. apply (tiles_bound _ _ _ _ _ (hw_tiles _ _ _ _ _ _ Hw)) in Ha.
  pose proof (hw_base _ _ _ _ _ _ Hw). pose proof (hw_end _ _ _ _ _ _ Hw). unfold SZ in *. lia.
Qed.

Lemma hw_daddr a : a ∈ fl ++ ul → daddr a = a + SZ.
Proof.
  intros Ha%hw_bounds. unfold mdesc_get_data_addr. change (sizeof_mdesc 64) with SZ.
  apply wrap_small. unfold SZ in *. lia.
Qed.

Lemma hw_fits : (length fl < fuel_of h)%nat ∧ (length ul < fuel_of h)%nat.
Proof.
  pose proof hw_NoDup as (? & _ & ?)%NoDup_app.
  split; eapply lnk_fits; [done|by eapply hw_fl|done|by eapply hw_ul].
Qed.
End heap_wf_facts.

Lemma s64_u64 z : - 2 ^ 63 ≤ z < 2 ^ 63 → s64 (u64 z) = z.
Proof.
  intros Hz. unfold swrap, wrap. change (64 - 1) with 63. rewrite Zplus_mod_idemp_l.
  rewrite Z.mod_small by lia. lia.
Qed.

(** Relinking keeps the part of the invariant that is about sizes. *)
Lemma relinked_desc l h h' (L : list (Z * Z)) :
  relinked l h h' → (∀ a z, (a, z) ∈ L → sizes h a = Some z) →
  ∀ a z, (a, z) ∈ L → sizes h' a = Some z.
Proof. intros [_ Hs] Hd a z Hin. rewrite Hs. by apply Hd. Qed.

Lemma relinked_lnk l h h' pv k q :
  relinked l h h' → (∀ a, a ∈ k → a ∉ l) → lnk h pv k q → lnk h' pv k q.
Proof. intros Hr Hd. apply lnk_frame. intros a Ha. eapply relinked_links; [done|auto]. Qed.

Lemma relinked_szz l h h' a : relinked l h h' → szz h' a = szz h a.
Proof. intros [_ Hs]. unfold szz. by rewrite Hs. Qed.

(** A block goes in second place, or alone. *)
Definition insert2 (a : Z) (l : list Z) : list Z :=
  match l with [] => [a] | b :: l => b :: a :: l end.

Lemma insert2_perm a l : insert2 a l ≡ₚ a :: l.
Proof. destruct l; simpl; [done|]. constructor. Qed.

Lemma add2used_ok a s h ul :
  NoDup (a :: ul) → a ≠ 0 → is_Some (h !! a) → _used_memory s = nxt ul 0 → lnk h 0 ul 0 →
  ∃ h', mm_add2used a s h = Ok (set_used (nxt (insert2 a ul) 0) s, h') ∧
    lnk h' 0 (insert2 a ul) 0 ∧ relinked (a :: ul) h h'.
Proof.
  intros Hnd Ha Has Hum Hul. unfold mm_add2used. rewrite Hum. destruct ul as [|b ul].
  - simpl. destruct (isolate_ok h a Ha Has) as (h' & -> & Hl & Hr). rewrite bind_Ok. by exists h'.
  - pose proof Hul as (Hb & _). apply Z.eqb_neq in Hb as Hb'. cbn [nxt]. rewrite Hb'.
    destruct (link_after_ok h a b ul Hnd Ha Has Hul) as (h' & -> & Hl & Hr). rewrite bind_Ok.
    exists h'. split; [|done]. f_equal. f_equal. simpl in *. destruct s; simpl in *. by subst.
Qed.

(** ** Allocation *)

Lemma szz_setsize a v h : is_Some (h !! a) → szz (alter (set_size v) a h) a = v.
Proof. intros [d Hd]. unfold szz, sizes. by rewrite lookup_alter_eq, Hd. Qed.

Lemma links_setsize a b v h : links (alter (set_size v) a h) b = links h b.
Proof.
  unfold links. destruct (decide (a = b)) as [->|]; [|by rewrite lookup_alter_ne].
  rewrite lookup_alter_eq. by destruct (h !! b).
Qed.

Lemma sizes_alter_ne f a b (h : heap) : a ≠ b → sizes (alter f a h) b = sizes h b.
Proof. intros. unfold sizes. by rewrite lookup_alter_ne. Qed.

(** What an allocation that succeeds gives: [r] joins the used blocks, with
    room for [n] bytes, and the used blocks keep their sizes. *)
Definition allocated (base : Z) (s : mipos_mm_t) (h : heap) (ul : list Z) (n r : Z)
    (s' : mipos_mm_t) (h' : heap) : Prop :=
  ∃ fl' ul' L', heap_wf base s' h' fl' ul' L' ∧ _arena_size s' = _arena_size s ∧
    ul' ≡ₚ r :: ul ∧ n ≤ szz h' r ∧ ∀ a, a ∈ ul → szz h' a = szz h a.

(** The whole block [a] is taken. *)
Lemma alloc_whole base s h fl1 a fl2 ul L n :
  heap_wf base s h (fl1 ++ a :: fl2) ul L → n ≤ szz h a →
  ∃ fm h1 h2 s3 h3, unlink_head (_free_memory s) a h = Ok (fm, h1) ∧
    mdesc_link_detach a h1 = Ok h2 ∧ mm_add2used a (set_free fm s) h2 = Ok (s3, h3) ∧
    allocated base s h ul n a s3 h3.
Proof.
  intros Hw Hn. pose proof (hw_NoDup Hw) as Hnd. rewrite (hw_fm _ _ _ _ _ _ Hw).
  pose proof Hnd as (Hndf & Hdis & Hndu)%NoDup_app.
  destruct (unlink_ok h fl1 a fl2 Hndf (hw_fl _ _ _ _ _ _ Hw)) as (h1 & h2 & Hu & Hd & Hl2 & Hr2).
  destruct (hw_bounds Hw a) as (_ & _ & _ & Ha & _); [set_solver|].
  assert (a ∉ fl1 ++ fl2) as Hafl.
  { rewrite <-Permutation_middle in Hndf. by apply NoDup_cons in Hndf as [? _]. }
  destruct (add2used_ok a (set_free (nxt (fl1 ++ fl2) 0) s) h2 ul) as (h3 & Hadd & Hl3 & Hr3).
  { constructor; [|done]. apply Hdis. set_solver. }
  { lia. }
  { eapply relinked_some; [done|]. apply (hw_some Hw). set_solver. }
  { apply (hw_um _ _ _ _ _ _ Hw). }
  { eapply relinked_lnk; [done| |by eapply hw_ul]. intros x Hx Hx'. apply (Hdis x); set_solver. }
  eexists _, h1, h2, _, h3. split; [done|]. split; [done|]. split; [done|].
  exists (fl1 ++ fl2), (insert2 a ul), L. split; [|split; [done|split; [apply insert2_perm|]]].
  - constructor; simpl; try by destruct Hw.
    + do 2 (eapply relinked_desc; [done|]). apply Hw.
    + rewrite insert2_perm, <-Permutation_middle, <-(hw_perm _ _ _ _ _ _ Hw).
      rewrite <-Permutation_middle. done.
    + eapply relinked_lnk; [exact Hr3| |exact Hl2]. intros x Hx Hx'. 
      apply elem_of_cons in Hx' as [->|Hx']; [done|]. apply (Hdis x); set_solver.
  - split; [by rewrite (relinked_szz _ _ _ _ Hr3), (relinked_szz _ _ _ _ Hr2)|].
    intros x _. by rewrite (relinked_szz _ _ _ _ Hr3), (relinked_szz _ _ _ _ Hr2).
Qed.

(** The last [n] bytes of the block [a] are taken, with a descriptor of their
    own at [b]. *)
Lemma alloc_split base s h fl1 a fl2 ul L n :
  heap_wf base s h (fl1 ++ a :: fl2) ul L → 0 ≤ n → n + SZ < szz h a →
  let b := a + (szz h a - n) in
  let h2 := <[b := mk_mdesc 0 0 n]> (alter (set_size (szz h a - (n + SZ))) a h) in
  ∃ s3 h3, mm_add2used b s h2 = Ok (s3, h3) ∧ allocated base s h ul n b s3 h3.
Proof.
  intros Hw Hn Hlt b h2. set (fl := fl1 ++ a :: fl2) in *. set (v := szz h a - (n + SZ)).
  assert (a ∈ fl ++ ul) as Ha by (subst fl; set_solver).
  destruct (hw_bounds Hw a Ha) as (Hb1 & Hb2 & Hb3 & Hb4 & Hb5).
  pose proof (hw_tiles _ _ _ _ _ _ Hw) as HT.
  assert (b ∉ fl ++ ul) as Hb.
  { intros Hin. assert (b ≠ a) as Hne by (unfold SZ in *; lia).
    pose proof (tiles_disjoint _ _ _ _ _ _ _ HT (hw_block Hw a Ha) (hw_block Hw b Hin)
      (not_eq_sym Hne)). destruct (hw_bounds Hw b Hin). unfold SZ in *. lia. }
  assert (∀ x, x ≠ b → links h2 x = links h x) as Hlk.
  { intros x Hx. unfold h2. unfold links at 1. rewrite lookup_insert_ne by done.
    apply (links_setsize a x v h). }
  assert (∀ x, x ≠ b → x ≠ a → sizes h2 x = sizes h x) as Hsz.
  { intros x Hx Hxa. unfold h2, sizes. by rewrite lookup_insert_ne, lookup_alter_ne by done. }
  assert (sizes h2 b = Some n) as Hszb by (unfold h2, sizes; by rewrite lookup_insert_eq).
  assert (sizes h2 a = Some v) as Hsza.
  { destruct (hw_some Hw a Ha) as [d Hd]. unfold h2, sizes.
    rewrite lookup_insert_ne by (unfold SZ in *; lia). by rewrite lookup_alter_eq, Hd. }
  pose proof (hw_NoDup Hw) as Hnd. pose proof Hnd as (Hndf & Hdis & Hndu)%NoDup_app.
  destruct (add2used_ok b s h2 ul) as (h3 & Hadd & Hl3 & Hr3).
  { constructor; [set_solver|done]. }
  { unfold SZ in *. lia. }
  { unfold h2. rewrite lookup_insert_eq. done. }
  { apply (hw_um _ _ _ _ _ _ Hw). }
  { eapply lnk_frame; [|by eapply hw_ul]. intros x Hx. apply Hlk. set_solver. }
  eexists _, h3. split; [done|].
  pose proof (hw_block Hw a Ha) as (L1 & L2 & HL)%list_elem_of_split.
  exists fl, (insert2 b ul), (L1 ++ (a, v) :: (b, n) :: L2).
  pose proof (tiles_NoDup _ _ _ HT) as HndL. rewrite HL, fmap_app in HndL. simpl in HndL.
  rewrite <-Permutation_middle in HndL. apply NoDup_cons in HndL as [HaL _].
  split; [|split; [done|split; [apply insert2_perm|split]]].
  - constructor; simpl; try by destruct Hw.
    + rewrite HL in HT. apply tiles_app in HT as (m & HT1 & -> & _ & HT2).
      apply tiles_app. exists m. split; [done|]. simpl. subst v b. unfold SZ in *.
      split_and!; [done|lia|lia|lia|]. fold tiles in HT2.
      replace (m + 24 + (szz h m - (n + 24)) + 24 + n) with (m + 24 + szz h m) by lia. done.
    + apply (relinked_desc _ _ _ _ Hr3). intros x z Hin.
      apply elem_of_app in Hin as [Hin|[[= -> ->]|[[= -> ->]|Hin]%elem_of_cons]%elem_of_cons]; try done.
      all: assert ((x, z) ∈ L) as HinL by (rewrite HL; set_solver).
      all: rewrite Hsz; [by eapply hw_desc| |].
      1, 3: intros ->; apply Hb; rewrite (hw_perm _ _ _ _ _ _ Hw); apply list_elem_of_fmap;
            by exists (b, z).
      all: intros ->; apply HaL, elem_of_app.
      * left. apply list_elem_of_fmap. by exists (a, z).
      * right. apply list_elem_of_fmap. by exists (a, z).
    + rewrite insert2_perm, <-Permutation_middle, (hw_perm _ _ _ _ _ _ Hw), HL, !fmap_app. simpl.
      rewrite <-!Permutation_middle. apply Permutation_swap.
    + eapply relinked_lnk; [exact Hr3| |]; [intros x Hx Hx'|].
      * apply elem_of_cons in Hx' as [->|Hx']; [set_solver|]. apply (Hdis x); set_solver.
      * eapply lnk_frame; [|by eapply hw_fl]. intros x Hx. apply Hlk. set_solver.
  - rewrite (relinked_szz _ _ _ _ Hr3). unfold szz. by rewrite Hszb.
  - intros x Hx. rewrite (relinked_szz _ _ _ _ Hr3). unfold szz. rewrite Hsz; [done|set_solver|].
    intros ->. apply (Hdis a); [subst fl|]; set_solver.
Qed.

Lemma alloc_aux_ok base s h fl ul L n :
  heap_wf base s h fl ul L → 0 ≤ n →
  ∃ r s' h', mm_alloc_aux 64 n s h = Ok (r, s', h') ∧
    ((r = 0 ∧ s' = s ∧ h' = h ∧ ∀ a, a ∈ fl → szz h a < n) ∨
     (r ≠ 0 ∧ allocated base s h ul n r s' h')).
Proof.
  intros Hw Hn. unfold mm_alloc_aux, mm_find_free. rewrite (hw_fm _ _ _ _ _ _ Hw).
  destruct (find_free_loop_ok (fuel_of h) h 0 fl 0 n) as (r & Hr & Hfit);
    [apply Hw|apply (hw_fits Hw)|done|].
  assert ((if nxt fl 0 =? 0 then Ok 0 else find_free_loop (fuel_of h) (nxt fl 0) 0 n h) = Ok r) as ->.
  { destruct (Z.eqb_spec (nxt fl 0) 0) as [H0|]; [|done]. f_equal.
    destruct fl as [|b fl]; [|by destruct (hw_fl _ _ _ _ _ _ Hw)].
    destruct Hfit as [(-> & _)|(? & [?| ->] & _)]; [done|set_solver|done]. }
  rewrite bind_Ok. destruct Hfit as [(-> & _ & Hall)|(Hr0 & Hin & Hsz & _)].
  { simpl. eexists _, _, _. split; [reflexivity|]. left. done. }
  pose proof Hr0 as Hr0'. apply Z.eqb_neq in Hr0' as ->. destruct Hin as [Hin|]; [|done].
  assert (r ∈ fl ++ ul) as Hrin by set_solver.
  destruct (hw_bounds Hw r Hrin) as (Hb1 & Hb2 & Hb3 & Hb4 & Hb5).
  pose proof (hw_some Hw r Hrin) as Hrs.
  apply list_elem_of_split in Hin as (fl1 & fl2 & ->).
  rewrite (getsize_szz h r Hr0 Hrs), bind_Ok. change (sizeof_mdesc 64) with SZ.
  unfold signed_size. rewrite (wrap_small 64 (n + SZ)) by (unfold SZ in *; lia).
  rewrite s64_u64 by (unfold SZ in *; lia). change (s64 SZ) with SZ.
  destruct (Z.ltb_spec SZ (szz h r - (n + SZ))) as [Hlt|Hge].
  - rewrite (wrap_small 64 (szz h r - (n + SZ))) by (unfold SZ in *; lia).
    unfold mdesc_setsize. rewrite upd_desc_ok by done. rewrite bind_Ok.
    rewrite getsize_szz, szz_setsize, bind_Ok by (done || by apply alter_some).
    rewrite (hw_daddr Hw r Hrin).
    rewrite (wrap_small 64 (r + SZ + _)) by (unfold SZ in *; lia).
    replace (r + SZ + (szz h r - (n + SZ))) with (r + (szz h r - n)) by lia.
    unfold mdesc_init. replace (r + (szz h r - n) =? 0) with false by (unfold SZ in *; lia).
    rewrite !bind_Ok.
    destruct (alloc_split base s h fl1 r fl2 ul L n Hw Hn) as (s3 & h3 & -> & Hall); [unfold SZ in *; lia|].
    rewrite bind_Ok. eexists _, s3, h3. split; [reflexivity|]. right. split; [unfold SZ in *; lia|done].
  - destruct (alloc_whole base s h fl1 r fl2 ul L n Hw Hsz)
      as (fm & h1 & h2 & s3 & h3 & Hu & Hd & Hadd & Hall).
    rewrite (hw_fm _ _ _ _ _ _ Hw) in Hu. rewrite Hu, bind_Ok, Hd, !bind_Ok, Hadd, bind_Ok.
    eexists _, s3, h3. split; [reflexivity|]. right. done.
Qed.

(** ** Release *)

Lemma hw_move_free base s h fl ul1 a ul2 L :
  heap_wf base s h fl (ul1 ++ a :: ul2) L →
  ∃ um h1 h2 h3, unlink_head (_used_memory s) a h = Ok (um, h1) ∧
    mdesc_link_detach a h1 = Ok h2 ∧ mdesc_isolate a h2 = Ok h3 ∧
    ∃ h4, (if _free_memory s =? 0 then Ok (set_free a (set_used um s), h3)
           else (h ← mdesc_link_after a (_free_memory s) h3; Ok (set_used um s, h))) =
          Ok (set_free (nxt (insert2 a fl) 0) (set_used um s), h4) ∧
    heap_wf base (set_free (nxt (insert2 a fl) 0) (set_used um s)) h4
      (insert2 a fl) (ul1 ++ ul2) L ∧ ∀ x, szz h4 x = szz h x.
Proof.
  intros Hw. pose proof (hw_NoDup Hw) as Hnd. rewrite (hw_um _ _ _ _ _ _ Hw).
  pose proof Hnd as (Hndf & Hdis & Hndu)%NoDup_app.
  destruct (unlink_ok h ul1 a ul2 Hndu (hw_ul _ _ _ _ _ _ Hw)) as (h1 & h2 & Hu & Hd & Hl2 & Hr2).
  destruct (hw_bounds Hw a) as (_ & _ & _ & Ha & _); [set_solver|].
  assert ((a ∉ ul1 ++ ul2) ∧ a ∉ fl) as [Haul Hafl].
  { split; [|intros Hin; apply (Hdis a Hin); set_solver].
    rewrite <-Permutation_middle in Hndu. by apply NoDup_cons in Hndu as [? _]. }
  assert (is_Some (h2 !! a)) as Has.
  { eapply relinked_some; [done|]. apply (hw_some Hw). set_solver. }
  destruct (isolate_ok h2 a) as (h3 & Hi & Hla & Hr3); [lia|done|].
  assert (lnk h3 0 fl 0) as Hfl3.
  { eapply relinked_lnk; [exact Hr3|set_solver|].
    eapply relinked_lnk; [exact Hr2| |by eapply hw_fl]. intros x Hx Hx'. apply (Hdis x Hx). set_solver. }
  exists (nxt (ul1 ++ ul2) 0), h1, h2, h3. split; [done|]. split; [done|]. split; [done|].
  assert (∃ h4, (if _free_memory s =? 0 then Ok (set_free a (set_used (nxt (ul1 ++ ul2) 0) s), h3)
           else (h ← mdesc_link_after a (_free_memory s) h3;
                 Ok (set_used (nxt (ul1 ++ ul2) 0) s, h))) =
          Ok (set_free (nxt (insert2 a fl) 0) (set_used (nxt (ul1 ++ ul2) 0) s), h4) ∧
          lnk h4 0 (insert2 a fl) 0 ∧ relinked (a :: fl) h3 h4) as (h4 & Heq & Hl4 & Hr4).
  { rewrite (hw_fm _ _ _ _ _ _ Hw). destruct fl as [|b fl]; simpl.
    - exists h3. split; [done|]. split; [done|]. apply relinked_refl.
    - pose proof Hfl3 as (Hb & _). apply Z.eqb_neq in Hb as ->.
      destruct (link_after_ok h3 a b fl) as (h4 & -> & Hl4 & Hr4); [by constructor|lia| |done|].
      { by eapply relinked_some. }
      exists h4. split; [|done]. simpl. f_equal. f_equal.
      pose proof (hw_fm _ _ _ _ _ _ Hw) as Hfm. destruct s; simpl in *. by subst. }
  exists h4. split; [done|]. split.
  - constructor; simpl; try by destruct Hw.
    + do 3 (eapply relinked_desc; [done|]). apply Hw.
    + rewrite insert2_perm, <-(hw_perm _ _ _ _ _ _ Hw). simpl.
      by rewrite !app_assoc, <-Permutation_middle.
    + eapply relinked_lnk; [exact Hr4| |].
      * intros x Hx [->|Hx']%elem_of_cons; [done|]. apply (Hdis x Hx'). set_solver.
      * eapply relinked_lnk; [exact Hr3|set_solver|exact Hl2].
  - intros x. by rewrite (relinked_szz _ _ _ _ Hr4), (relinked_szz _ _ _ _ Hr3),
      (relinked_szz _ _ _ _ Hr2).
Qed.

Lemma mm_free_ok base s h dt fl ul L ptr :
  heap_wf base s h fl ul L →
  ∃ r s' h', mipos_mm_free 64 ptr (mk_mms s h dt) = Ok (r, mk_mms s' h' dt) ∧
    ((r = 0 ∧ s' = s ∧ h' = h ∧ ∀ a, a ∈ ul → ptr ≠ a + SZ) ∨
     (r = 1 ∧ ∃ a ul1 ul2, ul = ul1 ++ a :: ul2 ∧ ptr = a + SZ ∧ _arena_size s' = _arena_size s ∧
        heap_wf base s' h' (insert2 a fl) (ul1 ++ ul2) L ∧ ∀ x, szz h' x = szz h x)).
Proof.
  intros Hw. unfold mipos_mm_free, mm_find_used. rewrite (hw_um _ _ _ _ _ _ Hw).
  destruct (find_used_loop_ok (fuel_of h) h 0 ul ptr) as (r & -> & Hor);
    [apply Hw|apply (hw_fits Hw)|]. rewrite bind_Ok.
  destruct Hor as [(-> & Hno)|(Hin & Hr0 & Hp)].
  { simpl. eexists _, _, _. split; [reflexivity|]. left. split_and!; [done..|].
    intros a Ha. rewrite <-(hw_daddr Hw a) by set_solver. by apply Hno. }
  pose proof Hr0 as Hr0'. apply Z.eqb_neq in Hr0' as ->.
  apply list_elem_of_split in Hin as (ul1 & ul2 & ->).
  destruct (hw_move_free base s h fl ul1 r ul2 L Hw)
    as (um & h1 & h2 & h3 & Hu & Hd & Hi & h4 & Heq & Hw4 & Hsz).
  rewrite (hw_um _ _ _ _ _ _ Hw) in Hu. rewrite Hu, bind_Ok, Hd, bind_Ok, Hi, bind_Ok.
  change (_free_memory (set_used um s)) with (_free_memory s).
  exists 1, (set_free (nxt (insert2 r fl) 0) (set_used um s)), h4. split.
  - apply (f_equal (λ x, match x with
                         | Ok (s, h) => Ok (1, mk_mms s h dt)
                         | Fault f => Fault f
                         end)) in Heq.
    destruct (_free_memory s =? 0); [exact Heq|].
    by destruct (mdesc_link_after r (_free_memory s) h3).
  - right. split; [done|]. exists r, ul1, ul2. split_and!; try done.
    rewrite <-(hw_daddr Hw r) by set_solver. done.
Qed.

(** ** Merging *)

(** [b] starts where [a] ends. *)
Definition adj (h : heap) (a b : Z) : Prop := b = a + SZ + szz h a.

Lemma contiguous_ok base s h fl ul L a b :
  heap_wf base s h fl ul L → a ∈ fl → b ∈ fl →
  ∃ c, contiguous 64 a b h = Ok c ∧ (c = true ↔ adj h a b ∨ adj h b a).
Proof.
  intros Hw Ha Hb. assert (a ∈ fl ++ ul ∧ b ∈ fl ++ ul) as [Ha' Hb'] by set_solver.
  destruct (hw_bounds Hw a Ha') as (_ & ? & _ & ? & ?).
  destruct (hw_bounds Hw b Hb') as (_ & ? & _ & ? & ?).
  unfold contiguous. rewrite (getsize_szz h a) by (lia || by apply (hw_some Hw)). rewrite bind_Ok.
  rewrite (getsize_szz h b) by (lia || by apply (hw_some Hw)).
  rewrite (hw_daddr Hw a Ha'), (hw_daddr Hw b Hb').
  rewrite wrap_small by (unfold SZ in *; lia). rewrite bind_Ok. unfold adj.
  destruct (Z.eqb_spec (a + SZ + szz h a) b); eexists; (split; [reflexivity|]);
    [split; [lia|done]|].
  rewrite wrap_small by (unfold SZ in *; lia). rewrite Z.eqb_eq. lia.
Qed.

Lemma find_cont_loop_ok base s h fl ul L fuel pv l b :
  heap_wf base s h fl ul L → b ∈ fl → (∀ a, a ∈ l → a ∈ fl) → lnk h pv l 0 →
  (length l < fuel)%nat →
  ∃ r, find_cont_loop 64 fuel (nxt l 0) b h = Ok r ∧
    ((r = 0 ∧ ∀ a, a ∈ l → a ≠ b → ¬ (adj h a b ∨ adj h b a)) ∨
     (r ∈ l ∧ r ≠ 0 ∧ r ≠ b ∧ (adj h r b ∨ adj h b r))).
Proof.
  intros Hw Hb. revert pv l. induction fuel as [|fuel IH]; intros pv l Hsub Hl Hf; [lia|].
  destruct l as [|a l]; cbn [nxt find_cont_loop].
  { exists 0. split; [done|]. left. set_solver. }
  pose proof Hl as (Ha & Hal & Hr). simpl in Hf. pose proof Ha as Ha'.
  apply Z.eqb_neq in Ha' as ->.
  assert (∃ c, (if b =? a then Ok false else contiguous 64 a b h) = Ok c ∧
            (c = true → a ≠ b ∧ (adj h a b ∨ adj h b a)) ∧
            (c = false → a ≠ b → ¬ (adj h a b ∨ adj h b a))) as (c & -> & Hc1 & Hc2).
  { destruct (Z.eqb_spec b a); [exists false; naive_solver|].
    destruct (contiguous_ok base s h fl ul L a b Hw) as (c & -> & Hc); [set_solver|done|].
    exists c. split; [done|]. split; [naive_solver|]. intros -> _ Hadj. by apply Hc in Hadj. }
  rewrite bind_Ok. destruct c.
  { exists a. split; [done|]. right. destruct (Hc1 eq_refl). set_solver. }
  rewrite (next_links h a _ _ Ha Hal), bind_Ok.
  destruct (IH a l) as (r & -> & Hor); [set_solver|done|lia|]. exists r. split; [done|].
  destruct Hor as [(-> & Hall)|(? & ?)]; [|right; set_solver]. left. split; [done|].
  intros x [->|Hx]%elem_of_cons Hxb; [by apply Hc2|by apply Hall].
Qed.
