(* ===== verification/MallocProps.v ===== *)
(** * Properties of the heap *)

From S2P Require Import Prelude Memory Malloc MallocInv.

(** ** Merging free blocks, and the heap services

    [mipos_mm_compact_freemem] terminates and keeps the invariant; the
    services of the heap, from the invariant. *)

Lemma merge_ok base s h fl1 b fl2 ul L a x y :
  heap_wf base s h (fl1 ++ b :: fl2) ul L → a ∈ fl1 ++ fl2 → adj h a b →
  (x = a ∧ y = b) ∨ (x = b ∧ y = a) →
  ∃ s' h' L', mm_find_cont_free_mb 64 x y s h = Ok (a, s', h') ∧
    heap_wf base s' h' (fl1 ++ fl2) ul L' ∧ _arena_size s' = _arena_size s ∧
    szz h' a = szz h a + SZ + szz h b ∧ (∀ c, c ≠ a → szz h' c = szz h c).
Proof.
  intros Hw Ha Hadj Hxy. set (fl := fl1 ++ b :: fl2) in *.
  assert (a ∈ fl ++ ul ∧ b ∈ fl ++ ul) as [Ha' Hb'] by (subst fl; set_solver).
  destruct (hw_bounds Hw a Ha') as (Ha1 & Ha2 & Ha3 & Ha4 & Ha5).
  destruct (hw_bounds Hw b Hb') as (Hb1 & Hb2 & Hb3 & Hb4 & Hb5).
  pose proof Hadj as Hadj'. unfold adj in Hadj'.
  assert (Z.min x y = a ∧ Z.max x y = b) as [Hmin Hmax] by (unfold SZ in *; lia).
  pose proof (hw_NoDup Hw) as Hnd. pose proof Hnd as (Hndf & Hdis & Hndu)%NoDup_app.
  assert (b ∉ fl1 ++ fl2) as Hbfl.
  { subst fl. rewrite <-Permutation_middle in Hndf. by apply NoDup_cons in Hndf as [? _]. }
  pose proof (hw_fl _ _ _ _ _ _ Hw) as Hl. pose proof Hl as [Hl1 (Hb0 & Hbl & Hl2)]%lnk_app.
  unfold mm_find_cont_free_mb. rewrite Hmax, Hmin.
  assert ((if _free_memory s =? b then nx ← mdesc_next b h;
            Ok (if truth nx then set_free nx s else set_free a s) else Ok s) =
          Ok (set_free (nxt (fl1 ++ fl2) 0) s)) as ->.
  { rewrite (hw_fm _ _ _ _ _ _ Hw). subst fl. destruct fl1 as [|c fl1]; simpl.
    - rewrite Z.eqb_refl, (next_links h b _ _ Hb0 Hbl), bind_Ok.
      destruct fl2 as [|d fl2]; [simpl in Ha; set_solver|]. simpl.
      destruct Hl2 as (Hd & _). by apply truth_true in Hd as ->.
    - replace (c =? b) with false
        by (symmetry; apply Z.eqb_neq; intros ->; apply Hbfl; left).
      pose proof (hw_fm _ _ _ _ _ _ Hw) as Hfm. destruct s; simpl in *. by subst. }
  rewrite bind_Ok. unfold mdesc_merge. rewrite Hmin, Hmax.
  assert (∃ s1 s2, mdesc_getsize x h = Ok s1 ∧ mdesc_getsize y h = Ok s2 ∧
            s1 + s2 + SZ = szz h a + SZ + szz h b) as (s1 & s2 & -> & -> & Hsum).
  { pose proof (getsize_szz h a ltac:(lia) (hw_some Hw a Ha')).
    pose proof (getsize_szz h b ltac:(lia) (hw_some Hw b Hb')).
    destruct Hxy as [[-> ->]|[-> ->]]; eexists _, _; (split; [done|]); (split; [done|]); lia. }
  rewrite !bind_Ok. change (sizeof_mdesc 64) with SZ. rewrite Hsum, wrap_small by (unfold SZ in *; lia).
  set (v := szz h a + SZ + szz h b). unfold mdesc_setsize.
  rewrite upd_desc_ok by (lia || by apply (hw_some Hw)). rewrite bind_Ok.
  set (h1 := alter (set_size v) a h).
  assert (∀ pv l q, lnk h pv l q → lnk h1 pv l q) as Hlk.
  { intros pv l q. apply lnk_frame. intros c _. apply links_setsize. }
  destruct (detach_ok h1 fl1 b fl2 b) as (h2 & Hd & Hld & Hr2); [done|done|by apply Hlk| |by apply Hlk|].
  { unfold h1. by rewrite links_setsize. }
  rewrite Hd, bind_Ok.
  destruct (isolate_ok h2 b) as (h3 & -> & _ & Hr3); [done| |].
  { eapply relinked_some; [done|]. apply alter_some. by apply (hw_some Hw). }
  rewrite bind_Ok.
  assert (a ≠ b) as Hab by (unfold SZ in *; lia).
  assert (szz h3 a = v) as Hva.
  { rewrite (relinked_szz _ _ _ _ Hr3), (relinked_szz _ _ _ _ Hr2). apply szz_setsize.
    by apply (hw_some Hw). }
  assert (∀ c, c ≠ a → sizes h3 c = sizes h c) as Hsz.
  { intros c Hc. rewrite (proj2 Hr3), (proj2 Hr2). by apply sizes_alter_ne. }
  destruct (tiles_adjacent _ _ _ a (szz h a) (szz h b) (hw_tiles _ _ _ _ _ _ Hw)
    (hw_block Hw a Ha')) as (L1 & L2 & HL); [rewrite <-Hadj'; by apply (hw_block Hw)|].
  rewrite <-Hadj' in HL. pose proof (hw_tiles _ _ _ _ _ _ Hw) as HT.
  pose proof (tiles_NoDup _ _ _ HT) as HndL. rewrite HL, fmap_app in HndL. simpl in HndL.
  rewrite <-Permutation_middle in HndL. apply NoDup_cons in HndL as [HaL _].
  eexists _, h3, (L1 ++ (a, v) :: L2). split; [reflexivity|]. split; [|split; [done|]].
  - constructor; simpl; try by destruct Hw.
    + rewrite HL in HT. apply tiles_app in HT as (m & HT1 & -> & _ & -> & _ & HT2).
      apply tiles_app. exists m. split; [done|]. simpl. split_and!; [done|subst v; unfold SZ in *; lia|].
      fold tiles in HT2. subst v.
      match goal with |- tiles ?p _ _ => replace p
        with (m + SZ + szz h m + SZ + szz h (m + SZ + szz h m)) by lia end. done.
    + intros c z Hin. destruct (decide (c = a)) as [->|Hc].
      * assert (z = v) as ->.
        { apply elem_of_app in Hin as [Hin|[[= ->]|Hin]%elem_of_cons]; [|done|];
            exfalso; apply HaL; rewrite elem_of_app, elem_of_cons; [left|right; right];
            apply list_elem_of_fmap; by exists (a, z). }
        destruct (hw_some Hw a Ha') as [d Hd']. rewrite (proj2 Hr3), (proj2 Hr2).
        unfold h1, sizes. by rewrite lookup_alter_eq, Hd'.
      * rewrite Hsz by done. apply (hw_desc _ _ _ _ _ _ Hw). rewrite HL.
        clear -Hin Hc. set_solver.
    + pose proof (hw_perm _ _ _ _ _ _ Hw) as Hp. subst fl. rewrite HL, fmap_app in Hp. simpl in Hp.
      rewrite <-!Permutation_middle in Hp. simpl in Hp. rewrite fmap_app. simpl.
      rewrite <-Permutation_middle. apply (Permutation_cons_inv (a := b)).
      etrans; [exact Hp|]. apply Permutation_swap.
    + eapply relinked_lnk; [exact Hr3|set_solver|exact Hld].
    + eapply relinked_lnk; [exact Hr3| |].
      * intros c Hc [->|?]%elem_of_cons; [|set_solver]. apply (Hdis b); [subst fl|]; set_solver.
      * eapply relinked_lnk; [exact Hr2| |apply Hlk; by apply Hw]. intros c Hc Hc'.
        apply (Hdis c); [|done]. subst fl. clear -Hc'. set_solver.
  - split; [done|]. intros c Hc. unfold szz. by rewrite Hsz.
Qed.

(** ** Compaction *)

(** No two free blocks of [l] and [fl] touch. *)
Definition apart (h : heap) (l fl : list Z) : Prop :=
  ∀ a b, a ∈ l → b ∈ fl → a ≠ b → ¬ adj h a b ∧ ¬ adj h b a.

(** What a compaction leaves: it stopped with a merged block of at least [n]
    bytes, or no two free blocks touch; in the latter case no block has [n]
    bytes if none had and no smaller merge was reported before. *)
Definition compacted (h : heap) (fl : list Z) (n c : Z) (h' : heap) (fl' : list Z) (c' : Z) : Prop :=
  (0 < n ∧ n ≤ c' ∧ ∃ a, a ∈ fl' ∧ szz h' a = c') ∨
  (apart h' fl' fl' ∧
   (c < n → (∀ a, a ∈ fl → szz h a < n) → c' < n ∧ ∀ a, a ∈ fl' → szz h' a < n)).

Lemma compact_loop_ok base n c fuel s h l1 l2 ul L :
  heap_wf base s h (l1 ++ l2) ul L → 0 ≤ n → 0 ≤ c → apart h l1 (l1 ++ l2) →
  (length (l1 ++ l2) * S (length (l1 ++ l2)) + length l2 < fuel)%nat →
  ∃ c' s' h' fl' L', compact_loop 64 fuel (nxt l2 0) n c s h = Ok (c', s', h') ∧
    heap_wf base s' h' fl' ul L' ∧ _arena_size s' = _arena_size s ∧
    (∀ a, a ∈ ul → szz h' a = szz h a) ∧ compacted h (l1 ++ l2) n c h' fl' c'.
Proof.
  intros Hw Hn. revert c s h l1 l2 L Hw.
  induction fuel as [|fuel IH]; intros c s h l1 l2 L Hw Hc0 Hap Hf; [lia|].
  destruct l2 as [|b l2]; cbn [nxt compact_loop].
  { rewrite app_nil_r in *. eexists _, _, _, l1, L. split; [reflexivity|]. split; [done|].
    split; [done|]. split; [done|]. right. done. }
  pose proof (hw_NoDup Hw) as Hnd. pose proof Hnd as (Hndf & Hdis & Hndu)%NoDup_app.
  pose proof (hw_fl _ _ _ _ _ _ Hw) as [_ (Hb0 & Hbl & _)]%lnk_app.
  pose proof Hb0 as Hb0'. apply Z.eqb_neq in Hb0' as ->.
  unfold mm_find_cont_free_pred_mb. rewrite (hw_fm _ _ _ _ _ _ Hw).
  destruct (find_cont_loop_ok base s h _ ul L (fuel_of h) 0 (l1 ++ b :: l2) b Hw)
    as (r & -> & Hr); [set_solver|done|apply Hw|apply (hw_fits Hw)|].
  rewrite bind_Ok. destruct Hr as [(-> & Hno)|(Hin & Hr0 & Hrb & Hadj)].
  - simpl (truth 0). cbv iota. rewrite (next_links h b _ _ Hb0 Hbl), bind_Ok.
    replace (l1 ++ b :: l2) with ((l1 ++ [b]) ++ l2) in * by by rewrite <-app_assoc.
    destruct (IH c s h (l1 ++ [b]) l2 L Hw) as (c' & s' & h' & fl' & L' & H1 & H2).
    + done.
    + intros x y Hx Hy Hxy. apply elem_of_app in Hx as [Hx|Hx%list_elem_of_singleton];
        [by apply Hap|]. subst x. specialize (Hno y Hy (not_eq_sym Hxy)). tauto.
    + simpl in Hf. lia.
    + by exists c', s', h', fl', L'.
  - apply truth_true in Hr0 as ->.
    (* the higher of the two blocks is unlinked *)
    assert (∃ lo hi fl1 fl2, l1 ++ b :: l2 = fl1 ++ hi :: fl2 ∧ lo ∈ fl1 ++ fl2 ∧ adj h lo hi ∧
              ((r = lo ∧ b = hi) ∨ (r = hi ∧ b = lo)) ∧ lo ∈ l1 ++ b :: l2)
      as (lo & hi & fl1 & fl2 & Hfl & Hlo & Had & Hor & Hlo').
    { destruct Hadj as [Hadj|Hadj].
      - exists r, b, l1, l2. split_and!; [done| |done|by left|done].
        apply elem_of_app in Hin as [?|[?|?]%elem_of_cons]; set_solver.
      - pose proof Hin as (fl1 & fl2 & Hfl)%list_elem_of_split. exists b, r, fl1, fl2.
        assert (b ∈ l1 ++ b :: l2) as Hb by set_solver.
        split_and!; [done| |done|by right|done]. rewrite Hfl in Hb.
        apply elem_of_app in Hb as [?|[?|?]%elem_of_cons]; set_solver. }
    rewrite Hfl in Hw.
    destruct (merge_ok base s h fl1 hi fl2 ul L lo r b Hw Hlo Had) as
      (s1 & h1 & L1 & -> & Hw1 & Har1 & Hlo1 & Hsz1); [tauto|].
    rewrite bind_Ok, getsize_szz, bind_Ok, Hlo1; cycle 1.
    { destruct (hw_bounds Hw1 lo); [set_solver|]. pose proof (hw_base _ _ _ _ _ _ Hw1). lia. }
    { apply (hw_some Hw1). set_solver. }
    assert (∀ a, a ∈ ul → szz h1 a = szz h a) as Hul.
    { intros a Ha. apply Hsz1. intros ->. by apply (Hdis lo). }
    assert (truth n && (n <=? szz h lo + SZ + szz h hi) = false →
            c < n → szz h lo + SZ + szz h hi < n) as Hbrk.
    { intros Hb Hc. destruct (Z.leb_spec n (szz h lo + SZ + szz h hi)); [|lia].
      rewrite andb_true_r in Hb. bool_to_prop. lia. }
    assert (0 ≤ szz h lo + SZ + szz h hi) as Hpos.
    { destruct (hw_bounds Hw lo) as (_ & ? & _); [set_solver|].
      destruct (hw_bounds Hw hi) as (_ & ? & _); [set_solver|]. unfold SZ in *. lia. }
    destruct (truth n && (n <=? szz h lo + SZ + szz h hi)) eqn:Hstop.
    + bool_to_prop. eexists _, _, _, (fl1 ++ fl2), L1. split; [reflexivity|].
      split_and!; [done..|]. left. split_and!; [lia|done|]. exists lo. split; [done|]. lia.
    + rewrite (hw_fm _ _ _ _ _ _ Hw1).
      assert (length (l1 ++ b :: l2) = S (length (fl1 ++ fl2))) as Hlen.
      { rewrite Hfl, !length_app. simpl. lia. }
      destruct (IH (szz h lo + SZ + szz h hi) s1 h1 [] (fl1 ++ fl2) L1 Hw1)
        as (c' & s' & h' & fl' & L' & H1 & H2 & H3 & H4 & H5); [done|by intros ? ? ?%elem_of_nil| |].
      { rewrite Hlen in Hf. simpl. nia. }
      exists c', s', h', fl', L'. split; [done|]. split; [done|]. split; [congruence|].
      split; [intros a Ha; rewrite H4 by done; by apply Hul|].
      destruct H5 as [?|[Hap' Hsm]]; [by left|]. right. split; [done|]. intros Hc Hall.
      apply Hsm; [by apply Hbrk|]. simpl. intros a Ha.
      destruct (decide (a = lo)) as [->|Hne]; [rewrite Hlo1; by apply Hbrk|].
      rewrite Hsz1 by done. apply Hall. rewrite Hfl. clear -Ha. set_solver.
Qed.

(** ** Theorems *)

(** ** The services, from the invariant *)

Lemma aligned_size_ok size :
  0 < size < 2 ^ 63 →
  size ≤ aligned_size 64 size < size + 4 ∧ aligned_size 64 size `mod` 4 = 0.
Proof.
  intros Hs. unfold aligned_size. rewrite (wrap_small 64 (size + 3)) by lia.
  pose proof (land_align (size + 3) 64 2 ltac:(lia) ltac:(lia)) as Hal.
  change (Z.ones 2) with 3 in Hal. change (2 ^ 2) with 4 in Hal. rewrite Hal.
  pose proof (Z.mod_pos_bound (size + 3) 4). split; [lia|].
  by rewrite Zminus_mod_idemp_r, Z.sub_diag.
Qed.

Lemma compact_ok base s h fl ul L n :
  heap_wf base s h fl ul L → 0 ≤ n →
  ∃ c s' h' fl' L', mipos_mm_compact_freemem 64 n s h = Ok (c, s', h') ∧
    heap_wf base s' h' fl' ul L' ∧ _arena_size s' = _arena_size s ∧
    (∀ a, a ∈ ul → szz h' a = szz h a) ∧ compacted h fl n 0 h' fl' c.
Proof.
  intros Hw Hn. unfold mipos_mm_compact_freemem. rewrite (hw_fm _ _ _ _ _ _ Hw).
  destruct fl as [|b fl].
  { simpl. eexists _, _, _, [], L. split; [reflexivity|]. split_and!; [done..|].
    right. split; [by intros ? ? ?%elem_of_nil|]. intros ? _. split; [done|]. by intros ? ?%elem_of_nil. }
  pose proof (hw_fl _ _ _ _ _ _ Hw) as (Hb & _). simpl (nxt _ _).
  apply truth_true in Hb as ->.
  apply (compact_loop_ok base n 0 _ s h [] (b :: fl) ul L); [done|done|done|by intros ? ? ?%elem_of_nil|].
  pose proof (proj1 (hw_fits Hw)) as Hf. unfold compact_fuel. cbn [app]. nia.
Qed.

(** What [mipos_mm_alloc] promises: on failure the free blocks have been fully
    merged and none has room. *)
Lemma alloc_ok base s h dt fl ul L size :
  heap_wf base s h fl ul L → 0 < size < 2 ^ 63 →
  ∃ r s' h', mipos_mm_alloc 64 size (mk_mms s h dt) = Ok (r, mk_mms s' h' dt) ∧
    ((r = 0 ∧ ∃ fl' L', heap_wf base s' h' fl' ul L' ∧ _arena_size s' = _arena_size s ∧
        (∀ a, a ∈ ul → szz h' a = szz h a) ∧ apart h' fl' fl' ∧
        ∀ a, a ∈ fl' → szz h' a < aligned_size 64 size) ∨
     (∃ b, b ≠ 0 ∧ r = b + SZ ∧ allocated base s h ul (aligned_size 64 size) b s' h')).
Proof.
  intros Hw Hs. destruct (aligned_size_ok size Hs) as [Hal _].
  set (n := aligned_size 64 size) in *. unfold mipos_mm_alloc. fold n.
  replace (size =? 0) with false by lia.
  assert (∀ b s' h', b ≠ 0 → allocated base s h ul n b s' h' →
            (if truth b then mdesc_get_data_addr 64 b else 0) = b + SZ) as Hdata.
  { intros b s' h' Hb (fl' & ul' & L' & Hw' & _ & Hp & _). apply truth_true in Hb as ->.
    apply (hw_daddr Hw'). rewrite Hp. set_solver. }
  destruct (alloc_aux_ok base s h fl ul L n Hw) as (r & s1 & h1 & -> & Hor); [lia|].
  rewrite bind_Ok. destruct Hor as [(-> & -> & -> & Hall)|(Hr & Hok)].
  2: { pose proof Hr as Hr'. apply Z.eqb_neq in Hr' as ->. rewrite bind_Ok.
       eexists _, s1, h1. split; [reflexivity|]. right. exists r. split_and!; [done| |done].
       by eapply Hdata. }
  simpl (0 =? 0). cbv iota.
  destruct (compact_ok base s h fl ul L n Hw) as (c & s2 & h2 & fl2 & L2 & -> & Hw2 & Har & Hul & Hc);
    [lia|]. rewrite bind_Ok.
  destruct Hc as [(_ & Hnc & a & Ha & Hsz)|[Hap Hsm]].
  - replace (n <=? c) with true by lia.
    destruct (alloc_aux_ok base s2 h2 fl2 ul L2 n Hw2) as (r & s3 & h3 & -> & Hor); [lia|].
    rewrite bind_Ok. destruct Hor as [(_ & _ & _ & Hall2)|(Hr & Hok)].
    { specialize (Hall2 a Ha). lia. }
    assert (allocated base s h ul n r s3 h3) as Hok'.
    { destruct Hok as (fl' & ul' & L' & H1 & H2 & H3 & H4 & H5). exists fl', ul', L'.
      split_and!; [done|congruence|done|done|]. intros x Hx. by rewrite H5, Hul by done. }
    eexists _, s3, h3. split; [reflexivity|]. right. exists r. split_and!; [done| |done].
    by eapply Hdata.
  - destruct (Hsm ltac:(lia) Hall) as [Hcn Hsm']. replace (n <=? c) with false by lia.
    rewrite bind_Ok. simpl. eexists _, s2, h2. split; [reflexivity|]. left. split; [done|].
    by exists fl2, L2.
Qed.

Lemma mm_init_ok base size dt :
  0 < base → SZ ≤ size → base + size < 2 ^ 63 → mapped base size dt →
  ∃ h dt', mipos_mm_init 64 base size dt = Ok (mk_mms (mk_mm size base 0) h dt') ∧
    heap_wf base (mk_mm size base 0) h [base] [] [(base, size - SZ)] ∧ mapped base size dt'.
Proof.
  intros Hb Hs He Hm. unfold mipos_mm_init.
  destruct (memset_spec base 0 (Z.to_nat size) dt) as (dt' & -> & Hin & Hout).
  { rewrite Z2Nat.id by (unfold SZ in *; lia). done. }
  rewrite bind_Ok. unfold mdesc_init. replace (base =? 0) with false by lia. rewrite bind_Ok.
  change (sizeof_mdesc 64) with SZ. rewrite wrap_small by (unfold SZ in *; lia).
  eexists _, dt'. split; [reflexivity|]. split.
  - constructor; simpl; try done; try lia.
    + intros a z [= -> ->]%list_elem_of_singleton. unfold sizes. by rewrite lookup_insert_eq.
    + split_and!; [lia| |done]. unfold links. by rewrite lookup_insert_eq.
  - eapply eq_mapped; [|done]. intros x.
    destruct (decide (base ≤ x < base + size)); [right|left; apply Hout; unfold SZ in *; lia].
    rewrite Hin by (unfold SZ in *; lia). done.
Qed.

(** ** Clients of the heap *)

(** The heap and the live allocations: pointers with the sizes asked for. *)
Definition hstate : Type := mm_state * list (Z * Z).

Inductive hstep : hstate → hstate → Prop :=
  | h_alloc st size p st' live :
      0 ≤ size < 2 ^ 63 → mipos_mm_alloc 64 size st = Ok (p, st') → p ≠ 0 →
      hstep (st, live) (st', (p, size) :: live)
  | h_alloc_fail st size st' live :
      0 ≤ size < 2 ^ 63 → mipos_mm_alloc 64 size st = Ok (0, st') →
      hstep (st, live) (st', live)
  | h_free st p n r st' live1 live2 :
      mipos_mm_free 64 p st = Ok (r, st') →
      hstep (st, live1 ++ (p, n) :: live2) (st', live1 ++ live2)
  | h_free_other st p r st' live :
      p ∉ live.*1 → mipos_mm_free 64 p st = Ok (r, st') → hstep (st, live) (st', live)
  | h_compact s h dt n c s' h' live :
      0 ≤ n → mipos_mm_compact_freemem 64 n s h = Ok (c, s', h') →
      hstep (mk_mms s h dt, live) (mk_mms s' h' dt, live)
  | h_write s h dt p n x v live :
      (p, n) ∈ live → p ≤ x < p + n →
      hstep (mk_mms s h dt, live) (mk_mms s h (<[x := v]> dt), live).

Record hstate_wf (base size : Z) (x : hstate) : Prop := {
  hs_lists : ∃ fl ul L, heap_wf base (mm (fst x)) (hp (fst x)) fl ul L ∧
    ul ≡ₚ (λ q, fst q - SZ) <$> snd x;
  hs_size : ∀ p n, (p, n) ∈ snd x → n ≤ szz (hp (fst x)) (p - SZ);
  hs_arena : _arena_size (mm (fst x)) = size;
  hs_data : mapped base size (data (fst x));
}.

Lemma hstate_wf_alloc base sz st size p st' live :
  hstate_wf base sz (st, live) → 0 ≤ size < 2 ^ 63 → mipos_mm_alloc 64 size st = Ok (p, st') →
  (p ≠ 0 → hstate_wf base sz (st', (p, size) :: live)) ∧ (p = 0 → hstate_wf base sz (st', live)).
Proof.
  intros Hst Hs Hall. destruct (decide (size = 0)) as [->|Hs0].
  { destruct st. injection Hall as <- <-. by split. }
  assert (0 < size < 2 ^ 63) as Hs1 by lia. clear Hs Hs0. rename Hs1 into Hs.
  destruct Hst as [(fl & ul & L & Hw & Hp) Hn Ha Hd]. destruct st as [s h dt]. simpl in *.
  destruct (alloc_ok base s h dt fl ul L size Hw Hs) as (r & s' & h' & Heq & Hor).
  rewrite Hall in Heq. injection Heq as -> ->.
  destruct (aligned_size_ok size Hs) as [Hal _].
  assert (∀ q m, (q, m) ∈ live → q - SZ ∈ ul) as Hin.
  { intros q m Hq. rewrite Hp. apply list_elem_of_fmap. by exists (q, m). }
  destruct Hor as [(-> & fl' & L' & Hw' & Har & Hul & _)|(b & Hb & -> & Hok)]; split; intros Hp0; try done.
  - constructor; simpl; [by exists fl', ul, L'| |congruence|done].
    intros q m Hq. rewrite Hul by by eapply Hin. by apply Hn.
  - destruct Hok as (fl' & ul' & L' & Hw' & Har & Hp' & Hbn & Hul).
    constructor; simpl; [|intros q m [[= -> ->]|Hq]%elem_of_cons|congruence|done].
    + exists fl', ul', L'. split; [done|]. rewrite Hp', Hp. simpl.
      by replace (b + SZ - SZ) with b by lia.
    + replace (b + SZ - SZ) with b by lia. lia.
    + rewrite Hul by by eapply Hin. by apply Hn.
  - exfalso. destruct Hok as (fl' & ul' & L' & Hw' & _ & Hp' & _).
    destruct (hw_bounds Hw' b); [rewrite Hp'; set_solver|]. unfold SZ in *.
    pose proof (hw_base _ _ _ _ _ _ Hw'). lia.
Qed.

Lemma hstep_wf base sz x y : hstep x y → hstate_wf base sz x → hstate_wf base sz y.
Proof.
  destruct 1 as [st size p st' live Hs Ha Hp0|st size st' live Hs Ha
    |[s h dt] p n r st' l1 l2 Hf|[s h dt] p r st' live Hni Hf
    |s h dt n c s' h' live Hn Hc|s h dt p n z v live Hin Hz]; intros Hw.
  - by destruct (hstate_wf_alloc _ _ _ _ _ _ _ Hw Hs Ha) as [? _]; auto.
  - by destruct (hstate_wf_alloc _ _ _ _ _ _ _ Hw Hs Ha) as [_ ?]; auto.
  - destruct Hw as [(fl & ul & L & Hw & Hp) Hsz Har Hd]. simpl in *.
    destruct (mm_free_ok base s h dt fl ul L p Hw) as (r' & s' & h' & Hf' & Hor).
    rewrite Hf in Hf'. injection Hf' as <- ->.
    assert (p - SZ ∈ ul) as Hpin by (rewrite Hp; apply list_elem_of_fmap; exists (p, n); set_solver).
    destruct Hor as [(_ & _ & _ & Hno)|(_ & a & ul1 & ul2 & -> & Hpa & Har' & Hw' & Hsz')].
    { exfalso. apply (Hno _ Hpin). lia. }
    constructor; simpl; [|intros q m Hq; rewrite Hsz'; apply Hsz; set_solver|congruence|done].
    exists (insert2 a fl), (ul1 ++ ul2), L. split; [done|].
    rewrite !fmap_app in *. simpl in Hp. rewrite <-!Permutation_middle in Hp.
    replace (p - SZ) with a in Hp by lia. by apply Permutation_cons_inv in Hp.
  - destruct Hw as [(fl & ul & L & Hw & Hp) Hsz Har Hd]. simpl in *.
    destruct (mm_free_ok base s h dt fl ul L p Hw) as (r' & s' & h' & Hf' & Hor).
    rewrite Hf in Hf'. injection Hf' as <- ->.
    destruct Hor as [(_ & -> & -> & _)|(_ & a & ul1 & ul2 & -> & -> & _)].
    { constructor; simpl; eauto. }
    exfalso. assert (a ∈ ul1 ++ a :: ul2) as Ha by set_solver.
    rewrite Hp in Ha. apply list_elem_of_fmap in Ha as ([q m] & Hq & Hin). simpl in Hq.
    apply Hni, list_elem_of_fmap. exists (q, m). split; [simpl; lia|done].
  - destruct Hw as [(fl & ul & L & Hw & Hp) Hsz Har Hd]. simpl in *.
    destruct (compact_ok base s h fl ul L n Hw Hn) as (c' & s1 & h1 & fl' & L' & Hc' & Hw' & Har' & Hul & _).
    rewrite Hc in Hc'. injection Hc' as <- <- <-.
    constructor; simpl; [by exists fl', ul, L'| |congruence|done].
    intros q m Hq. rewrite Hul; [by apply Hsz|]. rewrite Hp. apply list_elem_of_fmap. by exists (q, m).
  - destruct Hw. constructor; simpl in *; try done. by apply mapped_insert.
Qed.

Lemma hsteps_wf base sz x y : rtc hstep x y → hstate_wf base sz x → hstate_wf base sz y.
Proof. induction 1 as [|x y z Hs _ IH]; intros Hw; [done|]. by eapply IH, hstep_wf. Qed.

(** What a well-formed heap promises its clients. *)
Lemma hstate_wf_promises base sz st live :
  hstate_wf base sz (st, live) →
  (∀ p n, (p, n) ∈ live → base + SZ ≤ p ∧ p + n ≤ base + sz) ∧
  (∀ p n q m i j, live !! i = Some (p, n) → live !! j = Some (q, m) → i ≠ j →
     p + n ≤ q ∨ q + m ≤ p) ∧
  (∀ size, 0 ≤ size < 2 ^ 63 → is_ok (mipos_mm_alloc 64 size st) = true) ∧
  (∀ p, ∃ r st', mipos_mm_free 64 p st = Ok (r, st') ∧ (r = 1 ↔ p ∈ live.*1)) ∧
  (∀ n, 0 ≤ n → is_ok (mipos_mm_compact_freemem 64 n (mm st) (hp st)) = true).
Proof.
  intros [(fl & ul & L & Hw & Hp) Hsz Har Hd]. destruct st as [s h dt]. simpl in *.
  assert (∀ q m, (q, m) ∈ live → q - SZ ∈ ul) as Hin.
  { intros q m Hq. rewrite Hp. apply list_elem_of_fmap. by exists (q, m). }
  split; [|split; [|split; [|split]]].
  - intros p n Hpn. destruct (hw_bounds Hw (p - SZ)) as (? & ? & ? & _).
    { apply elem_of_app. right. by eapply Hin. }
    specialize (Hsz p n Hpn). lia.
  - intros p n q m i j Hi Hj Hij.
    assert ((p, n) ∈ live ∧ (q, m) ∈ live) as [Hpi Hqj]
      by (split; eapply list_elem_of_lookup_2; eauto).
    pose proof (hw_NoDup Hw) as (_ & _ & Hnd)%NoDup_app. rewrite Hp in Hnd.
    assert (p - SZ ≠ q - SZ) as Hne.
    { intros Heq. apply Hij. eapply (NoDup_lookup _ i j (p - SZ) Hnd);
        rewrite list_lookup_fmap; [by rewrite Hi|rewrite Hj; simpl; by rewrite Heq]. }
    pose proof (Hsz _ _ Hpi). pose proof (Hsz _ _ Hqj).
    pose proof (tiles_disjoint _ _ _ _ _ _ _ (hw_tiles _ _ _ _ _ _ Hw)
      (hw_block Hw (p - SZ) ltac:(apply elem_of_app; right; by eapply Hin))
      (hw_block Hw (q - SZ) ltac:(apply elem_of_app; right; by eapply Hin)) Hne).
    unfold SZ in *. lia.
  - intros size Hs. destruct (decide (size = 0)) as [->|]; [done|].
    by destruct (alloc_ok base s h dt fl ul L size Hw ltac:(lia)) as (r & s' & h' & -> & _).
  - intros p. destruct (mm_free_ok base s h dt fl ul L p Hw) as (r & s' & h' & -> & Hor).
    eexists r, _. split; [reflexivity|].
    destruct Hor as [(-> & _ & _ & Hno)|(-> & a & ul1 & ul2 & -> & -> & _)].
    + split; [done|]. intros ([q m] & -> & Hq)%list_elem_of_fmap. exfalso.
      apply (Hno (q - SZ)); [by eapply Hin|simpl; lia].
    + split; [|done]. intros _. assert (a ∈ ul1 ++ a :: ul2) as Ha by set_solver.
      rewrite Hp in Ha. apply list_elem_of_fmap in Ha as ([q m] & Hq & Hqin). simpl in Hq.
      apply list_elem_of_fmap. exists (q, m). split; [simpl; lia|done].
  - intros n Hn. by destruct (compact_ok base s h fl ul L n Hw Hn) as (? & ? & ? & ? & ? & -> & _).
Qed.

Lemma init_hstate_wf base sz h dt :
  heap_wf base (mk_mm sz base 0) h [base] [] [(base, sz - SZ)] → mapped base sz dt →
  hstate_wf base sz (mk_mms (mk_mm sz base 0) h dt, []).
Proof.
  intros Hw Hm. constructor; simpl; [|by intros p n ?%elem_of_nil|done|done].
  exists [base], [], [(base, sz - SZ)]. split; [done|constructor].
Qed.

(** An allocation that fails found every free block too small at once. *)
Lemma alloc_zero_small base s h dt fl ul L size s' h' :
  heap_wf base s h fl ul L → 0 < size < 2 ^ 63 →
  mipos_mm_alloc 64 size (mk_mms s h dt) = Ok (0, mk_mms s' h' dt) →
  ∀ a, a ∈ fl → szz h a < aligned_size 64 size.
Proof.
  intros Hw Hs Heq. destruct (aligned_size_ok size Hs) as [Hal _].
  unfold mipos_mm_alloc in Heq. replace (size =? 0) with false in Heq by lia.
  destruct (alloc_aux_ok base s h fl ul L (aligned_size 64 size) Hw) as (r & s1 & h1 & Hr & Hor); [lia|].
  rewrite Hr, bind_Ok in Heq. destruct Hor as [(-> & -> & -> & Hall)|(Hr0 & Hok)]; [done|exfalso].
  pose proof Hr0 as Hr0'. apply Z.eqb_neq in Hr0'. rewrite Hr0', bind_Ok in Heq.
  destruct Hok as (fl' & ul' & L' & Hw' & _ & Hp & _).
  assert (r ∈ fl' ++ ul') as Hin by (rewrite elem_of_app, Hp; set_solver).
  apply truth_true in Hr0. rewrite Hr0, (hw_daddr Hw' r Hin) in Heq. injection Heq as H0 _ _.
  destruct (hw_bounds Hw' r Hin) as (_ & _ & _ & ? & _). unfold SZ in *. lia.
Qed.

Lemma sum_plus_const (f : Z → Z) c l :
  foldr Z.add 0 ((λ a, f a + c) <$> l) = foldr Z.add 0 (f <$> l) + c * Z.of_nat (length l).
Proof.
  induction l as [|a l IH]; [simpl; lia|]. rewrite !fmap_cons. cbn [foldr length]. lia.
Qed.

Lemma sum_app l1 l2 : foldr Z.add 0 (l1 ++ l2) = foldr Z.add 0 l1 + foldr Z.add 0 l2.
Proof. induction l1; simpl; lia. Qed.

Lemma sum_perm l1 l2 : l1 ≡ₚ l2 → foldr Z.add 0 l1 = foldr Z.add 0 l2.
Proof. induction 1; simpl; lia. Qed.

Lemma tiles_sum a e L :
  tiles a e L → e = a + SZ * Z.of_nat (length L) + foldr Z.add 0 L.*2.
Proof.
  revert a. induction L as [|[b s] L IH]; intros a; cbn [tiles]; [simpl; lia|].
  intros (-> & _ & ->%IH). rewrite fmap_cons. cbn [foldr length snd]. unfold SZ. lia.
Qed.

(** The blocks and their descriptors fill the arena. *)
Lemma heap_accounting base s h fl ul L :
  heap_wf base s h fl ul L →
  SZ * Z.of_nat (length L) + foldr Z.add 0 (szz h <$> fl) + foldr Z.add 0 (szz h <$> ul) =
    _arena_size s ∧
  Z.of_nat (length L) = Z.of_nat (length fl) + Z.of_nat (length ul) ∧
  0 ≤ foldr Z.add 0 (szz h <$> fl) ∧ 0 ≤ foldr Z.add 0 (szz h <$> ul).
Proof.
  intros Hw. pose proof (hw_perm _ _ _ _ _ _ Hw) as Hp.
  pose proof (tiles_sum _ _ _ (hw_tiles _ _ _ _ _ _ Hw)) as Hs.
  assert (L.*2 = szz h <$> L.*1) as HL2.
  { rewrite <-list_fmap_compose. apply list_fmap_ext. intros i [a z] Hi. simpl. unfold szz.
    rewrite (hw_desc _ _ _ _ _ _ Hw a z); [done|]. by eapply list_elem_of_lookup_2. }
  rewrite HL2, <-(sum_perm _ _ (fmap_Permutation (szz h) _ _ Hp)), fmap_app, sum_app in Hs.
  assert (∀ l, (∀ a, a ∈ l → a ∈ fl ++ ul) → 0 ≤ foldr Z.add 0 (szz h <$> l)) as Hpos.
  { induction l as [|a l IH]; intros Hl; [done|]. rewrite fmap_cons. cbn [foldr].
    destruct (hw_bounds Hw a) as (_ & ? & _); [apply Hl; left|].
    assert (0 ≤ foldr Z.add 0 (szz h <$> l)); [|lia]. apply IH. intros b Hb. apply Hl. by right. }
  split; [lia|]. split; [|split; apply Hpos; set_solver].
  rewrite <-Nat2Z.inj_add, <-length_app, (Permutation_length Hp), length_fmap. done.
Qed.

Lemma allocated_size_ok base s h dt fl ul L a :
  heap_wf base s h fl ul L → a ∈ ul →
  get_part_ptr_allocated_mem_size 64 (a + SZ) (mk_mms s h dt) = Ok (szz h a).
Proof.
  intros Hw Ha. unfold get_part_ptr_allocated_mem_size, mm_find_used. simpl (mm _). simpl (hp _).
  rewrite (hw_um _ _ _ _ _ _ Hw).
  destruct (find_used_loop_ok (fuel_of h) h 0 ul (a + SZ)) as (r & -> & Hor);
    [apply Hw|apply (hw_fits Hw)|]. rewrite bind_Ok.
  assert (∀ b, b ∈ ul → mdesc_get_data_addr 64 b = b + SZ) as Hda
    by (intros b Hb; apply (hw_daddr Hw); set_solver).
  destruct Hor as [(_ & Hno)|(Hin & Hr0 & Hp)]; [by specialize (Hno a Ha); rewrite Hda in Hno|].
  rewrite Hda in Hp by done. assert (r = a) as -> by lia.
  apply truth_true in Hr0 as Ht. rewrite Ht. apply getsize_szz; [done|]. apply (hw_some Hw). set_solver.
Qed.

(** ** Properties *)

(** C13: on MIPOS64 (64-bit [size_t] and pointers) the heap is safe: after
    [mipos_mm_init], whatever sequence of allocations of less than 2^63 bytes,
    releases (of live pointers or of anything else), compactions and writes
    into live blocks the clients perform, no service faults or fails to
    terminate, every live block lies inside the arena after its descriptor, no
    two live blocks overlap, and [mipos_mm_free] succeeds exactly on the live
    pointers.  On MIPOS32 this is false, see
    [exact_fit_handed_out_twice_on_mipos32]. *)
Theorem heap_safe base sz dt :
  0 < base → SZ ≤ sz → base + sz < 2 ^ 63 → mapped base sz dt →
  ∃ st0, mipos_mm_init 64 base sz dt = Ok st0 ∧
    ∀ st live, rtc hstep (st0, []) (st, live) →
      (∀ p n, (p, n) ∈ live → base + SZ ≤ p ∧ p + n ≤ base + sz) ∧
      (∀ p n q m i j, live !! i = Some (p, n) → live !! j = Some (q, m) → i ≠ j →
         p + n ≤ q ∨ q + m ≤ p) ∧
      (∀ size, 0 ≤ size < 2 ^ 63 → is_ok (mipos_mm_alloc 64 size st) = true) ∧
      (∀ p, ∃ r st', mipos_mm_free 64 p st = Ok (r, st') ∧ (r = 1 ↔ p ∈ live.*1)) ∧
      (∀ n, 0 ≤ n → is_ok (mipos_mm_compact_freemem 64 n (mm st) (hp st)) = true).
Proof.
  intros Hb Hs He Hm. destruct (mm_init_ok base sz dt) as (h & dt' & Hi & Hw & Hm'); [done..|].
  eexists. split; [exact Hi|]. intros st live Hr. apply hstate_wf_promises.
  eapply hsteps_wf; [exact Hr|]. by apply init_hstate_wf.
Qed.

(** A 256-byte arena. *)
Definition arena256 : mem := zero_mem 1024 256.

Lemma arena256_mapped : mapped 1024 256 arena256.
Proof. apply (zero_mem_mapped 1024 256). Qed.

Lemma heap_safe_witness :
  ∃ st0, mipos_mm_init 64 1024 256 arena256 = Ok st0 ∧
    ∀ st live, rtc hstep (st0, []) (st, live) →
      ∀ p n, (p, n) ∈ live → 1024 + SZ ≤ p ∧ p + n ≤ 1024 + 256.
Proof.
  destruct (heap_safe 1024 256 arena256) as (st0 & Hi & Hs);
    [lia|unfold SZ; lia|lia|apply arena256_mapped|].
  exists st0. split; [exact Hi|]. intros st live Hr. exact (proj1 (Hs st live Hr)).
Defined.

(** C32: on MIPOS64 an allocation of 1 to 2^63 - 1 bytes fails only when it
    must: when [mipos_mm_alloc] returns 0, the free blocks have been merged as
    far as possible (no two of them touch) and none of them has room for the
    rounded size; and when the heap has a free block with room it never fails.
    (A request for 0 bytes is always refused.) *)
Theorem alloc_fails_only_when_full base s h dt fl ul L size :
  heap_wf base s h fl ul L → 0 < size < 2 ^ 63 →
  ∃ r s' h', mipos_mm_alloc 64 size (mk_mms s h dt) = Ok (r, mk_mms s' h' dt) ∧
    (r = 0 → (∀ a, a ∈ fl → szz h a < aligned_size 64 size) ∧
       ∃ fl' L', heap_wf base s' h' fl' ul L' ∧ apart h' fl' fl' ∧
         ∀ a, a ∈ fl' → szz h' a < aligned_size 64 size).
Proof.
  intros Hw Hs. destruct (alloc_ok base s h dt fl ul L size Hw Hs) as (r & s' & h' & Heq & Hor).
  exists r, s', h'. split; [done|]. intros ->.
  destruct Hor as [(_ & fl' & L' & Hw' & _ & _ & Hap & Hsm)|(b & Hb & H0 & Hok)].
  - split; [|by exists fl', L']. by eapply alloc_zero_small.
  - exfalso. destruct Hok as (fl' & ul' & L' & Hw' & _ & Hp' & _).
    destruct (hw_bounds Hw' b); [rewrite Hp'; set_solver|]. unfold SZ in *.
    pose proof (hw_base _ _ _ _ _ _ Hw'). lia.
Qed.

(** The heap of [arena256] just after its initialisation. *)
Definition fresh256 : heap := <[1024 := mk_mdesc 0 0 232]> ∅.

Lemma fresh256_wf : heap_wf 1024 (mk_mm 256 1024 0) fresh256 [1024] [] [(1024, 232)].
Proof.
  destruct (mm_init_ok 1024 256 arena256) as (h & dt' & Hi & Hw & _);
    [lia|unfold SZ; lia|lia|apply arena256_mapped|].
  assert (h = fresh256) as ->; [|exact Hw].
  revert Hi. unfold mipos_mm_init. destruct (memset 1024 0 (Z.to_nat 256) arena256); [|done].
  rewrite bind_Ok. intros Hi. injection Hi as Hh _. rewrite <-Hh. reflexivity.
Qed.

Lemma alloc_fails_only_when_full_witness :
  ∃ r s' h', mipos_mm_alloc 64 300 (mk_mms (mk_mm 256 1024 0) fresh256 ∅) = Ok (r, mk_mms s' h' ∅) ∧
    r = 0 ∧ (∀ a, a ∈ [1024] → szz fresh256 a < aligned_size 64 300).
Proof.
  destruct (alloc_fails_only_when_full 1024 _ fresh256 ∅ [1024] [] _ 300 fresh256_wf)
    as (r & s' & h' & Heq & Hz); [lia|].
  exists r, s', h'. split; [exact Heq|]. assert (r = 0) as H0.
  { vm_compute in Heq. by injection Heq as <- _. }
  split; [exact H0|]. exact (proj1 (Hz H0)).
Defined.

(** The accounting of [mipos_mm_dbg_print] is exact: in every state of the
    heap the reserved bytes, the free bytes and the used bytes add up to the
    size of the arena, so its consistency check never prints the error, and
    [mipos_mm_get_used_memory_size] is the sum of the used blocks with their
    descriptors. *)
Theorem dbg_print_consistent base s h dt fl ul L :
  heap_wf base s h fl ul L →
  mipos_mm_dbg_print 64 (mk_mms s h dt) =
    Ok (SZ * Z.of_nat (length L), _arena_size s, false) ∧
  mipos_mm_get_used_memory_size 64 (mk_mms s h dt) =
    Ok (foldr Z.add 0 ((λ a, szz h a + SZ) <$> ul)).
Proof.
  intros Hw. destruct (heap_accounting base s h fl ul L Hw) as (Hsum & Hlen & Hfb & Hub).
  unfold SZ in Hsum.
  pose proof (hw_base _ _ _ _ _ _ Hw). pose proof (hw_end _ _ _ _ _ _ Hw).
  destruct (list_total_ok (fuel_of h) h 0 fl 0 0) as (rf & Hrf & Hwf & Hidf);
    [apply Hw|apply (hw_fits Hw)|].
  destruct (list_total_ok (fuel_of h) h 0 ul 0 0) as (ru & Hru & Hwu & Hidu);
    [apply Hw|apply (hw_fits Hw)|].
  assert (rf = foldr Z.add 0 (szz h <$> fl)) as ->.
  { rewrite <-Hidf by done. rewrite Hwf. apply wrap_small. lia. }
  assert (ru = foldr Z.add 0 (szz h <$> ul)) as ->.
  { rewrite <-Hidu by done. rewrite Hwu. apply wrap_small. lia. }
  unfold mipos_mm_dbg_print, mipos_mm_get_used_memory_size. simpl (mm _). simpl (hp _).
  rewrite (hw_fm _ _ _ _ _ _ Hw), (hw_um _ _ _ _ _ _ Hw), Hrf, Hru, !bind_Ok.
  change (sizeof_mdesc 64) with SZ. rewrite !Z.add_0_l, sum_plus_const.
  unfold SZ in *. no_wrap. split; [|f_equal; lia].
  f_equal. f_equal; [f_equal; lia|]. apply negb_false_iff, Z.eqb_eq. lia.
Qed.

Lemma dbg_print_consistent_witness :
  mipos_mm_dbg_print 64 (mk_mms (mk_mm 256 1024 0) fresh256 ∅) = Ok (24, 256, false).
Proof. exact (proj1 (dbg_print_consistent 1024 _ fresh256 ∅ _ _ _ fresh256_wf)). Defined.

(** [mipos_mm_realloc] that moves a block keeps its contents: when a live
    block is resized to something at least as large as its block, the first
    bytes of the new block are the bytes of the old one, every other live
    block keeps its contents, and the old block is released. *)
Theorem realloc_moves_contents base s h dt fl ul L a size p st1 :
  heap_wf base s h fl ul L → mapped base (_arena_size s) dt → a ∈ ul →
  szz h a ≤ size < 2 ^ 63 → 0 < szz h a →
  mipos_mm_alloc 64 size (mk_mms s h dt) = Ok (p, st1) → p ≠ 0 →
  ∃ s' h' dt' fl' ul' L', mipos_mm_realloc 64 (a + SZ) size (mk_mms s h dt) =
      Ok (p, mk_mms s' h' dt') ∧ heap_wf base s' h' fl' ul' L' ∧
    (a :: ul' ≡ₚ (p - SZ) :: ul) ∧
    (∀ i, 0 ≤ i < szz h a → dt' !! (p + i) = dt !! (a + SZ + i)) ∧
    (∀ b i, b ∈ ul → 0 ≤ i < szz h b → dt' !! (b + SZ + i) = dt !! (b + SZ + i)).
Proof.
  intros Hw Hm Ha Hs Hpos Hall Hp.
  destruct (alloc_ok base s h dt fl ul L size Hw ltac:(lia)) as (r & s1 & h1 & Heq & Hor).
  rewrite Hall in Heq. injection Heq as -> ->.
  destruct Hor as [(? & _)|(b & Hb & -> & fl1 & ul1 & L1 & Hw1 & Har1 & Hp1 & Hbn & Hul1)]; [done|].
  destruct (aligned_size_ok size ltac:(lia)) as [Hal _].
  assert (a ∈ fl ++ ul ∧ a ∈ fl1 ++ ul1 ∧ b ∈ fl1 ++ ul1) as (Hain & Hain1 & Hbin1).
  { rewrite !elem_of_app, Hp1. set_solver. }
  destruct (hw_bounds Hw a Hain) as (Ha1 & _ & Ha3 & Ha4 & Ha5).
  destruct (hw_bounds Hw1 b Hbin1) as (Hb1 & _ & Hb3 & Hb4 & _).
  assert (∀ c, c ∈ ul → c ≠ b) as Hcb.
  { intros c Hc ->. pose proof (hw_NoDup Hw1) as (_ & _ & Hnd)%NoDup_app. rewrite Hp1 in Hnd.
    by apply NoDup_cons in Hnd as [? _]. }
  assert (∀ c, c ∈ ul → c + SZ + szz h c ≤ b ∨ b + SZ + size ≤ c) as Hdis.
  { intros c Hc. rewrite <-(Hul1 c Hc).
    assert (c ∈ fl1 ++ ul1) as Hc1 by (rewrite elem_of_app, Hp1; set_solver).
    pose proof (tiles_disjoint _ _ _ _ _ _ _ (hw_tiles _ _ _ _ _ _ Hw1) (hw_block Hw1 c Hc1)
      (hw_block Hw1 b Hbin1) (Hcb c Hc)). lia. }
  unfold mipos_mm_realloc. replace (a + SZ =? 0) with false by (unfold SZ in *; lia).
  rewrite (allocated_size_ok base s h dt fl ul L a Hw Ha), bind_Ok.
  replace ((0 <? size) && (size <? szz h a)) with false
    by (symmetry; apply andb_false_iff; right; apply Z.ltb_ge; lia).
  rewrite Z.min_l by lia. replace (0 <? szz h a) with true by lia.
  rewrite Hall, bind_Ok. replace (b + SZ =? 0) with false by lia. simpl (data _).
  destruct (memcpy_spec (b + SZ) (a + SZ) (Z.to_nat (szz h a)) dt) as (dt' & -> & Hcp & Hout).
  { rewrite Z2Nat.id by lia. eapply mapped_sub; [exact Hm|unfold SZ in *; lia|unfold SZ in *; lia]. }
  { rewrite Z2Nat.id by lia. eapply mapped_sub; [exact Hm|unfold SZ in *; lia|unfold SZ in *; lia]. }
  { rewrite Z2Nat.id by lia. specialize (Hdis a Ha). unfold SZ in *. lia. }
  rewrite Z2Nat.id in * by lia. rewrite !bind_Ok. simpl (mm _). simpl (hp _).
  destruct (mm_free_ok base s1 h1 dt' fl1 ul1 L1 (a + SZ) Hw1) as (r & s2 & h2 & -> & Hor).
  rewrite bind_Ok. destruct Hor as [(_ & _ & _ & Hno)|(_ & c & u1 & u2 & Hu & Hc & _ & Hw2 & _)].
  { exfalso. apply (Hno a); [|done]. rewrite Hp1. set_solver. }
  assert (c = a) as -> by lia.
  exists s2, h2, dt', (insert2 a fl1), (u1 ++ u2), L1. split; [done|]. split; [done|]. split; [|split].
  - replace (b + SZ - SZ) with b by lia. rewrite <-Hp1, Hu. by rewrite <-Permutation_middle.
  - exact Hcp.
  - intros d i Hd Hi. apply Hout. specialize (Hdis d Hd). unfold SZ in *. lia.
Qed.

(** The same heap with a 16-byte block taken. *)
Definition used16 : mm_state := Eval vm_compute in
  match mipos_mm_alloc 64 16 (mk_mms (mk_mm 256 1024 0) fresh256 ∅) with
  | Ok (_, st) => st
  | Fault _ => mk_mms (mk_mm 0 0 0) ∅ ∅
  end.

Lemma used16_wf :
  ∃ fl L, heap_wf 1024 (mm used16) (hp used16) fl [1240] L.
Proof.
  destruct (alloc_ok 1024 _ fresh256 ∅ [1024] [] _ 16 fresh256_wf) as (r & s' & h' & Heq & Hor); [lia|].
  assert (r = 1264 ∧ mk_mms s' h' ∅ = used16) as [-> Hst].
  { vm_compute in Heq. by injection Heq as <- <- <-. }
  destruct Hor as [(? & _)|(b & _ & Hb & fl' & ul' & L' & Hw & _ & Hp & _)]; [done|].
  assert (b = 1240) as -> by (unfold SZ in *; lia).
  apply Permutation_singleton_r in Hp as ->. exists fl', L'. by rewrite <-Hst.
Qed.

Lemma realloc_moves_contents_witness :
  ∃ s' h' dt', mipos_mm_realloc 64 1264 40 (mk_mms (mm used16) (hp used16) arena256) =
      Ok (1200, mk_mms s' h' dt') ∧
    (∀ i, 0 ≤ i < 16 → dt' !! (1200 + i) = arena256 !! (1264 + i)).
Proof.
  destruct used16_wf as (fl & L & Hw).
  destruct (realloc_moves_contents 1024 _ _ arena256 fl [1240] L 1240 40 1200
    (mk_mms (mk_mm 256 1024 1240) (<[1176 := mk_mdesc 0 1240 40]>
       (<[1240 := mk_mdesc 1176 0 16]> (<[1024 := mk_mdesc 0 0 128]> ∅))) arena256) Hw)
    as (s' & h' & dt' & _ & _ & _ & Heq & _ & _ & Hc & _).
  - apply arena256_mapped.
  - by left.
  - vm_compute. split; [discriminate|reflexivity].
  - reflexivity.
  - vm_compute. reflexivity.
  - discriminate.
  - exists s', h', dt'. split; [exact Heq|exact Hc].
Defined.

(** [mipos_mm_realloc] does not handle exhaustion: when the new block
    cannot be allocated, it copies to the null pointer instead of returning 0
    with the old block kept. *)
Theorem realloc_exhausted_writes_null base s h dt fl ul L a size st1 :
  heap_wf base s h fl ul L → a ∈ ul → 0 < szz h a → szz h a ≤ size →
  mipos_mm_alloc 64 size (mk_mms s h dt) = Ok (0, st1) →
  mipos_mm_realloc 64 (a + SZ) size (mk_mms s h dt) = Fault NullDeref.
Proof.
  intros Hw Ha Hpos Hs Hall. unfold mipos_mm_realloc.
  destruct (hw_bounds Hw a) as (_ & _ & _ & ? & _); [set_solver|].
  replace (a + SZ =? 0) with false by (unfold SZ in *; lia).
  rewrite (allocated_size_ok base s h dt fl ul L a Hw Ha), bind_Ok.
  replace ((0 <? size) && (size <? szz h a)) with false
    by (symmetry; apply andb_false_iff; right; apply Z.ltb_ge; lia).
  rewrite Z.min_l by lia. replace (0 <? szz h a) with true by lia.
  by rewrite Hall, bind_Ok.
Qed.

Lemma realloc_exhausted_writes_null_witness :
  mipos_mm_realloc 64 1264 1000 (mk_mms (mm used16) (hp used16) ∅) = Fault NullDeref.
Proof.
  destruct used16_wf as (fl & L & Hw).
  eapply (realloc_exhausted_writes_null 1024 _ _ ∅ fl [1240] L 1240 1000 _ Hw).
  - by left.
  - reflexivity.
  - vm_compute. discriminate.
  - vm_compute. reflexivity.
Defined.

(** ** Exact fits on MIPOS32 *)

Lemma aligned_size_32 size n :
  0 < size ≤ n → n < size + 4 → n `mod` 4 = 0 → n < 2 ^ 32 - 12 → aligned_size 32 size = n.
Proof.
  intros Hs Hn Hm Hb. unfold aligned_size. rewrite (wrap_small 32 (size + 3)) by lia.
  pose proof (land_align (size + 3) 32 2 ltac:(lia) ltac:(lia)) as Hal.
  change (Z.ones 2) with 3 in Hal. change (2 ^ 2) with 4 in Hal. rewrite Hal.
  pose proof (Z.div_mod n 4 ltac:(lia)). pose proof (Z.div_mod (size + 3) 4 ltac:(lia)).
  pose proof (Z.mod_pos_bound (size + 3) 4 ltac:(lia)). lia.
Qed.

(** The difference of an exact fit is minus the size of a descriptor; widened
    without sign it is large. *)
Lemma exact_fit_split n :
  0 ≤ n < 2 ^ 32 - 12 → wrap 32 (n - wrap 32 (n + sizeof_mdesc 32)) = 2 ^ 32 - 12 ∧
  (signed_size (sizeof_mdesc 32) <? signed_size (2 ^ 32 - 12)) = true.
Proof.
  intros Hn. change (sizeof_mdesc 32) with 12. rewrite (wrap_small 32 (n + 12)) by lia.
  replace (n - (n + 12)) with (-12) by lia. split; reflexivity.
Qed.

(** The block [a] of [n] bytes, alone on the free list, is handed out and
    stays there. *)
Lemma exact_fit_aux a n um d sz :
  0 < a → 0 ≤ n → a + 12 + n < 2 ^ 32 → mb_size d = n → um = 0 ∨ um = a →
  ∃ d', mm_alloc_aux 32 n (mk_mm sz a um) (<[a := d]> ∅) = Ok (a, mk_mm sz a a, <[a := d']> ∅) ∧ mb_size d' = n.
Proof.
  intros Ha Hn Hb Hd Hum. assert ((a =? 0) = false) as Ea by lia.
  assert (∀ e, deref a (<[a := e]> ∅) = Ok e) as Hde by (intros e; unfold deref; by rewrite Ea, lookup_insert_eq).
  assert (∀ f e, upd_desc f a (<[a := e]> ∅) = Ok (<[a := f e]> ∅)) as Hup
    by (intros f e; unfold upd_desc; by rewrite Hde, bind_Ok, insert_insert_eq).
  destruct (exact_fit_split n) as [Ew Et]; [lia|].
  unfold mm_alloc_aux, mm_find_free, fuel_of, mdesc_init. cbn [_free_memory find_free_loop]. rewrite Ea.
  unfold mdesc_getsize, mdesc_setsize. rewrite !Hde. cbn [fmap res_fmap]. rewrite !bind_Ok, Hd, Z.eqb_refl, !bind_Ok, Ea, !Hde.
  cbn [fmap res_fmap]. rewrite !bind_Ok, Hd, Ew, Et, Hup, !bind_Ok, Hde. cbn [fmap res_fmap mb_size set_size]. rewrite !bind_Ok.
  assert (wrap 32 (mdesc_get_data_addr 32 a + (2 ^ 32 - 12)) = a) as ->.
  { unfold mdesc_get_data_addr. change (sizeof_mdesc 32) with 12. rewrite (wrap_small 32 (a + 12)) by lia. unfold wrap.
    replace (a + 12 + (2 ^ 32 - 12)) with (a + 1 * 2 ^ 32) by lia. rewrite Z_mod_plus_full. apply Z.mod_small. lia. }
  rewrite Ea, !bind_Ok, insert_insert_eq. unfold mm_add2used. cbn [_used_memory]. destruct Hum as [->| ->].
  - cbn [Z.eqb]. unfold mdesc_isolate. rewrite Hup, !bind_Ok. eexists. split; [reflexivity|done].
  - rewrite Ea. unfold mdesc_link_after, mdesc_next, mdesc_setnext, mdesc_setprev.
    rewrite Hde. cbn [fmap res_fmap]. rewrite bind_Ok, Hup, bind_Ok, Hup, bind_Ok, Hde.
    cbn [fmap res_fmap _next set_next set_prev]. rewrite !bind_Ok. cbn [truth Z.eqb negb]. rewrite bind_Ok, Hup, !bind_Ok. eexists. split; [reflexivity|done].
Qed.

(** C40: on MIPOS32 an exact fit is handed out twice: the split test compares a
    32-bit difference widened without sign, so a block that fits exactly is
    "split": it stays on the free list while it is also handed out.  For every
    arena and every request that fills the one block of a new heap (after
    rounding to a multiple of 4), two successive allocations succeed with the
    same address, with nothing released in between. *)
Theorem exact_fit_handed_out_twice_on_mipos32 base n size dt :
  0 < base → base + (12 + n) < 2 ^ 32 → mapped base (12 + n) dt →
  0 < size ≤ n → n < size + 4 → n `mod` 4 = 0 →
  ∃ st0 st1 st2, mipos_mm_init 32 base (12 + n) dt = Ok st0 ∧
    mipos_mm_alloc 32 size st0 = Ok (base + 12, st1) ∧ mipos_mm_alloc 32 size st1 = Ok (base + 12, st2).
Proof.
  intros Hb He Hm Hs Hn4 Hmod. assert ((size =? 0) = false) as Es by lia. pose proof (aligned_size_32 size n Hs Hn4 Hmod ltac:(lia)) as Hal.
  assert (∀ um d dt, um = 0 ∨ um = base → mb_size d = n → ∃ d', mipos_mm_alloc 32 size (mk_mms (mk_mm (12 + n) base um) (<[base := d]> ∅) dt) =
    Ok (base + 12, mk_mms (mk_mm (12 + n) base base) (<[base := d']> ∅) dt) ∧ mb_size d' = n) as Halloc.
  { intros um d dt0 Hum Hd. destruct (exact_fit_aux base n um d (12 + n)) as (d' & Haux & Hd'); [done|lia|lia|done|done|]. exists d'. split; [|done].
    unfold mipos_mm_alloc. rewrite Es, Hal, Haux, !bind_Ok. assert ((base =? 0) = false) as -> by lia. rewrite bind_Ok.
    assert (truth base = true) as -> by (apply truth_true; lia). unfold mdesc_get_data_addr. change (sizeof_mdesc 32) with 12. by rewrite wrap_small by lia. }
  unfold mipos_mm_init. destruct (memset_spec base 0 (Z.to_nat (12 + n)) dt) as (dt' & -> & _).
  { rewrite Z2Nat.id by lia. done. }
  rewrite bind_Ok. unfold mdesc_init. replace (base =? 0) with false by lia. rewrite bind_Ok.
  change (sizeof_mdesc 32) with 12. replace (12 + n - 12) with n by lia. rewrite wrap_small by lia.
  destruct (Halloc 0 (mk_mdesc 0 0 n) dt') as (d1 & H1 & E1); [by left|done|].
  destruct (Halloc base d1 dt') as (d2 & H2 & _); [by right|done|]. eexists _, _, _. split; [reflexivity|]. split; [exact H1|exact H2].
Qed.

(** A 112-byte arena, whose one block holds 100 bytes. *)
Lemma exact_fit_handed_out_twice_on_mipos32_witness :
  ∃ st0 st1 st2, mipos_mm_init 32 1024 112 (zero_mem 1024 112) = Ok st0 ∧
    mipos_mm_alloc 32 98 st0 = Ok (1036, st1) ∧ mipos_mm_alloc 32 98 st1 = Ok (1036, st2).
Proof.
  apply (exact_fit_handed_out_twice_on_mipos32 1024 100 98 (zero_mem 1024 112));
    [lia|lia|exact (zero_mem_mapped 1024 112)|lia|lia|reflexivity].
Defined.
