(* ===== verification/Tfs.v ===== *)
(** * The tiny file system

    src/mipos/mipos_tfs.{h,c}: at most eight files on a device, their clusters
    linked through a table, the tables cached in memory and written back by
    some operations.  One client runs at a time: a lock that is already held
    is a deadlock of the model, and the yields inside the operations change
    nothing.  The device is a parameter (class [IoDevOps]); integers on the disk
    are little endian. *)

From S2P Require Import Prelude Bytes Mutex.

(** ** Constants *)

Definition mipos_tfs_STORAGE_AREA_SIZE : Z := 1024.
Definition mipos_tfs_CLUSTER_SIZE : Z := 32.
Definition mipos_tfs_CLUSTERS_COUNT : Z := mipos_tfs_STORAGE_AREA_SIZE / mipos_tfs_CLUSTER_SIZE.
Definition mipos_tfs_MAX_N_OF_FILES : Z := 8.
Definition mipos_tfs_MAX_FILENAME_LENGTH : nat := 8.
Definition mipos_tfs_MAX_VOLUME_LENGTH : nat := 8.
Definition mipos_tfs_MAX_VERSION : Z := 1.
Definition mipos_tfs_MIN_VERSION : Z := 0.
Definition mipos_tfs_OFFSET : Z := 0.

Definition mipos_tfs_FREE_CLUSTER : Z := 0xFFFF.
Definition mipos_tfs_LAST_ALLOCATED_CLUSTER : Z := 0xFFFD.
Definition mipos_tfs_RESERVED_CLUSTER : Z := 0xFFFC.
Definition mipos_tfs_EMPTY_CLUSTER : Z := 0xFFFB.
Definition mipos_tfs_INVALID_FILE_HANDLE : Z := 0xFFFF.

(** [mipos_tfs_err_code_t] *)
Definition ERR_SUCCESS : Z := 0.
Definition ERR_NO_ENOUGH_FREE_BLOCKS : Z := 1.
Definition ERR_BAD_FILENAME : Z := 2.
Definition ERR_FILENAME_ALREADY_PRESENT : Z := 3.
Definition ERR_FILE_NOT_FOUND : Z := 4.
Definition ERR_DELETE_FAILED : Z := 5.
Definition ERR_WRITE_FAILED : Z := 6.
Definition ERR_CLOSE_FAILED : Z := 7.
Definition ERR_READ_FAILED : Z := 8.
Definition ERR_READ_NOT_COMPLETED : Z := 9.
Definition ERR_SEEK_FAILED : Z := 10.

(** [mipos_tfs_seek_t]; [SEEK_BAD] is any other value. *)
Inductive mipos_tfs_seek_t := SEEK_BEGIN | SEEK_CURRENT | SEEK_END | SEEK_BAD.

Definition mipos_tfs_FILE_OPEN_READ : Z := 0.
Definition mipos_tfs_FILE_OPEN_WRITE : Z := 1.

(** ** Data *)

(** [mipos_tfs_fd_t]; characters are bytes. *)
Record mipos_tfs_fd_t := mk_fd {
  filename : list Z;
  fsize : Z;
  first_cluster : Z;
  erased : Z;
  readonly : Z;
}.

Definition set_filename (v : list Z) (f : mipos_tfs_fd_t) : mipos_tfs_fd_t :=
  mk_fd v (fsize f) (first_cluster f) (erased f) (readonly f).
Definition set_fsize (v : Z) (f : mipos_tfs_fd_t) : mipos_tfs_fd_t :=
  mk_fd (filename f) v (first_cluster f) (erased f) (readonly f).
Definition set_first_cluster (v : Z) (f : mipos_tfs_fd_t) : mipos_tfs_fd_t :=
  mk_fd (filename f) (fsize f) v (erased f) (readonly f).

(** [mipos_tfs_ctl_t] *)
Record mipos_tfs_ctl_t := mk_ctl {
  seek_pointer : Z;
  eof_while_read : Z;
  open : Z;
  locked : Z;
  file_open_mode : Z;
}.

Definition set_seek_pointer (v : Z) (c : mipos_tfs_ctl_t) : mipos_tfs_ctl_t :=
  mk_ctl v (eof_while_read c) (open c) (locked c) (file_open_mode c).
Definition set_eof_while_read (v : Z) (c : mipos_tfs_ctl_t) : mipos_tfs_ctl_t :=
  mk_ctl (seek_pointer c) v (open c) (locked c) (file_open_mode c).
Definition set_open (v : Z) (c : mipos_tfs_ctl_t) : mipos_tfs_ctl_t :=
  mk_ctl (seek_pointer c) (eof_while_read c) v (locked c) (file_open_mode c).
Definition set_locked (v : Z) (c : mipos_tfs_ctl_t) : mipos_tfs_ctl_t :=
  mk_ctl (seek_pointer c) (eof_while_read c) (open c) v (file_open_mode c).
Definition set_file_open_mode (v : Z) (c : mipos_tfs_ctl_t) : mipos_tfs_ctl_t :=
  mk_ctl (seek_pointer c) (eof_while_read c) (open c) (locked c) v.

(** [mipos_tfs_ftbl_t]; [ftbl_pad] are the two bytes before the descriptors. *)
Record mipos_tfs_ftbl_t := mk_ftbl {
  volume_description : list Z;
  maj_version : Z;
  min_version : Z;
  ftbl_pad : list Z;
  file_fs_desc : list mipos_tfs_fd_t;
  cluster_tbl : list Z;
}.

Definition set_file_fs_desc (v : list mipos_tfs_fd_t) (t : mipos_tfs_ftbl_t) : mipos_tfs_ftbl_t :=
  mk_ftbl (volume_description t) (maj_version t) (min_version t) (ftbl_pad t) v (cluster_tbl t).
Definition set_cluster_tbl (v : list Z) (t : mipos_tfs_ftbl_t) : mipos_tfs_ftbl_t :=
  mk_ftbl (volume_description t) (maj_version t) (min_version t) (ftbl_pad t) (file_fs_desc t) v.

(** [mipos_tfs_t] with the device state and the static error variable. *)
Record mipos_tfs_t (D : Type) := mk_tfs {
  file_ctl : list mipos_tfs_ctl_t;
  ftbl : mipos_tfs_ftbl_t;
  fs_lock : mipos_mtx_t;
  dev : D;
  mipos_tfs_last_error_code_t : Z;
}.
Arguments mk_tfs {D} _ _ _ _ _.
Arguments file_ctl {D} _.
Arguments ftbl {D} _.
Arguments fs_lock {D} _.
Arguments dev {D} _.
Arguments mipos_tfs_last_error_code_t {D} _.

(** ** The image of the tables on the device *)

Definition encode_fd (f : mipos_tfs_fd_t) : list Z :=
  filename f ++ le_bytes 4 (fsize f) ++ le_bytes 2 (first_cluster f) ++ [erased f; readonly f].

Definition decode_fd (l : list Z) : mipos_tfs_fd_t :=
  mk_fd (bytes_at 0 8 l) (le_value (bytes_at 8 4 l)) (le_value (bytes_at 12 2 l))
    (le_value (bytes_at 14 1 l)) (le_value (bytes_at 15 1 l)).

Definition encode_ftbl (t : mipos_tfs_ftbl_t) : list Z :=
  volume_description t ++ [maj_version t; min_version t] ++ ftbl_pad t ++
  mjoin (encode_fd <$> file_fs_desc t) ++ mjoin (le_bytes 2 <$> cluster_tbl t).

(** [k] records of [n] bytes from offset [off] on. *)
Definition decode_array {A} (dec : list Z → A) (n off k : nat) (l : list Z) : list A :=
  (λ i, dec (bytes_at (off + n * i) n l)) <$> seq 0 k.

Definition decode_ftbl (l : list Z) : mipos_tfs_ftbl_t :=
  mk_ftbl (bytes_at 0 8 l) (le_value (bytes_at 8 1 l)) (le_value (bytes_at 9 1 l))
    (bytes_at 10 2 l) (decode_array decode_fd 16 12 8 l) (decode_array le_value 2 140 32 l).

Definition sizeof_ftbl : Z := 204.

(** Where the clusters start. *)
Definition mipos_tfs_SIZE : Z :=
  (sizeof_ftbl / mipos_tfs_CLUSTER_SIZE + 1) * mipos_tfs_CLUSTER_SIZE * 2.

(** ** File names *)

(** Characters of file names. *)
Definition filename_char (c : Z) : bool :=
  ((48 <=? c) && (c <=? 57)) || ((65 <=? c) && (c <=? 90)) || ((97 <=? c) && (c <=? 122)) ||
  (c =? 95) || (c =? 45) || (c =? 46).

Definition mipos_tfs_check_file_name (name : list Z) : bool :=
  if Nat.leb mipos_tfs_MAX_FILENAME_LENGTH (length name) then false
  else forallb filename_char name.

(** ** The device *)

(** [mipos_io_dev_t]: both functions return a result code, 0 for success. *)
Class IoDevOps (D : Type) := {
  io_write : list Z → Z → D → res (Z * D);
  io_read : Z → Z → D → res (Z * list Z);
}.

(** ** Operations *)

(** State and faults. *)
Definition tfsM (D A : Type) : Type := mipos_tfs_t D → res (A * mipos_tfs_t D).

Section tfs.
Context {D : Type} `{IoDevOps D}.

#[local] Abbreviation T := (tfsM D).

#[global] Instance tfs_ret : MRet T := λ A a s, Ok (a, s).
#[global] Instance tfs_bind : MBind T := λ A B f m s,
  '(a, s) ← m s; f a s.

Definition tfault {A} (f : fault) : T A := λ s, Fault f.
Definition lift {A} (r : res A) : T A := λ s, a ← r; Ok (a, s).
Definition gets {A} (f : mipos_tfs_t D → A) : T A := λ s, Ok (f s, s).

Definition set_error (e : Z) : T unit := λ s,
  Ok (tt, mk_tfs (file_ctl s) (ftbl s) (fs_lock s) (dev s) e).
Definition set_ftbl (t : mipos_tfs_ftbl_t) : T unit := λ s,
  Ok (tt, mk_tfs (file_ctl s) t (fs_lock s) (dev s) (mipos_tfs_last_error_code_t s)).
Definition set_lock (m : mipos_mtx_t) : T unit := λ s,
  Ok (tt, mk_tfs (file_ctl s) (ftbl s) m (dev s) (mipos_tfs_last_error_code_t s)).
Definition set_ctls (l : list mipos_tfs_ctl_t) : T unit := λ s,
  Ok (tt, mk_tfs l (ftbl s) (fs_lock s) (dev s) (mipos_tfs_last_error_code_t s)).

(** [file_fs_desc[h]] and [file_ctl[h]], read and written. *)
Definition fd_at (h : Z) : T mipos_tfs_fd_t :=
  s ← gets id; lift (of_lookup (file_fs_desc (ftbl s) !! Z.to_nat h)).
Definition ctl_at (h : Z) : T mipos_tfs_ctl_t :=
  s ← gets id; lift (of_lookup (file_ctl s !! Z.to_nat h)).
Definition upd_fd (h : Z) (f : mipos_tfs_fd_t → mipos_tfs_fd_t) : T unit :=
  _ ← fd_at h; t ← gets ftbl;
  set_ftbl (set_file_fs_desc (alter f (Z.to_nat h) (file_fs_desc t)) t).
Definition upd_ctl (h : Z) (f : mipos_tfs_ctl_t → mipos_tfs_ctl_t) : T unit :=
  _ ← ctl_at h; l ← gets file_ctl; set_ctls (alter f (Z.to_nat h) l).

(** A call of the device's write function, [io_dev.io_write(bytes, off)]. *)
Definition dev_write (bytes : list Z) (off : Z) : T Z := λ s,
  '(r, d) ← io_write bytes off (dev s);
  Ok (r, mk_tfs (file_ctl s) (ftbl s) (fs_lock s) d (mipos_tfs_last_error_code_t s)).

Definition mipos_tfs_lock_access : T unit :=
  m ← gets fs_lock;
  let '(got, m) := mu_lock_try m in
  if (got : bool) then set_lock m else tfault Deadlock.

Definition mipos_tfs_unlock_access : T unit :=
  m ← gets fs_lock; set_lock (mipos_mu_unlock m).

(** [mipos_tfs_lock_access(fs); body; mipos_tfs_unlock_access(fs);] *)
Definition locked_do {A} (body : T A) : T A :=
  _ ← mipos_tfs_lock_access; a ← body; _ ← mipos_tfs_unlock_access; mret a.

Definition mipos_update_fs_on_disk : T Z :=
  t ← gets ftbl; dev_write (encode_ftbl t) mipos_tfs_OFFSET.

Definition mipos_tfs_get_cluster_val (current : Z) : T Z :=
  locked_do (t ← gets ftbl; lift (of_lookup (cluster_tbl t !! Z.to_nat current))).

Definition set_cluster_val (current cluster_value : Z) : T unit :=
  locked_do (
    t ← gets ftbl;
    _ ← lift (of_lookup (cluster_tbl t !! Z.to_nat current));
    set_ftbl (set_cluster_tbl (<[Z.to_nat current := cluster_value]> (cluster_tbl t)) t)).

(** The first free cluster at or after [i], of the [n] left to look at. *)
Fixpoint find_free_cluster (n i : nat) (tbl : list Z) : option nat :=
  match n with
  | O => None
  | S n =>
      match tbl !! i with
      | Some v => if v =? mipos_tfs_FREE_CLUSTER then Some i else find_free_cluster n (S i) tbl
      | None => None
      end
  end.

Definition reserve_cluster : T (option Z) :=
  locked_do (
    t ← gets ftbl;
    match find_free_cluster (Z.to_nat mipos_tfs_CLUSTERS_COUNT) 0 (cluster_tbl t) with
    | Some i =>
        _ ← set_ftbl (set_cluster_tbl (<[i := mipos_tfs_RESERVED_CLUSTER]> (cluster_tbl t)) t);
        mret (Some (Z.of_nat i))
    | None => mret None
    end).

Definition get_next_cluster (current : Z) : T (option Z) :=
  if mipos_tfs_CLUSTERS_COUNT <=? current then mret None else
  v ← mipos_tfs_get_cluster_val current;
  if mipos_tfs_CLUSTERS_COUNT <=? v then mret None else mret (Some v).

Definition link_cluster (current link_to : Z) : T bool :=
  if (mipos_tfs_CLUSTERS_COUNT <=? current) || (mipos_tfs_CLUSTERS_COUNT <=? link_to)
  then mret false
  else _ ← set_cluster_val current link_to; mret true.

Definition mark_cluster_last (cluster : Z) : T unit :=
  set_cluster_val cluster mipos_tfs_LAST_ALLOCATED_CLUSTER.
Definition mark_cluster_free (cluster : Z) : T unit :=
  set_cluster_val cluster mipos_tfs_FREE_CLUSTER.
Definition mark_cluster_reserved (cluster : Z) : T unit :=
  set_cluster_val cluster mipos_tfs_RESERVED_CLUSTER.

(** The loop of [get_cluster_seek_pt]: the cluster reached and the counter. *)
Fixpoint seek_pt_loop (fuel : nat) (next counter num : Z) : T (Z * Z) :=
  match fuel with
  | O => tfault OutOfFuel
  | S fuel =>
      let current := next in
      if counter =? num then mret (current, counter) else
      nx ← get_next_cluster current;
      match nx with
      | Some next => seek_pt_loop fuel next (u16 (counter + 1)) num
      | None => mret (current, u16 (counter + 1))
      end
  end.

Definition get_cluster_seek_pt (fd : mipos_tfs_fd_t) (ctl : mipos_tfs_ctl_t) : T (bool * Z) :=
  let clusters_num := u16 (seek_pointer ctl / mipos_tfs_CLUSTER_SIZE) in
  '(cluster, counter) ← seek_pt_loop (S (Z.to_nat clusters_num)) (first_cluster fd) 0 clusters_num;
  mret (counter =? clusters_num, cluster).

(** Device offset of a byte of a cluster. *)
Definition cluster_addr (cluster offset : Z) : Z :=
  u32 (cluster * mipos_tfs_CLUSTER_SIZE + offset + mipos_tfs_SIZE + mipos_tfs_OFFSET).

(** Returns the device's code and the number of bytes written. *)
Definition write_cluster (cluster cluster_offset : Z) (source : list Z) (wbytes : Z)
    : T (Z * Z) :=
  locked_do (
    let offset := cluster_offset `mod` mipos_tfs_CLUSTER_SIZE in
    let left_cluster_size := mipos_tfs_CLUSTER_SIZE - offset in
    let bytes_written := if wbytes <? left_cluster_size then wbytes else left_cluster_size in
    if truth bytes_written then
      if Z.of_nat (length source) <? bytes_written then tfault OutOfBounds else
      ret ← dev_write (take (Z.to_nat bytes_written) source) (cluster_addr cluster offset);
      mret (ret, bytes_written)
    else mret (0, bytes_written)).

(** Returns the device's code and the bytes read. *)
Definition read_cluster (cluster cluster_offset rbytes : Z) : T (Z * list Z) :=
  locked_do (
    let offset := cluster_offset `mod` mipos_tfs_CLUSTER_SIZE in
    let left_cluster_size := mipos_tfs_CLUSTER_SIZE - offset in
    let bytes_read := if rbytes <? left_cluster_size then rbytes else left_cluster_size in
    if truth bytes_read then
      d ← gets dev;
      lift (io_read bytes_read (cluster_addr cluster offset) d)
    else mret (0, [])).

Definition mipos_tfs_get_last_error : T Z := gets mipos_tfs_last_error_code_t.

Definition zero_ctl : mipos_tfs_ctl_t := mk_ctl 0 0 0 0 0.
Definition zero_fd : mipos_tfs_fd_t := mk_fd (replicate 8 0) 0 0 0 0.

Definition mipos_tfs_setup : T bool :=
  d ← gets dev;
  '(r, bytes) ← lift (io_read sizeof_ftbl mipos_tfs_OFFSET d);
  _ ← set_ftbl (decode_ftbl bytes);
  if r <? 0 then mret false else
  _ ← set_ctls (replicate (Z.to_nat mipos_tfs_MAX_N_OF_FILES) zero_ctl);
  _ ← mipos_update_fs_on_disk;
  m ← gets fs_lock;
  _ ← set_lock (mipos_mu_init m);
  mret true.

(** The label, copied with its terminator to a buffer of [cap] bytes; an
    unterminated label runs on into the rest of the table. *)
Definition mipos_tfs_get_label (cap : Z) : T (list Z) :=
  locked_do (
    t ← gets ftbl;
    s ← lift (cstr (encode_ftbl t));
    if cap <? Z.of_nat (length s) + 1 then tfault OutOfBounds else mret s).

Definition mipos_tfs_lock_file (h : Z) : T bool :=
  if mipos_tfs_MAX_N_OF_FILES <=? h then mret false else
  c ← ctl_at h;
  if locked c =? 0 then _ ← upd_ctl h (set_locked 1); mret true else mret false.

Definition mipos_tfs_unlock_file (h : Z) : T bool :=
  if mipos_tfs_MAX_N_OF_FILES <=? h then mret false else
  c ← ctl_at h;
  if truth (locked c) then _ ← upd_ctl h (set_locked 0); mret true else mret false.

Definition mipos_tfs_get_ctl (h : Z) : T (option mipos_tfs_ctl_t) :=
  if mipos_tfs_MAX_N_OF_FILES <=? h then mret None else
  c ← locked_do (ctl_at h); mret (Some c).

(** The descriptor, and whether the file exists. *)
Definition mipos_tfs_get_fd (h : Z) : T (option mipos_tfs_fd_t * bool) :=
  if mipos_tfs_MAX_N_OF_FILES <=? h then mret (None, false) else
  f ← locked_do (fd_at h); mret (Some f, erased f =? 0).

Definition mipos_tfs_seek_file (code : mipos_tfs_seek_t) (seekpos h : Z) : T bool :=
  ok ← mipos_tfs_lock_file h;
  if negb ok then _ ← set_error ERR_SEEK_FAILED; mret false else
  size ← locked_do (f ← fd_at h; mret (fsize f));
  match code with
  | SEEK_BEGIN =>
      _ ← mipos_tfs_lock_access;
      if (0 <? seekpos) && (seekpos <? size) then
        _ ← upd_ctl h (set_seek_pointer seekpos);
        _ ← mipos_tfs_unlock_access;
        _ ← mipos_tfs_unlock_file h;
        mret true
      else
        _ ← set_error ERR_SEEK_FAILED;
        _ ← mipos_tfs_unlock_file h;
        _ ← mipos_tfs_unlock_access;
        mret false
  | SEEK_CURRENT =>
      _ ← locked_do (upd_ctl h (λ c, set_seek_pointer (u32 (seek_pointer c + seekpos)) c));
      _ ← mipos_tfs_unlock_file h;
      mret true
  | SEEK_END =>
      _ ← locked_do (f ← fd_at h; upd_ctl h (set_seek_pointer (u32 (fsize f + seekpos))));
      _ ← mipos_tfs_unlock_file h;
      mret true
  | SEEK_BAD =>
      _ ← set_error ERR_SEEK_FAILED;
      _ ← mipos_tfs_unlock_file h;
      mret false
  end.

(** The loop of [mipos_tfs_read_file]: success, and the bytes delivered. *)
Fixpoint read_loop (fuel : nat) (h cluster cluster_offset bytes_to_read tmp_rbytes : Z)
    (buf : list Z) : T (bool * list Z) :=
  match fuel with
  | O => tfault OutOfFuel
  | S fuel =>
      '(_, bytes) ← read_cluster cluster cluster_offset tmp_rbytes;
      let tmp_rbytes := Z.of_nat (length bytes) in
      if tmp_rbytes =? 0 then _ ← set_error ERR_READ_NOT_COMPLETED; mret (false, buf) else
      let buf := buf ++ bytes in
      let bytes_read := Z.of_nat (length buf) in
      _ ← locked_do (upd_ctl h (λ c, set_seek_pointer (u32 (seek_pointer c + tmp_rbytes)) c));
      if bytes_to_read <=? bytes_read then mret (true, buf) else
      nx ← get_next_cluster cluster;
      match nx with
      | None => _ ← set_error ERR_READ_NOT_COMPLETED; mret (false, buf)
      | Some next =>
          read_loop fuel h next 0 bytes_to_read (bytes_to_read - bytes_read) buf
      end
  end.

(** Iterations that transfer [n] bytes: a partial first cluster, then whole ones. *)
Definition loop_fuel (n : Z) : nat := Z.to_nat (n / mipos_tfs_CLUSTER_SIZE) + 2.

(** [*rbytes] and the return value; [None] where [*rbytes] is left alone. *)
Definition rd_exception (h : Z) : T (bool * option (list Z)) :=
  _ ← set_error ERR_READ_FAILED;
  _ ← mipos_tfs_unlock_file h;
  mret (false, None).

Definition mipos_tfs_read_file (rbytes h : Z) : T (bool * option (list Z)) :=
  ok ← mipos_tfs_lock_file h;
  if negb ok then rd_exception h else
  '(fd, _) ← mipos_tfs_get_fd h;
  ctl ← mipos_tfs_get_ctl h;
  match fd, ctl with
  | Some fd, Some ctl =>
      if (open ctl =? 0) || (fsize fd <=? seek_pointer ctl) then rd_exception h else
      '(ok, cluster) ← get_cluster_seek_pt fd ctl;
      if negb ok then rd_exception h else
      let cluster_offset := seek_pointer ctl `mod` mipos_tfs_CLUSTER_SIZE in
      let past := fsize fd <? u32 (rbytes + seek_pointer ctl) in
      _ ← (if past then locked_do (upd_ctl h (set_eof_while_read 1)) else mret tt);
      let bytes_to_read := if past then fsize fd - seek_pointer ctl else rbytes in
      '(ret_val, buf) ←
        read_loop (loop_fuel bytes_to_read) h cluster cluster_offset bytes_to_read
          bytes_to_read [];
      _ ← mipos_tfs_unlock_file h;
      mret (ret_val, Some buf)
  | _, _ => rd_exception h
  end.

Definition wr_exception (h : Z) : T (bool * option Z) :=
  _ ← set_error ERR_WRITE_FAILED;
  _ ← mipos_tfs_unlock_file h;
  mret (false, Some 0).

(** After a cluster was written and bytes are left (lines 709-736): the
    cluster to continue with, or none. *)
Definition write_advance (h cluster : Z) (end_loop : bool) : T (option Z) :=
  ctl ← ctl_at h;
  fd ← fd_at h;
  '(end_loop, next) ←
    (if fsize fd <? seek_pointer ctl then
       (* size += bytes_written, which is still 0 *)
       _ ← upd_fd h (λ f, set_fsize (u32 (fsize f + 0)) f);
       r ← reserve_cluster;
       match r with
       | Some c => mret (end_loop, c)
       | None => _ ← mark_cluster_last cluster; mret (true, cluster)
       end
     else
       r ← get_next_cluster cluster;
       match r with
       | Some c => mret (end_loop, c)
       | None => _ ← mark_cluster_last cluster; mret (true, cluster)
       end);
  if (end_loop : bool) then mret None
  else _ ← link_cluster cluster next; mret (Some next).

(** The loop of [mipos_tfs_write_file]: the last device code and the bytes
    not written. *)
Fixpoint write_loop (fuel : nat) (h cluster cluster_offset : Z) (source : list Z)
    (tot_wbytes : Z) : T (Z * Z) :=
  match fuel with
  | O => tfault OutOfFuel
  | S fuel =>
      '(ret, tmp_wbytes) ← write_cluster cluster cluster_offset source tot_wbytes;
      let end_loop := truth ret in
      let tot_wbytes := tot_wbytes - tmp_wbytes in
      _ ← locked_do (upd_ctl h (λ c, set_seek_pointer (u32 (seek_pointer c + tmp_wbytes)) c));
      if tot_wbytes =? 0 then
        ctl ← ctl_at h;
        fd ← fd_at h;
        _ ← (if fsize fd <? seek_pointer ctl then
               _ ← upd_fd h (set_fsize (seek_pointer ctl));
               mark_cluster_last cluster
             else mret tt);
        mret (ret, tot_wbytes)
      else
        next ← write_advance h cluster end_loop;
        match next with
        | None => mret (ret, tot_wbytes)
        | Some next =>
            write_loop fuel h next 0 (drop (Z.to_nat tmp_wbytes) source) tot_wbytes
        end
  end.

(** The cluster the writing starts in (lines 642-669). *)
Definition write_first_cluster (fd : mipos_tfs_fd_t) (ctl : mipos_tfs_ctl_t)
    : T (option Z) :=
  let cluster_offset := seek_pointer ctl `mod` mipos_tfs_CLUSTER_SIZE in
  if (seek_pointer ctl =? fsize fd) && (cluster_offset =? 0) then
    if 0 <? seek_pointer ctl then
      '(ok, cluster) ← get_cluster_seek_pt fd ctl;
      if negb ok then mret None else
      r ← reserve_cluster;
      match r with
      | None => mret None
      | Some c => ok ← link_cluster cluster c; mret (if (ok : bool) then Some c else None)
      end
    else reserve_cluster
  else
    '(ok, cluster) ← get_cluster_seek_pt fd ctl;
    mret (if (ok : bool) then Some cluster else None).

(** The return value and the new [*wbytes], [None] where it is left alone. *)
Definition mipos_tfs_write_file (source : list Z) (wbytes h : Z) : T (bool * option Z) :=
  ok ← mipos_tfs_lock_file h;
  if negb ok then wr_exception h else
  '(fd, _) ← mipos_tfs_get_fd h;
  ctl ← mipos_tfs_get_ctl h;
  match fd, ctl with
  | Some fd, Some ctl =>
      if truth (readonly fd) || negb (file_open_mode ctl =? mipos_tfs_FILE_OPEN_WRITE) ||
         (open ctl =? 0) then wr_exception h else
      if fsize fd <? seek_pointer ctl then wr_exception h else
      let cluster_offset := seek_pointer ctl `mod` mipos_tfs_CLUSTER_SIZE in
      first ← write_first_cluster fd ctl;
      match first with
      | None => wr_exception h
      | Some first =>
          '(ret, tot_wbytes) ←
            write_loop (loop_fuel wbytes) h first cluster_offset source wbytes;
          if ret =? 0 then
            _ ← locked_do (
              f ← fd_at h;
              if mipos_tfs_CLUSTERS_COUNT <=? first_cluster f
              then upd_fd h (set_first_cluster first) else mret tt);
            _ ← mipos_tfs_unlock_file h;
            mret (tot_wbytes =? 0, Some (wbytes - tot_wbytes))
          else
            _ ← mipos_tfs_unlock_file h;
            mret (false, None)
      end
  | _, _ => wr_exception h
  end.

(** The loop of [mipos_tfs_mkfs] over the clusters. *)
Fixpoint format_loop (n j : nat) : T Z :=
  match n with
  | O => mret 0
  | S n =>
      t ← gets ftbl;
      _ ← set_ftbl (set_cluster_tbl (<[j := mipos_tfs_FREE_CLUSTER]> (cluster_tbl t)) t);
      ret ← dev_write (replicate (Z.to_nat mipos_tfs_CLUSTER_SIZE) 0)
              (Z.of_nat j * mipos_tfs_CLUSTER_SIZE + mipos_tfs_OFFSET);
      if truth ret then mret ret else format_loop n (S j)
  end.

Definition mipos_tfs_mkfs (volume : option (list Z)) : T bool :=
  ret ← locked_do (
    t ← gets ftbl;
    label ← (match volume with
             | Some v => lift (strncpy (volume_description t) v mipos_tfs_MAX_VOLUME_LENGTH)
             | None => mret (replicate 8 0)
             end);
    _ ← set_ftbl (mk_ftbl label mipos_tfs_MAX_VERSION mipos_tfs_MIN_VERSION (ftbl_pad t)
           (replicate (Z.to_nat mipos_tfs_MAX_N_OF_FILES)
              (mk_fd (replicate 8 0) 0 0 1 0)) (cluster_tbl t));
    _ ← set_ctls (replicate (Z.to_nat mipos_tfs_MAX_N_OF_FILES) zero_ctl);
    format_loop (Z.to_nat mipos_tfs_CLUSTERS_COUNT) 0);
  ret ← (if ret =? 0 then mipos_update_fs_on_disk else mret ret);
  mret (ret =? 0).

(** Position of the first ['*'], or the length. *)
Fixpoint jolly_pos (name : list Z) : nat :=
  match name with
  | [] => 0
  | c :: name => if c =? 42 then 0%nat else S (jolly_pos name)
  end.

(** The loop of [mipos_tfs_ffirst] over the descriptors. *)
Fixpoint ffirst_loop (n : nat) (i : nat) (jolly : nat) (tmp : list Z) : T (option Z) :=
  match n with
  | O => mret None
  | S n =>
      e ← locked_do (f ← fd_at (Z.of_nat i); mret (erased f));
      if truth e then ffirst_loop n (S i) jolly tmp else
      desc ← locked_do (f ← fd_at (Z.of_nat i);
                        lift (strncpy (replicate 8 0) (filename f) jolly));
      desc ← lift (cstr desc);
      if decide (desc = tmp) then mret (Some (Z.of_nat i))
      else ffirst_loop n (S i) jolly tmp
  end.

Definition mipos_tfs_ffirst (name : option (list Z)) : T (option Z) :=
  match name with
  | None => _ ← set_error ERR_BAD_FILENAME; mret None
  | Some name =>
      let jolly := jolly_pos name in
      tmp ← lift (strncpy (replicate 8 0) name jolly);
      tmp ← lift (cstr tmp);
      if mipos_tfs_check_file_name tmp
      then ffirst_loop (Z.to_nat mipos_tfs_MAX_N_OF_FILES) 0 jolly tmp
      else _ ← set_error ERR_BAD_FILENAME; mret None
  end.

(** The loop of [mipos_tfs_fnext]: the handle found, or none. *)
Fixpoint fnext_loop (n : nat) (i : Z) : T (option Z) :=
  match n with
  | O => mret None
  | S n =>
      if i <? mipos_tfs_MAX_N_OF_FILES then
        e ← locked_do (f ← fd_at i; mret (erased f));
        if truth e then fnext_loop n (i + 1) else mret (Some i)
      else mret None
  end.

(** Whether a file was found, and the new [*file_handle]. *)
Definition mipos_tfs_fnext (h : Z) : T (bool * Z) :=
  let i := u16 (h + 1) in
  r ← fnext_loop (Z.to_nat mipos_tfs_MAX_N_OF_FILES) i;
  match r with
  | Some j => mret (true, j)
  | None => mret (false, i)
  end.

Definition mipos_tfs_fexist (name : list Z) : T bool :=
  r ← mipos_tfs_ffirst (Some name);
  mret (match r with Some _ => true | None => false end).

Definition mipos_tfs_get_fsize (name : list Z) : T (option Z) :=
  r ← mipos_tfs_ffirst (Some name);
  match r with
  | None => mret None
  | Some h =>
      '(f, ok) ← mipos_tfs_get_fd h;
      match f with
      | Some f => mret (if (ok : bool) then Some (fsize f) else None)
      | None => mret None
      end
  end.

(** [&ftbl.file_fs_desc->filename[handle]]: eight bytes of the first
    descriptor, from byte [handle] on. *)
Definition mipos_tfs_rename_file (name new_name : list Z) : T bool :=
  r ← mipos_tfs_ffirst (Some name);
  match r with
  | Some h =>
      if mipos_tfs_check_file_name new_name then
        _ ← locked_do (
          f0 ← fd_at 0;
          let img := encode_fd f0 in
          field ← lift (strncpy (bytes_at (Z.to_nat h) 8 img) new_name
                          mipos_tfs_MAX_FILENAME_LENGTH);
          upd_fd 0 (λ _, decode_fd (take (Z.to_nat h) img ++ field ++ drop (Z.to_nat h + 8) img)));
        ret ← mipos_update_fs_on_disk;
        mret (ret =? 0)
      else _ ← set_error ERR_BAD_FILENAME; mret false
  | None => _ ← set_error ERR_BAD_FILENAME; mret false
  end.

(** The loop of [mipos_tfs_open_file]. *)
Fixpoint open_loop (n i : nat) (name : list Z) (mode : Z) : T (option Z) :=
  match n with
  | O => mret None
  | S n =>
      let h := Z.of_nat i in
      f ← locked_do (fd_at h);
      if truth (erased f) then open_loop n (S i) name mode else
      '(tmp, c) ← locked_do (
        f ← fd_at h; tmp ← lift (cstr (filename f)); c ← ctl_at h; mret (tmp, c));
      if decide (name = tmp) then
        if (locked c =? 0) && (open c =? 0) then
          if (mode =? mipos_tfs_FILE_OPEN_WRITE) && truth (readonly f) then mret None else
          _ ← locked_do (upd_ctl h (λ c,
            set_eof_while_read 0 (set_seek_pointer 0
              (set_file_open_mode mode (set_open 1 c)))));
          mret (Some h)
        else open_loop n (S i) name mode
      else open_loop n (S i) name mode
  end.

(** The handle, or none: [*file_handle] is then INVALID_FILE_HANDLE. *)
Definition mipos_tfs_open_file (name : list Z) (mode : Z) : T (option Z) :=
  if mipos_tfs_check_file_name name
  then open_loop (Z.to_nat mipos_tfs_MAX_N_OF_FILES) 0 name mode
  else mret None.

(** The loop of [mipos_tfs_create_file]: the first erased descriptor. *)
Fixpoint find_erased (n i : nat) : T (option Z) :=
  match n with
  | O => mret None
  | S n =>
      e ← locked_do (f ← fd_at (Z.of_nat i); mret (erased f));
      if truth e then mret (Some (Z.of_nat i)) else find_erased n (S i)
  end.

(** The return value and [*file_handle]. *)
Definition mipos_tfs_create_file (name : list Z) : T (bool * Z) :=
  let invalid := mipos_tfs_INVALID_FILE_HANDLE in
  if negb (mipos_tfs_check_file_name name)
  then _ ← set_error ERR_BAD_FILENAME; mret (false, invalid) else
  ex ← mipos_tfs_fexist name;
  if (ex : bool) then _ ← set_error ERR_FILENAME_ALREADY_PRESENT; mret (false, invalid) else
  r ← find_erased (Z.to_nat mipos_tfs_MAX_N_OF_FILES) 0;
  match r with
  | None => _ ← set_error ERR_NO_ENOUGH_FREE_BLOCKS; mret (false, invalid)
  | Some h =>
      _ ← locked_do (
        f ← fd_at h;
        nm ← lift (strncpy (filename f) name (mipos_tfs_MAX_FILENAME_LENGTH - 1));
        _ ← upd_fd h (λ _, mk_fd nm 0 mipos_tfs_EMPTY_CLUSTER 0 0);
        upd_ctl h (λ c, set_file_open_mode mipos_tfs_FILE_OPEN_WRITE
          (set_seek_pointer 0 (set_locked 0 (set_open 1 c)))));
      ret ← mipos_update_fs_on_disk;
      mret (ret =? 0, h)
  end.

Definition mipos_tfs_close_file (h : Z) : T bool :=
  if mipos_tfs_MAX_N_OF_FILES <=? h then _ ← set_error ERR_CLOSE_FAILED; mret false else
  _ ← locked_do (upd_ctl h (λ c, set_seek_pointer 0 (set_open 0 c)));
  mret true.

(** The loop of [mipos_tfs_delete_file]: it frees each cluster after reading
    its link, so it visits no cluster twice. *)
Fixpoint free_chain (fuel : nat) (current : Z) : T unit :=
  match fuel with
  | O => tfault OutOfFuel
  | S fuel =>
      nx ← get_next_cluster current;
      _ ← (if current <? mipos_tfs_CLUSTERS_COUNT then mark_cluster_free current else mret tt);
      match nx with
      | Some next => free_chain fuel next
      | None => mret tt
      end
  end.

Definition mipos_tfs_delete_file (name : list Z) : T bool :=
  r ← mipos_tfs_ffirst (Some name);
  match r with
  | None => _ ← set_error ERR_CLOSE_FAILED; mret false
  | Some h =>
      ok ← mipos_tfs_lock_file h;
      if negb ok then _ ← set_error ERR_DELETE_FAILED; mret false else
      f ← locked_do (fd_at h);
      if truth (erased f) || truth (readonly f) then
        _ ← mipos_tfs_unlock_file h;
        _ ← set_error ERR_DELETE_FAILED;
        mret false
      else
        next ← locked_do (
          f ← fd_at h; _ ← upd_fd h (λ _, mk_fd (replicate 8 0) 0 0 1 0);
          mret (first_cluster f));
        _ ← free_chain (Z.to_nat mipos_tfs_CLUSTERS_COUNT + 2) next;
        ret ← mipos_update_fs_on_disk;
        mret (ret =? 0)
  end.
End tfs.

(** ** The RAM disk of the file-system example

    src/examples/simu/filesystem/main.c, [disk_write] and [disk_read]: copies
    into and out of a static array. *)

Definition ramdisk_size : Z := mipos_tfs_SIZE + mipos_tfs_OFFSET + mipos_tfs_STORAGE_AREA_SIZE.

Definition disk_write (srcbuf : list Z) (doffset : Z) (d : list Z) : res (Z * list Z) :=
  if (doffset <? 0) || (Z.of_nat (length d) <? doffset + Z.of_nat (length srcbuf))
  then Fault OutOfBounds
  else Ok (0, take (Z.to_nat doffset) d ++ srcbuf ++
              drop (Z.to_nat doffset + length srcbuf) d).

Definition disk_read (bsize soffset : Z) (d : list Z) : res (Z * list Z) :=
  if (soffset <? 0) || (Z.of_nat (length d) <? soffset + bsize)
  then Fault OutOfBounds
  else Ok (0, bytes_at (Z.to_nat soffset) (Z.to_nat bsize) d).

#[global] Instance ramdisk_ops : IoDevOps (list Z) := {
  io_write := disk_write;
  io_read := disk_read;
}.
