(* ===== verification/TfsInv.v ===== *)
(** * Invariant of the tiny file system, and reading

    What a device promises, the clusters of the files as disjoint chains, and
    [mipos_tfs_read_file] as a slice of the file's contents. *)

From S2P Require Import Prelude Bytes Mutex Tfs.

(** ** What the device promises *)

Class IoDev (D : Type) `{IoDevOps D} := {
  dev_len : D → Z;
  dev_get : D → Z → Z;
  io_read_ok d n off : 0 ≤ off → 0 ≤ n → off + n ≤ dev_len d →
    io_read n off d = Ok (0, dev_get d <$> seqZ off n);
  io_write_ok d bs off : 0 ≤ off → off + Z.of_nat (length bs) ≤ dev_len d →
    ∃ d', io_write bs off d = Ok (0, d') ∧ dev_len d' = dev_len d ∧
      (∀ i b, bs !! i = Some b → dev_get d' (off + Z.of_nat i) = b) ∧
      (∀ x, 0 ≤ x < off ∨ off + Z.of_nat (length bs) ≤ x → dev_get d' x = dev_get d x);
}.

(** The RAM disk is such a device. *)
Lemma ramdisk_read_ok (d : list Z) n off :
  0 ≤ off → 0 ≤ n → off + n ≤ Z.of_nat (length d) →
  disk_read n off d = Ok (0, (λ x, default 0 (d !! Z.to_nat x)) <$> seqZ off n).
Proof.
  intros Ho Hn Hl. unfold disk_read.
  replace ((off <? 0) || (Z.of_nat (length d) <? off + n)) with false
    by (symmetry; apply orb_false_iff; rewrite !Z.ltb_ge; lia).
  do 2 f_equal. unfold bytes_at. apply list_eq. intros i. rewrite list_lookup_fmap.
  destruct (decide (i < Z.to_nat n)%nat) as [Hi|Hi].
  - rewrite lookup_take_lt, lookup_drop by done. rewrite lookup_seqZ_lt by lia. simpl.
    replace (Z.to_nat (off + Z.of_nat i)) with (Z.to_nat off + i)%nat by lia.
    destruct (lookup_lt_is_Some_2 d (Z.to_nat off + i)) as [x Hx]; [lia|]. by rewrite Hx.
  - rewrite lookup_take_ge by lia. rewrite lookup_seqZ_ge by lia. done.
Qed.

Lemma ramdisk_write_ok (d bs : list Z) off :
  0 ≤ off → off + Z.of_nat (length bs) ≤ Z.of_nat (length d) →
  ∃ d', disk_write bs off d = Ok (0, d') ∧ length d' = length d ∧
    (∀ i b, bs !! i = Some b → default 0 (d' !! Z.to_nat (off + Z.of_nat i)) = b) ∧
    (∀ x, 0 ≤ x < off ∨ off + Z.of_nat (length bs) ≤ x →
       default 0 (d' !! Z.to_nat x) = default 0 (d !! Z.to_nat x)).
Proof.
  intros Ho Hl. unfold disk_write.
  replace ((off <? 0) || (Z.of_nat (length d) <? off + Z.of_nat (length bs))) with false
    by (symmetry; apply orb_false_iff; rewrite !Z.ltb_ge; lia).
  eexists. split; [reflexivity|].
  assert (length (take (Z.to_nat off) d) = Z.to_nat off) as Htk by (rewrite length_take; lia).
  split; [|split].
  - rewrite !length_app, length_drop, Htk. lia.
  - intros i b Hb. pose proof (lookup_lt_Some _ _ _ Hb).
    rewrite lookup_app_r by lia. rewrite Htk.
    replace (Z.to_nat (off + Z.of_nat i) - Z.to_nat off)%nat with i by lia.
    rewrite lookup_app_l by done. by rewrite Hb.
  - intros x Hx. destruct (decide (x < off)) as [Hlt|Hge].
    + rewrite lookup_app_l by lia. by rewrite lookup_take_lt by lia.
    + rewrite lookup_app_r by lia. rewrite Htk, lookup_app_r by lia. rewrite lookup_drop.
      do 2 f_equal. lia.
Qed.

#[global] Instance ramdisk_dev : IoDev (list Z).
Proof.
  refine {| dev_len := λ d, Z.of_nat (length d); dev_get := λ d x, default 0 (d !! Z.to_nat x) |}.
  - intros d n off. apply ramdisk_read_ok.
  - intros d bs off Ho Hl. destruct (ramdisk_write_ok d bs off Ho Hl) as (d' & H1 & H2 & H3 & H4).
    exists d'. rewrite H2. done.
Defined.

(** ** Running the operations *)

Lemma tfs_run_bind {D A B} (m : tfsM D A) (f : A → tfsM D B) s a s' :
  m s = Ok (a, s') → (m ≫= f) s = f a s'.
Proof. intros Hm. unfold mbind, tfs_bind. by rewrite Hm. Qed.

Lemma run_ret {D A} (a : A) (s : mipos_tfs_t D) : (mret a : tfsM D A) s = Ok (a, s).
Proof. done. Qed.

Lemma run_gets {D A} (f : mipos_tfs_t D → A) s : gets f s = Ok (f s, s).
Proof. done. Qed.

Lemma tfs_run_lift {D A} (r : res A) (a : A) (s : mipos_tfs_t D) : r = Ok a → lift r s = Ok (a, s).
Proof. intros ->. done. Qed.

(** The constants, as numbers. *)
Ltac tfs_consts :=
  change mipos_tfs_CLUSTERS_COUNT with 32 in *; change mipos_tfs_CLUSTER_SIZE with 32 in *;
  change mipos_tfs_SIZE with 448 in *; change mipos_tfs_STORAGE_AREA_SIZE with 1024 in *;
  change mipos_tfs_MAX_N_OF_FILES with 8 in *; change mipos_tfs_OFFSET with 0 in *.

(** Runs the first operation of a sequence with the lemma given. *)
Ltac tstep lem := erewrite tfs_run_bind by (eapply lem; eauto); cbv beta.

Section run.
Context {D : Type}.

#[local] Abbreviation st cs t d e := (mk_tfs cs t (mk_mtx MUTEX_UNLOCKED) d e).

Implicit Types (cs : list mipos_tfs_ctl_t) (t : mipos_tfs_ftbl_t) (d : D) (e h : Z).

Lemma run_locked {A} (body : tfsM D A) cs t d e a cs' t' m' d' e' :
  body (mk_tfs cs t (mk_mtx MUTEX_LOCKED) d e) = Ok (a, mk_tfs cs' t' m' d' e') →
  locked_do body (st cs t d e) = Ok (a, st cs' t' d' e').
Proof.
  intros Hb. unfold locked_do.
  assert (mipos_tfs_lock_access (st cs t d e) = Ok (tt, mk_tfs cs t (mk_mtx MUTEX_LOCKED) d e))
    as Hl by done.
  rewrite (tfs_run_bind _ _ _ _ _ Hl). rewrite (tfs_run_bind _ _ _ _ _ Hb). done.
Qed.

Lemma run_set_ftbl cs t m d e t' : set_ftbl t' (mk_tfs cs t m d e) = Ok (tt, mk_tfs cs t' m d e).
Proof. done. Qed.
Lemma run_set_ctls cs t m d e cs' : set_ctls cs' (mk_tfs cs t m d e) = Ok (tt, mk_tfs cs' t m d e).
Proof. done. Qed.
Lemma run_set_lock cs t m d e m' : set_lock m' (mk_tfs cs t m d e) = Ok (tt, mk_tfs cs t m' d e).
Proof. done. Qed.
Lemma run_set_error cs t m d e e' : set_error e' (mk_tfs cs t m d e) = Ok (tt, mk_tfs cs t m d e').
Proof. done. Qed.

Lemma run_ctl_at cs t m d e h c :
  cs !! Z.to_nat h = Some c → ctl_at h (mk_tfs cs t m d e) = Ok (c, mk_tfs cs t m d e).
Proof.
  intros Hc. unfold ctl_at. rewrite (tfs_run_bind _ _ _ _ _ (run_gets _ _)). simpl (file_ctl _).
  rewrite Hc. done.
Qed.

Lemma run_fd_at cs t m d e h f :
  file_fs_desc t !! Z.to_nat h = Some f → fd_at h (mk_tfs cs t m d e) = Ok (f, mk_tfs cs t m d e).
Proof.
  intros Hc. unfold fd_at. rewrite (tfs_run_bind _ _ _ _ _ (run_gets _ _)). simpl (ftbl _).
  rewrite Hc. done.
Qed.

Lemma run_upd_ctl cs t m d e h f c :
  cs !! Z.to_nat h = Some c →
  upd_ctl h f (mk_tfs cs t m d e) = Ok (tt, mk_tfs (alter f (Z.to_nat h) cs) t m d e).
Proof. intros Hc. unfold upd_ctl. tstep @run_ctl_at. done. Qed.

Lemma run_upd_fd cs t m d e h g f :
  file_fs_desc t !! Z.to_nat h = Some f →
  upd_fd h g (mk_tfs cs t m d e) =
    Ok (tt, mk_tfs cs (set_file_fs_desc (alter g (Z.to_nat h) (file_fs_desc t)) t) m d e).
Proof. intros Hf. unfold upd_fd. tstep @run_fd_at. done. Qed.

Lemma run_locked_upd_ctl cs t d e h f c :
  cs !! Z.to_nat h = Some c →
  locked_do (upd_ctl h f) (st cs t d e) = Ok (tt, st (alter f (Z.to_nat h) cs) t d e).
Proof. intros Hc. eapply run_locked, run_upd_ctl, Hc. Qed.

Lemma run_get_cluster_val cs t d e c v :
  cluster_tbl t !! Z.to_nat c = Some v →
  mipos_tfs_get_cluster_val c (st cs t d e) = Ok (v, st cs t d e).
Proof.
  intros Hv. eapply run_locked. tstep @run_gets. apply tfs_run_lift. simpl (ftbl _).
  by rewrite Hv.
Qed.

Lemma run_set_cluster_val cs t d e c v w :
  cluster_tbl t !! Z.to_nat c = Some w →
  set_cluster_val c v (st cs t d e) =
    Ok (tt, st cs (set_cluster_tbl (<[Z.to_nat c := v]> (cluster_tbl t)) t) d e).
Proof.
  intros Hv. eapply run_locked. tstep @run_gets. simpl (ftbl _). rewrite Hv.
  tstep @tfs_run_lift. done.
Qed.

Lemma run_reserve_cluster cs t d e :
  reserve_cluster (st cs t d e) =
    match find_free_cluster (Z.to_nat mipos_tfs_CLUSTERS_COUNT) 0 (cluster_tbl t) with
    | Some i => Ok (Some (Z.of_nat i), st cs (set_cluster_tbl
                  (<[i := mipos_tfs_RESERVED_CLUSTER]> (cluster_tbl t)) t) d e)
    | None => Ok (None, st cs t d e)
    end.
Proof.
  unfold reserve_cluster.
  destruct (find_free_cluster (Z.to_nat mipos_tfs_CLUSTERS_COUNT) 0 (cluster_tbl t)) as [i|] eqn:Hf;
    eapply run_locked; tstep @run_gets; simpl (ftbl _); rewrite Hf; done.
Qed.

Lemma run_get_next_cluster cs t d e c v :
  c < mipos_tfs_CLUSTERS_COUNT → cluster_tbl t !! Z.to_nat c = Some v →
  get_next_cluster c (st cs t d e) =
    Ok (if mipos_tfs_CLUSTERS_COUNT <=? v then None else Some v, st cs t d e).
Proof.
  intros Hc Hv. unfold get_next_cluster.
  replace (mipos_tfs_CLUSTERS_COUNT <=? c) with false by (symmetry; by apply Z.leb_gt).
  tstep @run_get_cluster_val. by case_if.
Qed.

Lemma run_link_cluster cs t d e c l v :
  c < mipos_tfs_CLUSTERS_COUNT → l < mipos_tfs_CLUSTERS_COUNT →
  cluster_tbl t !! Z.to_nat c = Some v →
  link_cluster c l (st cs t d e) =
    Ok (true, st cs (set_cluster_tbl (<[Z.to_nat c := l]> (cluster_tbl t)) t) d e).
Proof.
  intros Hc Hl Hv. unfold link_cluster.
  replace ((mipos_tfs_CLUSTERS_COUNT <=? c) || (mipos_tfs_CLUSTERS_COUNT <=? l)) with false
    by (symmetry; apply orb_false_iff; rewrite !Z.leb_gt; done).
  tstep @run_set_cluster_val. done.
Qed.

Lemma handle_ok h : h < mipos_tfs_MAX_N_OF_FILES → (mipos_tfs_MAX_N_OF_FILES <=? h) = false.
Proof. apply Z.leb_gt. Qed.

Lemma run_lock_file cs t m d e h c :
  h < mipos_tfs_MAX_N_OF_FILES → cs !! Z.to_nat h = Some c → locked c = 0 →
  mipos_tfs_lock_file h (mk_tfs cs t m d e) =
    Ok (true, mk_tfs (alter (set_locked 1) (Z.to_nat h) cs) t m d e).
Proof.
  intros Hh Hc Hl. unfold mipos_tfs_lock_file. rewrite handle_ok by done.
  tstep @run_ctl_at. rewrite Hl. simpl (0 =? 0). cbv iota. tstep @run_upd_ctl. done.
Qed.

Lemma run_unlock_file cs t m d e h c :
  h < mipos_tfs_MAX_N_OF_FILES → cs !! Z.to_nat h = Some c → locked c ≠ 0 →
  mipos_tfs_unlock_file h (mk_tfs cs t m d e) =
    Ok (true, mk_tfs (alter (set_locked 0) (Z.to_nat h) cs) t m d e).
Proof.
  intros Hh Hc Hl. unfold mipos_tfs_unlock_file. rewrite handle_ok by done.
  tstep @run_ctl_at. apply truth_true in Hl as ->. tstep @run_upd_ctl. done.
Qed.

Lemma run_get_fd cs t d e h f :
  h < mipos_tfs_MAX_N_OF_FILES → file_fs_desc t !! Z.to_nat h = Some f →
  mipos_tfs_get_fd h (st cs t d e) = Ok ((Some f, erased f =? 0), st cs t d e).
Proof.
  intros Hh Hf. unfold mipos_tfs_get_fd. rewrite handle_ok by done.
  erewrite tfs_run_bind by (eapply run_locked, run_fd_at, Hf). done.
Qed.

Lemma run_get_ctl cs t d e h c :
  h < mipos_tfs_MAX_N_OF_FILES → cs !! Z.to_nat h = Some c →
  mipos_tfs_get_ctl h (st cs t d e) = Ok (Some c, st cs t d e).
Proof.
  intros Hh Hf. unfold mipos_tfs_get_ctl. rewrite handle_ok by done.
  erewrite tfs_run_bind by (eapply run_locked, run_ctl_at, Hf). done.
Qed.
End run.

(** ** Clusters on the device *)

Section clusters.
Context {D : Type} `{IoDev D}.

#[local] Abbreviation st cs t d e := (mk_tfs cs t (mk_mtx MUTEX_UNLOCKED) d e).

(** Where a byte of a cluster lies on the device. *)
Definition caddr (c off : Z) : Z := mipos_tfs_SIZE + c * mipos_tfs_CLUSTER_SIZE + off.

Lemma cluster_addr_ok c off :
  0 ≤ c < mipos_tfs_CLUSTERS_COUNT → 0 ≤ off < mipos_tfs_CLUSTER_SIZE →
  cluster_addr c off = caddr c off.
Proof.
  intros Hc Ho. unfold cluster_addr, caddr. tfs_consts. rewrite wrap_small; lia.
Qed.

(** The device is large enough. *)
Definition big_enough (d : D) : Prop :=
  mipos_tfs_SIZE + mipos_tfs_STORAGE_AREA_SIZE ≤ dev_len d.

Lemma run_read_cluster cs t d e c off n :
  big_enough d → 0 ≤ c < mipos_tfs_CLUSTERS_COUNT → 0 ≤ off < mipos_tfs_CLUSTER_SIZE → 0 < n →
  read_cluster c off n (st cs t d e) =
    Ok ((0, dev_get d <$> seqZ (caddr c off) (Z.min n (mipos_tfs_CLUSTER_SIZE - off))),
        st cs t d e).
Proof.
  intros Hb Hc Ho Hn. eapply run_locked. cbv zeta. rewrite (Z.mod_small off) by done.
  replace (if n <? mipos_tfs_CLUSTER_SIZE - off then n else mipos_tfs_CLUSTER_SIZE - off)
    with (Z.min n (mipos_tfs_CLUSTER_SIZE - off)) by (case_if; bool_to_prop; lia).
  replace (truth (Z.min n (mipos_tfs_CLUSTER_SIZE - off))) with true
    by (symmetry; apply truth_true; lia).
  tstep @run_gets. simpl (dev _). apply tfs_run_lift. rewrite cluster_addr_ok by done.
  apply io_read_ok; unfold caddr, big_enough in *; tfs_consts; lia.
Qed.

Lemma run_write_cluster cs t d e c off src n :
  big_enough d → 0 ≤ c < mipos_tfs_CLUSTERS_COUNT → 0 ≤ off < mipos_tfs_CLUSTER_SIZE →
  0 < n ≤ Z.of_nat (length src) →
  let k := Z.min n (mipos_tfs_CLUSTER_SIZE - off) in
  ∃ d', write_cluster c off src n (st cs t d e) = Ok ((0, k), st cs t d' e) ∧
    dev_len d' = dev_len d ∧
    (∀ i b, (i < Z.to_nat k)%nat → src !! i = Some b → dev_get d' (caddr c off + Z.of_nat i) = b) ∧
    (∀ x, 0 ≤ x < caddr c off ∨ caddr c off + k ≤ x → dev_get d' x = dev_get d x).
Proof.
  intros Hb Hc Ho Hn k.
  assert (length (take (Z.to_nat k) src) = Z.to_nat k) as Hlen by (rewrite length_take; lia).
  destruct (io_write_ok d (take (Z.to_nat k) src) (caddr c off)) as (d' & Hw & Hl & Hin & Hout).
  { unfold caddr. tfs_consts. lia. }
  { rewrite Hlen. unfold caddr, big_enough in *. tfs_consts. lia. }
  exists d'. split; [|split; [done|split]].
  - unfold write_cluster. eapply run_locked. cbv zeta. rewrite (Z.mod_small off) by done.
    replace (if n <? mipos_tfs_CLUSTER_SIZE - off then n else mipos_tfs_CLUSTER_SIZE - off)
      with k by (subst k; case_if; bool_to_prop; lia).
    replace (truth k) with true by (symmetry; apply truth_true; lia).
    replace (Z.of_nat (length src) <? k) with false by (symmetry; apply Z.ltb_ge; lia).
    rewrite cluster_addr_ok by done.
    assert (dev_write (take (Z.to_nat k) src) (caddr c off) (mk_tfs cs t (mk_mtx MUTEX_LOCKED) d e) =
      Ok (0, mk_tfs cs t (mk_mtx MUTEX_LOCKED) d' e)) as Hd.
    { unfold dev_write. simpl (dev _). by rewrite Hw. }
    rewrite (tfs_run_bind _ _ _ _ _ Hd). done.
  - intros i b Hi Hb'. apply Hin. by rewrite lookup_take_lt.
  - intros x Hx. apply Hout. rewrite Hlen. lia.
Qed.
End clusters.

(** ** Chains of clusters *)

(** [cl] are clusters linked through the table, the last one with an end mark. *)
Fixpoint linked (tbl cl : list Z) : Prop :=
  match cl with
  | [] => True
  | c :: rest =>
      0 ≤ c < mipos_tfs_CLUSTERS_COUNT ∧
      (∃ v, tbl !! Z.to_nat c = Some v ∧
         match rest with
         | [] => mipos_tfs_CLUSTERS_COUNT ≤ v ∧ v < mipos_tfs_FREE_CLUSTER
         | c' :: _ => v = c'
         end) ∧
      linked tbl rest
  end.

(** The chain of a file whose descriptor names [first]. *)
Definition chain_of (tbl : list Z) (first : Z) (cl : list Z) : Prop :=
  linked tbl cl ∧ match cl with [] => mipos_tfs_CLUSTERS_COUNT ≤ first | c :: _ => first = c end.

Lemma linked_elem tbl cl c : linked tbl cl → c ∈ cl → 0 ≤ c < mipos_tfs_CLUSTERS_COUNT.
Proof.
  induction cl as [|b cl IH]; [set_solver|]. intros (Hb & _ & Hr) [->|Hc]%elem_of_cons; auto.
Qed.

Lemma linked_frame tbl tbl' cl :
  (∀ c, c ∈ cl → tbl' !! Z.to_nat c = tbl !! Z.to_nat c) → linked tbl cl → linked tbl' cl.
Proof.
  induction cl as [|b cl IH]; [done|]. intros Hf (Hb & (v & Hv & Hm) & Hr).
  split; [done|]. split; [exists v; by rewrite Hf by set_solver|].
  apply IH; [|done]. intros c Hc. apply Hf. set_solver.
Qed.

Lemma linked_lookup tbl cl i c :
  linked tbl cl → cl !! i = Some c →
  ∃ v, tbl !! Z.to_nat c = Some v ∧
    match cl !! S i with
    | None => mipos_tfs_CLUSTERS_COUNT ≤ v ∧ v < mipos_tfs_FREE_CLUSTER
    | Some c' => v = c'
    end.
Proof.
  revert i. induction cl as [|b cl IH]; intros i; [done|]. intros (Hb & (v & Hv & Hm) & Hr).
  destruct i as [|i]; simpl; [|by apply IH]. intros [= ->]. exists v. split; [done|].
  by destruct cl.
Qed.

Section reading.
Context {D : Type} `{IoDev D}.

#[local] Abbreviation st cs t d e := (mk_tfs cs t (mk_mtx MUTEX_UNLOCKED) d e).

Implicit Types (cs : list mipos_tfs_ctl_t) (t : mipos_tfs_ftbl_t) (d : D).

(** Byte [i] of the file stored in the clusters [cl], and its bytes from [p] on. *)
Definition fbyte (d : D) (cl : list Z) (i : Z) : Z :=
  dev_get d (caddr (default 0 (cl !! Z.to_nat (i / mipos_tfs_CLUSTER_SIZE)))
               (i `mod` mipos_tfs_CLUSTER_SIZE)).
Definition fbytes (d : D) (cl : list Z) (p n : Z) : list Z := fbyte d cl <$> seqZ p n.

Lemma fbytes_length d cl p n : length (fbytes d cl p n) = Z.to_nat n.
Proof. unfold fbytes. by rewrite length_fmap, length_seqZ. Qed.

Lemma fbytes_app d cl p n m :
  0 ≤ n → 0 ≤ m → fbytes d cl p (n + m) = fbytes d cl p n ++ fbytes d cl (p + n) m.
Proof. intros. unfold fbytes. rewrite seqZ_app by done. by rewrite fmap_app. Qed.

(** Bytes within one cluster. *)
Lemma fbyte_in_cluster d cl c p i :
  0 ≤ p → cl !! Z.to_nat (p / mipos_tfs_CLUSTER_SIZE) = Some c → 0 ≤ i →
  p `mod` mipos_tfs_CLUSTER_SIZE + i < mipos_tfs_CLUSTER_SIZE →
  fbyte d cl (p + i) = dev_get d (caddr c (p `mod` mipos_tfs_CLUSTER_SIZE) + i).
Proof.
  intros Hp Hc Hi Hlt. unfold fbyte. tfs_consts.
  pose proof (Z.div_mod p 32 ltac:(lia)) as Hdm. pose proof (Z.mod_pos_bound p 32 ltac:(lia)).
  assert ((p + i) / 32 = p / 32) as -> by (symmetry; apply (Z.div_unique _ _ _ (p `mod` 32 + i)); lia).
  assert ((p + i) `mod` 32 = p `mod` 32 + i) as ->
    by (symmetry; apply (Z.mod_unique _ _ (p / 32)); lia).
  rewrite Hc. simpl. f_equal. unfold caddr. lia.
Qed.

Lemma fbytes_in_cluster d cl c p k :
  0 ≤ p → cl !! Z.to_nat (p / mipos_tfs_CLUSTER_SIZE) = Some c → 0 ≤ k →
  p `mod` mipos_tfs_CLUSTER_SIZE + k ≤ mipos_tfs_CLUSTER_SIZE →
  fbytes d cl p k = dev_get d <$> seqZ (caddr c (p `mod` mipos_tfs_CLUSTER_SIZE)) k.
Proof.
  intros Hp Hc Hk Hle. unfold fbytes. apply list_eq. intros i. rewrite !list_lookup_fmap.
  destruct (decide (Z.of_nat i < k)) as [Hi|Hi].
  - rewrite !lookup_seqZ_lt by done. simpl. f_equal. apply fbyte_in_cluster; [done..|lia|lia].
  - by rewrite !lookup_seqZ_ge by lia.
Qed.

(** The table walk of [get_cluster_seek_pt]. *)
Lemma run_seek_pt_loop fuel cs t d e cl j k c :
  linked (cluster_tbl t) cl → cl !! j = Some c → (j ≤ k ≤ length cl)%nat →
  Z.of_nat (length cl) ≤ mipos_tfs_CLUSTERS_COUNT → (k - j < fuel)%nat →
  ∃ c', seek_pt_loop fuel c (Z.of_nat j) (Z.of_nat k) (st cs t d e) =
      Ok ((c', Z.of_nat k), st cs t d e) ∧
    (cl !! k = Some c' ∨ (k = length cl ∧ last cl = Some c')).
Proof.
  revert j c. induction fuel as [|fuel IH]; intros j c Hl Hc Hk Hlen Hf; [lia|].
  cbn [seek_pt_loop]. destruct (Z.eqb_spec (Z.of_nat j) (Z.of_nat k)) as [Heq|Hne].
  { assert (j = k) as -> by lia. exists c. split; [done|]. by left. }
  assert (0 ≤ c < mipos_tfs_CLUSTERS_COUNT) as Hcb.
  { eapply linked_elem; [done|]. by eapply list_elem_of_lookup_2. }
  destruct (linked_lookup _ _ _ _ Hl Hc) as (v & Hv & Hm).
  erewrite tfs_run_bind by (eapply run_get_next_cluster; [lia|exact Hv]). cbv beta.
  assert (u16 (Z.of_nat j + 1) = Z.of_nat (S j)) as ->.
  { rewrite wrap_small; [lia|]. tfs_consts. lia. }
  destruct (cl !! S j) as [c'|] eqn:Hc'.
  - subst v. assert (0 ≤ c' < mipos_tfs_CLUSTERS_COUNT) as Hcb'.
    { eapply linked_elem; [done|]. by eapply list_elem_of_lookup_2. }
    replace (mipos_tfs_CLUSTERS_COUNT <=? c') with false by (symmetry; apply Z.leb_gt; lia).
    apply IH; [done..|lia|done|lia].
  - destruct Hm as [Hv32 _].
    replace (mipos_tfs_CLUSTERS_COUNT <=? v) with true by (symmetry; apply Z.leb_le; lia).
    apply lookup_ge_None in Hc'. assert (k = S j ∧ length cl = S j) as [-> Hlj] by lia.
    exists c. split; [done|]. right. split; [done|].
    rewrite last_lookup, Hlj. simpl. by replace (pred (S j)) with j by lia.
Qed.

Lemma run_get_cluster_seek_pt cs t d e fd ctl cl :
  chain_of (cluster_tbl t) (first_cluster fd) cl → cl ≠ [] →
  Z.of_nat (length cl) ≤ mipos_tfs_CLUSTERS_COUNT →
  0 ≤ seek_pointer ctl ≤ mipos_tfs_CLUSTER_SIZE * Z.of_nat (length cl) →
  ∃ c, get_cluster_seek_pt fd ctl (st cs t d e) = Ok ((true, c), st cs t d e) ∧
    (cl !! Z.to_nat (seek_pointer ctl / mipos_tfs_CLUSTER_SIZE) = Some c ∨
     (seek_pointer ctl = mipos_tfs_CLUSTER_SIZE * Z.of_nat (length cl) ∧ last cl = Some c)).
Proof.
  intros [Hl Hfirst] Hne Hlen Hsp. destruct cl as [|c0 cl0] eqn:Hcl; [done|]. rewrite <-Hcl in *.
  set (k := Z.to_nat (seek_pointer ctl / mipos_tfs_CLUSTER_SIZE)).
  tfs_consts. pose proof (Z.div_mod (seek_pointer ctl) 32 ltac:(lia)) as Hdm.
  pose proof (Z.mod_pos_bound (seek_pointer ctl) 32 ltac:(lia)).
  assert (0 ≤ seek_pointer ctl / 32) as Hk0 by (apply Z.div_pos; lia).
  assert ((k ≤ length cl)%nat) as Hk by lia.
  destruct (run_seek_pt_loop (S k) cs t d e cl 0 k c0) as (c & Hs & Hor); [done|by rewrite Hcl|lia|done|lia|].
  exists c. split.
  - unfold get_cluster_seek_pt. tfs_consts.
    assert (u16 (seek_pointer ctl / 32) = Z.of_nat k) as -> by (rewrite wrap_small; lia).
    rewrite Nat2Z.id, Hfirst. erewrite tfs_run_bind by exact Hs. cbv iota beta. by rewrite Z.eqb_refl.
  - destruct Hor as [?|[Hkl ?]]; [by left|]. right. split; [|done]. lia.
Qed.

Lemma alter_insert_eq {A} (f : A → A) (l : list A) i x :
  l !! i = Some x → alter f i l = <[i := f x]> l.
Proof.
  intros Hx. apply list_eq. intros j. destruct (decide (i = j)) as [<-|Hne].
  - rewrite list_lookup_alter, decide_True, Hx by done. simpl.
    rewrite list_lookup_insert_eq; [done|]. by eapply lookup_lt_Some.
  - by rewrite list_lookup_alter_ne, list_lookup_insert_ne by done.
Qed.

(** The reading loop delivers the bytes of the file. *)
Lemma run_read_loop fuel cs t d e h ctl cl p r c buf :
  big_enough d → linked (cluster_tbl t) cl → cs !! Z.to_nat h = Some ctl →
  0 ≤ p → 0 < r → p + r ≤ mipos_tfs_CLUSTER_SIZE * Z.of_nat (length cl) →
  cl !! Z.to_nat (p / mipos_tfs_CLUSTER_SIZE) = Some c → p = seek_pointer ctl → p + r < 2 ^ 32 →
  p `mod` mipos_tfs_CLUSTER_SIZE + r ≤ mipos_tfs_CLUSTER_SIZE * Z.of_nat fuel →
  read_loop fuel h c (p `mod` mipos_tfs_CLUSTER_SIZE) (Z.of_nat (length buf) + r) r buf
      (st cs t d e) =
    Ok ((true, buf ++ fbytes d cl p r),
        st (<[Z.to_nat h := set_seek_pointer (p + r) ctl]> cs) t d e).
Proof.
  intros Hb Hl. revert cs ctl p r c buf.
  induction fuel as [|fuel IH]; intros cs ctl p r c buf Hctl Hp Hr Hend Hc Hsp H32 Hf.
  { tfs_consts. pose proof (Z.mod_pos_bound p 32 ltac:(lia)). lia. }
  assert (0 ≤ c < mipos_tfs_CLUSTERS_COUNT) as Hcb.
  { eapply linked_elem; [done|]. by eapply list_elem_of_lookup_2. }
  set (off := p `mod` mipos_tfs_CLUSTER_SIZE) in *.
  assert (0 ≤ off < mipos_tfs_CLUSTER_SIZE) as Hoff by (apply Z.mod_pos_bound; done).
  set (k := Z.min r (mipos_tfs_CLUSTER_SIZE - off)).
  cbn [read_loop]. tstep (run_read_cluster cs t d e c off r). fold k. cbv iota beta zeta.
  assert (fbytes d cl p k = dev_get d <$> seqZ (caddr c off) k) as Hfb
    by (apply fbytes_in_cluster; [done|done|lia|fold off; lia]).
  rewrite <-Hfb.
  rewrite fbytes_length. rewrite Z2Nat.id by lia.
  replace (k =? 0) with false by (symmetry; apply Z.eqb_neq; lia).
  erewrite tfs_run_bind by (eapply run_locked_upd_ctl; exact Hctl).
  rewrite (alter_insert_eq _ _ _ _ Hctl), <-Hsp. rewrite wrap_small by lia.
  rewrite length_app, fbytes_length. rewrite Nat2Z.inj_add, Z2Nat.id by lia.
  destruct (Z.leb_spec (Z.of_nat (length buf) + r) (Z.of_nat (length buf) + k)) as [Hdone|Hmore].
  { assert (k = r) as -> by lia. done. }
  assert (k = mipos_tfs_CLUSTER_SIZE - off) as Hk by lia.
  tfs_consts. pose proof (Z.div_mod p 32 ltac:(lia)) as Hdm. fold off in Hdm.
  assert (0 ≤ p / 32) by (apply Z.div_pos; lia).
  assert ((p + k) / 32 = p / 32 + 1 ∧ (p + k) `mod` 32 = 0) as [Hdiv Hmod].
  { split; symmetry; [apply (Z.div_unique _ _ _ 0)|apply (Z.mod_unique _ _ (p / 32 + 1))]; lia. }
  destruct (lookup_lt_is_Some_2 cl (S (Z.to_nat (p / 32)))) as [c' Hc']; [lia|].
  destruct (linked_lookup _ _ _ _ Hl Hc) as (v & Hv & Hm). rewrite Hc' in Hm. subst v.
  assert (0 ≤ c' < 32) as Hcb'.
  { eapply linked_elem; [done|]. by eapply list_elem_of_lookup_2. }
  erewrite tfs_run_bind by (eapply run_get_next_cluster; [tfs_consts; lia|exact Hv]).
  tfs_consts. replace (32 <=? c') with false by (symmetry; apply Z.leb_gt; lia).
  cbv iota beta.
  set (cs' := <[Z.to_nat h := set_seek_pointer (p + k) ctl]> cs).
  assert (cs' !! Z.to_nat h = Some (set_seek_pointer (p + k) ctl)) as Hctl'.
  { apply list_lookup_insert_eq. by eapply lookup_lt_Some. }
  pose proof (IH cs' (set_seek_pointer (p + k) ctl) (p + k) (r - k) c' (buf ++ fbytes d cl p k) Hctl')
    as Hrec. rewrite Hmod in Hrec.
  rewrite length_app, fbytes_length, Nat2Z.inj_add, Z2Nat.id in Hrec by lia.
  replace (Z.of_nat (length buf) + k + (r - k)) with (Z.of_nat (length buf) + r) in Hrec by lia.
  replace (Z.of_nat (length buf) + r - (Z.of_nat (length buf) + k)) with (r - k) by lia.
  rewrite Hrec; [|lia|lia|lia| |done|lia|lia].
  - subst cs'. rewrite list_insert_insert_eq, <-app_assoc.
    replace (p + k + (r - k)) with (p + r) by lia.
    rewrite <-fbytes_app by lia. do 4 f_equal. f_equal. lia.
  - rewrite Hdiv. by replace (Z.to_nat (p / 32 + 1)) with (S (Z.to_nat (p / 32))) by lia.
Qed.
End reading.
