(* ===== verification/TfsFile.v ===== *)
(** * Reading and appending to files

    The contents of the files of a well-formed file system; reading returns a
    slice of them, appending extends one of them and leaves the others. *)

From S2P Require Import Prelude Bytes Mutex Tfs TfsInv.

Section files.
Context {D : Type} `{IoDev D}.

#[local] Abbreviation st cs t d e := (mk_tfs cs t (mk_mtx MUTEX_UNLOCKED) d e).

Implicit Types (cs : list mipos_tfs_ctl_t) (t : mipos_tfs_ftbl_t) (d : D).

(** A file's descriptor and its chain. *)
Definition file_wf (tbl : list Z) (f : mipos_tfs_fd_t) (cl : list Z) : Prop :=
  if erased f =? 0 then
    chain_of tbl (first_cluster f) cl ∧ 0 ≤ fsize f ∧
    Z.of_nat (length cl) = (fsize f + (mipos_tfs_CLUSTER_SIZE - 1)) / mipos_tfs_CLUSTER_SIZE
  else cl = [].

(** A file system whose files occupy the pairwise disjoint [chains]. *)
Record fs_wf (t : mipos_tfs_ftbl_t) (d : D) (chains : list (list Z)) : Prop := {
  fw_fds : length (file_fs_desc t) = Z.to_nat mipos_tfs_MAX_N_OF_FILES;
  fw_tbl : length (cluster_tbl t) = Z.to_nat mipos_tfs_CLUSTERS_COUNT;
  fw_dev : big_enough d;
  fw_files : Forall2 (file_wf (cluster_tbl t)) (file_fs_desc t) chains;
  fw_nodup : NoDup (mjoin chains);
}.

(** The contents of the file [f] stored in [cl]. *)
Definition contents (d : D) (f : mipos_tfs_fd_t) (cl : list Z) : list Z :=
  fbytes d cl 0 (fsize f).

Lemma contents_length d f cl : 0 ≤ fsize f → Z.of_nat (length (contents d f cl)) = fsize f.
Proof. intros. unfold contents. rewrite fbytes_length. lia. Qed.

Lemma contents_slice d f cl p n :
  0 ≤ p ≤ fsize f → 0 ≤ n →
  take (Z.to_nat n) (drop (Z.to_nat p) (contents d f cl)) = fbytes d cl p (Z.min n (fsize f - p)).
Proof.
  intros Hp Hn. unfold contents.
  replace (fsize f) with (p + (fsize f - p)) at 1 by lia. rewrite fbytes_app by lia.
  rewrite drop_app_length' by (rewrite fbytes_length; lia). rewrite Z.add_0_l.
  replace (fsize f - p) with (Z.min n (fsize f - p) + (fsize f - p - Z.min n (fsize f - p))) at 1 by lia.
  rewrite fbytes_app by lia. destruct (decide (n ≤ fsize f - p)).
  - rewrite take_app_length'; [done|]. rewrite fbytes_length. lia.
  - replace (fsize f - p - Z.min n (fsize f - p)) with 0 by lia.
    unfold fbytes at 2. simpl. rewrite app_nil_r, take_ge; [done|]. rewrite fbytes_length. lia.
Qed.

Lemma fw_file t d chains h f cl :
  fs_wf t d chains → file_fs_desc t !! h = Some f → chains !! h = Some cl →
  file_wf (cluster_tbl t) f cl.
Proof. intros Hw Hf Hc. by eapply Forall2_lookup_lr; [apply (fw_files _ _ _ Hw)|..]. Qed.

(** Distinct clusters are at most as many as the table has. *)
Lemma linked_short tbl cl :
  linked tbl cl → NoDup cl → Z.of_nat (length cl) ≤ mipos_tfs_CLUSTERS_COUNT.
Proof.
  intros Hl Hnd. assert (length (Z.to_nat <$> cl) ≤ length (seq 0 32))%nat as Hle.
  { apply submseteq_length, NoDup_submseteq.
    - assert (∀ i j a b, cl !! i = Some a → cl !! j = Some b → Z.to_nat a = Z.to_nat b → i = j) as Hinj.
      { intros i j a b Ha Hb Hab. eapply NoDup_lookup; [done..|].
        apply list_elem_of_lookup_2 in Ha as Ha', Hb as Hb'.
        apply (linked_elem _ _ _ Hl) in Ha', Hb'. assert (a = b) as -> by lia. done. }
      apply NoDup_alt. intros i j x. rewrite !list_lookup_fmap.
      destruct (cl !! i) as [a|] eqn:Ha; [|done]. destruct (cl !! j) as [b|] eqn:Hb; [|done].
      simpl. intros [= Hax] [= Hbx]. eapply Hinj; [done..|congruence].
    - intros x (c & -> & Hc)%list_elem_of_fmap. apply elem_of_seq.
      apply (linked_elem _ _ _ Hl) in Hc. tfs_consts. lia. }
  rewrite length_fmap, length_seq in Hle. tfs_consts. lia.
Qed.

Lemma chain_NoDup (chains : list (list Z)) h cl : NoDup (mjoin chains) → chains !! h = Some cl → NoDup cl.
Proof.
  intros Hnd Hc. apply list_elem_of_lookup_2, list_elem_of_split in Hc as (c1 & c2 & ->).
  rewrite join_app in Hnd. simpl in Hnd. by apply NoDup_app in Hnd as (_ & _ & [? _]%NoDup_app).
Qed.

(** ** Reading *)

Definition after_read (ctl : mipos_tfs_ctl_t) (size n : Z) : mipos_tfs_ctl_t :=
  let k := Z.min n (size - seek_pointer ctl) in
  mk_ctl (seek_pointer ctl + k)
    (if size <? n + seek_pointer ctl then 1 else eof_while_read ctl) (open ctl) 0
    (file_open_mode ctl).

Lemma run_read_file cs t d e chains h f cl ctl n :
  fs_wf t d chains → 0 ≤ h < mipos_tfs_MAX_N_OF_FILES →
  file_fs_desc t !! Z.to_nat h = Some f → chains !! Z.to_nat h = Some cl → erased f = 0 →
  cs !! Z.to_nat h = Some ctl → locked ctl = 0 → open ctl ≠ 0 →
  0 ≤ seek_pointer ctl < fsize f → 0 < n → n + seek_pointer ctl < 2 ^ 32 →
  mipos_tfs_read_file n h (st cs t d e) =
    Ok ((true, Some (take (Z.to_nat n) (drop (Z.to_nat (seek_pointer ctl)) (contents d f cl)))),
        st (<[Z.to_nat h := after_read ctl (fsize f) n]> cs) t d e).
Proof.
  intros Hw Hh Hf Hcl Her Hctl Hlk Hop Hsp Hn H32.
  pose proof (fw_file _ _ _ _ _ _ Hw Hf Hcl) as Hfw. unfold file_wf in Hfw. rewrite Her in Hfw.
  destruct Hfw as (Hch & Hsz & Hlen). pose proof Hch as [Hl _].
  assert (Z.of_nat (length cl) ≤ mipos_tfs_CLUSTERS_COUNT) as Hshort.
  { eapply linked_short; [done|]. eapply chain_NoDup; [apply Hw|done]. }
  tfs_consts. pose proof (Z.div_mod (fsize f + (32 - 1)) 32 ltac:(lia)) as Hdm.
  pose proof (Z.mod_pos_bound (fsize f + (32 - 1)) 32 ltac:(lia)) as Hmb.
  assert (cl ≠ []) as Hne by (intros ->; simpl in Hlen; lia).
  pose proof (lookup_lt_Some _ _ _ Hctl) as Hlt.
  unfold mipos_tfs_read_file. tfs_consts.
  erewrite tfs_run_bind by (eapply run_lock_file; [tfs_consts; lia|exact Hctl|done]).
  rewrite (alter_insert_eq _ _ _ _ Hctl). cbn [negb].
  set (cs1 := <[Z.to_nat h := set_locked 1 ctl]> cs).
  assert (cs1 !! Z.to_nat h = Some (set_locked 1 ctl)) as Hctl1 by by apply list_lookup_insert_eq.
  erewrite tfs_run_bind by (eapply run_get_fd; [tfs_consts; lia|exact Hf]). cbv iota beta.
  erewrite tfs_run_bind by (eapply run_get_ctl; [tfs_consts; lia|exact Hctl1]). cbv iota beta.
  change (open (set_locked 1 ctl)) with (open ctl).
  change (seek_pointer (set_locked 1 ctl)) with (seek_pointer ctl).
  replace ((open ctl =? 0) || (fsize f <=? seek_pointer ctl)) with false
    by (symmetry; apply orb_false_iff; rewrite Z.eqb_neq, Z.leb_gt; lia).
  destruct (run_get_cluster_seek_pt cs1 t d e f (set_locked 1 ctl) cl) as (c & Hs & Hor);
    [done|done|tfs_consts; lia|simpl; tfs_consts; lia|].
  erewrite tfs_run_bind by exact Hs. cbv iota beta. cbn [negb]. simpl in Hor.
  destruct Hor as [Hc|[Heq _]]; [|tfs_consts; lia]. tfs_consts.
  rewrite (wrap_small 32 (n + seek_pointer ctl)) by lia.
  set (past := fsize f <? n + seek_pointer ctl).
  set (cs2 := if past then <[Z.to_nat h := set_eof_while_read 1 (set_locked 1 ctl)]> cs1 else cs1).
  set (ctl2 := if past then set_eof_while_read 1 (set_locked 1 ctl) else set_locked 1 ctl).
  assert ((if past then locked_do (upd_ctl h (set_eof_while_read 1)) else mret ()) (st cs1 t d e) =
          Ok (tt, st cs2 t d e)) as Heof.
  { subst cs2. destruct past; [|done].
    erewrite run_locked_upd_ctl by exact Hctl1. by rewrite (alter_insert_eq _ _ _ _ Hctl1). }
  erewrite tfs_run_bind by exact Heof. cbv beta.
  assert (cs2 !! Z.to_nat h = Some ctl2) as Hctl2.
  { subst cs2 ctl2. destruct past; [|done]. apply list_lookup_insert_eq.
    subst cs1. by rewrite length_insert. }
  set (k := Z.min n (fsize f - seek_pointer ctl)).
  replace (if past then fsize f - seek_pointer ctl else n) with k
    by (subst k past; case_if; bool_to_prop; lia).
  assert (seek_pointer ctl2 = seek_pointer ctl) as Hsp2 by (subst ctl2; by destruct past).
  pose proof (Z.mod_pos_bound (seek_pointer ctl) 32 ltac:(lia)) as Hmb2.
  pose proof (Z.div_mod k 32 ltac:(lia)) as Hdk. pose proof (Z.mod_pos_bound k 32 ltac:(lia)).
  assert (0 ≤ k / 32) by (apply Z.div_pos; lia).
  pose proof (run_read_loop (loop_fuel k) cs2 t d e h ctl2 cl (seek_pointer ctl) k c []) as Hrl.
  tfs_consts. erewrite tfs_run_bind; [|eapply Hrl; try done; try lia].
  2: { apply Hw. }
  2: { unfold loop_fuel. tfs_consts. lia. }
  cbv iota beta. clear Hrl.
  erewrite tfs_run_bind; [|eapply run_unlock_file; [tfs_consts; lia|apply list_lookup_insert_eq|]].
  2: { subst cs2 cs1. destruct past; by rewrite ?length_insert. }
  2: { subst ctl2. by destruct past. }
  rewrite run_ret. rewrite contents_slice by lia. fold k.
  do 3 f_equal. erewrite alter_insert_eq; [|apply list_lookup_insert_eq].
  2: { subst cs2 cs1. destruct past; by rewrite ?length_insert. }
  rewrite list_insert_insert_eq. unfold after_read. fold past k.
  subst cs2 cs1 ctl2. clearbody past k. destruct past; by rewrite ?list_insert_insert_eq.
Qed.

(** ** Free clusters *)

Definition free_count (tbl : list Z) : nat :=
  length (filter (λ v, v = mipos_tfs_FREE_CLUSTER) tbl).

Lemma find_free_cluster_Some n i tbl j :
  find_free_cluster n i tbl = Some j →
  (i ≤ j)%nat ∧ (j < i + n)%nat ∧ tbl !! j = Some mipos_tfs_FREE_CLUSTER.
Proof.
  revert i. induction n as [|n IH]; intros i; simpl; [done|].
  destruct (tbl !! i) as [v|] eqn:Hv; [|done].
  destruct (Z.eqb_spec v mipos_tfs_FREE_CLUSTER) as [->|].
  - intros [= <-]. split_and!; [lia|lia|done].
  - intros (? & ? & ?)%IH. split_and!; [lia|lia|done].
Qed.

Lemma find_free_cluster_exists n i tbl j :
  (i ≤ j)%nat → (j < i + n)%nat → tbl !! j = Some mipos_tfs_FREE_CLUSTER →
  ∃ k, find_free_cluster n i tbl = Some k.
Proof.
  revert i. induction n as [|n IH]; intros i Hij Hj Hfree; [lia|]. simpl.
  pose proof (lookup_lt_Some _ _ _ Hfree).
  destruct (lookup_lt_is_Some_2 tbl i) as [v Hv]; [lia|]. rewrite Hv.
  destruct (Z.eqb_spec v mipos_tfs_FREE_CLUSTER); [by eexists|].
  apply IH; [|lia|done]. destruct (decide (i = j)) as [->|]; [congruence|lia].
Qed.

Lemma free_count_pos tbl :
  (0 < free_count tbl)%nat → ∃ j, tbl !! j = Some mipos_tfs_FREE_CLUSTER.
Proof.
  intros Hp. unfold free_count in Hp. destruct (filter _ tbl) as [|v l] eqn:Hf; [simpl in Hp; lia|].
  assert (v ∈ filter (λ v, v = mipos_tfs_FREE_CLUSTER) tbl) as Hin by (rewrite Hf; left).
  apply list_elem_of_filter in Hin as [-> Hin]. by apply list_elem_of_lookup_1 in Hin.
Qed.

Lemma free_count_insert tbl i v :
  tbl !! i = Some mipos_tfs_FREE_CLUSTER → v ≠ mipos_tfs_FREE_CLUSTER →
  free_count tbl = S (free_count (<[i := v]> tbl)).
Proof.
  intros Hi Hv. unfold free_count. pose proof (lookup_lt_Some _ _ _ Hi) as Hlt.
  rewrite insert_take_drop by done. rewrite <-(take_drop_middle tbl i _ Hi) at 1.
  rewrite !filter_app, !length_app, !filter_cons.
  rewrite decide_True by done. rewrite decide_False by done. simpl. lia.
Qed.

Lemma free_count_insert_same tbl i v w :
  tbl !! i = Some w → w ≠ mipos_tfs_FREE_CLUSTER → v ≠ mipos_tfs_FREE_CLUSTER →
  free_count (<[i := v]> tbl) = free_count tbl.
Proof.
  intros Hi Hw Hv. unfold free_count. pose proof (lookup_lt_Some _ _ _ Hi) as Hlt.
  rewrite insert_take_drop by done. rewrite <-(take_drop_middle tbl i _ Hi) at 3.
  rewrite !filter_app, !length_app, !filter_cons. rewrite !decide_False by done. done.
Qed.

(** Taking a free cluster. *)
Lemma run_reserve_ok cs t d e :
  length (cluster_tbl t) = Z.to_nat mipos_tfs_CLUSTERS_COUNT →
  (0 < free_count (cluster_tbl t))%nat →
  ∃ i, cluster_tbl t !! i = Some mipos_tfs_FREE_CLUSTER ∧
    (i < Z.to_nat mipos_tfs_CLUSTERS_COUNT)%nat ∧
    reserve_cluster (st cs t d e) = Ok (Some (Z.of_nat i), st cs (set_cluster_tbl
      (<[i := mipos_tfs_RESERVED_CLUSTER]> (cluster_tbl t)) t) d e).
Proof.
  intros Hlen Hp. apply free_count_pos in Hp as [j Hj].
  destruct (find_free_cluster_exists (Z.to_nat mipos_tfs_CLUSTERS_COUNT) 0 (cluster_tbl t) j) as [i Hi];
    [lia| |done|].
  { apply lookup_lt_Some in Hj. lia. }
  pose proof (find_free_cluster_Some _ _ _ _ Hi) as (_ & Hlt & Hfree). exists i.
  split; [done|]. split; [done|]. rewrite run_reserve_cluster, Hi. done.
Qed.

Lemma linked_not_free tbl cl c :
  linked tbl cl → c ∈ cl → tbl !! Z.to_nat c ≠ Some mipos_tfs_FREE_CLUSTER.
Proof.
  intros Hl (i & Hi)%list_elem_of_lookup_1. destruct (linked_lookup _ _ _ _ Hl Hi) as (v & -> & Hm).
  intros [= ->]. destruct (cl !! S i) as [c'|] eqn:Hc'; [|lia].
  apply list_elem_of_lookup_2 in Hc'. apply (linked_elem _ _ _ Hl) in Hc' as [_ Hlt]. subst c'.
  vm_compute in Hlt. discriminate.
Qed.

(** Changing the end mark of the last cluster, or linking it further. *)
Lemma linked_end_mark tbl cl c v :
  linked tbl (cl ++ [c]) → NoDup (cl ++ [c]) →
  mipos_tfs_CLUSTERS_COUNT ≤ v → v < mipos_tfs_FREE_CLUSTER →
  linked (<[Z.to_nat c := v]> tbl) (cl ++ [c]).
Proof.
  induction cl as [|b cl IH]; simpl.
  - intros (Hc & (w & Hw & _) & _) _ Hv Hf. split; [done|]. split; [|done]. exists v.
    split; [|done]. apply list_lookup_insert_eq. by eapply lookup_lt_Some.
  - intros (Hb & (w & Hw & Hm) & Hr) [Hni Hnd]%NoDup_cons Hv Hf. split; [done|].
    split; [|by apply IH]. exists w. split; [|by destruct (cl ++ [c])].
    rewrite list_lookup_insert_ne; [done|].
    assert (c ∈ cl ++ [c]) as Hin by set_solver. apply (linked_elem _ _ _ Hr) in Hin.
    intros Heq. apply Hni. assert (b = c) as -> by lia. set_solver.
Qed.

Lemma linked_extend tbl cl c i :
  linked tbl (cl ++ [c]) → NoDup (cl ++ [c]) →
  0 ≤ i < mipos_tfs_CLUSTERS_COUNT → i ∉ cl ++ [c] → is_Some (tbl !! Z.to_nat i) →
  linked (<[Z.to_nat c := i]> (<[Z.to_nat i := mipos_tfs_RESERVED_CLUSTER]> tbl)) (cl ++ [c; i]).
Proof.
  induction cl as [|b cl IH]; simpl.
  - intros (Hc & (w & Hw & _) & _) _ Hi Hni His.
    assert (Z.to_nat c ≠ Z.to_nat i) as Hne by (intros ?; apply Hni; assert (i = c) by lia; set_solver).
    split; [done|]. split; [|split; [done|split; [|done]]].
    + exists i. split; [|done]. apply list_lookup_insert_eq. rewrite length_insert.
      by eapply lookup_lt_Some.
    + exists mipos_tfs_RESERVED_CLUSTER. rewrite list_lookup_insert_ne by done.
      split; [apply list_lookup_insert_eq; by apply lookup_lt_is_Some|]. by vm_compute.
  - intros (Hb & (w & Hw & Hm) & Hr) [Hnb Hnd]%NoDup_cons Hi Hni His. split; [done|].
    split; [|apply IH; [done..|set_solver|done]]. exists w. split.
    + assert (c ∈ cl ++ [c]) as Hin by set_solver. apply (linked_elem _ _ _ Hr) in Hin.
      rewrite !list_lookup_insert_ne; [done|intros ?; apply Hni; assert (i = b) by lia; set_solver|].
      intros ?. apply Hnb. assert (b = c) as -> by lia. set_solver.
    + replace (cl ++ [c; i]) with ((cl ++ [c]) ++ [i]) by by rewrite <-app_assoc.
      by destruct (cl ++ [c]) as [|x l] eqn:E; [destruct cl|].
Qed.
End files.
