(* ===== verification/TfsWrite.v ===== *)
(** * Appending to files

    The writing loop of [mipos_tfs_write_file] from the end of a file on. *)

From S2P Require Import Prelude Bytes Mutex Tfs TfsInv TfsFile.

Section writing.
Context {D : Type} `{IoDev D}.

#[local] Abbreviation st cs t d e := (mk_tfs cs t (mk_mtx MUTEX_UNLOCKED) d e).

Implicit Types (cs : list mipos_tfs_ctl_t) (t : mipos_tfs_ftbl_t) (d : D).

(** The bytes of the clusters outside [cl] are those of [d]. *)
Definition dev_outside (cl : list Z) (d d' : D) : Prop :=
  ∀ c o, 0 ≤ c < mipos_tfs_CLUSTERS_COUNT → c ∉ cl → 0 ≤ o < mipos_tfs_CLUSTER_SIZE →
    dev_get d' (caddr c o) = dev_get d (caddr c o).

Lemma fbytes_ext d d' cl cl' p n :
  (∀ i, p ≤ i < p + n → fbyte d' cl' i = fbyte d cl i) → fbytes d' cl' p n = fbytes d cl p n.
Proof.
  intros Hb. unfold fbytes. apply list_fmap_ext. intros i x Hx.
  apply lookup_seqZ in Hx as [-> Hi]. apply Hb. lia.
Qed.

(** Longer chains have the same first bytes. *)
Lemma fbytes_longer d cl ext n :
  n ≤ mipos_tfs_CLUSTER_SIZE * Z.of_nat (length cl) →
  fbytes d (cl ++ ext) 0 n = fbytes d cl 0 n.
Proof.
  intros Hn. apply fbytes_ext. intros i Hi. unfold fbyte. rewrite lookup_app_l; [done|].
  tfs_consts. pose proof (Z.div_mod i 32 ltac:(lia)). pose proof (Z.mod_pos_bound i 32 ltac:(lia)).
  lia.
Qed.

(** A file outside the written clusters keeps its bytes. *)
Lemma fbytes_outside d d' tbl w cl n :
  dev_outside w d d' → linked tbl cl → (∀ c, c ∈ cl → c ∉ w) →
  n ≤ mipos_tfs_CLUSTER_SIZE * Z.of_nat (length cl) → fbytes d' cl 0 n = fbytes d cl 0 n.
Proof.
  intros Ho Hl Hd Hn. apply fbytes_ext. intros i Hi. unfold fbyte. tfs_consts.
  pose proof (Z.div_mod i 32 ltac:(lia)). pose proof (Z.mod_pos_bound i 32 ltac:(lia)).
  assert (0 ≤ i / 32) by (apply Z.div_pos; lia).
  destruct (lookup_lt_is_Some_2 cl (Z.to_nat (i / 32))) as [c Hc]; [lia|]. rewrite Hc. simpl.
  apply list_elem_of_lookup_2 in Hc. apply Ho; [by eapply linked_elem|by apply Hd|done].
Qed.

(** One write into the last cluster appends to the bytes of the file. *)
Lemma fbytes_written d d' tbl cl c q k src :
  linked tbl (cl ++ [c]) → NoDup (cl ++ [c]) → 0 ≤ q → 0 < k →
  q / mipos_tfs_CLUSTER_SIZE = Z.of_nat (length cl) →
  q `mod` mipos_tfs_CLUSTER_SIZE + k ≤ mipos_tfs_CLUSTER_SIZE →
  k ≤ Z.of_nat (length src) →
  (∀ i b, (i < Z.to_nat k)%nat → src !! i = Some b →
     dev_get d' (caddr c (q `mod` mipos_tfs_CLUSTER_SIZE) + Z.of_nat i) = b) →
  (∀ x, 0 ≤ x < caddr c (q `mod` mipos_tfs_CLUSTER_SIZE) ∨
        caddr c (q `mod` mipos_tfs_CLUSTER_SIZE) + k ≤ x → dev_get d' x = dev_get d x) →
  fbytes d' (cl ++ [c]) 0 (q + k) = fbytes d (cl ++ [c]) 0 q ++ take (Z.to_nat k) src.
Proof.
  intros Hl Hnd Hq Hk Hdiv Hle Hsrc Hin Hout.
  assert ((cl ++ [c]) !! Z.to_nat (q / mipos_tfs_CLUSTER_SIZE) = Some c) as Hlast.
  { rewrite Hdiv, Nat2Z.id. by rewrite lookup_app_r, Nat.sub_diag by done. }
  rewrite fbytes_app by lia. f_equal.
  - apply fbytes_ext. intros i Hi. unfold fbyte. tfs_consts.
    pose proof (Z.div_mod i 32 ltac:(lia)). pose proof (Z.mod_pos_bound i 32 ltac:(lia)).
    pose proof (Z.div_mod q 32 ltac:(lia)). pose proof (Z.mod_pos_bound q 32 ltac:(lia)).
    assert (0 ≤ i / 32) by (apply Z.div_pos; lia).
    destruct (lookup_lt_is_Some_2 (cl ++ [c]) (Z.to_nat (i / 32))) as [b Hb];
      [rewrite length_app; simpl; lia|].
    rewrite Hb. simpl. apply Hout. unfold caddr. tfs_consts.
    pose proof (list_elem_of_lookup_2 _ _ _ Hb) as Hbin. apply (linked_elem _ _ _ Hl) in Hbin.
    assert (c ∈ cl ++ [c]) as Hcin by set_solver. apply (linked_elem _ _ _ Hl) in Hcin.
    tfs_consts. destruct (decide (b = c)) as [->|Hne]; [|lia].
    assert (Z.to_nat (i / 32) = Z.to_nat (q / 32)) by (eapply NoDup_lookup; eauto). lia.
  - rewrite Z.add_0_l, (fbytes_in_cluster d' (cl ++ [c]) c q k) by (done || lia).
    apply list_eq. intros i. rewrite list_lookup_fmap. destruct (decide (Z.of_nat i < k)) as [Hi|Hi].
    + rewrite lookup_seqZ_lt, lookup_take_lt by lia. simpl.
      destruct (lookup_lt_is_Some_2 src i) as [b Hb]; [lia|]. rewrite Hb. f_equal.
      apply Hin; [lia|done].
    + by rewrite lookup_seqZ_ge, lookup_take_ge by lia.
Qed.

Lemma written_outside d d' c off k :
  0 ≤ c < mipos_tfs_CLUSTERS_COUNT → 0 ≤ off → off + k ≤ mipos_tfs_CLUSTER_SIZE →
  (∀ x, 0 ≤ x < caddr c off ∨ caddr c off + k ≤ x → dev_get d' x = dev_get d x) →
  dev_outside [c] d d'.
Proof.
  intros Hc Hoff Hk Hout b o Hb Hne Ho. apply Hout. unfold caddr.
  assert (b ≠ c) by set_solver. tfs_consts. lia.
Qed.

Lemma dev_outside_trans w1 w2 w d1 d2 d3 :
  dev_outside w1 d1 d2 → dev_outside w2 d2 d3 → w1 ⊆ w → w2 ⊆ w → dev_outside w d1 d3.
Proof.
  intros H1 H2 Hw1 Hw2 c o Hc Hn Ho. rewrite H2, H1; [done|done|set_solver|done|done|set_solver|done].
Qed.

(** What appending [src] at position [q] to the chain [cl] gives: the chain
    grows by [ext], the table changes at [w] only. *)
Record appended (tbl : list Z) (d : D) (cl : list Z) (w : list Z) (q : Z) (src : list Z)
    (ext tbl' : list Z) (d' : D) : Prop := {
  ap_linked : linked tbl' (cl ++ ext);
  ap_nodup : NoDup (cl ++ ext);
  ap_len : length tbl' = length tbl;
  ap_free : ∀ c, c ∈ ext → tbl !! Z.to_nat c = Some mipos_tfs_FREE_CLUSTER;
  ap_tbl : ∀ i, (∀ c, c ∈ w ++ ext → i ≠ Z.to_nat c) → tbl' !! i = tbl !! i;
  ap_devlen : dev_len d' = dev_len d;
  ap_bytes : fbytes d' (cl ++ ext) 0 (q + Z.of_nat (length src)) = fbytes d cl 0 q ++ src;
  ap_outside : dev_outside (w ++ ext) d d';
  ap_count : Z.of_nat (length (cl ++ ext)) =
    (q + Z.of_nat (length src) + (mipos_tfs_CLUSTER_SIZE - 1)) / mipos_tfs_CLUSTER_SIZE;
}.

Lemma set_tbl_same t : set_cluster_tbl (cluster_tbl t) t = t.
Proof. by destruct t. Qed.
Lemma set_fds_same t : set_file_fs_desc (file_fs_desc t) t = t.
Proof. by destruct t. Qed.

(** Going on to a new cluster after the last one is full. *)
Lemma run_write_advance cs t d e h ctl f c w :
  cs !! Z.to_nat h = Some ctl → file_fs_desc t !! Z.to_nat h = Some f →
  0 ≤ fsize f < seek_pointer ctl → seek_pointer ctl < 2 ^ 32 →
  length (cluster_tbl t) = Z.to_nat mipos_tfs_CLUSTERS_COUNT →
  (0 < free_count (cluster_tbl t))%nat → 0 ≤ c < mipos_tfs_CLUSTERS_COUNT →
  cluster_tbl t !! Z.to_nat c = Some w → w ≠ mipos_tfs_FREE_CLUSTER →
  ∃ i, cluster_tbl t !! Z.to_nat i = Some mipos_tfs_FREE_CLUSTER ∧
    0 ≤ i < mipos_tfs_CLUSTERS_COUNT ∧
    write_advance h c false (st cs t d e) = Ok (Some i, st cs (set_cluster_tbl
      (<[Z.to_nat c := i]> (<[Z.to_nat i := mipos_tfs_RESERVED_CLUSTER]> (cluster_tbl t))) t) d e).
Proof.
  intros Hctl Hf Hsz H32 Hlen Hfree Hc Hw Hwf.
  destruct (run_reserve_ok cs t d e Hlen Hfree) as (i & Hi & Hilt & Hres).
  exists (Z.of_nat i). rewrite Nat2Z.id. split; [done|]. split; [lia|].
  unfold write_advance. erewrite tfs_run_bind by (eapply run_ctl_at; exact Hctl). cbv beta.
  erewrite tfs_run_bind by (eapply run_fd_at; exact Hf). cbv beta.
  replace (fsize f <? seek_pointer ctl) with true by (symmetry; apply Z.ltb_lt; lia).
  assert (upd_fd h (λ f, set_fsize (u32 (fsize f + 0)) f) (st cs t d e) = Ok (tt, st cs t d e)) as Hupd.
  { erewrite run_upd_fd by exact Hf. erewrite alter_insert_eq by exact Hf. do 2 f_equal.
    rewrite list_insert_id; [by rewrite set_fds_same|]. rewrite Hf. f_equal.
    rewrite Z.add_0_r, wrap_small by lia. by destruct f. }
  assert ((_ ← upd_fd h (λ f, set_fsize (u32 (fsize f + 0)) f); r ← reserve_cluster;
           match r with
           | Some c => mret (false, c)
           | None => _ ← mark_cluster_last c; mret (true, c)
           end) (st cs t d e) = Ok ((false, Z.of_nat i), st cs (set_cluster_tbl
             (<[i := mipos_tfs_RESERVED_CLUSTER]> (cluster_tbl t)) t) d e)) as Hnew.
  { erewrite tfs_run_bind by exact Hupd. cbv beta. erewrite tfs_run_bind by exact Hres. done. }
  erewrite tfs_run_bind by exact Hnew. cbv iota beta.
  assert (i ≠ Z.to_nat c) as Hne by (intros ->; congruence).
  erewrite tfs_run_bind; [|eapply run_link_cluster; [lia|lia|]].
  2: { simpl. rewrite list_lookup_insert_ne by done. exact Hw. }
  done.
Qed.

Lemma run_write_loop fuel cs t d e h ctl f cl c src :
  big_enough d → linked (cluster_tbl t) (cl ++ [c]) → NoDup (cl ++ [c]) →
  length (cluster_tbl t) = Z.to_nat mipos_tfs_CLUSTERS_COUNT →
  cs !! Z.to_nat h = Some ctl → file_fs_desc t !! Z.to_nat h = Some f →
  let q := seek_pointer ctl in
  let n := Z.of_nat (length src) in
  0 ≤ fsize f ≤ q → q / mipos_tfs_CLUSTER_SIZE = Z.of_nat (length cl) → 0 < n → q + n < 2 ^ 32 →
  (q `mod` mipos_tfs_CLUSTER_SIZE + n - 1) / mipos_tfs_CLUSTER_SIZE ≤
    Z.of_nat (free_count (cluster_tbl t)) →
  q `mod` mipos_tfs_CLUSTER_SIZE + n ≤ mipos_tfs_CLUSTER_SIZE * Z.of_nat fuel →
  ∃ ext tbl' d',
    write_loop fuel h c (q `mod` mipos_tfs_CLUSTER_SIZE) src n (st cs t d e) =
      Ok ((0, 0), st (<[Z.to_nat h := set_seek_pointer (q + n) ctl]> cs)
        (set_cluster_tbl tbl' (set_file_fs_desc
           (<[Z.to_nat h := set_fsize (q + n) f]> (file_fs_desc t)) t)) d' e) ∧
    appended (cluster_tbl t) d (cl ++ [c]) [c] q src ext tbl' d'.
Proof.
  revert cs t d ctl cl c src.
  induction fuel as [|fuel IH];
    intros cs t d ctl cl c src Hbig Hl Hnd Hlen Hctl Hf q n Hsz Hdiv Hn H32 Hfree Hfuel.
  { tfs_consts. pose proof (Z.mod_pos_bound q 32 ltac:(lia)). lia. }
  set (off := q `mod` mipos_tfs_CLUSTER_SIZE) in *.
  assert (0 ≤ off < mipos_tfs_CLUSTER_SIZE) as Hoff by (apply Z.mod_pos_bound; done).
  assert (0 ≤ c < mipos_tfs_CLUSTERS_COUNT) as Hc by (eapply linked_elem; [exact Hl|set_solver]).
  set (k := Z.min n (mipos_tfs_CLUSTER_SIZE - off)).
  destruct (run_write_cluster cs t d e c off src n) as (d1 & Hwc & Hdl1 & Hin1 & Hout1); [done..|lia|].
  fold k in Hwc, Hin1, Hout1.
  assert (fbytes d1 (cl ++ [c]) 0 (q + k) = fbytes d (cl ++ [c]) 0 q ++ take (Z.to_nat k) src) as Hfb.
  { eapply fbytes_written; try done; fold off; lia. }
  pose proof (written_outside d d1 c off k Hc ltac:(lia) ltac:(lia) Hout1) as Hdo.
  assert (∃ w, cluster_tbl t !! Z.to_nat c = Some w) as [w Hw].
  { apply lookup_lt_is_Some. rewrite Hlen. tfs_consts. lia. }
  assert (w ≠ mipos_tfs_FREE_CLUSTER) as Hwf.
  { intros ->. eapply linked_not_free; [exact Hl| |exact Hw]. set_solver. }
  pose proof (lookup_lt_Some _ _ _ Hctl) as Hlt.
  cbn [write_loop]. erewrite tfs_run_bind by exact Hwc. cbv iota beta zeta.
  erewrite tfs_run_bind by (eapply run_locked_upd_ctl; exact Hctl). cbv beta.
  rewrite (alter_insert_eq _ _ _ _ Hctl). fold q. rewrite (wrap_small 32 (q + k)) by lia.
  set (cs1 := <[Z.to_nat h := set_seek_pointer (q + k) ctl]> cs).
  assert (cs1 !! Z.to_nat h = Some (set_seek_pointer (q + k) ctl)) as Hctl1 by by apply list_lookup_insert_eq.
  tfs_consts. pose proof (Z.div_mod q 32 ltac:(lia)) as Hdm. fold off in Hdm.
  destruct (Z.eqb_spec (n - k) 0) as [Hdone|Hmore].
  - erewrite tfs_run_bind by (eapply run_ctl_at; exact Hctl1). cbv beta.
    erewrite tfs_run_bind by (eapply run_fd_at; exact Hf). cbv beta. simpl (seek_pointer _).
    replace (fsize f <? q + k) with true by (symmetry; apply Z.ltb_lt; lia).
    assert (n = k) as Hnk by lia. rewrite <-Hnk in *.
    eexists [], _, d1. split.
    + erewrite tfs_run_bind.
      2: { erewrite tfs_run_bind by (eapply run_upd_fd; exact Hf). cbv beta.
           eapply run_set_cluster_val. exact Hw. }
      cbv beta. rewrite (alter_insert_eq _ _ _ _ Hf). rewrite run_ret.
      replace (n - n) with 0 by lia. unfold cs1. rewrite <-Hnk. reflexivity.
    + constructor; rewrite ?app_nil_r.
      * by apply linked_end_mark.
      * done.
      * apply length_insert.
      * set_solver.
      * intros i Hi. apply list_lookup_insert_ne. intros <-. by apply (Hi c); [left|].
      * done.
      * fold n. rewrite Hfb. f_equal. apply take_ge. lia.
      * done.
      * fold n. rewrite length_app. simpl.
        apply (Z.div_unique _ _ _ (off + n - 1)); tfs_consts; lia.
  - assert (k = 32 - off) as Hk by lia.
    assert ((q + k) / 32 = Z.of_nat (length cl) + 1 ∧ (q + k) `mod` 32 = 0) as [Hdiv1 Hmod1].
    { split; symmetry; [apply (Z.div_unique _ _ _ 0)|apply (Z.mod_unique _ _ (q / 32 + 1))]; lia. }
    pose proof (Z.div_mod (off + n - 1) 32 ltac:(lia)) as Hdm2.
    pose proof (Z.mod_pos_bound (off + n - 1) 32 ltac:(lia)) as Hmb2.
    destruct (run_write_advance cs1 t d1 e h (set_seek_pointer (q + k) ctl) f c w)
      as (i & Hi & Hib & Hadv); [done|done|simpl; lia|simpl; lia|done|lia|tfs_consts; lia|done|done|].
    erewrite tfs_run_bind by exact Hadv. cbv iota beta.
    assert (i ∉ cl ++ [c]) as Hni.
    { intros Hin. by eapply linked_not_free. }
    assert (Z.to_nat i ≠ Z.to_nat c) as Hne by (intros E; rewrite E in Hi; congruence).
    set (tbl1 := <[Z.to_nat c := i]> (<[Z.to_nat i := mipos_tfs_RESERVED_CLUSTER]> (cluster_tbl t))).
    assert (linked tbl1 ((cl ++ [c]) ++ [i])) as Hl1.
    { rewrite <-app_assoc. apply linked_extend; done. }
    assert (NoDup ((cl ++ [c]) ++ [i])) as Hnd1.
    { apply NoDup_app. split; [done|]. split; [set_solver|apply NoDup_singleton]. }
    assert (free_count (cluster_tbl t) = S (free_count tbl1)) as Hfc.
    { unfold tbl1. erewrite (free_count_insert_same _ (Z.to_nat c)).
      - by apply free_count_insert.
      - rewrite list_lookup_insert_ne by done. exact Hw.
      - done.
      - intros ->. destruct Hib as [_ Hib]; by vm_compute in Hib. }
    assert (length (drop (Z.to_nat k) src) = Z.to_nat (n - k)) as Hdl by (rewrite length_drop; lia).
    assert ((0 + (n - k) - 1) / 32 = (off + n - 1) / 32 - 1) as Hdec
      by (symmetry; apply (Z.div_unique _ _ _ ((off + n - 1) `mod` 32)); lia).
    destruct (IH cs1 (set_cluster_tbl tbl1 t) d1 (set_seek_pointer (q + k) ctl) (cl ++ [c]) i
      (drop (Z.to_nat k) src)) as (ext & tbl' & d' & Hrec & Hap).
    { unfold big_enough in *. by rewrite Hdl1. }
    { done. }
    { done. }
    { unfold tbl1. simpl. by rewrite !length_insert. }
    { done. }
    { done. }
    { simpl. lia. }
    { simpl. rewrite Hdiv1, length_app. simpl. lia. }
    { rewrite Hdl. lia. }
    { rewrite Hdl. simpl. lia. }
    { rewrite Hdl. simpl (seek_pointer _). tfs_consts. rewrite Hmod1, Z2Nat.id by lia. simpl (cluster_tbl _).
      rewrite Hdec. lia. }
    { rewrite Hdl. simpl (seek_pointer _). tfs_consts. rewrite Hmod1, Z2Nat.id by lia. lia. }
    simpl (seek_pointer _) in Hrec, Hap. rewrite Hdl, Z2Nat.id in Hrec by lia. tfs_consts.
    rewrite Hmod1 in Hrec. replace (q + k + (n - k)) with (q + n) in Hrec by lia.
    exists (i :: ext), tbl', d'. split.
    + rewrite Hrec. unfold cs1. rewrite list_insert_insert_eq. done.
    + destruct Hap as [A1 A2 A3 A4 A5 A6 A7 A8 A9]. simpl (cluster_tbl _) in *.
      rewrite Hdl, Z2Nat.id in A7, A9 by lia. replace (q + k + (n - k)) with (q + n) in A7, A9 by lia.
      rewrite <-!app_assoc in *. simpl in *.
      constructor; rewrite <-?app_assoc; simpl; try done.
      * rewrite A3. unfold tbl1. by rewrite !length_insert.
      * intros x [->|Hx]%elem_of_cons; [done|]. specialize (A4 x Hx). unfold tbl1 in A4.
        assert (Z.to_nat c ≠ Z.to_nat x) as Hcx.
        { intros E. rewrite <-E, list_lookup_insert_eq in A4 by (rewrite length_insert; lia).
          injection A4 as ->. destruct Hib as [_ Hib]; by vm_compute in Hib. }
        rewrite list_lookup_insert_ne in A4 by done.
        assert (Z.to_nat i ≠ Z.to_nat x) as Hix.
        { intros E. rewrite <-E, list_lookup_insert_eq in A4 by (rewrite Hlen; tfs_consts; lia).
          by vm_compute in A4. }
        by rewrite list_lookup_insert_ne in A4 by done.
      * intros j Hj. rewrite A5 by (intros x Hx; apply Hj; set_solver). unfold tbl1.
        rewrite !list_lookup_insert_ne; [done| |]; apply not_eq_sym, Hj; set_solver.
      * congruence.
      * fold n. rewrite A7. simpl. replace (cl ++ c :: i :: []) with ((cl ++ [c]) ++ [i])
          by by rewrite <-app_assoc.
        rewrite fbytes_longer by (tfs_consts; rewrite length_app; simpl; lia).
        rewrite Hfb, <-app_assoc, take_drop. done.
      * eapply dev_outside_trans; [exact Hdo|exact A8|set_solver|set_solver].
Qed.
End writing.
