(* ===== verification/TfsAppend.v ===== *)
(** * Appending to files, the whole operation

    [mipos_tfs_write_file] at the end of a file, from the invariant of the
    file system to the invariant. *)

From S2P Require Import Prelude Bytes Mutex Tfs TfsInv TfsFile TfsWrite.

Section append.
Context {D : Type} `{IoDev D}.

#[local] Abbreviation st cs t d e := (mk_tfs cs t (mk_mtx MUTEX_UNLOCKED) d e).

Implicit Types (cs : list mipos_tfs_ctl_t) (t : mipos_tfs_ftbl_t) (d : D).

(** The cluster the writing starts in: the last one of the file when it has
    room, else a free one that becomes the last. *)
Record started (tbl cl : list Z) (size : Z) (tbl1 cl1 : list Z) (c : Z) : Prop := {
  sd_linked : linked tbl1 (cl1 ++ [c]);
  sd_nodup : NoDup (cl1 ++ [c]);
  sd_len : length tbl1 = length tbl;
  sd_pos : size / mipos_tfs_CLUSTER_SIZE = Z.of_nat (length cl1);
  sd_case : (cl = cl1 ++ [c] ∧ tbl1 = tbl ∧ size `mod` mipos_tfs_CLUSTER_SIZE ≠ 0) ∨
            (cl = cl1 ∧ tbl !! Z.to_nat c = Some mipos_tfs_FREE_CLUSTER ∧
             size `mod` mipos_tfs_CLUSTER_SIZE = 0 ∧
             free_count tbl = S (free_count tbl1));
  sd_tbl : ∀ i, (∀ x, x ∈ cl ++ [c] → i ≠ Z.to_nat x) → tbl1 !! i = tbl !! i;
}.

Lemma run_write_first cs t d e f ctl cl :
  chain_of (cluster_tbl t) (first_cluster f) cl → NoDup cl →
  length (cluster_tbl t) = Z.to_nat mipos_tfs_CLUSTERS_COUNT →
  0 ≤ fsize f → seek_pointer ctl = fsize f →
  Z.of_nat (length cl) = (fsize f + (mipos_tfs_CLUSTER_SIZE - 1)) / mipos_tfs_CLUSTER_SIZE →
  (fsize f `mod` mipos_tfs_CLUSTER_SIZE = 0 → (0 < free_count (cluster_tbl t))%nat) →
  ∃ tbl1 cl1 c, write_first_cluster f ctl (st cs t d e) =
      Ok (Some c, st cs (set_cluster_tbl tbl1 t) d e) ∧
    started (cluster_tbl t) cl (fsize f) tbl1 cl1 c.
Proof.
  intros Hch Hnd Hlen Hsz Hsp Hcl Hfree. pose proof Hch as [Hl Hfirst].
  pose proof (linked_short _ _ Hl Hnd) as Hshort. unfold write_first_cluster. rewrite Hsp. tfs_consts.
  pose proof (Z.div_mod (fsize f) 32 ltac:(lia)) as Hdm.
  pose proof (Z.mod_pos_bound (fsize f) 32 ltac:(lia)) as Hmb.
  pose proof (Z.div_mod (fsize f + (32 - 1)) 32 ltac:(lia)) as Hdm2.
  pose proof (Z.mod_pos_bound (fsize f + (32 - 1)) 32 ltac:(lia)) as Hmb2.
  assert (0 ≤ fsize f / 32) as Hq0 by (apply Z.div_pos; lia).
  rewrite Z.eqb_refl. cbn [andb].
  destruct (Z.eqb_spec (fsize f `mod` 32) 0) as [Hm|Hm].
  - specialize (Hfree Hm).
    destruct (run_reserve_ok cs t d e Hlen Hfree) as (i & Hi & Hilt & Hres). tfs_consts.
    assert (Z.of_nat i ∉ cl) as Hni.
    { intros Hin. eapply linked_not_free; [exact Hl|exact Hin|]. by rewrite Nat2Z.id. }
    pose proof (lookup_lt_Some _ _ _ Hi) as Hil.
    destruct (Z.ltb_spec 0 (fsize f)) as [Hpos|Hzero].
    + assert (cl ≠ []) as Hne by (intros ->; simpl in Hcl; lia).
      destruct (run_get_cluster_seek_pt cs t d e f ctl cl) as (c & Hs & Hor);
        [done|done|tfs_consts; lia|rewrite Hsp; tfs_consts; lia|].
      rewrite Hsp in Hor. tfs_consts.
      destruct Hor as [Hc|[_ Hlast]].
      { apply lookup_lt_Some in Hc. lia. }
      destruct cl as [|x cl0 _] using rev_ind; [done|].
      rewrite last_snoc in Hlast. injection Hlast as ->.
      assert (0 ≤ c < 32) as Hcb by (eapply linked_elem; [exact Hl|set_solver]).
      assert (∃ w, cluster_tbl t !! Z.to_nat c = Some w ∧ w ≠ mipos_tfs_FREE_CLUSTER) as (w & Hw & Hwf).
      { destruct (lookup_lt_is_Some_2 (cluster_tbl t) (Z.to_nat c)) as [w Hw]; [lia|].
        exists w. split; [done|]. intros ->. eapply linked_not_free; [exact Hl| |exact Hw]. set_solver. }
      assert (i ≠ Z.to_nat c) as Hic by (intros ->; congruence).
      set (tbl1 := <[Z.to_nat c := Z.of_nat i]> (<[i := mipos_tfs_RESERVED_CLUSTER]> (cluster_tbl t))).
      exists tbl1, (cl0 ++ [c]), (Z.of_nat i). split.
      * erewrite tfs_run_bind by exact Hs. cbv iota beta. cbn [negb].
        erewrite tfs_run_bind by exact Hres. cbv iota beta.
        erewrite tfs_run_bind; [|eapply run_link_cluster; [tfs_consts; lia|tfs_consts; lia|]].
        2: { simpl. rewrite list_lookup_insert_ne by done. exact Hw. }
        done.
      * constructor.
        -- rewrite <-app_assoc. subst tbl1. rewrite <-(Nat2Z.id i) at 2.
           apply linked_extend; [done|done|tfs_consts; lia|done|].
           rewrite Nat2Z.id, Hi. done.
        -- apply NoDup_app. split; [done|]. split; [set_solver|apply NoDup_singleton].
        -- subst tbl1. by rewrite !length_insert.
        -- tfs_consts. lia.
        -- right. split; [done|]. rewrite Nat2Z.id. split; [done|]. split; [done|].
           subst tbl1. erewrite free_count_insert_same;
             [by apply free_count_insert|rewrite list_lookup_insert_ne by done; exact Hw|done|].
           unfold mipos_tfs_FREE_CLUSTER. lia.
        -- intros j Hj. subst tbl1. rewrite !list_lookup_insert_ne; [done| |].
           ++ specialize (Hj (Z.of_nat i) ltac:(set_solver)). lia.
           ++ specialize (Hj c ltac:(set_solver)). lia.
    + assert (cl = []) as -> by (apply nil_length_inv; lia).
      exists (<[i := mipos_tfs_RESERVED_CLUSTER]> (cluster_tbl t)), [], (Z.of_nat i).
      split; [exact Hres|]. constructor; simpl.
      * split; [tfs_consts; lia|]. split; [|done]. exists mipos_tfs_RESERVED_CLUSTER.
        rewrite Nat2Z.id. split; [by apply list_lookup_insert_eq|by vm_compute].
      * apply NoDup_singleton.
      * apply length_insert.
      * tfs_consts. lia.
      * right. split; [done|]. rewrite Nat2Z.id. split; [done|]. split; [done|].
        by apply free_count_insert.
      * intros j Hj. apply list_lookup_insert_ne. specialize (Hj (Z.of_nat i) ltac:(set_solver)). lia.
  - assert (cl ≠ []) as Hne.
    { intros ->. simpl in Hcl. lia. }
    destruct (run_get_cluster_seek_pt cs t d e f ctl cl) as (c & Hs & Hor);
      [done|done|tfs_consts; lia|rewrite Hsp; tfs_consts; lia|].
    rewrite Hsp in Hor. tfs_consts. destruct Hor as [Hc|[Heq _]]; [|lia].
    assert (Z.of_nat (length cl) = fsize f / 32 + 1) as Hlen1 by lia.
    destruct cl as [|x cl0 _] using rev_ind; [done|].
    assert (length cl0 = Z.to_nat (fsize f / 32)) as Hl0 by (rewrite length_app in Hlen1; simpl in Hlen1; lia).
    rewrite lookup_app_r, Hl0, Nat.sub_diag in Hc by lia. injection Hc as ->.
    exists (cluster_tbl t), cl0, c. split.
    + erewrite tfs_run_bind by exact Hs. cbv iota beta. by rewrite set_tbl_same.
    + constructor; try done.
      * tfs_consts. lia.
      * left. done.
Qed.

(** What appending [src] at the end [q] of the file in [cl] gives. *)
Record grown (tbl : list Z) (d : D) (cl : list Z) (q : Z) (src : list Z)
    (cl' tbl' : list Z) (d' : D) : Prop := {
  gr_linked : linked tbl' cl';
  gr_nodup : NoDup cl';
  gr_len : length tbl' = length tbl;
  gr_prefix : cl `prefix_of` cl';
  gr_new : ∀ x, x ∈ cl' → x ∈ cl ∨ tbl !! Z.to_nat x = Some mipos_tfs_FREE_CLUSTER;
  gr_tbl : ∀ i, (∀ x, x ∈ cl' → i ≠ Z.to_nat x) → tbl' !! i = tbl !! i;
  gr_devlen : dev_len d' = dev_len d;
  gr_bytes : fbytes d' cl' 0 (q + Z.of_nat (length src)) = fbytes d cl 0 q ++ src;
  gr_outside : dev_outside cl' d d';
  gr_count : Z.of_nat (length cl') =
    (q + Z.of_nat (length src) + (mipos_tfs_CLUSTER_SIZE - 1)) / mipos_tfs_CLUSTER_SIZE;
}.

Lemma started_appended tbl d cl q src tbl1 cl1 c ext tbl' d' :
  0 ≤ q → started tbl cl q tbl1 cl1 c →
  appended tbl1 d (cl1 ++ [c]) [c] q src ext tbl' d' →
  grown tbl d cl q src ((cl1 ++ [c]) ++ ext) tbl' d'.
Proof.
  intros Hq [S1 S2 S3 S4 S5 S6] [A1 A2 A3 A4 A5 A6 A7 A8 A9].
  assert (cl `prefix_of` cl1 ++ [c]) as Hpre.
  { destruct S5 as [(-> & _)|(-> & _)]; [done|by eexists]. }
  assert (∀ x, x ∈ ext → tbl !! Z.to_nat x = Some mipos_tfs_FREE_CLUSTER) as Hext.
  { intros x Hx. rewrite <-(A4 x Hx). symmetry. apply S6. intros y Hy Heq.
    assert (y ∈ cl1 ++ [c]) as Hy'.
    { apply elem_of_app in Hy as [Hy|Hy]; [|set_solver]. destruct Hpre as [l ->]. set_solver. }
    pose proof (linked_elem _ _ x A1 ltac:(set_solver)) as Hxb.
    pose proof (linked_elem _ _ y A1 ltac:(set_solver)) as Hyb.
    assert (x = y) as -> by lia. apply NoDup_app in A2 as (_ & A2 & _). by eapply A2. }
  constructor; try done.
  - congruence.
  - by apply prefix_app_r.
  - intros x [Hx|Hx]%elem_of_app; [|right; by apply Hext].
    destruct S5 as [(-> & _)|(-> & Hfree & _)]; [by left|].
    apply elem_of_app in Hx as [Hx|Hx]; [by left|]. right.
    assert (x = c) as -> by set_solver. done.
  - intros i Hi. rewrite A5 by (intros x Hx; apply Hi; set_solver).
    apply S6. intros x Hx. apply Hi. destruct Hpre as [l Hpre]. rewrite Hpre. clear -Hx Hpre.
    apply elem_of_app in Hx as [Hx|Hx]; [set_solver|].
    rewrite <-Hpre. set_solver.
  - rewrite A7. f_equal. destruct S5 as [(-> & _)|(-> & _ & Hm & _)]; [done|].
    apply fbytes_longer. tfs_consts. pose proof (Z.div_mod q 32 ltac:(lia)). lia.
  - eapply dev_outside_trans; [|exact A8|done|set_solver]. intros ???; done.
Qed.

(** ** The other files *)

Lemma mjoin_NoDup_insert (chains : list (list Z)) h cl cl' :
  chains !! h = Some cl → NoDup (mjoin chains) → NoDup cl' →
  (∀ x j cj, x ∈ cl' → chains !! j = Some cj → j ≠ h → x ∉ cj) →
  NoDup (mjoin (<[h := cl']> chains)).
Proof.
  intros Hh Hnd Hnd' Hdis. pose proof (lookup_lt_Some _ _ _ Hh) as Hlt.
  rewrite insert_take_drop by done. rewrite <-(take_drop_middle chains h _ Hh) in Hnd.
  assert (∀ x, x ∈ cl' → (x ∉ mjoin (take h chains)) ∧ (x ∉ mjoin (drop (S h) chains))) as Hout.
  { intros x Hx. split; intros (cj & Hxj & Hcj)%list_elem_of_join;
      apply list_elem_of_lookup_1 in Hcj as [j Hj].
    - pose proof (lookup_lt_Some _ _ _ Hj). rewrite length_take in *.
      rewrite lookup_take_lt in Hj by lia. eapply (Hdis x j); [done|done|lia|done].
    - rewrite lookup_drop in Hj. eapply (Hdis x (S h + j)%nat); [done|done|lia|done]. }
  rewrite join_app in *. simpl in *.
  apply NoDup_app in Hnd as (H1 & H12 & H2). apply NoDup_app in H2 as (H2 & H23 & H3).
  apply NoDup_app. split; [done|]. split.
  - intros x Hx [Hx'|Hx']%elem_of_app; [by destruct (Hout x Hx') as [Hno _]; apply Hno|]. apply (H12 x Hx). set_solver.
  - apply NoDup_app. split; [done|]. split; [|done]. intros x Hx. by destruct (Hout x Hx).
Qed.

Lemma chains_disjoint (chains : list (list Z)) i j ci cj x :
  NoDup (mjoin chains) → chains !! i = Some ci → chains !! j = Some cj → i ≠ j →
  x ∈ ci → x ∉ cj.
Proof.
  revert i j. induction chains as [|b chains IH]; [done|]. intros i j Hnd Hi Hj Hne Hx Hx'.
  simpl in Hnd. apply NoDup_app in Hnd as (_ & Hd & Hnd).
  assert (∀ k ck, chains !! k = Some ck → x ∈ ck → x ∈ mjoin chains) as Hin.
  { intros k ck Hk Hxk. apply list_elem_of_join. exists ck. split; [done|].
    by eapply list_elem_of_lookup_2. }
  destruct i as [|i], j as [|j]; simpl in *; simplify_eq.
  - eapply Hd; eauto.
  - eapply Hd; eauto.
  - eapply (IH i j); eauto.
Qed.

Lemma file_wf_linked tbl f cl : file_wf tbl f cl → linked tbl cl.
Proof. unfold file_wf. case_if; [by intros [[? _] _]|by intros ->]. Qed.

Lemma file_wf_frame tbl tbl' f cl :
  (∀ c, c ∈ cl → tbl' !! Z.to_nat c = tbl !! Z.to_nat c) → file_wf tbl f cl → file_wf tbl' f cl.
Proof.
  intros Hf. unfold file_wf. case_if; [|done]. intros ([Hl Hfirst] & ?).
  split; [|done]. split; [|done]. by eapply linked_frame.
Qed.

(** A file and its chain occupy as many bytes as the descriptor says. *)
Lemma file_wf_size tbl f cl :
  file_wf tbl f cl → erased f = 0 → fsize f ≤ mipos_tfs_CLUSTER_SIZE * Z.of_nat (length cl).
Proof.
  unfold file_wf. intros Hw Her. rewrite Her in Hw. destruct Hw as (_ & _ & ->). tfs_consts.
  pose proof (Z.div_mod (fsize f + (32 - 1)) 32 ltac:(lia)).
  pose proof (Z.mod_pos_bound (fsize f + (32 - 1)) 32 ltac:(lia)). lia.
Qed.

(** Growing one file keeps the file system well formed and the other files
    as they are. *)
Lemma fs_wf_grown t d chains h f cl src cl' tbl' d' f' :
  fs_wf t d chains → file_fs_desc t !! h = Some f → chains !! h = Some cl →
  grown (cluster_tbl t) d cl (fsize f) src cl' tbl' d' →
  erased f' = 0 → 0 ≤ fsize f → fsize f' = fsize f + Z.of_nat (length src) →
  chain_of tbl' (first_cluster f') cl' →
  fs_wf (set_cluster_tbl tbl' (set_file_fs_desc (<[h := f']> (file_fs_desc t)) t)) d'
    (<[h := cl']> chains) ∧
  contents d' f' cl' = contents d f cl ++ src ∧
  (∀ j g cg, j ≠ h → file_fs_desc t !! j = Some g → chains !! j = Some cg → erased g = 0 →
     contents d' g cg = contents d g cg).
Proof.
  intros Hw Hf Hcl [G1 G2 G3 G4 G5 G6 G7 G8 G9 G10] Her Hsz Hsz' Hch.
  assert (∀ x j cj, x ∈ cl' → chains !! j = Some cj → j ≠ h → x ∉ cj) as Hdis.
  { intros x j cj Hx Hj Hne Hxj. destruct (G5 x Hx) as [Hin|Hfree].
    - eapply (chains_disjoint chains h j); [apply Hw|done|done|by apply not_eq_sym|done|done].
    - destruct (Forall2_lookup_r _ _ _ _ _ (fw_files _ _ _ Hw) Hj) as (g & Hg & Hgw).
      apply file_wf_linked in Hgw. by eapply linked_not_free. }
  assert (∀ j g cg, j ≠ h → file_fs_desc t !! j = Some g → chains !! j = Some cg →
    file_wf tbl' g cg) as Hother.
  { intros j g cg Hne Hg Hcg. pose proof (fw_file _ _ _ _ _ _ Hw Hg Hcg) as Hgw.
    eapply file_wf_frame; [|exact Hgw]. intros c Hc. apply G6. intros x Hx Heq.
    pose proof (linked_elem _ _ _ G1 Hx). pose proof (linked_elem _ _ _ (file_wf_linked _ _ _ Hgw) Hc).
    assert (c = x) as -> by lia. by eapply Hdis. }
  split; [|split].
  - constructor; simpl.
    + rewrite length_insert. apply Hw.
    + rewrite G3. apply Hw.
    + unfold big_enough. rewrite G7. apply Hw.
    + apply Forall2_same_length_lookup_2.
      { rewrite !length_insert. eapply Forall2_length, Hw. }
      intros j g cg Hg Hcg. apply list_lookup_insert_Some in Hg as [(<- & -> & _)|[Hne Hg]].
      * rewrite list_lookup_insert_eq in Hcg by (by eapply lookup_lt_Some). injection Hcg as <-.
        unfold file_wf. rewrite Her, Z.eqb_refl, Hsz'. split_and!; [done|lia|done].
      * rewrite list_lookup_insert_ne in Hcg by done. by eapply Hother.
    + eapply mjoin_NoDup_insert; [done|apply Hw|done|done].
  - unfold contents. rewrite Hsz'. done.
  - intros j g cg Hne Hg Hcg Hge. pose proof (fw_file _ _ _ _ _ _ Hw Hg Hcg) as Hgw.
    eapply fbytes_outside; [exact G9|by eapply file_wf_linked| |by eapply file_wf_size].
    intros c Hc Hc'. by eapply Hdis.
Qed.

(** ** The whole operation *)

Definition after_write (ctl : mipos_tfs_ctl_t) (pos : Z) : mipos_tfs_ctl_t :=
  mk_ctl pos (eof_while_read ctl) (open ctl) 0 (file_open_mode ctl).

Lemma free_count_le tbl : (free_count tbl ≤ length tbl)%nat.
Proof. apply length_filter. Qed.

Lemma hd_default (cl : list Z) x : hd x cl = default x (head cl).
Proof. by destruct cl. Qed.

Lemma run_write_append cs t d e chains h f cl ctl src :
  let n := Z.of_nat (length src) in
  fs_wf t d chains → 0 ≤ h < mipos_tfs_MAX_N_OF_FILES →
  file_fs_desc t !! Z.to_nat h = Some f → chains !! Z.to_nat h = Some cl →
  erased f = 0 → readonly f = 0 →
  cs !! Z.to_nat h = Some ctl → locked ctl = 0 → open ctl ≠ 0 →
  file_open_mode ctl = mipos_tfs_FILE_OPEN_WRITE → seek_pointer ctl = fsize f → 0 < n →
  (fsize f + n + (mipos_tfs_CLUSTER_SIZE - 1)) / mipos_tfs_CLUSTER_SIZE ≤
    Z.of_nat (length cl) + Z.of_nat (free_count (cluster_tbl t)) →
  ∃ cl' tbl' d',
    let f' := set_first_cluster (hd 0 cl') (set_fsize (fsize f + n) f) in
    let t' := set_cluster_tbl tbl' (set_file_fs_desc (<[Z.to_nat h := f']> (file_fs_desc t)) t) in
    mipos_tfs_write_file src n h (st cs t d e) =
      Ok ((true, Some n), st (<[Z.to_nat h := after_write ctl (fsize f + n)]> cs) t' d' e) ∧
    grown (cluster_tbl t) d cl (fsize f) src cl' tbl' d' ∧ cl' ≠ [].
Proof.
  intros n Hw Hh Hf Hcl Her Hro Hctl Hlk Hop Hmode Hsp Hn Hroom.
  pose proof (fw_file _ _ _ _ _ _ Hw Hf Hcl) as Hfw. unfold file_wf in Hfw. rewrite Her in Hfw.
  destruct Hfw as (Hch & Hsz & Hlen). pose proof Hch as [Hl Hfirst].
  assert (NoDup cl) as Hnd by (eapply chain_NoDup; [apply Hw|done]).
  pose proof (linked_short _ _ Hl Hnd) as Hshort.
  pose proof (free_count_le (cluster_tbl t)) as Hfle. rewrite (fw_tbl _ _ _ Hw) in Hfle.
  pose proof (lookup_lt_Some _ _ _ Hctl) as Hlt. pose proof (lookup_lt_Some _ _ _ Hf) as Hflt.
  tfs_consts. set (q := fsize f) in *.
  pose proof (Z.div_mod (q + n + (32 - 1)) 32 ltac:(lia)) as Hdm1.
  pose proof (Z.mod_pos_bound (q + n + (32 - 1)) 32 ltac:(lia)) as Hmb1.
  pose proof (Z.div_mod (q + (32 - 1)) 32 ltac:(lia)) as Hdm2.
  pose proof (Z.mod_pos_bound (q + (32 - 1)) 32 ltac:(lia)) as Hmb2.
  pose proof (Z.div_mod q 32 ltac:(lia)) as Hdm. pose proof (Z.mod_pos_bound q 32 ltac:(lia)) as Hmb.
  pose proof (Z.div_mod n 32 ltac:(lia)) as Hdmn. pose proof (Z.mod_pos_bound n 32 ltac:(lia)) as Hmbn.
  set (cs1 := <[Z.to_nat h := set_locked 1 ctl]> cs).
  assert (cs1 !! Z.to_nat h = Some (set_locked 1 ctl)) as Hctl1 by by apply list_lookup_insert_eq.
  destruct (run_write_first cs1 t d e f (set_locked 1 ctl) cl) as (tbl1 & cl1 & c & Hwf & Hst);
    [done|done|apply Hw|done|done|done|fold q; tfs_consts; lia|]. fold q in Hst.
  pose proof Hst as [S1 S2 S3 S4 S5 S6]. tfs_consts.
  pose proof (Z.div_mod (q `mod` 32 + n - 1) 32 ltac:(lia)) as Hdm3.
  pose proof (Z.mod_pos_bound (q `mod` 32 + n - 1) 32 ltac:(lia)) as Hmb3.
  destruct (run_write_loop (loop_fuel n) cs1 (set_cluster_tbl tbl1 t) d e h (set_locked 1 ctl) f cl1 c src)
    as (ext & tbl' & d' & Hwl & Hap); try done.
  { apply Hw. }
  { simpl. rewrite S3. apply Hw. }
  { simpl. rewrite Hsp. fold q. lia. }
  { simpl. rewrite Hsp. tfs_consts. fold q. lia. }
  { simpl. rewrite Hsp. fold n q. lia. }
  { simpl. rewrite Hsp. fold n q. tfs_consts.
    destruct S5 as [(-> & -> & Hm)|(-> & _ & Hm & Hfc)].
    - rewrite length_app in *. simpl in *. lia.
    - lia. }
  { simpl. rewrite Hsp. fold n q. unfold loop_fuel. tfs_consts. lia. }
  simpl (seek_pointer _) in Hwl, Hap. rewrite Hsp in Hwl, Hap. fold n q in Hwl, Hap. tfs_consts.
  simpl (file_fs_desc _) in Hwl. simpl (cluster_tbl _) in Hap.
  exists ((cl1 ++ [c]) ++ ext), tbl', d'. cbv zeta.
  split; [|split; [by eapply started_appended|by destruct cl1]].
  unfold mipos_tfs_write_file. tfs_consts.
  erewrite tfs_run_bind by (eapply run_lock_file; [tfs_consts; lia|exact Hctl|done]).
  rewrite (alter_insert_eq _ _ _ _ Hctl). cbn [negb]. fold cs1.
  erewrite tfs_run_bind by (eapply run_get_fd; [tfs_consts; lia|exact Hf]). cbv iota beta.
  erewrite tfs_run_bind by (eapply run_get_ctl; [tfs_consts; lia|exact Hctl1]). cbv iota beta.
  rewrite Hro. change (truth 0) with false. change (file_open_mode (set_locked 1 ctl)) with (file_open_mode ctl).
  change (open (set_locked 1 ctl)) with (open ctl).
  change (seek_pointer (set_locked 1 ctl)) with (seek_pointer ctl). rewrite Hmode, Hsp. fold q.
  replace (open ctl =? 0) with false by (symmetry; by apply Z.eqb_neq).
  replace (q <? q) with false by (symmetry; apply Z.ltb_ge; lia). cbn [orb negb].
  rewrite Z.eqb_refl. cbn [orb negb]. cbv iota zeta.
  erewrite tfs_run_bind by exact Hwf. cbv iota beta.
  erewrite tfs_run_bind by exact Hwl. cbv iota beta. simpl (0 =? 0). cbv iota.
  set (f1 := set_fsize (q + n) f). set (cs2 := <[_ := _]> cs1).
  assert (cs2 !! Z.to_nat h = Some (set_seek_pointer (q + n) (set_locked 1 ctl))) as Hctl2.
  { apply list_lookup_insert_eq. subst cs1. by rewrite length_insert. }
  match goal with |- context [mk_tfs cs2 ?x] => set (t2 := x) end.
  assert (file_fs_desc t2 !! Z.to_nat h = Some f1) as Hf1 by by apply list_lookup_insert_eq.
  erewrite tfs_run_bind.
  2: { eapply (run_locked _ _ _ _ _ tt cs2 (set_cluster_tbl tbl' (set_file_fs_desc
         (<[Z.to_nat h := set_first_cluster (hd 0 ((cl1 ++ [c]) ++ ext)) f1]> (file_fs_desc t)) t))
         (mk_mtx MUTEX_LOCKED) d' e).
       erewrite tfs_run_bind by (eapply run_fd_at; exact Hf1). cbv beta. tfs_consts.
       simpl (first_cluster f1). destruct (Z.leb_spec 32 (first_cluster f)) as [Hbig|Hsmall].
       - assert (cl = []) as ->.
         { destruct cl as [|c0 cl0]; [done|]. subst c0. destruct Hl as [Hb _]. tfs_consts. lia. }
         assert (cl1 = []) as ->.
         { destruct S5 as [(E & _)|(<- & _)]; [|done]. by destruct cl1. }
         erewrite run_upd_fd by exact Hf1. rewrite (alter_insert_eq _ _ _ _ Hf1). subst t2. simpl.
         by rewrite list_insert_insert_eq.
       - rewrite run_ret. do 3 f_equal. subst t2. unfold set_cluster_tbl, set_file_fs_desc; simpl.
         do 2 f_equal. subst f1. unfold set_first_cluster, set_fsize; simpl. f_equal.
         destruct cl as [|c0 cl0]; [tfs_consts; lia|]. subst c0.
         destruct S5 as [(<- & _)|(<- & _)]; done. }
  cbv beta. erewrite tfs_run_bind; [|eapply run_unlock_file; [tfs_consts; lia|exact Hctl2|done]].
  rewrite run_ret. rewrite (alter_insert_eq _ _ _ _ Hctl2). unfold cs2, cs1.
  rewrite !list_insert_insert_eq, Z.sub_0_r. done.
Qed.
End append.
