(* ===== verification/TfsDisk.v ===== *)
(** * The tables on the device

    The image of the tables on the device is decoded to the tables it was
    made from; [mipos_tfs_setup] finds what [mipos_update_fs_on_disk] wrote;
    [mipos_tfs_mkfs] makes an empty file system. *)

From S2P Require Import Prelude Bytes Mutex Tfs TfsInv TfsFile.

(** ** Arrays *)

Lemma mjoin_prefix_length {A} (enc : A → list Z) n (xs : list A) i :
  Forall (λ x, length (enc x) = n) xs → (i ≤ length xs)%nat →
  length (mjoin (enc <$> take i xs)) = (n * i)%nat.
Proof.
  intros Hall. revert i. induction Hall as [|x xs Hx Hall IH]; intros [|i] Hi; simpl in *; try lia.
  rewrite length_app, Hx, IH by lia. lia.
Qed.

(** An array of records of [n] bytes each is decoded record by record. *)
Lemma decode_array_ok {A} (enc : A → list Z) (dec : list Z → A) n off k (pre suf : list Z) (xs : list A) :
  length pre = off → length xs = k → Forall (λ x, length (enc x) = n ∧ dec (enc x) = x) xs →
  decode_array dec n off k (pre ++ mjoin (enc <$> xs) ++ suf) = xs.
Proof.
  intros Hpre Hk Hall. apply list_eq. intros i. unfold decode_array. rewrite list_lookup_fmap.
  destruct (decide (i < k)%nat) as [Hi|Hi].
  - rewrite lookup_seq_lt by done. simpl.
    destruct (lookup_lt_is_Some_2 xs i) as [x Hx]; [lia|]. rewrite Hx. f_equal.
    pose proof (proj1 (Forall_lookup _ _) Hall i x Hx) as [Hlen Hdec].
    assert (bytes_at (off + n * i) n (pre ++ mjoin (enc <$> xs) ++ suf) = enc x) as ->; [|done].
    rewrite <-(take_drop_middle xs i x Hx), fmap_app, join_app. simpl.
    rewrite <-!app_assoc, (app_assoc pre). apply bytes_at_middle; [|done].
    rewrite length_app, (mjoin_prefix_length enc n); [lia| |lia].
    eapply Forall_impl; [exact Hall|]. by intros ? [].
  - rewrite lookup_seq_ge by lia. simpl. symmetry. apply lookup_ge_None. lia.
Qed.

(** ** The tables *)

(** Fields within their widths. *)
Record fd_sane (f : mipos_tfs_fd_t) : Prop := {
  fs_name : length (filename f) = 8%nat;
  fs_size : 0 ≤ fsize f < 2 ^ 32;
  fs_first : 0 ≤ first_cluster f < 2 ^ 16;
}.

Record ftbl_sane (t : mipos_tfs_ftbl_t) : Prop := {
  ts_label : length (volume_description t) = mipos_tfs_MAX_VOLUME_LENGTH;
  ts_pad : length (ftbl_pad t) = 2%nat;
  ts_fds : length (file_fs_desc t) = Z.to_nat mipos_tfs_MAX_N_OF_FILES;
  ts_tbl : length (cluster_tbl t) = Z.to_nat mipos_tfs_CLUSTERS_COUNT;
  ts_fd : Forall fd_sane (file_fs_desc t);
  ts_val : Forall (λ v, 0 ≤ v < 2 ^ 16) (cluster_tbl t);
}.

Lemma encode_fd_length f : fd_sane f → length (encode_fd f) = 16%nat.
Proof. intros [Hn _ _]. unfold encode_fd. rewrite !length_app, !le_bytes_length, Hn. done. Qed.

Lemma decode_encode_fd f : fd_sane f → decode_fd (encode_fd f) = f.
Proof.
  intros Hf. pose proof Hf as [Hn Hs Hc]. unfold decode_fd, encode_fd.
  set (sz := le_bytes 4 (fsize f)). set (fc := le_bytes 2 (first_cluster f)).
  assert (length sz = 4%nat) as Hsz by apply le_bytes_length.
  assert (length fc = 2%nat) as Hfc by apply le_bytes_length.
  rewrite (bytes_at_front (filename f)) by done.
  rewrite (bytes_at_middle (filename f) sz) by done.
  rewrite (app_assoc (filename f) sz), (bytes_at_middle (filename f ++ sz) fc)
    by (rewrite ?length_app; lia).
  rewrite (app_assoc _ fc), (bytes_at_middle ((filename f ++ sz) ++ fc) [erased f] [readonly f])
    by (rewrite ?length_app; simpl; lia).
  change [erased f; readonly f] with ([erased f] ++ [readonly f]). rewrite (app_assoc _ [erased f]).
  rewrite <-(app_nil_r [readonly f]), (bytes_at_middle _ [readonly f] [])
    by (rewrite ?length_app; simpl; lia).
  subst sz fc. rewrite !le_value_bytes by done. destruct f; simpl. f_equal; lia.
Qed.

Lemma encode_fd_array t : ftbl_sane t →
  Forall (λ f, length (encode_fd f) = 16%nat ∧ decode_fd (encode_fd f) = f) (file_fs_desc t).
Proof.
  intros Ht. eapply Forall_impl; [apply (ts_fd _ Ht)|]. intros f Hf.
  split; [by apply encode_fd_length|by apply decode_encode_fd].
Qed.

Lemma encode_tbl_array t : ftbl_sane t →
  Forall (λ v, length (le_bytes 2 v) = 2%nat ∧ le_value (le_bytes 2 v) = v) (cluster_tbl t).
Proof.
  intros Ht. eapply Forall_impl; [apply (ts_val _ Ht)|]. intros v Hv. simpl.
  split; [done|]. by apply (le_value_bytes 2).
Qed.

Lemma mjoin_length {A} (enc : A → list Z) n (xs : list A) :
  Forall (λ x, length (enc x) = n) xs → length (mjoin (enc <$> xs)) = (n * length xs)%nat.
Proof.
  intros Hall. rewrite <-(mjoin_prefix_length enc n xs (length xs) Hall) by done.
  by rewrite firstn_all.
Qed.

Lemma fd_array_length t : ftbl_sane t → length (mjoin (encode_fd <$> file_fs_desc t)) = 128%nat.
Proof.
  intros Ht. rewrite (mjoin_length _ 16); [by rewrite (ts_fds _ Ht)|].
  eapply Forall_impl; [apply encode_fd_array, Ht|]. by intros ? [].
Qed.

Lemma encode_ftbl_length t : ftbl_sane t → Z.of_nat (length (encode_ftbl t)) = sizeof_ftbl.
Proof.
  intros Ht. unfold encode_ftbl. rewrite !length_app, fd_array_length by done.
  rewrite (mjoin_length _ 2) by (apply Forall_true; done).
  rewrite (ts_label _ Ht), (ts_pad _ Ht), (ts_tbl _ Ht). done.
Qed.

Lemma decode_encode_ftbl t : ftbl_sane t → decode_ftbl (encode_ftbl t) = t.
Proof.
  intros Ht. pose proof (fd_array_length t Ht) as Hfl. pose proof Ht as [Hl Hp Hn Ht' _ _].
  unfold decode_ftbl, encode_ftbl.
  set (vol := volume_description t) in *. set (fds := mjoin (encode_fd <$> file_fs_desc t)) in *.
  set (tb := mjoin (le_bytes 2 <$> cluster_tbl t)).
  assert (decode_array decode_fd 16 12 8
    (vol ++ [maj_version t; min_version t] ++ ftbl_pad t ++ fds ++ tb) = file_fs_desc t) as ->.
  { rewrite (app_assoc [_; _]), (app_assoc vol). apply (decode_array_ok encode_fd); [|done|].
    - rewrite !length_app, Hl, Hp. done.
    - by apply encode_fd_array. }
  assert (decode_array le_value 2 140 32
    (vol ++ [maj_version t; min_version t] ++ ftbl_pad t ++ fds ++ tb) = cluster_tbl t) as ->.
  { rewrite <-(app_nil_r tb), (app_assoc (ftbl_pad t)), (app_assoc [_; _]), (app_assoc vol).
    apply (decode_array_ok (le_bytes 2)); [|done|].
    - rewrite !length_app, Hl, Hp, Hfl. done.
    - by apply encode_tbl_array. }
  rewrite (bytes_at_front vol) by done.
  change ([maj_version t; min_version t] ++ ?l) with ([maj_version t] ++ [min_version t] ++ l).
  rewrite (bytes_at_middle vol [maj_version t]) by done.
  rewrite (app_assoc vol [maj_version t]), (bytes_at_middle _ [min_version t])
    by (rewrite ?length_app, ?Hl; done).
  rewrite (app_assoc _ [min_version t]), (bytes_at_middle _ (ftbl_pad t))
    by (rewrite ?length_app, ?Hl; done).
  destruct t; simpl. f_equal; lia.
Qed.

(** ** Writing the tables back and finding them again *)

Section disk.
Context {D : Type} `{IoDev D}.

Implicit Types (cs : list mipos_tfs_ctl_t) (t : mipos_tfs_ftbl_t) (d : D).

(** [bs] lies on the device from [off] on. *)
Definition on_device (d : D) (off : Z) (bs : list Z) : Prop :=
  ∀ i b, bs !! i = Some b → dev_get d (off + Z.of_nat i) = b.

(** From [off] on the device is as before. *)
Definition same_from (off : Z) (d d' : D) : Prop :=
  ∀ x, off ≤ x → dev_get d' x = dev_get d x.

Lemma on_device_read d off bs :
  on_device d off bs → dev_get d <$> seqZ off (Z.of_nat (length bs)) = bs.
Proof.
  intros Hd. apply list_eq. intros i. rewrite list_lookup_fmap.
  destruct (bs !! i) as [b|] eqn:Hb.
  - pose proof (lookup_lt_Some _ _ _ Hb). rewrite lookup_seqZ_lt by lia. simpl. f_equal. by apply Hd.
  - apply lookup_ge_None in Hb. by rewrite lookup_seqZ_ge by lia.
Qed.

Lemma run_update_fs cs t m d e :
  ftbl_sane t → big_enough d →
  ∃ d', mipos_update_fs_on_disk (mk_tfs cs t m d e) = Ok (0, mk_tfs cs t m d' e) ∧
    dev_len d' = dev_len d ∧ on_device d' mipos_tfs_OFFSET (encode_ftbl t) ∧
    same_from sizeof_ftbl d d'.
Proof.
  intros Ht Hb. pose proof (encode_ftbl_length t Ht) as Hlen.
  destruct (io_write_ok d (encode_ftbl t) mipos_tfs_OFFSET) as (d' & Hw & Hl & Hin & Hout).
  { done. }
  { rewrite Hlen. unfold big_enough in Hb. change sizeof_ftbl with 204. tfs_consts. lia. }
  exists d'. split; [|split; [done|split; [done|]]].
  - unfold mipos_update_fs_on_disk. tstep @run_gets. simpl (ftbl _). unfold dev_write. simpl (dev _).
    by rewrite Hw.
  - intros x Hx. apply Hout. right. rewrite Hlen. tfs_consts. lia.
Qed.

Lemma run_setup cs t0 m d e t :
  ftbl_sane t → big_enough d → on_device d mipos_tfs_OFFSET (encode_ftbl t) →
  ∃ d', mipos_tfs_setup (mk_tfs cs t0 m d e) =
      Ok (true, mk_tfs (replicate 8 zero_ctl) t (mk_mtx MUTEX_UNLOCKED) d' e) ∧
    dev_len d' = dev_len d ∧ same_from sizeof_ftbl d d'.
Proof.
  intros Ht Hb Hon. pose proof (encode_ftbl_length t Ht) as Hlen.
  assert (io_read sizeof_ftbl mipos_tfs_OFFSET d = Ok (0, encode_ftbl t)) as Hrd.
  { rewrite io_read_ok; [|done|done|].
    - by rewrite <-Hlen, on_device_read.
    - unfold big_enough in Hb. change sizeof_ftbl with 204. tfs_consts. lia. }
  destruct (run_update_fs (replicate 8 zero_ctl) t m d e Ht Hb) as (d' & Hu & Hl & _ & Hs).
  exists d'. split; [|done]. unfold mipos_tfs_setup. tstep @run_gets. simpl (dev _).
  erewrite tfs_run_bind by (apply tfs_run_lift, Hrd). cbv iota beta.
  rewrite decode_encode_ftbl by done. tstep @run_set_ftbl. change (0 <? 0) with false. cbv iota.
  tstep @run_set_ctls.
  erewrite tfs_run_bind by exact Hu. reflexivity.
Qed.

(** The clusters lie behind the tables. *)
Lemma same_from_fbytes d d' tbl cl n :
  same_from sizeof_ftbl d d' → linked tbl cl →
  n ≤ mipos_tfs_CLUSTER_SIZE * Z.of_nat (length cl) → fbytes d' cl 0 n = fbytes d cl 0 n.
Proof.
  intros Hs Hl Hn. unfold fbytes. apply list_fmap_ext. intros i x Hx.
  apply lookup_seqZ in Hx as [-> Hi]. unfold fbyte. apply Hs. tfs_consts.
  pose proof (Z.div_mod (0 + Z.of_nat i) 32 ltac:(lia)).
  pose proof (Z.mod_pos_bound (0 + Z.of_nat i) 32 ltac:(lia)).
  destruct (lookup_lt_is_Some_2 cl (Z.to_nat ((0 + Z.of_nat i) / 32))) as [c Hc]; [lia|].
  rewrite Hc. simpl. apply list_elem_of_lookup_2, (linked_elem _ _ _ Hl) in Hc.
  unfold caddr. change sizeof_ftbl with 204. tfs_consts. lia.
Qed.

(** ** Formatting *)

Lemma run_format_loop n j cs t m d e :
  big_enough d → (j + n = Z.to_nat mipos_tfs_CLUSTERS_COUNT)%nat →
  length (cluster_tbl t) = Z.to_nat mipos_tfs_CLUSTERS_COUNT →
  ∃ d', format_loop n j (mk_tfs cs t m d e) = Ok (0, mk_tfs cs (set_cluster_tbl
      (take j (cluster_tbl t) ++ replicate n mipos_tfs_FREE_CLUSTER) t) m d' e) ∧
    dev_len d' = dev_len d.
Proof.
  revert j t d. induction n as [|n IH]; intros j t d Hb Hj Hlen.
  { exists d. split; [|done]. simpl. rewrite app_nil_r, take_ge by lia. by destruct t. }
  cbn [format_loop]. tstep @run_gets. simpl (ftbl _). tstep @run_set_ftbl.
  set (bs := replicate (Z.to_nat mipos_tfs_CLUSTER_SIZE) 0).
  destruct (io_write_ok d bs (Z.of_nat j * mipos_tfs_CLUSTER_SIZE + mipos_tfs_OFFSET))
    as (d1 & Hw & Hl & _).
  { tfs_consts. lia. }
  { subst bs. rewrite length_replicate. unfold big_enough in Hb. tfs_consts. lia. }
  set (t1 := set_cluster_tbl (<[j := mipos_tfs_FREE_CLUSTER]> (cluster_tbl t)) t).
  assert (dev_write bs (Z.of_nat j * mipos_tfs_CLUSTER_SIZE + mipos_tfs_OFFSET)
    (mk_tfs cs t1 m d e) = Ok (0, mk_tfs cs t1 m d1 e)) as Hdw.
  { unfold dev_write. simpl (dev _). by rewrite Hw. }
  erewrite tfs_run_bind by exact Hdw. cbv beta.
  destruct (IH (S j) t1 d1) as (d' & Hf & Hl').
  { unfold big_enough. by rewrite Hl. }
  { lia. }
  { simpl. by rewrite length_insert. }
  exists d'. split; [|congruence]. change (truth 0) with false. cbv iota. rewrite Hf.
  do 3 f_equal. unfold t1, set_cluster_tbl. simpl. f_equal.
  rewrite insert_take_drop by lia. rewrite cons_middle, app_assoc, take_app_le
    by (rewrite length_app, length_take; simpl; lia).
  rewrite take_ge by (rewrite length_app, length_take; simpl; lia). by rewrite <-app_assoc.
Qed.

(** The tables of an empty file system. *)
Definition empty_ftbl (label pad : list Z) : mipos_tfs_ftbl_t :=
  mk_ftbl label mipos_tfs_MAX_VERSION mipos_tfs_MIN_VERSION pad
    (replicate 8 (mk_fd (replicate 8 0) 0 0 1 0))
    (replicate (Z.to_nat mipos_tfs_CLUSTERS_COUNT) mipos_tfs_FREE_CLUSTER).

Lemma empty_ftbl_sane label pad :
  length label = 8%nat → length pad = 2%nat → ftbl_sane (empty_ftbl label pad).
Proof.
  intros Hl Hp. split; try done; apply Forall_replicate; [|done]. by split.
Qed.

Lemma empty_ftbl_wf label pad d :
  big_enough d → fs_wf (empty_ftbl label pad) d (replicate 8 []).
Proof.
  intros Hb. split; try done; [|constructor]. simpl. by repeat constructor.
Qed.

Definition label_of (volume : option (list Z)) : list Z :=
  match volume with
  | Some v => let l := take 8 (until_nul v) in l ++ replicate (8 - length l) 0
  | None => replicate 8 0
  end.

Lemma label_of_length volume : length (label_of volume) = 8%nat.
Proof.
  destruct volume as [v|]; [|done]. simpl. rewrite length_app, length_replicate, length_take. lia.
Qed.

Lemma run_mkfs cs t d e volume :
  ftbl_sane t → big_enough d →
  ∃ d', let t' := empty_ftbl (label_of volume) (ftbl_pad t) in
    mipos_tfs_mkfs volume (mk_tfs cs t (mk_mtx MUTEX_UNLOCKED) d e) =
      Ok (true, mk_tfs (replicate 8 zero_ctl) t' (mk_mtx MUTEX_UNLOCKED) d' e) ∧
    dev_len d' = dev_len d ∧ on_device d' mipos_tfs_OFFSET (encode_ftbl t').
Proof.
  intros Ht Hb. set (t' := empty_ftbl (label_of volume) (ftbl_pad t)).
  set (t1 := mk_ftbl (label_of volume) mipos_tfs_MAX_VERSION mipos_tfs_MIN_VERSION (ftbl_pad t)
    (replicate 8 (mk_fd (replicate 8 0) 0 0 1 0)) (cluster_tbl t)).
  destruct (run_format_loop 32 0 (replicate 8 zero_ctl) t1 (mk_mtx MUTEX_LOCKED) d e Hb eq_refl)
    as (d1 & Hf & Hl1); [apply Ht|].
  assert (ftbl_sane t') as Ht' by (apply empty_ftbl_sane; [apply label_of_length|apply Ht]).
  destruct (run_update_fs (replicate 8 zero_ctl) t' (mk_mtx MUTEX_UNLOCKED) d1 e Ht')
    as (d2 & Hu & Hl2 & Hon & _).
  { unfold big_enough. by rewrite Hl1. }
  exists d2. cbv zeta. split; [|split; [congruence|done]]. unfold mipos_tfs_mkfs.
  erewrite tfs_run_bind.
  2: { eapply run_locked. tstep @run_gets. simpl (ftbl _). erewrite tfs_run_bind.
       2: { instantiate (1 := mk_tfs cs t (mk_mtx MUTEX_LOCKED) d e).
            instantiate (1 := label_of volume). destruct volume as [v|]; [|done].
            apply tfs_run_lift. unfold strncpy. rewrite (ts_label _ Ht).
            rewrite drop_ge by (rewrite (ts_label _ Ht); done). by rewrite app_nil_r. }
       cbv beta. tstep @run_set_ftbl. tstep @run_set_ctls. exact Hf. }
  cbv beta. rewrite Z.eqb_refl. erewrite tfs_run_bind by exact Hu. done.
Qed.
End disk.
