(* ===== verification/TfsSpec.v ===== *)
(** * The file system as a list of named files

    First the tables: [mipos_tfs_ffirst] finds the first file whose name begins
    with the name asked for; creating takes the first erased descriptor,
    deleting gives the clusters of the file back.

    The abstract view: for each handle nothing, or a name and the bytes of
    the file.  [fs_ok s A] says that the state [s] holds the files [A]; the
    operations are shown to act on [A]. *)

From S2P Require Import Prelude Bytes Mutex Tfs TfsInv TfsFile TfsWrite TfsAppend TfsDisk.

(** ** Finding, creating and deleting files *)

(** A name that [mipos_tfs_check_file_name] accepts and without zero bytes. *)
Definition good_name (name : list Z) : Prop := mipos_tfs_check_file_name name = true.

Lemma good_name_spec name :
  good_name name → (length name < 8)%nat ∧ Forall (λ c, c ≠ 0 ∧ c ≠ 42) name.
Proof.
  unfold good_name, mipos_tfs_check_file_name, mipos_tfs_MAX_FILENAME_LENGTH.
  destruct (Nat.leb_spec 8 (length name)) as [|Hlt]; [done|]. rewrite forallb_forall. intros Hall.
  split; [done|]. apply Forall_forall. intros c Hc. apply list_elem_of_In, Hall in Hc.
  split; intros ->; by vm_compute in Hc.
Qed.

Lemma jolly_pos_good name : Forall (λ c, c ≠ 0 ∧ c ≠ 42) name → jolly_pos name = length name.
Proof.
  induction 1 as [|c name [_ Hc] Hall IH]; simpl; [done|].
  destruct (Z.eqb_spec c 42); [done|]. by rewrite IH.
Qed.

Lemma until_nul_good name l :
  Forall (λ c, c ≠ 0 ∧ c ≠ 42) name → until_nul (name ++ 0 :: l) = name.
Proof.
  induction 1 as [|c name [Hc _] Hall IH]; simpl; [done|].
  destruct (Z.eqb_spec c 0); [done|]. by rewrite IH.
Qed.

Lemma until_nul_name name : Forall (λ c, c ≠ 0 ∧ c ≠ 42) name → until_nul name = name.
Proof. intros Hn. apply until_nul_id. eapply Forall_impl; [exact Hn|]. by intros c [? _]. Qed.

(** Reading back what [strncpy] copied to a zeroed name buffer. *)
Lemma strncpy_cstr src n :
  (n < 8)%nat → ∃ buf, strncpy (replicate 8 0) src n = Ok buf ∧
    cstr buf = Ok (take n (until_nul src)).
Proof.
  intros Hn. unfold strncpy. rewrite length_replicate.
  replace (Nat.ltb 8 n) with false by (symmetry; apply Nat.ltb_ge; lia).
  eexists. split; [reflexivity|]. set (cs := take n (until_nul src)).
  assert (Forall (λ c, c ≠ 0) cs) as Hcs by (apply Forall_take, until_nul_nonzero).
  rewrite drop_replicate, <-replicate_add.
  destruct (n - length cs + (8 - n))%nat as [|m] eqn:E; [lia|]. simpl. by apply cstr_app.
Qed.

(** The files [mipos_tfs_ffirst] accepts. *)
Definition named (name : list Z) (f : mipos_tfs_fd_t) : Prop :=
  erased f = 0 ∧ take (length name) (until_nul (filename f)) = name.

#[global] Instance named_dec name f : Decision (named name f).
Proof. unfold named. apply _. Defined.

Definition first_named (name : list Z) (fds : list mipos_tfs_fd_t) : option Z :=
  (λ p, Z.of_nat p.1) <$> list_find (named name) fds.

Section names.
Context {D : Type}.

#[local] Abbreviation st cs t d e := (mk_tfs cs t (mk_mtx MUTEX_UNLOCKED) d e).

Implicit Types (cs : list mipos_tfs_ctl_t) (t : mipos_tfs_ftbl_t) (d : D).

Lemma run_erased_at cs t d e i f :
  file_fs_desc t !! i = Some f →
  locked_do (f ← fd_at (Z.of_nat i); mret (erased f)) (st cs t d e) = Ok (erased f, st cs t d e).
Proof.
  intros Hf. eapply run_locked. erewrite tfs_run_bind by (apply run_fd_at; by rewrite Nat2Z.id). done.
Qed.

Lemma run_ffirst_loop n i cs t d e name :
  (length name < 8)%nat → length (file_fs_desc t) = (i + n)%nat →
  ffirst_loop n i (length name) name (st cs t d e) =
    Ok ((λ p, Z.of_nat (i + p.1)) <$> list_find (named name) (drop i (file_fs_desc t)),
        st cs t d e).
Proof.
  intros Hname. revert i. induction n as [|n IH]; intros i Hlen; cbn [ffirst_loop].
  { by rewrite drop_ge by lia. }
  destruct (lookup_lt_is_Some_2 (file_fs_desc t) i) as [f Hf]; [lia|].
  erewrite drop_S by exact Hf. erewrite tfs_run_bind by (by apply run_erased_at). cbv beta.
  cbn [list_find]. specialize (IH (S i) ltac:(lia)).
  assert (¬ named name f → ffirst_loop n (S i) (length name) name (st cs t d e) =
    Ok ((λ p, Z.of_nat (i + p.1)) <$> (if decide (named name f) then Some (0%nat, f)
        else prod_map S id <$> list_find (named name) (drop (S i) (file_fs_desc t))), st cs t d e))
    as Hskip.
  { intros Hn. rewrite decide_False by done. rewrite IH. do 2 f_equal.
    destruct (list_find _ _) as [[k g]|]; [|done]. simpl. do 2 f_equal. lia. }
  unfold truth. destruct (Z.eqb_spec (erased f) 0) as [He|He]; cbn [negb]; cycle 1.
  { apply Hskip. intros [? _]. done. }
  destruct (strncpy_cstr (filename f) (length name) Hname) as (buf & Hbuf & Hcstr).
  erewrite tfs_run_bind.
  2: { eapply run_locked. erewrite tfs_run_bind by (apply run_fd_at; by rewrite Nat2Z.id).
       eapply tfs_run_lift, Hbuf. }
  cbv beta. erewrite tfs_run_bind by (eapply tfs_run_lift, Hcstr). cbv beta.
  destruct (decide (take (length name) (until_nul (filename f)) = name)) as [Heq|Hne].
  - rewrite decide_True by done. simpl. by rewrite Nat.add_0_r.
  - apply Hskip. intros [_ ?]. done.
Qed.

Lemma run_ffirst cs t d e name :
  good_name name → length (file_fs_desc t) = Z.to_nat mipos_tfs_MAX_N_OF_FILES →
  mipos_tfs_ffirst (Some name) (st cs t d e) =
    Ok (first_named name (file_fs_desc t), st cs t d e).
Proof.
  intros Hg Hlen. pose proof (good_name_spec _ Hg) as [Hlt Hall]. unfold mipos_tfs_ffirst.
  rewrite jolly_pos_good by done.
  destruct (strncpy_cstr name (length name) Hlt) as (buf & Hbuf & Hcstr).
  erewrite tfs_run_bind by (eapply tfs_run_lift, Hbuf). cbv beta.
  erewrite tfs_run_bind by (eapply tfs_run_lift, Hcstr). cbv beta.
  rewrite until_nul_name, firstn_all, Hg by done.
  by rewrite run_ffirst_loop.
Qed.

Lemma run_find_erased n i cs t d e :
  length (file_fs_desc t) = (i + n)%nat →
  find_erased n i (st cs t d e) =
    Ok ((λ p, Z.of_nat (i + p.1)) <$> list_find (λ f, erased f ≠ 0) (drop i (file_fs_desc t)),
        st cs t d e).
Proof.
  revert i. induction n as [|n IH]; intros i Hlen; cbn [find_erased].
  { by rewrite drop_ge by lia. }
  destruct (lookup_lt_is_Some_2 (file_fs_desc t) i) as [f Hf]; [lia|].
  erewrite drop_S by exact Hf. erewrite tfs_run_bind by (by apply run_erased_at). cbv beta.
  cbn [list_find]. unfold truth. destruct (Z.eqb_spec (erased f) 0) as [He|He]; cbn [negb].
  - rewrite decide_False by lia. rewrite IH by lia. do 2 f_equal.
    destruct (list_find _ _) as [[k g]|]; [|done]. simpl. do 2 f_equal. lia.
  - rewrite decide_True by done. simpl. by rewrite Nat.add_0_r.
Qed.
End names.

(** ** The abstract view *)

(** A file: its name and its contents. *)
Abbreviation file := (list Z * list Z)%type.

(** Clusters that [n] bytes occupy, and that all files occupy. *)
Definition clusters_for (n : nat) : nat :=
  Z.to_nat ((Z.of_nat n + (mipos_tfs_CLUSTER_SIZE - 1)) / mipos_tfs_CLUSTER_SIZE).
Definition used (A : list (option file)) : nat :=
  sum_list_with (from_option (λ p : file, clusters_for (length p.2)) 0%nat) A.

(** ** Free clusters are those of no file *)

Lemma free_count_indices (tbl : list Z) :
  free_count tbl =
    length (filter (λ i, tbl !! i = Some mipos_tfs_FREE_CLUSTER) (seq 0 (length tbl))).
Proof.
  unfold free_count. induction tbl as [|v tbl IH]; simpl; [done|].
  rewrite !filter_cons, <-fmap_S_seq. simpl.
  assert (length (filter (λ i, (v :: tbl) !! i = Some mipos_tfs_FREE_CLUSTER) (S <$> seq 0 (length tbl))) =
          length (filter (λ i, tbl !! i = Some mipos_tfs_FREE_CLUSTER) (seq 0 (length tbl)))) as Hs.
  { generalize (seq 0 (length tbl)). intros l. induction l as [|i l IHl]; [done|].
    rewrite fmap_cons, !filter_cons. simpl. case_decide; simpl; by rewrite IHl. }
  destruct (decide (v = mipos_tfs_FREE_CLUSTER)) as [->|Hv].
  - rewrite decide_True by done. simpl. by rewrite IH, Hs.
  - rewrite decide_False by congruence. by rewrite IH, Hs.
Qed.

(** Every cluster is free or belongs to a chain. *)
Definition no_leak (tbl : list Z) (chains : list (list Z)) : Prop :=
  ∀ c, 0 ≤ c < mipos_tfs_CLUSTERS_COUNT →
    tbl !! Z.to_nat c = Some mipos_tfs_FREE_CLUSTER ∨ c ∈ mjoin chains.

Lemma free_count_chains tbl chains :
  length tbl = Z.to_nat mipos_tfs_CLUSTERS_COUNT → NoDup (mjoin chains) →
  Forall (linked tbl) chains → no_leak tbl chains →
  (free_count tbl + length (mjoin chains) = Z.to_nat mipos_tfs_CLUSTERS_COUNT)%nat.
Proof.
  intros Hlen Hnd Hl Hleak. rewrite free_count_indices.
  assert (∀ c, c ∈ mjoin chains → 0 ≤ c < mipos_tfs_CLUSTERS_COUNT ∧
    tbl !! Z.to_nat c ≠ Some mipos_tfs_FREE_CLUSTER) as Hin.
  { intros c (cl & Hc & Hcl)%list_elem_of_join. rewrite Forall_forall in Hl. specialize (Hl _ Hcl).
    split; [by eapply linked_elem|by eapply linked_not_free]. }
  rewrite <-(length_fmap Z.to_nat (mjoin chains)), <-length_app.
  transitivity (length (seq 0 (length tbl))); [|by rewrite length_seq].
  apply Permutation_length, NoDup_Permutation.
  - apply NoDup_app. split; [apply NoDup_filter, NoDup_seq|]. split.
    + intros i (Hi & _)%list_elem_of_filter (c & -> & Hc)%list_elem_of_fmap. by apply (Hin c Hc).
    + apply NoDup_fmap_2_strong; [|done]. intros x y Hx%Hin Hy%Hin ?. lia.
  - apply NoDup_seq.
  - intros i. rewrite elem_of_app, list_elem_of_filter, list_elem_of_fmap, elem_of_seq. split.
    + intros [[_ ?]|(c & -> & Hc)]; [done|]. apply Hin in Hc. tfs_consts. lia.
    + intros Hi. destruct (Hleak (Z.of_nat i)) as [Hf|Hc]; [tfs_consts; lia| |].
      * rewrite Nat2Z.id in Hf. by left.
      * right. exists (Z.of_nat i). by rewrite Nat2Z.id.
Qed.

Section spec.
Context {D : Type} `{IoDev D}.

#[local] Abbreviation st cs t d e := (mk_tfs cs t (mk_mtx MUTEX_UNLOCKED) d e).

Implicit Types (cs : list mipos_tfs_ctl_t) (t : mipos_tfs_ftbl_t) (d : D)
  (A : list (option file)).

(** The file a descriptor and its chain stand for. *)
Definition file_of (d : D) (f : mipos_tfs_fd_t) (cl : list Z) : option file :=
  if erased f =? 0 then Some (until_nul (filename f), contents d f cl) else None.

(** Names are terminated within their field. *)
Definition terminated (f : mipos_tfs_fd_t) : Prop := filename f !! 7%nat = Some 0.

(** The tables and the device hold the files [A], in [chains]. *)
Record holds (t : mipos_tfs_ftbl_t) (d : D) (chains : list (list Z)) (A : list (option file))
    : Prop := {
  ho_wf : fs_wf t d chains;
  ho_sane : ftbl_sane t;
  ho_names : Forall terminated (file_fs_desc t);
  ho_leak : no_leak (cluster_tbl t) chains;
  ho_files : A = zip_with (file_of d) (file_fs_desc t) chains;
}.

(** ... and nobody is inside the file system. *)
Record fs_ok (s : mipos_tfs_t D) (A : list (option file)) : Prop := {
  ok_lock : fs_lock s = mk_mtx MUTEX_UNLOCKED;
  ok_ctls : length (file_ctl s) = Z.to_nat mipos_tfs_MAX_N_OF_FILES;
  ok_holds : ∃ chains, holds (ftbl s) (dev s) chains A;
}.

(** The control blocks say nothing about the files. *)
Lemma fs_ok_ctls s A cs e :
  fs_ok s A → length cs = Z.to_nat mipos_tfs_MAX_N_OF_FILES →
  fs_ok (mk_tfs cs (ftbl s) (fs_lock s) (dev s) e) A.
Proof. intros [Hl _ Hh] Hc. by constructor. Qed.

Lemma holds_length t d chains A : holds t d chains A → length A = 8%nat ∧ length chains = 8%nat.
Proof.
  intros [Hw _ _ _ ->]. pose proof (Forall2_length _ _ _ (fw_files _ _ _ Hw)) as Hl.
  rewrite length_zip_with, <-Hl, (fw_fds _ _ _ Hw). done.
Qed.

(** The file at a handle. *)
Lemma holds_lookup t d chains A i a :
  holds t d chains A → A !! i = Some a →
  ∃ f cl, file_fs_desc t !! i = Some f ∧ chains !! i = Some cl ∧ a = file_of d f cl ∧
    file_wf (cluster_tbl t) f cl ∧ fd_sane f ∧ terminated f.
Proof.
  intros Hh Ha. rewrite (ho_files _ _ _ _ Hh) in Ha.
  apply lookup_zip_with_Some in Ha as (f & cl & -> & Hf & Hcl). exists f, cl.
  split_and!; try done.
  - eapply fw_file; [apply Hh|done..].
  - by eapply Forall_lookup_1; [apply Hh|].
  - by eapply Forall_lookup_1; [apply Hh|].
Qed.

Lemma file_of_Some t d f cl nm bs :
  file_wf (cluster_tbl t) f cl → file_of d f cl = Some (nm, bs) →
  erased f = 0 ∧ nm = until_nul (filename f) ∧ bs = contents d f cl ∧
  fsize f = Z.of_nat (length bs) ∧ length cl = clusters_for (length bs).
Proof.
  unfold file_of, file_wf. destruct (Z.eqb_spec (erased f) 0) as [He|]; [|done].
  intros (_ & Hs & Hl) [= <- <-]. split_and!; try done.
  - by rewrite contents_length.
  - unfold clusters_for. rewrite contents_length by done. lia.
Qed.

(** The clusters in use are those the files need. *)
Lemma holds_used t d chains A : holds t d chains A → length (mjoin chains) = used A.
Proof.
  intros Hh. pose proof (fw_files _ _ _ (ho_wf _ _ _ _ Hh)) as Hall.
  rewrite (ho_files _ _ _ _ Hh). unfold used. clear Hh.
  induction Hall as [|f cl fds chains Hf Hall IH]; simpl; [done|]. rewrite length_app, IH. f_equal.
  unfold file_of, file_wf in *. destruct (Z.eqb_spec (erased f) 0); [|by subst cl].
  destruct Hf as (_ & Hs & Hl). simpl. unfold clusters_for. rewrite contents_length by done. lia.
Qed.

Lemma holds_free t d chains A :
  holds t d chains A → (free_count (cluster_tbl t) + used A = 32)%nat.
Proof.
  intros Hh. rewrite <-(holds_used _ _ _ _ Hh). apply free_count_chains.
  - apply Hh.
  - apply Hh.
  - apply Forall_forall. intros cl (i & Hi)%list_elem_of_lookup_1.
    destruct (Forall2_lookup_r _ _ _ _ _ (fw_files _ _ _ (ho_wf _ _ _ _ Hh)) Hi) as (f & _ & Hf).
    by eapply file_wf_linked.
  - apply Hh.
Qed.

(** ** Changing one file *)

(** Writing the tables back changes no file. *)
Lemma holds_same_from t d d' chains A :
  holds t d chains A → dev_len d' = dev_len d → same_from sizeof_ftbl d d' → holds t d' chains A.
Proof.
  intros [Hw Hs Hn Hl Hf] Hdl Hsf. pose proof Hw as [W1 W2 W3 W4 W5]. split; try done.
  - split; try done. unfold big_enough in *. by rewrite Hdl.
  - rewrite Hf. clear -W4 Hsf. induction W4 as [|f cl fds chains Hfc Hall IH]; simpl; [done|].
    rewrite IH. f_equal. unfold file_of. destruct (Z.eqb_spec (erased f) 0) as [He|]; [|done].
    do 2 f_equal. symmetry. eapply same_from_fbytes; [done|by eapply file_wf_linked|by eapply file_wf_size].
Qed.

Lemma holds_update t d chains A h f' cl' tbl' d' :
  holds t d chains A → (h < 8)%nat →
  fs_wf (set_cluster_tbl tbl' (set_file_fs_desc (<[h := f']> (file_fs_desc t)) t)) d'
    (<[h := cl']> chains) →
  fd_sane f' → terminated f' → Forall (λ v, 0 ≤ v < 2 ^ 16) tbl' →
  no_leak tbl' (<[h := cl']> chains) →
  (∀ j g cg, j ≠ h → file_fs_desc t !! j = Some g → chains !! j = Some cg → erased g = 0 →
     contents d' g cg = contents d g cg) →
  holds (set_cluster_tbl tbl' (set_file_fs_desc (<[h := f']> (file_fs_desc t)) t)) d'
    (<[h := cl']> chains) (<[h := file_of d' f' cl']> A).
Proof.
  intros Hh Hlt Hw Hsane Hterm Htbl Hleak Hother. pose proof (ho_sane _ _ _ _ Hh) as [T1 T2 T3 T4 T5 T6].
  split; try done.
  - split; simpl; try done.
    + by rewrite length_insert.
    + apply Hw.
    + by apply Forall_insert.
  - simpl. apply Forall_insert; [apply Hh|done].
  - simpl. rewrite <-insert_zip_with. apply list_eq. intros i.
    destruct (decide (i = h)) as [->|Hne].
    + pose proof (holds_length _ _ _ _ Hh) as [HA Hc].
      rewrite !list_lookup_insert_eq; [done|rewrite length_zip_with, T3, Hc; tfs_consts; lia|lia].
    + rewrite !list_lookup_insert_ne by done. rewrite (ho_files _ _ _ _ Hh), !lookup_zip_with.
      destruct (file_fs_desc t !! i) as [g|] eqn:Hg; [|done]. simpl.
      destruct (chains !! i) as [cg|] eqn:Hcg; [|done]. simpl. f_equal. unfold file_of.
      destruct (Z.eqb_spec (erased g) 0); [|done]. do 2 f_equal. symmetry. by eapply Hother.
Qed.

Lemma mjoin_insert_elem (chains : list (list Z)) h cl cl' c :
  chains !! h = Some cl → c ∈ mjoin chains → c ∈ cl ∨ c ∈ mjoin (<[h := cl']> chains).
Proof.
  intros Hh (cj & Hc & Hcj)%list_elem_of_join. apply list_elem_of_lookup_1 in Hcj as [j Hj].
  destruct (decide (j = h)) as [->|Hne]; [left; congruence|right].
  apply list_elem_of_join. exists cj. split; [done|]. apply list_elem_of_lookup. exists j.
  by rewrite list_lookup_insert_ne.
Qed.

(** Values of a linked chain are clusters or end marks. *)
Lemma linked_values tbl cl c v :
  linked tbl cl → c ∈ cl → tbl !! Z.to_nat c = Some v → 0 ≤ v < 2 ^ 16.
Proof.
  intros Hl (i & Hi)%list_elem_of_lookup_1 Hv. destruct (linked_lookup _ _ _ _ Hl Hi) as (w & Hw & Hm).
  assert (w = v) as -> by congruence. destruct (cl !! S i) as [c'|] eqn:Hc'.
  - subst c'. apply list_elem_of_lookup_2, (linked_elem _ _ _ Hl) in Hc'. tfs_consts. lia.
  - unfold mipos_tfs_FREE_CLUSTER in Hm. tfs_consts. lia.
Qed.

Lemma grown_values tbl d cl q src cl' tbl' d' :
  grown tbl d cl q src cl' tbl' d' → Forall (λ v, 0 ≤ v < 2 ^ 16) tbl →
  Forall (λ v, 0 ≤ v < 2 ^ 16) tbl'.
Proof.
  intros [G1 _ _ _ _ G6 _ _ _ _] Hall. apply Forall_lookup. intros i v Hv.
  destruct (decide (Exists (λ x, i = Z.to_nat x) cl')) as [(x & Hx & ->)%Exists_exists|Hn].
  - by eapply linked_values.
  - rewrite G6 in Hv; [by eapply (proj1 (Forall_lookup _ _) Hall)|].
    intros x Hx ->. apply Hn, Exists_exists. eauto.
Qed.

Lemma grown_no_leak tbl d cl q src cl' tbl' d' chains h :
  grown tbl d cl q src cl' tbl' d' → chains !! h = Some cl → no_leak tbl chains →
  no_leak tbl' (<[h := cl']> chains).
Proof.
  intros [G1 _ _ [ext ->] _ G6 _ _ _ _] Hh Hleak c Hc. destruct (decide (c ∈ cl ++ ext)) as [Hin|Hn].
  - right. apply list_elem_of_join. exists (cl ++ ext). split; [done|].
    apply list_elem_of_lookup. exists h. apply list_lookup_insert_eq. by eapply lookup_lt_Some.
  - rewrite G6; [|intros x Hx ?; apply (linked_elem _ _ _ G1) in Hx as Hxb; by assert (c = x) as <- by lia].
    destruct (Hleak c Hc) as [?|Hin]; [by left|].
    apply (mjoin_insert_elem chains h cl (cl ++ ext) c Hh) in Hin as [?|?]; [set_solver|by right].
Qed.

Lemma hd_elem (l : list Z) : l ≠ [] → hd 0 l ∈ l.
Proof. destruct l; [done|]. simpl. set_solver. Qed.

(** Appending: the file gets longer, the others stay. *)
Lemma holds_grown t d chains A h nm bs f cl src cl' tbl' d' :
  holds t d chains A → A !! h = Some (Some (nm, bs)) →
  file_fs_desc t !! h = Some f → chains !! h = Some cl →
  grown (cluster_tbl t) d cl (fsize f) src cl' tbl' d' → cl' ≠ [] →
  let f' := set_first_cluster (hd 0 cl') (set_fsize (fsize f + Z.of_nat (length src)) f) in
  holds (set_cluster_tbl tbl' (set_file_fs_desc (<[h := f']> (file_fs_desc t)) t)) d'
    (<[h := cl']> chains) (<[h := Some (nm, bs ++ src)]> A).
Proof.
  intros Hh Ha Hf Hcl Hgr Hne f'.
  destruct (holds_lookup _ _ _ _ _ _ Hh Ha) as (f0 & cl0 & Hf0 & Hcl0 & Hof & Hfw & Hsane & Hterm).
  assert (f0 = f) as -> by congruence. assert (cl0 = cl) as -> by congruence.
  destruct (file_of_Some _ _ _ _ _ _ Hfw (eq_sym Hof)) as (Her & Hnm & Hbs & Hsz & Hlen).
  pose proof Hgr as [G1 G2 G3 G4 G5 G6 G7 G8 G9 G10].
  pose proof (linked_short _ _ G1 G2) as Hshort.
  pose proof (linked_elem _ _ _ G1 (hd_elem _ Hne)) as Hhd. tfs_consts.
  pose proof (Z.div_mod (fsize f + Z.of_nat (length src) + (32 - 1)) 32 ltac:(lia)) as Hdm.
  pose proof (Z.mod_pos_bound (fsize f + Z.of_nat (length src) + (32 - 1)) 32 ltac:(lia)) as Hmb.
  destruct (fs_wf_grown t d chains h f cl src cl' tbl' d' f') as (Hw & Hcont & Hother); try done.
  { apply Hh. }
  { lia. }
  { split; [done|]. by destruct cl' as [|c0 cl1]. }
  assert (file_of d' f' cl' = Some (nm, bs ++ src)) as <-.
  { unfold file_of. change (erased f') with (erased f). rewrite Her, Hcont. simpl.
    by rewrite Hnm, Hbs. }
  pose proof (holds_length _ _ _ _ Hh) as [HA _].
  apply (holds_update t d); try done.
  - rewrite <-HA. by eapply lookup_lt_Some.
  - destruct Hsane as [S1 S2 S3]. split; [done| |]; simpl; lia.
  - eapply grown_values; [done|]. apply Hh.
  - eapply grown_no_leak; [done|done|]. apply Hh.
Qed.

Lemma used_lookup A h a :
  A !! h = Some a → ∀ b, (used (<[h := b]> A) + from_option (λ p : file, clusters_for (length p.2)) 0 a =
    used A + from_option (λ p : file, clusters_for (length p.2)) 0 b)%nat.
Proof.
  intros Ha b. pose proof (lookup_lt_Some _ _ _ Ha). unfold used.
  rewrite insert_take_drop by done. rewrite <-(take_drop_middle A h a Ha) at 3.
  rewrite !sum_list_with_app. simpl. lia.
Qed.

(** Writing at the end of an open file that fits on the device. *)
Lemma run_append s A h nm bs ctl src :
  fs_ok s A → 0 ≤ h < mipos_tfs_MAX_N_OF_FILES →
  A !! Z.to_nat h = Some (Some (nm, bs)) → file_ctl s !! Z.to_nat h = Some ctl →
  (∀ f, file_fs_desc (ftbl s) !! Z.to_nat h = Some f → readonly f = 0) →
  locked ctl = 0 → open ctl ≠ 0 → file_open_mode ctl = mipos_tfs_FILE_OPEN_WRITE →
  seek_pointer ctl = Z.of_nat (length bs) → src ≠ [] →
  (used (<[Z.to_nat h := Some (nm, bs ++ src)]> A) ≤ Z.to_nat mipos_tfs_CLUSTERS_COUNT)%nat →
  ∃ s', mipos_tfs_write_file src (Z.of_nat (length src)) h s =
      Ok ((true, Some (Z.of_nat (length src))), s') ∧
    fs_ok s' (<[Z.to_nat h := Some (nm, bs ++ src)]> A) ∧
    file_ctl s' = <[Z.to_nat h := after_write ctl (Z.of_nat (length (bs ++ src)))]> (file_ctl s) ∧
    (∀ f, file_fs_desc (ftbl s') !! Z.to_nat h = Some f → readonly f = 0) ∧
    mipos_tfs_last_error_code_t s' = mipos_tfs_last_error_code_t s.
Proof.
  intros [Hlock Hctls [chains Hh]] Hb Ha Hctl Hro Hlk Hop Hmode Hsp Hsrc Hroom.
  destruct s as [cs t m d e]. simpl in *. subst m.
  destruct (holds_lookup _ _ _ _ _ _ Hh Ha) as (f & cl & Hf & Hcl & Hof & Hfw & Hsane & Hterm).
  destruct (file_of_Some _ _ _ _ _ _ Hfw (eq_sym Hof)) as (Her & Hnm & Hbs & Hsz & Hlen).
  assert (0 < Z.of_nat (length src)) as Hn by (destruct src; [done|simpl; lia]).
  pose proof (holds_free _ _ _ _ Hh) as Hfree.
  pose proof (used_lookup A _ _ Ha (Some (nm, bs ++ src))) as Hused. simpl in Hused.
  destruct (run_write_append cs t d e chains h f cl ctl src) as (cl' & tbl' & d' & Hrun & Hgr & Hne);
    try done.
  - apply Hh.
  - by apply Hro.
  - congruence.
  - rewrite Hsz, Hlen. unfold clusters_for in *. rewrite length_app, Nat2Z.inj_add in Hused. tfs_consts.
    pose proof (Z.div_pos (Z.of_nat (length bs) + Z.of_nat (length src) + (32 - 1)) 32). lia.
  - cbv zeta in Hrun. eexists. split; [exact Hrun|]. rewrite length_app, Nat2Z.inj_add, Hsz.
    split; [|split; [done|split; [|done]]].
    + constructor; simpl; [done|by rewrite length_insert|]. eexists. rewrite <-Hsz. by eapply holds_grown.
    + simpl. intros g Hg. rewrite list_lookup_insert_eq in Hg by (by eapply lookup_lt_Some).
      injection Hg as <-. simpl. by apply Hro.
Qed.
End spec.
