(* ===== verification/TfsOps.v ===== *)
(** * Creating, deleting, formatting and mounting, on the files *)

From S2P Require Import Prelude Bytes Mutex Tfs TfsInv TfsFile TfsWrite TfsAppend TfsDisk TfsSpec.

Section ops.
Context {D : Type} `{IoDev D}.

#[local] Abbreviation st cs t d e := (mk_tfs cs t (mk_mtx MUTEX_UNLOCKED) d e).

Implicit Types (cs : list mipos_tfs_ctl_t) (t : mipos_tfs_ftbl_t) (d : D)
  (A : list (option file)).

(** ** Formatting *)

Lemma holds_empty label pad d :
  length label = 8%nat → length pad = 2%nat → big_enough d →
  holds (empty_ftbl label pad) d (replicate 8 []) (replicate 8 None).
Proof.
  intros Hl Hp Hb. split.
  - by apply empty_ftbl_wf.
  - by apply empty_ftbl_sane.
  - by apply Forall_replicate.
  - intros c Hc. left. apply lookup_replicate. tfs_consts. split; [done|lia].
  - done.
Qed.

(** ** Creating *)

Definition created_ctl (c : mipos_tfs_ctl_t) : mipos_tfs_ctl_t :=
  mk_ctl 0 (eof_while_read c) 1 0 mipos_tfs_FILE_OPEN_WRITE.

(** The name field [mipos_tfs_create_file] leaves. *)
Lemma create_name old name :
  good_name name → length old = 8%nat → old !! 7%nat = Some 0 →
  ∃ nm, strncpy old name (mipos_tfs_MAX_FILENAME_LENGTH - 1) = Ok nm ∧
    length nm = 8%nat ∧ nm !! 7%nat = Some 0 ∧ until_nul nm = name.
Proof.
  intros Hg Hlen H7. pose proof (good_name_spec _ Hg) as [Hlt Hall].
  unfold strncpy, mipos_tfs_MAX_FILENAME_LENGTH. simpl. rewrite Hlen. simpl (Nat.ltb 8 7).
  rewrite until_nul_name by done.
  assert (take 7 name = name) as -> by (apply take_ge; lia).
  assert (drop 7 old = [0]) as ->.
  { rewrite (drop_S old 0 7) by done. by rewrite drop_ge by lia. }
  eexists. split; [reflexivity|].
  replace [0] with (replicate 1 0) by done. rewrite <-replicate_add.
  replace (7 - length name + 1)%nat with (S (7 - length name)) by lia. split_and!.
  - rewrite length_app, length_replicate. lia.
  - rewrite lookup_app_r by lia. apply lookup_replicate. split; [done|lia].
  - simpl. by apply until_nul_good.
Qed.

Lemma fs_wf_created t d chains h f' :
  fs_wf t d chains → chains !! h = Some [] → erased f' = 0 → fsize f' = 0 →
  mipos_tfs_CLUSTERS_COUNT ≤ first_cluster f' → (h < length (file_fs_desc t))%nat →
  fs_wf (set_file_fs_desc (<[h := f']> (file_fs_desc t)) t) d chains.
Proof.
  intros [W1 W2 W3 W4 W5] Hc He Hs Hf Hlt. split; simpl; try done; [by rewrite length_insert|].
  rewrite <-(list_insert_id chains h [] Hc). apply Forall2_insert; [done|].
  unfold file_wf. rewrite He, Hs. done.
Qed.

Lemma holds_created t d chains A h f f' nm :
  holds t d chains A → file_fs_desc t !! h = Some f → erased f ≠ 0 → (h < 8)%nat →
  erased f' = 0 → fsize f' = 0 → first_cluster f' = mipos_tfs_EMPTY_CLUSTER →
  fd_sane f' → terminated f' → until_nul (filename f') = nm →
  holds (set_file_fs_desc (<[h := f']> (file_fs_desc t)) t) d chains (<[h := Some (nm, [])]> A).
Proof.
  intros Hh Hf Her Hlt He Hs Hfc Hsane Hterm Hnm. pose proof (holds_length _ _ _ _ Hh) as [HA Hc8].
  destruct (lookup_lt_is_Some_2 chains h) as [cl Hcl]; [lia|].
  pose proof (fw_file _ _ _ _ _ _ (ho_wf _ _ _ _ Hh) Hf Hcl) as Hfw. unfold file_wf in Hfw.
  destruct (Z.eqb_spec (erased f) 0) as [|_]; [done|]. subst cl.
  pose proof (holds_update t d chains A h f' [] (cluster_tbl t) d Hh Hlt) as Hu.
  rewrite (list_insert_id chains h []) in Hu by done.
  replace (set_cluster_tbl (cluster_tbl t) (set_file_fs_desc (<[h := f']> (file_fs_desc t)) t))
    with (set_file_fs_desc (<[h := f']> (file_fs_desc t)) t) in Hu by done.
  assert (file_of d f' [] = Some (nm, [])) as Hfo.
  { unfold file_of, contents. by rewrite He, Hs, Hnm. }
  rewrite Hfo in Hu. apply Hu; [|done|done|apply Hh|apply Hh|done].
  apply fs_wf_created; try done; [apply Hh|by rewrite Hfc|by eapply lookup_lt_Some].
Qed.

Lemma run_create s A name k f :
  fs_ok s A → good_name name → first_named name (file_fs_desc (ftbl s)) = None →
  list_find (λ f, erased f ≠ 0) (file_fs_desc (ftbl s)) = Some (k, f) →
  ∃ s', mipos_tfs_create_file name s = Ok ((true, Z.of_nat k), s') ∧
    fs_ok s' (<[k := Some (name, [])]> A) ∧ A !! k = Some None ∧
    file_ctl s' = alter created_ctl k (file_ctl s) ∧
    (∀ f, file_fs_desc (ftbl s') !! k = Some f → readonly f = 0) ∧
    on_device (dev s') mipos_tfs_OFFSET (encode_ftbl (ftbl s')).
Proof.
  intros [Hlock Hctls [chains Hh]] Hg Hnone Hfind. destruct s as [cs t m d e]. simpl in *. subst m.
  pose proof (ts_fds _ (ho_sane _ _ _ _ Hh)) as Hfds.
  apply list_find_Some in Hfind as Hfind'. destruct Hfind' as (Hf & Her & _).
  pose proof (lookup_lt_Some _ _ _ Hf) as Hlt. rewrite Hfds in Hlt.
  pose proof (holds_length _ _ _ _ Hh) as [HA _].
  destruct (lookup_lt_is_Some_2 A k) as [a Ha]; [tfs_consts; lia|].
  destruct (holds_lookup _ _ _ _ _ _ Hh Ha) as (f0 & cl & Hf0 & Hcl & Hof & Hfw & Hsane & Hterm).
  assert (f0 = f) as -> by congruence.
  destruct (create_name (filename f) name) as (nm & Hcpy & Hnl & Hn7 & Hnu); [done|apply Hsane|done|].
  set (f' := mk_fd nm 0 mipos_tfs_EMPTY_CLUSTER 0 0).
  set (t' := set_file_fs_desc (<[k := f']> (file_fs_desc t)) t).
  assert (holds t' d chains (<[k := Some (name, [])]> A)) as Hh'.
  { eapply holds_created; try done; by split. }
  destruct (lookup_lt_is_Some_2 cs k) as [ctl Hctl]; [tfs_consts; lia|].
  destruct (run_update_fs (alter created_ctl k cs) t' (mk_mtx MUTEX_UNLOCKED) d e)
    as (d' & Hu & Hdl & Hon & Hsf); [apply Hh'|apply Hh|].
  exists (st (alter created_ctl k cs) t' d' e). split; [|split; [|split; [|split; [done|split; [|done]]]]].
  - unfold mipos_tfs_create_file, mipos_tfs_fexist. rewrite Hg. cbn [negb].
    erewrite tfs_run_bind.
    2: { erewrite tfs_run_bind by (apply run_ffirst; [done|apply Hh]). rewrite Hnone. reflexivity. }
    cbv iota beta. erewrite tfs_run_bind by (apply run_find_erased; rewrite Hfds; done).
    rewrite drop_0, Hfind. simpl (fmap _ _). cbv iota beta.
    erewrite tfs_run_bind.
    2: { eapply run_locked. erewrite tfs_run_bind by (apply run_fd_at; rewrite Nat2Z.id; exact Hf). cbv beta.
         erewrite tfs_run_bind by (eapply tfs_run_lift, Hcpy). cbv beta.
         erewrite tfs_run_bind by (apply run_upd_fd with f; by rewrite Nat2Z.id). cbv beta.
         eapply run_upd_ctl. rewrite Nat2Z.id. exact Hctl. }
    cbv beta. rewrite Nat2Z.id, (alter_insert_eq _ _ _ _ Hf). erewrite tfs_run_bind by exact Hu. done.
  - constructor; simpl; [done|by rewrite length_alter|]. exists chains. by eapply holds_same_from.
  - rewrite Ha. f_equal. unfold file_of in Hof. by destruct (Z.eqb_spec (erased f) 0).
  - simpl. intros g Hg'. rewrite list_lookup_insert_eq in Hg' by (by eapply lookup_lt_Some).
    by injection Hg' as <-.
Qed.

(** ** Deleting *)

Definition freed (tbl cl : list Z) : list Z :=
  foldl (λ tb c, <[Z.to_nat c := mipos_tfs_FREE_CLUSTER]> tb) tbl cl.

Lemma freed_length tbl cl : length (freed tbl cl) = length tbl.
Proof.
  revert tbl. induction cl as [|c cl IH]; intros tbl; simpl; [done|]. by rewrite IH, length_insert.
Qed.

Lemma freed_out tbl cl i : (∀ c, c ∈ cl → i ≠ Z.to_nat c) → freed tbl cl !! i = tbl !! i.
Proof.
  revert tbl. induction cl as [|c cl IH]; intros tbl Hi; simpl; [done|].
  rewrite IH by (intros; apply Hi; set_solver). apply list_lookup_insert_ne, not_eq_sym, Hi. set_solver.
Qed.

Lemma freed_lookup tbl cl i v :
  freed tbl cl !! i = Some v → tbl !! i = Some v ∨ v = mipos_tfs_FREE_CLUSTER.
Proof.
  revert tbl. induction cl as [|c cl IH]; intros tbl; simpl; [by left|].
  intros [[(_ & <- & _)|[_ ?]]%list_lookup_insert_Some|?]%IH; auto.
Qed.

Lemma freed_in tbl cl c :
  (Z.to_nat c < length tbl)%nat → c ∈ cl → freed tbl cl !! Z.to_nat c = Some mipos_tfs_FREE_CLUSTER.
Proof.
  revert tbl. induction cl as [|b cl IH]; intros tbl Hlt Hc; [set_solver|]. simpl.
  apply elem_of_cons in Hc as [<-|Hc]; [|by apply IH; [rewrite length_insert|]].
  destruct (lookup_lt_is_Some_2 (freed (<[Z.to_nat c := mipos_tfs_FREE_CLUSTER]> tbl) cl) (Z.to_nat c))
    as [v Hv]; [by rewrite freed_length, length_insert|].
  unfold freed in Hv |- *. rewrite Hv. apply freed_lookup in Hv as [Hv| ->]; [|done].
  by rewrite list_lookup_insert_eq in Hv by done.
Qed.

Lemma run_free_chain fuel cs t d e cl c0 :
  chain_of (cluster_tbl t) c0 cl → NoDup cl → (length cl < fuel)%nat →
  free_chain fuel c0 (st cs t d e) =
    Ok (tt, st cs (set_cluster_tbl (freed (cluster_tbl t) cl) t) d e).
Proof.
  revert t c0 cl. induction fuel as [|fuel IH]; intros t c0 cl [Hl Hc0] Hnd Hlt; [lia|].
  cbn [free_chain]. destruct cl as [|c cl].
  { unfold get_next_cluster. replace (mipos_tfs_CLUSTERS_COUNT <=? c0) with true
      by (symmetry; by apply Z.leb_le).
    replace (c0 <? mipos_tfs_CLUSTERS_COUNT) with false by (symmetry; by apply Z.ltb_ge).
    erewrite tfs_run_bind by apply run_ret. cbv beta. erewrite tfs_run_bind by apply run_ret. cbv beta.
    rewrite run_ret. simpl. by rewrite set_tbl_same. }
  subst c0. destruct Hl as (Hc & (v & Hv & Hm) & Hl).
  apply NoDup_cons in Hnd as [Hni Hnd]. simpl in Hlt.
  erewrite tfs_run_bind by (eapply run_get_next_cluster; [lia|exact Hv]). cbv beta.
  replace (c <? mipos_tfs_CLUSTERS_COUNT) with true by (symmetry; apply Z.ltb_lt; lia).
  erewrite tfs_run_bind by (eapply run_set_cluster_val; exact Hv). cbv beta.
  set (t1 := set_cluster_tbl _ t). destruct cl as [|c' cl].
  - destruct Hm as [Hm _]. replace (mipos_tfs_CLUSTERS_COUNT <=? v) with true
      by (symmetry; by apply Z.leb_le). done.
  - subst v. assert (0 ≤ c' < mipos_tfs_CLUSTERS_COUNT) as Hc' by apply Hl.
    replace (mipos_tfs_CLUSTERS_COUNT <=? c') with false by (symmetry; apply Z.leb_gt; lia).
    rewrite (IH t1 c' (c' :: cl)); [done| |done|simpl in *; lia].
    split; [|done]. eapply linked_frame; [|exact Hl]. intros x Hx. simpl.
    apply list_lookup_insert_ne. intros ?. apply (linked_elem _ _ _ Hl) in Hx as Hxb.
    assert (c = x) as -> by lia. done.
Qed.

(** The descriptor [mipos_tfs_delete_file] leaves. *)
Definition erased_fd : mipos_tfs_fd_t := mk_fd (replicate 8 0) 0 0 1 0.

Lemma fs_wf_deleted t d chains h cl :
  fs_wf t d chains → chains !! h = Some cl →
  fs_wf (set_cluster_tbl (freed (cluster_tbl t) cl)
           (set_file_fs_desc (<[h := erased_fd]> (file_fs_desc t)) t)) d (<[h := []]> chains).
Proof.
  intros Hw Hcl. pose proof Hw as [W1 W2 W3 W4 W5]. split; simpl; try done.
  - by rewrite length_insert.
  - by rewrite freed_length.
  - apply Forall2_same_length_lookup_2; [rewrite !length_insert; by eapply Forall2_length|].
    intros j g cg Hg Hcg.
    apply list_lookup_insert_Some in Hcg as [(<- & <- & Hlt)|[Hne Hcg]].
    + rewrite list_lookup_insert_eq in Hg by (rewrite (Forall2_length _ _ _ W4); done).
      by injection Hg as <-.
    + rewrite list_lookup_insert_ne in Hg by done.
      pose proof (Forall2_lookup_lr _ _ _ _ _ _ W4 Hg Hcg) as Hgw.
      eapply file_wf_frame; [|exact Hgw]. intros c Hc. apply freed_out. intros x Hx Heq.
      destruct (Forall2_lookup_r _ _ _ _ _ W4 Hcl) as (f & _ & Hfw).
      apply (linked_elem _ _ _ (file_wf_linked _ _ _ Hfw)) in Hx as Hxb.
      apply (linked_elem _ _ _ (file_wf_linked _ _ _ Hgw)) in Hc as Hcb.
      assert (c = x) as -> by lia. by eapply (chains_disjoint chains h j).
  - eapply mjoin_NoDup_insert; [done|done|constructor|]. set_solver.
Qed.

Lemma holds_deleted t d chains A h cl :
  holds t d chains A → chains !! h = Some cl → (h < 8)%nat →
  holds (set_cluster_tbl (freed (cluster_tbl t) cl)
           (set_file_fs_desc (<[h := erased_fd]> (file_fs_desc t)) t)) d
    (<[h := []]> chains) (<[h := None]> A).
Proof.
  intros Hh Hcl Hlt. apply (holds_update t d chains A h erased_fd []); try done.
  - apply fs_wf_deleted; [apply Hh|done].
  - apply Forall_lookup. intros i v [Hv| ->]%freed_lookup; [|done].
    by eapply (proj1 (Forall_lookup _ _) (ts_val _ (ho_sane _ _ _ _ Hh))).
  - intros c Hc. destruct (decide (c ∈ cl)) as [Hin|Hn].
    + left. apply freed_in; [|done]. rewrite (fw_tbl _ _ _ (ho_wf _ _ _ _ Hh)). lia.
    + destruct (ho_leak _ _ _ _ Hh c Hc) as [Hf|Hin].
      * destruct (Forall2_lookup_r _ _ _ _ _ (fw_files _ _ _ (ho_wf _ _ _ _ Hh)) Hcl) as (f & _ & Hfw).
        left. rewrite freed_out; [done|]. intros x Hx ?.
        apply (linked_elem _ _ _ (file_wf_linked _ _ _ Hfw)) in Hx as Hxb.
        by assert (c = x) as -> by lia.
      * right. by destruct (mjoin_insert_elem chains h cl [] c Hcl Hin).
Qed.

Lemma first_named_Some name fds h :
  first_named name fds = Some h →
  ∃ f, fds !! Z.to_nat h = Some f ∧ named name f ∧ 0 ≤ h ∧
    ∀ j g, fds !! j = Some g → (j < Z.to_nat h)%nat → ¬ named name g.
Proof.
  unfold first_named. destruct (list_find _ _) as [[k f]|] eqn:Hf; [|done]. intros [= <-].
  apply list_find_Some in Hf as (Hk & Hn & Hmin). exists f. simpl. rewrite Nat2Z.id.
  split_and!; [done|done|lia|]. intros j g Hj Hjk. by eapply Hmin.
Qed.

Lemma run_delete s A name h ctl :
  fs_ok s A → good_name name → first_named name (file_fs_desc (ftbl s)) = Some h →
  file_ctl s !! Z.to_nat h = Some ctl → locked ctl = 0 →
  (∀ f, file_fs_desc (ftbl s) !! Z.to_nat h = Some f → readonly f = 0) →
  ∃ s', mipos_tfs_delete_file name s = Ok (true, s') ∧
    fs_ok s' (<[Z.to_nat h := None]> A) ∧
    file_ctl s' = <[Z.to_nat h := set_locked 1 ctl]> (file_ctl s) ∧
    on_device (dev s') mipos_tfs_OFFSET (encode_ftbl (ftbl s')).
Proof.
  intros [Hlock Hctls [chains Hh]] Hg Hfst Hctl Hlk Hro. destruct s as [cs t m d e].
  simpl in *. subst m. pose proof (ts_fds _ (ho_sane _ _ _ _ Hh)) as Hfds.
  destruct (first_named_Some _ _ _ Hfst) as (f & Hf & [Her _] & Hpos & _).
  pose proof (lookup_lt_Some _ _ _ Hf) as Hlt. rewrite Hfds in Hlt. tfs_consts.
  pose proof (holds_length _ _ _ _ Hh) as [HA Hc8].
  destruct (lookup_lt_is_Some_2 chains (Z.to_nat h)) as [cl Hcl]; [lia|].
  pose proof (fw_file _ _ _ _ _ _ (ho_wf _ _ _ _ Hh) Hf Hcl) as Hfw.
  assert (chain_of (cluster_tbl t) (first_cluster f) cl) as Hch.
  { unfold file_wf in Hfw. rewrite Her in Hfw. apply Hfw. }
  assert (NoDup cl) as Hnd by (eapply chain_NoDup; [apply Hh|done]).
  pose proof (linked_short _ _ (proj1 Hch) Hnd) as Hshort. tfs_consts.
  set (t1 := set_file_fs_desc (<[Z.to_nat h := erased_fd]> (file_fs_desc t)) t).
  set (t2 := set_cluster_tbl (freed (cluster_tbl t) cl) t1).
  pose proof (holds_deleted t d chains A (Z.to_nat h) cl Hh Hcl ltac:(lia)) as Hh2.
  set (cs1 := <[Z.to_nat h := set_locked 1 ctl]> cs).
  destruct (run_update_fs cs1 t2 (mk_mtx MUTEX_UNLOCKED) d e) as (d' & Hu & Hdl & Hon & Hsf);
    [apply Hh2|apply Hh|].
  exists (st cs1 t2 d' e). split; [|split; [|split; [done|done]]].
  - unfold mipos_tfs_delete_file.
    erewrite tfs_run_bind by (apply run_ffirst; [done|apply Hh]). rewrite Hfst. cbv iota beta.
    erewrite tfs_run_bind by (eapply run_lock_file; [tfs_consts; lia|exact Hctl|done]).
    rewrite (alter_insert_eq _ _ _ _ Hctl). fold cs1. cbn [negb].
    erewrite tfs_run_bind by (eapply run_locked, run_fd_at; exact Hf). cbv beta.
    rewrite Her, (Hro _ Hf). change (truth 0 || truth 0) with false. cbv iota.
    erewrite tfs_run_bind.
    2: { eapply run_locked. erewrite tfs_run_bind by (eapply run_fd_at; exact Hf). cbv beta.
         erewrite tfs_run_bind by (eapply run_upd_fd; exact Hf). cbv beta. apply run_ret. }
    cbv beta. rewrite (alter_insert_eq _ _ _ _ Hf). fold t1.
    erewrite tfs_run_bind by (apply (run_free_chain _ cs1 t1 d e cl); [exact Hch|done|tfs_consts; lia]).
    cbv beta. erewrite tfs_run_bind by exact Hu. done.
  - constructor; simpl; [done|unfold cs1; by rewrite length_insert|]. eexists. by eapply holds_same_from.
Qed.
End ops.
