(* ===== verification/TfsOpen.v ===== *)
(** * Looking files up by name, opening, closing and reading, on the files

    At the end, in the Module [Demo], concrete states of the file system with
    the RAM disk of the example, reached by running the operations; the
    witnesses use them. *)

From S2P Require Import Prelude Bytes Mutex Tfs TfsInv TfsFile TfsWrite TfsAppend TfsDisk TfsSpec.
From S2P Require Import TfsOps.

(** The files whose name begins with [name], and those called [name]. *)
Definition begins (name : list Z) (o : option file) : Prop :=
  match o with Some (nm, _) => take (length name) nm = name | None => False end.
Definition called (name : list Z) (o : option file) : Prop :=
  match o with Some (nm, _) => nm = name | None => False end.

#[global] Instance begins_dec name o : Decision (begins name o).
Proof. destruct o as [[]|]; simpl; apply _. Defined.
#[global] Instance called_dec name o : Decision (called name o).
Proof. destruct o as [[]|]; simpl; apply _. Defined.

(** The first slot that satisfies [P]. *)
Definition find_slot (P : option file → Prop) `{∀ o, Decision (P o)} (A : list (option file)) : option nat :=
  fst <$> list_find P A.

(** Searching two lists that agree element by element. *)
Lemma list_find_zip {X Y Z} (P : X → Prop) (Q : Z → Prop) `{∀ x, Decision (P x)} `{∀ z, Decision (Q z)}
    (g : X → Y → Z) (xs : list X) (ys : list Y) :
  length xs = length ys → (∀ x y, P x ↔ Q (g x y)) →
  fst <$> list_find P xs = fst <$> list_find Q (zip_with g xs ys).
Proof.
  intros Hlen Hpq. revert ys Hlen. induction xs as [|x xs IH]; intros [|y ys] Hlen; try done. simpl.
  destruct (decide (P x)) as [Hp|Hp]; [by rewrite decide_True by (by apply Hpq)|].
  rewrite decide_False by (by rewrite <-Hpq). specialize (IH ys ltac:(simpl in Hlen; lia)).
  destruct (list_find P xs) as [[i a]|], (list_find Q _) as [[j b]|]; simpl in *; congruence.
Qed.

Section open.
Context {D : Type} `{IoDev D}.

#[local] Abbreviation st cs t d e := (mk_tfs cs t (mk_mtx MUTEX_UNLOCKED) d e).

Implicit Types (cs : list mipos_tfs_ctl_t) (t : mipos_tfs_ftbl_t) (d : D)
  (A : list (option file)).

Lemma holds_first_named t d chains A name :
  holds t d chains A → first_named name (file_fs_desc t) = Z.of_nat <$> find_slot (begins name) A.
Proof.
  intros Hh. unfold first_named, find_slot. rewrite (ho_files _ _ _ _ Hh).
  rewrite <-(list_find_zip (named name) (begins name) (file_of d)).
  - by destruct (list_find _ _) as [[]|].
  - apply (Forall2_length _ _ _ (fw_files _ _ _ (ho_wf _ _ _ _ Hh))).
  - intros f cl. unfold named, file_of. destruct (Z.eqb_spec (erased f) 0); simpl; naive_solver.
Qed.

Lemma holds_first_erased t d chains A k :
  holds t d chains A → find_slot (λ o, o = None) A = Some k →
  ∃ f, list_find (λ f, erased f ≠ 0) (file_fs_desc t) = Some (k, f).
Proof.
  intros Hh. unfold find_slot. rewrite (ho_files _ _ _ _ Hh).
  rewrite <-(list_find_zip (λ f, erased f ≠ 0) (λ o, o = None) (file_of d)).
  - destruct (list_find _ _) as [[i f]|]; [|done]. intros [= <-]. by exists f.
  - apply (Forall2_length _ _ _ (fw_files _ _ _ (ho_wf _ _ _ _ Hh))).
  - intros f cl. unfold file_of. destruct (Z.eqb_spec (erased f) 0); naive_solver.
Qed.

(** ** Reading *)

Lemma run_read s A h nm bs ctl n :
  fs_ok s A → 0 ≤ h < mipos_tfs_MAX_N_OF_FILES →
  A !! Z.to_nat h = Some (Some (nm, bs)) → file_ctl s !! Z.to_nat h = Some ctl →
  locked ctl = 0 → open ctl ≠ 0 → 0 ≤ seek_pointer ctl < Z.of_nat (length bs) →
  0 < n → n + seek_pointer ctl < 2 ^ 32 →
  ∃ s', mipos_tfs_read_file n h s =
      Ok ((true, Some (take (Z.to_nat n) (drop (Z.to_nat (seek_pointer ctl)) bs))), s') ∧
    fs_ok s' A ∧
    file_ctl s' = <[Z.to_nat h := after_read ctl (Z.of_nat (length bs)) n]> (file_ctl s).
Proof.
  intros [Hlock Hctls [chains Hh]] Hb Ha Hctl Hlk Hop Hsp Hn H32. destruct s as [cs t m d e].
  simpl in *. subst m.
  destruct (holds_lookup _ _ _ _ _ _ Hh Ha) as (f & cl & Hf & Hcl & Hof & Hfw & _ & _).
  destruct (file_of_Some _ _ _ _ _ _ Hfw (eq_sym Hof)) as (Her & _ & Hbs & Hsz & _).
  rewrite <-Hsz in *. eexists (st _ t d e). split; [|split; [|reflexivity]].
  - rewrite Hbs. eapply run_read_file; try done. apply Hh.
  - constructor; simpl; [done|by rewrite length_insert|by exists chains].
Qed.

(** ** Closing and opening *)

Lemma run_close s A h ctl :
  fs_ok s A → 0 ≤ h < mipos_tfs_MAX_N_OF_FILES → file_ctl s !! Z.to_nat h = Some ctl →
  ∃ s', mipos_tfs_close_file h s = Ok (true, s') ∧ fs_ok s' A ∧ ftbl s' = ftbl s ∧ dev s' = dev s ∧
    file_ctl s' = <[Z.to_nat h := set_seek_pointer 0 (set_open 0 ctl)]> (file_ctl s).
Proof.
  intros [Hlock Hctls Hh] Hb Hctl. destruct s as [cs t m d e]. simpl in *. subst m.
  eexists (st _ t d e). split; [|split; [|split; [done|split; [done|reflexivity]]]].
  - unfold mipos_tfs_close_file. rewrite handle_ok by lia.
    erewrite tfs_run_bind by (eapply run_locked_upd_ctl; exact Hctl).
    by rewrite (alter_insert_eq _ _ _ _ Hctl).
  - constructor; simpl; [done|by rewrite length_insert|done].
Qed.

(** What opening leaves in the control block. *)
Definition opened (mode : Z) (c : mipos_tfs_ctl_t) : mipos_tfs_ctl_t :=
  mk_ctl 0 0 1 (locked c) mode.

Lemma run_open_loop n i cs t d e name mode k f c :
  Forall terminated (file_fs_desc t) → length cs = length (file_fs_desc t) →
  length (file_fs_desc t) = (i + n)%nat → (i ≤ k)%nat →
  file_fs_desc t !! k = Some f → erased f = 0 → until_nul (filename f) = name →
  (∀ j g, (i ≤ j < k)%nat → file_fs_desc t !! j = Some g → erased g = 0 →
     until_nul (filename g) ≠ name) →
  cs !! k = Some c → locked c = 0 → open c = 0 →
  (mode =? mipos_tfs_FILE_OPEN_WRITE) && truth (readonly f) = false →
  open_loop n i name mode (st cs t d e) =
    Ok (Some (Z.of_nat k), st (<[k := opened mode c]> cs) t d e).
Proof.
  intros Hterm Hcs Hlen Hik Hf Her Hname Hmin Hc Hlk Hop Hro. revert i Hlen Hik Hmin.
  induction n as [|n IH]; intros i Hlen Hik Hmin.
  { apply lookup_lt_Some in Hf. lia. }
  cbn [open_loop].
  destruct (lookup_lt_is_Some_2 (file_fs_desc t) i) as [g Hg]; [lia|].
  destruct (lookup_lt_is_Some_2 cs i) as [cg Hcg]; [lia|].
  erewrite tfs_run_bind by (eapply run_locked, run_fd_at; rewrite Nat2Z.id; exact Hg). cbv beta.
  assert (i ≠ k → open_loop n (S i) name mode (st cs t d e) =
    Ok (Some (Z.of_nat k), st (<[k := opened mode c]> cs) t d e)) as Hnext.
  { intros Hne. apply IH; [lia|lia|]. intros j g' Hj. apply Hmin. lia. }
  destruct (decide (i = k)) as [->|Hne].
  - assert (g = f) as -> by congruence. assert (cg = c) as -> by congruence.
    rewrite Her. change (truth 0) with false. cbv iota.
    erewrite tfs_run_bind.
    2: { eapply run_locked. erewrite tfs_run_bind by (eapply run_fd_at; rewrite Nat2Z.id; exact Hg). cbv beta.
         erewrite tfs_run_bind.
         2: { eapply tfs_run_lift, cstr_terminated. by eapply (proj1 (Forall_lookup _ _) Hterm). }
         cbv beta. erewrite tfs_run_bind by (eapply run_ctl_at; rewrite Nat2Z.id; exact Hc). apply run_ret. }
    cbv iota beta. rewrite decide_True by done. rewrite Hlk, Hop, Hro. simpl (_ && _). cbv iota.
    erewrite tfs_run_bind by (eapply run_locked_upd_ctl; rewrite Nat2Z.id; exact Hc).
    rewrite Nat2Z.id, (alter_insert_eq _ _ _ _ Hc). rewrite run_ret. do 4 f_equal.
  - unfold truth. destruct (Z.eqb_spec (erased g) 0) as [Hge|_]; cbn [negb]; [|by apply Hnext].
    erewrite tfs_run_bind.
    2: { eapply run_locked. erewrite tfs_run_bind by (eapply run_fd_at; rewrite Nat2Z.id; exact Hg). cbv beta.
         erewrite tfs_run_bind.
         2: { eapply tfs_run_lift, cstr_terminated. by eapply (proj1 (Forall_lookup _ _) Hterm). }
         cbv beta. erewrite tfs_run_bind by (eapply run_ctl_at; rewrite Nat2Z.id; exact Hcg). apply run_ret. }
    cbv iota beta. rewrite decide_False; [by apply Hnext|].
    apply not_eq_sym. eapply (Hmin i g); [lia|done|done].
Qed.

Lemma run_open s A name mode k c :
  fs_ok s A → good_name name → find_slot (called name) A = Some k →
  file_ctl s !! k = Some c → locked c = 0 → open c = 0 →
  (∀ f, file_fs_desc (ftbl s) !! k = Some f → readonly f = 0) →
  ∃ s', mipos_tfs_open_file name mode s = Ok (Some (Z.of_nat k), s') ∧
    fs_ok s' A ∧ ftbl s' = ftbl s ∧ dev s' = dev s ∧
    file_ctl s' = <[k := opened mode c]> (file_ctl s).
Proof.
  intros [Hlock Hctls [chains Hh]] Hg Hfind Hc Hlk Hop Hro. destruct s as [cs t m d e].
  simpl in *. subst m. unfold find_slot in Hfind.
  destruct (list_find (called name) A) as [[k' o]|] eqn:Hl; [|done]. injection Hfind as ->.
  apply list_find_Some in Hl as (Ha & Hcalled & Hmin). destruct o as [[nm bs]|]; [|done].
  simpl in Hcalled. subst nm.
  destruct (holds_lookup _ _ _ _ _ _ Hh Ha) as (f & cl & Hf & Hcl & Hof & Hfw & _ & Hterm).
  destruct (file_of_Some _ _ _ _ _ _ Hfw (eq_sym Hof)) as (Her & Hnm & _ & _ & _).
  eexists (st _ t d e). split; [|split; [|split; [done|split; [done|reflexivity]]]].
  - unfold mipos_tfs_open_file. rewrite Hg.
    eapply run_open_loop; try done.
    + apply Hh.
    + by rewrite (ts_fds _ (ho_sane _ _ _ _ Hh)).
    + apply (ts_fds _ (ho_sane _ _ _ _ Hh)).
    + lia.
    + intros j g [_ Hj] Hgj Hge Heq.
      pose proof (holds_length _ _ _ _ Hh) as [HA Hc8]. apply lookup_lt_Some in Ha as Hlt.
      destruct (lookup_lt_is_Some_2 chains j) as [cg Hcg]; [lia|].
      apply (Hmin j (file_of d g cg)); [|done|].
      * rewrite (ho_files _ _ _ _ Hh), lookup_zip_with, Hgj, Hcg. done.
      * unfold file_of. by rewrite Hge.
    + rewrite (Hro _ Hf). apply andb_false_r.
  - constructor; simpl; [done|by rewrite length_insert|by exists chains].
Qed.
End open.

(** ** A small file system on the RAM disk *)

Module Demo.
(** Formatted, then with a new file "a", then with 40 bytes in it. *)
Definition empty : mipos_tfs_t (list Z) :=
  mk_tfs (replicate 8 zero_ctl) (empty_ftbl (label_of None) [0; 0]) (mk_mtx MUTEX_UNLOCKED)
    (replicate (Z.to_nat ramdisk_size) 0) 0.

Definition no_files : list (option file) := replicate 8 None.

Lemma empty_ok : fs_ok empty no_files.
Proof. split; [done..|]. exists (replicate 8 []). by apply holds_empty. Qed.

Definition after {A} (r : res (A * mipos_tfs_t (list Z))) : mipos_tfs_t (list Z) :=
  match r with Ok (_, s) => s | Fault _ => empty end.

Definition name : list Z := [97].
Definition created : mipos_tfs_t (list Z) := after (mipos_tfs_create_file name empty).
Definition one_file (bs : list Z) : list (option file) := <[0%nat := Some (name, bs)]> no_files.

Lemma created_ok : fs_ok created (one_file []) ∧
  (∀ f, file_fs_desc (ftbl created) !! 0%nat = Some f → readonly f = 0) ∧
  on_device (dev created) mipos_tfs_OFFSET (encode_ftbl (ftbl created)).
Proof.
  destruct (run_create empty no_files name 0 (mk_fd (replicate 8 0) 0 0 1 0)) as (s' & Hr & Hok & _ & _ & Hro & Hon);
    [apply empty_ok|reflexivity|vm_compute; reflexivity|vm_compute; reflexivity|].
  unfold created. rewrite Hr. split; [exact Hok|split; [exact Hro|exact Hon]].
Qed.

Definition bytes : list Z := seqZ 1 40.
Definition written : mipos_tfs_t (list Z) := after (mipos_tfs_write_file bytes 40 0 created).

Definition created_block : mipos_tfs_ctl_t := mk_ctl 0 0 1 0 mipos_tfs_FILE_OPEN_WRITE.

Lemma created_ctl0 : file_ctl created !! 0%nat = Some created_block.
Proof. by vm_compute. Qed.

Lemma written_ok : fs_ok written (one_file bytes) ∧
  (∀ f, file_fs_desc (ftbl written) !! 0%nat = Some f → readonly f = 0).
Proof.
  destruct created_ok as (Hok & Hro & _).
  destruct (run_append created (one_file []) 0 name [] created_block bytes)
    as (s' & Hr & Hok' & _ & Hro' & _);
    [exact Hok|split; [lia|reflexivity]|reflexivity|exact created_ctl0|exact Hro|reflexivity|discriminate|
     reflexivity|reflexivity|discriminate|vm_compute; lia|].
  change (Z.of_nat (length bytes)) with 40 in Hr. unfold written. rewrite Hr. split; [exact Hok'|exact Hro'].
Qed.

(** The same files with the position of the first at 5. *)
Definition block_at_5 : mipos_tfs_ctl_t := mk_ctl 5 0 1 0 mipos_tfs_FILE_OPEN_READ.
Definition at_5 : mipos_tfs_t (list Z) :=
  mk_tfs (<[0%nat := block_at_5]> (file_ctl written)) (ftbl written) (fs_lock written) (dev written) 0.

Lemma at_5_ok : fs_ok at_5 (one_file bytes).
Proof.
  destruct written_ok as [Hok _]. apply (fs_ok_ctls written); [exact Hok|].
  rewrite length_insert. apply Hok.
Qed.

Lemma written_ctl0 : file_ctl written !! 0%nat = Some (mk_ctl 40 0 1 0 mipos_tfs_FILE_OPEN_WRITE).
Proof. by vm_compute. Qed.
End Demo.
