(* ===== verification/TfsProps.v ===== *)
(** * Properties of the tiny file system

    The operations of src/mipos/mipos_tfs.c act on the files as a user
    expects: formatting empties, creating adds, appending extends, reading
    returns a slice, deleting removes and gives the clusters back, mounting
    finds what was written back.  Then two things they do not do. *)

From S2P Require Import Prelude Bytes Mutex Tfs TfsInv TfsFile TfsWrite TfsAppend TfsDisk TfsSpec.
From S2P Require Import TfsOps TfsOpen.

Section props.
Context {D : Type} `{IoDev D}.

Implicit Types (s : mipos_tfs_t D) (A : list (option file)).

(** Formatting a device that is large enough gives an empty file
    system, whatever the tables held, and its tables are on the device. *)
Theorem mkfs_gives_empty_fs s volume :
  fs_lock s = mk_mtx MUTEX_UNLOCKED → ftbl_sane (ftbl s) → big_enough (dev s) →
  ∃ s', mipos_tfs_mkfs volume s = Ok (true, s') ∧ fs_ok s' (replicate 8 None) ∧
    on_device (dev s') mipos_tfs_OFFSET (encode_ftbl (ftbl s')) ∧
    volume_description (ftbl s') = label_of volume.
Proof.
  destruct s as [cs t m d e]. simpl. intros -> Ht Hb.
  destruct (run_mkfs cs t d e volume Ht Hb) as (d' & Hr & Hl & Hon).
  eexists. split; [exact Hr|]. split; [|done]. split; [done..|].
  eexists. apply holds_empty; [apply label_of_length|apply Ht|].
  unfold big_enough. simpl. by rewrite Hl.
Qed.

(** C33: creating a file under a name no file begins with takes the first
    free slot, makes an empty file there, open for writing at its start,
    changes no other file and writes the tables back. *)
Theorem create_adds_empty_file s A name k :
  fs_ok s A → good_name name → find_slot (begins name) A = None →
  find_slot (λ o, o = None) A = Some k →
  ∃ s', mipos_tfs_create_file name s = Ok ((true, Z.of_nat k), s') ∧
    fs_ok s' (<[k := Some (name, [])]> A) ∧
    file_ctl s' = alter created_ctl k (file_ctl s) ∧
    on_device (dev s') mipos_tfs_OFFSET (encode_ftbl (ftbl s')).
Proof.
  intros Hok Hg Hnone Hfree. pose proof (ok_holds _ _ Hok) as [chains Hh].
  destruct (holds_first_erased _ _ _ _ _ Hh Hfree) as [f Hf].
  destruct (run_create s A name k f) as (s' & Hr & Hok' & _ & Hc & _ & Hon); try done.
  - rewrite (holds_first_named _ _ _ _ _ Hh), Hnone. done.
  - by exists s'.
Qed.

(** C14: writing at the end of a file that is open for writing, while the
    clusters suffice, appends the bytes to the file, however many clusters
    that takes, changes no other file, and leaves the position at the end. *)
Theorem append_extends_file s A h nm bs ctl src :
  fs_ok s A → 0 ≤ h < mipos_tfs_MAX_N_OF_FILES →
  A !! Z.to_nat h = Some (Some (nm, bs)) → file_ctl s !! Z.to_nat h = Some ctl →
  (∀ f, file_fs_desc (ftbl s) !! Z.to_nat h = Some f → readonly f = 0) →
  locked ctl = 0 → open ctl ≠ 0 → file_open_mode ctl = mipos_tfs_FILE_OPEN_WRITE →
  seek_pointer ctl = Z.of_nat (length bs) → src ≠ [] →
  (used (<[Z.to_nat h := Some (nm, bs ++ src)]> A) ≤ Z.to_nat mipos_tfs_CLUSTERS_COUNT)%nat →
  ∃ s', mipos_tfs_write_file src (Z.of_nat (length src)) h s =
      Ok ((true, Some (Z.of_nat (length src))), s') ∧
    fs_ok s' (<[Z.to_nat h := Some (nm, bs ++ src)]> A) ∧
    file_ctl s' = <[Z.to_nat h := after_write ctl (Z.of_nat (length (bs ++ src)))]> (file_ctl s).
Proof.
  intros Hok Hh Ha Hc Hro Hlk Hop Hmode Hsp Hsrc Hroom.
  destruct (run_append s A h nm bs ctl src) as (s' & ? & ? & ? & _); try done. by exists s'.
Qed.

(** Reading an open file at a position within it returns the bytes
    from there on, as many as asked for or as there are, and changes only
    the control block: the position, and the end-of-file mark when fewer
    bytes were there. *)
Theorem read_returns_slice s A h nm bs ctl n :
  fs_ok s A → 0 ≤ h < mipos_tfs_MAX_N_OF_FILES →
  A !! Z.to_nat h = Some (Some (nm, bs)) → file_ctl s !! Z.to_nat h = Some ctl →
  locked ctl = 0 → open ctl ≠ 0 → 0 ≤ seek_pointer ctl < Z.of_nat (length bs) →
  0 < n → n + seek_pointer ctl < 2 ^ 32 →
  ∃ s', mipos_tfs_read_file n h s =
      Ok ((true, Some (take (Z.to_nat n) (drop (Z.to_nat (seek_pointer ctl)) bs))), s') ∧
    fs_ok s' A ∧
    file_ctl s' = <[Z.to_nat h := after_read ctl (Z.of_nat (length bs)) n]> (file_ctl s).
Proof. apply run_read. Qed.

(** C34: deleting removes the first file whose name begins with the name
    given, gives its clusters back and writes the tables back. *)
Theorem delete_removes_file s A name k ctl :
  fs_ok s A → good_name name → find_slot (begins name) A = Some k →
  file_ctl s !! k = Some ctl → locked ctl = 0 →
  (∀ f, file_fs_desc (ftbl s) !! k = Some f → readonly f = 0) →
  ∃ s', mipos_tfs_delete_file name s = Ok (true, s') ∧
    fs_ok s' (<[k := None]> A) ∧
    (free_count (cluster_tbl (ftbl s')) + used (<[k := None]> A) = 32)%nat ∧
    on_device (dev s') mipos_tfs_OFFSET (encode_ftbl (ftbl s')).
Proof.
  intros Hok Hg Hfind Hc Hlk Hro. pose proof (ok_holds _ _ Hok) as [chains Hh].
  destruct (run_delete s A name (Z.of_nat k) ctl) as (s' & Hr & Hok' & _ & Hon); try done.
  - rewrite (holds_first_named _ _ _ _ _ Hh), Hfind. done.
  - by rewrite Nat2Z.id.
  - by rewrite Nat2Z.id.
  - rewrite Nat2Z.id in *. exists s'. split_and!; try done.
    pose proof (ok_holds _ _ Hok') as [chains' Hh']. by eapply holds_free.
Qed.

(** C35: mounting a device whose tables were written back finds the files,
    whatever was in memory, with all files closed. *)
Theorem remount_finds_the_files s A cs t m e :
  fs_ok s A → on_device (dev s) mipos_tfs_OFFSET (encode_ftbl (ftbl s)) →
  ∃ s', mipos_tfs_setup (mk_tfs cs t m (dev s) e) = Ok (true, s') ∧ fs_ok s' A ∧
    ftbl s' = ftbl s ∧ file_ctl s' = replicate 8 zero_ctl.
Proof.
  intros [_ _ [chains Hh]] Hon.
  destruct (run_setup cs t m (dev s) e (ftbl s)) as (d' & Hr & Hl & Hs);
    [apply Hh|apply Hh|done|].
  eexists. split; [exact Hr|]. split; [|done]. split; [done..|].
  exists chains. by eapply holds_same_from.
Qed.

Lemma find_slot_insert (P : option file → Prop) `{∀ o, Decision (P o)} A k o o' :
  find_slot P A = Some k → A !! k = Some o → P o' → find_slot P (<[k := o']> A) = Some k.
Proof.
  unfold find_slot. destruct (list_find P A) as [[i x]|] eqn:Hf; [|done]. intros [= ->] Ha Ho'.
  apply list_find_Some in Hf as (_ & _ & Hmin).
  assert (list_find P (<[k := o']> A) = Some (k, o')) as ->; [|done].
  apply list_find_Some. split_and!; [|done|].
  - apply list_lookup_insert_eq. by eapply lookup_lt_Some.
  - intros j y Hj Hlt. rewrite list_lookup_insert_ne in Hj by lia. by eapply Hmin.
Qed.

(** C18: what was appended is read back after the file is closed and opened
    again under its name: the old bytes and the new ones. *)
Theorem reopened_file_reads_back s A k nm bs ctl src :
  fs_ok s A → good_name nm → find_slot (called nm) A = Some k →
  A !! k = Some (Some (nm, bs)) → file_ctl s !! k = Some ctl →
  (∀ f, file_fs_desc (ftbl s) !! k = Some f → readonly f = 0) →
  locked ctl = 0 → open ctl ≠ 0 → file_open_mode ctl = mipos_tfs_FILE_OPEN_WRITE →
  seek_pointer ctl = Z.of_nat (length bs) → src ≠ [] →
  (used (<[k := Some (nm, bs ++ src)]> A) ≤ Z.to_nat mipos_tfs_CLUSTERS_COUNT)%nat →
  let h := Z.of_nat k in
  let n := Z.of_nat (length (bs ++ src)) in
  ∃ s1 s2 s3 s4,
    mipos_tfs_write_file src (Z.of_nat (length src)) h s =
      Ok ((true, Some (Z.of_nat (length src))), s1) ∧
    mipos_tfs_close_file h s1 = Ok (true, s2) ∧
    mipos_tfs_open_file nm mipos_tfs_FILE_OPEN_READ s2 = Ok (Some h, s3) ∧
    mipos_tfs_read_file n h s3 = Ok ((true, Some (bs ++ src)), s4) ∧
    fs_ok s4 (<[k := Some (nm, bs ++ src)]> A).
Proof.
  intros Hok Hg Hfind Ha Hc Hro Hlk Hop Hmode Hsp Hsrc Hroom h n.
  pose proof (ok_ctls _ _ Hok) as Hctls. pose proof (lookup_lt_Some _ _ _ Hc) as Hk. rewrite Hctls in Hk.
  assert (Z.to_nat h = k) as Hhk by (subst h; lia).
  assert (0 ≤ h < mipos_tfs_MAX_N_OF_FILES) as Hb by (tfs_consts; lia).
  rewrite <-Hhk in Ha, Hc, Hro, Hroom |- *.
  destruct (run_append s A h nm bs ctl src) as (s1 & R1 & O1 & C1 & Hro1 & _); try done.
  set (A' := <[Z.to_nat h := Some (nm, bs ++ src)]> A) in *.
  destruct (run_close s1 A' h (after_write ctl n)) as (s2 & R2 & O2 & T2 & _ & C2); try done.
  { rewrite C1. apply list_lookup_insert_eq. rewrite Hctls. lia. }
  set (c2 := set_seek_pointer 0 (set_open 0 (after_write ctl n))) in *.
  destruct (run_open s2 A' nm mipos_tfs_FILE_OPEN_READ (Z.to_nat h) c2) as (s3 & R3 & O3 & _ & _ & C3);
    try done.
  { eapply find_slot_insert; [by rewrite Hhk|done|done]. }
  { rewrite C2, C1. apply list_lookup_insert_eq. rewrite length_insert, Hctls. lia. }
  { by rewrite T2. }
  assert (A' !! Z.to_nat h = Some (Some (nm, bs ++ src))) as Ha'
    by (apply list_lookup_insert_eq; by eapply lookup_lt_Some).
  assert (0 < n) as Hn by (subst n; destruct src; [done|]; rewrite length_app; simpl; lia).
  pose proof (ok_holds _ _ O3) as [chains Hh3].
  destruct (holds_lookup _ _ _ _ _ _ Hh3 Ha') as (f & cl & _ & _ & Hof & Hfw & Hsane & _).
  destruct (file_of_Some _ _ _ _ _ _ Hfw (eq_sym Hof)) as (_ & _ & _ & Hsz & _).
  fold n in Hsz. pose proof (fs_size _ Hsane) as Hs32.
  destruct (run_read s3 A' h nm (bs ++ src) (opened mipos_tfs_FILE_OPEN_READ c2) n)
    as (s4 & R4 & O4 & _); try done.
  { rewrite C3. apply list_lookup_insert_eq. rewrite C2, C1, !length_insert, Hctls. lia. }
  { simpl. lia. }
  exists s1, s2, s3, s4. rewrite Z2Nat.id in R3 by lia. split_and!; try done.
  rewrite R4. do 4 f_equal. simpl. apply take_ge. lia.
Qed.
End props.

(** ** The hypotheses can hold *)

Lemma mkfs_gives_empty_fs_witness :
  ∃ s', mipos_tfs_mkfs (Some Demo.name) Demo.written = Ok (true, s') ∧ fs_ok s' (replicate 8 None).
Proof.
  destruct Demo.written_ok as [[Hl Hc [chains Hh]] _].
  destruct (mkfs_gives_empty_fs Demo.written (Some Demo.name) Hl (ho_sane _ _ _ _ Hh)
    (fw_dev _ _ _ (ho_wf _ _ _ _ Hh))) as (s' & Hr & Hok & _).
  exists s'. split; assumption.
Defined.

Lemma create_adds_empty_file_witness :
  ∃ s', mipos_tfs_create_file [98] Demo.written = Ok ((true, 1), s') ∧
    fs_ok s' (<[1%nat := Some ([98], [])]> (Demo.one_file Demo.bytes)).
Proof.
  destruct (create_adds_empty_file Demo.written (Demo.one_file Demo.bytes) [98] 1)
    as (s' & Hr & Hok & _).
  - exact (proj1 Demo.written_ok).
  - reflexivity.
  - vm_compute; reflexivity.
  - vm_compute; reflexivity.
  - exists s'. split; assumption.
Defined.

Lemma append_extends_file_witness :
  ∃ s', mipos_tfs_write_file (seqZ 41 100) 100 0 Demo.written = Ok ((true, Some 100), s') ∧
    fs_ok s' (Demo.one_file (Demo.bytes ++ seqZ 41 100)).
Proof.
  destruct Demo.written_ok as [Hok Hro].
  destruct (append_extends_file Demo.written (Demo.one_file Demo.bytes) 0 Demo.name Demo.bytes
    (mk_ctl 40 0 1 0 mipos_tfs_FILE_OPEN_WRITE) (seqZ 41 100)) as (s' & Hr & Hok' & _).
  - exact Hok.
  - split; [lia|reflexivity].
  - reflexivity.
  - exact Demo.written_ctl0.
  - exact Hro.
  - reflexivity.
  - discriminate.
  - reflexivity.
  - reflexivity.
  - discriminate.
  - vm_compute; lia.
  - exists s'. split; [exact Hr|exact Hok'].
Defined.

Lemma read_returns_slice_witness :
  ∃ s', mipos_tfs_read_file 33 0 Demo.at_5 = Ok ((true, Some (seqZ 6 33)), s').
Proof.
  destruct (read_returns_slice Demo.at_5 (Demo.one_file Demo.bytes) 0 Demo.name Demo.bytes
    Demo.block_at_5 33) as (s' & Hr & _).
  - exact Demo.at_5_ok.
  - split; [lia|reflexivity].
  - reflexivity.
  - vm_compute; reflexivity.
  - reflexivity.
  - discriminate.
  - split; [vm_compute; discriminate|reflexivity].
  - lia.
  - reflexivity.
  - exists s'. exact Hr.
Defined.

Lemma delete_removes_file_witness :
  ∃ s', mipos_tfs_delete_file Demo.name Demo.written = Ok (true, s') ∧ fs_ok s' Demo.no_files ∧
    free_count (cluster_tbl (ftbl s')) = 32%nat.
Proof.
  destruct Demo.written_ok as [Hok Hro].
  destruct (delete_removes_file Demo.written (Demo.one_file Demo.bytes) Demo.name 0
    (mk_ctl 40 0 1 0 mipos_tfs_FILE_OPEN_WRITE)) as (s' & Hr & Hok' & Hfree & _).
  - exact Hok.
  - reflexivity.
  - vm_compute; reflexivity.
  - exact Demo.written_ctl0.
  - reflexivity.
  - exact Hro.
  - exists s'. split; [exact Hr|]. split; [exact Hok'|]. rewrite Nat.add_0_r in Hfree. exact Hfree.
Defined.

Lemma remount_finds_the_files_witness :
  ∃ s', mipos_tfs_setup (mk_tfs [] (ftbl Demo.empty) (mk_mtx MUTEX_LOCKED) (dev Demo.created) 7) =
      Ok (true, s') ∧ fs_ok s' (Demo.one_file []).
Proof.
  destruct Demo.created_ok as (Hok & _ & Hon).
  destruct (remount_finds_the_files Demo.created (Demo.one_file []) [] (ftbl Demo.empty)
    (mk_mtx MUTEX_LOCKED) 7 Hok Hon) as (s' & Hr & Hok' & _).
  exists s'. split; assumption.
Defined.

Lemma reopened_file_reads_back_witness :
  ∃ s1 s2 s3 s4,
    mipos_tfs_write_file (seqZ 41 100) 100 0 Demo.written = Ok ((true, Some 100), s1) ∧
    mipos_tfs_close_file 0 s1 = Ok (true, s2) ∧
    mipos_tfs_open_file Demo.name mipos_tfs_FILE_OPEN_READ s2 = Ok (Some 0, s3) ∧
    mipos_tfs_read_file 140 0 s3 = Ok ((true, Some (Demo.bytes ++ seqZ 41 100)), s4).
Proof.
  destruct Demo.written_ok as [Hok Hro].
  destruct (reopened_file_reads_back Demo.written (Demo.one_file Demo.bytes) 0 Demo.name Demo.bytes
    (mk_ctl 40 0 1 0 mipos_tfs_FILE_OPEN_WRITE) (seqZ 41 100)) as (s1 & s2 & s3 & s4 & R1 & R2 & R3 & R4 & _).
  - exact Hok.
  - reflexivity.
  - vm_compute; reflexivity.
  - reflexivity.
  - exact Demo.written_ctl0.
  - exact Hro.
  - reflexivity.
  - discriminate.
  - reflexivity.
  - reflexivity.
  - discriminate.
  - vm_compute; lia.
  - exists s1, s2, s3, s4. split; [exact R1|]. split; [exact R2|]. split; [exact R3|exact R4].
Defined.

(** ** What the operations do not do *)

(** Closing a file does not write the tables back: after a device is
      mounted again a file that was created, written and closed is empty. *)
Theorem closed_file_lost_on_remount :
  ∃ s1 s2,
    mipos_tfs_close_file 0 Demo.written = Ok (true, s1) ∧
    mipos_tfs_setup (mk_tfs [] (ftbl Demo.empty) (mk_mtx MUTEX_UNLOCKED) (dev s1) 0) = Ok (true, s2) ∧
    (fsize <$> file_fs_desc (ftbl s1) !! 0%nat) = Some 40 ∧
    (fsize <$> file_fs_desc (ftbl s2) !! 0%nat) = Some 0.
Proof. do 2 eexists. split_and!; vm_compute; reflexivity. Qed.

(** Going back to the start of a file is refused. *)
Theorem rewind_fails {D} `{IoDevOps D} cs t (d : D) e h ctl f :
  0 ≤ h < mipos_tfs_MAX_N_OF_FILES → cs !! Z.to_nat h = Some ctl → locked ctl = 0 →
  file_fs_desc t !! Z.to_nat h = Some f →
  ∃ s', mipos_tfs_seek_file SEEK_BEGIN 0 h (mk_tfs cs t (mk_mtx MUTEX_UNLOCKED) d e) = Ok (false, s') ∧
    seek_pointer <$> (file_ctl s' !! Z.to_nat h) = Some (seek_pointer ctl).
Proof.
  intros Hh Hc Hl Hf. pose proof (lookup_lt_Some _ _ _ Hc) as Hlt. eexists (mk_tfs _ t _ d _).
  unfold mipos_tfs_seek_file.
  erewrite tfs_run_bind by (eapply run_lock_file; [lia|exact Hc|exact Hl]). cbn [negb].
  rewrite (alter_insert_eq _ _ _ _ Hc).
  erewrite tfs_run_bind by (eapply run_locked; erewrite tfs_run_bind by (eapply run_fd_at; exact Hf); apply run_ret).
  cbv beta iota.
  erewrite tfs_run_bind by (instantiate (1 := mk_tfs _ t (mk_mtx MUTEX_LOCKED) d e); reflexivity).
  change ((0 <? 0) && _) with false. cbv iota.
  erewrite tfs_run_bind by apply run_set_error. cbv beta.
  erewrite tfs_run_bind.
  2: { eapply run_unlock_file; [lia|apply list_lookup_insert_eq, Hlt|done]. }
  split; [reflexivity|]. simpl. rewrite (alter_insert_eq _ _ _ (set_locked 1 ctl)).
  - rewrite list_insert_insert_eq, list_lookup_insert_eq by done. done.
  - by apply list_lookup_insert_eq.
Qed.

(** Renaming the second file changes the first descriptor instead: its name,
    and its size, of which the lowest byte is overwritten. *)
Theorem rename_hits_first_file :
  let two := Demo.after (mipos_tfs_create_file [98] Demo.written) in
  ∃ s', mipos_tfs_rename_file [98] [99] two = Ok (true, s') ∧
    ((λ f, (until_nul (filename f), fsize f)) <$> take 2 (file_fs_desc (ftbl two))) =
      [([97], 40); ([98], 0)] ∧
    ((λ f, (until_nul (filename f), fsize f)) <$> take 2 (file_fs_desc (ftbl s'))) =
      [([97; 99], 0); ([98], 0)].
Proof. eexists. split_and!; vm_compute; reflexivity. Qed.
