(* ===== verification/Stdio.v ===== *)
(** * Standard input and output on the tiny file system

    src/mipos/mipos_stdio.{h,c}: the operations work on the file system
    [*_fs_ptr], which is the state of the monad.  [malloc] is not code of this
    file: whether it succeeds is an argument of [mipos_tfs_fopen]. *)

From S2P Require Import Prelude Bytes Mutex Tfs TfsInv TfsFile TfsWrite TfsAppend TfsDisk TfsSpec.
From S2P Require Import TfsOps TfsOpen.

(** [mipos_tfs_FILE] *)
Record mipos_tfs_FILE := mk_FILE {
  _handle : Z;
  _read_only : bool;
}.

Definition EOF : Z := -1.

(** The [mode] strings: "r", "r+", "w", "w+". *)
Definition mode_r : list Z := [114].
Definition mode_r_plus : list Z := [114; 43].
Definition mode_w : list Z := [119].
Definition mode_w_plus : list Z := [119; 43].

(** C's unsigned division. *)
Definition udiv (a b : Z) : res Z := if b =? 0 then Fault DivByZero else Ok (a / b).

Section stdio.
Context {D : Type} `{IoDevOps D}.

#[local] Abbreviation T := (tfsM D).

(** [char m[8]] holds at most seven characters of [mode]; for an empty mode
    the test for 'b' reads before the array. *)
Definition mipos_tfs_fopen (malloc_ok : bool) (name mode : list Z) : T (option mipos_tfs_FILE) :=
  let m := take 7 (until_nul mode) in
  let lm := Z.of_nat (length m) in
  if lm =? 0 then tfault OutOfBounds
  else if bool_decide (m = mode_r) || bool_decide (m = mode_r_plus) then
    r ← mipos_tfs_open_file name
          (if bool_decide (m = mode_r) then mipos_tfs_FILE_OPEN_READ else mipos_tfs_FILE_OPEN_WRITE);
    match r with
    | Some h => mret (if malloc_ok then Some (mk_FILE h true) else None)
    | None => mret None
    end
  else if bool_decide (m = mode_w_plus) || bool_decide (m = mode_w) then
    _ ← mipos_tfs_delete_file name;
    '(ok, h) ← mipos_tfs_create_file name;
    mret (if (ok : bool) then (if malloc_ok then Some (mk_FILE h false) else None) else None)
  else mret None.

Definition mipos_tfs_fclose (f : option mipos_tfs_FILE) : T Z :=
  match f with
  | None => mret EOF
  | Some f => ok ← mipos_tfs_close_file (_handle f); mret (if (ok : bool) then 0 else EOF)
  end.

Definition mipos_tfs_feof (f : mipos_tfs_FILE) : T Z :=
  if negb (_read_only f) then mret 0 else
  c ← mipos_tfs_get_ctl (_handle f);
  mret (match c with Some c => eof_while_read c | None => 0 end).

Definition mipos_tfs_ftell (f : mipos_tfs_FILE) : T Z :=
  c ← mipos_tfs_get_ctl (_handle f);
  mret (match c with Some c => seek_pointer c | None => EOF end).

(** [origin] is SEEK_SET = 0, SEEK_CUR = 1 or SEEK_END = 2. *)
Definition mipos_tiny_fseek (f : mipos_tfs_FILE) (pos origin : Z) : T Z :=
  let seek code :=
    let new_pos := s32 pos in
    ok ← mipos_tfs_seek_file code new_pos (_handle f);
    mret (if (ok : bool) then 0 else new_pos) in
  if origin =? 0 then seek SEEK_BEGIN
  else if origin =? 1 then seek SEEK_CURRENT
  else if origin =? 2 then seek SEEK_END
  else mret 0.

(** The number of items and the bytes delivered. *)
Definition mipos_tfs_fread (size count : Z) (f : mipos_tfs_FILE) : T (Z * list Z) :=
  let total := u64 (size * count) in
  '(ok, r) ← mipos_tfs_read_file (u32 total) (_handle f);
  let rbytes := match r with Some bs => Z.of_nat (length bs) | None => u32 total end in
  let bytes := default [] r in
  if (ok : bool) then n ← lift (udiv rbytes size); mret (n, bytes)
  else
    _ ← mipos_tfs_get_fd (_handle f);
    if rbytes <? total then n ← lift (udiv rbytes size); mret (n, bytes) else mret (0, bytes).

Definition mipos_tfs_fwrite (buffer : list Z) (size count : Z) (f : mipos_tfs_FILE) : T Z :=
  let total := u64 (size * count) in
  '(ok, r) ← mipos_tfs_write_file buffer (u32 total) (_handle f);
  let wbytes := default (u32 total) r in
  if (ok : bool) then lift (udiv wbytes size)
  else if wbytes <? total then lift (udiv wbytes size) else mret 0.

(** [char] is signed. *)
Definition mipos_tfs_fgetc (f : mipos_tfs_FILE) : T Z :=
  '(ret, bytes) ← mipos_tfs_fread 1 1 f;
  mret (if ret =? 1 then swrap 8 (hd 0 bytes) else s32 ret).

Definition mipos_tfs_rename (source_file dest_file : list Z) : T Z :=
  ok ← mipos_tfs_rename_file source_file dest_file; mret (if (ok : bool) then 0 else -1).

Definition mipos_tfs_remove (name : list Z) : T Z :=
  ok ← mipos_tfs_delete_file name; mret (if (ok : bool) then 0 else -1).

Definition mipos_tfs_filesize (name : list Z) : T Z :=
  r ← mipos_tfs_get_fsize name;
  mret (match r with Some n => s32 n | None => -1 end).
End stdio.

(** ** What the operations do to the files *)

Section laws.
Context {D : Type} `{IoDev D}.

Implicit Types (s : mipos_tfs_t D) (A : list (option file)).

Lemma udiv_exact n m : 0 < n → udiv (n * m) n = Ok m.
Proof.
  intros Hn. unfold udiv. replace (n =? 0) with false by (symmetry; apply Z.eqb_neq; lia).
  by rewrite Z.mul_comm, Z.div_mul by lia.
Qed.

(** Deleting a file that does not exist does nothing but set the error. *)
Lemma run_delete_none s A name :
  fs_ok s A → good_name name → find_slot (begins name) A = None →
  mipos_tfs_delete_file name s =
    Ok (false, mk_tfs (file_ctl s) (ftbl s) (fs_lock s) (dev s) ERR_CLOSE_FAILED).
Proof.
  intros [Hl _ [chains Hh]] Hg Hnone. destruct s as [cs t m d e]. simpl in *. subst m.
  unfold mipos_tfs_delete_file. erewrite tfs_run_bind by (apply run_ffirst; [done|apply Hh]).
  rewrite (holds_first_named _ _ _ _ _ Hh), Hnone. done.
Qed.

Lemma called_begins name A : find_slot (begins name) A = None → ∀ o, o ∈ A → ¬ called name o.
Proof.
  unfold find_slot. destruct (list_find (begins name) A) eqn:Hf; [done|]. intros _ o Ho Hc.
  apply list_find_None in Hf. rewrite Forall_forall in Hf. apply (Hf o Ho).
  destruct o as [[nm bs]|]; [|done]. simpl in *. subst nm. apply firstn_all.
Qed.

Lemma find_slot_new (P : option file → Prop) `{∀ o, Decision (P o)} A k o :
  (∀ o, o ∈ A → ¬ P o) → (k < length A)%nat → P o → find_slot P (<[k := o]> A) = Some k.
Proof.
  intros Hno Hk Ho. unfold find_slot.
  assert (list_find P (<[k := o]> A) = Some (k, o)) as ->; [|done].
  apply list_find_Some. split_and!; [by apply list_lookup_insert_eq|done|].
  intros j y Hj Hlt. rewrite list_lookup_insert_ne in Hj by lia.
  apply Hno. by eapply list_elem_of_lookup_2.
Qed.

(** Opening a new file for writing. *)
Lemma run_fopen_w s A name k :
  fs_ok s A → good_name name → find_slot (begins name) A = None →
  find_slot (λ o, o = None) A = Some k →
  ∃ s' c, mipos_tfs_fopen true name mode_w s = Ok (Some (mk_FILE (Z.of_nat k) false), s') ∧
    fs_ok s' (<[k := Some (name, [])]> A) ∧ file_ctl s' !! k = Some (created_ctl c) ∧
    (∀ f, file_fs_desc (ftbl s') !! k = Some f → readonly f = 0) ∧ A !! k = Some None.
Proof.
  intros Hok Hg Hnone Hfree. pose proof (ok_holds _ _ Hok) as [chains Hh].
  set (s0 := mk_tfs (file_ctl s) (ftbl s) (fs_lock s) (dev s) ERR_CLOSE_FAILED).
  assert (fs_ok s0 A) as Hok0 by (apply fs_ok_ctls; [done|apply Hok]).
  destruct (holds_first_erased _ _ _ _ _ Hh Hfree) as [f Hf].
  destruct (run_create s0 A name k f) as (s' & Hr & Hok' & Ha & Hc & Hro & _); try done.
  { simpl. rewrite (holds_first_named _ _ _ _ _ Hh), Hnone. done. }
  pose proof (holds_length _ _ _ _ Hh) as [HA _]. apply lookup_lt_Some in Ha as Hk.
  destruct (lookup_lt_is_Some_2 (file_ctl s) k) as [c Hcs].
  { rewrite (ok_ctls _ _ Hok). tfs_consts. lia. }
  exists s', c. split_and!; try done.
  - unfold mipos_tfs_fopen.
    change (take 7 (until_nul mode_w)) with mode_w. cbv zeta.
    change (Z.of_nat (length mode_w) =? 0) with false. cbv iota.
    change (bool_decide (mode_w = mode_r) || bool_decide (mode_w = mode_r_plus)) with false.
    change (bool_decide (mode_w = mode_w_plus) || bool_decide (mode_w = mode_w)) with true.
    cbv iota.
    erewrite tfs_run_bind by (by eapply run_delete_none). cbv beta.
    erewrite tfs_run_bind by exact Hr. done.
  - rewrite Hc. change (file_ctl s0) with (file_ctl s).
    rewrite list_lookup_alter, decide_True by done. by rewrite Hcs.
Qed.

(** The other operations, on a file system that holds files. *)
Lemma run_fwrite s A h nm bs ctl src size count :
  fs_ok s A → 0 ≤ h < mipos_tfs_MAX_N_OF_FILES →
  A !! Z.to_nat h = Some (Some (nm, bs)) → file_ctl s !! Z.to_nat h = Some ctl →
  (∀ f, file_fs_desc (ftbl s) !! Z.to_nat h = Some f → readonly f = 0) →
  locked ctl = 0 → open ctl ≠ 0 → file_open_mode ctl = mipos_tfs_FILE_OPEN_WRITE →
  seek_pointer ctl = Z.of_nat (length bs) → 0 < size → 0 < count →
  Z.of_nat (length src) = size * count → size * count < 2 ^ 32 →
  (used (<[Z.to_nat h := Some (nm, bs ++ src)]> A) ≤ Z.to_nat mipos_tfs_CLUSTERS_COUNT)%nat →
  ∃ s', mipos_tfs_fwrite src size count (mk_FILE h false) s = Ok (count, s') ∧
    fs_ok s' (<[Z.to_nat h := Some (nm, bs ++ src)]> A) ∧
    file_ctl s' = <[Z.to_nat h := after_write ctl (Z.of_nat (length (bs ++ src)))]> (file_ctl s) ∧
    (∀ f, file_fs_desc (ftbl s') !! Z.to_nat h = Some f → readonly f = 0).
Proof.
  intros Hok Hh Ha Hc Hro Hlk Hop Hmode Hsp Hsz Hcnt Hlen H32 Hroom.
  assert (src ≠ []) as Hne by (intros ->; simpl in Hlen; lia).
  destruct (run_append s A h nm bs ctl src) as (s' & Hr & Hok' & Hc' & Hro' & _); try done.
  exists s'. split; [|done]. unfold mipos_tfs_fwrite. cbv zeta. cbn [_handle].
  rewrite (wrap_small 64 (size * count)), (wrap_small 32 (size * count)) by lia. rewrite <-Hlen.
  erewrite tfs_run_bind by exact Hr. cbv iota beta. apply tfs_run_lift. simpl. rewrite Hlen.
  by apply udiv_exact.
Qed.

Lemma run_fread_all s A h nm bs ctl size count :
  fs_ok s A → 0 ≤ h < mipos_tfs_MAX_N_OF_FILES →
  A !! Z.to_nat h = Some (Some (nm, bs)) → file_ctl s !! Z.to_nat h = Some ctl →
  locked ctl = 0 → open ctl ≠ 0 → seek_pointer ctl = 0 → 0 < size → 0 < count →
  Z.of_nat (length bs) = size * count → size * count < 2 ^ 32 →
  ∃ s', mipos_tfs_fread size count (mk_FILE h true) s = Ok ((count, bs), s') ∧ fs_ok s' A.
Proof.
  intros Hok Hh Ha Hc Hlk Hop Hsp Hsz Hcnt Hlen H32.
  assert (0 < size * count) as Hpos by (apply Z.mul_pos_pos; done).
  destruct (run_read s A h nm bs ctl (size * count)) as (s' & Hr & Hok' & _); try done; [lia..|].
  exists s'. split; [|done]. unfold mipos_tfs_fread. cbv zeta. cbn [_handle].
  rewrite (wrap_small 64 (size * count)), (wrap_small 32 (size * count)) by lia.
  rewrite Hsp in Hr. rewrite <-Hlen, Nat2Z.id in Hr. simpl (drop _ _) in Hr. rewrite firstn_all in Hr.
  assert (udiv (Z.of_nat (length bs)) size = Ok count) as Hd by (rewrite Hlen; by apply udiv_exact).
  rewrite <-Hlen. erewrite tfs_run_bind by exact Hr. cbv iota beta.
  erewrite tfs_run_bind by (apply tfs_run_lift, Hd). done.
Qed.

(** What is written to a new file through the standard interface is
    read back from it after closing and opening it again. *)
Theorem stdio_round_trip s A name k src size count :
  fs_ok s A → good_name name → find_slot (begins name) A = None →
  find_slot (λ o, o = None) A = Some k → 0 < size → 0 < count →
  Z.of_nat (length src) = size * count →
  (used (<[k := Some (name, src)]> A) ≤ Z.to_nat mipos_tfs_CLUSTERS_COUNT)%nat →
  let h := Z.of_nat k in
  ∃ s1 s2 s3 s4 s5,
    mipos_tfs_fopen true name mode_w s = Ok (Some (mk_FILE h false), s1) ∧
    mipos_tfs_fwrite src size count (mk_FILE h false) s1 = Ok (count, s2) ∧
    mipos_tfs_fclose (Some (mk_FILE h false)) s2 = Ok (0, s3) ∧
    mipos_tfs_fopen true name mode_r s3 = Ok (Some (mk_FILE h true), s4) ∧
    mipos_tfs_fread size count (mk_FILE h true) s4 = Ok ((count, src), s5) ∧
    fs_ok s5 (<[k := Some (name, src)]> A).
Proof.
  intros Hok Hg Hnone Hfree Hsz Hcnt Hlen Hroom h.
  destruct (run_fopen_w s A name k) as (s1 & c & R1 & O1 & C1 & Hro1 & Ha); try done.
  pose proof (lookup_lt_Some _ _ _ Ha) as HkA. pose proof (ok_ctls _ _ O1) as L1.
  assert (Z.to_nat h = k) as Hk by (subst h; lia).
  assert (0 ≤ h < mipos_tfs_MAX_N_OF_FILES) as Hh.
  { apply lookup_lt_Some in C1. rewrite L1 in C1. tfs_consts. lia. }
  assert (size * count < 2 ^ 32) as H32.
  { pose proof (used_lookup A k _ Ha (Some (name, src))) as Hu. simpl in Hu. unfold clusters_for in Hu.
    tfs_consts. pose proof (Z.div_mod (Z.of_nat (length src) + (32 - 1)) 32).
    pose proof (Z.mod_pos_bound (Z.of_nat (length src) + (32 - 1)) 32). lia. }
  rewrite <-Hk in C1, Hro1. set (A1 := <[k := Some (name, [])]> A) in *.
  assert (<[k := Some (name, src)]> A1 = <[k := Some (name, src)]> A) as HA'
    by apply list_insert_insert_eq.
  destruct (run_fwrite s1 A1 h name [] (created_ctl c) src size count)
    as (s2 & R2 & O2 & C2 & Hro2); try done.
  { rewrite Hk. by apply list_lookup_insert_eq. }
  { rewrite Hk. simpl. by rewrite HA'. }
  rewrite Hk in O2. simpl ([] ++ src) in O2. rewrite HA' in O2.
  destruct (run_close s2 (<[k := Some (name, src)]> A) h (after_write (created_ctl c) (Z.of_nat (length src))))
    as (s3 & R3 & O3 & T3 & _ & C3); try done.
  { rewrite C2. apply list_lookup_insert_eq. rewrite L1. lia. }
  set (c3 := set_seek_pointer 0 (set_open 0 _)) in C3.
  assert (file_ctl s3 !! k = Some c3) as C3k.
  { rewrite C3, Hk. apply list_lookup_insert_eq. rewrite C2, length_insert, L1. lia. }
  destruct (run_open s3 (<[k := Some (name, src)]> A) name mipos_tfs_FILE_OPEN_READ k c3)
    as (s4 & R4 & O4 & _ & _ & C4); try done.
  { by eapply find_slot_new; [eapply called_begins|..]. }
  { rewrite T3, <-Hk. done. }
  destruct (run_fread_all s4 (<[k := Some (name, src)]> A) h name src
    (opened mipos_tfs_FILE_OPEN_READ c3) size count) as (s5 & R5 & O5); try done.
  { rewrite Hk. by apply list_lookup_insert_eq. }
  { rewrite C4, Hk. apply list_lookup_insert_eq. by eapply lookup_lt_Some. }
  exists s1, s2, s3, s4, s5. split_and!; try done.
  - unfold mipos_tfs_fclose. cbn [_handle]. erewrite tfs_run_bind by exact R3. done.
  - unfold mipos_tfs_fopen. change (take 7 (until_nul mode_r)) with mode_r. cbv zeta.
    change (Z.of_nat (length mode_r) =? 0) with false. cbv iota.
    change (bool_decide (mode_r = mode_r) || bool_decide (mode_r = mode_r_plus)) with true.
    change (bool_decide (mode_r = mode_r)) with true. cbv iota.
    erewrite tfs_run_bind by exact R4. done.
Qed.
End laws.

(** The mode "rb" is refused although a comment says the 'b' is ignored, and
    so is every mode of two or more characters that ends in 'b'. *)
Theorem binary_mode_refused {D} `{IoDevOps D} malloc_ok name m (s : mipos_tfs_t D) :
  m ≠ [] → (length m < 7)%nat → Forall (λ c, c ≠ 0) m →
  mipos_tfs_fopen malloc_ok name (m ++ [98]) s = Ok (None, s).
Proof.
  intros Hne Hlen Hnz.
  assert (until_nul (m ++ [98]) = m ++ [98]) as Hu.
  { clear -Hnz. induction Hnz as [|c m Hc Hm IH]; simpl; [done|].
    destruct (Z.eqb_spec c 0); [done|]. by rewrite IH. }
  unfold mipos_tfs_fopen. rewrite Hu, take_ge by (rewrite length_app; simpl; lia). cbv zeta.
  replace (Z.of_nat (length (m ++ [98])) =? 0) with false
    by (symmetry; apply Z.eqb_neq; rewrite length_app; simpl; lia).
  assert (∀ x, last x ≠ Some 98 → bool_decide (m ++ [98] = x) = false) as Hno.
  { intros x Hx. apply bool_decide_eq_false_2. intros <-. by rewrite last_snoc in Hx. }
  by rewrite !Hno by done.
Qed.

Lemma stdio_round_trip_witness :
  ∃ s1 s2 s3 s4 s5,
    mipos_tfs_fopen true [98] mode_w Demo.written = Ok (Some (mk_FILE 1 false), s1) ∧
    mipos_tfs_fwrite (seqZ 0 60) 4 15 (mk_FILE 1 false) s1 = Ok (15, s2) ∧
    mipos_tfs_fclose (Some (mk_FILE 1 false)) s2 = Ok (0, s3) ∧
    mipos_tfs_fopen true [98] mode_r s3 = Ok (Some (mk_FILE 1 true), s4) ∧
    mipos_tfs_fread 4 15 (mk_FILE 1 true) s4 = Ok ((15, seqZ 0 60), s5).
Proof.
  destruct (stdio_round_trip Demo.written (Demo.one_file Demo.bytes) [98] 1 (seqZ 0 60) 4 15)
    as (s1 & s2 & s3 & s4 & s5 & R1 & R2 & R3 & R4 & R5 & _).
  - exact (proj1 Demo.written_ok).
  - reflexivity.
  - vm_compute; reflexivity.
  - vm_compute; reflexivity.
  - lia.
  - lia.
  - reflexivity.
  - vm_compute; lia.
  - exists s1, s2, s3, s4, s5. split; [exact R1|]. split; [exact R2|]. split; [exact R3|].
    split; [exact R4|exact R5].
Defined.
