(* ===== verification/Diskio.v ===== *)
(** * The table of disk drivers

    src/mipos/mipos_diskio.{h,c}: a table of drivers, each a physical drive
    number and five functions; calls are passed to the driver of the number.
    The functions of the drivers are not code of this file: they act on a
    state [S] of their own and may fault.  The size of the table is a build parameter,
    [MIPOS_PH_DISK_DRVS]. *)

From S2P Require Import Prelude.

Definition MIPOS_DISK_STS_NOINIT : Z := 1.
Definition MIPOS_DISK_STS_NODISK : Z := 2.
Definition MIPOS_DISK_RES_OK : Z := 0.
Definition MIPOS_DISK_RES_ERROR : Z := 1.
Definition MIPOS_DISK_RES_NOTRDY : Z := 3.
Definition MIPOS_DISK_RES_INVPAR : Z := 4.

(** A caller's buffer: its bytes, or the null pointer.  The functions that fill
    a buffer return it. *)
Abbreviation buffer := (option (list Z)).

(** [mipos_disk_t] *)
Record mipos_disk_t (S : Type) := mk_disk {
  _pdrv : Z;
  _disk_init : Z → S → res (Z * S);
  _disk_status : Z → S → res (Z * S);
  _disk_read : Z → buffer → Z → Z → S → res (Z * buffer * S);
  _disk_write : Z → buffer → Z → Z → S → res (Z * S);
  _disk_ioctl : Z → Z → buffer → S → res (Z * buffer * S);
}.
Arguments mk_disk {S} _ _ _ _ _ _.
Arguments _pdrv {S} _.
Arguments _disk_init {S} _ _ _.
Arguments _disk_status {S} _ _ _.
Arguments _disk_read {S} _ _ _ _ _ _.
Arguments _disk_write {S} _ _ _ _ _ _.
Arguments _disk_ioctl {S} _ _ _ _ _.

(** [_mipos_disk_drv] and [_mipos_disk_drv_cnt]. *)
Record disk_tbl (S : Type) := mk_tbl {
  _mipos_disk_drv : list (mipos_disk_t S);
  _mipos_disk_drv_cnt : Z;
}.
Arguments mk_tbl {S} _ _.
Arguments _mipos_disk_drv {S} _.
Arguments _mipos_disk_drv_cnt {S} _.

Section diskio.
Context {S : Type} (MIPOS_PH_DISK_DRVS : Z).

Implicit Types (t : disk_tbl S) (d : mipos_disk_t S).

Definition mipos_add_disk_driver (drv : mipos_disk_t S) (t : disk_tbl S) : res (Z * disk_tbl S) :=
  if _mipos_disk_drv_cnt t <? MIPOS_PH_DISK_DRVS then
    let cnt := _mipos_disk_drv_cnt t + 1 in
    _ ← of_lookup (_mipos_disk_drv t !! Z.to_nat (cnt - 1));
    Ok (0, mk_tbl (<[Z.to_nat (cnt - 1) := drv]> (_mipos_disk_drv t)) cnt)
  else Ok (-1, t).

(** The loop of [mipos_find_disk_driver] from entry [i] on. *)
Fixpoint find_driver_loop (n i : nat) (pdrv : Z) (t : disk_tbl S) : res (option (mipos_disk_t S)) :=
  match n with
  | O => Ok None
  | Datatypes.S n =>
      d ← of_lookup (_mipos_disk_drv t !! i);
      if _pdrv d =? pdrv then Ok (Some d) else find_driver_loop n (Datatypes.S i) pdrv t
  end.

Definition mipos_find_disk_driver (pdrv : Z) (t : disk_tbl S) : res (option (mipos_disk_t S)) :=
  let cnt := _mipos_disk_drv_cnt t in
  if cnt <? 1 then Ok None else find_driver_loop (Z.to_nat cnt) 0 pdrv t.

Definition mipos_disk_status (pdrv : Z) (t : disk_tbl S) (s : S) : res (Z * S) :=
  d ← mipos_find_disk_driver pdrv t;
  match d with Some d => _disk_status d pdrv s | None => Ok (MIPOS_DISK_STS_NOINIT, s) end.

Definition mipos_disk_init (pdrv : Z) (t : disk_tbl S) (s : S) : res (Z * S) :=
  d ← mipos_find_disk_driver pdrv t;
  match d with Some d => _disk_init d pdrv s | None => Ok (MIPOS_DISK_STS_NOINIT, s) end.

Definition mipos_disk_read (pdrv : Z) (buf : buffer) (sec count : Z) (t : disk_tbl S) (s : S)
    : res (Z * buffer * S) :=
  d ← mipos_find_disk_driver pdrv t;
  match d with
  | Some d => _disk_read d pdrv buf sec count s
  | None => Ok (MIPOS_DISK_RES_NOTRDY, buf, s)
  end.

Definition mipos_disk_write (pdrv : Z) (buf : buffer) (sec count : Z) (t : disk_tbl S) (s : S)
    : res (Z * S) :=
  d ← mipos_find_disk_driver pdrv t;
  match d with
  | Some d => _disk_write d pdrv buf sec count s
  | None => Ok (MIPOS_DISK_RES_NOTRDY, s)
  end.

Definition mipos_disk_ioctl (pdrv cmd : Z) (buf : buffer) (t : disk_tbl S) (s : S)
    : res (Z * buffer * S) :=
  d ← mipos_find_disk_driver pdrv t;
  match d with
  | Some d => _disk_ioctl d pdrv cmd buf s
  | None => Ok (MIPOS_DISK_RES_INVPAR, buf, s)
  end.

(** ** Invariant *)

Record tbl_wf (t : disk_tbl S) : Prop := {
  tw_cnt : 0 ≤ _mipos_disk_drv_cnt t ≤ MIPOS_PH_DISK_DRVS;
  tw_len : length (_mipos_disk_drv t) = Z.to_nat MIPOS_PH_DISK_DRVS;
}.

(** The drivers added, oldest first. *)
Definition drivers (t : disk_tbl S) : list (mipos_disk_t S) :=
  take (Z.to_nat (_mipos_disk_drv_cnt t)) (_mipos_disk_drv t).

Lemma find_driver_loop_ok n i pdrv t :
  (i + n ≤ length (_mipos_disk_drv t))%nat →
  find_driver_loop n i pdrv t =
    Ok (snd <$> list_find (λ d, _pdrv d = pdrv) (take n (drop i (_mipos_disk_drv t)))).
Proof.
  revert i. induction n as [|n IH]; intros i Hi; cbn [find_driver_loop]; [done|].
  destruct (lookup_lt_is_Some_2 (_mipos_disk_drv t) i) as [d Hd]; [lia|].
  erewrite drop_S by exact Hd. rewrite Hd. cbn [of_lookup take list_find]. rewrite bind_Ok.
  destruct (Z.eqb_spec (_pdrv d) pdrv) as [He|He].
  - by rewrite decide_True by done.
  - rewrite decide_False by done. rewrite IH by lia. by destruct (list_find _ _) as [[]|].
Qed.

Lemma find_driver_ok pdrv t :
  tbl_wf t →
  mipos_find_disk_driver pdrv t = Ok (snd <$> list_find (λ d, _pdrv d = pdrv) (drivers t)).
Proof.
  intros [Hc Hl]. unfold mipos_find_disk_driver, drivers.
  destruct (Z.ltb_spec (_mipos_disk_drv_cnt t) 1).
  - by replace (Z.to_nat (_mipos_disk_drv_cnt t)) with 0%nat by lia.
  - rewrite find_driver_loop_ok by lia. done.
Qed.

(** Adding while there is room appends a driver; after that it is refused. *)
Lemma add_driver_ok d t :
  tbl_wf t →
  if _mipos_disk_drv_cnt t <? MIPOS_PH_DISK_DRVS
  then ∃ t', mipos_add_disk_driver d t = Ok (0, t') ∧ tbl_wf t' ∧ drivers t' = drivers t ++ [d]
  else mipos_add_disk_driver d t = Ok (-1, t).
Proof.
  intros [Hc Hl]. unfold mipos_add_disk_driver.
  destruct (Z.ltb_spec (_mipos_disk_drv_cnt t) MIPOS_PH_DISK_DRVS) as [Hlt|Hge]; [|done].
  set (c := _mipos_disk_drv_cnt t) in *. replace (c + 1 - 1) with c by lia.
  destruct (lookup_lt_is_Some_2 (_mipos_disk_drv t) (Z.to_nat c)) as [x Hx]; [lia|].
  rewrite Hx. simpl (of_lookup _). rewrite bind_Ok. eexists. split; [reflexivity|]. split.
  - split; simpl; [lia|]. by rewrite length_insert.
  - unfold drivers. simpl. replace (Z.to_nat (c + 1)) with (Datatypes.S (Z.to_nat c)) by lia.
    erewrite take_S_r by (apply list_lookup_insert_eq; lia). by rewrite take_insert_ge by lia.
Qed.

(** The driver found under a number serves the calls for it. *)
Lemma found_driver_serves pdrv d t :
  mipos_find_disk_driver pdrv t = Ok (Some d) →
  (∀ s, mipos_disk_status pdrv t s = _disk_status d pdrv s) ∧
  (∀ s, mipos_disk_init pdrv t s = _disk_init d pdrv s) ∧
  (∀ buf sec n s, mipos_disk_read pdrv buf sec n t s = _disk_read d pdrv buf sec n s) ∧
  (∀ buf sec n s, mipos_disk_write pdrv buf sec n t s = _disk_write d pdrv buf sec n s) ∧
  (∀ cmd buf s, mipos_disk_ioctl pdrv cmd buf t s = _disk_ioctl d pdrv cmd buf s).
Proof.
  intros Hf. unfold mipos_disk_status, mipos_disk_init, mipos_disk_read, mipos_disk_write,
    mipos_disk_ioctl. by rewrite Hf.
Qed.

(** A driver added under a new number while the table has room serves
    all calls for its number, and calls for other numbers go where they
    went before. *)
Theorem added_driver_serves d t :
  tbl_wf t → _mipos_disk_drv_cnt t < MIPOS_PH_DISK_DRVS →
  Forall (λ x, _pdrv x ≠ _pdrv d) (drivers t) →
  ∃ t', mipos_add_disk_driver d t = Ok (0, t') ∧ tbl_wf t' ∧
    (∀ s, mipos_disk_status (_pdrv d) t' s = _disk_status d (_pdrv d) s) ∧
    (∀ s, mipos_disk_init (_pdrv d) t' s = _disk_init d (_pdrv d) s) ∧
    (∀ buf sec n s, mipos_disk_read (_pdrv d) buf sec n t' s = _disk_read d (_pdrv d) buf sec n s) ∧
    (∀ buf sec n s, mipos_disk_write (_pdrv d) buf sec n t' s = _disk_write d (_pdrv d) buf sec n s) ∧
    (∀ cmd buf s, mipos_disk_ioctl (_pdrv d) cmd buf t' s = _disk_ioctl d (_pdrv d) cmd buf s) ∧
    (∀ pdrv, pdrv ≠ _pdrv d → mipos_find_disk_driver pdrv t' = mipos_find_disk_driver pdrv t).
Proof.
  intros Hw Hroom Hnew. pose proof (add_driver_ok d t Hw) as Hadd.
  apply Z.ltb_lt in Hroom. rewrite Hroom in Hadd. destruct Hadd as (t' & Ha & Hw' & Hd).
  assert (mipos_find_disk_driver (_pdrv d) t' = Ok (Some d)) as Hfind.
  { assert (list_find (λ x, _pdrv x = _pdrv d) (drivers t) = None) as Hn by by apply list_find_None.
    rewrite find_driver_ok, Hd, list_find_app_r by done.
    simpl. by rewrite decide_True by done. }
  exists t'. split; [done|]. split; [done|].
  destruct (found_driver_serves _ _ _ Hfind) as (? & ? & ? & ? & ?).
  do 5 (split; [done|]). intros pdrv Hp.
  rewrite !find_driver_ok, Hd by done. do 2 f_equal.
  destruct (list_find (λ d, _pdrv d = pdrv) (drivers t)) as [[i x]|] eqn:Hf.
  - by erewrite list_find_app_l.
  - rewrite list_find_app_r by done. simpl. by rewrite decide_False by done.
Qed.
End diskio.

(** A driver that answers with its own number. *)
Definition echo_driver (n : Z) : mipos_disk_t unit :=
  mk_disk n (λ p s, Ok (p, s)) (λ p s, Ok (p, s)) (λ p b _ _ s, Ok (p, b, s))
    (λ p _ _ _ s, Ok (p, s)) (λ p _ b s, Ok (p, b, s)).

Lemma added_driver_serves_witness :
  ∃ t', mipos_add_disk_driver 2 (echo_driver 5) (mk_tbl [echo_driver 3; echo_driver 0] 1) = Ok (0, t') ∧
    mipos_disk_status 5 t' tt = Ok (5, tt) ∧ mipos_disk_status 7 t' tt = Ok (MIPOS_DISK_STS_NOINIT, tt).
Proof.
  destruct (added_driver_serves 2 (echo_driver 5) (mk_tbl [echo_driver 3; echo_driver 0] 1))
    as (t' & Ha & Hw & Hs & _ & _ & _ & _ & Ho).
  - split; [split; vm_compute; discriminate|reflexivity].
  - reflexivity.
  - repeat constructor. vm_compute. discriminate.
  - exists t'. split; [exact Ha|]. split; [exact (Hs tt)|].
    unfold mipos_disk_status. rewrite (Ho 7) by (vm_compute; discriminate). reflexivity.
Defined.
