(* ===== verification/Hostdisk.v ===== *)
(** * The host disk of the QEMU board

    src/mipos/arch/qemu-arm/mipos_qemu_semihosting.c and mipos_qemu_hostdisk.c:
    a disk driver whose sectors are those of an image file of the host, reached
    through semihosting calls, and the glue of src/fatfs/diskio.c that FatFs
    reaches the driver table by.  The host is a parameter (class [SemihostOps],
    with the behaviour its documentation states as [Semihost]).  The target is
    a 32-bit ARM: [int], [long], [size_t] and pointers have 32 bits. *)

From S2P Require Import Prelude Bytes Diskio.

(** ** Semihosting *)

(** The host's operations, by the numbers of mipos_qemu_semihosting.c; [sys_read]
    returns the caller's buffer as the host leaves it. *)
Class SemihostOps (H : Type) := {
  sys_open : list Z → Z → Z → H → Z * H;
  sys_close : Z → H → Z * H;
  sys_seek : Z → Z → H → Z * H;
  sys_flen : Z → H → Z * H;
  sys_read : Z → list Z → Z → H → Z * list Z * H;
  sys_write : Z → list Z → Z → H → Z * H;
}.

Definition MIPOS_QEMU_SEMIHOST_OPEN_RBP : Z := 3.
Definition MIPOS_QEMU_HOSTDISK_SECTOR_SIZE : Z := 512.

Section semihosting.
Context {H : Type} `{SemihostOps H}.

Definition mipos_qemu_semihost_open (path : buffer) (mode : Z) (h : H) : res (Z * H) :=
  match path with
  | None => Ok (-1, h)
  | Some p =>
      s ← cstr p;
      let '(r, h) := sys_open s (u32 mode) (u32 (Z.of_nat (length s))) h in Ok (s32 r, h)
  end.

Definition mipos_qemu_semihost_close (handle : Z) (h : H) : Z * H :=
  let '(r, h) := sys_close (u32 handle) h in (s32 r, h).

Definition mipos_qemu_semihost_seek (handle position : Z) (h : H) : Z * H :=
  let '(r, h) := sys_seek (u32 handle) (u32 position) h in (s32 r, h).

Definition mipos_qemu_semihost_flen (handle : Z) (h : H) : Z * H :=
  let '(r, h) := sys_flen (u32 handle) h in (s32 r, h).

(** The bytes transferred, from the number that were not. *)
Definition transferred (length not_transferred : Z) : Z :=
  if (not_transferred <? 0) || (length <? not_transferred) then -1
  else s32 (u32 (length - not_transferred)).

(** The host fills a buffer that must have room for [len] bytes. *)
Definition mipos_qemu_semihost_read (handle : Z) (buf : list Z) (len : Z) (h : H)
    : res (Z * list Z * H) :=
  if Z.of_nat (length buf) <? len then Fault OutOfBounds else
  let '(r, buf, h) := sys_read (u32 handle) buf (u32 len) h in Ok (transferred len (s32 r), buf, h).

Definition mipos_qemu_semihost_write (handle : Z) (buf : list Z) (len : Z) (h : H)
    : res (Z * H) :=
  if Z.of_nat (length buf) <? len then Fault OutOfBounds else
  let '(r, h) := sys_write (u32 handle) buf (u32 len) h in Ok (transferred len (s32 r), h).
End semihosting.

(** ** The driver *)

(** The static variables of mipos_qemu_hostdisk.c, and the host. *)
Record hostdisk (H : Type) := mk_hd {
  g_image_path : list Z;
  g_handle : Z;
  g_sector_count : Z;
  g_status : Z;
  hd_host : H;
}.
Arguments mk_hd {H} _ _ _ _ _.
Arguments g_image_path {H} _.
Arguments g_handle {H} _.
Arguments g_sector_count {H} _.
Arguments g_status {H} _.
Arguments hd_host {H} _.

Definition CTRL_SYNC : Z := 0.
Definition GET_SECTOR_COUNT : Z := 1.
Definition GET_SECTOR_SIZE : Z := 2.
Definition GET_BLOCK_SIZE : Z := 3.

(** [*(uintN_t* )buf = v], little endian. *)
Definition store_int (n : nat) (v : Z) (buf : list Z) : res (list Z) :=
  if Nat.ltb (length buf) n then Fault OutOfBounds else Ok (patch 0 (le_bytes n v) buf).

Section hostdisk.
Context {H : Type} `{SemihostOps H}.

Implicit Types (s : hostdisk H).

Definition with_status (st : Z) (s : hostdisk H) : hostdisk H :=
  mk_hd (g_image_path s) (g_handle s) (g_sector_count s) st (hd_host s).
Definition with_host (h : H) (s : hostdisk H) : hostdisk H :=
  mk_hd (g_image_path s) (g_handle s) (g_sector_count s) (g_status s) h.

Definition mipos_qemu_hostdisk_set_image (path : buffer) (s : hostdisk H) : res (hostdisk H) :=
  match path with
  | None => Ok s
  | Some p =>
      c ← of_lookup (p !! 0%nat);
      if c =? 0 then Ok s else
      str ← cstr p;
      buf ← strncpy (g_image_path s) str 127;
      Ok (mk_hd (<[127%nat := 0]> buf) (g_handle s) (g_sector_count s) (g_status s) (hd_host s))
  end.

Definition hostdisk_status (pdrv : Z) (s : hostdisk H) : res (Z * hostdisk H) :=
  if negb (pdrv =? 0) then Ok (MIPOS_DISK_STS_NODISK, s) else Ok (g_status s, s).

Definition hostdisk_init (pdrv : Z) (s : hostdisk H) : res (Z * hostdisk H) :=
  if negb (pdrv =? 0) then Ok (MIPOS_DISK_STS_NODISK, s) else
  if 0 <=? g_handle s then Ok (0, with_status 0 s) else
  '(hnd, h) ← mipos_qemu_semihost_open (Some (g_image_path s)) MIPOS_QEMU_SEMIHOST_OPEN_RBP (hd_host s);
  if hnd <? 0 then
    Ok (MIPOS_DISK_STS_NOINIT,
        mk_hd (g_image_path s) hnd (g_sector_count s) MIPOS_DISK_STS_NOINIT h)
  else
  let '(image_size, h) := mipos_qemu_semihost_flen hnd h in
  if (image_size <=? 0) || negb (image_size `mod` MIPOS_QEMU_HOSTDISK_SECTOR_SIZE =? 0) then
    let '(_, h) := mipos_qemu_semihost_close hnd h in
    Ok (MIPOS_DISK_STS_NOINIT,
        mk_hd (g_image_path s) (-1) (g_sector_count s) MIPOS_DISK_STS_NOINIT h)
  else
    Ok (0, mk_hd (g_image_path s) hnd (u32 (image_size / MIPOS_QEMU_HOSTDISK_SECTOR_SIZE)) 0 h).

Definition hostdisk_check_range (sector count : Z) (s : hostdisk H) : Z :=
  if count =? 0 then 0 else
  if (g_sector_count s <=? sector) || (u32 (g_sector_count s - sector) <? count) then -1 else 0.

Definition hostdisk_seek_sector (sector : Z) (s : hostdisk H) : Z * H :=
  mipos_qemu_semihost_seek (g_handle s) (u32 (sector * MIPOS_QEMU_HOSTDISK_SECTOR_SIZE)) (hd_host s).

(** The transfers; a null buffer is refused before anything else is done. *)
Definition hostdisk_read (pdrv : Z) (buf : buffer) (sector count : Z) (s : hostdisk H)
    : res (Z * buffer * hostdisk H) :=
  let bytes := u32 (count * MIPOS_QEMU_HOSTDISK_SECTOR_SIZE) in
  match buf with
  | Some b =>
      if negb (pdrv =? 0) || (g_status s &? MIPOS_DISK_STS_NOINIT) then
        Ok (MIPOS_DISK_RES_NOTRDY, buf, s)
      else if negb (hostdisk_check_range sector count s =? 0) then
        Ok (MIPOS_DISK_RES_INVPAR, buf, s)
      else
        let '(r, h) := hostdisk_seek_sector sector s in
        if negb (r =? 0) then Ok (MIPOS_DISK_RES_INVPAR, buf, with_host h s) else
        '(n, b, h) ← mipos_qemu_semihost_read (g_handle s) b bytes h;
        Ok (if negb (n =? s32 bytes) then MIPOS_DISK_RES_ERROR else MIPOS_DISK_RES_OK,
            Some b, with_host h s)
  | None => Ok (MIPOS_DISK_RES_NOTRDY, buf, s)
  end.

Definition hostdisk_write (pdrv : Z) (buf : buffer) (sector count : Z) (s : hostdisk H)
    : res (Z * hostdisk H) :=
  let bytes := u32 (count * MIPOS_QEMU_HOSTDISK_SECTOR_SIZE) in
  match buf with
  | Some b =>
      if negb (pdrv =? 0) || (g_status s &? MIPOS_DISK_STS_NOINIT) then
        Ok (MIPOS_DISK_RES_NOTRDY, s)
      else if negb (hostdisk_check_range sector count s =? 0) then Ok (MIPOS_DISK_RES_INVPAR, s)
      else
        let '(r, h) := hostdisk_seek_sector sector s in
        if negb (r =? 0) then Ok (MIPOS_DISK_RES_INVPAR, with_host h s) else
        '(n, h) ← mipos_qemu_semihost_write (g_handle s) b bytes h;
        Ok (if negb (n =? s32 bytes) then MIPOS_DISK_RES_ERROR else MIPOS_DISK_RES_OK, with_host h s)
  | None => Ok (MIPOS_DISK_RES_NOTRDY, s)
  end.

(** The three queries of [hostdisk_ioctl] store a value of [n] bytes. *)
Definition ioctl_store (n : nat) (v : Z) (buf : buffer) (s : hostdisk H)
    : res (Z * buffer * hostdisk H) :=
  match buf with
  | None => Ok (MIPOS_DISK_RES_INVPAR, buf, s)
  | Some b => b ← store_int n v b; Ok (MIPOS_DISK_RES_OK, Some b, s)
  end.

Definition hostdisk_ioctl (pdrv cmd : Z) (buf : buffer) (s : hostdisk H)
    : res (Z * buffer * hostdisk H) :=
  if negb (pdrv =? 0) || (g_status s &? MIPOS_DISK_STS_NOINIT) then
    Ok (MIPOS_DISK_RES_NOTRDY, buf, s)
  else if cmd =? CTRL_SYNC then Ok (MIPOS_DISK_RES_OK, buf, s)
  else if cmd =? GET_SECTOR_COUNT then ioctl_store 4 (g_sector_count s) buf s
  else if cmd =? GET_SECTOR_SIZE then ioctl_store 2 MIPOS_QEMU_HOSTDISK_SECTOR_SIZE buf s
  else if cmd =? GET_BLOCK_SIZE then ioctl_store 4 1 buf s
  else Ok (MIPOS_DISK_RES_INVPAR, buf, s).

(** [g_hostdisk_driver] *)
Definition mipos_qemu_hostdisk_driver : mipos_disk_t (hostdisk H) :=
  mk_disk 0 hostdisk_init hostdisk_status hostdisk_read hostdisk_write hostdisk_ioctl.
End hostdisk.
