(* ===== verification/FatDiskio.v ===== *)
(** * What FatFs needs of mipOS

    src/fatfs/diskio.c: the disk functions of FatFs on the table of disk
    drivers, and src/fatfs/ffsystem.c: its synchronisation objects on the
    mutexes.  [BYTE] has 8 bits, [UINT] 32; [DWORD] is [unsigned long], whose
    width [W] depends on the target (32 on the ARM boards, 64 on a 64-bit
    host). *)

From S2P Require Import Prelude Mutex Diskio.

Section diskio.
Context {S : Type} (W : Z).

Definition disk_status (pdrv : Z) (t : disk_tbl S) (s : S) : res (Z * S) :=
  '(r, s) ← mipos_disk_status (u32 (u8 pdrv)) t s; Ok (u8 r, s).

Definition disk_initialize (pdrv : Z) (t : disk_tbl S) (s : S) : res (Z * S) :=
  '(r, s) ← mipos_disk_init (u32 (u8 pdrv)) t s; Ok (u8 r, s).

Definition disk_read (pdrv : Z) (buff : buffer) (sector count : Z) (t : disk_tbl S) (s : S)
    : res (Z * buffer * S) :=
  mipos_disk_read (u32 (u8 pdrv)) buff (u32 (wrap W sector)) (u32 (u32 count)) t s.

Definition disk_write (pdrv : Z) (buff : buffer) (sector count : Z) (t : disk_tbl S) (s : S)
    : res (Z * S) :=
  mipos_disk_write (u32 (u8 pdrv)) buff (u32 (wrap W sector)) (u32 (u32 count)) t s.

Definition disk_ioctl (pdrv cmd : Z) (buff : buffer) (t : disk_tbl S) (s : S)
    : res (Z * buffer * S) :=
  mipos_disk_ioctl (u32 (u8 pdrv)) (s32 (u8 cmd)) buff t s.
End diskio.

(** ** Synchronisation objects *)

Definition MIPOS_FF_VOLUMES : Z := 1.

(** The static array [mtx] of ffsystem.c is a list of mutexes; a
    synchronisation object is a pointer into it, that is an index. *)
Definition ff_cre_syncobj (vol : Z) (mtx : list mipos_mtx_t) : res (Z * option nat * list mipos_mtx_t) :=
  if MIPOS_FF_VOLUMES <=? u8 vol then Ok (0, None, mtx) else
  m ← of_lookup (mtx !! Z.to_nat (u8 vol));
  Ok (1, Some (Z.to_nat (u8 vol)), <[Z.to_nat (u8 vol) := mipos_mu_init m]> mtx).

Definition ff_del_syncobj (sobj : nat) (mtx : list mipos_mtx_t) : res (Z * list mipos_mtx_t) :=
  m ← of_lookup (mtx !! sobj); Ok (0, <[sobj := mipos_mu_init m]> mtx).

(** [others] as in [mipos_mu_lock]. *)
Definition ff_req_grant (fuel : nat) (others : nat → mipos_mtx_t → mipos_mtx_t) (sobj : nat)
    (mtx : list mipos_mtx_t) : res (Z * list mipos_mtx_t) :=
  m ← of_lookup (mtx !! sobj);
  m ← mipos_mu_lock fuel 0 others m;
  Ok (1, <[sobj := m]> mtx).

Definition ff_rel_grant (sobj : nat) (mtx : list mipos_mtx_t) : res (list mipos_mtx_t) :=
  m ← of_lookup (mtx !! sobj); Ok (<[sobj := mipos_mu_unlock m]> mtx).

(** A grant just released is given at the first test; while it is held, every
    test fails. *)
Theorem grant_excludes others sobj mtx r mtx1 :
  ff_req_grant 1 others sobj mtx = Ok (r, mtx1) →
  r = 1 ∧ (∀ f, ff_req_grant f (λ _ m, m) sobj mtx1 = Fault OutOfFuel) ∧
  ∃ mtx2, ff_rel_grant sobj mtx1 = Ok mtx2 ∧ ff_req_grant 1 others sobj mtx2 = Ok (1, mtx1).
Proof.
  unfold ff_req_grant, ff_rel_grant. intros Hg. inv_ok.
  match goal with H : mipos_mu_lock _ _ _ _ = Ok ?m |- _ => rename m into m1; rename H into Hl end.
  simpl in Hl. unfold mu_lock_try in Hl.
  destruct (mtx_state _ =? MUTEX_UNLOCKED) eqn:Hu; [|done]. bool_to_prop. injection Hl as <-.
  rewrite Hu. assert (sobj < length mtx)%nat by by eapply lookup_lt_Some.
  rewrite list_lookup_insert_eq by done. cbn [of_lookup]. rewrite !bind_Ok.
  split; [done|]. split.
  - intros f. generalize 0%nat. induction f as [|f IH]; intros i; [done|]. cbn [mipos_mu_lock].
    unfold mu_lock_try at 1. simpl. apply IH.
  - eexists. split; [reflexivity|]. rewrite list_lookup_insert_eq by by rewrite length_insert.
    cbn [of_lookup]. rewrite bind_Ok. simpl. by rewrite !list_insert_insert_eq.
Qed.
