(* ===== verification/HostdiskProps.v ===== *)
(** * Properties of the host disk

    From FatFs down to the host: with the driver in the table and an image of
    whole sectors on the host, the disk functions of FatFs act on the image as
    on an array of sectors, refuse what is outside it, and touch no other file
    of the host. *)

From S2P Require Import Prelude Bytes Diskio FatDiskio Hostdisk.

(** ** What the host promises *)

(** The files of the host by name, and the name and position of an open
    handle; the operations as the semihosting documentation describes them,
    for transfers inside the file. *)
Class Semihost (H : Type) `{SemihostOps H} := {
  sh_image : H → list Z → option (list Z);
  sh_opened : H → Z → option (list Z * Z);
  sys_open_ok h nm bs :
    sh_image h nm = Some bs →
    ∃ hnd h', sys_open nm MIPOS_QEMU_SEMIHOST_OPEN_RBP (Z.of_nat (length nm)) h = (hnd, h') ∧
      0 < hnd < 2 ^ 31 ∧ sh_opened h' hnd = Some (nm, 0) ∧ ∀ x, sh_image h' x = sh_image h x;
  sys_flen_ok h hnd nm p bs :
    sh_opened h hnd = Some (nm, p) → sh_image h nm = Some bs →
    sys_flen hnd h = (Z.of_nat (length bs), h);
  sys_seek_ok h hnd nm p bs q :
    sh_opened h hnd = Some (nm, p) → sh_image h nm = Some bs → 0 ≤ q ≤ Z.of_nat (length bs) →
    ∃ h', sys_seek hnd q h = (0, h') ∧ sh_opened h' hnd = Some (nm, q) ∧
      ∀ x, sh_image h' x = sh_image h x;
  sys_read_ok h hnd nm p bs buf n :
    sh_opened h hnd = Some (nm, p) → sh_image h nm = Some bs → 0 ≤ p → 0 ≤ n →
    p + n ≤ Z.of_nat (length bs) → n ≤ Z.of_nat (length buf) →
    ∃ h', sys_read hnd buf n h = (0, patch 0 (bytes_at (Z.to_nat p) (Z.to_nat n) bs) buf, h') ∧
      sh_opened h' hnd = Some (nm, p + n) ∧ ∀ x, sh_image h' x = sh_image h x;
  sys_write_ok h hnd nm p bs buf n :
    sh_opened h hnd = Some (nm, p) → sh_image h nm = Some bs → 0 ≤ p → 0 ≤ n →
    p + n ≤ Z.of_nat (length bs) → n ≤ Z.of_nat (length buf) →
    ∃ h', sys_write hnd buf n h = (0, h') ∧ sh_opened h' hnd = Some (nm, p + n) ∧
      sh_image h' nm = Some (patch (Z.to_nat p) (take (Z.to_nat n) buf) bs) ∧
      ∀ x, x ≠ nm → sh_image h' x = sh_image h x;
}.

(** ** A disk as an array of sectors *)

(** The calls of FatFs; a transfer is of at least one sector. *)
Inductive disk_op :=
  | DStatus (pdrv : Z)
  | DInitialize (pdrv : Z)
  | DRead (pdrv : Z) (buff : buffer) (sector count : Z)
  | DWrite (pdrv : Z) (buff : buffer) (sector count : Z)
  | DIoctl (pdrv cmd : Z) (buff : buffer).

Definition op_wf (op : disk_op) : Prop :=
  match op with
  | DStatus p | DInitialize p => is_byte p
  | DRead p _ s n | DWrite p _ s n => is_byte p ∧ 0 ≤ s < 2 ^ 32 ∧ 0 < n < 2 ^ 32
  | DIoctl p c _ => is_byte p ∧ is_byte c
  end.

Abbreviation SS := MIPOS_QEMU_HOSTDISK_SECTOR_SIZE.

(** The reference: [img] is the contents of the disk.  A buffer that is too
    short for the transfer is overrun. *)
Definition spec_store (n : nat) (v : Z) (buff : buffer) (img : list Z)
    : res (Z * buffer * list Z) :=
  match buff with
  | None => Ok (MIPOS_DISK_RES_INVPAR, buff, img)
  | Some b => if Nat.ltb (length b) n then Fault OutOfBounds
              else Ok (MIPOS_DISK_RES_OK, Some (patch 0 (le_bytes n v) b), img)
  end.

Definition in_disk (img : list Z) (s n : Z) : bool := (s + n) * SS <=? Z.of_nat (length img).

Definition spec_step (op : disk_op) (img : list Z) : res (Z * buffer * list Z) :=
  match op with
  | DStatus p | DInitialize p =>
      Ok (if p =? 0 then 0 else MIPOS_DISK_STS_NOINIT, None, img)
  | DRead p buff s n =>
      if negb (p =? 0) then Ok (MIPOS_DISK_RES_NOTRDY, buff, img) else
      match buff with
      | None => Ok (MIPOS_DISK_RES_NOTRDY, buff, img)
      | Some b =>
          if negb (in_disk img s n) then Ok (MIPOS_DISK_RES_INVPAR, buff, img) else
          if Z.of_nat (length b) <? n * SS then Fault OutOfBounds else
          Ok (MIPOS_DISK_RES_OK,
              Some (patch 0 (bytes_at (Z.to_nat (s * SS)) (Z.to_nat (n * SS)) img) b), img)
      end
  | DWrite p buff s n =>
      if negb (p =? 0) then Ok (MIPOS_DISK_RES_NOTRDY, None, img) else
      match buff with
      | None => Ok (MIPOS_DISK_RES_NOTRDY, None, img)
      | Some b =>
          if negb (in_disk img s n) then Ok (MIPOS_DISK_RES_INVPAR, None, img) else
          if Z.of_nat (length b) <? n * SS then Fault OutOfBounds else
          Ok (MIPOS_DISK_RES_OK, None,
              patch (Z.to_nat (s * SS)) (take (Z.to_nat (n * SS)) b) img)
      end
  | DIoctl p c buff =>
      if negb (p =? 0) then Ok (MIPOS_DISK_RES_INVPAR, buff, img)
      else if c =? CTRL_SYNC then Ok (MIPOS_DISK_RES_OK, buff, img)
      else if c =? GET_SECTOR_COUNT then spec_store 4 (Z.of_nat (length img) / SS) buff img
      else if c =? GET_SECTOR_SIZE then spec_store 2 SS buff img
      else if c =? GET_BLOCK_SIZE then spec_store 4 1 buff img
      else Ok (MIPOS_DISK_RES_INVPAR, buff, img)
  end.

(** What a drive that is not ready returns; the buffer is as it was. *)
Definition refused (op : disk_op) : Z * buffer :=
  match op with
  | DStatus _ | DInitialize _ => (MIPOS_DISK_STS_NOINIT, None)
  | DRead _ buff _ _ => (MIPOS_DISK_RES_NOTRDY, buff)
  | DWrite _ _ _ _ => (MIPOS_DISK_RES_NOTRDY, None)
  | DIoctl p _ buff => (if p =? 0 then MIPOS_DISK_RES_NOTRDY else MIPOS_DISK_RES_INVPAR, buff)
  end.

(** Not the initialisation of the disk. *)
Definition no_init (op : disk_op) : Prop := match op with DInitialize p => p ≠ 0 | _ => True end.

(** The calls one after the other, with what each returns. *)
Fixpoint run_ops {A} (step : disk_op → A → res (Z * buffer * A)) (ops : list disk_op) (a : A)
    : res (list (Z * buffer) * A) :=
  match ops with
  | [] => Ok ([], a)
  | op :: ops =>
      '(r, b, a) ← step op a;
      '(outs, a) ← run_ops step ops a;
      Ok ((r, b) :: outs, a)
  end.

Lemma transferred_all n : 0 ≤ n < 2 ^ 31 → (transferred n (s32 0) =? s32 n) = true.
Proof.
  intros Hn. change (s32 0) with 0. unfold transferred.
  replace (n <? 0) with false by (symmetry; apply Z.ltb_ge; lia).
  change (0 <? 0) with false. cbn [orb].
  rewrite Z.sub_0_r, wrap_small by lia. apply Z.eqb_refl.
Qed.

Section stack.
Context {H : Type} `{Semihost H}.

Implicit Types (s : hostdisk H) (t : disk_tbl (hostdisk H)).

(** The code: FatFs's functions on the table [t], for the 32-bit target. *)
Definition fat_step t (op : disk_op) (s : hostdisk H) : res (Z * buffer * hostdisk H) :=
  match op with
  | DStatus p => '(r, s) ← disk_status p t s; Ok (r, None, s)
  | DInitialize p => '(r, s) ← disk_initialize p t s; Ok (r, None, s)
  | DRead p b sec n => disk_read 32 p b sec n t s
  | DWrite p b sec n => '(r, s) ← disk_write 32 p b sec n t s; Ok (r, None, s)
  | DIoctl p c b => disk_ioctl p c b t s
  end.

(** The driver is ready and its image is [img]; the other files are those of
    [h0]. *)
Record hd_wf (h0 : H) (nm : list Z) (s : hostdisk H) (img : list Z) : Prop := {
  hw_status : g_status s = 0;
  hw_handle : 0 < g_handle s < 2 ^ 31;
  hw_open : ∃ p, sh_opened (hd_host s) (g_handle s) = Some (nm, p);
  hw_image : sh_image (hd_host s) nm = Some img;
  hw_count : Z.of_nat (length img) = g_sector_count s * SS;
  hw_size : Z.of_nat (length img) < 2 ^ 31;
  hw_others : ∀ x, x ≠ nm → sh_image (hd_host s) x = sh_image h0 x;
}.

(** The table holds the driver alone, under number 0. *)
Definition serves t : Prop :=
  mipos_find_disk_driver 0 t = Ok (Some mipos_qemu_hostdisk_driver) ∧
  ∀ p, p ≠ 0 → mipos_find_disk_driver p t = Ok None.

Lemma check_range_ok h0 nm s img sec n :
  hd_wf h0 nm s img → 0 ≤ sec < 2 ^ 32 → 0 < n < 2 ^ 32 →
  (hostdisk_check_range sec n s =? 0) = in_disk img sec n.
Proof.
  intros [_ _ _ _ Hc Hs _] Hsec Hn. unfold hostdisk_check_range, in_disk, SS in *.
  destruct (Z.eqb_spec n 0); [lia|].
  destruct (Z.leb_spec (g_sector_count s) sec); simpl.
  - symmetry. apply Z.leb_gt. nia.
  - rewrite wrap_small by lia.
    destruct (Z.ltb_spec (g_sector_count s - sec) n); symmetry; simpl; [apply Z.leb_gt|apply Z.leb_le]; nia.
Qed.

(** Seeking to a sector of the disk. *)
Lemma seek_ok h0 nm s img sec n :
  hd_wf h0 nm s img → 0 ≤ sec → 0 < n → in_disk img sec n = true →
  ∃ h', hostdisk_seek_sector sec s = (0, h') ∧ sh_opened h' (g_handle s) = Some (nm, sec * SS) ∧
    ∀ x, sh_image h' x = sh_image (hd_host s) x.
Proof.
  intros [_ Hh [p Hp] Hi Hc Hs _] Hsec Hn Hin%Z.leb_le. unfold SS in *.
  destruct (sys_seek_ok _ _ _ _ _ (sec * 512) Hp Hi) as (h' & Hseek & Ho & Him); [unfold SS; lia|].
  exists h'. split; [|done]. unfold hostdisk_seek_sector, mipos_qemu_semihost_seek, SS.
  rewrite (wrap_small 32 (g_handle s)), !(wrap_small 32 (sec * 512)) by (try apply wrap_bound; lia).
  by rewrite Hseek.
Qed.

(** The guard of the transfers passes on a ready driver. *)
Lemma ready_ok h0 nm s img : hd_wf h0 nm s img → (g_status s &? MIPOS_DISK_STS_NOINIT) = false.
Proof. intros [-> _ _ _ _ _ _]. done. Qed.

(** A refined state: the same driver variables, a host whose image is [img']. *)
Lemma hd_wf_host h0 nm s img h' img' p :
  hd_wf h0 nm s img → sh_opened h' (g_handle s) = Some (nm, p) → sh_image h' nm = Some img' →
  length img' = length img → (∀ x, x ≠ nm → sh_image h' x = sh_image (hd_host s) x) →
  hd_wf h0 nm (with_host h' s) img'.
Proof.
  intros [? ? _ _ Hc Hz Ho] Hp Hi Hl Hx. split; simpl; rewrite ?Hl; eauto.
  intros x Hne. by rewrite Hx, Ho.
Qed.

(** Relates one call of the code to the reference. *)
Definition refines_at h0 nm (r : res (Z * buffer * hostdisk H)) (r0 : res (Z * buffer * list Z)) : Prop :=
  match r0 with
  | Ok (c, b, img') => ∃ s', r = Ok (c, b, s') ∧ hd_wf h0 nm s' img'
  | Fault e => r = Fault e
  end.

Lemma read_refines h0 nm s img b sec n :
  hd_wf h0 nm s img → 0 ≤ sec < 2 ^ 32 → 0 < n < 2 ^ 32 →
  refines_at h0 nm (hostdisk_read 0 (Some b) sec n s) (spec_step (DRead 0 (Some b) sec n) img).
Proof.
  intros Hw Hsec Hn. unfold hostdisk_read. rewrite (ready_ok _ _ _ _ Hw). cbn [Z.eqb negb orb].
  rewrite (check_range_ok _ _ _ _ _ _ Hw Hsec Hn). cbn [spec_step]. cbn [Z.eqb negb].
  destruct (in_disk img sec n) eqn:Hin; cbn [negb]; [|by exists s].
  destruct (seek_ok _ _ _ _ sec n Hw ltac:(lia) ltac:(lia) Hin) as (h1 & -> & Ho & Hi). cbn [Z.eqb negb].
  pose proof Hw as [_ Hh _ Himg Hc Hz _]. pose proof (proj1 (Z.leb_le _ _) Hin) as Hle. unfold SS in *.
  rewrite !(wrap_small 32 (n * 512)) by lia. unfold mipos_qemu_semihost_read.
  destruct (Z.ltb_spec (Z.of_nat (length b)) (n * 512)); [done|].
  destruct (sys_read_ok h1 (g_handle s) nm (sec * 512) img b (n * 512)) as (h2 & Hr & Ho2 & Hi2);
    [done|by rewrite Hi|lia..|].
  rewrite (wrap_small 32 (g_handle s)), (wrap_small 32 (n * 512)), Hr by lia.
  rewrite bind_Ok, transferred_all by lia. cbn [negb].
  eexists. split; [reflexivity|]. eapply hd_wf_host; [done|done|by rewrite Hi2, Hi|done|].
  intros x _. by rewrite Hi2, Hi.
Qed.

Lemma write_refines h0 nm s img b sec n :
  hd_wf h0 nm s img → 0 ≤ sec < 2 ^ 32 → 0 < n < 2 ^ 32 →
  refines_at h0 nm ('(r, s) ← hostdisk_write 0 (Some b) sec n s; Ok (r, None, s))
    (spec_step (DWrite 0 (Some b) sec n) img).
Proof.
  intros Hw Hsec Hn. unfold hostdisk_write. rewrite (ready_ok _ _ _ _ Hw). cbn [Z.eqb negb orb].
  rewrite (check_range_ok _ _ _ _ _ _ Hw Hsec Hn). cbn [spec_step]. cbn [Z.eqb negb].
  destruct (in_disk img sec n) eqn:Hin; cbn [negb]; [|by exists s].
  destruct (seek_ok _ _ _ _ sec n Hw ltac:(lia) ltac:(lia) Hin) as (h1 & -> & Ho & Hi). cbn [Z.eqb negb].
  pose proof Hw as [_ Hh _ Himg Hc Hz _]. pose proof (proj1 (Z.leb_le _ _) Hin) as Hle. unfold SS in *.
  rewrite !(wrap_small 32 (n * 512)) by lia. unfold mipos_qemu_semihost_write.
  destruct (Z.ltb_spec (Z.of_nat (length b)) (n * 512)); [done|].
  destruct (sys_write_ok h1 (g_handle s) nm (sec * 512) img b (n * 512)) as (h2 & Hr & Ho2 & Hi2 & Hx2);
    [done|by rewrite Hi|lia..|].
  rewrite (wrap_small 32 (g_handle s)), (wrap_small 32 (n * 512)), Hr by lia.
  rewrite !bind_Ok, transferred_all by lia. cbn [negb].
  eexists. split; [reflexivity|]. eapply hd_wf_host; [done|done|done| |].
  - rewrite patch_length; [done|]. rewrite length_take. lia.
  - intros x Hne. by rewrite Hx2, Hi.
Qed.

Lemma ioctl_refines h0 nm s img c b :
  hd_wf h0 nm s img →
  refines_at h0 nm (hostdisk_ioctl 0 c b s) (spec_step (DIoctl 0 c b) img).
Proof.
  intros Hw. unfold hostdisk_ioctl. rewrite (ready_ok _ _ _ _ Hw). cbn [Z.eqb negb orb spec_step].
  assert (g_sector_count s = Z.of_nat (length img) / 512) as Hc.
  { rewrite (hw_count _ _ _ _ Hw). unfold SS. by rewrite Z.div_mul. }
  assert (∀ n v, refines_at h0 nm (ioctl_store n v b s) (spec_store n v b img)) as Hst.
  { intros n v. destruct b as [b|]; simpl; [|by exists s]. unfold store_int.
    destruct (Nat.ltb (length b) n); simpl; [done|by exists s]. }
  repeat case_match; try (by exists s); [rewrite Hc| |]; apply Hst.
Qed.

(** ** The whole stack *)

Lemma step_refines h0 nm t op s img :
  serves t → op_wf op → hd_wf h0 nm s img → refines_at h0 nm (fat_step t op s) (spec_step op img).
Proof.
  intros [H0t Hpt] Hop Hw. destruct (found_driver_serves 0 _ t H0t) as (Hst & Hin & Hrd & Hwr & Hio).
  destruct op as [p|p|p b sec n|p b sec n|p c b]; cbn [op_wf] in Hop; unfold is_byte in Hop;
    cbn [fat_step]; unfold disk_status, disk_initialize, disk_read, disk_write, disk_ioctl;
    rewrite !(wrap_small 8 p), !(wrap_small 32 p) by lia;
    (destruct (Z.eqb_spec p 0) as [->|Hp]; [rewrite ?Hst, ?Hin, ?Hrd, ?Hwr, ?Hio|
       unfold mipos_disk_status, mipos_disk_init, mipos_disk_read, mipos_disk_write, mipos_disk_ioctl;
       rewrite (Hpt p Hp); cbn [spec_step]; rewrite (proj2 (Z.eqb_neq p 0) Hp); by exists s]).
  - simpl. unfold hostdisk_status. simpl. rewrite (hw_status _ _ _ _ Hw). by exists s.
  - simpl. unfold hostdisk_init. simpl.
    pose proof (hw_handle _ _ _ _ Hw). rewrite (proj2 (Z.leb_le 0 _)) by lia.
    eexists. split; [reflexivity|]. by destruct Hw.
  - rewrite !(wrap_small 32 n), !(wrap_small 32 sec) by lia.
    destruct b as [b|]; [apply read_refines; [done|lia..]|by exists s].
  - rewrite !(wrap_small 32 n), !(wrap_small 32 sec) by lia.
    destruct b as [b|]; [apply write_refines; [done|lia..]|by exists s].
  - rewrite (wrap_small 8 c), swrap_small by lia. by apply ioctl_refines.
Qed.

Lemma run_refines h0 nm t ops s img :
  serves t → Forall op_wf ops → hd_wf h0 nm s img →
  match run_ops spec_step ops img with
  | Ok (outs, img') => ∃ s', run_ops (fat_step t) ops s = Ok (outs, s') ∧ hd_wf h0 nm s' img'
  | Fault e => run_ops (fat_step t) ops s = Fault e
  end.
Proof.
  intros Ht Hops. revert s img. induction Hops as [|op ops Hop Hops IH]; intros s img Hw; [by exists s|].
  cbn [run_ops]. pose proof (step_refines h0 nm t op s img Ht Hop Hw) as Hstep.
  destruct (spec_step op img) as [[[c b] img1]|e]; simpl in Hstep; [|by rewrite Hstep].
  destruct Hstep as (s1 & -> & Hw1). rewrite !bind_Ok. specialize (IH s1 img1 Hw1).
  destruct (run_ops spec_step ops img1) as [[outs img2]|e]; simpl; [|by rewrite IH].
  destruct IH as (s2 & -> & Hw2). by exists s2.
Qed.

(** Before the disk is initialised every call is refused. *)
Lemma step_not_ready t op s :
  serves t → op_wf op → no_init op → g_status s = MIPOS_DISK_STS_NOINIT → fat_step t op s = Ok (refused op, s).
Proof.
  intros [H0t Hpt] Hop Hni Hs. destruct (found_driver_serves 0 _ t H0t) as (Hst & Hin & Hrd & Hwr & Hio).
  destruct op as [p|p|p b sec n|p b sec n|p c b]; cbn [op_wf no_init] in Hop, Hni; unfold is_byte in Hop;
    cbn [fat_step]; unfold disk_status, disk_initialize, disk_read, disk_write, disk_ioctl;
    rewrite !(wrap_small 8 p), !(wrap_small 32 p) by lia;
    (destruct (Z.eqb_spec p 0) as [->|Hp]; [rewrite ?Hst, ?Hin, ?Hrd, ?Hwr, ?Hio|
       unfold mipos_disk_status, mipos_disk_init, mipos_disk_read, mipos_disk_write, mipos_disk_ioctl;
       rewrite (Hpt p Hp); cbn [refused]; rewrite ?(proj2 (Z.eqb_neq p 0) Hp); done]).
  - simpl. unfold hostdisk_status. simpl. by rewrite Hs.
  - done.
  - simpl. unfold hostdisk_read. rewrite Hs. by destruct b.
  - simpl. unfold hostdisk_write. rewrite Hs. by destruct b.
  - simpl. unfold hostdisk_ioctl. by rewrite Hs.
Qed.

Lemma run_not_ready t ops s :
  serves t → Forall op_wf ops → Forall no_init ops → g_status s = MIPOS_DISK_STS_NOINIT →
  run_ops (fat_step t) ops s = Ok (refused <$> ops, s).
Proof.
  intros Ht Hops Hni Hs. induction Hops as [|op ops Hop Hops IH]; [done|]. inversion_clear Hni as [|? ? Hop' Hops'].
  cbn [run_ops]. rewrite step_not_ready by done. rewrite fmap_cons. destruct (refused op) as [r b]. by rewrite bind_Ok, IH.
Qed.

(** Mounting: the image is opened and found to be of whole sectors. *)
Lemma init_ready nm s img :
  g_handle s < 0 → cstr (g_image_path s) = Ok nm → (length nm < 128)%nat →
  sh_image (hd_host s) nm = Some img → (length img > 0)%nat → Z.of_nat (length img) < 2 ^ 31 →
  Z.of_nat (length img) `mod` SS = 0 →
  ∃ s', hostdisk_init 0 s = Ok (0, s') ∧ hd_wf (hd_host s) nm s' img.
Proof.
  intros Hneg Hnm Hlen Himg Hpos Hmax Hmod. unfold hostdisk_init. cbn [Z.eqb negb].
  rewrite (proj2 (Z.leb_gt 0 _)) by lia. unfold mipos_qemu_semihost_open.
  rewrite Hnm, !bind_Ok. destruct (sys_open_ok _ _ _ Himg) as (hnd & h1 & Ho & Hh & Hop & Hi1).
  rewrite (wrap_small 32 MIPOS_QEMU_SEMIHOST_OPEN_RBP) by done.
  rewrite (wrap_small 32 (Z.of_nat (length nm))), Ho, bind_Ok by lia.
  rewrite swrap_small by lia. rewrite (proj2 (Z.ltb_ge hnd 0)) by lia.
  unfold mipos_qemu_semihost_flen. rewrite (wrap_small 32 hnd) by lia.
  rewrite (sys_flen_ok h1 hnd nm 0 img Hop) by by rewrite Hi1. rewrite swrap_small by lia.
  rewrite (proj2 (Z.leb_gt _ 0)), Hmod by lia. cbn [orb Z.eqb negb].
  unfold SS in *. pose proof (Z.div_mod (Z.of_nat (length img)) 512 ltac:(lia)).
  rewrite wrap_small by (split; [apply Z.div_pos; lia|apply Z.div_lt_upper_bound; lia]).
  eexists. split; [reflexivity|]. split; simpl; unfold SS; rewrite ?Hi1; eauto; lia.
Qed.

Lemma driver_serves : serves (mk_tbl [mipos_qemu_hostdisk_driver] 1).
Proof.
  split; [done|]. intros [|p|p] Hp; [congruence|done..].
Qed.

(** C20: the disk of the QEMU board: once the driver is registered, calls
    before [disk_initialize] are refused, whatever they are, and change neither
    the driver nor the host nor their buffers; and once [disk_initialize] has
    opened an image of whole sectors, whatever sequence of calls FatFs makes,
    every call returns what the array of sectors returns -- the sectors read,
    the error code for a null buffer, another drive or sectors outside the disk
    -- the image ends as the array does, and no other file of the host
    changes. *)
Theorem hostdisk_refines_sectors (d : mipos_disk_t (hostdisk H)) nm s img ops :
  g_handle s < 0 → cstr (g_image_path s) = Ok nm → (length nm < 128)%nat →
  sh_image (hd_host s) nm = Some img → (length img > 0)%nat → Z.of_nat (length img) < 2 ^ 31 →
  Z.of_nat (length img) `mod` SS = 0 → Forall op_wf ops →
  ∃ t s1, mipos_add_disk_driver 1 mipos_qemu_hostdisk_driver (mk_tbl [d] 0) = Ok (0, t) ∧
    (∀ early, Forall op_wf early → Forall no_init early → g_status s = MIPOS_DISK_STS_NOINIT →
       run_ops (fat_step t) early s = Ok (refused <$> early, s)) ∧
    disk_initialize 0 t s = Ok (0, s1) ∧
    match run_ops spec_step ops img with
    | Ok (outs, img') => ∃ s2, run_ops (fat_step t) ops s1 = Ok (outs, s2) ∧
        sh_image (hd_host s2) nm = Some img' ∧
        ∀ x, x ≠ nm → sh_image (hd_host s2) x = sh_image (hd_host s) x
    | Fault e => run_ops (fat_step t) ops s1 = Fault e
    end.
Proof.
  intros Hneg Hnm Hlen Himg Hpos Hmax Hmod Hops.
  destruct (init_ready nm s img) as (s1 & Hinit & Hw); [done..|].
  eexists _, s1. split; [reflexivity|].
  pose proof driver_serves as Ht.
  split; [intros early Ho Hni Hst; by apply run_not_ready|]. split.
  - unfold disk_initialize. change (u32 (u8 0)) with 0.
    destruct (found_driver_serves 0 _ _ (proj1 Ht)) as (_ & -> & _). simpl. by rewrite Hinit.
  - pose proof (run_refines _ _ _ ops _ _ Ht Hops Hw) as Hr.
    destruct (run_ops spec_step ops img) as [[outs img']|e]; [|done].
    destruct Hr as (s2 & Hr & Hw2). exists s2. split; [done|]. split; [apply Hw2|apply Hw2].
Qed.
End stack.

(** ** A host with one file *)

Record memhost := mk_memhost { mh_name : list Z; mh_bytes : list Z; mh_pos : option Z }.

#[global] Instance memhost_ops : SemihostOps memhost := {
  sys_open nm _ _ h :=
    if decide (nm = mh_name h) then (1, mk_memhost (mh_name h) (mh_bytes h) (Some 0)) else (-1, h);
  sys_close _ h := (0, mk_memhost (mh_name h) (mh_bytes h) None);
  sys_seek _ q h := (0, mk_memhost (mh_name h) (mh_bytes h) (Some q));
  sys_flen _ h := (Z.of_nat (length (mh_bytes h)), h);
  sys_read _ buf n h :=
    let p := default 0 (mh_pos h) in
    let bs := bytes_at (Z.to_nat p) (Z.to_nat n) (mh_bytes h) in
    (n - Z.of_nat (length bs), patch 0 bs buf,
     mk_memhost (mh_name h) (mh_bytes h) (Some (p + Z.of_nat (length bs))));
  sys_write _ buf n h :=
    let p := default 0 (mh_pos h) in
    (0, mk_memhost (mh_name h) (patch (Z.to_nat p) (take (Z.to_nat n) buf) (mh_bytes h)) (Some (p + n)));
}.

#[global] Instance memhost_semihost : Semihost memhost.
Proof.
  refine {| sh_image h x := if decide (x = mh_name h) then Some (mh_bytes h) else None;
            sh_opened h hnd := if decide (hnd = 1) then (λ p, (mh_name h, p)) <$> mh_pos h else None |}.
  - intros h nm bs Hi. case_decide as Hn; [|done]. simpl. rewrite decide_True by done.
    eexists _, _. split; [reflexivity|]. split; [lia|]. subst. done.
  - intros h hnd nm p bs Ho Hi. repeat case_decide; try done. simplify_eq/=. done.
  - intros h hnd nm p bs q Ho Hi Hq. repeat case_decide; try done.
    destruct (mh_pos h); simplify_eq/=. eexists. split; [reflexivity|]. done.
  - intros h hnd nm p bs buf n Ho Hi Hp Hn Hpn Hb. repeat case_decide; try done; simpl in *.
    destruct (mh_pos h) eqn:Hpos; simplify_eq/=. rewrite bytes_at_length by lia.
    rewrite Z2Nat.id, Z.sub_diag by lia. eexists. split; [reflexivity|]. done.
  - intros h hnd nm p bs buf n Ho Hi Hp Hn Hpn Hb. repeat case_decide; try done; simpl in *.
    destruct (mh_pos h) eqn:Hpos; simplify_eq/=. eexists. split; [reflexivity|].
    split; [done|]. split; [by rewrite decide_True|]. intros x Hx. by rewrite !decide_False.
Defined.

(** A disk of two sectors in the file "d". *)
Definition two_sectors : hostdisk memhost :=
  mk_hd (100 :: replicate 127 0) (-1) 0 1 (mk_memhost [100] (replicate 1024 7) None).

Lemma hostdisk_refines_sectors_witness :
  ∃ t s1, mipos_add_disk_driver 1 mipos_qemu_hostdisk_driver
      (mk_tbl [mk_disk 9 hostdisk_init hostdisk_status hostdisk_read hostdisk_write hostdisk_ioctl] 0) =
      Ok (0, t) ∧
    run_ops (fat_step t) [DRead 0 (Some (replicate 512 0)) 1 1; DStatus 0] two_sectors =
      Ok ([(3, Some (replicate 512 0)); (1, None)], two_sectors) ∧
    disk_initialize 0 t two_sectors = Ok (0, s1) ∧
    ∃ s2, run_ops (fat_step t)
        [DWrite 0 (Some (replicate 512 5)) 1 1; DRead 0 (Some (replicate 512 0)) 1 1;
         DRead 0 (Some (replicate 512 0)) 1 2] s1 =
      Ok ([(0, None); (0, Some (replicate 512 5)); (4, Some (replicate 512 0))], s2) ∧
      sh_image (hd_host s2) [100] = Some (replicate 512 7 ++ replicate 512 5).
Proof.
  destruct (hostdisk_refines_sectors
    (mk_disk 9 hostdisk_init hostdisk_status hostdisk_read hostdisk_write hostdisk_ioctl) [100] two_sectors
    (replicate 1024 7)
    [DWrite 0 (Some (replicate 512 5)) 1 1; DRead 0 (Some (replicate 512 0)) 1 1;
     DRead 0 (Some (replicate 512 0)) 1 2]) as (t & s1 & Ha & He & Hi & Hr).
  - reflexivity.
  - reflexivity.
  - simpl. lia.
  - reflexivity.
  - rewrite length_replicate. lia.
  - rewrite length_replicate. lia.
  - rewrite length_replicate. reflexivity.
  - repeat constructor; discriminate.
  - exists t, s1. split; [exact Ha|]. split; [|split; [exact Hi|]].
    { refine (He [DRead 0 (Some (replicate 512 0)) 1 1; DStatus 0] _ _ _); [|repeat constructor|reflexivity].
      repeat constructor; discriminate. }
    vm_compute in Hr |- *.
    destruct Hr as (s2 & Hr & Him & _). exists s2. split; [exact Hr|exact Him].
Defined.
