(* ===== verification/Ff.v ===== *)
(** * FatFs: the volume

    src/fatfs/ff.c and src/fatfs/ff.h as src/fatfs/ffconf.h configures them:
    one volume, sectors of 512 bytes, FAT12, FAT16 and FAT32 with 8.3 names,
    read and write access, neither exFAT nor long names nor locks.  This file
    has the memory functions, the disk access window, the FAT and the cluster
    chains; directories and files are in FfDir and FfFile.

    The one FATFS object and the disk are the state of a monad; a pointer to a
    directory entry is its offset in [win].  [BYTE], [WORD] and [UINT] have 8,
    16 and 32 bits, [DWORD] has [W] (32 on the ARM boards, 64 on a 64-bit
    host). *)

From S2P Require Import Prelude Bytes.

(** ** Constants *)

Definition FS_FAT12 : Z := 1.
Definition FS_FAT16 : Z := 2.
Definition FS_FAT32 : Z := 3.

Definition SS : Z := 512.
Definition RES_OK : Z := 0.
Definition STA_NOINIT : Z := 1.
Definition STA_PROTECT : Z := 4.
Definition CTRL_SYNC : Z := 0.

Definition BS_55AA : Z := 510.
Definition FSI_LeadSig : Z := 0.
Definition FSI_StrucSig : Z := 484.
Definition FSI_Free_Count : Z := 488.
Definition FSI_Nxt_Free : Z := 492.

(** [0xFFFFFFFF]: a disk error, an invalid sector, the end of a chain. *)
Definition FFFFFFFF : Z := 4294967295.

Inductive FRESULT :=
  | FR_OK | FR_DISK_ERR | FR_INT_ERR | FR_NOT_READY | FR_NO_FILE | FR_NO_PATH | FR_INVALID_NAME
  | FR_DENIED | FR_EXIST | FR_INVALID_OBJECT | FR_WRITE_PROTECTED | FR_INVALID_DRIVE | FR_NOT_ENABLED
  | FR_NO_FILESYSTEM | FR_MKFS_ABORTED | FR_TIMEOUT | FR_LOCKED | FR_NOT_ENOUGH_CORE
  | FR_TOO_MANY_OPEN_FILES | FR_INVALID_PARAMETER.

#[global] Instance fresult_eq_dec : EqDecision FRESULT.
Proof. solve_decision. Defined.

(** ** Memory *)

Section memory.
Context (W : Z).

Definition ld_word (p : list Z) (i : Z) : res Z :=
  b1 ← get p (i + 1); b0 ← get p i; Ok (u16 (Z.lor (Z.shiftl (u16 b1) 8) b0)).

Definition ld_dword (p : list Z) (i : Z) : res Z :=
  b3 ← get p (i + 3);
  b2 ← get p (i + 2);
  b1 ← get p (i + 1);
  b0 ← get p i;
  let rv := wrap W (Z.lor (Z.shiftl b3 8) b2) in
  let rv := wrap W (Z.lor (Z.shiftl rv 8) b1) in
  Ok (wrap W (Z.lor (Z.shiftl rv 8) b0)).
End memory.

Definition st_word (i val : Z) (p : list Z) : res (list Z) :=
  p ← put i val p; put (i + 1) (Z.shiftr val 8) p.

Definition st_dword (i val : Z) (p : list Z) : res (list Z) :=
  p ← put i val p;
  let val := Z.shiftr val 8 in
  p ← put (i + 1) val p;
  let val := Z.shiftr val 8 in
  p ← put (i + 2) val p;
  put (i + 3) (Z.shiftr val 8) p.

(** [mem_set(p + i, val, cnt)]; the loop tests after its body, so that a count
    of 0 would run through all of memory. *)
Definition mem_set (i val cnt : Z) (p : list Z) : res (list Z) :=
  if (i <? 0) || (cnt <=? 0) || (Z.of_nat (length p) <? i + cnt) then Fault OutOfBounds
  else Ok (patch (Z.to_nat i) (replicate (Z.to_nat cnt) (u8 val)) p).

(** [mem_cmp(p + i, q + j, cnt)]. *)
Fixpoint mem_cmp (cnt : nat) (p : list Z) (i : Z) (q : list Z) (j : Z) : res Z :=
  match cnt with
  | O => Fault OutOfBounds
  | S cnt =>
      a ← get p i;
      b ← get q j;
      if truth (Z.of_nat cnt) && (a - b =? 0) then mem_cmp cnt p (i + 1) q (j + 1) else Ok (a - b)
  end.

(** ** State *)

Record FATFS := mk_fatfs {
  fs_type : Z;
  pdrv : Z;
  n_fats : Z;
  wflag : Z;
  fsi_flag : Z;
  fs_id : Z;
  n_rootdir : Z;
  csize : Z;
  last_clst : Z;
  free_clst : Z;
  n_fatent : Z;
  fsize : Z;
  volbase : Z;
  fatbase : Z;
  dirbase : Z;
  database : Z;
  winsect : Z;
  win : list Z;
}.

(** The window, and the allocation data. *)
Definition set_window (wf ws : Z) (w : list Z) (fs : FATFS) : FATFS :=
  mk_fatfs (fs_type fs) (pdrv fs) (n_fats fs) wf (fsi_flag fs) (fs_id fs) (n_rootdir fs) (csize fs)
    (last_clst fs) (free_clst fs) (n_fatent fs) (fsize fs) (volbase fs) (fatbase fs) (dirbase fs)
    (database fs) ws w.
Definition set_wflag (v : Z) (fs : FATFS) : FATFS := set_window v (winsect fs) (win fs) fs.
Definition set_winsect (v : Z) (fs : FATFS) : FATFS := set_window (wflag fs) v (win fs) fs.
Definition set_win (w : list Z) (fs : FATFS) : FATFS := set_window (wflag fs) (winsect fs) w fs.
Definition set_alloc (fsi last free : Z) (fs : FATFS) : FATFS :=
  mk_fatfs (fs_type fs) (pdrv fs) (n_fats fs) (wflag fs) fsi (fs_id fs) (n_rootdir fs) (csize fs)
    last free (n_fatent fs) (fsize fs) (volbase fs) (fatbase fs) (dirbase fs)
    (database fs) (winsect fs) (win fs).

(** The disk functions: results and, for a read, the buffer filled. *)
Class DiskOps (D : Type) := {
  disk_status : Z → D → res (Z * D);
  disk_initialize : Z → D → res (Z * D);
  disk_read : Z → list Z → Z → Z → D → res (Z * list Z * D);
  disk_write : Z → list Z → Z → Z → D → res (Z * D);
  disk_ioctl : Z → Z → D → res (Z * D);
}.

(** ** The monad *)

Definition ff (D A : Type) : Type := FATFS * D → res (A * (FATFS * D)).

#[global] Instance ff_ret {D} : MRet (ff D) := λ A a s, Ok (a, s).
#[global] Instance ff_bind {D} : MBind (ff D) := λ A B f m s, '(a, s) ← m s; f a s.

Definition the_fs {D} : ff D FATFS := λ s, Ok (s.1, s).
Definition modify {D} (f : FATFS → FATFS) : ff D () := λ s, Ok ((), (f s.1, s.2)).
Definition lift {D A} (r : res A) : ff D A := λ s, a ← r; Ok (a, s).

(** Running a sequence. *)
Lemma run_bind {D A B} (m : ff D A) (f : A → ff D B) s a s' :
  m s = Ok (a, s') → (m ≫= f) s = f a s'.
Proof. intros Hm. unfold mbind, ff_bind. rewrite Hm. reflexivity. Qed.

Lemma run_ret_bind {D A B} (a : A) (f : A → ff D B) s : (mret a ≫= f) s = f a s.
Proof. reflexivity. Qed.

Lemma run_fs {D B} (f : FATFS → ff D B) s : (the_fs ≫= f) s = f s.1 s.
Proof. reflexivity. Qed.

Lemma run_modify {D B} g (f : () → ff D B) s : (modify g ≫= f) s = f () (g s.1, s.2).
Proof. reflexivity. Qed.

Lemma run_lift {D A B} (a : A) (f : A → ff D B) s : (lift (Ok a) ≫= f) s = f a s.
Proof. reflexivity. Qed.

Lemma run_assoc {D A B C} (m : ff D A) (f : A → ff D B) (g : B → ff D C) s :
  ((m ≫= f) ≫= g) s = (m ≫= λ a, f a ≫= g) s.
Proof. unfold mbind, ff_bind. destruct (m s) as [[a s']|]; reflexivity. Qed.

(** Runs the steps that touch no disk. *)
Ltac ff_run := repeat first
  [ rewrite run_assoc | rewrite run_ret_bind | rewrite run_fs; cbn [fst snd]
  | rewrite run_modify; cbn [fst snd] | rewrite run_lift ].

Section access.
Context {D : Type} `{DiskOps D} (W : Z).

Abbreviation dw := (wrap W).

Definition dread (buf : list Z) (sector count : Z) : ff D (Z * list Z) := λ s,
  '(r, buf, d) ← disk_read (pdrv s.1) buf sector count s.2; Ok ((r, buf), (s.1, d)).
Definition dwrite (buf : list Z) (sector count : Z) : ff D Z := λ s,
  '(r, d) ← disk_write (pdrv s.1) buf sector count s.2; Ok (r, (s.1, d)).
Definition dioctl (cmd : Z) : ff D Z := λ s,
  '(r, d) ← disk_ioctl (pdrv s.1) cmd s.2; Ok (r, (s.1, d)).

(** [fs->win[i]], [fs->win[i] = v] and other changes of the window. *)
Definition get_win (i : Z) : ff D Z := fs ← the_fs; lift (get (win fs) i).
Definition edit_win (f : list Z → res (list Z)) : ff D () :=
  fs ← the_fs; w ← lift (f (win fs)); modify (set_win w).

(** ** The disk access window *)

Definition sync_window : ff D FRESULT :=
  fs ← the_fs;
  if truth (wflag fs) then
    r ← dwrite (win fs) (winsect fs) 1;
    if r =? RES_OK then
      modify (set_wflag 0);;
      if dw (winsect fs - fatbase fs) <? fsize fs then
        if n_fats fs =? 2 then dwrite (win fs) (dw (winsect fs + fsize fs)) 1;; mret FR_OK
        else mret FR_OK
      else mret FR_OK
    else mret FR_DISK_ERR
  else mret FR_OK.

Definition move_window (sector : Z) : ff D FRESULT :=
  fs ← the_fs;
  if negb (sector =? winsect fs) then
    r ← sync_window;
    if decide (r = FR_OK) then
      fs ← the_fs;
      '(k, buf) ← dread (win fs) sector 1;
      modify (set_win buf);;
      if negb (k =? RES_OK) then modify (set_winsect FFFFFFFF);; mret FR_DISK_ERR
      else modify (set_winsect sector);; mret FR_OK
    else mret r
  else mret FR_OK.

Definition sync_fs : ff D FRESULT :=
  r ← sync_window;
  if decide (r = FR_OK) then
    fs ← the_fs;
    (if (fs_type fs =? FS_FAT32) && (fsi_flag fs =? 1) then
       edit_win (mem_set 0 0 SS);;
       edit_win (st_word BS_55AA 43605);;
       edit_win (st_dword FSI_LeadSig 1096897106);;
       edit_win (st_dword FSI_StrucSig 1631679090);;
       edit_win (st_dword FSI_Free_Count (free_clst fs));;
       edit_win (st_dword FSI_Nxt_Free (last_clst fs));;
       modify (set_winsect (dw (volbase fs + 1)));;
       fs ← the_fs;
       dwrite (win fs) (winsect fs) 1;;
       modify (set_alloc 0 (last_clst fs) (free_clst fs))
     else mret ());;
    k ← dioctl CTRL_SYNC;
    mret (if negb (k =? RES_OK) then FR_DISK_ERR else FR_OK)
  else mret r.

(** ** The FAT *)

Definition clst2sect (fs : FATFS) (clst : Z) : Z :=
  let clst := dw (clst - 2) in
  if dw (n_fatent fs - 2) <=? clst then 0 else dw (database fs + csize fs * clst).

Definition get_fat (clst : Z) : ff D Z :=
  fs ← the_fs;
  if (clst <? 2) || (n_fatent fs <=? clst) then mret 1 else
  if fs_type fs =? FS_FAT12 then
    let bc := u32 clst in
    let bc := u32 (bc + bc / 2) in
    r ← move_window (dw (fatbase fs + bc / SS));
    if decide (r ≠ FR_OK) then mret FFFFFFFF else
    wc ← get_win (bc `mod` SS);
    let bc := u32 (bc + 1) in
    r ← move_window (dw (fatbase fs + bc / SS));
    if decide (r ≠ FR_OK) then mret FFFFFFFF else
    b ← get_win (bc `mod` SS);
    let wc := Z.lor wc (Z.shiftl b 8) in
    mret (if truth (Z.land clst 1) then Z.shiftr wc 4 else Z.land wc 4095)
  else if fs_type fs =? FS_FAT16 then
    r ← move_window (dw (fatbase fs + clst / (SS / 2)));
    if decide (r ≠ FR_OK) then mret FFFFFFFF else
    fs ← the_fs;
    lift (ld_word (win fs) (dw (clst * 2) `mod` SS))
  else if fs_type fs =? FS_FAT32 then
    r ← move_window (dw (fatbase fs + clst / (SS / 4)));
    if decide (r ≠ FR_OK) then mret FFFFFFFF else
    fs ← the_fs;
    v ← lift (ld_dword W (win fs) (dw (clst * 4) `mod` SS));
    mret (Z.land v 268435455)
  else mret 1.

Definition put_fat (clst val : Z) : ff D FRESULT :=
  fs ← the_fs;
  if (2 <=? clst) && (clst <? n_fatent fs) then
    if fs_type fs =? FS_FAT12 then
      let bc := u32 clst in
      let bc := u32 (bc + bc / 2) in
      r ← move_window (dw (fatbase fs + bc / SS));
      if decide (r ≠ FR_OK) then mret r else
      p ← get_win (bc `mod` SS);
      edit_win (put (bc `mod` SS)
        (if truth (Z.land clst 1) then Z.lor (Z.land p 15) (Z.shiftl (u8 val) 4) else u8 val));;
      modify (set_wflag 1);;
      let bc := u32 (bc + 1) in
      r ← move_window (dw (fatbase fs + bc / SS));
      if decide (r ≠ FR_OK) then mret r else
      p ← get_win (bc `mod` SS);
      edit_win (put (bc `mod` SS)
        (if truth (Z.land clst 1) then u8 (Z.shiftr val 4)
         else Z.lor (Z.land p 240) (Z.land (u8 (Z.shiftr val 8)) 15)));;
      modify (set_wflag 1);;
      mret r
    else if fs_type fs =? FS_FAT16 then
      r ← move_window (dw (fatbase fs + clst / (SS / 2)));
      if decide (r ≠ FR_OK) then mret r else
      edit_win (st_word (dw (clst * 2) `mod` SS) (u16 val));;
      modify (set_wflag 1);;
      mret r
    else if fs_type fs =? FS_FAT32 then
      r ← move_window (dw (fatbase fs + clst / (SS / 4)));
      if decide (r ≠ FR_OK) then mret r else
      fs ← the_fs;
      old ← lift (ld_dword W (win fs) (dw (clst * 4) `mod` SS));
      let val := Z.lor (Z.land val 268435455) (Z.land old 4026531840) in
      edit_win (st_dword (dw (clst * 4) `mod` SS) val);;
      modify (set_wflag 1);;
      mret r
    else mret FR_INT_ERR
  else mret FR_INT_ERR.

(** ** Cluster chains *)

(** The loop of [remove_chain]: each round frees a cluster, and stops at a free
    one, so that the number of entries is fuel enough. *)
Fixpoint remove_loop (fuel : nat) (clst : Z) : ff D FRESULT :=
  match fuel with
  | O => lift (Fault OutOfFuel)
  | S fuel =>
      nxt ← get_fat clst;
      if nxt =? 0 then mret FR_OK else
      if nxt =? 1 then mret FR_INT_ERR else
      if nxt =? FFFFFFFF then mret FR_DISK_ERR else
      r ← put_fat clst 0;
      if decide (r ≠ FR_OK) then mret r else
      fs ← the_fs;
      (if free_clst fs <? dw (n_fatent fs - 2)
       then modify (set_alloc (Z.lor (fsi_flag fs) 1) (last_clst fs) (dw (free_clst fs + 1)))
       else mret ());;
      if nxt <? n_fatent fs then remove_loop fuel nxt else mret FR_OK
  end.

Definition remove_chain (clst pclst : Z) : ff D FRESULT :=
  fs ← the_fs;
  if (clst <? 2) || (n_fatent fs <=? clst) then mret FR_INT_ERR else
  r ← (if truth pclst then put_fat pclst FFFFFFFF else mret FR_OK);
  if decide (r ≠ FR_OK) then mret r else
  remove_loop (Z.to_nat (n_fatent fs)) clst.

(** The search for a free cluster, from the one after [ncl] round to [scl]:
    the cluster, or what [create_chain] returns without one. *)
Fixpoint find_loop (fuel : nat) (scl ncl : Z) : ff D (Z + Z) :=
  match fuel with
  | O => lift (Fault OutOfFuel)
  | S fuel =>
      fs ← the_fs;
      let ncl := dw (ncl + 1) in
      if (n_fatent fs <=? ncl) && (scl <? 2) then mret (inr 0) else
      let ncl := if n_fatent fs <=? ncl then 2 else ncl in
      cs ← get_fat ncl;
      if cs =? 0 then mret (inl ncl) else
      if (cs =? 1) || (cs =? FFFFFFFF) then mret (inr cs) else
      if ncl =? scl then mret (inr 0) else find_loop fuel scl ncl
  end.

(** The choice of the new cluster: the one after the chain if it is free. *)
Definition find_cluster (scl clst : Z) : ff D (Z + Z) :=
  fs ← the_fs;
  if scl =? clst then
    let ncl := dw (scl + 1) in
    let ncl := if n_fatent fs <=? ncl then 2 else ncl in
    cs ← get_fat ncl;
    if (cs =? 1) || (cs =? FFFFFFFF) then mret (inr cs) else
    if truth cs then
      let cs := last_clst fs in
      let scl := if (2 <=? cs) && (cs <? n_fatent fs) then cs else scl in
      find_loop (Z.to_nat (n_fatent fs)) scl scl
    else mret (inl ncl)
  else find_loop (Z.to_nat (n_fatent fs)) scl scl.

(** The new cluster is marked, linked and accounted for. *)
Definition link_new (clst ncl : Z) : ff D Z :=
  r ← put_fat ncl FFFFFFFF;
  r ← (if decide (r = FR_OK) then if truth clst then put_fat clst ncl else mret r else mret r);
  if decide (r = FR_OK) then
    fs ← the_fs;
    modify (set_alloc (Z.lor (fsi_flag fs) 1) ncl
      (if free_clst fs <=? dw (n_fatent fs - 2) then dw (free_clst fs - 1) else free_clst fs));;
    mret ncl
  else mret (if decide (r = FR_DISK_ERR) then FFFFFFFF else 1).

(** Where the search starts, or what [create_chain] returns at once. *)
Definition chain_start (clst : Z) : ff D (Z + Z) :=
  fs ← the_fs;
  if clst =? 0 then
    let scl := last_clst fs in
    mret (inl (if (scl =? 0) || (n_fatent fs <=? scl) then 1 else scl))
  else
    cs ← get_fat clst;
    if cs <? 2 then mret (inr 1) else
    if cs =? FFFFFFFF then mret (inr cs) else
    if cs <? n_fatent fs then mret (inr cs) else mret (inl clst).

Definition create_chain (clst : Z) : ff D Z :=
  start ← chain_start clst;
  match start with
  | inr r => mret r
  | inl scl =>
      fs ← the_fs;
      if free_clst fs =? 0 then mret 0 else
      found ← find_cluster scl clst;
      match found with
      | inr r => mret r
      | inl ncl => link_new clst ncl
      end
  end.
End access.
