(* ===== verification/FfWindow.v ===== *)
(** * FatFs: the window shows the volume

    What FatFs relies on of a disk, and that the disk access window, however it
    is moved and written back, always shows the same volume; the second FAT
    follows the first. *)

From S2P Require Import Prelude Bytes Ff.

(** ** Disks *)

Definition sector (s : Z) (img : list Z) : list Z := bytes_at (Z.to_nat (s * SS)) (Z.to_nat SS) img.

(** The number of whole sectors. *)
Definition n_sect (img : list Z) : Z := Z.of_nat (length img) / SS.

(** A working disk: [dsk d img] says that it is ready and holds [img]. *)
Class Disk (D : Type) `{DiskOps D} := {
  dsk : D → list Z → Prop;
  dsk_bytes d img : dsk d img → Forall is_byte img ∧ n_sect img < FFFFFFFF;
  dsk_status d img : dsk d img → ∃ d', disk_status 0 d = Ok (0, d') ∧ dsk d' img;
  dsk_read d img buf s n :
    dsk d img → 0 ≤ s → 0 < n → s + n ≤ n_sect img → n * SS ≤ Z.of_nat (length buf) →
    ∃ d', disk_read 0 buf s n d =
      Ok (RES_OK, patch 0 (bytes_at (Z.to_nat (s * SS)) (Z.to_nat (n * SS)) img) buf, d') ∧ dsk d' img;
  dsk_write d img buf s n :
    dsk d img → 0 ≤ s → 0 < n → s + n ≤ n_sect img → n * SS ≤ Z.of_nat (length buf) →
    Forall is_byte buf →
    ∃ d', disk_write 0 buf s n d = Ok (RES_OK, d') ∧
      dsk d' (patch (Z.to_nat (s * SS)) (take (Z.to_nat (n * SS)) buf) img);
  dsk_sync d img : dsk d img → ∃ d', disk_ioctl 0 CTRL_SYNC d = Ok (RES_OK, d') ∧ dsk d' img;
}.

(** A disk whose initialisation makes it ready with [img]. *)
Definition starts `{Disk D} (d : D) (img : list Z) : Prop :=
  ∃ d', disk_initialize 0 d = Ok (0, d') ∧ dsk d' img.

(** ** Sectors *)

Lemma n_sect_fits img s : s < n_sect img → (s + 1) * SS ≤ Z.of_nat (length img).
Proof.
  unfold n_sect, SS. intros Hs. pose proof (Z.mul_div_le (Z.of_nat (length img)) 512 ltac:(lia)). lia.
Qed.

Lemma sector_length s img : 0 ≤ s < n_sect img → length (sector s img) = 512%nat.
Proof.
  intros [H0 Hs%n_sect_fits]. unfold SS in *. unfold sector, SS. rewrite bytes_at_length; lia.
Qed.

Lemma n_sect_patch s bs img :
  0 ≤ s < n_sect img → length bs = 512%nat → n_sect (patch (Z.to_nat (s * SS)) bs img) = n_sect img.
Proof.
  intros [H0 Hs%n_sect_fits] Hb. unfold n_sect, SS in *. rewrite patch_length; [done|]. lia.
Qed.

Lemma sector_patch s bs img :
  0 ≤ s < n_sect img → length bs = 512%nat → sector s (patch (Z.to_nat (s * SS)) bs img) = bs.
Proof.
  intros [H0 Hs%n_sect_fits] Hb. unfold sector, SS in *. apply bytes_at_patch_eq; lia.
Qed.

Lemma sector_patch_ne s s' bs img :
  0 ≤ s < n_sect img → 0 ≤ s' → length bs = 512%nat → s' ≠ s →
  sector s' (patch (Z.to_nat (s * SS)) bs img) = sector s' img.
Proof.
  intros [H0 Hs%n_sect_fits] H0' Hb Hne. unfold sector, SS in *. apply bytes_at_patch_ne; lia.
Qed.

Lemma sector_bytes s img : Forall is_byte img → Forall is_byte (sector s img).
Proof. apply bytes_at_bytes. Qed.

#[export] Hint Resolve sector_bytes : mipos.

(** ** Volumes *)

(** The geometry of a volume, as the mount checks it. *)
Record geometry (fs : FATFS) (n : Z) : Prop := {
  geo_pdrv : pdrv fs = 0;
  geo_type : fs_type fs = FS_FAT12 ∨ fs_type fs = FS_FAT16 ∨ fs_type fs = FS_FAT32;
  geo_fats : n_fats fs = 1 ∨ n_fats fs = 2;
  geo_fatbase : 0 < fatbase fs;
  geo_fsize : 0 < fsize fs;
  geo_data : fatbase fs + n_fats fs * fsize fs ≤ database fs;
  geo_csize : 0 < csize fs < 65536;
  geo_ents : 2 < n_fatent fs ≤ 268435447;
  geo_room : database fs + csize fs * (n_fatent fs - 2) ≤ n;
  geo_fat12 : fs_type fs = FS_FAT12 → n_fatent fs ≤ 4087;
  geo_fat16 : fs_type fs = FS_FAT16 → n_fatent fs ≤ 65527;
  geo_table : n_fatent fs * (if fs_type fs =? FS_FAT12 then 3 else if fs_type fs =? FS_FAT16 then 4 else 8)
                ≤ 2 * (fsize fs * SS);
}.

Definition in_fat (fs : FATFS) (s : Z) : Prop := fatbase fs ≤ s < fatbase fs + fsize fs.
Definition in_fat2 (fs : FATFS) (s : Z) : Prop :=
  n_fats fs = 2 ∧ fatbase fs + fsize fs ≤ s < fatbase fs + 2 * fsize fs.

(** Sector [s] as FatFs sees it. *)
Definition view (fs : FATFS) (img : list Z) (s : Z) : list Z :=
  if winsect fs =? s then win fs else sector s img.

(** What is fixed while a volume is mounted. *)
Definition same_volume (fs fs' : FATFS) : Prop :=
  fs_type fs' = fs_type fs ∧ pdrv fs' = pdrv fs ∧ n_fats fs' = n_fats fs ∧ fs_id fs' = fs_id fs ∧
  n_rootdir fs' = n_rootdir fs ∧ csize fs' = csize fs ∧ n_fatent fs' = n_fatent fs ∧
  fsize fs' = fsize fs ∧ volbase fs' = volbase fs ∧ fatbase fs' = fatbase fs ∧
  dirbase fs' = dirbase fs ∧ database fs' = database fs.

(** What the window does not touch. *)
Definition same_alloc (fs fs' : FATFS) : Prop :=
  fsi_flag fs' = fsi_flag fs ∧ last_clst fs' = last_clst fs ∧ free_clst fs' = free_clst fs.

#[global] Instance same_volume_preorder : PreOrder same_volume.
Proof. split; [by intros ?|unfold same_volume; intros ? ? ?; intuition congruence]. Qed.

#[global] Instance same_alloc_preorder : PreOrder same_alloc.
Proof. split; [by intros ?|unfold same_alloc; intros ? ? ?; intuition congruence]. Qed.

(** The window agrees with the disk unless it is dirty; a dirty window is one
    of the sectors to write, and not of the second FAT; the second FAT is a
    copy of the first but for a dirty window. *)
Record win_ok (fs : FATFS) (img : list Z) : Prop := {
  wo_geo : geometry fs (n_sect img);
  wo_len : length (win fs) = 512%nat;
  wo_bytes : Forall is_byte (win fs);
  wo_clean : wflag fs = 0 → 0 ≤ winsect fs → winsect fs < n_sect img → win fs = sector (winsect fs) img;
  wo_range : 0 ≤ winsect fs;
  wo_dirty : wflag fs ≠ 0 → winsect fs < n_sect img ∧ ¬ in_fat2 fs (winsect fs);
  wo_mirror : n_fats fs = 2 → ∀ s, in_fat fs s → (wflag fs = 0 ∨ s ≠ winsect fs) →
    sector (s + fsize fs) img = sector s img;
}.

(** ** The window is moved and written back *)

(** The volume is the same. *)
Record keeps_view (fs : FATFS) (img : list Z) (fs' : FATFS) (img' : list Z) : Prop := {
  kv_volume : same_volume fs fs';
  kv_alloc : same_alloc fs fs';
  kv_sects : n_sect img' = n_sect img;
  kv_view : ∀ s, 0 ≤ s < n_sect img → ¬ in_fat2 fs s → view fs' img' s = view fs img s;
}.

Lemma in_fat2_same fs fs' s : same_volume fs fs' → in_fat2 fs' s ↔ in_fat2 fs s.
Proof. unfold same_volume, in_fat2. intros (_ & _ & -> & _ & _ & _ & _ & -> & _ & -> & _). done. Qed.

Lemma keeps_view_refl fs img : keeps_view fs img fs img.
Proof. by split. Qed.

Lemma keeps_view_trans fs img fs1 img1 fs2 img2 :
  keeps_view fs img fs1 img1 → keeps_view fs1 img1 fs2 img2 → keeps_view fs img fs2 img2.
Proof.
  intros [V A S V1] [V' A' S' V1']. split; [by etrans|by etrans|congruence|].
  intros s Hs Hn. rewrite V1' by (rewrite ?S, ?(in_fat2_same fs fs1) by done; done). by apply V1.
Qed.

Lemma geometry_same fs fs' n : same_volume fs fs' → geometry fs n → geometry fs' n.
Proof.
  unfold same_volume. intros (E1 & E2 & E3 & E4 & E5 & E6 & E7 & E8 & E9 & E10 & E11 & E12) G.
  destruct G. split; rewrite ?E1, ?E2, ?E3, ?E4, ?E5, ?E6, ?E7, ?E8, ?E9, ?E10, ?E11, ?E12; done.
Qed.

Section window.
Context {D : Type} `{Disk D} (W : Z).
Hypothesis HW : 32 ≤ W.

Implicit Types (fs : FATFS) (d : D) (img : list Z).

Lemma pow_W : 2 ^ 32 ≤ 2 ^ W.
Proof using HW. apply Z.pow_le_mono_r; lia. Qed.

Lemma dw_small z : 0 ≤ z < 2 ^ 32 → wrap W z = z.
Proof using HW. intros Hz. apply wrap_small. pose proof pow_W. lia. Qed.

(** The test whether the window is in the first FAT. *)
Lemma fat_test fs s n :
  geometry fs n → n < FFFFFFFF → 0 ≤ s < n →
  (wrap W (s - fatbase fs) <? fsize fs) = bool_decide (in_fat fs s).
Proof using HW.
  intros [] Hn Hs. unfold FFFFFFFF in *. pose proof pow_W as Hp.
  assert (fatbase fs + fsize fs ≤ n) by nia. apply eq_bool_prop_intro. rewrite bool_decide_spec.
  unfold in_fat. rewrite Is_true_true, Z.ltb_lt. destruct (decide (fatbase fs ≤ s)).
  - rewrite wrap_small by lia. lia.
  - unfold wrap. rewrite <-(Z_mod_plus_full _ 1), Z.mod_small by lia. lia.
Qed.

Lemma write_sector fs d img s :
  dsk d img → pdrv fs = 0 → length (win fs) = 512%nat → Forall is_byte (win fs) → 0 ≤ s < n_sect img →
  ∃ d', dwrite (win fs) s 1 (fs, d) = Ok (RES_OK, (fs, d')) ∧ dsk d' (patch (Z.to_nat (s * SS)) (win fs) img).
Proof.
  intros Hd Hp Hl Hb Hs. unfold dwrite. cbn [fst snd]. rewrite Hp.
  destruct (dsk_write d img (win fs) s 1) as (d' & -> & Hd'); [done|lia|lia|lia|unfold SS; lia|done|].
  rewrite bind_Ok. exists d'. split; [done|]. rewrite take_ge in Hd' by (unfold SS; lia). done.
Qed.

Lemma sync_window_ok fs d img :
  win_ok fs img → dsk d img →
  ∃ fs' d' img', sync_window W (fs, d) = Ok (FR_OK, (fs', d')) ∧ dsk d' img' ∧ win_ok fs' img' ∧
    keeps_view fs img fs' img' ∧ wflag fs' = 0 ∧ winsect fs' = winsect fs ∧ win fs' = win fs.
Proof using HW.
  intros Hw Hd. pose proof Hw as [G Hl Hb Hc Hr Hdi Hm]. destruct (dsk_bytes _ _ Hd) as [Hby Hn].
  unfold sync_window. ff_run. destruct (truth (wflag fs)) eqn:Hf; bool_to_prop.
  2:{ exists fs, d, img. split; [done|]. split; [done|]. split; [done|]. split; [apply keeps_view_refl|done]. }
  destruct (Hdi Hf) as [Hs Hs2].
  destruct (write_sector fs d img (winsect fs)) as (d1 & Hw1 & Hd1); [done|apply G|done|done|lia|].
  rewrite (run_bind _ _ _ _ _ Hw1). change (RES_OK =? RES_OK) with true. cbv iota. ff_run.
  set (img1 := patch (Z.to_nat (winsect fs * SS)) (win fs) img) in *.
  assert (n_sect img1 = n_sect img) as Hn1 by (apply n_sect_patch; [lia|done]).
  rewrite (fat_test fs _ (n_sect img)) by (done || lia).
  assert (∀ s, 0 ≤ s < n_sect img → sector s img1 = view fs img s) as Hv.
  { intros s Hs'. unfold view, img1. destruct (Z.eqb_spec (winsect fs) s) as [<-|].
    - apply sector_patch; [lia|done].
    - apply sector_patch_ne; [lia|lia|done|done]. }
  assert (∀ img2, n_sect img2 = n_sect img → (∀ s, 0 ≤ s < n_sect img → ¬ in_fat2 fs s → sector s img2 = sector s img1) →
    keeps_view fs img (set_wflag 0 fs) img2) as Hk.
  { intros img2 Hn2 H2. split; [done|done|done|]. intros s Hs' Hs2'. unfold view. cbn [winsect win set_wflag set_window].
    destruct (Z.eqb_spec (winsect fs) s) as [|Hne]; [done|]. rewrite H2, Hv by done. unfold view.
    by rewrite (proj2 (Z.eqb_neq _ _) Hne). }
  destruct (bool_decide (in_fat fs (winsect fs)) && (n_fats fs =? 2)) eqn:Hfat.
  - apply andb_true_iff in Hfat as [Hin%bool_decide_eq_true H2]. rewrite bool_decide_eq_true_2 by done.
    rewrite H2. apply Z.eqb_eq in H2. pose proof G as [? ? ? ? ? Hgd ? ? Hgr ? ? ?]. rewrite H2 in Hgd.
    unfold in_fat in Hin. unfold FFFFFFFF in Hn.
    assert (database fs ≤ n_sect img) by nia.
    assert (0 ≤ winsect fs + fsize fs < n_sect img) as Hr2 by lia.
    rewrite dw_small by lia.
    destruct (write_sector (set_wflag 0 fs) d1 img1 (winsect fs + fsize fs)) as (d2 & Hw2 & Hd2);
      [done|done|done|done|lia|].
    rewrite (run_bind _ _ _ _ _ Hw2).
    set (img2 := patch _ _ img1) in *.
    assert (n_sect img2 = n_sect img1) as Hn2 by (apply n_sect_patch; (done || lia)).
    assert (∀ s, 0 ≤ s → s ≠ winsect fs + fsize fs → sector s img2 = sector s img1) as Hne2.
    { intros s Hs0 Hne. unfold img2. apply sector_patch_ne; (done || lia). }
    exists (set_wflag 0 fs), d2, img2. split; [done|]. split; [done|]. split.
    + split; cbn; rewrite ?Hn2, ?Hn1; try done; [by apply (geometry_same fs)|..].
      * intros _ Hs0 Hs1. rewrite Hne2, Hv by lia. unfold view. by rewrite Z.eqb_refl.
      * intros _ s Hins _. unfold in_fat in Hins. cbn in Hins. destruct (decide (s = winsect fs)) as [->|Hne].
        -- unfold img2 at 1. rewrite sector_patch by (done || lia). rewrite Hne2, Hv by lia.
           unfold view. by rewrite Z.eqb_refl.
        -- rewrite !Hne2, !Hv by lia. unfold view. rewrite !(proj2 (Z.eqb_neq _ _)) by lia.
           apply Hm; [done|done|by right].
    + split; [|done]. apply Hk; [congruence|]. intros s Hs' Hns. apply Hne2; [lia|]. intros ->. apply Hns.
      unfold in_fat2. split; [done|]. lia.
  - match goal with |- ∃ _ _ _, ?m = _ ∧ _ => assert (m = Ok (FR_OK, (set_wflag 0 fs, d1))) as -> end.
    { destruct (bool_decide _); [|done]. cbn [andb] in Hfat. by rewrite Hfat. }
    exists (set_wflag 0 fs), d1, img1. split; [done|]. split; [done|]. split; [|split; [by apply Hk|done]].
    split; cbn; rewrite ?Hn1; try done; [by apply (geometry_same fs)|..].
    + intros _ Hs0 Hs1. rewrite Hv by lia. unfold view. by rewrite Z.eqb_refl.
    + intros H2 s Hins _. rewrite H2 in Hfat. change (2 =? 2) with true in Hfat. rewrite andb_true_r in Hfat.
      apply bool_decide_eq_false in Hfat. unfold in_fat in *. cbn in Hins.
      pose proof G as [? ? ? ? ? Hgd ? ? Hgr ? ? ?]. rewrite H2 in Hgd.
      assert (database fs ≤ n_sect img) by nia.
      rewrite !Hv by lia. unfold view. rewrite !(proj2 (Z.eqb_neq _ _)); [apply Hm; [done|done|right; lia]|lia|].
      intros Heq. apply Hs2. unfold in_fat2. split; [done|]. lia.
Qed.

Lemma read_sector fs d img s :
  dsk d img → pdrv fs = 0 → length (win fs) = 512%nat → 0 ≤ s < n_sect img →
  ∃ d', dread (win fs) s 1 (fs, d) = Ok ((RES_OK, sector s img), (fs, d')) ∧ dsk d' img.
Proof.
  intros Hd Hp Hl Hs. unfold dread. cbn [fst snd]. rewrite Hp.
  destruct (dsk_read d img (win fs) s 1) as (d' & -> & Hd'); [done|lia|lia|lia|unfold SS; lia|].
  rewrite bind_Ok. exists d'. split; [|done]. do 3 f_equal.
  change (Z.to_nat (1 * SS)) with (Z.to_nat SS). fold (sector s img).
  pose proof (sector_length s img Hs). unfold patch. rewrite take_0, drop_ge by lia. apply app_nil_r.
Qed.

(** Moving the window. *)
Lemma move_window_ok fs d img s :
  win_ok fs img → dsk d img → 0 ≤ s < n_sect img → ¬ in_fat2 fs s →
  ∃ fs' d' img', move_window W s (fs, d) = Ok (FR_OK, (fs', d')) ∧ dsk d' img' ∧ win_ok fs' img' ∧
    keeps_view fs img fs' img' ∧ winsect fs' = s ∧ win fs' = view fs img s.
Proof using HW.
  intros Hw Hd Hs Hs2. unfold move_window. ff_run. destruct (Z.eqb_spec s (winsect fs)) as [->|Hne].
  { exists fs, d, img. split; [done|]. split; [done|]. split; [done|]. split; [apply keeps_view_refl|].
    split; [done|]. unfold view. by rewrite Z.eqb_refl. }
  destruct (sync_window_ok fs d img Hw Hd) as (fs1 & d1 & img1 & Hr & Hd1 & Hw1 & Hk & Hf1 & Hws1 & Hwin1).
  cbn [negb]. rewrite (run_bind _ _ _ _ _ Hr). rewrite decide_True by done. ff_run.
  pose proof Hw1 as [G1 Hl1 Hb1 Hc1 Hr1 Hd1' Hm1]. destruct (dsk_bytes _ _ Hd1) as [Hby1 Hn1].
  destruct (read_sector fs1 d1 img1 s) as (d2 & Hrd & Hd2);
    [done|apply G1|done|rewrite (kv_sects _ _ _ _ Hk); lia|].
  rewrite (run_bind _ _ _ _ _ Hrd). cbv beta iota. ff_run. change (RES_OK =? RES_OK) with true. cbn [negb]. ff_run.
  set (fs2 := set_winsect s (set_win (sector s img1) fs1)).
  assert (same_volume fs1 fs2) as Hsv by done.
  assert (view fs img s = sector s img1) as Hvs.
  { rewrite <-(kv_view _ _ _ _ Hk) by done. unfold view. rewrite Hws1. by rewrite (proj2 (Z.eqb_neq _ _)) by done. }
  exists fs2, d2, img1. split; [done|]. split; [done|]. split; [|split; [|by rewrite Hvs]].
  - split; cbn; try done.
    + by apply (geometry_same fs1).
    + apply sector_length. rewrite (kv_sects _ _ _ _ Hk). lia.
    + by apply sector_bytes.
    + lia.
    + intros H2 s' Hs' _. apply Hm1; [done|done|by left].
  - apply (keeps_view_trans _ _ fs1 img1); [done|]. split; [done|done|done|].
    intros s' Hs' Hn'. unfold view. cbn [winsect win fs2 set_winsect set_win set_window].
    destruct (Z.eqb_spec s s') as [Hss|]; destruct (Z.eqb_spec (winsect fs1) s') as [Hws|]; try done.
    + congruence.
    + by rewrite Hss.
    + rewrite <-Hws. symmetry. apply Hc1; [done|lia|lia].
Qed.
End window.
