(* ===== verification/FfFat.v ===== *)
(** * FatFs: the FAT as an array

    [get_fat] and [put_fat] read and write an array of cluster values, for the
    three widths of entries, entries of 12 bits across bytes and sectors
    included. *)

From S2P Require Import Prelude Bytes Ff FfWindow.

(** ** Words *)

Lemma ld_word_ok p i :
  0 ≤ i → i + 2 ≤ Z.of_nat (length p) → Forall is_byte p →
  ld_word p i = Ok (le_value (bytes_at (Z.to_nat i) 2 p)).
Proof.
  intros Hi Hl Hb. unfold ld_word.
  destruct (get_ok p (i + 1)) as (b1 & -> & H1); [lia|]. destruct (get_ok p i) as (b0 & -> & H0); [lia|].
  rewrite !bind_Ok. f_equal.
  pose proof (proj1 (Forall_lookup _ _) Hb _ _ H0) as B0. pose proof (proj1 (Forall_lookup _ _) Hb _ _ H1) as B1.
  unfold is_byte in B0, B1. rewrite (wrap_small 16 b1), lor_shiftl_add, wrap_small by lia.
  replace (bytes_at (Z.to_nat i) 2 p) with [b0; b1]; [simpl; lia|].
  apply list_eq. intros k. rewrite lookup_bytes_at. destruct k as [|[|k]]; simpl; [| |done].
  - by rewrite Nat.add_0_r, H0.
  - rewrite <-H1. f_equal. lia.
Qed.

Lemma ld_dword_ok W p i :
  32 ≤ W → 0 ≤ i → i + 4 ≤ Z.of_nat (length p) → Forall is_byte p →
  ld_dword W p i = Ok (le_value (bytes_at (Z.to_nat i) 4 p)).
Proof.
  intros HW Hi Hl Hb. unfold ld_dword.
  destruct (get_ok p (i + 3)) as (b3 & -> & H3); [lia|]. destruct (get_ok p (i + 2)) as (b2 & -> & H2); [lia|].
  destruct (get_ok p (i + 1)) as (b1 & -> & H1); [lia|]. destruct (get_ok p i) as (b0 & -> & H0); [lia|].
  rewrite !bind_Ok. f_equal.
  pose proof (proj1 (Forall_lookup _ _) Hb _ _ H0) as B0. pose proof (proj1 (Forall_lookup _ _) Hb _ _ H1) as B1.
  pose proof (proj1 (Forall_lookup _ _) Hb _ _ H2) as B2. pose proof (proj1 (Forall_lookup _ _) Hb _ _ H3) as B3.
  unfold is_byte in B0, B1, B2, B3. pose proof (Z.pow_le_mono_r 2 32 W ltac:(lia) HW).
  rewrite (lor_shiftl_add b3 b2), (wrap_small W (b3 * _ + b2)) by lia.
  rewrite (lor_shiftl_add _ b1), (wrap_small W (_ + b1)), (lor_shiftl_add _ b0), wrap_small by lia.
  replace (bytes_at (Z.to_nat i) 4 p) with [b0; b1; b2; b3]; [simpl; lia|].
  apply list_eq. intros k. rewrite lookup_bytes_at. destruct k as [|[|[|[|k]]]]; simpl; [| | | |done].
  - by rewrite Nat.add_0_r, H0.
  - rewrite <-H1. f_equal. lia.
  - rewrite <-H2. f_equal. lia.
  - rewrite <-H3. f_equal. lia.
Qed.

Lemma put_byte i v p :
  0 ≤ i < Z.of_nat (length p) → put i v p = Ok (patch (Z.to_nat i) [v `mod` 256] p).
Proof.
  intros Hi. rewrite <-put_patch; [|done|]; unfold put, wrap; change (2 ^ 8) with 256.
  - by rewrite Z.mod_mod by lia.
  - unfold is_byte. pose proof (Z.mod_pos_bound v 256). lia.
Qed.

(** Bytes written one after the other. *)
Lemma patch_next o bs b l :
  (o + length bs + 1 ≤ length l)%nat → patch (o + length bs) [b] (patch o bs l) = patch o (bs ++ [b]) l.
Proof.
  intros Hl. apply list_eq. intros i.
  rewrite !lookup_patch by (rewrite ?patch_length, ?length_app; cbn [length]; lia).
  rewrite length_app. cbn [length]. repeat case_decide; try lia; try done.
  - rewrite lookup_app_r by lia. f_equal. lia.
  - by rewrite lookup_app_l by lia.
Qed.

Lemma st_word_ok i v p :
  0 ≤ i → i + 2 ≤ Z.of_nat (length p) → st_word i v p = Ok (patch (Z.to_nat i) (le_bytes 2 v) p).
Proof.
  intros Hi Hl. unfold st_word. rewrite put_byte, bind_Ok by lia.
  rewrite put_byte by (rewrite patch_length; simpl; lia). rewrite Z.shiftr_div_pow2 by lia. f_equal.
  replace (Z.to_nat (i + 1)) with (Z.to_nat i + length [(v `mod` 256)%Z])%nat by (simpl; lia).
  rewrite patch_next by (simpl; lia). done.
Qed.

Lemma st_dword_ok i v p :
  0 ≤ i → i + 4 ≤ Z.of_nat (length p) → st_dword i v p = Ok (patch (Z.to_nat i) (le_bytes 4 v) p).
Proof.
  intros Hi Hl. unfold st_dword. rewrite !Z.shiftr_div_pow2 by lia. change (2 ^ 8) with 256.
  rewrite put_byte, bind_Ok by lia.
  rewrite put_byte, bind_Ok by (rewrite patch_length; simpl; lia).
  replace (Z.to_nat (i + 1)) with (Z.to_nat i + length [(v `mod` 256)%Z])%nat by (simpl; lia).
  rewrite patch_next by (simpl; lia).
  rewrite put_byte, bind_Ok by (rewrite patch_length; simpl; lia).
  replace (Z.to_nat (i + 2)) with (Z.to_nat i + length ([(v `mod` 256)%Z] ++ [((v / 256) `mod` 256)%Z]))%nat by (simpl; lia).
  rewrite patch_next by (simpl; lia).
  rewrite put_byte by (rewrite patch_length; simpl; lia). f_equal.
  replace (Z.to_nat (i + 3)) with
    (Z.to_nat i + length (([(v `mod` 256)%Z] ++ [((v / 256) `mod` 256)%Z]) ++ [((v / 256 / 256) `mod` 256)%Z]))%nat by (simpl; lia).
  rewrite patch_next by (simpl; lia). done.
Qed.

(** ** Entries *)

(** The value of entry [c] in a table whose byte [b] is [f b]. *)
Definition fat_of (t : Z) (f : Z → Z) (c : Z) : Z :=
  if t =? FS_FAT12 then
    let w := f (c + c / 2) + 256 * f (c + c / 2 + 1) in if Z.odd c then w / 16 else w `mod` 4096
  else if t =? FS_FAT16 then f (c * 2) + 256 * f (c * 2 + 1)
  else (f (c * 4) + 256 * (f (c * 4 + 1) + 256 * (f (c * 4 + 2) + 256 * f (c * 4 + 3)))) `mod` 268435456.

(** The number of values of an entry. *)
Definition fat_mod (t : Z) : Z :=
  if t =? FS_FAT12 then 4096 else if t =? FS_FAT16 then 65536 else 268435456.

(** The bytes that make up entry [c], and those of a table of [n] entries. *)
Definition entry_bytes (t c : Z) : Z * Z :=
  if t =? FS_FAT12 then (c + c / 2, 2) else if t =? FS_FAT16 then (c * 2, 2) else (c * 4, 4).

Lemma fat_of_ext t f g c :
  (∀ b, (entry_bytes t c).1 ≤ b < (entry_bytes t c).1 + (entry_bytes t c).2 → f b = g b) →
  fat_of t f c = fat_of t g c.
Proof.
  unfold fat_of, entry_bytes. intros Hfg. repeat case_if; cbn [fst snd] in Hfg; by rewrite !Hfg by lia.
Qed.

Lemma fat_of_bound t f c : (∀ b, is_byte (f b)) → 0 ≤ fat_of t f c < fat_mod t.
Proof.
  intros Hf. unfold fat_of, fat_mod.
  pose proof (Hf (c + c / 2)) as B0. pose proof (Hf (c + c / 2 + 1)) as B1.
  pose proof (Hf (c * 2)) as B2. pose proof (Hf (c * 2 + 1)) as B3. unfold is_byte in *.
  repeat case_if.
  - split; [apply Z.div_pos; lia|]. apply Z.div_lt_upper_bound; lia.
  - apply Z.mod_pos_bound. lia.
  - lia.
  - apply Z.mod_pos_bound. lia.
Qed.

(** Writing an entry of 12 bits: the first byte, then the second. *)
Definition put12_first (c v p : Z) : Z := if Z.odd c then p `mod` 16 + 16 * (v `mod` 16) else v `mod` 256.
Definition put12_second (c v p : Z) : Z :=
  if Z.odd c then (v / 16) `mod` 256 else 16 * (p / 16) + (v / 256) `mod` 16.

Lemma parity c : ∃ k, c = 2 * k + (if Z.odd c then 1 else 0) ∧ c / 2 = k.
Proof.
  exists (c / 2). split; [|done]. rewrite <-Zmod_odd. apply Z.div_mod. lia.
Qed.

Lemma fat12_put f g c v :
  (∀ b, is_byte (f b)) → 0 ≤ c →
  (∀ b, 0 ≤ b → g b = if b =? c + c / 2 then put12_first c v (f b)
                     else if b =? c + c / 2 + 1 then put12_second c v (f b) else f b) →
  fat_of FS_FAT12 g c = v `mod` 4096 ∧
  ∀ c', 0 ≤ c' → c' ≠ c → fat_of FS_FAT12 g c' = fat_of FS_FAT12 f c'.
Proof.
  intros Hf Hc Hg. unfold fat_of. change (FS_FAT12 =? FS_FAT12) with true. cbv iota zeta.
  unfold put12_first, put12_second in Hg. destruct (parity c) as (k & Ec & Ek). rewrite Ek in *. split.
  - rewrite !Hg, !Z.eqb_refl, (proj2 (Z.eqb_neq (c + k + 1) (c + k))) by (destruct (Z.odd c); lia).
    destruct (Z.odd c).
    + change 4096 with (16 * 256). rewrite (Z.rem_mul_r v 16 256) by lia.
      replace (_ + 16 * (v `mod` 16) + _) with (f (c + k) `mod` 16 + (v `mod` 16 + 16 * ((v / 16) `mod` 256)) * 16) by lia.
      rewrite Z.div_add, (Z.div_small (f (c + k) `mod` 16)) by (try apply Z.mod_pos_bound; lia). lia.
    + change 4096 with (256 * 16) at 2. rewrite (Z.rem_mul_r v 256 16) by lia.
      replace (_ + 256 * _) with (v `mod` 256 + 256 * ((v / 256) `mod` 16) + (f (c + k + 1) / 16) * 4096) by lia.
      rewrite Z.mod_add by lia. apply Z.mod_small.
      pose proof (Z.mod_pos_bound v 256). pose proof (Z.mod_pos_bound (v / 256) 16). lia.
  - intros c' Hc' Hne. destruct (parity c') as (k' & Ec' & Ek'). rewrite Ek'.
    rewrite !Hg by (destruct (Z.odd c'); lia). pose proof (Hf (c' + k')) as B0. pose proof (Hf (c' + k' + 1)) as B1.
    unfold is_byte in B0, B1.
    pose proof (Z.mod_pos_bound (v / 256) 16 ltac:(lia)). set (x := (v / 256) `mod` 16) in *. clearbody x.
    pose proof (Z.mod_pos_bound v 16 ltac:(lia)). set (y := v `mod` 16) in *. clearbody y.
    destruct (Z.odd c), (Z.odd c');
      repeat match goal with |- context [?a =? ?b] => destruct (Z.eqb_spec a b) end; try lia;
      clear -B0 B1 H H0; Z.to_euclidean_division_equations; lia.
Qed.

(** The bytes [put_fat] computes. *)
Lemma land_240 p : is_byte p → Z.land p 240 = Z.shiftl (p / 16) 4.
Proof.
  intros Hp. unfold is_byte in Hp. apply Z.bits_inj'. intros n Hn.
  change 240 with (Z.shiftl (Z.ones 4) 4). change 16 with (2 ^ 4).
  rewrite Z.land_spec, !Z.shiftl_spec by done. rewrite <-Z.shiftr_div_pow2 by lia.
  destruct (decide (n < 4)); [by rewrite !(Z.testbit_neg_r _ (n - 4)), andb_false_r by lia|].
  rewrite Z.shiftr_spec by lia. replace (n - 4 + 4) with n by lia.
  destruct (decide (n < 8)).
  - rewrite Z.ones_spec_low by lia. by rewrite andb_true_r.
  - replace p with (wrap 8 p) at 1 2 by (apply wrap_small; lia).
    rewrite wrap_spec by lia. by rewrite (proj2 (Z.ltb_ge n 8)) by lia.
Qed.

Lemma put12_first_ok c v p :
  is_byte p →
  (if truth (Z.land c 1) then Z.lor (Z.land p 15) (Z.shiftl (u8 v) 4) else u8 v) `mod` 256 = put12_first c v p.
Proof.
  intros Hp. unfold put12_first. rewrite truth_land_1. unfold is_byte in Hp. unfold wrap. change (2 ^ 8) with 256.
  destruct (Z.odd c); [|by rewrite Z.mod_mod by lia].
  change 15 with (Z.ones 4). rewrite Z.land_ones by lia. change (2 ^ 4) with 16.
  rewrite Z.lor_comm, lor_shiftl_add by (try apply Z.mod_pos_bound; lia).
  Z.to_euclidean_division_equations. lia.
Qed.

Lemma put12_second_ok c v p :
  is_byte p →
  (if truth (Z.land c 1) then u8 (Z.shiftr v 4)
   else Z.lor (Z.land p 240) (Z.land (u8 (Z.shiftr v 8)) 15)) `mod` 256 = put12_second c v p.
Proof.
  intros Hp. unfold put12_second. rewrite truth_land_1, !Z.shiftr_div_pow2 by lia.
  rewrite land_240 by done. unfold is_byte in Hp. unfold wrap. change (2 ^ 8) with 256. change (2 ^ 4) with 16.
  destruct (Z.odd c); [by rewrite Z.mod_mod by lia|].
  change 15 with (Z.ones 4). rewrite Z.land_ones by lia. change (2 ^ 4) with 16.
  rewrite lor_shiftl_add by (try apply Z.mod_pos_bound; lia). change (2 ^ 4) with 16.
  Z.to_euclidean_division_equations. lia.
Qed.

(** ** The table on the volume *)

(** Byte [b] of the FAT, and entry [c]. *)
Definition fat_byte (fs : FATFS) (img : list Z) (b : Z) : Z :=
  default 0 (view fs img (fatbase fs + b / SS) !! Z.to_nat (b `mod` SS)).

Definition fat_val (fs : FATFS) (img : list Z) (c : Z) : Z := fat_of (fs_type fs) (fat_byte fs img) c.

(** A write into the FAT: the bytes [bs] at [b], nothing else. *)
Record fat_written (b : Z) (bs : list Z) (fs : FATFS) (img : list Z) (fs' : FATFS) (img' : list Z) : Prop := {
  fw_volume : same_volume fs fs';
  fw_alloc : same_alloc fs fs';
  fw_sects : n_sect img' = n_sect img;
  fw_view : ∀ s, 0 ≤ s < n_sect img → ¬ in_fat fs s → ¬ in_fat2 fs s → view fs' img' s = view fs img s;
  fw_bytes : ∀ b', 0 ≤ b' < fsize fs * SS → fat_byte fs' img' b' =
    if decide (b ≤ b' < b + Z.of_nat (length bs)) then default 0 (bs !! Z.to_nat (b' - b)) else fat_byte fs img b';
  fw_win : in_fat fs (winsect fs');
}.

Section table.
Context (fs : FATFS) (img : list Z).
Hypotheses (Hw : win_ok fs img) (Himg : Forall is_byte img).

Lemma view_bytes s : Forall is_byte (view fs img s).
Proof using Hw Himg. unfold view. case_if; [apply Hw|auto with mipos]. Qed.

Lemma view_length s : 0 ≤ s < n_sect img → length (view fs img s) = 512%nat.
Proof using Hw. intros Hs. unfold view. case_if; [apply Hw|by apply sector_length]. Qed.

Lemma fat_byte_byte b : is_byte (fat_byte fs img b).
Proof using Hw Himg.
  unfold fat_byte. destruct (_ !! _) as [x|] eqn:Hx; [|done].
  exact (proj1 (Forall_lookup _ _) (view_bytes _) _ _ Hx).
Qed.

Lemma fat_val_bound c : 0 ≤ fat_val fs img c < fat_mod (fs_type fs).
Proof using Hw Himg. apply fat_of_bound, fat_byte_byte. Qed.

(** The sector of a byte of the FAT. *)
Lemma fat_sector b :
  0 ≤ b < fsize fs * SS →
  in_fat fs (fatbase fs + b / SS) ∧ 0 ≤ fatbase fs + b / SS < n_sect img ∧
  ¬ in_fat2 fs (fatbase fs + b / SS).
Proof using Hw.
  intros Hb. destruct (wo_geo _ _ Hw) as [? ? ? ? ? Hgd ? ? Hgr ? ? ?].
  assert (0 ≤ b / SS < fsize fs) as Hs.
  { unfold SS in *. split; [apply Z.div_pos; lia|]. apply Z.div_lt_upper_bound; lia. }
  assert (database fs ≤ n_sect img) by nia. unfold in_fat, in_fat2.
  assert (1 * fsize fs ≤ n_fats fs * fsize fs) by nia. lia.
Qed.

(** All bytes of an entry are in the table. *)
Lemma entry_in_table c :
  0 ≤ c < n_fatent fs →
  let '(b, n) := entry_bytes (fs_type fs) c in 0 ≤ b ∧ b + n ≤ fsize fs * SS.
Proof using Hw.
  intros Hc. destruct (wo_geo _ _ Hw) as [_ Ht _ _ _ _ _ _ _ _ _ Htab]. unfold entry_bytes.
  destruct Ht as [Ht|[Ht|Ht]]; rewrite Ht in *; cbn in Htab |- *; [|lia|lia].
  destruct (parity c) as (k & Ec & ->). destruct (Z.odd c); lia.
Qed.

Lemma entry_valid c :
  2 ≤ c < n_fatent fs →
  let '(b, n) := entry_bytes (fs_type fs) c in 0 ≤ b ∧ b + n ≤ fsize fs * SS.
Proof using Hw. intros Hc. apply entry_in_table. lia. Qed.
End table.

(** Moving the window keeps the table. *)
Lemma fat_byte_keeps fs img fs' img' b :
  win_ok fs img → keeps_view fs img fs' img' → 0 ≤ b < fsize fs * SS →
  fat_byte fs' img' b = fat_byte fs img b.
Proof.
  intros Hw Hk Hb. destruct (fat_sector fs img Hw b Hb) as (_ & Hs & Hn). unfold fat_byte.
  assert (fatbase fs' = fatbase fs) as -> by apply (kv_volume _ _ _ _ Hk).
  by rewrite (kv_view _ _ _ _ Hk) by done.
Qed.

Lemma fat_entry_keeps fs img fs' img' c :
  win_ok fs img → keeps_view fs img fs' img' → 0 ≤ c < n_fatent fs → fat_val fs' img' c = fat_val fs img c.
Proof.
  intros Hw Hk Hc. unfold fat_val. assert (fs_type fs' = fs_type fs) as -> by apply (kv_volume _ _ _ _ Hk).
  pose proof (entry_in_table fs img Hw c Hc) as He. apply fat_of_ext. intros b Hb.
  destruct (entry_bytes _ c) as [b0 n]. cbn [fst snd] in Hb. eapply fat_byte_keeps; [done|done|lia].
Qed.

Lemma fat_val_keeps fs img fs' img' c :
  win_ok fs img → keeps_view fs img fs' img' → 2 ≤ c < n_fatent fs → fat_val fs' img' c = fat_val fs img c.
Proof. intros Hw Hk Hc. apply fat_entry_keeps; [done|done|lia]. Qed.

(** Changing the window. *)
Lemma dirty_window fs img w :
  win_ok fs img → winsect fs < n_sect img → ¬ in_fat2 fs (winsect fs) →
  length w = 512%nat → Forall is_byte w →
  win_ok (set_window 1 (winsect fs) w fs) img ∧
  ∀ s, view (set_window 1 (winsect fs) w fs) img s = if winsect fs =? s then w else view fs img s.
Proof.
  intros Hw Hs Hn Hl Hb. pose proof Hw as [G ? ? ? ? ? Hm]. split.
  - split; cbn; try done; [by apply (geometry_same fs)|].
    intros H2 s Hins [?|?]; [done|]. apply Hm; [done|done|by right].
  - intros s. unfold view. cbn. by destruct (winsect fs =? s).
Qed.

Lemma edit_fat fs img b bs :
  win_ok fs img → Forall is_byte bs → 0 ≤ b → b + Z.of_nat (length bs) ≤ fsize fs * SS →
  b `mod` SS + Z.of_nat (length bs) ≤ SS → (0 < length bs)%nat → winsect fs = fatbase fs + b / SS →
  let fs' := set_window 1 (winsect fs) (patch (Z.to_nat (b `mod` SS)) bs (win fs)) fs in
  win_ok fs' img ∧ fat_written b bs fs img fs' img.
Proof.
  intros Hw Hbs Hb0 Hb Hfit Hpos Hws fs'.
  destruct (fat_sector fs img Hw b) as (Hin & Hr & Hn2); [lia|]. pose proof (wo_len _ _ Hw) as Hl.
  pose proof (Z.mod_pos_bound b SS ltac:(done)) as Hmod. unfold SS in Hmod, Hfit.
  destruct (dirty_window fs img (patch (Z.to_nat (b `mod` SS)) bs (win fs))) as [Hw' Hv].
  { done. } { lia. } { by rewrite Hws. } { rewrite patch_length; unfold SS; lia. }
  { apply patch_bytes; [done|apply Hw]. }
  fold fs' in Hw', Hv. split; [done|]. split; [done|done|done| | |cbn; by rewrite Hws].
  - intros s _ Hns _. rewrite Hv. destruct (Z.eqb_spec (winsect fs) s) as [<-|]; [|done]. by rewrite Hws in Hns.
  - intros b' Hb'. unfold fat_byte. change (fatbase fs') with (fatbase fs). rewrite Hv, Hws.
    pose proof (Z.div_mod b SS ltac:(done)) as E. pose proof (Z.div_mod b' SS ltac:(done)) as E'.
    pose proof (Z.mod_pos_bound b' SS ltac:(done)) as Hmod'. unfold SS in E, E', Hmod' |- *.
    destruct (Z.eqb_spec (fatbase fs + b / 512) (fatbase fs + b' / 512)) as [Heq|Hne].
    + rewrite lookup_patch by lia. assert (b / 512 = b' / 512) as Hdiv by lia.
      assert (view fs img (fatbase fs + b' / 512) = win fs) as ->.
      { unfold view. rewrite Hws. unfold SS. by rewrite Heq, Z.eqb_refl. }
      destruct (decide (b ≤ b' < b + Z.of_nat (length bs))).
      * rewrite decide_True by lia. do 2 f_equal. lia.
      * rewrite decide_False by lia. done.
    + rewrite decide_False; [done|]. intros Hin'. apply Hne. f_equal.
      assert (b / 512 ≤ b' / 512) by (apply Z.div_le_mono; lia). lia.
Qed.

(** The bytes of the window are those of the table. *)
Lemma win_fat_bytes fs img b n :
  win_ok fs img → winsect fs = fatbase fs + b / SS → 0 ≤ b → b `mod` SS + Z.of_nat n ≤ SS →
  bytes_at (Z.to_nat (b `mod` SS)) n (win fs) = (λ j, fat_byte fs img (b + Z.of_nat j)) <$> seq 0 n.
Proof.
  intros Hw Hws Hb Hn. pose proof (wo_len _ _ Hw) as Hl. unfold SS in *. apply list_eq. intros i.
  rewrite lookup_bytes_at, list_lookup_fmap. case_decide as Hi.
  2:{ rewrite lookup_ge_None_2; [done|]. rewrite length_seq. lia. }
  rewrite lookup_seq_lt by done. cbn [fmap option_fmap option_map]. unfold fat_byte, SS.
  assert ((b + Z.of_nat (0 + i)) / 512 = b / 512 ∧ (b + Z.of_nat (0 + i)) `mod` 512 = b `mod` 512 + Z.of_nat i) as [-> ->].
  { pose proof (Z.mod_pos_bound b 512). split; Z.to_euclidean_division_equations; lia. }
  unfold view. rewrite Hws, Z.eqb_refl. pose proof (Z.mod_pos_bound b 512 ltac:(lia)).
  replace (Z.to_nat (b `mod` 512 + Z.of_nat i)) with (Z.to_nat (b `mod` 512) + i)%nat by lia.
  destruct (lookup_lt_is_Some_2 (win fs) (Z.to_nat (b `mod` 512) + i)) as [x Hx]; [lia|]. by rewrite Hx.
Qed.

Lemma win_fat_byte fs img b :
  win_ok fs img → winsect fs = fatbase fs + b / SS → 0 ≤ b → get (win fs) (b `mod` SS) = Ok (fat_byte fs img b).
Proof.
  intros Hw Hws Hb. pose proof (Z.mod_pos_bound b SS ltac:(done)) as Hm.
  pose proof (win_fat_bytes fs img b 1 Hw Hws Hb ltac:(lia)) as E. pose proof (wo_len _ _ Hw).
  destruct (get_ok (win fs) (b `mod` SS)) as (x & -> & Hx); [unfold SS in *; lia|].
  apply (f_equal (lookup 0%nat)) in E. rewrite lookup_bytes_at, decide_True, Nat.add_0_r, Hx in E by lia.
  simpl in E. rewrite Z.add_0_r in E. congruence.
Qed.

Section ops.
Context {D : Type} `{Disk D} (W : Z).
Hypothesis HW : 32 ≤ W.

Implicit Types (fs : FATFS) (d : D) (img : list Z).

(** The window on byte [b] of the table. *)
Lemma seek_fat fs d img b :
  win_ok fs img → dsk d img → 0 ≤ b < fsize fs * SS →
  ∃ fs' d' img', move_window W (wrap W (fatbase fs + b / SS)) (fs, d) = Ok (FR_OK, (fs', d')) ∧
    dsk d' img' ∧ win_ok fs' img' ∧ keeps_view fs img fs' img' ∧ winsect fs' = fatbase fs' + b / SS.
Proof using HW.
  intros Hw Hd Hb. destruct (fat_sector fs img Hw b Hb) as (_ & Hs & Hn). destruct (dsk_bytes _ _ Hd) as [_ Hmax].
  unfold FFFFFFFF in Hmax. rewrite (dw_small W HW) by lia.
  destruct (move_window_ok W HW fs d img _ Hw Hd Hs Hn) as (fs' & d' & img' & -> & Hd' & Hw' & Hk & Hws & _).
  exists fs', d', img'. split; [done|]. split; [done|]. split; [done|]. split; [done|].
  assert (fatbase fs' = fatbase fs) as -> by apply (kv_volume _ _ _ _ Hk). done.
Qed.

Lemma get_win_byte fs d img b :
  win_ok fs img → winsect fs = fatbase fs + b / SS → 0 ≤ b →
  get_win (b `mod` SS) (fs, d) = Ok (fat_byte fs img b, (fs, d)).
Proof. intros Hw Hws Hb. unfold get_win. ff_run. unfold lift. by rewrite (win_fat_byte fs img). Qed.

(** The sector and the offset of an entry of 16 or 32 bits. *)
Lemma entry_offset c k n :
  0 < k → k * n = SS → 0 ≤ c → c * n < 2 ^ 32 →
  c / k = (c * n) / SS ∧ wrap W (c * n) = c * n ∧ (c * n) `mod` SS + n ≤ SS.
Proof using HW.
  intros Hk Hkn Hc Hmax. assert (0 < n) by (unfold SS in Hkn; nia).
  rewrite (dw_small W HW) by nia. split; [|split; [done|]].
  - rewrite <-Hkn, (Z.mul_comm k n), (Z.mul_comm c n), Z.div_mul_cancel_l; nia.
  - rewrite <-Hkn, (Z.mul_comm k n), (Z.mul_comm c n), Z.mul_mod_distr_l by nia.
    pose proof (Z.mod_pos_bound c k). nia.
Qed.

Lemma get_fat_ok fs d img c :
  win_ok fs img → dsk d img → 2 ≤ c < n_fatent fs →
  ∃ fs' d' img', get_fat W c (fs, d) = Ok (fat_val fs img c, (fs', d')) ∧
    dsk d' img' ∧ win_ok fs' img' ∧ keeps_view fs img fs' img'.
Proof using HW.
  intros Hw Hd Hc. unfold get_fat. ff_run.
  rewrite (proj2 (Z.ltb_ge c 2)), (proj2 (Z.leb_gt _ c)) by lia. cbn [orb].
  pose proof (entry_valid fs img Hw c Hc) as He. pose proof (wo_geo _ _ Hw) as [_ Ht _ _ _ _ _ Hents _ H12 H16 _].
  unfold entry_bytes in He. unfold fat_val, fat_of.
  destruct Ht as [Ht|[Ht|Ht]]; rewrite Ht in He |- *; cbn [Z.eqb Pos.eqb FS_FAT12 FS_FAT16 FS_FAT32] in He |- *.
  - specialize (H12 Ht). pose proof (Z.div_pos c 2 ltac:(lia) ltac:(lia)). assert (c / 2 ≤ c) by (apply Z.div_le_upper_bound; lia).
    rewrite (wrap_small 32 c), (wrap_small 32 (c + c / 2)), (wrap_small 32 (c + c / 2 + 1)) by lia.
    destruct (seek_fat fs d img (c + c / 2) Hw Hd) as (fs1 & d1 & img1 & Hm1 & Hd1 & Hw1 & Hk1 & Hws1); [lia|].
    rewrite (run_bind _ _ _ _ _ Hm1), decide_False by naive_solver.
    rewrite (run_bind _ _ _ _ _ (get_win_byte fs1 d1 img1 _ Hw1 Hws1 ltac:(lia))).
    assert (same_volume fs fs1) as Hsv by apply Hk1.
    assert (fatbase fs = fatbase fs1) as -> by (symmetry; apply Hsv).
    destruct (seek_fat fs1 d1 img1 (c + c / 2 + 1) Hw1 Hd1) as (fs2 & d2 & img2 & Hm2 & Hd2 & Hw2 & Hk2 & Hws2).
    { assert (fsize fs1 = fsize fs) as -> by apply Hsv. lia. }
    rewrite (run_bind _ _ _ _ _ Hm2), decide_False by naive_solver.
    rewrite (run_bind _ _ _ _ _ (get_win_byte fs2 d2 img2 _ Hw2 Hws2 ltac:(lia))).
    exists fs2, d2, img2. pose proof (keeps_view_trans _ _ _ _ _ _ Hk1 Hk2) as Hk.
    split; [|done]. rewrite (fat_byte_keeps fs img fs1 img1), (fat_byte_keeps fs img fs2 img2) by (done || lia).
    destruct (dsk_bytes _ _ Hd) as [Himg _].
    pose proof (fat_byte_byte fs img Hw Himg (c + c / 2)) as B0. pose proof (fat_byte_byte fs img Hw Himg (c + c / 2 + 1)) as B1.
    unfold is_byte in B0, B1. rewrite Z.lor_comm, lor_shiftl_add, truth_land_1 by lia.
    unfold mret, ff_ret. do 2 f_equal. destruct (Z.odd c).
    + rewrite Z.shiftr_div_pow2 by lia. f_equal. lia.
    + change 4095 with (Z.ones 12). rewrite Z.land_ones by lia. f_equal. lia.
  - specialize (H16 Ht). destruct (entry_offset c (SS / 2) 2) as (-> & -> & Hfit); [done|done|lia|lia|].
    destruct (seek_fat fs d img (c * 2) Hw Hd) as (fs1 & d1 & img1 & Hm1 & Hd1 & Hw1 & Hk1 & Hws1); [lia|].
    rewrite (run_bind _ _ _ _ _ Hm1), decide_False by naive_solver. ff_run.
    exists fs1, d1, img1. split; [|done]. unfold lift. pose proof (wo_len _ _ Hw1).
    pose proof (Z.mod_pos_bound (c * 2) SS ltac:(done)). assert (SS = 512) by done.
    rewrite ld_word_ok by (lia || apply Hw1). rewrite bind_Ok. do 2 f_equal.
    rewrite (win_fat_bytes fs1 img1 (c * 2) 2) by (done || lia). simpl.
    rewrite !(fat_byte_keeps fs img fs1 img1) by (done || lia).
    change (Z.of_nat 0) with 0. change (Z.of_nat 1) with 1. rewrite Z.add_0_r. lia.
  - destruct (entry_offset c (SS / 4) 4) as (-> & -> & Hfit); [done|done|lia|lia|].
    destruct (seek_fat fs d img (c * 4) Hw Hd) as (fs1 & d1 & img1 & Hm1 & Hd1 & Hw1 & Hk1 & Hws1); [lia|].
    rewrite (run_bind _ _ _ _ _ Hm1), decide_False by naive_solver. ff_run.
    exists fs1, d1, img1. split; [|done]. pose proof (wo_len _ _ Hw1).
    pose proof (Z.mod_pos_bound (c * 4) SS ltac:(done)). assert (SS = 512) by done.
    rewrite ld_dword_ok by (lia || apply Hw1). ff_run. unfold mret, ff_ret. do 2 f_equal.
    rewrite (win_fat_bytes fs1 img1 (c * 4) 4) by (done || lia). simpl.
    rewrite !(fat_byte_keeps fs img fs1 img1) by (done || lia).
    change (Z.of_nat 0) with 0. change (Z.of_nat 1) with 1. change (Z.of_nat 2) with 2. change (Z.of_nat 3) with 3.
    rewrite Z.add_0_r.
    change 268435455 with (Z.ones 28). rewrite Z.land_ones by lia. change (2 ^ 28) with 268435456. f_equal. lia.
Qed.

(** ** Writing entries *)

Lemma run_edit {A} f w (k : () → ff D A) fs d :
  f (win fs) = Ok w → (edit_win f ≫= k) (fs, d) = k () (set_win w fs, d).
Proof. intros Hf. unfold edit_win. ff_run. rewrite Hf. ff_run. done. Qed.

Lemma keeps_written b bs fs img fs1 img1 fs2 img2 :
  win_ok fs img → keeps_view fs img fs1 img1 → fat_written b bs fs1 img1 fs2 img2 →
  fat_written b bs fs img fs2 img2.
Proof.
  intros Hw Hk [V A S Hv Hb Hin]. pose proof Hk as [V0 A0 S0 Hv0].
  assert (fatbase fs1 = fatbase fs ∧ fsize fs1 = fsize fs) as [Ef Es] by (split; apply V0).
  split; [by etrans|by etrans|congruence| | |unfold in_fat in *; by rewrite Ef, Es in Hin].
  - intros s Hs H1 H2. rewrite Hv, Hv0; [done|done|done|lia| |by rewrite (in_fat2_same fs)].
    unfold in_fat in *. by rewrite Ef, Es.
  - intros b' Hb'. rewrite Hb by by rewrite Es. case_decide; [done|]. by apply fat_byte_keeps.
Qed.

(** The window on byte [b] of the table, and what writing there does. *)
Lemma seek_edit fs d img b :
  win_ok fs img → dsk d img → 0 ≤ b < fsize fs * SS →
  ∃ fs1 d1 img1, move_window W (wrap W (fatbase fs + b / SS)) (fs, d) = Ok (FR_OK, (fs1, d1)) ∧
    dsk d1 img1 ∧ win_ok fs1 img1 ∧ keeps_view fs img fs1 img1 ∧ winsect fs1 = fatbase fs1 + b / SS ∧
    ∀ bs, Forall is_byte bs → (0 < length bs)%nat → b + Z.of_nat (length bs) ≤ fsize fs * SS →
      b `mod` SS + Z.of_nat (length bs) ≤ SS →
      let fs2 := set_wflag 1 (set_win (patch (Z.to_nat (b `mod` SS)) bs (win fs1)) fs1) in
      win_ok fs2 img1 ∧ fat_written b bs fs img fs2 img1.
Proof using HW.
  intros Hw Hd Hb. destruct (seek_fat fs d img b Hw Hd Hb) as (fs1 & d1 & img1 & Hm1 & Hd1 & Hw1 & Hk1 & Hws1).
  exists fs1, d1, img1. repeat (split; [done|]). intros bs Hbs Hpos Hfit Hfit' fs2.
  destruct (edit_fat fs1 img1 b bs) as [Hw2 Hwr]; [done|done|lia| |done|done|done|].
  { assert (fsize fs1 = fsize fs) as -> by apply (kv_volume _ _ _ _ Hk1). done. }
  split; [exact Hw2|]. by apply (keeps_written _ _ _ _ fs1 img1).
Qed.

(** What [put_fat] does to the table. *)
Record fat_put (c v : Z) (fs : FATFS) (img : list Z) (fs' : FATFS) (img' : list Z) : Prop := {
  fp_volume : same_volume fs fs';
  fp_alloc : same_alloc fs fs';
  fp_sects : n_sect img' = n_sect img;
  fp_view : ∀ s, 0 ≤ s < n_sect img → ¬ in_fat fs s → ¬ in_fat2 fs s → view fs' img' s = view fs img s;
  fp_val : ∀ c', 2 ≤ c' < n_fatent fs →
    fat_val fs' img' c' = if c' =? c then v `mod` fat_mod (fs_type fs) else fat_val fs img c';
  fp_win : in_fat fs (winsect fs');
}.

(** Two bytes written are an entry of 12 bits. *)
Lemma written12_put c v fs img fs2 img1 fs4 img3 :
  let b := c + c / 2 in
  win_ok fs img → Forall is_byte img → 2 ≤ c < n_fatent fs → fs_type fs = FS_FAT12 →
  fat_written b [put12_first c v (fat_byte fs img b)] fs img fs2 img1 →
  fat_written (b + 1) [put12_second c v (fat_byte fs img (b + 1))] fs2 img1 fs4 img3 →
  fat_put c v fs img fs4 img3.
Proof.
  intros b Hw Himg Hc Ht Hwr1 Hwr2.
  pose proof Hwr1 as [V1 A1 S1 Hv1 Hby1 _]. pose proof Hwr2 as [V2 A2 S2 Hv2 Hby2 Hin2].
  assert (fsize fs2 = fsize fs) as Hfs2 by apply V1. assert (fatbase fs2 = fatbase fs) as Hfb2 by apply V1.
  split; [by etrans|by etrans|congruence| | |unfold in_fat in *; by rewrite Hfs2, Hfb2 in Hin2].
  - intros s Hs Hn1 Hn2. rewrite Hv2, Hv1; [done|done|done|done|lia| |by rewrite (in_fat2_same fs)].
    unfold in_fat in *. destruct V1 as (_ & _ & _ & _ & _ & _ & _ & -> & _ & -> & _). done.
  - intros c' Hc'. unfold fat_val. assert (fs_type fs4 = fs_type fs) as -> by (transitivity (fs_type fs2); [apply V2|apply V1]).
    rewrite Ht.
    destruct (fat12_put (fat_byte fs img)
      (λ b', if b' =? b then put12_first c v (fat_byte fs img b')
             else if b' =? b + 1 then put12_second c v (fat_byte fs img b') else fat_byte fs img b') c v)
      as [Hval Hother]; [by apply fat_byte_byte|lia|done|].
    rewrite (fat_of_ext _ _ (λ b', if b' =? b then put12_first c v (fat_byte fs img b')
             else if b' =? b + 1 then put12_second c v (fat_byte fs img b') else fat_byte fs img b')).
    { destruct (Z.eqb_spec c' c) as [->|Hne]; [done|]. apply Hother; [lia|done]. }
    pose proof (entry_valid fs img Hw c' Hc') as He'. unfold entry_bytes in He' |- *. rewrite Ht in He'.
    cbn [Z.eqb Pos.eqb FS_FAT12 fst snd] in He' |- *. intros b' Hb'. rewrite Hby2, Hby1 by lia.
    cbn [length]. destruct (Z.eqb_spec b' b) as [->|]; [|destruct (Z.eqb_spec b' (b + 1)) as [->|]].
    + rewrite decide_False, decide_True by lia. by rewrite Z.sub_diag.
    + rewrite decide_True by lia. by rewrite Z.sub_diag.
    + by rewrite !decide_False by lia.
Qed.

(** So are two or four bytes of the wider entries. *)
Lemma written_put c v n bs fs img fs' img' :
  win_ok fs img → 2 ≤ c < n_fatent fs → fs_type fs ≠ FS_FAT12 →
  entry_bytes (fs_type fs) c = (c * n, n) → 0 < n → Z.of_nat (length bs) = n →
  fat_of (fs_type fs) (λ b, default 0 (bs !! Z.to_nat (b - c * n))) c = v `mod` fat_mod (fs_type fs) →
  fat_written (c * n) bs fs img fs' img' → fat_put c v fs img fs' img'.
Proof.
  intros Hw Hc Ht He Hn Hl Hv [V A S Hview Hby Hin0]. split; [done|done|done|done| |done].
  intros c' Hc'. unfold fat_val. assert (fs_type fs' = fs_type fs) as -> by apply V.
  assert (entry_bytes (fs_type fs) c' = (c' * n, n)) as He'.
  { clear -He Ht. unfold entry_bytes in *. rewrite (proj2 (Z.eqb_neq _ _) Ht) in *. case_if; by simplify_eq. }
  pose proof (entry_valid fs img Hw c' Hc') as Hin. rewrite He' in Hin.
  destruct (Z.eqb_spec c' c) as [->|Hne].
  - rewrite <-Hv. apply fat_of_ext. rewrite He. cbn [fst snd]. intros b Hb. rewrite Hby by lia.
    by rewrite decide_True by lia.
  - apply fat_of_ext. rewrite He'. cbn [fst snd]. intros b Hb. rewrite Hby by lia.
    rewrite decide_False; [done|]. nia.
Qed.

Lemma byte_list_1 b : is_byte b → Forall is_byte [b].
Proof. intros. by constructor. Qed.

Lemma put_fat12 fs d img c v :
  win_ok fs img → dsk d img → 2 ≤ c < n_fatent fs → fs_type fs = FS_FAT12 →
  ∃ fs' d' img', put_fat W c v (fs, d) = Ok (FR_OK, (fs', d')) ∧
    dsk d' img' ∧ win_ok fs' img' ∧ fat_put c v fs img fs' img'.
Proof using HW.
  intros Hw Hd Hc Ht. unfold put_fat. ff_run.
  rewrite (proj2 (Z.leb_le 2 c)), (proj2 (Z.ltb_lt c _)) by lia. cbn [andb].
  pose proof (entry_valid fs img Hw c Hc) as He. pose proof (geo_fat12 _ _ (wo_geo _ _ Hw) Ht) as H12.
  unfold entry_bytes in He. rewrite Ht in He |- *. cbn [Z.eqb Pos.eqb FS_FAT12] in He |- *.
  pose proof (Z.div_pos c 2 ltac:(lia) ltac:(lia)). assert (c / 2 ≤ c) by (apply Z.div_le_upper_bound; lia).
  rewrite (wrap_small 32 c), (wrap_small 32 (c + c / 2)), (wrap_small 32 (c + c / 2 + 1)) by lia.
  set (b := c + c / 2) in *. assert (SS = 512) as HSS by done. destruct (dsk_bytes _ _ Hd) as [Himg _].
  destruct (seek_edit fs d img b Hw Hd) as (fs1 & d1 & img1 & Hm1 & Hd1 & Hw1 & Hk1 & Hws1 & Hed); [lia|].
  rewrite (run_bind _ _ _ _ _ Hm1), decide_False by naive_solver.
  rewrite (run_bind _ _ _ _ _ (get_win_byte fs1 d1 img1 b Hw1 Hws1 ltac:(lia))).
  rewrite (fat_byte_keeps fs img fs1 img1) by (done || lia). pose proof (fat_byte_byte fs img Hw Himg b) as B0.
  pose proof (Z.mod_pos_bound b SS ltac:(done)). pose proof (wo_len _ _ Hw1).
  erewrite run_edit by (apply put_byte; lia). rewrite put12_first_ok by done. ff_run.
  destruct (Hed [put12_first c v (fat_byte fs img b)]) as [Hw2 Hwr1].
  { apply byte_list_1. rewrite <-put12_first_ok by done. apply Z.mod_pos_bound. lia. }
  { cbn [length]. lia. } { cbn [length]. lia. } { cbn [length]. lia. }
  set (fs2 := set_wflag 1 _) in *. assert (same_volume fs fs2) as Hsv by apply Hwr1.
  assert (fatbase fs = fatbase fs2) as -> by (symmetry; apply Hsv).
  assert (fsize fs2 = fsize fs) as Hfs2 by apply Hsv. destruct (dsk_bytes _ _ Hd1) as [Himg1 _].
  destruct (seek_edit fs2 d1 img1 (b + 1) Hw2 Hd1) as (fs3 & d3 & img3 & Hm3 & Hd3 & Hw3 & Hk3 & Hws3 & Hed3); [lia|].
  rewrite (run_bind _ _ _ _ _ Hm3), decide_False by naive_solver.
  rewrite (run_bind _ _ _ _ _ (get_win_byte fs3 d3 img3 (b + 1) Hw3 Hws3 ltac:(lia))).
  rewrite (fat_byte_keeps fs2 img1 fs3 img3) by (done || lia).
  assert (fat_byte fs2 img1 (b + 1) = fat_byte fs img (b + 1)) as Hb1.
  { rewrite (fw_bytes _ _ _ _ _ _ Hwr1) by lia. by rewrite decide_False by (simpl; lia). }
  rewrite Hb1. pose proof (fat_byte_byte fs img Hw Himg (b + 1)) as B1.
  pose proof (Z.mod_pos_bound (b + 1) SS ltac:(done)). pose proof (wo_len _ _ Hw3).
  erewrite run_edit by (apply put_byte; lia). rewrite put12_second_ok by done. ff_run.
  destruct (Hed3 [put12_second c v (fat_byte fs img (b + 1))]) as [Hw4 Hwr2].
  { apply byte_list_1. rewrite <-put12_second_ok by done. apply Z.mod_pos_bound. lia. }
  { cbn [length]. lia. } { cbn [length]. lia. } { cbn [length]. lia. }
  eexists _, d3, img3. split; [reflexivity|]. split; [done|]. split; [exact Hw4|].
  by apply (written12_put c v fs img fs2 img1).
Qed.

Lemma put_fat16 fs d img c v :
  win_ok fs img → dsk d img → 2 ≤ c < n_fatent fs → fs_type fs = FS_FAT16 →
  ∃ fs' d' img', put_fat W c v (fs, d) = Ok (FR_OK, (fs', d')) ∧
    dsk d' img' ∧ win_ok fs' img' ∧ fat_put c v fs img fs' img'.
Proof using HW.
  intros Hw Hd Hc Ht. unfold put_fat. ff_run.
  rewrite (proj2 (Z.leb_le 2 c)), (proj2 (Z.ltb_lt c _)) by lia. cbn [andb].
  pose proof (entry_valid fs img Hw c Hc) as He. pose proof (geo_fat16 _ _ (wo_geo _ _ Hw) Ht) as H16.
  unfold entry_bytes in He. rewrite Ht in He |- *. cbn [Z.eqb Pos.eqb FS_FAT12 FS_FAT16] in He |- *.
  destruct (entry_offset c (SS / 2) 2) as (-> & -> & Hfit); [done|done|lia|lia|].
  destruct (seek_edit fs d img (c * 2) Hw Hd) as (fs1 & d1 & img1 & Hm1 & Hd1 & Hw1 & Hk1 & Hws1 & Hed); [lia|].
  rewrite (run_bind _ _ _ _ _ Hm1), decide_False by naive_solver. pose proof (wo_len _ _ Hw1).
  pose proof (Z.mod_pos_bound (c * 2) SS ltac:(done)). assert (SS = 512) by done.
  erewrite run_edit by (apply st_word_ok; lia). ff_run.
  destruct (Hed (le_bytes 2 (u16 v))) as [Hw2 Hwr]; [auto with mipos|rewrite le_bytes_length; lia..|].
  eexists _, d1, img1. split; [reflexivity|]. split; [done|]. split; [exact Hw2|].
  apply (written_put c v 2 (le_bytes 2 (u16 v))); try done; [by rewrite Ht|by rewrite Ht|].
  rewrite Ht. unfold fat_of, fat_mod, FS_FAT16, FS_FAT12. cbn [Z.eqb Pos.eqb].
  rewrite Z.sub_diag. replace (c * 2 + 1 - c * 2) with 1 by lia. simpl. unfold wrap.
  rewrite <-Z.rem_mul_r by lia. apply Z.mod_mod. lia.
Qed.

(** The upper four bits of an entry of 32 bits are kept. *)
Lemma keep_upper v old : Z.lor (Z.land v 268435455) (Z.land old 4026531840) `mod` 268435456 = v `mod` 268435456.
Proof.
  change 268435456 with (2 ^ 28). change 268435455 with (Z.ones 28). change 4026531840 with (Z.shiftl (Z.ones 4) 28).
  rewrite <-!Z.land_ones by lia. apply Z.bits_inj'. intros n Hn.
  rewrite !Z.land_spec, Z.lor_spec, !Z.land_spec, Z.shiftl_spec by done. destruct (decide (n < 28)).
  - rewrite (Z.testbit_neg_r _ (n - 28)), andb_false_r, orb_false_r by lia.
    destruct (Z.testbit v n), (Z.testbit (Z.ones 28) n); done.
  - by rewrite (Z.ones_spec_high 28 n), !andb_false_r by lia.
Qed.

Lemma put_fat32 fs d img c v :
  win_ok fs img → dsk d img → 2 ≤ c < n_fatent fs → fs_type fs = FS_FAT32 →
  ∃ fs' d' img', put_fat W c v (fs, d) = Ok (FR_OK, (fs', d')) ∧
    dsk d' img' ∧ win_ok fs' img' ∧ fat_put c v fs img fs' img'.
Proof using HW.
  intros Hw Hd Hc Ht. unfold put_fat. ff_run.
  rewrite (proj2 (Z.leb_le 2 c)), (proj2 (Z.ltb_lt c _)) by lia. cbn [andb].
  pose proof (entry_valid fs img Hw c Hc) as He. pose proof (geo_ents _ _ (wo_geo _ _ Hw)).
  unfold entry_bytes in He. rewrite Ht in He |- *. cbn [Z.eqb Pos.eqb FS_FAT12 FS_FAT16 FS_FAT32] in He |- *.
  destruct (entry_offset c (SS / 4) 4) as (-> & -> & Hfit); [done|done|lia|lia|].
  destruct (seek_edit fs d img (c * 4) Hw Hd) as (fs1 & d1 & img1 & Hm1 & Hd1 & Hw1 & Hk1 & Hws1 & Hed); [lia|].
  rewrite (run_bind _ _ _ _ _ Hm1), decide_False by naive_solver. pose proof (wo_len _ _ Hw1).
  pose proof (Z.mod_pos_bound (c * 4) SS ltac:(done)). assert (SS = 512) by done. ff_run.
  rewrite ld_dword_ok by (lia || apply Hw1). ff_run. set (w := Z.lor _ _).
  erewrite run_edit by (apply st_dword_ok; lia). ff_run.
  destruct (Hed (le_bytes 4 w)) as [Hw2 Hwr]; [auto with mipos|rewrite le_bytes_length; lia..|].
  eexists _, d1, img1. split; [reflexivity|]. split; [done|]. split; [exact Hw2|].
  apply (written_put c v 4 (le_bytes 4 w)); try done; [by rewrite Ht|by rewrite Ht|].
  rewrite Ht. unfold fat_of, fat_mod, FS_FAT16, FS_FAT12, FS_FAT32. cbn [Z.eqb Pos.eqb].
  rewrite Z.sub_diag. replace (c * 4 + 1 - c * 4) with 1 by lia. replace (c * 4 + 2 - c * 4) with 2 by lia.
  replace (c * 4 + 3 - c * 4) with 3 by lia. pose proof (le_value_mod 4 w) as Hle. simpl in Hle |- *.
  rewrite Z.mul_0_r, Z.add_0_r in Hle. rewrite Hle.
  rewrite <-(keep_upper v (le_value (bytes_at (Z.to_nat ((c * 4) `mod` SS)) 4 (win fs1)))). fold w.
  change (256 ^ Z.of_nat 4) with (268435456 * 16). rewrite Z.rem_mul_r by lia.
  rewrite Z.mul_comm, Z.mod_add by lia. apply Z.mod_mod. lia.
Qed.

Lemma put_fat_ok fs d img c v :
  win_ok fs img → dsk d img → 2 ≤ c < n_fatent fs →
  ∃ fs' d' img', put_fat W c v (fs, d) = Ok (FR_OK, (fs', d')) ∧
    dsk d' img' ∧ win_ok fs' img' ∧ fat_put c v fs img fs' img'.
Proof using HW.
  intros Hw Hd Hc. destruct (geo_type _ _ (wo_geo _ _ Hw)) as [Ht|[Ht|Ht]];
    [by apply put_fat12|by apply put_fat16|by apply put_fat32].
Qed.
End ops.
