(* ===== verification/FfChain.v ===== *)
(** * FatFs: cluster chains

    [create_chain] takes a free cluster whenever there is one, [remove_chain]
    gives back exactly the clusters of a chain, and both keep the count of free
    clusters exact. *)

From S2P Require Import Prelude Bytes Ff FfWindow FfFat.

(** ** Tables of clusters *)

(** A table of [n] entries, those of index 0 and 1 reserved, as a function. *)
Definition upd (F : Z → Z) (c v : Z) : Z → Z := λ x, if x =? c then v else F x.

Definition valid (n c : Z) : Prop := 2 ≤ c < n.

(** The number of free clusters. *)
Definition n_free (n : Z) (F : Z → Z) : Z :=
  Z.of_nat (length (filter (λ c, F c = 0) (seqZ 2 (n - 2)))).

(** The chain of clusters from [c] on; its last entry is beyond the table. *)
Inductive chain (n : Z) (F : Z → Z) : Z → list Z → Prop :=
  | chain_last c : valid n c → n ≤ F c → chain n F c [c]
  | chain_next c l : valid n c → valid n (F c) → chain n F (F c) l → chain n F c (c :: l).

(** The table with the clusters [l] free. *)
Definition freed (l : list Z) (F : Z → Z) : Z → Z := λ x, if decide (x ∈ l) then 0 else F x.

Lemma upd_eq F c v : upd F c v c = v.
Proof. unfold upd. by rewrite Z.eqb_refl. Qed.

Lemma upd_ne F c v x : x ≠ c → upd F c v x = F x.
Proof. intros. unfold upd. by rewrite (proj2 (Z.eqb_neq _ _)). Qed.

(** The clusters of a chain are valid and in use; the first determines it. *)
Lemma chain_used n F c l : chain n F c l → Forall (λ x, valid n x ∧ 2 ≤ F x) l.
Proof.
  induction 1 as [c Hc Hl|c l Hc Hn _ IH]; constructor; try done; unfold valid in *; lia.
Qed.

Lemma chain_det n F c l l' : chain n F c l → chain n F c l' → l = l'.
Proof.
  intros Hl. revert l'. induction Hl as [c Hc Hl|c l Hc Hn _ IH]; inversion 1; subst; unfold valid in *; try lia; [done|].
  f_equal. by apply IH.
Qed.

(** A cluster is met once: what follows it is shorter. *)
Lemma chain_suffix n F c l x : chain n F c l → x ∈ l → ∃ l', chain n F x l' ∧ (length l' ≤ length l)%nat.
Proof.
  induction 1 as [c Hc Hl|c l Hc Hn Hch IH]; intros Hx.
  - apply list_elem_of_singleton in Hx as ->. exists [c]. by split; [constructor|].
  - apply elem_of_cons in Hx as [->|Hx]; [exists (c :: l); by split; [constructor|]|].
    destruct (IH Hx) as (l' & Hl' & Hlen). exists l'. split; [done|]. simpl. lia.
Qed.

Lemma cluster_chain_NoDup n F c l : chain n F c l → NoDup l.
Proof.
  induction 1 as [c Hc Hl|c l Hc Hn Hch IH]; [apply NoDup_singleton|]. constructor; [|done].
  intros Hin. destruct (chain_suffix _ _ _ _ _ Hch Hin) as (l' & Hl' & Hlen).
  assert (l' = c :: l) as -> by (eapply chain_det; [done|by constructor]). simpl in Hlen. lia.
Qed.

(** Only the entries of a chain matter to it. *)
Lemma chain_ext n F G c l : chain n F c l → (∀ x, x ∈ l → G x = F x) → chain n G c l.
Proof.
  induction 1 as [c Hc Hl|c l Hc Hn Hch IH]; intros Hg.
  - constructor; [done|]. by rewrite Hg by by left.
  - assert (G c = F c) as E by (apply Hg; by left). rewrite <-E in *.
    constructor; [done|done|]. apply IH. intros x Hx. apply Hg. by right.
Qed.

(** A chain that is extended by a new last cluster. *)
Lemma chain_snoc n F c l x y :
  chain n F c l → last l = Some x → valid n y → y ∉ l → n ≤ F y → chain n (upd F x y) c (l ++ [y]).
Proof.
  intros Hch. revert x. induction Hch as [c Hc Hl|c l Hc Hn Hch IH]; intros x Hx Hy Hin Hfy.
  - injection Hx as <-. simpl. assert (y ≠ c) by set_solver. constructor; [done| |]; rewrite upd_eq; [done|].
    constructor; [done|]. by rewrite upd_ne.
  - destruct l as [|z l]; [inversion Hch|]. simpl in Hx.
    assert (chain n (upd F x y) (F c) ((z :: l) ++ [y])) as Hch' by (apply IH; [done|done|set_solver|done]).
    pose proof (cluster_chain_NoDup n F c (c :: z :: l) ltac:(by constructor)) as Hnd.
    assert (x ∈ z :: l) as Hxl by (apply last_Some_elem_of; done).
    assert (c ≠ x) as Hcx by (intros ->; by apply NoDup_cons in Hnd as [? _]).
    simpl. assert (upd F x y c = F c) as E by by apply upd_ne. constructor; [done|by rewrite E|by rewrite E].
Qed.

(** A chain in two parts: the second is the chain after the last cluster of the
    first, and the first is what is left when that one becomes the end. *)
Lemma chain_split n F c l1 l2 p :
  chain n F c (l1 ++ l2) → last l1 = Some p → l2 ≠ [] → chain n F (F p) l2 ∧ valid n p.
Proof.
  revert c. induction l1 as [|x l1 IH]; intros c Hch Hp Hne; [done|]. simpl in Hch.
  inversion Hch as [|? ? Hc Hn Hch']; subst; [by destruct l1, l2|].
  destruct l1 as [|y l1]; [injection Hp as <-; by split|]. by apply (IH (F x)).
Qed.

Lemma chain_cut n F c l1 l2 p v :
  chain n F c (l1 ++ l2) → last l1 = Some p → n ≤ v → chain n (freed l2 (upd F p v)) c l1.
Proof.
  intros Hch Hp Hv. pose proof (cluster_chain_NoDup _ _ _ _ Hch) as Hnd. revert c Hch.
  induction l1 as [|x l1 IH]; intros c Hch; [done|]. simpl in Hch, Hnd. apply NoDup_cons in Hnd as [Hx Hnd].
  rewrite elem_of_app in Hx.
  assert (∀ z, freed l2 (upd F p v) x = z ↔ upd F p v x = z) as E.
  { intros z. unfold freed. rewrite decide_False by tauto. done. }
  assert (c = x) as -> by by inversion Hch. assert (valid n x) as Hvx by by inversion Hch.
  destruct l1 as [|y l1].
  - injection Hp as ->. constructor; [done|]. rewrite (proj2 (E v)); [done|apply upd_eq].
  - inversion Hch as [|? ? Hc Hn Hch']; subst. specialize (IH Hp Hnd (F x) Hch').
    assert (p ∈ y :: l1) as Hin by by apply last_Some_elem_of.
    assert (freed l2 (upd F p v) x = F x) as Ex by (apply E, upd_ne; intros ->; tauto).
    constructor; [done|by rewrite Ex|by rewrite Ex].
Qed.

(** ** Counting *)

Lemma count_ext (F G : Z → Z) (l : list Z) :
  (∀ x, x ∈ l → G x = F x) → length (filter (λ x, G x = 0) l) = length (filter (λ x, F x = 0) l).
Proof.
  induction l as [|x l IH]; intros E; [done|]. rewrite !filter_cons.
  pose proof (E x ltac:(by left)) as Ex. specialize (IH (λ y Hy, E y (list_elem_of_further y x l Hy))).
  repeat case_decide; simpl; congruence || lia.
Qed.

Lemma n_free_upd n F c v :
  valid n c →
  n_free n (upd F c v) = n_free n F + (if v =? 0 then 1 else 0) - (if F c =? 0 then 1 else 0).
Proof.
  intros Hc. unfold n_free, valid in *.
  assert (seqZ 2 (n - 2) = seqZ 2 (c - 2) ++ c :: seqZ (c + 1) (n - 1 - c)) as ->.
  { replace (n - 2) with ((c - 2) + (n - c)) by lia. rewrite seqZ_app by lia. f_equal.
    rewrite (seqZ_cons (2 + (c - 2))) by lia. f_equal; [lia|]. f_equal; lia. }
  rewrite !filter_app, !length_app, !filter_cons, upd_eq.
  rewrite (count_ext F (upd F c v) (seqZ 2 (c - 2))).
  2:{ intros x Hx%elem_of_seqZ. apply upd_ne. lia. }
  destruct (Z.eqb_spec v 0), (Z.eqb_spec (F c) 0); repeat case_decide; try done; cbn [length];
    rewrite (count_ext F (upd F c v)) by (intros x Hx%elem_of_seqZ; apply upd_ne; lia); lia.
Qed.

Lemma n_free_ext n F G : (∀ c, valid n c → G c = F c) → n_free n G = n_free n F.
Proof.
  intros E. unfold n_free. f_equal. apply count_ext. intros x Hx%elem_of_seqZ. apply E. unfold valid. lia.
Qed.

Lemma n_free_bound n F : 2 ≤ n → 0 ≤ n_free n F ≤ n - 2.
Proof.
  intros Hn. unfold n_free. pose proof (length_filter (λ c, F c = 0) (seqZ 2 (n - 2))) as Hl.
  rewrite length_seqZ in Hl. lia.
Qed.

Lemma n_free_none n F : n_free n F = 0 ↔ ∀ c, valid n c → F c ≠ 0.
Proof.
  unfold n_free. split.
  - intros H0 c Hc HF. assert (c ∈ filter (λ c, F c = 0) (seqZ 2 (n - 2))) as Hin.
    { apply list_elem_of_filter. split; [done|]. apply elem_of_seqZ. unfold valid in Hc. lia. }
    destruct (filter _ _); [by apply not_elem_of_nil in Hin|simpl in H0; lia].
  - intros Hall. destruct (filter _ _) as [|x l] eqn:E; [done|].
    assert (x ∈ filter (λ c, F c = 0) (seqZ 2 (n - 2))) as Hin by (rewrite E; by left).
    apply list_elem_of_filter in Hin as [HF Hx%elem_of_seqZ]. exfalso. apply (Hall x); [unfold valid; lia|done].
Qed.

(** ** The volume and its table *)

(** Everything but the FAT is as it was. *)
Record data_same (fs : FATFS) (img : list Z) (fs' : FATFS) (img' : list Z) : Prop := {
  ds_volume : same_volume fs fs';
  ds_sects : n_sect img' = n_sect img;
  ds_view : ∀ s, 0 ≤ s < n_sect img → ¬ in_fat fs s → ¬ in_fat2 fs s → view fs' img' s = view fs img s;
}.

Lemma data_same_refl fs img : data_same fs img fs img.
Proof. by split. Qed.

Lemma data_same_trans fs img fs1 img1 fs2 img2 :
  data_same fs img fs1 img1 → data_same fs1 img1 fs2 img2 → data_same fs img fs2 img2.
Proof.
  intros [V S Hv] [V' S' Hv']. split; [by etrans|congruence|]. intros s Hs H1 H2.
  rewrite Hv', Hv; [done|done|done|done|lia| |by rewrite (in_fat2_same fs)].
  unfold in_fat in *. destruct V as (_ & _ & _ & _ & _ & _ & _ & -> & _ & -> & _). done.
Qed.

Lemma keeps_data fs img fs' img' : keeps_view fs img fs' img' → data_same fs img fs' img'.
Proof. intros [V _ S Hv]. split; [done|done|]. intros. by apply Hv. Qed.

Lemma put_data c v fs img fs' img' : fat_put c v fs img fs' img' → data_same fs img fs' img'.
Proof. by intros [V _ S Hv _]. Qed.

Lemma alloc_data fsi l f fs img : data_same fs img (set_alloc fsi l f fs) img.
Proof. by split. Qed.

Lemma alloc_win_ok fsi l f fs img : win_ok fs img → win_ok (set_alloc fsi l f fs) img.
Proof. intros []. split; try done. by apply (geometry_same fs). Qed.

Section chains.
Context {D : Type} `{Disk D} (W : Z).
Hypothesis HW : 32 ≤ W.

Implicit Types (fs : FATFS) (d : D) (img : list Z) (F : Z → Z).

(** The table of the volume is [F]; no entry has the value of an error. *)
Record fat_rep F fs d img : Prop := {
  fr_win : win_ok fs img;
  fr_dsk : dsk d img;
  fr_val : ∀ c, valid (n_fatent fs) c → fat_val fs img c = F c;
  fr_sane : ∀ c, valid (n_fatent fs) c → F c ≠ 1;
}.

(** The count of free clusters is exact or unknown. *)
Definition free_ok F fs : Prop :=
  0 ≤ free_clst fs < 2 ^ 32 ∧ (n_fatent fs - 2 < free_clst fs ∨ free_clst fs = n_free (n_fatent fs) F).

(** The mark of the end of a chain. *)
Definition eoc fs : Z := fat_mod (fs_type fs) - 1.

Lemma ents_fit fs n : geometry fs n → n_fatent fs ≤ eoc fs ∧ fat_mod (fs_type fs) ≤ 268435456.
Proof.
  intros [_ Ht _ _ _ _ _ He _ H12 H16 _]. unfold eoc, fat_mod.
  destruct Ht as [Ht|[Ht|Ht]]; rewrite Ht in *; cbn; [specialize (H12 eq_refl)|specialize (H16 eq_refl)|]; lia.
Qed.

Lemma eoc_value fs : FFFFFFFF `mod` fat_mod (fs_type fs) = eoc fs.
Proof. unfold eoc, fat_mod. by repeat case_if. Qed.

Lemma rep_bound F fs d img c :
  fat_rep F fs d img → valid (n_fatent fs) c → 0 ≤ F c < fat_mod (fs_type fs) ∧ F c ≠ FFFFFFFF.
Proof.
  intros [Hw Hd Hv _] Hc. rewrite <-Hv by done. destruct (dsk_bytes _ _ Hd) as [Himg _].
  pose proof (fat_val_bound fs img Hw Himg c) as Hb. destruct (ents_fit fs _ (wo_geo _ _ Hw)) as [_ Hm].
  unfold FFFFFFFF. lia.
Qed.

Lemma get_rep F fs d img c :
  fat_rep F fs d img → valid (n_fatent fs) c →
  ∃ fs' d' img', get_fat W c (fs, d) = Ok (F c, (fs', d')) ∧ fat_rep F fs' d' img' ∧ keeps_view fs img fs' img'.
Proof using HW.
  intros [Hw Hd Hv Hs] Hc. destruct (get_fat_ok W HW fs d img c Hw Hd Hc) as (fs' & d' & img' & Hg & Hd' & Hw' & Hk).
  exists fs', d', img'. rewrite Hg, Hv by done. split; [done|]. split; [|done].
  assert (n_fatent fs' = n_fatent fs) as En by apply (kv_volume _ _ _ _ Hk).
  split; [done|done| |]; rewrite En; [|done]. intros c' Hc'. rewrite <-Hv by done. by apply fat_val_keeps.
Qed.

Lemma put_rep F fs d img c v :
  fat_rep F fs d img → valid (n_fatent fs) c → v `mod` fat_mod (fs_type fs) ≠ 1 →
  ∃ fs' d' img', put_fat W c v (fs, d) = Ok (FR_OK, (fs', d')) ∧
    fat_rep (upd F c (v `mod` fat_mod (fs_type fs))) fs' d' img' ∧ data_same fs img fs' img' ∧ same_alloc fs fs' ∧
    in_fat fs (winsect fs').
Proof using HW.
  intros [Hw Hd Hv Hs] Hc H1. destruct (put_fat_ok W HW fs d img c v Hw Hd Hc) as (fs' & d' & img' & Hp & Hd' & Hw' & Hf).
  exists fs', d', img'. split; [done|]. split; [|split; [by eapply put_data|split; apply Hf]].
  assert (n_fatent fs' = n_fatent fs) as En by apply (fp_volume _ _ _ _ _ _ Hf).
  split; [done|done| |]; rewrite En; intros c' Hc'; unfold upd.
  - rewrite (fp_val _ _ _ _ _ _ Hf) by done. case_if; [done|]. by apply Hv.
  - case_if; [done|]. by apply Hs.
Qed.

Lemma free_keeps F fs fs' : same_volume fs fs' → same_alloc fs fs' → free_ok F fs → free_ok F fs'.
Proof.
  unfold free_ok, same_alloc. intros V (_ & _ & ->). assert (n_fatent fs' = n_fatent fs) as -> by apply V. done.
Qed.

Lemma fat_rep_ext F G fs d img :
  (∀ c, valid (n_fatent fs) c → G c = F c) → fat_rep F fs d img → fat_rep G fs d img.
Proof. intros E [? ? Hv Hs]. split; [done|done| |]; intros c Hc; rewrite E by done; auto. Qed.

Lemma free_ok_ext F G fs : (∀ c, valid (n_fatent fs) c → G c = F c) → free_ok F fs → free_ok G fs.
Proof. intros E [H1 H2]. split; [done|]. by rewrite (n_free_ext _ F G). Qed.

Lemma alloc_rep F fs d img fsi l f : fat_rep F fs d img → fat_rep F (set_alloc fsi l f fs) d img.
Proof. intros []. split; try done. by apply alloc_win_ok. Qed.

(** ** Removing a chain *)

Lemma dw_ents fs n : geometry fs n → wrap W (n_fatent fs - 2) = n_fatent fs - 2.
Proof using HW. intros [_ _ _ _ _ _ _ He _ _ _ _]. apply (dw_small W HW). lia. Qed.

(** The count after a cluster was freed. *)
Lemma count_freed F fs d n c :
  geometry fs n → free_ok F fs → valid (n_fatent fs) c → F c ≠ 0 →
  ∃ a b e, (if free_clst fs <? wrap W (n_fatent fs - 2)
       then modify (set_alloc (Z.lor (fsi_flag fs) 1) (last_clst fs) (wrap W (free_clst fs + 1)))
       else mret ()) (fs, d) = Ok ((), (set_alloc a b e fs, d)) ∧ free_ok (upd F c 0) (set_alloc a b e fs) ∧ b = last_clst fs.
Proof using HW.
  intros G [Hf0 Hf] Hc HF. rewrite (dw_ents fs _ G). pose proof (geo_ents _ _ G).
  pose proof (n_free_upd (n_fatent fs) F c 0 Hc) as Hn. rewrite Z.eqb_refl, (proj2 (Z.eqb_neq _ _) HF) in Hn.
  pose proof (n_free_bound (n_fatent fs) (upd F c 0) ltac:(lia)).
  pose proof (n_free_bound (n_fatent fs) F ltac:(lia)). unfold free_ok.
  destruct (Z.ltb_spec (free_clst fs) (n_fatent fs - 2)).
  - do 3 eexists. split; [reflexivity|]. split; [|done]. cbn. rewrite (dw_small W HW) by lia. lia.
  - exists (fsi_flag fs), (last_clst fs), (free_clst fs). split; [by destruct fs|]. split; [|done]. cbn. lia.
Qed.

Lemma remove_loop_ok fuel F fs d img c l :
  fat_rep F fs d img → free_ok F fs → chain (n_fatent fs) F c l → (length l ≤ fuel)%nat →
  ∃ fs' d' img', remove_loop W fuel c (fs, d) = Ok (FR_OK, (fs', d')) ∧ fat_rep (freed l F) fs' d' img' ∧
    free_ok (freed l F) fs' ∧ data_same fs img fs' img' ∧ last_clst fs' = last_clst fs.
Proof using HW.
  revert F fs d img c l. induction fuel as [|fuel IH]; intros F fs d img c l Hr Hfree Hch Hlen.
  { inversion Hch; subst; simpl in Hlen; lia. }
  assert (valid (n_fatent fs) c ∧ c ∈ l) as [Hc Hcl] by (inversion Hch; subst; split; [done|by left|done|by left]).
  pose proof (chain_used _ _ _ _ Hch) as Hused. pose proof (proj1 (Forall_forall _ _) Hused c Hcl) as [_ HF].
  destruct (rep_bound F fs d img c Hr Hc) as [Hb HF'].
  simpl remove_loop. destruct (get_rep F fs d img c Hr Hc) as (fs1 & d1 & img1 & Hg & Hr1 & Hk).
  rewrite (run_bind _ _ _ _ _ Hg). rewrite !(proj2 (Z.eqb_neq _ _)) by lia.
  assert (n_fatent fs1 = n_fatent fs) as En1 by apply (kv_volume _ _ _ _ Hk).
  assert (fs_type fs1 = fs_type fs) as Et1 by apply (kv_volume _ _ _ _ Hk).
  destruct (put_rep F fs1 d1 img1 c 0 Hr1) as (fs2 & d2 & img2 & Hp & Hr2 & Hds2 & Ha2 & _).
  { by rewrite En1. } { rewrite Z.mod_0_l; [done|]. rewrite Et1. lia. }
  rewrite (run_bind _ _ _ _ _ Hp), decide_False by naive_solver. rewrite Z.mod_0_l in Hr2 by (rewrite Et1; lia).
  assert (n_fatent fs2 = n_fatent fs1) as En2 by apply (ds_volume _ _ _ _ Hds2).
  assert (free_ok F fs2) as Hfree2.
  { apply (free_keeps F fs1); [apply Hds2|done|]. apply (free_keeps F fs); [apply Hk|apply Hk|done]. }
  destruct (count_freed F fs2 d2 (n_sect img2) c) as (a & b & e & Hcnt & Hfree3 & Eb);
    [apply Hr2|done|by rewrite En2, En1|lia|].
  ff_run. rewrite (run_bind _ _ _ _ _ Hcnt). set (fs3 := set_alloc a b e fs2) in *.
  assert (fat_rep (upd F c 0) fs3 d2 img2) as Hr3 by by apply alloc_rep.
  assert (last_clst fs3 = last_clst fs) as El3.
  { change (last_clst fs3) with b. rewrite Eb. destruct Ha2 as (_ & -> & _). apply (kv_alloc _ _ _ _ Hk). }
  assert (data_same fs img fs3 img2) as Hds3.
  { apply (data_same_trans _ _ fs1 img1); [by apply keeps_data|]. apply (data_same_trans _ _ fs2 img2); [done|apply alloc_data]. }
  assert (n_fatent fs3 = n_fatent fs) as En3 by apply (ds_volume _ _ _ _ Hds3). rewrite En2, En1.
  inversion Hch as [c0 Hc0 Hend|c0 l0 Hc0 Hn0 Hch0]; subst.
  - rewrite (proj2 (Z.ltb_ge _ _)) by lia. exists fs3, d2, img2. split; [done|].
    assert (∀ x, valid (n_fatent fs3) x → freed [c] F x = upd F c 0 x) as E.
    { intros x _. unfold freed, upd. destruct (Z.eqb_spec x c); case_decide; set_solver. }
    split; [by apply (fat_rep_ext (upd F c 0))|]. split; [by apply (free_ok_ext (upd F c 0))|done].
  - rewrite (proj2 (Z.ltb_lt _ _)) by (unfold valid in Hn0; lia).
    apply cluster_chain_NoDup, NoDup_cons in Hch as [Hnin _].
    destruct (IH (upd F c 0) fs3 d2 img2 (F c) l0) as (fs4 & d4 & img4 & -> & Hr4 & Hfree4 & Hds4 & El4);
      [done|done| |simpl in Hlen; lia|].
    { rewrite En3. apply (chain_ext _ F); [done|]. intros x Hx. apply upd_ne. by intros ->. }
    exists fs4, d4, img4. split; [done|].
    assert (∀ x, valid (n_fatent fs4) x → freed (c :: l0) F x = freed l0 (upd F c 0) x) as E.
    { intros x _. unfold freed, upd. destruct (Z.eqb_spec x c); repeat case_decide; set_solver. }
    split; [by apply (fat_rep_ext (freed l0 (upd F c 0)))|].
    split; [by apply (free_ok_ext (freed l0 (upd F c 0)))|]. split; [by apply (data_same_trans _ _ fs3 img2)|congruence].
Qed.

Lemma chain_length n F c l : chain n F c l → (length l ≤ Z.to_nat n)%nat.
Proof.
  intros Hch. assert (l ⊆+ seqZ 2 (n - 2)) as Hsub.
  { apply NoDup_submseteq; [by eapply cluster_chain_NoDup|]. intros x Hx. apply elem_of_seqZ.
    pose proof (proj1 (Forall_forall _ _) (chain_used _ _ _ _ Hch) x Hx) as [Hv _]. unfold valid in Hv. lia. }
  apply submseteq_length in Hsub. rewrite length_seqZ in Hsub. lia.
Qed.

(** The table with the chain cut off after [p] (0: the whole chain). *)
Definition cut fs (p : Z) F : Z → Z := if p =? 0 then F else upd F p (eoc fs).

Lemma remove_chain_ok F fs d img c p l :
  fat_rep F fs d img → free_ok F fs → chain (n_fatent fs) F c l →
  p = 0 ∨ (valid (n_fatent fs) p ∧ F p = c) →
  ∃ fs' d' img', remove_chain W c p (fs, d) = Ok (FR_OK, (fs', d')) ∧
    fat_rep (freed l (cut fs p F)) fs' d' img' ∧ free_ok (freed l (cut fs p F)) fs' ∧ data_same fs img fs' img' ∧
    last_clst fs' = last_clst fs.
Proof using HW.
  intros Hr Hfree Hch Hp. assert (valid (n_fatent fs) c) as Hc by by inversion Hch.
  pose proof (wo_geo _ _ (fr_win _ _ _ _ Hr)) as G. destruct (ents_fit fs _ G) as [He _]. pose proof (geo_ents _ _ G).
  unfold remove_chain. ff_run. rewrite (proj2 (Z.ltb_ge c 2)), (proj2 (Z.leb_gt _ c)) by (unfold valid in Hc; lia).
  cbn [orb]. pose proof (chain_length _ _ _ _ Hch) as Hlen.
  destruct Hp as [->|[Hp HFp]].
  { change (truth 0) with false. cbv iota. ff_run. rewrite decide_False by naive_solver. unfold cut. cbn [Z.eqb].
    by apply remove_loop_ok. }
  assert (p ≠ 0) as Hp0 by (unfold valid in Hp; lia). rewrite (proj2 (truth_true p)) by done.
  destruct (put_rep F fs d img p FFFFFFFF Hr Hp) as (fs1 & d1 & img1 & Hput & Hr1 & Hds1 & Ha1 & _).
  { rewrite eoc_value. lia. }
  rewrite eoc_value in Hr1. rewrite (run_bind _ _ _ _ _ Hput), decide_False by naive_solver.
  unfold cut. rewrite (proj2 (Z.eqb_neq p 0)) by done.
  assert (n_fatent fs1 = n_fatent fs) as En1 by apply (ds_volume _ _ _ _ Hds1).
  destruct (remove_loop_ok (Z.to_nat (n_fatent fs)) (upd F p (eoc fs)) fs1 d1 img1 c l) as (fs2 & d2 & img2 & Hl & Hr2 & Hf2 & Hds2 & El2);
    [done| | |done|].
  - assert (free_ok F fs1) as Hf1 by (apply (free_keeps F fs); [apply Hds1|done|done]).
    destruct Hf1 as [? ?]. split; [done|]. rewrite n_free_upd by by rewrite En1.
    rewrite !(proj2 (Z.eqb_neq _ _)) by (unfold valid in Hc; lia). lia.
  - rewrite En1. apply (chain_ext _ F); [done|]. intros x Hx. apply upd_ne. intros ->.
    assert (chain (n_fatent fs) F p (p :: l)) as Hpl by (constructor; rewrite ?HFp; done).
    apply cluster_chain_NoDup, NoDup_cons in Hpl as [? _]. done.
  - exists fs2, d2, img2. split; [done|]. split; [done|]. split; [done|]. split; [by apply (data_same_trans _ _ fs1 img1)|].
    rewrite El2. apply Ha1.
Qed.

(** ** Finding a free cluster *)

(** The clusters the search has visited when it stands at [ncl], and how many
    are left. *)
Definition visited (n scl ncl c : Z) : Prop :=
  if scl <=? ncl then scl < c ≤ ncl else scl < c < n ∨ 2 ≤ c ≤ ncl.
Definition left_over (n scl ncl : Z) : Z := if scl <=? ncl then n - 1 - ncl + scl else scl - ncl.

(** What the search promises. *)
Definition found_ok (n : Z) F (r : Z + Z) : Prop :=
  match r with
  | inl c => valid n c ∧ F c = 0
  | inr e => e = 0 ∧ ∀ c, valid n c → F c ≠ 0
  end.

Lemma find_loop_ok fuel F fs d img scl ncl :
  fat_rep F fs d img → 1 ≤ scl < n_fatent fs → 1 ≤ ncl < n_fatent fs →
  left_over (n_fatent fs) scl ncl ≤ Z.of_nat fuel → (0 < fuel)%nat →
  (∀ c, valid (n_fatent fs) c → visited (n_fatent fs) scl ncl c → F c ≠ 0) →
  ∃ r fs' d' img', find_loop W fuel scl ncl (fs, d) = Ok (r, (fs', d')) ∧ fat_rep F fs' d' img' ∧
    keeps_view fs img fs' img' ∧ found_ok (n_fatent fs) F r.
Proof using HW.
  revert fs d img ncl. induction fuel as [|fuel IH]; intros fs d img ncl Hr Hscl Hncl Hleft Hpos Hvis; [lia|].
  simpl find_loop. ff_run. pose proof (geo_ents _ _ (wo_geo _ _ (fr_win _ _ _ _ Hr))) as Hents.
  rewrite (dw_small W HW) by lia. unfold left_over, visited in *. set (n := n_fatent fs) in *.
  destruct ((n <=? ncl + 1) && (scl <? 2)) eqn:Hend; bool_to_prop.
  { exists (inr 0), fs, d, img. split; [done|]. split; [done|]. split; [apply keeps_view_refl|]. split; [done|].
    intros c Hc. apply Hvis; [done|]. unfold valid in Hc. rewrite (proj2 (Z.leb_le _ _)) by lia. lia. }
  set (x := if n <=? ncl + 1 then 2 else ncl + 1).
  assert (valid n x) as Hx by (unfold x, valid; destruct (Z.leb_spec n (ncl + 1)); lia).
  destruct (get_rep F fs d img x Hr Hx) as (fs1 & d1 & img1 & Hg & Hr1 & Hk1).
  rewrite (run_bind _ _ _ _ _ Hg). destruct (Z.eqb_spec (F x) 0) as [Hx0|Hx0].
  { exists (inl x), fs1, d1, img1. split; [done|]. split; [done|]. split; [done|]. split; [done|done]. }
  pose proof (fr_sane _ _ _ _ Hr x Hx) as Hx1. destruct (rep_bound F fs d img x Hr Hx) as [_ HF].
  rewrite !(proj2 (Z.eqb_neq (F x) _)) by done. cbn [orb].
  apply andb_false_iff in Hend.
  destruct (Z.eqb_spec x scl) as [Hxs|Hxs].
  { exists (inr 0), fs1, d1, img1. split; [done|]. split; [done|]. split; [done|]. split; [done|]. intros c Hc.
    destruct (decide (c = x)) as [->|Hne]; [done|]. apply Hvis; [done|]. unfold valid, x in *. clear IH.
    destruct (Z.leb_spec n (ncl + 1)), (Z.leb_spec scl ncl); lia. }
  assert (n_fatent fs1 = n) as En by apply (kv_volume _ _ _ _ Hk1).
  destruct (IH fs1 d1 img1 x Hr1) as (r & fs2 & d2 & img2 & Hl & Hr2 & Hk2 & Hok); rewrite ?En.
  - done.
  - unfold valid in Hx. lia.
  - unfold x in *. clear IH Hvis. destruct Hend as [Hend|Hend]; bool_to_prop;
      destruct (Z.leb_spec n (ncl + 1)), (Z.leb_spec scl ncl); try lia;
      destruct (Z.leb_spec scl (ncl + 1)); try lia; destruct (Z.leb_spec scl 2); lia.
  - unfold x, left_over in *. clear IH Hvis. destruct Hend as [Hend|Hend]; bool_to_prop;
      destruct (Z.leb_spec n (ncl + 1)), (Z.leb_spec scl ncl); lia.
  - intros c Hc Hv. destruct (decide (c = x)) as [->|Hne]; [done|]. apply Hvis; [done|].
    unfold valid, x in *. clear IH Hvis.
    destruct (Z.leb_spec n (ncl + 1)), (Z.leb_spec scl ncl); try lia;
      destruct (Z.leb_spec scl (ncl + 1)); try lia; destruct (Z.leb_spec scl 2); lia.
  - exists r, fs2, d2, img2. split; [done|]. split; [done|]. split; [by eapply keeps_view_trans|]. by rewrite En in Hok.
Qed.

Lemma find_start F fs d img scl :
  fat_rep F fs d img → 1 ≤ scl < n_fatent fs →
  ∃ r fs' d' img', find_loop W (Z.to_nat (n_fatent fs)) scl scl (fs, d) = Ok (r, (fs', d')) ∧
    fat_rep F fs' d' img' ∧ keeps_view fs img fs' img' ∧ found_ok (n_fatent fs) F r.
Proof using HW.
  intros Hr Hscl. apply find_loop_ok; [done|done|done| |lia|].
  - unfold left_over. rewrite Z.leb_refl. lia.
  - unfold visited. rewrite Z.leb_refl. lia.
Qed.

Lemma find_cluster_ok F fs d img scl clst :
  fat_rep F fs d img → 1 ≤ scl < n_fatent fs → (clst = 0 ∨ scl = clst) → 0 ≤ last_clst fs →
  ∃ r fs' d' img', find_cluster W scl clst (fs, d) = Ok (r, (fs', d')) ∧
    fat_rep F fs' d' img' ∧ keeps_view fs img fs' img' ∧ found_ok (n_fatent fs) F r.
Proof using HW.
  intros Hr Hscl Hcl Hlast. unfold find_cluster. ff_run.
  pose proof (geo_ents _ _ (wo_geo _ _ (fr_win _ _ _ _ Hr))) as Hents.
  destruct (Z.eqb_spec scl clst) as [Heq|Hne]; [|by apply find_start].
  rewrite (dw_small W HW) by lia. set (x := if n_fatent fs <=? scl + 1 then 2 else scl + 1).
  assert (valid (n_fatent fs) x) as Hx by (unfold x, valid; destruct (Z.leb_spec (n_fatent fs) (scl + 1)); lia).
  destruct (get_rep F fs d img x Hr Hx) as (fs1 & d1 & img1 & Hg & Hr1 & Hk1).
  rewrite (run_bind _ _ _ _ _ Hg). pose proof (fr_sane _ _ _ _ Hr x Hx). destruct (rep_bound F fs d img x Hr Hx) as [_ ?].
  rewrite !(proj2 (Z.eqb_neq (F x) _)) by done. cbn [orb]. destruct (truth (F x)) eqn:Hfx; bool_to_prop.
  - assert (n_fatent fs = n_fatent fs1) as En by (symmetry; apply (kv_volume _ _ _ _ Hk1)). rewrite En.
    set (scl' := if _ && _ then _ else scl).
    destruct (find_start F fs1 d1 img1 scl' Hr1) as (r & fs2 & d2 & img2 & -> & Hr2 & Hk2 & Hok).
    { unfold scl'. rewrite <-En. destruct (Z.leb_spec 2 (last_clst fs)), (Z.ltb_spec (last_clst fs) (n_fatent fs)); cbn [andb]; lia. }
    exists r, fs2, d2, img2. split; [done|]. split; [done|]. split; [by eapply keeps_view_trans|done].
  - exists (inl x), fs1, d1, img1. split; [done|]. split; [done|]. split; [done|]. by split.
Qed.

(** The table with the new cluster [x] after [clst] (0: a chain of its own). *)
Definition linked fs (clst x : Z) F : Z → Z :=
  let G := upd F x (eoc fs) in if clst =? 0 then G else upd G clst x.

Lemma n_free_linked F fs n clst x :
  geometry fs n → valid (n_fatent fs) x → F x = 0 → (clst = 0 ∨ (valid (n_fatent fs) clst ∧ n_fatent fs ≤ F clst)) →
  n_free (n_fatent fs) (linked fs clst x F) = n_free (n_fatent fs) F - 1.
Proof.
  intros G Hx HF Hcl. destruct (ents_fit fs _ G) as [He _]. unfold linked, valid in *.
  assert (n_free (n_fatent fs) (upd F x (eoc fs)) = n_free (n_fatent fs) F - 1) as E.
  { rewrite n_free_upd, HF, (proj2 (Z.eqb_neq _ _)), Z.eqb_refl by (done || lia). lia. }
  destruct Hcl as [->|[Hc HFc]]; [done|]. rewrite (proj2 (Z.eqb_neq clst 0)) by lia.
  rewrite n_free_upd by done. rewrite upd_ne by (intros ->; lia). rewrite E, !(proj2 (Z.eqb_neq _ _)) by lia. lia.
Qed.

Lemma link_new_ok F fs d img clst x :
  fat_rep F fs d img → free_ok F fs → valid (n_fatent fs) x → F x = 0 →
  (clst = 0 ∨ (valid (n_fatent fs) clst ∧ n_fatent fs ≤ F clst)) →
  ∃ fs' d' img', link_new W clst x (fs, d) = Ok (x, (fs', d')) ∧
    fat_rep (linked fs clst x F) fs' d' img' ∧ free_ok (linked fs clst x F) fs' ∧ data_same fs img fs' img' ∧
    last_clst fs' = x ∧ in_fat fs (winsect fs').
Proof using HW.
  intros Hr Hfree Hx HF Hcl. pose proof (wo_geo _ _ (fr_win _ _ _ _ Hr)) as G. destruct (ents_fit fs _ G) as [He Hm].
  pose proof (geo_ents _ _ G) as Hents. pose proof (n_free_linked F fs _ clst x G Hx HF Hcl) as Hcount.
  pose proof (n_free_bound (n_fatent fs) (linked fs clst x F) ltac:(lia)) as Hb1.
  pose proof (n_free_bound (n_fatent fs) F ltac:(lia)) as Hb2.
  unfold link_new. destruct (put_rep F fs d img x FFFFFFFF Hr Hx) as (fs1 & d1 & img1 & Hput & Hr1 & Hds1 & Ha1 & Hin1).
  { rewrite eoc_value. lia. }
  rewrite eoc_value in Hr1. rewrite (run_bind _ _ _ _ _ Hput), decide_True by done.
  assert (∃ fs2 d2 img2, (if truth clst then put_fat W clst x else mret FR_OK) (fs1, d1) = Ok (FR_OK, (fs2, d2)) ∧
    fat_rep (linked fs clst x F) fs2 d2 img2 ∧ data_same fs img fs2 img2 ∧ same_alloc fs fs2 ∧
    in_fat fs (winsect fs2)) as (fs2 & d2 & img2 & Hl & Hr2 & Hds2 & Ha2 & Hin2).
  { unfold linked. destruct Hcl as [->|[Hc HFc]]; [by exists fs1, d1, img1|].
    assert (clst ≠ 0) as Hc0 by (unfold valid in Hc; lia).
    rewrite (proj2 (truth_true clst)), (proj2 (Z.eqb_neq clst 0)) by done.
    assert (n_fatent fs1 = n_fatent fs) as En by apply (ds_volume _ _ _ _ Hds1).
    assert (fs_type fs1 = fs_type fs) as Et by apply (ds_volume _ _ _ _ Hds1).
    assert (x `mod` fat_mod (fs_type fs1) = x) as Emod by (unfold eoc, valid in *; rewrite Et; apply Z.mod_small; lia).
    destruct (put_rep _ fs1 d1 img1 clst x Hr1) as (fs2 & d2 & img2 & Hput2 & Hr2 & Hds2 & Ha2 & Hin2).
    { by rewrite En. } { rewrite Emod. unfold valid in Hx. lia. }
    rewrite Emod in Hr2. exists fs2, d2, img2. split; [done|]. split; [done|]. split; [by eapply data_same_trans|].
    split; [by etrans|]. unfold in_fat in *. assert (fatbase fs1 = fatbase fs ∧ fsize fs1 = fsize fs) as [<- <-] by (split; apply Hds1). done. }
  rewrite (run_bind _ _ _ _ _ Hl), decide_True by done. ff_run.
  assert (n_fatent fs2 = n_fatent fs) as En by apply (ds_volume _ _ _ _ Hds2).
  rewrite En, (dw_ents fs _ G). destruct Hfree as [Hf0 Hf]. destruct Ha2 as (_ & _ & Hfc). rewrite Hfc.
  eexists _, d2, img2. split; [reflexivity|]. split; [by apply alloc_rep|]. split; [|split; [|done]].
  - unfold free_ok. cbn. rewrite En. destruct (Z.leb_spec (free_clst fs) (n_fatent fs - 2)); [|lia].
    rewrite (dw_small W HW) by lia. lia.
  - eapply data_same_trans; [done|apply alloc_data].
Qed.

(** ** Creating and stretching chains *)

(** The table after [create_chain] returned [r]. *)
Definition created fs (clst r : Z) F : Z → Z := if r =? 0 then F else linked fs clst r F.

Lemma chain_start_ok F fs d img clst :
  fat_rep F fs d img → 0 ≤ last_clst fs →
  (clst = 0 ∨ (valid (n_fatent fs) clst ∧ n_fatent fs ≤ F clst)) →
  ∃ scl fs1 d1 img1, chain_start W clst (fs, d) = Ok (inl scl, (fs1, d1)) ∧
    fat_rep F fs1 d1 img1 ∧ keeps_view fs img fs1 img1 ∧ 1 ≤ scl < n_fatent fs ∧ (clst = 0 ∨ scl = clst).
Proof using HW.
  intros Hr Hlast Hcl. pose proof (geo_ents _ _ (wo_geo _ _ (fr_win _ _ _ _ Hr))) as Hents.
  unfold chain_start. ff_run. destruct Hcl as [->|[Hc HFc]].
  - eexists _, fs, d, img. split; [reflexivity|]. split; [done|]. split; [apply keeps_view_refl|].
    split; [|by left]. destruct (Z.eqb_spec (last_clst fs) 0), (Z.leb_spec (n_fatent fs) (last_clst fs)); cbn [orb]; lia.
  - rewrite (proj2 (Z.eqb_neq clst 0)) by (unfold valid in Hc; lia).
    destruct (get_rep F fs d img clst Hr Hc) as (fs1 & d1 & img1 & Hg & Hr1 & Hk1).
    rewrite (run_bind _ _ _ _ _ Hg). destruct (rep_bound F fs d img clst Hr Hc) as [_ HFn].
    rewrite (proj2 (Z.ltb_ge (F clst) 2)), (proj2 (Z.eqb_neq (F clst) _)), (proj2 (Z.ltb_ge (F clst) _)) by (done || lia).
    exists clst, fs1, d1, img1. split; [done|]. split; [done|]. split; [done|]. unfold valid in Hc. split; [lia|by right].
Qed.

Lemma create_chain_ok F fs d img clst :
  fat_rep F fs d img → free_ok F fs → 0 ≤ last_clst fs < 2 ^ 32 →
  (clst = 0 ∨ (valid (n_fatent fs) clst ∧ n_fatent fs ≤ F clst)) →
  ∃ r fs' d' img', create_chain W clst (fs, d) = Ok (r, (fs', d')) ∧
    fat_rep (created fs clst r F) fs' d' img' ∧ free_ok (created fs clst r F) fs' ∧
    data_same fs img fs' img' ∧ 0 ≤ last_clst fs' < 2 ^ 32 ∧
    if r =? 0 then ∀ c, valid (n_fatent fs) c → F c ≠ 0 else valid (n_fatent fs) r ∧ F r = 0 ∧ in_fat fs (winsect fs').
Proof using HW.
  intros Hr Hfree Hlast Hcl. pose proof (geo_ents _ _ (wo_geo _ _ (fr_win _ _ _ _ Hr))) as Hents.
  unfold create_chain.
  destruct (chain_start_ok F fs d img clst Hr ltac:(lia) Hcl) as (scl & fs1 & d1 & img1 & Hst & Hr1 & Hk1 & Hscl & Hsc).
  rewrite (run_bind _ _ _ _ _ Hst). ff_run. pose proof (kv_alloc _ _ _ _ Hk1) as Ha1. pose proof (kv_volume _ _ _ _ Hk1) as Hv1.
  assert (n_fatent fs1 = n_fatent fs) as En1 by apply Hv1. pose proof (free_keeps F fs fs1 Hv1 Ha1 Hfree) as Hfree1.
  assert (last_clst fs1 = last_clst fs) as El1 by apply Ha1.
  destruct (Z.eqb_spec (free_clst fs1) 0) as [Hz|Hne0].
  { exists 0, fs1, d1, img1. split; [done|]. split; [done|]. split; [done|]. split; [by apply keeps_data|].
    split; [by rewrite El1|]. cbn [Z.eqb]. apply n_free_none. destruct Hfree1 as [_ Hf]. rewrite En1, Hz in Hf. lia. }
  destruct (find_cluster_ok F fs1 d1 img1 scl clst Hr1) as (r & fs2 & d2 & img2 & Hfi & Hr2 & Hk2 & Hok);
    [by rewrite En1|done|lia|].
  rewrite (run_bind _ _ _ _ _ Hfi). pose proof (kv_alloc _ _ _ _ Hk2) as Ha2. pose proof (kv_volume _ _ _ _ Hk2) as Hv2.
  assert (n_fatent fs2 = n_fatent fs) as En2 by (transitivity (n_fatent fs1); [apply Hv2|done]).
  pose proof (free_keeps F fs1 fs2 Hv2 Ha2 Hfree1) as Hfree2.
  assert (last_clst fs2 = last_clst fs) as El2 by (transitivity (last_clst fs1); [apply Ha2|done]).
  pose proof (keeps_view_trans _ _ _ _ _ _ Hk1 Hk2) as Hk. rewrite En1 in Hok.
  destruct r as [x|e]; cbn in Hok.
  - destruct Hok as [Hx HFx].
    destruct (link_new_ok F fs2 d2 img2 clst x) as (fs3 & d3 & img3 & -> & Hr3 & Hf3 & Hds3 & Hl3 & Hin3);
      [done|done|by rewrite En2|done|by rewrite En2|].
    assert (linked fs2 clst x F = linked fs clst x F) as El.
    { unfold linked, eoc. assert (fs_type fs2 = fs_type fs) as -> by apply (kv_volume _ _ _ _ Hk). done. }
    rewrite El in *. exists x, fs3, d3, img3. split; [done|]. unfold created.
    rewrite (proj2 (Z.eqb_neq x 0)) by (unfold valid in Hx; lia). split; [done|]. split; [done|].
    split; [apply (data_same_trans _ _ fs2 img2); [by apply keeps_data|done]|]. unfold valid in Hx. split; [lia|].
    split; [done|]. split; [done|]. unfold in_fat in *. pose proof (kv_volume _ _ _ _ Hk) as V.
    assert (fatbase fs2 = fatbase fs ∧ fsize fs2 = fsize fs) as [<- <-] by (split; apply V). done.
  - destruct Hok as [-> Hnone]. exists 0, fs2, d2, img2. split; [done|]. split; [done|]. split; [done|].
    split; [by apply keeps_data|]. split; [by rewrite El2|done].
Qed.

(** The last cluster of a chain. *)
Lemma chain_end n F c l x : chain n F c l → last l = Some x → valid n x ∧ n ≤ F x.
Proof.
  intros Hch. revert x. induction Hch as [c Hc Hl|c l Hc Hn Hch IH]; intros x Hx; [by injection Hx as <-|].
  destruct l as [|y l]; [by inversion Hch|]. by apply IH.
Qed.

Lemma free_not_in n F c l x : chain n F c l → F x = 0 → x ∉ l.
Proof. intros Hc HF Hin. pose proof (proj1 (Forall_forall _ _) (chain_used _ _ _ _ Hc) x Hin) as [_ ?]. lia. Qed.

(** A new cluster at the end of a chain. *)
Lemma linked_chain fs m F c l x r :
  geometry fs m → chain (n_fatent fs) F c l → last l = Some x → valid (n_fatent fs) r → F r = 0 →
  chain (n_fatent fs) (linked fs x r F) c (l ++ [r]) ∧
  ∀ c' l', chain (n_fatent fs) F c' l' → l' ## l → chain (n_fatent fs) (linked fs x r F) c' l'.
Proof.
  intros G Hch Hx Hr HF. destruct (ents_fit fs _ G) as [He _]. destruct (chain_end _ _ _ _ _ Hch Hx) as [Hvx Hex].
  unfold linked. rewrite (proj2 (Z.eqb_neq x 0)) by (unfold valid in Hvx; lia).
  assert (∀ c' l', chain (n_fatent fs) F c' l' → chain (n_fatent fs) (upd F r (eoc fs)) c' l') as Hup.
  { intros c' l' Hc'. apply (chain_ext _ F); [done|]. intros y Hy. apply upd_ne. intros ->. by apply (free_not_in _ _ _ _ _ Hc' HF). }
  split.
  - apply chain_snoc; [by apply Hup|done|done|by eapply free_not_in|by rewrite upd_eq].
  - intros c' l' Hc' Hdisj. apply (chain_ext _ (upd F r (eoc fs))); [by apply Hup|]. intros y Hy. apply upd_ne.
    intros ->. apply (Hdisj x); [done|by apply last_Some_elem_of].
Qed.

(** A chain of one new cluster. *)
Lemma linked_new fs m F r :
  geometry fs m → valid (n_fatent fs) r → F r = 0 →
  chain (n_fatent fs) (linked fs 0 r F) r [r] ∧
  ∀ c' l', chain (n_fatent fs) F c' l' → chain (n_fatent fs) (linked fs 0 r F) c' l'.
Proof.
  intros G Hr HF. destruct (ents_fit fs _ G) as [He _]. unfold linked. cbn [Z.eqb]. split.
  - constructor; [done|]. by rewrite upd_eq.
  - intros c' l' Hc'. apply (chain_ext _ F); [done|]. intros y Hy. apply upd_ne. intros ->. by apply (free_not_in _ _ _ _ _ Hc' HF).
Qed.

(** A chain that goes on is followed. *)
Lemma create_follows F fs d img c :
  fat_rep F fs d img → valid (n_fatent fs) c → valid (n_fatent fs) (F c) →
  ∃ fs' d' img', create_chain W c (fs, d) = Ok (F c, (fs', d')) ∧ fat_rep F fs' d' img' ∧ keeps_view fs img fs' img'.
Proof using HW.
  intros Hr Hc HF. pose proof (geo_ents _ _ (wo_geo _ _ (fr_win _ _ _ _ Hr))) as Hents. unfold valid in *.
  destruct (get_rep F fs d img c Hr Hc) as (fs' & d' & img' & Hg & Hr' & Hk).
  exists fs', d', img'. split; [|done]. unfold create_chain, chain_start. ff_run.
  rewrite (proj2 (Z.eqb_neq c 0)) by lia. ff_run. rewrite (run_bind _ _ _ _ _ Hg).
  rewrite (proj2 (Z.ltb_ge _ 2)), (proj2 (Z.eqb_neq _ FFFFFFFF)), (proj2 (Z.ltb_lt _ _)) by (unfold FFFFFFFF; lia). done.
Qed.
End chains.
