(* ===== verification/FfStay.v ===== *)
(** * FatFs: where the window goes

    The functions on the FAT move the window to the FAT, or leave it where it
    is: nothing else of the volume is touched. *)

From S2P Require Import Prelude Bytes Ff FfWindow FfFat FfChain.

(** The same volume; the window is where it was, on the FAT, or invalid. *)
Definition at_fat (fs fs' : FATFS) : Prop :=
  same_volume fs fs' ∧ (winsect fs' = winsect fs ∨ in_fat fs (winsect fs') ∨ winsect fs' = FFFFFFFF).

#[global] Instance at_fat_preorder : PreOrder at_fat.
Proof.
  split; [intros fs; split; [done|by left]|].
  intros fs1 fs2 fs3 [V12 H12] [V23 H23]. split; [by etrans|].
  assert (fatbase fs2 = fatbase fs1 ∧ fsize fs2 = fsize fs1) as [Eb Es] by (split; apply V12).
  unfold in_fat in *. rewrite Eb, Es in H23. destruct H23 as [->|[?|?]]; [done|by right; left|by right; right].
Qed.

Section stay.
Context {D : Type} `{DiskOps D} (W : Z).
Hypothesis HW : 32 ≤ W.

(** Whatever the disk does, [m] only goes to the FAT of the volume of [fs0]. *)
Definition stays {A} (fs0 : FATFS) (m : ff D A) : Prop :=
  ∀ n fs d a fs' d', geometry fs0 n → n < FFFFFFFF → same_volume fs0 fs → m (fs, d) = Ok (a, (fs', d')) → at_fat fs fs'.

Lemma stays_ret {A} fs0 (a : A) : stays fs0 (mret a).
Proof. intros n fs d b fs' d' _ _ _ E. injection E as <- <- <-. done. Qed.

Lemma stays_bind {A B} fs0 (m : ff D A) (f : A → ff D B) :
  stays fs0 m → (∀ a, stays fs0 (f a)) → stays fs0 (m ≫= f).
Proof.
  intros Hm Hf n fs d b fs' d' G Hn V E. unfold mbind, ff_bind in E. destruct (m (fs, d)) as [[a [fs1 d1]]|] eqn:E1; [|done].
  rewrite bind_Ok in E. pose proof (Hm _ _ _ _ _ _ G Hn V E1) as H1.
  transitivity fs1; [done|]. eapply (Hf a); [done|done| |done]. by transitivity fs; [|apply H1].
Qed.

Lemma stays_fs {B} fs0 (f : FATFS → ff D B) :
  (∀ fs, same_volume fs0 fs → stays fs0 (f fs)) → stays fs0 (the_fs ≫= f).
Proof. intros Hf n fs d b fs' d' G Hn V E. rewrite run_fs in E. by eapply (Hf fs). Qed.

Lemma stays_modify fs0 g : (∀ fs, at_fat fs (g fs)) → stays fs0 (modify g).
Proof. intros Hg n fs d a fs' d' _ _ _ E. injection E as <- <- <-. apply Hg. Qed.

Lemma stays_lift {A} fs0 (r : res A) : stays fs0 (lift r).
Proof. intros n fs d a fs' d' _ _ _ E. unfold lift in E. destruct r; [|done]. by injection E as <- <- <-. Qed.

Lemma stays_if {A} fs0 (b : bool) (m1 m2 : ff D A) : stays fs0 m1 → stays fs0 m2 → stays fs0 (if b then m1 else m2).
Proof. by destruct b. Qed.

Lemma stays_decide {A} fs0 P `{Decision P} (m1 m2 : ff D A) :
  stays fs0 m1 → stays fs0 m2 → stays fs0 (if decide P then m1 else m2).
Proof. by case_decide. Qed.

Lemma stays_dwrite fs0 b s k : stays fs0 (dwrite b s k).
Proof.
  intros n fs d a fs' d' _ _ _ E. unfold dwrite in E. destruct (disk_write _ _ _ _ _) as [[r d1]|]; [|done].
  by injection E as <- <- <-.
Qed.

Lemma stays_dread fs0 b s k : stays fs0 (dread b s k).
Proof.
  intros n fs d a fs' d' _ _ _ E. unfold dread in E. destruct (disk_read _ _ _ _ _) as [[[r o] d1]|]; [|done].
  by injection E as <- <- <-.
Qed.

Lemma alloc_at_fat x y z fs : at_fat fs (set_alloc x y z fs).
Proof. split; [done|by left]. Qed.

Lemma wflag_at_fat v fs : at_fat fs (set_wflag v fs).
Proof. split; [done|by left]. Qed.

Lemma win_at_fat w fs : at_fat fs (set_win w fs).
Proof. split; [done|by left]. Qed.

Lemma invalid_at_fat fs : at_fat fs (set_winsect FFFFFFFF fs).
Proof. split; [done|by right; right]. Qed.
End stay.

Create HintDb stay.

#[export] Hint Resolve stays_ret stays_lift stays_dwrite stays_dread stays_modify alloc_at_fat wflag_at_fat
  win_at_fat invalid_at_fat : stay.

(** Goes through the steps. *)
Ltac stay := repeat first
  [ progress eauto with stay
  | apply stays_fs; intros ? ?
  | apply stays_bind; [|intros ?]
  | apply stays_if | apply stays_decide
  | match goal with
    | |- stays _ (match ?x with inl _ => _ | inr _ => _ end) => destruct x
    | |- stays _ (let '(_, _) := ?x in _) => destruct x
    end ].

Section functions.
Context {D : Type} `{DiskOps D} (W : Z).
Hypothesis HW : 32 ≤ W.

Lemma get_win_stays fs0 i : stays fs0 (get_win (D := D) i).
Proof. unfold get_win. stay. Qed.

Lemma edit_win_stays fs0 f : stays fs0 (edit_win (D := D) f).
Proof. unfold edit_win. stay. Qed.

Lemma sync_window_stays fs0 : stays fs0 (sync_window (D := D) W).
Proof. unfold sync_window. stay. Qed.
Hint Resolve get_win_stays edit_win_stays sync_window_stays : stay.

Lemma move_window_stays fs0 s : in_fat fs0 s → stays fs0 (move_window (D := D) W s).
Proof.
  intros Hs. unfold move_window. stay.
  intros n fsa d ? fsb d' _ _ V E. injection E as <- <- <-. split; [done|]. right; left. unfold in_fat in *. cbn.
  assert (fatbase fsa = fatbase fs0 ∧ fsize fsa = fsize fs0) as [-> ->] by (split; apply V). done.
Qed.

(** The sector of byte [b] of the FAT. *)
Lemma fat_in_fat fs0 fs n b :
  geometry fs0 n → n < FFFFFFFF → same_volume fs0 fs → 0 ≤ b < fsize fs0 * SS → in_fat fs0 (wrap W (fatbase fs + b / SS)).
Proof using HW.
  intros G Hn V Hb. assert (fatbase fs = fatbase fs0) as -> by apply V.
  pose proof (Z.div_pos b SS ltac:(lia) ltac:(done)). assert (b / SS < fsize fs0) by (apply Z.div_lt_upper_bound; unfold SS in *; lia).
  destruct G as [_ _ Hf Hfb Hfs Hd Hcs Hen Hr _ _ _]. unfold FFFFFFFF in Hn.
  assert (fatbase fs0 + fsize fs0 ≤ database fs0) by (destruct Hf as [E|E]; rewrite E in Hd; lia).
  assert (database fs0 ≤ n) by nia. rewrite (dw_small W HW) by lia. unfold in_fat. lia.
Qed.

(** The bytes of an entry. *)
Lemma entry_in_fat fs0 n c :
  geometry fs0 n → 2 ≤ c < n_fatent fs0 →
  (fs_type fs0 = FS_FAT12 → u32 (u32 c + u32 c / 2) = c + c / 2 ∧ u32 (c + c / 2 + 1) = c + c / 2 + 1 ∧
     c + c / 2 + 1 < fsize fs0 * SS) ∧
  (fs_type fs0 = FS_FAT16 → c / (SS / 2) = c * 2 / SS ∧ c * 2 < fsize fs0 * SS) ∧
  (fs_type fs0 = FS_FAT32 → c / (SS / 4) = c * 4 / SS ∧ c * 4 < fsize fs0 * SS).
Proof using HW.
  intros [_ _ _ _ _ _ _ Hen _ _ _ Htab] Hc. unfold SS in *.
  pose proof (Z.div_pos c 2 ltac:(lia) ltac:(lia)). assert (c / 2 ≤ c) by (apply Z.div_le_upper_bound; lia).
  pose proof (Z.mul_div_le c 2 ltac:(lia)).
  split; [|split]; intros Ht; rewrite Ht in Htab; cbn [Z.eqb Pos.eqb FS_FAT12 FS_FAT16 FS_FAT32] in Htab.
  - rewrite (wrap_small 32 c), !wrap_small by lia. lia.
  - split; [|lia]. change (512 / 2) with 256. rewrite <-(Z.div_mul_cancel_r c 256 2) by lia. done.
  - split; [|lia]. change (512 / 4) with 128. rewrite <-(Z.div_mul_cancel_r c 128 4) by lia. done.
Qed.

(** A function that is given the volume needs only look at one that is. *)
Lemma stays_geometry {A} fs0 (m : ff D A) : (∀ n, geometry fs0 n → n < FFFFFFFF → stays fs0 m) → stays fs0 m.
Proof. intros Hm n fs d a fs' d' G Hn. by apply (Hm n G Hn n). Qed.
Hint Resolve move_window_stays : stay.

Lemma get_fat_stays fs0 c : stays fs0 (get_fat (D := D) W c).
Proof using HW.
  apply stays_geometry. intros n G Hn. unfold get_fat. apply stays_fs. intros fs V.
  assert (n_fatent fs = n_fatent fs0 ∧ fs_type fs = fs_type fs0) as [En Et] by (split; apply V). rewrite En, Et.
  destruct ((c <? 2) || (n_fatent fs0 <=? c)) eqn:Hc; [stay|]. bool_to_prop.
  assert (2 ≤ c < n_fatent fs0) as Hc2 by lia. destruct (entry_in_fat fs0 n c G Hc2) as (H12 & H16 & H32).
  pose proof (fat_in_fat fs0 fs n) as Hin. pose proof (Z.div_pos c 2 ltac:(lia) ltac:(lia)).
  destruct (Z.eqb_spec (fs_type fs0) FS_FAT12) as [Ht|]; [|destruct (Z.eqb_spec (fs_type fs0) FS_FAT16) as [Ht|];
    [|destruct (Z.eqb_spec (fs_type fs0) FS_FAT32) as [Ht|]; [|stay]]].
  - destruct (H12 Ht) as (-> & -> & Hb). pose proof (Hin (c + c / 2) G Hn V ltac:(lia)).
    pose proof (Hin (c + c / 2 + 1) G Hn V ltac:(lia)). stay.
  - destruct (H16 Ht) as (-> & Hb). pose proof (Hin (c * 2) G Hn V ltac:(lia)). stay.
  - destruct (H32 Ht) as (-> & Hb). pose proof (Hin (c * 4) G Hn V ltac:(lia)). stay.
Qed.

Lemma put_fat_stays fs0 c v : stays fs0 (put_fat (D := D) W c v).
Proof using HW.
  apply stays_geometry. intros n G Hn. unfold put_fat. apply stays_fs. intros fs V.
  assert (n_fatent fs = n_fatent fs0 ∧ fs_type fs = fs_type fs0) as [En Et] by (split; apply V). rewrite En, Et.
  destruct ((2 <=? c) && (c <? n_fatent fs0)) eqn:Hc; [|stay]. bool_to_prop.
  assert (2 ≤ c < n_fatent fs0) as Hc2 by lia. destruct (entry_in_fat fs0 n c G Hc2) as (H12 & H16 & H32).
  pose proof (fat_in_fat fs0 fs n) as Hin. pose proof (Z.div_pos c 2 ltac:(lia) ltac:(lia)).
  destruct (Z.eqb_spec (fs_type fs0) FS_FAT12) as [Ht|]; [|destruct (Z.eqb_spec (fs_type fs0) FS_FAT16) as [Ht|];
    [|destruct (Z.eqb_spec (fs_type fs0) FS_FAT32) as [Ht|]; [|stay]]].
  - destruct (H12 Ht) as (-> & -> & Hb). pose proof (Hin (c + c / 2) G Hn V ltac:(lia)).
    pose proof (Hin (c + c / 2 + 1) G Hn V ltac:(lia)). stay.
  - destruct (H16 Ht) as (-> & Hb). pose proof (Hin (c * 2) G Hn V ltac:(lia)). stay.
  - destruct (H32 Ht) as (-> & Hb). pose proof (Hin (c * 4) G Hn V ltac:(lia)). stay.
Qed.
Hint Resolve get_fat_stays put_fat_stays : stay.

Lemma create_chain_stays fs0 c : stays fs0 (create_chain (D := D) W c).
Proof using HW.
  assert (∀ fuel scl ncl, stays fs0 (find_loop (D := D) W fuel scl ncl)) as Hloop.
  { induction fuel as [|fuel IH]; intros scl ncl; simpl; stay. }
  unfold create_chain, chain_start, find_cluster, link_new. stay.
Qed.

Lemma remove_chain_stays fs0 c p : stays fs0 (remove_chain (D := D) W c p).
Proof using HW.
  assert (∀ fuel c, stays fs0 (remove_loop (D := D) W fuel c)) as Hloop.
  { induction fuel as [|fuel IH]; intros c'; simpl; stay. }
  unfold remove_chain. stay.
Qed.
End functions.
