(* ===== verification/FfHost.v ===== *)
(** * FatFs on the host disk

    The stack of the QEMU board below FatFs -- the glue, the table of drivers
    with the host disk in it, semihosting -- is a disk as FatFs needs one. *)

From S2P Require Import Prelude Bytes Diskio FatDiskio Hostdisk HostdiskProps Ff FfWindow.

Section host.
Context {H : Type} `{Semihost H}.

(** The table after [mipos_add_disk_driver(mipos_qemu_hostdisk_driver())]. *)
Definition host_tbl : disk_tbl (hostdisk H) := mk_tbl [mipos_qemu_hostdisk_driver] 1.

#[global] Instance host_ops : DiskOps (hostdisk H) := {
  Ff.disk_status p s := FatDiskio.disk_status p host_tbl s;
  Ff.disk_initialize p s := FatDiskio.disk_initialize p host_tbl s;
  Ff.disk_read p buf sec n s :=
    '(r, b, s) ← FatDiskio.disk_read 32 p (Some buf) sec n host_tbl s; Ok (r, default buf b, s);
  Ff.disk_write p buf sec n s := FatDiskio.disk_write 32 p (Some buf) sec n host_tbl s;
  Ff.disk_ioctl p c s := '(r, _, s) ← FatDiskio.disk_ioctl p c None host_tbl s; Ok (r, s);
}.

(** Ready, with the image [img]. *)
Definition host_dsk (s : hostdisk H) (img : list Z) : Prop :=
  Forall is_byte img ∧ ∃ h0 nm, hd_wf h0 nm s img.

Lemma host_fits h0 nm s img sec n :
  hd_wf h0 nm s img → 0 ≤ sec → 0 < n → sec + n ≤ n_sect img →
  in_disk img sec n = true ∧ sec < 2 ^ 32 ∧ n < 2 ^ 32.
Proof.
  intros Hw Hs Hn Hle. pose proof (hw_size _ _ _ _ Hw). unfold n_sect, in_disk, Ff.SS, MIPOS_QEMU_HOSTDISK_SECTOR_SIZE in *.
  pose proof (Z.mul_div_le (Z.of_nat (length img)) 512 ltac:(lia)). split; [apply Z.leb_le; lia|]. lia.
Qed.

#[global] Instance host_disk : Disk (hostdisk H).
Proof.
  refine {| dsk := host_dsk |}.
  - intros s img [Hb (h0 & nm & Hw)]. split; [done|]. pose proof (hw_size _ _ _ _ Hw). unfold n_sect, Ff.SS, FFFFFFFF.
    apply Z.div_lt_upper_bound; lia.
  - intros s img [Hb (h0 & nm & Hw)].
    destruct (step_refines h0 nm host_tbl (DStatus 0) s img driver_serves ltac:(done) Hw) as (s' & E & Hw').
    cbn [fat_step] in E. inv_ok. destruct x as [r s1]. inv_ok. eexists. split; [eassumption|]. split; eauto.
  - intros s img buf sec n [Hb (h0 & nm & Hw)] Hs Hn Hle Hbuf.
    destruct (host_fits _ _ _ _ _ _ Hw Hs Hn Hle) as (Hin & ? & ?).
    pose proof (step_refines h0 nm host_tbl (DRead 0 (Some buf) sec n) s img driver_serves) as Hst.
    cbn [spec_step] in Hst. rewrite Hin in Hst. cbn [Z.eqb negb] in Hst.
    unfold MIPOS_QEMU_HOSTDISK_SECTOR_SIZE, Ff.SS in *.
    rewrite (proj2 (Z.ltb_ge (Z.of_nat (length buf)) (n * 512))) in Hst by lia.
    destruct Hst as (s' & E & Hw'); [cbn; unfold is_byte; lia|done|].
    cbn [fat_step] in E. exists s'. cbn [Ff.disk_read Ff.disk_ioctl host_ops]. rewrite E. split; [done|]. split; eauto.
  - intros s img buf sec n [Hb (h0 & nm & Hw)] Hs Hn Hle Hbuf Hby.
    destruct (host_fits _ _ _ _ _ _ Hw Hs Hn Hle) as (Hin & ? & ?).
    pose proof (step_refines h0 nm host_tbl (DWrite 0 (Some buf) sec n) s img driver_serves) as Hst.
    cbn [spec_step] in Hst. rewrite Hin in Hst. cbn [Z.eqb negb] in Hst.
    unfold MIPOS_QEMU_HOSTDISK_SECTOR_SIZE, Ff.SS in *.
    rewrite (proj2 (Z.ltb_ge (Z.of_nat (length buf)) (n * 512))) in Hst by lia.
    destruct Hst as (s' & E & Hw'); [cbn; unfold is_byte; lia|done|].
    cbn [fat_step] in E. inv_ok. destruct x as [r s1]. inv_ok. eexists. split; [eassumption|].
    split; [|by eauto]. apply patch_bytes; [by apply Forall_take|done].
  - intros s img [Hb (h0 & nm & Hw)].
    destruct (step_refines h0 nm host_tbl (DIoctl 0 0 None) s img driver_serves) as (s' & E & Hw'); [|done|].
    { split; unfold is_byte; lia. }
    cbn [fat_step] in E. exists s'. cbn [Ff.disk_read Ff.disk_ioctl host_ops]. change Ff.CTRL_SYNC with 0. rewrite E. split; [done|]. split; eauto.
Defined.

Lemma host_starts (s : hostdisk H) img : dsk s img → starts s img.
Proof.
  intros [Hb (h0 & nm & Hw)].
  destruct (step_refines h0 nm host_tbl (DInitialize 0) s img driver_serves ltac:(done) Hw) as (s' & E & Hw').
  cbn [fat_step] in E. inv_ok. destruct x as [r s1]. inv_ok. eexists. split; [eassumption|]. split; eauto.
Qed.
End host.
