(* ===== verification/FfProps.v ===== *)
(** * FatFs: what the volume layer guarantees

    The FAT as an array behind the window, and the chains of clusters as
    lists; a volume on the host disk of the QEMU board as an example. *)

From S2P Require Import Prelude Bytes Diskio FatDiskio Hostdisk HostdiskProps Ff FfWindow FfFat FfChain FfHost.

(** ** The FAT as an array *)

Inductive fat_op := FGet (c : Z) | FPut (c v : Z).

Section spec.
Context (n m : Z).

(** An array of [n] entries of values below [m]; entries 0 and 1 are refused. *)
Definition array_step (op : fat_op) (F : Z → Z) : Z * (Z → Z) :=
  match op with
  | FGet c => (if (2 <=? c) && (c <? n) then F c else 1, F)
  | FPut c v => if (2 <=? c) && (c <? n) then (0, upd F c (v `mod` m)) else (2, F)
  end.

Fixpoint array_run (ops : list fat_op) (F : Z → Z) : list Z * (Z → Z) :=
  match ops with
  | [] => ([], F)
  | op :: ops => let '(r, F) := array_step op F in let '(rs, F) := array_run ops F in (r :: rs, F)
  end.
End spec.

Section fat.
Context {D : Type} `{Disk D} (W : Z).

Definition fat_step_code (op : fat_op) : ff D Z :=
  match op with
  | FGet c => get_fat W c
  | FPut c v => r ← put_fat W c v; mret (if decide (r = FR_OK) then 0 else if decide (r = FR_INT_ERR) then 2 else 1)
  end.

Fixpoint fat_run_code (ops : list fat_op) : ff D (list Z) :=
  match ops with
  | [] => mret []
  | op :: ops => r ← fat_step_code op; rs ← fat_run_code ops; mret (r :: rs)
  end.

Hypothesis HW : 32 ≤ W.

Definition shows (F : Z → Z) (fs : FATFS) (img : list Z) : Prop :=
  ∀ c, valid (n_fatent fs) c → fat_val fs img c = F c.

Lemma fat_step_ok op F fs d img :
  win_ok fs img → dsk d img → shows F fs img →
  let '(r, F') := array_step (n_fatent fs) (fat_mod (fs_type fs)) op F in
  ∃ fs' d' img', fat_step_code op (fs, d) = Ok (r, (fs', d')) ∧ dsk d' img' ∧ win_ok fs' img' ∧
    shows F' fs' img' ∧ data_same fs img fs' img'.
Proof using HW.
  intros Hw Hd Hs. destruct op as [c|c v]; cbn [array_step fat_step_code].
  - destruct ((2 <=? c) && (c <? n_fatent fs)) eqn:Hc.
    + bool_to_prop. assert (valid (n_fatent fs) c) as Hv by done.
      destruct (get_fat_ok W HW fs d img c Hw Hd Hv) as (fs' & d' & img' & Hg & Hd' & Hw' & Hk).
      exists fs', d', img'. rewrite Hg, Hs by done. split; [done|]. split; [done|]. split; [done|].
      split; [|by apply keeps_data]. intros c' Hc'.
      assert (n_fatent fs' = n_fatent fs) as En by apply (kv_volume _ _ _ _ Hk). rewrite En in Hc'.
      rewrite <-Hs by done. by apply fat_val_keeps.
    + exists fs, d, img. split; [|split; [done|split; [done|split; [done|apply data_same_refl]]]].
      unfold get_fat. ff_run. apply andb_false_iff in Hc as [Hc|Hc]; bool_to_prop.
      * by rewrite (proj2 (Z.ltb_lt c 2)) by lia.
      * by rewrite (proj2 (Z.leb_le _ c)), orb_true_r by lia.
  - destruct ((2 <=? c) && (c <? n_fatent fs)) eqn:Hc.
    + bool_to_prop. assert (valid (n_fatent fs) c) as Hv by done.
      destruct (put_fat_ok W HW fs d img c v Hw Hd Hv) as (fs' & d' & img' & Hp & Hd' & Hw' & Hf).
      exists fs', d', img'. rewrite (run_bind _ _ _ _ _ Hp), decide_True by done. split; [done|]. split; [done|].
      split; [done|]. split; [|by eapply put_data]. intros c' Hc'.
      assert (n_fatent fs' = n_fatent fs) as En by apply (fp_volume _ _ _ _ _ _ Hf). rewrite En in Hc'.
      rewrite (fp_val _ _ _ _ _ _ Hf) by done. unfold upd. case_if; [done|]. by apply Hs.
    + exists fs, d, img. split; [|split; [done|split; [done|split; [done|apply data_same_refl]]]].
      unfold put_fat. ff_run. by rewrite Hc.
Qed.

Lemma fat_run_ok ops F fs d img :
  win_ok fs img → dsk d img → shows F fs img →
  let '(rs, F') := array_run (n_fatent fs) (fat_mod (fs_type fs)) ops F in
  ∃ fs' d' img', fat_run_code ops (fs, d) = Ok (rs, (fs', d')) ∧ dsk d' img' ∧ win_ok fs' img' ∧
    shows F' fs' img' ∧ data_same fs img fs' img'.
Proof using HW.
  revert F fs d img. induction ops as [|op ops IH]; intros F fs d img Hw Hd Hs; cbn [array_run fat_run_code].
  { exists fs, d, img. split; [done|]. split; [done|]. split; [done|]. split; [done|apply data_same_refl]. }
  pose proof (fat_step_ok op F fs d img Hw Hd Hs) as Hst.
  destruct (array_step _ _ op F) as [r F1]. destruct Hst as (fs1 & d1 & img1 & Hr1 & Hd1 & Hw1 & Hs1 & Hds1).
  pose proof (IH F1 fs1 d1 img1 Hw1 Hd1 Hs1) as Hrun.
  assert (n_fatent fs1 = n_fatent fs) as En by apply (ds_volume _ _ _ _ Hds1). rewrite En in Hrun.
  assert (fs_type fs1 = fs_type fs) as Et by apply (ds_volume _ _ _ _ Hds1). rewrite Et in Hrun.
  destruct (array_run _ _ ops F1) as [rs F2]. destruct Hrun as (fs2 & d2 & img2 & Hr2 & Hd2 & Hw2 & Hs2 & Hds2).
  exists fs2, d2, img2. rewrite (run_bind _ _ _ _ _ Hr1), (run_bind _ _ _ _ _ Hr2).
  split; [done|]. split; [done|]. split; [done|]. split; [done|]. by eapply data_same_trans.
Qed.

(** C10: for FAT12, FAT16 and FAT32 alike the FAT behind the disk access window
    is an array of cluster values: any sequence of [get_fat] and [put_fat]
    returns what the array returns (with the errors for numbers outside it),
    entries that share bytes or straddle sectors included.  Once the window is
    written back, the table on the disk is the array, the second FAT is a copy
    of the first, and every sector outside the FATs is as FatFs saw it
    before. *)
Theorem fat_is_an_array ops F fs d img :
  win_ok fs img → dsk d img → shows F fs img →
  ∃ fs1 d1 fs2 d2 img2,
    fat_run_code ops (fs, d) = Ok ((array_run (n_fatent fs) (fat_mod (fs_type fs)) ops F).1, (fs1, d1)) ∧
    sync_window W (fs1, d1) = Ok (FR_OK, (fs2, d2)) ∧ dsk d2 img2 ∧ wflag fs2 = 0 ∧
    (∀ c, valid (n_fatent fs) c → fat_of (fs_type fs)
       (λ b, default 0 (sector (fatbase fs + b / SS) img2 !! Z.to_nat (b `mod` SS))) c =
       (array_run (n_fatent fs) (fat_mod (fs_type fs)) ops F).2 c) ∧
    (n_fats fs = 2 → ∀ s, in_fat fs s → sector (s + fsize fs) img2 = sector s img2) ∧
    (∀ s, 0 ≤ s < n_sect img → ¬ in_fat fs s → ¬ in_fat2 fs s → sector s img2 = view fs img s).
Proof using HW.
  intros Hw Hd Hs. pose proof (fat_run_ok ops F fs d img Hw Hd Hs) as Hrun.
  destruct (array_run _ _ ops F) as [rs F1]. destruct Hrun as (fs1 & d1 & img1 & Hr1 & Hd1 & Hw1 & Hs1 & Hds1).
  destruct (sync_window_ok W HW fs1 d1 img1 Hw1 Hd1) as (fs2 & d2 & img2 & Hsy & Hd2 & Hw2 & Hk2 & Hf2 & _ & _).
  exists fs1, d1, fs2, d2, img2. split; [done|]. split; [done|]. split; [done|]. split; [done|].
  pose proof (data_same_trans _ _ _ _ _ _ Hds1 (keeps_data _ _ _ _ Hk2)) as [V S Hv].
  assert (∀ s, 0 ≤ s < n_sect img2 → view fs2 img2 s = sector s img2) as Hclean.
  { intros s Hs'. unfold view. destruct (Z.eqb_spec (winsect fs2) s) as [<-|]; [|done]. apply (wo_clean _ _ Hw2); lia. }
  assert (fs_type fs2 = fs_type fs ∧ n_fats fs2 = n_fats fs ∧ n_fatent fs2 = n_fatent fs ∧ fsize fs2 = fsize fs ∧
    fatbase fs2 = fatbase fs) as (Et & Ef & En & Es & Eb) by (repeat split; apply V).
  assert (n_fatent fs1 = n_fatent fs) as En1 by apply (ds_volume _ _ _ _ Hds1). split; [|split].
  - intros c Hc. cbn [snd]. rewrite <-Hs1 by by rewrite En1. rewrite <-(fat_val_keeps fs1 img1 fs2 img2) by (done || by rewrite En1).
    unfold fat_val. rewrite Et. apply fat_of_ext. rewrite <-Et. intros b Hb. unfold fat_byte.
    pose proof (entry_valid fs2 img2 Hw2 c) as He. rewrite En in He. specialize (He Hc).
    destruct (entry_bytes (fs_type fs2) c) as [b0 k]. cbn [fst snd] in Hb.
    destruct (fat_sector fs2 img2 Hw2 b) as (_ & Hr & _); [lia|]. by rewrite Hclean, Eb by done.
  - intros H2 s Hin. rewrite <-Es. apply (wo_mirror _ _ Hw2); [congruence| |by left]. unfold in_fat in *. by rewrite Eb, Es.
  - intros s Hs' Hn1 Hn2. rewrite <-Hclean by by rewrite S. by apply Hv.
Qed.
End fat.

(** ** Chains *)

Section chains.
Context {D : Type} `{Disk D} (W : Z).
Hypothesis HW : 32 ≤ W.

(** Stretching a chain: [create_chain] at the last cluster of a chain
    either finds no free cluster in the whole table, returns 0 and leaves the
    table as it is, or takes a cluster that was free and makes it the new last
    one of the chain.  Chains that share no cluster with it, everything outside
    the FAT, and the exactness of the count of free clusters are kept. *)
Theorem create_chain_extends F fs (d : D) img c l x :
  fat_rep F fs d img → free_ok F fs → 0 ≤ last_clst fs < 2 ^ 32 →
  chain (n_fatent fs) F c l → last l = Some x →
  ∃ r fs' d' img' F', create_chain W x (fs, d) = Ok (r, (fs', d')) ∧ fat_rep F' fs' d' img' ∧ free_ok F' fs' ∧
    data_same fs img fs' img' ∧
    (if r =? 0 then F' = F ∧ ∀ y, valid (n_fatent fs) y → F y ≠ 0
     else F r = 0 ∧ chain (n_fatent fs) F' c (l ++ [r]) ∧
       ∀ c' l', chain (n_fatent fs) F c' l' → l' ## l → chain (n_fatent fs) F' c' l').
Proof using HW.
  intros Hr Hf Hl Hch Hx. pose proof (wo_geo _ _ (fr_win _ _ _ _ Hr)) as G.
  destruct (create_chain_ok W HW F fs d img x) as (r & fs' & d' & img' & Hcr & Hr' & Hf' & Hds & _ & Hcase);
    [done|done|done|right; by eapply chain_end|].
  exists r, fs', d', img', (created fs x r F). split; [done|]. split; [done|]. split; [done|]. split; [done|].
  unfold created in *. destruct (Z.eqb_spec r 0) as [->|Hne]; [done|]. destruct Hcase as (Hv & HF0 & _).
  split; [done|]. by apply (linked_chain fs (n_sect img)).
Qed.

(** Cutting a chain: [remove_chain] frees exactly the clusters of the tail
    it is given and makes the cluster before it the end of the chain; other
    chains and everything outside the FAT stay, and the count of free clusters
    stays exact. *)
Theorem remove_chain_cuts F fs (d : D) img c0 l1 l2 p :
  fat_rep F fs d img → free_ok F fs → chain (n_fatent fs) F c0 (l1 ++ l2) → last l1 = Some p → l2 ≠ [] →
  ∃ fs' d' img' F', remove_chain W (F p) p (fs, d) = Ok (FR_OK, (fs', d')) ∧ fat_rep F' fs' d' img' ∧
    free_ok F' fs' ∧ data_same fs img fs' img' ∧ chain (n_fatent fs) F' c0 l1 ∧
    (∀ x, x ∈ l2 → F' x = 0) ∧ (∀ x, x ∉ l2 → x ≠ p → F' x = F x) ∧
    ∀ c' l', chain (n_fatent fs) F c' l' → l' ## l1 ++ l2 → chain (n_fatent fs) F' c' l'.
Proof using HW.
  intros Hr Hf Hch Hp Hne. pose proof (ents_fit fs _ (wo_geo _ _ (fr_win _ _ _ _ Hr))) as [He _].
  destruct (chain_split _ _ _ _ _ _ Hch Hp Hne) as [Hch2 Hvp].
  destruct (remove_chain_ok W HW F fs d img (F p) p l2) as (fs' & d' & img' & Hrm & Hr' & Hf' & Hds & _);
    [done|done|done|by right|].
  exists fs', d', img', (freed l2 (cut fs p F)). split; [done|]. split; [done|]. split; [done|]. split; [done|].
  assert (p ∈ l1) as Hpl by by apply last_Some_elem_of.
  unfold cut. rewrite (proj2 (Z.eqb_neq p 0)) by (unfold valid in Hvp; lia). split; [by apply chain_cut|].
  split; [intros x Hx; unfold freed; by rewrite decide_True|].
  assert (∀ x, x ∉ l2 → x ≠ p → freed l2 (upd F p (eoc fs)) x = F x) as Hother.
  { intros x Hx Hxp. unfold freed. rewrite decide_False by done. by apply upd_ne. }
  split; [done|]. intros c' l' Hc' Hdisj. apply (chain_ext _ F); [done|]. intros x Hx.
  apply Hother; set_solver.
Qed.
End chains.

(** ** A small volume on the host disk *)

(** Eight sectors: boot, two FATs, the root directory, four clusters; clusters
    2 and 3 are a chain. *)
Definition small_fat : list Z := [248; 255; 255; 3; 240; 255] ++ replicate 506 0.
Definition small_img : list Z := replicate 512 0 ++ small_fat ++ small_fat ++ replicate 2560 0.
Definition small_fs : FATFS :=
  mk_fatfs FS_FAT12 0 2 0 128 1 16 1 FFFFFFFF FFFFFFFF 6 1 0 1 3 4 0 (replicate 512 0).
Definition small_host : hostdisk memhost :=
  mk_hd (100 :: replicate 127 0) 1 8 0 (mk_memhost [100] small_img (Some 0)).

Lemma small_bytes : Forall is_byte small_img.
Proof.
  unfold small_img, small_fat. rewrite !Forall_app.
  repeat split; try (apply Forall_replicate; done); repeat constructor; done.
Qed.

Lemma small_dsk : dsk small_host small_img.
Proof.
  split; [apply small_bytes|]. exists (mk_memhost [100] small_img (Some 0)), [100].
  split; try done. by exists 0.
Qed.

Lemma small_win_ok : win_ok small_fs small_img.
Proof.
  split; try done.
  - split; try done; cbn; (by left) || (by right) || lia.
  - change (Forall is_byte (replicate 512 0)). by apply Forall_replicate.
  - intros _ s Hs _. unfold in_fat in Hs. cbn in Hs. assert (s = 1) as -> by lia. vm_compute. reflexivity.
Qed.

(** Its table. *)
Definition small_table : Z → Z := λ c, if c =? 2 then 3 else if c =? 3 then 4095 else 0.

Lemma small_shows : shows small_table small_fs small_img.
Proof.
  intros c Hc. unfold valid in Hc. cbn in Hc.
  assert (c = 2 ∨ c = 3 ∨ c = 4 ∨ c = 5) as [->|[->|[->| ->]]] by lia; vm_compute; reflexivity.
Qed.

Lemma small_rep : fat_rep small_table small_fs small_host small_img.
Proof.
  split; [apply small_win_ok|apply small_dsk|apply small_shows|].
  intros c _. unfold small_table. by repeat case_if.
Qed.

Lemma small_free : free_ok small_table small_fs.
Proof. split; [by unfold FFFFFFFF|]. left. done. Qed.

Lemma small_chain : chain (n_fatent small_fs) small_table 2 ([2] ++ [3]).
Proof. cbn. apply chain_next; [done|done|]. by apply chain_last. Qed.

Lemma fat_is_an_array_witness :
  ∃ fs1 d1 fs2 d2 img2,
    fat_run_code 32 [FPut 3 4; FPut 4 FFFFFFFF; FGet 3; FGet 2; FGet 9] (small_fs, small_host) =
      Ok ([0; 0; 4; 3; 1], (fs1, d1)) ∧
    sync_window 32 (fs1, d1) = Ok (FR_OK, (fs2, d2)) ∧ dsk d2 img2 ∧ sector 2 img2 = sector 1 img2.
Proof.
  destruct (fat_is_an_array 32 ltac:(lia) [FPut 3 4; FPut 4 FFFFFFFF; FGet 3; FGet 2; FGet 9] small_table small_fs
    small_host small_img small_win_ok small_dsk small_shows) as (fs1 & d1 & fs2 & d2 & img2 & Hr & Hs & Hd & _ & _ & Hm & _).
  exists fs1, d1, fs2, d2, img2. split; [exact Hr|]. split; [exact Hs|]. split; [exact Hd|].
  apply (Hm eq_refl 1). split; reflexivity || discriminate.
Defined.

Lemma create_chain_extends_witness :
  ∃ r fs' d' img' F', create_chain 32 3 (small_fs, small_host) = Ok (r, (fs', d')) ∧ fat_rep F' fs' d' img' ∧
    r = 4 ∧ chain 6 F' 2 [2; 3; 4].
Proof.
  destruct (create_chain_extends 32 ltac:(lia) small_table small_fs small_host small_img 2 [2; 3] 3 small_rep small_free)
    as (r & fs' & d' & img' & F' & Hc & Hr & _ & _ & Hcase); [done|exact small_chain|reflexivity|].
  exists r, fs', d', img', F'. split; [exact Hc|]. split; [exact Hr|].
  assert (r = 4) as ->.
  { apply (f_equal (λ x, match x with Ok (r, _) => r | Fault _ => 0 end)) in Hc. vm_compute in Hc. by symmetry. }
  split; [reflexivity|]. exact (proj1 (proj2 Hcase)).
Defined.

Lemma remove_chain_cuts_witness :
  ∃ fs' d' img' F', remove_chain 32 3 2 (small_fs, small_host) = Ok (FR_OK, (fs', d')) ∧
    fat_rep F' fs' d' img' ∧ chain 6 F' 2 [2] ∧ F' 3 = 0.
Proof.
  destruct (remove_chain_cuts 32 ltac:(lia) small_table small_fs small_host small_img 2 [2] [3] 2 small_rep small_free
    small_chain eq_refl ltac:(done)) as (fs' & d' & img' & F' & Hc & Hr & _ & _ & Hch & H0 & _).
  exists fs', d', img', F'. split; [exact Hc|]. split; [exact Hr|]. split; [exact Hch|]. apply H0. by left.
Defined.
