(* ===== verification/FfDir.v ===== *)
(** * FatFs: directories

    src/fatfs/ff.c, the functions on directory tables, names and paths.  A
    DIR object is passed and returned; its pointer [dir] into the window is an
    offset, its pointer to the volume is whether it is set.  A path is the
    text from the pointer on, without its terminator. *)

From S2P Require Import Prelude Bytes Cstdio Ff.

(** ** Constants *)

Definition AM_RDO : Z := 1.
Definition AM_VOL : Z := 8.
Definition AM_LFN : Z := 15.
Definition AM_DIR : Z := 16.
Definition AM_ARC : Z := 32.
Definition AM_MASK : Z := 63.

Definition NSFLAG : Z := 11.
Definition NS_LAST : Z := 4.
Definition NS_DOT : Z := 32.
Definition NS_NONAME : Z := 128.

Definition MAX_DIR : Z := 2097152.
Definition SZDIRE : Z := 32.
Definition DDEM : Z := 229.
Definition RDDEM : Z := 5.

Definition DIR_Name : Z := 0.
Definition DIR_Attr : Z := 11.
Definition DIR_CrtTime : Z := 14.
Definition DIR_LstAccDate : Z := 18.
Definition DIR_FstClusHI : Z := 20.
Definition DIR_ModTime : Z := 22.
Definition DIR_FstClusLO : Z := 26.
Definition DIR_FileSize : Z := 28.

(** ** Objects *)

Record FFOBJID := mk_obj {
  obj_fs : bool;
  obj_id : Z;
  attr : Z;
  sclust : Z;
  objsize : Z;
}.

Record DIR := mk_dir {
  d_obj : FFOBJID;
  dptr : Z;
  d_clust : Z;
  d_sect : Z;
  d_dir : Z;
  fn : list Z;
}.

Definition set_dptr (v : Z) (dp : DIR) : DIR := mk_dir (d_obj dp) v (d_clust dp) (d_sect dp) (d_dir dp) (fn dp).
Definition set_place (clst sect dir : Z) (dp : DIR) : DIR := mk_dir (d_obj dp) (dptr dp) clst sect dir (fn dp).
Definition set_sect (v : Z) (dp : DIR) : DIR := set_place (d_clust dp) v (d_dir dp) dp.
Definition set_fn (v : list Z) (dp : DIR) : DIR := mk_dir (d_obj dp) (dptr dp) (d_clust dp) (d_sect dp) (d_dir dp) v.
Definition set_obj (v : FFOBJID) (dp : DIR) : DIR := mk_dir v (dptr dp) (d_clust dp) (d_sect dp) (d_dir dp) (fn dp).
Definition set_attr (v : Z) (o : FFOBJID) : FFOBJID := mk_obj (obj_fs o) (obj_id o) v (sclust o) (objsize o).
Definition set_sclust (v : Z) (o : FFOBJID) : FFOBJID := mk_obj (obj_fs o) (obj_id o) (attr o) v (objsize o).
Definition set_objsize (v : Z) (o : FFOBJID) : FFOBJID := mk_obj (obj_fs o) (obj_id o) (attr o) (sclust o) v.
Definition set_obj_fs (v : bool) (o : FFOBJID) : FFOBJID := mk_obj v (obj_id o) (attr o) (sclust o) (objsize o).
Definition set_obj_id (v : Z) (o : FFOBJID) : FFOBJID := mk_obj (obj_fs o) v (attr o) (sclust o) (objsize o).

Section directories.
Context {D : Type} `{DiskOps D} (W : Z).

Abbreviation dw := (wrap W).

(** ** Tables *)

Fixpoint clear_loop (fuel : nat) (sect n : Z) : ff D Z :=
  match fuel with
  | O => lift (Fault OutOfFuel)
  | S fuel =>
      fs ← the_fs;
      if n <? csize fs then
        k ← dwrite (win fs) (dw (sect + n)) 1;
        if k =? RES_OK then clear_loop fuel sect (u32 (n + 1)) else mret n
      else mret n
  end.

Definition dir_clear (clst : Z) : ff D FRESULT :=
  r ← sync_window W;
  if decide (r ≠ FR_OK) then mret FR_DISK_ERR else
  fs ← the_fs;
  let sect := clst2sect W fs clst in
  modify (set_winsect sect);;
  edit_win (mem_set 0 0 SS);;
  n ← clear_loop (S (Z.to_nat (csize fs))) sect 0;
  mret (if n =? csize fs then FR_OK else FR_DISK_ERR).

(** The cluster of an offset of the table: [while (ofs >= csz)]. *)
Fixpoint sdi_loop (fuel : nat) (csz ofs clst : Z) : ff D (FRESULT + Z * Z) :=
  if csz <=? ofs then
    match fuel with
    | O => lift (Fault OutOfFuel)
    | S fuel =>
        fs ← the_fs;
        clst ← get_fat W clst;
        if clst =? FFFFFFFF then mret (inl FR_DISK_ERR) else
        if (clst <? 2) || (n_fatent fs <=? clst) then mret (inl FR_INT_ERR) else
        sdi_loop fuel csz (dw (ofs - csz)) clst
    end
  else mret (inr (ofs, clst)).

(** The end of [dir_sdi]. *)
Definition sdi_set (sect clst ofs : Z) (dp : DIR) : FRESULT * DIR :=
  let dp := set_place clst sect (d_dir dp) dp in
  if sect =? 0 then (FR_INT_ERR, dp)
  else (FR_OK, set_place clst (dw (sect + ofs / SS)) (ofs `mod` SS) dp).

Definition dir_sdi (dp : DIR) (ofs : Z) : ff D (FRESULT * DIR) :=
  fs ← the_fs;
  if (MAX_DIR <=? ofs) || truth (ofs `mod` SZDIRE) then mret (FR_INT_ERR, dp) else
  let dp := set_dptr ofs dp in
  let clst := sclust (d_obj dp) in
  let clst := if (clst =? 0) && (FS_FAT32 <=? fs_type fs) then dirbase fs else clst in
  if clst =? 0 then
    if n_rootdir fs <=? ofs / SZDIRE then mret (FR_INT_ERR, dp)
    else mret (sdi_set (dirbase fs) clst ofs dp)
  else
    place ← sdi_loop (Z.to_nat (ofs / SS)) (dw (csize fs * SS)) ofs clst;
    match place with
    | inl r => mret (r, dp)
    | inr (ofs, clst) => fs ← the_fs; mret (sdi_set (clst2sect W fs clst) clst ofs dp)
    end.

(** A new cluster for a table that is stretched. *)
Definition dir_stretch (dp : DIR) : ff D (FRESULT + Z) :=
  clst ← create_chain W (d_clust dp);
  if clst =? 0 then mret (inl FR_DENIED) else
  if clst =? 1 then mret (inl FR_INT_ERR) else
  if clst =? FFFFFFFF then mret (inl FR_DISK_ERR) else
  r ← dir_clear clst;
  mret (if decide (r ≠ FR_OK) then inl FR_DISK_ERR else inr clst).

Definition dir_next (dp : DIR) (stretch : bool) : ff D (FRESULT * DIR) :=
  fs ← the_fs;
  let ofs := dw (dptr dp + SZDIRE) in
  if (d_sect dp =? 0) || (MAX_DIR <=? ofs) then mret (FR_NO_FILE, dp) else
  let found dp := (FR_OK, set_place (d_clust dp) (d_sect dp) (ofs `mod` SS) (set_dptr ofs dp)) in
  if negb (ofs `mod` SS =? 0) then mret (found dp) else
  let dp := set_sect (dw (d_sect dp + 1)) dp in
  if d_clust dp =? 0 then
    if n_rootdir fs <=? ofs / SZDIRE then mret (FR_NO_FILE, set_sect 0 dp) else mret (found dp)
  else if Z.land (ofs / SS) (csize fs - 1) =? 0 then
    clst ← get_fat W (d_clust dp);
    if clst <=? 1 then mret (FR_INT_ERR, dp) else
    if clst =? FFFFFFFF then mret (FR_DISK_ERR, dp) else
    next ← (if n_fatent fs <=? clst then
              if negb stretch then mret (inl (FR_NO_FILE, set_sect 0 dp)) else
              r ← dir_stretch dp;
              mret (match r with inl r => inl (r, dp) | inr clst => inr clst end)
            else mret (inr clst) : ff D (FRESULT * DIR + Z));
    match next with
    | inl r => mret r
    | inr clst =>
        fs ← the_fs;
        mret (found (set_place clst (clst2sect W fs clst) (d_dir dp) dp))
    end
  else mret (found dp).

(** The first byte of the current entry. *)
Definition entry_byte (dp : DIR) (i : Z) : ff D Z := get_win (d_dir dp + i).

(** All tables have less than [MAX_DIR] bytes. *)
Definition dir_fuel : nat := Z.to_nat (MAX_DIR / SZDIRE).

Fixpoint alloc_loop (fuel : nat) (dp : DIR) (nent n : Z) : ff D (FRESULT * DIR) :=
  match fuel with
  | O => lift (Fault OutOfFuel)
  | S fuel =>
      r ← move_window W (d_sect dp);
      if decide (r ≠ FR_OK) then mret (r, dp) else
      c ← entry_byte dp DIR_Name;
      let n := if (c =? DDEM) || (c =? 0) then u32 (n + 1) else 0 in
      if ((c =? DDEM) || (c =? 0)) && (n =? nent) then mret (r, dp) else
      '(r, dp) ← dir_next dp true;
      if decide (r = FR_OK) then alloc_loop fuel dp nent n else mret (r, dp)
  end.

Definition dir_alloc (dp : DIR) (nent : Z) : ff D (FRESULT * DIR) :=
  '(r, dp) ← dir_sdi dp 0;
  '(r, dp) ← (if decide (r = FR_OK) then alloc_loop dir_fuel dp nent 0 else mret (r, dp));
  mret (if decide (r = FR_NO_FILE) then FR_DENIED else r, dp).

(** ** Entries *)

Definition ld_clust (fs : FATFS) (dir : Z) : res Z :=
  cl ← ld_word (win fs) (dir + DIR_FstClusLO);
  if fs_type fs =? FS_FAT32 then
    hi ← ld_word (win fs) (dir + DIR_FstClusHI);
    Ok (Z.lor cl (dw (Z.shiftl hi 16)))
  else Ok cl.

Definition st_clust (fs : FATFS) (dir cl : Z) (w : list Z) : res (list Z) :=
  w ← st_word (dir + DIR_FstClusLO) (u16 cl) w;
  if fs_type fs =? FS_FAT32 then st_word (dir + DIR_FstClusHI) (u16 (Z.shiftr cl 16)) w else Ok w.

(** [vol]: whether volume labels are wanted instead of files and directories. *)
Fixpoint dir_read_loop (fuel : nat) (dp : DIR) (vol : bool) (r : FRESULT) : ff D (FRESULT * DIR) :=
  if d_sect dp =? 0 then mret (r, dp) else
  match fuel with
  | O => lift (Fault OutOfFuel)
  | S fuel =>
      r ← move_window W (d_sect dp);
      if decide (r ≠ FR_OK) then mret (r, dp) else
      c ← entry_byte dp DIR_Name;
      if c =? 0 then mret (FR_NO_FILE, dp) else
      b ← entry_byte dp DIR_Attr;
      let a := Z.land b AM_MASK in
      let dp := set_obj (set_attr a (d_obj dp)) dp in
      if negb (c =? DDEM) && negb (c =? 46) && negb (a =? AM_LFN) &&
         Bool.eqb (Z.land a (Z.lnot AM_ARC) =? AM_VOL) vol then mret (r, dp) else
      '(r, dp) ← dir_next dp false;
      if decide (r ≠ FR_OK) then mret (r, dp) else dir_read_loop fuel dp vol r
  end.

Definition dir_read (dp : DIR) (vol : bool) : ff D (FRESULT * DIR) :=
  '(r, dp) ← dir_read_loop dir_fuel dp vol FR_NO_FILE;
  mret (r, if decide (r ≠ FR_OK) then set_sect 0 dp else dp).

Fixpoint find_entry (fuel : nat) (dp : DIR) : ff D (FRESULT * DIR) :=
  match fuel with
  | O => lift (Fault OutOfFuel)
  | S fuel =>
      r ← move_window W (d_sect dp);
      if decide (r ≠ FR_OK) then mret (r, dp) else
      c ← entry_byte dp DIR_Name;
      if c =? 0 then mret (FR_NO_FILE, dp) else
      b ← entry_byte dp DIR_Attr;
      let dp := set_obj (set_attr (Z.land b AM_MASK) (d_obj dp)) dp in
      fs ← the_fs;
      same ← (if truth (Z.land b AM_VOL) then mret false else
              k ← lift (mem_cmp 11 (win fs) (d_dir dp) (fn dp) 0); mret (k =? 0) : ff D bool);
      if (same : bool) then mret (r, dp) else
      '(r, dp) ← dir_next dp false;
      if decide (r = FR_OK) then find_entry fuel dp else mret (r, dp)
  end.

Definition dir_find (dp : DIR) : ff D (FRESULT * DIR) :=
  '(r, dp) ← dir_sdi dp 0;
  if decide (r ≠ FR_OK) then mret (r, dp) else find_entry dir_fuel dp.

Definition dir_register (dp : DIR) : ff D (FRESULT * DIR) :=
  '(r, dp) ← dir_alloc dp 1;
  if decide (r = FR_OK) then
    r ← move_window W (d_sect dp);
    if decide (r = FR_OK) then
      edit_win (mem_set (d_dir dp) 0 SZDIRE);;
      edit_win (copy (d_dir dp + DIR_Name) (fn dp) 0 11);;
      modify (set_wflag 1);;
      mret (r, dp)
    else mret (r, dp)
  else mret (r, dp).

Definition dir_remove (dp : DIR) : ff D FRESULT :=
  r ← move_window W (d_sect dp);
  if decide (r = FR_OK) then
    edit_win (put (d_dir dp + DIR_Name) DDEM);;
    modify (set_wflag 1);;
    mret r
  else mret r.

(** [FILINFO]: size, date, time, attributes and name. *)
Record FILINFO := mk_filinfo { fi_size : Z; fi_date : Z; fi_time : Z; fi_attrib : Z; fi_name : list Z }.

(** The name: the bytes of the entry without padding, with a dot before the
    extension.  [fno->fname] has 13 bytes. *)
Fixpoint name_text (i : Z) (bs : list Z) : list Z :=
  match bs with
  | [] => []
  | c :: bs =>
      if c =? 32 then name_text (i + 1) bs else
      let c := if c =? RDDEM then DDEM else c in
      (if i + 1 =? 9 then [46; c] else [c]) ++ name_text (i + 1) bs
  end.

Definition get_fileinfo (dp : DIR) (fno : FILINFO) : ff D FILINFO :=
  if d_sect dp =? 0 then mret (mk_filinfo (fi_size fno) (fi_date fno) (fi_time fno) (fi_attrib fno) []) else
  fs ← the_fs;
  bs ← lift (if Z.of_nat (length (win fs)) <? d_dir dp + 11 then Fault OutOfBounds
             else Ok (bytes_at (Z.to_nat (d_dir dp)) 11 (win fs)));
  a ← lift (get (win fs) (d_dir dp + DIR_Attr));
  size ← lift (ld_dword W (win fs) (d_dir dp + DIR_FileSize));
  tm ← lift (ld_dword W (win fs) (d_dir dp + DIR_ModTime));
  mret (mk_filinfo size (u16 (Z.shiftr tm 16)) (u16 tm) a (name_text 0 bs)).

(** ** Names *)

(** [p[i]] of a string: its end is a zero. *)
Definition char_at (p : list Z) (i : Z) : res Z :=
  if (i <? 0) || (Z.of_nat (length p) <? i) then Fault OutOfBounds else Ok (default 0 (p !! Z.to_nat i)).

(** Code page 932. *)
Definition DbcTbl : list Z := [129; 159; 224; 252; 64; 126; 128; 252; 0; 0].
Definition tbl (i : nat) : Z := default 0 (DbcTbl !! i).

Definition dbc_1st (c : Z) : bool :=
  (tbl 0 <=? c) && ((c <=? tbl 1) || ((tbl 2 <=? c) && (c <=? tbl 3))).

Definition dbc_2nd (c : Z) : bool :=
  (tbl 4 <=? c) &&
  ((c <=? tbl 5) || ((tbl 6 <=? c) && (c <=? tbl 7)) || ((tbl 8 <=? c) && (c <=? tbl 9))).

Fixpoint chk_chr (str : list Z) (chr : Z) : bool :=
  match str with [] => false | c :: str => if c =? chr then truth c else chk_chr str chr end.

(** The characters a short name cannot have: the string of [create_name]. *)
Definition bad_chars : list Z := [34; 42; 43; 44; 58; 59; 60; 61; 62; 63; 91; 93; 124; 127].

Definition IsLower (c : Z) : bool := (97 <=? c) && (c <=? 122).

Fixpoint skip_seps (fuel : nat) (p : list Z) (si : Z) : res Z :=
  match fuel with
  | O => Fault OutOfFuel
  | S fuel =>
      c ← char_at p si;
      if (c =? 47) || (c =? 92) then skip_seps fuel p (si + 1) else Ok si
  end.

(** The loop of [create_name]: the name so far when it is refused, else the
    last character read, the offset after it, the length of the name and it. *)
Fixpoint name_loop (fuel : nat) (p : list Z) (si i ni : Z) (sfn : list Z) : res (list Z + Z * Z * Z * list Z) :=
  match fuel with
  | O => Fault OutOfFuel
  | S fuel =>
      c ← char_at p si;
      let si := si + 1 in
      if c <=? 32 then Ok (inr (c, si, i, sfn)) else
      if (c =? 47) || (c =? 92) then si ← skip_seps (S (length p)) p si; Ok (inr (c, si, i, sfn)) else
      if (c =? 46) || (ni <=? i) then
        if (ni =? 11) || negb (c =? 46) then Ok (inl sfn) else name_loop fuel p si 8 11 sfn
      else if dbc_1st c then
        d ← char_at p si;
        if negb (dbc_2nd d) || (u32 (ni - 1) <=? i) then Ok (inl sfn) else
        sfn ← put i c sfn;
        sfn ← put (i + 1) d sfn;
        name_loop fuel p (si + 1) (i + 2) ni sfn
      else
        if chk_chr bad_chars c then Ok (inl sfn) else
        sfn ← put i (if IsLower c then c - 32 else c) sfn;
        name_loop fuel p si (i + 1) ni sfn
  end.

(** The rest of the path, and the name in [dp->fn]. *)
Definition create_name (dp : DIR) (path : list Z) : res (FRESULT * DIR * list Z) :=
  sfn ← mem_set 0 32 11 (fn dp);
  r ← name_loop (S (length path)) path 0 0 8 sfn;
  match r with
  | inl sfn => Ok (FR_INVALID_NAME, set_fn sfn dp, path)
  | inr (c, si, i, sfn) =>
      let path := drop (Z.to_nat si) path in
      if i =? 0 then Ok (FR_INVALID_NAME, set_fn sfn dp, path) else
      c0 ← get sfn 0;
      sfn ← (if c0 =? DDEM then put 0 RDDEM sfn else Ok sfn);
      sfn ← put NSFLAG (if c <=? 32 then NS_LAST else 0) sfn;
      Ok (FR_OK, set_fn sfn dp, path)
  end.

(** ** Paths *)

Fixpoint follow_loop (fuel : nat) (dp : DIR) (path : list Z) : ff D (FRESULT * DIR) :=
  match fuel with
  | O => lift (Fault OutOfFuel)
  | S fuel =>
      '(r, dp, path) ← lift (create_name dp path);
      if decide (r ≠ FR_OK) then mret (r, dp) else
      '(r, dp) ← dir_find dp;
      ns ← lift (get (fn dp) NSFLAG);
      if decide (r ≠ FR_OK) then
        mret (if decide (r = FR_NO_FILE) then if negb (truth (Z.land ns NS_LAST)) then FR_NO_PATH else r else r, dp)
      else
      if truth (Z.land ns NS_LAST) then mret (r, dp) else
      if negb (truth (Z.land (attr (d_obj dp)) AM_DIR)) then mret (FR_NO_PATH, dp) else
      fs ← the_fs;
      cl ← lift (ld_clust fs (dptr dp `mod` SS));
      follow_loop fuel (set_obj (set_sclust cl (d_obj dp)) dp) path
  end.

Fixpoint strip_seps (path : list Z) : list Z :=
  match path with c :: path' => if (c =? 47) || (c =? 92) then strip_seps path' else path | [] => [] end.

Definition follow_path (dp : DIR) (path : list Z) : ff D (FRESULT * DIR) :=
  let path := strip_seps path in
  let dp := set_obj (set_sclust 0 (d_obj dp)) dp in
  if default 0 (head path) <? 32 then
    sfn ← lift (put NSFLAG NS_NONAME (fn dp));
    dir_sdi (set_fn sfn dp) 0
  else follow_loop (S (length path)) dp path.
End directories.

(** The logical drive of a path, and the path after it: one volume, so only
    "0:" or no drive at all. *)
Fixpoint colon_at (path : list Z) (k : nat) : option nat :=
  match path with
  | [] => None
  | c :: path => if c =? 58 then Some k else if 33 <=? c then colon_at path (S k) else None
  end.

Definition get_ldnumber (path : option (list Z)) : Z * option (list Z) :=
  match path with
  | None => (-1, None)
  | Some p =>
      match colon_at p 0 with
      | Some k => if (default 0 (head p) =? 48) && Nat.eqb k 1 then (0, Some (drop 2 p)) else (-1, Some p)
      | None => (0, Some p)
      end
  end.
