(* ===== verification/FfMount.v ===== *)
(** * FatFs: mounting

    src/fatfs/ff.c, the search for a volume and its mount.  The pointer
    [FatFs[0]] and the counter [Fsid] are passed along; there is one FATFS
    object. *)

From S2P Require Import Prelude Bytes Cstdio Ff FfDir.

(** ** Constants *)

Definition FA_READ : Z := 1.

Definition MAX_FAT12 : Z := 4085.
Definition MAX_FAT16 : Z := 65525.
Definition MAX_FAT32 : Z := 268435445.

Definition BS_JmpBoot : Z := 0.
Definition BPB_BytsPerSec : Z := 11.
Definition BPB_SecPerClus : Z := 13.
Definition BPB_RsvdSecCnt : Z := 14.
Definition BPB_NumFATs : Z := 16.
Definition BPB_RootEntCnt : Z := 17.
Definition BPB_TotSec16 : Z := 19.
Definition BPB_FATSz16 : Z := 22.
Definition BPB_TotSec32 : Z := 32.
Definition BPB_FATSz32 : Z := 36.
Definition BPB_FSVer32 : Z := 42.
Definition BPB_RootClus32 : Z := 44.
Definition BPB_FSInfo32 : Z := 48.
Definition BS_FilSysType : Z := 54.
Definition BS_FilSysType32 : Z := 82.

Definition MBR_Table : Z := 446.
Definition SZ_PTE : Z := 16.
Definition PTE_System : Z := 4.
Definition PTE_StLba : Z := 8.

(** ** Mounting *)

(** [FatFs[0]] is set, and [Fsid]. *)
Record ffvars := mk_vars { registered : bool; Fsid : Z }.

Section volume.
Context {D : Type} `{DiskOps D} (W : Z).

Abbreviation dw := (wrap W).

Definition dstatus : ff D Z := λ s,
  '(r, d) ← disk_status (pdrv s.1) s.2; Ok (r, (s.1, d)).
Definition dinitialize : ff D Z := λ s,
  '(r, d) ← disk_initialize (pdrv s.1) s.2; Ok (r, (s.1, d)).

Definition set_volume (ty drv : Z) (fs : FATFS) : FATFS :=
  mk_fatfs ty drv (n_fats fs) (wflag fs) (fsi_flag fs) (fs_id fs) (n_rootdir fs) (csize fs)
    (last_clst fs) (free_clst fs) (n_fatent fs) (fsize fs) (volbase fs) (fatbase fs) (dirbase fs)
    (database fs) (winsect fs) (win fs).
Definition set_mount (ty id : Z) (fs : FATFS) : FATFS :=
  mk_fatfs ty (pdrv fs) (n_fats fs) (wflag fs) (fsi_flag fs) id (n_rootdir fs) (csize fs)
    (last_clst fs) (free_clst fs) (n_fatent fs) (fsize fs) (volbase fs) (fatbase fs) (dirbase fs)
    (database fs) (winsect fs) (win fs).
Definition set_fats (sz nf : Z) (fs : FATFS) : FATFS :=
  mk_fatfs (fs_type fs) (pdrv fs) nf (wflag fs) (fsi_flag fs) (fs_id fs) (n_rootdir fs) (csize fs)
    (last_clst fs) (free_clst fs) (n_fatent fs) sz (volbase fs) (fatbase fs) (dirbase fs)
    (database fs) (winsect fs) (win fs).
Definition set_csize (cs : Z) (fs : FATFS) : FATFS :=
  mk_fatfs (fs_type fs) (pdrv fs) (n_fats fs) (wflag fs) (fsi_flag fs) (fs_id fs) (n_rootdir fs) cs
    (last_clst fs) (free_clst fs) (n_fatent fs) (fsize fs) (volbase fs) (fatbase fs) (dirbase fs)
    (database fs) (winsect fs) (win fs).
Definition set_n_rootdir (nr : Z) (fs : FATFS) : FATFS :=
  mk_fatfs (fs_type fs) (pdrv fs) (n_fats fs) (wflag fs) (fsi_flag fs) (fs_id fs) nr (csize fs)
    (last_clst fs) (free_clst fs) (n_fatent fs) (fsize fs) (volbase fs) (fatbase fs) (dirbase fs)
    (database fs) (winsect fs) (win fs).
Definition set_areas (ents vol fat data : Z) (fs : FATFS) : FATFS :=
  mk_fatfs (fs_type fs) (pdrv fs) (n_fats fs) (wflag fs) (fsi_flag fs) (fs_id fs) (n_rootdir fs) (csize fs)
    (last_clst fs) (free_clst fs) ents (fsize fs) vol fat (dirbase fs)
    data (winsect fs) (win fs).
Definition set_dirbase (v : Z) (fs : FATFS) : FATFS :=
  mk_fatfs (fs_type fs) (pdrv fs) (n_fats fs) (wflag fs) (fsi_flag fs) (fs_id fs) (n_rootdir fs) (csize fs)
    (last_clst fs) (free_clst fs) (n_fatent fs) (fsize fs) (volbase fs) (fatbase fs) v
    (database fs) (winsect fs) (win fs).

(** 0: FAT, 2: a boot sector without FAT, 3: no boot sector, 4: a disk error. *)
Definition check_fs (sect : Z) : ff D Z :=
  modify (set_wflag 0);;
  modify (set_winsect FFFFFFFF);;
  r ← move_window W sect;
  if decide (r ≠ FR_OK) then mret 4 else
  fs ← the_fs;
  sig ← lift (ld_word (win fs) BS_55AA);
  if negb (sig =? 43605) then mret 3 else
  j0 ← get_win BS_JmpBoot;
  j2 ← get_win (BS_JmpBoot + 2);
  if (j0 =? 233) || ((j0 =? 235) && (j2 =? 144)) then
    k ← lift (mem_cmp 3 (win fs) BS_FilSysType (str "FAT") 0);
    if k =? 0 then mret 0 else
    k ← lift (mem_cmp 5 (win fs) BS_FilSysType32 (str "FAT32") 0);
    if k =? 0 then mret 0 else mret 2
  else mret 2.

(** The partition table: [br]. *)
Definition partition (w : list Z) (i : Z) : res Z :=
  sys ← get w (MBR_Table + i * SZ_PTE + PTE_System);
  if truth sys then ld_dword W w (MBR_Table + i * SZ_PTE + PTE_StLba) else Ok 0.

(** The first partition with a FAT: its code and sector. *)
Fixpoint try_partitions (br : list Z) : ff D (Z * Z) :=
  match br with
  | [] => mret (3, 0)
  | bsect :: br =>
      fmt ← (if truth bsect then check_fs bsect else mret 3);
      if (2 <=? fmt) && negb (Nat.eqb (length br) 0) then try_partitions br else mret (fmt, bsect)
  end.

(** The format and the first sector of the volume. *)
Definition locate : ff D (Z * Z) :=
  fmt ← check_fs 0;
  if fmt =? 2 then
    fs ← the_fs;
    b0 ← lift (partition (win fs) 0);
    b1 ← lift (partition (win fs) 1);
    b2 ← lift (partition (win fs) 2);
    b3 ← lift (partition (win fs) 3);
    try_partitions [b0; b1; b2; b3]
  else mret (fmt, 0).

(** The parameters of the boot sector [w] at sector [bsect]: the type of the
    volume, or [None] when they are refused, and the object as far as it was
    filled. *)
Definition read_areas (w : list Z) (bsect nrsv fasize sysect nclst : Z) (fs : FATFS) : res (option Z * FATFS) :=
  let fmt := if nclst <=? MAX_FAT12 then FS_FAT12 else if nclst <=? MAX_FAT16 then FS_FAT16
             else if nclst <=? MAX_FAT32 then FS_FAT32 else 0 in
  if fmt =? 0 then Ok (None, fs) else
  let fs := set_areas (dw (nclst + 2)) bsect (dw (bsect + nrsv)) (dw (bsect + sysect)) fs in
  '(szbfat, fs) ←
    (if fmt =? FS_FAT32 then
       ver ← ld_word w BPB_FSVer32;
       if truth ver then Ok (None, fs) else
       if truth (n_rootdir fs) then Ok (None, fs) else
       root ← ld_dword W w BPB_RootClus32;
       Ok (Some (dw (n_fatent fs * 4)), set_dirbase root fs)
     else
       if n_rootdir fs =? 0 then Ok (None, fs) else
       Ok (Some (if fmt =? FS_FAT16 then dw (n_fatent fs * 2)
                 else dw (dw (n_fatent fs * 3) / 2 + Z.land (n_fatent fs) 1)),
           set_dirbase (dw (fatbase fs + fasize)) fs));
  match szbfat with
  | None => Ok (None, fs)
  | Some szbfat =>
      if fsize fs <? dw (szbfat + (SS - 1)) / SS then Ok (None, fs)
      else Ok (Some fmt, set_alloc 128 FFFFFFFF FFFFFFFF fs)
  end.

Definition read_bpb (w : list Z) (bsect : Z) (fs : FATFS) : res (option Z * FATFS) :=
  bps ← ld_word w BPB_BytsPerSec;
  if negb (bps =? SS) then Ok (None, fs) else
  f16 ← ld_word w BPB_FATSz16;
  fasize ← (if f16 =? 0 then ld_dword W w BPB_FATSz32 else Ok f16);
  nf ← get w BPB_NumFATs;
  let fs := set_fats fasize nf fs in
  if negb (nf =? 1) && negb (nf =? 2) then Ok (None, fs) else
  let fasize := dw (fasize * nf) in
  cs ← get w BPB_SecPerClus;
  let fs := set_csize cs fs in
  if (cs =? 0) || truth (Z.land cs (cs - 1)) then Ok (None, fs) else
  nr ← ld_word w BPB_RootEntCnt;
  let fs := set_n_rootdir nr fs in
  if truth (nr `mod` (SS / SZDIRE)) then Ok (None, fs) else
  t16 ← ld_word w BPB_TotSec16;
  tsect ← (if t16 =? 0 then ld_dword W w BPB_TotSec32 else Ok t16);
  nrsv ← ld_word w BPB_RsvdSecCnt;
  if nrsv =? 0 then Ok (None, fs) else
  let sysect := dw (dw (nrsv + fasize) + nr / (SS / SZDIRE)) in
  if tsect <? sysect then Ok (None, fs) else
  let nclst := (tsect - sysect) / cs in
  if nclst =? 0 then Ok (None, fs) else
  read_areas w bsect nrsv fasize sysect nclst fs.

(** The FSInfo sector, on FAT32. *)
Definition read_fsinfo (fmt bsect : Z) : ff D () :=
  fs ← the_fs;
  if fmt =? FS_FAT32 then
    one ← lift (ld_word (win fs) BPB_FSInfo32);
    if one =? 1 then
      r ← move_window W (dw (bsect + 1));
      if decide (r = FR_OK) then
        fs ← the_fs;
        modify (set_alloc 0 (last_clst fs) (free_clst fs));;
        sig ← lift (ld_word (win fs) BS_55AA);
        lead ← lift (ld_dword W (win fs) FSI_LeadSig);
        struc ← lift (ld_dword W (win fs) FSI_StrucSig);
        if (sig =? 43605) && (lead =? 1096897106) && (struc =? 1631679090) then
          free ← lift (ld_dword W (win fs) FSI_Free_Count);
          last ← lift (ld_dword W (win fs) FSI_Nxt_Free);
          modify (set_alloc 0 last free)
        else mret ()
      else mret ()
    else mret ()
  else mret ().

(** The volume is mounted: the rest of [find_volume]. *)
Definition mount_volume (v : ffvars) (mode : Z) : ff D (FRESULT * ffvars) :=
  modify (set_volume 0 0);;
  stat ← dinitialize;
  if truth (Z.land stat STA_NOINIT) then mret (FR_NOT_READY, v) else
  if truth mode && truth (Z.land stat STA_PROTECT) then mret (FR_WRITE_PROTECTED, v) else
  '(fmt, bsect) ← locate;
  if fmt =? 4 then mret (FR_DISK_ERR, v) else
  if 2 <=? fmt then mret (FR_NO_FILESYSTEM, v) else
  fs ← the_fs;
  '(fmt, fs) ← lift (read_bpb (win fs) bsect fs);
  modify (λ _, fs);;
  match fmt with
  | None => mret (FR_NO_FILESYSTEM, v)
  | Some fmt =>
      read_fsinfo fmt bsect;;
      let id := u16 (Fsid v + 1) in
      modify (set_mount fmt id);;
      mret (FR_OK, mk_vars (registered v) id)
  end.

(** The result, the path after the drive, the variables. *)
Definition find_volume (v : ffvars) (path : option (list Z)) (mode : Z)
    : ff D (FRESULT * option (list Z) * ffvars) :=
  let '(vol, path) := get_ldnumber path in
  if vol <? 0 then mret (FR_INVALID_DRIVE, path, v) else
  if negb (registered v) then mret (FR_NOT_ENABLED, path, v) else
  let mode := Z.land mode (u8 (Z.lnot FA_READ)) in
  let mount := '(r, v) ← mount_volume v mode; mret (r, path, v) in
  fs ← the_fs;
  if truth (fs_type fs) then
    stat ← dstatus;
    if negb (truth (Z.land stat STA_NOINIT)) then
      mret (if truth mode && truth (Z.land stat STA_PROTECT) then FR_WRITE_PROTECTED else FR_OK, path, v)
    else mount
  else mount.

Definition validate (obj : FFOBJID) : ff D FRESULT :=
  fs ← the_fs;
  if obj_fs obj && truth (fs_type fs) && (obj_id obj =? fs_id fs) then
    stat ← dstatus;
    mret (if truth (Z.land stat STA_NOINIT) then FR_INVALID_OBJECT else FR_OK)
  else mret FR_INVALID_OBJECT.

(** [fs]: whether an object is given; there is one. *)
Definition f_mount (v : ffvars) (fs : bool) (path : option (list Z)) (opt : Z) : ff D (FRESULT * ffvars) :=
  let '(vol, _) := get_ldnumber path in
  if vol <? 0 then mret (FR_INVALID_DRIVE, v) else
  (if registered v || fs then fs ← the_fs; modify (set_volume 0 (pdrv fs)) else mret ());;
  let v := mk_vars fs (Fsid v) in
  if opt =? 0 then mret (FR_OK, v) else
  '(r, _, v) ← find_volume v path 0; mret (r, v).
End volume.
