(* ===== verification/FfFile.v ===== *)
(** * FatFs: files

    src/fatfs/ff.c, the functions on open files.  A FIL object is passed and
    returned; [dir_ptr], a pointer into the window, is an offset.  A buffer of
    the caller is a list and the offset reached in it. *)

From S2P Require Import Prelude Bytes Cstdio Ff FfDir FfMount.

(** ** Constants *)

Definition FA_WRITE : Z := 2.
Definition FA_CREATE_NEW : Z := 4.
Definition FA_CREATE_ALWAYS : Z := 8.
Definition FA_OPEN_ALWAYS : Z := 16.
Definition FA_OPEN_APPEND : Z := 48.
Definition FA_SEEKEND : Z := 32.
Definition FA_MODIFIED : Z := 64.
Definition FA_DIRTY : Z := 128.

(** [FF_NORTC_YEAR], [FF_NORTC_MON] and [FF_NORTC_MDAY] as a time stamp. *)
Definition GET_FATTIME : Z := Z.lor (Z.lor (Z.shiftl 37 25) (Z.shiftl 5 21)) (Z.shiftl 1 16).

(** ** Objects *)

Record FIL := mk_fil {
  f_obj : FFOBJID;
  f_flag : Z;
  f_err : FRESULT;
  f_fptr : Z;
  f_clust : Z;
  f_sect : Z;
  f_dir_sect : Z;
  f_dir_ptr : Z;
  f_buf : list Z;
}.

Definition set_f_obj (v : FFOBJID) (fp : FIL) : FIL :=
  mk_fil v (f_flag fp) (f_err fp) (f_fptr fp) (f_clust fp) (f_sect fp) (f_dir_sect fp) (f_dir_ptr fp) (f_buf fp).
Definition set_f_flag (v : Z) (fp : FIL) : FIL :=
  mk_fil (f_obj fp) v (f_err fp) (f_fptr fp) (f_clust fp) (f_sect fp) (f_dir_sect fp) (f_dir_ptr fp) (f_buf fp).
Definition set_f_err (v : FRESULT) (fp : FIL) : FIL :=
  mk_fil (f_obj fp) (f_flag fp) v (f_fptr fp) (f_clust fp) (f_sect fp) (f_dir_sect fp) (f_dir_ptr fp) (f_buf fp).
Definition set_f_fptr (v : Z) (fp : FIL) : FIL :=
  mk_fil (f_obj fp) (f_flag fp) (f_err fp) v (f_clust fp) (f_sect fp) (f_dir_sect fp) (f_dir_ptr fp) (f_buf fp).
Definition set_f_clust (v : Z) (fp : FIL) : FIL :=
  mk_fil (f_obj fp) (f_flag fp) (f_err fp) (f_fptr fp) v (f_sect fp) (f_dir_sect fp) (f_dir_ptr fp) (f_buf fp).
Definition set_f_sect (v : Z) (fp : FIL) : FIL :=
  mk_fil (f_obj fp) (f_flag fp) (f_err fp) (f_fptr fp) (f_clust fp) v (f_dir_sect fp) (f_dir_ptr fp) (f_buf fp).
Definition set_f_entry (sect ptr : Z) (fp : FIL) : FIL :=
  mk_fil (f_obj fp) (f_flag fp) (f_err fp) (f_fptr fp) (f_clust fp) (f_sect fp) sect ptr (f_buf fp).
Definition set_f_buf (v : list Z) (fp : FIL) : FIL :=
  mk_fil (f_obj fp) (f_flag fp) (f_err fp) (f_fptr fp) (f_clust fp) (f_sect fp) (f_dir_sect fp) (f_dir_ptr fp) v.

(** [fp->flag |= v] and [fp->flag &= (BYTE)~v]. *)
Definition add_flag (v : Z) (fp : FIL) : FIL := set_f_flag (Z.lor (f_flag fp) v) fp.
Definition drop_flag (v : Z) (fp : FIL) : FIL := set_f_flag (Z.land (f_flag fp) (u8 (Z.lnot v))) fp.
Definition has_flag (v : Z) (fp : FIL) : bool := truth (Z.land (f_flag fp) v).

(** What a round of the loops of [f_read] and [f_write] ends with: so many
    bytes are done, the loop is left, [ABORT]. *)
Inductive round := Next (n : Z) | Break | Abort (r : FRESULT).

Section files.
Context {D : Type} `{DiskOps D} (W : Z).

Abbreviation dw := (wrap W).

(** Writing the sector in the buffer back, if it is dirty. *)
Definition write_back (fp : FIL) : ff D (bool * FIL) :=
  if has_flag FA_DIRTY fp then
    k ← dwrite (f_buf fp) (f_sect fp) 1;
    if negb (k =? RES_OK) then mret (false, fp) else mret (true, drop_flag FA_DIRTY fp)
  else mret (true, fp).

(** [disk_read(fs->pdrv, fp->buf, sect, 1)]. *)
Definition read_buf (sect : Z) (fp : FIL) : ff D (bool * FIL) :=
  '(k, b) ← dread (f_buf fp) sect 1; mret (k =? RES_OK, set_f_buf b fp).

(** The checks before reading, writing and truncating. *)
Definition may_access (mode : Z) (fp : FIL) : ff D FRESULT :=
  r ← validate (f_obj fp);
  if decide (r ≠ FR_OK) then mret r else
  if decide (f_err fp ≠ FR_OK) then mret (f_err fp) else
  mret (if has_flag mode fp then FR_OK else FR_DENIED).

(** ** Reading *)

(** The cluster at the file pointer, on a cluster boundary; another result
    than [FR_OK] is an [ABORT]. *)
Definition read_clust (fp : FIL) : ff D (FRESULT * FIL) :=
  clst ← (if f_fptr fp =? 0 then mret (sclust (f_obj fp)) else get_fat W (f_clust fp));
  if clst <? 2 then mret (FR_INT_ERR, fp) else
  if clst =? FFFFFFFF then mret (FR_DISK_ERR, fp) else
  mret (FR_OK, set_f_clust clst fp).

(** Whole sectors go to the caller's buffer. *)
Definition read_direct (fp : FIL) (buff : list Z) (off csect sect cc : Z) : ff D (round * FIL * list Z) :=
  fs ← the_fs;
  let cc := if csize fs <? u32 (csect + cc) then u32 (csize fs - csect) else cc in
  '(k, out) ← dread (drop (Z.to_nat off) buff) sect cc;
  let buff := take (Z.to_nat off) buff ++ out in
  if negb (k =? RES_OK) then mret (Abort FR_DISK_ERR, fp, buff) else
  buff ← (if has_flag FA_DIRTY fp && (dw (f_sect fp - sect) <? cc)
          then lift (copy (off + dw (dw (f_sect fp - sect) * SS)) (f_buf fp) 0 SS buff)
          else mret buff);
  mret (Next (u32 (SS * cc)), fp, buff).

(** The sector [sect] is brought into the buffer. *)
Definition read_cached (fp : FIL) (sect : Z) : ff D (FRESULT * FIL) :=
  if negb (f_sect fp =? sect) then
    '(ok, fp) ← write_back fp;
    if negb ok then mret (FR_DISK_ERR, fp) else
    '(ok, fp) ← read_buf sect fp;
    if negb ok then mret (FR_DISK_ERR, fp) else mret (FR_OK, set_f_sect sect fp)
  else mret (FR_OK, set_f_sect sect fp).

(** A part of the sector in the buffer. *)
Definition read_part (fp : FIL) (buff : list Z) (off btr : Z) : res (round * FIL * list Z) :=
  let rcnt := SS - u32 (f_fptr fp) `mod` SS in
  let rcnt := if btr <? rcnt then btr else rcnt in
  buff ← copy off (f_buf fp) (f_fptr fp `mod` SS) rcnt buff;
  Ok (Next rcnt, fp, buff).

Definition read_round (fp : FIL) (buff : list Z) (off btr : Z) : ff D (round * FIL * list Z) :=
  if f_fptr fp `mod` SS =? 0 then
    fs ← the_fs;
    let csect := u32 (Z.land (f_fptr fp / SS) (csize fs - 1)) in
    '(r, fp) ← (if csect =? 0 then read_clust fp else mret (FR_OK, fp));
    if decide (r ≠ FR_OK) then mret (Abort r, fp, buff) else
    fs ← the_fs;
    let sect := clst2sect W fs (f_clust fp) in
    if sect =? 0 then mret (Abort FR_INT_ERR, fp, buff) else
    let sect := dw (sect + csect) in
    let cc := btr / SS in
    if 0 <? cc then read_direct fp buff off csect sect cc else
    '(r, fp) ← read_cached fp sect;
    if decide (r ≠ FR_OK) then mret (Abort r, fp, buff) else
    lift (read_part fp buff off btr)
  else lift (read_part fp buff off btr).

(** [off] is the number of bytes read: [*br].  A round reads at least a byte,
    so that [btr] rounds are enough. *)
Fixpoint read_bytes (fuel : nat) (fp : FIL) (buff : list Z) (off btr : Z) : ff D (FRESULT * FIL * list Z * Z) :=
  if btr =? 0 then mret (FR_OK, fp, buff, off) else
  match fuel with
  | O => lift (Fault OutOfFuel)
  | S fuel =>
      '(r, fp, buff) ← read_round fp buff off btr;
      match r with
      | Next rcnt =>
          read_bytes fuel (set_f_fptr (dw (f_fptr fp + rcnt)) fp) buff (u32 (off + rcnt)) (u32 (btr - rcnt))
      | Break => mret (FR_OK, fp, buff, off)
      | Abort r => mret (r, set_f_err r fp, buff, off)
      end
  end.

Definition f_read (fp : FIL) (buff : list Z) (btr : Z) : ff D (FRESULT * FIL * list Z * Z) :=
  r ← may_access FA_READ fp;
  if decide (r ≠ FR_OK) then mret (r, fp, buff, 0) else
  let remain := dw (objsize (f_obj fp) - f_fptr fp) in
  let btr := if remain <? btr then u32 remain else btr in
  read_bytes (Z.to_nat btr) fp buff 0 btr.

(** ** Writing *)

(** The cluster at the file pointer, on a cluster boundary: the chain is
    followed or stretched. *)
Definition write_clust (fp : FIL) : ff D (round * FIL) :=
  clst ← (if f_fptr fp =? 0 then
            if sclust (f_obj fp) =? 0 then create_chain W 0 else mret (sclust (f_obj fp))
          else create_chain W (f_clust fp));
  if clst =? 0 then mret (Break, fp) else
  if clst =? 1 then mret (Abort FR_INT_ERR, fp) else
  if clst =? FFFFFFFF then mret (Abort FR_DISK_ERR, fp) else
  let fp := set_f_clust clst fp in
  mret (Next 0, if sclust (f_obj fp) =? 0 then set_f_obj (set_sclust clst (f_obj fp)) fp else fp).

(** Whole sectors come from the caller's buffer. *)
Definition write_direct (fp : FIL) (buff : list Z) (off csect sect cc : Z) : ff D (round * FIL) :=
  fs ← the_fs;
  let cc := if csize fs <? u32 (csect + cc) then u32 (csize fs - csect) else cc in
  k ← dwrite (drop (Z.to_nat off) buff) sect cc;
  if negb (k =? RES_OK) then mret (Abort FR_DISK_ERR, fp) else
  if dw (f_sect fp - sect) <? cc then
    b ← lift (copy 0 buff (off + dw (dw (f_sect fp - sect) * SS)) SS (f_buf fp));
    mret (Next (u32 (SS * cc)), drop_flag FA_DIRTY (set_f_buf b fp))
  else mret (Next (u32 (SS * cc)), fp).

(** A part of a sector goes to the buffer. *)
Definition write_part (fp : FIL) (buff : list Z) (off btw : Z) : res (round * FIL) :=
  let wcnt := SS - u32 (f_fptr fp) `mod` SS in
  let wcnt := if btw <? wcnt then btw else wcnt in
  b ← copy (f_fptr fp `mod` SS) buff off wcnt (f_buf fp);
  Ok (Next wcnt, add_flag FA_DIRTY (set_f_buf b fp)).

(** The sectors from [fp->clust] on, on a sector boundary. *)
Definition write_sectors (fp : FIL) (buff : list Z) (off btw csect : Z) : ff D (round * FIL) :=
  '(ok, fp) ← write_back fp;
  if negb ok then mret (Abort FR_DISK_ERR, fp) else
  fs ← the_fs;
  let sect := clst2sect W fs (f_clust fp) in
  if sect =? 0 then mret (Abort FR_INT_ERR, fp) else
  let sect := dw (sect + csect) in
  let cc := btw / SS in
  if 0 <? cc then write_direct fp buff off csect sect cc else
  '(ok, fp) ← (if negb (f_sect fp =? sect) && (f_fptr fp <? objsize (f_obj fp))
               then read_buf sect fp else mret (true, fp));
  if negb ok then mret (Abort FR_DISK_ERR, fp) else
  lift (write_part (set_f_sect sect fp) buff off btw).

Definition write_round (fp : FIL) (buff : list Z) (off btw : Z) : ff D (round * FIL) :=
  if f_fptr fp `mod` SS =? 0 then
    fs ← the_fs;
    let csect := Z.land (u32 (f_fptr fp / SS)) (csize fs - 1) in
    '(r, fp) ← (if csect =? 0 then write_clust fp else mret (Next 0, fp));
    match r with
    | Next _ => write_sectors fp buff off btw csect
    | r => mret (r, fp)
    end
  else lift (write_part fp buff off btw).

Fixpoint write_bytes (fuel : nat) (fp : FIL) (buff : list Z) (off btw : Z) : ff D (FRESULT * FIL * Z) :=
  let done fp := (FR_OK, add_flag FA_MODIFIED fp, off) in
  if btw =? 0 then mret (done fp) else
  match fuel with
  | O => lift (Fault OutOfFuel)
  | S fuel =>
      '(r, fp) ← write_round fp buff off btw;
      match r with
      | Next wcnt =>
          let fptr := dw (f_fptr fp + wcnt) in
          let size := if objsize (f_obj fp) <? fptr then fptr else objsize (f_obj fp) in
          write_bytes fuel (set_f_obj (set_objsize size (f_obj fp)) (set_f_fptr fptr fp)) buff
            (u32 (off + wcnt)) (u32 (btw - wcnt))
      | Break => mret (done fp)
      | Abort r => mret (r, set_f_err r fp, off)
      end
  end.

Definition f_write (fp : FIL) (buff : list Z) (btw : Z) : ff D (FRESULT * FIL * Z) :=
  r ← may_access FA_WRITE fp;
  if decide (r ≠ FR_OK) then mret (r, fp, 0) else
  let btw := if dw (f_fptr fp + btw) <? f_fptr fp then u32 (FFFFFFFF - f_fptr fp) else btw in
  write_bytes (Z.to_nat btw) fp buff 0 btw.

(** ** Synchronising, closing, truncating *)

Definition f_sync (fp : FIL) : ff D (FRESULT * FIL) :=
  r ← validate (f_obj fp);
  if decide (r ≠ FR_OK) then mret (r, fp) else
  if has_flag FA_MODIFIED fp then
    '(ok, fp) ← write_back fp;
    if negb ok then mret (FR_DISK_ERR, fp) else
    r ← move_window W (f_dir_sect fp);
    if decide (r = FR_OK) then
      let dir := f_dir_ptr fp in
      a ← get_win (dir + DIR_Attr);
      edit_win (put (dir + DIR_Attr) (Z.lor a AM_ARC));;
      fs ← the_fs;
      edit_win (st_clust fs dir (sclust (f_obj fp)));;
      edit_win (st_dword (dir + DIR_FileSize) (objsize (f_obj fp)));;
      edit_win (st_dword (dir + DIR_ModTime) GET_FATTIME);;
      edit_win (st_word (dir + DIR_LstAccDate) 0);;
      modify (set_wflag 1);;
      r ← sync_fs W;
      mret (r, drop_flag FA_MODIFIED fp)
    else mret (r, fp)
  else mret (r, fp).

Definition f_close (fp : FIL) : ff D (FRESULT * FIL) :=
  '(r, fp) ← f_sync fp;
  if decide (r = FR_OK) then
    r ← validate (f_obj fp);
    mret (r, if decide (r = FR_OK) then set_f_obj (set_obj_fs false (f_obj fp)) fp else fp)
  else mret (r, fp).

(** The chain after the file pointer is removed. *)
Definition cut_chain (fp : FIL) : ff D (FRESULT * FIL) :=
  if f_fptr fp =? 0 then
    r ← remove_chain W (sclust (f_obj fp)) 0;
    mret (r, set_f_obj (set_sclust 0 (f_obj fp)) fp)
  else
    ncl ← get_fat W (f_clust fp);
    if ncl =? FFFFFFFF then mret (FR_DISK_ERR, fp) else
    if ncl =? 1 then mret (FR_INT_ERR, fp) else
    fs ← the_fs;
    if ncl <? n_fatent fs then r ← remove_chain W ncl (f_clust fp); mret (r, fp) else mret (FR_OK, fp).

Definition f_truncate (fp : FIL) : ff D (FRESULT * FIL) :=
  r ← may_access FA_WRITE fp;
  if decide (r ≠ FR_OK) then mret (r, fp) else
  if f_fptr fp <? objsize (f_obj fp) then
    '(r, fp) ← cut_chain fp;
    let fp := add_flag FA_MODIFIED (set_f_obj (set_objsize (f_fptr fp) (f_obj fp)) fp) in
    '(r, fp) ← (if decide (r = FR_OK) then
                  '(ok, fp) ← write_back fp; mret (if (ok : bool) then FR_OK else FR_DISK_ERR, fp)
                else mret (r, fp));
    mret (r, if decide (r ≠ FR_OK) then set_f_err r fp else fp)
  else mret (r, fp).

(** ** Moving the file pointer *)

(** The cluster to start from and the offset from there; another result than
    [FR_OK] is an [ABORT]. *)
Definition seek_start (fp : FIL) (ofs ifptr bcs : Z) : ff D (FRESULT * FIL * Z * Z) :=
  if (0 <? ifptr) && ((ifptr - 1) / bcs <=? (ofs - 1) / bcs) then
    let fp := set_f_fptr (Z.land (ifptr - 1) (Z.lnot (bcs - 1))) fp in
    mret (FR_OK, fp, f_clust fp, dw (ofs - f_fptr fp))
  else
    let clst := sclust (f_obj fp) in
    if clst =? 0 then
      clst ← create_chain W 0;
      if clst =? 1 then mret (FR_INT_ERR, fp, clst, ofs) else
      if clst =? FFFFFFFF then mret (FR_DISK_ERR, fp, clst, ofs) else
      mret (FR_OK, set_f_clust clst (set_f_obj (set_sclust clst (f_obj fp)) fp), clst, ofs)
    else mret (FR_OK, set_f_clust clst fp, clst, ofs).

(** [while (ofs > bcs)]. *)
Fixpoint seek_loop (fuel : nat) (fp : FIL) (clst ofs bcs : Z) : ff D (FRESULT * FIL * Z * Z) :=
  if bcs <? ofs then
    match fuel with
    | O => lift (Fault OutOfFuel)
    | S fuel =>
        let ofs := dw (ofs - bcs) in
        let fp := set_f_fptr (dw (f_fptr fp + bcs)) fp in
        let writing := has_flag FA_WRITE fp in
        clst ← (if writing then create_chain W clst else get_fat W clst);
        if writing && (clst =? 0) then mret (FR_OK, fp, clst, 0) else
        fs ← the_fs;
        if clst =? FFFFFFFF then mret (FR_DISK_ERR, fp, clst, ofs) else
        if (clst <=? 1) || (n_fatent fs <=? clst) then mret (FR_INT_ERR, fp, clst, ofs) else
        seek_loop fuel (set_f_clust clst fp) clst ofs bcs
    end
  else mret (FR_OK, fp, clst, ofs).

(** The file pointer is set, and the sector it is in, or 0. *)
Definition seek_to (fp : FIL) (ofs : Z) : ff D (FRESULT * FIL * Z) :=
  let ifptr := f_fptr fp in
  let fp := set_f_fptr 0 fp in
  if 0 <? ofs then
    fs ← the_fs;
    let bcs := dw (csize fs * SS) in
    '(r, fp, clst, ofs) ← seek_start fp ofs ifptr bcs;
    if decide (r ≠ FR_OK) then mret (r, fp, 0) else
    if clst =? 0 then mret (FR_OK, fp, 0) else
    '(r, fp, clst, ofs) ← seek_loop (Z.to_nat (ofs / SS)) fp clst ofs bcs;
    if decide (r ≠ FR_OK) then mret (r, fp, 0) else
    let fp := set_f_fptr (dw (f_fptr fp + ofs)) fp in
    if truth (ofs `mod` SS) then
      fs ← the_fs;
      let nsect := clst2sect W fs clst in
      if nsect =? 0 then mret (FR_INT_ERR, fp, 0) else mret (FR_OK, fp, dw (nsect + ofs / SS))
    else mret (FR_OK, fp, 0)
  else mret (FR_OK, fp, 0).

Definition f_lseek (fp : FIL) (ofs : Z) : ff D (FRESULT * FIL) :=
  r ← validate (f_obj fp);
  let r := if decide (r = FR_OK) then f_err fp else r in
  if decide (r ≠ FR_OK) then mret (r, fp) else
  let ofs := if (objsize (f_obj fp) <? ofs) && negb (has_flag FA_WRITE fp) then objsize (f_obj fp) else ofs in
  '(r, fp, nsect) ← seek_to fp ofs;
  if decide (r ≠ FR_OK) then mret (r, set_f_err r fp) else
  let fp := if objsize (f_obj fp) <? f_fptr fp
            then add_flag FA_MODIFIED (set_f_obj (set_objsize (f_fptr fp) (f_obj fp)) fp) else fp in
  if truth (f_fptr fp `mod` SS) && negb (nsect =? f_sect fp) then
    '(ok, fp) ← write_back fp;
    if negb ok then mret (FR_DISK_ERR, set_f_err FR_DISK_ERR fp) else
    '(ok, fp) ← read_buf nsect fp;
    if negb ok then mret (FR_DISK_ERR, set_f_err FR_DISK_ERR fp) else
    mret (FR_OK, set_f_sect nsect fp)
  else mret (FR_OK, fp).

(** ** Opening *)

(** The file of the entry is emptied. *)
Definition open_truncate (dj : DIR) : ff D FRESULT :=
  fs ← the_fs;
  cl ← lift (ld_clust W fs (d_dir dj));
  edit_win (st_dword (d_dir dj + DIR_CrtTime) GET_FATTIME);;
  edit_win (put (d_dir dj + DIR_Attr) AM_ARC);;
  edit_win (st_clust fs (d_dir dj) 0);;
  edit_win (st_dword (d_dir dj + DIR_FileSize) 0);;
  modify (set_wflag 1);;
  if negb (cl =? 0) then
    fs ← the_fs;
    let dw0 := winsect fs in
    r ← remove_chain W cl 0;
    if decide (r = FR_OK) then
      r ← move_window W dw0;
      fs ← the_fs;
      modify (set_alloc (fsi_flag fs) (dw (cl - 1)) (free_clst fs));;
      mret r
    else mret r
  else mret FR_OK.

(** [r]: what the search for the path gave.  The result, the directory object
    and the mode. *)
Definition open_entry (r : FRESULT) (dj : DIR) (mode : Z) : ff D (FRESULT * DIR * Z) :=
  if truth (Z.land mode (Z.lor (Z.lor FA_CREATE_ALWAYS FA_OPEN_ALWAYS) FA_CREATE_NEW)) then
    '(r, dj, mode) ←
      (if decide (r ≠ FR_OK) then
         '(r, dj) ← (if decide (r = FR_NO_FILE) then dir_register W dj else mret (r, dj));
         mret (r, dj, Z.lor mode FA_CREATE_ALWAYS)
       else if truth (Z.land (attr (d_obj dj)) (Z.lor AM_RDO AM_DIR)) then mret (FR_DENIED, dj, mode)
       else mret (if truth (Z.land mode FA_CREATE_NEW) then FR_EXIST else r, dj, mode));
    if bool_decide (r = FR_OK) && truth (Z.land mode FA_CREATE_ALWAYS) then
      r ← open_truncate dj; mret (r, dj, mode)
    else mret (r, dj, mode)
  else
    mret (if decide (r = FR_OK) then
            if truth (Z.land (attr (d_obj dj)) AM_DIR) then FR_NO_FILE
            else if truth (Z.land mode FA_WRITE) && truth (Z.land (attr (d_obj dj)) AM_RDO) then FR_DENIED else r
          else r, dj, mode).

(** The last cluster of a file that is appended to. *)
Fixpoint append_loop (fuel : nat) (clst ofs bcs : Z) : ff D (FRESULT * Z * Z) :=
  if bcs <? ofs then
    match fuel with
    | O => lift (Fault OutOfFuel)
    | S fuel =>
        clst ← get_fat W clst;
        let ofs := dw (ofs - bcs) in
        if clst =? FFFFFFFF then mret (FR_DISK_ERR, clst, ofs) else
        if clst <=? 1 then mret (FR_INT_ERR, clst, ofs) else
        append_loop fuel clst ofs bcs
    end
  else mret (FR_OK, clst, ofs).

Definition open_append (fp : FIL) : ff D (FRESULT * FIL) :=
  let size := objsize (f_obj fp) in
  let fp := set_f_fptr size fp in
  fs ← the_fs;
  '(r, clst, ofs) ← append_loop (Z.to_nat (size / SS)) (sclust (f_obj fp)) size (dw (csize fs * SS));
  let fp := set_f_clust clst fp in
  if bool_decide (r = FR_OK) && truth (ofs `mod` SS) then
    fs ← the_fs;
    let sc := clst2sect W fs clst in
    if sc =? 0 then mret (FR_INT_ERR, fp) else
    let fp := set_f_sect (dw (sc + ofs / SS)) fp in
    '(ok, fp) ← read_buf (f_sect fp) fp;
    mret (if (ok : bool) then FR_OK else FR_DISK_ERR, fp)
  else mret (r, fp).

(** The file object of the entry. *)
Definition open_file (fp : FIL) (dj : DIR) (mode : Z) : ff D (FRESULT * FIL) :=
  fs ← the_fs;
  cl ← lift (ld_clust W fs (d_dir dj));
  size ← lift (ld_dword W (win fs) (d_dir dj + DIR_FileSize));
  b ← lift (mem_set 0 0 SS (f_buf fp));
  let fp := mk_fil (mk_obj true (fs_id fs) (attr (f_obj fp)) cl size) mode FR_OK 0 (f_clust fp) 0
              (f_dir_sect fp) (f_dir_ptr fp) b in
  if truth (Z.land mode FA_SEEKEND) && (0 <? size) then open_append fp else mret (FR_OK, fp).

(** [dj]: what the directory object on the stack holds; [fp] is given. *)
Definition f_open (v : ffvars) (dj : DIR) (fp : FIL) (path : option (list Z)) (mode : Z)
    : ff D (FRESULT * FIL * ffvars) :=
  let mode := Z.land mode 63 in
  '(r, path, v) ← find_volume W v path mode;
  '(r, fp) ←
    (if decide (r = FR_OK) then
       let dj := set_obj (set_obj_fs true (d_obj dj)) dj in
       '(r, dj) ← follow_path W dj (default [] path);
       ns ← lift (get (fn dj) NSFLAG);
       let r := if bool_decide (r = FR_OK) && truth (Z.land ns NS_NONAME) then FR_INVALID_NAME else r in
       '(r, dj, mode) ← open_entry r dj mode;
       if decide (r = FR_OK) then
         let mode := if truth (Z.land mode FA_CREATE_ALWAYS) then Z.lor mode FA_MODIFIED else mode in
         fs ← the_fs;
         open_file (set_f_entry (winsect fs) (d_dir dj) fp) dj mode
       else mret (r, fp)
     else mret (r, fp));
  mret (r, if decide (r ≠ FR_OK) then set_f_obj (set_obj_fs false (f_obj fp)) fp else fp, v).
End files.
