(* ===== verification/FfData.v ===== *)
(** * FatFs: the data area

    The sectors of clusters, the contents of a chain, and reading and writing
    them past the window. *)

From S2P Require Import Prelude Bytes Ff FfWindow FfFat FfChain FfStay.

(** ** Sectors of clusters *)

Definition clust_sect (fs : FATFS) (c : Z) : Z := database fs + csize fs * (c - 2).

(** [s] is a sector of one of the clusters [l]. *)
Definition data_sect (fs : FATFS) (l : list Z) (s : Z) : Prop :=
  ∃ c, c ∈ l ∧ clust_sect fs c ≤ s < clust_sect fs c + csize fs.

(** The bytes of cluster [c], and of the clusters [l]. *)
Definition cluster (fs : FATFS) (img : list Z) (c : Z) : list Z :=
  bytes_at (Z.to_nat (clust_sect fs c * SS)) (Z.to_nat (csize fs * SS)) img.
Definition content (fs : FATFS) (img : list Z) (l : list Z) : list Z := concat (cluster fs img <$> l).

(** The size of a cluster. *)
Definition bcs (fs : FATFS) : Z := csize fs * SS.

(** The mount refuses cluster sizes that are not powers of two. *)
Definition pow2_csize (fs : FATFS) : Prop := ∃ k, 0 ≤ k ∧ csize fs = 2 ^ k.

(** The window shows no sector of [l]. *)
Definition apart (fs : FATFS) (l : list Z) : Prop := ¬ data_sect fs l (winsect fs).

Lemma clust_sect_range fs n c :
  geometry fs n → valid (n_fatent fs) c → 0 < database fs ∧ database fs ≤ clust_sect fs c ∧ clust_sect fs c + csize fs ≤ n.
Proof.
  intros [_ _ Hf Hb Hs Hd Hc _ Hr _ _ _] Hv. unfold valid, clust_sect in *.
  assert (0 ≤ csize fs * (c - 2)) by nia. assert (csize fs * (c - 2) + csize fs ≤ csize fs * (n_fatent fs - 2)) by nia.
  assert (fatbase fs ≤ database fs) by (destruct Hf as [E|E]; rewrite E in Hd; lia). lia.
Qed.

Lemma data_sect_range fs n l s :
  geometry fs n → Forall (valid (n_fatent fs)) l → data_sect fs l s → database fs ≤ s < n ∧ 0 < s.
Proof.
  intros G Hl (c & Hc & Hs). rewrite Forall_forall in Hl. pose proof (clust_sect_range fs n c G (Hl c Hc)). lia.
Qed.

Lemma not_in_fat fs n s : geometry fs n → database fs ≤ s → ¬ in_fat fs s ∧ ¬ in_fat2 fs s.
Proof.
  intros [_ _ Hf _ Hs Hd _ _ _ _ _ _] Hdb. unfold in_fat, in_fat2.
  destruct Hf as [E|E]; rewrite E in *; lia.
Qed.

Lemma same_volume_data fs fs' : same_volume fs fs' →
  (∀ c, clust_sect fs' c = clust_sect fs c) ∧ (∀ l s, data_sect fs' l s ↔ data_sect fs l s) ∧
  (∀ img l, content fs' img l = content fs img l) ∧ bcs fs' = bcs fs ∧ csize fs' = csize fs.
Proof.
  intros (_ & _ & _ & _ & _ & Ec & _ & _ & _ & _ & _ & Ed). unfold data_sect, content, cluster, clust_sect, bcs.
  by rewrite Ec, Ed.
Qed.

(** Different clusters have different sectors. *)
Lemma clust_sect_inj fs n c c' s :
  geometry fs n → clust_sect fs c ≤ s < clust_sect fs c + csize fs →
  clust_sect fs c' ≤ s < clust_sect fs c' + csize fs → c' = c.
Proof. intros [_ _ _ _ _ _ Hc _ _ _ _ _] H1 H2. unfold clust_sect in *. nia. Qed.

Section clst2sect.
Context (W : Z).
Hypothesis HW : 32 ≤ W.

Lemma clst2sect_ok fs n c :
  geometry fs n → n < FFFFFFFF → valid (n_fatent fs) c → clst2sect W fs c = clust_sect fs c ∧ clust_sect fs c ≠ 0.
Proof using HW.
  intros G Hn Hc. pose proof (clust_sect_range fs n c G Hc) as (Hd & Hlo & Hhi). pose proof (geo_ents _ _ G).
  pose proof (geo_csize _ _ G). unfold valid, FFFFFFFF in *. unfold clst2sect.
  rewrite !(dw_small W HW) by lia. rewrite (proj2 (Z.leb_gt _ _)) by lia.
  rewrite (dw_small W HW) by (unfold clust_sect in *; lia). unfold clust_sect in *. lia.
Qed.
End clst2sect.

(** ** Bytes of sectors *)

Lemma lookup_sector (img : list Z) i :
  img !! i = sector (Z.of_nat i / SS) img !! Z.to_nat (Z.of_nat i `mod` SS).
Proof.
  unfold sector. pose proof (Z.div_mod (Z.of_nat i) SS ltac:(done)).
  pose proof (Z.mod_pos_bound (Z.of_nat i) SS ltac:(done)). pose proof (Z.div_pos (Z.of_nat i) SS ltac:(lia) ltac:(done)).
  rewrite lookup_bytes_at, decide_True by lia. f_equal. unfold SS in *. lia.
Qed.

(** Bytes inside sectors that are the same are the same. *)
Lemma bytes_at_sectors img img' s n :
  0 ≤ s → (∀ s', s ≤ s' < s + n → sector s' img' = sector s' img) →
  bytes_at (Z.to_nat (s * SS)) (Z.to_nat (n * SS)) img' = bytes_at (Z.to_nat (s * SS)) (Z.to_nat (n * SS)) img.
Proof.
  intros Hs E. apply list_eq. intros i. rewrite !lookup_bytes_at. case_decide as Hi; [|done].
  rewrite (lookup_sector img'), (lookup_sector img). rewrite E; [done|]. unfold SS in *.
  split; [apply Z.div_le_lower_bound; lia|apply Z.div_lt_upper_bound; lia].
Qed.

Lemma sector_bytes_at img s n k :
  0 ≤ s → 0 ≤ k < n →
  bytes_at (Z.to_nat (k * SS)) (Z.to_nat SS) (bytes_at (Z.to_nat (s * SS)) (Z.to_nat (n * SS)) img) = sector (s + k) img.
Proof.
  intros Hs Hk. unfold sector, SS in *. rewrite bytes_at_bytes_at by lia. f_equal. lia.
Qed.

Lemma content_ext fs n img img' l :
  geometry fs n → Forall (valid (n_fatent fs)) l →
  (∀ s, data_sect fs l s → sector s img' = sector s img) → content fs img' l = content fs img l.
Proof.
  intros G Hl E. unfold content. f_equal. apply list_fmap_ext. intros i c Hc.
  assert (c ∈ l) as Hin by by eapply list_elem_of_lookup_2. rewrite Forall_forall in Hl.
  pose proof (clust_sect_range fs n c G (Hl c Hin)). apply bytes_at_sectors; [lia|].
  intros s Hs. apply E. by exists c.
Qed.

(** A part of one of several blocks of the same length. *)
Lemma bytes_at_blocks (b : nat) (bl : list (list Z)) blk k o n :
  Forall (λ x, length x = b) bl → bl !! k = Some blk → (o + n ≤ b)%nat →
  bytes_at (k * b + o) n (concat bl) = bytes_at o n blk.
Proof.
  revert k. induction bl as [|x bl IH]; intros k Hb Hk Ho; [done|].
  apply Forall_cons in Hb as [Hx Hb]. destruct k as [|k]; simpl in *.
  - injection Hk as ->. apply list_eq. intros i. rewrite !lookup_bytes_at. case_decide; [|done].
    by rewrite lookup_app_l by lia.
  - rewrite <-(IH k Hb Hk Ho). unfold bytes_at. f_equal. rewrite drop_app_ge by lia. f_equal. lia.
Qed.

Lemma content_length fs n l img :
  geometry fs n → n ≤ n_sect img → Forall (valid (n_fatent fs)) l →
  Forall (λ x, length x = Z.to_nat (bcs fs)) (cluster fs img <$> l) ∧
  length (content fs img l) = (length l * Z.to_nat (bcs fs))%nat.
Proof.
  intros G Hn Hl.
  assert (Forall (λ x, length x = Z.to_nat (bcs fs)) (cluster fs img <$> l)) as Hb.
  { apply Forall_fmap, (Forall_impl _ _ _ Hl). intros c Hc. simpl. unfold cluster, bcs.
    pose proof (clust_sect_range fs n c G Hc). pose proof (geo_csize _ _ G).
    pose proof (n_sect_fits img (clust_sect fs c + csize fs - 1) ltac:(lia)). unfold SS in *.
    apply bytes_at_length. lia. }
  split; [done|]. unfold content. clear Hl. induction l as [|c l IH]; [done|].
  rewrite fmap_cons in *. apply Forall_cons in Hb as [Hc Hb].
  cbn [concat length]. rewrite length_app, IH, Hc by done. lia.
Qed.

(** Bytes of a file inside one of its clusters. *)
Lemma content_at fs n l img c p k :
  geometry fs n → n ≤ n_sect img → Forall (valid (n_fatent fs)) l →
  0 ≤ p → 0 ≤ k → l !! Z.to_nat (p / bcs fs) = Some c → p `mod` bcs fs + k ≤ bcs fs →
  bytes_at (Z.to_nat p) (Z.to_nat k) (content fs img l) =
    bytes_at (Z.to_nat (clust_sect fs c * SS + p `mod` bcs fs)) (Z.to_nat k) img.
Proof.
  intros G Hn Hl Hp Hk Hc Hfit. pose proof (geo_csize _ _ G) as Hcs. assert (0 < bcs fs) as Hb by (unfold bcs, SS; lia).
  destruct (content_length fs n l img G Hn Hl) as [Hbl _].
  pose proof (Z.div_mod p (bcs fs) ltac:(lia)). pose proof (Z.mod_pos_bound p (bcs fs) ltac:(lia)).
  pose proof (Z.div_pos p (bcs fs) ltac:(lia) Hb).
  assert (Z.to_nat p = (Z.to_nat (p / bcs fs) * Z.to_nat (bcs fs) + Z.to_nat (p `mod` bcs fs))%nat) as -> by nia.
  unfold content. rewrite (bytes_at_blocks _ _ (cluster fs img c) _ _ _ Hbl); [| |lia].
  2:{ rewrite list_lookup_fmap, Hc. done. }
  assert (valid (n_fatent fs) c) as Hv by (rewrite Forall_lookup in Hl; by eapply Hl).
  pose proof (clust_sect_range fs n c G Hv). unfold cluster. fold (bcs fs).
  rewrite bytes_at_bytes_at by lia. f_equal. unfold SS in *. lia.
Qed.

(** ** Reading and writing the data area *)

Section access.
Context {D : Type} `{Disk D} (W : Z).
Hypothesis HW : 32 ≤ W.

(** Changes of the disk that neither the FATs nor the window see. *)
Lemma rep_outside F fs (d d' : D) img img' :
  fat_rep F fs d img → dsk d' img' → n_sect img' = n_sect img →
  (∀ s, 0 ≤ s < n_sect img → s < database fs ∨ s = winsect fs → sector s img' = sector s img) → fat_rep F fs d' img'.
Proof.
  intros [Hw Hd Hv Hs] Hd' Hn E. pose proof (wo_geo _ _ Hw) as G. pose proof G as [_ _ Hf Hfb Hfs Hda Hcs Hen Hr _ _ _].
  assert (database fs ≤ n_sect img) as Hdb by nia.
  assert (∀ s, 0 ≤ s < database fs → sector s img' = sector s img) as Elo by (intros s Hs'; apply E; lia).
  split; [|done| |done].
  - destruct Hw as [_ ? ? Hc ? Hdi Hm]. split; try done; rewrite ?Hn; try done.
    + intros Hf0 H1 H2. rewrite E by lia. auto.
    + intros H2 s Hin Hcase. unfold in_fat in Hin. rewrite H2 in Hda. rewrite !Elo by lia. by apply Hm.
  - intros c Hc. rewrite <-Hv by done. unfold fat_val. apply fat_of_ext. intros b Hb.
    pose proof (entry_valid fs img Hw c Hc) as He. destruct (entry_bytes _ c) as [b0 k]. cbn [fst snd] in Hb.
    destruct (fat_sector fs img Hw b ltac:(lia)) as (Hin & Hran & _). unfold fat_byte, view.
    case_if; [done|]. unfold in_fat in Hin. rewrite Elo; [done|]. destruct Hf as [E1|E1]; rewrite E1 in Hda; lia.
Qed.

(** Sectors [s] to [s + n] are written. *)
Definition wr (s : Z) (bs img : list Z) : list Z := patch (Z.to_nat (s * SS)) bs img.

Lemma wr_n_sect s n bs img :
  0 ≤ s → 0 ≤ n → s + n ≤ n_sect img → length bs = Z.to_nat (n * SS) → n_sect (wr s bs img) = n_sect img.
Proof.
  intros Hs Hn Hle Hl. destruct (decide (n = 0)) as [->|].
  { simpl in Hl. destruct bs; [|done]. unfold wr, patch. simpl. by rewrite Nat.add_0_r, take_drop. }
  pose proof (n_sect_fits img (s + n - 1) ltac:(lia)). unfold n_sect, wr, SS in *. rewrite patch_length; [done|lia].
Qed.

Lemma wr_other s n bs img s' :
  0 ≤ s → 0 < n → s + n ≤ n_sect img → length bs = Z.to_nat (n * SS) → 0 ≤ s' → ¬ (s ≤ s' < s + n) →
  sector s' (wr s bs img) = sector s' img.
Proof.
  intros Hs Hn Hle Hl Hs' Hne. pose proof (n_sect_fits img (s + n - 1) ltac:(lia)).
  unfold sector, wr, SS in *. apply bytes_at_patch_ne; lia.
Qed.

Lemma data_write F fs (d : D) img buf s n :
  fat_rep F fs d img → database fs ≤ s → 0 < n → s + n ≤ n_sect img → ¬ (s ≤ winsect fs < s + n) →
  n * SS ≤ Z.of_nat (length buf) → Forall is_byte buf →
  ∃ d', dwrite buf s n (fs, d) = Ok (RES_OK, (fs, d')) ∧ fat_rep F fs d' (wr s (take (Z.to_nat (n * SS)) buf) img).
Proof.
  intros Hr Hs Hn Hle Hw Hl Hb. pose proof (fr_win _ _ _ _ Hr) as Hwin. pose proof (wo_geo _ _ Hwin) as G.
  pose proof G as [Hp _ Hf Hfb Hfs Hda _ _ _ _ _ _].
  assert (0 < database fs) by (destruct Hf as [E|E]; rewrite E in Hda; lia).
  destruct (dsk_write d img buf s n (fr_dsk _ _ _ _ Hr)) as (d' & Hdw & Hd'); [lia|lia|lia|done|done|].
  exists d'. unfold dwrite. cbn [fst snd]. rewrite Hp, Hdw, bind_Ok. split; [done|].
  assert (length (take (Z.to_nat (n * SS)) buf) = Z.to_nat (n * SS)) as Hlen by (rewrite length_take; lia).
  apply (rep_outside F fs d d' img); [done|done|apply (wr_n_sect s n); (done || lia)|].
  intros s' Hs' Hcase. apply (wr_other s n); (done || lia).
Qed.

Lemma data_read F fs (d : D) img buf s n :
  fat_rep F fs d img → 0 ≤ s → 0 < n → s + n ≤ n_sect img → n * SS ≤ Z.of_nat (length buf) →
  ∃ d', dread buf s n (fs, d) =
      Ok ((RES_OK, patch 0 (bytes_at (Z.to_nat (s * SS)) (Z.to_nat (n * SS)) img) buf), (fs, d')) ∧
    fat_rep F fs d' img.
Proof.
  intros Hr Hs Hn Hle Hl. destruct Hr as [Hw Hd Hv Hsa].
  destruct (dsk_read d img buf s n Hd) as (d' & Hdr & Hd'); [lia|lia|lia|done|].
  exists d'. unfold dread. cbn [fst snd]. rewrite (geo_pdrv _ _ (wo_geo _ _ Hw)), Hdr, bind_Ok. split; [done|]. by split.
Qed.

(** The FAT is used, and the data stay. *)
Lemma data_stays fs img fs' img' l :
  win_ok fs img → Forall (valid (n_fatent fs)) l → data_same fs img fs' img' → at_fat fs fs' → apart fs l →
  n_sect img < FFFFFFFF →
  apart fs' l ∧ ∀ s, data_sect fs l s → sector s img' = sector s img.
Proof.
  intros Hw Hl [V Hn Hv] [_ Hpos] Ha Hmax. pose proof (wo_geo _ _ Hw) as G.
  assert (apart fs' l) as Ha'.
  { unfold apart. rewrite (proj1 (proj2 (same_volume_data fs fs' V))). intros Hs.
    pose proof (data_sect_range fs _ l _ G Hl Hs) as [Hr _]. pose proof (not_in_fat fs _ _ G (proj1 Hr)) as [Hn1 _].
    destruct Hpos as [E|[?|?]]; [|done|lia]. rewrite E in Hs. done. }
  split; [done|]. intros s Hs. pose proof (data_sect_range fs _ l s G Hl Hs) as [Hr Hr0].
  pose proof (not_in_fat fs _ s G (proj1 Hr)) as [Hn1 Hn2]. pose proof (Hv s ltac:(lia) Hn1 Hn2) as E. unfold view in E.
  rewrite !(proj2 (Z.eqb_neq _ _)) in E; [done| |]; intros <-; [done|].
  apply Ha'. by rewrite (proj1 (proj2 (same_volume_data fs fs' V))).
Qed.
End access.
