(* ===== verification/FfPos.v ===== *)
(** * FatFs: open files

    What a file object stands for: the clusters of the file, the position in
    them, and the sector in its buffer. *)

From S2P Require Import Prelude Bytes Ff FfWindow FfFat FfChain FfStay FfDir FfMount FfFile FfData.

(** ** Positions *)

Section position.
Context (fs : FATFS) (n : Z).
Hypotheses (G : geometry fs n) (P2 : pow2_csize fs).

Lemma bcs_pos : SS ≤ bcs fs ∧ csize fs < 65536 ∧ 0 < csize fs.
Proof using G. destruct G as [_ _ _ _ _ _ Hc _ _ _ _ _]. unfold bcs, SS. lia. Qed.

(** The sector in the cluster. *)
Lemma csect_mod p : Z.land (p / SS) (csize fs - 1) = (p / SS) `mod` csize fs.
Proof using P2.
  destruct P2 as (k & Hk & E). rewrite E, <-Z.land_ones by lia. by rewrite Z.ones_equiv, Z.sub_1_r.
Qed.

Lemma pos_split p : 0 ≤ p → p `mod` bcs fs = (p / SS) `mod` csize fs * SS + p `mod` SS.
Proof using G.
  intros Hp. unfold bcs. pose proof bcs_pos. rewrite Z.mul_comm, Z.rem_mul_r by (unfold SS; lia). lia.
Qed.

Lemma pos_sect p : 0 ≤ p → p `mod` bcs fs / SS = (p / SS) `mod` csize fs.
Proof using G.
  intros Hp. rewrite pos_split, Z.div_add_l, (Z.div_small (p `mod` SS)) by (try apply Z.mod_pos_bound; done || lia). lia.
Qed.

(** The cluster of the byte before. *)
Lemma pos_before p : 0 < p → (p - 1) / bcs fs = if p `mod` bcs fs =? 0 then p / bcs fs - 1 else p / bcs fs.
Proof using G.
  intros Hp. pose proof bcs_pos. pose proof (Z.div_mod p (bcs fs) ltac:(unfold SS in *; lia)).
  pose proof (Z.mod_pos_bound p (bcs fs) ltac:(unfold SS in *; lia)). symmetry.
  destruct (Z.eqb_spec (p `mod` bcs fs) 0).
  - apply (Z.div_unique_pos _ _ _ (bcs fs - 1)); lia.
  - apply (Z.div_unique_pos _ _ _ (p `mod` bcs fs - 1)); lia.
Qed.

(** [k] bytes further in the same cluster. *)
Lemma pos_within p k :
  0 ≤ p → 0 < k → p `mod` bcs fs + k ≤ bcs fs → (p + k - 1) / bcs fs = p / bcs fs.
Proof using G.
  intros Hp Hk Hle. pose proof bcs_pos. pose proof (Z.div_mod p (bcs fs) ltac:(unfold SS in *; lia)).
  pose proof (Z.mod_pos_bound p (bcs fs) ltac:(unfold SS in *; lia)). symmetry.
  apply (Z.div_unique_pos _ _ _ (p `mod` bcs fs + k - 1)); lia.
Qed.

(** [k] bytes further in the same sector, and not at its end. *)
Lemma sect_within p k :
  0 ≤ p → 0 < k → p `mod` SS + k ≤ SS → (p + k) `mod` SS ≠ 0 → (p + k) `mod` bcs fs / SS = p `mod` bcs fs / SS.
Proof using G.
  intros Hp Hk Hle Hne. rewrite !pos_sect by lia. f_equal. pose proof (Z.div_mod p SS ltac:(done)).
  pose proof (Z.mod_pos_bound p SS ltac:(done)). assert (p `mod` SS + k ≠ SS) as Hne2.
  { intros E. apply Hne. replace (p + k) with ((p / SS + 1) * SS) by lia. by apply Z.mod_mul. }
  symmetry. apply (Z.div_unique_pos _ _ _ (p `mod` SS + k)); lia.
Qed.

Lemma mod_bcs_SS p : 0 ≤ p → (p `mod` bcs fs) `mod` SS = p `mod` SS.
Proof using G.
  intros Hp. rewrite pos_split by lia. rewrite Z.add_comm, Z_mod_plus_full. by apply Z.mod_mod.
Qed.
End position.

(** ** Chains *)

Lemma chain_head n F c l : chain n F c l → l !! 0%nat = Some c.
Proof. by destruct 1. Qed.

Lemma chain_lookup n F c l i x y :
  chain n F c l → l !! i = Some x → l !! S i = Some y → F x = y.
Proof.
  intros Hch. revert i. induction Hch as [c Hc Hl|c l Hc Hn Hch IH]; intros i Hx Hy.
  - destruct i; simpl in *; [done|]. by destruct i.
  - destruct i as [|i]; simpl in *; [|by apply (IH i)]. apply chain_head in Hch. congruence.
Qed.

(** ** File objects *)

(** The disk with the buffer of the file written back. *)
Definition shown (fp : FIL) (img : list Z) : list Z :=
  if has_flag FA_DIRTY fp then wr (f_sect fp) (f_buf fp) img else img.

(** The buffer is a sector of the file, and the disk has it unless it is
    dirty. *)
Record buf_ok (fs : FATFS) (img : list Z) (l : list Z) (fp : FIL) : Prop := {
  bo_len : length (f_buf fp) = 512%nat;
  bo_bytes : Forall is_byte (f_buf fp);
  bo_sect : f_sect fp ≠ 0 → data_sect fs l (f_sect fp);
  bo_clean : f_sect fp ≠ 0 → has_flag FA_DIRTY fp = false → f_buf fp = sector (f_sect fp) img;
  bo_dirty : has_flag FA_DIRTY fp = true → f_sect fp ≠ 0;
}.

(** The file at position [p], in cluster [c] if there is a byte before. *)
Record pos_ok (fs : FATFS) (l : list Z) (fp : FIL) : Prop := {
  po_range : 0 ≤ f_fptr fp ≤ objsize (f_obj fp);
  po_clust : 0 < f_fptr fp → l !! Z.to_nat ((f_fptr fp - 1) / bcs fs) = Some (f_clust fp);
  po_sect : f_fptr fp `mod` SS ≠ 0 → f_sect fp = clust_sect fs (f_clust fp) + f_fptr fp `mod` bcs fs / SS;
}.

(** A file object with the clusters [l] of the table [F]. *)
Record file_ok (F : Z → Z) (fs : FATFS) (img : list Z) (l : list Z) (fp : FIL) : Prop := {
  fo_chain : l = [] ∧ sclust (f_obj fp) = 0 ∨ chain (n_fatent fs) F (sclust (f_obj fp)) l;
  fo_size : 0 ≤ objsize (f_obj fp) ≤ Z.of_nat (length l) * bcs fs;
  fo_max : objsize (f_obj fp) < 2 ^ 32;
  fo_pow2 : pow2_csize fs;
  fo_apart : apart fs l;
  fo_buf : buf_ok fs img l fp;
  fo_pos : pos_ok fs l fp;
}.

Lemma fo_valid F fs img l fp : file_ok F fs img l fp → Forall (valid (n_fatent fs)) l.
Proof.
  intros Hf. destruct (fo_chain _ _ _ _ _ Hf) as [[-> _]|Hch]; [constructor|].
  eapply Forall_impl; [by eapply chain_used|]. naive_solver.
Qed.

(** The contents of the file. *)
Definition file_bytes (fs : FATFS) (img : list Z) (l : list Z) (fp : FIL) : list Z := content fs (shown fp img) l.

(** Only the sectors of the file may differ, outside the FATs. *)
Record frame (l : list Z) (fs : FATFS) (img : list Z) (fs' : FATFS) (img' : list Z) : Prop := {
  fm_volume : same_volume fs fs';
  fm_sects : n_sect img' = n_sect img;
  fm_view : ∀ s, 0 ≤ s < n_sect img → ¬ in_fat fs s → ¬ in_fat2 fs s → ¬ data_sect fs l s →
    view fs' img' s = view fs img s;
}.

Lemma frame_refl l fs img : frame l fs img fs img.
Proof. by split. Qed.

Lemma frame_trans l fs img fs1 img1 fs2 img2 :
  frame l fs img fs1 img1 → frame l fs1 img1 fs2 img2 → frame l fs img fs2 img2.
Proof.
  intros [V S Hv] [V' S' Hv']. split; [by etrans|congruence|]. intros s Hs H1 H2 H3.
  rewrite Hv'; [by apply Hv|by rewrite S| | |].
  - unfold in_fat in *. assert (fatbase fs1 = fatbase fs ∧ fsize fs1 = fsize fs) as [-> ->] by (split; apply V). done.
  - by rewrite (in_fat2_same fs fs1).
  - by rewrite (proj1 (proj2 (same_volume_data fs fs1 V))).
Qed.

Lemma frame_mono l l' fs img fs' img' : l `prefix_of` l' → frame l fs img fs' img' → frame l' fs img fs' img'.
Proof.
  intros [k ->] [V S Hv]. split; try done. intros s Hs H1 H2 H3. apply Hv; try done. intros (c & Hc & Hr). apply H3. exists c.
  split; [set_solver|done].
Qed.

Lemma data_frame l fs img fs' img' : data_same fs img fs' img' → frame l fs img fs' img'.
Proof. intros [V S Hv]. split; auto. Qed.

(** ** The buffer *)

Lemma flag_dropped fp : has_flag FA_DIRTY (drop_flag FA_DIRTY fp) = false.
Proof. unfold has_flag, drop_flag. cbn [f_flag set_f_flag]. by rewrite <-Z.land_assoc, Z.land_0_r. Qed.

Lemma flag_added fp : has_flag FA_DIRTY (add_flag FA_DIRTY fp) = true.
Proof.
  unfold has_flag, add_flag. cbn [f_flag set_f_flag]. rewrite Z.land_lor_distr_l. change (Z.land FA_DIRTY FA_DIRTY) with 128.
  unfold truth. apply negb_true_iff, Z.eqb_neq. intros E%Z.lor_eq_0_iff. lia.
Qed.

(** Other flags stay. *)
Lemma flag_kept_drop m fp : Z.land m FA_DIRTY = 0 → 0 ≤ m < 128 → has_flag m (drop_flag FA_DIRTY fp) = has_flag m fp.
Proof.
  intros Hm Hr. unfold has_flag, drop_flag. cbn [f_flag set_f_flag]. rewrite <-Z.land_assoc.
  change (u8 (Z.lnot FA_DIRTY)) with (Z.ones 7). rewrite (Z.land_comm (Z.ones 7)), Z.land_ones by lia.
  by rewrite Z.mod_small by lia.
Qed.

Section buffer.
Context {D : Type} `{Disk D} (W : Z).
Hypothesis HW : 32 ≤ W.

Implicit Types (fs : FATFS) (d : D) (img : list Z) (F : Z → Z) (fp : FIL).

Lemma shown_sects fs img l fp :
  geometry fs (n_sect img) → Forall (valid (n_fatent fs)) l → buf_ok fs img l fp →
  n_sect (shown fp img) = n_sect img ∧
  (∀ s, 0 ≤ s → sector s (shown fp img) =
     if has_flag FA_DIRTY fp && (s =? f_sect fp) then f_buf fp else sector s img) ∧
  (f_sect fp ≠ 0 → sector (f_sect fp) (shown fp img) = f_buf fp).
Proof.
  intros G Hl [Hlen Hb Hs Hc Hd]. unfold shown. destruct (has_flag FA_DIRTY fp) eqn:Hf; cbn [andb].
  2:{ split; [done|]. split; [done|]. intros Hne. symmetry. by apply Hc. }
  pose proof (data_sect_range fs _ l _ G Hl (Hs (Hd eq_refl))) as [Hr Hr0].
  assert (n_sect (wr (f_sect fp) (f_buf fp) img) = n_sect img ∧
    sector (f_sect fp) (wr (f_sect fp) (f_buf fp) img) = f_buf fp) as [E1 E2].
  { split; [apply (wr_n_sect _ 1); unfold SS; (done || lia)|]. apply sector_patch; [lia|done]. }
  split; [done|]. split; [|done]. intros s Hs0. destruct (Z.eqb_spec s (f_sect fp)) as [->|Hne]; [done|].
  apply (wr_other _ 1); unfold SS; (done || lia).
Qed.

(** The buffer without its mark. *)
Definition clean fp : FIL := if has_flag FA_DIRTY fp then drop_flag FA_DIRTY fp else fp.

Lemma clean_flag fp : has_flag FA_DIRTY (clean fp) = false.
Proof. unfold clean. destruct (has_flag FA_DIRTY fp) eqn:E; [apply flag_dropped|done]. Qed.

Lemma clean_same fp :
  f_obj (clean fp) = f_obj fp ∧ f_err (clean fp) = f_err fp ∧ f_fptr (clean fp) = f_fptr fp ∧
  f_clust (clean fp) = f_clust fp ∧ f_sect (clean fp) = f_sect fp ∧ f_buf (clean fp) = f_buf fp ∧
  f_dir_sect (clean fp) = f_dir_sect fp ∧ f_dir_ptr (clean fp) = f_dir_ptr fp.
Proof. unfold clean. by destruct (has_flag FA_DIRTY fp). Qed.

Lemma write_back_ok F fs d img l fp :
  fat_rep F fs d img → Forall (valid (n_fatent fs)) l → apart fs l → buf_ok fs img l fp →
  ∃ d', write_back fp (fs, d) = Ok ((true, clean fp), (fs, d')) ∧ fat_rep F fs d' (shown fp img) ∧
    buf_ok fs (shown fp img) l (clean fp) ∧ frame l fs img fs (shown fp img).
Proof.
  intros Hr Hl Ha Hb. pose proof Hb as [Hlen Hby Hs Hc Hd]. pose proof (fr_win _ _ _ _ Hr) as Hw.
  destruct (shown_sects fs img l fp (wo_geo _ _ Hw) Hl Hb) as (En & Es & Ef).
  assert (buf_ok fs (shown fp img) l (clean fp)) as Hb'.
  { destruct (clean_same fp) as (_ & _ & _ & _ & E1 & E2 & _). split; rewrite ?E1, ?E2; try done.
    - intros Hne _. symmetry. by apply Ef.
    - by rewrite clean_flag. }
  unfold write_back, clean in *. unfold shown in *. destruct (has_flag FA_DIRTY fp) eqn:Hf; [|by exists d].
  pose proof (data_sect_range fs _ l _ (wo_geo _ _ Hw) Hl (Hs (Hd eq_refl))) as [Hran Hr0].
  assert (f_sect fp ≠ winsect fs) as Hne by (intros E; apply Ha; rewrite <-E; auto).
  destruct (data_write F fs d img (f_buf fp) (f_sect fp) 1) as (d' & Hdw & Hr');
    [done|lia|lia|lia|lia|unfold SS; lia|done|].
  rewrite (run_bind _ _ _ _ _ Hdw). cbn [negb Z.eqb RES_OK]. rewrite take_ge in Hr' by (unfold SS; lia).
  exists d'. split; [done|]. split; [done|]. split; [done|]. split; [done|done|].
  intros s Hs' _ _ Hns. unfold view. case_if; [done|]. rewrite Es by lia. cbn [andb].
  destruct (Z.eqb_spec s (f_sect fp)) as [->|]; [|done]. destruct Hns. auto.
Qed.

(** A sector of the file is read into the buffer. *)
Lemma read_buf_ok F fs d img l fp s :
  fat_rep F fs d img → Forall (valid (n_fatent fs)) l → buf_ok fs img l fp → has_flag FA_DIRTY fp = false →
  data_sect fs l s →
  ∃ d', read_buf s fp (fs, d) = Ok ((true, set_f_buf (sector s img) fp), (fs, d')) ∧ fat_rep F fs d' img ∧
    buf_ok fs img l (set_f_sect s (set_f_buf (sector s img) fp)).
Proof.
  intros Hr Hl [Hlen Hb _ _ _] Hf Hs. pose proof (fr_win _ _ _ _ Hr) as Hw.
  pose proof (data_sect_range fs _ l _ (wo_geo _ _ Hw) Hl Hs) as [Hran Hr0].
  destruct (data_read F fs d img (f_buf fp) s 1) as (d' & Hdr & Hr'); [done|lia|lia|lia|unfold SS; lia|].
  exists d'. unfold read_buf. rewrite (run_bind _ _ _ _ _ Hdr). pose proof (sector_length s img ltac:(lia)) as Hsl.
  change (Z.to_nat (1 * SS)) with (Z.to_nat SS). fold (sector s img). unfold patch. rewrite take_0, drop_ge by lia.
  rewrite app_nil_r. split; [done|]. split; [done|]. split; cbn; try done.
  - apply sector_bytes. by destruct (dsk_bytes _ _ (fr_dsk _ _ _ _ Hr)).
  - unfold has_flag in *. cbn. congruence.
Qed.
End buffer.
