(* ===== verification/FfRead.v ===== *)
(** * FatFs: reading files

    [f_read] returns the bytes of the clusters of the file from the file
    pointer on, however they are spread over sectors and clusters, and with
    what waits in the buffer. *)

From S2P Require Import Prelude Bytes Ff FfWindow FfFat FfChain FfStay FfDir FfMount FfFile FfData FfPos.

(** Writing inside what was written. *)
Lemma patch_in off k bs1 bs2 l :
  (off + length bs1 ≤ length l)%nat → (k + length bs2 ≤ length bs1)%nat →
  patch (off + k) bs2 (patch off bs1 l) = patch off (patch k bs2 bs1) l.
Proof.
  intros Hl Hk. assert (length (patch k bs2 bs1) = length bs1) as Hp by by apply patch_length.
  apply list_eq. intros i. rewrite !lookup_patch by (rewrite ?patch_length, ?Hp; lia). rewrite Hp.
  repeat case_decide; try lia; try done.
  - f_equal. lia.
Qed.

(** Writing after what was written. *)
Lemma patch_after off bs1 bs2 l :
  (off + length bs1 + length bs2 ≤ length l)%nat →
  patch (off + length bs1) bs2 (patch off bs1 l) = patch off (bs1 ++ bs2) l.
Proof.
  intros Hl. apply list_eq. intros i. rewrite !lookup_patch by (rewrite ?patch_length, ?length_app; lia).
  rewrite length_app. repeat case_decide; try lia; try done.
  - rewrite lookup_app_r by lia. f_equal. lia.
  - rewrite lookup_app_l by lia. done.
Qed.

Lemma bytes_at_app off n k (l : list Z) :
  bytes_at off n l ++ bytes_at (off + n) k l = bytes_at off (n + k) l.
Proof. unfold bytes_at. rewrite <-drop_drop. by rewrite <-take_take_drop. Qed.

(** Writing nothing. *)
Lemma patch_nil off (l : list Z) : patch off [] l = l.
Proof. unfold patch. simpl. by rewrite Nat.add_0_r, take_drop. Qed.

(** Writing behind a prefix. *)
Lemma patch_drop off bs (l : list Z) : (off ≤ length l)%nat → take off l ++ patch 0 bs (drop off l) = patch off bs l.
Proof. intros Hl. unfold patch. rewrite take_0, drop_drop. done. Qed.

Section read.
Context {D : Type} `{Disk D} (W : Z).
Hypothesis HW : 32 ≤ W.

Implicit Types (fs : FATFS) (d : D) (img : list Z) (F : Z → Z) (fp : FIL).

(** The test whether the sector in the buffer is among the [k] from [s] on. *)
Lemma among_test a s k n :
  0 ≤ a < n → 0 ≤ s → 0 < k → s + k ≤ n → n < FFFFFFFF → (wrap W (a - s) <? k) = bool_decide (s ≤ a < s + k).
Proof using HW.
  intros Ha Hs Hk Hn Hmax. unfold FFFFFFFF in *. pose proof (pow_W W HW). apply eq_bool_prop_intro.
  rewrite bool_decide_spec, Is_true_true, Z.ltb_lt. destruct (decide (s ≤ a)).
  - rewrite wrap_small by lia. lia.
  - unfold wrap. rewrite <-(Z_mod_plus_full _ 1), Z.mod_small by lia. lia.
Qed.

(** The sector of position [p] in cluster [c]. *)
Definition sect_at fs (c p : Z) : Z := clust_sect fs c + p `mod` bcs fs / SS.

(** A position inside cluster [c] of the file. *)
Record in_cluster fs (l : list Z) (c p : Z) : Prop := {
  ic_pos : 0 ≤ p < 2 ^ 32;
  ic_clust : l !! Z.to_nat (p / bcs fs) = Some c;
}.

Lemma sect_at_data fs n l c p :
  geometry fs n → Forall (valid (n_fatent fs)) l → in_cluster fs l c p →
  data_sect fs l (sect_at fs c p) ∧ 0 ≤ p `mod` bcs fs / SS < csize fs.
Proof.
  intros G Hl [Hp Hc]. pose proof (bcs_pos fs n G). unfold sect_at, SS in *.
  pose proof (Z.mod_pos_bound p (bcs fs) ltac:(lia)) as Hm.
  assert (0 ≤ p `mod` bcs fs / 512 < csize fs) as Hr.
  { split; [apply Z.div_pos; lia|apply Z.div_lt_upper_bound; unfold bcs, SS in *; lia]. }
  split; [|done]. exists c. split; [by eapply list_elem_of_lookup_2|]. lia.
Qed.

(** The bytes of the sector of [p], from [p] on. *)
Lemma content_sector fs l img c p k :
  geometry fs (n_sect img) → Forall (valid (n_fatent fs)) l → in_cluster fs l c p → 0 ≤ k → p `mod` SS + k ≤ SS →
  bytes_at (Z.to_nat p) (Z.to_nat k) (content fs img l) =
    bytes_at (Z.to_nat (p `mod` SS)) (Z.to_nat k) (sector (sect_at fs c p) img).
Proof.
  intros G Hl Hc Hk Hfit. pose proof (bcs_pos fs _ G) as (Hb & _ & _). pose proof (ic_pos _ _ _ _ Hc) as Hp.
  destruct (sect_at_data fs _ l c p G Hl Hc) as [Hd Hcs].
  destruct (data_sect_range fs _ l _ G Hl Hd) as [Hr Hr0].
  pose proof (Z.mod_pos_bound p SS ltac:(done)) as Hm. pose proof (pos_split fs _ G p ltac:(lia)) as Hsp.
  pose proof (pos_sect fs _ G p ltac:(lia)) as Hse.
  assert (valid (n_fatent fs) c) as Hv by (rewrite Forall_lookup in Hl; eapply Hl, Hc).
  pose proof (clust_sect_range fs _ c G Hv) as (Hd0 & Hlo & _). pose proof Hcs as Hcs'. rewrite Hse in Hcs.
  rewrite (content_at fs (n_sect img) l img c) by (done || lia || apply Hc || (rewrite Hsp; unfold bcs, SS in *; lia)).
  unfold sector. rewrite bytes_at_bytes_at by (unfold SS in *; lia). f_equal. unfold sect_at. rewrite Hse, Hsp.
  unfold SS in *. lia.
Qed.

(** Part of the sector in the buffer. *)
Lemma read_part_ok fs img l fp c buff off btr :
  geometry fs (n_sect img) → Forall (valid (n_fatent fs)) l → buf_ok fs img l fp →
  in_cluster fs l c (f_fptr fp) → f_sect fp = sect_at fs c (f_fptr fp) →
  0 ≤ off → 0 < btr → off + btr ≤ Z.of_nat (length buff) →
  ∃ n, read_part fp buff off btr =
      Ok (Next n, fp, patch (Z.to_nat off) (bytes_at (Z.to_nat (f_fptr fp)) (Z.to_nat n) (file_bytes fs img l fp)) buff) ∧
    0 < n ≤ btr ∧ f_fptr fp `mod` SS + n ≤ SS.
Proof.
  intros G Hl Hb Hc Hs Ho Hbt Hlen. pose proof (ic_pos _ _ _ _ Hc) as Hp. pose proof (Z.mod_pos_bound (f_fptr fp) SS ltac:(done)) as Hm.
  unfold read_part. rewrite (wrap_small 32) by lia. set (m := f_fptr fp `mod` SS) in *.
  exists (if btr <? SS - m then btr else SS - m).
  assert (0 < (if btr <? SS - m then btr else SS - m) ≤ btr ∧ m + (if btr <? SS - m then btr else SS - m) ≤ SS) as [Hn Hfit].
  { destruct (Z.ltb_spec btr (SS - m)); lia. }
  set (n := if btr <? SS - m then btr else SS - m) in *.
  pose proof (bo_len _ _ _ _ Hb) as Hbl. rewrite copy_ok by (unfold SS in *; lia). rewrite bind_Ok. split; [|done].
  do 2 f_equal. destruct (shown_sects fs img l fp G Hl Hb) as (En & _ & Ef).
  destruct (data_sect_range fs _ l _ G Hl (proj1 (sect_at_data fs _ l c _ G Hl Hc))) as [Hr Hr0].
  unfold file_bytes. rewrite (content_sector fs l (shown fp img) c) by (rewrite ?En; done || lia).
  rewrite <-Hs, Ef by lia. done.
Qed.

(** Whole sectors. *)
Lemma content_sectors fs l img c p cc :
  geometry fs (n_sect img) → Forall (valid (n_fatent fs)) l → in_cluster fs l c p → p `mod` SS = 0 → 0 ≤ cc →
  p `mod` bcs fs / SS + cc ≤ csize fs →
  bytes_at (Z.to_nat p) (Z.to_nat (cc * SS)) (content fs img l) =
    bytes_at (Z.to_nat (sect_at fs c p * SS)) (Z.to_nat (cc * SS)) img.
Proof.
  intros G Hl Hc Hz Hcc Hfit. pose proof (bcs_pos fs _ G) as (Hb & _ & _). pose proof (ic_pos _ _ _ _ Hc) as Hp.
  pose proof (pos_split fs _ G p ltac:(lia)) as Hsp. pose proof (pos_sect fs _ G p ltac:(lia)) as Hse.
  assert (valid (n_fatent fs) c) as Hv by (rewrite Forall_lookup in Hl; eapply Hl, Hc).
  pose proof (clust_sect_range fs _ c G Hv) as (Hd0 & Hlo & _).
  rewrite (content_at fs (n_sect img) l img c); [|done|done|done|lia|unfold SS in *; lia|apply Hc|].
  - f_equal. unfold sect_at. rewrite Hse. unfold SS in *. lia.
  - rewrite Hse in Hfit. unfold bcs, SS in *. lia.
Qed.

(** A dirty buffer among the sectors read is put in its place. *)
Lemma overlay_ok fs img l fp sect cc buff off d :
  geometry fs (n_sect img) → n_sect img < FFFFFFFF → Forall (valid (n_fatent fs)) l → buf_ok fs img l fp →
  0 ≤ sect → 0 < cc → cc * SS < 2 ^ 32 → sect + cc ≤ n_sect img → 0 ≤ off → off + cc * SS ≤ Z.of_nat (length buff) →
  let B x := bytes_at (Z.to_nat (sect * SS)) (Z.to_nat (cc * SS)) x in
  ((if has_flag FA_DIRTY fp && (wrap W (f_sect fp - sect) <? cc)
    then lift (copy (off + wrap W (wrap W (f_sect fp - sect) * SS)) (f_buf fp) 0 SS (patch (Z.to_nat off) (B img) buff))
    else mret (patch (Z.to_nat off) (B img) buff)) : ff D (list Z)) (fs, d) =
  Ok (patch (Z.to_nat off) (B (shown fp img)) buff, (fs, d)).
Proof using HW.
  intros G Hmax Hl Hb Hs Hcc Hcm Hle Ho Hlen B. pose proof (n_sect_fits img (sect + cc - 1) ltac:(lia)) as Hfits.
  assert (length (B img) = Z.to_nat (cc * SS)) as HB by (apply bytes_at_length; unfold SS in *; lia).
  unfold shown in *. destruct (has_flag FA_DIRTY fp) eqn:Hf; cbn [andb]; [|done].
  pose proof (bo_len _ _ _ _ Hb) as Hbl. pose proof (bo_sect _ _ _ _ Hb (bo_dirty _ _ _ _ Hb Hf)) as Hfs.
  pose proof (data_sect_range fs _ l _ G Hl Hfs) as [Hfr Hfr0].
  rewrite (among_test _ _ _ (n_sect img)) by (done || lia). unfold FFFFFFFF in Hmax. unfold wr. case_bool_decide as Hin.
  - rewrite (dw_small W HW (f_sect fp - sect)) by lia. rewrite (dw_small W HW) by (unfold SS in *; lia).
    unfold lift. rewrite copy_ok by (rewrite ?patch_length; unfold SS in *; lia). rewrite bind_Ok. do 2 f_equal.
    change (Z.to_nat 0) with 0%nat. replace (Z.to_nat SS) with (length (f_buf fp)) by (unfold SS; lia).
    rewrite bytes_at_all. set (k := Z.to_nat ((f_sect fp - sect) * SS)).
    replace (Z.to_nat (off + (f_sect fp - sect) * SS)) with (Z.to_nat off + k)%nat by (unfold k, SS in *; lia).
    rewrite patch_in by (unfold k, SS in *; lia). f_equal.
    replace (Z.to_nat (f_sect fp * SS)) with (Z.to_nat (sect * SS) + k)%nat by (unfold k, SS in *; lia).
    unfold B. symmetry. apply bytes_at_patch_in; unfold k, SS in *; lia.
  - pose proof (n_sect_fits img (f_sect fp) ltac:(lia)). unfold mret, ff_ret. do 3 f_equal. unfold B. symmetry.
    apply bytes_at_patch_ne; unfold SS in *; lia.
Qed.

Lemma read_direct_ok F fs d img l fp c buff off btr :
  let p := f_fptr fp in
  fat_rep F fs d img → Forall (valid (n_fatent fs)) l → buf_ok fs img l fp → in_cluster fs l c p → p `mod` SS = 0 →
  0 ≤ off → SS ≤ btr < 2 ^ 32 → off + btr ≤ Z.of_nat (length buff) →
  ∃ n d', read_direct W fp buff off (p `mod` bcs fs / SS) (sect_at fs c p) (btr / SS) (fs, d) =
      Ok ((Next n, fp, patch (Z.to_nat off) (bytes_at (Z.to_nat p) (Z.to_nat n) (file_bytes fs img l fp)) buff), (fs, d')) ∧
    fat_rep F fs d' img ∧ 0 < n ≤ btr ∧ n `mod` SS = 0 ∧ p `mod` bcs fs + n ≤ bcs fs.
Proof using HW.
  intros p Hr Hl Hb Hc Hz Ho Hbt Hlen. pose proof (fr_win _ _ _ _ Hr) as Hw. pose proof (wo_geo _ _ Hw) as G.
  destruct (dsk_bytes _ _ (fr_dsk _ _ _ _ Hr)) as [_ Hmax].
  destruct (sect_at_data fs _ l c p G Hl Hc) as [Hds Hcs]. pose proof (bcs_pos fs _ G) as (_ & Hc64 & Hc0).
  pose proof (pos_split fs _ G p ltac:(apply Hc)) as Hsp. rewrite <-(pos_sect fs _ G p) in Hsp by apply Hc.
  set (csect := p `mod` bcs fs / SS) in *.
  assert (0 < btr / SS ∧ btr / SS * SS ≤ btr) as [Hq0 Hq1].
  { unfold SS in *. split; [apply Z.div_str_pos; lia|]. pose proof (Z.mul_div_le btr 512 ltac:(lia)). lia. }
  assert (btr / SS < 2 ^ 23) as Hq2 by (unfold SS in *; apply Z.div_lt_upper_bound; lia).
  unfold read_direct. ff_run. rewrite (wrap_small 32 (csect + btr / SS)), (wrap_small 32 (csize fs - csect)) by lia.
  set (cc := if csize fs <? csect + btr / SS then csize fs - csect else btr / SS).
  assert (0 < cc ≤ btr / SS ∧ csect + cc ≤ csize fs) as [Hcc Hfit] by (unfold cc; destruct (Z.ltb_spec (csize fs) (csect + btr / SS)); lia).
  assert (valid (n_fatent fs) c) as Hv by (rewrite Forall_lookup in Hl; eapply Hl, Hc).
  pose proof (clust_sect_range fs _ c G Hv) as (Hd0 & Hlo & Hhi).
  assert (sect_at fs c p = clust_sect fs c + csect) as Esec by done. set (sect := sect_at fs c p) in *.
  assert (length (drop (Z.to_nat off) buff) = (length buff - Z.to_nat off)%nat) as Hdl by apply length_drop.
  assert (cc * SS ≤ btr) as Hccb by (unfold SS in *; lia).
  destruct (data_read F fs d img (drop (Z.to_nat off) buff) sect cc) as (d' & Hrd & Hr'); [done|lia|lia|lia|lia|].
  rewrite (run_bind _ _ _ _ _ Hrd). cbn [negb Z.eqb RES_OK]. rewrite patch_drop by (unfold SS in *; lia).
  rewrite (run_bind _ _ _ _ _ (overlay_ok fs img l fp sect cc buff off d' G Hmax Hl Hb
    ltac:(lia) ltac:(lia) ltac:(lia) ltac:(lia) Ho ltac:(lia))).
  destruct (shown_sects fs img l fp G Hl Hb) as (En & _ & _).
  exists (SS * cc), d'. rewrite (wrap_small 32) by (unfold SS in *; lia). unfold file_bytes.
  rewrite (Z.mul_comm SS), (content_sectors fs l (shown fp img) c) by (rewrite ?En; done || lia).
  split; [done|]. split; [done|]. split; [unfold SS in *; lia|]. split; [by apply Z.mod_mul|].
  unfold bcs, SS in *. lia.
Qed.

(** ** The clusters of the file *)

Lemma buf_ok_data fs img fs' img' l fp :
  same_volume fs fs' → (∀ s, data_sect fs l s → sector s img' = sector s img) → buf_ok fs img l fp → buf_ok fs' img' l fp.
Proof.
  intros V E [Hl Hb Hs Hc Hd]. destruct (same_volume_data fs fs' V) as (_ & Ed & _). split; try done.
  - intros Hne. apply Ed. auto.
  - intros Hne Hf. rewrite E by auto. auto.
Qed.

(** The same sectors, with the buffer. *)
Lemma shown_data fs img img' l fp :
  geometry fs (n_sect img) → Forall (valid (n_fatent fs)) l → buf_ok fs img l fp →
  (∀ s, data_sect fs l s → sector s img' = sector s img) → n_sect img' = n_sect img →
  ∀ s, data_sect fs l s → sector s (shown fp img') = sector s (shown fp img).
Proof.
  intros G Hl Hb E Hns s Hs. pose proof (data_sect_range fs _ l s G Hl Hs) as [_ Hs0].
  unfold shown. destruct (has_flag FA_DIRTY fp) eqn:Hfl; [|by apply E].
  pose proof (bo_len _ _ _ _ Hb) as Hbl. pose proof (bo_sect _ _ _ _ Hb (bo_dirty _ _ _ _ Hb Hfl)) as Hfs.
  pose proof (data_sect_range fs _ l _ G Hl Hfs) as [Hr Hr0].
  destruct (decide (s = f_sect fp)) as [->|Hne].
  - unfold wr. rewrite !sector_patch by (rewrite ?Hns; done || lia). done.
  - rewrite !(wr_other _ 1) by (rewrite ?Hns; unfold SS; done || lia). by apply E.
Qed.

(** The FAT is used, and the file is what it was. *)
Lemma file_stays F fs img fs' img' l fp :
  win_ok fs img → n_sect img < FFFFFFFF → file_ok F fs img l fp → data_same fs img fs' img' → at_fat fs fs' →
  file_ok F fs' img' l fp ∧ file_bytes fs' img' l fp = file_bytes fs img l fp.
Proof.
  intros Hw Hmax Hf Hds Hat. pose proof (fo_valid _ _ _ _ _ Hf) as Hl. pose proof (wo_geo _ _ Hw) as G.
  pose proof Hf as [Hch Hsz Hmx Hp2 Hap Hb Hpos]. pose proof (ds_volume _ _ _ _ Hds) as V.
  destruct (data_stays fs img fs' img' l Hw Hl Hds Hat Hap Hmax) as [Hap' E].
  destruct (same_volume_data fs fs' V) as (Ecs & Ed & Eco & Eb & Ecz).
  assert (n_fatent fs' = n_fatent fs) as En by apply V.
  split.
  - split; rewrite ?En, ?Eb; try done.
    + unfold pow2_csize. by rewrite Ecz.
    + by apply (buf_ok_data fs img).
    + destruct Hpos. split; rewrite ?Eb, ?Ecs; done.
  - unfold file_bytes. rewrite Eco. apply (content_ext fs (n_sect img)); [done|done|]. intros s Hs.
    by apply (shown_data fs img img' l fp); [..|apply Hds|].
Qed.

(** The cluster of the position, on a sector boundary. *)
Lemma read_clust_ok F fs d img l fp :
  let p := f_fptr fp in
  fat_rep F fs d img → file_ok F fs img l fp → p < objsize (f_obj fp) → p `mod` SS = 0 →
  ∃ c fs' d' img',
    ((if p `mod` bcs fs / SS =? 0 then read_clust W fp else mret (FR_OK, fp)) : ff D _) (fs, d) =
      Ok ((FR_OK, set_f_clust c fp), (fs', d')) ∧
    in_cluster fs l c p ∧ fat_rep F fs' d' img' ∧ data_same fs img fs' img' ∧ at_fat fs fs' ∧ same_alloc fs fs'.
Proof using HW.
  intros p Hr Hf Hlt Hz. pose proof (fr_win _ _ _ _ Hr) as Hw. pose proof (wo_geo _ _ Hw) as G.
  pose proof (fo_valid _ _ _ _ _ Hf) as Hl. pose proof Hf as [Hch Hsz Hmx Hp2 Hap Hb [Hpr Hpc Hps]].
  fold p in Hpr, Hpc, Hps. pose proof (bcs_pos fs _ G) as (Hb0 & _ & Hcs0).
  assert (0 < bcs fs) as Hbp by (unfold SS in *; lia).
  assert (Z.to_nat (p / bcs fs) < length l)%nat as Hi.
  { assert (p / bcs fs < Z.of_nat (length l)) by (apply Z.div_lt_upper_bound; lia).
    pose proof (Z.div_pos p (bcs fs) ltac:(lia) ltac:(lia)). lia. }
  destruct (lookup_lt_is_Some_2 l _ Hi) as [c Hc].
  assert (in_cluster fs l c p) as Hin by (split; [lia|done]).
  assert (valid (n_fatent fs) c) as Hv by (rewrite Forall_lookup in Hl; by eapply Hl).
  pose proof (pos_split fs _ G p ltac:(lia)) as Hsp. pose proof (pos_sect fs _ G p ltac:(lia)) as Hse. rewrite Hz in Hsp.
  assert (p `mod` bcs fs / SS = 0 ↔ p `mod` bcs fs = 0) as Hzz by (rewrite Hse, Hsp; unfold SS; lia).
  assert (fp = set_f_clust (f_clust fp) fp) as Eta by by destruct fp.
  assert (n_fatent fs ≤ 268435447) as Hents by apply G. unfold valid in Hv.
  destruct (Z.eqb_spec (p `mod` bcs fs / SS) 0) as [H0'|H0'].
  2:{ exists c, fs, d, img. assert (0 < p) as Hp0.
      { destruct (decide (p = 0)) as [E|]; [|lia]. rewrite E in H0'. unfold SS in H0'. by rewrite Z.mod_0_l in H0' by lia. }
      specialize (Hpc Hp0). rewrite (pos_before fs _ G p Hp0), (proj2 (Z.eqb_neq _ _)) in Hpc by (rewrite <-Hzz; done).
      assert (f_clust fp = c) as <- by congruence. rewrite <-Eta.
      split; [done|]. split; [done|]. split; [done|]. split; [apply data_same_refl|done]. }
  apply Hzz in H0'. unfold read_clust. fold p. destruct (Z.eqb_spec p 0) as [Hp0|Hp0].
  - rewrite Hp0, Z.div_0_l in Hc by lia. destruct Hch as [[-> _]|Hch]; [done|]. apply chain_head in Hch.
    assert (sclust (f_obj fp) = c) as -> by (change (Z.to_nat 0) with 0%nat in Hc; congruence). ff_run.
    rewrite (proj2 (Z.ltb_ge c 2)), (proj2 (Z.eqb_neq c FFFFFFFF)) by (unfold FFFFFFFF; lia).
    exists c, fs, d, img. split; [done|]. split; [done|]. split; [done|]. split; [apply data_same_refl|done].
  - specialize (Hpc ltac:(lia)). rewrite (pos_before fs _ G p), H0' in Hpc by lia. cbn [Z.eqb] in Hpc.
    assert (bcs fs ≤ p) as Hge.
    { pose proof (Z.div_mod p (bcs fs) ltac:(lia)). pose proof (Z.div_pos p (bcs fs) ltac:(lia) ltac:(lia)). nia. }
    assert (1 ≤ p / bcs fs) as Hq by (apply Z.div_le_lower_bound; lia).
    replace (Z.to_nat (p / bcs fs)) with (S (Z.to_nat (p / bcs fs - 1))) in Hc by lia.
    destruct Hch as [[-> _]|Hch]; [done|]. pose proof (chain_lookup _ _ _ _ _ _ _ Hch Hpc Hc) as HF.
    assert (valid (n_fatent fs) (f_clust fp)) as Hvc by (rewrite Forall_lookup in Hl; by eapply Hl).
    destruct (get_rep W HW F fs d img (f_clust fp) Hr Hvc) as (fs' & d' & img' & Hg & Hr' & Hk).
    rewrite (run_bind _ _ _ _ _ Hg), HF.
    rewrite (proj2 (Z.ltb_ge c 2)), (proj2 (Z.eqb_neq c FFFFFFFF)) by (unfold FFFFFFFF; lia).
    exists c, fs', d', img'. split; [done|]. split; [done|]. split; [done|]. split; [by apply keeps_data|].
    split; [|apply Hk]. destruct (dsk_bytes _ _ (fr_dsk _ _ _ _ Hr)) as [_ Hmax].
    by eapply (get_fat_stays W HW fs); [..|exact Hg].
Qed.

(** ** A round *)

(** What rounds leave of a file object. *)
Definition same_file fp fp' : Prop :=
  f_obj fp' = f_obj fp ∧ f_err fp' = f_err fp ∧ f_dir_sect fp' = f_dir_sect fp ∧ f_dir_ptr fp' = f_dir_ptr fp ∧
  ∀ m, Z.land m FA_DIRTY = 0 → 0 ≤ m < 128 → has_flag m fp' = has_flag m fp.

#[global] Instance same_file_preorder : PreOrder same_file.
Proof.
  split; [by intros fp|]. intros a b c (A1 & A2 & A3 & A4 & A5) (B1 & B2 & B3 & B4 & B5).
  split; [congruence|]. split; [congruence|]. split; [congruence|]. split; [congruence|].
  intros m Hm Hr. by rewrite B5, A5.
Qed.

Lemma clean_same_file fp : same_file fp (clean fp).
Proof.
  destruct (clean_same fp) as (E1 & E2 & E3 & E4 & E5 & E6 & E7 & E8). do 4 (split; [done|]).
  intros m Hm Hr. unfold clean. destruct (has_flag FA_DIRTY fp); [|done]. by apply flag_kept_drop.
Qed.

Lemma read_cached_ok F fs d img l fp sect :
  fat_rep F fs d img → Forall (valid (n_fatent fs)) l → apart fs l → buf_ok fs img l fp → data_sect fs l sect →
  ∃ fp' d' img', read_cached fp sect (fs, d) = Ok ((FR_OK, fp'), (fs, d')) ∧ f_sect fp' = sect ∧
    f_fptr fp' = f_fptr fp ∧ f_clust fp' = f_clust fp ∧ same_file fp fp' ∧
    fat_rep F fs d' img' ∧ buf_ok fs img' l fp' ∧ frame l fs img fs img' ∧
    file_bytes fs img' l fp' = file_bytes fs img l fp.
Proof.
  intros Hr Hl Ha Hb Hs. unfold read_cached. destruct (Z.eqb_spec (f_sect fp) sect) as [<-|Hne]; cbn [negb].
  { exists fp, d, img. assert (set_f_sect (f_sect fp) fp = fp) as -> by by destruct fp.
    do 4 (split; [done|]). split; [done|]. split; [done|]. split; [done|]. split; [apply frame_refl|done]. }
  destruct (write_back_ok F fs d img l fp Hr Hl Ha Hb) as (d1 & Hwb & Hr1 & Hb1 & Hfr).
  rewrite (run_bind _ _ _ _ _ Hwb). cbn [negb].
  destruct (read_buf_ok F fs d1 (shown fp img) l (clean fp) sect Hr1 Hl Hb1 (clean_flag fp) Hs) as (d2 & Hrb & Hr2 & Hb2).
  rewrite (run_bind _ _ _ _ _ Hrb). cbn [negb].
  destruct (clean_same fp) as (E1 & E2 & E3 & E4 & E5 & E6 & E7 & E8).
  eexists _, d2, (shown fp img). split; [done|]. split; [done|]. split; [done|]. split; [done|]. split.
  { transitivity (clean fp); [apply clean_same_file|done]. }
  split; [done|]. split; [done|]. split; [done|]. unfold file_bytes at 1, shown at 1.
  change (has_flag FA_DIRTY (set_f_sect sect (set_f_buf (sector sect (shown fp img)) (clean fp)))) with (has_flag FA_DIRTY (clean fp)).
  by rewrite clean_flag.
Qed.

(** The position after [n] bytes of cluster [c]. *)
Lemma advance fs m l fp c n :
  let p := f_fptr fp in
  geometry fs m → in_cluster fs l c p → f_clust fp = c → 0 < n → p `mod` bcs fs + n ≤ bcs fs →
  p + n ≤ objsize (f_obj fp) →
  (f_sect fp = sect_at fs c p ∧ p `mod` SS + n ≤ SS) ∨ (p + n) `mod` SS = 0 →
  pos_ok fs l (set_f_fptr (p + n) fp).
Proof.
  intros p G Hc Hcl Hn Hfit Hsz Hcase. pose proof (ic_pos _ _ _ _ Hc) as Hp. split; cbn; [lia| |].
  - intros _. rewrite (pos_within fs m G) by lia. rewrite Hcl. apply Hc.
  - intros Hne. destruct Hcase as [[Hs Hle]|?]; [|done].
    rewrite (sect_within fs m G) by (done || lia). rewrite Hcl. done.
Qed.

Definition read_round_spec F fs d img l fp buff off btr : Prop :=
  let p := f_fptr fp in
  ∃ n fp' fs' d' img',
    read_round W fp buff off btr (fs, d) = Ok ((Next n, fp',
      patch (Z.to_nat off) (bytes_at (Z.to_nat p) (Z.to_nat n) (file_bytes fs img l fp)) buff), (fs', d')) ∧
    0 < n ≤ btr ∧ f_fptr fp' = p ∧ same_file fp fp' ∧ fat_rep F fs' d' img' ∧
    file_ok F fs' img' l (set_f_fptr (p + n) fp') ∧ file_bytes fs' img' l fp' = file_bytes fs img l fp ∧
    frame l fs img fs' img' ∧ same_alloc fs fs'.

(** Inside a sector. *)
Lemma read_round_part F fs d img l fp buff off btr :
  fat_rep F fs d img → file_ok F fs img l fp → f_fptr fp `mod` SS ≠ 0 →
  0 ≤ off → 0 < btr → f_fptr fp + btr ≤ objsize (f_obj fp) → off + btr ≤ Z.of_nat (length buff) →
  read_round_spec F fs d img l fp buff off btr.
Proof.
  intros Hr Hf Hz Ho Hbt Hsz Hlen. pose proof (fr_win _ _ _ _ Hr) as Hw. pose proof (wo_geo _ _ Hw) as G.
  pose proof (fo_valid _ _ _ _ _ Hf) as Hl. pose proof Hf as [Hch Hs Hmx Hp2 Hap Hb [Hpr Hpc Hps]].
  unfold read_round_spec, read_round. set (p := f_fptr fp) in *. rewrite (proj2 (Z.eqb_neq _ _)) by done.
  assert (0 < p) as Hp0 by (destruct (decide (p = 0)) as [E|]; [by rewrite E in Hz|lia]).
  specialize (Hpc Hp0). specialize (Hps Hz).
  assert (p `mod` bcs fs ≠ 0) as Hnz by (intros E; apply Hz; rewrite <-(mod_bcs_SS fs _ G) by lia; by rewrite E).
  rewrite (pos_before fs _ G p Hp0), (proj2 (Z.eqb_neq _ _) Hnz) in Hpc.
  assert (in_cluster fs l (f_clust fp) p) as Hin by (split; [lia|done]).
  destruct (read_part_ok fs img l fp (f_clust fp) buff off btr) as (n & Hrp & Hn & Hfit); [done|done|done|done|done|lia|lia|lia|].
  exists n, fp, fs, d, img. unfold lift. rewrite Hrp, bind_Ok. do 5 (split; [done|]). split; [|split; [done|split; [apply frame_refl|done]]].
  fold p in Hfit. destruct (sect_at_data fs _ l _ p G Hl Hin) as [_ Hcs].
  pose proof (pos_split fs _ G p ltac:(lia)) as Hsp. pose proof (pos_sect fs _ G p ltac:(lia)) as Hse.
  split; try done; [by destruct Hb; split|].
  apply (advance fs (n_sect img) l fp (f_clust fp)); try done; fold p; [lia| |lia|by left].
  rewrite Hsp, <-Hse. unfold bcs, SS in *. lia.
Qed.

(** From a sector boundary on, when the cluster is known. *)
Lemma read_round_sectors F fs d img l fp c buff off btr :
  let p := f_fptr fp in
  fat_rep F fs d img → Forall (valid (n_fatent fs)) l → apart fs l → buf_ok fs img l fp → in_cluster fs l c p → p `mod` SS = 0 →
  0 ≤ off → 0 < btr < 2 ^ 32 → off + btr ≤ Z.of_nat (length buff) →
  ∃ n fp' d' img',
    ((if 0 <? btr / SS then read_direct W fp buff off (p `mod` bcs fs / SS) (sect_at fs c p) (btr / SS) else
      '(r, fp) ← read_cached fp (sect_at fs c p);
      if decide (r ≠ FR_OK) then mret (Abort r, fp, buff) else
      lift (read_part fp buff off btr)) : ff D _) (fs, d) = Ok ((Next n, fp',
        patch (Z.to_nat off) (bytes_at (Z.to_nat p) (Z.to_nat n) (file_bytes fs img l fp)) buff), (fs, d')) ∧
    0 < n ≤ btr ∧ p `mod` bcs fs + n ≤ bcs fs ∧ f_fptr fp' = p ∧ f_clust fp' = f_clust fp ∧ same_file fp fp' ∧
    (f_sect fp' = sect_at fs c p ∧ p `mod` SS + n ≤ SS ∨ (p + n) `mod` SS = 0) ∧
    fat_rep F fs d' img' ∧ buf_ok fs img' l fp' ∧ file_bytes fs img' l fp' = file_bytes fs img l fp ∧
    frame l fs img fs img'.
Proof using HW.
  intros p Hr Hl Ha Hb Hc Hz Ho Hbt Hlen. pose proof (wo_geo _ _ (fr_win _ _ _ _ Hr)) as G.
  destruct (sect_at_data fs _ l c p G Hl Hc) as [Hds Hcs]. pose proof (ic_pos _ _ _ _ Hc) as Hp.
  pose proof (pos_split fs _ G p ltac:(lia)) as Hsp. pose proof (pos_sect fs _ G p ltac:(lia)) as Hse.
  destruct (Z.ltb_spec 0 (btr / SS)) as [Hcc|Hcc].
  - assert (SS ≤ btr) as Hge.
    { destruct (decide (SS ≤ btr)); [done|]. rewrite Z.div_small in Hcc by lia. lia. }
    destruct (read_direct_ok F fs d img l fp c buff off btr) as (n & d' & Hrd & Hr' & Hn & Hnz & Hfit);
      [done|done|done|done|done|done|lia|done|].
    exists n, fp, d', img. split; [exact Hrd|]. do 4 (split; [done|]). split; [done|]. split.
    { right. fold p. by rewrite Z.add_mod, Hz, Hnz by done. }
    split; [done|]. split; [done|]. split; [done|apply frame_refl].
  - assert (btr < SS) as Hlt.
    { destruct (decide (SS ≤ btr)) as [Hge|]; [|lia]. pose proof (Z.div_str_pos btr SS ltac:(unfold SS in *; lia)). lia. }
    destruct (read_cached_ok F fs d img l fp (sect_at fs c p) Hr Hl Ha Hb Hds)
      as (fp' & d' & img' & Hrc & Hfs & Hfp & Hfc & Hsf & Hr' & Hb' & Hfr & Hfb).
    rewrite (run_bind _ _ _ _ _ Hrc), decide_False by naive_solver. fold p in Hfp.
    destruct (read_part_ok fs img' l fp' c buff off btr) as (n & Hrp & Hn & Hle);
      [by rewrite (fm_sects _ _ _ _ _ Hfr)|done|done|by rewrite Hfp|by rewrite Hfp|done|lia|done|].
    unfold lift. rewrite Hrp, bind_Ok, Hfb, Hfp. rewrite Hfp in Hle. exists n, fp', d', img'.
    split; [done|]. split; [done|]. split; [rewrite Hsp, <-Hse; unfold bcs, SS in *; lia|].
    split; [done|]. split; [done|]. split; [done|]. split; [by left|]. done.
Qed.

Lemma read_round_ok F fs d img l fp buff off btr :
  fat_rep F fs d img → file_ok F fs img l fp →
  0 ≤ off → 0 < btr < 2 ^ 32 → f_fptr fp + btr ≤ objsize (f_obj fp) → off + btr ≤ Z.of_nat (length buff) →
  read_round_spec F fs d img l fp buff off btr.
Proof using HW.
  intros Hr Hf Ho Hbt Hsz Hlen. destruct (decide (f_fptr fp `mod` SS = 0)) as [Hz|]; [|apply read_round_part; (done || lia)].
  unfold read_round_spec, read_round. set (p := f_fptr fp) in *. rewrite Hz. cbn [Z.eqb]. ff_run.
  pose proof (fr_win _ _ _ _ Hr) as Hw. pose proof (wo_geo _ _ Hw) as G. pose proof (fo_pow2 _ _ _ _ _ Hf) as P2.
  pose proof (po_range _ _ _ (fo_pos _ _ _ _ _ Hf)) as Hp. fold p in Hp. pose proof (fo_max _ _ _ _ _ Hf) as Hmx.
  destruct (dsk_bytes _ _ (fr_dsk _ _ _ _ Hr)) as [_ Hmax]. pose proof (bcs_pos fs _ G) as (_ & Hc64 & Hc0).
  pose proof (Z.mod_pos_bound (p / SS) (csize fs) Hc0) as Hcs.
  rewrite csect_mod, (wrap_small 32), <-(pos_sect fs _ G) by (done || lia).
  destruct (read_clust_ok F fs d img l fp Hr Hf) as (c & fs1 & d1 & img1 & Hrc & Hin & Hr1 & Hds & Hat & Hal); [fold p; lia|done|].
  fold p in Hrc, Hin. rewrite (run_bind _ _ _ _ _ Hrc), decide_False by naive_solver. ff_run. cbn [f_clust set_f_clust].
  destruct (file_stays F fs img fs1 img1 l fp Hw Hmax Hf Hds Hat) as [Hf1 Hfb1].
  pose proof (ds_volume _ _ _ _ Hds) as V. destruct (same_volume_data fs fs1 V) as (Ecs & Ed & Eco & Eb & Ecz).
  pose proof (wo_geo _ _ (fr_win _ _ _ _ Hr1)) as G1. pose proof (fo_valid _ _ _ _ _ Hf1) as Hl1.
  assert (in_cluster fs1 l c p) as Hin1 by (destruct Hin; split; [done|by rewrite Eb]).
  assert (valid (n_fatent fs1) c) as Hv1 by (rewrite Forall_lookup in Hl1; eapply Hl1, Hin1).
  destruct (clst2sect_ok W HW fs1 (n_sect img1) c G1) as [-> Hne]; [rewrite (ds_sects _ _ _ _ Hds); lia|done|].
  rewrite (proj2 (Z.eqb_neq _ _) Hne). pose proof Hf1 as [Hch1 Hs1 _ P21 Hap1 Hb1 _].
  assert (buf_ok fs1 img1 l (set_f_clust c fp)) as Hb1' by by destruct Hb1; split.
  destruct (data_sect_range fs1 _ l _ G1 Hl1 (proj1 (sect_at_data fs1 _ l c p G1 Hl1 Hin1))) as [Hran _].
  rewrite <-Eb. fold (sect_at fs1 c p).
  pose proof (ds_sects _ _ _ _ Hds) as Ens. unfold FFFFFFFF in Hmax.
  pose proof (clust_sect_range fs1 _ c G1 Hv1) as (Hd0 & Hlo & Hhi).
  rewrite (dw_small W HW (sect_at fs1 c p)) by lia.
  destruct (read_round_sectors F fs1 d1 img1 l (set_f_clust c fp) c buff off btr Hr1 Hl1 Hap1 Hb1' Hin1 Hz Ho Hbt Hlen)
    as (n & fp' & d2 & img2 & Hrun & Hn & Hfit & Hfp & Hfc & Hsf & Hpos & Hr2 & Hb2 & Hfb2 & Hfr2).
  cbn [f_fptr set_f_clust] in Hrun, Hfit, Hpos, Hfp. fold p in Hrun, Hfit, Hpos, Hfp.
  exists n, fp', fs1, d2, img2. rewrite Hrun.
  change (file_bytes fs1 img1 l (set_f_clust c fp)) with (file_bytes fs1 img1 l fp) in *. rewrite <-Hfb1.
  split; [done|]. split; [done|]. split; [done|]. assert (same_file fp fp') as Hsf' by done. split; [done|]. split; [done|].
  assert (f_obj fp' = f_obj fp) as Eo by apply Hsf'. split; [|split; [done|split; [|done]]].
  - split; cbn; rewrite ?Eo; try done.
    + by destruct Hb2; split.
    + rewrite <-Hfp. apply (advance fs1 (n_sect img1) l fp' c); rewrite ?Hfp, ?Eo; (done || lia).
  - apply (frame_trans _ _ _ fs1 img1); [by apply data_frame|done].
Qed.

(** ** All bytes *)

Lemma read_bytes_ok fuel F fs d img l fp buff off btr :
  let p := f_fptr fp in
  fat_rep F fs d img → file_ok F fs img l fp → 0 ≤ btr ≤ Z.of_nat fuel → btr < 2 ^ 32 → 0 ≤ off →
  p + btr ≤ objsize (f_obj fp) → off + btr ≤ Z.of_nat (length buff) → off + btr < 2 ^ 32 →
  ∃ fp' fs' d' img',
    read_bytes W fuel fp buff off btr (fs, d) = Ok ((FR_OK, fp',
      patch (Z.to_nat off) (bytes_at (Z.to_nat p) (Z.to_nat btr) (file_bytes fs img l fp)) buff, off + btr), (fs', d')) ∧
    f_fptr fp' = p + btr ∧ same_file fp fp' ∧ fat_rep F fs' d' img' ∧ file_ok F fs' img' l fp' ∧
    file_bytes fs' img' l fp' = file_bytes fs img l fp ∧ frame l fs img fs' img' ∧ same_alloc fs fs'.
Proof using HW.
  revert fs d img fp buff off btr. induction fuel as [|fuel IH]; intros fs d img fp buff off btr p Hr Hf Hfu Hb32 Ho Hsz Hlen H32;
    simpl; destruct (Z.eqb_spec btr 0) as [->|Hne]; try lia.
  1,2: exists fp, fs, d, img; rewrite !Z.add_0_r;
    (split; [by unfold bytes_at; rewrite take_0, patch_nil|]); do 5 (split; [done|]); split; [apply frame_refl|done].
  destruct (read_round_ok F fs d img l fp buff off btr) as (n & fp1 & fs1 & d1 & img1 & Hrun & Hn & Hp1 & Hsf1 & Hr1 & Hf1 & Hfb1 & Hfr1 & Hal1);
    [done|done|lia|lia|done|done|].
  rewrite (run_bind _ _ _ _ _ Hrun). fold p in Hp1, Hf1 |- *. cbv iota beta. rewrite Hp1.
  assert (f_obj fp1 = f_obj fp) as Eo by apply Hsf1. pose proof (fo_max _ _ _ _ _ Hf) as Hmx. pose proof (po_range _ _ _ (fo_pos _ _ _ _ _ Hf)) as Hpr.
  fold p in Hpr. rewrite (dw_small W HW), !(wrap_small 32) by lia.
  set (B := bytes_at (Z.to_nat p) (Z.to_nat n) (file_bytes fs img l fp)).
  assert (length B = Z.to_nat n) as HB.
  { apply bytes_at_length. pose proof (fr_win _ _ _ _ Hr) as Hw. pose proof (fo_valid _ _ _ _ _ Hf) as Hl.
    destruct (shown_sects fs img l fp (wo_geo _ _ Hw) Hl (fo_buf _ _ _ _ _ Hf)) as (En & _).
    destruct (content_length fs (n_sect img) l (shown fp img) (wo_geo _ _ Hw) ltac:(lia) Hl) as [_ Hcl].
    unfold file_bytes. rewrite Hcl. pose proof (fo_size _ _ _ _ _ Hf). lia. }
  destruct (IH fs1 d1 img1 (set_f_fptr (p + n) fp1) (patch (Z.to_nat off) B buff) (off + n) (btr - n))
    as (fp2 & fs2 & d2 & img2 & Hrun2 & Hp2 & Hsf2 & Hr2 & Hf2 & Hfb2 & Hfr2 & Hal2);
    [done|done|lia|lia|lia|cbn; rewrite Eo; lia|rewrite patch_length; lia|lia|].
  cbn [f_fptr set_f_fptr] in Hrun2, Hp2. exists fp2, fs2, d2, img2. split.
  { rewrite Hrun2. change (file_bytes fs1 img1 l (set_f_fptr (p + n) fp1)) with (file_bytes fs1 img1 l fp1). rewrite Hfb1.
    replace (off + n + (btr - n)) with (off + btr) by lia. do 4 f_equal. replace (Z.to_nat (off + n)) with (Z.to_nat off + length B)%nat by lia.
    assert (length (bytes_at (Z.to_nat (p + n)) (Z.to_nat (btr - n)) (file_bytes fs img l fp)) ≤ Z.to_nat (btr - n))%nat
      by (unfold bytes_at; rewrite length_take; lia).
    rewrite patch_after by lia. f_equal. unfold B. replace (Z.to_nat (p + n)) with (Z.to_nat p + Z.to_nat n)%nat by lia.
    rewrite bytes_at_app. f_equal. lia. }
  split; [lia|]. split; [by transitivity fp1|]. split; [done|]. split; [done|].
  split; [by transitivity (file_bytes fs1 img1 l fp1)|]. split; [by eapply frame_trans|by transitivity fs1].
Qed.

(** ** The calls *)

(** The object belongs to the volume that is mounted, and no error is held. *)
Definition opened fs fp : Prop :=
  obj_fs (f_obj fp) = true ∧ obj_id (f_obj fp) = fs_id fs ∧ f_err fp = FR_OK.

Lemma validate_obj F fs d img obj :
  fat_rep F fs d img → obj_fs obj = true → obj_id obj = fs_id fs → ∃ d', validate obj (fs, d) = Ok (FR_OK, (fs, d')) ∧ fat_rep F fs d' img.
Proof.
  intros [Hw Hd Hv Hs] Ho Hi. destruct (dsk_status d img Hd) as (d' & Hst & Hd'). exists d'.
  split; [|done]. unfold validate. ff_run. rewrite Ho, Hi, Z.eqb_refl. pose proof (wo_geo _ _ Hw) as [Hp Ht _ _ _ _ _ _ _ _ _ _].
  assert (truth (fs_type fs) = true) as -> by (destruct Ht as [->|[->| ->]]; done). cbn [andb].
  unfold dstatus. unfold mbind at 1, ff_bind. cbn [fst snd]. rewrite Hp, Hst. done.
Qed.

Lemma validate_ok F fs d img fp :
  fat_rep F fs d img → opened fs fp → ∃ d', validate (f_obj fp) (fs, d) = Ok (FR_OK, (fs, d')) ∧ fat_rep F fs d' img.
Proof. intros Hr (Ho & Hi & _). by apply validate_obj. Qed.

Lemma may_access_ok F fs d img fp m :
  fat_rep F fs d img → opened fs fp → has_flag m fp = true →
  ∃ d', may_access m fp (fs, d) = Ok (FR_OK, (fs, d')) ∧ fat_rep F fs d' img.
Proof.
  intros Hr Ho Hm. destruct (validate_ok F fs d img fp Hr Ho) as (d' & Hv & Hr'). exists d'. split; [|done].
  unfold may_access. rewrite (run_bind _ _ _ _ _ Hv), decide_False by naive_solver.
  rewrite decide_False by (destruct Ho as (_ & _ & ->); naive_solver). by rewrite Hm.
Qed.

Lemma f_read_ok F fs d img l fp buff btr :
  fat_rep F fs d img → file_ok F fs img l fp → opened fs fp → has_flag FA_READ fp = true →
  0 ≤ btr < 2 ^ 32 → btr ≤ Z.of_nat (length buff) →
  let n := Z.min btr (objsize (f_obj fp) - f_fptr fp) in
  ∃ fp' fs' d' img',
    f_read W fp buff btr (fs, d) = Ok ((FR_OK, fp',
      patch 0 (bytes_at (Z.to_nat (f_fptr fp)) (Z.to_nat n) (file_bytes fs img l fp)) buff, n), (fs', d')) ∧
    f_fptr fp' = f_fptr fp + n ∧ same_file fp fp' ∧ fat_rep F fs' d' img' ∧ file_ok F fs' img' l fp' ∧
    file_bytes fs' img' l fp' = file_bytes fs img l fp ∧ frame l fs img fs' img' ∧ same_alloc fs fs'.
Proof using HW.
  intros Hr Hf Ho Hm Hb Hlen n. destruct (may_access_ok F fs d img fp FA_READ Hr Ho Hm) as (d1 & Hma & Hr1).
  unfold f_read. rewrite (run_bind _ _ _ _ _ Hma), decide_False by naive_solver.
  pose proof (fo_max _ _ _ _ _ Hf) as Hmx. pose proof (po_range _ _ _ (fo_pos _ _ _ _ _ Hf)) as Hpr.
  rewrite (dw_small W HW) by lia.
  assert ((if objsize (f_obj fp) - f_fptr fp <? btr then u32 (objsize (f_obj fp) - f_fptr fp) else btr) = n) as ->.
  { unfold n. destruct (Z.ltb_spec (objsize (f_obj fp) - f_fptr fp) btr); [rewrite (wrap_small 32)|]; lia. }
  destruct (read_bytes_ok (Z.to_nat n) F fs d1 img l fp buff 0 n) as (fp' & fs' & d' & img' & Hrun & Hrest);
    [done|done|lia|lia|lia|lia|lia|lia|].
  rewrite Z.add_0_l in Hrun. exists fp', fs', d', img'. by split.
Qed.
End read.
