(* ===== verification/FfWrite.v ===== *)
(** * FatFs: writing files

    [f_write] puts its bytes into the file at the file pointer, stretches the
    chain of clusters where it has to, and stops early only when no cluster is
    free. *)

From S2P Require Import Prelude Bytes Ff FfWindow FfFat FfChain FfStay FfDir FfMount FfFile FfData FfPos FfRead.

(** ** Contents byte by byte *)

(** [C'] is [C], of which the first [size] bytes matter, with the [n] bytes of
    [buff] from [off] on at [p]. *)
Definition wrote (p n size : Z) (buff : list Z) (off : Z) (C C' : list Z) : Prop :=
  (∀ i, p ≤ i < p + n → C' !! Z.to_nat i = buff !! Z.to_nat (off + i - p)) ∧
  (∀ i, 0 ≤ i < size → ¬ (p ≤ i < p + n) → C' !! Z.to_nat i = C !! Z.to_nat i).

Lemma wrote_nothing p size buff off C C' :
  (∀ i, 0 ≤ i < size → C' !! Z.to_nat i = C !! Z.to_nat i) → wrote p 0 size buff off C C'.
Proof. intros E. split; [lia|auto]. Qed.

Lemma wrote_more p n1 n2 size buff off C C1 C2 :
  0 ≤ n1 → 0 ≤ n2 → wrote p n1 size buff off C C1 →
  wrote (p + n1) n2 (Z.max size (p + n1)) buff (off + n1) C1 C2 → 0 ≤ p →
  wrote p (n1 + n2) size buff off C C2.
Proof.
  intros Hn1 Hn2 [A1 A2] [B1 B2] Hp. split; intros i Hi.
  - destruct (decide (i < p + n1)); [rewrite B2 by lia; apply A1; lia|]. rewrite B1 by lia. f_equal. lia.
  - intros Hni. rewrite B2, A2 by lia. done.
Qed.

(** As a list. *)
Lemma wrote_patch p n size buff off C C' :
  0 ≤ p ≤ size → 0 ≤ n → 0 ≤ off → off + n ≤ Z.of_nat (length buff) →
  size ≤ Z.of_nat (length C) → Z.max size (p + n) ≤ Z.of_nat (length C') → wrote p n size buff off C C' →
  take (Z.to_nat (Z.max size (p + n))) C' =
    patch (Z.to_nat p) (bytes_at (Z.to_nat off) (Z.to_nat n) buff) (take (Z.to_nat size) C).
Proof.
  intros Hp Hn Ho Hb Hl Hl' [A B].
  assert (length (bytes_at (Z.to_nat off) (Z.to_nat n) buff) = Z.to_nat n) as HB by (apply bytes_at_length; lia).
  assert (length (take (Z.to_nat size) C) = Z.to_nat size) as HC by (rewrite length_take; lia).
  apply list_eq. intros i. unfold patch. rewrite take_take, HB.
  destruct (decide (i < Z.to_nat p)%nat) as [H1|H1]; [|destruct (decide (i < Z.to_nat (p + n))%nat) as [H2|H2]].
  - rewrite lookup_app_l by (rewrite length_take; lia). rewrite !lookup_take_lt by lia.
    pose proof (B (Z.of_nat i) ltac:(lia) ltac:(lia)) as E. by rewrite Nat2Z.id in E.
  - rewrite lookup_app_r, length_take by (rewrite length_take; lia). rewrite lookup_app_l by lia.
    rewrite lookup_take_lt, lookup_bytes_at, decide_True by lia.
    pose proof (A (Z.of_nat i) ltac:(lia)) as E. rewrite Nat2Z.id in E. rewrite E. f_equal. lia.
  - rewrite lookup_app_r, length_take by (rewrite length_take; lia). rewrite lookup_app_r by lia.
    rewrite lookup_drop, HB.
    match goal with |- _ = take _ C !! ?k => replace k with i by lia end.
    destruct (decide (i < Z.to_nat size)%nat).
    + rewrite !lookup_take_lt by lia. pose proof (B (Z.of_nat i) ltac:(lia) ltac:(lia)) as E. by rewrite Nat2Z.id in E.
    + rewrite !lookup_take_ge by lia. done.
Qed.

Lemma content_lookup fs img l c i :
  geometry fs (n_sect img) → Forall (valid (n_fatent fs)) l → in_cluster fs l c i →
  content fs img l !! Z.to_nat i = sector (sect_at fs c i) img !! Z.to_nat (i `mod` SS).
Proof.
  intros G Hl Hc. pose proof (Z.mod_pos_bound i SS ltac:(done)).
  pose proof (content_sector fs l img c i 1 G Hl Hc ltac:(lia) ltac:(lia)) as E.
  apply (f_equal (λ x, x !! 0%nat)) in E. rewrite !lookup_bytes_at, !decide_True, !Nat.add_0_r in E by lia. done.
Qed.

(** Every byte of the clusters is in one. *)
Lemma in_cluster_ex fs n l i :
  geometry fs n → 0 ≤ i < 2 ^ 32 → i < Z.of_nat (length l) * bcs fs → ∃ c, in_cluster fs l c i.
Proof.
  intros G Hi Hlt. pose proof (bcs_pos fs n G) as (Hb & _ & _). unfold SS in Hb.
  destruct (lookup_lt_is_Some_2 l (Z.to_nat (i / bcs fs))) as [c Hc].
  { assert (i / bcs fs < Z.of_nat (length l)) by (apply Z.div_lt_upper_bound; lia).
    pose proof (Z.div_pos i (bcs fs) ltac:(lia) ltac:(lia)). lia. }
  by exists c.
Qed.

(** Sectors of a file are in the order of its bytes, cluster by cluster. *)
Lemma sect_order fs n l c i c' j :
  geometry fs n → NoDup l → in_cluster fs l c i → in_cluster fs l c' j →
  clust_sect fs c' ≤ sect_at fs c i < clust_sect fs c' + csize fs →
  c = c' ∧ sect_at fs c i - sect_at fs c' j = i / SS - j / SS.
Proof.
  intros G Hnd [Hi Hci] [Hj Hcj] Hs. pose proof (bcs_pos fs n G) as (Hb & _ & Hc0).
  assert (0 < bcs fs) as Hb0 by (unfold SS in *; lia).
  pose proof (Z.mod_pos_bound i (bcs fs) Hb0) as Mi. pose proof (Z.mod_pos_bound j (bcs fs) Hb0) as Mj.
  assert (c = c') as ->.
  { eapply (clust_sect_inj fs n c' c (sect_at fs c i)); [done|done|]. unfold sect_at.
    assert (0 ≤ i `mod` bcs fs / SS < csize fs); [|lia].
    split; [apply Z.div_pos; unfold SS; lia|apply Z.div_lt_upper_bound; unfold bcs, SS in *; lia]. }
  split; [done|]. pose proof (NoDup_lookup _ _ _ _ Hnd Hci Hcj) as Eq.
  pose proof (Z.div_pos i (bcs fs) ltac:(lia) Hb0). pose proof (Z.div_pos j (bcs fs) ltac:(lia) Hb0).
  assert (∀ x, x / SS = x / bcs fs * csize fs + x `mod` bcs fs / SS) as E.
  { intros x. rewrite (Z.div_mod x (bcs fs)) at 1 by lia. unfold bcs at 1.
    replace (csize fs * SS * (x / bcs fs)) with (x / bcs fs * csize fs * SS) by lia. by rewrite Z.div_add_l by done. }
  rewrite (E i), (E j). unfold sect_at. lia.
Qed.

Section write.
Context {D : Type} `{Disk D} (W : Z).
Hypothesis HW : 32 ≤ W.

Implicit Types (fs : FATFS) (d : D) (img : list Z) (F : Z → Z) (fp : FIL).

(** ** Part of a sector *)

(** [C] is the contents as the disk [img] and the buffer of [fp] have it, in
    the first [size] bytes. *)
Definition stands fs img (l : list Z) fp (size : Z) (C : list Z) : Prop :=
  ∀ i c, 0 ≤ i < size → in_cluster fs l c i →
  C !! Z.to_nat i =
    (if sect_at fs c i =? f_sect fp then f_buf fp else sector (sect_at fs c i) img) !! Z.to_nat (i `mod` SS).

Lemma shown_stands fs img l fp size :
  geometry fs (n_sect img) → Forall (valid (n_fatent fs)) l → buf_ok fs img l fp →
  stands fs img l fp size (file_bytes fs img l fp).
Proof.
  intros G Hl Hb i c Hi Hc. destruct (shown_sects fs img l fp G Hl Hb) as (En & Es & Ef).
  unfold file_bytes. rewrite (content_lookup fs _ l c i) by (rewrite ?En; done).
  pose proof (data_sect_range fs _ l _ G Hl (proj1 (sect_at_data fs _ l c i G Hl Hc))) as [_ H0'].
  destruct (Z.eqb_spec (sect_at fs c i) (f_sect fp)) as [E|E].
  - rewrite E. rewrite Ef by lia. done.
  - rewrite Es by lia. rewrite (proj2 (Z.eqb_neq _ _) E), andb_false_r. done.
Qed.

(** The bytes go to the buffer. *)
Lemma write_part_ok fs img l fp c buff off btw size C :
  let p := f_fptr fp in
  geometry fs (n_sect img) → Forall (valid (n_fatent fs)) l → NoDup l →
  length (f_buf fp) = 512%nat → Forall is_byte (f_buf fp) → Forall is_byte buff →
  in_cluster fs l c p → f_sect fp = sect_at fs c p → stands fs img l fp size C →
  size ≤ Z.of_nat (length l) * bcs fs → size < 2 ^ 32 →
  0 ≤ off → 0 < btw → p + btw < 2 ^ 32 → off + btw ≤ Z.of_nat (length buff) →
  ∃ n b, let fp' := add_flag FA_DIRTY (set_f_buf b fp) in
    write_part fp buff off btw = Ok (Next n, fp') ∧ 0 < n ≤ btw ∧ p `mod` SS + n ≤ SS ∧
    buf_ok fs img l fp' ∧ wrote p n size buff off C (file_bytes fs img l fp').
Proof.
  intros p G Hl Hnd Hbl Hbb Hby Hc Hs Hst Hsz H32 Ho Hbt Hp32 Hlen. pose proof (ic_pos _ _ _ _ Hc) as Hp.
  pose proof (Z.mod_pos_bound p SS ltac:(done)) as Hm. unfold write_part. fold p. rewrite (wrap_small 32) by lia.
  set (m := p `mod` SS) in *. set (n := if btw <? SS - m then btw else SS - m).
  assert (0 < n ≤ btw ∧ m + n ≤ SS) as [Hn Hfit] by (unfold n; destruct (Z.ltb_spec btw (SS - m)); lia).
  rewrite copy_ok by (unfold SS in *; lia). rewrite bind_Ok.
  set (bs := bytes_at (Z.to_nat off) (Z.to_nat n) buff). set (b := patch (Z.to_nat m) bs (f_buf fp)).
  assert (length bs = Z.to_nat n) as Hbs by (apply bytes_at_length; lia).
  exists n, b. set (fp' := add_flag FA_DIRTY (set_f_buf b fp)).
  destruct (sect_at_data fs _ l c p G Hl Hc) as [Hd _]. pose proof (data_sect_range fs _ l _ G Hl Hd) as [_ Hd0].
  assert (buf_ok fs img l fp') as Hb'.
  { assert (has_flag FA_DIRTY fp' = true) as Hfl by apply flag_added.
    split; change (f_buf fp') with b; change (f_sect fp') with (f_sect fp); rewrite ?Hfl; try done.
    - unfold b. rewrite patch_length; unfold SS in *; lia.
    - apply patch_bytes; [by apply bytes_at_bytes|done].
    - by rewrite Hs.
    - lia. }
  split; [done|]. split; [done|]. split; [done|]. split; [done|].
  pose proof (shown_stands fs img l fp' (Z.max size (p + n)) G Hl Hb') as Hst'.
  assert (f_sect fp' = sect_at fs c p) as Hs' by done.
  pose proof (Z.div_mod p SS ltac:(done)) as Ep. unfold SS in Ep, Hfit, Hm.
  assert (∀ i c', in_cluster fs l c' i → sect_at fs c' i = f_sect fp → i / SS = p / SS) as Hsame.
  { intros i c' Hci E. destruct (sect_order fs _ l c' i c p G Hnd Hci Hc) as [_ E']; [|lia].
    rewrite E, Hs. destruct (sect_at_data fs _ l c p G Hl Hc) as [_ ?]. unfold sect_at. lia. }
  split; intros i Hi.
  - assert (in_cluster fs l c i) as Hci.
    { split; [lia|]. rewrite <-(ic_clust _ _ _ _ Hc). f_equal. f_equal.
      replace i with (p + (i - p + 1) - 1) by lia. apply (pos_within fs _ G); try lia.
      pose proof (pos_split fs _ G p ltac:(lia)) as Hsp. pose proof (Z.mod_pos_bound (p / SS) (csize fs) ltac:(apply G)).
      rewrite Hsp. fold m. unfold bcs, SS in *. nia. }
    pose proof (Z.div_mod i SS ltac:(done)) as Ei. pose proof (Z.mod_pos_bound i SS ltac:(done)) as Mi. unfold SS in Ei, Mi.
    assert (i / 512 = p / 512) as Ed by (symmetry; apply (Z.div_unique_pos _ _ _ (m + (i - p))); unfold m, SS in *; lia).
    rewrite (Hst' i c) by (done || lia). destruct (sect_order fs _ l c i c p G Hnd Hci Hc) as [_ Eo].
    { destruct (sect_at_data fs _ l c i G Hl Hci) as [_ ?]. unfold sect_at. lia. }
    rewrite Hs', (proj2 (Z.eqb_eq _ _)) by (unfold SS in Eo; lia). cbn. unfold b.
    assert (i `mod` SS = m + (i - p)) as Em by (unfold m, SS; lia). rewrite Em.
    rewrite lookup_patch by lia. rewrite decide_True by lia. unfold bs. rewrite lookup_bytes_at, decide_True by lia. f_equal. lia.
  - intros Hni. destruct (in_cluster_ex fs _ l i G) as [c' Hci]; [lia|lia|].
    rewrite (Hst' i c'), (Hst i c') by (done || lia). change (f_sect fp') with (f_sect fp).
    destruct (Z.eqb_spec (sect_at fs c' i) (f_sect fp)) as [E|]; [|done]. cbn.
    specialize (Hsame i c' Hci E). pose proof (Z.div_mod i SS ltac:(done)) as Ei. pose proof (Z.mod_pos_bound i SS ltac:(done)) as Mi.
    unfold SS in Ei, Mi, Hsame. unfold b. rewrite lookup_patch by lia. rewrite decide_False; [done|]. unfold m, SS in *. lia.
Qed.

(** ** Whole sectors *)

(** Sectors of one cluster are written past the buffer. *)
Lemma wrote_sectors fs img l c p cc buff off size :
  geometry fs (n_sect img) → Forall (valid (n_fatent fs)) l → NoDup l → in_cluster fs l c p → p `mod` SS = 0 →
  0 < cc → p `mod` bcs fs / SS + cc ≤ csize fs → p + cc * SS < 2 ^ 32 →
  size ≤ Z.of_nat (length l) * bcs fs → size < 2 ^ 32 → 0 ≤ off → off + cc * SS ≤ Z.of_nat (length buff) →
  wrote p (cc * SS) size buff off (content fs img l)
    (content fs (wr (sect_at fs c p) (bytes_at (Z.to_nat off) (Z.to_nat (cc * SS)) buff) img) l).
Proof.
  intros G Hl Hnd Hc Hz Hcc Hfit Hp32 Hsz H32 Ho Hlen. pose proof (ic_pos _ _ _ _ Hc) as Hp.
  destruct (sect_at_data fs _ l c p G Hl Hc) as [Hd Hcs]. pose proof (data_sect_range fs _ l _ G Hl Hd) as [_ Hd0].
  assert (valid (n_fatent fs) c) as Hv by (rewrite Forall_lookup in Hl; eapply Hl, Hc).
  pose proof (clust_sect_range fs _ c G Hv) as (_ & Hlo & Hhi). pose proof (Z.div_mod p SS ltac:(done)) as Ep.
  pose proof (pos_split fs _ G p ltac:(lia)) as Hsp. rewrite <-(pos_sect fs _ G p) in Hsp by lia.
  assert (sect_at fs c p = clust_sect fs c + p `mod` bcs fs / SS) as Es by done.
  set (sect := sect_at fs c p) in *. set (bs := bytes_at (Z.to_nat off) (Z.to_nat (cc * SS)) buff).
  assert (length bs = Z.to_nat (cc * SS)) as Hbs by (apply bytes_at_length; unfold SS in *; lia).
  assert (n_sect (wr sect bs img) = n_sect img) as En by (apply (wr_n_sect _ cc); (done || lia)).
  assert (∀ i c', in_cluster fs l c' i → sect ≤ sect_at fs c' i < sect + cc → p ≤ i < p + cc * SS) as Hin.
  { intros i c' Hci Hs. destruct (sect_order fs _ l c' i c p G Hnd Hci Hc) as [_ E]; [lia|]. fold sect in E.
    pose proof (Z.div_mod i SS ltac:(done)) as Ei. pose proof (Z.mod_pos_bound i SS ltac:(done)) as Mi. unfold SS in *. lia. }
  split; intros i Hi.
  - assert (in_cluster fs l c i) as Hci.
    { split; [lia|]. rewrite <-(ic_clust _ _ _ _ Hc). do 2 f_equal. replace i with (p + (i - p + 1) - 1) by lia.
      apply (pos_within fs _ G); try lia. unfold bcs, SS in *. lia. }
    rewrite (content_lookup fs _ l c i) by (rewrite ?En; done).
    destruct (sect_order fs _ l c i c p G Hnd Hci Hc) as [_ E].
    { destruct (sect_at_data fs _ l c i G Hl Hci) as [_ ?]. unfold sect_at. lia. }
    fold sect in E. pose proof (Z.div_mod i SS ltac:(done)) as Ei. pose proof (Z.mod_pos_bound i SS ltac:(done)) as Mi.
    pose proof (n_sect_fits img (sect + cc - 1) ltac:(lia)) as Hfits. unfold SS in *.
    unfold sector, wr. rewrite lookup_bytes_at, decide_True, lookup_patch by (unfold SS in *; lia).
    rewrite decide_True by (unfold SS in *; lia). unfold bs. rewrite lookup_bytes_at, decide_True by (unfold SS in *; lia).
    f_equal. unfold SS in *. lia.
  - intros Hni. destruct (in_cluster_ex fs _ l i G) as [c' Hci]; [lia|lia|].
    rewrite !(content_lookup fs _ l c' i) by (rewrite ?En; done).
    rewrite (wr_other _ cc); [done|lia|lia|lia|done| |].
    + pose proof (data_sect_range fs _ l _ G Hl (proj1 (sect_at_data fs _ l c' i G Hl Hci))). lia.
    + intros Hs. apply Hni. by eapply Hin.
Qed.

(** The buffer after sectors of the file were written past it. *)
Lemma refill_ok fs img l fp sect cc bs b :
  geometry fs (n_sect img) → Forall (valid (n_fatent fs)) l → buf_ok fs img l fp → has_flag FA_DIRTY fp = false →
  0 < sect → 0 < cc → sect + cc ≤ n_sect img → length bs = Z.to_nat (cc * SS) → Forall is_byte bs →
  (if bool_decide (sect ≤ f_sect fp < sect + cc)
   then b = bytes_at (Z.to_nat ((f_sect fp - sect) * SS)) (Z.to_nat SS) bs else b = f_buf fp) →
  buf_ok fs (wr sect bs img) l (set_f_buf b fp).
Proof.
  intros G Hl [Hbl Hbb Hbs Hbc Hbd] Hf Hs Hcc Hle Hlen Hby Hb.
  pose proof (n_sect_fits img (sect + cc - 1) ltac:(lia)) as Hfits.
  assert (has_flag FA_DIRTY (set_f_buf b fp) = false) as Hf' by done.
  case_bool_decide as Hin; split; try done; cbn [f_buf f_sect set_f_buf]; rewrite ?Hf', ?Hb; try done.
  - rewrite bytes_at_length; [done|]. unfold SS in *. lia.
  - by apply bytes_at_bytes.
  - intros _ _. unfold sector, wr. replace (Z.to_nat (f_sect fp * SS)) with (Z.to_nat (sect * SS) + Z.to_nat ((f_sect fp - sect) * SS))%nat by (unfold SS in *; lia).
    rewrite <-(bytes_at_bytes_at _ (Z.to_nat (cc * SS))) by (unfold SS in *; lia).
    rewrite bytes_at_patch_eq by (done || unfold SS in *; lia). done.
  - intros Hne _. pose proof (data_sect_range fs _ l _ G Hl (Hbs Hne)) as [Hr Hr0].
    rewrite (wr_other _ cc) by (done || lia). auto.
Qed.

Lemma write_direct_ok F fs d img l fp c buff off btw :
  let p := f_fptr fp in
  fat_rep F fs d img → Forall (valid (n_fatent fs)) l → apart fs l → buf_ok fs img l fp → has_flag FA_DIRTY fp = false →
  in_cluster fs l c p → p `mod` SS = 0 → Forall is_byte buff →
  0 ≤ off → SS ≤ btw < 2 ^ 32 → off + btw ≤ Z.of_nat (length buff) →
  ∃ cc fp' d', let img' := wr (sect_at fs c p) (bytes_at (Z.to_nat off) (Z.to_nat (cc * SS)) buff) img in
    write_direct W fp buff off (p `mod` bcs fs / SS) (sect_at fs c p) (btw / SS) (fs, d) = Ok ((Next (cc * SS), fp'), (fs, d')) ∧
    0 < cc ∧ cc * SS ≤ btw ∧ p `mod` bcs fs / SS + cc ≤ csize fs ∧ fat_rep F fs d' img' ∧ buf_ok fs img' l fp' ∧
    has_flag FA_DIRTY fp' = false ∧ f_fptr fp' = p ∧ f_clust fp' = f_clust fp ∧ same_file fp fp' ∧ frame l fs img fs img'.
Proof using HW.
  intros p Hr Hl Ha Hb Hf Hc Hz Hby Ho Hbt Hlen. pose proof (fr_win _ _ _ _ Hr) as Hw. pose proof (wo_geo _ _ Hw) as G.
  destruct (dsk_bytes _ _ (fr_dsk _ _ _ _ Hr)) as [_ Hmax].
  destruct (sect_at_data fs _ l c p G Hl Hc) as [Hds Hcs]. pose proof (bcs_pos fs _ G) as (_ & Hc64 & Hc0).
  set (csect := p `mod` bcs fs / SS) in *.
  assert (0 < btw / SS ∧ btw / SS * SS ≤ btw) as [Hq0 Hq1].
  { unfold SS in *. split; [apply Z.div_str_pos; lia|]. pose proof (Z.mul_div_le btw 512 ltac:(lia)). lia. }
  assert (btw / SS < 2 ^ 23) as Hq2 by (unfold SS in *; apply Z.div_lt_upper_bound; lia).
  unfold write_direct. ff_run. rewrite (wrap_small 32 (csect + btw / SS)), (wrap_small 32 (csize fs - csect)) by lia.
  set (cc := if csize fs <? csect + btw / SS then csize fs - csect else btw / SS).
  assert (0 < cc ≤ btw / SS ∧ csect + cc ≤ csize fs) as [Hcc Hfit] by (unfold cc; destruct (Z.ltb_spec (csize fs) (csect + btw / SS)); lia).
  assert (valid (n_fatent fs) c) as Hv by (rewrite Forall_lookup in Hl; eapply Hl, Hc).
  pose proof (clust_sect_range fs _ c G Hv) as (Hd0 & Hlo & Hhi).
  assert (sect_at fs c p = clust_sect fs c + csect) as Esec by done. set (sect := sect_at fs c p) in *.
  assert (cc * SS ≤ btw) as Hccb by (unfold SS in *; lia).
  assert (∀ s, sect ≤ s < sect + cc → data_sect fs l s) as Hin.
  { intros s Hs. exists c. split; [eapply list_elem_of_lookup_2, Hc|]. lia. }
  set (bs := bytes_at (Z.to_nat off) (Z.to_nat (cc * SS)) buff).
  assert (length bs = Z.to_nat (cc * SS)) as Hbs by (apply bytes_at_length; unfold SS in *; lia).
  assert (length (drop (Z.to_nat off) buff) = (length buff - Z.to_nat off)%nat) as Hdl by apply length_drop.
  destruct (data_write F fs d img (drop (Z.to_nat off) buff) sect cc) as (d' & Hdw & Hr');
    [done|lia|lia|lia|intros Hs; by apply Ha, Hin|lia|by apply Forall_drop|].
  rewrite (run_bind _ _ _ _ _ Hdw). cbn [negb Z.eqb RES_OK]. fold (bytes_at (Z.to_nat off) (Z.to_nat (cc * SS)) buff) in Hr'. fold bs in Hr'.
  assert (frame l fs img fs (wr sect bs img)) as Hfr.
  { split; [done|apply (wr_n_sect _ cc); (done || lia)|]. intros s Hs _ _ Hns. unfold view. case_if; [done|].
    apply (wr_other _ cc); try done; try lia. intros ?. by apply Hns, Hin. }
  assert (0 ≤ f_sect fp < n_sect img) as Hfs.
  { destruct (decide (f_sect fp = 0)) as [->|Hne]; [lia|]. pose proof (data_sect_range fs _ l _ G Hl (bo_sect _ _ _ _ Hb Hne)). lia. }
  pose proof (refill_ok fs img l fp sect cc bs) as Hrf.
  rewrite (among_test W HW _ _ _ (n_sect img)) by (done || lia). rewrite (wrap_small 32) by (unfold SS in *; lia).
  rewrite (Z.mul_comm SS cc). exists cc. unfold FFFFFFFF in Hmax. case_bool_decide as Hb2.
  - rewrite (dw_small W HW (f_sect fp - sect)) by lia. rewrite (dw_small W HW) by (unfold SS in *; lia).
    pose proof (bo_len _ _ _ _ Hb) as Hbl. rewrite copy_ok by (unfold SS in *; lia). ff_run.
    set (b := patch _ _ _).
    assert (b = bytes_at (Z.to_nat ((f_sect fp - sect) * SS)) (Z.to_nat SS) bs) as Eb.
    { unfold b, bs. rewrite bytes_at_bytes_at by (unfold SS in *; lia).
      replace (Z.to_nat off + Z.to_nat ((f_sect fp - sect) * SS))%nat with (Z.to_nat (off + (f_sect fp - sect) * SS)) by (unfold SS in *; lia).
      unfold patch. rewrite bytes_at_length by (unfold SS in *; lia). rewrite drop_ge by (unfold SS; lia). by rewrite app_nil_r. }
    exists (drop_flag FA_DIRTY (set_f_buf b fp)), d'.
    split; [done|]. split; [lia|]. split; [done|]. split; [done|]. split; [done|]. split; [|split; [apply flag_dropped|]].
    + specialize (Hrf b G Hl Hb Hf ltac:(lia) ltac:(lia) ltac:(lia) Hbs ltac:(by apply bytes_at_bytes) Eb).
      destruct Hrf as [? ? ? Hcl _]. split; try done; [intros Hne _; by apply Hcl|]. by rewrite flag_dropped.
    + split; [done|]. split; [done|]. split; [|done]. do 4 (split; [done|]). intros m' Hm Hr0. exact (flag_kept_drop m' (set_f_buf b fp) Hm Hr0).
  - exists fp, d'. split; [done|]. split; [lia|]. split; [done|]. split; [done|]. split; [done|]. split; [|done].
    specialize (Hrf (f_buf fp) G Hl Hb Hf ltac:(lia) ltac:(lia) ltac:(lia) Hbs ltac:(by apply bytes_at_bytes) eq_refl).
    by destruct fp.
Qed.

(** ** From a sector boundary on *)

Lemma dirty_same_file fp b : same_file fp (add_flag FA_DIRTY (set_f_buf b fp)).
Proof.
  do 4 (split; [done|]). intros m Hm _. unfold has_flag, add_flag. cbn [f_flag set_f_flag set_f_buf].
  by rewrite Z.land_lor_distr_l, (Z.land_comm FA_DIRTY), Hm, Z.lor_0_r.
Qed.

(** The buffer is made the sector [sect]: as it is, read, or new at the end. *)
Lemma write_cached_ok F fs d img l fp c :
  let p := f_fptr fp in let sect := sect_at fs c p in
  fat_rep F fs d img → Forall (valid (n_fatent fs)) l → NoDup l → buf_ok fs img l fp → has_flag FA_DIRTY fp = false →
  in_cluster fs l c p → p `mod` SS = 0 →
  ∃ b d', ((if negb (f_sect fp =? sect) && (p <? objsize (f_obj fp)) then read_buf sect fp else mret (true, fp)) : ff D _) (fs, d) =
      Ok ((true, set_f_buf b fp), (fs, d')) ∧ fat_rep F fs d' img ∧ length b = 512%nat ∧ Forall is_byte b ∧
    stands fs img l (set_f_sect sect (set_f_buf b fp)) (objsize (f_obj fp)) (content fs img l).
Proof.
  intros p sect Hr Hl Hnd Hb Hf Hc Hz. pose proof (wo_geo _ _ (fr_win _ _ _ _ Hr)) as G.
  destruct (sect_at_data fs _ l c p G Hl Hc) as [Hds Hcs]. pose proof (ic_pos _ _ _ _ Hc) as Hp.
  pose proof (data_sect_range fs _ l _ G Hl Hds) as [_ Hs0].
  assert (∀ fp', has_flag FA_DIRTY fp' = false → file_bytes fs img l fp' = content fs img l) as Hclean.
  { intros fp' E. unfold file_bytes, shown. by rewrite E. }
  destruct (Z.eqb_spec (f_sect fp) sect) as [E|E]; [|destruct (Z.ltb_spec p (objsize (f_obj fp))) as [Hlt|Hge]]; cbn [negb andb].
  - exists (f_buf fp), d. assert (set_f_buf (f_buf fp) fp = fp) as -> by by destruct fp.
    split; [done|]. split; [done|]. destruct Hb as [Hbl Hbb Hbs Hbc Hbd] eqn:Eb. split; [done|]. split; [done|].
    rewrite <-E. assert (set_f_sect (f_sect fp) fp = fp) as -> by by destruct fp.
    rewrite <-(Hclean fp Hf). by apply shown_stands.
  - destruct (read_buf_ok F fs d img l fp sect Hr Hl Hb Hf Hds) as (d' & Hrb & Hr' & Hb').
    exists (sector sect img), d'. split; [done|]. split; [done|].
    split; [apply (bo_len _ _ _ _ Hb')|]. split; [apply (bo_bytes _ _ _ _ Hb')|].
    rewrite <-(Hclean (set_f_sect sect (set_f_buf (sector sect img) fp))) by done. by apply shown_stands.
  - exists (f_buf fp), d. assert (set_f_buf (f_buf fp) fp = fp) as -> by by destruct fp.
    split; [done|]. split; [done|]. split; [apply Hb|]. split; [apply Hb|].
    intros i c' Hi Hci. rewrite (content_lookup fs img l c' i) by done. change (f_sect (set_f_sect sect fp)) with sect.
    destruct (Z.eqb_spec (sect_at fs c' i) sect) as [Es|]; [|done]. exfalso.
    destruct (sect_order fs _ l c' i c p G Hnd Hci Hc) as [_ Eo]; [rewrite Es; unfold sect, sect_at; lia|].
    fold sect in Eo. pose proof (Z.div_mod p SS ltac:(done)). pose proof (Z.div_mod i SS ltac:(done)).
    pose proof (Z.mod_pos_bound i SS ltac:(done)). unfold SS in *. lia.
Qed.

Lemma write_sectors_ok F fs d img l fp c buff off btw :
  let p := f_fptr fp in let size := objsize (f_obj fp) in
  fat_rep F fs d img → Forall (valid (n_fatent fs)) l → NoDup l → apart fs l → buf_ok fs img l fp →
  in_cluster fs l c p → f_clust fp = c → p `mod` SS = 0 → size ≤ Z.of_nat (length l) * bcs fs → size < 2 ^ 32 →
  Forall is_byte buff → 0 ≤ off → 0 < btw → p + btw < 2 ^ 32 → off + btw ≤ Z.of_nat (length buff) →
  ∃ n fp' d' img', write_sectors W fp buff off btw (p `mod` bcs fs / SS) (fs, d) = Ok ((Next n, fp'), (fs, d')) ∧
    0 < n ≤ btw ∧ p `mod` bcs fs + n ≤ bcs fs ∧ f_fptr fp' = p ∧ f_clust fp' = c ∧ same_file fp fp' ∧
    (f_sect fp' = sect_at fs c p ∧ p `mod` SS + n ≤ SS ∨ (p + n) `mod` SS = 0) ∧
    fat_rep F fs d' img' ∧ buf_ok fs img' l fp' ∧ frame l fs img fs img' ∧
    wrote p n size buff off (file_bytes fs img l fp) (file_bytes fs img' l fp').
Proof using HW.
  intros p size Hr Hl Hnd Ha Hb Hc Hcl Hz Hsz H32 Hby Ho Hbt Hp32 Hlen. pose proof (wo_geo _ _ (fr_win _ _ _ _ Hr)) as G.
  destruct (dsk_bytes _ _ (fr_dsk _ _ _ _ Hr)) as [_ Hmax]. pose proof (ic_pos _ _ _ _ Hc) as Hp.
  unfold write_sectors. destruct (write_back_ok F fs d img l fp Hr Hl Ha Hb) as (d1 & Hwb & Hr1 & Hb1 & Hfr1).
  rewrite (run_bind _ _ _ _ _ Hwb). cbn [negb]. ff_run.
  destruct (clean_same fp) as (E1 & E2 & E3 & E4 & E5 & E6 & E7 & E8). pose proof (clean_same_file fp) as Hsf. pose proof (clean_flag fp) as Hcf.
  assert (valid (n_fatent fs) c) as Hv by (rewrite Forall_lookup in Hl; eapply Hl, Hc).
  rewrite E4, Hcl. destruct (clst2sect_ok W HW fs (n_sect img) c G Hmax Hv) as [-> Hne]. rewrite (proj2 (Z.eqb_neq _ _) Hne).
  destruct (sect_at_data fs _ l c p G Hl Hc) as [Hds Hcs]. pose proof (data_sect_range fs _ l _ G Hl Hds) as [Hdr _].
  assert (file_bytes fs img l fp = content fs (shown fp img) l) as Efb by done.
  fold (sect_at fs c p). unfold FFFFFFFF in Hmax. pose proof (clust_sect_range fs _ c G Hv).
  rewrite (dw_small W HW (sect_at fs c p)) by lia. rewrite E3. fold p. rewrite E1. fold size.
  pose proof (pos_split fs _ G p ltac:(lia)) as Hsp. rewrite <-(pos_sect fs _ G p) in Hsp by lia.
  pose proof (fm_sects _ _ _ _ _ Hfr1) as Ens1. assert (geometry fs (n_sect (shown fp img))) as G1 by by rewrite Ens1.
  destruct (Z.ltb_spec 0 (btw / SS)) as [Hcc|Hcc].
  - assert (SS ≤ btw) as Hge by (destruct (decide (SS ≤ btw)); [done|]; rewrite Z.div_small in Hcc by lia; lia).
    destruct (write_direct_ok F fs d1 (shown fp img) l (clean fp) c buff off btw)
      as (cc & fp' & d2 & Hrun & Hcc0 & Hccb & Hfit & Hr2 & Hb2 & Hf2 & Hfp & Hfc & Hsf2 & Hfr2);
      [done|done|done|done|done|by rewrite E3|by rewrite E3|done|done|unfold SS in *; lia|done|].
    rewrite E3 in *. fold p in Hrun, Hfit, Hr2, Hb2, Hfp, Hfr2. eexists (cc * SS), fp', d2, _. split; [exact Hrun|].
    split; [unfold SS in *; lia|]. split; [rewrite Hsp; unfold bcs, SS in *; lia|]. split; [done|]. split; [congruence|].
    split; [by transitivity (clean fp)|]. split; [right; by rewrite Z.mod_add|]. split; [done|]. split; [done|].
    split; [by eapply frame_trans|]. rewrite Efb. unfold file_bytes, shown at 2. rewrite Hf2.
    apply (wrote_sectors fs (shown fp img) l c p cc); done || lia.
  - assert (btw < SS) as Hlt.
    { destruct (decide (SS ≤ btw)) as [Hge|]; [|lia]. pose proof (Z.div_str_pos btw SS ltac:(unfold SS in *; lia)). lia. }
    destruct (write_cached_ok F fs d1 (shown fp img) l (clean fp) c) as (b & d2 & Hrun & Hr2 & Hbl & Hbb & Hst);
      [done|done|done|done|done|by rewrite E3|by rewrite E3|].
    rewrite E3, E1 in *. fold p size in Hrun, Hst. rewrite (run_bind _ _ _ _ _ Hrun). cbn [negb].
    destruct (write_part_ok fs (shown fp img) l (set_f_sect (sect_at fs c p) (set_f_buf b (clean fp))) c buff off btw size (content fs (shown fp img) l))
      as (n & b' & Hwp & Hn & Hfit & Hb2 & Hwr); cbn [f_fptr f_buf f_sect set_f_sect set_f_buf]; rewrite ?E3; fold p; try done.
    unfold lift. rewrite Hwp, bind_Ok. cbn [f_fptr set_f_sect set_f_buf] in Hwr, Hfit. rewrite E3 in Hwr, Hfit. fold p in Hwr, Hfit.
    eexists n, _, d2, (shown fp img). split; [done|]. split; [done|]. split; [rewrite Hsp; unfold bcs, SS in *; lia|].
    split; [done|]. split; [by cbn; rewrite E4|]. split.
    { transitivity (clean fp); [done|]. transitivity (set_f_sect (sect_at fs c p) (set_f_buf b (clean fp))); [done|apply dirty_same_file]. }
    split; [by left|]. split; [done|]. split; [done|]. split; [done|]. by rewrite Efb.
Qed.
End write.
