(* ===== verification/FfGrow.v ===== *)
(** * FatFs: files that grow

    Writing cluster by cluster: the chain is followed or stretched, and the
    bytes are written one round after the other. *)

From S2P Require Import Prelude Bytes Ff FfWindow FfFat FfChain FfStay FfDir FfMount FfFile FfData FfPos FfRead FfWrite.

(** The clusters [l] of a file became [l'], the table [F] became [F']: chains
    apart from the file are what they were. *)
Definition extends (n : Z) (F : Z → Z) (l : list Z) (F' : Z → Z) (l' : list Z) : Prop :=
  l `prefix_of` l' ∧ ∀ c0 l0, chain n F c0 l0 → l0 ## l → chain n F' c0 l0 ∧ l0 ## l'.

Lemma extends_refl n F l : extends n F l F l.
Proof. split; [done|auto]. Qed.

Lemma extends_trans n F l F1 l1 F2 l2 : extends n F l F1 l1 → extends n F1 l1 F2 l2 → extends n F l F2 l2.
Proof. intros [P1 A1] [P2 A2]. split; [by etrans|]. intros c0 l0 Hc Hd. destruct (A1 _ _ Hc Hd). auto. Qed.

(** The clusters kept their contents and their places. *)
Lemma prefix_content fs n img img' l l' i :
  geometry fs n → n ≤ n_sect img → n_sect img' = n_sect img → Forall (valid (n_fatent fs)) l' → l `prefix_of` l' →
  (∀ s, data_sect fs l s → sector s img' = sector s img) → (i < length l * Z.to_nat (bcs fs))%nat →
  content fs img' l' !! i = content fs img l !! i.
Proof.
  intros G Hn Hn' Hl' [k ->] E Hi. apply Forall_app in Hl' as [Hl _].
  destruct (content_length fs n l img G Hn Hl) as [_ Hc1]. destruct (content_length fs n l img' G ltac:(lia) Hl) as [_ Hc2].
  assert (content fs img' (l ++ k) = content fs img' l ++ content fs img' k) as ->.
  { unfold content. by rewrite fmap_app, concat_app. }
  rewrite lookup_app_l by lia. f_equal. by apply (content_ext fs n).
Qed.

Section grow.
Context {D : Type} `{Disk D} (W : Z).
Hypothesis HW : 32 ≤ W.

Implicit Types (fs : FATFS) (d : D) (img : list Z) (F : Z → Z) (fp : FIL).

(** The count of free clusters and the place of the last one are sound. *)
Definition alloc_ok F fs : Prop := free_ok F fs ∧ 0 ≤ last_clst fs < 2 ^ 32.

Lemma alloc_keeps F fs fs' : same_volume fs fs' → same_alloc fs fs' → alloc_ok F fs → alloc_ok F fs'.
Proof.
  intros V A [Hf Hl]. split; [by apply (free_keeps F fs)|]. destruct A as (_ & -> & _). done.
Qed.

(** The clusters the file has or could get. *)
Definition capacity (n : Z) F (l : list Z) : Z := Z.of_nat (length l) + n_free n F.

(** The file with [c] as its current cluster. *)
Definition on_cluster (c : Z) fp : FIL :=
  let fp := set_f_clust c fp in if sclust (f_obj fp) =? 0 then set_f_obj (set_sclust c (f_obj fp)) fp else fp.

(** What [write_clust] does when there is a cluster to write to. *)
Record clust_ready F fs img l fp c F' l' fs' d' img' : Prop := {
  cr_in : in_cluster fs' l' c (f_fptr fp);
  cr_rep : fat_rep F' fs' d' img';
  cr_alloc : alloc_ok F' fs';
  cr_same : data_same fs img fs' img';
  cr_ext : extends (n_fatent fs) F l F' l';
  cr_cap : capacity (n_fatent fs) F' l' = capacity (n_fatent fs) F l;
  cr_chain : chain (n_fatent fs) F' (sclust (f_obj (on_cluster c fp))) l';
  cr_apart : apart fs' l';
  cr_data : ∀ s, data_sect fs l s → sector s img' = sector s img;
}.

(** On a cluster boundary inside the clusters of the file. *)
Lemma write_clust_follow F fs d img l fp :
  let p := f_fptr fp in
  fat_rep F fs d img → file_ok F fs img l fp → alloc_ok F fs → p `mod` bcs fs = 0 → p < Z.of_nat (length l) * bcs fs →
  ∃ c fs' d' img', write_clust W fp (fs, d) = Ok ((Next 0, on_cluster c fp), (fs', d')) ∧
    clust_ready F fs img l fp c F l fs' d' img'.
Proof using HW.
  intros p Hr Hf Hal Hz Hlt. pose proof (fr_win _ _ _ _ Hr) as Hw. pose proof (wo_geo _ _ Hw) as G.
  destruct (dsk_bytes _ _ (fr_dsk _ _ _ _ Hr)) as [_ Hmax].
  pose proof (fo_valid _ _ _ _ _ Hf) as Hl. pose proof Hf as [Hch Hsz Hmx Hp2 Hap Hb [Hpr Hpc Hps]].
  fold p in Hpr, Hpc, Hps. destruct (in_cluster_ex fs _ l p G ltac:(lia) Hlt) as [c Hc].
  assert (valid (n_fatent fs) c) as Hv by (rewrite Forall_lookup in Hl; eapply Hl, Hc).
  destruct Hch as [[-> _]|Hch]; [simpl in Hlt; lia|].
  assert (valid (n_fatent fs) (sclust (f_obj fp))) as Hvs by by inversion Hch.
  pose proof (geo_ents _ _ G) as Hents. pose proof (bcs_pos fs _ G) as (Hb0 & _ & _). unfold valid, SS in *.
  assert (∀ x, 2 ≤ x < n_fatent fs → (x =? 0) = false ∧ (x =? 1) = false ∧ (x =? FFFFFFFF) = false) as Htest.
  { intros x Hx. rewrite !(proj2 (Z.eqb_neq _ _)) by (unfold FFFFFFFF; lia). done. }
  assert (chain (n_fatent fs) F (sclust (f_obj (on_cluster c fp))) l) as Hch'.
  { unfold on_cluster. cbn [f_obj set_f_clust]. by rewrite (proj1 (Htest _ Hvs)). }
  unfold write_clust. fold p. destruct (Z.eqb_spec p 0) as [Hp0|Hp0].
  - assert (sclust (f_obj fp) = c) as Ec.
    { apply chain_head in Hch. destruct Hc as [_ Hc]. fold p in Hc. rewrite Hp0, Z.div_0_l in Hc by lia.
      change (Z.to_nat 0) with 0%nat in Hc. congruence. }
    destruct (Htest _ Hvs) as (T0 & T1 & T2). rewrite T0. ff_run. rewrite T0, T1, T2.
    exists c, fs, d, img. split; [unfold on_cluster; cbn [f_obj set_f_clust]; by rewrite Ec|].
    by split.
  - specialize (Hpc ltac:(lia)). rewrite (pos_before fs _ G p), Hz in Hpc by lia. cbn [Z.eqb] in Hpc.
    destruct Hc as [Hc1 Hc2] eqn:Ehc. fold p in Hc2.
    assert (1 ≤ p / bcs fs) as Hq.
    { pose proof (Z.div_mod p (bcs fs) ltac:(lia)). pose proof (Z.div_pos p (bcs fs) ltac:(lia) ltac:(lia)). nia. }
    pose proof Hc2 as Hc3. replace (Z.to_nat (p / bcs fs)) with (S (Z.to_nat (p / bcs fs - 1))) in Hc3 by lia.
    pose proof (chain_lookup _ _ _ _ _ _ _ Hch Hpc Hc3) as HF.
    assert (2 ≤ f_clust fp < n_fatent fs) as Hvc by (rewrite Forall_lookup in Hl; by eapply Hl).
    destruct (create_follows W HW F fs d img (f_clust fp) Hr Hvc) as (fs' & d' & img' & Hcf & Hr' & Hk); [by rewrite HF|].
    rewrite HF in Hcf. rewrite (run_bind _ _ _ _ _ Hcf). destruct (Htest _ Hv) as (T0 & T1 & T2). rewrite T0, T1, T2.
    assert (at_fat fs fs') as Hat by (by eapply (create_chain_stays W HW fs); [..|exact Hcf]).
    destruct (data_stays fs img fs' img' l Hw Hl (keeps_data _ _ _ _ Hk) Hat Hap Hmax) as [Hap' Ed].
    exists c, fs', d', img'. split; [done|]. pose proof (kv_volume _ _ _ _ Hk) as V.
    destruct (same_volume_data fs fs' V) as (_ & _ & _ & Eb & _).
    split; try done; [split; [done|by rewrite Eb]|apply (alloc_keeps F fs); [done|apply Hk|done]|by apply keeps_data].
Qed.

(** The end of the chain [l] of a file with first cluster [s] (none and 0 for
    an empty file): [clst] is where [create_chain] stretches it. *)
Definition chain_tail F fs (l : list Z) (s clst : Z) : Prop :=
  l = [] ∧ clst = 0 ∧ s = 0 ∨ chain (n_fatent fs) F s l ∧ last l = Some clst.

(** The chain grew by the cluster [c]. *)
Record chain_grown F fs img l s c F' fs' (d' : D) img' : Prop := {
  cg_valid : valid (n_fatent fs) c;
  cg_rep : fat_rep F' fs' d' img';
  cg_alloc : alloc_ok F' fs';
  cg_same : data_same fs img fs' img';
  cg_at : at_fat fs fs';
  cg_ext : extends (n_fatent fs) F l F' (l ++ [c]);
  cg_cap : capacity (n_fatent fs) F' (l ++ [c]) = capacity (n_fatent fs) F l;
  cg_chain : chain (n_fatent fs) F' (if s =? 0 then c else s) (l ++ [c]);
  cg_apart : apart fs' (l ++ [c]);
  cg_data : ∀ x, data_sect fs l x → sector x img' = sector x img;
}.

(** At the end of the clusters of a file: a new one, or none is free. *)
Lemma stretch_chain F fs d img l s clst :
  fat_rep F fs d img → Forall (valid (n_fatent fs)) l → apart fs l → alloc_ok F fs → chain_tail F fs l s clst →
  (∃ fs' d' img', create_chain W clst (fs, d) = Ok (0, (fs', d')) ∧ fat_rep F fs' d' img' ∧ alloc_ok F fs' ∧
     data_same fs img fs' img' ∧ at_fat fs fs' ∧ ∀ c, valid (n_fatent fs) c → F c ≠ 0) ∨
  (∃ c F' fs' d' img', create_chain W clst (fs, d) = Ok (c, (fs', d')) ∧ chain_grown F fs img l s c F' fs' d' img').
Proof using HW.
  intros Hr Hl Hap [Hfree Hlast] Hcase. pose proof (fr_win _ _ _ _ Hr) as Hw. pose proof (wo_geo _ _ Hw) as G.
  destruct (dsk_bytes _ _ (fr_dsk _ _ _ _ Hr)) as [_ Hmax].
  assert (clst = 0 ∨ valid (n_fatent fs) clst ∧ n_fatent fs ≤ F clst) as Hcl.
  { destruct Hcase as [(_ & ? & _)|(Hc & Hla)]; [by left|right; by eapply chain_end]. }
  destruct (create_chain_ok W HW F fs d img clst) as (r & fs' & d' & img' & Hcr & Hr' & Hf' & Hds & Hl' & Hres); [done..|].
  unfold created in *. assert (at_fat fs fs') as Hat by (by eapply (create_chain_stays W HW fs); [..|exact Hcr]).
  destruct (Z.eqb_spec r 0) as [->|Hr0]; [left; by exists fs', d', img'|]. right. destruct Hres as (Hv & HF0 & Hin).
  exists r, (linked fs clst r F), fs', d', img'. split; [done|]. pose proof (ds_volume _ _ _ _ Hds) as V.
  destruct (same_volume_data fs fs' V) as (_ & Ed & _ & Eb & _).
  destruct (data_stays fs img fs' img' l Hw Hl Hds Hat Hap Hmax) as [_ Edat].
  assert (∀ c0 l0, chain (n_fatent fs) F c0 l0 → l0 ## l → l0 ## l ++ [r]) as Hdisj.
  { intros c0 l0 Hc0 Hd0. pose proof (free_not_in _ _ _ _ r Hc0 HF0). set_solver. }
  split; try done.
  - split; [by apply prefix_app_r|]. intros c0 l0 Hc0 Hd0. split; [|by eapply Hdisj].
    destruct Hcase as [(-> & -> & _)|(Hc & Hla)].
    + by apply (proj2 (linked_new fs _ F r G Hv HF0)).
    + by apply (proj2 (linked_chain fs _ F _ l clst r G Hc Hla Hv HF0)).
  - unfold capacity. rewrite (n_free_linked F fs (n_sect img)), length_app by done. simpl. lia.
  - destruct Hcase as [(-> & -> & ->)|(Hc & Hla)].
    + apply (proj1 (linked_new fs _ F r G Hv HF0)).
    + assert (valid (n_fatent fs) s) as Hvs by by inversion Hc.
      rewrite (proj2 (Z.eqb_neq _ _)) by (unfold valid in Hvs; lia).
      apply (proj1 (linked_chain fs _ F _ l clst r G Hc Hla Hv HF0)).
  - unfold apart. rewrite Ed. intros Hs. assert (Forall (valid (n_fatent fs)) (l ++ [r])) as Hl2 by (apply Forall_app; by split; [|constructor]).
    pose proof (data_sect_range fs _ _ _ G Hl2 Hs) as [Hran _]. by destruct (not_in_fat fs _ _ G (proj1 Hran)).
Qed.

(** The same for a write at the end of the clusters. *)
Lemma write_clust_stretch F fs d img l fp :
  let p := f_fptr fp in
  fat_rep F fs d img → file_ok F fs img l fp → alloc_ok F fs → p = Z.of_nat (length l) * bcs fs → p < 2 ^ 32 →
  (∃ fs' d' img', write_clust W fp (fs, d) = Ok ((Break, fp), (fs', d')) ∧ fat_rep F fs' d' img' ∧ alloc_ok F fs' ∧
     data_same fs img fs' img' ∧ at_fat fs fs' ∧ ∀ c, valid (n_fatent fs) c → F c ≠ 0) ∨
  (∃ c F' fs' d' img', write_clust W fp (fs, d) = Ok ((Next 0, on_cluster c fp), (fs', d')) ∧
     clust_ready F fs img l fp c F' (l ++ [c]) fs' d' img').
Proof using HW.
  intros p Hr Hf Hal Ep Hp32. pose proof (wo_geo _ _ (fr_win _ _ _ _ Hr)) as G. pose proof (bcs_pos fs _ G) as (Hb0 & _ & _). unfold SS in Hb0.
  pose proof (fo_valid _ _ _ _ _ Hf) as Hl. pose proof Hf as [Hch Hsz Hmx Hp2 Hap Hb [Hpr Hpc Hps]]. fold p in Hpr, Hpc, Hps.
  set (clst := if p =? 0 then 0 else f_clust fp).
  assert (chain_tail F fs l (sclust (f_obj fp)) clst) as Htail.
  { unfold clst. destruct (Z.eqb_spec p 0) as [E|E].
    - left. assert (l = []) as -> by (destruct l; [done|simpl in Ep; lia]).
      destruct Hch as [[_ ?]|Hch]; [done|]. by apply chain_head in Hch.
    - right. destruct Hch as [[-> _]|Hch]; [simpl in Ep; lia|]. split; [done|].
      specialize (Hpc ltac:(lia)). rewrite last_lookup.
      assert ((p - 1) / bcs fs = Z.of_nat (length l) - 1) as Eq by (symmetry; apply (Z.div_unique_pos _ _ _ (bcs fs - 1)); lia).
      rewrite Eq in Hpc. rewrite <-Hpc. f_equal. lia. }
  assert (write_clust W fp (fs, d) = (clst ← create_chain W clst;
    if clst =? 0 then mret (Break, fp) else if clst =? 1 then mret (Abort FR_INT_ERR, fp) else
    if clst =? FFFFFFFF then mret (Abort FR_DISK_ERR, fp) else mret (Next 0, on_cluster clst fp)) (fs, d)) as ->.
  { unfold write_clust. fold p. unfold clst, mbind, ff_bind. destruct (Z.eqb_spec p 0) as [E|E]; [|done].
    destruct Htail as [(_ & _ & ->)|(Hc & _)]; [done|]. exfalso. assert (l = []) as -> by (destruct l; [done|simpl in Ep; lia]). by inversion Hc. }
  destruct (stretch_chain F fs d img l _ clst Hr Hl Hap Hal Htail) as [(fs' & d' & img' & Hcr & ?)|(c & F' & fs' & d' & img' & Hcr & Hg)];
    rewrite (run_bind _ _ _ _ _ Hcr); [left; by exists fs', d', img'|]. right. destruct Hg as [Hv Hr' Hal' Hds Hat Hext Hcap Hchn Hap' Hdat].
  assert ((c =? 0) = false ∧ (c =? 1) = false ∧ (c =? FFFFFFFF) = false) as (-> & -> & ->).
  { pose proof (geo_ents _ _ G). unfold valid, FFFFFFFF in *. rewrite !(proj2 (Z.eqb_neq _ _)) by lia. done. }
  destruct (same_volume_data fs fs' (ds_volume _ _ _ _ Hds)) as (_ & _ & _ & Eb & _).
  exists c, F', fs', d', img'. split; [done|]. split; try done.
  - split; [fold p; lia|]. fold p. rewrite Eb, Ep, Z.div_mul, Nat2Z.id by lia. by apply list_lookup_middle.
  - unfold on_cluster. cbn [f_obj set_f_clust]. by destruct (sclust (f_obj fp) =? 0).
Qed.

(** ** A round *)

(** What writing leaves of a file object. *)
Definition same_open fp fp' : Prop :=
  obj_fs (f_obj fp') = obj_fs (f_obj fp) ∧ obj_id (f_obj fp') = obj_id (f_obj fp) ∧ f_err fp' = f_err fp ∧
  f_dir_sect fp' = f_dir_sect fp ∧ f_dir_ptr fp' = f_dir_ptr fp ∧
  ∀ m, Z.land m FA_DIRTY = 0 → 0 ≤ m < 64 → has_flag m fp' = has_flag m fp.

#[local] Instance same_open_preorder : PreOrder same_open.
Proof.
  split; [by intros fp|]. intros a b c (A1 & A2 & A3 & A4 & A5 & A6) (B1 & B2 & B3 & B4 & B5 & B6).
  do 5 (split; [congruence|]). intros m Hm Hr. by rewrite B6, A6.
Qed.

Lemma same_file_open fp fp' : same_file fp fp' → same_open fp fp'.
Proof.
  intros (E1 & E2 & E3 & E4 & E5). unfold same_open. rewrite E1, E2, E3, E4. do 5 (split; [done|]).
  intros m Hm Hr. apply E5; [done|lia].
Qed.

Lemma on_cluster_same c fp :
  same_open fp (on_cluster c fp) ∧ f_fptr (on_cluster c fp) = f_fptr fp ∧ f_clust (on_cluster c fp) = c ∧
  objsize (f_obj (on_cluster c fp)) = objsize (f_obj fp) ∧ f_sect (on_cluster c fp) = f_sect fp ∧
  f_buf (on_cluster c fp) = f_buf fp ∧ f_flag (on_cluster c fp) = f_flag fp.
Proof. unfold on_cluster. cbn [f_obj set_f_clust]. by destruct (sclust (f_obj fp) =? 0). Qed.

(** The file pointer and the size after [n] bytes, as the loop sets them. *)
Definition moved (n : Z) fp : FIL :=
  set_f_obj (set_objsize (Z.max (objsize (f_obj fp)) (f_fptr fp + n)) (f_obj fp)) (set_f_fptr (f_fptr fp + n) fp).

(** [n] bytes were written. *)
Record round_done F fs img l fp buff off btw n F' l' fp' fs' d' img' : Prop := {
  rd_n : 0 < n ≤ btw;
  rd_ptr : f_fptr fp' = f_fptr fp ∧ objsize (f_obj fp') = objsize (f_obj fp);
  rd_open : same_open fp fp';
  rd_rep : fat_rep F' fs' d' img';
  rd_alloc : alloc_ok F' fs';
  rd_file : file_ok F' fs' img' l' (moved n fp');
  rd_ext : extends (n_fatent fs) F l F' l';
  rd_cap : capacity (n_fatent fs) F' l' = capacity (n_fatent fs) F l;
  rd_frame : frame l' fs img fs' img';
  rd_wrote : wrote (f_fptr fp) n (objsize (f_obj fp)) buff off (file_bytes fs img l fp) (file_bytes fs' img' l' fp');
}.

Lemma moved_ok F fs img l fp c n m :
  geometry fs m → in_cluster fs l c (f_fptr fp) → f_clust fp = c → 0 < n →
  f_fptr fp `mod` bcs fs + n ≤ bcs fs → f_fptr fp + n < 2 ^ 32 → f_fptr fp ≤ objsize (f_obj fp) →
  (f_sect fp = sect_at fs c (f_fptr fp) ∧ f_fptr fp `mod` SS + n ≤ SS ∨ (f_fptr fp + n) `mod` SS = 0) →
  chain (n_fatent fs) F (sclust (f_obj fp)) l → objsize (f_obj fp) ≤ Z.of_nat (length l) * bcs fs →
  objsize (f_obj fp) < 2 ^ 32 → pow2_csize fs → apart fs l → buf_ok fs img l fp → file_ok F fs img l (moved n fp).
Proof.
  intros G Hc Hcl Hn Hfit H32 Hpos Hcase Hch Hsz Hs32 Hp2 Hap Hb. pose proof (ic_pos _ _ _ _ Hc) as Hp.
  set (fp1 := set_f_obj (set_objsize (Z.max (objsize (f_obj fp)) (f_fptr fp + n)) (f_obj fp)) fp).
  assert (moved n fp = set_f_fptr (f_fptr fp1 + n) fp1) as -> by done.
  assert (f_fptr fp + n ≤ Z.of_nat (length l) * bcs fs) as Hle.
  { pose proof (lookup_lt_Some _ _ _ (ic_clust _ _ _ _ Hc)) as Hlt. pose proof (bcs_pos fs m G) as (Hb0 & _ & _). unfold SS in Hb0.
    pose proof (Z.div_mod (f_fptr fp) (bcs fs) ltac:(lia)). pose proof (Z.div_pos (f_fptr fp) (bcs fs) ltac:(lia) ltac:(lia)). nia. }
  split; cbn [f_obj fp1 set_f_obj set_f_fptr sclust objsize set_objsize]; try done; [by right|lia|lia|by destruct Hb; split|].
  apply (advance fs m l fp1 c); try done. cbn. lia.
Qed.

Lemma write_round_part F fs d img l fp buff off btw :
  let p := f_fptr fp in
  fat_rep F fs d img → file_ok F fs img l fp → alloc_ok F fs → p `mod` SS ≠ 0 → Forall is_byte buff →
  0 ≤ off → 0 < btw → p + btw < 2 ^ 32 → off + btw ≤ Z.of_nat (length buff) →
  ∃ n fp', write_round W fp buff off btw (fs, d) = Ok ((Next n, fp'), (fs, d)) ∧
    round_done F fs img l fp buff off btw n F l fp' fs d img.
Proof.
  intros p Hr Hf Hal Hz Hby Ho Hbt Hp32 Hlen. pose proof (wo_geo _ _ (fr_win _ _ _ _ Hr)) as G.
  pose proof (fo_valid _ _ _ _ _ Hf) as Hl. pose proof Hf as [Hch Hs Hmx Hp2 Hap Hb [Hpr Hpc Hps]]. fold p in Hpr, Hpc, Hps.
  unfold write_round. fold p. rewrite (proj2 (Z.eqb_neq _ _)) by done.
  assert (0 < p) as Hp0 by (destruct (decide (p = 0)) as [E|]; [by rewrite E in Hz|lia]). specialize (Hpc Hp0). specialize (Hps Hz).
  assert (p `mod` bcs fs ≠ 0) as Hnz by (intros E; apply Hz; rewrite <-(mod_bcs_SS fs _ G) by lia; by rewrite E).
  rewrite (pos_before fs _ G p Hp0), (proj2 (Z.eqb_neq _ _) Hnz) in Hpc.
  assert (in_cluster fs l (f_clust fp) p) as Hin by (split; [lia|done]).
  destruct Hch as [[-> _]|Hch]; [done|].
  destruct (write_part_ok fs img l fp (f_clust fp) buff off btw (objsize (f_obj fp)) (file_bytes fs img l fp))
    as (n & b & Hwp & Hn & Hfit & Hb' & Hwr); try done; [by eapply cluster_chain_NoDup|apply Hb|apply Hb|by apply shown_stands|lia|].
  fold p in Hfit, Hwr. unfold lift. rewrite Hwp, bind_Ok. eexists n, _. split; [done|].
  destruct (sect_at_data fs _ l _ p G Hl Hin) as [_ Hcs]. pose proof (pos_split fs _ G p ltac:(lia)) as Hsp.
  rewrite <-(pos_sect fs _ G p) in Hsp by lia.
  split; try done; [apply same_file_open, dirty_same_file|].
  apply (moved_ok F fs img l _ (f_clust fp) n (n_sect img)); cbn; fold p; try done; try lia.
  - rewrite Hsp. unfold bcs, SS in *. lia.
  - by left.
Qed.

(** A file of which the chain became longer and the buffer stayed shows the
    bytes it showed. *)
Lemma grown_bytes F fs img l fp l1 fs1 img1 fp1 :
  geometry fs (n_sect img) → geometry fs1 (n_sect img1) → file_ok F fs img l fp → data_same fs img fs1 img1 →
  l `prefix_of` l1 → Forall (valid (n_fatent fs)) l1 → (∀ s, data_sect fs l s → sector s img1 = sector s img) →
  f_sect fp1 = f_sect fp → f_buf fp1 = f_buf fp → has_flag FA_DIRTY fp1 = has_flag FA_DIRTY fp →
  buf_ok fs1 img1 l1 fp1 ∧ objsize (f_obj fp) ≤ Z.of_nat (length l1) * bcs fs1 ∧
  ∀ i, 0 ≤ i < objsize (f_obj fp) → file_bytes fs1 img1 l1 fp1 !! Z.to_nat i = file_bytes fs img l fp !! Z.to_nat i.
Proof using HW.
  intros G G1 Hf Hds Hpre Hl1 Hdat E4 E5 E7. pose proof (fo_valid _ _ _ _ _ Hf) as Hl. pose proof Hf as [_ Hsz Hmx Hp2 Hap Hb _].
  pose proof (ds_volume _ _ _ _ Hds) as V. destruct (same_volume_data fs fs1 V) as (_ & Ed & Eco & Eb & Ecz).
  assert (n_fatent fs1 = n_fatent fs) as En by apply V. pose proof (ds_sects _ _ _ _ Hds) as Ens.
  assert (∀ s, data_sect fs l s → data_sect fs l1 s) as Hsub.
  { intros s (x & Hx & Hs). exists x. split; [|done]. destruct Hpre as [k ->]. set_solver. }
  assert (buf_ok fs1 img1 l1 fp1) as Hb1.
  { pose proof (buf_ok_data fs img fs1 img1 l fp V Hdat Hb) as [? ? Hbs ? ?]. split; rewrite ?E4, ?E5, ?E7; try done.
    intros Hne. apply Ed, Hsub, Ed. auto. }
  split; [done|]. assert (length l ≤ length l1)%nat as Hlen1 by by apply prefix_length.
  pose proof (bcs_pos fs _ G) as (Hb0 & _ & _). unfold SS in Hb0. split; [rewrite Eb; nia|].
  intros i Hi. unfold file_bytes. assert (shown fp1 img1 = shown fp img1) as -> by (unfold shown; by rewrite E7, E4, E5).
  rewrite Eco. destruct (shown_sects fs img l fp G Hl Hb) as (Es & _).
  assert (n_sect (shown fp img1) = n_sect img1) as Es1.
  { destruct (shown_sects fs1 img1 l1 fp1 G1 ltac:(by rewrite En) Hb1) as (Es1 & _). by unfold shown in *; rewrite E7, E4, E5 in Es1. }
  apply (prefix_content fs (n_sect img)); [done|lia|by rewrite Es1, Es|done|done|by apply shown_data|nia].
Qed.

(** From a sector boundary on, when the cluster is ready. *)
Lemma write_round_sectors F fs (d : D) img l fp c F1 l1 fs1 (d1 : D) img1 buff off btw :
  let p := f_fptr fp in
  fat_rep F fs d img → file_ok F fs img l fp → clust_ready F fs img l fp c F1 l1 fs1 d1 img1 →
  p `mod` SS = 0 → Forall is_byte buff → 0 ≤ off → 0 < btw → p + btw < 2 ^ 32 → off + btw ≤ Z.of_nat (length buff) →
  ∃ n fp' d' img', write_sectors W (on_cluster c fp) buff off btw (p `mod` bcs fs / SS) (fs1, d1) = Ok ((Next n, fp'), (fs1, d')) ∧
    round_done F fs img l fp buff off btw n F1 l1 fp' fs1 d' img'.
Proof using HW.
  intros p Hr Hf [Hin Hr1 Hal1 Hds Hext Hcap Hch1 Hap1 Hdat] Hz Hby Ho Hbt Hp32 Hlen.
  pose proof (wo_geo _ _ (fr_win _ _ _ _ Hr)) as G. pose proof (wo_geo _ _ (fr_win _ _ _ _ Hr1)) as G1.
  pose proof (fo_valid _ _ _ _ _ Hf) as Hl. pose proof Hf as [_ Hsz Hmx Hp2 Hap Hb [Hpr _ _]]. fold p in Hpr.
  pose proof (ds_volume _ _ _ _ Hds) as V. destruct (same_volume_data fs fs1 V) as (_ & Ed & Eco & Eb & Ecz).
  assert (n_fatent fs1 = n_fatent fs) as En by apply V. pose proof (ds_sects _ _ _ _ Hds) as Ens.
  destruct (on_cluster_same c fp) as (Hso & E1 & E2 & E3 & E4 & E5 & E6). set (fp1 := on_cluster c fp) in *.
  assert (has_flag FA_DIRTY fp1 = has_flag FA_DIRTY fp) as E7 by (unfold has_flag; by rewrite E6).
  assert (Forall (valid (n_fatent fs)) l1) as Hl1 by (eapply Forall_impl; [by eapply chain_used|]; naive_solver).
  destruct Hext as [Hpre Hothers].
  destruct (grown_bytes F fs img l fp l1 fs1 img1 fp1 G G1 Hf Hds Hpre Hl1 Hdat E4 E5 E7) as (Hb1 & Hsz1 & Hfb).
  destruct (write_sectors_ok W HW F1 fs1 d1 img1 l1 fp1 c buff off btw)
    as (n & fp' & d2 & img2 & Hrun & Hn & Hfit & Hfp & Hfc & Hsf & Hpos & Hr2 & Hb2 & Hfr2 & Hwr);
    rewrite ?E1, ?E3, ?En; try done; [by eapply cluster_chain_NoDup|].
  rewrite E1, Eb in Hrun. fold p in Hrun. exists n, fp', d2, img2. split; [exact Hrun|]. rewrite E1 in Hfit, Hfp, Hpos. fold p in Hfit, Hfp, Hpos.
  assert (f_obj fp' = f_obj fp1) as Eo by apply Hsf. split; try done.
  - split; [done|]. by rewrite Eo.
  - transitivity fp1; [done|]. by apply same_file_open.
  - apply (moved_ok F1 fs1 img2 l1 fp' c n (n_sect img1)); rewrite ?Eo, ?Hfp, ?E3; try done; try lia.
    + by rewrite En.
    + unfold pow2_csize. by rewrite Ecz.
  - apply (frame_trans _ _ _ fs1 img1); [by apply data_frame|done].
  - rewrite E1, E3 in Hwr. fold p in Hwr |- *. destruct Hwr as [A B]. split; [done|]. intros i Hi Hni. rewrite B by done. by apply Hfb.
Qed.

(** A round writes, or finds the volume full. *)
Lemma write_round_ok F fs d img l fp buff off btw :
  let p := f_fptr fp in
  fat_rep F fs d img → file_ok F fs img l fp → alloc_ok F fs → Forall is_byte buff →
  0 ≤ off → 0 < btw → p + btw < 2 ^ 32 → off + btw ≤ Z.of_nat (length buff) →
  (∃ fs' d' img', write_round W fp buff off btw (fs, d) = Ok ((Break, fp), (fs', d')) ∧ fat_rep F fs' d' img' ∧ alloc_ok F fs' ∧
     file_ok F fs' img' l fp ∧ file_bytes fs' img' l fp = file_bytes fs img l fp ∧ frame l fs img fs' img' ∧
     p = Z.of_nat (length l) * bcs fs ∧ ∀ c, valid (n_fatent fs) c → F c ≠ 0) ∨
  (∃ n F' l' fp' fs' d' img', write_round W fp buff off btw (fs, d) = Ok ((Next n, fp'), (fs', d')) ∧
     round_done F fs img l fp buff off btw n F' l' fp' fs' d' img').
Proof using HW.
  intros p Hr Hf Hal Hby Ho Hbt Hp32 Hlen. destruct (decide (p `mod` SS = 0)) as [Hz|Hz].
  2:{ right. destruct (write_round_part F fs d img l fp buff off btw) as (n & fp' & Hrun & Hd); try done. by eexists n, F, l, fp', fs, d, img. }
  pose proof (fr_win _ _ _ _ Hr) as Hw. pose proof (wo_geo _ _ Hw) as G. destruct (dsk_bytes _ _ (fr_dsk _ _ _ _ Hr)) as [_ Hmax].
  pose proof (fo_valid _ _ _ _ _ Hf) as Hl. pose proof Hf as [Hch Hsz Hmx Hp2 Hap Hb [Hpr Hpc Hps]]. fold p in Hpr, Hpc, Hps.
  pose proof (bcs_pos fs _ G) as (Hb0 & Hc64 & Hc0). unfold write_round. fold p. rewrite Hz. cbn [Z.eqb]. ff_run.
  pose proof (Z.div_pos p SS ltac:(lia) ltac:(done)). assert (p / SS ≤ p) by (apply Z.div_le_upper_bound; unfold SS; lia).
  rewrite (wrap_small 32 (p / SS)) by lia. rewrite (csect_mod fs), <-(pos_sect fs _ G) by (done || lia).
  pose proof (pos_split fs _ G p ltac:(lia)) as Hsp. rewrite <-(pos_sect fs _ G p) in Hsp by lia.
  destruct (Z.eqb_spec (p `mod` bcs fs / SS) 0) as [Hcs|Hcs].
  - assert (p `mod` bcs fs = 0) as Hbz by lia.
    destruct (decide (p < Z.of_nat (length l) * bcs fs)) as [Hlt|Hge].
    + destruct (write_clust_follow F fs d img l fp Hr Hf Hal Hbz Hlt) as (c & fs1 & d1 & img1 & Hwc & Hrdy).
      destruct (write_round_sectors F fs d img l fp c F l fs1 d1 img1 buff off btw) as (n & fp' & d2 & img2 & Hrun & Hd); try done.
      right. exists n, F, l, fp', fs1, d2, img2. split; [|done]. rewrite (run_bind _ _ _ _ _ Hwc). cbv beta iota. fold p in Hrun. exact Hrun.
    + destruct (write_clust_stretch F fs d img l fp Hr Hf Hal) as [(fs1 & d1 & img1 & Hwc & Hr1 & Hal1 & Hds & Hat & Hfull)|(c & F1 & fs1 & d1 & img1 & Hwc & Hrdy)];
        [fold p; lia|fold p; lia| |].
      * left. exists fs1, d1, img1. rewrite (run_bind _ _ _ _ _ Hwc). split; [done|]. split; [done|]. split; [done|].
        destruct (file_stays F fs img fs1 img1 l fp Hw Hmax Hf Hds Hat) as [Hf1 Hfb1]. split; [done|]. split; [done|].
        split; [by apply data_frame|]. split; [fold p; lia|done].
      * destruct (write_round_sectors F fs d img l fp c F1 (l ++ [c]) fs1 d1 img1 buff off btw) as (n & fp' & d2 & img2 & Hrun & Hd); try done.
        right. exists n, F1, (l ++ [c]), fp', fs1, d2, img2. split; [|done]. rewrite (run_bind _ _ _ _ _ Hwc). cbv beta iota. fold p in Hrun. exact Hrun.
  - assert (0 < p) as Hp0.
    { destruct (decide (p = 0)) as [E|]; [|lia]. rewrite E in Hcs. unfold SS in *. by rewrite Z.mod_0_l in Hcs by lia. }
    specialize (Hpc Hp0). rewrite (pos_before fs _ G p Hp0), (proj2 (Z.eqb_neq _ _)) in Hpc by (unfold SS in *; lia).
    destruct Hch as [[-> _]|Hch]; [done|]. assert (valid (n_fatent fs) (sclust (f_obj fp))) as Hvs by by inversion Hch.
    assert (on_cluster (f_clust fp) fp = fp) as Eon.
    { unfold on_cluster. cbn [f_obj set_f_clust]. rewrite (proj2 (Z.eqb_neq _ _)) by (unfold valid in Hvs; lia). by destruct fp. }
    assert (clust_ready F fs img l fp (f_clust fp) F l fs d img) as Hrdy.
    { split; rewrite ?Eon; try done. fold p. split; [lia|done]. }
    destruct (write_round_sectors F fs d img l fp (f_clust fp) F l fs d img buff off btw) as (n & fp' & d2 & img2 & Hrun & Hd); try done.
    right. exists n, F, l, fp', fs, d2, img2. split; [|done]. ff_run. cbv beta iota. rewrite Eon in Hrun. fold p in Hrun. exact Hrun.
Qed.

(** ** All bytes *)

(** [n] bytes of [btw] were written; when they are fewer, no cluster is free. *)
Record write_done F fs img l fp buff off btw n F' l' fp' fs' d' img' : Prop := {
  wd_n : 0 ≤ n ≤ btw;
  wd_ptr : f_fptr fp' = f_fptr fp + n;
  wd_size : objsize (f_obj fp') = Z.max (objsize (f_obj fp)) (f_fptr fp + n);
  wd_open : same_open fp fp';
  wd_rep : fat_rep F' fs' d' img';
  wd_alloc : alloc_ok F' fs';
  wd_file : file_ok F' fs' img' l' fp';
  wd_ext : extends (n_fatent fs) F l F' l';
  wd_frame : frame l' fs img fs' img';
  wd_wrote : wrote (f_fptr fp) n (objsize (f_obj fp)) buff off (file_bytes fs img l fp) (file_bytes fs' img' l' fp');
  wd_cap : capacity (n_fatent fs) F' l' = capacity (n_fatent fs) F l;
  wd_full : n < btw → f_fptr fp + n = capacity (n_fatent fs) F l * bcs fs;
  wd_mod : has_flag FA_MODIFIED fp' = true;
}.

(** The mark of a change touches nothing else. *)
Lemma modified_flag m fp : Z.land m FA_MODIFIED = 0 → has_flag m (add_flag FA_MODIFIED fp) = has_flag m fp.
Proof.
  intros Hm. unfold has_flag, add_flag. cbn [f_flag set_f_flag]. by rewrite Z.land_lor_distr_l, (Z.land_comm FA_MODIFIED), Hm, Z.lor_0_r.
Qed.

Lemma modified_same_open fp : same_open fp (add_flag FA_MODIFIED fp).
Proof.
  do 5 (split; [done|]). intros m Hm Hr. apply modified_flag. apply Z.bits_inj'. intros k Hk. rewrite Z.land_spec, Z.bits_0.
  destruct (decide (k = 6)) as [->|]; [|change FA_MODIFIED with (2 ^ 6); rewrite Z.pow2_bits_false by lia; apply andb_false_r].
  rewrite (Z.bits_above_log2 m 6); [done|lia|]. destruct (decide (m = 0)) as [->|]; [done|]. apply Z.log2_lt_pow2; lia.
Qed.

Lemma modified_ok F fs img l fp :
  file_ok F fs img l fp → file_ok F fs img l (add_flag FA_MODIFIED fp) ∧
  file_bytes fs img l (add_flag FA_MODIFIED fp) = file_bytes fs img l fp ∧ same_open fp (add_flag FA_MODIFIED fp).
Proof.
  pose proof (modified_flag FA_DIRTY fp eq_refl) as E. intros [? ? ? ? ? [? ? ? Hc Hd] [? ? ?]]. split; [|split].
  - split; try done; split; try done; by rewrite E.
  - unfold file_bytes, shown. by rewrite E.
  - apply modified_same_open.
Qed.

Lemma modified_added fp : has_flag FA_MODIFIED (add_flag FA_MODIFIED fp) = true.
Proof.
  unfold has_flag, add_flag. cbn [f_flag set_f_flag]. rewrite Z.land_lor_distr_l. change (Z.land FA_MODIFIED FA_MODIFIED) with 64.
  unfold truth. apply negb_true_iff, Z.eqb_neq. intros E%Z.lor_eq_0_iff. lia.
Qed.

Lemma write_done_none F fs d img l fp buff off btw fs' d' img' :
  fat_rep F fs d img → file_ok F fs img l fp → fat_rep F fs' d' img' → alloc_ok F fs' → file_ok F fs' img' l fp → file_bytes fs' img' l fp = file_bytes fs img l fp →
  frame l fs img fs' img' → 0 ≤ btw → (0 < btw → f_fptr fp = capacity (n_fatent fs) F l * bcs fs) →
  write_done F fs img l fp buff off btw 0 F l (add_flag FA_MODIFIED fp) fs' d' img'.
Proof.
  intros Hr Hf Hr' Hal Hf' Hfb Hfr Hb Hfull. destruct (modified_ok F fs' img' l fp Hf') as (A1 & A2 & A3).
  pose proof (po_range _ _ _ (fo_pos _ _ _ _ _ Hf)). split; try done; [cbn; lia|cbn; lia| | |].
  - apply wrote_nothing. intros i Hi. by rewrite A2, Hfb.
  - rewrite Z.add_0_r. done.
  - apply modified_added.
Qed.

Lemma write_bytes_ok fuel F fs d img l fp buff off btw :
  fat_rep F fs d img → file_ok F fs img l fp → alloc_ok F fs → Forall is_byte buff → 0 ≤ btw ≤ Z.of_nat fuel → 0 ≤ off →
  f_fptr fp + btw < 2 ^ 32 → off + btw ≤ Z.of_nat (length buff) → off + btw < 2 ^ 32 →
  ∃ n F' l' fp' fs' d' img', write_bytes W fuel fp buff off btw (fs, d) = Ok ((FR_OK, fp', off + n), (fs', d')) ∧
    write_done F fs img l fp buff off btw n F' l' fp' fs' d' img'.
Proof using HW.
  revert F fs d img l fp off btw. induction fuel as [|fuel IH]; intros F fs d img l fp off btw Hr Hf Hal Hby Hfu Ho Hp32 Hlen H32;
    simpl; destruct (Z.eqb_spec btw 0) as [->|Hne]; try lia.
  1,2: exists 0, F, l, (add_flag FA_MODIFIED fp), fs, d, img; rewrite Z.add_0_r; (split; [done|]);
    apply (write_done_none F fs d img l fp); try done; lia.
  destruct (write_round_ok F fs d img l fp buff off btw Hr Hf Hal Hby Ho ltac:(lia) Hp32 Hlen)
    as [(fs1 & d1 & img1 & Hrun & Hr1 & Hal1 & Hf1 & Hfb1 & Hfr1 & Hend & Hfull)|(n & F1 & l1 & fp1 & fs1 & d1 & img1 & Hrun & Hd)].
  { rewrite (run_bind _ _ _ _ _ Hrun). cbv beta iota. exists 0, F, l, (add_flag FA_MODIFIED fp), fs1, d1, img1. rewrite Z.add_0_r.
    split; [done|]. apply (write_done_none F fs d img l fp); try done; [lia|]. intros _. unfold capacity.
    rewrite (proj2 (n_free_none _ _) Hfull). lia. }
  rewrite (run_bind _ _ _ _ _ Hrun). cbv beta iota. destruct Hd as [Hn [Hptr Hsize] Hop Hr1 Hal1 Hf1 Hext1 Hcap1 Hfr1 Hwr1].
  pose proof (po_range _ _ _ (fo_pos _ _ _ _ _ Hf)) as Hpr. rewrite Hptr, (dw_small W HW), !(wrap_small 32) by lia.
  assert (set_f_obj (set_objsize (if objsize (f_obj fp1) <? f_fptr fp + n then f_fptr fp + n else objsize (f_obj fp1)) (f_obj fp1))
    (set_f_fptr (f_fptr fp + n) fp1) = moved n fp1) as ->.
  { unfold moved. rewrite Hptr. do 2 f_equal. destruct (Z.ltb_spec (objsize (f_obj fp1)) (f_fptr fp + n)); lia. }
  assert (f_fptr (moved n fp1) = f_fptr fp + n) as Em1 by (cbn; lia).
  assert (objsize (f_obj (moved n fp1)) = Z.max (objsize (f_obj fp)) (f_fptr fp + n)) as Em2 by (cbn; lia).
  destruct (IH F1 fs1 d1 img1 l1 (moved n fp1) (off + n) (btw - n)) as (n2 & F2 & l2 & fp2 & fs2 & d2 & img2 & Hrun2 & Hd2);
    [done|done|done|done|lia|lia|lia|lia|lia|].
  exists (n + n2), F2, l2, fp2, fs2, d2, img2. rewrite Hrun2. replace (off + n + n2) with (off + (n + n2)) by lia. split; [done|].
  destruct Hd2 as [Hn2 Hp2 Hs2 Ho2 Hr2 Hal2 Hf2 Hext2 Hfr2 Hwr2 Hcap2 Hfull2 Hmd2]. rewrite Em1 in Hp2, Hs2, Hwr2. rewrite Em2 in Hs2, Hwr2.
  pose proof (fm_volume _ _ _ _ _ Hfr1) as V. assert (n_fatent fs1 = n_fatent fs) as En by apply V. rewrite En in Hext2, Hcap2, Hfull2.
  destruct (same_volume_data fs fs1 V) as (_ & _ & _ & Eb & _).
  split; try done; try lia.
  - transitivity fp1; [done|]. by transitivity (moved n fp1).
  - by eapply extends_trans.
  - apply (frame_trans _ _ _ fs1 img1); [|done]. by apply (frame_mono l1); [apply Hext2|].
  - eapply wrote_more; [lia|lia|exact Hwr1|exact Hwr2|lia].
Qed.

Lemma f_write_ok F fs d img l fp buff btw :
  fat_rep F fs d img → file_ok F fs img l fp → alloc_ok F fs → opened fs fp → has_flag FA_WRITE fp = true →
  Forall is_byte buff → 0 ≤ btw ≤ Z.of_nat (length buff) → f_fptr fp + btw < 2 ^ 32 →
  ∃ n F' l' fp' fs' d' img', f_write W fp buff btw (fs, d) = Ok ((FR_OK, fp', n), (fs', d')) ∧
    write_done F fs img l fp buff 0 btw n F' l' fp' fs' d' img'.
Proof using HW.
  intros Hr Hf Hal Hop Hm Hby Hb H32. destruct (may_access_ok F fs d img fp FA_WRITE Hr Hop Hm) as (d1 & Hma & Hr1).
  unfold f_write. rewrite (run_bind _ _ _ _ _ Hma), decide_False by naive_solver.
  pose proof (po_range _ _ _ (fo_pos _ _ _ _ _ Hf)) as Hpr. rewrite (dw_small W HW) by lia. rewrite (proj2 (Z.ltb_ge _ _)) by lia.
  destruct (write_bytes_ok (Z.to_nat btw) F fs d1 img l fp buff 0 btw) as (n & F' & l' & fp' & fs' & d' & img' & Hrun & Hd);
    [done|done|done|done|lia|lia|lia|lia|lia|].
  rewrite Z.add_0_l in Hrun. by exists n, F', l', fp', fs', d', img'.
Qed.
End grow.
