(* ===== verification/FfSeek.v ===== *)
(** * FatFs: moving the file pointer

    [f_lseek] on a file open for writing: the chain is followed from the
    current cluster or from the first one and, past its end, stretched as far
    as clusters are free; the size follows the position, and the sector of the
    new position is brought into the buffer. *)

From S2P Require Import Prelude Bytes Ff FfWindow FfFat FfChain FfStay FfDir FfMount FfFile FfData FfPos FfRead FfWrite FfGrow.

(** Cluster sizes are powers of two. *)
Lemma align_down fs n p :
  geometry fs n → pow2_csize fs → 0 ≤ p → Z.land p (Z.lnot (bcs fs - 1)) = p / bcs fs * bcs fs.
Proof.
  intros G (k & Hk & Ec) Hp. assert (bcs fs = 2 ^ (k + 9)) as ->.
  { unfold bcs, SS. rewrite Ec, Z.pow_add_r by lia. done. }
  replace (2 ^ (k + 9) - 1) with (Z.ones (k + 9)) by (rewrite Z.ones_equiv; lia).
  rewrite <-Z.ldiff_land.
  rewrite Z.ldiff_ones_r, Z.shiftl_mul_pow2, Z.shiftr_div_pow2 by lia. done.
Qed.

Section seek.
Context {D : Type} `{Disk D} (W : Z).
Hypothesis HW : 32 ≤ W.

#[local] Existing Instance same_open_preorder.
Implicit Types (fs : FATFS) (d : D) (img : list Z) (F : Z → Z) (fp : FIL).

(** What following and stretching a chain leaves of the volume. *)
Record stretched F fs img l F' l' fs' d' img' : Prop := {
  st_rep : fat_rep F' fs' d' img';
  st_alloc : alloc_ok F' fs';
  st_same : data_same fs img fs' img';
  st_at : at_fat fs fs';
  st_ext : extends (n_fatent fs) F l F' l';
  st_cap : capacity (n_fatent fs) F' l' = capacity (n_fatent fs) F l;
  st_apart : apart fs' l';
  st_data : ∀ x, data_sect fs l x → sector x img' = sector x img;
}.

Lemma stretched_refl F fs d img l : fat_rep F fs d img → alloc_ok F fs → apart fs l → stretched F fs img l F l fs d img.
Proof. intros Hr Ha Hap. split; try done. Qed.

Lemma stretched_trans F fs img l F1 l1 fs1 d1 img1 F2 l2 fs2 d2 img2 :
  stretched F fs img l F1 l1 fs1 d1 img1 → stretched F1 fs1 img1 l1 F2 l2 fs2 d2 img2 → stretched F fs img l F2 l2 fs2 d2 img2.
Proof.
  intros [? ? S1 A1 E1 C1 ? D1] [? ? S2 A2 E2 C2 ? D2]. pose proof (ds_volume _ _ _ _ S1) as V.
  assert (n_fatent fs1 = n_fatent fs) as En by apply V. destruct (same_volume_data fs fs1 V) as (_ & Ed & _ & _ & _). rewrite En in *.
  split; [done|done|by eapply data_same_trans|by etrans|by eapply extends_trans|by rewrite C2|done|].
  intros x Hx. rewrite D2, D1; [done|done|]. apply Ed. destruct Hx as (c & Hc & Hs). exists c. split; [|done]. destruct E1 as [[k ->] _]. set_solver.
Qed.

(** One cluster further: the next one, a new one, or none. *)
Lemma next_cluster F fs d img l s q c :
  fat_rep F fs d img → alloc_ok F fs → apart fs l → chain (n_fatent fs) F s l → l !! q = Some c →
  (∃ fs' d' img', create_chain W c (fs, d) = Ok (0, (fs', d')) ∧ S q = length l ∧ stretched F fs img l F l fs' d' img' ∧
     capacity (n_fatent fs) F l = Z.of_nat (length l)) ∨
  (∃ c' F' l' fs' d' img', create_chain W c (fs, d) = Ok (c', (fs', d')) ∧ valid (n_fatent fs) c' ∧
     stretched F fs img l F' l' fs' d' img' ∧ chain (n_fatent fs) F' s l' ∧ l' !! q = Some c ∧ l' !! S q = Some c').
Proof using HW.
  intros Hr Hal Hap Hch Hq. pose proof (fr_win _ _ _ _ Hr) as Hw. pose proof (wo_geo _ _ Hw) as G. destruct (dsk_bytes _ _ (fr_dsk _ _ _ _ Hr)) as [_ Hmax].
  assert (Forall (valid (n_fatent fs)) l) as Hl by (eapply Forall_impl; [by eapply chain_used|]; naive_solver).
  destruct (l !! S q) as [c'|] eqn:Hq'.
  - right. pose proof (chain_lookup _ _ _ _ _ _ _ Hch Hq Hq') as HF.
    assert (valid (n_fatent fs) c ∧ valid (n_fatent fs) c') as [Hv Hv'] by (rewrite Forall_lookup in Hl; eauto).
    destruct (create_follows W HW F fs d img c Hr Hv) as (fs' & d' & img' & Hcf & Hr' & Hk); [by rewrite HF|]. rewrite HF in Hcf.
    assert (at_fat fs fs') as Hat by (by eapply (create_chain_stays W HW fs); [..|exact Hcf]).
    destruct (data_stays fs img fs' img' l Hw Hl (keeps_data _ _ _ _ Hk) Hat Hap Hmax) as [Hap' Ed].
    exists c', F, l, fs', d', img'. split; [done|]. split; [done|]. split; [|done].
    split; try done; [by apply (alloc_keeps F fs); [apply Hk|apply Hk|]|by apply keeps_data].
  - apply lookup_ge_None in Hq'. pose proof (lookup_lt_Some _ _ _ Hq) as Hlt. assert (last l = Some c) as Hla.
    { rewrite last_lookup, <-Hq. f_equal. lia. }
    destruct (stretch_chain W HW F fs d img l s c Hr Hl Hap Hal ltac:(by right)) as [(fs' & d' & img' & Hcr & Hr' & Hal' & Hds & Hat & Hfull)|(r & F' & fs' & d' & img' & Hcr & Hg)].
    + left. destruct (data_stays fs img fs' img' l Hw Hl Hds Hat Hap Hmax) as [Hap' Ed]. exists fs', d', img'. split; [done|]. split; [lia|].
      split; [by split|]. unfold capacity. rewrite (proj2 (n_free_none _ _) Hfull). lia.
    + right. destruct Hg as [Hv Hr' Hal' Hds Hat Hext Hcap Hchn Hap' Hdat]. exists r, F', (l ++ [r]), fs', d', img'. split; [done|]. split; [done|].
      split; [by split|]. assert (valid (n_fatent fs) s) as Hvs by by inversion Hch.
      rewrite (proj2 (Z.eqb_neq s 0)) in Hchn by (unfold valid in Hvs; lia). split; [done|]. split; [by rewrite lookup_app_l|].
      replace (S q) with (length l) by lia. by apply list_lookup_middle.
Qed.

(** The loop, from cluster [q] of the file on: it ends in the cluster of the
    position reached, which is the one asked for unless the volume is full. *)
Lemma seek_loop_ok fuel F fs d img l fp q c ofs :
  let dst := Z.min (f_fptr fp + ofs) (capacity (n_fatent fs) F l * bcs fs) in
  fat_rep F fs d img → alloc_ok F fs → apart fs l → chain (n_fatent fs) F (sclust (f_obj fp)) l → has_flag FA_WRITE fp = true →
  l !! q = Some c → f_clust fp = c → f_fptr fp = Z.of_nat q * bcs fs → 0 < ofs →
  f_fptr fp + ofs < 2 ^ 32 → ofs ≤ (Z.of_nat fuel + 1) * bcs fs →
  ∃ F' l' q' c' z o fs' d' img',
    seek_loop W fuel fp c ofs (bcs fs) (fs, d) = Ok ((FR_OK, set_f_clust c' (set_f_fptr (dst - o) fp), z, o), (fs', d')) ∧
    stretched F fs img l F' l' fs' d' img' ∧ chain (n_fatent fs) F' (sclust (f_obj fp)) l' ∧ l' !! q' = Some c' ∧
    Z.of_nat q' * bcs fs < dst ≤ (Z.of_nat q' + 1) * bcs fs ∧
    (z = c' ∧ o = dst - Z.of_nat q' * bcs fs ∨ o = 0 ∧ dst = (Z.of_nat q' + 1) * bcs fs).
Proof using HW.
  revert F fs d img l fp q c ofs. induction fuel as [|fuel IH]; intros F fs d img l fp q c ofs dst Hr Hal Hap Hch Hwr Hq Hcl Hfp Ho H32 Hfu;
    pose proof (wo_geo _ _ (fr_win _ _ _ _ Hr)) as G; pose proof (bcs_pos fs _ G) as (Hb0 & _ & _); unfold SS in Hb0;
    pose proof (lookup_lt_Some _ _ _ Hq) as Hql; pose proof (geo_ents _ _ G) as Hents; pose proof (n_free_bound (n_fatent fs) F ltac:(lia)) as Hfb;
    simpl; destruct (Z.ltb_spec (bcs fs) ofs) as [Hlt|Hge]; try lia.
  1,3: assert (dst = f_fptr fp + ofs) as Edst by (unfold dst, capacity; nia);
    exists F, l, q, c, c, ofs, fs, d, img; (split; [unfold mret, ff_ret; rewrite Edst, <-Hcl; replace (f_fptr fp + ofs - ofs) with (f_fptr fp) by lia; by destruct fp|]);
    (split; [by apply stretched_refl|]); (split; [done|]); (split; [done|]); (split; [lia|left; split; [done|lia]]).
  rewrite (dw_small W HW (ofs - bcs fs)), (dw_small W HW (f_fptr fp + bcs fs)) by lia.
  change (has_flag FA_WRITE (set_f_fptr (f_fptr fp + bcs fs) fp)) with (has_flag FA_WRITE fp). rewrite Hwr.
  destruct (next_cluster F fs d img l _ q c Hr Hal Hap Hch Hq) as [(fs1 & d1 & img1 & Hrun & Hend & Hst & Hcap)|(c1 & F1 & l1 & fs1 & d1 & img1 & Hrun & Hv & Hst & Hch1 & Hq0 & Hq1)];
    rewrite (run_bind _ _ _ _ _ Hrun).
  { cbn [andb Z.eqb]. assert (dst = (Z.of_nat q + 1) * bcs fs) as Edst by (unfold dst; rewrite Hcap; nia).
    exists F, l, q, c, 0, 0, fs1, d1, img1. split; [unfold mret, ff_ret; rewrite Edst, Z.sub_0_r, <-Hcl; replace (f_fptr fp + bcs fs) with ((Z.of_nat q + 1) * bcs fs) by lia; by destruct fp|].
    split; [done|]. split; [done|]. split; [done|]. split; [lia|by right]. }
  unfold valid in Hv. rewrite (proj2 (Z.eqb_neq c1 0)), andb_false_r by lia. ff_run.
  pose proof (ds_volume _ _ _ _ (st_same _ _ _ _ _ _ _ _ _ Hst)) as V. assert (n_fatent fs1 = n_fatent fs) as En by apply V.
  rewrite En, (proj2 (Z.eqb_neq c1 FFFFFFFF)), (proj2 (Z.leb_gt c1 1)), (proj2 (Z.leb_gt _ c1)) by (unfold FFFFFFFF; lia). cbn [orb].
  destruct (same_volume_data fs fs1 V) as (_ & _ & _ & Eb & _).
  destruct (IH F1 fs1 d1 img1 l1 (set_f_clust c1 (set_f_fptr (f_fptr fp + bcs fs) fp)) (S q) c1 (ofs - bcs fs))
    as (F2 & l2 & q2 & c2 & z & o & fs2 & d2 & img2 & Hrun2 & Hst2 & Hch2 & Hq2 & Hr2 & Hz2); rewrite ?En, ?Eb; cbn [f_obj f_fptr f_clust set_f_clust set_f_fptr];
    [apply Hst|apply Hst|apply Hst|done|done|done|done|lia|lia|lia|lia|].
  rewrite En, Eb, (st_cap _ _ _ _ _ _ _ _ _ Hst) in Hrun2, Hr2, Hz2. rewrite En in Hch2. cbn [f_fptr f_obj set_f_clust set_f_fptr] in Hrun2, Hr2, Hz2, Hch2.
  replace (f_fptr fp + bcs fs + (ofs - bcs fs)) with (f_fptr fp + ofs) in Hrun2, Hr2, Hz2 by lia. fold dst in Hrun2, Hr2, Hz2.
  exists F2, l2, q2, c2, z, o, fs2, d2, img2. split; [exact Hrun2|]. split; [by eapply stretched_trans|]. done.
Qed.

(** The object with [s] as its first cluster. *)
Definition from_cluster (s : Z) fp : FIL := set_f_obj (set_sclust s (f_obj fp)) fp.

(** Where to start; an empty file gets its first cluster. *)
Lemma seek_start_ok F fs d img l fp ofs :
  fat_rep F fs d img → file_ok F fs img l fp → alloc_ok F fs → 0 < ofs < 2 ^ 32 →
  (∃ fs' d' img', seek_start W (set_f_fptr 0 fp) ofs (f_fptr fp) (bcs fs) (fs, d) =
      Ok ((FR_OK, set_f_clust 0 (set_f_fptr 0 (from_cluster 0 fp)), 0, ofs), (fs', d')) ∧
    l = [] ∧ stretched F fs img l F l fs' d' img' ∧ capacity (n_fatent fs) F l = 0) ∨
  (∃ F' l' s q c fs' d' img', seek_start W (set_f_fptr 0 fp) ofs (f_fptr fp) (bcs fs) (fs, d) =
      Ok ((FR_OK, set_f_clust c (set_f_fptr (Z.of_nat q * bcs fs) (from_cluster s fp)), c, ofs - Z.of_nat q * bcs fs), (fs', d')) ∧
    valid (n_fatent fs) c ∧ stretched F fs img l F' l' fs' d' img' ∧ chain (n_fatent fs) F' s l' ∧ l' !! q = Some c ∧ Z.of_nat q * bcs fs < ofs).
Proof using HW.
  intros Hr Hf Hal Ho. pose proof (fr_win _ _ _ _ Hr) as Hw. pose proof (wo_geo _ _ Hw) as G. pose proof (fo_valid _ _ _ _ _ Hf) as Hl.
  pose proof Hf as [Hch Hsz Hmx Hp2 Hap Hb [Hpr Hpc Hps]]. pose proof (bcs_pos fs _ G) as (Hb0 & _ & _). unfold SS in Hb0.
  assert (from_cluster (sclust (f_obj fp)) fp = fp) as Eself by (unfold from_cluster, set_sclust, set_f_obj; by destruct fp as [[] ? ? ? ? ? ? ? ?]).
  unfold seek_start. destruct ((0 <? f_fptr fp) && ((f_fptr fp - 1) / bcs fs <=? (ofs - 1) / bcs fs)) eqn:Hcase.
  - right. apply andb_true_iff in Hcase as [Hp0%Z.ltb_lt Hle%Z.leb_le]. specialize (Hpc Hp0).
    destruct Hch as [[-> _]|Hch]; [done|]. exists F, l, (sclust (f_obj fp)), (Z.to_nat ((f_fptr fp - 1) / bcs fs)), (f_clust fp), fs, d, img.
    pose proof (Z.div_pos (f_fptr fp - 1) (bcs fs) ltac:(lia) ltac:(lia)) as Hq. rewrite Z2Nat.id, Eself by lia.
    rewrite (align_down fs (n_sect img)) by (done || lia). cbn [f_fptr set_f_fptr f_clust].
    assert ((f_fptr fp - 1) / bcs fs * bcs fs ≤ ofs - 1) as Hbo.
    { pose proof (Z.mul_div_le (ofs - 1) (bcs fs) ltac:(lia)). nia. }
    rewrite (dw_small W HW) by nia. split; [unfold mret, ff_ret; by destruct fp|]. split; [rewrite Forall_lookup in Hl; eauto|].
    split; [by apply stretched_refl|]. split; [done|]. split; [done|lia].
  - cbn [f_obj set_f_fptr]. destruct Hch as [[-> Hs0]|Hch].
    + rewrite Hs0. cbn [Z.eqb]. destruct (stretch_chain W HW F fs d img [] 0 0 Hr Hl Hap Hal ltac:(by left)) as [(fs' & d' & img' & Hcr & Hr' & Hal' & Hds & Hat & Hfull)|(c & F' & fs' & d' & img' & Hcr & Hg)];
        rewrite (run_bind _ _ _ _ _ Hcr).
      * left. exists fs', d', img'. split; [done|]. split; [done|]. destruct (dsk_bytes _ _ (fr_dsk _ _ _ _ Hr)) as [_ Hmax].
        destruct (data_stays fs img fs' img' [] Hw Hl Hds Hat Hap Hmax) as [Hap' Ed]. split; [by split|].
        unfold capacity. by rewrite (proj2 (n_free_none _ _) Hfull).
      * right. destruct Hg as [Hv Hr' Hal' Hds Hat Hext Hcap Hchn Hap' Hdat]. pose proof (geo_ents _ _ G) as Hents.
        assert ((c =? 1) = false ∧ (c =? FFFFFFFF) = false) as (-> & ->).
        { unfold valid, FFFFFFFF in *. rewrite !(proj2 (Z.eqb_neq _ _)) by lia. done. }
        exists F', [c], c, 0%nat, c, fs', d', img'. change (Z.of_nat 0 * bcs fs) with 0. rewrite Z.sub_0_r.
        split; [done|]. split; [done|]. split; [by split|]. split; [done|]. split; [done|lia].
    + right. exists F, l, (sclust (f_obj fp)), 0%nat, (sclust (f_obj fp)), fs, d, img. rewrite Eself.
      assert (valid (n_fatent fs) (sclust (f_obj fp))) as Hv by by inversion Hch.
      rewrite (proj2 (Z.eqb_neq _ _)) by (unfold valid in Hv; lia). change (Z.of_nat 0 * bcs fs) with 0. rewrite Z.sub_0_r.
      split; [done|]. split; [done|]. split; [by apply stretched_refl|]. split; [done|]. split; [by eapply chain_head|lia].
Qed.

Lemma stretched_start F fs img l F' l' fs' d' img' c s :
  stretched F fs img l F' l' fs' d' img' → chain (n_fatent fs) F' s l' → chain (n_fatent fs') F' s l' ∧ bcs fs' = bcs fs ∧
  capacity (n_fatent fs') F' l' = capacity (n_fatent fs) F l ∧ (c ∈ l' → valid (n_fatent fs) c).
Proof.
  intros Hst Hch. pose proof (ds_volume _ _ _ _ (st_same _ _ _ _ _ _ _ _ _ Hst)) as V. assert (n_fatent fs' = n_fatent fs) as -> by apply V.
  destruct (same_volume_data fs fs' V) as (_ & _ & _ & -> & _). split; [done|]. split; [done|]. split; [by apply Hst|].
  intros Hc. pose proof (chain_used _ _ _ _ Hch) as Hu. rewrite Forall_forall in Hu. by apply Hu.
Qed.

(** A position at the end of cluster [q], or inside it, in sectors. *)
Lemma inside_cluster fs n q p :
  geometry fs n → Z.of_nat q * bcs fs < p ≤ (Z.of_nat q + 1) * bcs fs →
  let o := p - Z.of_nat q * bcs fs in
  Z.to_nat ((p - 1) / bcs fs) = q ∧ p `mod` SS = o `mod` SS ∧ (p `mod` SS ≠ 0 → o < bcs fs ∧ p `mod` bcs fs = o ∧ p / bcs fs = Z.of_nat q).
Proof.
  intros G Hp o. pose proof (bcs_pos fs _ G) as (Hb0 & Hc64 & Hc0). unfold SS in Hb0.
  assert ((p - 1) / bcs fs = Z.of_nat q) as -> by (symmetry; apply (Z.div_unique_pos _ _ _ (o - 1)); lia).
  assert (p `mod` SS = o `mod` SS) as Emod.
  { unfold o, bcs. replace (Z.of_nat q * (csize fs * SS)) with (Z.of_nat q * csize fs * SS) by lia.
    rewrite <-Z.add_opp_r, Z.opp_eq_mul_m1, (Z.mul_comm _ (-1)), Z.mul_assoc, Z_mod_plus_full. done. }
  split; [apply Nat2Z.id|]. split; [done|]. intros Hne. assert (o < bcs fs) as Hlt.
  { destruct (decide (o = bcs fs)) as [E|]; [|lia]. exfalso. apply Hne. rewrite Emod, E. unfold bcs. by apply Z.mod_mul. }
  split; [done|]. split; symmetry; [apply (Z.mod_unique_pos _ _ (Z.of_nat q))|apply (Z.div_unique_pos _ _ _ o)]; lia.
Qed.

(** The sector of a position inside a cluster, as the code computes it. *)
Lemma seek_sector fs n c l p q :
  geometry fs n → n < FFFFFFFF → Forall (valid (n_fatent fs)) l → l !! q = Some c → p `mod` SS ≠ 0 → p < 2 ^ 32 →
  Z.of_nat q * bcs fs < p ≤ (Z.of_nat q + 1) * bcs fs →
  clst2sect W fs c ≠ 0 ∧ wrap W (clst2sect W fs c + (p - Z.of_nat q * bcs fs) / SS) = sect_at fs c p.
Proof using HW.
  intros G Hmax Hl Hq Hne H32 Hp. destruct (inside_cluster fs n q p G Hp) as (_ & _ & Hin). destruct (Hin Hne) as (Hlt & Eo & Ediv).
  assert (valid (n_fatent fs) c) as Hv by (rewrite Forall_lookup in Hl; eauto).
  pose proof (bcs_pos fs _ G) as (Hb0 & Hc64 & Hc0). unfold SS in Hb0.
  destruct (clst2sect_ok W HW fs n c) as [-> Hnz]; [done|done|done|]. split; [done|].
  assert (in_cluster fs l c p) as Hic by (pose proof (Z.mul_nonneg_nonneg (Z.of_nat q) (bcs fs) ltac:(lia) ltac:(lia)); split; [lia|by rewrite Ediv, Nat2Z.id]).
  pose proof (data_sect_range fs _ l _ G Hl (proj1 (sect_at_data fs _ l c p G Hl Hic))) as [Hsr Hs0].
  unfold sect_at in *. rewrite Eo in *. unfold FFFFFFFF in Hmax. apply (dw_small W HW). lia.
Qed.

(** The position asked for, or the end of the volume's clusters; the sector is
    that of the position, if it is inside one. *)
Lemma seek_to_ok F fs d img l fp ofs :
  let dst := Z.min ofs (capacity (n_fatent fs) F l * bcs fs) in
  fat_rep F fs d img → file_ok F fs img l fp → alloc_ok F fs → has_flag FA_WRITE fp = true → 0 ≤ ofs < 2 ^ 32 →
  ∃ F' l' s c z fs' d' img',
    seek_to W fp ofs (fs, d) = Ok ((FR_OK, set_f_clust c (set_f_fptr dst (from_cluster s fp)), z), (fs', d')) ∧
    stretched F fs img l F' l' fs' d' img' ∧ (l' = [] ∧ s = 0 ∨ chain (n_fatent fs) F' s l') ∧
    (0 < dst → l' !! Z.to_nat ((dst - 1) / bcs fs) = Some c) ∧ (dst `mod` SS ≠ 0 → z = sect_at fs c dst).
Proof using HW.
  intros dst Hr Hf Hal Hwr Ho. pose proof (wo_geo _ _ (fr_win _ _ _ _ Hr)) as G. pose proof (geo_ents _ _ G) as Hents.
  pose proof (bcs_pos fs _ G) as (Hb0 & Hc64 & Hc0). pose proof (n_free_bound (n_fatent fs) F ltac:(lia)) as Hfb.
  assert (0 ≤ capacity (n_fatent fs) F l * bcs fs) as Hc1 by (unfold capacity, SS in *; nia).
  unfold seek_to. destruct (Z.ltb_spec 0 ofs) as [Hpos|Hz].
  2:{ assert (dst = 0) as -> by (unfold dst; lia). exists F, l, (sclust (f_obj fp)), (f_clust fp), 0, fs, d, img.
      split; [unfold mret, ff_ret; by destruct fp as [[] ? ? ? ? ? ? ? ?]|]. split; [by apply stretched_refl, Hf|]. split; [apply Hf|]. by split. }
  ff_run. fold (bcs fs). rewrite (dw_small W HW (bcs fs)) by (unfold bcs, SS; lia). unfold SS in Hb0.
  destruct (seek_start_ok F fs d img l fp ofs Hr Hf Hal ltac:(lia))
    as [(fs1 & d1 & img1 & Hst & -> & Hs1 & Hcap)|(F1 & l1 & s & q & c & fs1 & d1 & img1 & Hst & Hv & Hs1 & Hch & Hq & Hqo)];
    rewrite (run_bind _ _ _ _ _ Hst), decide_False by naive_solver.
  { cbn [Z.eqb]. assert (dst = 0) as -> by (unfold dst; rewrite Hcap; lia). exists F, [], 0, 0, 0, fs1, d1, img1. split; [done|]. split; [done|].
    split; [by left|]. by split. }
  rewrite (proj2 (Z.eqb_neq c 0)) by (unfold valid in Hv; lia). destruct (stretched_start _ _ _ _ _ _ _ _ _ c _ Hs1 Hch) as (Hch1 & Eb & Ecap & _).
  destruct (seek_loop_ok (Z.to_nat ((ofs - Z.of_nat q * bcs fs) / SS)) F1 fs1 d1 img1 l1 (set_f_clust c (set_f_fptr (Z.of_nat q * bcs fs) (from_cluster s fp))) q c
    (ofs - Z.of_nat q * bcs fs)) as (F2 & l2 & q' & c' & z & o & fs2 & d2 & img2 & Hrun & Hs2 & Hch2 & Hq' & Hrange & Hcase);
    cbn [f_obj f_clust f_fptr set_f_clust set_f_fptr]; rewrite ?Eb; try done; try (apply Hs1); [lia|lia| |].
  { set (o := ofs - Z.of_nat q * bcs fs) in *. pose proof (Z.div_mod o SS ltac:(done)). pose proof (Z.mod_pos_bound o SS ltac:(done)).
    pose proof (Z.div_pos o SS ltac:(lia) ltac:(done)). rewrite Z2Nat.id by lia. unfold SS in *. nia. }
  cbn [f_fptr f_obj set_f_clust set_f_fptr] in Hrun, Hrange, Hcase, Hch2. rewrite Eb, Ecap in Hrun, Hrange, Hcase.
  replace (Z.of_nat q * bcs fs + (ofs - Z.of_nat q * bcs fs)) with ofs in Hrun, Hrange, Hcase by lia. fold dst in Hrun, Hrange, Hcase.
  rewrite (run_bind _ _ _ _ _ Hrun), decide_False by naive_solver. cbn [f_fptr set_f_clust set_f_fptr].
  replace (dst - o + o) with dst by lia. rewrite (dw_small W HW dst) by (unfold dst in *; lia).
  pose proof (stretched_trans _ _ _ _ _ _ _ _ _ _ _ _ _ _ Hs1 Hs2) as Hs. destruct (stretched_start _ _ _ _ _ _ _ _ _ c' _ Hs2 Hch2) as (Hch3 & Eb2 & _ & _).
  pose proof (ds_volume _ _ _ _ (st_same _ _ _ _ _ _ _ _ _ Hs)) as V. assert (n_fatent fs2 = n_fatent fs) as En by apply V. rewrite En in Hch3.
  destruct (inside_cluster fs _ q' dst G Hrange) as (Edst & Emod & _). exists F2, l2, s, c'.
  assert (o `mod` SS = dst `mod` SS) as ->.
  { destruct Hcase as [[_ ->]|[-> E]]; [done|]. rewrite E. unfold bcs. rewrite Z.mul_assoc, Z.mod_mul by done. done. }
  destruct (truth (dst `mod` SS)) eqn:Ht; bool_to_prop.
  - destruct Hcase as [[-> ->]|[_ E]]; [|exfalso; apply Ht; rewrite E; unfold bcs; by rewrite Z.mul_assoc, Z.mod_mul by done].
    ff_run. destruct (dsk_bytes _ _ (fr_dsk _ _ _ _ (st_rep _ _ _ _ _ _ _ _ _ Hs))) as [_ Hmax2].
    assert (Forall (valid (n_fatent fs2)) l2) as Hl2 by (rewrite En; eapply Forall_impl; [by eapply chain_used|]; naive_solver).
    destruct (seek_sector fs2 (n_sect img2) c' l2 dst q') as [Hnz Hsec]; try done;
      [apply (wo_geo _ _ (fr_win _ _ _ _ (st_rep _ _ _ _ _ _ _ _ _ Hs)))|unfold dst; lia|by rewrite Eb2, Eb|].
    rewrite Eb2, Eb in Hsec. rewrite (proj2 (Z.eqb_neq _ _) Hnz), Hsec. destruct (same_volume_data fs fs2 V) as (Ecs & _ & _ & Ebb & _).
    eexists _, fs2, d2, img2. split; [done|]. split; [done|]. split; [by right|]. split; [by rewrite Edst|].
    intros _. unfold sect_at. by rewrite Ecs, Ebb.
  - exists 0, fs2, d2, img2. split; [done|]. split; [done|]. split; [by right|]. split; [by rewrite Edst|]. lia.
Qed.

(** The size follows the position. *)
Definition resized fp : FIL :=
  if objsize (f_obj fp) <? f_fptr fp then add_flag FA_MODIFIED (set_f_obj (set_objsize (f_fptr fp) (f_obj fp)) fp) else fp.

Lemma resized_same fp :
  same_open fp (resized fp) ∧ f_fptr (resized fp) = f_fptr fp ∧ f_clust (resized fp) = f_clust fp ∧
  f_sect (resized fp) = f_sect fp ∧ f_buf (resized fp) = f_buf fp ∧ has_flag FA_DIRTY (resized fp) = has_flag FA_DIRTY fp ∧
  sclust (f_obj (resized fp)) = sclust (f_obj fp) ∧ objsize (f_obj (resized fp)) = Z.max (objsize (f_obj fp)) (f_fptr fp) ∧
  (has_flag FA_MODIFIED fp = true ∨ objsize (f_obj fp) < f_fptr fp → has_flag FA_MODIFIED (resized fp) = true).
Proof.
  unfold resized. destruct (Z.ltb_spec (objsize (f_obj fp)) (f_fptr fp)) as [Hlt|Hge].
  - split; [|do 4 (split; [done|]); split; [by rewrite modified_flag|]; split; [done|]; split; [cbn; lia|intros _; apply modified_added]].
    exact (modified_same_open (set_f_obj _ fp)).
  - split; [done|]. do 6 (split; [done|]). split; [lia|]. intros [?|?]; [done|lia].
Qed.

(** What a seek to [ofs] does. *)
Record sought F fs img l fp ofs F' l' fp' fs' d' img' : Prop := {
  so_ptr : f_fptr fp' = Z.min ofs (capacity (n_fatent fs) F l * bcs fs);
  so_size : objsize (f_obj fp') = Z.max (objsize (f_obj fp)) (f_fptr fp');
  so_open : same_open fp fp';
  so_mod : has_flag FA_MODIFIED fp = true ∨ objsize (f_obj fp) < f_fptr fp' → has_flag FA_MODIFIED fp' = true;
  so_rep : fat_rep F' fs' d' img';
  so_alloc : alloc_ok F' fs';
  so_file : file_ok F' fs' img' l' fp';
  so_ext : extends (n_fatent fs) F l F' l';
  so_cap : capacity (n_fatent fs) F' l' = capacity (n_fatent fs) F l;
  so_frame : frame l' fs img fs' img';
  so_bytes : ∀ i, 0 ≤ i < objsize (f_obj fp) → file_bytes fs' img' l' fp' !! Z.to_nat i = file_bytes fs img l fp !! Z.to_nat i;
}.

(** The position reached lies in the chain, and inside a sector in the cluster
    found for it. *)
Lemma dest_in_chain F fs n (l l' : list Z) c ofs :
  let dst := Z.min ofs (capacity (n_fatent fs) F l * bcs fs) in
  geometry fs n → 0 ≤ ofs < 2 ^ 32 → (0 < dst → l' !! Z.to_nat ((dst - 1) / bcs fs) = Some c) →
  0 ≤ dst < 2 ^ 32 ∧ dst ≤ Z.of_nat (length l') * bcs fs.
Proof.
  intros dst G Ho Hc. pose proof (geo_ents _ _ G) as Hents. pose proof (n_free_bound (n_fatent fs) F ltac:(lia)) as Hfree.
  pose proof (bcs_pos fs _ G) as (Hb0 & _ & _). unfold SS in Hb0.
  assert (0 ≤ capacity (n_fatent fs) F l * bcs fs) by (unfold capacity; nia). split; [unfold dst; lia|].
  destruct (decide (0 < dst)) as [Hlt|]; [|nia]. pose proof (lookup_lt_Some _ _ _ (Hc Hlt)) as Hlk.
  pose proof (Z.div_mod (dst - 1) (bcs fs) ltac:(lia)). pose proof (Z.mod_pos_bound (dst - 1) (bcs fs) ltac:(lia)).
  pose proof (Z.div_pos (dst - 1) (bcs fs) ltac:(lia) ltac:(lia)). nia.
Qed.

Lemma dest_cluster fs n (l' : list Z) c dst :
  geometry fs n → 0 ≤ dst → dst `mod` SS ≠ 0 → (0 < dst → l' !! Z.to_nat ((dst - 1) / bcs fs) = Some c) →
  l' !! Z.to_nat (dst / bcs fs) = Some c.
Proof.
  intros G Hd Ht Hc. assert (0 < dst) as Hd0 by (destruct (decide (dst = 0)) as [E|]; [by rewrite E in Ht|lia]).
  rewrite <-Hc by done. f_equal. f_equal. rewrite (pos_before fs _ G) by lia. rewrite (proj2 (Z.eqb_neq _ _)); [done|].
  intros E. apply Ht. rewrite <-(mod_bcs_SS fs _ G) by lia. by rewrite E.
Qed.

Lemma f_lseek_ok F fs d img l fp ofs :
  fat_rep F fs d img → file_ok F fs img l fp → alloc_ok F fs → opened fs fp → has_flag FA_WRITE fp = true → 0 ≤ ofs < 2 ^ 32 →
  ∃ F' l' fp' fs' d' img', f_lseek W fp ofs (fs, d) = Ok ((FR_OK, fp'), (fs', d')) ∧ sought F fs img l fp ofs F' l' fp' fs' d' img'.
Proof using HW.
  intros Hr Hf Hal Hop Hwr Ho. destruct (validate_ok F fs d img fp Hr Hop) as (d0 & Hva & Hr0).
  unfold f_lseek. rewrite (run_bind _ _ _ _ _ Hva), (decide_True (P := FR_OK = FR_OK)) by done. destruct Hop as (_ & _ & ->).
  rewrite decide_False by naive_solver. rewrite Hwr, andb_false_r.
  destruct (seek_to_ok F fs d0 img l fp ofs Hr0 Hf Hal Hwr Ho) as (F1 & l1 & s & c & z & fs1 & d1 & img1 & Hrun & Hst & Hch & Hc & Hz).
  set (dst := Z.min ofs _) in *. set (fp1 := set_f_clust c _) in *. rewrite (run_bind _ _ _ _ _ Hrun), decide_False by naive_solver.
  fold (resized fp1). set (fp2 := resized fp1). destruct (resized_same fp1) as (Hso & Ep & Ec & Es & Ebf & Ed & Escl & Esz & Emd). fold fp2 in Hso, Ep, Ec, Es, Ebf, Ed, Escl, Esz, Emd.
  change (f_fptr fp1) with dst in Ep, Esz, Emd. change (f_clust fp1) with c in Ec. change (sclust (f_obj fp1)) with s in Escl. change (objsize (f_obj fp1)) with (objsize (f_obj fp)) in Esz, Emd.
  destruct Hst as [Hr1 Hal1 Hds Hat Hext Hcap Hap1 Hdat].
  pose proof (wo_geo _ _ (fr_win _ _ _ _ Hr)) as G. pose proof (wo_geo _ _ (fr_win _ _ _ _ Hr1)) as G1. pose proof (ds_volume _ _ _ _ Hds) as V.
  destruct (same_volume_data fs fs1 V) as (Ecs & _ & _ & Eb & Ecz). assert (n_fatent fs1 = n_fatent fs) as En by apply V.
  assert (Forall (valid (n_fatent fs)) l1) as Hl1 by (destruct Hch as [[-> _]|Hch]; [constructor|eapply Forall_impl; [by eapply chain_used|]; naive_solver]).
  assert (Forall (valid (n_fatent fs1)) l1) as Hl1' by by rewrite En.
  destruct (grown_bytes W HW F fs img l fp l1 fs1 img1 fp2 G G1 Hf Hds (proj1 Hext) Hl1 Hdat Es Ebf Ed) as (Hb & Hsz & Hfb).
  pose proof (fo_size _ _ _ _ _ Hf) as Hsz0. pose proof (fo_max _ _ _ _ _ Hf) as Hmx0.
  assert (0 ≤ dst < 2 ^ 32 ∧ dst ≤ Z.of_nat (length l1) * bcs fs1) as [Hd32 Hdl].
  { rewrite Eb. by eapply dest_in_chain. }
  assert (∀ fp' d' img', f_fptr fp' = dst → f_clust fp' = c → same_file fp2 fp' → fat_rep F1 fs1 d' img' → buf_ok fs1 img' l1 fp' →
    (dst `mod` SS ≠ 0 → f_sect fp' = z) → frame l1 fs1 img1 fs1 img' → file_bytes fs1 img' l1 fp' = file_bytes fs1 img1 l1 fp2 →
    sought F fs img l fp ofs F1 l1 fp' fs1 d' img') as Hsought.
  { intros fp' d' img' E1 E2 Hsf Hr' Hb' E4 Hfr Hfb'. assert (f_obj fp' = f_obj fp2) as E3 by apply Hsf. split; rewrite ?E1, ?E3; try done.
    - transitivity fp1; [done|]. transitivity fp2; [done|by apply same_file_open].
    - destruct Hsf as (_ & _ & _ & _ & Hfl). by rewrite Hfl.
    - split; rewrite ?E3, ?Escl, ?Esz, ?En; try done; [lia|lia|unfold pow2_csize; rewrite Ecz; apply Hf|].
      split; rewrite ?E1, ?E2, ?E3, ?Esz, ?Eb, ?Ecs; [lia|done|]. intros Hne. by rewrite E4, Hz.
    - apply (frame_trans _ _ _ fs1 img1); [by apply data_frame|done].
    - intros i Hi. by rewrite Hfb', Hfb. }
  rewrite Ep. destruct (truth (dst `mod` SS) && negb (z =? f_sect fp2)) eqn:Hfill.
  - apply andb_true_iff in Hfill as [Ht%truth_true Hne].
    assert (data_sect fs1 l1 z) as Hd.
    { rewrite Hz by done. unfold sect_at. rewrite <-Ecs, <-Eb. apply (sect_at_data fs1 (n_sect img1)); [done|done|].
      split; [lia|]. rewrite Eb. eapply (dest_cluster fs); [done|lia|done|done]. }
    destruct (write_back_ok F1 fs1 d1 img1 l1 fp2 Hr1 Hl1' Hap1 Hb) as (d2 & Hwb & Hr2 & Hb2 & Hfr2).
    rewrite (run_bind _ _ _ _ _ Hwb). cbn [negb].
    destruct (read_buf_ok F1 fs1 d2 (shown fp2 img1) l1 (clean fp2) z Hr2 Hl1' Hb2 (clean_flag fp2) Hd) as (d3 & Hrb & Hr3 & Hb3).
    rewrite (run_bind _ _ _ _ _ Hrb). cbn [negb]. set (fp3 := set_f_sect z _) in *.
    destruct (clean_same fp2) as (E1 & E2 & E3 & E4 & E5 & E6 & E7 & E8).
    assert (same_file fp2 fp3) as Hsf by (transitivity (clean fp2); [apply clean_same_file|done]).
    exists F1, l1, fp3, fs1, d3, (shown fp2 img1). split; [done|].
    apply Hsought; try done; [cbn; by rewrite E3|cbn; by rewrite E4|].
    unfold file_bytes at 1, shown at 1. change (has_flag FA_DIRTY fp3) with (has_flag FA_DIRTY (clean fp2)). by rewrite clean_flag.
  - exists F1, l1, fp2, fs1, d1, img1. split; [done|]. apply Hsought; try done.
    intros Hne. apply andb_false_iff in Hfill as [Hft|Hft]; [apply truth_true in Hne; congruence|].
    apply negb_false_iff, Z.eqb_eq in Hft. done.
Qed.
End seek.
