(* ===== verification/FfFileProps.v ===== *)
(** * FatFs: an open file is an array of bytes

    Any sequence of [f_read], [f_write] and [f_lseek] on an open file behaves
    like a list of bytes and a position, up to the capacity of the volume.  A
    seek past the end makes the file longer, as it does for every file open
    for writing; the bytes in between are those the clusters happen to hold. *)

From S2P Require Import Prelude Bytes Diskio FatDiskio Hostdisk HostdiskProps Ff FfWindow FfFat FfChain FfStay FfHost FfProps.
From S2P Require Import FfDir FfMount FfFile FfData FfPos FfRead FfWrite FfGrow FfSeek.

(** ** The specification *)

Inductive fop := ORead (n : Z) | OWrite (bs : list Z) | OSeek (ofs : Z).
Inductive fresp := RBytes (bs : list Z) | RWrote (n : Z) | RDone.

(** Exactly [n] bytes, from [l] as far as it has them. *)
Definition fit (n : nat) (l : list Z) : list Z := take n (l ++ replicate n 0).

Lemma fit_length n l : length (fit n l) = n.
Proof. unfold fit. rewrite length_take, length_app, length_replicate. lia. Qed.

Section spec.
(** The bytes the file could have. *)
Context (cap : Z).

(** [gap]: what a file that is made longer by a seek finds in its new bytes;
    only its first bytes count, as many as the file gets. *)
Definition spec_step (gap : list Z) (op : fop) (s : list Z * Z) : fresp * (list Z * Z) :=
  let '(data, pos) := s in
  match op with
  | ORead n =>
      let bs := bytes_at (Z.to_nat pos) (Z.to_nat n) data in (RBytes bs, (data, pos + Z.of_nat (length bs)))
  | OWrite bs =>
      let n := Z.min (Z.of_nat (length bs)) (cap - pos) in
      (RWrote n, (patch (Z.to_nat pos) (take (Z.to_nat n) bs) data, pos + n))
  | OSeek ofs =>
      let p := Z.min ofs cap in (RDone, (data ++ fit (Z.to_nat (p - Z.of_nat (length data))) gap, p))
  end.

(** One gap for each call. *)
Fixpoint spec_run (gaps : list (list Z)) (ops : list fop) (s : list Z * Z) : list fresp * (list Z * Z) :=
  match ops with
  | [] => ([], s)
  | op :: ops =>
      let '(r, s) := spec_step (hd [] gaps) op s in let '(rs, s) := spec_run (tail gaps) ops s in (r :: rs, s)
  end.
End spec.

(** Sizes and offsets fit their types. *)
Definition op_ok (op : fop) : Prop :=
  match op with ORead n => 0 ≤ n < 2 ^ 32 | OWrite bs => Forall is_byte bs | OSeek ofs => 0 ≤ ofs < 2 ^ 32 end.

(** The size a file of [size] bytes can reach. *)
Fixpoint reach (size : Z) (ops : list fop) : Z :=
  match ops with
  | [] => size
  | ORead _ :: ops => reach size ops
  | OWrite bs :: ops => reach (size + Z.of_nat (length bs)) ops
  | OSeek ofs :: ops => reach (Z.max size ofs) ops
  end.

Lemma reach_mono a b ops : a ≤ b → a ≤ reach a ops ≤ reach b ops.
Proof.
  revert a b. induction ops as [|[n|bs|ofs] ops IH]; intros a b Hab; simpl; [lia|by apply IH| |].
  - destruct (IH (a + Z.of_nat (length bs)) (b + Z.of_nat (length bs))); lia.
  - destruct (IH (Z.max a ofs) (Z.max b ofs)); lia.
Qed.

Definition is_write (op : fop) : bool := match op with OWrite _ => true | _ => false end.

(** ** The calls *)

Section code.
Context {D : Type} `{DiskOps D} (W : Z).

Definition file_step (op : fop) (fp : FIL) : ff D (FRESULT * fresp * FIL) :=
  match op with
  | ORead n =>
      '(r, fp, buff, br) ← f_read W fp (replicate (Z.to_nat n) 0) n;
      mret (r, RBytes (take (Z.to_nat br) buff), fp)
  | OWrite bs => '(r, fp, bw) ← f_write W fp bs (Z.of_nat (length bs)); mret (r, RWrote bw, fp)
  | OSeek ofs => '(r, fp) ← f_lseek W fp ofs; mret (r, RDone, fp)
  end.

(** Stops at an error. *)
Fixpoint file_run (ops : list fop) (fp : FIL) : ff D (FRESULT * list fresp * FIL) :=
  match ops with
  | [] => mret (FR_OK, [], fp)
  | op :: ops =>
      '(r, a, fp) ← file_step op fp;
      if decide (r = FR_OK) then '(r, rs, fp) ← file_run ops fp; mret (r, a :: rs, fp) else mret (r, [], fp)
  end.
End code.

Lemma patch_end n bs (l : list Z) : n = length l → patch n bs l = l ++ bs.
Proof. intros ->. unfold patch. by rewrite take_ge, drop_ge, app_nil_r by lia. Qed.

(** ** The refinement *)

Section refine.
Context {D : Type} `{Disk D} (W : Z).
Hypothesis HW : 32 ≤ W.

(** An open file with contents [data] at position [pos]. *)
Record is_file (F : Z → Z) (fs : FATFS) (d : D) (img : list Z) (l : list Z) (fp : FIL) (data : list Z) (pos : Z) : Prop := {
  if_rep : fat_rep F fs d img;
  if_file : file_ok F fs img l fp;
  if_alloc : alloc_ok F fs;
  if_open : opened fs fp;
  if_flags : has_flag FA_READ fp = true ∧ has_flag FA_WRITE fp = true;
  if_data : data = take (Z.to_nat (objsize (f_obj fp))) (file_bytes fs img l fp);
  if_pos : pos = f_fptr fp;
}.

Lemma bytes_length F fs d img l fp :
  fat_rep F fs d img → file_ok F fs img l fp →
  length (file_bytes fs img l fp) = (length l * Z.to_nat (bcs fs))%nat ∧
  objsize (f_obj fp) ≤ Z.of_nat (length (file_bytes fs img l fp)) ∧ Z.of_nat (length l) * bcs fs = Z.of_nat (length (file_bytes fs img l fp)).
Proof.
  intros Hr Hf. pose proof (wo_geo _ _ (fr_win _ _ _ _ Hr)) as G. pose proof (fo_valid _ _ _ _ _ Hf) as Hl.
  destruct (shown_sects fs img l fp G Hl (fo_buf _ _ _ _ _ Hf)) as (En & _). pose proof (fo_size _ _ _ _ _ Hf) as Hs.
  destruct (content_length fs (n_sect img) l (shown fp img) G ltac:(lia) Hl) as [_ Hc].
  pose proof (bcs_pos fs _ G) as (Hb & _ & _). unfold SS in Hb. unfold file_bytes. rewrite Hc. split; [done|]. lia.
Qed.

Lemma is_file_data F fs d img l fp data pos :
  is_file F fs d img l fp data pos → Z.of_nat (length data) = objsize (f_obj fp) ∧ 0 ≤ pos ≤ objsize (f_obj fp).
Proof.
  intros [Hr Hf _ _ _ -> ->]. destruct (bytes_length _ _ _ _ _ _ Hr Hf) as (_ & Hs & _).
  pose proof (fo_size _ _ _ _ _ Hf). rewrite length_take. split; [lia|]. apply (fo_pos _ _ _ _ _ Hf).
Qed.

(** Reading and seeking leave the contents. *)
Lemma is_file_same F fs d img l fp data pos fs' d' img' fp' pos' :
  is_file F fs d img l fp data pos → f_fptr fp' = pos' → same_file fp fp' → fat_rep F fs' d' img' → file_ok F fs' img' l fp' →
  file_bytes fs' img' l fp' = file_bytes fs img l fp → frame l fs img fs' img' → same_alloc fs fs' →
  is_file F fs' d' img' l fp' data pos'.
Proof.
  intros [Hr Hf Hal (Ho1 & Ho2 & Ho3) [Hfr Hfw] -> ->] Hp (S1 & S2 & S3 & S4 & S5) Hr' Hf' Hfb Hfm Ha.
  pose proof (fm_volume _ _ _ _ _ Hfm) as V. split; try done.
  - by apply (alloc_keeps F fs).
  - unfold opened. rewrite S1, S2. assert (fs_id fs' = fs_id fs) as -> by apply V. done.
  - by rewrite !S5.
  - by rewrite S1, Hfb.
Qed.

(** The object is of the same entry, and knows whether it was written. *)
Definition same_object (ops : list fop) (fp fp' : FIL) : Prop :=
  same_open fp fp' ∧ (has_flag FA_MODIFIED fp = true ∨ existsb is_write ops = true → has_flag FA_MODIFIED fp' = true).

Lemma file_same_object op fp fp' : same_file fp fp' → is_write op = false → same_object [op] fp fp'.
Proof.
  intros Hs Hw. split; [by apply same_file_open|]. destruct Hs as (_ & _ & _ & _ & E). rewrite (E FA_MODIFIED) by done.
  cbn [existsb]. rewrite Hw. by intros [?|?].
Qed.

Lemma same_object_cons op ops fp fp1 fp' : same_object [op] fp fp1 → same_object ops fp1 fp' → same_object (op :: ops) fp fp'.
Proof.
  intros [(A1 & A2 & A3 & A4 & A5 & A6) A7] [(B1 & B2 & B3 & B4 & B5 & B6) B7]. split.
  - do 5 (split; [congruence|]). intros m Hm Hr. by rewrite B6, A6.
  - cbn [existsb] in *. rewrite orb_false_r in A7. intros [E|E%orb_true_iff]; [|destruct E as [E|E]]; auto.
Qed.

Lemma still_open fs fs' fp fp' :
  same_volume fs fs' → same_open fp fp' → opened fs fp → has_flag FA_READ fp = true ∧ has_flag FA_WRITE fp = true →
  opened fs' fp' ∧ has_flag FA_READ fp' = true ∧ has_flag FA_WRITE fp' = true.
Proof.
  intros V (O1 & O2 & O3 & _ & _ & O6) (P1 & P2 & P3) [? ?]. split; [|by rewrite !O6].
  unfold opened. rewrite O1, O2, O3. assert (fs_id fs' = fs_id fs) as -> by apply V. done.
Qed.

Lemma file_step_ok op F fs d img l fp data pos cap :
  is_file F fs d img l fp data pos → cap = capacity (n_fatent fs) F l * bcs fs → op_ok op →
  reach (Z.of_nat (length data)) [op] < 2 ^ 32 →
  ∃ gap F' l' fp' fs' d' img', let '(a, (data', pos')) := spec_step cap gap op (data, pos) in
    file_step W op fp (fs, d) = Ok ((FR_OK, a, fp'), (fs', d')) ∧
    is_file F' fs' d' img' l' fp' data' pos' ∧ cap = capacity (n_fatent fs') F' l' * bcs fs' ∧
    extends (n_fatent fs) F l F' l' ∧ frame l' fs img fs' img' ∧ same_object [op] fp fp' ∧
    Z.of_nat (length data') ≤ reach (Z.of_nat (length data)) [op].
Proof using HW.
  intros Hi Hcap Hop H32. destruct (is_file_data _ _ _ _ _ _ _ _ Hi) as [Hlen Hpos]. pose proof Hi as [Hr Hf Hal Ho [Hrd Hwr] Hdata Hp].
  destruct (bytes_length _ _ _ _ _ _ Hr Hf) as (Hbl & Hbs & Hbb). pose proof (fo_max _ _ _ _ _ Hf) as Hmx.
  destruct op as [n|bs|ofs]; cbn [spec_step file_step reach op_ok] in *.
  - destruct (f_read_ok W HW F fs d img l fp (replicate (Z.to_nat n) 0) n Hr Hf Ho Hrd Hop ltac:(rewrite length_replicate; lia))
      as (fp' & fs' & d' & img' & Hrun & Hp' & Hsf & Hr' & Hf' & Hfb & Hfm & Ha).
    pose proof (fm_volume _ _ _ _ _ Hfm) as V. destruct (same_volume_data fs fs' V) as (_ & _ & _ & Eb & _).
    assert (n_fatent fs' = n_fatent fs) as En by apply V. set (k := Z.min n (objsize (f_obj fp) - f_fptr fp)) in *.
    assert (bytes_at (Z.to_nat pos) (Z.to_nat n) data = bytes_at (Z.to_nat (f_fptr fp)) (Z.to_nat k) (file_bytes fs img l fp)) as E.
    { rewrite Hdata, Hp. apply list_eq. intros i. rewrite !lookup_bytes_at. unfold k. repeat case_decide; try lia; try done.
      - by rewrite lookup_take_lt by lia.
      - by rewrite lookup_take_ge by lia. }
    assert (length (bytes_at (Z.to_nat pos) (Z.to_nat n) data) = Z.to_nat k) as El by (rewrite E, bytes_at_length; lia).
    rewrite (run_bind _ _ _ _ _ Hrun). exists [], F, l, fp', fs', d', img'. rewrite E in El |- *. split.
    { unfold mret, ff_ret. do 4 f_equal. unfold patch. rewrite take_0. cbn [app]. by rewrite take_app_le, take_ge by lia. }
    split; [apply (is_file_same F fs d img l fp data pos); try done; lia|]. rewrite En, Eb. split; [done|]. split; [apply extends_refl|]. split; [done|]. split; [by apply file_same_object|lia].
  - destruct (f_write_ok W HW F fs d img l fp bs (Z.of_nat (length bs)) Hr Hf Hal Ho Hwr Hop ltac:(lia) ltac:(lia))
      as (n & F' & l' & fp' & fs' & d' & img' & Hrun & [Hn Hp' Hsz Hopn Hr' Hal' Hf' Hext Hfm Hw Hc Hfull Hmd]).
    pose proof (fm_volume _ _ _ _ _ Hfm) as V. destruct (same_volume_data fs fs' V) as (_ & _ & _ & Eb & _).
    assert (n_fatent fs' = n_fatent fs) as En by apply V. destruct (bytes_length _ _ _ _ _ _ Hr' Hf') as (Hbl' & Hbs' & Hbb').
    destruct (is_file_data _ _ _ _ _ _ _ _ Hi) as [_ _]. pose proof (wo_geo _ _ (fr_win _ _ _ _ Hr)) as G.
    pose proof (bcs_pos fs _ G) as (Hb & _ & _). unfold SS in Hb. pose proof (geo_ents _ _ G) as Hents.
    pose proof (n_free_bound (n_fatent fs) F' ltac:(lia)) as Hfree'.
    assert (n = Z.min (Z.of_nat (length bs)) (cap - pos)) as En'.
    { destruct (decide (n < Z.of_nat (length bs))) as [Hlt|]; [specialize (Hfull Hlt); lia|].
      assert (f_fptr fp + n ≤ cap); [|lia]. rewrite Hcap, <-Hc. unfold capacity. rewrite Eb in Hbb'. nia. }
    exists [], F', l', fp', fs', d', img'. rewrite <-En', (run_bind _ _ _ _ _ Hrun). split; [done|].
    assert (take (Z.to_nat (objsize (f_obj fp'))) (file_bytes fs' img' l' fp') = patch (Z.to_nat pos) (take (Z.to_nat n) bs) data) as Ed.
    { rewrite Hsz, Hdata, Hp. rewrite (wrote_patch (f_fptr fp) n (objsize (f_obj fp)) bs 0) with (C := file_bytes fs img l fp) by (done || lia).
      done. }
    split; [|rewrite En, Eb, Hc; split; [done|split; [done|split; [done|split; [by split|]]]]].
    + destruct (still_open fs fs' fp fp' V Hopn Ho (conj Hrd Hwr)). split; try done. lia.
    + rewrite <-Ed, length_take. lia.
  - destruct (f_lseek_ok W HW F fs d img l fp ofs Hr Hf Hal Ho Hwr Hop)
      as (F' & l' & fp' & fs' & d' & img' & Hrun & [Hp' Hsz Hopn Hmd Hr' Hal' Hf' Hext Hc Hfm Hfb]).
    pose proof (fm_volume _ _ _ _ _ Hfm) as V. destruct (same_volume_data fs fs' V) as (_ & _ & _ & Eb & _).
    assert (n_fatent fs' = n_fatent fs) as En by apply V. destruct (bytes_length _ _ _ _ _ _ Hr' Hf') as (Hbl' & Hbs' & Hbb').
    set (data' := take (Z.to_nat (objsize (f_obj fp'))) (file_bytes fs' img' l' fp')).
    assert (Z.of_nat (length data') = objsize (f_obj fp')) as Hlen' by (unfold data'; rewrite length_take; pose proof (fo_size _ _ _ _ _ Hf'); lia).
    assert (data' = data ++ fit (Z.to_nat (Z.min ofs cap - Z.of_nat (length data))) (drop (length data) data')) as Ed.
    { rewrite Hcap, <-Hp'. replace (Z.to_nat _) with (length (drop (length data) data')) by (rewrite length_drop; lia).
      unfold fit. rewrite take_app_length. rewrite <-(take_drop (length data) data') at 1. f_equal. apply list_eq. intros i.
      destruct (decide (i < length data)%nat) as [Hi'|]; [|by rewrite !lookup_ge_None_2 by (rewrite ?length_take; lia)].
      rewrite lookup_take_lt by done. unfold data'. rewrite Hdata, !lookup_take_lt by lia. specialize (Hfb (Z.of_nat i) ltac:(lia)). by rewrite !Nat2Z.id in Hfb. }
    exists (drop (length data) data'), F', l', fp', fs', d', img'. rewrite <-Ed, (run_bind _ _ _ _ _ Hrun). split; [done|].
    split; [|rewrite En, Eb, Hc; split; [done|split; [done|split; [done|split]]]].
    + destruct (still_open fs fs' fp fp' V Hopn Ho (conj Hrd Hwr)). split; try done. lia.
    + split; [done|]. intros [?|?]; [|done]. auto.
    + lia.
Qed.

Lemma file_run_ok ops F fs d img l fp data pos :
  is_file F fs d img l fp data pos → Forall op_ok ops → reach (Z.of_nat (length data)) ops < 2 ^ 32 →
  let cap := capacity (n_fatent fs) F l * bcs fs in
  ∃ gaps F' l' fp' fs' d' img',
    file_run W ops fp (fs, d) = Ok ((FR_OK, (spec_run cap gaps ops (data, pos)).1, fp'), (fs', d')) ∧
    is_file F' fs' d' img' l' fp' (spec_run cap gaps ops (data, pos)).2.1 (spec_run cap gaps ops (data, pos)).2.2 ∧
    extends (n_fatent fs) F l F' l' ∧ frame l' fs img fs' img' ∧ same_object ops fp fp'.
Proof using HW.
  intros Hi Hop H32 cap. assert (cap = capacity (n_fatent fs) F l * bcs fs) as Hcap by done. clearbody cap.
  revert F fs d img l fp data pos Hi Hcap H32. induction Hop as [|op ops Ho Hops IH]; intros F fs d img l fp data pos Hi Hcap H32.
  { exists [], F, l, fp, fs, d, img. split; [done|]. split; [done|]. split; [apply extends_refl|]. split; [apply frame_refl|].
    split; [done|]. by intros [?|?]. }
  assert (reach (Z.of_nat (length data)) (op :: ops) = reach (reach (Z.of_nat (length data)) [op]) ops) as Et by by destruct op.
  pose proof (reach_mono (reach (Z.of_nat (length data)) [op]) _ ops ltac:(reflexivity)) as [Hm _]. rewrite Et in H32.
  destruct (file_step_ok op F fs d img l fp data pos cap Hi Hcap Ho ltac:(lia)) as (gap & F1 & l1 & fp1 & fs1 & d1 & img1 & Hst).
  destruct (spec_step cap gap op (data, pos)) as [a [data1 pos1]] eqn:Hspec.
  destruct Hst as (Hrun & Hi1 & Hcap1 & Hext1 & Hfm1 & Hso1 & Hlen1). pose proof (reach_mono _ _ ops Hlen1) as [_ Hm1].
  destruct (IH F1 fs1 d1 img1 l1 fp1 data1 pos1 Hi1 Hcap1 ltac:(lia)) as (gaps & F2 & l2 & fp2 & fs2 & d2 & img2 & Hrun2 & Hi2 & Hext2 & Hfm2 & Hso2).
  exists (gap :: gaps), F2, l2, fp2, fs2, d2, img2. cbn [spec_run hd tail file_run]. rewrite Hspec.
  destruct (spec_run cap gaps ops (data1, pos1)) as [rs [data2 pos2]]. cbn [fst snd] in *.
  rewrite (run_bind _ _ _ _ _ Hrun), decide_True, (run_bind _ _ _ _ _ Hrun2) by done.
  split; [done|]. split; [done|]. pose proof (fm_volume _ _ _ _ _ Hfm1) as V. assert (n_fatent fs1 = n_fatent fs) as En by apply V.
  rewrite En in Hext2. split; [by eapply extends_trans|].
  split; [|by eapply same_object_cons].
  apply (frame_trans _ _ _ fs1 img1); [|done]. by apply (frame_mono l1); [apply Hext2|].
Qed.

(** C4: an open file is an array of bytes: for any sequence of [f_read],
    [f_write] and [f_lseek] on a file open for both, every call succeeds,
    reads return the bytes at the position, writes put theirs there and are
    short only where the clusters of the file and the free ones end, however
    the file is spread over clusters, sectors and the buffer.  A seek past the
    end makes the file longer, as far as there are clusters: the old bytes
    stay, and the bytes of the gap are some bytes, the same for all later
    calls.  The sizes stay below 4 GB.  Chains of other files, and all sectors
    outside the FATs and the file, stay as they are. *)
Theorem file_is_a_byte_array ops F fs d img l fp data pos :
  is_file F fs d img l fp data pos → Forall op_ok ops → reach (Z.of_nat (length data)) ops < 2 ^ 32 →
  let cap := capacity (n_fatent fs) F l * bcs fs in
  ∃ gaps F' l' fp' fs' d' img',
    file_run W ops fp (fs, d) = Ok ((FR_OK, (spec_run cap gaps ops (data, pos)).1, fp'), (fs', d')) ∧
    is_file F' fs' d' img' l' fp' (spec_run cap gaps ops (data, pos)).2.1 (spec_run cap gaps ops (data, pos)).2.2 ∧
    extends (n_fatent fs) F l F' l' ∧ frame l' fs img fs' img'.
Proof using HW.
  intros Hi Hop H32 cap. destruct (file_run_ok ops F fs d img l fp data pos Hi Hop H32) as (gaps & F' & l' & fp' & fs' & d' & img' & Hrun & Hf & He & Hfm & _).
  by exists gaps, F', l', fp', fs', d', img'.
Qed.
End refine.

(** ** A file on the small volume *)

(** Its clusters are 2 and 3; it has 700 bytes. *)
Definition small_file : FIL :=
  mk_fil (mk_obj true 1 0 2 700) (Z.lor FA_READ FA_WRITE) FR_OK 0 0 0 3 0 (replicate 512 0).

Lemma small_is_file : is_file small_table small_fs small_host small_img [2; 3] small_file (replicate 700 0) 0.
Proof.
  assert (¬ data_sect small_fs [2; 3] 0) as Hap.
  { intros (c & Hc & Hs). unfold clust_sect in Hs. cbn in Hs.
    apply list_elem_of_In in Hc as [<-|[<-|[]]]; lia. }
  split; [apply small_rep| |split; [apply small_free|done]|done|done|vm_compute; reflexivity|done].
  split; try done.
  - right. exact small_chain.
  - by exists 0.
  - split; try done. by apply Forall_replicate.
Qed.

(** The first seek makes the file longer by 400 bytes and a cluster. *)
Lemma file_is_a_byte_array_witness :
  ∃ fp' fs' d',
    file_run 32 [OSeek 1100; OWrite [7; 7; 7]; OSeek 505; OWrite (replicate 100 9); OSeek 503; ORead 4] small_file (small_fs, small_host) =
      Ok ((FR_OK, [RDone; RWrote 3; RDone; RWrote 100; RDone; RBytes [0; 0; 9; 9]], fp'), (fs', d')).
Proof.
  destruct (file_is_a_byte_array 32 ltac:(lia) [OSeek 1100; OWrite [7; 7; 7]; OSeek 505; OWrite (replicate 100 9); OSeek 503; ORead 4] small_table
    small_fs small_host small_img [2; 3] small_file (replicate 700 0) 0 small_is_file)
    as (gaps & F' & l' & fp' & fs' & d' & img' & Hrun & _).
  - do 6 (constructor; [first [done|cbn [op_ok]; by apply Forall_replicate|by repeat constructor]|]). constructor.
  - vm_compute. reflexivity.
  - exists fp', fs', d'. refine (eq_trans Hrun _). reflexivity.
Defined.
