(* ===== verification/FfMountProps.v ===== *)
(** * FatFs: mounting a volume

    What a boot sector says of the volume, as numbers, and that the mount finds
    exactly that, in machine arithmetic, and leaves a volume on which the
    functions on the FAT, on chains and on files can rely. *)

From S2P Require Import Prelude Bytes Cstdio Diskio FatDiskio Hostdisk HostdiskProps Ff FfWindow FfFat FfChain FfHost FfProps.
From S2P Require Import FfDir FfMount FfData.

(** ** What the boot sector says *)

Section layout.
Context (b : list Z).

Definition f8 (i : Z) : Z := default 0 (b !! Z.to_nat i).
Definition f16 (i : Z) : Z := le_value (bytes_at (Z.to_nat i) 2 b).
Definition f32 (i : Z) : Z := le_value (bytes_at (Z.to_nat i) 4 b).

Definition b_fatsz : Z := if f16 BPB_FATSz16 =? 0 then f32 BPB_FATSz32 else f16 BPB_FATSz16.
Definition b_fats : Z := f8 BPB_NumFATs.
Definition b_csize : Z := f8 BPB_SecPerClus.
Definition b_root : Z := f16 BPB_RootEntCnt.
Definition b_total : Z := if f16 BPB_TotSec16 =? 0 then f32 BPB_TotSec32 else f16 BPB_TotSec16.
Definition b_rsvd : Z := f16 BPB_RsvdSecCnt.

(** The sectors before the data, the clusters, the type and the table. *)
Definition b_system : Z := b_rsvd + b_fatsz * b_fats + b_root / 16.
Definition b_clusters : Z := (b_total - b_system) / b_csize.
Definition b_type : Z :=
  if b_clusters <=? MAX_FAT12 then FS_FAT12 else if b_clusters <=? MAX_FAT16 then FS_FAT16 else FS_FAT32.
Definition b_table : Z :=
  let n := b_clusters + 2 in if b_type =? FS_FAT32 then n * 4 else if b_type =? FS_FAT16 then n * 2 else (n * 3 + 1) / 2.

(** A boot sector of a volume that fits a disk of [n] sectors. *)
Record boot_ok (n : Z) : Prop := {
  bo_length : length b = 512%nat;
  bo_byte : Forall is_byte b;
  bo_sign : f16 BS_55AA = 43605;
  bo_jump : f8 BS_JmpBoot = 233 ∨ f8 BS_JmpBoot = 235 ∧ f8 (BS_JmpBoot + 2) = 144;
  bo_name : mem_cmp 3 b BS_FilSysType (str "FAT") 0 = Ok 0 ∨
    ∃ k, mem_cmp 3 b BS_FilSysType (str "FAT") 0 = Ok k ∧ mem_cmp 5 b BS_FilSysType32 (str "FAT32") 0 = Ok 0;
  bo_ssize : f16 BPB_BytsPerSec = 512;
  bo_fats : b_fats = 1 ∨ b_fats = 2;
  bo_csize : b_csize ≠ 0 ∧ Z.land b_csize (b_csize - 1) = 0;
  bo_root : b_root `mod` 16 = 0;
  bo_rsvd : b_rsvd ≠ 0;
  bo_room : b_system + b_csize ≤ b_total;
  bo_disk : b_total ≤ n;
  bo_max : b_clusters ≤ MAX_FAT32;
  bo_root32 : if b_type =? FS_FAT32 then f16 BPB_FSVer32 = 0 ∧ b_root = 0 else b_root ≠ 0;
  bo_table : b_table ≤ b_fatsz * 512;
}.

(** The object of the volume. *)
Record is_mounted (fs : FATFS) : Prop := {
  im_type : fs_type fs = b_type;
  im_fats : n_fats fs = b_fats;
  im_root : n_rootdir fs = b_root;
  im_csize : csize fs = b_csize;
  im_ents : n_fatent fs = b_clusters + 2;
  im_fsize : fsize fs = b_fatsz;
  im_volbase : volbase fs = 0;
  im_fatbase : fatbase fs = b_rsvd;
  im_dirbase : dirbase fs = if b_type =? FS_FAT32 then f32 BPB_RootClus32 else b_rsvd + b_fatsz * b_fats;
  im_database : database fs = b_system;
}.
End layout.

(** The second FAT is a copy of the first. *)
Definition mirrored (b img : list Z) : Prop :=
  b_fats b = 2 → ∀ s, b_rsvd b ≤ s < b_rsvd b + b_fatsz b → sector (s + b_fatsz b) img = sector s img.

Section bounds.
Context (b : list Z) (n : Z).
Hypothesis B : boot_ok b n.

Lemma le_value_bound (bs : list Z) : Forall is_byte bs → 0 ≤ le_value bs < 256 ^ Z.of_nat (length bs).
Proof.
  induction 1 as [|x bs Hx _ IH]; [done|]. unfold is_byte in Hx. cbn [le_value length].
  rewrite Nat2Z.inj_succ, Z.pow_succ_r by lia. lia.
Qed.

Lemma f16_bound i : 0 ≤ f16 b i < 65536.
Proof using B.
  unfold f16. pose proof (le_value_bound (bytes_at (Z.to_nat i) 2 b) ltac:(apply bytes_at_bytes, B)) as Hb.
  assert (length (bytes_at (Z.to_nat i) 2 b) ≤ 2)%nat by (unfold bytes_at; rewrite length_take; lia).
  pose proof (Z.pow_le_mono_r 256 (Z.of_nat (length (bytes_at (Z.to_nat i) 2 b))) 2 ltac:(lia) ltac:(lia)). lia.
Qed.

Lemma f32_bound i : 0 ≤ f32 b i < 2 ^ 32.
Proof using B.
  unfold f32. pose proof (le_value_bound (bytes_at (Z.to_nat i) 4 b) ltac:(apply bytes_at_bytes, B)) as Hb.
  assert (length (bytes_at (Z.to_nat i) 4 b) ≤ 4)%nat by (unfold bytes_at; rewrite length_take; lia).
  pose proof (Z.pow_le_mono_r 256 (Z.of_nat (length (bytes_at (Z.to_nat i) 4 b))) 4 ltac:(lia) ltac:(lia)). lia.
Qed.

Lemma f8_bound i : 0 ≤ f8 b i < 256.
Proof using B.
  unfold f8. destruct (b !! Z.to_nat i) as [x|] eqn:E; [|done]. exact (proj1 (Forall_lookup _ _) (bo_byte _ _ B) _ _ E).
Qed.

(** A cluster size that passes the test is a power of two. *)
Lemma csize_pow2 : ∃ k, 0 ≤ k ∧ b_csize b = 2 ^ k.
Proof using B.
  destruct (bo_csize _ _ B) as [H0 Hl]. pose proof (f8_bound BPB_SecPerClus) as Hb. fold (b_csize b) in Hb.
  set (c := b_csize b) in *. clearbody c.
  assert (Forall (λ c, Z.land c (c - 1) = 0 → c = 2 ^ Z.log2 c) (seqZ 1 255)) as Hall.
  { apply (bool_decide_unpack _). vm_compute. exact I. }
  exists (Z.log2 c). split; [apply Z.log2_nonneg|]. rewrite Forall_forall in Hall. apply Hall; [apply elem_of_seqZ; lia|done].
Qed.

(** All numbers are within the disk. *)
Lemma layout_bounds :
  0 < b_rsvd b ∧ 0 < b_fatsz b ∧ 0 < b_csize b < 256 ∧ 0 ≤ b_root b < 65536 ∧ 0 < b_clusters b ∧
  b_system b + b_csize b * b_clusters b ≤ b_total b ∧ 0 ≤ b_root b / 16 ∧ 0 ≤ b_fatsz b * b_fats b ∧ b_system b ≤ b_total b.
Proof using B.
  pose proof (f8_bound BPB_SecPerClus) as H1. pose proof (f16_bound BPB_RootEntCnt) as H2. pose proof (f16_bound BPB_RsvdSecCnt) as H3.
  fold (b_csize b) in H1. fold (b_root b) in H2. fold (b_rsvd b) in H3.
  destruct (bo_csize _ _ B) as [Hc _]. pose proof (bo_rsvd _ _ B) as Hr. pose proof (bo_room _ _ B) as Hroom.
  assert (0 ≤ b_fatsz b) as Hf.
  { unfold b_fatsz. destruct (f16 b BPB_FATSz16 =? 0); [apply f32_bound|apply f16_bound]. }
  assert (0 < b_clusters b) as Hcl by (unfold b_clusters; apply Z.div_str_pos; lia).
  assert (0 < b_table b) as Ht.
  { unfold b_table. destruct (b_type b =? FS_FAT32); [lia|]. destruct (b_type b =? FS_FAT16); [lia|]. apply Z.div_str_pos. lia. }
  pose proof (bo_table _ _ B). pose proof (Z.mul_div_le (b_total b - b_system b) (b_csize b) ltac:(lia)). fold (b_clusters b) in *.
  pose proof (Z.div_pos (b_root b) 16 ltac:(lia) ltac:(lia)). destruct (bo_fats _ _ B) as [E|E]; rewrite E; lia.
Qed.
End bounds.

(** ** The parameters are read *)

Section bpb.
Context (W : Z) (b : list Z) (n : Z).
Hypothesis HW : 32 ≤ W.
Hypothesis B : boot_ok b n.
Hypothesis Hn : n < FFFFFFFF.

Lemma ld16 i : 0 ≤ i ≤ 510 → ld_word b i = Ok (f16 b i).
Proof using B. intros. apply ld_word_ok; [lia| |apply B]. rewrite (bo_length _ _ B). lia. Qed.

Lemma ld32 i : 0 ≤ i ≤ 508 → ld_dword W b i = Ok (f32 b i).
Proof using B HW. intros. apply ld_dword_ok; [done|lia| |apply B]. rewrite (bo_length _ _ B). lia. Qed.

Lemma ld8 i : 0 ≤ i ≤ 511 → get b i = Ok (f8 b i).
Proof using B.
  intros. destruct (get_ok b i) as (x & -> & E); [rewrite (bo_length _ _ B); lia|]. unfold f8. by rewrite E.
Qed.

Lemma clusters_fit : 0 < b_clusters b ≤ MAX_FAT32 ∧ b_total b < 2 ^ 32.
Proof using B Hn.
  pose proof (layout_bounds b n B). pose proof (bo_disk _ _ B). pose proof (bo_max _ _ B). unfold FFFFFFFF in Hn. lia.
Qed.

(** The table of FAT12, rounded up. *)
Lemma table12 m : 0 ≤ m → m * 3 / 2 + Z.land m 1 = (m * 3 + 1) / 2.
Proof.
  intros Hm. change 1 with (Z.ones 1) at 1. rewrite Z.land_ones by lia. change (2 ^ 1) with 2.
  pose proof (Z.div_mod m 2 ltac:(lia)). pose proof (Z.mod_pos_bound m 2 ltac:(lia)).
  pose proof (Z.div_mod (m * 3) 2 ltac:(lia)). pose proof (Z.mod_pos_bound (m * 3) 2 ltac:(lia)).
  pose proof (Z.div_mod (m * 3 + 1) 2 ltac:(lia)). pose proof (Z.mod_pos_bound (m * 3 + 1) 2 ltac:(lia)). lia.
Qed.

(** The table fits the FAT. *)
Lemma table_fits t : 0 ≤ t → t ≤ b_fatsz b * 512 → t < 2 ^ 31 → (b_fatsz b <? wrap W (t + (SS - 1)) / SS) = false.
Proof using HW.
  intros H0 Ht H31. unfold SS. rewrite dw_small by lia. apply Z.ltb_ge.
  apply Z.lt_succ_r, Z.div_lt_upper_bound; lia.
Qed.

(** What reading them leaves of the object. *)
Record bpb_read (fs fs' : FATFS) : Prop := {
  br_mounted : is_mounted b (set_mount (b_type b) 0 fs');
  br_wflag : wflag fs' = wflag fs;
  br_winsect : winsect fs' = winsect fs;
  br_win : win fs' = win fs;
  br_pdrv : pdrv fs' = pdrv fs;
  br_free : free_clst fs' = FFFFFFFF ∧ last_clst fs' = FFFFFFFF;
}.

Lemma read_areas_ok fs :
  n_fats fs = b_fats b → csize fs = b_csize b → n_rootdir fs = b_root b → fsize fs = b_fatsz b →
  ∃ fs', read_areas W b 0 (b_rsvd b) (b_fatsz b * b_fats b) (b_system b) (b_clusters b) fs = Ok (Some (b_type b), fs') ∧
    bpb_read fs fs'.
Proof using B HW Hn.
  intros N1 N2 N3 N4.
  pose proof (layout_bounds b n B) as (Hrs & Hfz & Hcs & Hrt & Hcl & Hroom & Hr16 & Hfs & Hsys).
  pose proof clusters_fit as [Hcl2 Htot]. assert (b_system b = b_rsvd b + b_fatsz b * b_fats b + b_root b / 16) as Es by done.
  assert ((if b_clusters b <=? MAX_FAT12 then FS_FAT12 else if b_clusters b <=? MAX_FAT16 then FS_FAT16
           else if b_clusters b <=? MAX_FAT32 then FS_FAT32 else 0) = b_type b) as Et.
  { unfold b_type. destruct (_ <=? MAX_FAT12); [done|]. destruct (_ <=? MAX_FAT16); [done|].
    by rewrite (proj2 (Z.leb_le _ _)) by lia. }
  unfold read_areas. rewrite Et. clear Et. unfold MAX_FAT32 in Hcl2.
  assert ((b_type b =? 0) = false) as -> by (unfold b_type; by repeat case_if).
  cbn zeta. rewrite (dw_small W HW (b_clusters b + 2)), !Z.add_0_l, (dw_small W HW (b_rsvd b)), (dw_small W HW (b_system b)) by lia.
  set (fs2 := set_areas _ _ _ _ fs).
  assert (n_fatent fs2 = b_clusters b + 2 ∧ n_rootdir fs2 = b_root b ∧ fatbase fs2 = b_rsvd b) as (E1 & E2 & E3) by done.
  rewrite E1, E2, E3. pose proof (bo_root32 _ _ B) as H32. pose proof (bo_table _ _ B) as Htab. unfold b_table in Htab.
  destruct (b_type b =? FS_FAT32) eqn:E32.
  - destruct H32 as [Hv Hr0]. rewrite (ld16 BPB_FSVer32), bind_Ok, Hv, Hr0 by done. change (truth 0) with false. cbv iota.
    rewrite (ld32 BPB_RootClus32), bind_Ok by done. rewrite bind_Ok. cbv beta iota.
    change (fsize (set_dirbase (f32 b BPB_RootClus32) fs2)) with (fsize fs). rewrite N4.
    rewrite (dw_small W HW (_ * 4)), table_fits by (done || lia). eexists. split; [reflexivity|].
    split; [|done..]. split; try done. cbn [dirbase set_mount set_alloc set_dirbase]. by rewrite E32.
  - rewrite (proj2 (Z.eqb_neq _ _) H32), bind_Ok. cbv beta iota.
    rewrite (dw_small W HW (b_rsvd b + _)) by lia.
    match goal with |- context[set_dirbase ?v fs2] => change (fsize (set_dirbase v fs2)) with (fsize fs) end. rewrite N4.
    assert ((if b_type b =? FS_FAT16 then wrap W ((b_clusters b + 2) * 2)
       else wrap W (wrap W ((b_clusters b + 2) * 3) / 2 + Z.land (b_clusters b + 2) 1)) = b_table b ∧ b_table b < 2 ^ 31 ∧ 0 ≤ b_table b) as (-> & H31 & H0).
    { unfold b_table. rewrite E32. destruct (b_type b =? FS_FAT16); [rewrite dw_small by lia; lia|].
      rewrite (dw_small W HW (_ * 3)), table12, dw_small by first [lia|split; [apply Z.div_pos; lia|apply Z.div_lt_upper_bound; lia]].
      split; [done|]. split; [apply Z.div_lt_upper_bound; lia|apply Z.div_pos; lia]. }
    rewrite table_fits by (done || apply B). eexists. split; [reflexivity|].
    split; [|done..]. split; try done. cbn [dirbase set_mount set_alloc set_dirbase]. by rewrite E32.
Qed.

Lemma read_bpb_ok fs :
  ∃ fs', read_bpb W b 0 fs = Ok (Some (b_type b), fs') ∧ bpb_read fs fs'.
Proof using B HW Hn.
  pose proof (layout_bounds b n B) as (Hrs & Hfz & Hcs & Hrt & Hcl & Hroom & Hr16 & Hfs & Hsys).
  pose proof clusters_fit as [Hcl2 Htot]. pose proof (bo_fats _ _ B) as Hf. pose proof (bo_rsvd _ _ B).
  assert (b_system b = b_rsvd b + b_fatsz b * b_fats b + b_root b / 16) as Es by done.
  unfold read_bpb. rewrite (ld16 BPB_BytsPerSec), bind_Ok, (bo_ssize _ _ B) by done. change (negb (512 =? SS)) with false.
  cbv iota. rewrite (ld16 BPB_FATSz16), bind_Ok by done.
  assert ((if f16 b BPB_FATSz16 =? 0 then ld_dword W b BPB_FATSz32 else Ok (f16 b BPB_FATSz16)) = Ok (b_fatsz b)) as ->.
  { unfold b_fatsz. destruct (_ =? 0); [|done]. apply ld32. unfold BPB_FATSz32. lia. }
  rewrite bind_Ok, (ld8 BPB_NumFATs), bind_Ok by done. fold (b_fats b).
  assert (negb (b_fats b =? 1) && negb (b_fats b =? 2) = false) as -> by (destruct Hf as [-> | ->]; done).
  rewrite (ld8 BPB_SecPerClus), bind_Ok by done. fold (b_csize b).
  destruct (bo_csize _ _ B) as [Hc0 ->]. rewrite (proj2 (Z.eqb_neq _ _) Hc0). change (truth 0) with false. cbn [orb].
  rewrite (ld16 BPB_RootEntCnt), bind_Ok by done. fold (b_root b). change (SS / SZDIRE) with 16.
  rewrite (bo_root _ _ B). change (truth 0) with false. cbv iota. rewrite (ld16 BPB_TotSec16), bind_Ok by done.
  assert ((if f16 b BPB_TotSec16 =? 0 then ld_dword W b BPB_TotSec32 else Ok (f16 b BPB_TotSec16)) = Ok (b_total b)) as ->.
  { unfold b_total. destruct (_ =? 0); [|done]. apply ld32. unfold BPB_TotSec32. lia. }
  rewrite bind_Ok, (ld16 BPB_RsvdSecCnt), bind_Ok by done. fold (b_rsvd b).
  rewrite (proj2 (Z.eqb_neq (b_rsvd b) 0)) by done. cbn zeta.
  rewrite (dw_small W HW (b_fatsz b * b_fats b)), (dw_small W HW (b_rsvd b + _)), dw_small by lia. rewrite <-Es.
  rewrite (proj2 (Z.ltb_ge (b_total b) (b_system b))) by lia. fold (b_clusters b).
  rewrite (proj2 (Z.eqb_neq (b_clusters b) 0)) by lia.
  destruct (read_areas_ok (set_n_rootdir (b_root b) (set_csize (b_csize b) (set_fats (b_fatsz b) (b_fats b) fs))))
    as (fs' & E & R); [done..|]. exists fs'. split; [exact E|]. destruct R. by split.
Qed.
End bpb.

(** ** The mount *)

Section mount.
Context {D : Type} `{Disk D} (W : Z).
Hypothesis HW : 32 ≤ W.

Implicit Types (fs : FATFS) (d : D) (img : list Z).

(** A clean window is moved without a write. *)
Lemma load_sector fs d img s :
  dsk d img → pdrv fs = 0 → length (win fs) = 512%nat → wflag fs = 0 → winsect fs ≠ s → 0 ≤ s < n_sect img →
  ∃ d', move_window W s (fs, d) = Ok (FR_OK, (set_window 0 s (sector s img) fs, d')) ∧ dsk d' img.
Proof.
  intros Hd Hp Hl Hw Hne Hs. unfold move_window. ff_run. rewrite (proj2 (Z.eqb_neq s (winsect fs))) by done. cbn [negb].
  assert (sync_window W (fs, d) = Ok (FR_OK, (fs, d))) as E by (unfold sync_window; ff_run; by rewrite Hw).
  rewrite (run_bind _ _ _ _ _ E), decide_True by done. ff_run.
  destruct (read_sector fs d img s Hd Hp Hl Hs) as (d' & Hr & Hd'). rewrite (run_bind _ _ _ _ _ Hr). cbv beta iota. ff_run.
  change (RES_OK =? RES_OK) with true. cbn [negb]. ff_run. exists d'. split; [|done].
  unfold set_winsect, set_win, set_window, mret, ff_ret. cbn. by rewrite Hw.
Qed.

Lemma check_fs_ok fs d img n :
  dsk d img → pdrv fs = 0 → length (win fs) = 512%nat → boot_ok (sector 0 img) n → 0 < n_sect img →
  ∃ d', check_fs W 0 (fs, d) = Ok (0, (set_window 0 0 (sector 0 img) fs, d')) ∧ dsk d' img.
Proof.
  intros Hd Hp Hl B Hn. unfold check_fs. ff_run.
  destruct (load_sector (set_winsect FFFFFFFF (set_wflag 0 fs)) d img 0) as (d' & Hm & Hd'); [done|done|done|done|done|lia|].
  rewrite (run_bind _ _ _ _ _ Hm). rewrite decide_False by congruence. exists d'. split; [|done]. unfold get_win. ff_run.
  set (fs1 := set_window 0 0 _ _). change (win fs1) with (sector 0 img). rewrite (ld16 _ _ B BS_55AA) by done. ff_run.
  rewrite (bo_sign _ _ B). cbn [negb]. change (43605 =? 43605) with true. cbn [negb]. ff_run.
  change (win fs1) with (sector 0 img). rewrite (ld8 _ _ B BS_JmpBoot) by done. ff_run.
  change (win fs1) with (sector 0 img). rewrite (ld8 _ _ B (BS_JmpBoot + 2)) by done. ff_run.
  assert ((f8 (sector 0 img) BS_JmpBoot =? 233) || ((f8 (sector 0 img) BS_JmpBoot =? 235) && (f8 (sector 0 img) (BS_JmpBoot + 2) =? 144)) = true) as ->.
  { destruct (bo_jump _ _ B) as [-> |[-> ->]]; done. }
  destruct (bo_name _ _ B) as [-> |(k & -> & E)]; ff_run; [done|]. destruct (k =? 0); [done|]. by rewrite E.
Qed.

(** The FSInfo sector changes only what is known of the free clusters. *)
Lemma read_fsinfo_ok fs d img t :
  dsk d img → pdrv fs = 0 → length (win fs) = 512%nat → wflag fs = 0 → winsect fs = 0 →
  (∀ i, 0 ≤ i ≤ 510 → ∃ v, ld_word (win fs) i = Ok v) → win fs = sector 0 img → 1 < n_sect img →
  ∃ s fsi last free d', 0 ≤ s ≤ 1 ∧
    read_fsinfo W t 0 (fs, d) = Ok ((), (set_alloc fsi last free (set_window 0 s (sector s img) fs), d')) ∧ dsk d' img ∧
    (t ≠ FS_FAT32 → last = last_clst fs ∧ free = free_clst fs).
Proof using HW.
  intros Hd Hp Hl Hw Hz Hld Hwin Hn. unfold read_fsinfo. ff_run.
  assert (fs = set_alloc (fsi_flag fs) (last_clst fs) (free_clst fs) (set_window 0 0 (sector 0 img) fs)) as Eid.
  { unfold set_alloc, set_window. cbn. rewrite <-Hwin, <-Hw. destruct fs. cbn in *. by subst. }
  assert (∃ s fsi last free d', 0 ≤ s ≤ 1 ∧
    Ok ((), (fs, d)) = Ok ((), (set_alloc fsi last free (set_window 0 s (sector s img) fs), d')) ∧ dsk d' img ∧
    (t ≠ FS_FAT32 → last = last_clst fs ∧ free = free_clst fs)) as Hskip.
  { eexists 0, _, _, _, d. split; [lia|]. split; [by rewrite <-Eid|]. done. }
  destruct (t =? FS_FAT32) eqn:Et; [|exact Hskip]. apply Z.eqb_eq in Et.
  destruct (Hld BPB_FSInfo32 ltac:(done)) as (one & ->). ff_run. destruct (one =? 1); [|exact Hskip].
  rewrite dw_small by (done || lia). destruct (load_sector fs d img (0 + 1)) as (d' & Hm & Hd'); [done|done|done|done|lia|lia|].
  rewrite (run_bind _ _ _ _ _ Hm), decide_True by done. ff_run. set (fs1 := set_alloc _ _ _ _).
  change (win (set_window 0 (0 + 1) (sector (0 + 1) img) fs)) with (sector 1 img).
  assert (∀ i, 0 ≤ i ≤ 508 → ld_dword W (sector 1 img) i = Ok (f32 (sector 1 img) i)) as H32.
  { intros i Hi. destruct (dsk_bytes _ _ Hd). apply ld_dword_ok; [done|lia| |by apply sector_bytes]. rewrite sector_length; lia. }
  rewrite ld_word_ok; [|done|rewrite sector_length; [done|lia]|apply sector_bytes, (dsk_bytes _ _ Hd)]. ff_run.
  rewrite !H32 by done. ff_run. case_match; ff_run; by eexists 1, _, _, _, d'.
Qed.

(** A volume as the boot sector describes it can be worked with. *)
Lemma mounted_geometry b fs n : boot_ok b n → is_mounted b fs → pdrv fs = 0 → geometry fs n ∧ pow2_csize fs.
Proof.
  intros B M Hp. pose proof (layout_bounds b n B) as (Hrs & Hfz & Hcs & Hrt & Hcl & Hroom & Hr16 & Hfs & Hsys).
  pose proof (bo_fats _ _ B). pose proof (bo_disk _ _ B). pose proof (bo_max _ _ B) as Hmax. pose proof (bo_table _ _ B) as Ht.
  destruct (csize_pow2 b n B) as (k & Hk & Ek). destruct M as [M1 M2 M3 M4 M5 M6 M7 M8 M9 M10]. unfold MAX_FAT32 in *.
  split; [|exists k; split; [done|congruence]].
  assert (b_type b = FS_FAT12 ∧ b_clusters b ≤ 4085 ∨ b_type b = FS_FAT16 ∧ b_clusters b ≤ 65525 ∨ b_type b = FS_FAT32) as Hty.
  { unfold b_type, MAX_FAT12, MAX_FAT16. destruct (Z.leb_spec (b_clusters b) 4085); [by left|].
    destruct (Z.leb_spec (b_clusters b) 65525); [by right; left|by do 2 right]. }
  assert (b_system b = b_rsvd b + b_fatsz b * b_fats b + b_root b / 16) as Es by done. unfold b_table in Ht.
  split; rewrite ?M1, ?M2, ?M4, ?M5, ?M6, ?M8, ?M10; try done; try lia.
  - destruct Hty as [[-> ?]|[[-> ?]| ->]]; intros E; try done; lia.
  - destruct Hty as [[-> ?]|[[-> ?]| ->]]; intros E; try done; lia.
  - unfold SS. destruct Hty as [[E _]|[[E _]|E]]; rewrite E in *; simpl in *; try lia.
    pose proof (Z.div_mod ((b_clusters b + 2) * 3 + 1) 2 ltac:(lia)). pose proof (Z.mod_pos_bound ((b_clusters b + 2) * 3 + 1) 2 ltac:(lia)). lia.
Qed.

Lemma mount_ok v fs d img path opt :
  starts d img → length (win fs) = 512%nat → (get_ldnumber path).1 = 0 → opt ≠ 0 →
  boot_ok (sector 0 img) (n_sect img) → mirrored (sector 0 img) img →
  ∃ fs' d', f_mount W v true path opt (fs, d) = Ok ((FR_OK, mk_vars true (u16 (Fsid v + 1))), (fs', d')) ∧
    dsk d' img ∧ is_mounted (sector 0 img) fs' ∧ fs_id fs' = u16 (Fsid v + 1) ∧ win_ok fs' img ∧ pow2_csize fs' ∧
    (b_type (sector 0 img) ≠ FS_FAT32 → free_clst fs' = FFFFFFFF ∧ last_clst fs' = FFFFFFFF).
Proof using HW.
  intros (d1 & Hi & Hd1) Hl Hp Ho B Hmir. set (b := sector 0 img) in *. destruct (dsk_bytes _ _ Hd1) as [Hby Hn].
  pose proof (layout_bounds b _ B) as (Hrs & Hfz & _ & _ & _ & _ & Hr16 & Hfs & Hsys).
  assert (1 < n_sect img) as Hn1.
  { pose proof (bo_disk _ _ B). assert (b_system b = b_rsvd b + b_fatsz b * b_fats b + b_root b / 16) by done.
    destruct (bo_fats _ _ B); nia. }
  unfold f_mount, find_volume. destruct (get_ldnumber path) as [vol p]. cbn [fst] in Hp. subst vol.
  change (0 <? 0) with false. cbv beta iota zeta. rewrite orb_true_r. ff_run. rewrite (proj2 (Z.eqb_neq opt 0)) by done.
  cbn [registered negb]. ff_run. change (truth (fs_type (set_volume 0 (pdrv fs) fs))) with false. cbv iota.
  unfold mount_volume. ff_run. set (fs1 := set_volume 0 0 _).
  assert (dinitialize (fs1, d) = Ok (0, (fs1, d1))) as Hini.
  { unfold dinitialize. change (pdrv (fs1, d).1) with 0. cbn [snd]. by rewrite Hi. }
  rewrite (run_bind _ _ _ _ _ Hini). change (truth (Z.land 0 STA_NOINIT)) with false. cbv iota.
  change (truth (Z.land 0 (u8 (Z.lnot FA_READ)))) with false. cbn [andb]. ff_run. unfold locate. ff_run.
  destruct (check_fs_ok fs1 d1 img (n_sect img)) as (d2 & Hc & Hd2); [done..|lia|]. fold b in Hc.
  rewrite (run_bind _ _ _ _ _ Hc). change (0 =? 2) with false. cbv iota. ff_run. change (0 =? 4) with false. change (2 <=? 0) with false.
  cbv iota. ff_run. set (fs2 := set_window 0 0 b fs1). change (win fs2) with b.
  destruct (read_bpb_ok W b (n_sect img) HW B Hn fs2) as (fs3 & Hb & [R1 R2 R3 R4 R5 R6]). rewrite Hb. ff_run.
  destruct (read_fsinfo_ok fs3 d2 img (b_type b)) as (s & fsi & la & fr & d3 & Hs & Hf & Hd3 & Hnf);
    [done|done|rewrite R4; by apply B|by rewrite R2|by rewrite R3| |by rewrite R4|done|].
  { intros i Hi'. rewrite R4. exists (f16 b i). apply (ld16 b _ B). lia. }
  rewrite (run_bind _ _ _ _ _ Hf). ff_run. eexists _, d3. split; [reflexivity|]. split; [done|].
  set (fs4 := set_mount _ _ _). assert (is_mounted b fs4) as M by (destruct R1; by split).
  destruct (mounted_geometry b fs4 (n_sect img) B M R5) as [G Hpow]. split; [done|]. split; [done|]. split; [|split; [done|]].
  - split; [done|apply sector_length; lia|by apply sector_bytes|done|cbn; lia|done|].
    intros H2 s' Hin _. destruct M. unfold in_fat in Hin. rewrite im_fsize0, im_fatbase0 in *. apply Hmir; congruence.
  - intros Ht. destruct (Hnf Ht) as [-> ->]. done.
Qed.

(** C11: the mount of a disk that its initialisation makes ready, whose first
    sector is the boot sector of a FAT volume that fits it, succeeds; the object then says of the volume
    what the boot sector says -- its type by the number of clusters, where the
    FATs, the root directory and the data are, computed without overflow --,
    is in the state the functions on the FAT and on files start from, and the
    disk is unchanged. *)
Theorem mount_gives_volume v fs d img path opt :
  starts d img → length (win fs) = 512%nat → (get_ldnumber path).1 = 0 → opt ≠ 0 →
  boot_ok (sector 0 img) (n_sect img) → mirrored (sector 0 img) img →
  ∃ fs' d', f_mount W v true path opt (fs, d) = Ok ((FR_OK, mk_vars true (u16 (Fsid v + 1))), (fs', d')) ∧
    dsk d' img ∧ is_mounted (sector 0 img) fs' ∧ fs_id fs' = u16 (Fsid v + 1) ∧ win_ok fs' img ∧ pow2_csize fs' ∧
    (b_type (sector 0 img) ≠ FS_FAT32 → free_clst fs' = FFFFFFFF ∧ last_clst fs' = FFFFFFFF).
Proof using HW. apply mount_ok. Qed.
End mount.

(** ** The small volume with its boot sector *)

Definition small_boot : list Z :=
  [235; 60; 144] ++ replicate 8 32 ++ [0; 2; 1; 1; 0; 2; 16; 0; 8; 0; 248; 1; 0] ++ replicate 30 0 ++
  str "FAT12   " ++ replicate 448 0 ++ [85; 170].
Definition boot_img : list Z := small_boot ++ small_fat ++ small_fat ++ replicate 2560 0.
Definition boot_host : hostdisk memhost := mk_hd (100 :: replicate 127 0) 1 8 0 (mk_memhost [100] boot_img (Some 0)).

(** Before the mount. *)
Definition blank_fs : FATFS := mk_fatfs 0 0 0 0 0 0 0 0 0 0 0 0 0 0 0 0 0 (replicate 512 0).

Lemma boot_bytes : Forall is_byte boot_img.
Proof. apply (bool_decide_unpack _). vm_compute. exact I. Qed.

Lemma boot_dsk : dsk boot_host boot_img.
Proof.
  split; [apply boot_bytes|]. exists (mk_memhost [100] boot_img (Some 0)), [100].
  split; try done. by exists 0.
Qed.

Lemma small_boot_ok : boot_ok (sector 0 boot_img) (n_sect boot_img).
Proof.
  assert (sector 0 boot_img = small_boot) as -> by (vm_compute; reflexivity).
  split; try done; try (vm_compute; reflexivity).
  - apply (bool_decide_unpack _). vm_compute. exact I.
  - right. by split.
  - left. vm_compute. reflexivity.
  - by right.
Qed.

Lemma boot_mirrored : mirrored (sector 0 boot_img) boot_img.
Proof.
  intros _ s. assert (sector 0 boot_img = small_boot) as -> by (vm_compute; reflexivity).
  change (b_rsvd small_boot) with 1. change (b_fatsz small_boot) with 1. intros Hs. assert (s = 1) as -> by lia.
  vm_compute. reflexivity.
Qed.

Lemma mount_gives_volume_witness :
  ∃ fs' d', f_mount 32 (mk_vars false 0) true (Some (str "0:")) 1 (blank_fs, boot_host) = Ok ((FR_OK, mk_vars true 1), (fs', d')) ∧
    fs_type fs' = FS_FAT12 ∧ n_fatent fs' = 6 ∧ fatbase fs' = 1 ∧ dirbase fs' = 3 ∧ database fs' = 4 ∧ win_ok fs' boot_img.
Proof.
  destruct (mount_gives_volume 32 ltac:(lia) (mk_vars false 0) blank_fs boot_host boot_img (Some (str "0:")) 1
    (host_starts _ _ boot_dsk) ltac:(reflexivity) ltac:(reflexivity) ltac:(lia) small_boot_ok boot_mirrored)
    as (fs' & d' & Hm & _ & [M1 _ _ _ M5 _ _ M8 M9 M10] & _ & Hw & _).
  exists fs', d'. split; [exact Hm|]. split; [rewrite M1; vm_compute; reflexivity|]. split; [rewrite M5; vm_compute; reflexivity|].
  split; [rewrite M8; vm_compute; reflexivity|]. split; [rewrite M9; vm_compute; reflexivity|].
  split; [rewrite M10; vm_compute; reflexivity|exact Hw].
Defined.
