(* ===== verification/FfApi.v ===== *)
(** * FatFs: directories and paths of the API

    src/fatfs/ff.c, the functions of the API that take a path or a directory
    object.  The local DIR objects, which the code does not initialise, are
    arguments. *)

From S2P Require Import Prelude Bytes Cstdio Ff FfDir FfMount FfFile.

Section api.
Context {D : Type} `{DiskOps D} (W : Z).

Abbreviation dw := (wrap W).

(** The volume and the path are looked up; [f] goes on when the volume is
    mounted. *)
Definition on_path {A} (v : ffvars) (dj : DIR) (path : option (list Z)) (mode : Z) (a : A)
    (f : FRESULT → DIR → ff D (FRESULT * A)) : ff D (FRESULT * A * ffvars) :=
  '(r, path, v) ← find_volume W v path mode;
  if decide (r ≠ FR_OK) then mret (r, a, v) else
  '(r, dj) ← follow_path W (set_obj (set_obj_fs true (d_obj dj)) dj) (default [] path);
  '(r, a) ← f r dj;
  mret (r, a, v).

(** [dj.fn[NSFLAG] & m]. *)
Definition name_flag (m : Z) (dj : DIR) : ff D bool := b ← lift (get (fn dj) NSFLAG); mret (truth (Z.land b m)).

(** ** Directories *)

(** [r]: what the search for the path gave. *)
Definition open_dir (r : FRESULT) (dp : DIR) : ff D (FRESULT * DIR) :=
  '(r, dp) ←
    (if decide (r = FR_OK) then
       noname ← name_flag NS_NONAME dp;
       fs ← the_fs;
       '(r, dp) ←
         (if (noname : bool) then mret (FR_OK, dp) else
          if truth (Z.land (attr (d_obj dp)) AM_DIR) then
            cl ← lift (ld_clust W fs (d_dir dp));
            mret (FR_OK, set_obj (set_sclust cl (d_obj dp)) dp)
          else mret (FR_NO_PATH, dp));
       if decide (r = FR_OK) then dir_sdi W (set_obj (set_obj_id (fs_id fs) (d_obj dp)) dp) 0 else mret (r, dp)
     else mret (r, dp));
  mret (if decide (r = FR_NO_FILE) then FR_NO_PATH else r, dp).

(** When the volume cannot be mounted [dp] keeps all but its volume; when the
    path cannot be followed it has changed too, and is invalid all the same. *)
Definition f_opendir (v : ffvars) (dp : DIR) (path : option (list Z)) : ff D (FRESULT * DIR * ffvars) :=
  '(r, dp, v) ← on_path v dp path 0 dp open_dir;
  mret (r, if decide (r ≠ FR_OK) then set_obj (set_obj_fs false (d_obj dp)) dp else dp, v).

Definition f_closedir (dp : DIR) : ff D (FRESULT * DIR) :=
  r ← validate (d_obj dp);
  mret (r, if decide (r = FR_OK) then set_obj (set_obj_fs false (d_obj dp)) dp else dp).

(** [fno] is [None] to rewind. *)
Definition f_readdir (dp : DIR) (fno : option FILINFO) : ff D (FRESULT * DIR * option FILINFO) :=
  r ← validate (d_obj dp);
  if decide (r ≠ FR_OK) then mret (r, dp, fno) else
  match fno with
  | None => '(r, dp) ← dir_sdi W dp 0; mret (r, dp, None)
  | Some fno =>
      '(r, dp) ← dir_read W dp false;
      let r := if decide (r = FR_NO_FILE) then FR_OK else r in
      if decide (r ≠ FR_OK) then mret (r, dp, Some fno) else
      fno ← get_fileinfo W dp fno;
      '(r, dp) ← dir_next W dp false;
      mret (if decide (r = FR_NO_FILE) then FR_OK else r, dp, Some fno)
  end.

Definition f_stat (v : ffvars) (dj : DIR) (path : option (list Z)) (fno : option FILINFO)
    : ff D (FRESULT * option FILINFO * ffvars) :=
  on_path v dj path 0 fno (λ r dj,
    if decide (r ≠ FR_OK) then mret (r, fno) else
    noname ← name_flag NS_NONAME dj;
    if (noname : bool) then mret (FR_INVALID_NAME, fno) else
    match fno with
    | None => mret (FR_OK, None)
    | Some fno => fno ← get_fileinfo W dj fno; mret (FR_OK, Some fno)
    end).

(** ** Free clusters *)

(** FAT12: the entries from [clst] on. *)
Fixpoint count_12 (fuel : nat) (clst nfree : Z) : ff D (FRESULT * Z) :=
  match fuel with
  | O => lift (Fault OutOfFuel)
  | S fuel =>
      stat ← get_fat W clst;
      if stat =? FFFFFFFF then mret (FR_DISK_ERR, nfree) else
      if stat =? 1 then mret (FR_INT_ERR, nfree) else
      let nfree := if stat =? 0 then dw (nfree + 1) else nfree in
      fs ← the_fs;
      if dw (clst + 1) <? n_fatent fs then count_12 fuel (dw (clst + 1)) nfree else mret (FR_OK, nfree)
  end.

(** FAT16 and FAT32: [clst] entries, from offset [i] of a sector on; [sect] is
    the next one. *)
Fixpoint count_sectors (fuel : nat) (clst sect i nfree : Z) : ff D (FRESULT * Z) :=
  match fuel with
  | O => lift (Fault OutOfFuel)
  | S fuel =>
      r ← (if i =? 0 then move_window W sect else mret FR_OK);
      let sect := if i =? 0 then dw (sect + 1) else sect in
      if decide (r ≠ FR_OK) then mret (r, nfree) else
      fs ← the_fs;
      '(free, i) ←
        (if fs_type fs =? FS_FAT16 then e ← lift (ld_word (win fs) i); mret (e =? 0, i + 2)
         else e ← lift (ld_dword W (win fs) i); mret (Z.land e 268435455 =? 0, i + 4));
      let nfree := if (free : bool) then dw (nfree + 1) else nfree in
      let clst := dw (clst - 1) in
      if truth clst then count_sectors fuel clst sect (i `mod` SS) nfree else mret (FR_OK, nfree)
  end.

(** The number of free clusters, when one is returned. *)
Definition f_getfree (v : ffvars) (path : option (list Z)) : ff D (FRESULT * option Z * ffvars) :=
  '(r, _, v) ← find_volume W v path 0;
  if decide (r ≠ FR_OK) then mret (r, None, v) else
  fs ← the_fs;
  if free_clst fs <=? dw (n_fatent fs - 2) then mret (FR_OK, Some (free_clst fs), v) else
  '(r, nfree) ← (if fs_type fs =? FS_FAT12 then count_12 (Z.to_nat (n_fatent fs)) 2 0
                 else count_sectors (Z.to_nat (n_fatent fs)) (n_fatent fs) (fatbase fs) 0 0);
  fs ← the_fs;
  modify (set_alloc (Z.lor (fsi_flag fs) 1) (last_clst fs) nfree);;
  mret (r, Some nfree, v).

(** ** Removing *)

(** Whether a directory to remove is empty: [FR_OK] if it is. *)
Definition check_empty (sdj : DIR) (dclst : Z) : ff D FRESULT :=
  '(r, sdj) ← dir_sdi W (set_obj (set_sclust dclst (set_obj_fs true (d_obj sdj))) sdj) 0;
  if decide (r ≠ FR_OK) then mret r else
  '(r, sdj) ← dir_read W sdj false;
  mret (if decide (r = FR_OK) then FR_DENIED else if decide (r = FR_NO_FILE) then FR_OK else r).

Definition f_unlink (v : ffvars) (dj sdj : DIR) (path : option (list Z)) : ff D (FRESULT * () * ffvars) :=
  on_path v dj path FA_WRITE () (λ r dj,
    if decide (r ≠ FR_OK) then mret (r, ()) else
    noname ← name_flag NS_NONAME dj;
    if (noname : bool) then mret (FR_INVALID_NAME, ()) else
    if truth (Z.land (attr (d_obj dj)) AM_RDO) then mret (FR_DENIED, ()) else
    fs ← the_fs;
    dclst ← lift (ld_clust W fs (d_dir dj));
    r ← (if truth (Z.land (attr (d_obj dj)) AM_DIR) then check_empty sdj dclst else mret FR_OK);
    if decide (r ≠ FR_OK) then mret (r, ()) else
    r ← dir_remove W dj;
    r ← (if bool_decide (r = FR_OK) && truth dclst then remove_chain W dclst 0 else mret r);
    r ← (if decide (r = FR_OK) then sync_fs W else mret r);
    mret (r, ())).

(** ** Creating directories *)

(** The dot entries, in the window. *)
Definition dot_entries (fs : FATFS) (dcl pcl : Z) (w : list Z) : res (list Z) :=
  w ← mem_set DIR_Name 32 11 w;
  w ← put DIR_Name 46 w;
  w ← put DIR_Attr AM_DIR w;
  w ← st_dword DIR_ModTime GET_FATTIME w;
  w ← st_clust fs 0 dcl w;
  w ← copy SZDIRE w 0 SZDIRE w;
  w ← put (SZDIRE + 1) 46 w;
  st_clust fs SZDIRE pcl w.

(** The new table. *)
Definition new_table (dj : DIR) (dcl : Z) : ff D FRESULT :=
  if dcl =? 0 then mret FR_DENIED else
  if dcl =? 1 then mret FR_INT_ERR else
  if dcl =? FFFFFFFF then mret FR_DISK_ERR else
  r ← sync_window W;
  if decide (r ≠ FR_OK) then mret r else
  r ← dir_clear W dcl;
  if decide (r ≠ FR_OK) then mret r else
  fs ← the_fs;
  edit_win (dot_entries fs dcl (sclust (d_obj dj)));;
  modify (set_wflag 1);;
  mret FR_OK.

Definition f_mkdir (v : ffvars) (dj : DIR) (path : option (list Z)) : ff D (FRESULT * () * ffvars) :=
  on_path v dj path FA_WRITE () (λ r dj,
    if decide (r = FR_OK) then mret (FR_EXIST, ()) else
    if decide (r ≠ FR_NO_FILE) then mret (r, ()) else
    dcl ← create_chain W 0;
    fs ← the_fs;
    let dj := set_obj (set_objsize (dw (csize fs * SS)) (d_obj dj)) dj in
    r ← new_table dj dcl;
    '(r, dj) ← (if decide (r = FR_OK) then dir_register W dj else mret (r, dj));
    if decide (r = FR_OK) then
      fs ← the_fs;
      edit_win (st_dword (d_dir dj + DIR_ModTime) GET_FATTIME);;
      edit_win (st_clust fs (d_dir dj) dcl);;
      edit_win (put (d_dir dj + DIR_Attr) AM_DIR);;
      modify (set_wflag 1);;
      r ← sync_fs W;
      mret (r, ())
    else remove_chain W dcl 0;; mret (r, ())).

(** ** Renaming *)

(** The entry [ent] of the object at [djo] is copied to the new one [djn],
    and the ".." entry of a directory that moves is updated. *)
Definition move_entry (djo djn : DIR) (ent : list Z) : ff D FRESULT :=
  edit_win (copy (d_dir djn + 13) ent 13 (SZDIRE - 13));;
  a ← lift (get ent DIR_Attr);
  let a := if truth (Z.land a AM_DIR) then a else Z.lor a AM_ARC in
  edit_win (put (d_dir djn + DIR_Attr) a);;
  modify (set_wflag 1);;
  if truth (Z.land a AM_DIR) && negb (sclust (d_obj djo) =? sclust (d_obj djn)) then
    fs ← the_fs;
    cl ← lift (ld_clust W fs (d_dir djn));
    let sect := clst2sect W fs cl in
    if sect =? 0 then mret FR_INT_ERR else
    r ← move_window W sect;
    if decide (r ≠ FR_OK) then mret r else
    c ← get_win (SZDIRE + 1);
    (if c =? 46 then
       fs ← the_fs;
       edit_win (st_clust fs SZDIRE (sclust (d_obj djn)));;
       modify (set_wflag 1)
     else mret ());;
    mret FR_OK
  else mret FR_OK.

Definition f_rename (v : ffvars) (djo : DIR) (path_old path_new : option (list Z)) : ff D (FRESULT * () * ffvars) :=
  let '(_, path_new) := get_ldnumber path_new in
  on_path v djo path_old FA_WRITE () (λ r djo,
    if decide (r ≠ FR_OK) then mret (r, ()) else
    noname ← name_flag (Z.lor NS_DOT NS_NONAME) djo;
    if (noname : bool) then mret (FR_INVALID_NAME, ()) else
    fs ← the_fs;
    ent ← lift (copy 0 (win fs) (d_dir djo) SZDIRE (replicate (Z.to_nat SZDIRE) 0));
    path_new ← lift (of_lookup path_new);
    '(r, djn) ← follow_path W djo path_new;
    let r := if decide (r = FR_OK) then
               if (sclust (d_obj djn) =? sclust (d_obj djo)) && (dptr djn =? dptr djo)
               then FR_NO_FILE else FR_EXIST
             else r in
    r ← (if decide (r = FR_NO_FILE) then
           '(r, djn) ← dir_register W djn;
           if decide (r = FR_OK) then move_entry djo djn ent else mret r
         else mret r);
    if decide (r ≠ FR_OK) then mret (r, ()) else
    r ← dir_remove W djo;
    r ← (if decide (r = FR_OK) then sync_fs W else mret r);
    mret (r, ())).
End api.
