(* ===== verification/FfFree.v ===== *)
(** * FatFs: counting the free clusters

    [f_getfree] counts the entries of the FAT that are zero: entry by entry on
    FAT12, sector by sector on FAT16 and FAT32, where the first two entries,
    which no cluster has, are scanned as well. *)

From S2P Require Import Prelude Bytes Ff FfWindow FfFat FfChain FfDir FfMount FfApi FfRead FfHost FfProps Hostdisk.

(** The free entries from [c] on. *)
Definition free_from (n : Z) (F : Z → Z) (c : Z) : Z :=
  Z.of_nat (length (filter (λ c, F c = 0) (seqZ c (n - c)))).

Lemma free_from_step n F c :
  c < n → free_from n F c = (if F c =? 0 then 1 else 0) + free_from n F (c + 1).
Proof.
  intros Hc. unfold free_from. rewrite (seqZ_cons c) by lia. rewrite filter_cons.
  replace (Z.pred (n - c)) with (n - (c + 1)) by lia. rewrite <-Z.add_1_r.
  destruct (Z.eqb_spec (F c) 0); case_decide; try done; simpl length; lia.
Qed.

Lemma free_from_end n F : free_from n F n = 0.
Proof. unfold free_from. by rewrite Z.sub_diag. Qed.

Lemma free_from_bound n F c : c ≤ n → 0 ≤ free_from n F c ≤ n - c.
Proof.
  intros Hc. unfold free_from. pose proof (length_filter (λ c, F c = 0) (seqZ c (n - c))) as Hl.
  rewrite length_seqZ in Hl. lia.
Qed.

(** Entries 0 and 1 are never zero on a formatted volume. *)
Lemma free_from_0 n F : 2 < n → F 0 ≠ 0 → F 1 ≠ 0 → free_from n F 0 = n_free n F.
Proof.
  intros Hn H0 H1. rewrite free_from_step, (free_from_step _ _ (0 + 1)) by lia.
  change (0 + 1) with 1. rewrite (proj2 (Z.eqb_neq _ _) H0), (proj2 (Z.eqb_neq _ _) H1). done.
Qed.

Section count.
Context {D : Type} `{Disk D} (W : Z).
Hypothesis HW : 32 ≤ W.

Implicit Types (fs : FATFS) (d : D) (img : list Z) (F : Z → Z).

Lemma count_add fs n k F c :
  geometry fs n → 0 ≤ k ≤ c → c < n_fatent fs →
  (if F c =? 0 then wrap W (k + 1) else k) = k + (if F c =? 0 then 1 else 0).
Proof using HW.
  intros G Hk Hc. pose proof (geo_ents _ _ G). destruct (F c =? 0); [|lia]. apply (dw_small W HW). lia.
Qed.

Lemma count_12_ok fuel F fs d img c k :
  fat_rep F fs d img → valid (n_fatent fs) c → 0 ≤ k ≤ c → (Z.to_nat (n_fatent fs - c) ≤ fuel)%nat →
  ∃ fs' d' img', count_12 W fuel c k (fs, d) = Ok ((FR_OK, k + free_from (n_fatent fs) F c), (fs', d')) ∧
    fat_rep F fs' d' img' ∧ keeps_view fs img fs' img'.
Proof using HW.
  revert fs d img c k. induction fuel as [|fuel IH]; intros fs d img c k Hr Hc Hk Hfuel; [unfold valid in Hc; lia|].
  destruct (rep_bound F fs d img c Hr Hc) as [Hb HF]. pose proof (fr_sane _ _ _ _ Hr c Hc) as H1.
  pose proof (wo_geo _ _ (fr_win _ _ _ _ Hr)) as G. pose proof (geo_ents _ _ G) as Hents. unfold valid in Hc.
  destruct (get_rep W HW F fs d img c Hr Hc) as (fs1 & d1 & img1 & Hg & Hr1 & Hk1). cbn [count_12].
  rewrite (run_bind _ _ _ _ _ Hg), (proj2 (Z.eqb_neq _ _) HF), (proj2 (Z.eqb_neq _ _) H1). ff_run.
  assert (n_fatent fs1 = n_fatent fs) as En by apply (kv_volume _ _ _ _ Hk1).
  rewrite (count_add fs _ k F c G) by lia. rewrite (dw_small W HW (c + 1)) by lia. rewrite En, free_from_step by lia.
  destruct (Z.ltb_spec (c + 1) (n_fatent fs)) as [Hlt|Hge].
  - destruct (IH fs1 d1 img1 (c + 1) (k + if F c =? 0 then 1 else 0)) as (fs2 & d2 & img2 & E & Hr2 & Hk2);
      [done|unfold valid; lia|destruct (F c =? 0); lia|lia|].
    exists fs2, d2, img2. rewrite E, En. split; [do 3 f_equal; lia|]. split; [done|by eapply keeps_view_trans].
  - exists fs1, d1, img1. replace (c + 1) with (n_fatent fs) by lia. rewrite free_from_end. split; [|done].
    unfold mret, ff_ret. do 3 f_equal. lia.
Qed.

(** The width of an entry, on FAT16 and FAT32. *)
Definition width fs : Z := if fs_type fs =? FS_FAT16 then 2 else 4.

Lemma width_cases fs n :
  geometry fs n → fs_type fs ≠ FS_FAT12 →
  (fs_type fs = FS_FAT16 ∧ width fs = 2 ∨ fs_type fs = FS_FAT32 ∧ width fs = 4) ∧ n_fatent fs * width fs ≤ fsize fs * SS.
Proof.
  intros G Ht. pose proof (geo_table _ _ G) as Htab. unfold width.
  destruct (geo_type _ _ G) as [E|[E|E]]; [done| |]; rewrite E in *; cbn in Htab |- *; split; auto; lia.
Qed.

(** The next entry is in the window, or at the beginning of the next sector. *)
Lemma next_entry c w :
  w = 2 ∨ w = 4 → 0 ≤ c → let i := (c * w) `mod` SS in
  i + w ≤ SS ∧ ((c + 1) * w) `mod` SS = (i + w) `mod` SS ∧
  ((c + 1) * w) / SS = if ((c + 1) * w) `mod` SS =? 0 then (c * w) / SS + 1 else (c * w) / SS.
Proof.
  intros Hw Hc. unfold SS. cbn zeta. destruct (Z.eqb_spec (((c + 1) * w) `mod` 512) 0);
    destruct Hw as [-> | ->]; Z.to_euclidean_division_equations; lia.
Qed.

(** The entry in the window. *)
Lemma load_entry fs d img c :
  win_ok fs img → fs_type fs ≠ FS_FAT12 → 0 ≤ c < n_fatent fs → winsect fs = fatbase fs + (c * width fs) / SS →
  (if fs_type fs =? FS_FAT16
   then e ← lift (ld_word (win fs) ((c * width fs) `mod` SS)); mret (e =? 0, (c * width fs) `mod` SS + 2)
   else e ← lift (ld_dword W (win fs) ((c * width fs) `mod` SS)); mret (Z.land e 268435455 =? 0, (c * width fs) `mod` SS + 4)) (fs, d) =
  Ok ((fat_val fs img c =? 0, (c * width fs) `mod` SS + width fs), (fs, d)).
Proof using HW.
  intros Hw Ht Hc Hws. destruct (width_cases fs _ (wo_geo _ _ Hw) Ht) as [Hwd _]. pose proof (wo_len _ _ Hw).
  destruct (next_entry c (width fs)) as (Hfit & _); [tauto|lia|]. pose proof (Z.mod_pos_bound (c * width fs) SS ltac:(done)).
  assert (SS = 512) by done. unfold fat_val, fat_of. destruct Hwd as [[E Ew]|[E Ew]]; rewrite Ew in *; rewrite E; cbn [Z.eqb Pos.eqb FS_FAT12 FS_FAT16 FS_FAT32].
  - rewrite ld_word_ok by (lia || apply Hw). ff_run. rewrite (win_fat_bytes fs img (c * 2) 2) by (done || lia).
    unfold mret, ff_ret. simpl. change (Z.of_nat 0) with 0. change (Z.of_nat 1) with 1. rewrite Z.add_0_r. do 4 f_equal. lia.
  - rewrite ld_dword_ok by (lia || apply Hw). ff_run. rewrite (win_fat_bytes fs img (c * 4) 4) by (done || lia).
    unfold mret, ff_ret. simpl. change (Z.of_nat 0) with 0. change (Z.of_nat 1) with 1. change (Z.of_nat 2) with 2. change (Z.of_nat 3) with 3.
    rewrite Z.add_0_r. change 268435455 with (Z.ones 28). rewrite Z.land_ones by lia. change (2 ^ 28) with 268435456.
    do 4 f_equal. f_equal. lia.
Qed.

(** Before entry [c]: [sect] is the sector to load next. *)
Definition scan_at fs (c sect : Z) : Prop :=
  if (c * width fs) `mod` SS =? 0 then sect = fatbase fs + (c * width fs) / SS
  else sect = fatbase fs + (c * width fs) / SS + 1 ∧ winsect fs = fatbase fs + (c * width fs) / SS.

Lemma scan_load fs d img c sect :
  win_ok fs img → dsk d img → fs_type fs ≠ FS_FAT12 → 0 ≤ c < n_fatent fs → scan_at fs c sect →
  ∃ fs' d' img', (if (c * width fs) `mod` SS =? 0 then move_window W sect else mret FR_OK) (fs, d) = Ok (FR_OK, (fs', d')) ∧
    dsk d' img' ∧ win_ok fs' img' ∧ keeps_view fs img fs' img' ∧ winsect fs' = fatbase fs + (c * width fs) / SS ∧
    (if (c * width fs) `mod` SS =? 0 then wrap W (sect + 1) else sect) = fatbase fs + (c * width fs) / SS + 1.
Proof using HW.
  intros Hw Hd Ht Hc Hat. unfold scan_at in Hat. destruct (width_cases fs _ (wo_geo _ _ Hw) Ht) as [Hwd Htab].
  destruct (fat_sector fs img Hw (c * width fs)) as (_ & Hs & Hn2); [nia|]. destruct (dsk_bytes _ _ Hd) as [_ Hmax]. unfold FFFFFFFF in Hmax.
  destruct ((c * width fs) `mod` SS =? 0).
  - subst sect. destruct (move_window_ok W HW fs d img _ Hw Hd Hs Hn2) as (fs' & d' & img' & E & Hd' & Hw' & Hk & Hws & _).
    exists fs', d', img'. rewrite (dw_small W HW) by lia. done.
  - destruct Hat as [-> Hws]. exists fs, d, img. split; [done|]. split; [done|]. split; [done|]. split; [apply keeps_view_refl|done].
Qed.

Lemma count_sectors_ok fuel F fs d img c sect k :
  win_ok fs img → dsk d img → (∀ c, 0 ≤ c < n_fatent fs → fat_val fs img c = F c) → fs_type fs ≠ FS_FAT12 →
  0 ≤ c < n_fatent fs → scan_at fs c sect → 0 ≤ k ≤ c → (Z.to_nat (n_fatent fs - c) ≤ fuel)%nat →
  ∃ fs' d' img', count_sectors W fuel (n_fatent fs - c) sect ((c * width fs) `mod` SS) k (fs, d) =
      Ok ((FR_OK, k + free_from (n_fatent fs) F c), (fs', d')) ∧
    dsk d' img' ∧ win_ok fs' img' ∧ keeps_view fs img fs' img'.
Proof using HW.
  revert fs d img c sect k. induction fuel as [|fuel IH]; intros fs d img c sect k Hw Hd HF Ht Hc Hat Hk Hfuel; [lia|].
  pose proof (wo_geo _ _ Hw) as G. pose proof (geo_ents _ _ G) as Hents. cbn [count_sectors].
  destruct (scan_load fs d img c sect Hw Hd Ht Hc Hat) as (fs1 & d1 & img1 & E1 & Hd1 & Hw1 & Hk1 & Hws1 & Es).
  rewrite (run_bind _ _ _ _ _ E1), decide_False by naive_solver. ff_run. rewrite Es.
  pose proof (kv_volume _ _ _ _ Hk1) as V.
  assert (n_fatent fs1 = n_fatent fs ∧ fs_type fs1 = fs_type fs ∧ fatbase fs1 = fatbase fs) as (En & Et & Ef) by (repeat split; apply V).
  assert (width fs1 = width fs) as Ew by (unfold width; by rewrite Et).
  pose proof (load_entry fs1 d1 img1 c Hw1) as El. rewrite Et, En, Ew, Ef in El. specialize (El Ht Hc Hws1).
  rewrite Et, (run_bind _ _ _ _ _ El). cbv beta iota zeta.
  assert (fat_val fs1 img1 c = F c) as Ev by (rewrite (fat_entry_keeps fs img fs1 img1) by done; auto). rewrite Ev.
  rewrite (count_add fs _ k F c G), (dw_small W HW (n_fatent fs - c - 1)), free_from_step by lia.
  destruct (width_cases fs _ G Ht) as [Hwd _]. destruct (next_entry c (width fs)) as (_ & Hmod & Hdiv); [tauto|lia|].
  destruct (truth (n_fatent fs - c - 1)) eqn:Hlast; bool_to_prop.
  - destruct (IH fs1 d1 img1 (c + 1) (fatbase fs + c * width fs / SS + 1) (k + if F c =? 0 then 1 else 0))
      as (fs2 & d2 & img2 & E2 & Hd2 & Hw2 & Hk2);
      [done|done|intros c' Hc'; rewrite (fat_entry_keeps fs img fs1 img1) by (done || lia); apply HF; lia|by rewrite Et|lia
      |unfold scan_at; rewrite Ew, Ef; rewrite Hdiv; destruct (((c + 1) * width fs) `mod` SS =? 0); [symmetry; apply Z.add_assoc|done]|destruct (F c =? 0); lia|lia|].
    exists fs2, d2, img2. rewrite En, Ew in E2. rewrite <-Hmod. replace (n_fatent fs - c - 1) with (n_fatent fs - (c + 1)) by lia.
    rewrite E2. split; [do 3 f_equal; lia|]. split; [done|]. split; [done|by eapply keeps_view_trans].
  - exists fs1, d1, img1. replace (c + 1) with (n_fatent fs) by lia. rewrite free_from_end. split; [|done].
    unfold mret, ff_ret. do 3 f_equal. lia.
Qed.

(** A mounted volume is found. *)
Lemma find_mounted F v fs d img path mode :
  fat_rep F fs d img → registered v = true → (get_ldnumber path).1 = 0 →
  ∃ d', find_volume W v path mode (fs, d) = Ok ((FR_OK, (get_ldnumber path).2, v), (fs, d')) ∧ fat_rep F fs d' img.
Proof.
  intros [Hw Hd Hv Hs] Hreg Hp. unfold find_volume. destruct (get_ldnumber path) as [vol p]. cbn [fst snd] in Hp |- *. subst vol.
  change (0 <? 0) with false. cbv iota. rewrite Hreg. cbn [negb]. ff_run. pose proof (wo_geo _ _ Hw) as G.
  assert (truth (fs_type fs) = true) as -> by (destruct (geo_type _ _ G) as [->|[->| ->]]; done).
  destruct (dsk_status d img Hd) as (d' & Hst & Hd').
  assert (dstatus (fs, d) = Ok (0, (fs, d'))) as E by (unfold dstatus; cbn [fst snd]; by rewrite (geo_pdrv _ _ G), Hst).
  rewrite (run_bind _ _ _ _ _ E). change (truth (Z.land 0 STA_NOINIT)) with false. change (truth (Z.land 0 STA_PROTECT)) with false.
  rewrite andb_false_r. exists d'. done.
Qed.

(** The scan finds the number of free clusters. *)
Lemma scan_ok F fs d img :
  fat_rep F fs d img → (fs_type fs ≠ FS_FAT12 → fat_val fs img 0 ≠ 0 ∧ fat_val fs img 1 ≠ 0) →
  ∃ fs' d' img', (if fs_type fs =? FS_FAT12 then count_12 W (Z.to_nat (n_fatent fs)) 2 0
      else count_sectors W (Z.to_nat (n_fatent fs)) (n_fatent fs) (fatbase fs) 0 0) (fs, d) =
      Ok ((FR_OK, n_free (n_fatent fs) F), (fs', d')) ∧ fat_rep F fs' d' img' ∧ keeps_view fs img fs' img'.
Proof using HW.
  intros Hr Hmedia. pose proof Hr as [Hw Hd Hv Hs]. pose proof (geo_ents _ _ (wo_geo _ _ Hw)).
  destruct (Z.eqb_spec (fs_type fs) FS_FAT12) as [_|Ht].
  - destruct (count_12_ok (Z.to_nat (n_fatent fs)) F fs d img 2 0) as (fs' & d' & img' & E & Hr' & Hk); [done|unfold valid; lia|lia|lia|].
    by exists fs', d', img'.
  - destruct (Hmedia Ht) as [H0' H1'].
    destruct (count_sectors_ok (Z.to_nat (n_fatent fs)) (fat_val fs img) fs d img 0 (fatbase fs) 0) as (fs' & d' & img' & E & Hd' & Hw' & Hk);
      [done|done|done|done|lia|unfold scan_at; rewrite Z.mul_0_l, Z.mod_0_l, Z.div_0_l by done; cbn; lia|lia|lia|].
    exists fs', d', img'. rewrite Z.mul_0_l, Z.mod_0_l, Z.sub_0_r, Z.add_0_l, free_from_0 in E by (done || lia).
    rewrite (n_free_ext _ F (fat_val fs img)) in E by done. split; [done|]. split; [|done].
    assert (n_fatent fs' = n_fatent fs) as En by apply (kv_volume _ _ _ _ Hk).
    split; [done|done| |]; rewrite En; [|done]. intros c Hc. rewrite (fat_val_keeps fs img fs' img'); auto.
Qed.

(** [f_getfree] returns the number of free clusters of the FAT, from the
    count it keeps or by a scan through the window, keeps the count exact and
    changes nothing on the volume. *)
Theorem getfree_counts F v fs d img path :
  fat_rep F fs d img → free_ok F fs → registered v = true → (get_ldnumber path).1 = 0 →
  (fs_type fs ≠ FS_FAT12 → fat_val fs img 0 ≠ 0 ∧ fat_val fs img 1 ≠ 0) →
  ∃ fs' d' img', f_getfree W v path (fs, d) = Ok ((FR_OK, Some (n_free (n_fatent fs) F), v), (fs', d')) ∧
    fat_rep F fs' d' img' ∧ free_ok F fs' ∧ free_clst fs' = n_free (n_fatent fs) F ∧ data_same fs img fs' img'.
Proof using HW.
  intros Hr Hfree Hreg Hp Hmedia. unfold f_getfree. destruct (find_mounted F v fs d img path 0 Hr Hreg Hp) as (d1 & E & Hr1).
  rewrite (run_bind _ _ _ _ _ E). cbv beta iota. rewrite decide_False by naive_solver. ff_run. destruct Hfree as [Hf0 Hf].
  pose proof (wo_geo _ _ (fr_win _ _ _ _ Hr)) as G. pose proof (geo_ents _ _ G). rewrite (dw_ents W HW fs _ G).
  pose proof (n_free_bound (n_fatent fs) F ltac:(lia)). destruct (Z.leb_spec (free_clst fs) (n_fatent fs - 2)).
  - assert (free_clst fs = n_free (n_fatent fs) F) as Ef by lia. exists fs, d1, img. rewrite Ef. split; [done|].
    split; [done|]. split; [split; [done|by right]|]. split; [done|apply data_same_refl].
  - destruct (scan_ok F fs d1 img Hr1 Hmedia) as (fs2 & d2 & img2 & E2 & Hr2 & Hk2). rewrite (run_bind _ _ _ _ _ E2). cbv beta iota. ff_run.
    assert (n_fatent fs2 = n_fatent fs) as En by apply (kv_volume _ _ _ _ Hk2).
    eexists _, d2, img2. split; [reflexivity|]. split; [by apply alloc_rep|]. split; [|split; [done|]].
    + unfold free_ok. cbn [free_clst n_fatent set_alloc]. rewrite En. split; [lia|by right].
    + eapply data_same_trans; [by apply keeps_data|apply alloc_data].
Qed.
End count.

Lemma getfree_counts_witness :
  ∃ fs' d', f_getfree 32 (mk_vars true 1) (Some []) (small_fs, small_host) = Ok ((FR_OK, Some 2, mk_vars true 1), (fs', d')).
Proof.
  destruct (getfree_counts 32 ltac:(lia) small_table (mk_vars true 1) small_fs small_host small_img (Some []) small_rep small_free
    eq_refl eq_refl) as (fs' & d' & img' & E & _); [intros Ht; by destruct Ht|].
  exists fs', d'. exact E.
Defined.
