(* ===== verification/FfTable.v ===== *)
(** * FatFs: directory tables

    A directory table is a sequence of entries of 32 bytes, in the sectors of
    the root directory or of a chain of clusters.  A directory object walks
    over them; finding looks at them one after the other. *)

From S2P Require Import Prelude Bytes Ff FfWindow FfFat FfChain FfDir FfData FfPos.

(** ** Tables *)

(** [None] is the root directory of FAT12 and FAT16, else the clusters. *)
Definition tbl_len (fs : FATFS) (l : option (list Z)) : Z :=
  match l with None => n_rootdir fs / 16 | Some l => Z.of_nat (length l) * csize fs end.

Definition tbl_sect (fs : FATFS) (l : option (list Z)) (k : Z) : Z :=
  match l with
  | None => dirbase fs + k
  | Some l => clust_sect fs (default 0 (l !! Z.to_nat (k / csize fs))) + k `mod` csize fs
  end.

(** The number of entries, and entry [i]. *)
Definition n_ents (fs : FATFS) (l : option (list Z)) : Z := 16 * tbl_len fs l.

Definition ent (fs : FATFS) (img : list Z) (l : option (list Z)) (i : Z) : list Z :=
  bytes_at (Z.to_nat (32 * (i `mod` 16))) 32 (view fs img (tbl_sect fs l (i / 16))).

(** The first cluster of the table of an object, 0 for the root directory. *)
Definition first_clust (fs : FATFS) (c : Z) : Z := if (c =? 0) && (FS_FAT32 <=? fs_type fs) then dirbase fs else c.

(** The table of the object with first cluster [c]. *)
Record table (F : Z → Z) (fs : FATFS) (c : Z) (l : option (list Z)) : Prop := {
  tb_start : match l with
    | None => first_clust fs c = 0 ∧ n_rootdir fs `mod` 16 = 0 ∧ 0 < n_rootdir fs ∧
        fatbase fs + n_fats fs * fsize fs ≤ dirbase fs ∧ dirbase fs + n_rootdir fs / 16 ≤ database fs
    | Some l => chain (n_fatent fs) F (first_clust fs c) l
    end;
  tb_max : n_ents fs l * SZDIRE ≤ MAX_DIR;
}.

Lemma same_table F fs fs' c l : same_volume fs fs' →
  (table F fs' c l ↔ table F fs c l) ∧ tbl_len fs' l = tbl_len fs l ∧ (∀ k, tbl_sect fs' l k = tbl_sect fs l k) ∧
  n_ents fs' l = n_ents fs l.
Proof.
  intros V. pose proof (same_volume_data fs fs' V) as (Ec & _).
  destruct V as (E1 & _ & E3 & _ & E5 & E6 & E7 & E8 & _ & E10 & E11 & E12).
  assert (tbl_len fs' l = tbl_len fs l) as El by (unfold tbl_len; by rewrite E5, E6).
  assert (first_clust fs' c = first_clust fs c) as Ef by (unfold first_clust; by rewrite E1, E11).
  split; [|split; [done|split]].
  - split; intros [H1 H2]; split; unfold n_ents in *; rewrite ?El in *; try done;
      destruct l; rewrite ?Ef, ?E3, ?E5, ?E7, ?E8, ?E10, ?E11, ?E12 in *; done.
  - intros k. unfold tbl_sect. destruct l; by rewrite ?Ec, ?E6, ?E11.
  - unfold n_ents. by rewrite El.
Qed.

Section tables.
Context (F : Z → Z) (fs : FATFS) (n c : Z) (l : option (list Z)).
Hypotheses (G : geometry fs n) (T : table F fs c l).

Lemma tbl_len_pos : 0 < tbl_len fs l.
Proof using G T.
  pose proof (geo_csize _ _ G). pose proof (tb_start _ _ _ _ T) as Ts. unfold tbl_len. destruct l as [l'|].
  - inversion Ts; subst; cbn [length]; nia.
  - destruct Ts as (_ & Hm & Hn & _). pose proof (Z.div_mod (n_rootdir fs) 16). lia.
Qed.

Lemma tbl_clust k :
  0 ≤ k < tbl_len fs l →
  match l with
  | None => True
  | Some l => ∃ x, l !! Z.to_nat (k / csize fs) = Some x ∧ valid (n_fatent fs) x
  end.
Proof using G T.
  intros Hk. pose proof (tb_start _ _ _ _ T) as Ts. unfold tbl_len in Hk. destruct l as [l'|]; [|done].
  pose proof (geo_csize _ _ G). destruct (lookup_lt_is_Some_2 l' (Z.to_nat (k / csize fs))) as [x Hx].
  { pose proof (Z.div_pos k (csize fs) ltac:(lia) ltac:(lia)).
    pose proof (Z.div_lt_upper_bound k (csize fs) (Z.of_nat (length l')) ltac:(lia) ltac:(lia)). lia. }
  exists x. split; [done|]. pose proof (chain_used _ _ _ _ Ts) as Hu. rewrite Forall_lookup in Hu. by apply Hu in Hx as [? _].
Qed.

(** Tables are outside the FATs. *)
Lemma tbl_sect_range k :
  0 ≤ k < tbl_len fs l → 0 < tbl_sect fs l k < n ∧ ¬ in_fat fs (tbl_sect fs l k) ∧ ¬ in_fat2 fs (tbl_sect fs l k).
Proof using G T.
  intros Hk. pose proof (tbl_clust k Hk) as Hc. pose proof (tb_start _ _ _ _ T) as Ts. unfold tbl_sect, tbl_len in *.
  pose proof (geo_csize _ _ G). destruct l as [l'|].
  - destruct Hc as (x & -> & Hv). pose proof (clust_sect_range fs n x G Hv). pose proof (Z.mod_pos_bound k (csize fs) ltac:(lia)).
    unfold id. cbn [from_option]. split; [lia|]. apply (not_in_fat fs n); [done|lia].
  - destruct Ts as (_ & _ & _ & Hlo & Hhi). destruct G as [_ _ Hf Hfb Hfs Hd _ He Hr _ _ _].
    unfold in_fat, in_fat2. assert (0 ≤ csize fs * (n_fatent fs - 2)) by nia. destruct Hf as [E|E]; rewrite E in *; lia.
Qed.

(** Different places have different sectors. *)
Lemma tbl_sect_inj k k' :
  0 ≤ k < tbl_len fs l → 0 ≤ k' < tbl_len fs l → tbl_sect fs l k = tbl_sect fs l k' → k = k'.
Proof using G T.
  intros Hk Hk' E. pose proof (tbl_clust k Hk) as Hc. pose proof (tbl_clust k' Hk') as Hc'.
  pose proof (tb_start _ _ _ _ T) as Ts. unfold tbl_sect in E. destruct l as [l'|]; [|lia].
  destruct Hc as (x & Hx & Hv). destruct Hc' as (x' & Hx' & Hv'). rewrite Hx, Hx' in E. cbn [from_option id] in E.
  pose proof (geo_csize _ _ G). pose proof (Z.mod_pos_bound k (csize fs) ltac:(lia)). pose proof (Z.mod_pos_bound k' (csize fs) ltac:(lia)).
  assert (x' = x) as -> by (apply (clust_sect_inj fs n x x' (clust_sect fs x + k `mod` csize fs) G); lia).
  pose proof (cluster_chain_NoDup _ _ _ _ Ts) as Hnd. pose proof (NoDup_lookup _ _ _ _ Hnd Hx Hx') as En.
  pose proof (Z.div_pos k (csize fs) ltac:(lia) ltac:(lia)). pose proof (Z.div_pos k' (csize fs) ltac:(lia) ltac:(lia)).
  pose proof (Z.div_mod k (csize fs) ltac:(lia)). pose proof (Z.div_mod k' (csize fs) ltac:(lia)). nia.
Qed.

(** The sector after. *)
Lemma tbl_sect_next k :
  0 ≤ k → k + 1 < tbl_len fs l → (l ≠ None → (k + 1) `mod` csize fs ≠ 0) → tbl_sect fs l (k + 1) = tbl_sect fs l k + 1.
Proof using G T.
  intros Hk Hlt Hm. unfold tbl_sect. destruct l as [l'|]; [|lia]. specialize (Hm ltac:(done)). pose proof (geo_csize _ _ G).
  pose proof (Z.div_mod k (csize fs) ltac:(lia)). pose proof (Z.mod_pos_bound k (csize fs) ltac:(lia)).
  pose proof (Z.div_mod (k + 1) (csize fs) ltac:(lia)). pose proof (Z.mod_pos_bound (k + 1) (csize fs) ltac:(lia)).
  assert ((k + 1) / csize fs = k / csize fs) as E by nia. rewrite E in *. lia.
Qed.
End tables.

(** ** Walking over a table *)

(** The object is at entry [i]. *)
Record dir_pos (fs : FATFS) (l : option (list Z)) (i : Z) (dp : DIR) : Prop := {
  dp_range : 0 ≤ i < n_ents fs l;
  dp_dptr : dptr dp = i * SZDIRE;
  dp_sect : d_sect dp = tbl_sect fs l (i / 16);
  dp_dir : d_dir dp = 32 * (i `mod` 16);
  dp_clust : match l with
    | None => d_clust dp = 0
    | Some l => l !! Z.to_nat (i / 16 / csize fs) = Some (d_clust dp)
    end;
}.

(** The same directory and name wanted. *)
Definition same_dir (dp dp' : DIR) : Prop :=
  fn dp' = fn dp ∧ sclust (d_obj dp') = sclust (d_obj dp) ∧ obj_id (d_obj dp') = obj_id (d_obj dp) ∧
  obj_fs (d_obj dp') = obj_fs (d_obj dp).

#[global] Instance same_dir_preorder : PreOrder same_dir.
Proof. split; [by intros ?|unfold same_dir; intros ? ? ?; intuition congruence]. Qed.

Lemma dir_pos_same fs fs' l i dp : same_volume fs fs' → dir_pos fs l i dp → dir_pos fs' l i dp.
Proof.
  intros V [R P S D C]. destruct (same_table (λ _, 0) fs fs' 0 l V) as (_ & El & Es & En).
  split; rewrite ?En, ?Es; try done. destruct l; [|done]. assert (csize fs' = csize fs) as -> by apply V. done.
Qed.

(** Offsets in a table. *)
Lemma ent_offset i :
  0 ≤ i → let o := i * SZDIRE in
  o / SS = i / 16 ∧ o `mod` SS = 32 * (i `mod` 16) ∧ o `mod` SZDIRE = 0 ∧ o / SZDIRE = i ∧
  (i + 1) * SZDIRE = o + SZDIRE.
Proof. intros Hi. unfold SZDIRE, SS. cbn zeta. Z.to_euclidean_division_equations. lia. Qed.

(** ** Entries *)

Lemma bytes_at_cons i n (p : list Z) x : p !! i = Some x → bytes_at i (S n) p = x :: bytes_at (S i) n p.
Proof. intros Hx. unfold bytes_at. by rewrite (drop_S _ _ _ Hx). Qed.

Lemma mem_cmp_ok cnt p i q j :
  (0 < cnt)%nat → 0 ≤ i → 0 ≤ j → i + Z.of_nat cnt ≤ Z.of_nat (length p) → j + Z.of_nat cnt ≤ Z.of_nat (length q) →
  ∃ k, mem_cmp cnt p i q j = Ok k ∧
    (k =? 0) = bool_decide (bytes_at (Z.to_nat i) cnt p = bytes_at (Z.to_nat j) cnt q).
Proof.
  revert i j. induction cnt as [|cnt IH]; intros i j Hc Hi Hj Hp Hq; [lia|]. cbn [mem_cmp].
  destruct (get_ok p i) as (a & -> & Ha); [lia|]. destruct (get_ok q j) as (b & -> & Hb); [lia|]. rewrite !bind_Ok.
  rewrite (bytes_at_cons _ _ _ _ Ha), (bytes_at_cons _ _ _ _ Hb).
  replace (S (Z.to_nat i)) with (Z.to_nat (i + 1)) by lia. replace (S (Z.to_nat j)) with (Z.to_nat (j + 1)) by lia.
  destruct (Z.eqb_spec (a - b) 0) as [E|E].
  - assert (a = b) as -> by lia. destruct (decide (cnt = 0%nat)) as [->|Hne].
    { exists (b - b). rewrite Z.sub_diag. split; [done|]. by rewrite bool_decide_eq_true_2. }
    assert (truth (Z.of_nat cnt) = true) as -> by (apply truth_true; lia). cbn [andb].
    destruct (IH (i + 1) (j + 1)) as (k & Ek & Eb); [lia..|]. exists k. split; [done|]. rewrite Eb. apply bool_decide_ext. split; [by intros -> | by intros [= ?]].
  - rewrite andb_false_r. exists (a - b). split; [done|]. rewrite (proj2 (Z.eqb_neq _ _) E), bool_decide_eq_false_2; [done|].
    intros [= ?]. lia.
Qed.

(** A byte of an entry. *)
Definition ent_byte (e : list Z) (k : Z) : Z := default 0 (e !! Z.to_nat k).

(** The entry of a file or directory with the name [nm]. *)
Definition named (nm e : list Z) : bool :=
  negb (truth (Z.land (ent_byte e DIR_Attr) AM_VOL)) && bool_decide (take 11 e = take 11 nm).

(** Among [m] entries from [i] on: the first one with the name, before the end
    mark. *)
Fixpoint find_in (m : nat) (e : Z → list Z) (nm : list Z) (i : Z) : option Z :=
  match m with
  | O => None
  | S m => if ent_byte (e i) DIR_Name =? 0 then None else if named nm (e i) then Some i else find_in m e nm (i + 1)
  end.

Lemma find_in_ext m e e' nm i :
  (∀ j, i ≤ j < i + Z.of_nat m → e j = e' j) → find_in m e nm i = find_in m e' nm i.
Proof.
  revert i. induction m as [|m IH]; intros i E; [done|]. cbn [find_in]. rewrite E, IH by (intros; try apply E; lia). done.
Qed.

Lemma find_in_name m e nm nm' i : (∀ x, named nm x = named nm' x) → find_in m e nm i = find_in m e nm' i.
Proof. intros E. revert i. induction m as [|m IH]; intros i; [done|]. cbn [find_in]. rewrite E, IH. done. Qed.

Section walk.
Context {D : Type} `{Disk D} (W : Z).
Hypothesis HW : 32 ≤ W.

Implicit Types (fs : FATFS) (d : D) (img : list Z) (F : Z → Z).

Lemma dir_sdi_first F fs d img dp l :
  fat_rep F fs d img → table F fs (sclust (d_obj dp)) l →
  ∃ dp', dir_sdi W dp 0 (fs, d) = Ok ((FR_OK, dp'), (fs, d)) ∧ dir_pos fs l 0 dp' ∧ same_dir dp dp' ∧ d_obj dp' = d_obj dp.
Proof using HW.
  intros Hr T. pose proof (fr_win _ _ _ _ Hr) as Hw. pose proof (wo_geo _ _ Hw) as G. destruct (dsk_bytes _ _ (fr_dsk _ _ _ _ Hr)) as [_ Hn].
  pose proof (tbl_len_pos F fs _ _ l G T) as Hlen. pose proof (tbl_sect_range F fs _ _ l G T 0 ltac:(lia)) as (Hs & _).
  pose proof (tb_start _ _ _ _ T) as Ts. unfold dir_sdi. ff_run. change ((MAX_DIR <=? 0) || truth (0 `mod` SZDIRE)) with false. cbv iota zeta.
  change (sclust (d_obj (set_dptr 0 dp))) with (sclust (d_obj dp)). fold (first_clust fs (sclust (d_obj dp))).
  unfold FFFFFFFF in Hn. unfold sdi_set.
  assert (0 ≤ 0 < n_ents fs l) as Hi by (unfold n_ents; lia). destruct l as [l|].
  - assert (valid (n_fatent fs) (first_clust fs (sclust (d_obj dp))) ∧ l !! 0%nat = Some (first_clust fs (sclust (d_obj dp)))) as [Hv Hh].
    { split; [by inversion Ts|by apply (chain_head _ _ _ _ Ts)]. }
    rewrite (proj2 (Z.eqb_neq _ 0)) by (unfold valid in Hv; lia). pose proof (geo_csize _ _ G).
    assert (∀ f c, (sdi_loop W f (wrap W (csize fs * SS)) 0 c : ff D _) = mret (inr (0, c))) as El.
    { intros f c. unfold SS. rewrite (dw_small W HW) by lia. destruct f; cbn [sdi_loop]; by rewrite (proj2 (Z.leb_gt _ _)) by lia. }
    rewrite El. ff_run. destruct (clst2sect_ok W HW fs _ _ G ltac:(by apply (dsk_bytes _ _ (fr_dsk _ _ _ _ Hr))) Hv) as [-> Hne].
    rewrite (proj2 (Z.eqb_neq _ 0) Hne). eexists. split; [reflexivity|]. split; [|done].
    split; try done. cbn [d_sect set_place]. change (0 / SS) with 0. unfold tbl_sect in *. rewrite Z.div_0_l, Z.div_0_l, Z.mod_0_l in * by lia.
    change (Z.to_nat 0) with 0%nat in *. rewrite Hh in *. cbn in Hs |- *. apply (dw_small W HW). lia.
  - destruct Ts as (Hc & Hm & Hr0 & _). rewrite Hc. cbn [Z.eqb]. change (0 / SZDIRE) with 0.
    rewrite (proj2 (Z.leb_gt _ _)) by lia. unfold tbl_sect in Hs. rewrite (proj2 (Z.eqb_neq (dirbase fs) 0)) by lia.
    eexists. split; [reflexivity|]. split; [|done]. split; try done. cbn [d_sect set_place]. unfold tbl_sect. change (0 / SS) with 0. change (0 / 16) with 0.
    apply (dw_small W HW). lia.
Qed.

(** The next sector of a chain of clusters: in the same cluster, in the next
    one, or none. *)
Lemma chain_next_sect fs n F c l k x :
  geometry fs n → pow2_csize fs → chain (n_fatent fs) F c l → 0 ≤ k < tbl_len fs (Some l) → l !! Z.to_nat (k / csize fs) = Some x →
  Z.land (k + 1) (csize fs - 1) = (k + 1) `mod` csize fs ∧
  if (k + 1) `mod` csize fs =? 0 then
    if k + 1 <? tbl_len fs (Some l) then
      valid (n_fatent fs) (F x) ∧ l !! Z.to_nat ((k + 1) / csize fs) = Some (F x) ∧ tbl_sect fs (Some l) (k + 1) = clust_sect fs (F x)
    else n_fatent fs ≤ F x
  else k + 1 < tbl_len fs (Some l) ∧ (k + 1) / csize fs = k / csize fs.
Proof.
  intros G (e & He & Ee) Hch Hk Hx. pose proof (geo_csize _ _ G) as Hcs. unfold tbl_len in *.
  split. { rewrite Ee, <-Z.land_ones by lia. by rewrite Z.ones_equiv, Z.sub_1_r. }
  pose proof (Z.div_mod k (csize fs) ltac:(lia)). pose proof (Z.mod_pos_bound k (csize fs) ltac:(lia)).
  pose proof (Z.div_mod (k + 1) (csize fs) ltac:(lia)). pose proof (Z.mod_pos_bound (k + 1) (csize fs) ltac:(lia)).
  pose proof (Z.div_pos k (csize fs) ltac:(lia) ltac:(lia)). pose proof (lookup_lt_Some _ _ _ Hx) as Hlt.
  destruct (Z.eqb_spec ((k + 1) `mod` csize fs) 0) as [Hz|Hnz].
  - assert ((k + 1) / csize fs = k / csize fs + 1) as E by nia. assert (k + 1 = csize fs * (k / csize fs + 1)) as E' by lia.
    assert (Z.to_nat ((k + 1) / csize fs) = S (Z.to_nat (k / csize fs))) as En by lia.
    destruct (Z.ltb_spec (k + 1) (Z.of_nat (length l) * csize fs)) as [Hl|Hl].
    + destruct (lookup_lt_is_Some_2 l (S (Z.to_nat (k / csize fs)))) as [y Hy]; [nia|].
      rewrite (chain_lookup _ _ _ _ _ _ _ Hch Hx Hy). unfold tbl_sect. rewrite En, Hy, Hz.
      pose proof (chain_used _ _ _ _ Hch) as Hu. rewrite Forall_lookup in Hu. split; [by apply Hu in Hy as [? _]|].
      split; [done|]. simpl. lia.
    + apply (chain_end _ _ _ _ _ Hch). rewrite last_lookup. replace (pred (length l)) with (Z.to_nat (k / csize fs)); [done|]. nia.
  - assert ((k + 1) / csize fs = k / csize fs) as E by nia. split; [|done]. rewrite E in *. nia.
Qed.

(** The entry after, or the end of the table when it must not grow; the object
    is then used up, unless the table has the greatest size there is. *)
Lemma dir_next_ok F fs d img c l i dp st :
  fat_rep F fs d img → pow2_csize fs → table F fs c l → dir_pos fs l i dp → (st = false ∨ l = None ∨ i + 1 < n_ents fs l) →
  ∃ r dp' fs' d' img', dir_next W dp st (fs, d) = Ok ((r, dp'), (fs', d')) ∧ fat_rep F fs' d' img' ∧
    keeps_view fs img fs' img' ∧ d_obj dp' = d_obj dp ∧ fn dp' = fn dp ∧
    (if i + 1 <? n_ents fs l then r = FR_OK ∧ dir_pos fs l (i + 1) dp'
     else r = FR_NO_FILE ∧ (n_ents fs l * SZDIRE < MAX_DIR → d_sect dp' = 0)).
Proof using HW.
  intros Hr P2 T [[Hi0 Hi] P S Dd C] Hst. pose proof (fr_win _ _ _ _ Hr) as Hw. pose proof (wo_geo _ _ Hw) as G.
  destruct (dsk_bytes _ _ (fr_dsk _ _ _ _ Hr)) as [_ Hn]. pose proof (geo_csize _ _ G) as Hcs.
  pose proof (tb_max _ _ _ _ T) as Hmax. pose proof (tb_start _ _ _ _ T) as Ts.
  destruct (ent_offset i Hi0) as (Eq & Em & _ & _ & E1). destruct (ent_offset (i + 1) ltac:(lia)) as (Eq1 & Em1 & _ & Ed1 & _).
  assert (0 ≤ i / 16 < tbl_len fs l) as Hk by (unfold n_ents in Hi; split; [apply Z.div_pos; lia|apply Z.div_lt_upper_bound; lia]).
  pose proof (tbl_sect_range F fs _ c l G T (i / 16) Hk) as (Hs & _). unfold FFFFFFFF in Hn.
  unfold dir_next. ff_run. rewrite P, <-E1. unfold SZDIRE, MAX_DIR in Hmax. change SZDIRE with 32 in *. rewrite (dw_small W HW) by lia.
  rewrite (proj2 (Z.eqb_neq (d_sect dp) 0)) by lia. cbn [orb]. rewrite Em1, Eq1, Ed1.
  destruct (Z.leb_spec MAX_DIR ((i + 1) * 32)) as [Hend|Hin].
  { exists FR_NO_FILE, dp, fs, d, img. unfold MAX_DIR in Hend. rewrite (proj2 (Z.ltb_ge _ _)) by lia.
    split; [done|]. split; [done|]. split; [apply keeps_view_refl|]. split; [done|]. split; [done|]. split; [done|]. unfold MAX_DIR, SZDIRE. lia. }
  pose proof (Z.div_mod i 16 ltac:(lia)). pose proof (Z.mod_pos_bound i 16 ltac:(lia)).
  pose proof (Z.div_mod (i + 1) 16 ltac:(lia)). pose proof (Z.mod_pos_bound (i + 1) 16 ltac:(lia)).
  destruct (Z.eqb_spec (32 * ((i + 1) `mod` 16)) 0) as [Hz|Hnz]; cbn [negb].
  2:{ (* the same sector *)
    assert ((i + 1) / 16 = i / 16) as Es by lia. assert (i + 1 < n_ents fs l) as Hlt by (unfold n_ents in *; lia).
    rewrite (proj2 (Z.ltb_lt _ _) Hlt). eexists FR_OK, _, fs, d, img. split; [reflexivity|]. split; [done|]. split; [apply keeps_view_refl|].
    split; [done|]. split; [done|]. split; [done|]. split; cbn; rewrite ?Es; done || lia. }
  assert ((i + 1) / 16 = i / 16 + 1) as Es by lia. assert ((i + 1 <? n_ents fs l) = (i / 16 + 1 <? tbl_len fs l)) as ->.
  { unfold n_ents. destruct (Z.ltb_spec (i + 1) (16 * tbl_len fs l)), (Z.ltb_spec (i / 16 + 1) (tbl_len fs l)); lia. }
  rewrite S, (dw_small W HW (_ + 1)), Es by lia. cbn [d_clust set_sect set_place].
  destruct l as [l|].
  2:{ (* the root directory *)
    rewrite C. cbn [Z.eqb]. destruct Ts as (_ & Hm & _). pose proof (Z.div_mod (n_rootdir fs) 16 ltac:(lia)). unfold tbl_len.
    destruct (Z.leb_spec (n_rootdir fs) (i + 1)).
    - rewrite (proj2 (Z.ltb_ge _ _)) by lia. eexists _, _, fs, d, img. split; [reflexivity|]. split; [done|]. split; [apply keeps_view_refl|done].
    - rewrite (proj2 (Z.ltb_lt _ _)) by lia. eexists _, _, fs, d, img. split; [reflexivity|]. split; [done|]. split; [apply keeps_view_refl|].
      split; [done|]. split; [done|]. split; [done|]. split; cbn; rewrite ?Es; try done; unfold n_ents, tbl_len; lia. }
  pose proof (tbl_clust F fs _ c (Some l) G T (i / 16) Hk) as (x & Hx & Hv). rewrite C in Hx. injection Hx as Ex.
  pose proof (chain_next_sect fs _ F _ l (i / 16) (d_clust dp) G P2 Ts Hk C) as [-> Hnx]. subst x.
  rewrite (proj2 (Z.eqb_neq (d_clust dp) 0)) by (unfold valid in Hv; lia).
  destruct ((i / 16 + 1) `mod` csize fs =? 0) eqn:Hmz.
  2:{ destruct Hnx as [Hlt Ediv]. rewrite (proj2 (Z.ltb_lt _ _) Hlt). eexists _, _, fs, d, img. split; [reflexivity|]. split; [done|].
    split; [apply keeps_view_refl|]. split; [done|]. split; [done|]. split; [done|].
    split; cbn [dptr d_sect d_dir d_clust set_place set_dptr set_sect]; rewrite ?Es, ?Ediv; try done; [unfold n_ents; lia|].
    symmetry. apply (tbl_sect_next F fs _ c (Some l) G T); [lia|done|]. intros _. by apply Z.eqb_neq. }
  destruct (get_rep W HW F fs d img _ Hr Hv) as (fs1 & d1 & img1 & Hg & Hr1 & Hk1). rewrite (run_bind _ _ _ _ _ Hg).
  destruct (rep_bound F fs d img _ Hr Hv) as [_ Hff]. pose proof (chain_used _ _ _ _ Ts) as Hu. rewrite Forall_lookup in Hu.
  destruct (Hu _ _ C) as [_ Hge2]. rewrite (proj2 (Z.leb_gt _ 1)), (proj2 (Z.eqb_neq _ _) Hff) by lia.
  destruct (i / 16 + 1 <? tbl_len fs (Some l)) eqn:Hlt.
  - destruct Hnx as (Hvy & Hy & Esy). rewrite (proj2 (Z.leb_gt _ _)) by (unfold valid in Hvy; lia). ff_run.
    eexists _, _, fs1, d1, img1. split; [reflexivity|]. split; [done|]. split; [done|]. split; [done|]. split; [done|]. split; [done|].
    pose proof (kv_volume _ _ _ _ Hk1) as V. destruct (clst2sect_ok W HW fs1 (n_sect img1) (F (d_clust dp))) as [Ec _].
    { apply (fr_win _ _ _ _ Hr1). } { apply (dsk_bytes _ _ (fr_dsk _ _ _ _ Hr1)). } { by assert (n_fatent fs1 = n_fatent fs) as -> by apply V. }
    destruct (same_volume_data fs fs1 V) as (Ecs & _). rewrite Ecs in Ec.
    apply Z.ltb_lt in Hlt. split; cbn [dptr d_sect d_dir d_clust set_place set_dptr set_sect]; rewrite ?Es; try done; [unfold n_ents; lia|]. by rewrite Ec, Esy.
  - rewrite (proj2 (Z.leb_le _ _)) by done. destruct Hst as [->|[Hst|Hst]]; [|done|unfold n_ents in Hst; apply Z.ltb_ge in Hlt; lia]. cbn [negb]. ff_run.
    eexists _, _, fs1, d1, img1. split; [reflexivity|]. done.
Qed.

(** The window on the current entry. *)
Lemma dir_load F fs d img c l i dp :
  fat_rep F fs d img → table F fs c l → dir_pos fs l i dp →
  ∃ fs' d' img', move_window W (d_sect dp) (fs, d) = Ok (FR_OK, (fs', d')) ∧ fat_rep F fs' d' img' ∧ keeps_view fs img fs' img' ∧
    winsect fs' = d_sect dp ∧ win fs' = view fs img (d_sect dp) ∧ length (win fs') = 512%nat.
Proof using HW.
  intros Hr T [Hi _ Hs _ _]. pose proof (fr_win _ _ _ _ Hr) as Hw. pose proof (wo_geo _ _ Hw) as G.
  assert (0 ≤ i / 16 < tbl_len fs l) as Hk by (unfold n_ents in Hi; split; [apply Z.div_pos; lia|apply Z.div_lt_upper_bound; lia]).
  pose proof (tbl_sect_range F fs _ c l G T (i / 16) Hk) as (Hrg & _ & H2). rewrite <-Hs in *.
  destruct (move_window_ok W HW fs d img (d_sect dp) Hw (fr_dsk _ _ _ _ Hr) ltac:(lia) H2)
    as (fs' & d' & img' & E & Hd' & Hw' & Hkv & Hws & Hwin).
  exists fs', d', img'. split; [done|]. split; [|split; [done|split; [done|split; [done|apply Hw']]]].
  assert (n_fatent fs' = n_fatent fs) as En by apply (kv_volume _ _ _ _ Hkv).
  split; [done|done| |]; rewrite En; [|apply Hr]. intros c' Hc'. rewrite <-(fr_val _ _ _ _ Hr) by done. by apply (fat_val_keeps fs img).
Qed.

Lemma ent_keeps F fs img fs' img' n c l i :
  geometry fs n → n_sect img = n → table F fs c l → keeps_view fs img fs' img' → 0 ≤ i < n_ents fs l → ent fs' img' l i = ent fs img l i.
Proof.
  intros G Hn T Hk Hi. unfold ent. destruct (same_table F fs fs' c l (kv_volume _ _ _ _ Hk)) as (_ & _ & -> & _).
  assert (0 ≤ i / 16 < tbl_len fs l) as Hr by (unfold n_ents in Hi; split; [apply Z.div_pos; lia|apply Z.div_lt_upper_bound; lia]).
  pose proof (tbl_sect_range F fs n c l G T (i / 16) Hr) as (Hrg & _ & H2). rewrite (kv_view _ _ _ _ Hk); [done|lia|done].
Qed.

(** A byte of the entry in the window. *)
Lemma entry_byte_ok fs img l i dp k (w : list Z) :
  dir_pos fs l i dp → w = view fs img (d_sect dp) → length w = 512%nat → 0 ≤ k < 32 →
  get w (d_dir dp + k) = Ok (ent_byte (ent fs img l i) k) ∧
  bytes_at (Z.to_nat (d_dir dp)) 11 w = take 11 (ent fs img l i).
Proof.
  intros [Hi _ Hs Hd _] -> Hl Hk. rewrite Hd, Hs in *. pose proof (Z.mod_pos_bound i 16 ltac:(lia)).
  destruct (get_ok (view fs img (tbl_sect fs l (i / 16))) (32 * (i `mod` 16) + k)) as (x & -> & Hx); [lia|].
  unfold ent_byte, ent. rewrite lookup_bytes_at, decide_True by lia.
  replace (Z.to_nat (32 * (i `mod` 16)) + Z.to_nat k)%nat with (Z.to_nat (32 * (i `mod` 16) + k)) by lia. rewrite Hx.
  split; [done|]. unfold bytes_at. rewrite take_take. done.
Qed.

(** ** Finding *)

(** What a search leaves: the entry found, in the window, or none. *)
Definition found fs img l (o : option Z) (r : FRESULT) (dp : DIR) fs' : Prop :=
  match o with
  | Some j => r = FR_OK ∧ dir_pos fs l j dp ∧ attr (d_obj dp) = Z.land (ent_byte (ent fs img l j) DIR_Attr) AM_MASK ∧
      winsect fs' = d_sect dp
  | None => r = FR_NO_FILE
  end.

Lemma find_entry_ok fuel F fs d img c l i dp :
  fat_rep F fs d img → pow2_csize fs → table F fs c l → dir_pos fs l i dp → length (fn dp) = 12%nat →
  (Z.to_nat (n_ents fs l - i) ≤ fuel)%nat →
  ∃ r dp' fs' d' img', find_entry W fuel dp (fs, d) = Ok ((r, dp'), (fs', d')) ∧ fat_rep F fs' d' img' ∧ keeps_view fs img fs' img' ∧
    same_dir dp dp' ∧ found fs img l (find_in (Z.to_nat (n_ents fs l - i)) (ent fs img l) (fn dp) i) r dp' fs'.
Proof using HW.
  revert fs d img i dp. induction fuel as [|fuel IH]; intros fs d img i dp Hr P2 T Hp Hfn Hfuel; [destruct (dp_range _ _ _ _ Hp); lia|].
  destruct (dir_load F fs d img c l i dp Hr T Hp) as (fs1 & d1 & img1 & E & Hr1 & Hk1 & Hws & Hwin & Hlen).
  cbn [find_entry]. rewrite (run_bind _ _ _ _ _ E), decide_False by naive_solver. unfold entry_byte, get_win. ff_run.
  destruct (entry_byte_ok fs img l i dp DIR_Name (win fs1) Hp Hwin Hlen ltac:(done)) as [-> Hname]. ff_run.
  destruct (dp_range _ _ _ _ Hp) as [Hi0 Hi]. replace (Z.to_nat (n_ents fs l - i)) with (S (Z.to_nat (n_ents fs l - (i + 1)))) by lia.
  cbn [find_in]. destruct (ent_byte (ent fs img l i) DIR_Name =? 0).
  { exists FR_NO_FILE, dp, fs1, d1, img1. split; [done|]. split; [done|]. split; [done|done]. }
  ff_run. destruct (entry_byte_ok fs img l i dp DIR_Attr (win fs1) Hp Hwin Hlen ltac:(done)) as [-> _]. ff_run.
  set (dp1 := set_obj _ dp). set (b := ent_byte _ DIR_Attr). assert (dir_pos fs l i dp1) as Hp1 by (destruct Hp; by split).
  assert (same_dir dp dp1) as Hsd by done. unfold named. fold b.
  assert ((if truth (Z.land b AM_VOL) then mret false
     else (k ← lift (mem_cmp 11 (win fs1) (d_dir dp1) (fn dp1) 0); mret (k =? 0)) : ff D bool) (fs1, d1) =
     Ok (negb (truth (Z.land b AM_VOL)) && bool_decide (take 11 (ent fs img l i) = take 11 (fn dp)), (fs1, d1))) as Esame.
  { destruct (truth (Z.land b AM_VOL)); [done|]. pose proof (dp_dir _ _ _ _ Hp) as Hdd. pose proof (Z.mod_pos_bound i 16 ltac:(lia)).
    destruct (mem_cmp_ok 11 (win fs1) (d_dir dp1) (fn dp1) 0) as (k & -> & Ek);
      [lia|change (d_dir dp1) with (d_dir dp); lia|lia|change (d_dir dp1) with (d_dir dp); lia|change (fn dp1) with (fn dp); lia|].
    ff_run. rewrite Ek. change (d_dir dp1) with (d_dir dp). rewrite Hname. done. }
  rewrite (run_bind _ _ _ _ _ Esame). destruct (negb _ && _).
  { exists FR_OK, dp1, fs1, d1, img1. split; [done|]. split; [done|]. split; [done|]. split; [done|]. split; [done|]. split; [done|]. done. }
  pose proof (kv_volume _ _ _ _ Hk1) as V. destruct (same_table F fs fs1 c l V) as (Tt & _ & _ & En).
  assert (pow2_csize fs1) as P21 by (unfold pow2_csize; by assert (csize fs1 = csize fs) as -> by apply V).
  destruct (dir_next_ok F fs1 d1 img1 c l i dp1 false Hr1 P21 (proj2 Tt T) (dir_pos_same _ _ _ _ _ V Hp1) ltac:(by left))
    as (r & dp2 & fs2 & d2 & img2 & E2 & Hr2 & Hk2 & Ho2 & Hf2 & Hcase).
  rewrite (run_bind _ _ _ _ _ E2). cbv beta iota. assert (same_dir dp dp2) as Hsd2 by (unfold same_dir; rewrite Ho2, Hf2; done).
  pose proof (keeps_view_trans _ _ _ _ _ _ Hk1 Hk2) as Hk. rewrite En in Hcase.
  destruct (Z.ltb_spec (i + 1) (n_ents fs l)) as [Hlt|Hge].
  - destruct Hcase as [-> Hp2]. rewrite decide_True by done.
    pose proof (kv_volume _ _ _ _ Hk) as V2. destruct (same_table F fs fs2 c l V2) as (Tt2 & _ & _ & En2).
    destruct (IH fs2 d2 img2 (i + 1) dp2) as (r3 & dp3 & fs3 & d3 & img3 & E3 & Hr3 & Hk3 & Hs3 & Hfnd).
    { done. } { unfold pow2_csize. by assert (csize fs2 = csize fs) as -> by apply V2. } { by apply Tt2. }
    { by apply (dir_pos_same fs1 fs2); [apply Hk2|]. } { destruct Hsd2 as [-> _]. done. } { rewrite En2. lia. }
    exists r3, dp3, fs3, d3, img3. split; [done|]. split; [done|]. split; [by eapply keeps_view_trans|]. split; [by etrans|].
    rewrite En2 in Hfnd. destruct Hsd2 as [Efn _]. rewrite Efn in Hfnd.
    rewrite (find_in_ext _ _ (ent fs img l)) in Hfnd.
    2:{ intros j Hj. apply (ent_keeps F fs img fs2 img2 (n_sect img) c); try done; [apply Hr|lia]. }
    destruct (find_in _ _ _ _) as [j|] eqn:Ej; [|done]. destruct Hfnd as (-> & Hpj & Ha & Hwj). split; [done|]. split; [|split; [|done]].
    + apply (dir_pos_same fs2 fs); [|done]. unfold same_volume in *. intuition congruence.
    + rewrite Ha. f_equal. f_equal. apply (ent_keeps F fs img fs2 img2 (n_sect img) c); try done; [apply Hr|].
      destruct (dp_range _ _ _ _ Hpj). by rewrite <-En2.
  - destruct Hcase as [-> _]. rewrite decide_False by done. exists FR_NO_FILE, dp2, fs2, d2, img2. split; [done|]. split; [done|]. split; [done|]. split; [done|].
    replace (Z.to_nat (n_ents fs l - (i + 1))) with 0%nat by lia. done.
Qed.

Lemma dir_find_ok F fs d img l dp :
  fat_rep F fs d img → pow2_csize fs → table F fs (sclust (d_obj dp)) l → length (fn dp) = 12%nat →
  ∃ r dp' fs' d' img', dir_find W dp (fs, d) = Ok ((r, dp'), (fs', d')) ∧ fat_rep F fs' d' img' ∧ keeps_view fs img fs' img' ∧
    same_dir dp dp' ∧ found fs img l (find_in (Z.to_nat (n_ents fs l)) (ent fs img l) (fn dp) 0) r dp' fs'.
Proof using HW.
  intros Hr P2 T Hfn. unfold dir_find. destruct (dir_sdi_first F fs d img dp l Hr T) as (dp1 & E & Hp & Hsd & _).
  rewrite (run_bind _ _ _ _ _ E), decide_False by naive_solver. pose proof (tb_max _ _ _ _ T) as Hmax.
  destruct (find_entry_ok dir_fuel F fs d img _ l 0 dp1 Hr P2 T Hp) as (r & dp2 & fs2 & d2 & img2 & E2 & Hr2 & Hk2 & Hs2 & Hf).
  { by destruct Hsd as [-> _]. } { unfold MAX_DIR, SZDIRE in Hmax. unfold dir_fuel. change (MAX_DIR / SZDIRE) with 65536. lia. }
  exists r, dp2, fs2, d2, img2. split; [done|]. split; [done|]. split; [done|]. split; [by etrans|].
  rewrite Z.sub_0_r in Hf. destruct Hsd as [Ef _]. by rewrite Ef in Hf.
Qed.
End walk.
