(* ===== verification/FfDirProps.v ===== *)
(** * FatFs: a directory is a set of names

    Registering and removing entries change one entry of the table; finding,
    adding and removing names are operations on a finite set of names, up to
    the room in the table. *)

From S2P Require Import Prelude Bytes Ff FfWindow FfFat FfChain FfDir FfData FfPos FfTable.

(** ** Changing one entry *)

(** Entry [i] is [e] now; every other entry, and all that is not in the
    table, is as it was. *)
Record entry_set (fs : FATFS) (img : list Z) (l : option (list Z)) (i : Z) (e : list Z) (fs' : FATFS) (img' : list Z) : Prop := {
  es_volume : same_volume fs fs';
  es_sects : n_sect img' = n_sect img;
  es_ent : ∀ j, 0 ≤ j < n_ents fs l → ent fs' img' l j = if j =? i then e else ent fs img l j;
  es_view : ∀ s, 0 ≤ s < n_sect img → ¬ in_fat2 fs s → (∀ k, 0 ≤ k < tbl_len fs l → s ≠ tbl_sect fs l k) →
    view fs' img' s = view fs img s;
  es_alloc : same_alloc fs fs';
}.

Lemma entry_set_keeps F c l i e fs img fs1 img1 fs2 img2 :
  win_ok fs img → table F fs c l → keeps_view fs img fs1 img1 → entry_set fs1 img1 l i e fs2 img2 → entry_set fs img l i e fs2 img2.
Proof.
  intros Hw T Hk [V S E Vw A]. pose proof (kv_volume _ _ _ _ Hk) as V1. destruct (same_table F fs fs1 c l V1) as (_ & El & Es & En).
  split; [by etrans|by rewrite S; apply Hk| | |by transitivity fs1; [apply Hk|]].
  - intros j Hj. rewrite E by by rewrite En. case_if; [done|]. apply (ent_keeps F fs img fs1 img1 (n_sect img) c); try done. apply Hw.
  - intros s Hs H2 Ht. rewrite Vw; [by apply (kv_view _ _ _ _ Hk)|by rewrite (kv_sects _ _ _ _ Hk)|by rewrite (in_fat2_same fs)|].
    intros k Hk'. rewrite Es. apply Ht. by rewrite <-El.
Qed.

(** An entry that can be taken, and the first one of [m] from [i] on. *)
Definition is_free (e : list Z) : bool := (ent_byte e DIR_Name =? DDEM) || (ent_byte e DIR_Name =? 0).

Fixpoint free_at (m : nat) (e : Z → list Z) (i : Z) : option Z :=
  match m with O => None | S m => if is_free (e i) then Some i else free_at m e (i + 1) end.

Lemma free_at_ext m e e' i : (∀ j, i ≤ j < i + Z.of_nat m → e j = e' j) → free_at m e i = free_at m e' i.
Proof.
  revert i. induction m as [|m IH]; intros i E; [done|]. cbn [free_at]. rewrite E, IH by (intros; try apply E; lia). done.
Qed.

Lemma free_at_bound m e i j : free_at m e i = Some j → i ≤ j < i + Z.of_nat m.
Proof. revert i. induction m as [|m IH]; intros i; [done|]. cbn [free_at]. case_if; intros Hj; [injection Hj; lia|apply IH in Hj; lia]. Qed.

Section entries.
Context {D : Type} `{Disk D} (W : Z).
Hypothesis HW : 32 ≤ W.

Implicit Types (fs : FATFS) (d : D) (img : list Z) (F : Z → Z).

(** The window is changed outside the FAT. *)
Lemma edit_outside F fs d img w :
  fat_rep F fs d img → winsect fs < n_sect img → ¬ in_fat fs (winsect fs) → ¬ in_fat2 fs (winsect fs) →
  length w = 512%nat → Forall is_byte w →
  let fs' := set_window 1 (winsect fs) w fs in
  fat_rep F fs' d img ∧ ∀ s, view fs' img s = if winsect fs =? s then w else view fs img s.
Proof.
  intros [Hw Hd Hv Hs] Hr H1 H2 Hl Hb fs'. destruct (dirty_window fs img w Hw Hr H2 Hl Hb) as [Hw' Hview]. fold fs' in Hw', Hview.
  split; [|done]. split; [done|done| |done]. intros c Hc. rewrite <-Hv by done. unfold fat_val. apply fat_of_ext. intros b Hbb.
  pose proof (entry_valid fs img Hw c Hc) as He. destruct (entry_bytes _ c) as [b0 k]. cbn [fst snd] in Hbb.
  destruct (fat_sector fs img Hw b ltac:(lia)) as (Hin & _). unfold fat_byte. change (fatbase fs') with (fatbase fs).
  rewrite Hview. destruct (Z.eqb_spec (winsect fs) (fatbase fs + b / SS)) as [E|]; [|done]. by rewrite <-E in Hin.
Qed.

(** The bytes [bs] are put at offset [o] of the current entry. *)
Lemma edit_entry F fs d img c l i dp o bs :
  fat_rep F fs d img → table F fs c l → dir_pos fs l i dp → winsect fs = d_sect dp →
  (o + length bs ≤ 32)%nat → Forall is_byte bs →
  let fs' := set_window 1 (winsect fs) (patch (Z.to_nat (d_dir dp) + o) bs (win fs)) fs in
  fat_rep F fs' d img ∧ entry_set fs img l i (patch o bs (ent fs img l i)) fs' img.
Proof.
  intros Hr T [Hi _ Hs Hdd _] Hws Hl Hb fs'. pose proof (fr_win _ _ _ _ Hr) as Hw. pose proof (wo_geo _ _ Hw) as G.
  assert (∀ j, 0 ≤ j < n_ents fs l → 0 ≤ j / 16 < tbl_len fs l) as Hdiv.
  { intros j Hj. unfold n_ents in Hj. split; [apply Z.div_pos; lia|apply Z.div_lt_upper_bound; lia]. }
  pose proof (tbl_sect_range F fs _ c l G T (i / 16) (Hdiv i Hi)) as (Hrg & H1 & H2). pose proof (Z.mod_pos_bound i 16 ltac:(lia)) as Hm.
  pose proof (wo_len _ _ Hw) as Hlen. assert (winsect fs = tbl_sect fs l (i / 16)) as Ew by congruence. rewrite <-Ew in Hrg, H1, H2.
  destruct (edit_outside F fs d img (patch (Z.to_nat (d_dir dp) + o) bs (win fs)) Hr) as [Hr' Hv]; try done; try lia.
  { rewrite patch_length; lia. } { apply patch_bytes; [done|apply Hw]. }
  fold fs' in Hr', Hv. split; [done|]. split; [done|done| | |done].
  - intros j Hj. unfold ent. change (tbl_sect fs' l (j / 16)) with (tbl_sect fs l (j / 16)). rewrite Hv.
    assert (view fs img (winsect fs) = win fs) as Evw by (unfold view; by rewrite Z.eqb_refl).
    destruct (Z.eqb_spec j i) as [->|Hne].
    + rewrite <-Ew, Z.eqb_refl, Hdd, Evw. apply bytes_at_patch_in; lia.
    + destruct (Z.eqb_spec (winsect fs) (tbl_sect fs l (j / 16))) as [E|E]; [|done]. rewrite <-E, Evw, Hdd. apply bytes_at_patch_ne; [lia|].
      rewrite Ew in E. apply (tbl_sect_inj F fs _ c l G T) in E; [|by apply Hdiv..].
      pose proof (Z.div_mod i 16 ltac:(lia)). pose proof (Z.div_mod j 16 ltac:(lia)). pose proof (Z.mod_pos_bound j 16 ltac:(lia)). lia.
  - intros s Hss H2' Ht. rewrite Hv. destruct (Z.eqb_spec (winsect fs) s) as [E|]; [|done]. exfalso.
    apply (Ht (i / 16) (Hdiv i Hi)). congruence.
Qed.

(** ** Taking an entry *)

Definition taken fs l (o : option Z) (r : FRESULT) (dp : DIR) fs' : Prop :=
  match o with
  | Some j => r = FR_OK ∧ dir_pos fs l j dp ∧ winsect fs' = d_sect dp
  | None => r = FR_NO_FILE
  end.

Lemma alloc_loop_ok fuel F fs d img c l i dp :
  fat_rep F fs d img → pow2_csize fs → table F fs c l → dir_pos fs l i dp →
  (Z.to_nat (n_ents fs l - i) ≤ fuel)%nat →
  let o := free_at (Z.to_nat (n_ents fs l - i)) (ent fs img l) i in
  (l = None ∨ o ≠ None) →
  ∃ r dp' fs' d' img', alloc_loop W fuel dp 1 0 (fs, d) = Ok ((r, dp'), (fs', d')) ∧ fat_rep F fs' d' img' ∧ keeps_view fs img fs' img' ∧
    d_obj dp' = d_obj dp ∧ fn dp' = fn dp ∧ taken fs l o r dp' fs'.
Proof using HW.
  revert fs d img i dp. induction fuel as [|fuel IH]; intros fs d img i dp Hr P2 T Hp Hfuel o Ho; [destruct (dp_range _ _ _ _ Hp); lia|].
  destruct (dir_load W HW F fs d img c l i dp Hr T Hp) as (fs1 & d1 & img1 & E & Hr1 & Hk1 & Hws & Hwin & Hlen).
  cbn [alloc_loop]. rewrite (run_bind _ _ _ _ _ E), decide_False by naive_solver. unfold entry_byte, get_win. ff_run.
  destruct (entry_byte_ok fs img l i dp DIR_Name (win fs1) Hp Hwin Hlen ltac:(done)) as [-> _]. ff_run. fold (is_free (ent fs img l i)).
  destruct (dp_range _ _ _ _ Hp) as [Hi0 Hi]. subst o. replace (Z.to_nat (n_ents fs l - i)) with (S (Z.to_nat (n_ents fs l - (i + 1)))) in * by lia.
  cbn [free_at] in *. destruct (is_free (ent fs img l i)); cbn [andb].
  { change (u32 (0 + 1) =? 1) with true. exists FR_OK, dp, fs1, d1, img1. done. }
  pose proof (kv_volume _ _ _ _ Hk1) as V. destruct (same_table F fs fs1 c l V) as (Tt & _ & _ & En).
  assert (pow2_csize fs1) as P21 by (unfold pow2_csize; by assert (csize fs1 = csize fs) as -> by apply V).
  assert (l = None ∨ i + 1 < n_ents fs l) as Hmore.
  { destruct Ho as [?|Ho]; [by left|right]. destruct (decide (i + 1 < n_ents fs l)); [done|]. exfalso. apply Ho.
    by replace (Z.to_nat (n_ents fs l - (i + 1))) with 0%nat by lia. }
  destruct (dir_next_ok W HW F fs1 d1 img1 c l i dp true Hr1 P21 (proj2 Tt T) (dir_pos_same _ _ _ _ _ V Hp) ltac:(rewrite En; tauto))
    as (r & dp2 & fs2 & d2 & img2 & E2 & Hr2 & Hk2 & Ho2 & Hf2 & Hcase).
  rewrite (run_bind _ _ _ _ _ E2). cbv beta iota. pose proof (keeps_view_trans _ _ _ _ _ _ Hk1 Hk2) as Hk. rewrite En in Hcase.
  destruct (Z.ltb_spec (i + 1) (n_ents fs l)) as [Hlt|Hge].
  - destruct Hcase as [-> Hp2]. rewrite decide_True by done.
    pose proof (kv_volume _ _ _ _ Hk) as V2. destruct (same_table F fs fs2 c l V2) as (Tt2 & _ & _ & En2).
    assert (free_at (Z.to_nat (n_ents fs l - (i + 1))) (ent fs2 img2 l) (i + 1) =
      free_at (Z.to_nat (n_ents fs l - (i + 1))) (ent fs img l) (i + 1)) as Efr.
    { apply free_at_ext. intros j Hj. apply (ent_keeps F fs img fs2 img2 (n_sect img) c); try done; [apply Hr|lia]. }
    destruct (IH fs2 d2 img2 (i + 1) dp2) as (r3 & dp3 & fs3 & d3 & img3 & E3 & Hr3 & Hk3 & Ho3 & Hf3 & Htk).
    { done. } { unfold pow2_csize. by assert (csize fs2 = csize fs) as -> by apply V2. } { by apply Tt2. }
    { by apply (dir_pos_same fs1 fs2); [apply Hk2|]. } { rewrite En2. lia. } { by rewrite En2, Efr. }
    rewrite En2, Efr in Htk. exists r3, dp3, fs3, d3, img3. split; [done|]. split; [done|]. split; [by eapply keeps_view_trans|].
    split; [congruence|]. split; [congruence|]. destruct (free_at _ _ _) as [j|]; [|done]. destruct Htk as (-> & Hpj & Hwj).
    split; [done|]. split; [|done]. apply (dir_pos_same fs2 fs); [|done]. unfold same_volume in *. intuition congruence.
  - destruct Hcase as [-> _]. rewrite decide_False by done. exists FR_NO_FILE, dp2, fs2, d2, img2. split; [done|]. split; [done|]. split; [done|]. split; [done|].
    split; [done|]. by replace (Z.to_nat (n_ents fs l - (i + 1))) with 0%nat by lia.
Qed.

Lemma dir_alloc_ok F fs d img l dp :
  fat_rep F fs d img → pow2_csize fs → table F fs (sclust (d_obj dp)) l →
  let o := free_at (Z.to_nat (n_ents fs l)) (ent fs img l) 0 in
  (l = None ∨ o ≠ None) →
  ∃ r dp' fs' d' img', dir_alloc W dp 1 (fs, d) = Ok ((if decide (r = FR_NO_FILE) then FR_DENIED else r, dp'), (fs', d')) ∧
    fat_rep F fs' d' img' ∧ keeps_view fs img fs' img' ∧ d_obj dp' = d_obj dp ∧ fn dp' = fn dp ∧ taken fs l o r dp' fs'.
Proof using HW.
  intros Hr P2 T o Ho. unfold dir_alloc. destruct (dir_sdi_first W HW F fs d img dp l Hr T) as (dp1 & E & Hp & Hsd & Hob).
  rewrite (run_bind _ _ _ _ _ E), decide_True by done. pose proof (tb_max _ _ _ _ T) as Hmax. subst o.
  destruct (alloc_loop_ok dir_fuel F fs d img _ l 0 dp1 Hr P2 T Hp) as (r & dp2 & fs2 & d2 & img2 & E2 & Hr2 & Hk2 & Ho2 & Hf2 & Ht).
  { unfold MAX_DIR, SZDIRE in Hmax. unfold dir_fuel. change (MAX_DIR / SZDIRE) with 65536. lia. }
  { by rewrite Z.sub_0_r. }
  rewrite (run_bind _ _ _ _ _ E2). rewrite Z.sub_0_r in Ht. exists r, dp2, fs2, d2, img2. split; [done|]. split; [done|]. split; [done|].
  split; [congruence|]. split; [rewrite Hf2; apply Hsd|done].
Qed.

(** A new entry: the name, and zeros. *)
Definition new_entry (nm : list Z) : list Z := take 11 nm ++ replicate 21 0.

Lemma clear_and_name o nm (w : list Z) :
  (11 ≤ length nm)%nat → (o + 32 ≤ length w)%nat →
  patch o (bytes_at 0 11 nm) (patch o (replicate 32 (u8 0)) w) = patch o (new_entry nm) w.
Proof.
  intros Hn Hw. assert (length (bytes_at 0 11 nm) = 11%nat) as H11 by (apply bytes_at_length; lia). unfold new_entry.
  assert (bytes_at 0 11 nm = take 11 nm) as Eb by (unfold bytes_at; by rewrite drop_0). rewrite Eb in *.
  assert (length (patch o (replicate 32 (u8 0)) w) = length w) as Hp by (apply patch_length; rewrite length_replicate; lia).
  assert (length (take 11 nm ++ replicate 21 0) = 32%nat) as H32 by (rewrite length_app, length_replicate, H11; done).
  apply list_eq. intros i. rewrite lookup_patch, lookup_patch, lookup_patch by (rewrite ?Hp, ?H32, ?H11, ?length_replicate; lia).
  rewrite H32, length_replicate, H11. repeat case_decide; try lia; try done.
  - by rewrite lookup_app_l by lia.
  - rewrite lookup_app_r, !lookup_replicate_2 by lia. done.
Qed.

Lemma dir_register_ok F fs d img l dp :
  fat_rep F fs d img → pow2_csize fs → table F fs (sclust (d_obj dp)) l → length (fn dp) = 12%nat → Forall is_byte (fn dp) →
  let o := free_at (Z.to_nat (n_ents fs l)) (ent fs img l) 0 in
  (l = None ∨ o ≠ None) →
  ∃ r dp' fs' d' img', dir_register W dp (fs, d) = Ok ((r, dp'), (fs', d')) ∧ fat_rep F fs' d' img' ∧
    d_obj dp' = d_obj dp ∧ fn dp' = fn dp ∧
    match o with
    | Some j => r = FR_OK ∧ dir_pos fs l j dp' ∧ winsect fs' = d_sect dp' ∧ entry_set fs img l j (new_entry (fn dp)) fs' img'
    | None => r = FR_DENIED ∧ keeps_view fs img fs' img'
    end.
Proof using HW.
  intros Hr P2 T Hfn Hb o Ho. unfold dir_register.
  destruct (dir_alloc_ok F fs d img l dp Hr P2 T Ho) as (r & dp1 & fs1 & d1 & img1 & E & Hr1 & Hk1 & Ho1 & Hf1 & Ht). fold o in Ht.
  rewrite (run_bind _ _ _ _ _ E). cbv beta iota. destruct o as [j|].
  2:{ cbn in Ht. subst r. destruct (decide (FR_NO_FILE = FR_NO_FILE)); [|done]. rewrite decide_False by done. by exists FR_DENIED, dp1, fs1, d1, img1. }
  destruct Ht as (-> & Hp & Hws). destruct (decide (FR_OK = FR_NO_FILE)); [done|]. rewrite decide_True by done.
  pose proof (kv_volume _ _ _ _ Hk1) as V. destruct (same_table F fs fs1 (sclust (d_obj dp)) l V) as (Tt & _ & _ & En).
  pose proof (dir_pos_same _ _ _ _ _ V Hp) as Hp1.
  destruct (dir_load W HW F fs1 d1 img1 _ l j dp1 Hr1 (proj2 Tt T) Hp1) as (fs2 & d2 & img2 & E2 & Hr2 & Hk2 & Hws2 & _ & Hlen).
  rewrite (run_bind _ _ _ _ _ E2), decide_True by done. pose proof (dp_dir _ _ _ _ Hp) as Hdd. pose proof (Z.mod_pos_bound j 16 ltac:(lia)).
  assert (mem_set (d_dir dp1) 0 SZDIRE (win fs2) = Ok (patch (Z.to_nat (d_dir dp1)) (replicate 32 (u8 0)) (win fs2))) as Ems.
  { unfold mem_set. change SZDIRE with 32. rewrite (proj2 (Z.ltb_ge _ _)), (proj2 (Z.ltb_ge _ _)) by lia. done. }
  rewrite (run_edit _ _ _ _ _ Ems).
  set (fs3 := set_win _ fs2). assert (copy (d_dir dp1 + DIR_Name) (fn dp1) 0 11 (win fs3) =
    Ok (patch (Z.to_nat (d_dir dp1)) (new_entry (fn dp)) (win fs2))) as Ecp.
  { unfold copy, DIR_Name. rewrite Z.add_0_r, Hf1. change (win fs3) with (patch (Z.to_nat (d_dir dp1)) (replicate 32 (u8 0)) (win fs2)).
    rewrite patch_length by (rewrite length_replicate; lia). rewrite !(proj2 (Z.ltb_ge _ _)) by lia. cbn [orb]. f_equal.
    apply clear_and_name; lia. }
  rewrite (run_edit _ _ _ _ _ Ecp). ff_run.
  pose proof (dir_pos_same _ _ _ _ _ (kv_volume _ _ _ _ Hk2) Hp1) as Hp2.
  destruct (same_table F fs1 fs2 (sclust (d_obj dp)) l (kv_volume _ _ _ _ Hk2)) as (Tt2 & _ & _ & En2).
  assert (length (new_entry (fn dp)) = 32%nat) as Hl32 by (unfold new_entry; rewrite length_app, length_take, length_replicate; lia).
  destruct (edit_entry F fs2 d2 img2 _ l j dp1 0 (new_entry (fn dp)) Hr2 (proj2 Tt2 (proj2 Tt T)) Hp2 Hws2) as [Hr4 Hes].
  { lia. } { unfold new_entry. apply Forall_app. split; [by apply Forall_take|by apply Forall_replicate]. }
  rewrite Nat.add_0_r in *. assert (patch 0 (new_entry (fn dp)) (ent fs2 img2 l j) = new_entry (fn dp)) as Ep.
  { unfold patch. rewrite take_0, drop_ge; [by rewrite app_nil_r|]. rewrite Hl32. unfold ent, bytes_at. rewrite length_take. lia. }
  rewrite Ep in Hes. eexists FR_OK, dp1, _, d2, img2. split; [reflexivity|]. split; [exact Hr4|]. split; [done|]. split; [done|].
  split; [done|]. split; [done|]. split; [exact Hws2|].
  apply (entry_set_keeps F (sclust (d_obj dp)) l j _ fs img fs2 img2); [apply Hr|done|by eapply keeps_view_trans|exact Hes].
Qed.

(** ** Removing an entry *)

Lemma dir_remove_ok F fs d img c l j dp :
  fat_rep F fs d img → table F fs c l → dir_pos fs l j dp →
  ∃ fs' d' img', dir_remove W dp (fs, d) = Ok (FR_OK, (fs', d')) ∧ fat_rep F fs' d' img' ∧
    entry_set fs img l j (patch 0 [DDEM] (ent fs img l j)) fs' img'.
Proof using HW.
  intros Hr T Hp. unfold dir_remove. destruct (dir_load W HW F fs d img _ l j dp Hr T Hp) as (fs2 & d2 & img2 & E2 & Hr2 & Hk2 & Hws2 & _ & Hlen).
  rewrite (run_bind _ _ _ _ _ E2), decide_True by done. pose proof (dp_dir _ _ _ _ Hp) as Hdd. pose proof (Z.mod_pos_bound j 16 ltac:(lia)).
  assert (put (d_dir dp + DIR_Name) DDEM (win fs2) = Ok (patch (Z.to_nat (d_dir dp)) [DDEM] (win fs2))) as Ep.
  { unfold DIR_Name. rewrite Z.add_0_r. rewrite put_byte by (done || lia). done. }
  rewrite (run_edit _ _ _ _ _ Ep). ff_run. pose proof (kv_volume _ _ _ _ Hk2) as V.
  destruct (same_table F fs fs2 c l V) as (Tt & _ & _ & En).
  destruct (edit_entry F fs2 d2 img2 c l j dp 0 [DDEM] Hr2 (proj2 Tt T) (dir_pos_same _ _ _ _ _ V Hp) Hws2) as [Hr4 Hes].
  { simpl. lia. } { by repeat constructor. }
  rewrite Nat.add_0_r in *. rewrite (ent_keeps F fs img fs2 img2 (n_sect img) c) in Hes; try done; [|apply Hr|apply Hp].
  eexists _, d2, img2. split; [reflexivity|]. split; [exact Hr4|].
  apply (entry_set_keeps F c l j _ fs img fs2 img2); [apply Hr|done|done|exact Hes].
Qed.
End entries.
