(* ===== verification/FfNames.v ===== *)
(** * FatFs: a directory is a set of names

    Finding, adding and removing entries of a directory table are the
    operations of a finite set of names, with the room there is in the table;
    only the table changes. *)

From S2P Require Import Prelude Bytes Cstdio Ff FfWindow FfFat FfChain FfDir FfData FfPos FfTable FfDirProps FfMount Hostdisk FfHost FfProps FfMountProps.

(** ** Names in a table *)

(** A name as [create_name] makes it: 11 bytes, neither zero nor the mark of a
    deleted entry first. *)
Definition good_name (nm : list Z) : Prop :=
  length nm = 11%nat ∧ Forall is_byte nm ∧ nm !! 0%nat ≠ Some 0 ∧ nm !! 0%nat ≠ Some DDEM.

(** The entries [e] of a table of [m]: nothing follows the end mark, and names
    are unique. *)
Record table_ok (m : Z) (e : Z → list Z) : Prop := {
  to_len : ∀ i, 0 ≤ i < m → length (e i) = 32%nat;
  to_end : ∀ i j, 0 ≤ i ≤ j → j < m → ent_byte (e i) DIR_Name = 0 → ent_byte (e j) DIR_Name = 0;
  to_uniq : ∀ nm i j, good_name nm → 0 ≤ i < m → 0 ≤ j < m → named nm (e i) = true → named nm (e j) = true → i = j;
}.

(** The names of the table. *)
Definition names_are (m : Z) (e : Z → list Z) (S : gset (list Z)) : Prop :=
  ∀ nm, good_name nm → (nm ∈ S ↔ ∃ i, 0 ≤ i < m ∧ named nm (e i) = true).

(** The number of entries that can be taken. *)
Definition n_empty (m : Z) (e : Z → list Z) : Z := Z.of_nat (length (filter (λ i, is_free (e i) = true) (seqZ 0 m))).

Lemma named_first nm e : good_name nm → named nm e = true → ent_byte e DIR_Name ≠ 0 ∧ ent_byte e DIR_Name ≠ DDEM ∧ is_free e = false.
Proof.
  intros (Hl & _ & H0 & HD) Hn. unfold named in Hn. apply andb_true_iff in Hn as [_ Hn%bool_decide_eq_true].
  assert (e !! 0%nat = nm !! 0%nat) as E by (rewrite <-(lookup_take_lt nm 11 0), <-Hn, lookup_take_lt by lia; done).
  unfold is_free, ent_byte, DIR_Name. change (Z.to_nat 0) with 0%nat. rewrite E.
  destruct (nm !! 0%nat) as [x|] eqn:Ex; [|apply lookup_ge_None in Ex; lia]. cbn.
  assert (x ≠ 0 ∧ x ≠ DDEM) as [? ?] by (split; congruence). rewrite !(proj2 (Z.eqb_neq _ _)) by done. done.
Qed.

Lemma find_in_spec m e nm i :
  good_name nm → (∀ j k, i ≤ j ≤ k → k < i + Z.of_nat m → ent_byte (e j) DIR_Name = 0 → ent_byte (e k) DIR_Name = 0) →
  match find_in m e nm i with
  | Some j => i ≤ j < i + Z.of_nat m ∧ named nm (e j) = true
  | None => ∀ j, i ≤ j < i + Z.of_nat m → named nm (e j) = false
  end.
Proof.
  intros Hg. revert i. induction m as [|m IH]; intros i He; [intros j Hj; lia|]. cbn [find_in].
  destruct (Z.eqb_spec (ent_byte (e i) DIR_Name) 0) as [E|E].
  { intros j Hj. apply not_true_is_false. intros Hn. apply (named_first _ _ Hg) in Hn as (Hn & _). apply Hn. apply (He i); [lia|lia|done]. }
  destruct (named nm (e i)) eqn:Hn; [split; [lia|done]|].
  pose proof (IH (i + 1) ltac:(intros; eapply He; [|lia|done]; lia)) as Hi. destruct (find_in m e nm (i + 1)) as [j|].
  - destruct Hi. split; [lia|done].
  - intros j Hj. destruct (decide (j = i)) as [->|]; [done|]. apply Hi. lia.
Qed.

Lemma free_at_spec m e i :
  match free_at m e i with
  | Some j => i ≤ j < i + Z.of_nat m ∧ is_free (e j) = true ∧ ∀ k, i ≤ k < j → is_free (e k) = false
  | None => ∀ j, i ≤ j < i + Z.of_nat m → is_free (e j) = false
  end.
Proof.
  revert i. induction m as [|m IH]; intros i; [intros j Hj; lia|]. cbn [free_at]. destruct (is_free (e i)) eqn:E; [split; [lia|split; [done|lia]]|].
  specialize (IH (i + 1)). destruct (free_at m e (i + 1)) as [j|].
  - destruct IH as (Hj & Hf & Hk). split; [lia|]. split; [done|]. intros k Hk'. destruct (decide (k = i)) as [->|]; [done|]. apply Hk. lia.
  - intros j Hj. destruct (decide (j = i)) as [->|]; [done|]. apply IH. lia.
Qed.

(** ** Counting *)

Lemma n_empty_bound m e : 0 ≤ m → 0 ≤ n_empty m e ≤ m.
Proof.
  intros Hm. unfold n_empty. pose proof (length_filter (λ i, is_free (e i) = true) (seqZ 0 m)) as Hl.
  rewrite length_seqZ in Hl. lia.
Qed.

Lemma count_free_ext (e e' : Z → list Z) (l : list Z) :
  (∀ x, x ∈ l → e' x = e x) → length (filter (λ i, is_free (e' i) = true) l) = length (filter (λ i, is_free (e i) = true) l).
Proof.
  induction l as [|x l IH]; intros E; [done|]. rewrite !filter_cons.
  pose proof (E x ltac:(by left)) as Ex. specialize (IH (λ y Hy, E y (list_elem_of_further y x l Hy))). rewrite Ex.
  case_decide; simpl; lia.
Qed.

(** One entry changes. *)
Lemma n_empty_set m e e' j :
  0 ≤ j < m → (∀ i, 0 ≤ i < m → i ≠ j → e' i = e i) →
  n_empty m e' = n_empty m e + (if is_free (e' j) then 1 else 0) - (if is_free (e j) then 1 else 0).
Proof.
  intros Hj E. unfold n_empty. assert (seqZ 0 m = seqZ 0 j ++ j :: seqZ (j + 1) (m - 1 - j)) as ->.
  { replace m with (j + (m - j)) at 1 by lia. rewrite seqZ_app by lia. f_equal.
    rewrite (seqZ_cons (0 + j)), Z.add_0_l by lia. f_equal. f_equal; lia. }
  rewrite !filter_app, !length_app, !filter_cons.
  rewrite (count_free_ext e e' (seqZ 0 j)) by (intros x Hx%elem_of_seqZ; apply E; lia).
  destruct (is_free (e' j)), (is_free (e j)); repeat case_decide; try done; cbn [length];
    rewrite (count_free_ext e e') by (intros x Hx%elem_of_seqZ; apply E; lia); lia.
Qed.

Lemma n_empty_none m e : 0 ≤ m → (n_empty m e = 0 ↔ free_at (Z.to_nat m) e 0 = None).
Proof.
  intros Hm. pose proof (free_at_spec (Z.to_nat m) e 0) as Hf. unfold n_empty. split.
  - intros H0. destruct (free_at _ e 0) as [j|]; [|done]. destruct Hf as (Hj & Hfr & _). exfalso.
    assert (j ∈ filter (λ i, is_free (e i) = true) (seqZ 0 m)) as Hin by (apply list_elem_of_filter; split; [done|apply elem_of_seqZ; lia]).
    destruct (filter _ _); [by apply not_elem_of_nil in Hin|simpl in H0; lia].
  - intros E. rewrite E in Hf. destruct (filter _ _) as [|x l] eqn:El; [done|].
    assert (x ∈ filter (λ i, is_free (e i) = true) (seqZ 0 m)) as Hin by (rewrite El; by left).
    apply list_elem_of_filter in Hin as [Hx Hr%elem_of_seqZ]. rewrite Hf in Hx by lia. done.
Qed.

(** ** Adding and removing a name *)

Lemma named_new nm nm' : length nm = 11%nat → length nm' = 11%nat → named nm' (new_entry nm) = bool_decide (nm' = nm).
Proof.
  intros Hl Hl'. unfold named, new_entry. rewrite (take_ge nm), (take_ge nm'), take_app_length' by lia.
  unfold ent_byte, DIR_Attr. rewrite lookup_app_r by (simpl; lia). rewrite Hl. simpl. apply bool_decide_ext. split; congruence.
Qed.

Lemma table_add m e e' nm j :
  table_ok m e → good_name nm → (∀ i, 0 ≤ i < m → named nm (e i) = false) → 0 ≤ j < m →
  is_free (e j) = true → (∀ k, 0 ≤ k < j → is_free (e k) = false) →
  (∀ i, 0 ≤ i < m → e' i = if i =? j then new_entry nm else e i) → table_ok m e'.
Proof.
  intros [Hlen Hend Huq] Hg Hno Hj Hfr Hfirst E. pose proof Hg as (Hl & _).
  assert (ent_byte (new_entry nm) DIR_Name ≠ 0) as Hn0.
  { apply (named_first nm); [done|]. rewrite named_new by done. by apply bool_decide_eq_true. }
  split.
  - intros i Hi. rewrite E by done. case_if; [|by apply Hlen]. unfold new_entry. rewrite length_app, length_take, length_replicate. lia.
  - intros i k Hik Hk. rewrite !E by lia. destruct (Z.eqb_spec i j) as [->|Hi]; [done|]. destruct (Z.eqb_spec k j) as [->|]; [|apply Hend; lia].
    intros H0. exfalso. pose proof (Hfirst i ltac:(lia)) as Hf. unfold is_free in Hf. rewrite H0, orb_true_r in Hf. done.
  - intros nm' i k Hg' Hi Hk. rewrite !E by done. pose proof Hg' as (Hl' & _).
    destruct (Z.eqb_spec i j), (Z.eqb_spec k j); rewrite ?named_new, ?bool_decide_eq_true by done; intros H1 H2; subst; try done;
      [by rewrite Hno in H2|by rewrite Hno in H1|by apply (Huq nm')].
Qed.

Lemma names_add m e e' nm j S :
  names_are m e S → good_name nm → 0 ≤ j < m → is_free (e j) = true →
  (∀ i, 0 ≤ i < m → e' i = if i =? j then new_entry nm else e i) → names_are m e' ({[nm]} ∪ S).
Proof.
  intros HS Hg Hj Hfr E nm' Hg'. pose proof Hg as (Hl & _). pose proof Hg' as (Hl' & _). rewrite elem_of_union, elem_of_singleton, (HS nm') by done.
  split.
  - intros [->|(i & Hi & Hn)].
    + exists j. split; [done|]. by rewrite E, Z.eqb_refl, named_new, bool_decide_eq_true by done.
    + exists i. split; [done|]. rewrite E by done. destruct (Z.eqb_spec i j) as [->|]; [|done].
      apply (named_first _ _ Hg') in Hn as (_ & _ & Hn). congruence.
  - intros (i & Hi & Hn). rewrite E in Hn by done. destruct (Z.eqb_spec i j); [|by right; exists i].
    left. by rewrite named_new, bool_decide_eq_true in Hn by done.
Qed.

(** The entry of a deleted file has no name. *)
Lemma removed_entry e : length e = 32%nat →
  length (patch 0 [DDEM] e) = 32%nat ∧ ent_byte (patch 0 [DDEM] e) DIR_Name = DDEM ∧ is_free (patch 0 [DDEM] e) = true ∧
  ∀ nm, good_name nm → named nm (patch 0 [DDEM] e) = false.
Proof.
  intros Hl. assert (ent_byte (patch 0 [DDEM] e) DIR_Name = DDEM) as Hb by done.
  split; [by rewrite patch_length by (simpl; lia)|]. split; [done|]. split; [done|].
  intros nm Hg. apply not_true_is_false. intros Hn. by apply (named_first _ _ Hg) in Hn as (_ & ? & _).
Qed.

Lemma table_remove m e e' nm j :
  table_ok m e → good_name nm → 0 ≤ j < m → named nm (e j) = true →
  (∀ i, 0 ≤ i < m → e' i = if i =? j then patch 0 [DDEM] (e j) else e i) → table_ok m e'.
Proof.
  intros [Hlen Hend Huq] Hg Hj Hn E. destruct (removed_entry (e j) (Hlen j Hj)) as (Hl' & Hb & _ & Hno). split.
  - intros i Hi. rewrite E by done. case_if; [done|by apply Hlen].
  - intros i k Hik Hk. rewrite !E by lia. destruct (Z.eqb_spec i j) as [->|]; [by rewrite Hb|]. destruct (Z.eqb_spec k j) as [->|]; [|apply Hend; lia].
    intros H0. exfalso. apply (named_first _ _ Hg) in Hn as (Hn & _). apply Hn. by apply (Hend i).
  - intros nm' i k Hg' Hi Hk. rewrite !E by done. destruct (Z.eqb_spec i j), (Z.eqb_spec k j); rewrite ?Hno by done; try done. by apply Huq.
Qed.

Lemma names_remove m e e' nm j S :
  table_ok m e → names_are m e S → good_name nm → 0 ≤ j < m → named nm (e j) = true →
  (∀ i, 0 ≤ i < m → e' i = if i =? j then patch 0 [DDEM] (e j) else e i) → names_are m e' (S ∖ {[nm]}).
Proof.
  intros T HS Hg Hj Hn E nm' Hg'. destruct (removed_entry (e j) (to_len _ _ T j Hj)) as (_ & _ & _ & Hno).
  rewrite elem_of_difference, elem_of_singleton, (HS nm') by done. split.
  - intros [(i & Hi & Hn') Hne]. exists i. split; [done|]. rewrite E by done. destruct (Z.eqb_spec i j) as [->|]; [|done].
    exfalso. apply Hne. unfold named in Hn, Hn'. apply andb_true_iff in Hn as [_ H1%bool_decide_eq_true].
    apply andb_true_iff in Hn' as [_ H2%bool_decide_eq_true]. destruct Hg as (Hl & _), Hg' as (Hl' & _).
    rewrite (take_ge nm) in H1 by lia. rewrite (take_ge nm') in H2 by lia. congruence.
  - intros (i & Hi & Hn'). rewrite E in Hn' by done. destruct (Z.eqb_spec i j); [by rewrite Hno in Hn'|]. split; [by exists i|].
    intros ->. by pose proof (to_uniq _ _ T nm i j Hg Hi Hj Hn' Hn).
Qed.

(** ** The operations *)

Inductive dir_op := DFind (nm : list Z) | DAdd (nm : list Z) | DRemove (nm : list Z).

Definition op_name (op : dir_op) : list Z := match op with DFind nm | DAdd nm | DRemove nm => nm end.

(** On a set of names and the number of entries left. *)
Definition set_step (op : dir_op) (a : gset (list Z) * Z) : FRESULT * (gset (list Z) * Z) :=
  let '(ns, k) := a in
  match op with
  | DFind nm => (if decide (nm ∈ ns) then FR_OK else FR_NO_FILE, (ns, k))
  | DAdd nm =>
      if decide (nm ∈ ns) then (FR_EXIST, (ns, k)) else
      if k =? 0 then (FR_DENIED, (ns, k)) else (FR_OK, ({[nm]} ∪ ns, k - 1))
  | DRemove nm => if decide (nm ∈ ns) then (FR_OK, (ns ∖ {[nm]}, k + 1)) else (FR_NO_FILE, (ns, k))
  end.

Fixpoint set_run (ops : list dir_op) (a : gset (list Z) * Z) : list FRESULT * (gset (list Z) * Z) :=
  match ops with
  | [] => ([], a)
  | op :: ops => let '(r, a) := set_step op a in let '(rs, a) := set_run ops a in (r :: rs, a)
  end.

Section operations.
Context {D : Type} `{Disk D} (W : Z).
Hypothesis HW : 32 ≤ W.

Implicit Types (fs : FATFS) (d : D) (img : list Z) (F : Z → Z).

(** With the functions of FatFs, as its interface calls them: an entry is
    registered after the name was not found, and removed after it was. *)
Definition dir_step (op : dir_op) (dp : DIR) : ff D (FRESULT * DIR) :=
  '(r, dp) ← dir_find W (set_fn (op_name op ++ [NS_LAST]) dp);
  match op with
  | DFind _ => mret (r, dp)
  | DAdd _ => if decide (r = FR_NO_FILE) then dir_register W dp else mret (if decide (r = FR_OK) then FR_EXIST else r, dp)
  | DRemove _ => if decide (r = FR_OK) then r ← dir_remove W dp; mret (r, dp) else mret (r, dp)
  end.

Fixpoint dir_run (ops : list dir_op) (dp : DIR) : ff D (list FRESULT * DIR) :=
  match ops with
  | [] => mret ([], dp)
  | op :: ops => '(r, dp) ← dir_step op dp; '(rs, dp) ← dir_run ops dp; mret (r :: rs, dp)
  end.

(** The directory [c] has the names [S] and room for [k] more. *)
Record is_dir F fs d img (c : Z) (l : option (list Z)) (S : gset (list Z)) (k : Z) : Prop := {
  id_rep : fat_rep F fs d img;
  id_pow : pow2_csize fs;
  id_table : table F fs c l;
  id_ok : table_ok (n_ents fs l) (ent fs img l);
  id_names : names_are (n_ents fs l) (ent fs img l) S;
  id_room : n_empty (n_ents fs l) (ent fs img l) = k;
}.

(** Only the table has changed. *)
Record table_only fs img (l : option (list Z)) fs' img' : Prop := {
  tl_volume : same_volume fs fs';
  tl_sects : n_sect img' = n_sect img;
  tl_view : ∀ s, 0 ≤ s < n_sect img → ¬ in_fat2 fs s → (∀ k, 0 ≤ k < tbl_len fs l → s ≠ tbl_sect fs l k) →
    view fs' img' s = view fs img s;
}.

Lemma table_only_refl fs img l : table_only fs img l fs img.
Proof. by split. Qed.

Lemma table_only_trans fs img l fs1 img1 fs2 img2 :
  table_only fs img l fs1 img1 → table_only fs1 img1 l fs2 img2 → table_only fs img l fs2 img2.
Proof.
  intros [V S Vw] [V' S' Vw']. split; [by etrans|congruence|]. intros s Hs H2 Ht.
  destruct (same_table (λ _, 0) fs fs1 0 l V) as (_ & El & Es & _).
  rewrite Vw'; [by apply Vw|by rewrite S|by rewrite (in_fat2_same fs)|]. intros k. rewrite El, Es. apply Ht.
Qed.

Lemma keeps_table_only fs img l fs' img' : keeps_view fs img fs' img' → table_only fs img l fs' img'.
Proof. intros [V _ S Vw]. split; [done|done|]. intros. by apply Vw. Qed.

Lemma set_table_only fs img l i e fs' img' : entry_set fs img l i e fs' img' → table_only fs img l fs' img'.
Proof. by intros [V S _ Vw]. Qed.

Lemma is_dir_keeps F fs d img c l S k fs' d' img' :
  is_dir F fs d img c l S k → fat_rep F fs' d' img' → same_volume fs fs' →
  (∀ i, 0 ≤ i < n_ents fs l → ent fs' img' l i = ent fs img l i) → is_dir F fs' d' img' c l S k.
Proof.
  intros [Hr P T [Ok1 Ok2 Ok3] Nm Rm] Hr' V E. destruct (same_table F fs fs' c l V) as (Tt & _ & _ & En).
  split; [done| |by apply Tt|split; rewrite En| |]; rewrite ?En.
  - unfold pow2_csize. by assert (csize fs' = csize fs) as -> by apply V.
  - intros i Hi. rewrite E by done. by apply Ok1.
  - intros i j Hij Hj. rewrite !E by lia. apply Ok2; lia.
  - intros nm i j Hg Hi Hj. rewrite !E by done. by apply Ok3.
  - intros nm Hg. rewrite (Nm nm Hg). split; intros (i & Hi & Hn); exists i; (split; [done|]); [by rewrite E|by rewrite <-E].
  - rewrite <-Rm. unfold n_empty. f_equal. apply count_free_ext. intros x Hx%elem_of_seqZ. apply E. lia.
Qed.

(** Finding decides membership. *)
Lemma dir_find_names F fs d img l S k dp nm :
  is_dir F fs d img (sclust (d_obj dp)) l S k → good_name nm →
  ∃ r dp' fs' d' img', dir_find W (set_fn (nm ++ [NS_LAST]) dp) (fs, d) = Ok ((r, dp'), (fs', d')) ∧
    is_dir F fs' d' img' (sclust (d_obj dp')) l S k ∧ sclust (d_obj dp') = sclust (d_obj dp) ∧ fn dp' = nm ++ [NS_LAST] ∧
    keeps_view fs img fs' img' ∧
    if decide (nm ∈ S) then r = FR_OK ∧ ∃ j, 0 ≤ j < n_ents fs l ∧ dir_pos fs' l j dp' ∧ named nm (ent fs' img' l j) = true
    else r = FR_NO_FILE ∧ ∀ i, 0 ≤ i < n_ents fs l → named nm (ent fs' img' l i) = false.
Proof using HW.
  intros Hd Hg. pose proof Hd as [Hr P T Ok Nm Rm]. pose proof Hg as (Hl & _). set (dp0 := set_fn (nm ++ [NS_LAST]) dp).
  destruct (dir_find_ok W HW F fs d img l dp0 Hr P T) as (r & dp1 & fs1 & d1 & img1 & E & Hr1 & Hk1 & (Hf1 & Hs1 & _) & Hfd).
  { unfold dp0. cbn. rewrite length_app, Hl. done. }
  pose proof (kv_volume _ _ _ _ Hk1) as V.
  assert (∀ i, 0 ≤ i < n_ents fs l → ent fs1 img1 l i = ent fs img l i) as Ee.
  { intros i Hi. apply (ent_keeps F fs img fs1 img1 (n_sect img) (sclust (d_obj dp))); try done. apply Hr. }
  assert (∀ e, named (fn dp0) e = named nm e) as En.
  { intros e. unfold named. do 2 f_equal. apply bool_decide_ext. unfold dp0. cbn. rewrite take_app_length', (take_ge nm) by lia. done. }
  assert (find_in (Z.to_nat (n_ents fs l)) (ent fs img l) (fn dp0) 0 = find_in (Z.to_nat (n_ents fs l)) (ent fs img l) nm 0) as Efi.
  { by apply find_in_name. }
  rewrite Efi in Hfd. assert (0 ≤ n_ents fs l) as Hn0.
  { pose proof (tbl_len_pos F fs _ _ l (wo_geo _ _ (fr_win _ _ _ _ Hr)) T). unfold n_ents. lia. }
  pose proof (find_in_spec (Z.to_nat (n_ents fs l)) (ent fs img l) nm 0 Hg) as Hsp.
  specialize (Hsp ltac:(intros a b Hab Hb; apply (to_end _ _ Ok); lia)).
  exists r, dp1, fs1, d1, img1. split; [done|]. split; [rewrite Hs1; by apply (is_dir_keeps F fs d img)|]. split; [done|]. split; [done|]. split; [done|].
  destruct (find_in _ _ nm 0) as [j|].
  - destruct Hsp as [Hj Hnj]. destruct Hfd as (-> & Hp & _). assert (nm ∈ S) as Hin by (apply Nm; [done|]; exists j; split; [lia|done]).
    rewrite decide_True by done. split; [done|]. exists j. split; [lia|]. split; [by apply (dir_pos_same fs)|]. rewrite Ee by lia. done.
  - cbn in Hfd. subst r. rewrite decide_False.
    2:{ intros Hin. apply Nm in Hin as (i & Hi & Hni); [|done]. rewrite Hsp in Hni by lia. done. }
    split; [done|]. intros i Hi. rewrite Ee by done. apply Hsp. lia.
Qed.

(** One entry is set: what the table is after it. *)
Lemma is_dir_set F fs d img c l S k j e fs' d' img' S' k' :
  is_dir F fs d img c l S k → fat_rep F fs' d' img' → entry_set fs img l j e fs' img' → 0 ≤ j < n_ents fs l →
  table_ok (n_ents fs l) (ent fs' img' l) → names_are (n_ents fs l) (ent fs' img' l) S' →
  k' = k + (if is_free e then 1 else 0) - (if is_free (ent fs img l j) then 1 else 0) → is_dir F fs' d' img' c l S' k'.
Proof.
  intros [Hr P T _ _ Rm] Hr' [V _ Ee _] Hj Hok Hnm ->. destruct (same_table F fs fs' c l V) as (Tt & _ & _ & En).
  split; [done| |by apply Tt|rewrite En; done|rewrite En; done|rewrite En].
  - unfold pow2_csize. by assert (csize fs' = csize fs) as -> by apply V.
  - rewrite (n_empty_set _ (ent fs img l) _ j Hj).
    + rewrite Ee, Z.eqb_refl, Rm by done. done.
    + intros i Hi Hne. rewrite Ee by done. by rewrite (proj2 (Z.eqb_neq _ _) Hne).
Qed.

Lemma is_dir_added F fs d img c l S k nm j fs' d' img' :
  is_dir F fs d img c l S k → good_name nm → (∀ i, 0 ≤ i < n_ents fs l → named nm (ent fs img l i) = false) →
  free_at (Z.to_nat (n_ents fs l)) (ent fs img l) 0 = Some j →
  fat_rep F fs' d' img' → entry_set fs img l j (new_entry nm) fs' img' → is_dir F fs' d' img' c l ({[nm]} ∪ S) (k - 1).
Proof.
  intros Hd Hg Hno Hfree Hr' Hset. pose proof (free_at_spec (Z.to_nat (n_ents fs l)) (ent fs img l) 0) as Hfs. rewrite Hfree in Hfs.
  destruct Hfs as (Hj & Hfr & Hfirst). pose proof (es_ent _ _ _ _ _ _ _ Hset) as Ee. destruct Hg as (Hl & Hg').
  assert (named nm (new_entry nm) = true) as Hn by (rewrite named_new by done; by apply bool_decide_eq_true).
  assert (good_name nm) as Hg by done. apply (is_dir_set F fs d img c l S k j (new_entry nm)); try done; [lia| | |].
  - apply (table_add _ (ent fs img l) _ nm j); try done; [apply Hd|lia].
  - apply (names_add _ (ent fs img l) _ nm j); try done; [apply Hd|lia].
  - destruct (named_first nm (new_entry nm) Hg Hn) as (_ & _ & ->). rewrite Hfr. lia.
Qed.

Lemma is_dir_removed F fs d img c l S k nm j fs' d' img' :
  is_dir F fs d img c l S k → good_name nm → 0 ≤ j < n_ents fs l → named nm (ent fs img l j) = true →
  fat_rep F fs' d' img' → entry_set fs img l j (patch 0 [DDEM] (ent fs img l j)) fs' img' → is_dir F fs' d' img' c l (S ∖ {[nm]}) (k + 1).
Proof.
  intros Hd Hg Hj Hn Hr' Hset. pose proof (es_ent _ _ _ _ _ _ _ Hset) as Ee. pose proof (id_ok _ _ _ _ _ _ _ _ Hd) as Hok.
  destruct (removed_entry (ent fs img l j) (to_len _ _ Hok j Hj)) as (_ & _ & Hfr & _).
  eapply (is_dir_set F fs d img c l S k j); try done.
  - by apply (table_remove _ (ent fs img l) _ nm j).
  - apply (names_remove _ (ent fs img l) _ nm j); try done. apply Hd.
  - rewrite Hfr. destruct (named_first nm (ent fs img l j) Hg Hn) as (_ & _ & ->). lia.
Qed.

(** A table that may have to grow has room. *)
Definition has_room (op : dir_op) (l : option (list Z)) (k : Z) : Prop :=
  match op with DAdd _ => l = None ∨ 0 < k | _ => True end.

(** Registering a name that was not found. *)
Lemma register_names F fs d img l S k dp nm :
  is_dir F fs d img (sclust (d_obj dp)) l S k → good_name nm → fn dp = nm ++ [NS_LAST] →
  (∀ i, 0 ≤ i < n_ents fs l → named nm (ent fs img l i) = false) → l = None ∨ 0 < k →
  ∃ dp' fs' d' img', dir_register W dp (fs, d) = Ok ((if k =? 0 then FR_DENIED else FR_OK, dp'), (fs', d')) ∧
    is_dir F fs' d' img' (sclust (d_obj dp')) l (if k =? 0 then S else {[nm]} ∪ S) (if k =? 0 then k else k - 1) ∧
    sclust (d_obj dp') = sclust (d_obj dp) ∧ table_only fs img l fs' img'.
Proof using HW.
  intros Hd Hg Hfn Hno Hroom. pose proof Hd as [Hr P T _ _ Rm]. assert (0 ≤ n_ents fs l) as Hn0.
  { pose proof (tbl_len_pos F fs _ _ l (wo_geo _ _ (fr_win _ _ _ _ Hr)) T). unfold n_ents. lia. }
  assert (length (fn dp) = 12%nat ∧ Forall is_byte (fn dp) ∧ new_entry (fn dp) = new_entry nm) as (Hl & Hb & Ene).
  { rewrite Hfn, length_app. destruct Hg as (Hl & Hby & _). rewrite Hl. split; [done|].
    split; [apply Forall_app; split; [done|by repeat constructor]|]. unfold new_entry. by rewrite take_app_length', take_ge by lia. }
  pose proof (n_empty_none (n_ents fs l) (ent fs img l) Hn0) as Hnone. rewrite Rm in Hnone.
  destruct (dir_register_ok W HW F fs d img l dp Hr P T Hl Hb) as (r & dp2 & fs2 & d2 & img2 & E2 & Hr2 & Ho2 & _ & Hreg).
  { destruct Hroom as [?|Hpos]; [by left|right]. intros E0%Hnone. lia. }
  exists dp2, fs2, d2, img2. rewrite E2, Ho2. destruct (free_at _ _ 0) as [j|] eqn:Ej.
  - rewrite (proj2 (Z.eqb_neq k 0)) by (by rewrite Hnone). destruct Hreg as (-> & _ & _ & Hset). rewrite Ene in Hset.
    split; [done|]. split; [by apply (is_dir_added F fs d img _ l S k nm j)|]. split; [done|by eapply set_table_only].
  - rewrite (proj2 (Z.eqb_eq k 0)) by by apply Hnone. destruct Hreg as [-> Hk2]. split; [done|]. split; [|split; [done|by apply keeps_table_only]].
    apply (is_dir_keeps F fs d img); [done|done|apply Hk2|]. intros i Hi.
    apply (ent_keeps F fs img fs2 img2 (n_sect img) (sclust (d_obj dp))); try done. apply Hr.
Qed.

Lemma dir_step_ok op F fs d img l S k dp :
  is_dir F fs d img (sclust (d_obj dp)) l S k → good_name (op_name op) → has_room op l k →
  let '(r, (S', k')) := set_step op (S, k) in
  ∃ dp' fs' d' img', dir_step op dp (fs, d) = Ok ((r, dp'), (fs', d')) ∧ is_dir F fs' d' img' (sclust (d_obj dp')) l S' k' ∧
    sclust (d_obj dp') = sclust (d_obj dp) ∧ table_only fs img l fs' img'.
Proof using HW.
  intros Hd Hg Hroom.
  destruct (dir_find_names F fs d img l S k dp (op_name op) Hd Hg) as (r & dp1 & fs1 & d1 & img1 & E & Hd1 & Hs1 & Hf1 & Hk1 & Hcase).
  pose proof (keeps_table_only fs img l fs1 img1 Hk1) as Ht1. destruct (same_table F fs fs1 0 l (kv_volume _ _ _ _ Hk1)) as (_ & _ & _ & En1).
  unfold dir_step. rewrite <-En1 in Hcase.
  destruct op as [nm|nm|nm]; cbn [op_name set_step has_room] in *; rewrite (run_bind _ _ _ _ _ E); destruct (decide (nm ∈ S)) as [Hin|Hni];
    destruct Hcase as [-> Hcase].
  - by exists dp1, fs1, d1, img1.
  - by exists dp1, fs1, d1, img1.
  - rewrite decide_False, decide_True by done. by exists dp1, fs1, d1, img1.
  - rewrite decide_True by done.
    destruct (register_names F fs1 d1 img1 l S k dp1 nm Hd1 Hg Hf1 Hcase Hroom) as (dp2 & fs2 & d2 & img2 & E2 & Hd2 & Hs2 & Ht2).
    assert (table_only fs img l fs2 img2) by by eapply table_only_trans. destruct (k =? 0); (exists dp2, fs2, d2, img2;
      split; [done|]; split; [done|]; split; [congruence|done]).
  - rewrite decide_True by done. destruct Hcase as (j & Hj & Hp & Hnj).
    destruct (dir_remove_ok W HW F fs1 d1 img1 _ l j dp1 (id_rep _ _ _ _ _ _ _ _ Hd1) (id_table _ _ _ _ _ _ _ _ Hd1) Hp)
      as (fs2 & d2 & img2 & E2 & Hr2 & Hset).
    rewrite (run_bind _ _ _ _ _ E2). exists dp1, fs2, d2, img2. split; [done|]. split; [by apply (is_dir_removed F fs1 d1 img1 _ l S k nm j)|].
    split; [done|]. eapply table_only_trans; [done|by eapply set_table_only].
  - rewrite decide_False by done. by exists dp1, fs1, d1, img1.
Qed.

(** C12: a directory is a set of names: for any sequence of finding, adding and
    removing names in a directory table -- the root directory of FAT12 and
    FAT16, or any chain of clusters with room left --, every answer is that of
    a finite set with a bound on its size, the table stays well formed (no
    entry after the end mark, no name twice), and nothing but the table
    changes. *)
Theorem directory_is_a_set ops F fs d img l S k dp :
  is_dir F fs d img (sclust (d_obj dp)) l S k → Forall (λ op, good_name (op_name op)) ops →
  l = None ∨ Z.of_nat (length ops) ≤ k →
  ∃ dp' fs' d' img', dir_run ops dp (fs, d) = Ok (((set_run ops (S, k)).1, dp'), (fs', d')) ∧
    is_dir F fs' d' img' (sclust (d_obj dp)) l (set_run ops (S, k)).2.1 (set_run ops (S, k)).2.2 ∧ table_only fs img l fs' img'.
Proof using HW.
  intros Hd Hops. revert F fs d img S k dp Hd.
  induction Hops as [|op ops Hg Hops IH]; intros F fs d img S k dp Hd Hroom.
  { exists dp, fs, d, img. split; [done|]. split; [done|apply table_only_refl]. }
  cbn [length] in Hroom. cbn [dir_run set_run].
  pose proof (dir_step_ok op F fs d img l S k dp Hd Hg ltac:(destruct op; cbn; (done || (destruct Hroom; [by left|right; lia])))) as Hst.
  assert (k - 1 ≤ (set_step op (S, k)).2.2) as Hdec.
  { destruct op; cbn [set_step]; repeat case_decide; try destruct (k =? 0); cbn [fst snd]; lia. }
  destruct (set_step op (S, k)) as [r [S1 k1]]. destruct Hst as (dp1 & fs1 & d1 & img1 & E1 & Hd1 & Hs1 & Ht1). cbn [fst snd] in Hdec.
  destruct (IH F fs1 d1 img1 S1 k1 dp1 Hd1) as (dp2 & fs2 & d2 & img2 & E2 & Hd2 & Ht2); [destruct Hroom; [by left|right; lia]|].
  rewrite (run_bind _ _ _ _ _ E1), (run_bind _ _ _ _ _ E2). destruct (set_run ops (S1, k1)) as [rs [S2 k2]]. cbn [fst snd] in *.
  exists dp2, fs2, d2, img2. split; [done|]. split; [by rewrite <-Hs1|by eapply table_only_trans].
Qed.
End operations.

(** ** The root directory of the small volume *)

Definition root_dp : DIR := mk_dir (mk_obj true 1 0 0 0) 0 0 0 0 (replicate 12 0).

Lemma small_root : is_dir small_table small_fs small_host small_img 0 None ∅ 16.
Proof.
  assert (∀ i, 0 ≤ i < n_ents small_fs None → ent small_fs small_img None i = replicate 32 0) as Ee.
  { intros i Hi. change (n_ents small_fs None) with 16 in Hi.
    assert (Forall (λ i, ent small_fs small_img None i = replicate 32 0) (seqZ 0 16)) as Hall
      by (apply (bool_decide_unpack _); vm_compute; exact I).
    rewrite Forall_forall in Hall. apply Hall, elem_of_seqZ. lia. }
  assert (∀ nm, good_name nm → named nm (replicate 32 0) = false) as Hno.
  { intros nm Hg. apply not_true_is_false. intros Hn. by apply (named_first _ _ Hg) in Hn as (? & _). }
  split; [apply small_rep|by exists 0| | | |vm_compute; reflexivity].
  - split; [|done]. repeat split; (reflexivity || (vm_compute; discriminate)).
  - split; [intros i Hi; by rewrite Ee|intros i j Hi Hj _; by rewrite Ee by lia|].
    intros nm i j Hg Hi Hj. by rewrite Ee, Hno.
  - intros nm Hg. split; [set_solver|]. intros (i & Hi & Hn). by rewrite Ee, Hno in Hn.
Qed.

Lemma directory_is_a_set_witness :
  ∃ dp' fs' d', dir_run 32 [DAdd (str "HELLO   TXT"); DAdd (str "HELLO   TXT"); DFind (str "OTHER      ");
      DRemove (str "HELLO   TXT"); DFind (str "HELLO   TXT")] root_dp (small_fs, small_host) =
    Ok (([FR_OK; FR_EXIST; FR_NO_FILE; FR_OK; FR_NO_FILE], dp'), (fs', d')).
Proof.
  destruct (directory_is_a_set 32 ltac:(lia) [DAdd (str "HELLO   TXT"); DAdd (str "HELLO   TXT"); DFind (str "OTHER      ");
      DRemove (str "HELLO   TXT"); DFind (str "HELLO   TXT")] small_table small_fs small_host small_img None ∅ 16 root_dp small_root)
    as (dp' & fs' & d' & img' & E & _).
  - do 5 (apply Forall_cons; split; [split; [reflexivity|split; [apply (bool_decide_unpack _); vm_compute; exact I|split; done]]|]).
    constructor.
  - left. reflexivity.
  - exists dp', fs', d'. exact E.
Defined.
