(* ===== verification/FfShort.v ===== *)
(** * FatFs: short names

    [create_name] turns a path component into the 11 bytes of an entry, and
    [get_fileinfo] prints them again: what comes back is the component in upper
    case. *)

From S2P Require Import Prelude Bytes Cstdio Ff FfDir FfTable FfDirProps FfNames.

(** ** Components *)

(** A character of a name that is a single byte and not refused. *)
Definition plain (c : Z) : bool :=
  (33 <=? c) && (c <=? 126) && negb (chk_chr bad_chars c) && negb (c =? 46) && negb (c =? 47) && negb (c =? 92).

Definition upper (c : Z) : Z := if IsLower c then c - 32 else c.

(** A name of up to eight characters, and an extension of up to three. *)
Record short_name (base ext : list Z) : Prop := {
  sn_base : (1 ≤ length base ≤ 8)%nat;
  sn_ext : (length ext ≤ 3)%nat;
  sn_plain : Forall (λ c, plain c = true) (base ++ ext);
}.

(** The component, and the bytes of its entry. *)
Definition component (base ext : list Z) : list Z := base ++ match ext with [] => [] | _ => 46 :: ext end.

Definition packed (base ext : list Z) : list Z :=
  (upper <$> base) ++ replicate (8 - length base) 32 ++ (upper <$> ext) ++ replicate (3 - length ext) 32.

(** What may follow a component: nothing, or a separator. *)
Definition rest_ok (rest : list Z) : Prop :=
  match rest with
  | [] => True
  | c :: t => c = 47 ∧ match t with c' :: _ => c' ≠ 47 ∧ c' ≠ 92 | [] => True end
  end.

Lemma plain_range c : plain c = true → 33 ≤ c ≤ 126 ∧ chk_chr bad_chars c = false ∧ c ≠ 46 ∧ c ≠ 47 ∧ c ≠ 92.
Proof.
  unfold plain. rewrite !andb_true_iff, !negb_true_iff, !Z.eqb_neq, !Z.leb_le. tauto.
Qed.

Lemma upper_range c : plain c = true → 33 ≤ upper c ≤ 126 ∧ upper c ≠ 32 ∧ upper c ≠ RDDEM ∧ upper c ≠ DDEM.
Proof.
  intros Hc%plain_range. unfold upper, IsLower, RDDEM, DDEM. destruct (Z.leb_spec 97 c), (Z.leb_spec c 122); cbn [andb]; lia.
Qed.

Lemma char_at_app pre post : char_at (pre ++ post) (Z.of_nat (length pre)) = Ok (default 0 (head post)).
Proof.
  unfold char_at. rewrite (proj2 (Z.ltb_ge _ 0)), (proj2 (Z.ltb_ge _ _)) by (rewrite ?length_app; lia). cbn [orb].
  rewrite Nat2Z.id, lookup_app_r, Nat.sub_diag by lia. by destruct post.
Qed.

(** Bytes one after the other. *)
Lemma patch_cons o x bs (l : list Z) :
  (o + S (length bs) ≤ length l)%nat → patch (S o) bs (patch o [x] l) = patch o (x :: bs) l.
Proof.
  intros Hl. assert (length (patch o [x] l) = length l) as Hp by (apply patch_length; simpl; lia).
  apply list_eq. intros i. rewrite lookup_patch, lookup_patch, lookup_patch by (rewrite ?Hp; simpl; lia). cbn [length].
  destruct (decide (i = o)) as [->|].
  - rewrite decide_False, !decide_True by lia. by rewrite Nat.sub_diag.
  - destruct (decide (S o ≤ i < S o + length bs)%nat).
    + rewrite decide_True by lia. replace (i - o)%nat with (S (i - S o)) by lia. done.
    + rewrite !decide_False by lia. done.
Qed.

(** A word of plain characters is copied in upper case. *)
Lemma name_loop_word w fuel pre post i ni sfn :
  Forall (λ c, plain c = true) w → 0 ≤ i → i + Z.of_nat (length w) ≤ ni → ni ≤ Z.of_nat (length sfn) →
  name_loop (length w + fuel) (pre ++ w ++ post) (Z.of_nat (length pre)) i ni sfn =
  name_loop fuel ((pre ++ w) ++ post) (Z.of_nat (length (pre ++ w))) (i + Z.of_nat (length w)) ni (patch (Z.to_nat i) (upper <$> w) sfn).
Proof.
  revert pre i sfn. induction w as [|c w IH]; intros pre i sfn Hw Hi Hni Hs.
  { cbn [length app fmap list_fmap]. rewrite app_nil_r, Z.add_0_r. unfold patch. cbn [app length]. by rewrite Nat.add_0_r, take_drop. }
  apply Forall_cons in Hw as [Hc Hw]. pose proof (plain_range c Hc) as (Hr & Hbad & H46 & H47 & H92). pose proof (upper_range c Hc) as (Hu & _).
  cbn [length] in *. cbn [plus name_loop]. rewrite char_at_app. cbn [app head default from_option id]. rewrite bind_Ok.
  rewrite (proj2 (Z.leb_gt c 32)), (proj2 (Z.eqb_neq c 47)), (proj2 (Z.eqb_neq c 92)), (proj2 (Z.eqb_neq c 46)), (proj2 (Z.leb_gt ni i)) by lia.
  cbn [orb]. assert (dbc_1st c = false) as ->.
  { unfold dbc_1st. change (tbl 0) with 129. by rewrite (proj2 (Z.leb_gt 129 c)) by lia. }
  rewrite Hbad. fold (upper c). rewrite put_patch, bind_Ok by (unfold is_byte; lia).
  replace (pre ++ c :: w ++ post) with ((pre ++ [c]) ++ w ++ post) by by rewrite <-!app_assoc.
  replace (Z.of_nat (length pre) + 1) with (Z.of_nat (length (pre ++ [c]))) by (rewrite length_app; simpl; lia).
  rewrite IH; [|done|lia|lia|rewrite patch_length by (simpl; lia); done].
  rewrite <-(app_assoc pre [c] w). cbn [app].
  f_equal; [lia|]. replace (Z.to_nat (i + 1)) with (S (Z.to_nat i)) by lia. rewrite fmap_cons. apply patch_cons.
  rewrite length_fmap. lia.
Qed.

(** The dot before the extension, and the end of a component. *)
Lemma name_loop_dot fuel pre post i sfn :
  name_loop (S fuel) (pre ++ 46 :: post) (Z.of_nat (length pre)) i 8 sfn =
  name_loop fuel ((pre ++ [46]) ++ post) (Z.of_nat (length (pre ++ [46]))) 8 11 sfn.
Proof.
  cbn [name_loop]. rewrite char_at_app. cbn [head default from_option id]. rewrite bind_Ok. change (46 <=? 32) with false.
  change ((46 =? 47) || (46 =? 92)) with false. change (46 =? 46) with true. cbn [orb negb]. change (8 =? 11) with false. cbn [orb].
  rewrite <-app_assoc. cbn [app]. by rewrite length_app, Nat2Z.inj_add.
Qed.

Lemma name_loop_rest fuel pre rest i ni sfn :
  rest_ok rest →
  name_loop (S fuel) (pre ++ rest) (Z.of_nat (length pre)) i ni sfn = Ok (inr (default 0 (head rest), Z.of_nat (length pre) + 1, i, sfn)).
Proof.
  intros Hr. cbn [name_loop]. rewrite char_at_app, bind_Ok. destruct rest as [|c t]; [done|]. destruct Hr as [-> Ht].
  cbn [head default from_option id]. change (47 <=? 32) with false. change ((47 =? 47) || (47 =? 92)) with true. cbv iota.
  assert (skip_seps (S (length (pre ++ 47 :: t))) (pre ++ 47 :: t) (Z.of_nat (length pre) + 1) = Ok (Z.of_nat (length pre) + 1)) as ->; [|done].
  cbn [skip_seps]. replace (pre ++ 47 :: t) with ((pre ++ [47]) ++ t) by by rewrite <-app_assoc.
  replace (Z.of_nat (length pre) + 1) with (Z.of_nat (length (pre ++ [47]))) by (rewrite length_app; simpl; lia).
  rewrite char_at_app, bind_Ok. destruct t as [|c' t]; [done|]. destruct Ht as [H1 H2]. cbn [head default from_option id].
  by rewrite (proj2 (Z.eqb_neq _ _) H1), (proj2 (Z.eqb_neq _ _) H2).
Qed.

(** The padded name. *)
Lemma packed_patch base ext x :
  (length base ≤ 8)%nat → (length ext ≤ 3)%nat →
  patch 8 (upper <$> ext) (patch 0 (upper <$> base) (replicate 11 32 ++ [x])) = packed base ext ++ [x].
Proof.
  intros Hb He. destruct base as [|? [|? [|? [|? [|? [|? [|? [|? [|? ?]]]]]]]]]; simpl in Hb; try lia;
    destruct ext as [|? [|? [|? [|? ?]]]]; simpl in He; try lia; reflexivity.
Qed.

Lemma packed_length base ext : (length base ≤ 8)%nat → (length ext ≤ 3)%nat → length (packed base ext) = 11%nat.
Proof. intros Hb He. unfold packed. rewrite !length_app, !length_fmap, !length_replicate. lia. Qed.

(** ** Printing *)

Lemma name_text_app i xs ys : name_text i (xs ++ ys) = name_text i xs ++ name_text (i + Z.of_nat (length xs)) ys.
Proof.
  revert i. induction xs as [|x xs IH]; intros i; cbn [app name_text length]; [by rewrite Z.add_0_r|].
  replace (i + Z.of_nat (S (length xs))) with (i + 1 + Z.of_nat (length xs)) by lia.
  destruct (x =? 32); rewrite IH; [done|]. by rewrite app_assoc.
Qed.

Lemma name_text_spaces i k : name_text i (replicate k 32) = [].
Proof. revert i. induction k as [|k IH]; intros i; [done|]. apply IH. Qed.

Lemma name_text_word i w :
  Forall (λ c, plain c = true) w → i + Z.of_nat (length w) ≤ 8 ∨ 8 < i → name_text i (upper <$> w) = upper <$> w.
Proof.
  revert i. induction w as [|c w IH]; intros i Hw Hi; [done|]. apply Forall_cons in Hw as [Hc Hw]. cbn [length] in Hi.
  pose proof (upper_range c Hc) as (_ & H32 & H5 & _). rewrite fmap_cons. cbn [name_text].
  rewrite (proj2 (Z.eqb_neq _ _) H32), (proj2 (Z.eqb_neq _ _) H5), (proj2 (Z.eqb_neq (i + 1) 9)), IH by (done || lia). done.
Qed.

Lemma packed_text base ext : short_name base ext → name_text 0 (packed base ext) = upper <$> component base ext.
Proof.
  intros [Hb He Hp]. apply Forall_app in Hp as [Hpb Hpe]. unfold packed, component.
  rewrite name_text_app, name_text_word, name_text_app, name_text_spaces, name_text_app, name_text_spaces by (done || lia).
  rewrite length_fmap, length_replicate, app_nil_r, fmap_app. cbn [app]. f_equal.
  replace (0 + Z.of_nat (length base) + Z.of_nat (8 - length base)) with 8 by lia.
  destruct ext as [|c ext]; [done|]. apply Forall_cons in Hpe as [Hc Hpe]. pose proof (upper_range c Hc) as (_ & H32 & H5 & _).
  rewrite !fmap_cons. cbn [name_text]. rewrite (proj2 (Z.eqb_neq _ _) H32), (proj2 (Z.eqb_neq _ _) H5).
  change (8 + 1 =? 9) with true. cbn [app]. rewrite name_text_word by (done || lia). done.
Qed.

Lemma packed_good base ext : short_name base ext → good_name (packed base ext).
Proof.
  intros [Hb He Hp]. split; [apply packed_length; lia|]. assert (Forall is_byte (upper <$> (base ++ ext))) as Hu.
  { apply Forall_fmap, (Forall_impl _ _ _ Hp). intros c Hc%upper_range. unfold compose, is_byte. lia. }
  rewrite fmap_app, Forall_app in Hu. destruct Hu as [Hub Hue]. split.
  { unfold packed. rewrite !Forall_app. split; [done|]. split; [by apply Forall_replicate|]. split; [done|by apply Forall_replicate]. }
  destruct base as [|c base]; [simpl in Hb; lia|]. apply Forall_cons in Hp as [Hc _]. pose proof (upper_range c Hc). unfold packed. simpl.
  split; intros [= E]; unfold DDEM in *; lia.
Qed.

(** ** The component is packed *)

Lemma name_loop_component fuel base ext rest x :
  short_name base ext → rest_ok rest → (length (component base ext) < fuel)%nat →
  ∃ i, i ≠ 0 ∧ name_loop fuel (component base ext ++ rest) 0 0 8 (replicate 11 32 ++ [x]) =
    Ok (inr (default 0 (head rest), Z.of_nat (length (component base ext)) + 1, i, packed base ext ++ [x])).
Proof.
  intros [Hb He Hp] Hr Hf. apply Forall_app in Hp as [Hpb Hpe].
  assert (length (replicate 11 32 ++ [x]) = 12%nat) as H12 by done. revert Hf. unfold component. destruct ext as [|c ext]; intros Hf.
  - rewrite app_nil_r in *. pose proof (name_loop_word base (S (fuel - length base - 1)) [] rest 0 8 _ Hpb ltac:(lia) ltac:(lia) ltac:(rewrite H12; lia)) as E.
    replace (length base + S (fuel - length base - 1))%nat with fuel in E by lia. cbn [app length] in E. change (Z.of_nat 0) with 0 in E. rewrite E, name_loop_rest by done.
    eexists. split; [|do 3 f_equal]; [lia|]. rewrite <-packed_patch by (simpl; lia). unfold patch at 2. cbn [fmap list_fmap app length].
    by rewrite Nat.add_0_r, take_drop.
  - rewrite length_app in Hf. cbn [length] in *. rewrite <-app_assoc. cbn [app].
    pose proof (name_loop_word base (S (fuel - length base - 1)) [] (46 :: c :: ext ++ rest) 0 8 _ Hpb ltac:(lia) ltac:(lia) ltac:(rewrite H12; lia)) as E.
    replace (length base + S (fuel - length base - 1))%nat with fuel in E by lia. cbn [app length] in E. change (Z.of_nat 0) with 0 in E. rewrite E, name_loop_dot.
    set (sfn := patch _ _ _). assert (length sfn = 12%nat) as Hs by (unfold sfn; rewrite patch_length by (rewrite length_fmap, H12; lia); done).
    pose proof (name_loop_word (c :: ext) (S (fuel - length base - length ext - 3)) (base ++ [46]) rest 8 11 sfn Hpe ltac:(lia) ltac:(cbn [length]; lia) ltac:(lia)) as E2.
    cbn [length] in E2. replace (S (length ext) + S (fuel - length base - length ext - 3))%nat with (fuel - length base - 1)%nat in E2 by lia.
    cbn [app] in E2. rewrite E2, name_loop_rest by done. exists (8 + Z.of_nat (S (length ext))). split; [lia|].
    assert (Z.to_nat 8 = 8%nat) as -> by done. unfold sfn. rewrite packed_patch by (cbn [length]; lia). do 5 f_equal.
    rewrite !length_app. cbn [length]. lia.
Qed.

Lemma create_name_ok base ext rest dp :
  short_name base ext → rest_ok rest → length (fn dp) = 12%nat →
  create_name dp (component base ext ++ rest) =
    Ok (FR_OK, set_fn (packed base ext ++ [match rest with [] => NS_LAST | _ => 0 end]) dp, tail rest).
Proof.
  intros Hsn Hr Hfn.
  pose proof (packed_good base ext Hsn) as (Hl & _ & H0 & HD). unfold create_name.
  assert (∃ x, mem_set 0 32 11 (fn dp) = Ok (replicate 11 32 ++ [x])) as (x & ->).
  { destruct (fn dp) as [|? [|? [|? [|? [|? [|? [|? [|? [|? [|? [|? [|x [|? ?]]]]]]]]]]]]]; simpl in Hfn; try lia. by exists x. }
  rewrite bind_Ok. destruct (name_loop_component (S (length (component base ext ++ rest))) base ext rest x Hsn Hr) as (i & Hi & ->).
  { rewrite length_app. lia. }
  rewrite bind_Ok, (proj2 (Z.eqb_neq _ _) Hi). destruct (packed base ext) as [|c0 pk] eqn:Ep; [done|]. cbn [app].
  assert (c0 ≠ DDEM) as Hc0 by (cbn in HD; congruence). change (get (c0 :: pk ++ [x]) 0) with (Ok c0). rewrite bind_Ok, (proj2 (Z.eqb_neq _ _) Hc0), bind_Ok.
  assert (drop (Z.to_nat (Z.of_nat (length (component base ext)) + 1)) (component base ext ++ rest) = tail rest) as ->.
  { rewrite drop_app_ge by lia. replace (Z.to_nat _ - _)%nat with 1%nat by lia. by destruct rest. }
  cbn [length] in Hl. rewrite put_ok by (unfold NSFLAG; cbn [length]; rewrite length_app; cbn [length]; lia). rewrite bind_Ok. do 3 f_equal. f_equal.
  assert (u8 (if default 0 (head rest) <=? 32 then NS_LAST else 0) = match rest with [] => NS_LAST | _ => 0 end) as ->.
  { destruct rest; [done|]. destruct Hr as [-> _]. done. }
  change (Z.to_nat NSFLAG) with 11%nat. change (c0 :: pk ++ [x]) with ((c0 :: pk) ++ [x]). rewrite insert_app_r_alt by (cbn [length]; lia).
  replace (11 - length (c0 :: pk))%nat with 0%nat by (cbn [length]; lia). done.
Qed.

(** A path component of up to eight plain characters, with an extension of
    up to three, becomes the 11 bytes of a directory entry, flagged as the last
    one exactly when the path ends after it; the bytes are a name a table can
    hold, and print as the component in upper case. *)
Theorem short_name_round_trip base ext rest dp :
  short_name base ext → rest_ok rest → length (fn dp) = 12%nat →
  create_name dp (component base ext ++ rest) =
    Ok (FR_OK, set_fn (packed base ext ++ [match rest with [] => NS_LAST | _ => 0 end]) dp, tail rest) ∧
  name_text 0 (packed base ext) = upper <$> component base ext ∧ good_name (packed base ext).
Proof. intros Hsn Hr Hfn. split; [by apply create_name_ok|]. split; [by apply packed_text|by apply packed_good]. Qed.

Lemma short_name_round_trip_witness :
  ∃ dp', create_name root_dp (str "Readme.txt/a") = Ok (FR_OK, dp', str "a") ∧ fn dp' = str "README  TXT" ++ [0] ∧
    name_text 0 (str "README  TXT") = str "README.TXT".
Proof.
  destruct (short_name_round_trip (str "Readme") (str "txt") (str "/a") root_dp) as (E & E2 & _).
  - split; [vm_compute; lia|vm_compute; lia|apply (bool_decide_unpack _); vm_compute; exact I].
  - repeat split; vm_compute; discriminate.
  - reflexivity.
  - eexists. split; [exact E|]. split; [reflexivity|exact E2].
Defined.
