(* ===== verification/FfPath.v ===== *)
(** * FatFs: following paths

    A path leads from the root directory through directories to an entry; the
    walk of [follow_path] finds exactly that entry. *)

From S2P Require Import Prelude Bytes Cstdio Ff FfWindow FfFat FfChain FfDir FfData FfPos FfTable FfDirProps FfMountProps FfNames FfShort.

(** ** Fields of an entry *)

Definition ent_clust (fs : FATFS) (e : list Z) : Z :=
  le_value (bytes_at 26 2 e) + if fs_type fs =? FS_FAT32 then 65536 * le_value (bytes_at 20 2 e) else 0.
Definition ent_size (e : list Z) : Z := le_value (bytes_at 28 4 e).
Definition ent_attr (e : list Z) : Z := Z.land (ent_byte e DIR_Attr) AM_MASK.

(** ** Paths *)

(** A path: components with separators between them. *)
Fixpoint path_text (cs : list (list Z * list Z)) : list Z :=
  match cs with
  | [] => []
  | [(b, e)] => component b e
  | (b, e) :: cs => component b e ++ 47 :: path_text cs
  end.

(** The path of a call names these components of the drive: after the drive, if
    there is one, come separators or none, and then the components. *)
Definition path_names (path : option (list Z)) (cs : list (list Z * list Z)) : Prop :=
  ∃ p, get_ldnumber path = (0, Some p) ∧ strip_seps p = path_text cs.

(** From the directory [c], the components [cs] lead to entry [j] of the table
    [l]. *)
Inductive path_to (F : Z → Z) (fs : FATFS) (img : list Z) : Z → list (list Z * list Z) → option (list Z) → Z → Prop :=
  | path_last c l b e j :
      table F fs c l → find_in (Z.to_nat (n_ents fs l)) (ent fs img l) (packed b e) 0 = Some j →
      path_to F fs img c [(b, e)] l j
  | path_sub c l b e i cs l' j :
      table F fs c l → find_in (Z.to_nat (n_ents fs l)) (ent fs img l) (packed b e) 0 = Some i →
      truth (Z.land (ent_attr (ent fs img l i)) AM_DIR) = true →
      path_to F fs img (ent_clust fs (ent fs img l i)) cs l' j → path_to F fs img c ((b, e) :: cs) l' j.

Lemma find_in_bound m e nm i j : find_in m e nm i = Some j → i ≤ j < i + Z.of_nat m.
Proof.
  revert i. induction m as [|m IH]; intros i; [done|]. cbn [find_in]. case_if; [done|].
  case_if; intros Hj; [injection Hj; lia|apply IH in Hj; lia].
Qed.

Lemma n_ents_pos F fs n c l : geometry fs n → table F fs c l → 0 < n_ents fs l.
Proof. intros G T. pose proof (tbl_len_pos F fs n c l G T). unfold n_ents. lia. Qed.

(** Looking at the volume does not change where a path leads. *)
Lemma path_keeps F fs img fs' img' c cs l j :
  win_ok fs img → keeps_view fs img fs' img' → path_to F fs img c cs l j → path_to F fs' img' c cs l j.
Proof.
  intros Hw Hk. pose proof (kv_volume _ _ _ _ Hk) as V. pose proof (wo_geo _ _ Hw) as G.
  assert (∀ c l nm, table F fs c l → table F fs' c l ∧
    find_in (Z.to_nat (n_ents fs' l)) (ent fs' img' l) nm 0 = find_in (Z.to_nat (n_ents fs l)) (ent fs img l) nm 0 ∧
    ∀ i, 0 ≤ i < n_ents fs l → ent fs' img' l i = ent fs img l i) as Hs.
  { intros c0 l0 nm T. destruct (same_table F fs fs' c0 l0 V) as (Tt & _ & _ & En). pose proof (n_ents_pos F fs _ _ _ G T).
    assert (∀ i, 0 ≤ i < n_ents fs l0 → ent fs' img' l0 i = ent fs img l0 i) as Ee by (intros i Hi; by apply (ent_keeps F fs img fs' img' (n_sect img) c0)).
    split; [by apply Tt|]. split; [|done]. rewrite En. apply find_in_ext. intros i Hi. apply Ee. lia. }
  induction 1 as [c l b e j T Hf|c l b e i cs l' j T Hf Ha Hp IH]; destruct (Hs c l (packed b e) T) as (T' & Ef & Ee).
  - apply path_last; [done|]. by rewrite Ef.
  - pose proof (find_in_bound _ _ _ _ _ Hf) as Hb. pose proof (n_ents_pos F fs _ _ _ G T). rewrite <-(Ee i) in Ha, IH by lia.
    apply (path_sub _ _ _ c l b e i); [done|by rewrite Ef|done|]. unfold ent_clust in *.
    assert (fs_type fs' = fs_type fs) as -> by apply V. done.
Qed.

Section follow.
Context {D : Type} `{Disk D} (W : Z).
Hypothesis HW : 32 ≤ W.

Implicit Types (fs : FATFS) (d : D) (img : list Z) (F : Z → Z).

(** Fields of the entry in the window. *)
Lemma ent_field fs img l i dp k m (w : list Z) :
  dir_pos fs l i dp → w = view fs img (d_sect dp) → 0 ≤ k → (Z.to_nat k + m ≤ 32)%nat →
  bytes_at (Z.to_nat (d_dir dp + k)) m w = bytes_at (Z.to_nat k) m (ent fs img l i).
Proof.
  intros [Hi _ Hs Hd _] -> Hk Hm. pose proof (Z.mod_pos_bound i 16 ltac:(lia)). unfold ent. rewrite bytes_at_bytes_at, Hs, Hd by done. f_equal. lia.
Qed.

Lemma ld_clust_ok fs1 fs img l i dp :
  dir_pos fs l i dp → win fs1 = view fs img (d_sect dp) → length (win fs1) = 512%nat → Forall is_byte (win fs1) → fs_type fs1 = fs_type fs →
  ld_clust W fs1 (d_dir dp) = Ok (ent_clust fs (ent fs img l i)) ∧ ld_dword W (win fs1) (d_dir dp + DIR_FileSize) = Ok (ent_size (ent fs img l i)).
Proof using HW.
  intros Hp Hw Hl Hb Et. pose proof (dp_dir _ _ _ _ Hp) as Hd. pose proof (Z.mod_pos_bound i 16 ltac:(lia)). unfold ld_clust, ent_clust, ent_size.
  unfold DIR_FstClusLO, DIR_FstClusHI, DIR_FileSize. rewrite (ld_word_ok _ (d_dir dp + 26)), bind_Ok, (ld_word_ok _ (d_dir dp + 20)) by (done || lia). rewrite (ent_field fs img l i dp 26 2) by (done || lia).
  rewrite (ent_field fs img l i dp 20 2), Et by (done || lia). change (Z.to_nat 26) with 26%nat. change (Z.to_nat 20) with 20%nat.
  rewrite ld_dword_ok by (done || lia). rewrite (ent_field fs img l i dp 28 4) by (done || lia). split; [|done].
  case_if; [rewrite bind_Ok|by rewrite Z.add_0_r]. set (lo := le_value (bytes_at 26 2 _)). set (hi := le_value (bytes_at 20 2 _)).
  assert (Forall is_byte (ent fs img l i)) as Hbe by (unfold ent; rewrite <-(dp_sect _ _ _ _ Hp), <-Hw; by apply bytes_at_bytes).
  assert (∀ k, 0 ≤ le_value (bytes_at k 2 (ent fs img l i)) < 65536) as Hle.
  { intros k. pose proof (le_value_bound (bytes_at k 2 (ent fs img l i)) (bytes_at_bytes _ _ _ Hbe)) as Hv.
    assert (length (bytes_at k 2 (ent fs img l i)) ≤ 2)%nat by (unfold bytes_at; rewrite length_take; lia).
    pose proof (Z.pow_le_mono_r 256 (Z.of_nat (length (bytes_at k 2 (ent fs img l i)))) 2 ltac:(lia) ltac:(lia)). lia. }
  pose proof (Hle 26%nat) as Hlo. pose proof (Hle 20%nat) as Hhi. fold lo in Hlo. fold hi in Hhi.
  rewrite (dw_small W HW) by (rewrite Z.shiftl_mul_pow2 by lia; lia). rewrite Z.lor_comm, lor_shiftl_add by lia. f_equal. lia.
Qed.

(** The flag after the name does not matter for the search. *)
Lemma named_flag nm x e : length nm = 11%nat → named (nm ++ [x]) e = named nm e.
Proof.
  intros Hl. unfold named. f_equal. apply bool_decide_ext. by rewrite take_app_length', (take_ge nm) by lia.
Qed.

(** The entry is found, and in the window. *)
Record reached fs img (l : option (list Z)) (j : Z) (dp : DIR) fs' : Prop := {
  re_pos : dir_pos fs l j dp;
  re_attr : attr (d_obj dp) = ent_attr (ent fs img l j);
  re_win : winsect fs' = d_sect dp ∧ win fs' = view fs img (d_sect dp);
  re_fn : length (fn dp) = 12%nat ∧ get (fn dp) NSFLAG = Ok NS_LAST;
}.

(** One component is looked up. *)
Lemma find_component F fs d img l i dp b e rest :
  fat_rep F fs d img → pow2_csize fs → table F fs (sclust (d_obj dp)) l → length (fn dp) = 12%nat → short_name b e → rest_ok rest →
  find_in (Z.to_nat (n_ents fs l)) (ent fs img l) (packed b e) 0 = Some i →
  ∃ dp1 dp' fs' d' img', create_name dp (component b e ++ rest) = Ok (FR_OK, dp1, tail rest) ∧
    dir_find W dp1 (fs, d) = Ok ((FR_OK, dp'), (fs', d')) ∧ fat_rep F fs' d' img' ∧ keeps_view fs img fs' img' ∧ dir_pos fs l i dp' ∧
    attr (d_obj dp') = ent_attr (ent fs img l i) ∧ winsect fs' = d_sect dp' ∧ win fs' = view fs img (d_sect dp') ∧
    length (fn dp') = 12%nat ∧ get (fn dp') NSFLAG = Ok (match rest with [] => NS_LAST | _ => 0 end) ∧ obj_fs (d_obj dp') = obj_fs (d_obj dp).
Proof using HW.
  intros Hr P T Hfn Hsn Hrest Hf. pose proof (create_name_ok b e rest dp Hsn Hrest Hfn) as E. destruct (packed_good b e Hsn) as (Hl & _).
  set (x := match rest with [] => NS_LAST | _ => 0 end) in *. exists (set_fn (packed b e ++ [x]) dp).
  destruct (dir_find_ok W HW F fs d img l (set_fn (packed b e ++ [x]) dp) Hr P T) as (r & dp' & fs' & d' & img' & E2 & Hr' & Hk & (Ef & _ & _ & Eo) & Hfd).
  { cbn. rewrite length_app, Hl. done. }
  cbn [fn set_fn] in *. rewrite (find_in_name _ _ _ (packed b e)), Hf in Hfd by (intros; by apply named_flag).
  destruct Hfd as (-> & Hp & Ha & Hws). exists dp', fs', d', img'. split; [done|]. split; [done|]. split; [done|]. split; [done|]. split; [done|].
  split; [done|]. split; [done|]. split; [|split; [|split; [|done]]].
  - pose proof (wo_geo _ _ (fr_win _ _ _ _ Hr)) as G. pose proof (dp_range _ _ _ _ Hp) as Hi.
    assert (0 ≤ i / 16 < tbl_len fs l) as Hki by (unfold n_ents in Hi; split; [apply Z.div_pos; lia|apply Z.div_lt_upper_bound; lia]).
    pose proof (tbl_sect_range F fs _ _ l G T (i / 16) Hki) as (Hrg & _ & H2). rewrite <-(dp_sect _ _ _ _ Hp) in *.
    rewrite <-(kv_view _ _ _ _ Hk) by (done || lia). unfold view. by rewrite Hws, Z.eqb_refl.
  - rewrite Ef, length_app, Hl. done.
  - rewrite Ef. unfold get. change (NSFLAG <? 0) with false. cbv iota. rewrite lookup_app_r by (rewrite Hl; done).
    rewrite Hl. done.
Qed.

Lemma path_text_cons b e c cs : path_text ((b, e) :: c :: cs) = component b e ++ 47 :: path_text (c :: cs).
Proof. by destruct c. Qed.

Lemma path_first cs : Forall (λ c, short_name c.1 c.2) cs → cs ≠ [] → ∃ x t, path_text cs = x :: t ∧ plain x = true.
Proof.
  intros Hcs Hne. destruct cs as [|[b e] cs]; [done|]. apply Forall_cons in Hcs as [[Hb _ Hp] _]. cbn [fst snd] in *.
  destruct b as [|x b]; [simpl in Hb; lia|]. apply Forall_cons in Hp as [Hx _]. destruct cs as [|c cs].
  - exists x. eexists. split; [reflexivity|done].
  - rewrite path_text_cons. exists x. eexists. split; [reflexivity|done].
Qed.

Lemma path_table F fs img c cs l j : path_to F fs img c cs l j → ∃ c', table F fs c' l.
Proof. induction 1; eauto. Qed.

Lemma reached_keeps F fs img fs1 img1 c l j dp fs' :
  win_ok fs img → keeps_view fs img fs1 img1 → table F fs c l → reached fs1 img1 l j dp fs' → reached fs img l j dp fs'.
Proof.
  intros Hw Hk T [Q1 Q2 [Q3 Q4] Q5]. pose proof (kv_volume _ _ _ _ Hk) as V. pose proof (wo_geo _ _ Hw) as G.
  assert (dir_pos fs l j dp) as Hp by (apply (dir_pos_same fs1); [unfold same_volume in *; intuition congruence|done]).
  pose proof (dp_range _ _ _ _ Hp) as Hi. split; [done| |split; [done|]|done].
  - rewrite Q2. f_equal. by apply (ent_keeps F fs img fs1 img1 (n_sect img) c).
  - assert (0 ≤ j / 16 < tbl_len fs l) as Hki by (unfold n_ents in Hi; split; [apply Z.div_pos; lia|apply Z.div_lt_upper_bound; lia]).
    pose proof (tbl_sect_range F fs _ _ l G T (j / 16) Hki) as (Hrg & _ & H2). rewrite <-(dp_sect _ _ _ _ Hp) in *.
    rewrite Q4. apply (kv_view _ _ _ _ Hk); [lia|done].
Qed.

(** A directory on the way is entered. *)
Lemma follow_sub F fs d img l i dp b e c cs fuel :
  Forall (λ c, short_name c.1 c.2) (c :: cs) → short_name b e → fat_rep F fs d img → pow2_csize fs → table F fs (sclust (d_obj dp)) l →
  find_in (Z.to_nat (n_ents fs l)) (ent fs img l) (packed b e) 0 = Some i → truth (Z.land (ent_attr (ent fs img l i)) AM_DIR) = true →
  length (fn dp) = 12%nat →
  ∃ dp' fs' d' img', follow_loop W (S fuel) dp (path_text ((b, e) :: c :: cs)) (fs, d) = follow_loop W fuel dp' (path_text (c :: cs)) (fs', d') ∧
    fat_rep F fs' d' img' ∧ keeps_view fs img fs' img' ∧ sclust (d_obj dp') = ent_clust fs (ent fs img l i) ∧ length (fn dp') = 12%nat ∧
    obj_fs (d_obj dp') = obj_fs (d_obj dp).
Proof using HW.
  intros Hcs Hsn Hr P T Hf Ha Hfn. rewrite path_text_cons. cbn [follow_loop].
  destruct (path_first (c :: cs) Hcs ltac:(done)) as (x & t & Ex & Hx). pose proof (plain_range x Hx) as (_ & _ & _ & H47 & H92).
  destruct (find_component F fs d img l i dp b e (47 :: path_text (c :: cs)) Hr P T Hfn Hsn ltac:(by rewrite Ex) Hf)
    as (dp1 & dp2 & fs2 & d2 & img2 & E1 & E2 & Hr2 & Hk2 & Hpos & Hat & Hws & Hwin & Hlf & Hns & Eo).
  rewrite E1. ff_run. rewrite decide_False by naive_solver. rewrite (run_bind _ _ _ _ _ E2). cbv beta iota.
  rewrite Hns. ff_run. rewrite decide_False by naive_solver. change (truth (Z.land 0 NS_LAST)) with false. cbv iota.
  rewrite Hat, Ha. cbn [negb]. ff_run. pose proof (kv_volume _ _ _ _ Hk2) as V. pose proof (fr_win _ _ _ _ Hr2) as Hw2.
  assert (dptr dp2 `mod` SS = d_dir dp2) as ->.
  { rewrite (dp_dptr _ _ _ _ Hpos), (dp_dir _ _ _ _ Hpos). apply ent_offset. apply (dp_range _ _ _ _ Hpos). }
  destruct (ld_clust_ok fs2 fs img l i dp2 Hpos Hwin (wo_len _ _ Hw2) (wo_bytes _ _ Hw2) ltac:(apply V)) as [-> _]. ff_run.
  eexists _, fs2, d2, img2. split; [reflexivity|]. done.
Qed.

Lemma follow_loop_ok cs fuel F fs d img l j dp :
  Forall (λ c, short_name c.1 c.2) cs → fat_rep F fs d img → pow2_csize fs → path_to F fs img (sclust (d_obj dp)) cs l j →
  length (fn dp) = 12%nat → (length cs ≤ fuel)%nat →
  ∃ dp' fs' d' img', follow_loop W fuel dp (path_text cs) (fs, d) = Ok ((FR_OK, dp'), (fs', d')) ∧ fat_rep F fs' d' img' ∧
    keeps_view fs img fs' img' ∧ reached fs img l j dp' fs' ∧ obj_fs (d_obj dp') = obj_fs (d_obj dp).
Proof using HW.
  intros Hcs. revert fuel fs d img dp. induction Hcs as [|[b e] cs Hsn Hcs IH]; intros fuel fs d img dp Hr P Hp Hfn Hfuel; [inversion Hp|].
  cbn [length fst snd] in *. destruct fuel as [|fuel]; [lia|].
  inversion Hp as [c0 l0 b0 e0 j0 T Hf|c0 l0 b0 e0 i cs0 l' j0 T Hf Ha Hp']; subst.
  - destruct (find_component F fs d img l j dp b e [] Hr P T Hfn Hsn I Hf)
      as (dp1 & dp2 & fs2 & d2 & img2 & E1 & E2 & Hr2 & Hk2 & Hpos & Hat & Hws & Hwin & Hlf & Hns & Eo).
    rewrite app_nil_r in E1. cbn [follow_loop path_text]. rewrite E1. ff_run. rewrite decide_False by naive_solver. rewrite (run_bind _ _ _ _ _ E2). cbv beta iota.
    rewrite Hns. ff_run. rewrite decide_False by naive_solver. change (truth (Z.land NS_LAST NS_LAST)) with true.
    exists dp2, fs2, d2, img2. done.
  - destruct cs as [|c cs]; [inversion Hp'|].
    destruct (follow_sub F fs d img l0 i dp b e c cs fuel Hcs Hsn Hr P T Hf Ha Hfn) as (dp3 & fs2 & d2 & img2 & -> & Hr2 & Hk2 & Esc & Hfn3 & Eo3).
    pose proof (kv_volume _ _ _ _ Hk2) as V.
    destruct (IH fuel fs2 d2 img2 dp3) as (dp4 & fs4 & d4 & img4 & E4 & Hr4 & Hk4 & Hre & Eo4);
      [done|unfold pow2_csize; by assert (csize fs2 = csize fs) as -> by apply V| |done|cbn [length] in *; lia|].
    { rewrite Esc. by apply (path_keeps F fs img fs2 img2); [apply Hr| |]. }
    exists dp4, fs4, d4, img4. split; [done|]. split; [done|]. split; [by eapply keeps_view_trans|]. split; [|congruence].
    destruct (path_table _ _ _ _ _ _ _ Hp') as (c' & T'). by apply (reached_keeps F fs img fs2 img2 c'); [apply Hr| | |].
Qed.

(** The path is followed from the root directory, leading separators skipped,
    and there is fuel for all components. *)
Lemma follow_path_start cs p dp (s : FATFS * D) :
  strip_seps p = path_text cs → Forall (λ c, short_name c.1 c.2) cs → cs ≠ [] → ∃ fuel, (length cs ≤ fuel)%nat ∧
    follow_path W dp p s = follow_loop W fuel (set_obj (set_sclust 0 (d_obj dp)) dp) (path_text cs) s.
Proof.
  intros Hp Hcs Hne. unfold follow_path. rewrite Hp. destruct (path_first cs Hcs Hne) as (x & t & Ex & Hx). pose proof (plain_range x Hx) as (Hrx & _).
  assert ((default 0 (head (path_text cs)) <? 32) = false) as ->.
  { rewrite Ex. cbn [head default from_option id]. apply Z.ltb_ge. lia. }
  eexists. split; [|reflexivity].
  assert (∀ cs, Forall (λ c, short_name c.1 c.2) cs → (length cs ≤ length (path_text cs))%nat) as Hlen; [|specialize (Hlen cs Hcs); lia].
  clear. intros cs. induction 1 as [|[b e] cs [Hb _ _] Hcs IH]; [done|]. cbn [fst snd length] in *. destruct cs as [|c cs].
  - cbn [path_text]. unfold component. rewrite length_app. simpl. lia.
  - rewrite path_text_cons. unfold component. rewrite !length_app. cbn [length] in *. lia.
Qed.

Lemma follow_path_ok cs p F fs d img l j dp :
  strip_seps p = path_text cs → Forall (λ c, short_name c.1 c.2) cs → fat_rep F fs d img → pow2_csize fs → path_to F fs img 0 cs l j → length (fn dp) = 12%nat →
  ∃ dp' fs' d' img', follow_path W dp p (fs, d) = Ok ((FR_OK, dp'), (fs', d')) ∧ fat_rep F fs' d' img' ∧
    keeps_view fs img fs' img' ∧ reached fs img l j dp' fs' ∧ obj_fs (d_obj dp') = obj_fs (d_obj dp).
Proof using HW.
  intros Hs Hcs Hr P Hp Hfn. assert (cs ≠ []) as Hne by (destruct cs; [inversion Hp|done]).
  destruct (follow_path_start cs p dp (fs, d) Hs Hcs Hne) as (fuel & Hfuel & ->).
  by apply (follow_loop_ok cs fuel F fs d img l j (set_obj (set_sclust 0 (d_obj dp)) dp)).
Qed.
End follow.
