(* ===== verification/FfOpen.v ===== *)
(** * FatFs: opening files

    [f_open] follows the path to the entry of the file and gives a file object
    that stands for the bytes of the file. *)

From S2P Require Import Prelude Bytes Cstdio Diskio FatDiskio Hostdisk HostdiskProps Ff FfWindow FfFat FfChain FfStay FfHost FfProps.
From S2P Require Import FfDir FfMount FfFile FfApi FfData FfPos FfRead FfWrite FfGrow FfSeek FfFileProps FfMountProps FfFree.
From S2P Require Import FfTable FfDirProps FfNames FfShort FfPath.

(** Entry [j] of the table [t] is that of a file with the clusters [l], which
    can be written. *)
Record file_entry (F : Z → Z) (fs : FATFS) (img : list Z) (t : option (list Z)) (j : Z) (l : list Z) : Prop := {
  fe_attr : truth (Z.land (ent_attr (ent fs img t j)) AM_DIR) = false ∧ truth (Z.land (ent_attr (ent fs img t j)) AM_RDO) = false;
  fe_chain : l = [] ∧ ent_clust fs (ent fs img t j) = 0 ∨ chain (n_fatent fs) F (ent_clust fs (ent fs img t j)) l;
  fe_size : ent_size (ent fs img t j) ≤ Z.of_nat (length l) * bcs fs;
  fe_apart : ∀ k, 0 ≤ k < tbl_len fs t → ¬ data_sect fs l (tbl_sect fs t k);
}.

(** The same for reading: the entry of a file, which may be protected. *)
Record read_entry (F : Z → Z) (fs : FATFS) (img : list Z) (t : option (list Z)) (j : Z) (l : list Z) : Prop := {
  re_dir : truth (Z.land (ent_attr (ent fs img t j)) AM_DIR) = false;
  re_chain : l = [] ∧ ent_clust fs (ent fs img t j) = 0 ∨ chain (n_fatent fs) F (ent_clust fs (ent fs img t j)) l;
  re_size : ent_size (ent fs img t j) ≤ Z.of_nat (length l) * bcs fs;
  re_apart : ∀ k, 0 ≤ k < tbl_len fs t → ¬ data_sect fs l (tbl_sect fs t k);
}.

Lemma file_entry_read F fs img t j l : file_entry F fs img t j l → read_entry F fs img t j l.
Proof. intros [[? _] ? ? ?]. by split. Qed.

(** The bytes of the file. *)
Definition entry_data (fs : FATFS) (img : list Z) (t : option (list Z)) (j : Z) (l : list Z) : list Z :=
  take (Z.to_nat (ent_size (ent fs img t j))) (content fs img l).

Section opening.
Context {D : Type} `{Disk D} (W : Z).
Hypothesis HW : 32 ≤ W.

Implicit Types (fs : FATFS) (d : D) (img : list Z) (F : Z → Z).

Lemma ent_size_bound fs img t j : win_ok fs img → Forall is_byte img → 0 ≤ ent_size (ent fs img t j) < 2 ^ 32.
Proof.
  intros Hw Hb. assert (Forall is_byte (ent fs img t j)) as He by (apply bytes_at_bytes; by apply view_bytes).
  unfold ent_size. pose proof (le_value_bound (bytes_at 28 4 (ent fs img t j)) (bytes_at_bytes _ _ _ He)) as Hv.
  assert (length (bytes_at 28 4 (ent fs img t j)) ≤ 4)%nat by (unfold bytes_at; rewrite length_take; lia).
  pose proof (Z.pow_le_mono_r 256 (Z.of_nat (length (bytes_at 28 4 (ent fs img t j)))) 4 ltac:(lia) ltac:(lia)). lia.
Qed.

(** The window moves from outside the file to outside the file. *)
Lemma content_keeps fs img fs' img' l :
  win_ok fs img → Forall (valid (n_fatent fs)) l → keeps_view fs img fs' img' → apart fs l → apart fs' l →
  content fs' img' l = content fs img l.
Proof.
  intros Hw Hl Hk Ha Ha'. pose proof (wo_geo _ _ Hw) as G. pose proof (kv_volume _ _ _ _ Hk) as V.
  destruct (same_volume_data fs fs' V) as (_ & Hd & -> & _). apply (content_ext fs (n_sect img)); [done|done|].
  intros s Hs. pose proof (data_sect_range fs _ l s G Hl Hs) as [Hr Hs0]. pose proof (not_in_fat fs _ s G (proj1 Hr)) as [_ Hn2].
  pose proof (kv_view _ _ _ _ Hk s ltac:(lia) Hn2) as E. unfold view, apart in *. rewrite Hd in Ha'.
  rewrite !(proj2 (Z.eqb_neq _ _)) in E; [done| |]; by intros <-.
Qed.

(** An object for the bytes [data], at a position. *)
Record stands_for F fs d img (l : list Z) (fp : FIL) (data : list Z) (pos : Z) : Prop := {
  sf_rep : fat_rep F fs d img;
  sf_file : file_ok F fs img l fp;
  sf_open : opened fs fp;
  sf_data : data = take (Z.to_nat (objsize (f_obj fp))) (file_bytes fs img l fp);
  sf_pos : pos = f_fptr fp;
}.

(** Reading from the beginning; reading and writing. *)
Definition start_mode (mode : Z) : Prop :=
  truth (Z.land mode FA_DIRTY) = false ∧ truth (Z.land mode FA_SEEKEND) = false.
Definition rw_mode (mode : Z) : Prop :=
  truth (Z.land mode FA_READ) = true ∧ truth (Z.land mode FA_WRITE) = true ∧ truth (Z.land mode FA_DIRTY) = false ∧ truth (Z.land mode FA_SEEKEND) = false.

Lemma stands_for_file F fs d img l fp data pos :
  stands_for F fs d img l fp data pos → alloc_ok F fs → rw_mode (f_flag fp) → is_file F fs d img l fp data pos.
Proof. intros [? ? ? ? ?] ? (? & ? & _). by split. Qed.

(** The object made from the entry in the window. *)
Lemma open_stands F fs d img fs1 d1 img1 t c j l dj fp mode :
  win_ok fs img → table F fs c t → keeps_view fs img fs1 img1 → fat_rep F fs1 d1 img1 → pow2_csize fs →
  dir_pos fs t j dj → winsect fs1 = d_sect dj ∧ win fs1 = view fs img (d_sect dj) → read_entry F fs img t j l → apart fs l → length (f_buf fp) = 512%nat →
  start_mode mode →
  ∃ fp', open_file W fp dj mode (fs1, d1) = Ok ((FR_OK, fp'), (fs1, d1)) ∧ stands_for F fs1 d1 img1 l fp' (entry_data fs img t j l) 0 ∧
    f_dir_sect fp' = f_dir_sect fp ∧ f_dir_ptr fp' = f_dir_ptr fp ∧ f_flag fp' = mode.
Proof using HW.
  intros Hw T Hk Hr1 P Q1 [Q3 Q4] [_ E2 E3 E4] Hap Hbuf (Md & Ms). pose proof (kv_volume _ _ _ _ Hk) as V. pose proof (fr_win _ _ _ _ Hr1) as Hw1.
  destruct (dsk_bytes _ _ (fr_dsk _ _ _ _ Hr1)) as [Hby1 _]. destruct (same_volume_data fs fs1 V) as (_ & Hds & _ & Eb & Ec).
  unfold open_file. ff_run. destruct (ld_clust_ok W HW fs1 fs img t j dj Q1 Q4 (wo_len _ _ Hw1) (wo_bytes _ _ Hw1) ltac:(apply V)) as [-> ->]. ff_run.
  assert (mem_set 0 0 SS (f_buf fp) = Ok (replicate 512 0)) as ->.
  { unfold mem_set, SS. rewrite Hbuf. change ((0 <? 0) || (512 <=? 0) || (Z.of_nat 512 <? 0 + 512)) with false. cbv iota.
    f_equal. unfold patch. rewrite take_0, length_replicate, drop_ge by (rewrite Hbuf; done). by rewrite app_nil_r. }
  ff_run. rewrite Ms. cbn [andb]. eexists. split; [reflexivity|].
  set (e := ent fs img t j) in *. assert (0 ≤ ent_size e < 2 ^ 32) as Hsz.
  { assert (e = ent fs1 img1 t j) as ->; [|by apply ent_size_bound]. symmetry. apply (ent_keeps F fs img fs1 img1 (n_sect img) c); try done; [apply Hw|apply Q1]. }
  assert (apart fs1 l) as Ha1.
  { unfold apart. rewrite Hds, Q3, (dp_sect _ _ _ _ Q1). apply E4. pose proof (dp_range _ _ _ _ Q1) as Hi. unfold n_ents in Hi.
    split; [apply Z.div_pos; lia|apply Z.div_lt_upper_bound; lia]. }
  assert (n_fatent fs1 = n_fatent fs) as En by apply V.
  assert (Forall (valid (n_fatent fs)) l) as Hval.
  { destruct E2 as [[-> _]|Hch]; [constructor|]. eapply Forall_impl; [by eapply chain_used|]. naive_solver. }
  split; [|done]. split; [done| |done| |done].
  - split; cbn [f_obj sclust objsize]; rewrite ?En, ?Eb; try done; [lia|lia|unfold pow2_csize; by rewrite Ec| |].
    + split; cbn [f_buf f_sect]; try done; [by apply Forall_replicate|]. unfold has_flag. cbn [f_flag]. by rewrite Md.
    + split; cbn [f_fptr f_obj objsize]; try done. lia.
  - unfold file_bytes, shown, has_flag. cbn [f_flag f_obj objsize]. rewrite Md.
    unfold entry_data. fold e. f_equal. symmetry. by apply content_keeps.
Qed.

Lemma open_file_ok F fs d img fs1 d1 img1 t c j l dj fp mode :
  win_ok fs img → table F fs c t → keeps_view fs img fs1 img1 → fat_rep F fs1 d1 img1 → pow2_csize fs → alloc_ok F fs →
  dir_pos fs t j dj → winsect fs1 = d_sect dj ∧ win fs1 = view fs img (d_sect dj) → file_entry F fs img t j l → apart fs l → length (f_buf fp) = 512%nat →
  rw_mode mode →
  ∃ fp', open_file W fp dj mode (fs1, d1) = Ok ((FR_OK, fp'), (fs1, d1)) ∧ is_file F fs1 d1 img1 l fp' (entry_data fs img t j l) 0 ∧
    f_dir_sect fp' = f_dir_sect fp ∧ f_dir_ptr fp' = f_dir_ptr fp ∧ f_flag fp' = mode.
Proof using HW.
  intros Hw T Hk Hr1 P Hal Q1 Q3 Hfe%file_entry_read Hap Hbuf Hm.
  destruct (open_stands F fs d img fs1 d1 img1 t c j l dj fp mode) as (fp' & E & Hst & E1 & E2 & Ef); try done; [by split; apply Hm|].
  exists fp'. split; [done|]. split; [|done]. apply stands_for_file; [done| |by rewrite Ef]. apply (alloc_keeps F fs); [apply Hk|apply Hk|done].
Qed.

(** How [f_open] without a creating flag follows the path: the entry is in the
    window when the object is made. *)
Lemma f_open_reaches F fs d img v dj fp path cs t j l mode :
  fat_rep F fs d img → pow2_csize fs → registered v = true → path_names path cs →
  Forall (λ c, short_name c.1 c.2) cs → path_to F fs img 0 cs t j → read_entry F fs img t j l → apart fs l →
  (truth (Z.land mode FA_WRITE) = true → truth (Z.land (ent_attr (ent fs img t j)) AM_RDO) = false) →
  mode = FA_READ ∨ mode = Z.lor FA_READ FA_WRITE → length (fn dj) = 12%nat → length (f_buf fp) = 512%nat →
  ∃ fp' fs' d' img', f_open W v dj fp path mode (fs, d) = Ok ((FR_OK, fp', v), (fs', d')) ∧
    stands_for F fs' d' img' l fp' (entry_data fs img t j l) 0 ∧ f_flag fp' = mode ∧ keeps_view fs img fs' img' ∧
    f_dir_sect fp' = tbl_sect fs t (j / 16) ∧ f_dir_ptr fp' = 32 * (j `mod` 16) ∧ 0 ≤ j < n_ents fs t ∧ winsect fs' = tbl_sect fs t (j / 16).
Proof using HW.
  intros Hr P Hreg (p & Hpath & Hstrip) Hcs Hto Hfe Hap Hro Hmode Hfn Hbuf. unfold f_open.
  assert (Z.land mode 63 = mode ∧ start_mode mode ∧ truth (Z.land mode (Z.lor (Z.lor FA_CREATE_ALWAYS FA_OPEN_ALWAYS) FA_CREATE_NEW)) = false ∧
    truth (Z.land mode FA_CREATE_ALWAYS) = false) as (-> & Hst & Hnc & Hca) by (destruct Hmode as [-> | ->]; done). cbv zeta.
  destruct (find_mounted W F v fs d img path mode Hr Hreg ltac:(by rewrite Hpath)) as (d0 & E0 & Hr0). rewrite Hpath in E0. cbn [fst snd] in E0.
  rewrite (run_bind _ _ _ _ _ E0). cbv beta iota. rewrite decide_True by done. cbn [default from_option id].
  destruct (follow_path_ok W HW cs p F fs d0 img t j (set_obj (set_obj_fs true (d_obj dj)) dj) Hstrip Hcs Hr0 P Hto Hfn) as (dj1 & fs1 & d1 & img1 & E1 & Hr1 & Hk1 & Hre & _).
  ff_run. rewrite (run_bind _ _ _ _ _ E1). cbv beta iota. rewrite (proj2 (re_fn _ _ _ _ _ _ Hre)). ff_run.
  change (truth (Z.land NS_LAST NS_NONAME)) with false. rewrite andb_false_r. unfold open_entry. rewrite Hnc. cbv iota. ff_run.
  rewrite (re_attr _ _ _ _ _ _ Hre), (re_dir _ _ _ _ _ _ Hfe).
  assert (truth (Z.land mode FA_WRITE) && truth (Z.land (ent_attr (ent fs img t j)) AM_RDO) = false) as ->.
  { destruct (truth (Z.land mode FA_WRITE)); [by rewrite Hro|done]. }
  rewrite !decide_True by done. rewrite Hca. cbv iota. ff_run. destruct (path_table _ _ _ _ _ _ _ Hto) as (c & T).
  destruct (open_stands F fs d img fs1 d1 img1 t c j l dj1 (set_f_entry (winsect fs1) (d_dir dj1) fp) mode (fr_win _ _ _ _ Hr) T Hk1 Hr1 P (re_pos _ _ _ _ _ _ Hre) (re_win _ _ _ _ _ _ Hre)
    Hfe Hap Hbuf Hst) as (fp' & E2 & Hf & Ed1 & Ed2 & Ef).
  assert (bool_decide (FR_OK = FR_OK) = true) as Hbd by done.
  rewrite (run_bind _ _ _ _ _ E2). cbv beta iota. rewrite decide_False by naive_solver. exists fp', fs1, d1, img1.
  destruct Hre as [[R1 _ R2 R3 _] _ [R4 _] _]. rewrite Ed1, Ed2. cbn [f_dir_sect f_dir_ptr set_f_entry]. rewrite R4, R2, R3. done.
Qed.

Lemma f_open_ok F fs d img v dj fp path cs t j l :
  fat_rep F fs d img → pow2_csize fs → alloc_ok F fs → registered v = true → path_names path cs →
  Forall (λ c, short_name c.1 c.2) cs → path_to F fs img 0 cs t j → file_entry F fs img t j l → apart fs l →
  length (fn dj) = 12%nat → length (f_buf fp) = 512%nat →
  ∃ fp' fs' d' img', f_open W v dj fp path (Z.lor FA_READ FA_WRITE) (fs, d) = Ok ((FR_OK, fp', v), (fs', d')) ∧
    is_file F fs' d' img' l fp' (entry_data fs img t j l) 0 ∧ keeps_view fs img fs' img' ∧
    f_dir_sect fp' = tbl_sect fs t (j / 16) ∧ f_dir_ptr fp' = 32 * (j `mod` 16) ∧ 0 ≤ j < n_ents fs t ∧ winsect fs' = tbl_sect fs t (j / 16).
Proof using HW.
  intros Hr P Hal Hreg Hpath Hcs Hto Hfe Hap Hfn Hbuf.
  destruct (f_open_reaches F fs d img v dj fp path cs t j l (Z.lor FA_READ FA_WRITE) Hr P Hreg Hpath Hcs Hto (file_entry_read _ _ _ _ _ _ Hfe) Hap)
    as (fp' & fs' & d' & img' & E & Hst & Ef & Hk & Hrest); [by destruct (fe_attr _ _ _ _ _ _ Hfe)|by right|done|done|].
  exists fp', fs', d', img'. split; [done|]. split; [|done].
  apply stands_for_file; [done|apply (alloc_keeps F fs); [apply Hk|apply Hk|done]|by rewrite Ef].
Qed.

(** Opening an existing file for reading and writing by a path of any depth
    succeeds, and the object stands for exactly the bytes of the file, with the
    position at its beginning; nothing on the volume changes. *)
Theorem open_gives_file F fs d img v dj fp path cs t j l :
  fat_rep F fs d img → pow2_csize fs → alloc_ok F fs → registered v = true → path_names path cs →
  Forall (λ c, short_name c.1 c.2) cs → path_to F fs img 0 cs t j → file_entry F fs img t j l → apart fs l →
  length (fn dj) = 12%nat → length (f_buf fp) = 512%nat →
  ∃ fp' fs' d' img', f_open W v dj fp path (Z.lor FA_READ FA_WRITE) (fs, d) = Ok ((FR_OK, fp', v), (fs', d')) ∧
    is_file F fs' d' img' l fp' (entry_data fs img t j l) 0 ∧ keeps_view fs img fs' img'.
Proof using HW.
  intros Hr P Hal Hreg Hpath Hcs Hto Hfe Hap Hfn Hbuf.
  destruct (f_open_ok F fs d img v dj fp path cs t j l Hr P Hal Hreg Hpath Hcs Hto Hfe Hap Hfn Hbuf) as (fp' & fs' & d' & img' & E & Hf & Hk & _).
  by exists fp', fs', d', img'.
Qed.
End opening.

(** ** A file in a directory of a small volume *)

Definition an_entry (nm : list Z) (a c s0 s1 : Z) : list Z := nm ++ [a] ++ replicate 14 0 ++ [c; 0; s0; s1; 0; 0].

(** The clusters 2 and 3 are a file of 700 bytes, 4 is the directory it is in. *)
Definition deep_fat : list Z := [248; 255; 255; 3; 240; 255; 255; 15; 0] ++ replicate 503 0.
Definition deep_img : list Z :=
  replicate 512 0 ++ deep_fat ++ deep_fat ++ (an_entry (str "SUB        ") AM_DIR 4 0 0 ++ replicate 480 0) ++
  replicate 1024 7 ++ (an_entry (str "A       TXT") AM_ARC 2 188 2 ++ replicate 480 0) ++ replicate 512 0.
Definition deep_host : hostdisk memhost := mk_hd (100 :: replicate 127 0) 1 8 0 (mk_memhost [100] deep_img (Some 0)).
Definition deep_table : Z → Z := λ c, if c =? 2 then 3 else if c =? 3 then 4095 else if c =? 4 then 4095 else 0.

Lemma deep_rep : fat_rep deep_table small_fs deep_host deep_img.
Proof.
  assert (Forall is_byte deep_img) as Hb by (apply (bool_decide_unpack _); vm_compute; exact I). split.
  - destruct small_win_ok as [G ? ? ? ? ? _]. split; try done. intros _ s Hs _. unfold in_fat in Hs. cbn in Hs. assert (s = 1) as -> by lia. vm_compute. reflexivity.
  - split; [done|]. exists (mk_memhost [100] deep_img (Some 0)), [100]. split; try done. by exists 0.
  - intros c Hc. unfold valid in Hc. cbn in Hc. assert (c = 2 ∨ c = 3 ∨ c = 4 ∨ c = 5) as [->|[->|[->| ->]]] by lia; vm_compute; reflexivity.
  - intros c _. unfold deep_table. by repeat case_if.
Qed.

Lemma deep_path : path_to deep_table small_fs deep_img 0 [(str "Sub", []); (str "a", str "txt")] (Some [4]) 0.
Proof.
  apply (path_sub _ _ _ 0 None _ _ 0).
  - split; [|done]. repeat split; (reflexivity || (vm_compute; discriminate)).
  - vm_compute. reflexivity.
  - vm_compute. reflexivity.
  - apply path_last; [|vm_compute; reflexivity]. split; [|done].
    change (first_clust small_fs _) with 4. by apply chain_last.
Qed.

Lemma deep_file : file_entry deep_table small_fs deep_img (Some [4]) 0 [2; 3].
Proof.
  split.
  - split; vm_compute; reflexivity.
  - right. change (ent_clust small_fs _) with 2. apply chain_next; [done|done|]. by apply chain_last.
  - vm_compute. discriminate.
  - intros k Hk. change (tbl_len small_fs (Some [4])) with 1 in Hk. assert (k = 0) as -> by lia. change (tbl_sect small_fs (Some [4]) 0) with 6.
    intros (c & Hc & Hs). unfold clust_sect in Hs. cbn in Hs. apply list_elem_of_In in Hc as [<-|[<-|[]]]; lia.
Qed.

Lemma open_gives_file_witness :
  ∃ fp' fs' d' img', f_open 32 (mk_vars true 1) root_dp small_file (Some (str "0:Sub/a.txt")) (Z.lor FA_READ FA_WRITE) (small_fs, deep_host) =
      Ok ((FR_OK, fp', mk_vars true 1), (fs', d')) ∧
    is_file deep_table fs' d' img' [2; 3] fp' (replicate 700 7) 0.
Proof.
  destruct (open_gives_file 32 ltac:(lia) deep_table small_fs deep_host deep_img (mk_vars true 1) root_dp small_file (Some (str "0:Sub/a.txt"))
    [(str "Sub", []); (str "a", str "txt")] (Some [4]) 0 [2; 3] deep_rep) as (fp' & fs' & d' & img' & E & Hf & _).
  - exists 0. split; [lia|reflexivity].
  - split; [split; [split; vm_compute; (reflexivity || discriminate)|left; vm_compute; reflexivity]|split; vm_compute; (reflexivity || discriminate)].
  - reflexivity.
  - eexists. split; vm_compute; reflexivity.
  - apply Forall_cons. split; [|apply Forall_singleton]; (split; [cbn; lia|cbn; lia|apply (bool_decide_unpack _); vm_compute; exact I]).
  - exact deep_path.
  - exact deep_file.
  - intros (c & Hc & Hs). unfold clust_sect in Hs. cbn in Hs. apply list_elem_of_In in Hc as [<-|[<-|[]]]; lia.
  - reflexivity.
  - reflexivity.
  - exists fp', fs', d', img'. split; [exact E|].
    assert (entry_data small_fs deep_img (Some [4]) 0 [2; 3] = replicate 700 7) as <- by (vm_compute; reflexivity). exact Hf.
Defined.
