(* ===== verification/FfSync.v ===== *)
(** * FatFs: closing files

    [f_sync] writes what waits in the buffer, puts the first cluster and the
    size into the entry of the file, and brings all of it to the disk. *)

From S2P Require Import Prelude Bytes Cstdio Diskio FatDiskio Hostdisk HostdiskProps Ff FfWindow FfFat FfChain FfStay FfHost FfProps.
From S2P Require Import FfDir FfMount FfFile FfApi FfData FfPos FfRead FfWrite FfGrow FfSeek FfFileProps FfMountProps FfFree.
From S2P Require Import FfTable FfDirProps FfNames FfShort FfPath FfOpen.

(** ** The entry of a file that is closed *)

(** As [f_sync] writes it: the archive bit, the first cluster, the size, the
    time and the date. *)
Definition sync_entry (fs : FATFS) (cl size : Z) (e : list Z) : list Z :=
  let e := patch 11 [Z.lor (ent_byte e DIR_Attr) AM_ARC] e in
  let e := patch 26 (le_bytes 2 (u16 cl)) e in
  let e := if fs_type fs =? FS_FAT32 then patch 20 (le_bytes 2 (u16 (Z.shiftr cl 16))) e else e in
  let e := patch 28 (le_bytes 4 size) e in
  let e := patch 22 (le_bytes 4 GET_FATTIME) e in
  patch 18 (le_bytes 2 0) e.

(** The entry keeps its name and kind. *)
Record same_kind (fs : FATFS) (e e' : list Z) : Prop := {
  sk_name : take 11 e' = take 11 e;
  sk_vol : Z.land (ent_byte e' DIR_Attr) AM_VOL = Z.land (ent_byte e DIR_Attr) AM_VOL;
  sk_dir : Z.land (ent_attr e') AM_DIR = Z.land (ent_attr e) AM_DIR;
  sk_rdo : Z.land (ent_attr e') AM_RDO = Z.land (ent_attr e) AM_RDO;
}.

Lemma take_patch k o bs (e : list Z) : (k ≤ o)%nat → (o + length bs ≤ length e)%nat → take k (patch o bs e) = take k e.
Proof. intros Hk Hl. unfold patch. rewrite take_app_le by (rewrite length_take; lia). rewrite take_take. f_equal. lia. Qed.

Lemma ent_byte_patch_ne k o bs e :
  (o + length bs ≤ length e)%nat → 0 ≤ k → (Z.to_nat k < o ∨ o + length bs ≤ Z.to_nat k)%nat → ent_byte (patch o bs e) k = ent_byte e k.
Proof. intros Hl Hk Hd. unfold ent_byte. rewrite lookup_patch by done. by rewrite decide_False by lia. Qed.

Lemma patch32 o bs (e : list Z) : length e = 32%nat → (o + length bs ≤ 32)%nat → length (patch o bs e) = 32%nat.
Proof. intros Hl Ho. rewrite patch_length; lia. Qed.

Lemma attr_arc a b : is_byte a → Z.land b AM_ARC = 0 → Z.land (Z.land (Z.lor a AM_ARC) AM_MASK) b = Z.land (Z.land a AM_MASK) b.
Proof.
  intros _ Hb. rewrite Z.land_lor_distr_l, Z.land_lor_distr_l. change (Z.land AM_ARC AM_MASK) with AM_ARC.
  by rewrite (Z.land_comm AM_ARC b), Hb, Z.lor_0_r.
Qed.

Lemma ent_byte_byte e k : Forall is_byte e → is_byte (ent_byte e k).
Proof. intros Hb. unfold ent_byte. destruct (e !! Z.to_nat k) as [x|] eqn:E; [|done]. exact (proj1 (Forall_lookup _ _) Hb _ _ E). Qed.

Lemma arc_byte a : is_byte a → is_byte (Z.lor a AM_ARC).
Proof.
  unfold is_byte. intros Ha. split; [apply Z.lor_nonneg; unfold AM_ARC; lia|]. destruct (decide (Z.lor a AM_ARC = 0)) as [->|]; [done|].
  apply (Z.log2_lt_pow2 _ 8); [assert (0 ≤ Z.lor a AM_ARC) by (apply Z.lor_nonneg; unfold AM_ARC; lia); lia|].
  rewrite Z.log2_lor by (unfold AM_ARC; lia). apply Z.max_lub_lt; [|done]. destruct (decide (a = 0)) as [->|]; [done|]. apply Z.log2_lt_pow2; lia.
Qed.

(** A field beside the bytes written. *)
Ltac beside := rewrite bytes_at_patch_ne by (rewrite ?le_bytes_length; cbn [length]; lia).

Lemma sync_entry_ok fs cl size e :
  length e = 32%nat → Forall is_byte e → 0 ≤ cl < 2 ^ 32 → (fs_type fs = FS_FAT32 ∨ cl < 2 ^ 16) → 0 ≤ size < 2 ^ 32 →
  let e' := sync_entry fs cl size e in
  length e' = 32%nat ∧ Forall is_byte e' ∧ same_kind fs e e' ∧ ent_clust fs e' = cl ∧ ent_size e' = size.
Proof.
  intros Hl Hb Hcl Hft Hsz e'. set (a := ent_byte e DIR_Attr).
  assert (is_byte a) as Ha.
  { by apply ent_byte_byte. }
  pose proof (arc_byte a Ha) as Ha'.
  set (e1 := patch 11 [Z.lor a AM_ARC] e). set (e2 := patch 26 (le_bytes 2 (u16 cl)) e1).
  set (e3 := if fs_type fs =? FS_FAT32 then patch 20 (le_bytes 2 (u16 (Z.shiftr cl 16))) e2 else e2).
  set (e4 := patch 28 (le_bytes 4 size) e3). set (e5 := patch 22 (le_bytes 4 GET_FATTIME) e4).
  assert (e' = patch 18 (le_bytes 2 0) e5) as -> by done.
  assert (length e1 = 32%nat) as L1 by (apply patch32; simpl; lia).
  assert (length e2 = 32%nat) as L2 by (apply patch32; rewrite ?le_bytes_length; lia).
  assert (length e3 = 32%nat) as L3 by (unfold e3; case_if; [apply patch32; rewrite ?le_bytes_length; lia|done]).
  assert (length e4 = 32%nat) as L4 by (apply patch32; rewrite ?le_bytes_length; lia).
  assert (length e5 = 32%nat) as L5 by (apply patch32; rewrite ?le_bytes_length; lia).
  split; [apply patch32; rewrite ?le_bytes_length; lia|]. split.
  { unfold e5, e4, e3, e2, e1. repeat (apply patch_bytes; [apply le_bytes_bytes|]). case_if;
      repeat (apply patch_bytes; [apply le_bytes_bytes|]); (apply patch_bytes; [by apply byte_list_1|done]). }
  assert (∀ k m, (k + m ≤ 18)%nat → bytes_at k m (patch 18 (le_bytes 2 0) e5) = bytes_at k m e1) as Hlow.
  { intros k m Hk. beside. unfold e5. beside. unfold e4. beside. unfold e3. case_if; [beside|]; unfold e2; by beside. }
  assert (ent_byte (patch 18 (le_bytes 2 0) e5) DIR_Attr = Z.lor a AM_ARC) as Eat.
  { pose proof (Hlow 11%nat 1%nat ltac:(lia)) as E. unfold e1 in E. rewrite (bytes_at_patch_eq 11 1) in E by (simpl; lia).
    apply (f_equal (lookup 0%nat)) in E. rewrite lookup_bytes_at, decide_True in E by lia. unfold ent_byte, DIR_Attr. change (Z.to_nat 11) with (11 + 0)%nat. by rewrite E. }
  split; [|split].
  - split.
    + pose proof (Hlow 0%nat 11%nat ltac:(lia)) as E. unfold bytes_at in E. rewrite !drop_0 in E. rewrite E. apply take_patch; simpl; lia.
    + rewrite Eat. fold a. by rewrite Z.land_lor_distr_l, Z.lor_0_r.
    + unfold ent_attr. rewrite Eat. by apply attr_arc.
    + unfold ent_attr. rewrite Eat. by apply attr_arc.
  - unfold ent_clust. assert (bytes_at 26 2 (patch 18 (le_bytes 2 0) e5) = le_bytes 2 (u16 cl)) as ->.
    { beside. unfold e5. beside. unfold e4. beside. unfold e3. case_if; [beside|]; unfold e2; apply bytes_at_patch_eq; rewrite ?le_bytes_length; lia. }
    rewrite le_value_bytes by (pose proof (wrap_bound 16 cl); lia).
    destruct (Z.eqb_spec (fs_type fs) FS_FAT32) as [Ef|Ef].
    + assert (bytes_at 20 2 (patch 18 (le_bytes 2 0) e5) = le_bytes 2 (u16 (Z.shiftr cl 16))) as ->.
      { beside. unfold e5. beside. unfold e4. beside. unfold e3.
        apply bytes_at_patch_eq; rewrite ?le_bytes_length; lia. }
      rewrite Z.shiftr_div_pow2 by lia. change (2 ^ 16) with 65536.
      assert (0 ≤ cl / 65536 < 65536) by (split; [apply Z.div_pos; lia|apply Z.div_lt_upper_bound; lia]).
      rewrite (wrap_small 16 (cl / 65536)), le_value_bytes by lia. unfold wrap. change (2 ^ 16) with 65536.
      pose proof (Z.div_mod cl 65536 ltac:(lia)). lia.
    + destruct Hft as [?|?]; [done|]. rewrite wrap_small by lia. lia.
  - unfold ent_size. beside. unfold e5. beside. unfold e4.
    rewrite (bytes_at_patch_eq 28 4) by (rewrite ?le_bytes_length; lia). apply le_value_bytes. lia.
Qed.

(** ** Paths stay *)

(** Entry [o] of sector [s0] is [e] now; the sectors before the FAT do not
    matter. *)
Record sector_set (fs : FATFS) (img : list Z) (s0 : Z) (o : nat) (e : list Z) (fs' : FATFS) (img' : list Z) : Prop := {
  ss_volume : same_volume fs fs';
  ss_sects : n_sect img' = n_sect img;
  ss_view : ∀ s, fatbase fs ≤ s < n_sect img → ¬ in_fat2 fs s →
    view fs' img' s = if s =? s0 then patch o e (view fs img s) else view fs img s;
}.

Lemma tbl_sect_low F fs n c l k : geometry fs n → table F fs c l → 0 ≤ k < tbl_len fs l → fatbase fs ≤ tbl_sect fs l k.
Proof.
  intros G T Hk. pose proof (tbl_clust F fs n c l G T k Hk) as Hc. pose proof (tb_start _ _ _ _ T) as Ts.
  pose proof G as [_ _ Hf Hfb Hfs Hd Hcs _ _ _ _ _]. assert (fatbase fs ≤ database fs) by (destruct Hf as [E|E]; rewrite E in *; lia).
  unfold tbl_sect. destruct l as [l|].
  - destruct Hc as (x & -> & Hv). pose proof (clust_sect_range fs n x G Hv). pose proof (Z.mod_pos_bound k (csize fs) ltac:(lia)).
    unfold id. cbn [from_option]. lia.
  - destruct Ts as (_ & _ & _ & Hlo & _). destruct Hf as [E|E]; rewrite E in *; lia.
Qed.

(** Every table sees the old entries, or the new one in place of the old. *)
Lemma sector_set_ent F fs img s0 q e e' fs' img' c l i :
  win_ok fs img → table F fs c l → 0 ≤ q < 16 → length e' = 32%nat → e = bytes_at (Z.to_nat (32 * q)) 32 (view fs img s0) →
  sector_set fs img s0 (Z.to_nat (32 * q)) e' fs' img' → 0 ≤ i < n_ents fs l →
  ent fs' img' l i = ent fs img l i ∧ (tbl_sect fs l (i / 16) ≠ s0 ∨ i `mod` 16 ≠ q) ∨
  (tbl_sect fs l (i / 16) = s0 ∧ i `mod` 16 = q) ∧ ent fs img l i = e ∧ ent fs' img' l i = e'.
Proof.
  intros Hw T Hq Hl -> [V _ Hv] Hi. pose proof (wo_geo _ _ Hw) as G.
  assert (0 ≤ i / 16 < tbl_len fs l) as Hki by (unfold n_ents in Hi; split; [apply Z.div_pos; lia|apply Z.div_lt_upper_bound; lia]).
  pose proof (tbl_sect_range F fs _ _ l G T (i / 16) Hki) as (Hrg & _ & H2). pose proof (tbl_sect_low F fs _ _ l (i / 16) G T Hki) as Hlo.
  destruct (same_table F fs fs' c l V) as (_ & _ & Es & _). unfold ent. rewrite Es, Hv by (done || lia).
  destruct (Z.eqb_spec (tbl_sect fs l (i / 16)) s0) as [E|E]; [|left; by split; [|left]].
  pose proof (view_length fs img Hw (tbl_sect fs l (i / 16)) ltac:(lia)) as Hvl. pose proof (Z.mod_pos_bound i 16 ltac:(lia)).
  destruct (decide (i `mod` 16 = q)) as [<-|Hne].
  - right. rewrite <-E. split; [done|]. split; [done|]. apply bytes_at_patch_eq; [done|lia].
  - left. split; [|by right]. apply bytes_at_patch_ne; lia.
Qed.

Lemma kind_named fs e e' nm : same_kind fs e e' → length e = 32%nat → length e' = 32%nat →
  named nm e' = named nm e ∧ ent_byte e' DIR_Name = ent_byte e DIR_Name.
Proof.
  intros [Hn Hv _ _] Hl Hl'. unfold named. rewrite Hv, Hn. split; [done|]. unfold ent_byte, DIR_Name. change (Z.to_nat 0) with 0%nat.
  by rewrite <-(lookup_take_lt e' 11 0), <-(lookup_take_lt e 11 0), Hn by lia.
Qed.

Lemma find_in_kind m e e' nm i :
  (∀ j, i ≤ j < i + Z.of_nat m → named nm (e' j) = named nm (e j) ∧ ent_byte (e' j) DIR_Name = ent_byte (e j) DIR_Name) →
  find_in m e' nm i = find_in m e nm i.
Proof.
  revert i. induction m as [|m IH]; intros i E; [done|]. cbn [find_in]. destruct (E i ltac:(lia)) as [-> ->].
  rewrite IH by (intros; apply E; lia). done.
Qed.

(** Paths lead where they led when the entry of a file keeps its kind. *)
Lemma path_kind F fs img s0 q e e' fs' img' c cs l j :
  win_ok fs img → 0 ≤ s0 < n_sect img → 0 ≤ q < 16 → e = bytes_at (Z.to_nat (32 * q)) 32 (view fs img s0) → length e' = 32%nat → same_kind fs e e' →
  truth (Z.land (ent_attr e) AM_DIR) = false → sector_set fs img s0 (Z.to_nat (32 * q)) e' fs' img' →
  path_to F fs img c cs l j → path_to F fs' img' c cs l j.
Proof.
  intros Hw Hs0 Hq He Hl Hk Hdir Hset. pose proof (ss_volume _ _ _ _ _ _ _ Hset) as V. pose proof (wo_geo _ _ Hw) as G.
  assert (length e = 32%nat) as Hle by (rewrite He; apply bytes_at_length; rewrite (view_length fs img Hw) by done; lia).
  assert (∀ c l nm, table F fs c l → table F fs' c l ∧
    find_in (Z.to_nat (n_ents fs' l)) (ent fs' img' l) nm 0 = find_in (Z.to_nat (n_ents fs l)) (ent fs img l) nm 0) as Hf.
  { intros c0 l0 nm T. destruct (same_table F fs fs' c0 l0 V) as (Tt & _ & _ & En). pose proof (n_ents_pos F fs _ _ _ G T).
    split; [by apply Tt|]. rewrite En. apply find_in_kind. intros i Hi.
    destruct (sector_set_ent F fs img s0 q e e' fs' img' c0 l0 i Hw T Hq Hl He Hset ltac:(lia)) as [[-> _]|(_ & -> & ->)]; [done|].
    by apply (kind_named fs). }
  induction 1 as [c l b x j T Hfi|c l b x i cs l' j T Hfi Ha Hp IH]; destruct (Hf c l (packed b x) T) as (T' & Ef).
  - apply path_last; [done|]. by rewrite Ef.
  - pose proof (find_in_bound _ _ _ _ _ Hfi) as Hb. pose proof (n_ents_pos F fs _ _ _ G T).
    destruct (sector_set_ent F fs img s0 q e e' fs' img' c l i Hw T Hq Hl He Hset ltac:(lia)) as [[Ee _]|(_ & Ee & _)].
    + apply (path_sub _ _ _ c l b x i); [done|by rewrite Ef|by rewrite Ee|]. rewrite Ee. unfold ent_clust in *.
      assert (fs_type fs' = fs_type fs) as -> by apply V. done.
    + rewrite Ee in Ha. congruence.
Qed.

(** The tables on the way share no cluster with a file. *)
Definition clear_of (l0 : list Z) (t : option (list Z)) : Prop := match t with None => True | Some l => l ## l0 end.

Inductive path_clear (F : Z → Z) (fs : FATFS) (img l0 : list Z) : Z → list (list Z * list Z) → Prop :=
  | clear_last c l b e : table F fs c l → clear_of l0 l → path_clear F fs img l0 c [(b, e)]
  | clear_sub c l b e i cs :
      table F fs c l → clear_of l0 l → find_in (Z.to_nat (n_ents fs l)) (ent fs img l) (packed b e) 0 = Some i →
      path_clear F fs img l0 (ent_clust fs (ent fs img l i)) cs → path_clear F fs img l0 c ((b, e) :: cs).

Lemma table_det F fs c l l' : table F fs c l → table F fs c l' → l = l'.
Proof.
  intros [H1 _] [H2 _]. destruct l as [l|], l' as [l'|]; [f_equal; by eapply chain_det| | |done].
  - destruct H2 as [E _]. rewrite E in H1. inversion H1; unfold valid in *; lia.
  - destruct H1 as [E _]. rewrite E in H2. inversion H2; unfold valid in *; lia.
Qed.

Lemma clear_sects F fs n c t l0 k :
  geometry fs n → table F fs c t → Forall (valid (n_fatent fs)) l0 → clear_of l0 t → 0 ≤ k < tbl_len fs t → ¬ data_sect fs l0 (tbl_sect fs t k).
Proof.
  intros G T Hl Hc Hk Hs. pose proof (tbl_clust F fs n c t G T k Hk) as Hx. pose proof (geo_csize _ _ G) as Hcs. destruct t as [l|]; cbn [clear_of] in Hc.
  - destruct Hx as (x & Ex & Hv). unfold tbl_sect in Hs. rewrite Ex in Hs. cbn [from_option] in Hs. destruct Hs as (y & Hy & Hys). unfold id in Hys.
    pose proof (Z.mod_pos_bound k (csize fs) ltac:(lia)).
    assert (y = x) as -> by (eapply (clust_sect_inj fs n x y _ G); [|exact Hys]; lia). apply (Hc x); [by eapply list_elem_of_lookup_2|done].
  - pose proof (data_sect_range fs n l0 _ G Hl Hs) as [[Hr _] _]. destruct (tb_start _ _ _ _ T) as (_ & _ & _ & _ & Hd).
    unfold tbl_sect, tbl_len in *. lia.
Qed.

(** Writing a file leaves the tables it is clear of. *)
Lemma table_frame F fs img l F' fs' img' l' c t :
  win_ok fs img → extends (n_fatent fs) F l F' l' → frame l' fs img fs' img' → Forall (valid (n_fatent fs)) l' → table F fs c t → clear_of l t →
  table F' fs' c t ∧ clear_of l' t ∧ n_ents fs' t = n_ents fs t ∧ ∀ i, 0 ≤ i < n_ents fs t → ent fs' img' t i = ent fs img t i.
Proof.
  intros Hw [_ Hx] [V Hn Hv] Hl T Hc. pose proof (wo_geo _ _ Hw) as G.
  assert (table F' fs c t ∧ clear_of l' t) as [T' Hc'].
  { destruct T as [Ts Tm]. destruct t as [t|]; [|done]. destruct (Hx _ _ Ts Hc). done. }
  destruct (same_table F' fs fs' c t V) as (Tt & _ & Es & En). split; [by apply Tt|]. split; [done|]. split; [done|].
  intros i Hi. assert (0 ≤ i / 16 < tbl_len fs t) as Hki by (unfold n_ents in Hi; split; [apply Z.div_pos; lia|apply Z.div_lt_upper_bound; lia]).
  pose proof (tbl_sect_range F fs _ _ t G T (i / 16) Hki) as (Hrg & H1 & H2). unfold ent. rewrite Es, Hv; [done|lia|done|done|].
  by apply (clear_sects F' fs (n_sect img) c).
Qed.

Lemma path_frame F fs img l F' fs' img' l' c cs t j :
  win_ok fs img → extends (n_fatent fs) F l F' l' → frame l' fs img fs' img' → Forall (valid (n_fatent fs)) l' →
  path_to F fs img c cs t j → path_clear F fs img l c cs →
  path_to F' fs' img' c cs t j ∧ path_clear F' fs' img' l' c cs ∧
  (∃ c', table F' fs' c' t) ∧ clear_of l' t ∧ ent fs' img' t j = ent fs img t j ∧ 0 ≤ j < n_ents fs t.
Proof.
  intros Hw He Hf Hl. pose proof (wo_geo _ _ Hw) as G.
  assert (∀ l0 nm i, n_ents fs' l0 = n_ents fs l0 → (∀ i, 0 ≤ i < n_ents fs l0 → ent fs' img' l0 i = ent fs img l0 i) → 0 < n_ents fs l0 →
    find_in (Z.to_nat (n_ents fs l0)) (ent fs img l0) nm 0 = Some i → find_in (Z.to_nat (n_ents fs' l0)) (ent fs' img' l0) nm 0 = Some i ∧ 0 ≤ i < n_ents fs l0) as Hfi.
  { intros l0 nm i En Ee Hp Hi. pose proof (find_in_bound _ _ _ _ _ Hi). split; [|lia]. rewrite En, <-Hi. apply find_in_ext. intros k Hk. apply Ee. lia. }
  induction 1 as [c t b e j T Hfd|c l0 b e i cs t j T Hfd Ha Hp IH]; inversion 1 as [c1 l1 b1 e1 T1 Hc1|c1 l1 b1 e1 i1 cs1 T1 Hc1 Hf1 Hp1]; subst.
  - rewrite <-(table_det F fs c t l1 T T1) in Hc1. destruct (table_frame F fs img l F' fs' img' l' c t Hw He Hf Hl T Hc1) as (T' & Hc' & En & Ee).
    destruct (Hfi t _ j En Ee (n_ents_pos F fs _ _ _ G T) Hfd) as [Hf' Hj]. split; [by apply path_last|]. split; [by apply (clear_last _ _ _ _ c t)|].
    split; [by exists c|]. auto.
  - rewrite <-(table_det F fs c t l1 T T1) in *. inversion Hp1.
  - inversion Hp.
  - rewrite <-(table_det F fs c l0 l1 T T1) in *. rewrite Hfd in Hf1. injection Hf1 as <-.
    destruct (table_frame F fs img l F' fs' img' l' c l0 Hw He Hf Hl T Hc1) as (T' & Hc' & En & Ee).
    destruct (Hfi l0 _ i En Ee (n_ents_pos F fs _ _ _ G T) Hfd) as [Hf' Hi]. destruct (IH Hp1) as (P1 & P2 & P3).
    assert (ent_clust fs (ent fs img l0 i) = ent_clust fs' (ent fs' img' l0 i)) as Ec.
    { rewrite Ee by done. unfold ent_clust. by assert (fs_type fs' = fs_type fs) as -> by apply (fm_volume _ _ _ _ _ Hf). }
    rewrite Ec in P1, P2. split; [apply (path_sub _ _ _ c l0 b e i); [done|done|by rewrite Ee|done]|]. split; [by apply (clear_sub _ _ _ _ c l0 b e i)|done].
Qed.

(** ** Everything goes to the disk *)

(** The FSInfo sector of FAT32 is before the FAT. *)
Definition fsinfo_ok (fs : FATFS) : Prop := fs_type fs = FS_FAT32 → 0 ≤ volbase fs + 1 < fatbase fs.

Lemma clean_view fs img s : win_ok fs img → wflag fs = 0 → 0 ≤ s < n_sect img → view fs img s = sector s img.
Proof.
  intros Hw Hf Hs. unfold view. destruct (Z.eqb_spec (winsect fs) s) as [<-|]; [|done]. apply (wo_clean _ _ Hw); [done|lia|lia].
Qed.

Section sync.
Context {D : Type} `{Disk D} (W : Z).
Hypothesis HW : 32 ≤ W.

Implicit Types (fs : FATFS) (d : D) (img : list Z) (F : Z → Z).

Lemma keeps_rep F fs d img fs' d' img' :
  fat_rep F fs d img → keeps_view fs img fs' img' → win_ok fs' img' → dsk d' img' → fat_rep F fs' d' img'.
Proof.
  intros [Hw Hd Hv Hs] Hk Hw' Hd'. assert (n_fatent fs' = n_fatent fs) as En by apply (kv_volume _ _ _ _ Hk).
  split; [done|done| |]; rewrite En; [|done]. intros c Hc. rewrite <-Hv by done. by apply fat_val_keeps.
Qed.

(** All of the FAT and what follows is on the disk. *)
Record synced F fs img fs' d' img' : Prop := {
  sy_rep : fat_rep F fs' d' img';
  sy_volume : same_volume fs fs';
  sy_sects : n_sect img' = n_sect img;
  sy_alloc : last_clst fs' = last_clst fs ∧ free_clst fs' = free_clst fs;
  sy_clean : wflag fs' = 0;
  sy_disk : ∀ s, fatbase fs ≤ s < n_sect img → ¬ in_fat2 fs s → sector s img' = view fs img s;
  sy_win : winsect fs' = winsect fs ∨ 0 ≤ winsect fs' < fatbase fs;
}.

(** A sector before the FAT is written through the window. *)
Lemma write_low F fs d img s w :
  fat_rep F fs d img → wflag fs = 0 → 0 ≤ s < fatbase fs → length w = 512%nat → Forall is_byte w →
  let fs' := set_window 0 s w fs in
  ∃ d', dwrite w s 1 (fs', d) = Ok (RES_OK, (fs', d')) ∧ fat_rep F fs' d' (patch (Z.to_nat (s * SS)) w img) ∧
    n_sect (patch (Z.to_nat (s * SS)) w img) = n_sect img ∧
    ∀ s', fatbase fs ≤ s' < n_sect img → sector s' (patch (Z.to_nat (s * SS)) w img) = sector s' img.
Proof.
  intros [Hw Hd Hv Hsane] Hf Hs Hl Hb fs'. pose proof Hw as [G _ _ _ _ _ Hm]. destruct (dsk_bytes _ _ Hd) as [Hby _].
  assert (fatbase fs + n_fats fs * fsize fs ≤ n_sect img ∧ 0 < fsize fs) as [Hdb Hfs].
  { destruct G as [_ _ _ _ Hfs Hda Hcs He Hr _ _ _]. split; [|done]. assert (0 ≤ csize fs * (n_fatent fs - 2)) by nia. lia. }
  assert (fatbase fs ≤ n_sect img) as Hfn by (destruct (geo_fats _ _ G) as [E|E]; rewrite E in *; lia).
  destruct (write_sector fs' d img s Hd) as (d' & Hwr & Hd'); [apply G|done|done|lia|].
  change (win fs') with w in *. set (img' := patch (Z.to_nat (s * SS)) w img) in *.
  assert (n_sect img' = n_sect img) as Hn by (apply n_sect_patch; [lia|done]).
  assert (∀ s', fatbase fs ≤ s' < n_sect img → sector s' img' = sector s' img) as Eo by (intros s' Hs'; apply sector_patch_ne; [lia|lia|done|lia]).
  exists d'. split; [done|]. split; [|done].
  assert (win_ok fs' img') as Hw'.
  { split; cbn [win wflag winsect n_fats fsize fs' set_window]; try done; [rewrite Hn; by apply (geometry_same fs)| |lia|].
    - intros _ _ _. symmetry. apply sector_patch; [lia|done].
    - intros H2 s' Hin _. unfold in_fat in Hin. cbn in Hin. rewrite H2 in Hdb. rewrite !Eo by lia. apply Hm; [done|done|by left]. }
  split; [done|done| |done]. intros c Hc. rewrite <-Hv by done. unfold fat_val. apply fat_of_ext. intros b Hbb.
  pose proof (entry_valid fs img Hw c Hc) as He. destruct (entry_bytes _ c) as [b0 k]. cbn [fst snd] in Hbb.
  destruct (fat_sector fs img Hw b ltac:(lia)) as (Hin & Hrg & _). unfold in_fat in Hin. unfold fat_byte. change (fatbase fs') with (fatbase fs).
  rewrite (clean_view fs' img'), (clean_view fs img), Eo by (done || lia). done.
Qed.

(** The FSInfo sector. *)
Lemma fsinfo_bytes (w : list Z) f l :
  length w = 512%nat →
  ∃ w1 w2 w3 w4 w5 w6, mem_set 0 0 SS w = Ok w1 ∧ st_word BS_55AA 43605 w1 = Ok w2 ∧ st_dword FSI_LeadSig 1096897106 w2 = Ok w3 ∧
    st_dword FSI_StrucSig 1631679090 w3 = Ok w4 ∧ st_dword FSI_Free_Count f w4 = Ok w5 ∧ st_dword FSI_Nxt_Free l w5 = Ok w6 ∧
    length w6 = 512%nat ∧ Forall is_byte w6.
Proof.
  intros Hl.
  assert (∀ o bs (x : list Z), length x = 512%nat ∧ Forall is_byte x → (o + length bs ≤ 512)%nat → Forall is_byte bs →
    length (patch o bs x) = 512%nat ∧ Forall is_byte (patch o bs x)) as Hp.
  { intros o bs x [Hx Hxb] Ho Hbs. rewrite patch_length by lia. split; [done|by apply patch_bytes]. }
  assert (∀ i v x, length x = 512%nat ∧ Forall is_byte x → 0 ≤ i ≤ 508 → ∃ y, st_dword i v x = Ok y ∧ length y = 512%nat ∧ Forall is_byte y) as Hst.
  { intros i v x Hx Hi. eexists. split; [apply st_dword_ok; destruct Hx; lia|].
    apply Hp; [done|rewrite le_bytes_length; lia|apply le_bytes_bytes]. }
  eexists. assert (mem_set 0 0 SS w = Ok (replicate 512 0)) as ->.
  { unfold mem_set, SS. rewrite Hl. change ((0 <? 0) || (512 <=? 0) || (Z.of_nat 512 <? 0 + 512)) with false. cbv iota.
    f_equal. unfold patch. rewrite take_0, length_replicate, drop_ge by (rewrite Hl; done). by rewrite app_nil_r. }
  assert (length (replicate 512 0) = 512%nat ∧ Forall is_byte (replicate 512 0)) as H1 by (split; [apply length_replicate|by apply Forall_replicate]).
  assert (∃ y, st_word BS_55AA 43605 (replicate 512 0) = Ok y ∧ length y = 512%nat ∧ Forall is_byte y) as (w2 & E2 & H2).
  { eexists. split; [apply st_word_ok; [done|]; rewrite length_replicate; done|]. apply Hp; [done|rewrite le_bytes_length; done|apply le_bytes_bytes]. }
  destruct (Hst FSI_LeadSig 1096897106 w2 H2 ltac:(done)) as (w3 & E3 & H3). destruct (Hst FSI_StrucSig 1631679090 w3 H3 ltac:(done)) as (w4 & E4 & H4).
  destruct (Hst FSI_Free_Count f w4 H4 ltac:(done)) as (w5 & E5 & H5). destruct (Hst FSI_Nxt_Free l w5 H5 ltac:(done)) as (w6 & E6 & H6).
  exists w2, w3, w4, w5, w6. done.
Qed.

Lemma sync_fs_ok F fs d img :
  fat_rep F fs d img → fsinfo_ok fs → ∃ fs' d' img', sync_fs W (fs, d) = Ok (FR_OK, (fs', d')) ∧ synced F fs img fs' d' img'.
Proof using HW.
  intros Hr Hinfo. pose proof Hr as [Hw Hd Hv Hsane]. pose proof (wo_geo _ _ Hw) as G. unfold sync_fs.
  destruct (sync_window_ok W HW fs d img Hw Hd) as (fs1 & d1 & img1 & E1 & Hd1 & Hw1 & Hk1 & Hf1 & Hws1 & Hwin1).
  rewrite (run_bind _ _ _ _ _ E1), decide_True by done. ff_run. pose proof (kv_volume _ _ _ _ Hk1) as V1.
  assert (fs_type fs1 = fs_type fs ∧ volbase fs1 = volbase fs ∧ fatbase fs1 = fatbase fs) as (Et & Evb & Efb) by (repeat split; apply V1).
  destruct (kv_alloc _ _ _ _ Hk1) as (Ei & El & Ef). assert (n_sect img1 = n_sect img) as Hn1 by apply Hk1.
  pose proof (keeps_rep F fs d img fs1 d1 img1 Hr Hk1 Hw1 Hd1) as Hr1.
  assert (∀ s, fatbase fs ≤ s < n_sect img → ¬ in_fat2 fs s → sector s img1 = view fs img s) as Hdisk.
  { intros s Hs H2. pose proof (geo_fatbase _ _ G). rewrite <-(kv_view _ _ _ _ Hk1) by (done || lia). symmetry. apply clean_view; [done|done|lia]. }
  assert (∀ fs2 d2 img2, fat_rep F fs2 d2 img2 → ∃ d3, (k ← dioctl CTRL_SYNC; mret (if negb (k =? RES_OK) then FR_DISK_ERR else FR_OK)) (fs2, d2) =
    Ok (FR_OK, (fs2, d3)) ∧ fat_rep F fs2 d3 img2) as Hio.
  { intros fs2 d2 img2 [Hw2 Hd2 Hv2 Hs2]. destruct (dsk_sync _ _ Hd2) as (d3 & E & Hd3). exists d3. split; [|by split].
    assert (dioctl CTRL_SYNC (fs2, d2) = Ok (RES_OK, (fs2, d3))) as Ed by (unfold dioctl; cbn [fst snd]; by rewrite (geo_pdrv _ _ (wo_geo _ _ Hw2)), E).
    by rewrite (run_bind _ _ _ _ _ Ed). }
  destruct ((fs_type fs1 =? FS_FAT32) && (fsi_flag fs1 =? 1)) eqn:Hc.
  2:{ ff_run. destruct (Hio fs1 d1 img1 Hr1) as (d3 & E3 & Hr3). exists fs1, d3, img1. split; [done|]. split; try done. by left. }
  apply andb_true_iff in Hc as [Ht%Z.eqb_eq Hfi%Z.eqb_eq]. rewrite Et in Ht. rewrite Ei in Hfi. pose proof (Hinfo Ht) as Hlow.
  destruct (fsinfo_bytes (win fs1) (free_clst fs1) (last_clst fs1) (wo_len _ _ Hw1)) as (w1 & w2 & w3 & w4 & w5 & w6 & X1 & X2 & X3 & X4 & X5 & X6 & Hl6 & Hb6).
  ff_run. rewrite (run_edit _ _ _ _ _ X1). ff_run. rewrite (run_edit _ w2) by exact X2. ff_run. rewrite (run_edit _ w3) by exact X3. ff_run.
  rewrite (run_edit _ w4) by exact X4. ff_run. rewrite (run_edit _ w5) by exact X5. ff_run. rewrite (run_edit _ w6) by exact X6. ff_run.
  destruct (dsk_bytes _ _ Hd) as [_ Hmax]. unfold FFFFFFFF in Hmax. assert (fatbase fs ≤ n_sect img) as Hfn.
  { destruct G as [_ _ Hff _ Hfs Hda Hcs He Hrr _ _ _]. assert (0 ≤ csize fs * (n_fatent fs - 2)) by nia. destruct Hff as [E|E]; rewrite E in *; lia. }
  rewrite Evb, (dw_small W HW) by lia. set (fs2 := set_winsect _ _).
  assert (fs2 = set_window 0 (volbase fs + 1) w6 fs1) as E2 by (transitivity (set_window (wflag fs1) (volbase fs + 1) w6 fs1); [reflexivity|by rewrite Hf1]).
  rewrite E2. change (win (set_window 0 (volbase fs + 1) w6 fs1)) with w6.
  change (winsect (set_window 0 (volbase fs + 1) w6 fs1)) with (volbase fs + 1).
  destruct (write_low F fs1 d1 img1 (volbase fs + 1) w6 Hr1 Hf1 ltac:(lia) Hl6 Hb6) as (d2 & Hwr & Hr2 & Hn2 & Hs2).
  rewrite (run_bind _ _ _ _ _ Hwr). ff_run.
  destruct (Hio _ d2 _ (alloc_rep F _ d2 _ 0 (last_clst fs1) (free_clst fs1) Hr2)) as (d3 & E3 & Hr3).
  exists (set_alloc 0 (last_clst fs1) (free_clst fs1) (set_window 0 (volbase fs + 1) w6 fs1)), d3, (patch (Z.to_nat ((volbase fs + 1) * SS)) w6 img1).
  split; [exact E3|]. split; [done|exact V1|congruence|done|done| |right; cbn; lia].
  intros s Hs H2. rewrite Hs2 by lia. by apply Hdisk.
Qed.

(** ** The entry is written *)

(** A field of the entry at [dir] is put. *)
Lemma put_field dir k bs e (w : list Z) :
  0 ≤ dir ≤ 480 → 0 ≤ k → (Z.to_nat k + length bs ≤ 32)%nat → length e = 32%nat → length w = 512%nat →
  patch (Z.to_nat (dir + k)) bs (patch (Z.to_nat dir) e w) = patch (Z.to_nat dir) (patch (Z.to_nat k) bs e) w.
Proof. intros Hd Hk Hb He Hw. rewrite Z2Nat.inj_add by lia. apply patch_in; lia. Qed.

Lemma patch_whole o n (w : list Z) : (o + n ≤ length w)%nat → patch o (bytes_at o n w) w = w.
Proof.
  intros Hl. apply list_eq. intros i. rewrite lookup_patch by (rewrite bytes_at_length; lia). rewrite bytes_at_length by lia.
  case_decide; [|done]. rewrite lookup_bytes_at, decide_True by lia. f_equal. lia.
Qed.

(** The edits of [f_sync] in the window. *)
Lemma sync_edits fs d w dir cl size {A} (k : ff D A) :
  win fs = w → length w = 512%nat → Forall is_byte w → 0 ≤ dir ≤ 480 →
  (a ← get_win (dir + DIR_Attr); edit_win (put (dir + DIR_Attr) (Z.lor a AM_ARC));;
   fs ← the_fs; edit_win (st_clust fs dir cl);; edit_win (st_dword (dir + DIR_FileSize) size);;
   edit_win (st_dword (dir + DIR_ModTime) GET_FATTIME);; edit_win (st_word (dir + DIR_LstAccDate) 0);;
   modify (set_wflag 1);; k) (fs, d) =
  k (set_window 1 (winsect fs) (patch (Z.to_nat dir) (sync_entry fs cl size (bytes_at (Z.to_nat dir) 32 w)) w) fs, d).
Proof.
  intros Hw Hl Hb Hd. set (e := bytes_at (Z.to_nat dir) 32 w). assert (length e = 32%nat) as L0 by (apply bytes_at_length; lia).
  assert (Forall is_byte e) as He by by apply bytes_at_bytes.
  assert (get w (dir + DIR_Attr) = Ok (ent_byte e DIR_Attr)) as Eg.
  { destruct (get_ok w (dir + DIR_Attr)) as (b & E & Hlk); [unfold DIR_Attr; lia|]. rewrite E. unfold ent_byte, e.
    rewrite lookup_bytes_at, decide_True by (unfold DIR_Attr; lia). replace (Z.to_nat dir + Z.to_nat DIR_Attr)%nat with (Z.to_nat (dir + DIR_Attr)) by (unfold DIR_Attr; lia).
    by rewrite Hlk. }
  unfold get_win. ff_run. rewrite Hw, Eg. ff_run. set (a := ent_byte e DIR_Attr) in *.
  assert (is_byte (Z.lor a AM_ARC)) as Ha by by apply arc_byte, ent_byte_byte.
  set (e1 := patch 11 [Z.lor a AM_ARC] e). set (e2 := patch 26 (le_bytes 2 (u16 cl)) e1).
  set (e3 := if fs_type fs =? FS_FAT32 then patch 20 (le_bytes 2 (u16 (Z.shiftr cl 16))) e2 else e2).
  set (e4 := patch 28 (le_bytes 4 size) e3). set (e5 := patch 22 (le_bytes 4 GET_FATTIME) e4).
  assert (length e1 = 32%nat) as L1 by (apply patch32; simpl; lia).
  assert (length e2 = 32%nat) as L2 by (apply patch32; rewrite ?le_bytes_length; lia).
  assert (length e3 = 32%nat) as L3 by (unfold e3; case_if; [apply patch32; rewrite ?le_bytes_length; lia|done]).
  assert (length e4 = 32%nat) as L4 by (apply patch32; rewrite ?le_bytes_length; lia).
  assert (length e5 = 32%nat) as L5 by (apply patch32; rewrite ?le_bytes_length; lia).
  assert (∀ x, length x = 32%nat → length (patch (Z.to_nat dir) x w) = 512%nat) as Lw by (intros x Hx; rewrite patch_length; lia).
  assert (put (dir + DIR_Attr) (Z.lor a AM_ARC) w = Ok (patch (Z.to_nat dir) e1 w)) as X1.
  { rewrite put_patch by (done || (unfold DIR_Attr; lia)). f_equal. rewrite <-(patch_whole (Z.to_nat dir) 32 w) at 1 by lia. fold e.
    apply (put_field dir 11); cbn [length]; done || lia. }
  assert (st_word (dir + DIR_FstClusLO) (u16 cl) (patch (Z.to_nat dir) e1 w) = Ok (patch (Z.to_nat dir) e2 w)) as X2.
  { unfold DIR_FstClusLO. rewrite st_word_ok by (rewrite ?Lw; done || lia). f_equal. apply put_field; rewrite ?le_bytes_length; done || lia. }
  assert (fs_type fs = FS_FAT32 → st_word (dir + DIR_FstClusHI) (u16 (Z.shiftr cl 16)) (patch (Z.to_nat dir) e2 w) = Ok (patch (Z.to_nat dir) e3 w)) as X3.
  { intros E. unfold DIR_FstClusHI, e3. rewrite E, Z.eqb_refl, st_word_ok by (rewrite ?Lw; done || lia). f_equal. apply put_field; rewrite ?le_bytes_length; done || lia. }
  assert (st_dword (dir + DIR_FileSize) size (patch (Z.to_nat dir) e3 w) = Ok (patch (Z.to_nat dir) e4 w)) as X4.
  { unfold DIR_FileSize. rewrite st_dword_ok by (rewrite ?Lw; done || lia). f_equal. apply put_field; rewrite ?le_bytes_length; done || lia. }
  assert (st_dword (dir + DIR_ModTime) GET_FATTIME (patch (Z.to_nat dir) e4 w) = Ok (patch (Z.to_nat dir) e5 w)) as X5.
  { unfold DIR_ModTime. rewrite st_dword_ok by (rewrite ?Lw; done || lia). f_equal. apply put_field; rewrite ?le_bytes_length; done || lia. }
  assert (st_word (dir + DIR_LstAccDate) 0 (patch (Z.to_nat dir) e5 w) = Ok (patch (Z.to_nat dir) (sync_entry fs cl size e) w)) as X6.
  { unfold DIR_LstAccDate. rewrite st_word_ok by (rewrite ?Lw; done || lia). f_equal. unfold e5, e4, e3. apply put_field; rewrite ?le_bytes_length; done || lia. }
  rewrite (run_edit _ (patch (Z.to_nat dir) e1 w)) by (rewrite Hw; exact X1). ff_run.
  rewrite (run_edit _ (patch (Z.to_nat dir) e3 w)).
  2:{ unfold st_clust. cbn [win set_win set_window]. rewrite X2, bind_Ok. change (fs_type (set_win _ fs)) with (fs_type fs).
      destruct (Z.eqb_spec (fs_type fs) FS_FAT32) as [E|E]; [by apply X3|]. unfold e3. destruct (Z.eqb_spec (fs_type fs) FS_FAT32); done. }
  ff_run. rewrite (run_edit _ (patch (Z.to_nat dir) e4 w)) by exact X4. ff_run. rewrite (run_edit _ (patch (Z.to_nat dir) e5 w)) by exact X5. ff_run.
  rewrite (run_edit _ (patch (Z.to_nat dir) (sync_entry fs cl size e) w)) by exact X6. ff_run. reflexivity.
Qed.

(** The first cluster fits the entry. *)
Lemma first_fits F fs n img l fp :
  geometry fs n → file_ok F fs img l fp → 0 ≤ sclust (f_obj fp) < 2 ^ 32 ∧ (fs_type fs = FS_FAT32 ∨ sclust (f_obj fp) < 2 ^ 16).
Proof.
  intros G Hf. destruct (ents_fit fs n G) as [He Hm]. unfold eoc in He.
  assert (0 ≤ sclust (f_obj fp) ∧ sclust (f_obj fp) < Z.max 1 (n_fatent fs)) as [Hs0 Hs1].
  { destruct (fo_chain _ _ _ _ _ Hf) as [[_ ->]|Hch]; [lia|]. assert (valid (n_fatent fs) (sclust (f_obj fp))) as Hv by by inversion Hch. unfold valid in Hv. lia. }
  split; [lia|]. destruct (geo_type _ _ G) as [E|[E|E]]; rewrite E in *; [right|right|by left]; unfold fat_mod in *; cbn in *; lia.
Qed.

(** The window is at a place outside the file. *)
Lemma apart_low fs n l : geometry fs n → Forall (valid (n_fatent fs)) l → 0 ≤ winsect fs < fatbase fs → apart fs l.
Proof.
  intros G Hl Hw Hs. pose proof (data_sect_range fs n l _ G Hl Hs) as [[Hr _] _].
  destruct G as [_ _ Hff Hfb Hfs Hda _ _ _ _ _ _]. destruct Hff as [E|E]; rewrite E in *; lia.
Qed.

Lemma f_sync_ok F fs d img l fp t c j :
  fat_rep F fs d img → file_ok F fs img l fp → opened fs fp → has_flag FA_MODIFIED fp = true → fsinfo_ok fs →
  table F fs c t → (∀ k, 0 ≤ k < tbl_len fs t → ¬ data_sect fs l (tbl_sect fs t k)) → 0 ≤ j < n_ents fs t →
  f_dir_sect fp = tbl_sect fs t (j / 16) → f_dir_ptr fp = 32 * (j `mod` 16) →
  let e' := sync_entry fs (sclust (f_obj fp)) (objsize (f_obj fp)) (ent fs img t j) in
  ∃ fs' d' img', f_sync W fp (fs, d) = Ok ((FR_OK, drop_flag FA_MODIFIED (clean fp)), (fs', d')) ∧ wflag fs' = 0 ∧ fat_rep F fs' d' img' ∧
    sector_set fs (shown fp img) (tbl_sect fs t (j / 16)) (Z.to_nat (32 * (j `mod` 16))) e' fs' img' ∧
    (last_clst fs' = last_clst fs ∧ free_clst fs' = free_clst fs) ∧ apart fs' l.
Proof using HW.
  intros Hr Hf Ho Hm Hinfo T Hta Hj Eds Edp e'. pose proof (wo_geo _ _ (fr_win _ _ _ _ Hr)) as G. pose proof (fo_valid _ _ _ _ _ Hf) as Hval.
  destruct (validate_ok F fs d img fp Hr Ho) as (d0 & E0 & Hr0). unfold f_sync. rewrite (run_bind _ _ _ _ _ E0), decide_False by naive_solver.
  rewrite Hm. destruct (write_back_ok F fs d0 img l fp Hr0 Hval (fo_apart _ _ _ _ _ Hf) (fo_buf _ _ _ _ _ Hf)) as (d1 & E1 & Hr1 & _ & Hfm).
  rewrite (run_bind _ _ _ _ _ E1). cbv beta iota. cbn [negb]. destruct (clean_same fp) as (Eo & _ & _ & _ & _ & _ & Ec1 & Ec2). rewrite Ec1, Ec2, Eo, Eds, Edp.
  set (im := shown fp img) in *. set (s0 := tbl_sect fs t (j / 16)).
  assert (0 ≤ j / 16 < tbl_len fs t) as Hki by (unfold n_ents in Hj; split; [apply Z.div_pos; lia|apply Z.div_lt_upper_bound; lia]).
  pose proof (tbl_sect_range F fs _ _ t G T (j / 16) Hki) as (Hrg & H1 & H2). fold s0 in Hrg, H1, H2. pose proof (fm_sects _ _ _ _ _ Hfm) as Hn.
  destruct (move_window_ok W HW fs d1 im s0 (fr_win _ _ _ _ Hr1) (fr_dsk _ _ _ _ Hr1) ltac:(lia) H2) as (fs1 & d2 & img1 & E2 & Hd2 & Hw1 & Hk & Hws & Hwin).
  rewrite (run_bind _ _ _ _ _ E2), decide_True by done. pose proof (kv_volume _ _ _ _ Hk) as V.
  pose proof (Z.mod_pos_bound j 16 ltac:(lia)) as Hq.
  rewrite (sync_edits fs1 d2 (win fs1)) by (done || lia || apply Hw1). rewrite Hws, Hwin.
  assert (view fs im s0 = view fs img s0) as Ev by (apply (fm_view _ _ _ _ _ Hfm); [lia|done|done|by apply Hta]).
  set (o := Z.to_nat (32 * (j `mod` 16))). assert (bytes_at o 32 (view fs im s0) = ent fs img t j) as Ee by (unfold ent; by rewrite Ev).
  assert (sync_entry fs1 (sclust (f_obj fp)) (objsize (f_obj fp)) (bytes_at o 32 (view fs im s0)) = e') as -> by (unfold e', sync_entry; rewrite Ee; by assert (fs_type fs1 = fs_type fs) as -> by apply V).
  pose proof (view_length fs im (fr_win _ _ _ _ Hr1) s0 ltac:(lia)) as Hvl. destruct (dsk_bytes _ _ (fr_dsk _ _ _ _ Hr1)) as [Hbi _].
  pose proof (view_bytes fs im (fr_win _ _ _ _ Hr1) Hbi s0) as Hvb.
  destruct (first_fits F fs _ img l fp G Hf) as [Hcl1 Hcl2]. pose proof (fo_size _ _ _ _ _ Hf) as [Hsz _]. pose proof (fo_max _ _ _ _ _ Hf) as Hmx.
  destruct (sync_entry_ok fs (sclust (f_obj fp)) (objsize (f_obj fp)) (ent fs img t j)) as (Le & Be & _);
    [rewrite <-Ee; apply bytes_at_length; lia|rewrite <-Ee; by apply bytes_at_bytes|done|done|done|]. fold e' in Le, Be.
  set (w := patch o e' (view fs im s0)). assert (length w = 512%nat) as Lw by (unfold w; rewrite patch_length; lia).
  assert (fatbase fs1 = fatbase fs ∧ volbase fs1 = volbase fs ∧ fs_type fs1 = fs_type fs) as (Efb & Evb & Eft) by (repeat split; apply V).
  assert (∀ s, in_fat fs1 s ↔ in_fat fs s) as Hin by (intros s; unfold in_fat; rewrite Efb; by assert (fsize fs1 = fsize fs) as -> by apply V).
  pose proof (in_fat2_same fs fs1) as Hin2. pose proof (kv_sects _ _ _ _ Hk) as Hn1.
  destruct (edit_outside F fs1 d2 img1 w (keeps_rep F fs d1 im fs1 d2 img1 Hr1 Hk Hw1 Hd2)) as [Hr2 Hv2];
    [lia|by rewrite Hws, Hin|by rewrite Hws, Hin2|done|by apply patch_bytes|]. rewrite Hws in Hr2, Hv2.
  set (fs2 := set_window 1 s0 w fs1) in *.
  destruct (sync_fs_ok F fs2 d2 img1 Hr2) as (fs3 & d3 & img3 & E3 & [Y1 Y2 Y3 Y4 Y5 Y6 Y7]).
  { unfold fsinfo_ok. change (volbase fs2) with (volbase fs1). change (fatbase fs2) with (fatbase fs1). change (fs_type fs2) with (fs_type fs1).
    by rewrite Efb, Evb, Eft. }
  rewrite (run_bind _ _ _ _ _ E3). exists fs3, d3, img3. split; [done|]. split; [done|]. split; [done|].
  change (fatbase fs2) with (fatbase fs1) in Y6, Y7. change (winsect fs2) with s0 in Y7. rewrite Efb in Y6, Y7.
  assert (same_volume fs fs3) as V3 by (transitivity fs1; [done|exact Y2]).
  split; [|split].
  - split; [done|lia|]. intros s Hs Hs2. pose proof (geo_fatbase _ _ G). rewrite (clean_view fs3 img3), Y6, Hv2 by (done || lia || apply Y1 || by rewrite (in_fat2_same fs fs2)).
    rewrite Z.eqb_sym. destruct (Z.eqb_spec s s0) as [->|Hne]; [done|]. apply (kv_view _ _ _ _ Hk); [lia|done].
  - destruct Y4 as [-> ->]. destruct (kv_alloc _ _ _ _ Hk) as (_ & <- & <-). done.
  - destruct Y7 as [Ew|Hlow].
    + unfold apart. rewrite Ew. destruct (same_volume_data fs fs3 V3) as (_ & -> & _). by apply Hta.
    + apply (apart_low fs3 (n_sect img3)); [apply Y1|by assert (n_fatent fs3 = n_fatent fs) as -> by apply V3|].
      by assert (fatbase fs3 = fatbase fs) as -> by apply V3.
Qed.

Lemma f_close_ok F fs d img l fp t c j :
  fat_rep F fs d img → file_ok F fs img l fp → opened fs fp → has_flag FA_MODIFIED fp = true → fsinfo_ok fs →
  table F fs c t → (∀ k, 0 ≤ k < tbl_len fs t → ¬ data_sect fs l (tbl_sect fs t k)) → 0 ≤ j < n_ents fs t →
  f_dir_sect fp = tbl_sect fs t (j / 16) → f_dir_ptr fp = 32 * (j `mod` 16) →
  let e' := sync_entry fs (sclust (f_obj fp)) (objsize (f_obj fp)) (ent fs img t j) in
  ∃ fp' fs' d' img', f_close W fp (fs, d) = Ok ((FR_OK, fp'), (fs', d')) ∧ obj_fs (f_obj fp') = false ∧ wflag fs' = 0 ∧ fat_rep F fs' d' img' ∧
    sector_set fs (shown fp img) (tbl_sect fs t (j / 16)) (Z.to_nat (32 * (j `mod` 16))) e' fs' img' ∧
    (last_clst fs' = last_clst fs ∧ free_clst fs' = free_clst fs) ∧ apart fs' l.
Proof using HW.
  intros Hr Hf Ho Hm Hinfo T Hta Hj Eds Edp e'.
  destruct (f_sync_ok F fs d img l fp t c j Hr Hf Ho Hm Hinfo T Hta Hj Eds Edp) as (fs1 & d1 & img1 & E1 & Hwf & Hr1 & Hset & Hal & Hap).
  unfold f_close. rewrite (run_bind _ _ _ _ _ E1). cbv beta iota. rewrite decide_True by done. destruct (clean_same fp) as (Eo & Eer & _).
  assert (opened fs1 (drop_flag FA_MODIFIED (clean fp))) as Ho1.
  { destruct Ho as (O1 & O2 & O3). unfold opened. cbn [f_obj f_err drop_flag set_f_flag]. rewrite Eo, Eer.
    by assert (fs_id fs1 = fs_id fs) as -> by apply (ss_volume _ _ _ _ _ _ _ Hset). }
  destruct (validate_ok F fs1 d1 img1 _ Hr1 Ho1) as (d2 & E2 & Hr2). rewrite (run_bind _ _ _ _ _ E2). rewrite decide_True by done.
  eexists _, fs1, d2, img1. split; [reflexivity|]. done.
Qed.

(** After the close the volume has the file at the end of the path, with what
    the object stood for. *)
Lemma closed_file F fs d img l fp data pos t c cs j fs' d' img' :
  is_file F fs d img l fp data pos → path_to F fs img c cs t j → path_clear F fs img l c cs →
  truth (Z.land (ent_attr (ent fs img t j)) AM_DIR) = false ∧ truth (Z.land (ent_attr (ent fs img t j)) AM_RDO) = false → fat_rep F fs' d' img' →
  sector_set fs (shown fp img) (tbl_sect fs t (j / 16)) (Z.to_nat (32 * (j `mod` 16)))
    (sync_entry fs (sclust (f_obj fp)) (objsize (f_obj fp)) (ent fs img t j)) fs' img' →
  last_clst fs' = last_clst fs ∧ free_clst fs' = free_clst fs → apart fs' l →
  path_to F fs' img' c cs t j ∧ file_entry F fs' img' t j l ∧ entry_data fs' img' t j l = data ∧ alloc_ok F fs' ∧ pow2_csize fs'.
Proof using HW.
  intros [Hr Hf [[Hal1 Hal2] Hal3] Ho _ -> _] Hp Hclr [Had Har] Hr' Hset [El Efc] Hap'. pose proof (wo_geo _ _ (fr_win _ _ _ _ Hr)) as G. pose proof (fo_valid _ _ _ _ _ Hf) as Hval.
  destruct (write_back_ok F fs d img l fp Hr Hval (fo_apart _ _ _ _ _ Hf) (fo_buf _ _ _ _ _ Hf)) as (d1 & _ & Hr1 & _ & Hfm).
  set (im := shown fp img) in *. pose proof (fr_win _ _ _ _ Hr1) as Hw1.
  destruct (path_frame F fs img l F fs im l c cs t j (fr_win _ _ _ _ Hr) (extends_refl _ _ _) Hfm Hval Hp Hclr) as (Hp1 & _ & (c' & T) & Hc' & Ee & Hj).
  set (e := ent fs img t j) in *. pose proof (ss_volume _ _ _ _ _ _ _ Hset) as V. pose proof (fm_sects _ _ _ _ _ Hfm) as Hn.
  assert (0 ≤ j / 16 < tbl_len fs t) as Hki by (unfold n_ents in Hj; split; [apply Z.div_pos; lia|apply Z.div_lt_upper_bound; lia]).
  pose proof (tbl_sect_range F fs _ _ t G T (j / 16) Hki) as (Hrg & _ & _). pose proof (Z.mod_pos_bound j 16 ltac:(lia)) as Hq.
  pose proof (view_length fs im Hw1 (tbl_sect fs t (j / 16)) ltac:(lia)) as Hvl. destruct (dsk_bytes _ _ (fr_dsk _ _ _ _ Hr1)) as [Hbi _].
  assert (e = bytes_at (Z.to_nat (32 * (j `mod` 16))) 32 (view fs im (tbl_sect fs t (j / 16)))) as Ev by (rewrite <-Ee; done).
  assert (length e = 32%nat ∧ Forall is_byte e) as [Le Be].
  { rewrite Ev. split; [apply bytes_at_length; lia|apply bytes_at_bytes; by apply view_bytes]. }
  destruct (first_fits F fs _ img l fp G Hf) as [Hcl1 Hcl2]. pose proof (fo_size _ _ _ _ _ Hf) as [Hsz Hszl]. pose proof (fo_max _ _ _ _ _ Hf) as Hmx.
  destruct (sync_entry_ok fs _ _ e Le Be Hcl1 Hcl2 (conj Hsz Hmx)) as (Le' & Be' & Hk & Ecl & Esz). set (e' := sync_entry _ _ _ e) in *.
  assert (ent fs' img' t j = e') as Een.
  { destruct (sector_set_ent F fs im _ (j `mod` 16) e e' fs' img' c' t j Hw1 T Hq Le' Ev Hset Hj) as [[_ [?|?]]|(_ & _ & ?)]; done. }
  destruct (same_volume_data fs fs' V) as (_ & Hds & Ect & Eb & Ecs). assert (n_fatent fs' = n_fatent fs) as En by apply V.
  split; [|split; [|split; [|split]]].
  - apply (path_kind F fs im (tbl_sect fs t (j / 16)) (j `mod` 16) e e'); done || lia.
  - split; rewrite ?Een, ?En, ?Eb, ?Esz; try done.
    + by rewrite (sk_dir _ _ _ Hk), (sk_rdo _ _ _ Hk).
    + assert (ent_clust fs' e' = sclust (f_obj fp)) as ->; [|apply (fo_chain _ _ _ _ _ Hf)]. rewrite <-Ecl. unfold ent_clust.
      by assert (fs_type fs' = fs_type fs) as -> by apply V.
    + destruct (same_table F fs fs' c' t V) as (_ & -> & Es & _). intros k Hkk. rewrite Es, Hds. by apply (clear_sects F fs (n_sect img) c').
  - unfold entry_data. rewrite Een, Esz. f_equal. unfold file_bytes. fold im. rewrite Ect. apply (content_ext fs (n_sect img)); [done|done|].
    intros s Hs. pose proof (data_sect_range fs _ l s G Hval Hs) as [Hsr Hs0]. pose proof (not_in_fat fs _ s G (proj1 Hsr)) as [_ Hn2].
    assert (fatbase fs ≤ s) as Hlo by (destruct G as [_ _ Hff _ Hfs Hda _ _ _ _ _ _]; destruct Hff as [E|E]; rewrite E in *; lia).
    pose proof (ss_view _ _ _ _ _ _ _ Hset s ltac:(lia) Hn2) as E. rewrite (proj2 (Z.eqb_neq _ _)) in E.
    2:{ intros ->. revert Hs. by apply (clear_sects F fs (n_sect img) c'). }
    pose proof (fo_apart _ _ _ _ _ Hf) as Hap. unfold view, apart in *. rewrite Hds in Hap'.
    rewrite !(proj2 (Z.eqb_neq _ _)) in E; [done| |]; by intros <-.
  - unfold alloc_ok, free_ok. rewrite El, Efc, En. done.
  - unfold pow2_csize. rewrite Ecs. apply (fo_pow2 _ _ _ _ _ Hf).
Qed.

Lemma keeps_frame l fs img fs' img' : keeps_view fs img fs' img' → frame l fs img fs' img'.
Proof. intros [V _ S Hv]. split; try done. intros s Hs _ H2 _. by apply Hv. Qed.

(** What the object stands for after some work is what the path leads to after
    the close. *)
Lemma run_close_open ops F fs d img v dj fp path cs t j l data pos :
  is_file F fs d img l fp data pos → fsinfo_ok fs → registered v = true → path_names path cs →
  Forall (λ c, short_name c.1 c.2) cs → path_to F fs img 0 cs t j → path_clear F fs img l 0 cs →
  truth (Z.land (ent_attr (ent fs img t j)) AM_DIR) = false ∧ truth (Z.land (ent_attr (ent fs img t j)) AM_RDO) = false →
  f_dir_sect fp = tbl_sect fs t (j / 16) → f_dir_ptr fp = 32 * (j `mod` 16) → length (fn dj) = 12%nat →
  Forall op_ok ops → has_flag FA_MODIFIED fp = true ∨ existsb is_write ops = true → reach (Z.of_nat (length data)) ops < 2 ^ 32 →
  let cap := capacity (n_fatent fs) F l * bcs fs in
  ∃ gaps, let '(resps, (data', _)) := spec_run cap gaps ops (data, pos) in
  ∃ fpr fpc s2 s3 F' l',
    file_run W ops fp (fs, d) = Ok ((FR_OK, resps, fpr), s2) ∧ f_close W fpr s2 = Ok ((FR_OK, fpc), s3) ∧ wflag s3.1 = 0 ∧
    ∀ fp2, length (f_buf fp2) = 512%nat → ∃ fpn fs' d' img',
      f_open W v dj fp2 path (Z.lor FA_READ FA_WRITE) s3 = Ok ((FR_OK, fpn, v), (fs', d')) ∧ is_file F' fs' d' img' l' fpn data' 0.
Proof using HW.
  intros Hf1 Hinfo Hreg Hpath Hcs Hto1 Hclr1 Hattr Eds Edp Hfn Hops Hmod0 H32 cap.
  destruct (file_run_ok W HW ops F fs d img l fp data pos Hf1 Hops H32) as (gaps & F2 & l2 & fpr & fs2 & d2 & img2 & E2 & Hf2 & Hx2 & Hfm2 & [Hso Hmod]).
  fold cap in E2, Hf2. exists gaps. destruct (spec_run cap gaps ops (data, pos)) as [resps [data' pos']]. cbn [fst snd] in E2, Hf2.
  pose proof Hf2 as [Hr2 Hfo2 Hal2 Hop2 _ _ _]. pose proof (fm_volume _ _ _ _ _ Hfm2) as V. assert (n_fatent fs2 = n_fatent fs) as En2 by apply V.
  pose proof (fo_valid _ _ _ _ _ Hfo2) as Hval2. rewrite En2 in Hval2.
  destruct (path_frame F fs img l F2 fs2 img2 l2 0 cs t j (fr_win _ _ _ _ (if_rep _ _ _ _ _ _ _ _ Hf1)) Hx2 Hfm2 Hval2 Hto1 Hclr1)
    as (Hto2 & Hclr2 & (c & T2) & Hct2 & Ee2 & Hj2).
  destruct (same_table F fs fs2 0 t V) as (_ & _ & Ets & Ete). destruct Hso as (_ & _ & _ & S4 & S5 & _). rewrite <-En2 in Hval2.
  destruct (f_close_ok F2 fs2 d2 img2 l2 fpr t c j Hr2 Hfo2 Hop2) as (fpc & fs3 & d3 & img3 & E3 & _ & Hwf & Hr3 & Hset & Hal3 & Hap3).
  { by apply Hmod. }
  { unfold fsinfo_ok. assert (fs_type fs2 = fs_type fs ∧ volbase fs2 = volbase fs ∧ fatbase fs2 = fatbase fs) as (-> & -> & ->) by (repeat split; apply V). done. }
  { done. }
  { intros k Hk. by apply (clear_sects F2 fs2 (n_sect img2) c); [apply Hr2| | | |]. }
  { by rewrite Ete. }
  { by rewrite S4, Ets. }
  { by rewrite S5. }
  destruct (closed_file F2 fs2 d2 img2 l2 fpr data' pos' t 0 cs j fs3 d3 img3 Hf2 Hto2 Hclr2) as (Hto3 & Hfe3 & Ed3 & Halo3 & P3); try done.
  { by rewrite Ee2. }
  exists fpr, fpc, (fs2, d2), (fs3, d3), F2, l2. split; [done|]. split; [done|]. split; [done|]. intros fp2 Hbuf2.
  destruct (f_open_ok W HW F2 fs3 d3 img3 v dj fp2 path cs t j l2 Hr3 P3 Halo3 Hreg Hpath Hcs Hto3 Hfe3 Hap3 Hfn Hbuf2)
    as (fpn & fs4 & d4 & img4 & E4 & Hf4 & _). rewrite Ed3 in Hf4. by exists fpn, fs4, d4, img4.
Qed.

(** C5: a file that was written and closed reads back: a file opened by a path,
    worked on by any sequence of [f_read], [f_write] and [f_lseek] with a write
    in it, seeks past the end included, and closed, is found again by its path,
    and the object then stands for exactly the bytes the sequence left, with
    the position at the beginning.  Nothing is left in the object or the
    window; data, FAT, size and first cluster come from the disk. *)
Theorem written_file_reads_back ops F fs d img v dj fp dj2 fp2 path cs t j l :
  fat_rep F fs d img → pow2_csize fs → alloc_ok F fs → fsinfo_ok fs → registered v = true → path_names path cs →
  Forall (λ c, short_name c.1 c.2) cs → path_to F fs img 0 cs t j → path_clear F fs img l 0 cs → file_entry F fs img t j l → apart fs l →
  length (fn dj) = 12%nat → length (f_buf fp) = 512%nat → length (fn dj2) = 12%nat → length (f_buf fp2) = 512%nat →
  Forall op_ok ops → existsb is_write ops = true → reach (ent_size (ent fs img t j)) ops < 2 ^ 32 →
  let cap := capacity (n_fatent fs) F l * bcs fs in
  ∃ gaps, let '(resps, (data', _)) := spec_run cap gaps ops (entry_data fs img t j l, 0) in
  ∃ fpo fpr fpc fpn s1 s2 s3 F' fs' d' img' l',
    f_open W v dj fp path (Z.lor FA_READ FA_WRITE) (fs, d) = Ok ((FR_OK, fpo, v), s1) ∧
    file_run W ops fpo s1 = Ok ((FR_OK, resps, fpr), s2) ∧
    f_close W fpr s2 = Ok ((FR_OK, fpc), s3) ∧ wflag s3.1 = 0 ∧
    f_open W v dj2 fp2 path (Z.lor FA_READ FA_WRITE) s3 = Ok ((FR_OK, fpn, v), (fs', d')) ∧
    is_file F' fs' d' img' l' fpn data' 0.
Proof using HW.
  intros Hr P Hal Hinfo Hreg Hpath Hcs Hto Hclr Hfe Hap Hfn Hbuf Hfn2 Hbuf2 Hops Hwr H32 cap.
  destruct (f_open_ok W HW F fs d img v dj fp path cs t j l Hr P Hal Hreg Hpath Hcs Hto Hfe Hap Hfn Hbuf)
    as (fpo & fs1 & d1 & img1 & E1 & Hf1 & Hk1 & Eds & Edp & Hj & _).
  pose proof (kv_volume _ _ _ _ Hk1) as V1. pose proof (fo_valid _ _ _ _ _ (if_file _ _ _ _ _ _ _ _ Hf1)) as Hval1.
  assert (n_fatent fs1 = n_fatent fs) as En1 by apply V1. destruct (same_volume_data fs fs1 V1) as (_ & _ & _ & Eb1 & _). rewrite En1 in Hval1.
  destruct (path_frame F fs img l F fs1 img1 l 0 cs t j (fr_win _ _ _ _ Hr) (extends_refl _ _ _) (keeps_frame l _ _ _ _ Hk1) Hval1 Hto Hclr)
    as (Hto1 & Hclr1 & _ & _ & Ee1 & _). destruct (same_table F fs fs1 0 t V1) as (_ & _ & Ets & _).
  pose proof (run_close_open ops F fs1 d1 img1 v dj2 fpo path cs t j l _ 0 Hf1) as Hrun. rewrite En1, Eb1 in Hrun. cbv zeta in Hrun. fold cap in Hrun.
  destruct Hrun as [gaps Hrun]; try done.
  { unfold fsinfo_ok. assert (fs_type fs1 = fs_type fs ∧ volbase fs1 = volbase fs ∧ fatbase fs1 = fatbase fs) as (-> & -> & ->) by (repeat split; apply V1). done. }
  { rewrite Ee1. apply (fe_attr _ _ _ _ _ _ Hfe). }
  { by rewrite Ets. }
  { by right. }
  { destruct (dsk_bytes _ _ (fr_dsk _ _ _ _ Hr)) as [Hby _]. pose proof (ent_size_bound fs img t j (fr_win _ _ _ _ Hr) Hby).
    eapply Z.le_lt_trans; [|exact H32]. apply reach_mono. unfold entry_data. rewrite length_take. lia. }
  exists gaps. destruct (spec_run cap gaps ops (entry_data fs img t j l, 0)) as [resps [data' pos']].
  destruct Hrun as (fpr & fpc & s2 & s3 & F' & l' & R1 & R2 & R3 & R4).
  destruct (R4 fp2 Hbuf2) as (fpn & fs' & d' & img' & R5 & R6).
  by exists fpo, fpr, fpc, fpn, (fs1, d1), s2, s3, F', fs', d', img', l'.
Qed.
End sync.

(** ** The file of the small volume grows by a cluster *)

Lemma deep_clear : path_clear deep_table small_fs deep_img [2; 3] 0 [(str "Sub", []); (str "a", str "txt")].
Proof.
  apply (clear_sub _ _ _ _ 0 None _ _ 0); [|done|vm_compute; reflexivity|].
  - split; [|done]. repeat split; (reflexivity || (vm_compute; discriminate)).
  - apply (clear_last _ _ _ _ _ (Some [4])); [|set_solver]. split; [|done].
    change (first_clust small_fs _) with 4. by apply chain_last.
Qed.

(** Written up to byte 1090, then a seek to byte 1200 and one more byte. *)
Lemma written_file_reads_back_witness :
  let path := Some (str "0:Sub/a.txt") in let mode := Z.lor FA_READ FA_WRITE in let v := mk_vars true 1 in
  ∃ gap fpo fpr fpc fpn s1 s2 s3 F' fs' d' img' l', length gap = 110%nat ∧
    f_open 32 v root_dp small_file path mode (small_fs, deep_host) = Ok ((FR_OK, fpo, v), s1) ∧
    file_run 32 [OSeek 690; OWrite (replicate 400 9); OSeek 1200; OWrite [5]] fpo s1 = Ok ((FR_OK, [RDone; RWrote 400; RDone; RWrote 1], fpr), s2) ∧
    f_close 32 fpr s2 = Ok ((FR_OK, fpc), s3) ∧ wflag s3.1 = 0 ∧
    f_open 32 v root_dp small_file path mode s3 = Ok ((FR_OK, fpn, v), (fs', d')) ∧
    is_file F' fs' d' img' l' fpn ((replicate 690 7 ++ replicate 400 9) ++ gap ++ [5]) 0.
Proof.
  intros path mode v.
  destruct (written_file_reads_back 32 ltac:(lia) [OSeek 690; OWrite (replicate 400 9); OSeek 1200; OWrite [5]] deep_table small_fs deep_host deep_img v
    root_dp small_file root_dp small_file path [(str "Sub", []); (str "a", str "txt")] (Some [4]) 0 [2; 3] deep_rep) as [gaps Hg].
  - exists 0. split; [lia|reflexivity].
  - split; [split; [split; vm_compute; (reflexivity || discriminate)|left; vm_compute; reflexivity]|split; vm_compute; (reflexivity || discriminate)].
  - intros E. discriminate E.
  - reflexivity.
  - eexists. split; vm_compute; reflexivity.
  - apply Forall_cons. split; [|apply Forall_singleton]; (split; [cbn; lia|cbn; lia|apply (bool_decide_unpack _); vm_compute; exact I]).
  - exact deep_path.
  - exact deep_clear.
  - exact deep_file.
  - intros (c & Hc & Hs). unfold clust_sect in Hs. cbn in Hs. apply list_elem_of_In in Hc as [<-|[<-|[]]]; lia.
  - reflexivity.
  - reflexivity.
  - reflexivity.
  - reflexivity.
  - do 4 (apply Forall_cons; split; [cbn [op_ok]; first [lia|by apply Forall_replicate|by repeat constructor]|]). apply Forall_nil_2.
  - reflexivity.
  - vm_compute. reflexivity.
  - set (gap := fit 110 (hd [] (tail (tail gaps)))) in *. exists gap.
    assert (∀ cap, cap = 1536 → spec_run cap gaps [OSeek 690; OWrite (replicate 400 9); OSeek 1200; OWrite [5]] (replicate 700 7, 0) =
      ([RDone; RWrote 400; RDone; RWrote 1], (patch 1200 [5] ((replicate 690 7 ++ replicate 400 9) ++ gap), 1201))) as E by (intros cap ->; reflexivity).
    assert (length gap = 110%nat) as Hgap by apply fit_length.
    rewrite patch_end, <-app_assoc in E by (rewrite length_app, Hgap; reflexivity).
    assert (entry_data small_fs deep_img (Some [4]) 0 [2; 3] = replicate 700 7) as Hd by (vm_compute; reflexivity).
    rewrite Hd, E in Hg by (vm_compute; reflexivity). clear E Hd.
    destruct Hg as (fpo & fpr & fpc & fpn & s1 & s2 & s3 & F' & fs' & d' & img' & l' & Hg).
    exists fpo, fpr, fpc, fpn, s1, s2, s3, F', fs', d', img', l'. exact (conj Hgap Hg).
Defined.
