(* ===== verification/FfCreate.v ===== *)
(** * FatFs: creating files

    [f_open] with a flag to create, on a path whose last name is not there,
    registers an entry and gives an object for an empty file; what is written
    through it is found by the path after the close. *)

From S2P Require Import Prelude Bytes Cstdio Diskio FatDiskio Hostdisk HostdiskProps Ff FfWindow FfFat FfChain FfStay FfHost FfProps.
From S2P Require Import FfDir FfMount FfFile FfApi FfData FfPos FfRead FfWrite FfGrow FfSeek FfFileProps FfMountProps FfFree.
From S2P Require Import FfTable FfDirProps FfNames FfShort FfPath FfOpen FfSync.

(** ** The directory of a path *)

(** No sector is in both tables. *)
Definition tables_apart (fs : FATFS) (l t : option (list Z)) : Prop :=
  ∀ k k', 0 ≤ k < tbl_len fs l → 0 ≤ k' < tbl_len fs t → tbl_sect fs l k ≠ tbl_sect fs t k'.

(** From the directory [c] the components lead to the directory [c'] with the
    table [t]; the last one is a name to look up there, whether it is there or
    not. *)
Inductive dir_path (F : Z → Z) (fs : FATFS) (img : list Z) : Z → list (list Z * list Z) → Z → option (list Z) → list Z → list Z → Prop :=
  | dir_here c t b e : table F fs c t → dir_path F fs img c [(b, e)] c t b e
  | dir_sub c l b e i cs c' t b' e' :
      table F fs c l → find_in (Z.to_nat (n_ents fs l)) (ent fs img l) (packed b e) 0 = Some i →
      truth (Z.land (ent_attr (ent fs img l i)) AM_DIR) = true → tables_apart fs l t →
      dir_path F fs img (ent_clust fs (ent fs img l i)) cs c' t b' e' → dir_path F fs img c ((b, e) :: cs) c' t b' e'.

Lemma dir_path_table F fs img c cs c' t b e : dir_path F fs img c cs c' t b e → table F fs c' t ∧ cs ≠ [].
Proof. induction 1 as [|? ? ? ? ? ? ? ? ? ? ? ? ? ? ? []]; done. Qed.

Lemma dir_path_last F fs img c cs c' t b e : dir_path F fs img c cs c' t b e → (b, e) ∈ cs.
Proof. induction 1; [by left|by right]. Qed.

Lemma dir_path_to F fs img c cs c' t b e j :
  dir_path F fs img c cs c' t b e → find_in (Z.to_nat (n_ents fs t)) (ent fs img t) (packed b e) 0 = Some j → path_to F fs img c cs t j.
Proof. induction 1; intros Hf; [by apply path_last|]. eapply path_sub; eauto. Qed.

Lemma dir_clear_nil F fs img c cs c' t b e : dir_path F fs img c cs c' t b e → path_clear F fs img [] c cs.
Proof.
  assert (∀ l, clear_of [] l) as Hc by (intros [l|]; [intros x _ Hx; by apply not_elem_of_nil in Hx|done]).
  induction 1; [by eapply clear_last|]. eapply clear_sub; eauto.
Qed.

(** Beside the sectors of the table at the end, only clusters the path is clear
    of change. *)
Lemma dir_path_change F fs img F' fs' img' l c cs c' t b e :
  win_ok fs img → same_volume fs fs' →
  (∀ s, fatbase fs ≤ s < n_sect img → ¬ in_fat fs s → ¬ in_fat2 fs s → (∀ k, 0 ≤ k < tbl_len fs t → s ≠ tbl_sect fs t k) → view fs' img' s = view fs img s) →
  (∀ c0 l0, chain (n_fatent fs) F c0 l0 → l0 ## l → chain (n_fatent fs) F' c0 l0) →
  path_clear F fs img l c cs → dir_path F fs img c cs c' t b e → dir_path F' fs' img' c cs c' t b e.
Proof.
  intros Hw V Hv Hch Hclr Hp. pose proof (wo_geo _ _ Hw) as G.
  assert (∀ c l0, table F fs c l0 → clear_of l l0 → table F' fs' c l0) as HT.
  { intros c0 l0 [Ts Tm] Hc. apply (same_table F' fs fs' c0 l0 V). split; [|done]. destruct l0 as [l0|]; [by apply Hch|done]. }
  induction Hp as [c t b e T|c l0 b e i cs c' t b' e' T Hf Ha Hap Hp IH]; inversion Hclr as [c1 l1 b1 e1 T1 Hc1|c1 l1 b1 e1 i1 cs1 T1 Hc1 Hf1 Hp1]; subst.
  - rewrite <-(table_det F fs c t l1 T T1) in Hc1. apply dir_here. by apply HT.
  - rewrite <-(table_det F fs c t l1 T T1) in *. inversion Hp1.
  - inversion Hp.
  - rewrite <-(table_det F fs c l0 l1 T T1) in *. rewrite Hf in Hf1. injection Hf1 as <-.
    destruct (same_table F fs fs' c l0 V) as (_ & El & Es & En). destruct (same_table F fs fs' c t V) as (_ & Elt & Est & _).
    assert (∀ k, 0 ≤ k < n_ents fs l0 → ent fs' img' l0 k = ent fs img l0 k) as Ee.
    { intros k Hk. assert (0 ≤ k / 16 < tbl_len fs l0) as Hki by (unfold n_ents in Hk; split; [apply Z.div_pos; lia|apply Z.div_lt_upper_bound; lia]).
      pose proof (tbl_sect_range F fs _ _ l0 G T (k / 16) Hki) as (Hrg & H1 & H2). pose proof (tbl_sect_low F fs _ _ l0 (k / 16) G T Hki).
      unfold ent. rewrite Es, Hv; [done|lia|done|done|]. intros k' Hk'. by apply Hap. }
    pose proof (find_in_bound _ _ _ _ _ Hf) as Hb. pose proof (n_ents_pos F fs _ _ _ G T).
    assert (find_in (Z.to_nat (n_ents fs' l0)) (ent fs' img' l0) (packed b e) 0 = Some i) as Hf'.
    { rewrite En, <-Hf. apply find_in_ext. intros k Hk. apply Ee. lia. }
    apply (dir_sub _ _ _ c l0 b e i); [by apply HT|done|by rewrite Ee by lia| |].
    + intros k k'. rewrite El, Elt, Es, Est. apply Hap.
    + rewrite Ee by lia. assert (ent_clust fs' (ent fs img l0 i) = ent_clust fs (ent fs img l0 i)) as ->; [|by apply IH].
      unfold ent_clust. by assert (fs_type fs' = fs_type fs) as -> by apply V.
Qed.

(** Only the table at the end changes. *)
Lemma dir_path_only F fs img fs' img' c cs c' t b e :
  win_ok fs img → table_only fs img t fs' img' → dir_path F fs img c cs c' t b e → dir_path F fs' img' c cs c' t b e.
Proof.
  intros Hw [V S Hv] Hp. pose proof (geo_fatbase _ _ (wo_geo _ _ Hw)). apply (dir_path_change F fs img F fs' img' []); try done.
  - intros s Hs _ H2 Ht. apply Hv; [lia|done|done].
  - by eapply dir_clear_nil.
Qed.

(** The first entry that is free gets the name that was not there. *)
Lemma find_in_added m e e' nm i j E :
  find_in m e nm i = None → free_at m e i = Some j → (∀ k, i ≤ k < i + Z.of_nat m → e' k = if k =? j then E else e k) →
  named nm E = true → ent_byte E DIR_Name ≠ 0 → find_in m e' nm i = Some j.
Proof.
  intros Hf Hj He Hn H0. revert i Hf Hj He. induction m as [|m IH]; intros i Hf Hj He; [done|]. cbn [find_in free_at] in *.
  rewrite (He i) by lia. destruct (is_free (e i)) eqn:Hfr.
  - injection Hj as ->. rewrite Z.eqb_refl, Hn. by rewrite (proj2 (Z.eqb_neq _ _) H0).
  - pose proof (free_at_bound _ _ _ _ Hj). rewrite (proj2 (Z.eqb_neq i j)) by lia.
    unfold is_free in Hfr. apply orb_false_iff in Hfr as [_ Hz]. rewrite Hz in Hf |- *. destruct (named nm (e i)); [done|].
    apply IH; [done|done|]. intros k Hk. apply He. lia.
Qed.

(** ** The new entry *)

(** The name, the archive bit and the time of creation; no cluster, no byte. *)
Definition created_entry (nm : list Z) : list Z := nm ++ [AM_ARC; 0; 0] ++ le_bytes 4 GET_FATTIME ++ replicate 14 0.

(** As [open_truncate] makes it from a fresh one. *)
Lemma created_patches (fs : FATFS) nm :
  length nm = 11%nat →
  let e := patch 26 (le_bytes 2 (u16 0)) (patch 11 [AM_ARC] (patch 14 (le_bytes 4 GET_FATTIME) (new_entry nm))) in
  patch 28 (le_bytes 4 0) (if fs_type fs =? FS_FAT32 then patch 20 (le_bytes 2 (u16 (Z.shiftr 0 16))) e else e) = created_entry nm.
Proof.
  intros Hl. destruct nm as [|a0 [|a1 [|a2 [|a3 [|a4 [|a5 [|a6 [|a7 [|a8 [|a9 [|a10 [|]]]]]]]]]]]]; try done.
  destruct (fs_type fs =? FS_FAT32); reflexivity.
Qed.

Lemma created_fields fs nm :
  good_name nm →
  let e := created_entry nm in
  length e = 32%nat ∧ Forall is_byte e ∧ named nm e = true ∧ ent_byte e DIR_Name ≠ 0 ∧ ent_clust fs e = 0 ∧ ent_size e = 0 ∧ ent_attr e = AM_ARC.
Proof.
  intros Hg. pose proof Hg as (Hl & Hb & _). assert (length (created_entry nm) = 32%nat) as H32 by (unfold created_entry; by rewrite length_app, Hl).
  assert (named nm (created_entry nm) = true) as Hn.
  { unfold named, created_entry, ent_byte, DIR_Attr. rewrite lookup_app_r, Hl, take_app_length', (take_ge nm), bool_decide_true by (done || lia). done. }
  split; [done|]. split; [apply Forall_app; split; [done|]; apply (bool_decide_unpack _); vm_compute; exact I|]. split; [done|].
  split; [by apply (named_first nm)|]. clear Hg Hb Hn H32.
  destruct nm as [|a0 [|a1 [|a2 [|a3 [|a4 [|a5 [|a6 [|a7 [|a8 [|a9 [|a10 [|]]]]]]]]]]]]; try done.
  unfold ent_clust. destruct (fs_type fs =? FS_FAT32); done.
Qed.

Section create.
Context {D : Type} `{Disk D} (W : Z).
Hypothesis HW : 32 ≤ W.

Implicit Types (fs : FATFS) (d : D) (img : list Z) (F : Z → Z).

(** ** The name is not there *)

(** The directory object stands at the directory, with the name. *)
Definition missed (c : Z) (b e : list Z) (dp : DIR) : Prop := sclust (d_obj dp) = c ∧ fn dp = packed b e ++ [NS_LAST].

Lemma follow_loop_none cs fuel F fs d img c t b e dp :
  Forall (λ c, short_name c.1 c.2) cs → fat_rep F fs d img → pow2_csize fs → dir_path F fs img (sclust (d_obj dp)) cs c t b e →
  find_in (Z.to_nat (n_ents fs t)) (ent fs img t) (packed b e) 0 = None → length (fn dp) = 12%nat → (length cs ≤ fuel)%nat →
  ∃ dp' fs' d' img', follow_loop W fuel dp (path_text cs) (fs, d) = Ok ((FR_NO_FILE, dp'), (fs', d')) ∧ fat_rep F fs' d' img' ∧
    keeps_view fs img fs' img' ∧ missed c b e dp'.
Proof using HW.
  intros Hcs. revert fuel fs d img dp. induction Hcs as [|[b0 e0] cs Hsn Hcs IH]; intros fuel fs d img dp Hr P Hp Hnone Hfn Hfuel; [inversion Hp|].
  cbn [length fst snd] in *. destruct fuel as [|fuel]; [lia|].
  inversion Hp as [c1 t1 b1 e1 T|c1 l1 b1 e1 i cs1 c2 t1 b2 e2 T Hf Ha Hap Hp']; subst.
  - cbn [follow_loop path_text]. pose proof (create_name_ok b e [] dp Hsn I Hfn) as E. rewrite app_nil_r in E. rewrite E. ff_run.
    rewrite decide_False by naive_solver. destruct (packed_good b e Hsn) as (Hl & _).
    destruct (dir_find_ok W HW F fs d img t (set_fn (packed b e ++ [NS_LAST]) dp) Hr P T) as (r & dp' & fs' & d' & img' & E2 & Hr' & Hk & (Ef & Esc & _) & Hfd).
    { cbn [fn set_fn]. by rewrite length_app, Hl. }
    cbn [fn set_fn d_obj] in *. rewrite (find_in_name _ _ _ (packed b e)), Hnone in Hfd by (intros; by apply named_flag). cbn [found] in Hfd. subst r.
    rewrite (run_bind _ _ _ _ _ E2). cbv beta iota. assert (get (fn dp') NSFLAG = Ok NS_LAST) as ->.
    { rewrite Ef. unfold get. change (NSFLAG <? 0) with false. cbv iota. rewrite lookup_app_r by (rewrite Hl; done). by rewrite Hl. }
    ff_run. rewrite !decide_True by done. change (negb (truth (Z.land NS_LAST NS_LAST))) with false. exists dp', fs', d', img'. done.
  - destruct cs as [|c0 cs]; [inversion Hp'|].
    destruct (follow_sub W HW F fs d img l1 i dp b0 e0 c0 cs fuel Hcs Hsn Hr P T Hf Ha Hfn) as (dp3 & fs2 & d2 & img2 & -> & Hr2 & Hk2 & Esc & Hfn3 & _).
    pose proof (kv_volume _ _ _ _ Hk2) as V. destruct (dir_path_table _ _ _ _ _ _ _ _ _ Hp') as [T' _].
    destruct (IH fuel fs2 d2 img2 dp3) as (dp4 & fs4 & d4 & img4 & E4 & Hr4 & Hk4 & Hre);
      [done|unfold pow2_csize; by assert (csize fs2 = csize fs) as -> by apply V| | |done|cbn [length] in *; lia|].
    { rewrite Esc. by apply (dir_path_only F fs img fs2 img2); [apply Hr|apply keeps_table_only|]. }
    { destruct (same_table F fs fs2 c t V) as (_ & _ & _ & ->). rewrite <-Hnone. pose proof (wo_geo _ _ (fr_win _ _ _ _ Hr)) as G.
      pose proof (n_ents_pos F fs _ _ _ G T'). apply find_in_ext. intros k Hk. apply (ent_keeps F fs img fs2 img2 (n_sect img) c); try done. lia. }
    exists dp4, fs4, d4, img4. split; [done|]. split; [done|]. split; [by eapply keeps_view_trans|done].
Qed.

Lemma follow_path_none cs p F fs d img c t b e dp :
  strip_seps p = path_text cs → Forall (λ c, short_name c.1 c.2) cs → fat_rep F fs d img → pow2_csize fs → dir_path F fs img 0 cs c t b e →
  find_in (Z.to_nat (n_ents fs t)) (ent fs img t) (packed b e) 0 = None → length (fn dp) = 12%nat →
  ∃ dp' fs' d' img', follow_path W dp p (fs, d) = Ok ((FR_NO_FILE, dp'), (fs', d')) ∧ fat_rep F fs' d' img' ∧
    keeps_view fs img fs' img' ∧ missed c b e dp'.
Proof using HW.
  intros Hs Hcs Hr P Hp Hno Hfn. destruct (dir_path_table _ _ _ _ _ _ _ _ _ Hp) as [_ Hne].
  destruct (follow_path_start W cs p dp (fs, d) Hs Hcs Hne) as (fuel & Hfuel & ->). by apply (follow_loop_none cs fuel F fs d img c t b e).
Qed.

(** The window with the fresh entry is changed. *)
Lemma truncate_fresh fs d nm dj :
  length nm = 11%nat → length (win fs) = 512%nat → Forall is_byte (win fs) → 0 ≤ d_dir dj ≤ 480 →
  bytes_at (Z.to_nat (d_dir dj)) 32 (win fs) = new_entry nm →
  open_truncate W dj (fs, d) = Ok (FR_OK, (set_window 1 (winsect fs) (patch (Z.to_nat (d_dir dj)) (created_entry nm) (win fs)) fs, d)).
Proof using HW.
  intros Hnm Hl Hb Hd He. set (dir := d_dir dj) in *. set (w := win fs) in *.
  assert (length (new_entry nm) = 32%nat) as L0 by (unfold new_entry; rewrite length_app, length_take, length_replicate; lia).
  set (e1 := patch 14 (le_bytes 4 GET_FATTIME) (new_entry nm)). set (e2 := patch 11 [AM_ARC] e1). set (e3 := patch 26 (le_bytes 2 (u16 0)) e2).
  set (e4 := if fs_type fs =? FS_FAT32 then patch 20 (le_bytes 2 (u16 (Z.shiftr 0 16))) e3 else e3).
  assert (patch 28 (le_bytes 4 0) e4 = created_entry nm) as E5 by by apply created_patches.
  assert (length e1 = 32%nat) as L1 by (apply patch32; rewrite ?le_bytes_length; lia).
  assert (length e2 = 32%nat) as L2 by (apply patch32; simpl; lia).
  assert (length e3 = 32%nat) as L3 by (apply patch32; rewrite ?le_bytes_length; lia).
  assert (length e4 = 32%nat) as L4 by (unfold e4; case_if; [apply patch32; rewrite ?le_bytes_length; lia|done]).
  assert (∀ x, length x = 32%nat → length (patch (Z.to_nat dir) x w) = 512%nat) as Lw by (intros x Hx; rewrite patch_length; lia).
  assert (ld_clust W fs dir = Ok 0) as E0.
  { assert (∀ k, 0 ≤ k → (Z.to_nat k + 2 ≤ 32)%nat → bytes_at (Z.to_nat (dir + k)) 2 w = bytes_at (Z.to_nat k) 2 (new_entry nm)) as Hk.
    { intros k Hk1 Hk2. rewrite <-He, bytes_at_bytes_at by lia. f_equal. lia. }
    unfold ld_clust. fold w. unfold DIR_FstClusLO, DIR_FstClusHI. rewrite (ld_word_ok w (dir + 26)), (Hk 26) by (done || lia).
    assert (∀ k, (11 ≤ k ≤ 30)%nat → bytes_at k 2 (new_entry nm) = [0; 0]) as Hz.
    { intros k Hk3. unfold new_entry. rewrite (take_ge nm) by lia. unfold bytes_at. rewrite drop_app_ge, Hnm, drop_replicate, take_replicate by lia.
      by replace (2 `min` (21 - (k - 11)))%nat with 2%nat by lia. }
    rewrite Hz, bind_Ok by lia. case_if; [|done]. rewrite (ld_word_ok w (dir + 20)), (Hk 20), Hz, bind_Ok by (done || lia). change (le_value [0; 0]) with 0.
    cbn [Z.lor]. rewrite Z.shiftl_0_l. unfold wrap. by rewrite Z.mod_0_l by lia. }
  assert (st_dword (dir + DIR_CrtTime) GET_FATTIME w = Ok (patch (Z.to_nat dir) e1 w)) as X1.
  { unfold DIR_CrtTime. rewrite st_dword_ok by lia. f_equal. rewrite <-(patch_whole (Z.to_nat dir) 32 w) at 1 by lia. rewrite He.
    apply (put_field dir 14); rewrite ?le_bytes_length; done || lia. }
  assert (put (dir + DIR_Attr) AM_ARC (patch (Z.to_nat dir) e1 w) = Ok (patch (Z.to_nat dir) e2 w)) as X2.
  { unfold DIR_Attr. rewrite put_patch by (rewrite ?Lw; done || lia). f_equal. apply (put_field dir 11); cbn [length]; done || lia. }
  assert (st_word (dir + DIR_FstClusLO) (u16 0) (patch (Z.to_nat dir) e2 w) = Ok (patch (Z.to_nat dir) e3 w)) as X3.
  { unfold DIR_FstClusLO. rewrite st_word_ok by (rewrite ?Lw; done || lia). f_equal. apply put_field; rewrite ?le_bytes_length; done || lia. }
  assert (fs_type fs = FS_FAT32 → st_word (dir + DIR_FstClusHI) (u16 (Z.shiftr 0 16)) (patch (Z.to_nat dir) e3 w) = Ok (patch (Z.to_nat dir) e4 w)) as X4.
  { intros E. unfold DIR_FstClusHI, e4. rewrite E, Z.eqb_refl, st_word_ok by (rewrite ?Lw; done || lia). f_equal. apply put_field; rewrite ?le_bytes_length; done || lia. }
  assert (st_dword (dir + DIR_FileSize) 0 (patch (Z.to_nat dir) e4 w) = Ok (patch (Z.to_nat dir) (created_entry nm) w)) as X5.
  { unfold DIR_FileSize. rewrite st_dword_ok, <-E5 by (rewrite ?Lw; done || lia). f_equal. apply put_field; rewrite ?le_bytes_length; done || lia. }
  unfold open_truncate. ff_run. fold dir. rewrite E0. ff_run. rewrite (run_edit _ (patch (Z.to_nat dir) e1 w)) by exact X1. ff_run.
  rewrite (run_edit _ (patch (Z.to_nat dir) e2 w)) by exact X2. ff_run. rewrite (run_edit _ (patch (Z.to_nat dir) e4 w)).
  2:{ unfold st_clust. cbn [win set_win set_window]. rewrite X3, bind_Ok.
      destruct (Z.eqb_spec (fs_type fs) FS_FAT32) as [E|E]; [by apply X4|]. unfold e4. destruct (Z.eqb_spec (fs_type fs) FS_FAT32); done. }
  ff_run. rewrite (run_edit _ (patch (Z.to_nat dir) (created_entry nm) w)) by exact X5. ff_run. reflexivity.
Qed.

(** The flags that create a file that is not there. *)
Definition create_flag (m : Z) : Prop := m = FA_CREATE_NEW ∨ m = FA_CREATE_ALWAYS ∨ m = FA_OPEN_ALWAYS.

(** A later entry in the same place. *)
Lemma entry_set_trans F c fs img t j e1 e2 fs1 img1 fs2 img2 :
  table F fs c t → entry_set fs img t j e1 fs1 img1 → entry_set fs1 img1 t j e2 fs2 img2 → entry_set fs img t j e2 fs2 img2.
Proof.
  intros T [V1 S1 E1 W1 A1] [V2 S2 E2 W2 A2]. destruct (same_table F fs fs1 c t V1) as (_ & El & Es & En).
  split; [by etrans|congruence| | |by etrans].
  - intros i Hi. rewrite E2, E1 by (rewrite ?En; done). by destruct (i =? j).
  - intros s Hs H2 Ht. rewrite W2, W1; [done|done|done|done|by rewrite S1|by rewrite (in_fat2_same fs fs1)|].
    intros k Hk. rewrite Es. apply Ht. by rewrite <-El.
Qed.

(** The entry is registered and made that of an empty file. *)
Lemma make_entry_ok F fs d img c t b e j dj mode :
  fat_rep F fs d img → pow2_csize fs → table F fs c t → short_name b e → missed c b e dj → create_flag mode →
  free_at (Z.to_nat (n_ents fs t)) (ent fs img t) 0 = Some j →
  ∃ dj' fs' d' img', open_entry W FR_NO_FILE dj (Z.lor mode 3) (fs, d) = Ok ((FR_OK, dj', Z.lor (Z.lor mode 3) FA_CREATE_ALWAYS), (fs', d')) ∧
    fat_rep F fs' d' img' ∧ dir_pos fs' t j dj' ∧ winsect fs' = d_sect dj' ∧ entry_set fs img t j (created_entry (packed b e)) fs' img'.
Proof using HW.
  intros Hr P T Hsn [Esc Efn] Hm Hfree. destruct (packed_good b e Hsn) as (Hl & Hb & H0n & HDn). subst c.
  destruct (dir_register_ok W HW F fs d img t dj Hr P T) as (r & dj1 & fs1 & d1 & img1 & E1 & Hr1 & _ & _ & Hreg);
    [by rewrite Efn, length_app, Hl|rewrite Efn; apply Forall_app; split; [done|by repeat constructor]|rewrite Hfree; by right|].
  rewrite Hfree in Hreg. destruct Hreg as (-> & Hp & Hws & Hes). rewrite Efn in Hes.
  assert (new_entry (packed b e ++ [NS_LAST]) = new_entry (packed b e)) as Enw by (unfold new_entry; by rewrite take_app_le by lia).
  rewrite Enw in Hes. pose proof (es_volume _ _ _ _ _ _ _ Hes) as V. pose proof (dir_pos_same _ _ _ _ _ V Hp) as Hp1. pose proof (fr_win _ _ _ _ Hr1) as Hw1.
  destruct (same_table F fs fs1 (sclust (d_obj dj)) t V) as (Tt & _ & Ets & En). pose proof Hp1 as [Hi _ Hs Hdd _]. pose proof (Z.mod_pos_bound j 16 ltac:(lia)).
  assert (ent fs1 img1 t j = new_entry (packed b e)) as Eent by (rewrite (es_ent _ _ _ _ _ _ _ Hes), Z.eqb_refl by (by rewrite <-En); done).
  assert (bytes_at (Z.to_nat (d_dir dj1)) 32 (win fs1) = new_entry (packed b e)) as Ewin.
  { rewrite <-Eent. unfold ent. by rewrite <-Hs, <-Hdd, <-Hws; unfold view; rewrite Z.eqb_refl. }
  pose proof (truncate_fresh fs1 d1 (packed b e) dj1 Hl (wo_len _ _ Hw1) (wo_bytes _ _ Hw1) ltac:(lia) Ewin) as Et.
  destruct (created_fields fs (packed b e)) as (H32 & Hb32 & _); [by apply packed_good|].
  destruct (edit_entry F fs1 d1 img1 (sclust (d_obj dj)) t j dj1 0 (created_entry (packed b e)) Hr1 (proj2 Tt T) Hp1 Hws) as [Hr2 Hes2]; [lia|done|].
  rewrite Nat.add_0_r in Hr2, Hes2. assert (patch 0 (created_entry (packed b e)) (ent fs1 img1 t j) = created_entry (packed b e)) as Ep.
  { unfold patch. rewrite take_0, drop_ge; [by rewrite app_nil_r|]. rewrite H32. unfold ent, bytes_at. rewrite length_take. lia. }
  rewrite Ep in Hes2. exists dj1. eexists _, d1, img1.
  split; [|split; [exact Hr2|split; [|split; [exact Hws|by apply (entry_set_trans F (sclust (d_obj dj)) fs img t j (new_entry (packed b e)) _ fs1 img1)]]]].
  - unfold open_entry. assert (truth (Z.land (Z.lor mode 3) (Z.lor (Z.lor FA_CREATE_ALWAYS FA_OPEN_ALWAYS) FA_CREATE_NEW)) = true) as -> by (destruct Hm as [->|[->| ->]]; done).
    rewrite !decide_True by done. ff_run. rewrite (run_bind _ _ _ _ _ E1). cbv beta iota. ff_run.
    assert (truth (Z.land (Z.lor (Z.lor mode 3) FA_CREATE_ALWAYS) FA_CREATE_ALWAYS) = true) as -> by (destruct Hm as [->|[->| ->]]; done).
    change (bool_decide (FR_OK = FR_OK)) with true. cbn [andb]. rewrite (run_bind _ _ _ _ _ Et). reflexivity.
  - apply (dir_pos_same fs1); [done|done].
Qed.

Lemma f_create_ok F fs d img v dj fp path cs c t b e j mode :
  fat_rep F fs d img → pow2_csize fs → alloc_ok F fs → registered v = true → path_names path cs →
  Forall (λ c, short_name c.1 c.2) cs → dir_path F fs img 0 cs c t b e →
  find_in (Z.to_nat (n_ents fs t)) (ent fs img t) (packed b e) 0 = None → free_at (Z.to_nat (n_ents fs t)) (ent fs img t) 0 = Some j →
  create_flag mode → length (fn dj) = 12%nat → length (f_buf fp) = 512%nat →
  ∃ fp' fs' d' img', f_open W v dj fp path (Z.lor mode (Z.lor FA_READ FA_WRITE)) (fs, d) = Ok ((FR_OK, fp', v), (fs', d')) ∧
    is_file F fs' d' img' [] fp' [] 0 ∧ entry_set fs img t j (created_entry (packed b e)) fs' img' ∧ path_to F fs' img' 0 cs t j ∧
    f_dir_sect fp' = tbl_sect fs t (j / 16) ∧ f_dir_ptr fp' = 32 * (j `mod` 16) ∧ has_flag FA_MODIFIED fp' = true.
Proof using HW.
  intros Hr P Hal Hreg Hpath Hcs Hdp Hnone Hfree Hm Hfn Hbuf. destruct Hpath as (p & Hpath & Hstrip). unfold f_open.
  assert (Z.land (Z.lor mode (Z.lor FA_READ FA_WRITE)) 63 = Z.lor mode 3) as -> by (destruct Hm as [->|[->| ->]]; done). cbv zeta.
  destruct (find_mounted W F v fs d img path (Z.lor mode 3) Hr Hreg ltac:(by rewrite Hpath)) as (d0 & E0 & Hr0). rewrite Hpath in E0. cbn [fst snd] in E0.
  rewrite (run_bind _ _ _ _ _ E0). cbv beta iota. rewrite decide_True by done. cbn [default from_option id].
  destruct (follow_path_none cs p F fs d0 img c t b e (set_obj (set_obj_fs true (d_obj dj)) dj) Hstrip Hcs Hr0 P Hdp Hnone Hfn) as (dj1 & fs1 & d1 & img1 & E1 & Hr1 & Hk1 & Hms).
  ff_run. rewrite (run_bind _ _ _ _ _ E1). cbv beta iota. pose proof Hms as [_ Efn1].
  assert (short_name b e) as Hsn by exact (proj1 (Forall_forall _ _) Hcs _ (dir_path_last _ _ _ _ _ _ _ _ _ Hdp)).
  pose proof (packed_good b e Hsn) as Hg. pose proof Hg as (Hl & _). assert (get (fn dj1) NSFLAG = Ok NS_LAST) as ->.
  { rewrite Efn1. unfold get. change (NSFLAG <? 0) with false. cbv iota. rewrite lookup_app_r by (rewrite Hl; done). by rewrite Hl. }
  ff_run. change (bool_decide (FR_NO_FILE = FR_OK)) with false. cbn [andb].
  pose proof (kv_volume _ _ _ _ Hk1) as V1. destruct (dir_path_table _ _ _ _ _ _ _ _ _ Hdp) as [T _]. pose proof (wo_geo _ _ (fr_win _ _ _ _ Hr)) as G.
  destruct (same_table F fs fs1 c t V1) as (Tt & El1 & Es1 & En1). pose proof (n_ents_pos F fs _ _ _ G T) as Hpos.
  assert (∀ i, 0 ≤ i < n_ents fs t → ent fs1 img1 t i = ent fs img t i) as Ee1 by (intros i Hi; by apply (ent_keeps F fs img fs1 img1 (n_sect img) c)).
  destruct (make_entry_ok F fs1 d1 img1 c t b e j dj1 mode Hr1) as (dj2 & fs2 & d2 & img2 & E2 & Hr2 & Hp2 & Hws2 & Hes2); try done.
  { unfold pow2_csize. by assert (csize fs1 = csize fs) as -> by apply V1. } { by apply Tt. }
  { rewrite En1, <-Hfree. apply free_at_ext. intros i Hi. apply Ee1. lia. }
  rewrite (run_bind _ _ _ _ _ E2). cbv beta iota. rewrite decide_True by done.
  assert (truth (Z.land (Z.lor (Z.lor mode 3) FA_CREATE_ALWAYS) FA_CREATE_ALWAYS) = true) as -> by (destruct Hm as [->|[->| ->]]; done). ff_run.
  pose proof (entry_set_keeps F c t j _ fs img fs1 img1 fs2 img2 (fr_win _ _ _ _ Hr) T Hk1 Hes2) as Hes. pose proof (es_volume _ _ _ _ _ _ _ Hes) as V.
  destruct (same_table F fs fs2 c t V) as (Tt2 & El2 & Es2 & En2). pose proof (free_at_bound _ _ _ _ Hfree) as Hj.
  destruct (created_fields fs2 (packed b e) Hg) as (H32 & Hb32 & Hn & Hn0 & Ecl & Esz & Eat).
  assert (ent fs2 img2 t j = created_entry (packed b e)) as Eent by (by rewrite (es_ent _ _ _ _ _ _ _ Hes), Z.eqb_refl by lia).
  assert (file_entry F fs2 img2 t j []) as Hfe.
  { split; rewrite ?Eent, ?Eat, ?Ecl, ?Esz; [done|by left|simpl; lia|]. intros k _ (x & Hx & _). by apply not_elem_of_nil in Hx. }
  assert (apart fs2 []) as Hap by (intros (x & Hx & _); by apply not_elem_of_nil in Hx).
  destruct (open_file_ok W HW F fs2 d2 img2 fs2 d2 img2 t c j [] dj2 (set_f_entry (winsect fs2) (d_dir dj2) fp)
    (Z.lor (Z.lor (Z.lor mode 3) FA_CREATE_ALWAYS) FA_MODIFIED)) as (fp' & E3 & Hf & Ed1 & Ed2 & Efl); try done.
  { apply Hr2. } { by apply Tt2. } { unfold pow2_csize. by assert (csize fs2 = csize fs) as -> by apply V. }
  { by apply (alloc_keeps F fs); [|apply Hes|]. } { split; [done|]. by rewrite <-Hws2; unfold view; rewrite Z.eqb_refl. }
  { unfold rw_mode. destruct Hm as [->|[->| ->]]; done. }
  rewrite (run_bind _ _ _ _ _ E3). cbv beta iota. rewrite decide_False by naive_solver. exists fp', fs2, d2, img2. split; [done|].
  assert (entry_data fs2 img2 t j [] = []) as Ed by (unfold entry_data; by rewrite Eent, Esz). rewrite Ed in Hf. split; [done|]. split; [done|].
  split; [|rewrite Ed1, Ed2; cbn [f_dir_sect f_dir_ptr set_f_entry]; rewrite Hws2, (dp_sect _ _ _ _ Hp2), (dp_dir _ _ _ _ Hp2), Es2; split; [done|split; [done|]];
    unfold has_flag; rewrite Efl; destruct Hm as [->|[->| ->]]; done].
  apply (dir_path_to F fs2 img2 0 cs c t b e); [by apply (dir_path_only F fs img); [apply Hr|apply (set_table_only _ _ _ _ _ _ _ Hes)|]|].
  rewrite En2. apply (find_in_added _ (ent fs img t) _ _ 0 j (created_entry (packed b e))); try done. intros k Hk. apply (es_ent _ _ _ _ _ _ _ Hes). lia.
Qed.

(** Opening with a flag to create, on a path to a directory with room that
    does not have the name, gives an empty file open for reading and writing;
    the first free entry of the directory is that of the file, the path leads
    to it, and every other entry and sector outside the FATs is as before. *)
Theorem create_gives_empty_file F fs d img v dj fp path cs c t b e j mode :
  fat_rep F fs d img → pow2_csize fs → alloc_ok F fs → registered v = true → path_names path cs →
  Forall (λ c, short_name c.1 c.2) cs → dir_path F fs img 0 cs c t b e →
  find_in (Z.to_nat (n_ents fs t)) (ent fs img t) (packed b e) 0 = None → free_at (Z.to_nat (n_ents fs t)) (ent fs img t) 0 = Some j →
  create_flag mode → length (fn dj) = 12%nat → length (f_buf fp) = 512%nat →
  ∃ fp' fs' d' img', f_open W v dj fp path (Z.lor mode (Z.lor FA_READ FA_WRITE)) (fs, d) = Ok ((FR_OK, fp', v), (fs', d')) ∧
    is_file F fs' d' img' [] fp' [] 0 ∧ path_to F fs' img' 0 cs t j ∧ entry_set fs img t j (created_entry (packed b e)) fs' img'.
Proof using HW.
  intros Hr P Hal Hreg Hpath Hcs Hdp Hnone Hfree Hm Hfn Hbuf.
  destruct (f_create_ok F fs d img v dj fp path cs c t b e j mode Hr P Hal Hreg Hpath Hcs Hdp Hnone Hfree Hm Hfn Hbuf)
    as (fp' & fs' & d' & img' & E & Hf & Hes & Hp & _). by exists fp', fs', d', img'.
Qed.

(** C6: a new file reads back: a file that is created by its path, written by
    any sequence of [f_write], [f_lseek] and [f_read], seeks past the end
    included, and closed, is found by its path with exactly the bytes the
    sequence left. *)
Theorem new_file_reads_back ops F fs d img v dj fp dj2 fp2 path cs c t b e j mode :
  fat_rep F fs d img → pow2_csize fs → alloc_ok F fs → fsinfo_ok fs → registered v = true → path_names path cs →
  Forall (λ c, short_name c.1 c.2) cs → dir_path F fs img 0 cs c t b e →
  find_in (Z.to_nat (n_ents fs t)) (ent fs img t) (packed b e) 0 = None → free_at (Z.to_nat (n_ents fs t)) (ent fs img t) 0 = Some j →
  create_flag mode → length (fn dj) = 12%nat → length (f_buf fp) = 512%nat → length (fn dj2) = 12%nat → length (f_buf fp2) = 512%nat →
  Forall op_ok ops → reach 0 ops < 2 ^ 32 →
  let cap := n_free (n_fatent fs) F * bcs fs in
  ∃ gaps, let '(resps, (data', _)) := spec_run cap gaps ops ([], 0) in
  ∃ fpo fpr fpc fpn s1 s2 s3 F' fs' d' img' l',
    f_open W v dj fp path (Z.lor mode (Z.lor FA_READ FA_WRITE)) (fs, d) = Ok ((FR_OK, fpo, v), s1) ∧
    file_run W ops fpo s1 = Ok ((FR_OK, resps, fpr), s2) ∧
    f_close W fpr s2 = Ok ((FR_OK, fpc), s3) ∧ wflag s3.1 = 0 ∧
    f_open W v dj2 fp2 path (Z.lor FA_READ FA_WRITE) s3 = Ok ((FR_OK, fpn, v), (fs', d')) ∧
    is_file F' fs' d' img' l' fpn data' 0.
Proof using HW.
  intros Hr P Hal Hinfo Hreg Hpath Hcs Hdp Hnone Hfree Hm Hfn Hbuf Hfn2 Hbuf2 Hops H32 cap.
  destruct (f_create_ok F fs d img v dj fp path cs c t b e j mode Hr P Hal Hreg Hpath Hcs Hdp Hnone Hfree Hm Hfn Hbuf)
    as (fpo & fs1 & d1 & img1 & E1 & Hf1 & Hes & Hto1 & Eds & Edp & Hmod).
  pose proof (es_volume _ _ _ _ _ _ _ Hes) as V1. assert (n_fatent fs1 = n_fatent fs) as En1 by apply V1.
  destruct (same_volume_data fs fs1 V1) as (_ & _ & _ & Eb1 & _). destruct (same_table F fs fs1 c t V1) as (_ & _ & Ets & _).
  pose proof (run_close_open W HW ops F fs1 d1 img1 v dj2 fpo path cs t j [] [] 0 Hf1) as Hrun. rewrite En1, Eb1 in Hrun. cbv zeta in Hrun.
  change (capacity (n_fatent fs) F [] * bcs fs) with cap in Hrun.
  destruct Hrun as [gaps Hrun]; try done.
  { unfold fsinfo_ok. assert (fs_type fs1 = fs_type fs ∧ volbase fs1 = volbase fs ∧ fatbase fs1 = fatbase fs) as (-> & -> & ->) by (repeat split; apply V1). done. }
  { apply (dir_clear_nil _ _ _ _ _ c t b e). apply (dir_path_only F fs img); [apply Hr|by apply (set_table_only _ _ _ _ _ _ _ Hes)|done]. }
  { pose proof (free_at_bound _ _ _ _ Hfree) as Hj. rewrite (es_ent _ _ _ _ _ _ _ Hes), Z.eqb_refl by lia.
    assert (short_name b e) as Hsn by exact (proj1 (Forall_forall _ _) Hcs _ (dir_path_last _ _ _ _ _ _ _ _ _ Hdp)).
    destruct (created_fields fs (packed b e) (packed_good b e Hsn)) as (_ & _ & _ & _ & _ & _ & ->). done. }
  { by rewrite Ets. }
  { by left. }
  exists gaps. destruct (spec_run cap gaps ops ([], 0)) as [resps [data' pos']].
  destruct Hrun as (fpr & fpc & s2 & s3 & F' & l' & R1 & R2 & R3 & R4).
  destruct (R4 fp2 Hbuf2) as (fpn & fs' & d' & img' & R5 & R6).
  by exists fpo, fpr, fpc, fpn, (fs1, d1), s2, s3, F', fs', d', img', l'.
Qed.
End create.

(** ** A file is created on the small volume *)

Lemma deep_dir b e : dir_path deep_table small_fs deep_img 0 [(str "Sub", []); (b, e)] 4 (Some [4]) b e.
Proof.
  apply (dir_sub _ _ _ 0 None _ _ 0).
  - split; [|done]. repeat split; (reflexivity || (vm_compute; discriminate)).
  - vm_compute. reflexivity.
  - vm_compute. reflexivity.
  - intros k k' Hk Hk'. change (tbl_len small_fs None) with 1 in Hk. change (tbl_len small_fs (Some [4])) with 1 in Hk'.
    assert (k = 0) as -> by lia. assert (k' = 0) as -> by lia. vm_compute. discriminate.
  - change (ent_clust small_fs (ent small_fs deep_img None 0)) with 4. apply dir_here. split; [|done].
    change (first_clust small_fs 4) with 4. by apply chain_last.
Qed.

Lemma deep_alloc : alloc_ok deep_table small_fs.
Proof. split; [split; [split; vm_compute; (reflexivity || discriminate)|left; vm_compute; reflexivity]|split; vm_compute; (reflexivity || discriminate)]. Qed.

Lemma deep_names : Forall (λ c, short_name c.1 c.2) [(str "Sub", []); (str "new", str "c")].
Proof. apply Forall_cons. split; [|apply Forall_singleton]; (split; [cbn; lia|cbn; lia|apply (bool_decide_unpack _); vm_compute; exact I]). Qed.

Lemma create_gives_empty_file_witness :
  ∃ fp' fs' d' img', f_open 32 (mk_vars true 1) root_dp small_file (Some (str "0:Sub/new.c")) (Z.lor FA_CREATE_NEW (Z.lor FA_READ FA_WRITE)) (small_fs, deep_host) =
      Ok ((FR_OK, fp', mk_vars true 1), (fs', d')) ∧
    is_file deep_table fs' d' img' [] fp' [] 0 ∧ path_to deep_table fs' img' 0 [(str "Sub", []); (str "new", str "c")] (Some [4]) 1.
Proof.
  destruct (create_gives_empty_file 32 ltac:(lia) deep_table small_fs deep_host deep_img (mk_vars true 1) root_dp small_file (Some (str "0:Sub/new.c"))
    [(str "Sub", []); (str "new", str "c")] 4 (Some [4]) (str "new") (str "c") 1 FA_CREATE_NEW deep_rep) as (fp' & fs' & d' & img' & E & Hf & Hp & _).
  - exists 0. split; [lia|reflexivity].
  - exact deep_alloc.
  - reflexivity.
  - eexists. split; vm_compute; reflexivity.
  - exact deep_names.
  - apply deep_dir.
  - vm_compute. reflexivity.
  - vm_compute. reflexivity.
  - by left.
  - reflexivity.
  - reflexivity.
  - exists fp', fs', d', img'. split; [exact E|]. split; [exact Hf|exact Hp].
Defined.

(** The first call of the empty file is a seek to byte 20. *)
Lemma new_file_reads_back_witness :
  let path := Some (str "0:Sub/new.c") in let mode := Z.lor FA_READ FA_WRITE in let v := mk_vars true 1 in
  ∃ gap fpo fpr fpc fpn s1 s2 s3 F' fs' d' img' l', length gap = 20%nat ∧
    f_open 32 v root_dp small_file path (Z.lor FA_CREATE_ALWAYS mode) (small_fs, deep_host) = Ok ((FR_OK, fpo, v), s1) ∧
    file_run 32 [OSeek 20; OWrite [1; 2]] fpo s1 = Ok ((FR_OK, [RDone; RWrote 2], fpr), s2) ∧
    f_close 32 fpr s2 = Ok ((FR_OK, fpc), s3) ∧ wflag s3.1 = 0 ∧
    f_open 32 v root_dp small_file path mode s3 = Ok ((FR_OK, fpn, v), (fs', d')) ∧
    is_file F' fs' d' img' l' fpn (gap ++ [1; 2]) 0.
Proof.
  intros path mode v.
  destruct (new_file_reads_back 32 ltac:(lia) [OSeek 20; OWrite [1; 2]] deep_table small_fs deep_host deep_img v
    root_dp small_file root_dp small_file path [(str "Sub", []); (str "new", str "c")] 4 (Some [4]) (str "new") (str "c") 1 FA_CREATE_ALWAYS
    deep_rep) as [gaps Hg].
  - exists 0. split; [lia|reflexivity].
  - exact deep_alloc.
  - intros E. discriminate E.
  - reflexivity.
  - eexists. split; vm_compute; reflexivity.
  - exact deep_names.
  - apply deep_dir.
  - vm_compute. reflexivity.
  - vm_compute. reflexivity.
  - right. by left.
  - reflexivity.
  - reflexivity.
  - reflexivity.
  - reflexivity.
  - do 2 (apply Forall_cons; split; [cbn [op_ok]; first [lia|by repeat constructor]|]). apply Forall_nil_2.
  - vm_compute. reflexivity.
  - set (gap := fit 20 (hd [] gaps)) in *. exists gap. assert (length gap = 20%nat) as Hgap by apply fit_length.
    assert (∀ cap, cap = 512 → spec_run cap gaps [OSeek 20; OWrite [1; 2]] ([], 0) =
      ([RDone; RWrote 2], (patch 20 [1; 2] gap, 22))) as E by (intros cap ->; reflexivity).
    rewrite patch_end in E by done. rewrite E in Hg by (vm_compute; reflexivity). clear E.
    destruct Hg as (fpo & fpr & fpc & fpn & s1 & s2 & s3 & F' & fs' & d' & img' & l' & Hg).
    exists fpo, fpr, fpc, fpn, s1, s2, s3, F', fs', d', img', l'. exact (conj Hgap Hg).
Defined.
