(* ===== verification/FfUnlink.v ===== *)
(** * FatFs: removing files

    [f_unlink] on the path of a file takes its entry out of the directory and
    gives its clusters back; the name is not found any more. *)

From S2P Require Import Prelude Bytes Cstdio Diskio FatDiskio Hostdisk HostdiskProps Ff FfWindow FfFat FfChain FfStay FfHost FfProps.
From S2P Require Import FfDir FfMount FfFile FfApi FfData FfPos FfRead FfWrite FfGrow FfSeek FfFileProps FfMountProps FfFree.
From S2P Require Import FfTable FfDirProps FfNames FfShort FfPath FfOpen FfSync FfCreate.

(** Used clusters that are freed add to the free ones. *)
Lemma n_free_freed n F l : NoDup l → Forall (λ x, valid n x ∧ F x ≠ 0) l → n_free n (freed l F) = n_free n F + Z.of_nat (length l).
Proof.
  intros Hnd. revert F. induction Hnd as [|x l Hx Hnd IH]; intros F Hl.
  { rewrite (n_free_ext n F); [simpl; lia|]. intros c _. unfold freed. by rewrite decide_False by apply not_elem_of_nil. }
  apply Forall_cons in Hl as [[Hv HF] Hl].
  rewrite (n_free_ext n (freed l (upd F x 0))).
  2:{ intros c _. unfold freed, upd. destruct (Z.eqb_spec c x); repeat case_decide; set_solver. }
  rewrite IH.
  - rewrite n_free_upd by done. rewrite Z.eqb_refl, (proj2 (Z.eqb_neq _ _) HF). cbn [length]. lia.
  - apply Forall_forall. intros y Hyl. destruct (proj1 (Forall_forall _ _) Hl y Hyl) as [Hy HFy]. split; [done|]. by rewrite upd_ne by (intros ->; done).
Qed.

Section unlink.
Context {D : Type} `{Disk D} (W : Z).
Hypothesis HW : 32 ≤ W.

Implicit Types (fs : FATFS) (d : D) (img : list Z) (F : Z → Z).

(** The clusters of a file, none for an empty one. *)
Lemma remove_file_chain F fs d img c l :
  fat_rep F fs d img → alloc_ok F fs → (l = [] ∧ c = 0 ∨ chain (n_fatent fs) F c l) →
  ∃ fs' d' img', (if truth c then remove_chain W c 0 else mret FR_OK) (fs, d) = Ok (FR_OK, (fs', d')) ∧ fat_rep (freed l F) fs' d' img' ∧
    alloc_ok (freed l F) fs' ∧ data_same fs img fs' img' ∧ n_free (n_fatent fs) (freed l F) = n_free (n_fatent fs) F + Z.of_nat (length l).
Proof using HW.
  intros Hr [Hf Hl] [[-> ->]|Hch].
  - assert (∀ x, valid (n_fatent fs) x → freed [] F x = F x) as E by (intros x _; unfold freed; by rewrite decide_False by apply not_elem_of_nil).
    exists fs, d, img. split; [done|]. split; [by apply (fat_rep_ext F)|]. split; [split; [by apply (free_ok_ext F)|done]|].
    split; [apply data_same_refl|]. rewrite (n_free_ext _ F) by done. simpl. lia.
  - assert (valid (n_fatent fs) c) as Hv by by inversion Hch. rewrite (proj2 (truth_true c)) by (unfold valid in Hv; lia).
    destruct (remove_chain_ok W HW F fs d img c 0 l Hr Hf Hch ltac:(by left)) as (fs' & d' & img' & E & Hr' & Hf' & Hds & El).
    change (cut fs 0 F) with F in *. exists fs', d', img'. split; [done|]. split; [done|]. split; [split; [done|by rewrite El]|]. split; [done|].
    apply n_free_freed; [by eapply cluster_chain_NoDup|]. eapply Forall_impl; [by eapply chain_used|]. cbn beta. intros x [Hx1 Hx2]. split; [done|lia].
Qed.

(** All but the entry and the FAT, before the FAT excepted. *)
Record unlinked F fs img t j l fs' d' img' : Prop := {
  ul_rep : fat_rep (freed l F) fs' d' img';
  ul_alloc : alloc_ok (freed l F) fs';
  ul_volume : same_volume fs fs';
  ul_sects : n_sect img' = n_sect img;
  ul_synced : wflag fs' = 0;
  ul_free : n_free (n_fatent fs) (freed l F) = n_free (n_fatent fs) F + Z.of_nat (length l);
  ul_entries : ∀ i, 0 ≤ i < n_ents fs t → ent fs' img' t i = if i =? j then patch 0 [DDEM] (ent fs img t j) else ent fs img t i;
  ul_chains : ∀ c0 l0, chain (n_fatent fs) F c0 l0 → l0 ## l → chain (n_fatent fs) (freed l F) c0 l0;
  ul_view : ∀ s, fatbase fs ≤ s < n_sect img → ¬ in_fat fs s → ¬ in_fat2 fs s → (∀ k, 0 ≤ k < tbl_len fs t → s ≠ tbl_sect fs t k) →
    view fs' img' s = view fs img s;
}.

(** The steps after the entry was found. *)
Lemma unlink_steps F fs d img c t j dj l :
  fat_rep F fs d img → alloc_ok F fs → fsinfo_ok fs → table F fs c t → dir_pos fs t j dj →
  (l = [] ∧ ent_clust fs (ent fs img t j) = 0 ∨ chain (n_fatent fs) F (ent_clust fs (ent fs img t j)) l) →
  ∃ s1 s2 fs' d' img', dir_remove W dj (fs, d) = Ok (FR_OK, s1) ∧
    (if truth (ent_clust fs (ent fs img t j)) then remove_chain W (ent_clust fs (ent fs img t j)) 0 else mret FR_OK) s1 = Ok (FR_OK, s2) ∧
    sync_fs W s2 = Ok (FR_OK, (fs', d')) ∧
    unlinked F fs img t j l fs' d' img'.
Proof using HW.
  intros Hr Hal Hinfo T Hp Hch. pose proof (wo_geo _ _ (fr_win _ _ _ _ Hr)) as G.
  destruct (dir_remove_ok W HW F fs d img c t j dj Hr T Hp) as (fs1 & d1 & img1 & E1 & Hr1 & Hes).
  pose proof (es_volume _ _ _ _ _ _ _ Hes) as V1. assert (n_fatent fs1 = n_fatent fs) as En1 by apply V1.
  destruct (remove_file_chain F fs1 d1 img1 _ l Hr1 (alloc_keeps F fs fs1 V1 (es_alloc _ _ _ _ _ _ _ Hes) Hal) ltac:(by rewrite En1))
    as (fs2 & d2 & img2 & E2 & Hr2 & Hal2 & Hds & Hn2).
  pose proof (ds_volume _ _ _ _ Hds) as V2. assert (same_volume fs fs2) as V by by transitivity fs1. rewrite En1 in Hn2.
  assert (fs_type fs2 = fs_type fs ∧ volbase fs2 = volbase fs ∧ fatbase fs2 = fatbase fs ∧ n_fatent fs2 = n_fatent fs) as (Et & Evb & Efb & En) by (repeat split; apply V).
  destruct (sync_fs_ok W HW (freed l F) fs2 d2 img2 Hr2) as (fs3 & d3 & img3 & E3 & [Y1 Y2 Y3 Y4 Y5 Y6 Y7]).
  { unfold fsinfo_ok. by rewrite Et, Evb, Efb. }
  exists (fs1, d1), (fs2, d2), fs3, d3, img3. split; [done|]. split; [done|]. split; [done|]. rewrite Efb in Y6.
  pose proof (ds_sects _ _ _ _ Hds) as Hs2. pose proof (es_sects _ _ _ _ _ _ _ Hes) as Hs1. pose proof (geo_fatbase _ _ G) as Hfb.
  assert (∀ s, fatbase fs ≤ s < n_sect img → ¬ in_fat fs s → ¬ in_fat2 fs s → view fs3 img3 s = view fs1 img1 s) as Hv.
  { intros s Hs H1 H2. rewrite (clean_view fs3 img3), Y6 by (done || lia || apply Y1 || by rewrite (in_fat2_same fs fs2)).
    apply (ds_view _ _ _ _ Hds); [lia| |by rewrite (in_fat2_same fs fs1)]. unfold in_fat in *.
    by assert (fatbase fs1 = fatbase fs ∧ fsize fs1 = fsize fs) as [-> ->] by (split; apply V1). }
  destruct (same_table F fs fs3 c t ltac:(by transitivity fs2)) as (_ & _ & Ets & Ete). destruct (same_table F fs fs1 c t V1) as (_ & _ & Ets1 & _).
  split; [done| |by transitivity fs2|lia|done|done| | |].
  - destruct Hal2 as [[Hf1 Hf2] Hl2]. destruct Y4 as [El Ef]. assert (n_fatent fs3 = n_fatent fs2) as En3 by apply Y2.
    unfold alloc_ok, free_ok. by rewrite El, Ef, En3.
  - intros i Hi. rewrite <-(es_ent _ _ _ _ _ _ _ Hes) by done. unfold ent. rewrite Ets, Ets1.
    assert (0 ≤ i / 16 < tbl_len fs t) as Hki by (unfold n_ents in Hi; split; [apply Z.div_pos; lia|apply Z.div_lt_upper_bound; lia]).
    pose proof (tbl_sect_range F fs _ _ t G T (i / 16) Hki) as (Hrg & H1 & H2). pose proof (tbl_sect_low F fs _ _ t (i / 16) G T Hki).
    rewrite Hv by (done || lia). done.
  - intros c0 l0 Hc0 Hdis. apply (chain_ext _ F); [done|]. intros x Hx. unfold freed. rewrite decide_False; [done|]. intros Hxl. by apply (Hdis x).
  - intros s Hs H1 H2 Ht. rewrite Hv by done. apply (es_view _ _ _ _ _ _ _ Hes); [lia|done|done].
Qed.

Lemma unlinked_keeps F fs d img fs1 img1 c t j l fs' d' img' :
  fat_rep F fs d img → table F fs c t → keeps_view fs img fs1 img1 → 0 ≤ j < n_ents fs t → unlinked F fs1 img1 t j l fs' d' img' → unlinked F fs img t j l fs' d' img'.
Proof.
  intros Hr T Hk Hj [U1 U2 U3 U4 U5 U6 U7 U8 U9]. pose proof (kv_volume _ _ _ _ Hk) as V. destruct (same_table F fs fs1 c t V) as (_ & El & Es & En).
  assert (n_fatent fs1 = n_fatent fs ∧ fatbase fs1 = fatbase fs ∧ fsize fs1 = fsize fs) as (Ef & Efb & Efs) by (repeat split; apply V).
  pose proof (wo_geo _ _ (fr_win _ _ _ _ Hr)) as G. pose proof (kv_sects _ _ _ _ Hk) as Hs. pose proof (geo_fatbase _ _ G).
  assert (∀ i, 0 ≤ i < n_ents fs t → ent fs1 img1 t i = ent fs img t i) as Ee by (intros i Hi; by apply (ent_keeps F fs img fs1 img1 (n_sect img) c)).
  rewrite Ef in U6, U8. split; try done; [by transitivity fs1|congruence| |].
  - intros i Hi. rewrite U7, !Ee by (done || by rewrite En). done.
  - intros s Hss Hi1 Hi2 Ht. rewrite U9; [apply (kv_view _ _ _ _ Hk); [lia|done]|by rewrite Efb, Hs|unfold in_fat in *; by rewrite Efb, Efs|by rewrite (in_fat2_same fs fs1)|].
    intros k Hkk. rewrite Es. apply Ht. by rewrite <-El.
Qed.

(** A name that is not there cannot be opened. *)
Lemma f_open_none F fs d img v dj fp path cs c t b e :
  fat_rep F fs d img → pow2_csize fs → registered v = true → path_names path cs →
  Forall (λ c, short_name c.1 c.2) cs → dir_path F fs img 0 cs c t b e →
  find_in (Z.to_nat (n_ents fs t)) (ent fs img t) (packed b e) 0 = None → length (fn dj) = 12%nat →
  ∃ s', f_open W v dj fp path (Z.lor FA_READ FA_WRITE) (fs, d) = Ok ((FR_NO_FILE, set_f_obj (set_obj_fs false (f_obj fp)) fp, v), s').
Proof using HW.
  intros Hr P Hreg Hpath Hcs Hdp Hnone Hfn. destruct Hpath as (p & Hpath & Hstrip). unfold f_open. change (Z.land (Z.lor FA_READ FA_WRITE) 63) with 3. cbv zeta.
  destruct (find_mounted W F v fs d img path 3 Hr Hreg ltac:(by rewrite Hpath)) as (d0 & E0 & Hr0). rewrite Hpath in E0. cbn [fst snd] in E0.
  rewrite (run_bind _ _ _ _ _ E0). cbv beta iota. rewrite decide_True by done. cbn [default from_option id].
  destruct (follow_path_none W HW cs p F fs d0 img c t b e (set_obj (set_obj_fs true (d_obj dj)) dj) Hstrip Hcs Hr0 P Hdp Hnone Hfn)
    as (dj1 & fs1 & d1 & img1 & E1 & Hr1 & _ & [_ Efn1]). ff_run. rewrite (run_bind _ _ _ _ _ E1). cbv beta iota.
  assert (short_name b e) as Hsn by exact (proj1 (Forall_forall _ _) Hcs _ (dir_path_last _ _ _ _ _ _ _ _ _ Hdp)).
  destruct (packed_good b e Hsn) as (Hl & _). assert (get (fn dj1) NSFLAG = Ok NS_LAST) as ->.
  { rewrite Efn1. unfold get. change (NSFLAG <? 0) with false. cbv iota. rewrite lookup_app_r by (rewrite Hl; done). by rewrite Hl. }
  ff_run. change (bool_decide (FR_NO_FILE = FR_OK)) with false. cbn [andb]. unfold open_entry.
  change (truth (Z.land 3 (Z.lor (Z.lor FA_CREATE_ALWAYS FA_OPEN_ALWAYS) FA_CREATE_NEW))) with false. cbv iota. ff_run.
  rewrite !decide_False by done. ff_run. rewrite decide_True by done. by eexists.
Qed.

(** C7: removing a file by its path: the entry is marked as deleted, exactly
    the clusters of the file are free again and counted, other chains, other
    entries and all other sectors from the FAT on stay as they are, all of it
    is on the disk, and the path leads nowhere: opening it reports that there
    is no such file. *)
Theorem unlink_removes_file F fs d img v dj sdj dj2 fp path cs c t b e j l :
  fat_rep F fs d img → pow2_csize fs → alloc_ok F fs → fsinfo_ok fs → registered v = true → path_names path cs →
  Forall (λ c, short_name c.1 c.2) cs → dir_path F fs img 0 cs c t b e → path_clear F fs img l 0 cs → table_ok (n_ents fs t) (ent fs img t) →
  find_in (Z.to_nat (n_ents fs t)) (ent fs img t) (packed b e) 0 = Some j → file_entry F fs img t j l →
  length (fn dj) = 12%nat → length (fn dj2) = 12%nat →
  ∃ fs' d' img', f_unlink W v dj sdj path (fs, d) = Ok ((FR_OK, (), v), (fs', d')) ∧ unlinked F fs img t j l fs' d' img' ∧
    ∃ s', f_open W v dj2 fp path (Z.lor FA_READ FA_WRITE) (fs', d') = Ok ((FR_NO_FILE, set_f_obj (set_obj_fs false (f_obj fp)) fp, v), s').
Proof using HW.
  intros Hr P Hal Hinfo Hreg Hpath Hcs Hdp Hclr Htok Hfind Hfe Hfn Hfn2. pose proof Hpath as (p & Ep & Hstrip). unfold f_unlink, on_path.
  destruct (find_mounted W F v fs d img path FA_WRITE Hr Hreg ltac:(by rewrite Ep)) as (d0 & E0 & Hr0). rewrite Ep in E0. cbn [fst snd] in E0.
  rewrite (run_bind _ _ _ _ _ E0). cbv beta iota. rewrite decide_False by naive_solver. cbn [default from_option id].
  pose proof (dir_path_to F fs img 0 cs c t b e j Hdp Hfind) as Hto. destruct (dir_path_table _ _ _ _ _ _ _ _ _ Hdp) as [T _].
  destruct (follow_path_ok W HW cs p F fs d0 img t j (set_obj (set_obj_fs true (d_obj dj)) dj) Hstrip Hcs Hr0 P Hto Hfn) as (dj1 & fs1 & d1 & img1 & E1 & Hr1 & Hk1 & Hre & _).
  rewrite (run_bind _ _ _ _ _ E1). cbv beta iota. ff_run. rewrite decide_False by naive_solver. unfold name_flag.
  rewrite (proj2 (re_fn _ _ _ _ _ _ Hre)). ff_run. change (truth (Z.land NS_LAST NS_NONAME)) with false. cbv iota.
  rewrite (re_attr _ _ _ _ _ _ Hre). destruct (fe_attr _ _ _ _ _ _ Hfe) as [Hdir ->]. ff_run.
  destruct Hre as [Q1 Q2 [Q3 Q4] Q5]. pose proof (kv_volume _ _ _ _ Hk1) as V1. pose proof (fr_win _ _ _ _ Hr1) as Hw1.
  destruct (ld_clust_ok W HW fs1 fs img t j dj1 Q1 Q4 (wo_len _ _ Hw1) (wo_bytes _ _ Hw1) ltac:(apply V1)) as [-> _]. ff_run.
  rewrite Hdir. ff_run. rewrite decide_False by naive_solver. pose proof (dp_range _ _ _ _ Q1) as Hj.
  destruct (same_table F fs fs1 c t V1) as (Tt & _ & _ & En1). assert (n_fatent fs1 = n_fatent fs) as Ef1 by apply V1.
  assert (ent_clust fs1 (ent fs1 img1 t j) = ent_clust fs (ent fs img t j)) as Ecl.
  { rewrite (ent_keeps F fs img fs1 img1 (n_sect img) c t j) by (done || apply Hr). unfold ent_clust. by assert (fs_type fs1 = fs_type fs) as -> by apply V1. }
  destruct (unlink_steps F fs1 d1 img1 c t j dj1 l Hr1 (alloc_keeps F fs fs1 V1 (kv_alloc _ _ _ _ Hk1) Hal)) as (s1 & s2 & fs2 & d2 & img2 & E2 & E3 & E4 & Hul).
  { unfold fsinfo_ok. assert (fs_type fs1 = fs_type fs ∧ volbase fs1 = volbase fs ∧ fatbase fs1 = fatbase fs) as (-> & -> & ->) by (repeat split; apply V1). done. }
  { by apply Tt. } { by apply (dir_pos_same fs). } { rewrite Ecl, Ef1. apply (fe_chain _ _ _ _ _ _ Hfe). }
  rewrite Ecl in E3. pose proof (unlinked_keeps F fs d img fs1 img1 c t j l fs2 d2 img2 Hr T Hk1 Hj Hul) as Hu. clear Hul.
  exists fs2, d2, img2. split.
  { ff_run. rewrite (run_bind _ _ _ _ _ E2). change (bool_decide (FR_OK = FR_OK)) with true. cbn [andb]. ff_run. rewrite (run_bind _ _ _ _ _ E3).
    ff_run. rewrite decide_True by done. rewrite (run_bind _ _ _ _ _ E4). reflexivity. }
  split; [done|]. destruct Hu as [U1 U2 U3 U4 U5 U6 U7 U8 U9].
  assert (short_name b e) as Hsn by exact (proj1 (Forall_forall _ _) Hcs _ (dir_path_last _ _ _ _ _ _ _ _ _ Hdp)).
  pose proof (packed_good b e Hsn) as Hg. destruct (same_table F fs fs2 c t U3) as (_ & _ & _ & En2).
  apply (f_open_none (freed l F) fs2 d2 img2 v dj2 fp path cs c t b e); try done.
  { unfold pow2_csize. by assert (csize fs2 = csize fs) as -> by apply U3. }
  { by apply (dir_path_change F fs img (freed l F) fs2 img2 l); [apply Hr| | | | |]. }
  rewrite En2. pose proof (find_in_spec (Z.to_nat (n_ents fs t)) (ent fs img t) (packed b e) 0 Hg) as Hfs. rewrite Hfind in Hfs.
  destruct Hfs as [_ Hnm]; [intros; eapply (to_end _ _ Htok); [|lia|done]; lia|].
  assert (table_ok (n_ents fs t) (ent fs2 img2 t)) as Htok2 by by apply (table_remove _ (ent fs img t) _ (packed b e) j).
  destruct (find_in (Z.to_nat (n_ents fs t)) (ent fs2 img2 t) (packed b e) 0) as [i|] eqn:Ei; [exfalso|done].
  pose proof (find_in_spec (Z.to_nat (n_ents fs t)) (ent fs2 img2 t) (packed b e) 0 Hg) as Hfs. rewrite Ei in Hfs.
  destruct Hfs as [Hi Hni]; [intros; eapply (to_end _ _ Htok2); [|lia|done]; lia|].
  rewrite U7 in Hni by lia. destruct (removed_entry (ent fs img t j) (to_len _ _ Htok j Hj)) as (_ & _ & _ & Hno).
  destruct (Z.eqb_spec i j) as [->|Hne]; [by rewrite Hno in Hni|]. apply Hne. by apply (to_uniq _ _ Htok (packed b e)); [|lia| | |].
Qed.
End unlink.

(** ** The file of the small volume is removed *)

Lemma deep_table_ok : table_ok (n_ents small_fs (Some [4])) (ent small_fs deep_img (Some [4])).
Proof.
  change (n_ents small_fs (Some [4])) with 16.
  assert (length (ent small_fs deep_img (Some [4]) 0) = 32%nat ∧ ent_byte (ent small_fs deep_img (Some [4]) 0) DIR_Name = 65) as [L0 B0] by (vm_compute; done).
  assert (∀ i, 0 ≤ i < 16 → i = 0 ∨ ent small_fs deep_img (Some [4]) i = replicate 32 0) as Hz.
  { intros i Hi. destruct (decide (i = 0)) as [->|]; [by left|right].
    assert (Forall (λ i, ent small_fs deep_img (Some [4]) i = replicate 32 0) (seqZ 1 15)) as Hall by (apply (bool_decide_unpack _); vm_compute; exact I).
    apply (proj1 (Forall_forall _ _) Hall). apply elem_of_seqZ. lia. }
  assert (∀ nm i, good_name nm → 0 ≤ i < 16 → named nm (ent small_fs deep_img (Some [4]) i) = true → i = 0) as Hn.
  { intros nm i Hg Hi Hnm. destruct (Hz i Hi) as [?|E]; [done|]. rewrite E in Hnm. by destruct (named_first _ _ Hg Hnm) as (? & _). }
  split.
  - intros i Hi. destruct (Hz i Hi) as [->| ->]; done.
  - intros i j Hij Hj. destruct (Hz i ltac:(lia)) as [->|E]; [by rewrite B0|]. destruct (Hz j ltac:(lia)) as [->| ->]; [|done].
    assert (i = 0) as -> by lia. by rewrite E in B0.
  - intros nm i j Hg Hi Hj Hni Hnj. rewrite (Hn nm i), (Hn nm j); done.
Qed.

Lemma unlink_removes_file_witness :
  ∃ fs' d' img', f_unlink 32 (mk_vars true 1) root_dp root_dp (Some (str "0:Sub/a.txt")) (small_fs, deep_host) = Ok ((FR_OK, (), mk_vars true 1), (fs', d')) ∧
    unlinked deep_table small_fs deep_img (Some [4]) 0 [2; 3] fs' d' img' ∧
    ∃ s', f_open 32 (mk_vars true 1) root_dp small_file (Some (str "0:Sub/a.txt")) (Z.lor FA_READ FA_WRITE) (fs', d') =
      Ok ((FR_NO_FILE, set_f_obj (set_obj_fs false (f_obj small_file)) small_file, mk_vars true 1), s').
Proof.
  apply (unlink_removes_file 32 ltac:(lia) deep_table small_fs deep_host deep_img (mk_vars true 1) root_dp root_dp root_dp small_file (Some (str "0:Sub/a.txt"))
    [(str "Sub", []); (str "a", str "txt")] 4 (Some [4]) (str "a") (str "txt") 0 [2; 3]).
  - exact deep_rep.
  - exists 0. split; [lia|reflexivity].
  - exact deep_alloc.
  - intros E. discriminate E.
  - reflexivity.
  - eexists. split; vm_compute; reflexivity.
  - apply Forall_cons. split; [|apply Forall_singleton]; (split; [cbn; lia|cbn; lia|apply (bool_decide_unpack _); vm_compute; exact I]).
  - apply deep_dir.
  - exact deep_clear.
  - exact deep_table_ok.
  - vm_compute. reflexivity.
  - exact deep_file.
  - reflexivity.
  - reflexivity.
Defined.
