(* ===== verification/FfList.v ===== *)
(** * FatFs: listing a directory

    [f_opendir] and [f_readdir] give the entries of a directory one after the
    other: those of files and directories, in the order of the table, and then
    the empty name. *)

From S2P Require Import Prelude Bytes Cstdio Ff FfWindow FfFat FfChain FfDir FfMount FfFile FfApi FfData FfPos FfRead FfFree.
From S2P Require Import FfTable FfDirProps FfMountProps FfNames FfShort FfPath.

(** ** What a directory shows *)

(** Neither deleted, nor a dot entry, nor part of a long name, nor the label. *)
Definition is_listed (e : list Z) : bool :=
  negb (ent_byte e DIR_Name =? DDEM) && negb (ent_byte e DIR_Name =? 46) && negb (ent_attr e =? AM_LFN) &&
  negb (Z.land (ent_attr e) (Z.lnot AM_ARC) =? AM_VOL).

(** The entries listed among the [m] from [i] on, up to the end mark. *)
Fixpoint listing (m : nat) (e : Z → list Z) (i : Z) : list Z :=
  match m with
  | O => []
  | S m => if ent_byte (e i) DIR_Name =? 0 then [] else
      if is_listed (e i) then i :: listing m e (i + 1) else listing m e (i + 1)
  end.

(** What is told of an entry. *)
Definition file_info (e : list Z) : FILINFO :=
  let tm := le_value (bytes_at 22 4 e) in
  mk_filinfo (ent_size e) (u16 (Z.shiftr tm 16)) (u16 tm) (ent_byte e DIR_Attr) (name_text 0 (take 11 e)).

Lemma listing_ext m e e' i : (∀ j, i ≤ j < i + Z.of_nat m → e j = e' j) → listing m e i = listing m e' i.
Proof.
  revert i. induction m as [|m IH]; intros i He; [done|]. cbn [listing]. rewrite (He i), (IH (i + 1)) by (intros; apply He || idtac; lia). done.
Qed.

Lemma listing_bound m e i : Forall (λ j, i ≤ j < i + Z.of_nat m) (listing m e i).
Proof.
  revert i. induction m as [|m IH]; intros i; [done|]. cbn [listing]. case_if; [done|].
  assert (Forall (λ j, i ≤ j < i + Z.of_nat (S m)) (listing m e (i + 1))) as Hl.
  { eapply Forall_impl; [apply IH|]. cbn. lia. }
  case_if; [constructor; [lia|done]|done].
Qed.

(** The rest of a directory that an object has before it. *)
Definition to_list (fs : FATFS) (img : list Z) (l : option (list Z)) (dp : DIR) (rest : list Z) : Prop :=
  (∃ i, dir_pos fs l i dp ∧ rest = listing (Z.to_nat (n_ents fs l - i)) (ent fs img l) i) ∨
  (d_sect dp = 0 ∧ rest = []).

(** An object of an open directory. *)
Definition dir_opened (fs : FATFS) (dp : DIR) : Prop := obj_fs (d_obj dp) = true ∧ obj_id (d_obj dp) = fs_id fs.

Lemma to_list_keeps F fs img fs' img' c l dp rest :
  win_ok fs img → table F fs c l → keeps_view fs img fs' img' → to_list fs img l dp rest → to_list fs' img' l dp rest.
Proof.
  intros Hw T Hk [(i & Hp & ->)|[? ->]]; [left|by right]. pose proof (kv_volume _ _ _ _ Hk) as V. exists i. split; [by apply (dir_pos_same fs)|].
  destruct (same_table F fs fs' c l V) as (_ & _ & _ & ->). destruct (dp_range _ _ _ _ Hp). apply listing_ext. intros j Hj. symmetry.
  apply (ent_keeps F fs img fs' img' (n_sect img) c); [apply Hw|done|done|done|lia].
Qed.

(** The path names the directory whose table starts at cluster [c], the root
    directory when nothing but separators follows the drive. *)
Inductive dir_named (F : Z → Z) (fs : FATFS) (img : list Z) (path : option (list Z)) : Z → Prop :=
  | named_root p : get_ldnumber path = (0, Some p) → strip_seps p = [] → dir_named F fs img path 0
  | named_sub cs t j :
      path_names path cs → Forall (λ c, short_name c.1 c.2) cs → path_to F fs img 0 cs t j →
      truth (Z.land (ent_attr (ent fs img t j)) AM_DIR) = true →
      dir_named F fs img path (ent_clust fs (ent fs img t j)).

Section listings.
Context {D : Type} `{Disk D} (W : Z).
Hypothesis HW : 32 ≤ W.

Implicit Types (fs : FATFS) (d : D) (img : list Z) (F : Z → Z).

(** ** Reading on to the next entry *)

Definition next_found fs (img : list Z) l m i (r : FRESULT) (dp : DIR) fs' : Prop :=
  match listing m (ent fs img l) i with
  | j :: rest => r = FR_OK ∧ dir_pos fs l j dp ∧ winsect fs' = d_sect dp ∧
      rest = listing (Z.to_nat (n_ents fs l - (j + 1))) (ent fs img l) (j + 1)
  | [] => r = FR_NO_FILE
  end.

Lemma dir_read_loop_ok fuel F fs d img c l i dp r0 :
  fat_rep F fs d img → pow2_csize fs → table F fs c l → dir_pos fs l i dp → (Z.to_nat (n_ents fs l - i) ≤ fuel)%nat →
  ∃ r dp' fs' d' img', dir_read_loop W fuel dp false r0 (fs, d) = Ok ((r, dp'), (fs', d')) ∧ fat_rep F fs' d' img' ∧ keeps_view fs img fs' img' ∧
    same_dir dp dp' ∧ next_found fs img l (Z.to_nat (n_ents fs l - i)) i r dp' fs'.
Proof using HW.
  revert fs d img i dp r0. induction fuel as [|fuel IH]; intros fs d img i dp r0 Hr P2 T Hp Hfuel; [destruct (dp_range _ _ _ _ Hp); lia|].
  destruct (dir_load W HW F fs d img c l i dp Hr T Hp) as (fs1 & d1 & img1 & E & Hr1 & Hk1 & Hws & Hwin & Hlen).
  assert ((d_sect dp =? 0) = false) as Hs0.
  { pose proof (wo_geo _ _ (fr_win _ _ _ _ Hr)) as G. pose proof (dp_range _ _ _ _ Hp) as Hi. apply Z.eqb_neq. rewrite (dp_sect _ _ _ _ Hp).
    assert (0 ≤ i / 16 < tbl_len fs l) as Hki by (unfold n_ents in Hi; split; [apply Z.div_pos; lia|apply Z.div_lt_upper_bound; lia]).
    pose proof (tbl_sect_range F fs _ _ l G T (i / 16) Hki) as (Hrg & _). lia. }
  cbn [dir_read_loop]. rewrite Hs0. rewrite (run_bind _ _ _ _ _ E), decide_False by naive_solver. unfold entry_byte, get_win. ff_run.
  destruct (entry_byte_ok fs img l i dp DIR_Name (win fs1) Hp Hwin Hlen ltac:(done)) as [-> _]. ff_run.
  destruct (dp_range _ _ _ _ Hp) as [Hi0 Hi]. replace (Z.to_nat (n_ents fs l - i)) with (S (Z.to_nat (n_ents fs l - (i + 1)))) by lia.
  unfold next_found. cbn [listing]. destruct (ent_byte (ent fs img l i) DIR_Name =? 0) eqn:Hz.
  { exists FR_NO_FILE, dp, fs1, d1, img1. split; [done|]. split; [done|]. split; [done|done]. }
  ff_run. destruct (entry_byte_ok fs img l i dp DIR_Attr (win fs1) Hp Hwin Hlen ltac:(done)) as [-> _]. ff_run.
  set (dp1 := set_obj _ dp). assert (dir_pos fs l i dp1) as Hp1 by (destruct Hp; by split). assert (same_dir dp dp1) as Hsd by done.
  change (Z.land (ent_byte (ent fs img l i) DIR_Attr) AM_MASK) with (ent_attr (ent fs img l i)).
  assert (Bool.eqb (Z.land (ent_attr (ent fs img l i)) (Z.lnot AM_ARC) =? AM_VOL) false =
    negb (Z.land (ent_attr (ent fs img l i)) (Z.lnot AM_ARC) =? AM_VOL)) as -> by by destruct (_ =? AM_VOL).
  fold (is_listed (ent fs img l i)). destruct (is_listed (ent fs img l i)).
  { exists FR_OK, dp1, fs1, d1, img1. split; [done|]. split; [done|]. split; [done|]. split; [done|]. split; [done|]. done. }
  pose proof (kv_volume _ _ _ _ Hk1) as V. destruct (same_table F fs fs1 c l V) as (Tt & _ & _ & En).
  assert (pow2_csize fs1) as P21 by (unfold pow2_csize; by assert (csize fs1 = csize fs) as -> by apply V).
  destruct (dir_next_ok W HW F fs1 d1 img1 c l i dp1 false Hr1 P21 (proj2 Tt T) (dir_pos_same _ _ _ _ _ V Hp1) ltac:(by left))
    as (r & dp2 & fs2 & d2 & img2 & E2 & Hr2 & Hk2 & Ho2 & Hf2 & Hcase).
  rewrite (run_bind _ _ _ _ _ E2). cbv beta iota. assert (same_dir dp dp2) as Hsd2 by (unfold same_dir; rewrite Ho2, Hf2; done).
  pose proof (keeps_view_trans _ _ _ _ _ _ Hk1 Hk2) as Hk. rewrite En in Hcase. destruct (Z.ltb_spec (i + 1) (n_ents fs l)) as [Hlt|Hge].
  - destruct Hcase as [-> Hp2]. rewrite decide_False by naive_solver.
    pose proof (kv_volume _ _ _ _ Hk) as V2. destruct (same_table F fs fs2 c l V2) as (Tt2 & _ & _ & En2).
    destruct (IH fs2 d2 img2 (i + 1) dp2 FR_OK) as (r3 & dp3 & fs3 & d3 & img3 & E3 & Hr3 & Hk3 & Hs3 & Hfnd).
    { done. } { unfold pow2_csize. by assert (csize fs2 = csize fs) as -> by apply V2. } { by apply Tt2. }
    { by apply (dir_pos_same fs1 fs2); [apply Hk2|]. } { rewrite En2. lia. }
    exists r3, dp3, fs3, d3, img3. split; [done|]. split; [done|]. split; [by eapply keeps_view_trans|]. split; [by etrans|].
    assert (∀ j, 0 ≤ j < n_ents fs l → ent fs2 img2 l j = ent fs img l j) as Ee.
    { intros j Hj. apply (ent_keeps F fs img fs2 img2 (n_sect img) c); try done. apply Hr. }
    unfold next_found in Hfnd. rewrite En2 in Hfnd. rewrite (listing_ext _ _ (ent fs img l)) in Hfnd by (intros; apply Ee; lia).
    destruct (listing _ _ (i + 1)) as [|j rest] eqn:Ej; [done|]. destruct Hfnd as (-> & Hpj & Hwj & ->).
    assert (dir_pos fs l j dp3) as Hpj' by (apply (dir_pos_same fs2 fs); [unfold same_volume in *; intuition congruence|done]).
    split; [done|]. split; [done|]. split; [done|]. destruct (dp_range _ _ _ _ Hpj'). apply listing_ext. intros k Hkk. apply Ee. lia.
  - destruct Hcase as [-> _]. rewrite decide_True by done. exists FR_NO_FILE, dp2, fs2, d2, img2. split; [done|]. split; [done|]. split; [done|]. split; [done|].
    replace (Z.to_nat (n_ents fs l - (i + 1))) with 0%nat by lia. done.
Qed.

(** What the window with the entry gives. *)
Lemma get_fileinfo_ok fs1 d fs img l j dp fno :
  dir_pos fs l j dp → d_sect dp ≠ 0 → win fs1 = view fs img (d_sect dp) → length (win fs1) = 512%nat → Forall is_byte (win fs1) →
  get_fileinfo W dp fno (fs1, d) = Ok (file_info (ent fs img l j), (fs1, d)).
Proof using HW.
  intros Hp Hs Hw Hl Hb. pose proof (dp_dir _ _ _ _ Hp) as Hd. pose proof (Z.mod_pos_bound j 16 ltac:(lia)).
  unfold get_fileinfo. rewrite (proj2 (Z.eqb_neq _ 0) Hs). ff_run. rewrite (proj2 (Z.ltb_ge _ _)) by lia. ff_run.
  destruct (entry_byte_ok fs img l j dp DIR_Attr (win fs1) Hp Hw Hl ltac:(done)) as [-> ->]. ff_run.
  unfold DIR_FileSize, DIR_ModTime. rewrite !ld_dword_ok by (done || lia). ff_run.
  by rewrite (ent_field fs img l j dp 28 4), (ent_field fs img l j dp 22 4) by (done || lia).
Qed.

Definition no_more (fno : FILINFO) : FILINFO := mk_filinfo (fi_size fno) (fi_date fno) (fi_time fno) (fi_attrib fno) [].

(** The next entry, in the window, or the end. *)
Lemma dir_read_ok F fs d0 img c l dp rest :
  fat_rep F fs d0 img → pow2_csize fs → table F fs c l → to_list fs img l dp rest →
  ∃ r dp1 fs1 d1 img1, dir_read W dp false (fs, d0) = Ok ((r, dp1), (fs1, d1)) ∧ fat_rep F fs1 d1 img1 ∧ keeps_view fs img fs1 img1 ∧ same_dir dp dp1 ∧
    match rest with [] => r = FR_NO_FILE ∧ d_sect dp1 = 0
    | j :: rest => r = FR_OK ∧ dir_pos fs l j dp1 ∧ winsect fs1 = d_sect dp1 ∧ rest = listing (Z.to_nat (n_ents fs l - (j + 1))) (ent fs img l) (j + 1) end.
Proof using HW.
  intros Hr0 P2 T Hl. pose proof (tb_max _ _ _ _ T) as Hmax.
  unfold dir_read. remember dir_fuel as fuel eqn:Hfuel. destruct Hl as [(i & Hp & ->)|[Hs0 ->]].
  - destruct (dir_read_loop_ok fuel F fs d0 img c l i dp FR_NO_FILE Hr0 P2 T Hp) as (r & dp1 & fs1 & d1 & img1 & E1 & Hr1 & Hk1 & Hsd & Hn).
    { pose proof (dp_range _ _ _ _ Hp). unfold MAX_DIR, SZDIRE in Hmax. rewrite Hfuel. unfold dir_fuel. change (MAX_DIR / SZDIRE) with 65536. lia. }
    clear Hfuel. rewrite (run_bind _ _ _ _ _ E1). cbv beta iota. unfold next_found in Hn. destruct (listing _ _ i) as [|j rest].
    + subst r. rewrite decide_True by done. eexists _, _, fs1, d1, img1. split; [reflexivity|]. done.
    + destruct Hn as (-> & Hn). rewrite decide_False by exact (λ X, X eq_refl). eexists _, _, fs1, d1, img1. split; [reflexivity|]. done.
  - assert (dir_read_loop W fuel dp false FR_NO_FILE (fs, d0) = Ok ((FR_NO_FILE, dp), (fs, d0))) as El.
    { clear Hfuel. destruct fuel; cbn [dir_read_loop]; by rewrite Hs0. }
    clear Hfuel. rewrite (run_bind _ _ _ _ _ El). cbv beta iota. rewrite decide_True by done. eexists _, _, fs, d0, img. split; [reflexivity|].
    split; [done|]. split; [apply keeps_view_refl|]. done.
Qed.

(** One call: the next entry, or the empty name. *)
Lemma f_readdir_ok F fs d img c l dp fno rest :
  fat_rep F fs d img → pow2_csize fs → table F fs c l → n_ents fs l * SZDIRE < MAX_DIR → dir_opened fs dp → to_list fs img l dp rest →
  ∃ dp' fs' d' img', f_readdir W dp (Some fno) (fs, d) =
      Ok ((FR_OK, dp', Some (match rest with j :: _ => file_info (ent fs img l j) | [] => no_more fno end)), (fs', d')) ∧
    fat_rep F fs' d' img' ∧ keeps_view fs img fs' img' ∧ dir_opened fs' dp' ∧ to_list fs' img' l dp' (tail rest).
Proof using HW.
  intros Hr P2 T Hmax [Ho Hid] Hl. destruct (validate_obj F fs d img (d_obj dp) Hr Ho Hid) as (d0 & E0 & Hr0).
  unfold f_readdir. rewrite (run_bind _ _ _ _ _ E0), decide_False by exact (λ X, X eq_refl).
  destruct (dir_read_ok F fs d0 img c l dp rest Hr0 P2 T Hl) as (r & dp1 & fs1 & d1 & img1 & E1 & Hr1 & Hk1 & Hsd & Hcase).
  rewrite (run_bind _ _ _ _ _ E1). cbv beta iota. pose proof (kv_volume _ _ _ _ Hk1) as V1. assert (fs_id fs1 = fs_id fs) as Eid by apply V1.
  assert (dir_opened fs1 dp1) as Hop1 by (unfold dir_opened; destruct Hsd as (_ & _ & -> & ->); by rewrite Eid).
  destruct rest as [|j rest].
  - destruct Hcase as [-> Hs0]. rewrite (decide_True (P := FR_NO_FILE = FR_NO_FILE)) by done. rewrite decide_False by exact (λ X, X eq_refl). unfold get_fileinfo. rewrite Hs0. cbn [Z.eqb]. ff_run.
    unfold dir_next. ff_run. rewrite Hs0. cbn [Z.eqb orb]. ff_run. exists dp1, fs1, d1, img1. split; [done|].
    split; [done|]. split; [done|]. split; [done|]. by right.
  - destruct Hcase as (-> & Hpj & Hws & ->). rewrite (decide_False (P := FR_OK = FR_NO_FILE)) by done. rewrite decide_False by exact (λ X, X eq_refl).
    pose proof (fr_win _ _ _ _ Hr1) as Hw1. pose proof (wo_geo _ _ (fr_win _ _ _ _ Hr)) as G. pose proof (dp_range _ _ _ _ Hpj) as Hj.
    assert (0 ≤ j / 16 < tbl_len fs l) as Hkj by (unfold n_ents in Hj; split; [apply Z.div_pos; lia|apply Z.div_lt_upper_bound; lia]).
    pose proof (tbl_sect_range F fs _ _ l G T (j / 16) Hkj) as (Hrg & _ & H2). rewrite <-(dp_sect _ _ _ _ Hpj) in Hrg, H2.
    assert (win fs1 = view fs img (d_sect dp1)) as Hwin.
    { rewrite <-(kv_view _ _ _ _ Hk1) by (done || lia). unfold view. by rewrite Hws, Z.eqb_refl. }
    rewrite (run_bind _ _ _ _ _ (get_fileinfo_ok fs1 d1 fs img l j dp1 fno Hpj ltac:(lia) Hwin (wo_len _ _ Hw1) (wo_bytes _ _ Hw1))).
    destruct (same_table F fs fs1 c l V1) as (Tt & _ & _ & En).
    assert (pow2_csize fs1) as P21 by (unfold pow2_csize; by assert (csize fs1 = csize fs) as -> by apply V1).
    destruct (dir_next_ok W HW F fs1 d1 img1 c l j dp1 false Hr1 P21 (proj2 Tt T) (dir_pos_same _ _ _ _ _ V1 Hpj) ltac:(by left))
      as (r & dp2 & fs2 & d2 & img2 & E2 & Hr2 & Hk2 & Ho2 & Hf2 & Hcase). rewrite En in Hcase.
    rewrite (run_bind _ _ _ _ _ E2). cbv beta iota. exists dp2, fs2, d2, img2.
    pose proof (keeps_view_trans _ _ _ _ _ _ Hk1 Hk2) as Hk. split.
    { destruct (j + 1 <? n_ents fs l); destruct Hcase as [-> _]; [by rewrite decide_False by done|by rewrite decide_True by done]. }
    split; [done|]. split; [done|]. split.
    { unfold dir_opened. rewrite Ho2. assert (fs_id fs2 = fs_id fs1) as -> by apply (kv_volume _ _ _ _ Hk2). done. }
    cbn [tail]. destruct (Z.ltb_spec (j + 1) (n_ents fs l)) as [Hlt|Hge].
    + destruct Hcase as [_ Hp2]. apply (to_list_keeps F fs img fs2 img2 c); [apply Hr|done|done|]. left. exists (j + 1). split; [|done].
      apply (dir_pos_same fs1); [|done]. unfold same_volume in *. intuition congruence.
    + right. split; [by apply Hcase|]. by replace (Z.to_nat (n_ents fs l - (j + 1))) with 0%nat by lia.
Qed.

(** In a directory of the greatest size there is, the object is not used up
    when it has read the last entry: it stays there, and reads it again. *)
Theorem full_table_repeats F fs d img c l i dp fno :
  fat_rep F fs d img → pow2_csize fs → table F fs c l → n_ents fs l * SZDIRE = MAX_DIR → dir_opened fs dp →
  dir_pos fs l i dp → i + 1 = n_ents fs l → ent_byte (ent fs img l i) DIR_Name ≠ 0 → is_listed (ent fs img l i) = true →
  ∃ dp' fs' d' img', f_readdir W dp (Some fno) (fs, d) = Ok ((FR_OK, dp', Some (file_info (ent fs img l i))), (fs', d')) ∧
    fat_rep F fs' d' img' ∧ keeps_view fs img fs' img' ∧ dir_opened fs' dp' ∧ dir_pos fs' l i dp'.
Proof using HW.
  intros Hr P2 T Hmax [Ho Hid] Hp Hlast Hnz Hlisted. destruct (validate_obj F fs d img (d_obj dp) Hr Ho Hid) as (d0 & E0 & Hr0).
  assert (to_list fs img l dp [i]) as Hl.
  { left. exists i. split; [done|]. replace (Z.to_nat (n_ents fs l - i)) with 1%nat by lia. cbn [listing]. by rewrite (proj2 (Z.eqb_neq _ 0) Hnz), Hlisted. }
  unfold f_readdir. rewrite (run_bind _ _ _ _ _ E0), decide_False by exact (λ X, X eq_refl).
  destruct (dir_read_ok F fs d0 img c l dp [i] Hr0 P2 T Hl) as (r & dp1 & fs1 & d1 & img1 & E1 & Hr1 & Hk1 & Hsd & (-> & Hp1 & Hws & _)).
  rewrite (run_bind _ _ _ _ _ E1). cbv beta iota. rewrite (decide_False (P := FR_OK = FR_NO_FILE)) by done. rewrite decide_False by exact (λ X, X eq_refl).
  pose proof (fr_win _ _ _ _ Hr1) as Hw1. pose proof (wo_geo _ _ (fr_win _ _ _ _ Hr)) as G. pose proof (dp_range _ _ _ _ Hp1) as Hj.
  assert (0 ≤ i / 16 < tbl_len fs l) as Hkj by (unfold n_ents in Hj; split; [apply Z.div_pos; lia|apply Z.div_lt_upper_bound; lia]).
  pose proof (tbl_sect_range F fs _ _ l G T (i / 16) Hkj) as (Hrg & _ & H2). rewrite <-(dp_sect _ _ _ _ Hp1) in Hrg, H2.
  assert (win fs1 = view fs img (d_sect dp1)) as Hwin.
  { rewrite <-(kv_view _ _ _ _ Hk1) by (done || lia). unfold view. by rewrite Hws, Z.eqb_refl. }
  rewrite (run_bind _ _ _ _ _ (get_fileinfo_ok fs1 d1 fs img l i dp1 fno Hp1 ltac:(lia) Hwin (wo_len _ _ Hw1) (wo_bytes _ _ Hw1))).
  pose proof (kv_volume _ _ _ _ Hk1) as V1. unfold dir_next. ff_run. rewrite (dp_dptr _ _ _ _ Hp1).
  assert (wrap W (i * SZDIRE + SZDIRE) = MAX_DIR) as ->.
  { replace (i * SZDIRE + SZDIRE) with MAX_DIR by (rewrite <-Hmax, <-Hlast; unfold SZDIRE; lia). apply (dw_small W HW). unfold MAX_DIR. lia. }
  rewrite Z.leb_refl, orb_true_r. ff_run. exists dp1, fs1, d1, img1. split; [done|]. split; [done|]. split; [done|]. split; [|by apply (dir_pos_same fs)].
  unfold dir_opened. destruct Hsd as (_ & _ & -> & ->). by assert (fs_id fs1 = fs_id fs) as -> by apply V1.
Qed.

(** ** Opening a directory *)

(** The path leads to the directory; what [open_dir] then looks at. *)
Lemma follow_to_dir F fs d img path p c l dp :
  fat_rep F fs d img → pow2_csize fs → dir_named F fs img path c → get_ldnumber path = (0, Some p) → table F fs c l → length (fn dp) = 12%nat →
  ∃ dp' fs' d' img', follow_path W dp p (fs, d) = Ok ((FR_OK, dp'), (fs', d')) ∧ fat_rep F fs' d' img' ∧ keeps_view fs img fs' img' ∧
    obj_fs (d_obj dp') = obj_fs (d_obj dp) ∧
    ((get (fn dp') NSFLAG = Ok NS_NONAME ∧ c = 0 ∧ sclust (d_obj dp') = 0) ∨
     (get (fn dp') NSFLAG = Ok NS_LAST ∧ truth (Z.land (attr (d_obj dp')) AM_DIR) = true ∧ ld_clust W fs' (d_dir dp') = Ok c)).
Proof using HW.
  intros Hr P2 [p' Hp Hs|cs t j (p' & Hp & Hs) Hcs Hto Ha] Ep T Hfn; rewrite Ep in Hp; injection Hp as <-.
  - unfold follow_path. rewrite Hs. cbn [head default from_option]. change (0 <? 32) with true. cbv iota.
    assert (put NSFLAG NS_NONAME (fn (set_obj (set_sclust 0 (d_obj dp)) dp)) = Ok (<[11%nat := NS_NONAME]> (fn dp))) as ->.
    { rewrite put_ok; [done|]. cbn [fn set_obj]. rewrite Hfn. unfold NSFLAG. lia. }
    ff_run. set (dp0 := set_fn _ _). destruct (dir_sdi_first W HW F fs d img dp0 l Hr T) as (dp' & E & _ & (Ef & _) & Eo).
    exists dp', fs, d, img. split; [done|]. split; [done|]. split; [apply keeps_view_refl|]. split; [by rewrite Eo|]. left. rewrite Ef, Eo.
    split; [|done]. unfold get. change (NSFLAG <? 0) with false. cbv iota. cbn [fn set_fn dp0]. change (Z.to_nat NSFLAG) with 11%nat.
    rewrite list_lookup_insert_eq by lia. done.
  - destruct (follow_path_ok W HW cs p F fs d img t j dp Hs Hcs Hr P2 Hto Hfn) as (dp' & fs' & d' & img' & E & Hr' & Hk & [Q1 Q2 [_ Q4] [_ Q5]] & Eofs).
    exists dp', fs', d', img'. split; [done|]. split; [done|]. split; [done|]. split; [done|]. right. split; [done|]. rewrite Q2. split; [done|].
    pose proof (fr_win _ _ _ _ Hr') as Hw'.
    by destruct (ld_clust_ok W HW fs' fs img t j dp' Q1 Q4 (wo_len _ _ Hw') (wo_bytes _ _ Hw') ltac:(apply (kv_volume _ _ _ _ Hk))) as [-> _].
Qed.

Lemma f_opendir_ok F fs d img v path c l dp :
  fat_rep F fs d img → pow2_csize fs → registered v = true → dir_named F fs img path c → table F fs c l → length (fn dp) = 12%nat →
  ∃ dp' fs' d' img', f_opendir W v dp path (fs, d) = Ok ((FR_OK, dp', v), (fs', d')) ∧ fat_rep F fs' d' img' ∧ keeps_view fs img fs' img' ∧
    dir_opened fs' dp' ∧ to_list fs' img' l dp' (listing (Z.to_nat (n_ents fs l)) (ent fs img l) 0).
Proof using HW.
  intros Hr P2 Hreg Hn T Hfn. unfold f_opendir.
  assert (∃ p, get_ldnumber path = (0, Some p)) as (p & Ep) by (destruct Hn as [p ? ?|? ? ? (p & ? & ?)]; eauto).
  destruct (find_mounted W F v fs d img path 0 Hr Hreg ltac:(by rewrite Ep)) as (d0 & E0 & Hr0). rewrite Ep in E0. cbn [fst snd] in E0.
  set (dp0 := set_obj (set_obj_fs true (d_obj dp)) dp).
  destruct (follow_to_dir F fs d0 img path p c l dp0 Hr0 P2 Hn Ep T Hfn) as (dp1 & fs1 & d1 & img1 & E1 & Hr1 & Hk1 & Hofs & Hat).
  pose proof (kv_volume _ _ _ _ Hk1) as V1. destruct (same_table F fs fs1 c l V1) as (Tt & _ & _ & En).
  assert (∃ dp', open_dir W FR_OK dp1 (fs1, d1) = Ok ((FR_OK, dp'), (fs1, d1)) ∧ dir_pos fs1 l 0 dp' ∧ dir_opened fs1 dp') as (dp' & E2 & Hp' & Ho').
  { change (obj_fs (d_obj dp0)) with true in Hofs. unfold open_dir. rewrite decide_True by done. unfold name_flag. destruct Hat as [(Hg & -> & Hsc)|(Hg & Ha & Hld)].
    - rewrite Hg. ff_run. change (truth (Z.land NS_NONAME NS_NONAME)) with true. cbv iota. ff_run. rewrite decide_True by done.
      set (dp2 := set_obj _ dp1). destruct (dir_sdi_first W HW F fs1 d1 img1 dp2 l Hr1) as (dp' & E & Hp & _ & Eo).
      { cbn [d_obj set_obj dp2 sclust set_obj_id]. rewrite Hsc. by apply Tt. }
      rewrite (run_bind _ _ _ _ _ E). cbv beta iota. rewrite decide_False by done. exists dp'. split; [done|]. split; [done|].
      unfold dir_opened. rewrite Eo. done.
    - rewrite Hg. ff_run. change (truth (Z.land NS_LAST NS_NONAME)) with false. cbv iota. rewrite Ha. cbv iota. rewrite Hld. ff_run. rewrite decide_True by done.
      set (dp2 := set_obj _ _). destruct (dir_sdi_first W HW F fs1 d1 img1 dp2 l Hr1) as (dp' & E & Hp & _ & Eo); [by apply Tt|].
      rewrite (run_bind _ _ _ _ _ E). cbv beta iota. rewrite decide_False by done. exists dp'. split; [done|]. split; [done|].
      unfold dir_opened. rewrite Eo. done. }
  assert (on_path W v dp path 0 dp (open_dir W) (fs, d) = Ok ((FR_OK, dp', v), (fs1, d1))) as Eon.
  { unfold on_path. rewrite (run_bind _ _ _ _ _ E0). cbv beta iota. rewrite decide_False by exact (λ X, X eq_refl). cbn [default from_option id].
    fold dp0. rewrite (run_bind _ _ _ _ _ E1). cbv beta iota. rewrite (run_bind _ _ _ _ _ E2). done. }
  rewrite (run_bind _ _ _ _ _ Eon). cbv beta iota.
  rewrite decide_False by exact (λ X, X eq_refl). exists dp', fs1, d1, img1. split; [done|]. split; [done|]. split; [done|]. split; [done|].
  left. exists 0. split; [done|]. rewrite En, Z.sub_0_r. symmetry. apply listing_ext. intros j Hj.
  apply (ent_keeps F fs img fs1 img1 (n_sect img) c); [apply Hr|done|done|done|]. lia.
Qed.
End listings.
