(* ===== verification/Ramdisk.v ===== *)
(** * The RAM disk of the FatFs example

    The disk driver of src/examples/simu/fatfs/main.c: a disk image of the host
    is read into memory when FatFs initialises the drive, and sectors are
    copied from and to that memory.

    The host's files are a map from paths to contents. What the C library may
    do otherwise than succeed is data: what the coming calls of [malloc] give
    (the bytes of the block, or nothing), and how many bytes the coming calls
    of [fread] deliver at most. [size_t] and [long] have 64 bits. *)

From S2P Require Import Prelude Bytes Cstdio Diskio FatDiskio Hostdisk Ff FfWindow.

Record ramdisk := mk_ramdisk {
  ramdisk_ptr : option (list Z);
  ramdisk_size : Z;
  ramdisk_fname : list Z; (* char[1024] *)
  rd_status : Z; (* _disk_status *)
  h_files : gmap (list Z) (list Z);
  h_exe : option (list Z); (* what readlink("/proc/self/exe") gives *)
  h_malloc : list (option (list Z));
  h_fread : list nat;
  h_open : Z; (* files open *)
  rd_printed : list Z;
}.

Definition SECTOR_SIZE : Z := 512.

Definition set_fname (v : list Z) (s : ramdisk) : ramdisk :=
  mk_ramdisk (ramdisk_ptr s) (ramdisk_size s) v (rd_status s) (h_files s) (h_exe s) (h_malloc s) (h_fread s) (h_open s) (rd_printed s).
Definition set_block (p : option (list Z)) (size : Z) (s : ramdisk) : ramdisk :=
  mk_ramdisk p size (ramdisk_fname s) (rd_status s) (h_files s) (h_exe s) (h_malloc s) (h_fread s) (h_open s) (rd_printed s).
Definition set_sts (v : Z) (s : ramdisk) : ramdisk :=
  mk_ramdisk (ramdisk_ptr s) (ramdisk_size s) (ramdisk_fname s) v (h_files s) (h_exe s) (h_malloc s) (h_fread s) (h_open s) (rd_printed s).
Definition set_open (v : Z) (s : ramdisk) : ramdisk :=
  mk_ramdisk (ramdisk_ptr s) (ramdisk_size s) (ramdisk_fname s) (rd_status s) (h_files s) (h_exe s) (h_malloc s) (h_fread s) v (rd_printed s).
Definition rd_print (l : list Z) (s : ramdisk) : ramdisk :=
  mk_ramdisk (ramdisk_ptr s) (ramdisk_size s) (ramdisk_fname s) (rd_status s) (h_files s) (h_exe s) (h_malloc s) (h_fread s) (h_open s) (rd_printed s ++ l).

(** ** The C library *)

Definition fopen (path : list Z) (s : ramdisk) : option (list Z) * ramdisk :=
  match h_files s !! path with
  | Some data => (Some data, set_open (h_open s + 1) s)
  | None => (None, s)
  end.
Definition fclose (s : ramdisk) : ramdisk := set_open (h_open s - 1) s.

(** A block of [n] bytes, with whatever was there before. *)
Definition malloc (n : Z) (s : ramdisk) : option (list Z) * ramdisk :=
  let s' := mk_ramdisk (ramdisk_ptr s) (ramdisk_size s) (ramdisk_fname s) (rd_status s) (h_files s) (h_exe s)
              (tail (h_malloc s)) (h_fread s) (h_open s) (rd_printed s) in
  match head (h_malloc s) with
  | Some None => (None, s')
  | o => (Some (take (Z.to_nat n) (default [] (default None o) ++ replicate (Z.to_nat n) 0)), s')
  end.

(** [fread(block, 1, n, f)] of a file just opened: the count and the block. *)
Definition fread (block : list Z) (n : Z) (data : list Z) (s : ramdisk) : Z * list Z * ramdisk :=
  let k := Nat.min (Z.to_nat n) (match head (h_fread s) with Some m => Nat.min m (length data) | None => length data end) in
  (Z.of_nat k, patch 0 (take k data) block,
   mk_ramdisk (ramdisk_ptr s) (ramdisk_size s) (ramdisk_fname s) (rd_status s) (h_files s) (h_exe s)
     (h_malloc s) (tail (h_fread s)) (h_open s) (rd_printed s)).

(** ** Finding the image *)

Definition file_exists (path : list Z) (s : ramdisk) : bool * ramdisk :=
  match fopen path s with
  | (None, s) => (false, s)
  | (Some _, s) => (true, fclose s)
  end.

(** Where the last separator of the path is, [i] characters before [p]. *)
Fixpoint last_slash (p : list Z) (i : nat) (slash : option nat) : option nat :=
  match p with
  | [] => slash
  | c :: p => last_slash p (S i) (if (c =? 47) || (c =? 92) then Some i else slash)
  end.

(** The string stored in [dir], [None] when [dir_size] is zero and nothing is. *)
Definition dirname_from_path (path : list Z) (dir_size : nat) : option (list Z) :=
  if Nat.eqb dir_size 0 then None else
  match last_slash path 0 None with
  | None => Some []
  | Some len =>
      let len := if Nat.leb dir_size len then (dir_size - 1)%nat else len in
      Some (take len path)
  end.

(** The string left in [dir] and whether it is not empty. *)
Definition executable_dir (dir_size : nat) (s : ramdisk) : bool * list Z :=
  if Nat.eqb dir_size 0 then (false, []) else
  match h_exe s with
  | None => (false, [])
  | Some link =>
      let path := take 1023 link in
      if Nat.eqb (length path) 0 then (false, []) else
      let dir := default [] (dirname_from_path path dir_size) in
      (negb (Nat.eqb (length dir) 0), dir)
  end.

Definition disk_name : list Z := str "disk.img".

Definition resolve_default_ramdisk_path (s : ramdisk) : res ramdisk :=
  fname ← cstr (ramdisk_fname s);
  if negb (bool_decide (fname = disk_name)) then Ok s else
  let '(found, s) := file_exists fname s in
  if (found : bool) then Ok s else
  let '(ok, dir) := executable_dir 1024 s in
  if negb ok then Ok s else
  let dir_len := length dir in
  if Nat.leb 1024 (dir_len + 1 + length disk_name) then Ok s else
  let path := dir ++ [47] ++ disk_name in
  let '(found, s) := file_exists path s in
  if (found : bool) then
    fn ← strncpy (ramdisk_fname s) path 1023;
    fn ← put 1023 0 fn;
    Ok (set_fname fn s)
  else Ok s.

(** ** The driver *)

Definition ramdisk_status (pdrv : Z) (s : ramdisk) : res (Z * ramdisk) :=
  if negb (pdrv =? 0) then Ok (MIPOS_DISK_RES_NOTRDY, s) else Ok (rd_status s, s).

Definition ramdisk_init (pdrv : Z) (s : ramdisk) : res (Z * ramdisk) :=
  if negb (pdrv =? 0) then Ok (MIPOS_DISK_RES_NOTRDY, s) else
  s ← resolve_default_ramdisk_path s;
  fname ← cstr (ramdisk_fname s);
  match fopen fname s with
  | (None, s) =>
      Ok (MIPOS_DISK_RES_NOTRDY, rd_print (str "disk image not found: " ++ fname ++ [10]) s)
  | (Some data, s) =>
      let img_size := Z.of_nat (length data) in
      if s32 img_size <? 1 then Ok (MIPOS_DISK_RES_NOTRDY, s) else
      let '(p, s) := malloc img_size (set_block (ramdisk_ptr s) img_size s) in
      let s := set_block p img_size s in
      match p with
      | None => Ok (MIPOS_DISK_RES_NOTRDY, s)
      | Some block =>
          let '(n, block, s) := fread block img_size data s in
          let s := set_block (Some block) img_size s in
          if n <? 1 then Ok (MIPOS_DISK_RES_NOTRDY, s) else
          let s := set_sts 0 (fclose s) in
          Ok (rd_status s, s)
      end
  end.

Definition not_ready (pdrv : Z) (s : ramdisk) : bool :=
  negb (pdrv =? 0) || (rd_status s &? MIPOS_DISK_STS_NOINIT).

(** The block the code indexes. *)
Definition ramdisk_block (s : ramdisk) : res (list Z) :=
  match ramdisk_ptr s with Some b => Ok b | None => Fault NullDeref end.

Definition ramdisk_read (pdrv : Z) (buf : buffer) (sector count : Z) (s : ramdisk) : res (Z * buffer * ramdisk) :=
  if not_ready pdrv s then Ok (MIPOS_DISK_RES_NOTRDY, buf, s) else
  block ← ramdisk_block s;
  match buf with
  | None => Fault NullDeref
  | Some b =>
      b ← copy 0 block (u32 (sector * SECTOR_SIZE)) (u32 (count * SECTOR_SIZE)) b;
      Ok (MIPOS_DISK_RES_OK, Some b, s)
  end.

Definition ramdisk_write (pdrv : Z) (buf : buffer) (sector count : Z) (s : ramdisk) : res (Z * ramdisk) :=
  if not_ready pdrv s then Ok (MIPOS_DISK_RES_NOTRDY, s) else
  block ← ramdisk_block s;
  match buf with
  | None => Fault NullDeref
  | Some b =>
      block ← copy (u32 (sector * SECTOR_SIZE)) b 0 (u32 (count * SECTOR_SIZE)) block;
      Ok (MIPOS_DISK_RES_OK, set_block (Some block) (ramdisk_size s) s)
  end.

Definition ramdisk_ioctl (pdrv cmd : Z) (buf : buffer) (s : ramdisk) : res (Z * buffer * ramdisk) :=
  let store v :=
    match buf with
    | None => Fault NullDeref
    | Some b => b ← store_int 4 v b; Ok (MIPOS_DISK_RES_OK, Some b, s)
    end in
  if cmd =? GET_SECTOR_COUNT then store (u32 (ramdisk_size s `div` SECTOR_SIZE))
  else if cmd =? GET_BLOCK_SIZE then store 32
  else Ok (MIPOS_DISK_RES_OK, buf, s).

(** [ramdisk_drv] of [root_task]. *)
Definition ramdisk_drv : mipos_disk_t ramdisk :=
  mk_disk 0 ramdisk_init ramdisk_status ramdisk_read ramdisk_write ramdisk_ioctl.

(** [strncpy(ramdisk_fname, argv[1], sizeof(ramdisk_fname) - 1)] of [main]. *)
Definition choose_image (argv1 : option (list Z)) (s : ramdisk) : res ramdisk :=
  match argv1 with
  | None => Ok s
  | Some name => fn ← strncpy (ramdisk_fname s) name 1023; Ok (set_fname fn s)
  end.

(** The statics before [main]. *)
Definition ramdisk0 (files : gmap (list Z) (list Z)) (exe : option (list Z)) (mallocs : list (option (list Z)))
    (freads : list nat) : ramdisk :=
  mk_ramdisk None 0 (disk_name ++ replicate 1016 0) MIPOS_DISK_STS_NOINIT files exe mallocs freads 0 [].
