(* ===== verification/RamdiskProps.v ===== *)
(** * The RAM disk is a disk

    What the driver of the FatFs example gives FatFs: once it is initialised,
    reading and writing sectors of the image; and when initialisation succeeds. *)

From S2P Require Import Prelude Bytes Cstdio Diskio FatDiskio Hostdisk Ff FfWindow FfMount FfDir FfData FfMountProps Ramdisk.

(** ** The stack below FatFs *)

(** The table after [mipos_add_disk_driver(&ramdisk_drv)]. *)
Definition rd_tbl : disk_tbl ramdisk := mk_tbl [ramdisk_drv] 1.

#[global] Instance rd_ops : DiskOps ramdisk := {
  Ff.disk_status p s := FatDiskio.disk_status p rd_tbl s;
  Ff.disk_initialize p s := FatDiskio.disk_initialize p rd_tbl s;
  Ff.disk_read p buf sec n s :=
    '(r, b, s) ← FatDiskio.disk_read 64 p (Some buf) sec n rd_tbl s; Ok (r, default buf b, s);
  Ff.disk_write p buf sec n s := FatDiskio.disk_write 64 p (Some buf) sec n rd_tbl s;
  Ff.disk_ioctl p c s := '(r, _, s) ← FatDiskio.disk_ioctl p c None rd_tbl s; Ok (r, s);
}.

Definition rd_dsk (s : ramdisk) (img : list Z) : Prop :=
  rd_status s = 0 ∧ ramdisk_ptr s = Some img ∧ Forall is_byte img ∧ Z.of_nat (length img) < 2 ^ 32 ∧ h_open s = 0.

Lemma rd_serves : mipos_find_disk_driver 0 rd_tbl = Ok (Some ramdisk_drv).
Proof. done. Qed.

(** The sectors FatFs asks for are where the code finds them. *)
Lemma rd_fits img sec n :
  Z.of_nat (length img) < 2 ^ 32 → 0 ≤ sec → 0 < n → sec + n ≤ n_sect img →
  u32 (wrap 64 sec) = sec ∧ u32 (u32 n) = n ∧ u32 (sec * SECTOR_SIZE) = sec * SS ∧ u32 (n * SECTOR_SIZE) = n * SS ∧
  (sec + n) * SS ≤ Z.of_nat (length img).
Proof.
  intros Hl Hs Hn Hle. unfold n_sect, Ff.SS, SECTOR_SIZE in *.
  pose proof (Z.mul_div_le (Z.of_nat (length img)) 512 ltac:(lia)). 
  rewrite (wrap_small 64 sec), (wrap_small 32 sec), (wrap_small 32 n), (wrap_small 32 n), (wrap_small 32 (sec * 512)), (wrap_small 32 (n * 512)) by lia. lia.
Qed.

#[global] Instance rd_disk : Disk ramdisk.
Proof.
  refine {| dsk := rd_dsk |}; destruct (found_driver_serves 0 _ _ rd_serves) as (Hst & Hin & Hrd & Hwr & Hio).
  - intros s img (_ & _ & Hb & Hl & _). split; [done|]. unfold n_sect, Ff.SS, FFFFFFFF. apply Z.div_lt_upper_bound; lia.
  - intros s img Hd. exists s. split; [|done]. cbn [Ff.disk_status rd_ops]. unfold FatDiskio.disk_status. change (u32 (u8 0)) with 0.
    rewrite Hst. cbn. unfold ramdisk_status. cbn. destruct Hd as (-> & _). done.
  - intros s img buf sec n Hd Hs Hn Hle Hbuf. pose proof Hd as (H0 & Hp & _ & Hl & _). destruct (rd_fits img sec n Hl Hs Hn Hle) as (E1 & E2 & E3 & E4 & Hin').
    exists s. split; [|done]. cbn [Ff.disk_read rd_ops]. unfold FatDiskio.disk_read. change (u32 (u8 0)) with 0. rewrite Hrd, E1, E2.
    cbn [_disk_read ramdisk_drv]. unfold ramdisk_read, not_ready, ramdisk_block. rewrite H0, Hp. cbn [Z.eqb negb orb]. rewrite anybit_0_l, bind_Ok, E3, E4.
    unfold Ff.SS in *. by rewrite copy_ok by lia.
  - intros s img buf sec n Hd Hs Hn Hle Hbuf Hby. pose proof Hd as (H0 & Hp & Hb & Hl & Ho). destruct (rd_fits img sec n Hl Hs Hn Hle) as (E1 & E2 & E3 & E4 & Hin').
    eexists. cbn [Ff.disk_write rd_ops]. unfold FatDiskio.disk_write. change (u32 (u8 0)) with 0. rewrite Hwr, E1, E2.
    cbn [_disk_write ramdisk_drv]. unfold ramdisk_write, not_ready, ramdisk_block. rewrite H0, Hp. cbn [Z.eqb negb orb]. rewrite anybit_0_l, bind_Ok, E3, E4.
    unfold Ff.SS in *. rewrite copy_ok by lia. rewrite bind_Ok. split; [reflexivity|].
    assert (bytes_at (Z.to_nat 0) (Z.to_nat (n * 512)) buf = take (Z.to_nat (n * 512)) buf) as -> by done.
    split; [done|]. split; [done|]. split; [apply patch_bytes; [by apply Forall_take|done]|]. split; [|done]. rewrite patch_length; [done|]. rewrite length_take. lia.
  - intros s img Hd. exists s. split; [|done]. cbn [Ff.disk_ioctl rd_ops]. unfold FatDiskio.disk_ioctl. change (u32 (u8 0)) with 0. by rewrite Hio.
Defined.

(** ** Initialisation *)

(** The name the image is looked up under. *)
Definition chosen (name : list Z) (s : ramdisk) : list Z :=
  if bool_decide (name = disk_name) && bool_decide (h_files s !! name = None) then
    let '(ok, dir) := executable_dir 1024 s in
    let path := dir ++ [47] ++ disk_name in
    if (ok && Nat.ltb (length path) 1024) && bool_decide (is_Some (h_files s !! path)) then path else name
  else name.

Lemma file_exists_ok path s : file_exists path s = (bool_decide (is_Some (h_files s !! path)), s).
Proof.
  unfold file_exists, fopen. destruct (h_files s !! path) as [x|]; [|done]. unfold fclose, set_open. cbn. f_equal.
  destruct s. cbn. f_equal. lia.
Qed.

(** A path that fits is kept as a string. *)
Lemma copy_name fname path :
  length fname = 1024%nat → (length path < 1024)%nat → Forall (λ c, c ≠ 0) path →
  ∃ fn, (fn ← strncpy fname path 1023; put 1023 0 fn) = Ok fn ∧ cstr fn = Ok path ∧ length fn = 1024%nat.
Proof.
  intros Hl Hp Hz. unfold strncpy. rewrite (proj2 (Nat.ltb_ge _ _)) by lia. rewrite until_nul_id, take_ge by (done || lia). rewrite bind_Ok.
  rewrite put_ok by (rewrite !length_app, length_replicate, length_drop; lia). eexists. split; [reflexivity|].
  split; [|rewrite length_insert, !length_app, length_replicate, length_drop; lia]. change (Z.to_nat 1023) with 1023%nat. change (u8 0) with 0.
  rewrite insert_app_r_alt by lia. destruct (1023 - length path)%nat as [|k] eqn:Hk.
  - destruct (drop 1023 fname) as [|x r] eqn:Hd; [|by apply cstr_app]. apply (f_equal length) in Hd. rewrite length_drop in Hd. simpl in Hd. lia.
  - by apply cstr_app.
Qed.

Lemma exe_dir_chars s : Forall (λ c, c ≠ 0) (default [] (h_exe s)) → Forall (λ c, c ≠ 0) (executable_dir 1024 s).2.
Proof.
  intros Hz. unfold executable_dir. cbn [Nat.eqb]. destruct (h_exe s) as [link|]; [|done]. cbn [default] in Hz.
  destruct (Nat.eqb _ 0); [done|]. cbn [snd]. unfold dirname_from_path. cbn [Nat.eqb]. destruct (last_slash _ 0 None) as [k|]; [|done].
  cbn [default]. by apply Forall_take, Forall_take.
Qed.

Lemma resolve_ok s name :
  cstr (ramdisk_fname s) = Ok name → length (ramdisk_fname s) = 1024%nat → Forall (λ c, c ≠ 0) (default [] (h_exe s)) →
  ∃ fn, resolve_default_ramdisk_path s = Ok (set_fname fn s) ∧ cstr fn = Ok (chosen name s) ∧ length fn = 1024%nat.
Proof.
  intros Hn Hl Hz. pose proof (exe_dir_chars s Hz) as Hd. unfold resolve_default_ramdisk_path, chosen. rewrite Hn, bind_Ok.
  assert (set_fname (ramdisk_fname s) s = s) as Hs by by destruct s.
  destruct (bool_decide_reflect (name = disk_name)) as [->|]; cbn [negb andb]; [|exists (ramdisk_fname s); by rewrite Hs].
  rewrite file_exists_ok. destruct (h_files s !! disk_name) as [x|] eqn:Hf; cbn [bool_decide].
  { rewrite bool_decide_true by eauto. rewrite bool_decide_false by done. exists (ramdisk_fname s). by rewrite Hs. }
  rewrite bool_decide_false by (by intros [? ?]). rewrite (bool_decide_true (None = None)) by done.
  destruct (executable_dir 1024 s) as [ok dir]. cbn [snd] in Hd. destruct ok; cbn [negb andb]; [|exists (ramdisk_fname s); by rewrite Hs].
  set (path := dir ++ [47] ++ disk_name). assert (length path = (length dir + 1 + length disk_name)%nat) as Hlp by (unfold path; rewrite !length_app; cbn; lia).
  rewrite Hlp. destruct (Nat.leb_spec 1024 (length dir + 1 + length disk_name)).
  { rewrite (proj2 (Nat.ltb_ge _ _)) by lia. exists (ramdisk_fname s). by rewrite Hs. }
  rewrite (proj2 (Nat.ltb_lt _ _)) by lia. cbn [andb]. rewrite file_exists_ok.
  destruct (bool_decide (is_Some (h_files s !! path))); [|exists (ramdisk_fname s); by rewrite Hs].
  destruct (copy_name (ramdisk_fname s) path Hl) as (fn & E & Hc & Hlen); [lia| |].
  { unfold path. apply Forall_app. split; [done|]. repeat constructor; done. }
  apply bind_ok in E as (fn1 & -> & E). rewrite bind_Ok, E, bind_Ok. by exists fn.
Qed.

Definition malloc_gives (s : ramdisk) : Prop := head (h_malloc s) ≠ Some None.
Definition fread_gives (n : nat) (s : ramdisk) : Prop := match head (h_fread s) with Some m => (n ≤ m)%nat | None => True end.

Lemma malloc_ok n s :
  malloc_gives s → ∃ b s', malloc n s = (Some b, s') ∧ length b = Z.to_nat n ∧ h_fread s' = h_fread s ∧ h_open s' = h_open s ∧ h_files s' = h_files s.
Proof.
  unfold malloc_gives, malloc. intros Hm. destruct (head (h_malloc s)) as [[b|]|]; try done;
    (eexists _, _; split; [reflexivity|]; split; [|done]; rewrite length_take, length_app, length_replicate; lia).
Qed.

Lemma fread_ok block n data s :
  fread_gives (length data) s → n = Z.of_nat (length data) → length block = length data →
  ∃ s', fread block n data s = (n, data, s') ∧ h_open s' = h_open s ∧ h_files s' = h_files s.
Proof.
  unfold fread_gives, fread. intros Hf -> Hb.
  assert (Nat.min (Z.to_nat (Z.of_nat (length data))) match head (h_fread s) with Some m => Nat.min m (length data) | None => length data end = length data) as ->.
  { destruct (head (h_fread s)); lia. }
  rewrite take_ge by lia. unfold patch. rewrite take_0, drop_ge, app_nil_r by lia. eexists. split; [reflexivity|done].
Qed.

(** Initialisation succeeds when nothing on the host fails. *)
Lemma rd_init_ok s name data :
  cstr (ramdisk_fname s) = Ok name → length (ramdisk_fname s) = 1024%nat → Forall (λ c, c ≠ 0) (default [] (h_exe s)) →
  h_files s !! chosen name s = Some data → Forall is_byte data → 0 < Z.of_nat (length data) < 2 ^ 31 →
  malloc_gives s → fread_gives (length data) s → h_open s = 0 →
  ∃ s', disk_initialize 0 s = Ok (0, s') ∧ rd_dsk s' data ∧ h_files s' = h_files s.
Proof.
  intros Hn Hl Hz Hf Hb Hlen Hm Hfr Ho. destruct (found_driver_serves 0 _ _ rd_serves) as (_ & Hin & _).
  destruct (resolve_ok s name Hn Hl Hz) as (fn & Er & Hc & Hlf).
  cbn [Ff.disk_initialize rd_ops]. unfold FatDiskio.disk_initialize. change (u32 (u8 0)) with 0. rewrite Hin. cbn [_disk_init ramdisk_drv].
  unfold ramdisk_init. cbn [Z.eqb negb]. rewrite Er, bind_Ok. cbn [ramdisk_fname set_fname]. rewrite Hc, bind_Ok.
  unfold fopen. cbn [h_files set_fname]. rewrite Hf. set (n := Z.of_nat (length data)) in *.
  rewrite swrap_small, (proj2 (Z.ltb_ge n 1)) by (simpl; lia). set (s1 := set_open _ _).
  destruct (malloc_ok n (set_block (ramdisk_ptr s1) n s1) Hm) as (b & s2 & -> & Hlb & Hfr2 & Ho2 & Hfi2).
  destruct (fread_ok b n data (set_block (Some b) n s2)) as (s3 & -> & Ho3 & Hfi3); [by unfold fread_gives; cbn; rewrite Hfr2|done|lia|].
  rewrite (proj2 (Z.ltb_ge n 1)) by lia. eexists. split; [reflexivity|]. 
  cbn in Ho2, Ho3, Hfi2, Hfi3. split; [|cbn; by rewrite Hfi3, Hfi2].
  split; [done|split; [done|split; [done|split; [lia|cbn; rewrite Ho3, Ho2; lia]]]].
Qed.

(** ** The example *)

(** What [main] and [root_task] do with the drive: the name of the image, the
    driver in the table, the mount. *)
Definition root_task_mount (v : ffvars) (fs : FATFS) (s : ramdisk) : res (FRESULT * ffvars * (FATFS * ramdisk)) :=
  '((r, v), (fs, s)) ← f_mount 64 v true (Some (str "0:")) 1 (fs, s);
  Ok (r, v, (fs, if decide (r ≠ FR_OK) then rd_print (str "f_mount failed" ++ [10]) s else s)).

Definition boot_example (argv1 : option (list Z)) (v : ffvars) (fs : FATFS) (s : ramdisk) : res (FRESULT * ffvars * (FATFS * ramdisk)) :=
  s ← choose_image argv1 s; root_task_mount v fs s.

(** The table the driver is then in. *)
Lemma rd_tbl_added d0 : mipos_add_disk_driver 1 ramdisk_drv (mk_tbl [d0] 0) = Ok (0, rd_tbl).
Proof. done. Qed.

(** The name after [main]. *)
Definition image_name (argv1 : option (list Z)) : list Z := take 1023 (default disk_name argv1).

Lemma choose_image_ok argv1 s :
  ramdisk_fname s = disk_name ++ replicate 1016 0 → Forall (λ c, c ≠ 0) (default [] argv1) →
  ∃ fn, choose_image argv1 s = Ok (set_fname fn s) ∧ cstr fn = Ok (image_name argv1) ∧ length fn = 1024%nat.
Proof.
  intros Hf Hz. destruct argv1 as [name|]; cbn [choose_image image_name default] in *.
  2:{ exists (ramdisk_fname s). rewrite Hf. split; [|by split]. f_equal. rewrite <-Hf. by destruct s. }
  unfold strncpy. rewrite Hf. change (Nat.ltb (length (disk_name ++ replicate 1016 0)) 1023) with false. cbv iota.
  rewrite until_nul_id by done. set (cs := take 1023 name). assert (length cs ≤ 1023)%nat by (unfold cs; rewrite length_take; lia).
  change (drop 1023 (disk_name ++ replicate 1016 0)) with [0]. cbn [mbind res_bind].
  eexists. split; [reflexivity|]. split; [|rewrite !length_app, length_replicate; cbn; lia].
  assert (Forall (λ c, c ≠ 0) cs) by by apply Forall_take. destruct (1023 - length cs)%nat; by apply cstr_app.
Qed.

(** C23: the FatFs example boots from a disk image: started with the name of
    an image, or finding [disk.img] in the current directory or else next to
    the program, when that file is an image of less than two gigabytes whose
    first sector is the boot sector of a FAT volume that fits, and memory and
    the reading do not fail, the drive is loaded with exactly the bytes of the
    file and the volume is mounted from it with the geometry the boot sector
    gives, and no file is left open. *)
Theorem example_boots argv1 v fs s data :
  ramdisk_fname s = disk_name ++ replicate 1016 0 → Forall (λ c, c ≠ 0) (default [] argv1) → Forall (λ c, c ≠ 0) (default [] (h_exe s)) →
  h_files s !! chosen (image_name argv1) s = Some data → Forall is_byte data → 0 < Z.of_nat (length data) < 2 ^ 31 → malloc_gives s → fread_gives (length data) s → h_open s = 0 →
  length (win fs) = 512%nat → boot_ok (sector 0 data) (n_sect data) → mirrored (sector 0 data) data →
  ∃ fs' s', boot_example argv1 v fs s = Ok (FR_OK, mk_vars true (u16 (Fsid v + 1)), (fs', s')) ∧ rd_dsk s' data ∧
    is_mounted (sector 0 data) fs' ∧ win_ok fs' data ∧ pow2_csize fs'.
Proof.
  intros Hf Hz Hze Hfile Hb Hlen Hm Hfr Ho Hw Hboot Hmir. destruct (choose_image_ok argv1 s Hf Hz) as (fn & E & Hc & Hl).
  destruct (rd_init_ok (set_fname fn s) (image_name argv1) data) as (s1 & E1 & Hd1 & _); try done.
  destruct (mount_ok 64 ltac:(lia) v fs (set_fname fn s) data (Some (str "0:")) 1) as (fs' & s' & Em & Hd' & Hmt & _ & Hwin & Hp & _); try done.
  { exists s1. exact (conj E1 Hd1). }
  exists fs', s'. unfold boot_example, root_task_mount. rewrite E. cbn [mbind res_bind]. rewrite Em. cbn [mbind res_bind].
  rewrite decide_False by exact (λ X, X eq_refl). done.
Qed.

(** ** The image of the small volume *)

Definition boot_files : gmap (list Z) (list Z) := {[ str "/opt/disk.img" := boot_img ]}.

Lemma example_boots_witness :
  ∃ fs' s', boot_example None (mk_vars false 0) blank_fs (ramdisk0 boot_files (Some (str "/opt/prog")) [] []) = Ok (FR_OK, mk_vars true 1, (fs', s')) ∧
    rd_dsk s' boot_img ∧ fs_type fs' = FS_FAT12.
Proof.
  destruct (example_boots None (mk_vars false 0) blank_fs (ramdisk0 boot_files (Some (str "/opt/prog")) [] []) boot_img) as (fs' & s' & E & Hd & M & _).
  - reflexivity.
  - constructor.
  - apply (bool_decide_unpack _). vm_compute. exact I.
  - vm_compute. reflexivity.
  - exact boot_bytes.
  - vm_compute. split; reflexivity.
  - discriminate.
  - exact I.
  - reflexivity.
  - reflexivity.
  - exact small_boot_ok.
  - exact boot_mirrored.
  - exists fs', s'. split; [exact E|]. split; [exact Hd|]. rewrite (im_type _ _ M). vm_compute. reflexivity.
Defined.

(** ** What goes wrong *)

(** An image that is empty: the drive is not ready, and the file stays open. *)
Lemma empty_image_stays_open :
  ∃ s', ramdisk_init 0 (ramdisk0 {[ disk_name := [] ]} None [] []) = Ok (MIPOS_DISK_RES_NOTRDY, s') ∧ h_open s' = 1 ∧ rd_status s' = MIPOS_DISK_STS_NOINIT.
Proof. eexists. split; [vm_compute; reflexivity|]. by split. Qed.

(** Sectors are not checked against the size of the image. *)
Lemma read_past_image img buf sector :
  Z.of_nat (length img) < sector * SECTOR_SIZE < 2 ^ 32 → ∀ s, rd_dsk s img → ramdisk_read 0 (Some buf) sector 1 s = Fault OutOfBounds.
Proof.
  intros Hs s (H0 & Hp & _). unfold ramdisk_read, not_ready, ramdisk_block. rewrite H0, Hp. cbn [Z.eqb negb orb]. rewrite anybit_0_l, bind_Ok.
  rewrite (wrap_small 32 (sector * SECTOR_SIZE)) by lia. unfold copy. change (u32 (1 * SECTOR_SIZE)) with 512.
  rewrite (proj2 (Z.ltb_lt (Z.of_nat (length img)) _)) by lia. rewrite !orb_true_r. done.
Qed.
