(* ===== verification/FatShell.v ===== *)
(** * The shell of the FatFs example

    The commands [ls], [cd], [pwd] and [cat] of src/examples/simu/fatfs/main.c.
    They work on a file system through six calls, the class [FsOps], of which
    FatFs is the instance the example uses; the current directory is a string
    in a static array of 1024 characters, which the commands extend and cut in
    place. A command gets the words of its line and returns its status. *)

From S2P Require Import Prelude Bytes Cstdio Ff FfDir FfMount FfFile FfApi.

(** ** The calls *)

Class FsOps (V : Type) := {
  op_opendir : DIR → list Z → V → res (FRESULT * DIR * V);
  op_readdir : DIR → FILINFO → V → res (FRESULT * DIR * FILINFO * V);
  op_closedir : DIR → V → res (FRESULT * DIR * V);
  op_open : FIL → list Z → Z → V → res (FRESULT * FIL * V);
  op_read : FIL → list Z → Z → V → res (FRESULT * FIL * list Z * Z * V);
  op_close : FIL → V → res (FRESULT * FIL * V);
}.

(** FatFs: its static variables, the file system object and the disk. The
    local [DIR] of [f_open], which it does not initialise, is [dj]. *)
Record fatfs (D : Type) := mk_fatfs_state { fat_vars : ffvars; fat_vol : FATFS * D; fat_dj : DIR }.
Arguments mk_fatfs_state {D} _ _ _.
Arguments fat_vars {D} _.
Arguments fat_vol {D} _.
Arguments fat_dj {D} _.

Section instance.
Context {D : Type} `{DiskOps D} (W : Z).

Definition fat_opendir (dp : DIR) (path : list Z) (v : fatfs D) : res (FRESULT * DIR * fatfs D) :=
  '((r, dp, vars), vol) ← f_opendir W (fat_vars v) dp (Some path) (fat_vol v);
  Ok (r, dp, mk_fatfs_state vars vol (fat_dj v)).
Definition fat_readdir (dp : DIR) (fno : FILINFO) (v : fatfs D) : res (FRESULT * DIR * FILINFO * fatfs D) :=
  '((r, dp, info), vol) ← f_readdir W dp (Some fno) (fat_vol v);
  Ok (r, dp, default fno info, mk_fatfs_state (fat_vars v) vol (fat_dj v)).
Definition fat_closedir (dp : DIR) (v : fatfs D) : res (FRESULT * DIR * fatfs D) :=
  '((r, dp), vol) ← f_closedir dp (fat_vol v);
  Ok (r, dp, mk_fatfs_state (fat_vars v) vol (fat_dj v)).
Definition fat_open (fp : FIL) (path : list Z) (mode : Z) (v : fatfs D) : res (FRESULT * FIL * fatfs D) :=
  '((r, fp, vars), vol) ← f_open W (fat_vars v) (fat_dj v) fp (Some path) mode (fat_vol v);
  Ok (r, fp, mk_fatfs_state vars vol (fat_dj v)).
Definition fat_read (fp : FIL) (buff : list Z) (btr : Z) (v : fatfs D) : res (FRESULT * FIL * list Z * Z * fatfs D) :=
  '((r, fp, buff, br), vol) ← f_read W fp buff btr (fat_vol v);
  Ok (r, fp, buff, br, mk_fatfs_state (fat_vars v) vol (fat_dj v)).
Definition fat_close (fp : FIL) (v : fatfs D) : res (FRESULT * FIL * fatfs D) :=
  '((r, fp), vol) ← f_close W fp (fat_vol v);
  Ok (r, fp, mk_fatfs_state (fat_vars v) vol (fat_dj v)).

(** The operations of FatFs, with [DWORD] of [W] bits. *)
Definition fat_ops : FsOps (fatfs D) := {|
  op_opendir := fat_opendir; op_readdir := fat_readdir; op_closedir := fat_closedir;
  op_open := fat_open; op_read := fat_read; op_close := fat_close |}.
End instance.

(** ** C strings in place *)

Definition strcat (buf s : list Z) : res (list Z) :=
  cur ← cstr buf;
  if Nat.ltb (length buf) (length cur + length s + 1) then Fault OutOfBounds
  else Ok (patch (length cur) (s ++ [0]) buf).

Definition strcpy (buf s : list Z) : res (list Z) :=
  if Nat.ltb (length buf) (length s + 1) then Fault OutOfBounds else Ok (patch 0 (s ++ [0]) buf).

(** ** The commands *)

Record shell (V : Type) := mk_shell { g_curr_dir : list Z; sh_fs : V; sh_out : list Z }.
Arguments mk_shell {V} _ _ _.
Arguments g_curr_dir {V} _.
Arguments sh_fs {V} _.
Arguments sh_out {V} _.

Definition CURR_DIR_SIZE : Z := 1024.
Definition AM_HID : Z := 2.
Definition AM_SYS : Z := 4.

Section shell.
Context {V : Type} `{FsOps V}.

Implicit Types (s : shell V) (argv : list (list Z)).

Definition set_dir (b : list Z) s : shell V := mk_shell b (sh_fs s) (sh_out s).
Definition set_fs (v : V) s : shell V := mk_shell (g_curr_dir s) v (sh_out s).
Definition print (l : list Z) s : shell V := mk_shell (g_curr_dir s) (sh_fs s) (sh_out s ++ l).

(** [%02u] and [%u]. *)
Definition fmt_02u (n : Z) : list Z := pad_left 48 2 (to_digits 20 false 10 n []).
Definition fmt_u (n : Z) : list Z := to_digits 20 false 10 n [].

Definition flag_char (attrib m c : Z) : Z := if attrib &? m then c else 45.

(** The line of an entry. *)
Definition ls_line (i : FILINFO) : list Z :=
  [flag_char (fi_attrib i) AM_DIR 100; flag_char (fi_attrib i) AM_RDO 114; flag_char (fi_attrib i) AM_HID 104;
   flag_char (fi_attrib i) AM_SYS 115; flag_char (fi_attrib i) AM_ARC 97; 32] ++
  fmt_u (Z.shiftr (fi_date i) 9 + 1980) ++ [47] ++ fmt_02u (Z.land (Z.shiftr (fi_date i) 5) 15) ++ [47] ++
  fmt_02u (Z.land (fi_date i) 31) ++ [32] ++ fmt_02u (Z.shiftr (fi_time i) 11) ++ [58] ++
  fmt_02u (Z.land (Z.shiftr (fi_time i) 5) 63) ++ [32] ++ fmt_dec 9 (u32 (fi_size i)) ++ str " bytes  " ++
  until_nul (fi_name i) ++ [10].

Definition ls_total (files tot dirs : Z) : list Z :=
  [10] ++ fmt_dec 4 (u32 files) ++ str " File(s)," ++ fmt_dec 10 (u32 tot) ++ str " bytes total" ++ [10] ++
  fmt_dec 4 (u32 dirs) ++ str " Dir(s)" ++ [10].

(** The loop: its result, the directory object, the counts and the shell. *)
Fixpoint ls_loop (fuel : nat) (dp : DIR) (fno : FILINFO) (files dirs tot : Z) s
    : res (Z * DIR * (Z * Z * Z) * shell V) :=
  match fuel with
  | O => Fault OutOfFuel
  | S fuel =>
      '(r, dp, fno, v) ← op_readdir dp fno (sh_fs s);
      let s := set_fs v s in
      if decide (r ≠ FR_OK) then Ok (-1, dp, (files, tot, dirs), s) else
      if default 0 (head (fi_name fno)) =? 0 then Ok (0, dp, (files, tot, dirs), s) else
      let s := print (ls_line fno) s in
      if fi_attrib fno &? AM_DIR then ls_loop fuel dp fno files (u64 (dirs + 1)) tot s
      else ls_loop fuel dp fno (u64 (files + 1)) dirs (u64 (tot + fi_size fno)) s
  end.

(** [dir_desc], which the code does not initialise, is [dd]. *)
Definition exec_cmd_ls (fuel : nat) (dd : DIR) argv s : res (Z * shell V) :=
  s_dir ← (match argv !! 1%nat with Some a => Ok a | None => cstr (g_curr_dir s) end);
  '(r, dp, v) ← op_opendir dd s_dir (sh_fs s);
  let s := set_fs v s in
  if decide (r ≠ FR_OK) then Ok (-1, print ([39] ++ s_dir ++ str "' not found" ++ [10]) s) else
  '(ret, dp, (files, tot, dirs), s) ← ls_loop fuel dp (mk_filinfo 0 0 0 0 []) 0 0 0 s;
  let s := print (if negb (ret =? 0) then [10] ++ str "Error reading the directory content" ++ [10]
                  else ls_total files tot dirs) s in
  '(_, _, v) ← op_closedir dp (sh_fs s);
  Ok (ret, set_fs v s).

(** The [do] loop of [cat]: what is returned and the file object. *)
Fixpoint cat_loop (fuel : nat) (fp : FIL) (buf : list Z) s : res (Z * FIL * shell V) :=
  match fuel with
  | O => Fault OutOfFuel
  | S fuel =>
      '(r, fp, buf, bread, v) ← op_read fp buf 63 (sh_fs s);
      let s := set_fs v s in
      if decide (r ≠ FR_OK) then Ok (-1, fp, s) else
      buf ← put bread 0 buf;
      text ← cstr buf;
      let s := print text s in
      if bread =? 63 then cat_loop fuel fp buf s else Ok (0, fp, s)
  end.

Definition exec_cmd_cat (fuel : nat) (file : FIL) argv s : res (Z * shell V) :=
  match argv !! 1%nat with
  | None => Ok (-1, s)
  | Some arg =>
      cur ← cstr (g_curr_dir s);
      let curdir_len := Z.of_nat (length cur) in
      if CURR_DIR_SIZE <=? curdir_len + Z.of_nat (length arg) + 1 then Ok (-1, s) else
      c ← (if curdir_len <? 1 then Ok 0 else get (g_curr_dir s) (curdir_len - 1));
      b ← (if negb (c =? 47) then strcat (g_curr_dir s) [47] else Ok (g_curr_dir s));
      b ← strcat b arg;
      path ← cstr b;
      '(r, fp, v) ← op_open file path FA_READ (sh_fs s);
      b ← put curdir_len 0 b;
      let s := set_fs v (set_dir b s) in
      if decide (r ≠ FR_OK) then Ok (-1, s) else
      '(ret, fp, s) ← cat_loop fuel fp (replicate 64 0) s;
      '(_, _, v) ← op_close fp (sh_fs s);
      Ok (ret, set_fs v s)
  end.

(** [while ((g_curr_dir[pos] != '/') && (pos > 1)) --pos;] *)
Fixpoint up_loop (fuel : nat) (b : list Z) (pos : Z) : res Z :=
  match fuel with
  | O => Fault OutOfFuel
  | S fuel =>
      c ← get b pos;
      if negb (c =? 47) && (1 <? pos) then up_loop fuel b (pos - 1) else Ok pos
  end.

(** [FR_OK == f_opendir(..)], the directory being closed again where it was
    opened. *)
Definition try_dir (dd : DIR) (path : list Z) s : res (bool * shell V) :=
  '(r, dp, v) ← op_opendir dd path (sh_fs s);
  if decide (r = FR_OK) then
    '(_, _, v) ← op_closedir dp v; Ok (true, set_fs v s)
  else Ok (false, set_fs v s).

Definition chdir_absolute (dd : DIR) (new_dir : list Z) s : res (Z * shell V) :=
  if CURR_DIR_SIZE <=? Z.of_nat (length new_dir) then Ok (-1, s) else
  '(r, dp, v) ← op_opendir dd new_dir (sh_fs s);
  let s := set_fs v s in
  if decide (r = FR_OK) then
    b ← strcpy (g_curr_dir s) new_dir;
    '(_, _, v) ← op_closedir dp (sh_fs s);
    Ok (0, set_fs v (set_dir b s))
  else Ok (0, s).

Definition chdir_up (dd : DIR) (dirlen : Z) s : res (Z * shell V) :=
  if dirlen <? 1 then Ok (-1, s) else
  pos ← up_loop (Z.to_nat dirlen) (g_curr_dir s) (dirlen - 1);
  b ← put pos 0 (g_curr_dir s);
  let s := set_dir b s in
  path ← cstr b;
  '(ok, s) ← try_dir dd path s;
  if (ok : bool) then Ok (0, s) else
  b ← put pos 47 (g_curr_dir s);
  Ok (-1, set_dir b s).

Definition chdir_down (dd : DIR) (cur new_dir : list Z) s : res (Z * shell V) :=
  let dirlen := Z.of_nat (length cur) in
  if CURR_DIR_SIZE <=? dirlen + Z.of_nat (length new_dir) + 1 then Ok (-1, s) else
  b ← (if negb (bool_decide (cur = [47])) then strcat (g_curr_dir s) [47] else Ok (g_curr_dir s));
  b ← strcat b new_dir;
  let s := set_dir b s in
  path ← cstr b;
  '(ok, s) ← try_dir dd path s;
  if (ok : bool) then Ok (0, s) else
  b ← put dirlen 0 (g_curr_dir s);
  Ok (-1, set_dir b s).

Definition exec_cmd_chdir (dd : DIR) argv s : res (Z * shell V) :=
  match argv !! 1%nat with
  | None => Ok (0, s)
  | Some new_dir =>
      if bool_decide (new_dir = [46]) then Ok (0, s) else
      if default 0 (head new_dir) =? 47 then chdir_absolute dd new_dir s else
      cur ← cstr (g_curr_dir s);
      if bool_decide (new_dir = [46; 46]) && negb (bool_decide (cur = [47])) then
        chdir_up dd (Z.of_nat (length cur)) s
      else chdir_down dd cur new_dir s
  end.

Definition exec_cmd_pwd s : res (Z * shell V) :=
  cur ← cstr (g_curr_dir s); Ok (0, print (cur ++ [10]) s).

(** [user_cmd_list]: the words the console knows, and their commands. *)
Inductive fat_command := CmdLs | CmdCd | CmdPwd | CmdCat.

Definition user_cmd_list : list (list Z * fat_command) :=
  [(str "ls", CmdLs); (str "cd", CmdCd); (str "pwd", CmdPwd); (str "cat", CmdCat)].

Definition exec_cmd (fuel : nat) (dd : DIR) (file : FIL) (c : fat_command) argv s : res (Z * shell V) :=
  match c with
  | CmdLs => exec_cmd_ls fuel dd argv s
  | CmdCd => exec_cmd_chdir dd argv s
  | CmdPwd => exec_cmd_pwd s
  | CmdCat => exec_cmd_cat fuel file argv s
  end.
End shell.

(** The statics before the first command. *)
Definition shell0 {V} (v : V) : shell V := mk_shell ([47] ++ replicate 1023 0) v [].
