(* ===== verification/FatShellProps.v ===== *)
(** * The shell of the FatFs example is correct

    Over any file system whose calls return, no command overruns the array of
    the current directory or its buffer; over FatFs, [cat] prints the file and
    [ls] the directory. *)

From S2P Require Import Prelude Bytes Cstdio Ff FfDir FfMount FfFile FfApi FatShell.

(** ** Strings in an array *)

Abbreviation no_nul := (Forall (λ c, c ≠ 0)).

Lemma cstr_split b cur : cstr b = Ok cur ↔ no_nul cur ∧ ∃ rest, b = cur ++ 0 :: rest.
Proof.
  split; [|by intros (Hz & rest & ->); apply cstr_app]. revert cur. induction b as [|c b IH]; intros cur; [done|]. cbn [cstr].
  destruct (Z.eqb_spec c 0) as [->|Hc]; [intros [= <-]; split; [done|by exists b]|].
  destruct (cstr b) as [w|]; [|done]. cbn. intros [= <-]. destruct (IH w eq_refl) as [Hz (rest & ->)]. split; [by constructor|by exists rest].
Qed.

Lemma cstr_shorter b cur : cstr b = Ok cur → (length cur < length b)%nat.
Proof. intros (_ & rest & ->)%cstr_split. rewrite length_app. simpl. lia. Qed.

Lemma patch_app_r (a b x : list Z) : patch (length a) x (a ++ b) = a ++ x ++ drop (length x) b.
Proof. unfold patch. rewrite take_app_length, drop_app_ge by lia. do 3 f_equal. lia. Qed.

Lemma strcat_ok b cur s :
  cstr b = Ok cur → no_nul s → (length cur + length s < length b)%nat →
  ∃ b', strcat b s = Ok b' ∧ cstr b' = Ok (cur ++ s) ∧ length b' = length b.
Proof.
  intros Hc Hs Hl. unfold strcat. rewrite Hc, bind_Ok, (proj2 (Nat.ltb_ge _ _)) by lia. apply cstr_split in Hc as (Hz & rest & ->).
  rewrite length_app in Hl. simpl in Hl. eexists. split; [reflexivity|]. rewrite patch_app_r. split.
  - rewrite <-app_assoc. cbn [app]. rewrite app_assoc. apply cstr_app. by apply Forall_app.
  - rewrite !length_app, length_drop, ?length_app. cbn [length]. lia.
Qed.

Lemma strcpy_ok b s :
  no_nul s → (length s < length b)%nat → ∃ b', strcpy b s = Ok b' ∧ cstr b' = Ok s ∧ length b' = length b.
Proof.
  intros Hs Hl. unfold strcpy. rewrite (proj2 (Nat.ltb_ge _ _)) by lia. eexists. split; [reflexivity|].
  pose proof (patch_app_r [] b (s ++ [0])) as E. cbn [app length] in E. rewrite E. split.
  - rewrite <-app_assoc. by apply cstr_app.
  - rewrite !length_app, length_drop, ?length_app. cbn [length]. lia.
Qed.

(** A string is cut by a zero. *)
Lemma put_cut b cur i :
  cstr b = Ok cur → (i ≤ length cur)%nat →
  put (Z.of_nat i) 0 b = Ok (<[i := 0]> b) ∧ cstr (<[i := 0]> b) = Ok (take i cur) ∧ length (<[i := 0]> b) = length b.
Proof.
  intros Hc Hi. pose proof (cstr_shorter _ _ Hc). rewrite put_ok by lia. rewrite Nat2Z.id. split; [done|]. split; [|apply length_insert].
  apply cstr_split in Hc as (Hz & rest & ->). apply cstr_split. split; [by apply Forall_take|].
  assert (<[i := 0]> (cur ++ 0 :: rest) = take i cur ++ <[0%nat := 0]> (drop i cur ++ 0 :: rest)) as ->.
  { replace (cur ++ 0 :: rest) with (take i cur ++ drop i cur ++ 0 :: rest) by (by rewrite app_assoc, take_drop).
    rewrite insert_app_r_alt by (rewrite length_take; lia). rewrite length_take_le by lia. by rewrite Nat.sub_diag. }
  destruct (drop i cur ++ 0 :: rest) as [|x l] eqn:E; [by destruct (drop i cur)|]. by exists l.
Qed.

(** A character of a string is replaced. *)
Lemma put_char b cur i c :
  cstr b = Ok cur → (i < length cur)%nat → is_byte c → c ≠ 0 →
  put (Z.of_nat i) c b = Ok (<[i := c]> b) ∧ cstr (<[i := c]> b) = Ok (<[i := c]> cur) ∧ length (<[i := c]> b) = length b.
Proof.
  intros Hc Hi Hb Hne. pose proof (cstr_shorter _ _ Hc). unfold is_byte in Hb. rewrite put_ok, wrap_small, Nat2Z.id by lia.
  split; [done|]. split; [|apply length_insert]. apply cstr_split in Hc as (Hz & rest & ->). apply cstr_split.
  split; [by apply Forall_insert|]. exists rest. by rewrite insert_app_l by lia.
Qed.

(** ** The current directory *)

(** The array holds an absolute path. *)
Definition cwd_is {V} (cur : list Z) (s : shell V) : Prop :=
  cstr (g_curr_dir s) = Ok cur ∧ length (g_curr_dir s) = 1024%nat ∧ head cur = Some 47.

Definition cwd_ok {V} (s : shell V) : Prop := ∃ cur, cwd_is cur s.

(** How far [cd ..] cuts: to the last separator, but not the first character. *)
Fixpoint up_from (cur : list Z) (pos : nat) : nat :=
  match pos with
  | O => O
  | S p => if (default 0 (cur !! pos) =? 47) || Nat.leb pos 1 then pos else up_from cur p
  end.

(** What [cd] looks up, from the current directory [cur]. *)
Definition cd_target (cur new_dir : list Z) : list Z :=
  if default 0 (head new_dir) =? 47 then new_dir
  else if bool_decide (new_dir = [46; 46]) && negb (bool_decide (cur = [47])) then take (up_from cur (length cur - 1)) cur
  else (if bool_decide (cur = [47]) then cur else cur ++ [47]) ++ new_dir.

(** Where it stays when the lookup fails. *)
Definition cd_failed (cur new_dir : list Z) : Z * list Z :=
  if default 0 (head new_dir) =? 47 then (0, cur)
  else if bool_decide (new_dir = [46; 46]) && negb (bool_decide (cur = [47])) then (-1, <[up_from cur (length cur - 1) := 47]> cur)
  else (-1, cur).

Definition cd_fits (cur new_dir : list Z) : bool :=
  if default 0 (head new_dir) =? 47 then Nat.ltb (length new_dir) 1024
  else if bool_decide (new_dir = [46; 46]) && negb (bool_decide (cur = [47])) then true
  else Nat.ltb (length cur + length new_dir + 1) 1024.

Lemma up_from_bound cur pos : (1 ≤ pos)%nat → (1 ≤ up_from cur pos ≤ pos)%nat.
Proof.
  induction pos as [|p IH]; intros Hp; [lia|]. cbn [up_from].
  destruct (default 0 (cur !! S p) =? 47); cbn [orb]; [lia|]. destruct (Nat.leb_spec (S p) 1); [lia|]. specialize (IH ltac:(lia)). lia.
Qed.

Lemma up_loop_ok fuel b cur pos :
  cstr b = Ok cur → (1 ≤ pos < length cur)%nat → (pos ≤ fuel)%nat → up_loop fuel b (Z.of_nat pos) = Ok (Z.of_nat (up_from cur pos)).
Proof.
  intros Hc. pose proof (cstr_shorter _ _ Hc) as Hs. pose proof Hc as (_ & rest & Eb)%cstr_split.
  revert fuel. induction pos as [|p IH]; intros fuel Hp Hf; [lia|]. destruct fuel as [|fuel]; [lia|]. cbn [up_loop up_from].
  destruct (get_ok b (Z.of_nat (S p))) as (c & -> & Hl); [lia|]. rewrite bind_Ok. rewrite Nat2Z.id in Hl.
  assert (cur !! S p = Some c) as -> by (rewrite Eb, lookup_app_l in Hl by lia; done). cbn [default from_option id].
  destruct (c =? 47); cbn [negb andb orb]; [done|].
  destruct (Nat.leb_spec (S p) 1).
  - rewrite (proj2 (Z.ltb_ge 1 _)) by lia. done.
  - rewrite (proj2 (Z.ltb_lt 1 _)) by lia. replace (Z.of_nat (S p) - 1) with (Z.of_nat p) by lia. apply IH; lia.
Qed.

(** ** Over any file system *)

(** What the shell relies on: the calls return, and a read delivers no more
    than it was asked for. [good] says in which states. *)
Class FsTotal (V : Type) `{FsOps V} (good : V → Prop) := {
  tot_opendir dp p v : good v → ∃ r dp' v', op_opendir dp p v = Ok (r, dp', v') ∧ good v';
  tot_readdir dp i v : good v → ∃ r dp' i' v', op_readdir dp i v = Ok (r, dp', i', v') ∧ good v';
  tot_closedir dp v : good v → ∃ r dp' v', op_closedir dp v = Ok (r, dp', v') ∧ good v';
  tot_open fp p m v : good v → ∃ r fp' v', op_open fp p m v = Ok (r, fp', v') ∧ good v';
  tot_read fp buf n v :
    good v → 0 ≤ n ≤ Z.of_nat (length buf) →
    ∃ r fp' buf' br v', op_read fp buf n v = Ok (r, fp', buf', br, v') ∧ length buf' = length buf ∧
      (r = FR_OK → 0 ≤ br ≤ n) ∧ good v';
  tot_close fp v : good v → ∃ r fp' v', op_close fp v = Ok (r, fp', v') ∧ good v';
}.

Section total.
Context {V : Type} `{FsOps V} {good : V → Prop} `{!FsTotal V good}.

Implicit Types (s : shell V).

(** A result that keeps the invariant; only the fuel may have run out. *)
Definition safe_result (r : res (Z * shell V)) : Prop :=
  match r with Ok (_, s') => cwd_ok s' ∧ good (sh_fs s') | Fault f => f = OutOfFuel end.

Lemma try_dir_ok dd path s :
  good (sh_fs s) →
  ∃ r dp v v', op_opendir dd path (sh_fs s) = Ok (r, dp, v) ∧ try_dir dd path s = Ok (bool_decide (r = FR_OK), set_fs v' s) ∧ good v'.
Proof using FsTotal0.
  intros Hg. destruct (tot_opendir dd path _ Hg) as (r & dp & v & E & Hg1). unfold try_dir. rewrite E, bind_Ok.
  destruct (decide (r = FR_OK)) as [->|Hr].
  - destruct (tot_closedir dp _ Hg1) as (r2 & dp2 & v2 & -> & Hg2). exists FR_OK, dp, v, v2. by rewrite bool_decide_true.
  - exists r, dp, v, v. by rewrite bool_decide_false.
Qed.

(** The three ways of [cd]. *)
Lemma chdir_absolute_ok dd new_dir cur s :
  good (sh_fs s) → cwd_is cur s → no_nul new_dir → head new_dir = Some 47 → (length new_dir < 1024)%nat →
  ∃ r dp v s', op_opendir dd new_dir (sh_fs s) = Ok (r, dp, v) ∧ chdir_absolute dd new_dir s = Ok (0, s') ∧ good (sh_fs s') ∧
    sh_out s' = sh_out s ∧ cwd_is (if decide (r = FR_OK) then new_dir else cur) s'.
Proof using FsTotal0.
  intros Hg (Hc & Hl & Hh) Hz Hn Hlt. destruct (tot_opendir dd new_dir _ Hg) as (r & dp & v & E & Hg1). exists r, dp, v.
  unfold chdir_absolute, CURR_DIR_SIZE. rewrite (proj2 (Z.leb_gt _ _)) by lia. rewrite E, bind_Ok. cbn [g_curr_dir set_fs sh_fs].
  destruct (decide (r = FR_OK)) as [->|Hr].
  - destruct (strcpy_ok (g_curr_dir s) new_dir Hz) as (b & -> & Hb & Hbl); [lia|]. rewrite bind_Ok.
    destruct (tot_closedir dp _ Hg1) as (r2 & dp2 & v2 & -> & Hg2). rewrite bind_Ok. eexists. split; [done|]. split; [done|]. split; [done|].
    split; [done|]. split; [done|]. split; [by rewrite <-Hl|done].
  - eexists. split; [done|]. split; [reflexivity|]. split; [done|]. split; [done|]. done.
Qed.

Lemma chdir_up_ok dd cur s :
  good (sh_fs s) → cwd_is cur s → cur ≠ [47] → let pos := up_from cur (length cur - 1) in
  ∃ r dp v s', op_opendir dd (take pos cur) (sh_fs s) = Ok (r, dp, v) ∧
    chdir_up dd (Z.of_nat (length cur)) s = Ok (if decide (r = FR_OK) then 0 else -1, s') ∧ good (sh_fs s') ∧ sh_out s' = sh_out s ∧
    cwd_is (if decide (r = FR_OK) then take pos cur else <[pos := 47]> cur) s'.
Proof using FsTotal0.
  intros Hg (Hc & Hl & Hh) Hne pos. destruct cur as [|c0 [|c1 cur]]; [done|by injection Hh as ->|]. set (cur' := c0 :: c1 :: cur) in *.
  assert (2 ≤ length cur')%nat as Hlen by (simpl; lia). pose proof (up_from_bound cur' (length cur' - 1) ltac:(lia)) as Hpos. fold pos in Hpos.
  unfold chdir_up. rewrite (proj2 (Z.ltb_ge _ 1)) by lia. replace (Z.of_nat (length cur') - 1) with (Z.of_nat (length cur' - 1)) by lia.
  rewrite (up_loop_ok _ _ cur'), bind_Ok by (done || lia). fold pos.
  destruct (put_cut _ _ pos Hc ltac:(lia)) as (-> & Hb & Hbl). rewrite bind_Ok, Hb, bind_Ok. set (s1 := set_dir _ s).
  destruct (try_dir_ok dd (take pos cur') s1 Hg) as (r & dp & v & v' & E & -> & Hg'). rewrite bind_Ok. exists r, dp, v.
  assert (head (take pos cur') = Some 47) as Hh1 by (destruct pos; [lia|exact Hh]). destruct (decide (r = FR_OK)) as [->|Hr].
  - eexists. split; [done|]. split; [reflexivity|]. split; [done|]. split; [done|]. split; [done|]. split; [exact (eq_trans Hbl Hl)|done].
  - rewrite bool_decide_false by done. cbn [g_curr_dir set_fs s1 set_dir].
    assert (pos < length cur')%nat as Hp by lia. pose proof (cstr_shorter _ _ Hc).
    rewrite put_ok by lia. rewrite Nat2Z.id, bind_Ok, list_insert_insert_eq. change (u8 47) with 47.
    destruct (put_char _ _ pos 47 Hc Hp) as (_ & Hb2 & Hbl2); [unfold is_byte; lia|done|].
    eexists. split; [done|]. split; [reflexivity|]. split; [done|]. split; [done|]. split; [done|]. split; [exact (eq_trans Hbl2 Hl)|].
    destruct pos; [lia|]. exact Hh.
Qed.

Lemma chdir_down_ok dd cur new_dir s :
  good (sh_fs s) → cwd_is cur s → no_nul new_dir → (length cur + length new_dir + 1 < 1024)%nat →
  let target := (if bool_decide (cur = [47]) then cur else cur ++ [47]) ++ new_dir in
  ∃ r dp v s', op_opendir dd target (sh_fs s) = Ok (r, dp, v) ∧
    chdir_down dd cur new_dir s = Ok (if decide (r = FR_OK) then 0 else -1, s') ∧ good (sh_fs s') ∧ sh_out s' = sh_out s ∧
    cwd_is (if decide (r = FR_OK) then target else cur) s'.
Proof using FsTotal0.
  intros Hg (Hc & Hl & Hh) Hz Hlt target. unfold chdir_down, CURR_DIR_SIZE. rewrite (proj2 (Z.leb_gt _ _)) by lia.
  assert (∃ b, (if negb (bool_decide (cur = [47])) then strcat (g_curr_dir s) [47] else Ok (g_curr_dir s)) = Ok b ∧
    cstr b = Ok (if bool_decide (cur = [47]) then cur else cur ++ [47]) ∧ length b = 1024%nat) as (b & -> & Hb & Hbl).
  { destruct (bool_decide (cur = [47])); cbn [negb]; [by exists (g_curr_dir s)|].
    destruct (strcat_ok _ _ [47] Hc) as (b & -> & ? & ?); [by repeat constructor|simpl; lia|]. exists b. split_and!; [done|done|congruence]. }
  rewrite bind_Ok. set (pre := if bool_decide (cur = [47]) then cur else cur ++ [47]) in *.
  assert (length pre ≤ length cur + 1)%nat by (unfold pre; destruct (bool_decide _); rewrite ?length_app; simpl; lia).
  destruct (strcat_ok _ _ new_dir Hb Hz) as (b2 & -> & Hb2 & Hbl2); [lia|]. rewrite bind_Ok, Hb2, bind_Ok. fold target.
  destruct (try_dir_ok dd target (set_dir b2 s) Hg) as (r & dp & v & v' & E & -> & Hg'). rewrite bind_Ok. exists r, dp, v.
  assert (∃ t, target = cur ++ t) as (t & Et). { unfold target, pre. destruct (bool_decide _); [by eexists|]. rewrite <-app_assoc. by eexists. }
  destruct cur as [|c cur]; [done|]. destruct (decide (r = FR_OK)) as [->|Hr].
  - eexists. split; [done|]. split; [reflexivity|]. split; [done|]. split; [done|]. split; [done|]. split; [exact (eq_trans Hbl2 Hbl)|]. by rewrite Et.
  - rewrite bool_decide_false by done. cbn [g_curr_dir set_fs set_dir]. fold target in Hb2.
    destruct (put_cut b2 target (length (c :: cur)) Hb2) as (-> & Hb3 & Hbl3); [rewrite Et, length_app; lia|]. rewrite bind_Ok.
    eexists. split; [done|]. split; [reflexivity|]. split; [done|]. split; [done|]. split; [|split; [exact (eq_trans Hbl3 (eq_trans Hbl2 Hbl))|done]].
    cbn [g_curr_dir set_dir]. rewrite Hb3, Et. by rewrite take_app_length.
Qed.

(** C22: [cd] looks up exactly one path -- the argument when it is absolute,
    the current directory cut at its last separator for [..], else the current
    directory with the argument appended -- and the current directory then is
    that path when it could be opened; when it could not, it is what it was,
    except that a failing [..] leaves a separator where it cut. An argument
    that does not fit the array is refused and changes nothing. *)
Theorem cd_follows_spec dd c0 new_dir cur s :
  good (sh_fs s) → cwd_is cur s → no_nul new_dir → new_dir ≠ [46] →
  if cd_fits cur new_dir then
    ∃ r dp v ret s', op_opendir dd (cd_target cur new_dir) (sh_fs s) = Ok (r, dp, v) ∧
      exec_cmd_chdir dd [c0; new_dir] s = Ok (ret, s') ∧ good (sh_fs s') ∧ sh_out s' = sh_out s ∧
      let '(ret', cur') := if decide (r = FR_OK) then (0, cd_target cur new_dir) else cd_failed cur new_dir in
      ret = ret' ∧ cwd_is cur' s'
  else exec_cmd_chdir dd [c0; new_dir] s = Ok (-1, s).
Proof using FsTotal0.
  intros Hg Hcur Hz Hne. pose proof Hcur as (Hc & Hl & Hh). unfold cd_fits, cd_target, cd_failed, exec_cmd_chdir. cbn [lookup list_lookup].
  rewrite (bool_decide_false (new_dir = [46])) by done. destruct (Z.eqb_spec (default 0 (head new_dir)) 47) as [Habs|Hrel].
  - assert (head new_dir = Some 47) as Hn by (destruct new_dir; cbn in *; congruence). destruct (Nat.ltb_spec (length new_dir) 1024).
    + destruct (chdir_absolute_ok dd new_dir cur s Hg Hcur Hz Hn) as (r & dp & v & s' & E & Er & Hg' & Ho & Hw); [lia|].
      exists r, dp, v, 0, s'. split_and!; try done. by destruct (decide (r = FR_OK)).
    + unfold chdir_absolute, CURR_DIR_SIZE. by rewrite (proj2 (Z.leb_le _ _)) by lia.
  - rewrite Hc, bind_Ok. destruct (bool_decide (new_dir = [46; 46]) && negb (bool_decide (cur = [47]))) eqn:Hup.
    + apply andb_true_iff in Hup as [_ Hup%negb_true_iff%bool_decide_eq_false_1].
      destruct (chdir_up_ok dd cur s Hg Hcur Hup) as (r & dp & v & s' & E & Er & Hg' & Ho & Hw).
      eexists r, dp, v, _, s'. split_and!; try done. by destruct (decide (r = FR_OK)).
    + destruct (Nat.ltb_spec (length cur + length new_dir + 1) 1024).
      * destruct (chdir_down_ok dd cur new_dir s Hg Hcur Hz ltac:(done)) as (r & dp & v & s' & E & Er & Hg' & Ho & Hw).
        eexists r, dp, v, _, s'. split_and!; try done. by destruct (decide (r = FR_OK)).
      * unfold chdir_down, CURR_DIR_SIZE. by rewrite (proj2 (Z.leb_le _ _)) by lia.
Qed.

(** The loops of the other commands. *)
Lemma ls_loop_safe fuel dp i files dirs tot s :
  good (sh_fs s) →
  match ls_loop fuel dp i files dirs tot s with
  | Ok (_, s') => good (sh_fs s') ∧ g_curr_dir s' = g_curr_dir s
  | Fault f => f = OutOfFuel
  end.
Proof using FsTotal0.
  revert dp i files dirs tot s. induction fuel as [|fuel IH]; intros dp i files dirs tot s Hg; [done|]. cbn [ls_loop].
  destruct (tot_readdir dp i _ Hg) as (r & dp' & i' & v & -> & Hg'). rewrite bind_Ok. case_decide; [done|]. case_if; [done|].
  case_if; match goal with |- context [ls_loop fuel ?a ?b ?c ?d ?e ?s'] => specialize (IH a b c d e s' Hg') end; apply IH.
Qed.

Lemma cat_loop_safe fuel fp buf s :
  good (sh_fs s) → length buf = 64%nat →
  match cat_loop fuel fp buf s with
  | Ok (_, s') => good (sh_fs s') ∧ g_curr_dir s' = g_curr_dir s
  | Fault f => f = OutOfFuel
  end.
Proof using FsTotal0.
  revert fp buf s. induction fuel as [|fuel IH]; intros fp buf s Hg Hb; [done|]. cbn [cat_loop].
  destruct (tot_read fp buf 63 _ Hg) as (r & fp' & buf' & br & v & -> & Hb' & Hbr & Hg'); [lia|]. rewrite bind_Ok.
  destruct (decide (r = FR_OK)) as [->|Hr]; [rewrite decide_False by naive_solver|by rewrite decide_True]. specialize (Hbr eq_refl). rewrite put_ok, bind_Ok by lia.
  destruct (cstr_zero (<[Z.to_nat br := u8 0]> buf') (Z.to_nat br)) as (w & ->); [apply list_lookup_insert_eq; lia|]. rewrite bind_Ok.
  case_if; [|done]. specialize (IH fp' (<[Z.to_nat br := u8 0]> buf') (print w (set_fs v s)) Hg'). rewrite length_insert in IH. apply IH. lia.
Qed.

(** [cat] puts the path together and takes it apart again. *)
Lemma cat_path cur arg s :
  cwd_is cur s → no_nul arg → (length cur + length arg + 1 < 1024)%nat →
  ∃ b b', (c ← (if Z.of_nat (length cur) <? 1 then Ok 0 else get (g_curr_dir s) (Z.of_nat (length cur) - 1));
      b ← (if negb (c =? 47) then strcat (g_curr_dir s) [47] else Ok (g_curr_dir s)); strcat b arg) = Ok b ∧
    cstr b = Ok ((if decide (last cur = Some 47) then cur else cur ++ [47]) ++ arg) ∧
    put (Z.of_nat (length cur)) 0 b = Ok b' ∧ cstr b' = Ok cur ∧ length b' = 1024%nat.
Proof.
  intros (Hc & Hl & Hh) Hz Hlt. destruct cur as [|c0 cur0] eqn:Ecur; [done|]. rewrite <-Ecur in *. assert (0 < length cur)%nat by (subst; simpl; lia).
  rewrite (proj2 (Z.ltb_ge _ 1)) by lia. pose proof (cstr_shorter _ _ Hc). destruct (get_ok (g_curr_dir s) (Z.of_nat (length cur) - 1)) as (c & -> & Hlc); [lia|].
  rewrite bind_Ok. pose proof Hc as (_ & rest & Eb)%cstr_split.
  assert (last cur = Some c) as Hlast.
  { rewrite last_lookup. replace (Z.to_nat (Z.of_nat (length cur) - 1)) with (pred (length cur)) in Hlc by lia. by rewrite Eb, lookup_app_l in Hlc by lia. }
  set (pre := if decide (last cur = Some 47) then cur else cur ++ [47]).
  assert (∃ b, (if negb (c =? 47) then strcat (g_curr_dir s) [47] else Ok (g_curr_dir s)) = Ok b ∧ cstr b = Ok pre ∧ length b = 1024%nat) as (b & -> & Hb & Hbl).
  { unfold pre. rewrite Hlast. destruct (Z.eqb_spec c 47) as [->|Hne]; cbn [negb].
    - rewrite decide_True by done. by exists (g_curr_dir s).
    - rewrite decide_False by congruence. destruct (strcat_ok _ _ [47] Hc) as (b & -> & ? & ?); [by repeat constructor|simpl; lia|].
      exists b. split_and!; [done|done|congruence]. }
  rewrite bind_Ok. assert (length cur ≤ length pre ≤ length cur + 1)%nat by (unfold pre; case_decide; rewrite ?length_app; simpl; lia).
  destruct (strcat_ok b pre arg Hb Hz) as (b2 & E2 & Hb2 & Hbl2); [lia|].
  destruct (put_cut b2 (pre ++ arg) (length cur) Hb2) as (E3 & Hb3 & Hbl3); [rewrite length_app; lia|].
  eexists b2, _. split; [done|]. split; [done|]. split; [done|]. split; [|congruence]. rewrite Hb3. f_equal.
  assert (∃ t, pre ++ arg = cur ++ t) as (t & ->); [|apply take_app_length]. unfold pre. case_decide; [by eexists|]. rewrite <-app_assoc. by eexists.
Qed.

Lemma ls_safe fuel dd argv cur s :
  good (sh_fs s) → cwd_is cur s → safe_result (exec_cmd_ls fuel dd argv s).
Proof using FsTotal0.
  intros Hg Hcur. pose proof Hcur as (Hc & Hl & Hh). assert (cwd_ok s) as Hs by by exists cur. unfold exec_cmd_ls.
  assert (∃ d, (match argv !! 1%nat with Some a => Ok a | None => cstr (g_curr_dir s) end) = Ok d) as (d & ->) by (destruct (argv !! 1%nat); eauto).
  rewrite bind_Ok. destruct (tot_opendir dd d _ Hg) as (r & dp & v & -> & Hg1). rewrite bind_Ok. case_decide; [done|].
  pose proof (ls_loop_safe fuel dp (mk_filinfo 0 0 0 0 []) 0 0 0 (set_fs v s) Hg1) as Hloop.
  destruct (ls_loop _ _ _ _ _ _ _) as [[[[ret dp'] [[files tot] dirs]] s1]|f]; [|done]. destruct Hloop as [Hg2 Hd]. rewrite bind_Ok.
  cbn [sh_fs print]. destruct (tot_closedir dp' _ Hg2) as (r2 & dp2 & v2 & -> & Hg3). rewrite bind_Ok. split; [|done].
  exists cur. unfold cwd_is. cbn [g_curr_dir set_fs print]. rewrite Hd. done.
Qed.

Lemma chdir_safe dd argv cur s :
  good (sh_fs s) → cwd_is cur s → Forall no_nul argv →
  ∃ r s', exec_cmd_chdir dd argv s = Ok (r, s') ∧ cwd_ok s' ∧ good (sh_fs s').
Proof using FsTotal0.
  intros Hg Hcur Hz. pose proof Hcur as (Hc & Hl & Hh). assert (cwd_ok s) as Hs by by exists cur.
  unfold exec_cmd_chdir. destruct (argv !! 1%nat) as [new_dir|] eqn:Ha; [|by eauto].
  case_bool_decide; [by eauto|]. assert (no_nul new_dir) as Hzn by (rewrite Forall_lookup in Hz; eauto).
  destruct (Z.eqb_spec (default 0 (head new_dir)) 47) as [Habs|Hrel].
  - assert (head new_dir = Some 47) as Hn by (destruct new_dir; cbn in *; congruence). destruct (decide (length new_dir < 1024)%nat).
    + destruct (chdir_absolute_ok dd new_dir cur s Hg Hcur Hzn Hn) as (r & dp & v & s' & _ & -> & Hg' & _ & Hw); [done|].
      eexists _, s'. split; [done|]. split; [by eexists|done].
    + unfold chdir_absolute, CURR_DIR_SIZE. rewrite (proj2 (Z.leb_le _ _)) by lia. eauto.
  - rewrite Hc, bind_Ok. destruct (bool_decide (new_dir = [46; 46]) && negb (bool_decide (cur = [47]))) eqn:Hup.
    + apply andb_true_iff in Hup as [_ Hup%negb_true_iff%bool_decide_eq_false_1].
      destruct (chdir_up_ok dd cur s Hg Hcur Hup) as (r & dp & v & s' & _ & -> & Hg' & _ & Hw).
      eexists _, s'. split; [done|]. split; [by eexists|done].
    + destruct (decide (length cur + length new_dir + 1 < 1024)%nat).
      * destruct (chdir_down_ok dd cur new_dir s Hg Hcur Hzn ltac:(done)) as (r & dp & v & s' & _ & -> & Hg' & _ & Hw).
        eexists _, s'. split; [done|]. split; [by eexists|done].
      * unfold chdir_down, CURR_DIR_SIZE. rewrite (proj2 (Z.leb_le _ _)) by lia. eauto.
Qed.

Lemma cat_safe fuel file argv cur s :
  good (sh_fs s) → cwd_is cur s → Forall no_nul argv → safe_result (exec_cmd_cat fuel file argv s).
Proof using FsTotal0.
  intros Hg Hcur Hz. pose proof Hcur as (Hc & Hl & Hh). assert (cwd_ok s) as Hs by by exists cur.
  unfold exec_cmd_cat. destruct (argv !! 1%nat) as [arg|] eqn:Ha; [|done]. rewrite Hc, bind_Ok.
  assert (no_nul arg) as Hza by (rewrite Forall_lookup in Hz; eauto). unfold CURR_DIR_SIZE.
  destruct (Z.leb_spec 1024 (Z.of_nat (length cur) + Z.of_nat (length arg) + 1)); [done|].
  destruct (cat_path cur arg s Hcur Hza ltac:(lia)) as (b & b' & E & Hb & Eb' & Hb' & Hbl').
  apply bind_ok in E as (ch & -> & E). rewrite bind_Ok. apply bind_ok in E as (b0 & -> & E). rewrite bind_Ok, E, bind_Ok, Hb, bind_Ok.
  set (path := _ ++ arg). destruct (tot_open file path FA_READ _ Hg) as (r & fp & v & -> & Hg1). rewrite bind_Ok, Eb', bind_Ok.
  assert (∀ s', g_curr_dir s' = b' → good (sh_fs s') → cwd_ok s' ∧ good (sh_fs s')) as Hfin.
  { intros s' Hs' Hgs. split; [|done]. exists cur. unfold cwd_is. by rewrite Hs'. }
  destruct (decide (r ≠ FR_OK)); [exact (Hfin (set_fs v (set_dir b' s)) eq_refl Hg1)|].
  pose proof (cat_loop_safe fuel fp (replicate 64 0) (set_fs v (set_dir b' s)) Hg1 ltac:(done)) as Hloop.
  destruct (cat_loop _ _ _ _) as [[[ret fp'] s1]|f]; [|done]. destruct Hloop as [Hg2 Hd]. rewrite bind_Ok.
  destruct (tot_close fp' _ Hg2) as (r2 & fp2 & v2 & -> & Hg3). rewrite bind_Ok. exact (Hfin (set_fs v2 s1) Hd Hg3).
Qed.

(** C24: whatever the line typed, no command of the shell writes or reads
    outside the array of the current directory or the buffer of [cat], and
    after it the array still holds an absolute path, over any file system whose
    calls return; [cd] and [pwd] always come back. *)
Theorem shell_stays_in_bounds fuel dd file c argv s :
  good (sh_fs s) → cwd_ok s → Forall no_nul argv →
  safe_result (exec_cmd fuel dd file c argv s) ∧
  (c = CmdCd ∨ c = CmdPwd → ∃ r s', exec_cmd fuel dd file c argv s = Ok (r, s')).
Proof using FsTotal0.
  intros Hg (cur & Hcur) Hz. destruct c; cbn [exec_cmd].
  - split; [by eapply ls_safe|naive_solver].
  - destruct (chdir_safe dd argv cur s) as (r & s' & -> & ? & ?); try done. split; [done|eauto].
  - unfold exec_cmd_pwd. destruct Hcur as (Hc & ?). rewrite Hc, bind_Ok. split; [|eauto]. split; [by exists cur|done].
  - split; [by eapply cat_safe|naive_solver].
Qed.
End total.

(** ** A file system of directories only *)

Definition toy : Type := list (list Z).

#[global] Instance toy_ops : FsOps toy := {|
  op_opendir dp p v := Ok (if bool_decide (p ∈ v) then FR_OK else FR_NO_PATH, dp, v);
  op_readdir dp i v := Ok (FR_OK, dp, mk_filinfo 0 0 0 0 [], v);
  op_closedir dp v := Ok (FR_OK, dp, v);
  op_open fp p m v := Ok (FR_NO_FILE, fp, v);
  op_read fp buf n v := Ok (FR_OK, fp, buf, 0, v);
  op_close fp v := Ok (FR_OK, fp, v);
|}.

#[global] Instance toy_total : FsTotal toy (λ _, True).
Proof.
  split; intros; cbn; try by repeat eexists. eexists _, _, _, _, _. split; [reflexivity|]. split; [done|]. split; [|done]. intros _. lia.
Defined.

Definition some_dir : DIR := mk_dir (mk_obj false 0 0 0 0) 0 0 0 0 (replicate 12 0).
Definition some_file : FIL := mk_fil (mk_obj false 0 0 0 0) 0 FR_OK 0 0 0 0 0 (replicate 512 0).

(** The shell in a directory. *)
Definition shell_at {V} (cur : list Z) (v : V) : shell V := mk_shell (cur ++ replicate (1024 - length cur) 0) v [].

Lemma shell_at_cwd {V} cur (v : V) : no_nul cur → head cur = Some 47 → (length cur < 1024)%nat → cwd_is cur (shell_at cur v).
Proof.
  intros Hz Hh Hl. unfold shell_at. split; [|split; [|done]]; cbn [g_curr_dir].
  - replace (1024 - length cur)%nat with (S (1023 - length cur)) by lia. by apply cstr_app.
  - rewrite length_app, length_replicate. lia.
Qed.

(** [cd ..] in a first-level directory that cannot be left: the name has lost
    its first letter. *)
Lemma cd_follows_spec_witness :
  ∃ ret s', exec_cmd_chdir some_dir [str "cd"; str ".."] (shell_at (str "/ab") ([] : toy)) = Ok (ret, s') ∧ ret = -1 ∧ cwd_is (str "//b") s'.
Proof.
  pose proof (cd_follows_spec (good := λ _ : toy, True) some_dir (str "cd") (str "..") (str "/ab") (shell_at (str "/ab") ([] : toy)) I) as H.
  destruct H as (r & dp & v & ret & s' & Hr & E & _ & _ & H).
  - apply shell_at_cwd; [repeat constructor; discriminate|reflexivity|vm_compute; repeat constructor].
  - repeat constructor; discriminate.
  - vm_compute. discriminate.
  - vm_compute in Hr. injection Hr as <- _ _. destruct H as [Hret Hcwd]. exists ret, s'. split; [exact E|]. split; [exact Hret|exact Hcwd].
Defined.

Lemma shell_stays_in_bounds_witness :
  safe_result (good := λ _ : toy, True) (exec_cmd 5 some_dir some_file CmdCat [str "cat"; replicate 1022 97] (shell_at (str "/") ([] : toy))).
Proof.
  apply (shell_stays_in_bounds (good := λ _ : toy, True) 5 some_dir some_file CmdCat [str "cat"; replicate 1022 97] (shell_at (str "/") ([] : toy)) I).
  - exists (str "/"). apply shell_at_cwd; [repeat constructor; discriminate|reflexivity|vm_compute; repeat constructor].
  - constructor; [repeat constructor; discriminate|]. constructor; [apply Forall_replicate; discriminate|constructor].
Defined.

(** An absolute directory that is not there: [cd] says that it went. *)
Lemma cd_missing_reports_success :
  exec_cmd_chdir some_dir [str "cd"; str "/none"] (shell_at (str "/ab") ([] : toy)) = Ok (0, shell_at (str "/ab") []).
Proof. vm_compute. reflexivity. Qed.

(** After [cd /a/], [cd ..] stays in [/a]. *)
Lemma cd_up_from_slash :
  ∃ s', exec_cmd_chdir some_dir [str "cd"; str ".."] (shell_at (str "/a/") ([str "/a"] : toy)) = Ok (0, s') ∧ cwd_is (str "/a") s'.
Proof. eexists. split; [vm_compute; reflexivity|]. repeat split; vm_compute; reflexivity. Qed.
