(* ===== verification/FatShellFat.v ===== *)
(** * The shell of the FatFs example on FatFs

    [cat] prints the file the path leads to, [ls] lists the directory; neither
    changes what is on the volume. *)

From S2P Require Import Prelude Bytes Cstdio Ff FfWindow FfFat FfChain FfDir FfMount FfFile FfApi FfData FfPos FfRead FfFileProps FfFree.
From S2P Require Import FfTable FfDirProps FfMountProps FfNames FfShort FfPath FfOpen FfSync FfList FatShell FatShellProps.
From S2P Require Import Hostdisk HostdiskProps FfHost FfProps FfWrite FfGrow FfSeek.

(** ** Reading leaves a clean buffer clean *)

Section clean.
Context {D : Type} `{DiskOps D} (W : Z).

(** What holds of whatever a run returns. *)
Definition post {A} (m : ff D A) (Q : A → Prop) : Prop := ∀ s a s', m s = Ok (a, s') → Q a.

Lemma post_ret {A} (a : A) (Q : A → Prop) : Q a → post (mret a) Q.
Proof. intros Hq s a' s' [= <- _]. done. Qed.

Lemma post_bind {A B} (m : ff D A) (f : A → ff D B) P Q : post m P → (∀ a, P a → post (f a) Q) → post (m ≫= f) Q.
Proof.
  intros Hm Hf s b s' E. unfold mbind, ff_bind in E. destruct (m s) as [[a s1]|] eqn:Em; [|done]. by eapply Hf; [eapply Hm|].
Qed.

Lemma post_any {A B} (m : ff D A) (f : A → ff D B) Q : (∀ a, post (f a) Q) → post (m ≫= f) Q.
Proof. intros Hf. by apply (post_bind m f (λ _, True)). Qed.

Lemma post_lift {A} (r : res A) (Q : A → Prop) : (∀ a, r = Ok a → Q a) → post (lift r) Q.
Proof. intros Hq s a s' E. unfold lift in E. destruct r; [|done]. injection E as <- _. by apply Hq. Qed.

Abbreviation fresh fp := (has_flag FA_DIRTY fp = false).

Lemma write_back_fresh fp : fresh fp → post (write_back fp) (λ x, fresh x.2).
Proof. intros Hf. unfold write_back. rewrite Hf. by apply post_ret. Qed.

Lemma read_cached_fresh fp sect : fresh fp → post (read_cached fp sect) (λ x, fresh x.2).
Proof.
  intros Hf. unfold read_cached. case_if; [|by apply post_ret]. eapply post_bind; [by apply write_back_fresh|]. intros [ok fp1] Hf1. cbn [snd] in Hf1.
  case_if; [by apply post_ret|]. unfold read_buf. apply (post_bind _ _ (λ x, fresh x.2)).
  - apply post_any. intros [k b]. by apply post_ret.
  - intros [ok2 fp2] Hf2. cbn [snd] in Hf2. case_if; by apply post_ret.
Qed.

Lemma read_part_fresh fp buff off btr : fresh fp → post (lift (read_part fp buff off btr) : ff D _) (λ x, fresh x.1.2).
Proof. intros Hf. apply post_lift. unfold read_part. intros a E. inv_ok. done. Qed.

Lemma read_round_fresh fp buff off btr : fresh fp → post (read_round W fp buff off btr) (λ x, fresh x.1.2).
Proof.
  intros Hf. unfold read_round. case_if; [|by apply read_part_fresh]. apply post_any. intros fs. apply (post_bind _ _ (λ x, fresh x.2)).
  - case_if; [|by apply post_ret]. unfold read_clust. apply post_any. intros clst. case_if; [by apply post_ret|]. case_if; by apply post_ret.
  - intros [r fp1] Hf1. cbn [snd] in Hf1. case_decide; [by apply post_ret|]. apply post_any. intros fs1. case_if; [by apply post_ret|]. case_if.
    + unfold read_direct. apply post_any. intros fs2. apply post_any. intros [k out]. case_if; [by apply post_ret|]. apply post_any. intros b. by apply post_ret.
    + eapply post_bind; [by apply read_cached_fresh|]. intros [r2 fp2] Hf2. cbn [snd] in Hf2. case_decide; [by apply post_ret|]. by apply read_part_fresh.
Qed.

Lemma read_bytes_fresh fuel fp buff off btr : fresh fp → post (read_bytes W fuel fp buff off btr) (λ x, fresh x.1.1.2).
Proof.
  revert fp buff off btr. induction fuel as [|fuel IH]; intros fp buff off btr Hf; cbn [read_bytes]; (case_if; [by apply post_ret|]).
  - by apply post_lift.
  - eapply post_bind; [by apply read_round_fresh|]. intros [[r fp1] b] Hf1. cbn [fst snd] in Hf1. destruct r; [by apply IH|by apply post_ret|by apply post_ret].
Qed.

Lemma f_read_fresh fp buff btr : fresh fp → post (f_read W fp buff btr) (λ x, fresh x.1.1.2).
Proof. intros Hf. unfold f_read. apply post_any. intros r. case_decide; [by apply post_ret|]. by apply read_bytes_fresh. Qed.
End clean.

(** ** Files *)

(** What [cat] prints of a file: each piece of 63 bytes up to its first NUL. *)
Fixpoint cat_text (fuel : nat) (data : list Z) : list Z :=
  match fuel with
  | O => []
  | S fuel => until_nul (take 63 data) ++ (if Nat.ltb (length data) 63 then [] else cat_text fuel (drop 63 data))
  end.

(** A text is printed as it is. *)
Lemma cat_text_exact fuel data : no_nul data → (length data / 63 < fuel)%nat → cat_text fuel data = data.
Proof.
  revert data. induction fuel as [|fuel IH]; intros data Hz Hf; [lia|]. cbn [cat_text].
  assert (until_nul (take 63 data) = take 63 data) as ->.
  { assert (no_nul (take 63 data)) as Ht by by apply Forall_take. induction Ht as [|c l Hc Hl IHl]; [done|]. cbn. by rewrite (proj2 (Z.eqb_neq c 0) Hc), IHl. }
  destruct (Nat.ltb_spec (length data) 63).
  - rewrite take_ge by lia. apply app_nil_r.
  - rewrite IH; [apply take_drop|by apply Forall_drop|]. rewrite length_drop.
    pose proof (Nat.div_mod_eq (length data) 63). pose proof (Nat.div_mod_eq (length data - 63) 63).
    pose proof (Nat.mod_upper_bound (length data) 63 ltac:(lia)). pose proof (Nat.mod_upper_bound (length data - 63) 63 ltac:(lia)). lia.
Qed.

Lemma cstr_cut b k : (k < length b)%nat → cstr (<[k := 0]> b) = Ok (until_nul (take k b)).
Proof.
  revert k. induction b as [|c b IH]; intros k Hk; [simpl in Hk; lia|]. destruct k as [|k]; [done|]. cbn. destruct (c =? 0); [done|].
  rewrite IH by (simpl in Hk; lia). done.
Qed.

Section files.
Context {D : Type} `{Disk D} (W : Z).
Hypothesis HW : 32 ≤ W.
#[local] Instance the_ops : FsOps (fatfs D) := fat_ops W.

Implicit Types (fs : FATFS) (d : D) (img : list Z) (F : Z → Z) (s : shell (fatfs D)).

(** The shell with another volume state and output. *)
Definition on_vol fs d (out : list Z) s : shell (fatfs D) :=
  mk_shell (g_curr_dir s) (mk_fatfs_state (fat_vars (sh_fs s)) (fs, d) (fat_dj (sh_fs s))) (sh_out s ++ out).

(** An object that is only read. *)
Definition read_only (fp : FIL) : Prop :=
  has_flag FA_READ fp = true ∧ has_flag FA_MODIFIED fp = false ∧ has_flag FA_DIRTY fp = false.

Lemma stands_for_length F fs d img l fp data pos :
  stands_for F fs d img l fp data pos → Z.of_nat (length data) = objsize (f_obj fp) ∧ 0 ≤ pos ≤ objsize (f_obj fp) ∧ objsize (f_obj fp) < 2 ^ 32.
Proof.
  intros [Hr Hf _ -> ->]. destruct (bytes_length F fs d img l fp Hr Hf) as (_ & Hle & _). pose proof (fo_size _ _ _ _ _ Hf). pose proof (fo_max _ _ _ _ _ Hf).
  pose proof (po_range _ _ _ (fo_pos _ _ _ _ _ Hf)). rewrite length_take. lia.
Qed.

(** One piece. *)
Lemma cat_read F fs d img l fp data pos buf s :
  stands_for F fs d img l fp data pos → read_only fp → fat_vol (sh_fs s) = (fs, d) → length buf = 64%nat →
  let piece := take 63 (drop (Z.to_nat pos) data) in
  ∃ fp' buf' fs' d' img', op_read fp buf 63 (sh_fs s) = Ok (FR_OK, fp', buf', Z.of_nat (length piece), sh_fs (on_vol fs' d' [] s)) ∧
    stands_for F fs' d' img' l fp' data (pos + Z.of_nat (length piece)) ∧ read_only fp' ∧ same_file fp fp' ∧ length buf' = 64%nat ∧
    take (length piece) buf' = piece ∧ frame l fs img fs' img' ∧ same_alloc fs fs'.
Proof using HW.
  intros Hst (R1 & R2 & R3) Hv Hb piece. destruct (stands_for_length _ _ _ _ _ _ _ _ Hst) as [Hdl Hpos]. pose proof Hst as [Hr Hf Ho Hd Hp].
  destruct (f_read_ok W HW F fs d img l fp buf 63 Hr Hf Ho R1 ltac:(lia) ltac:(lia)) as (fp' & fs' & d' & img' & E & Efp & Hsf & Hr' & Hf' & Eby & Hfm & Hsa).
  set (n := Z.min 63 (objsize (f_obj fp) - f_fptr fp)) in *. pose proof (f_read_fresh W fp buf 63 R3 _ _ _ E) as R3'. cbn [fst snd] in R3'.
  assert (Z.of_nat (length piece) = n) as Hn by (unfold piece, n; rewrite length_take, length_drop; lia).
  assert (bytes_at (Z.to_nat (f_fptr fp)) (Z.to_nat n) (file_bytes fs img l fp) = piece) as Epc.
  { unfold piece, bytes_at. rewrite Hd, Hp, skipn_firstn_comm, take_take. f_equal. unfold n. lia. }
  rewrite Epc in E. eexists fp', _, fs', d', img'. split.
  { cbn [op_read the_ops fat_ops]. unfold fat_read. rewrite Hv, E. rewrite Hn. unfold on_vol. cbn. reflexivity. }
  assert (length piece ≤ 63)%nat by (unfold piece; rewrite length_take; lia).
  pose proof Hsf as (S1 & S2 & _ & _ & S5). split; [split; try done|].
  - unfold opened in *. rewrite S1, S2. assert (fs_id fs' = fs_id fs) as -> by apply (fm_volume _ _ _ _ _ Hfm). done.
  - by rewrite S1, Eby.
  - rewrite Efp, Hp. lia.
  - split; [split; [|split; [|done]]; rewrite S5 by done; done|]. split; [done|]. split; [rewrite patch_length; [done|simpl; lia]|].
    split; [|done]. unfold patch. rewrite take_0. cbn [app]. apply take_app_length.
Qed.

Lemma cat_loop_ok fuel F fs d img l fp data pos buf s :
  stands_for F fs d img l fp data pos → read_only fp → fat_vol (sh_fs s) = (fs, d) → length buf = 64%nat →
  (Z.to_nat (Z.of_nat (length data) - pos) / 63 < fuel)%nat →
  ∃ fp' fs' d' img' pos', cat_loop fuel fp buf s = Ok (0, fp', on_vol fs' d' (cat_text fuel (drop (Z.to_nat pos) data)) s) ∧
    stands_for F fs' d' img' l fp' data pos' ∧ read_only fp' ∧ same_file fp fp' ∧ frame l fs img fs' img' ∧ same_alloc fs fs'.
Proof using HW.
  revert fs d img fp pos buf s. induction fuel as [|fuel IH]; intros fs d img fp pos buf s Hst Hro Hv Hb Hfuel; [lia|]. cbn [cat_loop cat_text].
  destruct (cat_read F fs d img l fp data pos buf s Hst Hro Hv Hb) as (fp1 & buf1 & fs1 & d1 & img1 & E & Hst1 & Hro1 & Hsf1 & Hb1 & Etk & Hfm1 & Hsa1).
  set (rest := drop (Z.to_nat pos) data) in *. set (piece := take 63 rest) in *.
  assert (length piece ≤ 63)%nat as Hle by (unfold piece; rewrite length_take; lia). destruct (stands_for_length _ _ _ _ _ _ _ _ Hst) as [Hdl Hpos].
  assert (length rest = Z.to_nat (Z.of_nat (length data) - pos)) as Hrest by (unfold rest; rewrite length_drop; lia).
  rewrite E, bind_Ok, decide_False by exact (λ X, X eq_refl). rewrite put_ok, bind_Ok by lia. rewrite Nat2Z.id. change (u8 0) with 0.
  rewrite cstr_cut, Etk, bind_Ok by lia. destruct (Nat.ltb_spec (length rest) 63) as [Hlt|Hge].
  - assert (length piece = length rest) as Epl by (unfold piece; rewrite length_take; lia). rewrite (proj2 (Z.eqb_neq _ 63)) by lia.
    rewrite app_nil_r. eexists fp1, fs1, d1, img1, _. split; [reflexivity|done].
  - assert (length piece = 63)%nat as Epl by (unfold piece; rewrite length_take; lia). rewrite Epl. cbn [Z.of_nat Z.eqb]. rewrite (proj2 (Z.eqb_eq _ 63)) by done.
    set (s1 := print _ _). rewrite Epl in Hst1.
    destruct (IH fs1 d1 img1 fp1 (pos + 63) (<[63%nat := 0]> buf1) s1 Hst1 Hro1 eq_refl) as (fp2 & fs2 & d2 & img2 & pos2 & E2 & Hst2 & Hro2 & Hsf2 & Hfm2 & Hsa2).
    { by rewrite length_insert. }
    { pose proof (Nat.div_mod_eq (Z.to_nat (Z.of_nat (length data) - pos)) 63). pose proof (Nat.div_mod_eq (Z.to_nat (Z.of_nat (length data) - (pos + 63))) 63).
      pose proof (Nat.mod_upper_bound (Z.to_nat (Z.of_nat (length data) - pos)) 63 ltac:(lia)).
      pose proof (Nat.mod_upper_bound (Z.to_nat (Z.of_nat (length data) - (pos + 63))) 63 ltac:(lia)). lia. }
    exists fp2, fs2, d2, img2, pos2. split.
    { rewrite E2. assert (drop (Z.to_nat (pos + 63)) data = drop 63 rest) as -> by (unfold rest; rewrite drop_drop; f_equal; lia).
      unfold on_vol, s1, print, set_fs, on_vol. cbn. by rewrite <-app_assoc. }
    split; [done|]. split; [done|]. split; [by etrans|]. split; [by apply (frame_trans _ _ _ fs1 img1)|].
    unfold same_alloc in *. intuition congruence.
Qed.

(** Closing an object nothing was written through. *)
Lemma f_close_clean F fs d img l fp data pos :
  stands_for F fs d img l fp data pos → has_flag FA_MODIFIED fp = false →
  ∃ fp' d', f_close W fp (fs, d) = Ok ((FR_OK, fp'), (fs, d')) ∧ fat_rep F fs d' img.
Proof.
  intros [Hr _ Ho _ _] Hm. unfold f_close, f_sync. destruct (validate_ok F fs d img fp Hr Ho) as (d1 & E1 & Hr1).
  destruct (validate_ok F fs d1 img fp Hr1 Ho) as (d2 & E2 & Hr2). ff_run. rewrite (run_bind _ _ _ _ _ E1), decide_False by exact (λ X, X eq_refl).
  rewrite Hm. ff_run. rewrite decide_True by done. rewrite (run_bind _ _ _ _ _ E2). eexists _, d2. split; [reflexivity|done].
Qed.

(** The path [cat] opens. *)
Definition cat_target (cur arg : list Z) : list Z := (if decide (last cur = Some 47) then cur else cur ++ [47]) ++ arg.

(** C8: [cat] of a file: when the current directory and the argument lead to
    the entry of a file, the command returns 0 and has printed the bytes of the
    file -- all of them in order when the file is a text without NUL, else each
    piece of 63 bytes up to its first NUL --, the current directory is what it
    was, and so is the volume: the chains, the bytes of the file, and every
    sector outside the FAT and the file as FatFs sees it. *)
Theorem cat_prints_file fuel F fs d img s cur arg c0 cs t j l file :
  fat_rep F fs d img → pow2_csize fs → fat_vol (sh_fs s) = (fs, d) → registered (fat_vars (sh_fs s)) = true → length (fn (fat_dj (sh_fs s))) = 12%nat →
  cwd_is cur s → no_nul arg → (length cur + length arg + 1 < 1024)%nat → path_names (Some (cat_target cur arg)) cs → Forall (λ c, short_name c.1 c.2) cs →
  path_to F fs img 0 cs t j → read_entry F fs img t j l → apart fs l → length (f_buf file) = 512%nat →
  let data := entry_data fs img t j l in (length data / 63 < fuel)%nat →
  ∃ s' fs' d' img', exec_cmd_cat fuel file [c0; arg] s = Ok (0, s') ∧ sh_out s' = sh_out s ++ cat_text fuel data ∧
    (no_nul data → sh_out s' = sh_out s ++ data) ∧ cwd_is cur s' ∧ fat_vol (sh_fs s') = (fs', d') ∧ fat_rep F fs' d' img' ∧
    frame l fs img fs' img' ∧ take (length data) (content fs' img' l) = data.
Proof using HW.
  intros Hr P Hv Hreg Hfn Hcur Hz Hlt Hpath Hcs Hto Hre Hap Hbuf data Hfuel. pose proof Hcur as (Hc & Hl & Hh).
  destruct (cat_path cur arg s Hcur Hz Hlt) as (b & b' & E & Hb & Eb' & Hb' & Hbl'). fold (cat_target cur arg) in Hb.
  destruct (f_open_reaches W HW F fs d img (fat_vars (sh_fs s)) (fat_dj (sh_fs s)) file (Some (cat_target cur arg)) cs t j l FA_READ Hr P Hreg Hpath Hcs Hto Hre Hap)
    as (fp & fs1 & d1 & img1 & Eo & Hst & Efl & Hk & _); [done|by left|done|done|]. fold data in Hst.
  set (s1 := mk_shell b' (mk_fatfs_state (fat_vars (sh_fs s)) (fs1, d1) (fat_dj (sh_fs s))) (sh_out s)).
  assert (read_only fp) as Hro by (unfold read_only, has_flag; by rewrite Efl).
  destruct (cat_loop_ok fuel F fs1 d1 img1 l fp data 0 (replicate 64 0) s1 Hst Hro eq_refl eq_refl) as (fp2 & fs2 & d2 & img2 & pos2 & E2 & Hst2 & (_ & Hm2 & Hd2) & _ & Hfm & _).
  { by rewrite Z.sub_0_r, Nat2Z.id. }
  destruct (f_close_clean F fs2 d2 img2 l fp2 data pos2 Hst2 Hm2) as (fp3 & d3 & E3 & Hr3). rewrite drop_0 in E2.
  exists (mk_shell b' (mk_fatfs_state (fat_vars (sh_fs s)) (fs2, d3) (fat_dj (sh_fs s))) (sh_out s ++ cat_text fuel data)), fs2, d3, img2. split.
  { unfold exec_cmd_cat, CURR_DIR_SIZE. cbn [lookup list_lookup]. rewrite Hc, bind_Ok, (proj2 (Z.leb_gt _ _)) by lia.
    apply bind_ok in E as (ch & -> & E). rewrite bind_Ok. apply bind_ok in E as (b0 & -> & E). rewrite bind_Ok, E, bind_Ok, Hb, bind_Ok.
    cbn [op_open the_ops fat_ops]. unfold fat_open. rewrite Hv, Eo. cbn [mbind res_bind]. rewrite Eb'. cbn [mbind res_bind].
    rewrite decide_False by exact (λ X, X eq_refl). match goal with |- context [cat_loop fuel fp _ ?x] => change x with s1 end. rewrite E2. cbn [mbind res_bind op_close the_ops fat_ops]. unfold fat_close.
    cbn [fat_vol sh_fs on_vol]. rewrite E3. done. }
  split; [done|]. split; [intros Hzd; cbn; by rewrite cat_text_exact|]. split; [done|]. split; [done|]. split; [done|].
  split; [apply (frame_trans _ _ _ fs1 img1); [by apply keeps_frame|done]|].
  destruct (stands_for_length _ _ _ _ _ _ _ _ Hst2) as [Hdl _]. pose proof (sf_data _ _ _ _ _ _ _ _ Hst2) as Hdata.
  unfold file_bytes, shown in Hdata. rewrite Hd2 in Hdata. rewrite Hdata at 2. f_equal. lia.
Qed.

(** ** Directories *)

Definition is_dir (i : FILINFO) : bool := fi_attrib i &? AM_DIR.

(** How many of the entries are files and directories, and the sizes of the
    files together. *)
Definition n_files (l : list FILINFO) : Z := Z.of_nat (length (filter (λ i, is_dir i = false) l)).
Definition n_dirs (l : list FILINFO) : Z := Z.of_nat (length (filter (λ i, is_dir i = true) l)).
Definition tot_size (l : list FILINFO) : Z := foldr Z.add 0 (fi_size <$> filter (λ i, is_dir i = false) l).

Lemma counts_cons i l :
  n_files (i :: l) = (if is_dir i then 0 else 1) + n_files l ∧ n_dirs (i :: l) = (if is_dir i then 1 else 0) + n_dirs l ∧
  tot_size (i :: l) = (if is_dir i then 0 else fi_size i) + tot_size l.
Proof. unfold n_files, n_dirs, tot_size. rewrite !filter_cons.
  destruct (is_dir i); (rewrite (decide_True (P := true = true)), (decide_False (P := true = false)) by done) ||
    (rewrite (decide_True (P := false = false)), (decide_False (P := false = true)) by done); cbn [length fmap list_fmap foldr]; lia.
Qed.

Lemma counts_pos l : Forall (λ i, 0 ≤ fi_size i) l → 0 ≤ n_files l ∧ 0 ≤ n_dirs l ∧ 0 ≤ tot_size l.
Proof.
  induction 1 as [|i l Hi Hl IH]; [done|]. destruct (counts_cons i l) as (-> & -> & ->). destruct (is_dir i); lia.
Qed.

Lemma ls_loop_ok fuel F fs d img c l dp fno js infos s files dirs tot :
  fat_rep F fs d img → pow2_csize fs → table F fs c l → n_ents fs l * SZDIRE < MAX_DIR → dir_opened fs dp → to_list fs img l dp js →
  fat_vol (sh_fs s) = (fs, d) → infos = (λ j, file_info (ent fs img l j)) <$> js →
  Forall (λ j, 0 ≤ j < n_ents fs l) js → Forall (λ i, default 0 (head (fi_name i)) ≠ 0) infos → Forall (λ i, 0 ≤ fi_size i) infos →
  0 ≤ files ∧ 0 ≤ dirs ∧ 0 ≤ tot ∧ files + n_files infos < 2 ^ 64 ∧ dirs + n_dirs infos < 2 ^ 64 ∧ tot + tot_size infos < 2 ^ 64 →
  (length js < fuel)%nat →
  ∃ dp' fs' d' img', ls_loop fuel dp fno files dirs tot s =
      Ok (0, dp', (files + n_files infos, tot + tot_size infos, dirs + n_dirs infos), on_vol fs' d' (infos ≫= ls_line) s) ∧
    fat_rep F fs' d' img' ∧ keeps_view fs img fs' img' ∧ dir_opened fs' dp'.
Proof using HW.
  revert fs d img dp fno js infos s files dirs tot.
  induction fuel as [|fuel IH]; intros fs d img dp fno js infos s files dirs tot Hr P T Hmax Hop Hto Hv Hinf Hjs Hnm Hsz Hb Hfuel; [lia|].
  destruct (f_readdir_ok W HW F fs d img c l dp fno js Hr P T Hmax Hop Hto) as (dp1 & fs1 & d1 & img1 & E & Hr1 & Hk1 & Hop1 & Hto1).
  cbn [ls_loop op_readdir the_ops fat_ops]. unfold fat_readdir. rewrite Hv, E. cbn [mbind res_bind default from_option id].
  rewrite decide_False by exact (λ X, X eq_refl). destruct js as [|j js]; rewrite ?fmap_nil, ?fmap_cons in Hinf; subst infos.
  { exists dp1, fs1, d1, img1. split; [|done]. change (n_files []) with 0. change (n_dirs []) with 0. change (tot_size []) with 0. rewrite !Z.add_0_r.
    unfold on_vol, set_fs. cbn. by rewrite app_nil_r. }
  apply Forall_cons in Hjs as [Hj Hjs]. set (i := file_info (ent fs img l j)) in *. set (infos := _ <$> js) in *.
  apply Forall_cons in Hnm as [Hnm1 Hnm]. apply Forall_cons in Hsz as [Hsz1 Hsz]. rewrite (proj2 (Z.eqb_neq _ 0) Hnm1).
  pose proof (kv_volume _ _ _ _ Hk1) as V1. destruct (same_table F fs fs1 c l V1) as (Tt & _ & _ & En).
  assert (infos = (λ j, file_info (ent fs1 img1 l j)) <$> js) as Einf.
  { apply list_fmap_ext. intros k x Hx. f_equal. symmetry. apply (ent_keeps F fs img fs1 img1 (n_sect img) c); try done; [apply Hr|].
    rewrite Forall_lookup in Hjs. eauto. }
  assert (pow2_csize fs1) as P1 by (unfold pow2_csize; by assert (csize fs1 = csize fs) as -> by apply V1).
  set (s1 := print (ls_line i) _). cbn [tail] in Hto1. destruct (counts_pos infos Hsz) as (B1 & B2 & B3). destruct (counts_cons i infos) as (E1 & E2 & E3).
  fold (is_dir i). rewrite E1, E2, E3 in Hb |- *. destruct (is_dir i); rewrite ?(wrap_small 64) by lia.
  - destruct (IH fs1 d1 img1 dp1 i js infos s1 files (dirs + 1) tot) as (dp2 & fs2 & d2 & img2 & E4 & Hr2 & Hk2 & Hop2); try done;
      [by apply Tt|by rewrite En|by rewrite En|lia|simpl in Hfuel; lia|].
    exists dp2, fs2, d2, img2. split; [|split; [done|split; [by eapply keeps_view_trans|done]]]. rewrite E4. unfold on_vol, s1, print, set_fs. cbn [g_curr_dir sh_fs sh_out fat_vars fat_dj]. rewrite bind_cons.
    by rewrite <-app_assoc, !Z.add_assoc, !Z.add_0_r.
  - destruct (IH fs1 d1 img1 dp1 i js infos s1 (files + 1) dirs (tot + fi_size i)) as (dp2 & fs2 & d2 & img2 & E4 & Hr2 & Hk2 & Hop2); try done;
      [by apply Tt|by rewrite En|by rewrite En|lia|simpl in Hfuel; lia|].
    exists dp2, fs2, d2, img2. split; [|split; [done|split; [by eapply keeps_view_trans|done]]]. rewrite E4. unfold on_vol, s1, print, set_fs. cbn [g_curr_dir sh_fs sh_out fat_vars fat_dj]. rewrite bind_cons.
    by rewrite <-app_assoc, !Z.add_assoc, !Z.add_0_r.
Qed.

Lemma f_closedir_ok F fs d img dp :
  fat_rep F fs d img → dir_opened fs dp → ∃ dp' d', f_closedir dp (fs, d) = Ok ((FR_OK, dp'), (fs, d')) ∧ fat_rep F fs d' img.
Proof.
  intros Hr [Ho Hi]. destruct (validate_obj F fs d img (d_obj dp) Hr Ho Hi) as (d' & E & Hr'). unfold f_closedir.
  rewrite (run_bind _ _ _ _ _ E). eexists _, d'. split; [reflexivity|done].
Qed.

Lemma listing_nonzero m e i : Forall (λ j, ent_byte (e j) DIR_Name ≠ 0) (listing m e i).
Proof.
  revert i. induction m as [|m IH]; intros i; [done|]. cbn [listing]. case_if; [done|]. case_if; [|done]. constructor; [by apply Z.eqb_neq|done].
Qed.

Lemma listing_length m e i : (length (listing m e i) ≤ m)%nat.
Proof. revert i. induction m as [|m IH]; intros i; [done|]. cbn [listing]. specialize (IH (i + 1)). repeat case_if; simpl; lia. Qed.

(** A name that begins with neither the end mark nor padding is shown. *)
Lemma shown_name e : ent_byte e DIR_Name ≠ 0 → ent_byte e DIR_Name ≠ 32 → default 0 (head (fi_name (file_info e))) ≠ 0.
Proof.
  unfold ent_byte, DIR_Name. destruct e as [|c e]; [done|]. cbn. intros Hc0 Hc32. rewrite (proj2 (Z.eqb_neq c 32) Hc32). change (0 + 1 =? 9) with false. cbn [app head default from_option]. by case_if.
Qed.

Lemma tot_size_bound l : Forall (λ i, 0 ≤ fi_size i < 2 ^ 32) l → tot_size l ≤ Z.of_nat (length l) * 2 ^ 32.
Proof.
  induction 1 as [|i l Hi Hl IH]; [done|]. destruct (counts_cons i l) as (_ & _ & ->). cbn [length]. destruct (is_dir i); lia.
Qed.

(** C9: [ls] of the current directory or of the one given: it returns 0 and has
    printed one line for every entry of the table that is a file or a
    directory -- not a deleted one, a dot entry, a part of a long name or the
    label --, in the order of the table, with its attributes, date, time, size
    and name, and then how many files and directories there are and the sum of
    the sizes of the files; the current directory and the volume are what they
    were. It ends: the number of entries is fuel enough. *)
Theorem ls_lists_directory fuel F fs d img s cur argv dd c l :
  fat_rep F fs d img → pow2_csize fs → fat_vol (sh_fs s) = (fs, d) → registered (fat_vars (sh_fs s)) = true → length (fn dd) = 12%nat →
  cwd_is cur s → dir_named F fs img (Some (default cur (argv !! 1%nat))) c → table F fs c l → n_ents fs l * SZDIRE < MAX_DIR →
  let js := listing (Z.to_nat (n_ents fs l)) (ent fs img l) 0 in let infos := (λ j, file_info (ent fs img l j)) <$> js in
  Forall (λ j, ent_byte (ent fs img l j) DIR_Name ≠ 32) js → (Z.to_nat (n_ents fs l) < fuel)%nat →
  ∃ s' fs' d' img', exec_cmd_ls fuel dd argv s = Ok (0, s') ∧
    sh_out s' = sh_out s ++ (infos ≫= ls_line) ++ ls_total (n_files infos) (tot_size infos) (n_dirs infos) ∧
    cwd_is cur s' ∧ fat_vol (sh_fs s') = (fs', d') ∧ fat_rep F fs' d' img' ∧ keeps_view fs img fs' img'.
Proof using HW.
  intros Hr P Hv Hreg Hfn Hcur Hdir T Hmax js infos Hsp Hfuel. pose proof Hcur as (Hc & Hl & Hh). set (p := default cur (argv !! 1%nat)) in *.
  destruct (f_opendir_ok W HW F fs d img (fat_vars (sh_fs s)) (Some p) c l dd Hr P Hreg Hdir T Hfn) as (dp & fs1 & d1 & img1 & E1 & Hr1 & Hk1 & Hop1 & Hto1).
  fold js in Hto1. pose proof (kv_volume _ _ _ _ Hk1) as V1. destruct (same_table F fs fs1 c l V1) as (Tt & _ & _ & En).
  set (s1 := mk_shell (g_curr_dir s) (mk_fatfs_state (fat_vars (sh_fs s)) (fs1, d1) (fat_dj (sh_fs s))) (sh_out s)).
  pose proof (listing_bound (Z.to_nat (n_ents fs l)) (ent fs img l) 0) as Hjs. fold js in Hjs. pose proof (listing_nonzero (Z.to_nat (n_ents fs l)) (ent fs img l) 0) as Hnz. fold js in Hnz.
  pose proof (listing_length (Z.to_nat (n_ents fs l)) (ent fs img l) 0) as Hlen. fold js in Hlen. destruct (dsk_bytes _ _ (fr_dsk _ _ _ _ Hr)) as [Hby _].
  pose proof (tbl_len_pos F fs _ _ l (wo_geo _ _ (fr_win _ _ _ _ Hr)) T) as Hpos. assert (0 < n_ents fs l) as Hnp by (unfold n_ents; lia).
  assert (Forall (λ i, 0 ≤ fi_size i < 2 ^ 32) infos) as Hsz.
  { apply Forall_fmap, Forall_forall. intros j _. apply (ent_size_bound fs img l j); [apply Hr|done]. }
  assert (Forall (λ i, 0 ≤ fi_size i) infos) as Hsz0 by (eapply Forall_impl; [exact Hsz|cbn; lia]).
  destruct (ls_loop_ok fuel F fs1 d1 img1 c l dp (mk_filinfo 0 0 0 0 []) js infos s1 0 0 0) as (dp2 & fs2 & d2 & img2 & E2 & Hr2 & Hk2 & Hop2); try done.
  { unfold pow2_csize. by assert (csize fs1 = csize fs) as -> by apply V1. }
  { by apply Tt. }
  { by rewrite En. }
  { apply list_fmap_ext. intros k x Hx. f_equal. symmetry. apply (ent_keeps F fs img fs1 img1 (n_sect img) c); try done; [apply Hr|].
    rewrite Forall_lookup in Hjs. specialize (Hjs k x Hx). lia. }
  { eapply Forall_impl; [exact Hjs|]. cbn. rewrite En. lia. }
  { apply Forall_fmap. rewrite Forall_forall in Hnz, Hsp |- *. intros j Hj. apply shown_name; auto. }
  { pose proof (tot_size_bound infos Hsz). destruct (counts_pos infos Hsz0) as (? & ? & ?). unfold MAX_DIR, SZDIRE in Hmax.
    assert (length infos = length js) as El by apply length_fmap.
    assert (n_files infos ≤ Z.of_nat (length infos) ∧ n_dirs infos ≤ Z.of_nat (length infos)).
    { unfold n_files, n_dirs. split; apply inj_le, length_filter. }
    assert (Z.of_nat (length infos) ≤ 65536) by lia. lia. }
  { lia. }
  rewrite !Z.add_0_l in E2. destruct (f_closedir_ok F fs2 d2 img2 dp2 Hr2 Hop2) as (dp3 & d3 & E3 & Hr3).
  eexists (mk_shell (g_curr_dir s) (mk_fatfs_state (fat_vars (sh_fs s)) (fs2, d3) (fat_dj (sh_fs s))) _), fs2, d3, img2. split.
  { unfold exec_cmd_ls. assert ((match argv !! 1%nat with Some a => Ok a | None => cstr (g_curr_dir s) end) = Ok p) as ->.
    { unfold p. by destruct (argv !! 1%nat). }
    rewrite bind_Ok. cbn [op_opendir the_ops fat_ops]. unfold fat_opendir. rewrite Hv, E1. cbn [mbind res_bind].
    rewrite decide_False by exact (λ X, X eq_refl). match goal with |- context [ls_loop fuel dp _ _ _ _ ?x] => change x with s1 end. rewrite E2.
    cbn [mbind res_bind op_closedir the_ops fat_ops]. unfold fat_closedir. cbn [fat_vol sh_fs on_vol print]. rewrite E3. cbn [mbind res_bind]. reflexivity. }
  split; [|split; [done|split; [done|split; [done|by eapply keeps_view_trans]]]]. cbn [sh_out print on_vol s1]. by rewrite <-app_assoc.
Qed.
End files.

(** ** The volume with a file in a directory *)

Definition deep_fatfs : fatfs (hostdisk memhost) := mk_fatfs_state (mk_vars true 1) (small_fs, deep_host) root_dp.

Lemma deep_cwd cur : bool_decide (no_nul cur) = true → bool_decide (head cur = Some 47) = true → (length cur < 1024)%nat → cwd_is cur (shell_at cur deep_fatfs).
Proof. intros ?%bool_decide_eq_true ?%bool_decide_eq_true ?. by apply shell_at_cwd. Qed.

Lemma cat_prints_file_witness :
  ∃ s' fs' d' img', exec_cmd_cat (H := fat_ops 32) 12 small_file [str "cat"; str "a.txt"] (shell_at (str "/Sub") deep_fatfs) = Ok (0, s') ∧
    sh_out s' = replicate 700 7 ∧ cwd_is (str "/Sub") s' ∧ fat_rep deep_table fs' d' img'.
Proof.
  destruct (cat_prints_file 32 ltac:(lia) 12 deep_table small_fs deep_host deep_img (shell_at (str "/Sub") deep_fatfs) (str "/Sub") (str "a.txt") (str "cat")
    [(str "Sub", []); (str "a", str "txt")] (Some [4]) 0 [2; 3] small_file deep_rep) as (s' & fs' & d' & img' & E & _ & Ht & Hc & _ & Hr & _).
  - exists 0. split; [lia|reflexivity].
  - reflexivity.
  - reflexivity.
  - reflexivity.
  - apply deep_cwd; vm_compute; [reflexivity|reflexivity|repeat constructor].
  - apply (bool_decide_unpack _). vm_compute. exact I.
  - vm_compute. repeat constructor.
  - eexists. split; vm_compute; reflexivity.
  - apply Forall_cons. split; [|apply Forall_singleton]; (split; [cbn; lia|cbn; lia|apply (bool_decide_unpack _); vm_compute; exact I]).
  - exact deep_path.
  - exact (file_entry_read _ _ _ _ _ _ deep_file).
  - intros (c & Hc & Hs). unfold clust_sect in Hs. cbn in Hs. apply list_elem_of_In in Hc as [<-|[<-|[]]]; lia.
  - reflexivity.
  - assert (length (entry_data small_fs deep_img (Some [4]) 0 [2; 3]) = 700%nat) as -> by (vm_compute; reflexivity). vm_compute. repeat constructor.
  - assert (entry_data small_fs deep_img (Some [4]) 0 [2; 3] = replicate 700 7) as Ed by (vm_compute; reflexivity). rewrite Ed in Ht.
    exists s', fs', d', img'. split; [exact E|]. split; [apply Ht; apply (bool_decide_unpack _); vm_compute; exact I|]. split; [exact Hc|exact Hr].
Defined.

Lemma deep_named : dir_named deep_table small_fs deep_img (Some (str "/Sub")) 4.
Proof.
  change 4 with (ent_clust small_fs (ent small_fs deep_img None 0)). apply (named_sub _ _ _ _ [(str "Sub", [])]).
  - eexists. split; vm_compute; reflexivity.
  - apply Forall_singleton. split; [cbn; lia|cbn; lia|apply (bool_decide_unpack _); vm_compute; exact I].
  - apply path_last; [|vm_compute; reflexivity]. split; [|done]. repeat split; (reflexivity || (vm_compute; discriminate)).
  - vm_compute. reflexivity.
Qed.

Lemma ls_lists_directory_witness :
  ∃ s' fs' d' img', exec_cmd_ls (H := fat_ops 32) 17 root_dp [str "ls"; str "/Sub"] (shell_at (str "/") deep_fatfs) = Ok (0, s') ∧
    sh_out s' = str "----a 1980/00/00 00:00       700 bytes  A.TXT" ++ [10; 10] ++ str "   1 File(s),       700 bytes total" ++ [10] ++ str "   0 Dir(s)" ++ [10] ∧
    cwd_is (str "/") s' ∧ fat_rep deep_table fs' d' img'.
Proof.
  destruct (ls_lists_directory 32 ltac:(lia) 17 deep_table small_fs deep_host deep_img (shell_at (str "/") deep_fatfs) (str "/") [str "ls"; str "/Sub"] root_dp 4 (Some [4])
    deep_rep) as (s' & fs' & d' & img' & E & Ho & Hc & _ & Hr & _).
  - exists 0. split; [lia|reflexivity].
  - reflexivity.
  - reflexivity.
  - reflexivity.
  - apply deep_cwd; vm_compute; [reflexivity|reflexivity|repeat constructor].
  - exact deep_named.
  - split; [|done]. by apply chain_last.
  - vm_compute. reflexivity.
  - apply (bool_decide_unpack _). vm_compute. exact I.
  - vm_compute. repeat constructor.
  - exists s', fs', d', img'. split; [exact E|]. split; [rewrite Ho; vm_compute; reflexivity|]. split; [exact Hc|exact Hr].
Defined.
