(* ===== verification/Bsp.v ===== *)
(** * Board support packages

    The serial line and the clock of the two QEMU boards
    (src/mipos/arch/qemu-arm/mipos_bsp_qemu_arm.c and
    src/mipos/arch/qemu-vexpress-a9/mipos_bsp_qemu_vexpress_a9.c), and the
    keyboard of the simulator (src/mipos/arch/simu/mipos_bsp_simu.c).

    The registers are volatile: every access goes to a bus, the class [Bus],
    which stands for the hardware. What the code relies on of it is the class
    [Pl011]: the documented behaviour of the UART's flag and data registers.
    An interrupt is a step of its own, so that it can fall between any two
    accesses of the thread. *)

From S2P Require Import Prelude.
From S2P Require Import Bytes.
From S2P Require Import Kernel.
From S2P Require Import Machine.

(** ** The bus and the UART *)

Class Bus (B : Type) := {
  bus_read : Z → B → Z * B;
  bus_write : Z → Z → B → B;
}.

Definition UART_DR : Z := 0.
Definition UART_FR : Z := 0x18.
Definition UART_IBRD : Z := 0x24.
Definition UART_FBRD : Z := 0x28.
Definition UART_LCRH : Z := 0x2C.
Definition UART_CTL : Z := 0x30.
Definition UART_IMSC : Z := 0x38.
Definition UART_ICR : Z := 0x44.
Definition UART_FR_TXFF : Z := 0x20.
Definition UART_FR_RXFE : Z := 0x10.
Definition UART_LCRH_WLEN8 : Z := 0x60.
Definition UART_LCRH_FEN : Z := 0x10.
Definition UART_CTL_UARTEN : Z := 1.
Definition UART_CTL_TXE : Z := 0x100.
Definition UART_CTL_RXE : Z := 0x200.

Definition SYSCTL_RCGC1 : Z := 0x400FE104.
Definition SYSCTL_RCC : Z := 0x400FE060.
Definition SYST_CSR : Z := 0xE000E010.
Definition SYST_RVR : Z := 0xE000E014.
Definition SYST_CVR : Z := 0xE000E018.
Definition QEMU_ARM_SYSCLK_HZ : Z := 12500000.

(** The two boards place the same UART at different addresses. *)
Definition arm_uart : Z := 0x4000C000.
Definition vexpress_uart : Z := 0x10009000.

(** The documented behaviour of the UART at address [base]: [tx] is what it
    has been given to send, [rx] what the line has still to deliver. The flag
    register tells whether the transmit queue is full, which it stops being
    after at most [depth] polls, and whether a byte has arrived; reading the
    data register takes the byte (above it come the error bits), writing it
    when the queue is not full sends one. *)
Class Pl011 (B : Type) `{!Bus B} (base : Z) := {
  tx : B → list Z;
  rx : B → list Z;
  stall : B → nat;
  tx_ready : B → Prop;
  depth : nat;
  stall_depth s : (stall s ≤ depth)%nat;
  fr_read s v s' :
    bus_read (base + UART_FR) s = (v, s') →
    tx s' = tx s ∧ rx s' = rx s ∧
    ((v &? UART_FR_RXFE) = false → rx s ≠ []) ∧
    (if v &? UART_FR_TXFF then (stall s' < stall s)%nat else tx_ready s');
  dr_read s v s' c r :
    bus_read (base + UART_DR) s = (v, s') → rx s = c :: r →
    Z.land v 255 = c ∧ rx s' = r ∧ tx s' = tx s;
  dr_write s c :
    tx_ready s → tx (bus_write (base + UART_DR) c s) = tx s ++ [u8 c] ∧
                 rx (bus_write (base + UART_DR) c s) = rx s;
}.

Module Uart.

Section uart.
Context {B : Type} `{!Bus B}.

(** *** Operations *)

(** [UART0_FR & UART_FR_TXFF] until it is clear. *)
Fixpoint wait_tx (fuel : nat) (base : Z) (s : B) : res B :=
  match fuel with
  | O => Fault OutOfFuel
  | S fuel =>
      let '(fr, s) := bus_read (base + UART_FR) s in
      if fr &? UART_FR_TXFF then wait_tx fuel base s else Ok s
  end.

Definition rs232_putc (fuel : nat) (base c : Z) (s : B) : res B :=
  s ← wait_tx fuel base s; Ok (bus_write (base + UART_DR) c s).

(** The value returned, [*key], and the board. *)
Definition rs232_recv_byte (base key : Z) (s : B) : Z * Z * B :=
  let '(fr, s) := bus_read (base + UART_FR) s in
  if fr &? UART_FR_RXFE then (0, key, s) else
  let '(dr, s) := bus_read (base + UART_DR) s in
  let c := u8 (Z.land dr 0xFF) in
  let c := if c =? 10 then 13 else c in
  (1, c, s).

(** The bytes [mipos_printf] walks over: the buffer [vsnprintf] filled, of
    256 bytes, or the format itself where [vsnprintf] failed. *)
Definition printed (fmt : list Z) (text : option (list Z)) : list Z :=
  match text with
  | Some t => until_nul (take 255 t)
  | None => until_nul fmt
  end.

Fixpoint out_loop (fuel : nat) (base : Z) (out : list Z) (s : B) : res B :=
  match out with
  | [] => Ok s
  | c :: out =>
      s ← (if c =? 10 then rs232_putc fuel base 13 s else Ok s);
      s ← rs232_putc fuel base (u8 c) s;
      out_loop fuel base out s
  end.

Definition printf (fuel : nat) (base : Z) (fmt : list Z) (text : option (list Z)) (s : B) : res B :=
  out_loop fuel base (printed fmt text) s.

(** The registers the two boards program. *)
Definition write_all (l : list (Z * Z)) (s : B) : B := foldl (λ s '(a, v), bus_write a v s) s l.

Definition arm_setup_clk : B → B :=
  bus_write SYSCTL_RCC (Z.lor (Z.lor (Z.shiftl 0xF 23) (Z.shiftl 1 22)) (Z.shiftl 0xB 6)).

Definition divisor (clk baud_rate : Z) : Z := u32 (clk * 4) `div` baud_rate.

(** The baud rate used, and the writes that follow the board's own. *)
Definition uart_program (base clk baud_rate : Z) : list (Z * Z) :=
  let d := divisor clk baud_rate in
  [(base + UART_IBRD, Z.shiftr d 6); (base + UART_FBRD, Z.land d 0x3F);
   (base + UART_LCRH, Z.lor UART_LCRH_WLEN8 UART_LCRH_FEN);
   (base + UART_CTL, Z.lor (Z.lor UART_CTL_UARTEN UART_CTL_TXE) UART_CTL_RXE)].

Definition arm_configure_rs232 (baud_rate : Z) (s : B) : B :=
  let baud_rate := if baud_rate =? 0 then 115200 else baud_rate in
  let '(g, s) := bus_read SYSCTL_RCGC1 s in
  write_all ([(SYSCTL_RCGC1, Z.lor g 1); (arm_uart + UART_CTL, 0)]
             ++ uart_program arm_uart QEMU_ARM_SYSCLK_HZ baud_rate) s.

Definition vexpress_configure_rs232 (baud_rate : Z) (s : B) : B :=
  let baud_rate := if baud_rate =? 0 then 115200 else baud_rate in
  write_all ([(vexpress_uart + UART_CTL, 0); (vexpress_uart + UART_ICR, 0x7ff);
              (vexpress_uart + UART_IMSC, 0)]
             ++ uart_program vexpress_uart 24000000 baud_rate) s.

Definition arm_create_hw_rtc_timer : B → B :=
  write_all [(SYST_CSR, 0); (SYST_RVR, QEMU_ARM_SYSCLK_HZ `div` 1000 - 1); (SYST_CVR, 0);
             (SYST_CSR, Z.lor (Z.lor 1 2) 4)].

Definition arm_rs232_putc (fuel : nat) : Z → B → res B := rs232_putc fuel arm_uart.
Definition arm_rs232_recv_byte : Z → B → Z * Z * B := rs232_recv_byte arm_uart.
Definition arm_printf (fuel : nat) : list Z → option (list Z) → B → res B := printf fuel arm_uart.
Definition vexpress_rs232_putc (fuel : nat) : Z → B → res B := rs232_putc fuel vexpress_uart.
Definition vexpress_rs232_recv_byte : Z → B → Z * Z * B := rs232_recv_byte vexpress_uart.
Definition vexpress_printf (fuel : nat) : list Z → option (list Z) → B → res B :=
  printf fuel vexpress_uart.

(** *** What a text becomes on the line *)

Definition lf_to_crlf (l : list Z) : list Z := l ≫= λ c, if c =? 10 then [13; 10] else [c].
Definition lf_to_cr (c : Z) : Z := if c =? 10 then 13 else c.

(** What [n] polls of the line give. *)
Fixpoint polls (n : nat) (base key : Z) (s : B) : list Z * B :=
  match n with
  | O => ([], s)
  | S n =>
      let '(got, key, s) := rs232_recv_byte base key s in
      let '(l, s) := polls n base key s in
      ((if truth got then [key] else []) ++ l, s)
  end.
End uart.

Section line.
Context {B : Type} `{!Bus B} {base : Z} `{!Pl011 B base}.

Lemma wait_tx_ready fuel s :
  (stall s < fuel)%nat →
  ∃ s', wait_tx fuel base s = Ok s' ∧ tx_ready s' ∧ tx s' = tx s ∧ rx s' = rx s.
Proof.
  revert s. induction fuel as [|fuel IH]; intros s Hf; [lia|]. cbn [wait_tx].
  destruct (bus_read _ s) as [v s1] eqn:Hr. apply fr_read in Hr as (Ht & Hx & _ & Hfl).
  destruct (v &? UART_FR_TXFF); [|eauto 6].
  destruct (IH s1) as (s' & Hs & ? & ? & ?); [lia|]. exists s'. split_and!; congruence || done.
Qed.

Lemma rs232_putc_sends fuel c s :
  (depth < fuel)%nat →
  ∃ s', rs232_putc fuel base c s = Ok s' ∧ tx s' = tx s ++ [u8 c] ∧ rx s' = rx s.
Proof.
  intros Hf. destruct (wait_tx_ready fuel s) as (s1 & Hw & Hr & Ht & Hx).
  { pose proof (stall_depth s). lia. }
  unfold rs232_putc. rewrite Hw, bind_Ok. eexists. split; [done|].
  pose proof (dr_write s1 c Hr). by rewrite <-Ht, <-Hx.
Qed.

Lemma out_loop_sends fuel out s :
  (depth < fuel)%nat → Forall is_byte out →
  ∃ s', out_loop fuel base out s = Ok s' ∧ tx s' = tx s ++ lf_to_crlf out ∧ rx s' = rx s.
Proof.
  intros Hf Hb. revert s. induction Hb as [|c out Hc Hb IH]; intros s; cbn [out_loop].
  { exists s. split_and!; [done| |done]. by rewrite app_nil_r. }
  assert (u8 c = c) as Hu by (unfold is_byte in Hc; apply wrap_small; lia).
  assert (∃ s1, (if c =? 10 then rs232_putc fuel base 13 s else Ok s) = Ok s1 ∧
            tx s1 = tx s ++ (if c =? 10 then [13] else []) ∧ rx s1 = rx s) as (s1 & H1 & Ht1 & Hx1).
  { destruct (c =? 10); [by apply rs232_putc_sends|]. exists s. by rewrite app_nil_r. }
  destruct (rs232_putc_sends fuel (u8 c) s1 Hf) as (s2 & H2 & Ht2 & Hx2).
  destruct (IH s2) as (s3 & H3 & Ht3 & Hx3).
  exists s3. rewrite H1, bind_Ok, H2, bind_Ok. split_and!; [done| |congruence].
  rewrite Ht3, Ht2, Ht1, !Hu. unfold lf_to_crlf. rewrite bind_cons, <-!app_assoc.
  by destruct (Z.eqb_spec c 10) as [->|].
Qed.

Lemma rs232_recv_byte_spec key s :
  ∃ s', tx s' = tx s ∧
    ((rs232_recv_byte base key s = (0, key, s') ∧ rx s' = rx s) ∨
     (∃ c, rx s = c :: rx s' ∧ rs232_recv_byte base key s = (1, lf_to_cr c, s'))).
Proof.
  unfold rs232_recv_byte. destruct (bus_read _ s) as [v s1] eqn:Hr.
  apply fr_read in Hr as (Ht & Hx & He & _). destruct (v &? UART_FR_RXFE); [eauto|].
  destruct (rx s1) as [|c r] eqn:Hrx; [by destruct He; congruence|].
  destruct (bus_read (base + UART_DR) s1) as [d s2] eqn:Hd.
  destruct (dr_read _ _ _ _ _ Hd Hrx) as (Hc & Hr2 & Ht2).
  exists s2. split; [congruence|]. right. exists c. split; [congruence|].
  assert (u8 (Z.land d 255) = c) as ->; [|done].
  rewrite Hc. apply wrap_small. rewrite <-Hc. change 255 with (Z.ones 8).
  rewrite Z.land_ones by lia. apply Z.mod_pos_bound. lia.
Qed.

Lemma polls_prefix n key s :
  ∃ got, fst (polls n base key s) = lf_to_cr <$> got ∧ rx s = got ++ rx (snd (polls n base key s))
         ∧ tx (snd (polls n base key s)) = tx s.
Proof.
  revert key s. induction n as [|n IH]; intros key s; cbn [polls]; [by exists []|].
  destruct (rs232_recv_byte_spec key s) as (s' & Ht & [[-> Hx]|(c & Hx & ->)]).
  - destruct (IH key s') as (got & Hg & Hr & Htx). destruct (polls n base key s') as [l s2].
    exists got. cbn in *. split_and!; congruence.
  - destruct (IH (lf_to_cr c) s') as (got & Hg & Hr & Htx).
    destruct (polls n base (lf_to_cr c) s') as [l s2].
    exists (c :: got). cbn in *. split_and!; [by rewrite Hg|by rewrite Hx, Hr|congruence].
Qed.
End line.

(** *** A UART that keeps the contract *)

(** A queue of one byte, busy for one poll after each write. *)
Record fifo := mk_fifo { sent : list Z; waiting : list Z; busy : bool }.

#[global] Instance fifo_bus : Bus fifo := {|
  bus_read a s :=
    if a =? arm_uart + UART_FR then
      (Z.lor (if busy s then UART_FR_TXFF else 0)
         (match waiting s with [] => UART_FR_RXFE | _ => 0 end),
       mk_fifo (sent s) (waiting s) false)
    else if a =? arm_uart + UART_DR then
      (match waiting s with c :: _ => u8 c | [] => 0 end,
       mk_fifo (sent s) (u8 <$> tail (waiting s)) (busy s))
    else (0, s);
  bus_write a v s :=
    if a =? arm_uart + UART_DR then mk_fifo (sent s ++ [u8 v]) (waiting s) true else s;
|}.

#[global] Program Instance fifo_pl011 : Pl011 fifo arm_uart := {|
  tx := sent; rx s := u8 <$> waiting s; stall s := if busy s then 1%nat else 0%nat;
  tx_ready s := busy s = false; depth := 1;
|}.
Next Obligation. intros [? ? []]; simpl; lia. Qed.
Next Obligation.
  intros s v s' [= <- <-]. cbn. split_and!; try done.
  - destruct (waiting s); [by destruct (busy s)|done].
  - destruct (busy s), (waiting s); vm_compute; first [done|lia].
Qed.
Next Obligation.
  intros s v s' c r [= <- <-] Hr. destruct (waiting s) as [|w ws]; [done|].
  apply (inj2 cons) in Hr as [<- <-]. cbn. split_and!; [|by rewrite <-list_fmap_compose;
    apply list_fmap_ext; intros; cbn; unfold wrap; rewrite Z.mod_mod|done].
  change 255 with (Z.ones 8). rewrite Z.land_ones by lia. unfold wrap. by rewrite Z.mod_mod.
Qed.
Next Obligation. intros s c Hs. by destruct s. Qed.

(** *** Properties *)

(** C25: [mipos_printf] on the QEMU boards returns, whatever the state of the
    line, and what it has sent is the formatted text, cut at the buffer's 255
    characters and at its first NUL, with a carriage return before every line
    feed; where [vsnprintf] fails it is the format. No byte of the input is
    taken. *)
Theorem printf_sends_text {B} `{!Bus B} {base} `{!Pl011 B base} fuel fmt text (s : B) :
  (depth < fuel)%nat → Forall is_byte fmt → Forall is_byte (default [] text) →
  ∃ s', printf fuel base fmt text s = Ok s' ∧ rx s' = rx s ∧
        tx s' = tx s ++ lf_to_crlf (match text with Some t => until_nul (take 255 t)
                                                | None => until_nul fmt end).
Proof.
  intros Hf Hfmt Ht. unfold printf.
  destruct (out_loop_sends fuel (printed fmt text) s Hf) as (s' & Hs & Htx & Hx); [|eauto].
  assert (∀ l, Forall is_byte l → Forall is_byte (until_nul l)) as Hu.
  { induction 1 as [|c l Hc Hl IH]; simpl; [done|]. destruct (c =? 0); [done|by constructor]. }
  destruct text; cbn [printed default] in *; apply Hu; [by apply Forall_take|done].
Qed.

Lemma printf_sends_text_witness :
  ∃ s', arm_printf 2 [37; 115] (Some [104; 10]) (mk_fifo [62] [7] true) = Ok s' ∧ rx s' = [7] ∧
        tx s' = [62; 104; 13; 10].
Proof.
  destruct (printf_sends_text (base := arm_uart) 2 [37; 115] (Some [104; 10])
              (mk_fifo [62] [7] true)) as (s' & Hs & Hx & Ht).
  - cbn. lia.
  - repeat constructor; done.
  - repeat constructor; done.
  - exists s'. split; [exact Hs|]. split; [rewrite Hx|rewrite Ht]; reflexivity.
Defined.

(** However often the line is polled, what [mipos_bsp_rs232_recv_byte] has
    delivered is a prefix of what the line received, in its order, without a
    byte lost or doubled, each line feed read as a carriage return; and
    nothing is sent. *)
Theorem recv_delivers_input {B} `{!Bus B} {base} `{!Pl011 B base} n key (s : B) :
  ∃ got, fst (polls n base key s) = lf_to_cr <$> got ∧
         rx s = got ++ rx (snd (polls n base key s)) ∧ tx (snd (polls n base key s)) = tx s.
Proof. apply polls_prefix. Qed.

(** The divisor the boards program is the clock over sixteen times the baud
    rate, in 64ths and rounded down; from 23 baud on its integer part fits the
    register's sixteen bits. *)
Theorem divisor_programmed clk baud :
  0 < baud < 2 ^ 32 → 0 ≤ clk * 4 < 2 ^ 32 →
  let d := divisor clk baud in
  64 * Z.shiftr d 6 + Z.land d 0x3F = d ∧ d * (16 * baud) ≤ 64 * clk < (d + 1) * (16 * baud) ∧
  (clk ≤ 24000000 → 23 ≤ baud → Z.shiftr d 6 < 2 ^ 16).
Proof.
  intros Hb Hc d.
  assert (d = (clk * 4) `div` baud) as Hd by (unfold d, divisor; rewrite wrap_small; [done|lia]).
  rewrite Z.shiftr_div_pow2 by lia. change 63 with (Z.ones 6). rewrite Z.land_ones by lia.
  pose proof (Z.div_mod d (2 ^ 6)). pose proof (Z.div_mod (clk * 4) baud).
  pose proof (Z.mod_pos_bound (clk * 4) baud). split_and!; [lia|nia|nia|].
  intros. apply Z.div_lt_upper_bound; [lia|]. rewrite Hd. apply Z.div_lt_upper_bound; lia.
Qed.

End Uart.

(** ** The clock of the Cortex-M3 board *)

Module SysTick.

(** What the handler and the scheduler share, the processor's interrupt mask,
    and the kernel. *)
Record board := mk_board {
  systick_pending_ticks : Z;
  PRIMASK : Z;
  kernel : mipos_kernel_t;
}.

Definition set_pending (v : Z) (b : board) : board := mk_board v (PRIMASK b) (kernel b).
Definition set_primask (v : Z) (b : board) : board := mk_board (systick_pending_ticks b) v (kernel b).
Definition on_kernel (f : mipos_kernel_t → mipos_kernel_t) (b : board) : board :=
  mk_board (systick_pending_ticks b) (PRIMASK b) (f (kernel b)).

(** *** Operations *)

Definition SysTick_Handler (b : board) : board :=
  set_pending (u32 (systick_pending_ticks b + 1)) b.

(** The thread inside [mipos_bsp_qemu_arm_rtc_epoch], with its locals
    [_mipos_cs_primask] and [ticks]: before reading the mask, before setting
    it, before reading the counter, before clearing it, before restoring the
    mask, before the update; or outside the function. *)
Inductive pc :=
  | Outside
  | AtSave
  | AtMask (m : Z)
  | AtLoad (m : Z)
  | AtClear (m ticks : Z)
  | AtLeave (m ticks : Z)
  | AtUpdate (ticks : Z).

(** One access of the thread. *)
Definition epoch_step (c : pc) (b : board) : pc * board :=
  match c with
  | Outside => (Outside, b)
  | AtSave => (AtMask (PRIMASK b), b)
  | AtMask m => (AtLoad m, set_primask 1 b)
  | AtLoad m => (AtClear m (systick_pending_ticks b), b)
  | AtClear m ticks => (AtLeave m ticks, set_pending 0 b)
  | AtLeave m ticks => (AtUpdate ticks, set_primask m b)
  | AtUpdate ticks =>
      (Outside, if truth ticks then on_kernel (mipos_update_rtc ticks) b else b)
  end.

(** The function when no interrupt falls inside it. *)
Definition mipos_bsp_qemu_arm_rtc_epoch (b : board) : board :=
  let ticks := systick_pending_ticks b in
  let b := set_pending 0 b in
  if truth ticks then on_kernel (mipos_update_rtc ticks) b else b.

(** *** Interleavings *)

(** An interrupt is taken between any two steps while the mask is clear; its
    label is the count it found. Outside the function the thread does what it
    likes to the mask and the kernel, except to the clock. *)
Inductive step : pc * board → list Z → pc * board → Prop :=
  | step_tick c b :
      PRIMASK b = 0 → step (c, b) [systick_pending_ticks b] (c, SysTick_Handler b)
  | step_epoch c b : c ≠ Outside → step (c, b) [] (epoch_step c b)
  | step_call b : step (Outside, b) [] (AtSave, b)
  | step_other b m k :
      rtc_counter k = rtc_counter (kernel b) →
      step (Outside, b) [] (Outside, mk_board (systick_pending_ticks b) m k).

Inductive run : pc * board → list Z → pc * board → Prop :=
  | run_refl s : run s [] s
  | run_step s1 l1 s2 l2 s3 : run s1 l1 s2 → step s2 l2 s3 → run s1 (l1 ++ l2) s3.

(** The ticks the thread has taken from the counter and not yet accounted. *)
Definition in_hand (c : pc) : Z :=
  match c with AtLeave _ t | AtUpdate t => t | _ => 0 end.

Definition total (s : pc * board) : Z :=
  rtc_counter (kernel s.2) + in_hand s.1 + systick_pending_ticks s.2.

(** The counters keep their widths, and between the reading of the counter and
    its clearing the mask is set and the count read is still the count. *)
Definition board_ok (s : pc * board) : Prop :=
  0 ≤ rtc_counter (kernel s.2) < 2 ^ 64 ∧ 0 ≤ systick_pending_ticks s.2 < 2 ^ 32 ∧
  0 ≤ in_hand s.1 < 2 ^ 32 ∧
  match s.1 with
  | AtLoad _ => PRIMASK s.2 = 1
  | AtClear _ t => PRIMASK s.2 = 1 ∧ t = systick_pending_ticks s.2
  | AtLeave _ _ => PRIMASK s.2 = 1
  | _ => True
  end.

(** The cases in which nothing is added. *)
Ltac settle :=
  cbn [systick_pending_ticks PRIMASK kernel]; split_and!; try done; try lia; intros;
  match goal with |- ?x `mod` _ = 0 => by replace x with 0 by lia end.

Lemma step_ok s l s' :
  board_ok s → step s l s' →
  board_ok s' ∧ (total s' - total s - Z.of_nat (length l)) `mod` 2 ^ 32 = 0 ∧
  (Forall (λ n, n < 2 ^ 32 - 1) l →
   (total s' - total s - Z.of_nat (length l)) `mod` 2 ^ 64 = 0).
Proof.
  intros (Hr & Hp & Hh & Hc) Hs. unfold board_ok, total.
  destruct Hs as [c b Hm|c b Hne|b|b m k Hk]; cbn [fst snd in_hand length] in *.
  - unfold SysTick_Handler, set_pending; cbn [systick_pending_ticks PRIMASK kernel].
    set (p := systick_pending_ticks b) in *.
    assert (0 ≤ u32 (p + 1) < 2 ^ 32) by (apply wrap_bound; lia). split_and!; try lia.
    + destruct c; try done; try congruence. by destruct Hc; congruence.
    + unfold wrap. pose proof (Z.div_mod (p + 1) (2 ^ 32)).
      apply Z.mod_divide; [done|]. exists (- ((p + 1) `div` 2 ^ 32)). lia.
    + intros Hl. assert (p < 2 ^ 32 - 1) by (by inversion Hl). rewrite (wrap_small 32) by lia.
      rewrite Z.mod_small; lia.
  - destruct c as [| |m|m|m t|m t|t]; [done|..]; cbn [epoch_step fst snd in_hand] in *;
      unfold set_primask, set_pending, on_kernel in *;
      cbn [systick_pending_ticks PRIMASK kernel] in *.
    1-5: settle.
    destruct (truth t) eqn:Ht; cbn [systick_pending_ticks PRIMASK kernel].
    + unfold mipos_update_rtc, set_rtc_counter. cbn [rtc_counter]. rewrite (wrap_small 32 t) by done.
      assert (0 ≤ u64 (rtc_counter (kernel b) + t) < 2 ^ 64) by (apply wrap_bound; lia).
      pose proof (Z.div_mod (rtc_counter (kernel b) + t) (2 ^ 64)) as Hd. unfold wrap in *.
      split_and!; try done; try lia; intros; (apply Z.mod_divide; [done|]).
      * exists (- ((rtc_counter (kernel b) + t) `div` 2 ^ 64 * 2 ^ 32)). lia.
      * exists (- ((rtc_counter (kernel b) + t) `div` 2 ^ 64)). lia.
    + apply truth_false in Ht. subst t. settle.
  - settle.
  - cbn [kernel]. rewrite Hk. settle.
Qed.

Lemma run_ok s l s' :
  board_ok s → run s l s' →
  board_ok s' ∧ (total s' - total s - Z.of_nat (length l)) `mod` 2 ^ 32 = 0 ∧
  (Forall (λ n, n < 2 ^ 32 - 1) l →
   (total s' - total s - Z.of_nat (length l)) `mod` 2 ^ 64 = 0).
Proof.
  intros Hs. induction 1 as [s|s1 l1 s2 l2 s3 Hr IH Hst].
  { split_and!; [done|..]; intros; match goal with |- ?x `mod` _ = 0 => by replace x with 0 by (cbn; lia) end. }
  destruct (IH Hs) as (H2 & Hm & He). destruct (step_ok _ _ _ H2 Hst) as (H3 & Hm' & He').
  assert (∀ x y n, n ≠ 0 → x `mod` n = 0 → y `mod` n = 0 → (x + y) `mod` n = 0) as Hadd.
  { intros x y n Hn Hx Hy. by rewrite Z.add_mod, Hx, Hy, Z.mod_0_l. }
  assert (total s3 - total s1 - Z.of_nat (length (l1 ++ l2)) =
          (total s2 - total s1 - Z.of_nat (length l1)) + (total s3 - total s2 - Z.of_nat (length l2)))
    as -> by (rewrite length_app; lia).
  split_and!; [done|by apply Hadd|]. intros [? ?]%Forall_app. apply Hadd; auto.
Qed.

(** The steps of the thread without an interrupt are the function. *)
Lemma epoch_steps b :
  nsteps (λ s s', epoch_step s.1 s.2 = s') 6 (AtSave, b) (Outside, mipos_bsp_qemu_arm_rtc_epoch b).
Proof.
  do 6 (eapply nsteps_l; [reflexivity|]). cbn. unfold mipos_bsp_qemu_arm_rtc_epoch.
  destruct b as [p m k]. cbn. destruct (truth p); constructor.
Qed.

(** C21: no tick of the clock is lost, whatever the interleaving of the
    interrupt with the scheduler: at every moment the kernel's clock, the
    ticks the scheduler has in hand and those the handler has counted add up
    to what they were at the start plus one for every interrupt taken since,
    modulo the width of the handler's counter; and exactly, modulo the width
    of the clock, as long as no interrupt found that counter full. *)
Theorem no_tick_lost b l c b' :
  0 ≤ rtc_counter (kernel b) < 2 ^ 64 → 0 ≤ systick_pending_ticks b < 2 ^ 32 →
  run (Outside, b) l (c, b') →
  let now := rtc_counter (kernel b') + in_hand c + systick_pending_ticks b' in
  let start := rtc_counter (kernel b) + systick_pending_ticks b in
  now `mod` 2 ^ 32 = (start + Z.of_nat (length l)) `mod` 2 ^ 32 ∧
  (Forall (λ n, n < 2 ^ 32 - 1) l →
   now `mod` 2 ^ 64 = (start + Z.of_nat (length l)) `mod` 2 ^ 64).
Proof.
  intros Hr Hp Hrun now start.
  assert (board_ok (Outside, b)) as Hb by (split_and!; cbn; lia || done).
  destruct (run_ok _ _ _ Hb Hrun) as (_ & Hm & He). unfold total in *. cbn [fst snd in_hand] in *.
  assert (∀ n, n ≠ 0 → (now - start - Z.of_nat (length l)) `mod` n = 0 →
            now `mod` n = (start + Z.of_nat (length l)) `mod` n) as Hcong.
  { intros n Hn Hz. apply Z.mod_divide in Hz as [q Hq]; [|done].
    replace now with (start + Z.of_nat (length l) + q * n) by lia. by apply Z.mod_add. }
  unfold now, start in *. split; [|intros Hl; specialize (He Hl)]; apply Hcong; try done;
    match goal with H : ?x `mod` ?n = 0 |- ?y `mod` ?n = 0 => by replace y with x by lia end.
Qed.

(** A tick in the middle of the update is kept for the next one. *)
Lemma no_tick_lost_witness :
  let b := mk_board 3 0 (set_rtc_counter 10 booted) in
  let b' := mk_board 1 0 (set_rtc_counter 14 booted) in
  run (Outside, b) [3; 0] (Outside, b') ∧ (14 + 0 + 1) `mod` 2 ^ 64 = (10 + 3 + 2) `mod` 2 ^ 64.
Proof.
  intros b b'. assert (run (Outside, b) [3; 0] (Outside, b')) as Hr.
  { unfold b, b'.
    apply (run_step _ [3; 0] (AtUpdate 4, mk_board 1 0 (set_rtc_counter 10 booted)) []);
      [|by apply (step_epoch (AtUpdate 4))].
    apply (run_step _ [3] (AtUpdate 4, mk_board 0 0 (set_rtc_counter 10 booted)) [0]);
      [|by apply (step_tick (AtUpdate 4) (mk_board 0 0 _))].
    apply (run_step _ [3] (AtLeave 0 4, mk_board 0 1 (set_rtc_counter 10 booted)) []);
      [|by apply (step_epoch (AtLeave 0 4))].
    apply (run_step _ [3] (AtClear 0 4, mk_board 4 1 (set_rtc_counter 10 booted)) []);
      [|by apply (step_epoch (AtClear 0 4))].
    apply (run_step _ [3] (AtLoad 0, mk_board 4 1 (set_rtc_counter 10 booted)) []);
      [|by apply (step_epoch (AtLoad 0))].
    apply (run_step _ [3] (AtMask 0, mk_board 4 0 (set_rtc_counter 10 booted)) []);
      [|by apply (step_epoch (AtMask 0))].
    apply (run_step _ [] (AtMask 0, mk_board 3 0 (set_rtc_counter 10 booted)) [3]);
      [|by apply (step_tick (AtMask 0) (mk_board 3 0 _))].
    apply (run_step _ [] (AtSave, mk_board 3 0 (set_rtc_counter 10 booted)) []);
      [|by apply (step_epoch AtSave)].
    apply (run_step _ [] (Outside, mk_board 3 0 (set_rtc_counter 10 booted)) []);
      [apply run_refl|apply step_call]. }
  split; [exact Hr|].
  apply (no_tick_lost b [3; 0] Outside b'); [vm_compute; split; congruence|vm_compute; split; congruence|exact Hr|].
  repeat constructor; lia.
Defined.

(** The mask [leave_cs] will restore. *)
Definition saved_mask (c : pc) (m : Z) : Prop :=
  match c with AtMask m' | AtLoad m' | AtClear m' _ | AtLeave m' _ => m' = m | _ => True end.

Inductive inside : pc * board → pc * board → Prop :=
  | inside_refl s : inside s s
  | inside_tick s c b :
      inside s (c, b) → PRIMASK b = 0 → inside s (c, SysTick_Handler b)
  | inside_step s c b : inside s (c, b) → c ≠ Outside → inside s (epoch_step c b).

(** The critical section nests: whatever interrupts fall inside the function,
    it leaves the mask as it found it, so that one called with interrupts off
    returns with interrupts off. *)
Theorem mask_restored b b' :
  inside (AtSave, b) (Outside, b') → PRIMASK b' = PRIMASK b.
Proof.
  assert (∀ s s', inside s s' → s = (AtSave, b) → saved_mask s'.1 (PRIMASK b) ∧
            (match s'.1 with AtLoad _ | AtClear _ _ | AtLeave _ _ => True
                           | _ => PRIMASK s'.2 = PRIMASK b end)) as Hinv.
  { induction 1 as [s|s c b1 Hs IH Hm|s c b1 Hs IH Hne]; intros Heq.
    - by subst.
    - destruct (IH Heq) as [H1 H2]. by destruct c.
    - destruct (IH Heq) as [H1 H2]. destruct c; cbn in *; try done.
      by destruct (truth _). }
  intros Hi. by destruct (Hinv _ _ Hi eq_refl).
Qed.

(** What the scheduler's epoch sees of the board is the count as its quantum. *)
Lemma epoch_quantum b :
  0 ≤ rtc_counter (kernel b) < 2 ^ 64 →
  kernel (mipos_bsp_qemu_arm_rtc_epoch b) = mipos_update_rtc (systick_pending_ticks b) (kernel b).
Proof.
  intros Hr. unfold mipos_bsp_qemu_arm_rtc_epoch. destruct (truth _) eqn:Ht; [done|].
  apply truth_false in Ht. rewrite Ht. cbn. unfold mipos_update_rtc.
  change (u32 0) with 0. rewrite Z.add_0_r, wrap_small by done. by destruct (kernel b).
Qed.

End SysTick.

(** ** The keyboard of the simulator *)

Module Simu.

Record termios := mk_termios { c_lflag : Z; c_others : list Z }.

(** The statics of [_peek_input], the terminal and its file flags, and what
    [getchar] will return: a byte, or [None] where it returns [EOF] because no
    key is waiting. *)
Record simu := mk_simu {
  termios_cnf : Z;
  oldf : Z;
  oldt : termios;
  file_flags : Z;
  terminal : termios;
  keys : list (option Z);
}.

Definition O_NONBLOCK : Z := 2048.
Definition ICANON : Z := 2.
Definition ECHO : Z := 8.

Definition raw (t : termios) : termios :=
  mk_termios (Z.land (c_lflag t) (Z.lnot (Z.lor ICANON ECHO))) (c_others t).

(** The program goes on with a character, or ends. *)
Inductive peeked := Char (ch : Z) | Exit.

Definition peek_setup (s : simu) : simu :=
  if truth (termios_cnf s) then s else
  mk_simu 1 (file_flags s) (terminal s) (Z.lor (file_flags s) O_NONBLOCK) (raw (terminal s)) (keys s).

Definition getchar (s : simu) : option Z * simu :=
  (default None (head (keys s)),
   mk_simu (termios_cnf s) (oldf s) (oldt s) (file_flags s) (terminal s) (tail (keys s))).

Definition _peek_input (s : simu) : peeked * simu :=
  let '(ch, s) := getchar (peek_setup s) in
  match ch with
  | None => (Char 0, s)
  | Some ch =>
      let s := mk_simu 0 (oldf s) (oldt s) (oldf s) (oldt s) (keys s) in
      if ch =? 0xA then (Char 0xD, s)
      else if ch =? 0x7f then (Char 8, s)
      else if ch =? 3 then (Exit, s)
      else (Char ch, s)
  end.

(** [None] where the program ended, else what is returned and [*key]. *)
Definition simu_rs232_recv_byte (key : Z) (s : simu) : option (Z * Z) * simu :=
  match _peek_input s with
  | (Exit, s) => (None, s)
  | (Char ch, s) => let ch := swrap 8 ch in
      (Some (if truth ch then (1, u8 ch) else (0, key)), s)
  end.

(** The terminal as the user has it, or as the program has set it, the user's
    settings being saved. *)
Definition lent (t : termios) (f : Z) (s : simu) : Prop :=
  if truth (termios_cnf s) then
    oldt s = t ∧ oldf s = f ∧ terminal s = raw t ∧ file_flags s = Z.lor f O_NONBLOCK
  else terminal s = t ∧ file_flags s = f.

Definition key_of (ch : Z) : Z := if ch =? 0xA then 0xD else if ch =? 0x7f then 8 else ch.

Lemma peek_setup_lent t f s :
  lent t f s → lent t f (peek_setup s) ∧ truth (termios_cnf (peek_setup s)) = true.
Proof.
  unfold lent, peek_setup. destruct (truth (termios_cnf s)) eqn:Hc; cbn; rewrite ?Hc; [done|].
  intros [-> ->]. by split.
Qed.

(** [mipos_bsp_rs232_recv_byte] of the simulator borrows the terminal: a
    call that finds no key returns 0 with the user's settings saved, and one
    that gets a key, the interrupt that ends the program included, has given
    the terminal and the file flags back exactly as they were; the key is the
    byte typed, with line feed as carriage return and delete as backspace,
    and a NUL is no key. *)
Theorem terminal_given_back t f key s :
  lent t f s → Forall (λ o, is_byte (default 0 o)) (keys s) →
  let '(r, s') := simu_rs232_recv_byte key s in
  keys s' = tail (keys s) ∧ lent t f s' ∧
  match default None (head (keys s)) with
  | None => r = Some (0, key)
  | Some ch => terminal s' = t ∧ file_flags s' = f ∧ termios_cnf s' = 0 ∧
      r = (if ch =? 3 then None else Some (if ch =? 0 then (0, key) else (1, key_of ch)))
  end.
Proof.
  intros Hl Hk. apply peek_setup_lent in Hl as [Hl Hc].
  assert (keys (peek_setup s) = keys s) as Hks by (unfold peek_setup; by destruct (truth (termios_cnf s))).
  unfold simu_rs232_recv_byte, _peek_input, getchar. rewrite Hks.
  unfold lent in Hl |- *. rewrite Hc in Hl. destruct Hl as (Ho & Hof & Ht & Hf).
  destruct (keys s) as [|[ch|] ks]; cbn [default head tail option_map id];
    [by cbn; rewrite Hc| |by cbn; rewrite Hc].
  apply Forall_cons in Hk as [Hb _]. unfold is_byte in Hb; cbn in Hb. unfold key_of.
  assert (truth (swrap 8 ch) = negb (ch =? 0) ∧ u8 (swrap 8 ch) = ch) as [Hz Hu].
  { unfold truth, swrap, wrap. change (2 ^ (8 - 1)) with 128. change (2 ^ 8) with 256.
    split; [|rewrite Zminus_mod_idemp_l; rewrite Z.mod_small; lia].
    assert ((ch + 128) `mod` 256 - 128 = if ch <? 128 then ch else ch - 256) as ->.
    { destruct (Z.ltb_spec ch 128); [rewrite Z.mod_small; lia|].
      rewrite <-(Z_mod_plus_full _ (-1)), Z.mod_small by lia. lia. }
    f_equal. destruct (Z.ltb_spec ch 128); [done|]. destruct (Z.eqb_spec (ch - 256) 0), (Z.eqb_spec ch 0); lia. }
  destruct (Z.eqb_spec ch 0xA) as [->|]; [by cbn; rewrite Ho, Hof|].
  destruct (Z.eqb_spec ch 0x7f) as [->|]; [by cbn; rewrite Ho, Hof|].
  destruct (Z.eqb_spec ch 3) as [->|]; [by cbn; rewrite Ho, Hof|].
  cbn [terminal file_flags termios_cnf keys]. rewrite Hz, Hu, Ho, Hof.
  change (truth 0) with false. by destruct (ch =? 0).
Qed.

Lemma terminal_given_back_witness :
  let user := mk_termios 35387 [1; 2] in
  let s := mk_simu 1 2 user 2050 (raw user) [Some 10] in
  simu_rs232_recv_byte 99 s = (Some (1, 13), mk_simu 0 2 user 2 user []) ∧
  lent user 2 (snd (simu_rs232_recv_byte 99 s)).
Proof.
  intros user s. split; [reflexivity|].
  pose proof (terminal_given_back user 2 99 s) as H.
  destruct H as (_ & H & _); [repeat split; reflexivity|repeat constructor; vm_compute; congruence|].
  exact H.
Defined.

End Simu.
