(* ===== verification/Console.v ===== *)
(** * The serial console

    src/mipos/mipos_console.{h,c}: a receiver task that edits a command line
    and runs commands, and a sender task that prints messages from a queue.
    The build is the 64-bit simulator.  Bytes put on the serial line are
    collected in [serial]; command callbacks of the application, the C
    library's %p and what other tasks do while the caller sleeps are
    parameters.  Arguments of commands are offsets into the line buffer. *)

From S2P Require Import Prelude Bytes Cstdio Kernel Queue Memory.

Definition RS232_TX_QUEUE_LEN : Z := 8.
Definition RS232_TX_BUF_LEN : Z := 80.
Definition RS232_RX_BUF_LEN : Z := 32.
Definition CONSOLE_FLG_ECHO : Z := 1.
Definition CONSOLE_TX_CRLF : Z := 2.
Definition CONSOLE_MAX_ARGS_COUNT : Z := 8.

Definition crlf : list Z := [13; 10].
Definition MIPOS_STR_VER : list Z :=
  str "mipOS v.2.0 - (c) 2005-2024 antonino.calderone@gmail.com".

(** ** Data *)

(** [mipos_console_cmd_t]; [cmd_exec] as a value. *)
Inductive command := CHelp | CVer | CDump | CPatch | CPs | CTaskdbg | CUser (n : Z).
Record mipos_console_cmd_t := mk_cmd {
  cmd_str : list Z;
  cmd_exec : command;
  cmd_help : list Z;
}.

Definition mipos_cmd_list : list mipos_console_cmd_t := [
  mk_cmd (str "help") CHelp (str "help - shows this list");
  mk_cmd (str "ver") CVer (str "ver - shows mipOS version");
  mk_cmd (str "dump") CDump (str "dump [<a>,[<c>,[<b>]] - dump a memory area");
  mk_cmd (str "patch") CPatch (str "patch <a> <b> - set a byte <b> at address <a>");
  mk_cmd (str "ps") CPs (str "ps - shows the list of tasks");
  mk_cmd (str "freeze") CTaskdbg (str "freeze <tid> - freezes a task");
  mk_cmd (str "unfreeze") CTaskdbg (str "unfreeze <tid> - unfreezes a task");
  mk_cmd (str "delete") CTaskdbg (str "delete <tid> - delete a task");
  mk_cmd (str "signal") CTaskdbg (str "signal <tid> <signum> - set a signal")
].

(** [msg_t] *)
Record msg_t := mk_msg {
  buffer : list Z;
  len : Z;
}.

(** The static variables of the file, the kernel, the memory the commands
    work on, and the bytes sent so far. *)
Record console := mk_console {
  end_line_char : Z;
  console_flags : Z;
  console_prompt : option (list Z);
  rs232_tx_queue : mipos_queue_t;
  rs232_tx_buf_pool : list msg_t;
  rs232_tx_msg_idx : Z;
  rs232_rx_buf : list Z;
  rs232_rx_buf_idx : Z;
  registered_cmd_list : option (list mipos_console_cmd_t);
  con_kernel : mipos_kernel_t;
  con_memory : mem;
  serial : list Z;
}.

Definition set_tx (q : mipos_queue_t) (pool : list msg_t) (idx : Z) (k : mipos_kernel_t)
    (s : console) : console :=
  mk_console (end_line_char s) (console_flags s) (console_prompt s) q pool idx (rs232_rx_buf s)
    (rs232_rx_buf_idx s) (registered_cmd_list s) k (con_memory s) (serial s).
Definition set_rx (buf : list Z) (idx : Z) (s : console) : console :=
  mk_console (end_line_char s) (console_flags s) (console_prompt s) (rs232_tx_queue s)
    (rs232_tx_buf_pool s) (rs232_tx_msg_idx s) buf idx (registered_cmd_list s) (con_kernel s)
    (con_memory s) (serial s).
Definition set_con_kernel (k : mipos_kernel_t) (s : console) : console :=
  set_tx (rs232_tx_queue s) (rs232_tx_buf_pool s) (rs232_tx_msg_idx s) k s.
Definition set_con_memory (m : mem) (s : console) : console :=
  mk_console (end_line_char s) (console_flags s) (console_prompt s) (rs232_tx_queue s)
    (rs232_tx_buf_pool s) (rs232_tx_msg_idx s) (rs232_rx_buf s) (rs232_rx_buf_idx s)
    (registered_cmd_list s) (con_kernel s) m (serial s).
Definition set_serial (l : list Z) (s : console) : console :=
  mk_console (end_line_char s) (console_flags s) (console_prompt s) (rs232_tx_queue s)
    (rs232_tx_buf_pool s) (rs232_tx_msg_idx s) (rs232_rx_buf s) (rs232_rx_buf_idx s)
    (registered_cmd_list s) (con_kernel s) (con_memory s) l.

Definition mipos_console_register_cmd_list (l : list mipos_console_cmd_t) (s : console) : console :=
  mk_console (end_line_char s) (console_flags s) (console_prompt s) (rs232_tx_queue s)
    (rs232_tx_buf_pool s) (rs232_tx_msg_idx s) (rs232_rx_buf s) (rs232_rx_buf_idx s)
    (Some l) (con_kernel s) (con_memory s) (serial s).

(** ** Characters in and out *)

(** [polls] are the results of successive polls of the line, [None] for no
    byte yet, each followed by a yield; the byte, the yields and the rest. *)
Fixpoint mipos_console_get_char (polls : list (option Z)) : option (Z * nat * list (option Z)) :=
  match polls with
  | [] => None
  | Some key :: rest => Some (key, 0%nat, rest)
  | None :: rest =>
      match mipos_console_get_char rest with
      | Some (key, n, rest) => Some (key, S n, rest)
      | None => None
      end
  end.

Definition bsp_putc (c : Z) (s : console) : console := set_serial (serial s ++ [c]) s.

Definition mipos_console_put_char (c : Z) (s : console) : console :=
  if (c =? end_line_char s) && (console_flags s &? CONSOLE_TX_CRLF)
  then bsp_putc 10 (bsp_putc 13 s) else bsp_putc c s.

(** Of a string without its terminator. *)
Definition mipos_puts (buf : list Z) (s : console) : console := foldl (λ s c, bsp_putc c s) s buf.

(** ** Splitting a command line *)

Definition _word_sep (ch : Z) : bool := (ch =? 32) || (ch =? 9) || (ch =? 13) || (ch =? 10).

(** The first loop of [_word_boundary]: separators become zeros.  The number
    of separators, or [None] where the function returns -1, the buffer and
    the position reached. *)
Fixpoint wb_skip (fuel : nat) (buf : list Z) (s pos len : Z) : res (option Z * list Z * Z) :=
  match fuel with
  | O => Fault OutOfFuel
  | S fuel =>
      c ← of_lookup (buf !! Z.to_nat s);
      if _word_sep c then
        let buf := <[Z.to_nat s := 0]> buf in
        if len <=? pos + 1 then Ok (None, buf, s + 1) else wb_skip fuel buf (s + 1) (pos + 1) len
      else Ok (Some pos, buf, s)
  end.

(** The second loop: the length of the word at [s]. *)
Fixpoint wb_word (fuel : nat) (buf : list Z) (s word_len : Z) : res Z :=
  match fuel with
  | O => Fault OutOfFuel
  | S fuel =>
      c ← of_lookup (buf !! Z.to_nat s);
      if truth c && negb (_word_sep c) then wb_word fuel buf (s + 1) (word_len + 1) else Ok word_len
  end.

(** The position of the next word relative to [s] ([None] for -1), its length
    and the buffer. *)
Definition _word_boundary (buf : list Z) (s len : Z) : res (option Z * Z * list Z) :=
  '(pos, buf, s) ← wb_skip (S (Z.to_nat len)) buf s 0 len;
  match pos with
  | None => Ok (None, 0, buf)
  | Some pos => n ← wb_word (S (length buf)) buf s 0; Ok (Some pos, n, buf)
  end.

(** The loop of [mipos_split_command]; [argv] has room for
    [CONSOLE_MAX_ARGS_COUNT] pointers, and [max_args] is not looked at.  Each
    round adds an argument, so nine rounds end the loop or the array. *)
Fixpoint split_loop (fuel : nat) (buf : list Z) (cmd_line cmd_line_len pos : Z) (argv : list Z)
    : res (list Z * list Z) :=
  match fuel with
  | O => Fault OutOfFuel
  | S fuel =>
      '(word_pos, word_len, buf) ← _word_boundary buf cmd_line cmd_line_len;
      match word_pos with
      | None => Ok (argv, buf)
      | Some word_pos =>
          if CONSOLE_MAX_ARGS_COUNT <=? Z.of_nat (length argv) then Fault OutOfBounds else
          let argv := argv ++ [cmd_line + word_pos] in
          let pos := pos + (word_pos + word_len) in
          let cmd_line := cmd_line + pos in
          let cmd_line_len := cmd_line_len - pos in
          if 0 <? cmd_line_len then split_loop fuel buf cmd_line cmd_line_len pos argv
          else Ok (argv, buf)
      end
  end.

(** The arguments, as offsets, and the buffer. *)
Definition mipos_split_command (buf : list Z) (cmd_line_len : Z) : res (list Z * list Z) :=
  split_loop (S (Z.to_nat CONSOLE_MAX_ARGS_COUNT)) buf 0 cmd_line_len 0 [].

(** ** Sending *)

Definition mipos_console_send (buf : list Z) (n : Z) (s : console) : res (Z * console) :=
  if RS232_TX_QUEUE_LEN <=? mipos_q_count (rs232_tx_queue s) then Ok (0, s) else
  let n := if RS232_TX_BUF_LEN <? n then RS232_TX_BUF_LEN else n in
  let idx := rs232_tx_msg_idx s in
  m ← of_lookup (rs232_tx_buf_pool s !! Z.to_nat idx);
  if Z.of_nat (length buf) <? n then Fault OutOfBounds else
  let m := mk_msg (take (Z.to_nat n) buf ++ drop (Z.to_nat n) (buffer m)) n in
  let pool := <[Z.to_nat idx := m]> (rs232_tx_buf_pool s) in
  '(_, (q, k)) ← mipos_q_send idx (rs232_tx_queue s, con_kernel s);
  Ok (n, set_tx q pool ((idx + 1) `mod` RS232_TX_QUEUE_LEN) k s).

Definition mipos_console_send_null_str (buf : list Z) (s : console) : res (Z * console) :=
  mipos_console_send buf (Z.of_nat (length buf)) s.

(** The printing loop of [sender_task]: up to [n] bytes, up to a zero. *)
Fixpoint print_msg (n : nat) (buf : list Z) (s : console) : res console :=
  match n with
  | O => Ok s
  | S n =>
      match buf with
      | [] => Fault OutOfBounds
      | c :: buf => if c =? 0 then Ok s else print_msg n buf (mipos_console_put_char c s)
      end
  end.

(** The banner [sender_task] starts with, [mods] the lines of the optional
    modules and [date] the time of the build. *)
Definition sender_banner (date : list Z) (mods : list (list Z)) (s : console) : console :=
  let s := mipos_puts crlf s in
  let s := mipos_puts MIPOS_STR_VER s in
  let s := mipos_puts (str " console" ++ crlf) s in
  let s := mipos_puts (str "Compile date/time: " ++ date ++ str " - opt. mods:" ++ crlf) s in
  let s := mipos_puts (str "  mipos_console" ++ crlf) s in
  let s := foldl (λ s m, mipos_puts (m ++ crlf) s) s mods in
  match console_prompt s with Some p => mipos_puts p s | None => s end.

(** A round of the loop of [sender_task] ends with a message printed, waiting
    inside [mipos_q_receive], or asleep for 100 ms. *)
Inductive sender_outcome :=
  | SPrinted (s : console)
  | SSuspended (s : console)
  | SAsleep (s : console).

(** After [mipos_q_receive] returned [ret] and the item [x]; [sp] is the stack
    pointer. *)
Definition sender_got (sp ret : Z) (x : option Z) (s : console) : res sender_outcome :=
  if ret <=? 0 then Ok (SAsleep (set_con_kernel (mipos_tm_msleep 100 sp (con_kernel s)) s)) else
  item ← of_lookup x;
  m ← of_lookup (rs232_tx_buf_pool s !! Z.to_nat item);
  s ← print_msg (Z.to_nat (len m)) (buffer m) s;
  Ok (SPrinted s).

Definition with_queue (qk : qstate) (s : console) : console :=
  set_tx (fst qk) (rs232_tx_buf_pool s) (rs232_tx_msg_idx s) (snd qk) s.

Definition sender_round (sp : Z) (s : console) : res sender_outcome :=
  let bl := if mipos_q_count (rs232_tx_queue s) <=? 0 then 1 else 0 in
  o ← q_receive_enter true bl sp (rs232_tx_queue s, con_kernel s);
  match o with
  | RReturn ret x qk => sender_got sp ret x (with_queue qk s)
  | RSuspend qk => Ok (SSuspended (with_queue qk s))
  end.

(** ... and after the wait. *)
Definition sender_resumed (sp : Z) (s : console) : res sender_outcome :=
  '(ret, x, qk) ← q_receive_resumed (rs232_tx_queue s, con_kernel s);
  sender_got sp ret x (with_queue qk s).

(** ** The commands *)

Definition mipos_dbg_describe_state (st : Z) : list Z :=
  if st &? TASK_FROZEN then str "frozen"
  else if st =? TASK_NOT_RUNNING then str "not run"
  else if st =? TASK_READY then str "ready"
  else if st =? TASK_RUNNING then str "running"
  else if st =? TASK_SUSPENDED then str "suspend"
  else if st =? TASK_ZOMBIE then str "zombie"
  else str "unknown".

Definition show_command_list (l : list mipos_console_cmd_t) (s : console) : console :=
  foldl (λ s c, mipos_puts crlf (mipos_puts (cmd_help c) (mipos_puts [9] s))) s l.

Definition exec_help_command (s : console) : console :=
  let s := show_command_list mipos_cmd_list s in
  match registered_cmd_list s with Some l => show_command_list l s | None => s end.

Definition exec_ver_command (s : console) : console := mipos_puts crlf (mipos_puts MIPOS_STR_VER s).

(** [argv[i]], as a string. *)
Definition argument (argv : list Z) (i : nat) (s : console) : res (list Z) :=
  off ← of_lookup (argv !! i); cstr (drop (Z.to_nat off) (rs232_rx_buf s)).

Definition argc (argv : list Z) : Z := Z.of_nat (length argv).

(** The four characters of [b[i]], in the order of [mode]. *)
Definition dump_word (mode v : Z) : list Z :=
  let c := [u8 v; u8 (Z.shiftr v 8); u8 (Z.shiftr v 16); u8 (Z.shiftr v 24)] in
  if truth mode then reverse c else c.

Section commands.
(** [%p]; the commands of the application; what runs while the caller
    sleeps, up to its resumption. *)
Context (fmt_p : Z → list Z) (user_exec : Z → list Z → console → res console)
        (others : console → console).

(** The first loop of a row of [mem_dump] from column [col] on. *)
Fixpoint dump_hex (n : nat) (b i buf_len mode : Z) (s : console) : res console :=
  match n with
  | O => Ok s
  | S n =>
      if buf_len <=? i then dump_hex n b (i + 1) buf_len mode (mipos_puts (str "            ") s) else
      v ← load_le 4 (b + 4 * i) (con_memory s);
      dump_hex n b (i + 1) buf_len mode
        (mipos_puts (mjoin ((λ c, fmt_hex true 2 c ++ [32]) <$> dump_word mode v)) s)
  end.

(** The second loop: characters, of which those not above 31 as signed
    numbers print as dots. *)
Fixpoint dump_chars (n : nat) (b i buf_len mode : Z) (s : console) : res console :=
  match n with
  | O => Ok s
  | S n =>
      if buf_len <=? i then Ok s else
      v ← load_le 4 (b + 4 * i) (con_memory s);
      dump_chars n b (i + 1) buf_len mode
        (mipos_puts ((λ c, if 31 <? swrap 8 c then c else 46) <$> dump_word mode v) s)
  end.

Fixpoint dump_rows (n : nat) (row tot_rows b buf_len mode : Z) (s : console) : res console :=
  match n with
  | O => Ok s
  | S n =>
      let buf_index := row * 16 in
      let s := mipos_puts (fmt_p (b + 4 * buf_index) ++ [32]) s in
      s ← dump_hex 4 b buf_index buf_len mode s;
      s ← dump_chars 4 b buf_index buf_len mode s;
      let s := if tot_rows - 1 =? row then s else mipos_puts crlf s in
      dump_rows n (row + 1) tot_rows b buf_len mode s
  end.

(** [b] is an address, [buf_len] an unsigned number. *)
Definition mem_dump (b buf_len mode : Z) (s : console) : res console :=
  if buf_len =? 0 then Ok s else
  let tot_rows := Z.shiftr buf_len 4 + (if truth (Z.land buf_len 0xf) then 1 else 0) in
  s ← dump_rows (Z.to_nat tot_rows) 0 tot_rows b buf_len mode s;
  Ok (mipos_puts crlf s).

Definition exec_dump_command (argv : list Z) (s : console) : res console :=
  let mode := if 3 <? argc argv then 1 else 0 in
  page ← (if 2 <? argc argv then atoi <$> argument argv 2 s else Ok 64);
  addr ← (if 1 <? argc argv then a ← argument argv 1 s; Ok (default 0 (sscanf_hex 64 a)) else Ok 0);
  if addr =? 0 then Ok s else mem_dump addr (u32 page) mode s.

Definition exec_patch_command (argv : list Z) (s : console) : res console :=
  if negb (argc argv =? 3) then Ok (mipos_puts (str "Wrong number of parameters" ++ crlf) s) else
  a ← argument argv 1 s;
  v ← argument argv 2 s;
  let addr := default 0 (sscanf_hex 64 a) in
  let value := default 0 (sscanf_hex 32 v) in
  _ ← of_lookup (con_memory s !! addr);
  Ok (set_con_memory (<[addr := Z.land value 0xff]> (con_memory s)) s).

Definition exec_taskdbg_command (argv : list Z) (s : console) : res console :=
  tid ← (if 1 <? argc argv then atoi <$> argument argv 1 s else Ok 0);
  if (0 <? tid) && (tid <? MIPOS_MAX_TASKS_COUNT) then
    a0 ← argument argv 0 s;
    let on_kernel f := Ok (set_con_kernel (f (con_kernel s)) s) in
    match a0 with
    | 117 :: _ => on_kernel (mipos_t_unfreeze tid)
    | 102 :: _ => on_kernel (mipos_t_freeze tid)
    | 100 :: _ => on_kernel (mipos_t_delete tid)
    | 115 :: _ =>
        if 2 <? argc argv then
          signum ← atoi <$> argument argv 2 s;
          on_kernel (mipos_t_notify_signal tid signum)
        else Ok (mipos_puts ([13] ++ str "Missing second parameter" ++ [13]) s)
    | _ => Ok s
    end
  else Ok (mipos_puts ([13] ++ str "Missing first parameter" ++ [13]) s).

(** The lines [exec_ps_command] prints of a task. *)
Definition ps_task (id : Z) (t : mipos_task_t) : list Z :=
  let top := u64 (task_stack t + stack_size t - 8) in
  str "pid: " ++ fmt_hex false 2 id ++ [32] ++
  fmt_s8 (str (task_name t)) ++ str "@" ++
  fmt_p (entry_point t) ++ [32] ++
  str "psig:" ++ fmt_hex false 8 (signal_pending t) ++ [32] ++
  str "wsig:" ++ fmt_hex false 8 (signal_waiting t) ++ [32] ++
  str "status:" ++ fmt_dec 2 (status t) ++ [32] ++ fmt_s8 (mipos_dbg_describe_state (status t)) ++ [32] ++
  str "Stack:" ++ fmt_p top ++ [32] ++
  str "SP=" ++ fmt_p (process_stack_pointer t) ++ [32] ++
  str "used (Kb)=" ++ fmt_dec 4 (u64 (top - process_stack_pointer t) / 1024) ++ str "/" ++
  fmt_dec 4 (stack_size t / 1024) ++ crlf.

Fixpoint ps_loop (n : nat) (id sp : Z) (s : console) : res console :=
  match n with
  | O => Ok s
  | S n =>
      t ← of_lookup (task_table (con_kernel s) !! Z.to_nat id);
      if truth (entry_point t) then
        let s := mipos_puts (ps_task id t) s in
        ps_loop n (id + 1) sp (others (set_con_kernel (mipos_tm_msleep 1 sp (con_kernel s)) s))
      else ps_loop n (id + 1) sp s
  end.

Definition exec_ps_command (sp : Z) (s : console) : res console :=
  ps_loop (Z.to_nat (MIPOS_MAX_TASKS_COUNT - 1)) 1 sp s.

Definition run_command (c : command) (sp : Z) (argv : list Z) (s : console) : res console :=
  match c with
  | CHelp => Ok (exec_help_command s)
  | CVer => Ok (exec_ver_command s)
  | CDump => exec_dump_command argv s
  | CPatch => exec_patch_command argv s
  | CPs => exec_ps_command sp s
  | CTaskdbg => exec_taskdbg_command argv s
  | CUser n => user_exec n argv s
  end.

(** The index of the command run, from [index_of_cmd] on, or -1. *)
Fixpoint try_exec_cmd (index_of_cmd : Z) (cmds : list mipos_console_cmd_t) (sp : Z)
    (argv : list Z) (s : console) : res (Z * console) :=
  match cmds with
  | [] => Ok (-1, s)
  | c :: cmds =>
      hit ← (if 0 <? argc argv
             then a ← argument argv 0 s; Ok (bool_decide (a = cmd_str c)) else Ok false);
      if (hit : bool) then s ← run_command (cmd_exec c) sp argv s; Ok (index_of_cmd, s)
      else try_exec_cmd (index_of_cmd + 1) cmds sp argv s
  end.

(** ** The receiver *)

(** A command line ended: [recv_cbk] is the callback of the configuration,
    which gets the line and its length. *)
Definition run_line (recv_cbk : option (Z → console → res console)) (sp : Z) (s : console)
    : res console :=
  let cmd_len := rs232_rx_buf_idx s in
  s ← (match recv_cbk with Some f => f cmd_len s | None => Ok s end);
  '(argv, buf) ← mipos_split_command (rs232_rx_buf s) cmd_len;
  let s := set_rx buf (rs232_rx_buf_idx s) s in
  '(r, s) ← try_exec_cmd 0 mipos_cmd_list sp argv s;
  s ← (if 0 <=? r then Ok s else
       match registered_cmd_list s with
       | Some l => '(_, s) ← try_exec_cmd 0 l sp argv s; Ok s
       | None => Ok s
       end);
  s ← (match console_prompt s with
       | Some p => '(_, s) ← mipos_console_send_null_str p s; Ok s
       | None => Ok s
       end);
  Ok (set_rx (replicate (Z.to_nat RS232_RX_BUF_LEN) 0) 0 s).

(** The body of the loop of [recvr_task] for the character [c]. *)
Definition recvr_step (recv_cbk : option (Z → console → res console)) (sp c : Z) (s : console)
    : res console :=
  if c =? 0 then Ok s else
  let s := if console_flags s &? CONSOLE_FLG_ECHO
           then if (rs232_rx_buf_idx s <? 1) && (c =? 8) then s else mipos_console_put_char c s
           else s in
  s ← (if c =? u8 (end_line_char s) then run_line recv_cbk sp s else Ok s);
  let idx := rs232_rx_buf_idx s in
  if (31 <? c) && (idx <? RS232_RX_BUF_LEN) then
    _ ← of_lookup (rs232_rx_buf s !! Z.to_nat idx);
    Ok (set_rx (<[Z.to_nat idx := c]> (rs232_rx_buf s)) (idx + 1) s)
  else if (c =? 8) && (0 <? idx) then
    let s := mipos_console_put_char 8 (mipos_console_put_char 32 s) in
    _ ← of_lookup (rs232_rx_buf s !! Z.to_nat (idx - 1));
    Ok (set_rx (<[Z.to_nat (idx - 1) := 0]> (rs232_rx_buf s)) (idx - 1) s)
  else Ok s.

(** [recvr_task] on the characters that arrive. *)
Fixpoint recvr_loop (recv_cbk : option (Z → console → res console)) (sp : Z) (cs : list Z)
    (s : console) : res console :=
  match cs with
  | [] => Ok s
  | c :: cs => s ← recvr_step recv_cbk sp c s; recvr_loop recv_cbk sp cs s
  end.

Definition recvr_task (recv_cbk : option (Z → console → res console)) (sp : Z) (cs : list Z)
    (s : console) : res console :=
  recvr_loop recv_cbk sp cs (set_rx (rs232_rx_buf s) 0 s).
End commands.

(** ** Starting the console *)

(** [mipos_console_init_t] *)
Record mipos_console_init_t := mk_init {
  init_recv_cbk : Z;
  init_flags : Z;
  init_prompt : option (list Z);
  init_end_line_char : Z;
}.

(** [tx] and [rx] are the tasks' entry points with their stacks and sizes. *)
Definition mipos_console_init (config : mipos_console_init_t) (tx rx : Z * Z * Z) (s : console)
    : res console :=
  q ← mipos_q_init (item (rs232_tx_queue s)) RS232_TX_QUEUE_LEN;
  let '(tx_entry, tx_stack, tx_size) := tx in
  let '(rx_entry, rx_stack, rx_size) := rx in
  let '(_, k) := mipos_t_create "cnsltx" tx_entry 0 tx_stack tx_size MIPOS_NO_RT (con_kernel s) in
  let '(_, k) := mipos_t_create "cnslrx" rx_entry (init_recv_cbk config) rx_stack rx_size MIPOS_NO_RT k in
  Ok (mk_console (init_end_line_char config) (init_flags config) (init_prompt config) q
        (rs232_tx_buf_pool s) (rs232_tx_msg_idx s) (rs232_rx_buf s) (rs232_rx_buf_idx s)
        (registered_cmd_list s) k (con_memory s) (serial s)).
