(* ===== verification/ConsoleProps.v ===== *)
(** * Properties of the console

    The receiver keeps the edited line; splitting a line stays within the
    line and the argument array; messages wait intact until they are printed;
    and the argument that splitting loses. *)

From S2P Require Import Prelude Bytes Cstdio Kernel KernelInv Machine Queue Memory Console.

(** ** Splitting *)

(** A line of [n] characters in the buffer, followed by a zero. *)
Record line_in (buf : list Z) (n : Z) : Prop := {
  li_n : 0 ≤ n;
  li_end : buf !! Z.to_nat n = Some 0;
}.

(** What splitting may do to the buffer: put zeros before position [s]. *)
Definition only_zeroed (s : Z) (buf buf' : list Z) : Prop :=
  length buf' = length buf ∧
  (∀ i, s ≤ Z.of_nat i → buf' !! i = buf !! i) ∧
  (∀ i, buf' !! i = buf !! i ∨ buf' !! i = Some 0).

Lemma only_zeroed_refl s buf : only_zeroed s buf buf.
Proof. split_and!; auto. Qed.

Lemma only_zeroed_trans s1 s2 b1 b2 b3 :
  only_zeroed s1 b1 b2 → only_zeroed s2 b2 b3 → s1 ≤ s2 → only_zeroed s2 b1 b3.
Proof.
  intros (L1 & S1 & Z1) (L2 & S2 & Z2) Hs. split_and!; [congruence| |].
  - intros i Hi. rewrite S2, S1 by lia. done.
  - intros i. destruct (Z2 i) as [->|]; [apply Z1|by right].
Qed.

Lemma only_zeroed_insert s buf :
  0 ≤ s → (Z.to_nat s < length buf)%nat → only_zeroed (s + 1) buf (<[Z.to_nat s := 0]> buf).
Proof.
  intros Hs Hlt. split_and!; [apply length_insert| |].
  - intros i Hi. apply list_lookup_insert_ne. lia.
  - intros i. destruct (decide (i = Z.to_nat s)) as [->|]; [right; by apply list_lookup_insert_eq|left].
    by apply list_lookup_insert_ne.
Qed.

(** The first loop stops within the line. *)
Lemma wb_skip_ok fuel buf s pos len n :
  line_in buf n → 0 ≤ s → s + (len - pos) = n → 0 < len - pos < Z.of_nat fuel →
  ∃ r buf' s', wb_skip fuel buf s pos len = Ok (r, buf', s') ∧ only_zeroed s' buf buf' ∧ s ≤ s' ≤ n ∧
    match r with
    | Some p => p = pos + (s' - s) ∧ s' < n ∧ ∃ c, buf !! Z.to_nat s' = Some c ∧ _word_sep c = false
    | None => True
    end.
Proof.
  revert buf s pos. induction fuel as [|fuel IH]; intros buf s pos [Hn He] Hs Hend Hpos; [lia|].
  cbn [wb_skip]. pose proof (lookup_lt_Some _ _ _ He) as Hlen.
  destruct (lookup_lt_is_Some_2 buf (Z.to_nat s)) as [c Hc]; [lia|].
  rewrite Hc. simpl (of_lookup _). rewrite bind_Ok.
  destruct (_word_sep c) eqn:Hsep; cycle 1.
  { exists (Some pos), buf, s. split_and!; [done|apply only_zeroed_refl|lia|lia|lia|lia|]. by exists c. }
  pose proof (only_zeroed_insert s buf Hs ltac:(lia)) as Hz.
  destruct (Z.leb_spec len (pos + 1)) as [Hle|Hgt].
  { exists None, (<[Z.to_nat s := 0]> buf), (s + 1). split_and!; [done|done|lia|lia|done]. }
  destruct (IH (<[Z.to_nat s := 0]> buf) (s + 1) (pos + 1)) as (r & buf' & s' & Hr & Hz' & Hs' & Hm); try lia.
  { split; [done|]. by rewrite (proj1 (proj2 Hz)) by lia. }
  exists r, buf', s'. split; [done|]. split; [eapply only_zeroed_trans; [exact Hz|exact Hz'|lia]|]. split; [lia|].
  destruct r as [p|]; [|done]. destruct Hm as (-> & Hlt & c' & Hc' & Hsep'). split_and!; [lia|done|].
  exists c'. split; [|done]. by rewrite <-(proj1 (proj2 Hz)) by lia.
Qed.

(** The second loop stops at the end of the line at the latest. *)
Lemma wb_word_ok fuel buf s k n :
  line_in buf n → 0 ≤ s ≤ n → n - s < Z.of_nat fuel →
  ∃ w, wb_word fuel buf s k = Ok (k + w) ∧ 0 ≤ w ≤ n - s ∧
    (∀ c, buf !! Z.to_nat s = Some c → c ≠ 0 → _word_sep c = false → 0 < w).
Proof.
  intros [Hn He]. revert s k. induction fuel as [|fuel IH]; intros s k Hs Hf; [lia|].
  cbn [wb_word]. pose proof (lookup_lt_Some _ _ _ He).
  destruct (lookup_lt_is_Some_2 buf (Z.to_nat s)) as [c Hc]; [lia|].
  rewrite Hc. simpl (of_lookup _). rewrite bind_Ok.
  destruct (truth c && negb (_word_sep c)) eqn:Hb.
  - assert (s ≠ n) as Hne by (intros ->; simplify_eq; done).
    destruct (IH (s + 1) (k + 1)) as (w & Hw & Hwb & _); [lia|lia|].
    exists (w + 1). rewrite Hw. split_and!; [f_equal; lia|lia|lia|]. intros. lia.
  - exists 0. split_and!; [f_equal; lia|lia|lia|]. intros c' [= <-] Hc0 Hsep.
    apply truth_true in Hc0. by rewrite Hc0, Hsep in Hb.
Qed.

Lemma word_boundary_ok buf s len n :
  line_in buf n → 0 ≤ s → s + len = n → 0 < len →
  (∀ i, s ≤ Z.of_nat i < n → ∃ c, buf !! i = Some c ∧ c ≠ 0) →
  ∃ r w buf', _word_boundary buf s len = Ok (r, w, buf') ∧
    match r with
    | Some p => 0 ≤ p ∧ 0 < w ∧ s + p + w ≤ n ∧ only_zeroed (s + p) buf buf'
    | None => True
    end.
Proof.
  intros Hl Hs Hend Hlen Hnz. unfold _word_boundary.
  destruct (wb_skip_ok (S (Z.to_nat len)) buf s 0 len n) as (r & buf' & s' & -> & Hz & Hs' & Hm);
    [done|lia..|].
  rewrite bind_Ok. destruct r as [p|]; [|by exists None, 0, buf'].
  destruct Hm as (-> & Hlt & c & Hc & Hsep).
  assert (line_in buf' n) as Hl'.
  { split; [lia|]. rewrite (proj1 (proj2 Hz)) by lia. apply Hl. }
  destruct (wb_word_ok (S (length buf')) buf' s' 0 n) as (w & -> & Hw & Hpos); [done|lia| |].
  { pose proof (lookup_lt_Some _ _ _ (li_end _ _ Hl')). lia. }
  rewrite bind_Ok. exists (Some (0 + (s' - s))), (0 + w), buf'. split; [done|].
  assert (0 < w) as Hw0.
  { apply (Hpos c); [by rewrite (proj1 (proj2 Hz)) by lia| |done].
    destruct (Hnz (Z.to_nat s')) as (c' & Hc' & Hne); [lia|]. congruence. }
  split_and!; try lia. by replace (s + (0 + (s' - s))) with s' by lia.
Qed.

(** Each round moves the line on by all the characters taken so far, so the
    rounds get longer and longer. *)
Lemma split_loop_ok fuel buf off len pos argv n :
  line_in buf n → n < RS232_RX_BUF_LEN → 0 ≤ off → off + len = n → 0 < len →
  (∀ i, off ≤ Z.of_nat i < n → ∃ c, buf !! i = Some c ∧ c ≠ 0) →
  let k := Z.of_nat (length argv) in
  k ≤ pos → k * (k + 1) ≤ 2 * off → k + Z.of_nat fuel = 9 →
  Forall (λ o, 0 ≤ o ≤ n) argv →
  ∃ argv' buf', split_loop fuel buf off len pos argv = Ok (argv', buf') ∧
    Z.of_nat (length argv') ≤ CONSOLE_MAX_ARGS_COUNT ∧ Forall (λ o, 0 ≤ o ≤ n) argv' ∧
    line_in buf' n.
Proof.
  change RS232_RX_BUF_LEN with 32. change CONSOLE_MAX_ARGS_COUNT with 8. revert buf off len pos argv.
  induction fuel as [|fuel IH]; intros buf off len pos argv Hl Hn Hoff Hend Hlen Hnz k Hpos Hk Hf Hall; [nia|].
  cbn [split_loop]. unfold _word_boundary.
  destruct (wb_skip_ok (S (Z.to_nat len)) buf off 0 len n) as (r0 & b0 & s0 & Hskip & Hz0 & Hs0 & _);
    [done|lia..|].
  destruct (word_boundary_ok buf off len n) as (r & w & buf' & Hwb & Hm); [done|lia..|done|].
  unfold _word_boundary in Hwb. rewrite Hwb, bind_Ok. destruct r as [p|].
  - destruct Hm as (Hp & Hw & Hle & Hz). fold k. change CONSOLE_MAX_ARGS_COUNT with 8.
    replace (8 <=? k) with false by (symmetry; apply Z.leb_gt; nia).
    assert (Forall (λ o, 0 ≤ o ≤ n) (argv ++ [off + p])) as Hall'
      by (apply Forall_app; split; [done|]; apply Forall_singleton; lia).
    assert (line_in buf' n) as Hl'.
    { split; [apply Hl|]. rewrite (proj1 (proj2 Hz)) by lia. apply Hl. }
    destruct (Z.ltb_spec 0 (len - (pos + (p + w)))) as [Hmore|Hdone].
    + apply IH; try done; try lia.
      * intros i Hi. rewrite (proj1 (proj2 Hz)) by lia. apply Hnz. lia.
      * rewrite length_app. simpl. lia.
      * rewrite length_app, Nat2Z.inj_add. simpl. fold k. nia.
      * rewrite length_app, Nat2Z.inj_add. simpl. fold k. lia.
    + eexists _, _. split; [reflexivity|]. split_and!; try done.
      rewrite length_app, Nat2Z.inj_add. simpl. fold k. nia.
  - eexists _, _. split; [reflexivity|]. split_and!; [fold k; nia|done|].
    rewrite Hskip, bind_Ok in Hwb. destruct r0 as [p0|].
    + by destruct (wb_word _ _ _ _) as [?|?]; rewrite ?bind_Ok in Hwb.
    + injection Hwb as <- <-. split; [apply Hl|]. rewrite (proj1 (proj2 Hz0)) by lia. apply Hl.
Qed.

(** The buffer that holds the line [l] and zeros behind it. *)
Definition line_buffer (l : list Z) : list Z :=
  l ++ replicate (Z.to_nat RS232_RX_BUF_LEN - length l) 0.

Lemma line_buffer_in l : Z.of_nat (length l) < RS232_RX_BUF_LEN → line_in (line_buffer l) (Z.of_nat (length l)).
Proof.
  intros Hl. unfold RS232_RX_BUF_LEN in Hl. split; [lia|]. unfold line_buffer.
  rewrite Nat2Z.id, lookup_app_r, Nat.sub_diag by done. apply lookup_replicate. split; [done|].
  unfold RS232_RX_BUF_LEN. lia.
Qed.

Lemma line_in_string buf n o : line_in buf n → 0 ≤ o ≤ n → ∃ w, cstr (drop (Z.to_nat o) buf) = Ok w.
Proof.
  intros [Hn He] Ho. apply (cstr_zero _ (Z.to_nat (n - o))). rewrite lookup_drop.
  by replace (Z.to_nat o + Z.to_nat (n - o))%nat with (Z.to_nat n) by lia.
Qed.

(** C39: splitting a line of up to 31 characters always ends, finds at most
    the eight arguments the caller has room for although the limit it is
    given is not looked at, and every argument is a terminated string inside
    the buffer. *)
Theorem split_command_in_bounds l :
  Z.of_nat (length l) < RS232_RX_BUF_LEN → Forall (λ c, c ≠ 0) l →
  ∃ argv buf', mipos_split_command (line_buffer l) (Z.of_nat (length l)) = Ok (argv, buf') ∧
    Z.of_nat (length argv) ≤ CONSOLE_MAX_ARGS_COUNT ∧
    Forall (λ o, 0 ≤ o ≤ Z.of_nat (length l) ∧ ∃ w, cstr (drop (Z.to_nat o) buf') = Ok w) argv.
Proof.
  intros Hlen Hnz. pose proof (line_buffer_in l Hlen) as Hl.
  assert (∀ argv buf', line_in buf' (Z.of_nat (length l)) → Forall (λ o, 0 ≤ o ≤ Z.of_nat (length l)) argv →
    Forall (λ o, 0 ≤ o ≤ Z.of_nat (length l) ∧ ∃ w, cstr (drop (Z.to_nat o) buf') = Ok w) argv) as Hstr.
  { intros argv buf' Hl' Hall. eapply Forall_impl; [exact Hall|]. intros o Ho.
    split; [done|]. by eapply line_in_string. }
  destruct l as [|c0 l0]; [eexists [0], _; split; [reflexivity|]; split; [done|]; by apply Hstr; [|repeat constructor]|].
  set (l := c0 :: l0) in *. unfold mipos_split_command.
  destruct (split_loop_ok 9 (line_buffer l) 0 (Z.of_nat (length l)) 0 [] (Z.of_nat (length l)))
    as (argv & buf' & Hr & Hc & Hall & Hl'); try done; try (simpl; lia).
  - intros i Hi. destruct (lookup_lt_is_Some_2 l i) as [c Hc]; [lia|]. exists c. unfold line_buffer.
    rewrite lookup_app_l by lia. split; [done|]. by eapply (proj1 (Forall_lookup _ _) Hnz).
  - exists argv, buf'. split_and!; [exact Hr|done|]. by apply Hstr.
Qed.

(** ** Editing *)

(** What a character does to the line typed so far. *)
Definition edit (l : list Z) (c : Z) : list Z :=
  if (31 <? c) && (Z.of_nat (length l) <? RS232_RX_BUF_LEN) then l ++ [c]
  else if c =? 8 then take (length l - 1) l else l.

Record rx_holds (s : console) (l : list Z) : Prop := {
  rh_buf : rs232_rx_buf s = line_buffer l;
  rh_idx : rs232_rx_buf_idx s = Z.of_nat (length l);
  rh_len : Z.of_nat (length l) ≤ RS232_RX_BUF_LEN;
}.

Lemma put_char_rx c s :
  rs232_rx_buf (mipos_console_put_char c s) = rs232_rx_buf s ∧
  rs232_rx_buf_idx (mipos_console_put_char c s) = rs232_rx_buf_idx s ∧
  end_line_char (mipos_console_put_char c s) = end_line_char s ∧
  con_kernel (mipos_console_put_char c s) = con_kernel s.
Proof. unfold mipos_console_put_char. by case_if. Qed.

Lemma put_char_holds c s l : rx_holds s l → rx_holds (mipos_console_put_char c s) l.
Proof. destruct (put_char_rx c s) as (H1 & H2 & _). intros []. split; congruence. Qed.

Lemma line_buffer_length l : Z.of_nat (length l) ≤ RS232_RX_BUF_LEN → length (line_buffer l) = 32%nat.
Proof. unfold line_buffer, RS232_RX_BUF_LEN. intros. rewrite length_app, length_replicate. lia. Qed.

Lemma line_buffer_push l c :
  Z.of_nat (length l) < RS232_RX_BUF_LEN → <[length l := c]> (line_buffer l) = line_buffer (l ++ [c]).
Proof.
  unfold line_buffer. change RS232_RX_BUF_LEN with 32. intros Hl. rewrite insert_app_r_alt by done.
  rewrite Nat.sub_diag, length_app. cbn [length].
  replace (Z.to_nat 32 - length l)%nat with (S (Z.to_nat 32 - (length l + 1))) by lia.
  cbn [replicate]. by rewrite <-app_assoc.
Qed.

Lemma line_buffer_pop l c :
  Z.of_nat (length (l ++ [c])) ≤ RS232_RX_BUF_LEN → <[length l := 0]> (line_buffer (l ++ [c])) = line_buffer l.
Proof.
  unfold line_buffer. change RS232_RX_BUF_LEN with 32. rewrite length_app. cbn [length]. intros Hl.
  rewrite <-app_assoc, insert_app_r_alt, Nat.sub_diag by done. f_equal.
  by replace (Z.to_nat 32 - length l)%nat with (S (Z.to_nat 32 - (length l + 1))) by lia.
Qed.

Section editing.
Context (fmt_p : Z → list Z) (user_exec : Z → list Z → console → res console)
        (others : console → console) (cbk : option (Z → console → res console)) (sp : Z).

Lemma recvr_step_edits c s l :
  rx_holds s l → c ≠ u8 (end_line_char s) →
  ∃ s', recvr_step fmt_p user_exec others cbk sp c s = Ok s' ∧ rx_holds s' (edit l c) ∧
    end_line_char s' = end_line_char s ∧ con_kernel s' = con_kernel s.
Proof.
  intros Hrx Hc. unfold recvr_step. destruct (Z.eqb_spec c 0) as [->|Hc0]; [by exists s|].
  set (s1 := if console_flags s &? CONSOLE_FLG_ECHO
    then if (rs232_rx_buf_idx s <? 1) && (c =? 8) then s else mipos_console_put_char c s else s).
  assert (rx_holds s1 l ∧ end_line_char s1 = end_line_char s ∧ con_kernel s1 = con_kernel s)
    as (Hrx1 & He1 & Hk1).
  { subst s1. destruct (console_flags s &? _); [|done]. destruct (_ && _); [done|].
    split; [by apply put_char_holds|]. by destruct (put_char_rx c s) as (_ & _ & ? & ?). }
  clearbody s1. rewrite <-He1 in Hc. replace (c =? u8 (end_line_char s1)) with false
    by (symmetry; by apply Z.eqb_neq).
  rewrite bind_Ok. cbv zeta. pose proof Hrx1 as [Hb Hi Hl]. rewrite Hi. unfold edit.
  destruct ((31 <? c) && (Z.of_nat (length l) <? RS232_RX_BUF_LEN)) eqn:Hadd.
  - bool_to_prop. rewrite Nat2Z.id, Hb.
    destruct (lookup_lt_is_Some_2 (line_buffer l) (length l)) as [x Hx].
    { rewrite line_buffer_length by done. unfold RS232_RX_BUF_LEN in *. lia. }
    rewrite Hx. simpl (of_lookup _). rewrite bind_Ok. eexists. split; [reflexivity|].
    split; [|done]. split; simpl; [by apply line_buffer_push|rewrite length_app; simpl; lia|].
    rewrite length_app. simpl. lia.
  - destruct (Z.eqb_spec c 8) as [->|Hc8]; cbn [andb]; cycle 1.
    { exists s1. done. }
    destruct (Z.ltb_spec 0 (Z.of_nat (length l))) as [Hpos|Hz].
    + destruct l as [|y l _] using rev_ind; [simpl in Hpos; lia|].
      set (s2 := mipos_console_put_char 8 _).
      assert (rx_holds s2 (l ++ [y])) as [Hb2 _ _] by (subst s2; by do 2 apply put_char_holds).
      assert (end_line_char s2 = end_line_char s1 ∧ con_kernel s2 = con_kernel s1) as [He2 Hk2].
      { destruct (put_char_rx 8 (mipos_console_put_char 32 s1)) as (_ & _ & E1 & E2).
        destruct (put_char_rx 32 s1) as (_ & _ & E3 & E4). subst s2. split; congruence. }
      clearbody s2. rewrite length_app in *. simpl in *.
      replace (Z.to_nat (Z.of_nat (length l + 1) - 1)) with (length l) by lia.
      rewrite Hb2. destruct (lookup_lt_is_Some_2 (line_buffer (l ++ [y])) (length l)) as [x Hx].
      { rewrite line_buffer_length by (rewrite length_app; done). unfold RS232_RX_BUF_LEN in *. lia. }
      rewrite Hx. simpl (of_lookup _). rewrite bind_Ok. eexists. split; [reflexivity|].
      split; [|simpl; split; congruence].
      replace (length l + 1 - 1)%nat with (length l) by lia. rewrite take_app_length.
      split; simpl; [apply line_buffer_pop; by rewrite length_app|lia|lia].
    + exists s1. split; [done|]. split; [|done]. by destruct l; [|simpl in Hz; lia].
Qed.

(** Between two ends of line the receiver keeps exactly the edited
    line, for any characters: printable ones are appended up to the size of
    the buffer, a backspace removes the last one, nothing else changes. *)
Theorem line_editing cs s l :
  rx_holds s l → Forall (λ c, c ≠ u8 (end_line_char s)) cs →
  ∃ s', recvr_loop fmt_p user_exec others cbk sp cs s = Ok s' ∧ rx_holds s' (foldl edit l cs) ∧
    con_kernel s' = con_kernel s.
Proof.
  revert s l. induction cs as [|c cs IH]; intros s l Hrx Hall; simpl; [by exists s|].
  apply Forall_cons in Hall as [Hc Hall].
  destruct (recvr_step_edits c s l Hrx Hc) as (s1 & -> & Hrx1 & He1 & Hk1). rewrite bind_Ok.
  destruct (IH s1 (edit l c) Hrx1) as (s' & Hr & Hrx' & Hk'); [by rewrite He1|].
  exists s'. split_and!; [done|done|congruence].
Qed.
End editing.

(** ** Messages *)

(** The message in a slot of the pool, as it will be printed. *)
Definition message (pool : list msg_t) (i : Z) : list Z :=
  match pool !! Z.to_nat i with Some m => take (Z.to_nat (len m)) (buffer m) | None => [] end.

(** The messages that wait, oldest first. *)
Definition pending (s : console) : list (list Z) :=
  message (rs232_tx_buf_pool s) <$> q_items (rs232_tx_queue s).

(** The queue holds the indices of the last slots filled. *)
Definition slots (idx n : Z) : list Z :=
  (λ i, (idx - n + Z.of_nat i) `mod` RS232_TX_QUEUE_LEN) <$> seq 0 (Z.to_nat n).

Record tx_wf (s : console) : Prop := {
  xw_queue : queue_wf (rs232_tx_queue s);
  xw_limit : queue_limit (rs232_tx_queue s) = RS232_TX_QUEUE_LEN;
  xw_pool : length (rs232_tx_buf_pool s) = Z.to_nat RS232_TX_QUEUE_LEN;
  xw_msg : Forall (λ m, Z.of_nat (length (buffer m)) = RS232_TX_BUF_LEN ∧
                        0 ≤ len m ≤ RS232_TX_BUF_LEN) (rs232_tx_buf_pool s);
  xw_idx : 0 ≤ rs232_tx_msg_idx s < RS232_TX_QUEUE_LEN;
  xw_items : q_items (rs232_tx_queue s) = slots (rs232_tx_msg_idx s) (queue_count (rs232_tx_queue s));
}.

Ltac con_consts := change RS232_TX_QUEUE_LEN with 8 in *; change RS232_TX_BUF_LEN with 80 in *.

Lemma slots_push idx n :
  0 ≤ idx < RS232_TX_QUEUE_LEN → 0 ≤ n →
  slots idx n ++ [idx] = slots ((idx + 1) `mod` RS232_TX_QUEUE_LEN) (n + 1).
Proof.
  intros Hidx Hn. unfold slots. con_consts. rewrite Z2Nat.inj_add, Nat.add_comm by lia.
  simpl (Z.to_nat 1 + _)%nat. rewrite seq_S, fmap_app. simpl.
  assert (∀ i, ((idx + 1) `mod` 8 - (n + 1) + i) `mod` 8 = (idx - n + i) `mod` 8) as Hm.
  { intros i. replace ((idx + 1) `mod` 8 - (n + 1) + i) with ((idx + 1) `mod` 8 + (i - (n + 1))) by lia.
    rewrite Zplus_mod_idemp_l. f_equal. lia. }
  f_equal.
  - apply list_fmap_ext. intros k i _. by rewrite Hm.
  - rewrite Hm, Z2Nat.id by lia. replace (idx - n + n) with idx by lia. by rewrite Z.mod_small.
Qed.

Lemma slots_pop idx n x l :
  0 ≤ n → slots idx n = x :: l → 0 < n ∧ 0 ≤ x < RS232_TX_QUEUE_LEN ∧ l = slots idx (n - 1).
Proof.
  intros Hn. unfold slots. con_consts. destruct (Z.to_nat n) as [|m] eqn:Hm; [done|]. simpl.
  intros [= <- <-]. split; [lia|]. split; [apply Z.mod_pos_bound; lia|].
  replace (Z.to_nat (n - 1)) with m by lia.
  rewrite <-fmap_S_seq, <-list_fmap_compose. apply list_fmap_ext. intros k i _. simpl. f_equal. lia.
Qed.

(** A slot that waits is not the next one to be filled. *)
Lemma slots_old idx n x :
  0 ≤ idx < RS232_TX_QUEUE_LEN → n < RS232_TX_QUEUE_LEN → x ∈ slots idx n →
  0 ≤ x ∧ Z.to_nat x ≠ Z.to_nat idx.
Proof.
  intros Hidx Hn (i & -> & Hi)%list_elem_of_fmap. apply elem_of_seq in Hi. con_consts.
  pose proof (Z.mod_pos_bound (idx - n + Z.of_nat i) 8 ltac:(lia)) as Hb. split; [lia|]. intros Heq.
  pose proof (Z.div_mod (idx - n + Z.of_nat i) 8 ltac:(lia)). lia.
Qed.

Lemma send_queues s buf :
  tx_wf s → queue_count (rs232_tx_queue s) < RS232_TX_QUEUE_LEN →
  let n := Z.min (Z.of_nat (length buf)) RS232_TX_BUF_LEN in
  ∃ s', mipos_console_send buf (Z.of_nat (length buf)) s = Ok (n, s') ∧ tx_wf s' ∧
    pending s' = pending s ++ [take (Z.to_nat RS232_TX_BUF_LEN) buf].
Proof.
  intros [Hq Hlim Hpool Hmsg Hidx Hitems] Hroom n. unfold mipos_console_send, mipos_q_count.
  pose proof (qw_count _ Hq) as Hcnt.
  replace (RS232_TX_QUEUE_LEN <=? queue_count (rs232_tx_queue s)) with false by (symmetry; by apply Z.leb_gt).
  replace (if RS232_TX_BUF_LEN <? Z.of_nat (length buf) then RS232_TX_BUF_LEN else Z.of_nat (length buf))
    with n by (subst n; case_if; bool_to_prop; lia).
  set (idx := rs232_tx_msg_idx s) in *.
  destruct (lookup_lt_is_Some_2 (rs232_tx_buf_pool s) (Z.to_nat idx)) as [m Hm].
  { rewrite Hpool. con_consts. lia. }
  rewrite Hm. simpl (of_lookup _). rewrite bind_Ok. cbv zeta.
  replace (Z.of_nat (length buf) <? n) with false by (symmetry; apply Z.ltb_ge; lia).
  destruct (q_send_room idx (rs232_tx_queue s) (con_kernel s) Hq) as (q' & -> & Hq' & Hi' & Hl' & _ & Hc').
  { by rewrite Hlim. }
  rewrite bind_Ok. eexists. split; [reflexivity|].
  destruct (proj1 (Forall_lookup _ _) Hmsg _ _ Hm) as [Hbl _].
  assert (length (take (Z.to_nat n) buf) = Z.to_nat n) as Htl by (rewrite length_take; lia).
  split.
  - constructor; simpl; try done.
    + congruence.
    + by rewrite length_insert.
    + apply Forall_insert; [done|]. simpl. rewrite length_app, length_drop, Htl. con_consts. lia.
    + apply Z.mod_pos_bound. done.
    + rewrite Hi', Hc', Hitems. apply slots_push; [done|lia].
  - unfold pending. simpl. rewrite Hi', fmap_app. simpl. f_equal.
    + apply list_fmap_ext. intros k x Hx. unfold message. rewrite Hitems in Hx.
      apply list_elem_of_lookup_2 in Hx. apply slots_old in Hx as [_ Hne]; [|done|done].
      by rewrite list_lookup_insert_ne by done.
    + f_equal. unfold message. rewrite list_lookup_insert_eq by (rewrite Hpool; con_consts; lia). simpl.
      rewrite take_app_length' by done. unfold n. con_consts.
      destruct (decide (Z.of_nat (length buf) ≤ 80)).
      * rewrite !take_ge by lia. done.
      * by rewrite Z.min_r by lia.
Qed.

(** How a character goes out. *)
Definition rendered (s : console) (c : Z) : list Z :=
  if (c =? end_line_char s) && (console_flags s &? CONSOLE_TX_CRLF) then [13; 10] else [c].

Lemma put_char_serial c s :
  mipos_console_put_char c s = set_serial (serial s ++ rendered s c) s.
Proof.
  unfold mipos_console_put_char, rendered, bsp_putc. case_if; [|done].
  unfold set_serial; simpl. by rewrite <-app_assoc.
Qed.

Lemma print_msg_ok n buf s :
  (n ≤ length buf)%nat → Forall (λ c, c ≠ 0) (take n buf) →
  print_msg n buf s = Ok (set_serial (serial s ++ mjoin (rendered s <$> take n buf)) s).
Proof.
  revert buf s. induction n as [|n IH]; intros buf s Hn Hnz.
  { simpl. rewrite app_nil_r. by destruct s. }
  destruct buf as [|c buf]; [simpl in Hn; lia|]. simpl in *. apply Forall_cons in Hnz as [Hc Hnz].
  replace (c =? 0) with false by (symmetry; by apply Z.eqb_neq).
  rewrite IH by (done || lia). rewrite put_char_serial. unfold set_serial; simpl.
  by rewrite <-app_assoc.
Qed.

(** C38: messages sent while fewer than eight wait are queued with up to 80
    of their bytes, in order and without touching those that wait; a full
    queue refuses; and the sender prints the oldest one and keeps the rest. *)
Theorem console_messages_fifo s sp :
  tx_wf s → Forall (Forall (λ c, c ≠ 0)) (pending s) →
  (∀ buf, if Nat.ltb (length (pending s)) 8
     then ∃ s', mipos_console_send buf (Z.of_nat (length buf)) s =
                  Ok (Z.min (Z.of_nat (length buf)) RS232_TX_BUF_LEN, s') ∧ tx_wf s' ∧
                pending s' = pending s ++ [take (Z.to_nat RS232_TX_BUF_LEN) buf]
     else mipos_console_send buf (Z.of_nat (length buf)) s = Ok (0, s)) ∧
  (∀ m rest, pending s = m :: rest →
     ∃ s', sender_round sp s = Ok (SPrinted s') ∧ tx_wf s' ∧ pending s' = rest ∧
       serial s' = serial s ++ mjoin (rendered s <$> m)).
Proof.
  intros Hw Hnz. pose proof Hw as [Hq Hlim Hpool Hmsg Hidx Hitems]. pose proof (qw_count _ Hq) as Hcnt.
  assert (length (pending s) = Z.to_nat (queue_count (rs232_tx_queue s))) as Hlen.
  { unfold pending. by rewrite length_fmap, q_items_length. }
  split.
  - intros buf. rewrite Hlen. destruct (Nat.ltb_spec (Z.to_nat (queue_count (rs232_tx_queue s))) 8).
    + apply send_queues; [done|]. con_consts. lia.
    + unfold mipos_console_send, mipos_q_count.
      replace (RS232_TX_QUEUE_LEN <=? queue_count (rs232_tx_queue s)) with true
        by (symmetry; apply Z.leb_le; con_consts; lia). done.
  - intros m rest Hp. rewrite Hp in Hlen, Hnz. simpl in Hlen.
    assert (0 < queue_count (rs232_tx_queue s)) as Hpos by lia.
    destruct (q_take_some (rs232_tx_queue s) Hq Hpos) as (x & q' & Hq1 & Hq' & Hi & Hl' & _).
    unfold pending in Hp. rewrite Hi in Hp. simpl in Hp. injection Hp as Hm Hrest.
    rewrite Hi in Hitems. symmetry in Hitems. apply slots_pop in Hitems as (_ & Hx & Hitems); [|lia].
    destruct (lookup_lt_is_Some_2 (rs232_tx_buf_pool s) (Z.to_nat x)) as [mg Hmg].
    { rewrite Hpool. con_consts. lia. }
    destruct (proj1 (Forall_lookup _ _) Hmsg _ _ Hmg) as [Hbl Hml].
    unfold message in Hm. rewrite Hmg in Hm. apply Forall_cons in Hnz as [Hnz _].
    unfold sender_round, q_receive_enter, mipos_q_count.
    replace (queue_count (rs232_tx_queue s) <=? 0) with false by (symmetry; by apply Z.leb_gt).
    cbn [negb]. replace (queue_count (rs232_tx_queue s) =? 0) with false
      by (symmetry; apply Z.eqb_neq; lia).
    cbn [andb]. rewrite Hq1, !bind_Ok. unfold sender_got. simpl (1 <=? 0). cbv iota.
    simpl (of_lookup (Some x)). rewrite bind_Ok. simpl (rs232_tx_buf_pool (with_queue _ _)).
    rewrite Hmg. simpl (of_lookup _). rewrite bind_Ok.
    rewrite print_msg_ok; [|con_consts; lia|by rewrite Hm]. rewrite bind_Ok, Hm.
    eexists. split; [reflexivity|]. split_and!; try done.
    constructor; simpl; try done; [congruence|]. rewrite Hitems. f_equal.
    pose proof (q_items_length (rs232_tx_queue s)) as L1. pose proof (q_items_length q') as L2.
    rewrite Hi in L1. simpl in L1. pose proof (qw_count _ Hq'). lia.
Qed.

(** ** A console, for the witnesses *)

Module ConsoleDemo.
Definition blank_msg : msg_t := mk_msg (replicate 80 0) 0.
Definition fresh : console :=
  mk_console 10 0 None (mk_queue 0 0 0 (replicate 8 0) 8 0) (replicate 8 blank_msg) 0
    (replicate 32 0) 0 None booted ∅ [].

Lemma fresh_tx : tx_wf fresh.
Proof.
  constructor.
  - constructor; vm_compute; try reflexivity; split; (reflexivity || discriminate).
  - reflexivity.
  - reflexivity.
  - apply Forall_replicate. split; [reflexivity|]. split; vm_compute; discriminate.
  - split; [vm_compute; discriminate|reflexivity].
  - reflexivity.
Qed.

Lemma fresh_rx : rx_holds fresh [].
Proof. constructor; vm_compute; try reflexivity; discriminate. Qed.

Definition no_p (_ : Z) : list Z := [].
Definition no_cmd (_ : Z) (_ : list Z) (s : console) : res console := Ok s.
Definition nobody (s : console) : console := s.
End ConsoleDemo.

Lemma split_command_in_bounds_witness :
  ∃ argv buf', mipos_split_command (line_buffer (str "freeze 3")) 8 = Ok (argv, buf') ∧
    Z.of_nat (length argv) ≤ 8.
Proof.
  destruct (split_command_in_bounds (str "freeze 3")) as (argv & buf' & Hr & Hn & _).
  - reflexivity.
  - vm_compute. repeat constructor; discriminate.
  - exists argv, buf'. split; [exact Hr|exact Hn].
Defined.

Lemma line_editing_witness :
  ∃ s', recvr_loop ConsoleDemo.no_p ConsoleDemo.no_cmd ConsoleDemo.nobody None 0
          (str "pps" ++ [8; 8] ++ str "s") ConsoleDemo.fresh = Ok s' ∧ rx_holds s' (str "ps").
Proof.
  destruct (line_editing ConsoleDemo.no_p ConsoleDemo.no_cmd ConsoleDemo.nobody None 0
    (str "pps" ++ [8; 8] ++ str "s") ConsoleDemo.fresh []) as (s' & Hr & Hrx & _).
  - exact ConsoleDemo.fresh_rx.
  - vm_compute. repeat constructor; discriminate.
  - exists s'. split; [exact Hr|exact Hrx].
Defined.

Lemma console_messages_fifo_witness :
  ∃ s1 s2, mipos_console_send (str "hello") 5 ConsoleDemo.fresh = Ok (5, s1) ∧
    sender_round 0 s1 = Ok (SPrinted s2) ∧ pending s2 = [] ∧
    serial s2 = serial s1 ++ mjoin (rendered s1 <$> str "hello").
Proof.
  destruct (console_messages_fifo ConsoleDemo.fresh 0 ConsoleDemo.fresh_tx) as [Hsend _].
  - vm_compute. constructor.
  - destruct (Hsend (str "hello")) as (s1 & Hr & Hw & Hp).
    destruct (console_messages_fifo s1 0 Hw) as [_ Hprint].
    + rewrite Hp. vm_compute. repeat constructor; discriminate.
    + destruct (Hprint (str "hello") []) as (s2 & Hr2 & _ & Hp2 & Hser).
      * rewrite Hp. reflexivity.
      * exists s1, s2. split; [exact Hr|]. split; [exact Hr2|]. split; [exact Hp2|exact Hser].
Defined.

(** The line [signal 1 2] is split into two arguments, not three, since
    the position is added twice; so the command never sends the signal, but
    complains about the missing argument. *)
Theorem signal_command_loses_argument fmt_p user_exec others sp :
  ∃ s', recvr_task fmt_p user_exec others None sp (str "signal 1 2" ++ [10]) ConsoleDemo.fresh = Ok s' ∧
    con_kernel s' = con_kernel ConsoleDemo.fresh ∧
    serial s' = [13] ++ str "Missing second parameter" ++ [13].
Proof. eexists. split_and!; vm_compute; reflexivity. Qed.
